(* ===== verification/_CoqProject ===== *)
-Q . S2P
Prelude.v
Machine.v
Status.v
Alloc.v
Codec.v
Table.v
TableEncode.v
TableDecode.v
Mem.v
MemTheory.v
PoolTheorems.v
TableTheorems.v
TableClone.v
Framing.v
Methods.v
MethodDecode.v
MethodEncode.v
MethodWire.v
MethodTheory.v
MethodSafety.v
MethodTheorems.v
Properties.v
PropertiesTheory.v
PropertiesTheorems.v
Time.v
Frame.v
FrameTheorems.v
Connection.v
PoolTable.v
ParserTheory.v
ParserTheorems.v
Greeting.v
ConnectionTheorems.v
Socket.v
TcpSocket.v
TlsSocket.v
Network.v
Scripted.v
TcpTheorems.v
TlsTheory.v
Vault.v
TlsTheorems.v
TlsLifetime.v
Inbox.v
Outbox.v
FrameQueue.v
RpcTheory.v
RpcTheorems.v
Url.v
UrlTheorems.v
Api.v
ApiTheorems.v
Consumer.v
ConsumerTheory.v
ConsumerTheorems.v
Wrappers.v
WrapperTheorems.v
Login.v
MergeTheory.v
LoginTheory.v
LoginTheorems.v
ToolCommon.v
ToolMain.v
ToolTheory.v
Desk.v
ToolTheorems.v
ToolPublish.v
ToolExamples.v
