(* ===== verification/Prelude.v ===== *)
(** * rabbitmq-c: a verified model of the AMQP 0-9-1 client library

    This library models [librabbitmq], the C client library under
    [src/librabbitmq] and [src/include/rabbitmq-c], and the command line tools
    under [src/tools], proves them correct where they are and describes exactly
    what they do where they are not.

    ** The program

    A connection ([amqp_connection_state_t]) owns memory pools, a socket buffer,
    an outbound buffer, a queue of frames and the state of an incremental parser.
    Sending a method encodes it and its tables ([amqp_framing.c],
    [amqp_table.c]) into a frame in the outbound buffer ([amqp_connection.c])
    and writes the frame to the socket ([amqp_socket.c]), waiting for the
    descriptor as long as the deadline ([amqp_time.c]) allows.  Receiving reads
    whatever the socket has into the socket buffer and feeds it to
    [amqp_handle_input], which assembles frames in the pool of their channel
    ([amqp_mem.c]) and decodes them.  A remote procedure call sends a method and
    waits for one of the expected replies, queueing what else arrives.  The tools
    take their options, connect, log in, make such calls and copy messages between
    the connection and files or commands.

    ** The computations

    C functions are translated to functions of the monad [C] of this file: a
    state, and an outcome that is a value, an early return with a status, undefined
    behaviour, or the exhaustion of the fuel of a loop.  Undefined behaviour is
    never assumed away: an access outside a block, a signed overflow, an invalid
    shift, a failed [assert] and [amqp_abort] are all [UB], and the safety theorems
    show that it is not reached.  [wp m Q E s] says that [m], started in [s],
    returns with [Q] or fails with [E], and in particular terminates without
    undefined behaviour.  Integers are [Z] with their wrap-around written out
    (Machine.v); memory is byte strings in numbered heap blocks (Mem.v).

    ** The files

    - Machine.v, Status.v: integers, memory, byte order; status codes and
      [amqp_bytes_t].
    - Alloc.v: the class [Allocator] with its laws, against which the decoders
      are verified; MemTheory.v provides the instance, the pools of Mem.v.
    - Codec.v: [amqp_e8] .. [amqp_d64], [amqp_encode_8] .. [amqp_decode_bytes] of
      amqp_private.h; what it means that an encoder [encodes] and a decoder
      [decodes] a string.
    - Table.v: [amqp_field_value_t], [amqp_encode_table], [amqp_decode_table] of
      amqp_table.c.  TableEncode.v, TableDecode.v: their theory;
      TableTheorems.v: the wire format, safety on arbitrary bytes, the round trip.
    - Mem.v: the C heap, pools, the channel pool table, byte strings of amqp_mem.c.
      MemTheory.v, PoolTable.v: invariants; PoolTheorems.v: disjoint regions,
      nothing lost, and the leak and the overflow there are.
    - Framing.v, Methods.v: constants, method numbers, structures of framing.h.
      MethodDecode.v, MethodEncode.v: [amqp_decode_method] and
      [amqp_encode_method], one definition per case.  MethodWire.v: the wire
      format of every method; MethodTheory.v, MethodSafety.v, MethodTheorems.v.
    - Properties.v: the content properties; PropertiesTheory.v,
      PropertiesTheorems.v.
    - Time.v: amqp_time.c over a class [Clock].
    - Frame.v: [amqp_frame_t], [amqp_frame_to_bytes]; FrameTheorems.v.
    - Connection.v: the connection structure and amqp_connection.c, with the
      parser [amqp_handle_input].  ParserTheory.v: the invariant [reading] (so much
      of the current frame is in memory, the pools are well formed, a part of the
      heap is untouched); ParserTheorems.v: safety on any input, reassembly of
      frames from any pieces; Greeting.v: the first bytes of a new connection,
      which may be a protocol header or a frame; ConnectionTheorems.v: creation,
      release of memory, and what goes wrong after a rejected frame.
    - Socket.v: the input and output of amqp_socket.c, from [amqp_poll] to
      [amqp_simple_rpc].  Network.v: the class [NetworkLaws], what a connection
      may rely on of sockets, clock and [poll]; Scripted.v: a concrete network
      that satisfies it.  Inbox.v, Outbox.v, FrameQueue.v, RpcTheory.v: receiving,
      sending, queueing and waiting over any lawful network; RpcTheorems.v: the
      theorems.
    - Url.v, UrlTheorems.v: [amqp_parse_url] of amqp_url.c.
    - TableClone.v: cloning, comparing, building and searching tables
      (amqp_table.c), with their theorems.
    - TcpSocket.v: amqp_tcp_socket.c and the connecting functions of amqp_socket.c
      over a class [Os] of system calls.  TcpTheorems.v: no descriptor is leaked;
      the TCP socket class satisfies [NetworkLaws] ([tcp_network_laws]) when the
      system satisfies [StreamLaws], so the theorems about connections hold over
      TCP.
    - TlsSocket.v: amqp_openssl.c and amqp_openssl_bio.c over a class [OpenSSL] of
      library calls; their static variables are part of the world.  TlsTheory.v:
      the laws of the library and the function that opens a socket; Vault.v: a
      small library that keeps them.  TlsTheorems.v: a socket that opens has
      verified its peer, one that does not leaves nothing behind; the TLS socket
      class satisfies [NetworkLaws] ([tls_network_laws]).  TlsLifetime.v: the count
      of sockets and the BIO method they share.
    - Api.v: amqp_api.c; ApiTheorems.v: publishing.
    - Consumer.v: amqp_consumer.c; ConsumerTheory.v, ConsumerTheorems.v: reading a
      message.
    - Wrappers.v: the method wrappers at the end of amqp_framing.c;
      WrapperTheorems.v.
    - Login.v: the SASL functions, [amqp_merge_capabilities] and the login
      handshake of amqp_socket.c.  MergeTheory.v: the merge of two tables and that
      the code computes it; LoginTheory.v: the steps of the handshake;
      LoginTheorems.v.
    - ToolCommon.v: common.c of the command line tools, over a class [Posix] of
      system calls and a class [Popt] for libpopt; ToolMain.v: the five programs
      (publish.c, get.c, consume.c, declare_queue.c, delete_queue.c) and
      unix/process.c.  ToolTheory.v: the laws of the system ([SystemLaws],
      [FileLaws]) and the connection between two calls of a tool ([session]);
      Desk.v: a small system that keeps the laws; ToolTheorems.v: amqp-consume,
      amqp-get and the credentials file; ToolPublish.v: amqp-publish;
      ToolExamples.v: whole programs run from their arguments to their exit status.

    ** The theorems

    - Round trips: tables, methods and properties decode to what was encoded, for
      every method and every table of bounded depth; URLs parse to the components
      they were written from.
    - Safety: the decoders, the parser, the pools and the URL parser are defined and
      terminate on arbitrary input and under any pattern of refused allocations,
      and return well-formed values or one of the listed statuses.
    - Refinement of a stream of frames: [amqp_handle_input] delivers the frames of
      a byte stream whatever pieces it arrives in; [amqp_simple_wait_frame]
      delivers them to the application over any network; a remote procedure call
      sends its request and returns its reply, and loses no other frame.
    - The application interface: publishing puts exactly the method, the content
      header and the fragments of the body on the network; reading a message
      returns its properties and the concatenation of its fragments; every method
      wrapper sends the request it is named after and returns the structure it
      promises.
    - The layer below: a TCP socket transmits exactly what it is given over a
      system that behaves as documented, and so does a TLS socket over an OpenSSL
      that does; opening a connection leaks no descriptor; a TLS socket that opens
      has verified its peer as its settings ask; the reference count of the TLS
      sockets is exact.
    - Login: on a new connection the handshake completes, with exactly the messages
      it should send, and leaves a connection to which the theorems about calls and
      messages apply; a refusal is reported; credentials are sent only to a server
      that offers the mechanism.
    - The tools: amqp-consume runs its command once per message, on exactly its
      body, and acknowledges what succeeded; amqp-get prints exactly the body;
      amqp-publish sends exactly the messages its options and its input ask for;
      the credentials file is read as documented, and a truncated one is not
      rejected.
    - Errors: theorems that exhibit what the code does against its intention or its
      documentation, listed as findings in the manifest.

    ** Bounds and fuel

    Decoders are proved for buffers of at most 2^30 bytes and [reading] for
    [frame_max] at most 2^30, far above what a connection negotiates, because sizes
    pass through [int].  The block list of a pool counts in [int]: the invariants
    carry a budget [B] of allocations below 2^31.  The input of amqp-publish is at
    most 2^40 bytes, so that its buffer can be doubled.  Loops over a buffer take their
    fuel from its length and table decoding from the depth limit of the code;
    theorems show that this fuel suffices.  The loops of Socket.v that wait for
    the network have no bound of their own: their fuel is a parameter, and the
    theorems state how much is enough ([effort]: the bytes still to come and the
    waits the network will demand), so they prove termination.

    ** Abstractions

    A received frame holds the bytes it refers to, not pointers into the pool of
    its channel, so what happens to a frame after [amqp_maybe_release_buffers] is
    outside the model.  The linked list of queued frames is a list; its links are
    allocated in the pools as in the code.  When a function returns a status, what
    it has written to its out-parameters is dropped, unless the code goes on using
    it.  Memory the code does not initialise is a parameter ([uninit] for a
    properties structure, [junk] for fresh heap blocks).

    ** Not modelled

    The Windows and Unix portability files, the examples, LabVIEW bindings, tests and
    fuzzers are clients or glue; codegen.py generates amqp_framing.c,
    whose result is modelled.  Of code that differs between systems, the variant
    for Linux is modelled.  OpenSSL, libpopt, the system calls and the mutex are
    parameters.  The tools are modelled as they are built without TLS support.

    Still to be proved: that destroying a connection frees everything it owns, and
    the login with heartbeats or a deadline.  *)

From Stdlib Require Export ZArith Lia Bool.
From stdpp Require Export base tactics numbers list option gmap.

#[global] Open Scope Z_scope.
#[global] Set Default Goal Selector "!".

(** ** C computations

    A C function that reads and writes a state [S] is a function from the state
    to an [outcome]: it returns a value, it returns early with a (negative)
    status, it runs into undefined behaviour, or the fuel that bounds one of
    its loops runs out. *)

Inductive outcome (S A : Type) : Type :=
| Ret (a : A) (s : S)
| Err (e : Z) (s : S)
| UB
| NoFuel.
Arguments Ret {S A} a s.
Arguments Err {S A} e s.
Arguments UB {S A}.
Arguments NoFuel {S A}.

Definition C (S A : Type) : Type := S -> outcome S A.

Definition ret {S A} (a : A) : C S A := fun s => Ret a s.
Definition throw {S A} (e : Z) : C S A := fun s => Err e s.
Definition undefined {S A} : C S A := fun _ => UB.
Definition out_of_fuel {S A} : C S A := fun _ => NoFuel.
Definition get {S} : C S S := fun s => Ret s s.
Definition modify {S} (f : S -> S) : C S unit := fun s => Ret tt (f s).

Definition bind {S A B} (m : C S A) (k : A -> C S B) : C S B :=
  fun s =>
    match m s with
    | Ret a s' => k a s'
    | Err e s' => Err e s'
    | UB => UB
    | NoFuel => NoFuel
    end.

Declare Scope c_scope.
Delimit Scope c_scope with C.
Bind Scope c_scope with C.
Notation "'let*' x := m 'in' k" := (bind m (fun x => k))
  (at level 10, x name, m at level 100, k at level 200,
   format "'[v' 'let*'  x  :=  m  'in' '/' k ']'") : c_scope.
Notation "'let*' ' p := m 'in' k" := (bind m (fun x => match x with p => k end))
  (at level 10, p pattern, m at level 100, k at level 200,
   format "'[v' 'let*'  ' p  :=  m  'in' '/' k ']'") : c_scope.
Notation "'do*' m 'in' k" := (bind m (fun _ => k))
  (at level 10, m at level 100, k at level 200,
   format "'[v' 'do*'  m  'in' '/' k ']'") : c_scope.
#[global] Open Scope c_scope.

(** [if (!f(...)) return e;] for an [f] that reports failure by returning 0. *)
Definition require {S A} (e : Z) (m : C S (option A)) : C S A :=
  let* o := m in
  match o with Some a => ret a | None => throw e end.

(** The same for a C function whose only result is the 0/1 flag. *)
Definition require_true {S} (e : Z) (m : C S bool) : C S unit :=
  let* b := m in
  if b then ret tt else throw e.

(** [for (i = 0; i < n; i++) f(&a[i]);] *)
Definition for_each {S A} (f : A -> C S unit) : list A -> C S unit :=
  fix go l :=
    match l with
    | [] => ret tt
    | x :: l' => do* f x in go l'
    end.

(** A loop written with [while], [for (;;)] or [goto]: the body returns the
    variables of the next round or the result. *)
Fixpoint iter {S X A} (fuel : nat) (body : X -> C S (X + A)) (x : X) : C S A :=
  match fuel with
  | O => out_of_fuel
  | Datatypes.S fuel' =>
      let* r := body x in
      match r with inl x' => iter fuel' body x' | inr a => ret a end
  end.

(** The value of [res] after a call, whatever it is. *)
Definition try_ {S A} (m : C S A) : C S (Z + A) := fun s =>
  match m s with
  | Ret a s' => Ret (inr a) s'
  | Err e s' => Ret (inl e) s'
  | UB => UB
  | NoFuel => NoFuel
  end.

(** The [int] a function returns, zero being success. *)
Definition status_of {S} (m : C S unit) : C S Z :=
  let* r := try_ m in
  ret (match r with inl e => e | inr _ => 0 end).

(** ** Total-correctness triples

    [wp m Q E s]: run in [s], [m] neither is undefined nor runs out of fuel;
    it either returns and satisfies [Q] or fails and satisfies [E]. *)
Definition wp {S A} (m : C S A) (Q : A -> S -> Prop) (E : Z -> S -> Prop)
    (s : S) : Prop :=
  match m s with
  | Ret a s' => Q a s'
  | Err e s' => E e s'
  | UB | NoFuel => False
  end.

(** [safe o]: the outcome is a return or an error status. *)
Definition safe {S A} (o : outcome S A) : bool :=
  match o with Ret _ _ | Err _ _ => true | UB | NoFuel => false end.

Section Wp.
Context {S : Type}.

Lemma wp_ret {A} (a : A) (Q : A -> S -> Prop) E s : Q a s -> wp (ret a) Q E s.
Proof. done. Qed.

Lemma wp_throw {A} e (Q : A -> S -> Prop) E s : E e s -> wp (throw e) Q E s.
Proof. done. Qed.

Lemma wp_bind {A B} (m : C S A) (k : A -> C S B) Q E s :
  wp m (fun a s' => wp (k a) Q E s') E s -> wp (bind m k) Q E s.
Proof. unfold wp, bind. by destruct (m s). Qed.

Lemma wp_mono {A} (m : C S A) (Q Q' : A -> S -> Prop) (E E' : Z -> S -> Prop) s :
  wp m Q E s ->
  (forall a s', Q a s' -> Q' a s') ->
  (forall e s', E e s' -> E' e s') ->
  wp m Q' E' s.
Proof. unfold wp. intros H HQ HE. destruct (m s); naive_solver. Qed.

Lemma wp_conj {A} (m : C S A) (Q Q' : A -> S -> Prop) (E E' : Z -> S -> Prop) s :
  wp m Q E s -> wp m Q' E' s ->
  wp m (fun a s' => Q a s' /\ Q' a s') (fun e s' => E e s' /\ E' e s') s.
Proof. unfold wp. by destruct (m s). Qed.

Lemma wp_run_ret {A} (m : C S A) Q s :
  wp m Q (fun _ _ => False) s -> exists a s', m s = Ret a s' /\ Q a s'.
Proof. unfold wp. destruct (m s); naive_solver. Qed.

Lemma wp_run_err {A} (m : C S A) Q E s :
  wp m Q E s -> (forall a s', m s <> Ret a s') -> exists e s', m s = Err e s' /\ E e s'.
Proof. unfold wp. destruct (m s); naive_solver. Qed.

Lemma wp_safe {A} (m : C S A) Q E s : wp m Q E s -> safe (m s) = true.
Proof. unfold wp. by destruct (m s). Qed.

Lemma wp_eq {A} (m : C S A) a s' Q E s : m s = Ret a s' -> Q a s' -> wp m Q E s.
Proof. unfold wp. by intros ->. Qed.

Lemma wp_require {A} e (m : C S (option A)) Q E s :
  wp m (fun o s' => match o with Some a => Q a s' | None => E e s' end) E s ->
  wp (require e m) Q E s.
Proof.
  intros H. apply wp_bind. eapply wp_mono; [exact H| |done].
  by intros [a|] s' Hs'.
Qed.

Lemma wp_require_true e (m : C S bool) Q E s :
  wp m (fun b s' => if b then Q tt s' else E e s') E s ->
  wp (require_true e m) Q E s.
Proof.
  intros H. apply wp_bind. eapply wp_mono; [exact H| |done].
  by intros [] s' Hs'.
Qed.

Lemma bind_ret {A B} (m : C S A) (k : A -> C S B) s a s' :
  m s = Ret a s' -> bind m k s = k a s'.
Proof. unfold bind. by intros ->. Qed.

Lemma bind_ret_inv {A B} (m : C S A) (k : A -> C S B) s b s' :
  bind m k s = Ret b s' -> exists a s1, m s = Ret a s1 /\ k a s1 = Ret b s'.
Proof. unfold bind. destruct (m s); naive_solver. Qed.

Lemma bind_assoc {A B D} (m : C S A) (k : A -> C S B) (k' : B -> C S D) s :
  bind (bind m k) k' s = bind m (fun a => bind (k a) k') s.
Proof. unfold bind. by destruct (m s). Qed.

Lemma for_each_app {A} (f : A -> C S unit) l1 l2 s :
  for_each f (l1 ++ l2) s = bind (for_each f l1) (fun _ => for_each f l2) s.
Proof.
  revert s. induction l1 as [|x l1 IH]; intros s; [done|].
  simpl. unfold bind in *. destruct (f x s); [apply IH|done..].
Qed.

(** A loop invariant indexed by what is left to do. *)
Lemma wp_for_each {A} (f : A -> C S unit) (I : list A -> S -> Prop) E l s :
  I l s ->
  (forall x l' s', I (x :: l') s' -> wp (f x) (fun _ => I l') E s') ->
  wp (for_each f l) (fun _ => I []) E s.
Proof.
  revert s. induction l as [|x l IH]; intros s HI Hstep; [done|].
  apply wp_bind. eapply wp_mono; [by apply Hstep| |done].
  intros ? s' HI'. by apply IH.
Qed.

(** A loop with an invariant and a measure that stays below the fuel. *)
Lemma wp_iter {X A} (body : X -> C S (X + A)) (I : X -> S -> Prop) (mu : X -> S -> nat)
    (Q : A -> S -> Prop) E fuel : forall x s,
  (forall x s, I x s ->
    wp (body x) (fun r s' =>
      match r with inl x' => I x' s' /\ (mu x' s' < mu x s)%nat | inr a => Q a s' end) E s) ->
  I x s -> (mu x s < fuel)%nat -> wp (iter fuel body x) Q E s.
Proof.
  induction fuel as [|fuel IH]; intros x s Hbody HI Hmu; [lia|]. simpl. apply wp_bind.
  eapply wp_mono; [by apply Hbody| |done]. intros [x'|a] s'; [|done].
  intros [HI' Hlt]. apply IH; [done|done|lia].
Qed.

Lemma wp_try {A} (m : C S A) (Q : Z + A -> S -> Prop) E s :
  wp m (fun a => Q (inr a)) (fun e => Q (inl e)) s -> wp (try_ m) Q E s.
Proof. unfold wp, try_. by destruct (m s). Qed.

Lemma wp_status_of (m : C S unit) (Q : Z -> S -> Prop) E s :
  wp m (fun _ => Q 0) Q s -> wp (status_of m) Q E s.
Proof. unfold wp, status_of, bind, try_. by destruct (m s). Qed.
End Wp.

(** Step through one construct of a C computation. *)
Ltac wp_step :=
  match goal with
  | |- wp (bind _ _) _ _ _ => apply wp_bind
  | |- wp (ret _) _ _ _ => apply wp_ret
  | |- wp (throw _) _ _ _ => apply wp_throw
  | |- wp (require _ _) _ _ _ => apply wp_require
  | |- wp (require_true _ _) _ _ _ => apply wp_require_true
  | |- wp get _ _ _ => unfold get, wp at 1; cbv beta iota
  | |- wp (modify _) _ _ _ => unfold modify, wp at 1; cbv beta iota
  end.
Ltac wp_steps := repeat (wp_step; cbv beta).

(** Use a specification proved for the computation at the head of the goal. *)
Ltac wp_use H := eapply wp_mono; [eapply H|cbv beta|cbv beta].
