(* ===== verification/Machine.v ===== *)
(** * The C abstract machine the library is compiled for

    Machine-width integers with their wrap-around, byte memories with bounds
    checks, and the host's byte order.  The target is LP64 ([int] has 32 bits,
    [size_t] and pointers 64); the byte order is a parameter. *)

From S2P Require Import Prelude.

(** ** Integers *)

Definition wrap (w : Z) (z : Z) : Z := z mod 2 ^ w.
Definition u8 (z : Z) : Z := wrap 8 z.
Definition u16 (z : Z) : Z := wrap 16 z.
Definition u32 (z : Z) : Z := wrap 32 z.
Definition u64 (z : Z) : Z := wrap 64 z.
(** [size_t] arithmetic. *)
Definition size_t (z : Z) : Z := u64 z.

(** Conversion to a signed type: two's complement. *)
Definition to_signed (w : Z) (z : Z) : Z :=
  let m := wrap w z in if m <? 2 ^ (w - 1) then m else m - 2 ^ w.
Definition to_int (z : Z) : Z := to_signed 32 z.

Definition UINT8_MAX : Z := 255.
Definition UINT16_MAX : Z := 65535.
Definition UINT32_MAX : Z := 4294967295.
Definition UINT64_MAX : Z := 18446744073709551615.
Definition INT32_MAX : Z := 2147483647.
Definition INT_MIN : Z := -2147483648.
Definition INT32_MIN : Z := -2147483648.
(** No object is larger than this (C17 6.5.6: pointer differences fit
    [ptrdiff_t]). *)
Definition PTRDIFF_MAX : Z := 9223372036854775807.

Definition in_u (w z : Z) : Prop := 0 <= z < 2 ^ w.
Definition in_s (w z : Z) : Prop := - 2 ^ (w - 1) <= z < 2 ^ (w - 1).

(** ** Bytes and memory

    The memory a pointer reaches is the list of the bytes from the pointer to
    the end of its object; an access outside is undefined behaviour. *)

Definition is_byte (b : Z) : Prop := 0 <= b < 256.
Definition zlen {A} (l : list A) : Z := Z.of_nat (length l).

Definition in_bounds (m : list Z) (o n : Z) : bool :=
  (0 <=? o) && (0 <=? n) && (o + n <=? zlen m).

Definition slice (o n : Z) (m : list Z) : list Z :=
  take (Z.to_nat n) (drop (Z.to_nat o) m).

Definition overwrite (o : Z) (bs m : list Z) : list Z :=
  take (Z.to_nat o) m ++ bs ++ drop (Z.to_nat o + length bs) m.

Definition load (o n : Z) (m : list Z) : option (list Z) :=
  if in_bounds m o n then Some (slice o n m) else None.

Definition store (o : Z) (bs m : list Z) : option (list Z) :=
  if in_bounds m o (zlen bs) then Some (overwrite o bs m) else None.

(** [memcmp(a, b, n) == 0] on exactly the bytes compared. *)
Definition bytes_eqb (a b : list Z) : bool := bool_decide (a = b).

(** ** Byte order *)

Fixpoint be_encode (n : nat) (v : Z) : list Z :=
  match n with
  | O => []
  | S n' => be_encode n' (v / 256) ++ [v mod 256]
  end.

Definition be_decode (l : list Z) : Z := fold_left (fun acc b => acc * 256 + b) l 0.

(** The host the library runs on. *)
Class Host : Type := {
  is_bigendian : bool
}.

(** [memcpy] of an [n]-byte unsigned integer to and from memory. *)
Definition native_bytes `{Host} (n : nat) (v : Z) : list Z :=
  if is_bigendian then be_encode n v else reverse (be_encode n v).

Definition native_value `{Host} (l : list Z) : Z :=
  if is_bigendian then be_decode l else be_decode (reverse l).

(** ** Lemmas: integers *)

Lemma wrap_small w z : in_u w z -> wrap w z = z.
Proof. unfold in_u, wrap. intros. by apply Z.mod_small. Qed.

Lemma wrap_range w z : 0 <= w -> in_u w (wrap w z).
Proof. intros. unfold in_u, wrap. apply Z.mod_pos_bound. lia. Qed.

Lemma size_t_small z : 0 <= z < 2 ^ 64 -> size_t z = z.
Proof. apply wrap_small. Qed.

Lemma to_signed_wrap w z : 0 < w -> in_s w z -> to_signed w (wrap w z) = z.
Proof.
  unfold to_signed, wrap, in_s. intros Hw Hz.
  rewrite Z.mod_mod by lia.
  assert (H2 : 2 ^ w = 2 * 2 ^ (w - 1))
    by (rewrite <- Z.pow_succ_r by lia; f_equal; lia).
  destruct (decide (0 <= z)).
  - rewrite Z.mod_small by lia.
    destruct (Z.ltb_spec z (2 ^ (w - 1))); lia.
  - rewrite <- (Z_mod_plus_full z 1), Z.mod_small by lia.
    destruct (Z.ltb_spec (z + 1 * 2 ^ w) (2 ^ (w - 1))); lia.
Qed.

Lemma to_int_small z : 0 <= z < 2 ^ 31 -> to_int z = z.
Proof.
  intros Hz. unfold to_int. rewrite <- (wrap_small 32 z) at 1 by (unfold in_u; lia).
  apply to_signed_wrap; [lia|]. unfold in_s. simpl. lia.
Qed.

Lemma wrap_to_signed w z : 0 < w -> in_u w z -> wrap w (to_signed w z) = z.
Proof.
  unfold to_signed, in_u. intros Hw Hz. rewrite (wrap_small w z) by done.
  destruct (Z.ltb_spec z (2 ^ (w - 1))); unfold wrap.
  - by apply Z.mod_small.
  - rewrite <- (Z_mod_plus_full _ 1), Z.mod_small by lia. lia.
Qed.

Lemma to_signed_range w z : 0 < w -> in_s w (to_signed w z).
Proof.
  intros Hw. unfold to_signed, in_s. pose proof (wrap_range w z ltac:(lia)) as [].
  assert (H2 : 2 ^ w = 2 * 2 ^ (w - 1))
    by (rewrite <- Z.pow_succ_r by lia; f_equal; lia).
  destruct (Z.ltb_spec (wrap w z) (2 ^ (w - 1))); lia.
Qed.

(** ** Lemmas: memory *)

Lemma zlen_nonneg {A} (l : list A) : 0 <= zlen l.
Proof. unfold zlen. lia. Qed.

Lemma zlen_app {A} (l1 l2 : list A) : zlen (l1 ++ l2) = zlen l1 + zlen l2.
Proof. unfold zlen. rewrite length_app. lia. Qed.

Lemma in_bounds_spec m o n :
  in_bounds m o n = true <-> 0 <= o /\ 0 <= n /\ o + n <= zlen m.
Proof. unfold in_bounds. rewrite !andb_true_iff, !Z.leb_le. tauto. Qed.

Lemma load_Some o n m :
  0 <= o -> 0 <= n -> o + n <= zlen m -> load o n m = Some (slice o n m).
Proof. intros. unfold load. by rewrite (proj2 (in_bounds_spec m o n)). Qed.

Lemma store_Some o bs m :
  0 <= o -> o + zlen bs <= zlen m -> store o bs m = Some (overwrite o bs m).
Proof.
  intros. unfold store. rewrite (proj2 (in_bounds_spec m o (zlen bs))); [done|].
  pose proof (zlen_nonneg bs). lia.
Qed.

Lemma zlen_slice o n m :
  0 <= o -> 0 <= n -> o + n <= zlen m -> zlen (slice o n m) = n.
Proof. unfold slice, zlen. rewrite length_take, length_drop. lia. Qed.

Lemma zlen_overwrite o bs m :
  0 <= o -> o + zlen bs <= zlen m -> zlen (overwrite o bs m) = zlen m.
Proof.
  unfold overwrite, zlen.
  rewrite !length_app, length_take, length_drop. lia.
Qed.

Lemma slice_app_l o n m1 m2 :
  0 <= o -> 0 <= n -> o + n <= zlen m1 -> slice o n (m1 ++ m2) = slice o n m1.
Proof.
  unfold slice, zlen. intros. rewrite drop_app_le by lia.
  rewrite take_app_le; [done|]. rewrite length_drop. lia.
Qed.

Lemma slice_app_r o n m1 m2 :
  zlen m1 <= o -> slice o n (m1 ++ m2) = slice (o - zlen m1) n m2.
Proof.
  unfold slice, zlen. intros. rewrite drop_app_ge by lia. do 2 f_equal. lia.
Qed.

Lemma slice_app_mid m1 m2 m3 :
  slice (zlen m1) (zlen m2) (m1 ++ m2 ++ m3) = m2.
Proof.
  rewrite slice_app_r by lia. unfold slice, zlen.
  rewrite Z.sub_diag, drop_0, Nat2Z.id. by rewrite take_app_length.
Qed.

Lemma slice_full m : slice 0 (zlen m) m = m.
Proof. unfold slice, zlen. rewrite drop_0, Nat2Z.id. by apply take_ge. Qed.

Lemma overwrite_mid m1 m2 bs m3 :
  length bs = length m2 ->
  overwrite (zlen m1) bs (m1 ++ m2 ++ m3) = m1 ++ bs ++ m3.
Proof.
  intros Hl. unfold overwrite, zlen. rewrite Nat2Z.id, take_app_length.
  f_equal. f_equal. rewrite Hl, app_assoc, <- length_app.
  by rewrite drop_app_length.
Qed.

Lemma split3 (m : list Z) o n :
  0 <= o -> 0 <= n -> o + n <= zlen m ->
  exists m1 m2 m3, m = m1 ++ m2 ++ m3 /\ zlen m1 = o /\ zlen m2 = n.
Proof.
  intros Ho Hn Hl. unfold zlen in *.
  exists (take (Z.to_nat o) m), (slice o n m), (drop (Z.to_nat o + Z.to_nat n) m).
  unfold slice. rewrite !length_take, !length_drop. split_and!; [|lia..].
  rewrite <- drop_drop, (take_drop (Z.to_nat n)). by rewrite take_drop.
Qed.

Lemma slice_overwrite_same o bs m :
  0 <= o -> o + zlen bs <= zlen m -> slice o (zlen bs) (overwrite o bs m) = bs.
Proof.
  intros Ho Hl. destruct (split3 m o (zlen bs)) as (m1 & m2 & m3 & -> & <- & H2);
    [done|apply zlen_nonneg|done|].
  rewrite overwrite_mid by (unfold zlen in *; lia). apply slice_app_mid.
Qed.

(** Bytes the store does not touch keep their value. *)
Lemma slice_overwrite_before o n o' bs m :
  0 <= o -> 0 <= n -> o + n <= o' -> o' + zlen bs <= zlen m ->
  slice o n (overwrite o' bs m) = slice o n m.
Proof.
  intros Ho Hn Hl Hb. destruct (split3 m o' (zlen bs)) as (m1 & m2 & m3 & -> & <- & H2);
    [lia|apply zlen_nonneg|done|].
  rewrite overwrite_mid by (unfold zlen in *; lia).
  by rewrite !slice_app_l by lia.
Qed.

Lemma slice_overwrite_after o n o' bs m :
  0 <= o' -> o' + zlen bs <= o -> o' + zlen bs <= zlen m ->
  slice o n (overwrite o' bs m) = slice o n m.
Proof.
  intros Ho Hl Hb. destruct (split3 m o' (zlen bs)) as (m1 & m2 & m3 & -> & <- & H2);
    [lia|apply zlen_nonneg|done|].
  rewrite overwrite_mid by (unfold zlen in *; lia).
  pose proof (zlen_nonneg bs).
  rewrite !(slice_app_r _ _ m1), !slice_app_r by lia. f_equal. lia.
Qed.

Lemma slice_0_len o m : slice o 0 m = [].
Proof. by unfold slice. Qed.

Lemma slice_slice o n o' n' m :
  0 <= o -> 0 <= o' -> 0 <= n' -> o' + n' <= n ->
  slice o' n' (slice o n m) = slice (o + o') n' m.
Proof.
  intros. unfold slice. rewrite take_drop_commute, take_take, Nat.min_l by lia.
  rewrite <- take_drop_commute, drop_drop. do 2 f_equal. lia.
Qed.

Lemma slice_prefix n n' m : 0 <= n' <= n -> slice 0 n' (slice 0 n m) = slice 0 n' m.
Proof. intros. by rewrite slice_slice by lia. Qed.

Lemma slice_split o n1 n2 m :
  0 <= o -> 0 <= n1 -> 0 <= n2 ->
  slice o (n1 + n2) m = slice o n1 m ++ slice (o + n1) n2 m.
Proof.
  intros. unfold slice. rewrite !Z2Nat.inj_add by lia.
  rewrite <- drop_drop. by rewrite take_take_drop.
Qed.

(** ** Lemmas: byte order *)

Lemma length_be_encode n v : length (be_encode n v) = n.
Proof. revert v. induction n; intros; simpl; [done|]. rewrite length_app, IHn. simpl. lia. Qed.

Lemma zlen_be_encode n v : zlen (be_encode n v) = Z.of_nat n.
Proof. unfold zlen. by rewrite length_be_encode. Qed.

Lemma be_encode_bytes n v : Forall is_byte (be_encode n v).
Proof.
  revert v. induction n; intros; simpl; [done|].
  apply Forall_app. split; [done|]. apply Forall_singleton.
  unfold is_byte. apply Z.mod_pos_bound. lia.
Qed.

Lemma be_decode_snoc l b : be_decode (l ++ [b]) = be_decode l * 256 + b.
Proof. unfold be_decode. by rewrite fold_left_app. Qed.

Lemma be_decode_encode n v : be_decode (be_encode n v) = v mod 256 ^ Z.of_nat n.
Proof.
  revert v. induction n as [|n IH]; intros v.
  - simpl. by rewrite Z.mod_1_r.
  - cbn [be_encode]. rewrite be_decode_snoc, IH.
    rewrite Nat2Z.inj_succ, Z.pow_succ_r by lia.
    rewrite Z.rem_mul_r; lia.
Qed.

Lemma be_decode_range l : Forall is_byte l -> 0 <= be_decode l < 256 ^ zlen l.
Proof.
  induction l as [|b l IH] using rev_ind; [done|].
  rewrite Forall_app, Forall_singleton. intros [Hl Hb].
  rewrite be_decode_snoc, zlen_app. change (zlen [b]) with 1.
  rewrite Z.pow_add_r, Z.pow_1_r by (unfold zlen; lia).
  specialize (IH Hl). unfold is_byte in Hb. nia.
Qed.

Lemma be_encode_decode l :
  Forall is_byte l -> be_encode (length l) (be_decode l) = l.
Proof.
  induction l as [|b l IH] using rev_ind; [done|].
  rewrite Forall_app, Forall_singleton. intros [Hl Hb]. unfold is_byte in Hb.
  rewrite length_app, Nat.add_comm, be_decode_snoc. cbn [length Nat.add be_encode].
  rewrite Z.div_add_l by lia. rewrite Z.div_small, Z.add_0_r by lia.
  rewrite Z.add_comm, Z_mod_plus_full, Z.mod_small by lia. by rewrite IH.
Qed.

Lemma be_encode_mod n v : be_encode n (v mod 256 ^ Z.of_nat n) = be_encode n v.
Proof.
  rewrite <- be_decode_encode.
  rewrite <- (length_be_encode n v) at 1. apply be_encode_decode, be_encode_bytes.
Qed.

Lemma native_value_bytes `{Host} n v :
  native_value (native_bytes n v) = v mod 256 ^ Z.of_nat n.
Proof.
  unfold native_value, native_bytes. destruct is_bigendian;
    [|rewrite reverse_involutive]; apply be_decode_encode.
Qed.

(** A number in decimal, as [printf("%d")] writes it; [fuel] bounds the digits. *)
Fixpoint decimal (fuel : nat) (n : Z) : list Z :=
  match fuel with
  | O => []
  | S fuel' => if n <? 10 then [48 + n] else decimal fuel' (n / 10) ++ [48 + n mod 10]
  end.

#[global] Arguments overwrite : simpl never.
#[global] Arguments slice : simpl never.
