(* ===== verification/Status.v ===== *)
(** * Status codes and shared data types of [include/rabbitmq-c/amqp.h]

    The [amqp_status_enum] values, [amqp_bytes_t] and the constants other
    components share. *)

From S2P Require Import Prelude Machine.

(** ** [amqp_status_enum] *)

Definition AMQP_STATUS_OK : Z := 0x0.
Definition AMQP_STATUS_NO_MEMORY : Z := -0x0001.
Definition AMQP_STATUS_BAD_AMQP_DATA : Z := -0x0002.
Definition AMQP_STATUS_UNKNOWN_CLASS : Z := -0x0003.
Definition AMQP_STATUS_UNKNOWN_METHOD : Z := -0x0004.
Definition AMQP_STATUS_HOSTNAME_RESOLUTION_FAILED : Z := -0x0005.
Definition AMQP_STATUS_INCOMPATIBLE_AMQP_VERSION : Z := -0x0006.
Definition AMQP_STATUS_CONNECTION_CLOSED : Z := -0x0007.
Definition AMQP_STATUS_BAD_URL : Z := -0x0008.
Definition AMQP_STATUS_SOCKET_ERROR : Z := -0x0009.
Definition AMQP_STATUS_INVALID_PARAMETER : Z := -0x000A.
Definition AMQP_STATUS_TABLE_TOO_BIG : Z := -0x000B.
Definition AMQP_STATUS_WRONG_METHOD : Z := -0x000C.
Definition AMQP_STATUS_TIMEOUT : Z := -0x000D.
Definition AMQP_STATUS_TIMER_FAILURE : Z := -0x000E.
Definition AMQP_STATUS_HEARTBEAT_TIMEOUT : Z := -0x000F.
Definition AMQP_STATUS_UNEXPECTED_STATE : Z := -0x0010.
Definition AMQP_STATUS_SOCKET_CLOSED : Z := -0x0011.
Definition AMQP_STATUS_SOCKET_INUSE : Z := -0x0012.
Definition AMQP_STATUS_BROKER_UNSUPPORTED_SASL_METHOD : Z := -0x0013.
Definition AMQP_STATUS_UNSUPPORTED : Z := -0x0014.
Definition AMQP_STATUS_TCP_ERROR : Z := -0x0100.
Definition AMQP_STATUS_TCP_SOCKETLIB_INIT_ERROR : Z := -0x0101.
Definition AMQP_STATUS_SSL_ERROR : Z := -0x0200.
Definition AMQP_STATUS_SSL_HOSTNAME_VERIFY_FAILED : Z := -0x0201.
Definition AMQP_STATUS_SSL_PEER_VERIFY_FAILED : Z := -0x0202.
Definition AMQP_STATUS_SSL_CONNECTION_FAILED : Z := -0x0203.
Definition AMQP_STATUS_SSL_SET_ENGINE_FAILED : Z := -0x0204.

(** ** [amqp_bytes_t]

    [bytes] is [None] for a NULL pointer, otherwise the memory from the pointer
    to the end of the object it points into. *)
Record amqp_bytes_t : Type := mk_bytes {
  len : Z;
  bytes : option (list Z)
}.

Definition amqp_empty_bytes : amqp_bytes_t := {| len := 0; bytes := None |}.

(** The memory the pointer reaches. *)
Definition mem_of (b : amqp_bytes_t) : list Z := default [] (bytes b).

(** The [len] bytes the value stands for. *)
Definition contents (b : amqp_bytes_t) : list Z := slice 0 (len b) (mem_of b).

(** A view of exactly the bytes [l]. *)
Definition view (l : list Z) : amqp_bytes_t := {| len := zlen l; bytes := Some l |}.

(** A readable buffer: its [len] bytes lie inside the object it points into. *)
Definition readable (b : amqp_bytes_t) : Prop :=
  0 <= len b <= zlen (mem_of b) /\ len b <= PTRDIFF_MAX.

Lemma zlen_contents b : readable b -> zlen (contents b) = len b.
Proof. unfold readable, contents. intros. rewrite zlen_slice; lia. Qed.

Lemma contents_view l : contents (view l) = l.
Proof. unfold contents, view. simpl. apply slice_full. Qed.

Lemma readable_view l : zlen l <= PTRDIFF_MAX -> readable (view l).
Proof. unfold readable, view, mem_of. simpl. pose proof (zlen_nonneg l). lia. Qed.

Lemma readable_empty : readable amqp_empty_bytes.
Proof. by vm_compute. Qed.
