(* ===== verification/Alloc.v ===== *)
(** * The allocator interface

    What the decoders and the cloning code ask of memory management: the C
    library's [malloc]/[realloc]/[free] and the pool allocator of
    [amqp_mem.c].  Clients are written and proved against the [Allocator] class
    and its laws; [Mem.v] provides the instance. *)

From S2P Require Import Prelude Machine.

(** A pointer: the block it points into and the offset inside it. *)
Record ptr : Type := mk_ptr { p_block : Z; p_off : Z }.

#[global] Instance ptr_eq_dec : EqDecision ptr.
Proof. solve_decision. Defined.

Class Allocator (St : Type) : Type := {
  malloc : Z -> C St (option ptr);
  realloc : ptr -> Z -> C St (option ptr);
  free : ptr -> C St unit;
  pool_alloc : Z -> C St (option ptr)
}.

(** The promises.  [a_inv] is the allocator's invariant, [a_live p s] that [p]
    was returned by [malloc] or [realloc] and not given back yet,
    [a_reliable s] that no request of a reasonable size fails any more, and
    [a_room s] how many more blocks the pool can keep a record of. *)
Class AllocatorLaws (St : Type) `{Allocator St} : Type := {
  a_inv : St -> Prop;
  a_live : ptr -> St -> Prop;
  a_reliable : St -> Prop;
  a_room : St -> Z;
  malloc_law n s :
    a_inv s -> 0 < n <= PTRDIFF_MAX ->
    wp (malloc n) (fun r s' =>
      a_inv s' /\ (forall q, a_live q s -> a_live q s') /\ a_room s' = a_room s /\
      (a_reliable s -> a_reliable s' /\ is_Some r) /\
      match r with Some p => a_live p s' /\ ~ a_live p s | None => True end)
      (fun _ _ => False) s;
  realloc_law p n s :
    a_inv s -> a_live p s -> 0 < n <= PTRDIFF_MAX ->
    wp (realloc p n) (fun r s' =>
      a_inv s' /\ (forall q, q <> p -> a_live q s -> a_live q s') /\ a_room s' = a_room s /\
      (a_reliable s -> a_reliable s' /\ is_Some r) /\
      match r with
      | Some p' => a_live p' s' /\ forall q, q <> p -> a_live q s -> q <> p'
      | None => a_live p s'
      end)
      (fun _ _ => False) s;
  free_law p s :
    a_inv s -> a_live p s ->
    wp (free p) (fun _ s' =>
      a_inv s' /\ (forall q, q <> p -> a_live q s -> a_live q s') /\ a_room s' = a_room s /\
      (a_reliable s -> a_reliable s'))
      (fun _ _ => False) s;
  pool_alloc_law n s :
    a_inv s -> 0 <= n <= PTRDIFF_MAX -> 0 < a_room s ->
    wp (pool_alloc n) (fun r s' =>
      a_inv s' /\ (forall q, a_live q s -> a_live q s') /\ a_room s - 1 <= a_room s' /\
      (a_reliable s -> a_reliable s' /\ (0 < n <= PTRDIFF_MAX - 7 -> is_Some r)) /\
      (n = 0 -> r = None))
      (fun _ _ => False) s
}.
