(* ===== verification/Codec.v ===== *)
(** * The base-type codecs of [librabbitmq/amqp_private.h]

    [amqp_e8]..[amqp_e64] and [amqp_d8]..[amqp_d64], the functions the macro
    [DECLARE_CODEC_BASE_TYPE] generates, [amqp_encode_bytes] and
    [amqp_decode_bytes]; then the two notions every codec theorem is stated
    with: an encoder that [encodes] a wire string and a decoder that [decodes]
    it. *)

From S2P Require Import Prelude Machine Status Alloc.

Section Swap.
Context `{Host}.

(** ** Byte order conversion *)

Definition swap16 (val : Z) : Z :=
  u16 (Z.lor (Z.shiftr (Z.land val 0xFF00) 8) (Z.shiftl (Z.land val 0x00FF) 8)).

Definition swap32 (val : Z) : Z :=
  u32 (Z.lor (Z.lor (Z.lor
    (Z.shiftr (Z.land val 0xFF000000) 24) (Z.shiftr (Z.land val 0x00FF0000) 8))
    (Z.shiftl (Z.land val 0x0000FF00) 8)) (Z.shiftl (Z.land val 0x000000FF) 24)).

Definition swap64 (val : Z) : Z :=
  u64 (Z.lor (Z.lor (Z.lor (Z.lor (Z.lor (Z.lor (Z.lor
    (Z.shiftr (Z.land val 0xFF00000000000000) 56)
    (Z.shiftr (Z.land val 0x00FF000000000000) 40))
    (Z.shiftr (Z.land val 0x0000FF0000000000) 24))
    (Z.shiftr (Z.land val 0x000000FF00000000) 8))
    (Z.shiftl (Z.land val 0x00000000FF000000) 8))
    (Z.shiftl (Z.land val 0x0000000000FF0000) 24))
    (Z.shiftl (Z.land val 0x000000000000FF00) 40))
    (Z.shiftl (Z.land val 0x00000000000000FF) 56)).

(** The bytes each function leaves at [data]. *)
Definition amqp_e8 (val : Z) : list Z := native_bytes 1 val.
Definition amqp_e16 (val : Z) : list Z :=
  native_bytes 2 (if negb is_bigendian then swap16 val else val).
Definition amqp_e32 (val : Z) : list Z :=
  native_bytes 4 (if negb is_bigendian then swap32 val else val).
Definition amqp_e64 (val : Z) : list Z :=
  native_bytes 8 (if negb is_bigendian then swap64 val else val).

(** The value each function reads from the bytes at [data]. *)
Definition amqp_d8 (data : list Z) : Z := native_value data.
Definition amqp_d16 (data : list Z) : Z :=
  let val := native_value data in if negb is_bigendian then swap16 val else val.
Definition amqp_d32 (data : list Z) : Z :=
  let val := native_value data in if negb is_bigendian then swap32 val else val.
Definition amqp_d64 (data : list Z) : Z :=
  let val := native_value data in if negb is_bigendian then swap64 val else val.
End Swap.

(** ** Encoders

    The state of an encoder: the memory [encoded.bytes] points to and the
    caller's [offset] variable; [encoded.len] is an argument. *)
Record ebuf : Type := mk_ebuf { e_mem : list Z; e_off : Z }.

(** Run on another offset variable, as in [amqp_encode_32(encoded, &start, ..)]. *)
Definition at_offset {A} (o : Z) (m : C ebuf A) : C ebuf A := fun s =>
  match m {| e_mem := e_mem s; e_off := o |} with
  | Ret a s' => Ret a {| e_mem := e_mem s'; e_off := e_off s |}
  | Err e s' => Err e {| e_mem := e_mem s'; e_off := e_off s |}
  | UB => UB
  | NoFuel => NoFuel
  end.

(** The common body of the generated [amqp_encode_##bits]: [ebytes] are the
    [bits / 8] bytes [amqp_e##bits] produces. *)
Definition encode_base (encoded_len : Z) (ebytes : list Z) : C ebuf bool := fun s =>
  let o := e_off s in
  let off' := size_t (o + zlen ebytes) in
  if off' <=? encoded_len then
    match store o ebytes (e_mem s) with
    | Some m' => Ret true {| e_mem := m'; e_off := off' |}
    | None => UB
    end
  else Ret false {| e_mem := e_mem s; e_off := off' |}.

(** The argument is converted to the unsigned parameter type first. *)
Definition amqp_encode_8 `{Host} (encoded_len input : Z) : C ebuf bool :=
  encode_base encoded_len (amqp_e8 (u8 input)).
Definition amqp_encode_16 `{Host} (encoded_len input : Z) : C ebuf bool :=
  encode_base encoded_len (amqp_e16 (u16 input)).
Definition amqp_encode_32 `{Host} (encoded_len input : Z) : C ebuf bool :=
  encode_base encoded_len (amqp_e32 (u32 input)).
Definition amqp_encode_64 `{Host} (encoded_len input : Z) : C ebuf bool :=
  encode_base encoded_len (amqp_e64 (u64 input)).

Definition amqp_encode_bytes (encoded_len : Z) (input : amqp_bytes_t) : C ebuf bool := fun s =>
  let o := e_off s in
  if len input =? 0 then Ret true s
  else
    let off' := size_t (o + len input) in
    if off' <=? encoded_len then
      match load 0 (len input) (mem_of input) with
      | Some bs =>
          match store o bs (e_mem s) with
          | Some m' => Ret true {| e_mem := m'; e_off := off' |}
          | None => UB
          end
      | None => UB
      end
    else Ret false {| e_mem := e_mem s; e_off := off' |}.

(** ** Decoders

    The state of a decoder: the caller's [offset] variable and the allocator. *)
Record dst (St : Type) : Type := mk_dst { d_off : Z; d_alloc : St }.
Arguments mk_dst {St}.
Arguments d_off {St}.
Arguments d_alloc {St}.

(** The common body of the generated [amqp_decode_##bits]. *)
Definition decode_base {St} (n : Z) (d : list Z -> Z) (encoded : amqp_bytes_t)
    : C (dst St) (option Z) := fun s =>
  let o := d_off s in
  let s' := {| d_off := size_t (o + n); d_alloc := d_alloc s |} in
  if size_t (o + n) <=? len encoded then
    match load o n (mem_of encoded) with
    | Some bs => Ret (Some (d bs)) s'
    | None => UB
    end
  else Ret None s'.

Definition amqp_decode_8 `{Host} {St} (encoded : amqp_bytes_t) : C (dst St) (option Z) :=
  decode_base 1 amqp_d8 encoded.
Definition amqp_decode_16 `{Host} {St} (encoded : amqp_bytes_t) : C (dst St) (option Z) :=
  decode_base 2 amqp_d16 encoded.
Definition amqp_decode_32 `{Host} {St} (encoded : amqp_bytes_t) : C (dst St) (option Z) :=
  decode_base 4 amqp_d32 encoded.
Definition amqp_decode_64 `{Host} {St} (encoded : amqp_bytes_t) : C (dst St) (option Z) :=
  decode_base 8 amqp_d64 encoded.

(** The result aliases [encoded]; the model keeps the bytes it denotes.  A
    pointer outside the object is undefined behaviour. *)
Definition amqp_decode_bytes {St} (encoded : amqp_bytes_t) (n : Z)
    : C (dst St) (option amqp_bytes_t) := fun s =>
  let o := d_off s in
  let s' := {| d_off := size_t (o + n); d_alloc := d_alloc s |} in
  if size_t (o + n) <=? len encoded then
    match load o n (mem_of encoded) with
    | Some bs => Ret (Some {| len := n; bytes := Some bs |}) s'
    | None => UB
    end
  else Ret None s'.

(** ** The wire is big-endian on every host *)

Lemma land_byte_at v k :
  0 <= k -> Z.land v (Z.shiftl 255 k) = (v / 2 ^ k) mod 256 * 2 ^ k.
Proof.
  intros Hk. rewrite <- Z.shiftl_mul_pow2 by done.
  change 256 with (2 ^ 8). rewrite <- Z.shiftr_div_pow2, <- Z.land_ones by lia.
  apply Z.bits_inj'. intros i Hi. rewrite Z.land_spec.
  destruct (decide (i < k)).
  - rewrite !Z.shiftl_spec_low by lia. apply andb_false_r.
  - rewrite !Z.shiftl_spec_high, Z.land_spec, Z.shiftr_spec by lia.
    change 255 with (Z.ones 8). f_equal. f_equal. lia.
Qed.

Lemma land_high_low a b k : 0 <= k -> 0 <= a < 2 ^ k -> Z.land a (b * 2 ^ k) = 0.
Proof.
  intros Hk Ha. rewrite <- Z.shiftl_mul_pow2 by done. apply Z.bits_inj'. intros i Hi.
  rewrite Z.land_spec, Z.bits_0. destruct (decide (i < k)).
  - rewrite Z.shiftl_spec_low by lia. apply andb_false_r.
  - rewrite <- (Z.mod_small a (2 ^ k)), Z.mod_pow2_bits_high by lia. done.
Qed.

Lemma lor_add_high a b k : 0 <= k -> 0 <= a < 2 ^ k -> Z.lor a (b * 2 ^ k) = a + b * 2 ^ k.
Proof.
  intros Hk Ha. pose proof (land_high_low a b k Hk Ha) as H0.
  rewrite <- Z.lxor_lor by done. symmetry. by apply Z.add_nocarry_lxor.
Qed.

(** Byte [i] of [v], moved right or left. *)
Lemma byte_right v mask k j :
  0 <= j <= k -> mask = Z.shiftl 255 k ->
  Z.shiftr (Z.land v mask) j = (v / 2 ^ k) mod 256 * 2 ^ (k - j).
Proof.
  intros Hj ->. rewrite land_byte_at, Z.shiftr_div_pow2 by lia.
  replace (2 ^ k) with (2 ^ (k - j) * 2 ^ j) at 2
    by (rewrite <- Z.pow_add_r by lia; f_equal; lia).
  by rewrite Z.mul_assoc, Z.div_mul by lia.
Qed.

Lemma byte_left v mask k j :
  0 <= j -> 0 <= k -> mask = Z.shiftl 255 k ->
  Z.shiftl (Z.land v mask) j = (v / 2 ^ k) mod 256 * 2 ^ (k + j).
Proof.
  intros Hj Hk ->. rewrite land_byte_at, Z.shiftl_mul_pow2 by lia.
  rewrite Z.pow_add_r by lia. lia.
Qed.

(** Write a swap as the sum of its moved bytes and compare with the reversed
    big-endian digits. *)
Ltac move_bytes :=
  repeat match goal with
  | |- context [Z.shiftr (Z.land ?v ?m) ?j] =>
      let k := eval vm_compute in (Z.log2 m - 7) in
      rewrite (byte_right v m k j) by (done || lia)
  | |- context [Z.shiftl (Z.land ?v ?m) ?j] =>
      let k := eval vm_compute in (Z.log2 m - 7) in
      rewrite (byte_left v m k j) by (done || lia)
  end.
Ltac name_bytes v :=
  repeat match goal with
  | |- context [(v / ?d) mod 256] =>
      let b := fresh "b" in
      assert (0 <= (v / d) mod 256 < 256) by (apply Z.mod_pos_bound; lia);
      set (b := (v / d) mod 256) in *; clearbody b
  end.
Ltac add_bytes :=
  repeat match goal with
  | |- context [Z.lor ?a (?b * 2 ^ ?k)] => rewrite (lor_add_high a b k) by lia
  end.
Ltac solve_swap v :=
  move_bytes; cbv [be_encode app reverse rev_append be_decode fold_left]; rewrite ?Z.div_div by lia;
  replace (v mod 256) with ((v / 2 ^ 0) mod 256) by (by rewrite Z.div_1_r);
  repeat match goal with
  | |- context [v / ?d] =>
      let k := eval vm_compute in (Z.log2 d) in progress change (v / d) with (v / 2 ^ k)
  end;
  name_bytes v; add_bytes; rewrite Z.mod_small; lia.

Lemma swap16_spec v : swap16 v = be_decode (reverse (be_encode 2 v)).
Proof. unfold swap16, u16, wrap. solve_swap v. Qed.

Lemma swap32_spec v : swap32 v = be_decode (reverse (be_encode 4 v)).
Proof. unfold swap32, u32, wrap. solve_swap v. Qed.

Lemma swap64_spec v : swap64 v = be_decode (reverse (be_encode 8 v)).
Proof. unfold swap64, u64, wrap. solve_swap v. Qed.

Section WireOrder.
Context `{Host}.

(** A value swapped before a native store leaves the big-endian digits; a
    native load followed by a swap reads them. *)
Lemma native_bytes_swapped n v w :
  w = be_decode (reverse (be_encode n v)) ->
  native_bytes n (if negb is_bigendian then w else v) = be_encode n v.
Proof.
  intros ->. unfold native_bytes. destruct is_bigendian; [done|]. simpl.
  rewrite <- (length_be_encode n v) at 1. rewrite <- length_reverse.
  rewrite be_encode_decode, reverse_involutive; [done|].
  apply Forall_reverse, be_encode_bytes.
Qed.

Lemma native_value_swapped n bs (sw : Z -> Z) :
  (forall v, sw v = be_decode (reverse (be_encode n v))) ->
  Forall is_byte bs -> length bs = n ->
  (let val := native_value bs in if negb is_bigendian then sw val else val) = be_decode bs.
Proof.
  intros Hsw Hbs Hl. unfold native_value. destruct is_bigendian; [done|]. simpl.
  rewrite Hsw, <- Hl, <- length_reverse, be_encode_decode.
  - by rewrite reverse_involutive.
  - by apply Forall_reverse.
Qed.

Lemma amqp_e8_be v : amqp_e8 v = be_encode 1 v.
Proof. unfold amqp_e8, native_bytes. by destruct is_bigendian. Qed.
Lemma amqp_e16_be v : amqp_e16 v = be_encode 2 v.
Proof. apply native_bytes_swapped, swap16_spec. Qed.
Lemma amqp_e32_be v : amqp_e32 v = be_encode 4 v.
Proof. apply native_bytes_swapped, swap32_spec. Qed.
Lemma amqp_e64_be v : amqp_e64 v = be_encode 8 v.
Proof. apply native_bytes_swapped, swap64_spec. Qed.

Lemma amqp_d8_be bs : length bs = 1%nat -> amqp_d8 bs = be_decode bs.
Proof.
  destruct bs as [|b [|]]; try done. intros _.
  unfold amqp_d8, native_value. by destruct is_bigendian.
Qed.
Lemma amqp_d16_be bs : Forall is_byte bs -> length bs = 2%nat -> amqp_d16 bs = be_decode bs.
Proof. apply native_value_swapped, swap16_spec. Qed.
Lemma amqp_d32_be bs : Forall is_byte bs -> length bs = 4%nat -> amqp_d32 bs = be_decode bs.
Proof. apply native_value_swapped, swap32_spec. Qed.
Lemma amqp_d64_be bs : Forall is_byte bs -> length bs = 8%nat -> amqp_d64 bs = be_decode bs.
Proof. apply native_value_swapped, swap64_spec. Qed.
End WireOrder.


(** ** Encoders that write a wire string

    [writes elen m w F]: started at an offset inside a buffer of [elen] usable
    bytes, [m] writes exactly [w] at the offset and moves past it when it fits;
    otherwise it returns a status in [F], and in either case the bytes before
    the offset and the size of the buffer are unchanged. *)
Definition keeps_prefix (s s' : ebuf) : Prop :=
  zlen (e_mem s') = zlen (e_mem s) /\
  slice 0 (e_off s) (e_mem s') = slice 0 (e_off s) (e_mem s).

Definition writes_at (elen : Z) (m : C ebuf unit) (w : list Z) (F : Z -> Prop) (s : ebuf) : Prop :=
  (e_off s + zlen w <= elen ->
   m s = Ret tt {| e_mem := overwrite (e_off s) w (e_mem s); e_off := e_off s + zlen w |}) /\
  (elen < e_off s + zlen w -> exists e s', m s = Err e s' /\ F e /\ keeps_prefix s s').

Definition buffer_ok (elen : Z) (s : ebuf) : Prop :=
  0 <= e_off s <= elen /\ elen <= zlen (e_mem s) /\ elen <= PTRDIFF_MAX.

Definition writes (elen : Z) (m : C ebuf unit) (w : list Z) (F : Z -> Prop) : Prop :=
  forall s, buffer_ok elen s -> writes_at elen m w F s.

Lemma overwrite_nil o m : 0 <= o <= zlen m -> overwrite o [] m = m.
Proof.
  unfold overwrite, zlen. intros. simpl. rewrite Nat.add_0_r. apply take_drop.
Qed.

Lemma overwrite_app o w1 w2 m :
  0 <= o -> o + zlen w1 + zlen w2 <= zlen m ->
  overwrite (o + zlen w1) w2 (overwrite o w1 m) = overwrite o (w1 ++ w2) m.
Proof.
  intros Ho Hl. pose proof (zlen_nonneg w1). pose proof (zlen_nonneg w2).
  destruct (split3 m o (zlen w1)) as (m1 & x & m' & -> & <- & Hx); [lia..|].
  rewrite !zlen_app in Hl.
  destruct (split3 m' 0 (zlen w2)) as (m2 & y & m3 & -> & H2 & Hy); [lia..|].
  assert (m2 = []) as -> by (destruct m2; [done|unfold zlen in *; simpl in *; lia]).
  rewrite app_nil_l in *. rewrite overwrite_mid by (unfold zlen in *; lia).
  rewrite (app_assoc m1 w1), <- zlen_app, overwrite_mid by (unfold zlen in *; lia).
  rewrite (app_assoc x y m3). rewrite overwrite_mid.
  - by rewrite <- !app_assoc.
  - unfold zlen in *. rewrite !length_app. lia.
Qed.

Lemma overwrite_patch o h body m :
  0 <= o -> o + zlen h + zlen body <= zlen m ->
  overwrite o h (overwrite (o + zlen h) body m) = overwrite o (h ++ body) m.
Proof.
  intros Ho Hl. pose proof (zlen_nonneg h). pose proof (zlen_nonneg body).
  destruct (split3 m o (zlen h)) as (m1 & x & m' & -> & <- & Hx); [lia..|].
  rewrite !zlen_app in Hl.
  destruct (split3 m' 0 (zlen body)) as (m2 & y & m3 & -> & H2 & Hy); [lia..|].
  assert (m2 = []) as -> by (destruct m2; [done|unfold zlen in *; simpl in *; lia]).
  rewrite app_nil_l in *.
  replace (overwrite (zlen m1 + zlen h) body (m1 ++ x ++ y ++ m3))
    with (m1 ++ x ++ body ++ m3).
  - rewrite overwrite_mid by (unfold zlen in *; lia).
    rewrite (app_assoc x y m3), overwrite_mid; [by rewrite <- !app_assoc|].
    unfold zlen in *. rewrite !length_app. lia.
  - rewrite <- Hx, <- zlen_app, !(app_assoc m1 x).
    by rewrite overwrite_mid by (unfold zlen in *; lia).
Qed.

Lemma keeps_prefix_refl s : keeps_prefix s s.
Proof. done. Qed.

Lemma keeps_prefix_trans s1 s2 s3 :
  0 <= e_off s1 <= e_off s2 -> e_off s2 <= zlen (e_mem s1) ->
  keeps_prefix s1 s2 -> keeps_prefix s2 s3 -> keeps_prefix s1 s3.
Proof.
  intros Ho Hl [H1 H2] [H3 H4]. split; [lia|]. rewrite <- H2.
  rewrite <- (slice_prefix (e_off s2) (e_off s1) (e_mem s3)), H4 by lia.
  by rewrite slice_prefix by lia.
Qed.

Lemma keeps_prefix_overwrite s o w :
  0 <= e_off s <= o -> o + zlen w <= zlen (e_mem s) ->
  forall off', keeps_prefix s {| e_mem := overwrite o w (e_mem s); e_off := off' |}.
Proof.
  intros. split; simpl; [apply zlen_overwrite; lia|].
  pose proof (zlen_nonneg w). by rewrite slice_overwrite_before by lia.
Qed.

Section Writes.
Context (elen : Z) (F : Z -> Prop).

Lemma writes_ret : writes elen (ret tt) [] F.
Proof.
  intros [m o] [Ho Hl]; simpl in *. split; simpl; change (zlen []) with 0.
  - intros _. by rewrite overwrite_nil, Z.add_0_r by lia.
  - lia.
Qed.

Lemma writes_bind m1 m2 w1 w2 :
  writes elen m1 w1 F -> writes elen m2 w2 F ->
  writes elen (do* m1 in m2) (w1 ++ w2) F.
Proof.
  intros H1 H2 s Hs. destruct (H1 s Hs) as [Hf Hn]. destruct Hs as (Ho & Hl & Hp).
  pose proof (zlen_nonneg w1). pose proof (zlen_nonneg w2).
  destruct (decide (e_off s + zlen w1 <= elen)) as [Hw1|Hw1].
  - specialize (Hf Hw1).
    set (s1 := {| e_mem := overwrite (e_off s) w1 (e_mem s); e_off := e_off s + zlen w1 |}) in *.
    destruct (H2 s1) as [Hf2 Hn2].
    { unfold s1; simpl. repeat split; simpl; [lia..| |lia]. rewrite zlen_overwrite; lia. }
    split; rewrite zlen_app; intros Hfit.
    + rewrite (bind_ret _ _ _ _ _ Hf), Hf2 by (unfold s1; simpl; lia).
      unfold s1; simpl. rewrite overwrite_app by lia. do 2 f_equal. lia.
    + rewrite (bind_ret _ _ _ _ _ Hf).
      destruct Hn2 as (e & s' & -> & He & Hk); [unfold s1; simpl; lia|].
      exists e, s'. split; [done|]. split; [done|].
      eapply (keeps_prefix_trans s s1); [unfold s1; simpl; lia..| |done].
      apply keeps_prefix_overwrite; lia.
  - split; rewrite zlen_app; intros Hfit; [lia|].
    destruct Hn as (e & s' & He & ?); [lia|]. exists e, s'. unfold bind. by rewrite He.
Qed.

Lemma writes_for_each {A} (f : A -> C ebuf unit) (wf : A -> list Z) l :
  Forall (fun x => writes elen (f x) (wf x) F) l ->
  writes elen (for_each f l) (concat (map wf l)) F.
Proof.
  induction 1 as [|x l Hx _ IH]; [apply writes_ret|]. simpl. by apply writes_bind.
Qed.

Lemma encode_base_fits w s :
  buffer_ok elen s -> e_off s + zlen w <= elen ->
  encode_base elen w s =
    Ret true {| e_mem := overwrite (e_off s) w (e_mem s); e_off := e_off s + zlen w |}.
Proof.
  intros (Ho & Hl & Hp) Hw. pose proof (zlen_nonneg w). unfold PTRDIFF_MAX in *.
  unfold encode_base. rewrite size_t_small by lia.
  rewrite (proj2 (Z.leb_le _ _)) by lia. by rewrite store_Some by lia.
Qed.

Lemma encode_base_full w s :
  0 <= e_off s -> elen < e_off s + zlen w < 2 ^ 64 ->
  exists s', encode_base elen w s = Ret false s' /\ keeps_prefix s s'.
Proof.
  intros Ho Hw. unfold encode_base. rewrite size_t_small by (pose proof (zlen_nonneg w); lia).
  rewrite (proj2 (Z.leb_gt _ _)) by lia. by eexists.
Qed.

Lemma writes_base e w :
  zlen w <= 8 -> F e -> writes elen (require_true e (encode_base elen w)) w F.
Proof.
  intros Hw8 He s Hs. pose proof Hs as (Ho & Hl & Hp). unfold PTRDIFF_MAX in *. split; intros Hw.
  - unfold require_true. by erewrite bind_ret by by apply encode_base_fits.
  - destruct (encode_base_full w s) as (s' & Hs' & Hk); [lia..|].
    exists e, s'. unfold require_true, bind. by rewrite Hs'.
Qed.

Lemma amqp_encode_bytes_fits b s :
  buffer_ok elen s -> readable b -> e_off s + len b <= elen ->
  amqp_encode_bytes elen b s =
    Ret true {| e_mem := overwrite (e_off s) (contents b) (e_mem s); e_off := e_off s + len b |}.
Proof.
  intros (Ho & Hl & Hp) Hb Hw. pose proof (zlen_contents b Hb). destruct Hb as [Hb1 Hb2].
  unfold PTRDIFF_MAX in *. unfold amqp_encode_bytes.
  destruct (Z.eqb_spec (len b) 0) as [H0|H0].
  - unfold contents. rewrite H0, slice_0_len, overwrite_nil, Z.add_0_r by lia.
    by destruct s.
  - rewrite size_t_small by lia. rewrite (proj2 (Z.leb_le _ _)) by lia.
    rewrite load_Some by lia. fold (contents b). by rewrite store_Some by lia.
Qed.

Lemma writes_bytes e b :
  readable b -> F e -> writes elen (require_true e (amqp_encode_bytes elen b)) (contents b) F.
Proof.
  intros Hb He s Hs. pose proof (zlen_contents b Hb) as Hc.
  split; rewrite Hc; intros Hw.
  - unfold require_true. by erewrite bind_ret by by apply amqp_encode_bytes_fits.
  - destruct Hs as (Ho & Hl & Hp), Hb as [Hb1 Hb2]. unfold PTRDIFF_MAX in *.
    exists e, {| e_mem := e_mem s; e_off := size_t (e_off s + len b) |}.
    unfold require_true, bind, amqp_encode_bytes.
    destruct (Z.eqb_spec (len b) 0) as [H0|H0]; [lia|].
    rewrite size_t_small by lia. by rewrite (proj2 (Z.leb_gt _ _)) by lia.
Qed.
End Writes.

(** ** Decoder specifications *)

Section Decoders.
Context {HH : Host} {St : Type} {HA : Allocator St} {HL : AllocatorLaws St}.

(** The allocator moved on without losing anything a client holds. *)
Definition alloc_ext (s s' : St) : Prop :=
  a_inv s' /\ (forall q, a_live q s -> a_live q s').

Lemma alloc_ext_refl s : a_inv s -> alloc_ext s s.
Proof. by split. Qed.

Lemma alloc_ext_trans s1 s2 s3 : alloc_ext s1 s2 -> alloc_ext s2 s3 -> alloc_ext s1 s3.
Proof. intros [_ Hl] [Hi Hl']. split; [done|]. intros q Hq. by apply Hl', Hl. Qed.

(** [dspec_g L g R D m o Q]: started at offset [o], [m] is defined and
    terminates; it returns a value and an offset in [Q], or fails with a status
    in [D].  With [R] the allocator is assumed reliable (and stays so).  The
    pool has room for one block per byte that is left before [L], and [m] takes
    at most [g] more blocks than it reads bytes. *)
Definition reliable_if (R : bool) (s : St) : Prop := R = true -> a_reliable s.

Definition has_room (L : Z) (s : dst St) : Prop := L - d_off s < a_room (d_alloc s).

Definition spends (g : Z) (s s' : dst St) : Prop :=
  a_room (d_alloc s) + d_off s - g <= a_room (d_alloc s') + d_off s'.

Definition dspec_g (L g : Z) (R : bool) (D : Z -> Prop) {A} (m : C (dst St) A) (o : Z)
    (Q : A -> Z -> Prop) : Prop :=
  forall s, d_off s = o -> a_inv (d_alloc s) -> reliable_if R (d_alloc s) -> has_room L s ->
    wp m (fun r s' => Q r (d_off s') /\ alloc_ext (d_alloc s) (d_alloc s') /\
                      reliable_if R (d_alloc s') /\ spends g s s')
      (fun e s' => D e /\ alloc_ext (d_alloc s) (d_alloc s') /\
                   reliable_if R (d_alloc s')) s.

Definition dspec (L : Z) (R : bool) (D : Z -> Prop) {A} (m : C (dst St) A) (o : Z)
    (Q : A -> Z -> Prop) : Prop := dspec_g L 0 R D m o Q.

Lemma spends_refl s : spends 0 s s.
Proof. unfold spends. lia. Qed.

Lemma spends_trans g1 g2 g s1 s2 s3 :
  spends g1 s1 s2 -> spends g2 s2 s3 -> g1 + g2 <= g -> spends g s1 s3.
Proof. unfold spends. lia. Qed.

Lemma has_room_spends L g s s' : has_room L s -> spends g s s' -> g <= 0 -> has_room L s'.
Proof. unfold has_room, spends. lia. Qed.

Section Dspec.
Context (L : Z) (R : bool) (D : Z -> Prop).

Lemma dspec_ret {A} (a : A) o (Q : A -> Z -> Prop) : Q a o -> dspec L R D (ret a) o Q.
Proof.
  intros HQ s <- Hi Hr _. apply wp_ret.
  split_and!; [done|by apply alloc_ext_refl|done|by apply spends_refl].
Qed.

Lemma dspec_throw {A} e g o (Q : A -> Z -> Prop) : D e -> dspec_g L g R D (throw e) o Q.
Proof. intros He s _ Hi Hr _. apply wp_throw. split_and!; [done|by apply alloc_ext_refl|done]. Qed.

Lemma dspec_mono {A} (m : C (dst St) A) g o (Q Q' : A -> Z -> Prop) :
  dspec_g L g R D m o Q -> (forall a o', Q a o' -> Q' a o') -> dspec_g L g R D m o Q'.
Proof.
  intros Hm HQ s Ho Hi Hr Hb. wp_use Hm; [done..| |done].
  intros a s' (? & ? & ? & ?). split_and!; [by apply HQ|done..].
Qed.

Lemma dspec_bind_g {A B} g1 g2 g (m : C (dst St) A) (f : A -> C (dst St) B) o Q Q' :
  g1 <= 0 -> g1 + g2 <= g ->
  dspec_g L g1 R D m o Q -> (forall a o', Q a o' -> dspec_g L g2 R D (f a) o' Q') ->
  dspec_g L g R D (bind m f) o Q'.
Proof.
  intros Hg1 Hg Hm Hf s Ho Hi Hr Hb. apply wp_bind. wp_use Hm; [done..| |done].
  intros a s' (HQ & He & Hr' & Hs).
  wp_use (Hf a _ HQ); [done|by destruct He|done|by eapply has_room_spends| |].
  - intros b s'' (? & ? & ? & ?).
    split_and!; [done|by eapply alloc_ext_trans|done|by eapply spends_trans].
  - intros e s'' (? & ? & ?). split_and!; [done|by eapply alloc_ext_trans|done].
Qed.

Lemma dspec_bind {A B} (m : C (dst St) A) (f : A -> C (dst St) B) o Q Q' :
  dspec L R D m o Q -> (forall a o', Q a o' -> dspec L R D (f a) o' Q') ->
  dspec L R D (bind m f) o Q'.
Proof. by apply dspec_bind_g. Qed.

Lemma dspec_require {A} e g (m : C (dst St) (option A)) o (Q : A -> Z -> Prop) :
  g <= 0 ->
  dspec_g L g R D m o (fun r o' => match r with Some a => Q a o' | None => D e end) ->
  dspec_g L g R D (require e m) o Q.
Proof.
  intros Hg Hm. eapply (dspec_bind_g g 0); [done|lia|exact Hm|]. intros [a|] o' Ha;
    [by apply dspec_ret|by apply dspec_throw].
Qed.

Context (encoded : amqp_bytes_t) (Hread : readable encoded).

Lemma dspec_base n d o :
  0 <= o <= len encoded -> 0 < n <= 8 ->
  dspec L R D (decode_base n d encoded) o (fun r o' =>
    match r with
    | Some v => v = d (slice o n (mem_of encoded)) /\ o' = o + n /\ o + n <= len encoded
    | None => len encoded < o + n
    end).
Proof.
  intros Ho Hn s Hs Hi Hr _. destruct Hread as [Hl1 Hl2]. unfold PTRDIFF_MAX in *.
  unfold wp, decode_base. rewrite Hs, size_t_small by lia.
  destruct (Z.leb_spec (o + n) (len encoded)).
  - rewrite load_Some by lia. unfold spends. simpl.
    split_and!; [done..|by apply alloc_ext_refl|done|lia].
  - unfold spends. simpl. split_and!; [done|by apply alloc_ext_refl|done|lia].
Qed.

Lemma dspec_bytes n o :
  0 <= o <= len encoded -> 0 <= n < 2 ^ 33 ->
  dspec L R D (amqp_decode_bytes encoded n) o (fun r o' =>
    match r with
    | Some b => b = {| len := n; bytes := Some (slice o n (mem_of encoded)) |} /\
                o' = o + n /\ o + n <= len encoded
    | None => len encoded < o + n
    end).
Proof.
  intros Ho Hn s Hs Hi Hr _. destruct Hread as [Hl1 Hl2]. unfold PTRDIFF_MAX in *.
  unfold wp, amqp_decode_bytes. rewrite Hs, size_t_small by lia.
  destruct (Z.leb_spec (o + n) (len encoded)).
  - rewrite load_Some by lia. unfold spends. simpl.
    split_and!; [done..|by apply alloc_ext_refl|done|lia].
  - unfold spends. simpl. split_and!; [done|by apply alloc_ext_refl|done|lia].
Qed.
End Dspec.

Lemma read_alloc e n d encoded (s : dst St) v s' :
  require e (decode_base n d encoded) s = Ret v s' -> d_alloc s' = d_alloc s.
Proof.
  unfold require, bind, ret, decode_base. intros H. by repeat case_match; simplify_eq.
Qed.

(** A read that uses no memory leaves room for as many blocks as it read bytes. *)
Lemma dspec_gain {A} L R D (m : C (dst St) A) n o Q :
  (forall s a s', m s = Ret a s' -> d_alloc s' = d_alloc s) ->
  dspec L R D m o Q -> (forall a o', Q a o' -> o + n <= o') -> dspec_g L (- n) R D m o Q.
Proof.
  intros Hsame Hm Hn s Ho Hi Hr Hb. specialize (Hm s Ho Hi Hr Hb). specialize (Hsame s).
  unfold wp in *. destruct (m s) as [a s'|e s'| |]; [|done..].
  destruct Hm as (HQ & ? & ? & _). specialize (Hn _ _ HQ).
  split_and!; [done..|]. unfold spends. rewrite (Hsame a s') by done. lia.
Qed.

(** ** Decoders that read a wire string *)

Section Encoded.
Context (encoded : amqp_bytes_t) (Hread : readable encoded).

(** The buffer holds [w] at offset [o]. *)
Definition holds_at (o : Z) (w : list Z) : Prop :=
  0 <= o /\ o + zlen w <= len encoded /\ slice o (zlen w) (mem_of encoded) = w.

(** [decodes m w a]: at an offset where the buffer holds [w], and with an
    allocator that does not fail, [m] returns [a] just behind [w]. *)
Definition decodes {A} (m : C (dst St) A) (w : list Z) (a : A) : Prop :=
  forall o, holds_at o w ->
    dspec (len encoded) true (fun _ => False) m o (fun r o' => r = a /\ o' = o + zlen w).

(** [dsafe D k m P]: on any buffer, [m] is defined and terminates; it returns a
    value in [P] at least [k] bytes further and still inside the buffer, or a
    status in [D]. *)
Definition dsafe (D : Z -> Prop) (k : Z) {A} (m : C (dst St) A) (P : A -> Prop) : Prop :=
  forall o, 0 <= o <= len encoded ->
    dspec (len encoded) false D m o (fun r o' => P r /\ o + k <= o' <= len encoded).

Lemma holds_at_app o w1 w2 :
  holds_at o (w1 ++ w2) <-> holds_at o w1 /\ holds_at (o + zlen w1) w2.
Proof.
  unfold holds_at. rewrite zlen_app. pose proof (zlen_nonneg w1). pose proof (zlen_nonneg w2).
  destruct Hread as [Hl _]. split.
  - intros (Ho & Hl' & Hw). rewrite slice_split in Hw by lia.
    apply app_inj_1 in Hw as [-> ->]; [split_and!; lia || done|].
    assert (zlen (slice o (zlen w1) (mem_of encoded)) = zlen w1) by (apply zlen_slice; lia).
    unfold zlen in *. lia.
  - intros [(Ho & Hl1 & Hw1) (_ & Hl2 & Hw2)]. split_and!; [lia..|].
    rewrite slice_split by lia. by f_equal.
Qed.

Lemma decodes_ret {A} (a : A) : decodes (ret a) [] a.
Proof.
  intros o Ho. apply dspec_ret. change (zlen []) with 0. split; [done|lia].
Qed.

Lemma decodes_bind {A B} (m : C (dst St) A) (f : A -> C (dst St) B) w1 w2 a b :
  decodes m w1 a -> decodes (f a) w2 b -> decodes (bind m f) (w1 ++ w2) b.
Proof.
  intros H1 H2 o Ho. apply holds_at_app in Ho as [Ho1 Ho2].
  eapply dspec_bind; [by apply H1|]. intros a' o' [-> ->].
  eapply dspec_mono; [by apply H2|]. intros b' o'' [-> ->].
  rewrite zlen_app. split; [done|lia].
Qed.

(** The last step of a chain of reads. *)
Lemma decodes_map {A B} (m : C (dst St) A) (f : A -> C (dst St) B) w a b :
  decodes m w a -> f a = ret b -> decodes (bind m f) w b.
Proof.
  intros H1 H2. rewrite <- (app_nil_r w). eapply decodes_bind; [done|].
  rewrite H2. apply decodes_ret.
Qed.

Lemma decodes_base e n d v :
  (0 < n <= 8)%nat -> d (be_encode n v) = v ->
  decodes (require e (decode_base (Z.of_nat n) d encoded)) (be_encode n v) v.
Proof.
  intros Hn Hd o (Ho & Hl & Hw). rewrite zlen_be_encode in *.
  apply dspec_require; [done|]. eapply dspec_mono; [apply dspec_base; [done|lia..]|].
  intros [r|] o' Hr; [|lia]. rewrite Hw in Hr. split; [by rewrite <- Hd; apply Hr|lia].
Qed.

Lemma decodes_bytes e l :
  zlen l < 2 ^ 32 ->
  decodes (require e (amqp_decode_bytes encoded (zlen l))) l (view l).
Proof.
  intros Hl32 o (Ho & Hl & Hw). pose proof (zlen_nonneg l).
  apply dspec_require; [done|]. eapply dspec_mono; [apply dspec_bytes; [done|lia..]|].
  intros [r|] o' Hr; [|lia]. rewrite Hw in Hr. by destruct Hr as (-> & -> & _).
Qed.

(** *** Safety on arbitrary input *)

Context (D : Z -> Prop).

Lemma dsafe_ret {A} (a : A) (P : A -> Prop) : P a -> dsafe D 0 (ret a) P.
Proof. intros HP o Ho. apply dspec_ret. split; [done|lia]. Qed.

Lemma dsafe_throw {A} e k (P : A -> Prop) : D e -> dsafe D k (throw e) P.
Proof. intros He o Ho. by apply dspec_throw. Qed.

Lemma dsafe_weaken {A} k k' (m : C (dst St) A) (P P' : A -> Prop) :
  dsafe D k m P -> k' <= k -> (forall a, P a -> P' a) -> dsafe D k' m P'.
Proof.
  intros Hm Hk HP o Ho. eapply dspec_mono; [by apply Hm|].
  intros a o' [? ?]. split; [by apply HP|lia].
Qed.

Lemma dsafe_bind {A B} k1 k2 (m : C (dst St) A) (f : A -> C (dst St) B) P Q :
  0 <= k1 -> dsafe D k1 m P -> (forall a, P a -> dsafe D k2 (f a) Q) ->
  dsafe D (k1 + k2) (bind m f) Q.
Proof.
  intros Hk Hm Hf o Ho. eapply dspec_bind; [by apply Hm|]. intros a o' [HP Ho'].
  eapply dspec_mono; [apply Hf; [done|lia]|]. intros b o'' [? ?]. split; [done|lia].
Qed.

Lemma dsafe_bind_l {A B} k (m : C (dst St) A) (f : A -> C (dst St) B) P Q :
  0 <= k -> dsafe D k m P -> (forall a, P a -> dsafe D 0 (f a) Q) -> dsafe D k (bind m f) Q.
Proof. intros. replace k with (k + 0) by lia. by eapply dsafe_bind. Qed.

Lemma dsafe_bind_0 {A B} k (m : C (dst St) A) (f : A -> C (dst St) B) P Q :
  0 <= k -> dsafe D k m P -> (forall a, P a -> dsafe D 0 (f a) Q) -> dsafe D 0 (bind m f) Q.
Proof.
  intros. eapply dsafe_weaken; [by eapply (dsafe_bind_l k)|done|done].
Qed.

Lemma dsafe_base e n d P :
  D e -> 0 < n <= 8 ->
  (forall bs, Forall is_byte bs -> zlen bs = n -> P (d bs)) ->
  Forall is_byte (mem_of encoded) ->
  dsafe D n (require e (decode_base n d encoded)) P.
Proof.
  intros He Hn HP Hb o Ho. apply dspec_require; [done|].
  eapply dspec_mono; [apply dspec_base; [done..]|].
  intros [r|] o'; [|done]. intros (-> & -> & ?). split; [|lia].
  destruct Hread. apply HP; [by apply Forall_take, Forall_drop|apply zlen_slice; lia].
Qed.

Lemma dsafe_bytes e n :
  D e -> 0 <= n < 2 ^ 33 -> Forall is_byte (mem_of encoded) ->
  dsafe D 0 (require e (amqp_decode_bytes encoded n))
    (fun b => len b = n /\ readable b /\ Forall is_byte (mem_of b)).
Proof.
  intros He Hn Hb o Ho. apply dspec_require; [done|].
  eapply dspec_mono; [apply dspec_bytes; [done..]|].
  intros [r|] o'; [|done]. intros (-> & -> & ?). split; [|lia].
  destruct Hread. unfold readable, mem_of, PTRDIFF_MAX in *; simpl.
  rewrite zlen_slice by lia. split_and!; [done|lia..|]. by apply Forall_take, Forall_drop.
Qed.
End Encoded.
End Decoders.

#[global] Opaque be_encode.
