(* ===== verification/Table.v ===== *)
(** * Field tables: [librabbitmq/amqp_table.c]

    The field value type, the table and array codecs with their recursion and
    loops, cloning into a pool, the entry comparison and the entry
    constructors.  Their theorems are in [TableEncode.v], [TableDecode.v] and
    [TableClone.v]. *)

From S2P Require Import Prelude Machine Status Alloc Codec.

(** ** Data *)

Inductive amqp_field_value_kind_t : Type :=
| AMQP_FIELD_KIND_BOOLEAN
| AMQP_FIELD_KIND_I8
| AMQP_FIELD_KIND_U8
| AMQP_FIELD_KIND_I16
| AMQP_FIELD_KIND_U16
| AMQP_FIELD_KIND_I32
| AMQP_FIELD_KIND_U32
| AMQP_FIELD_KIND_I64
| AMQP_FIELD_KIND_U64
| AMQP_FIELD_KIND_F32
| AMQP_FIELD_KIND_F64
| AMQP_FIELD_KIND_DECIMAL
| AMQP_FIELD_KIND_UTF8
| AMQP_FIELD_KIND_ARRAY
| AMQP_FIELD_KIND_TIMESTAMP
| AMQP_FIELD_KIND_TABLE
| AMQP_FIELD_KIND_VOID
| AMQP_FIELD_KIND_BYTES.

#[global] Instance kind_eq_dec : EqDecision amqp_field_value_kind_t.
Proof. solve_decision. Defined.

(** The enumerators' values, ASCII letters. *)
Definition kind_byte (k : amqp_field_value_kind_t) : Z :=
  match k with
  | AMQP_FIELD_KIND_BOOLEAN => 116 (* 't' *)
  | AMQP_FIELD_KIND_I8 => 98 (* 'b' *)
  | AMQP_FIELD_KIND_U8 => 66 (* 'B' *)
  | AMQP_FIELD_KIND_I16 => 115 (* 's' *)
  | AMQP_FIELD_KIND_U16 => 117 (* 'u' *)
  | AMQP_FIELD_KIND_I32 => 73 (* 'I' *)
  | AMQP_FIELD_KIND_U32 => 105 (* 'i' *)
  | AMQP_FIELD_KIND_I64 => 108 (* 'l' *)
  | AMQP_FIELD_KIND_U64 => 76 (* 'L' *)
  | AMQP_FIELD_KIND_F32 => 102 (* 'f' *)
  | AMQP_FIELD_KIND_F64 => 100 (* 'd' *)
  | AMQP_FIELD_KIND_DECIMAL => 68 (* 'D' *)
  | AMQP_FIELD_KIND_UTF8 => 83 (* 'S' *)
  | AMQP_FIELD_KIND_ARRAY => 65 (* 'A' *)
  | AMQP_FIELD_KIND_TIMESTAMP => 84 (* 'T' *)
  | AMQP_FIELD_KIND_TABLE => 70 (* 'F' *)
  | AMQP_FIELD_KIND_VOID => 86 (* 'V' *)
  | AMQP_FIELD_KIND_BYTES => 120 (* 'x' *)
  end.

Definition all_kinds : list amqp_field_value_kind_t :=
  [AMQP_FIELD_KIND_BOOLEAN; AMQP_FIELD_KIND_I8; AMQP_FIELD_KIND_U8;
   AMQP_FIELD_KIND_I16; AMQP_FIELD_KIND_U16; AMQP_FIELD_KIND_I32;
   AMQP_FIELD_KIND_U32; AMQP_FIELD_KIND_I64; AMQP_FIELD_KIND_U64;
   AMQP_FIELD_KIND_F32; AMQP_FIELD_KIND_F64; AMQP_FIELD_KIND_DECIMAL;
   AMQP_FIELD_KIND_UTF8; AMQP_FIELD_KIND_ARRAY; AMQP_FIELD_KIND_TIMESTAMP;
   AMQP_FIELD_KIND_TABLE; AMQP_FIELD_KIND_VOID; AMQP_FIELD_KIND_BYTES].

(** Which [case] of a [switch (entry->kind)] a byte selects; [None] is
    [default]. *)
Definition kind_of (z : Z) : option amqp_field_value_kind_t :=
  List.find (fun k => kind_byte k =? z) all_kinds.

(** A field value: the [kind] tag together with the union member it selects.
    The floating-point members are their bit patterns.  An array remembers
    whether its [entries] pointer is not NULL.  [FV_OTHER] is a value whose tag
    is none of the enumerators. *)
#[warnings="-register-all"]
Inductive amqp_field_value_t : Type :=
| FV_BOOLEAN (boolean : Z)
| FV_I8 (i8 : Z)
| FV_U8 (u8 : Z)
| FV_I16 (i16 : Z)
| FV_U16 (u16 : Z)
| FV_I32 (i32 : Z)
| FV_U32 (u32 : Z)
| FV_I64 (i64 : Z)
| FV_U64 (u64 : Z)
| FV_F32 (f32 : Z)
| FV_F64 (f64 : Z)
| FV_DECIMAL (decimals value : Z)
| FV_UTF8 (b : amqp_bytes_t)
| FV_ARRAY (nonnull : bool) (entries : list amqp_field_value_t)
| FV_TIMESTAMP (u64 : Z)
| FV_TABLE (entries : list (amqp_bytes_t * amqp_field_value_t))
| FV_VOID
| FV_BYTES (b : amqp_bytes_t)
| FV_OTHER (kind : Z).

Abbreviation amqp_table_entry_t := (amqp_bytes_t * amqp_field_value_t)%type.
Abbreviation amqp_table_t := (list (amqp_bytes_t * amqp_field_value_t)).

Definition key (e : amqp_table_entry_t) : amqp_bytes_t := e.1.
Definition value (e : amqp_table_entry_t) : amqp_field_value_t := e.2.

Definition amqp_empty_table : amqp_table_t := [].

(** The [kind] member. *)
Definition kind (v : amqp_field_value_t) : Z :=
  match v with
  | FV_BOOLEAN _ => kind_byte AMQP_FIELD_KIND_BOOLEAN
  | FV_I8 _ => kind_byte AMQP_FIELD_KIND_I8
  | FV_U8 _ => kind_byte AMQP_FIELD_KIND_U8
  | FV_I16 _ => kind_byte AMQP_FIELD_KIND_I16
  | FV_U16 _ => kind_byte AMQP_FIELD_KIND_U16
  | FV_I32 _ => kind_byte AMQP_FIELD_KIND_I32
  | FV_U32 _ => kind_byte AMQP_FIELD_KIND_U32
  | FV_I64 _ => kind_byte AMQP_FIELD_KIND_I64
  | FV_U64 _ => kind_byte AMQP_FIELD_KIND_U64
  | FV_F32 _ => kind_byte AMQP_FIELD_KIND_F32
  | FV_F64 _ => kind_byte AMQP_FIELD_KIND_F64
  | FV_DECIMAL _ _ => kind_byte AMQP_FIELD_KIND_DECIMAL
  | FV_UTF8 _ => kind_byte AMQP_FIELD_KIND_UTF8
  | FV_ARRAY _ _ => kind_byte AMQP_FIELD_KIND_ARRAY
  | FV_TIMESTAMP _ => kind_byte AMQP_FIELD_KIND_TIMESTAMP
  | FV_TABLE _ => kind_byte AMQP_FIELD_KIND_TABLE
  | FV_VOID => kind_byte AMQP_FIELD_KIND_VOID
  | FV_BYTES _ => kind_byte AMQP_FIELD_KIND_BYTES
  | FV_OTHER k => k
  end.

(** Sizes of the C structures on LP64. *)
Definition sizeof_amqp_field_value_t : Z := 24.
Definition sizeof_amqp_table_entry_t : Z := 40.

Definition INITIAL_ARRAY_SIZE : Z := 16.
Definition INITIAL_TABLE_SIZE : Z := 16.
Definition TABLE_DEPTH_LIMIT : Z := 100.

(** ** Decoding *)

Section Decode.
Context `{Host} {St : Type} `{Allocator St}.

Definition lift_alloc {A} (m : C St A) : C (dst St) A := fun s =>
  match m (d_alloc s) with
  | Ret a s' => Ret a {| d_off := d_off s; d_alloc := s' |}
  | Err e s' => Err e {| d_off := d_off s; d_alloc := s' |}
  | UB => UB
  | NoFuel => NoFuel
  end.

Definition d_offset : C (dst St) Z := fun s => Ret (d_off s) s.

(** [return res;] *)
Definition finish {S A} (r : Z + A) : C S A :=
  match r with inl e => throw e | inr a => ret a end.

(** The growth step shared by both loops: double the array when it is full;
    [None] when [realloc] returned NULL.  Doubling past [INT_MAX] is a signed
    overflow. *)
Definition grow_entries (sizeof : Z) (entries : ptr) (num_entries allocated_entries : Z)
    : C (dst St) (option (ptr * Z)) :=
  if allocated_entries <=? num_entries then
    if INT32_MAX <? allocated_entries * 2 then undefined
    else
      let* newentries := lift_alloc (realloc entries (size_t (allocated_entries * 2 * sizeof))) in
      ret ((fun p => (p, allocated_entries * 2)) <$> newentries)
  else ret (Some (entries, allocated_entries)).

(** [while ( *offset < limit)] of [amqp_decode_array]; [decode_value] is the
    recursive call.  Returns the current [entries] pointer and [res]. *)
Fixpoint decode_array_loop (fuel : nat) (decode_value : C (dst St) amqp_field_value_t)
    (limit : Z) (entries : ptr) (allocated_entries : Z) (acc : list amqp_field_value_t)
    : C (dst St) (ptr * (Z + list amqp_field_value_t)) :=
  match fuel with
  | O => out_of_fuel
  | S fuel' =>
      let* o := d_offset in
      if o <? limit then
        let* g := grow_entries sizeof_amqp_field_value_t entries (zlen acc) allocated_entries in
        match g with
        | None => ret (entries, inl AMQP_STATUS_NO_MEMORY)
        | Some (entries', allocated') =>
            let* r := try_ decode_value in
            match r with
            | inl res => ret (entries', inl res)
            | inr v => decode_array_loop fuel' decode_value limit entries' allocated' (acc ++ [v])
            end
        end
      else ret (entries, inr acc)
  end.

(** The tail both functions share: copy the entries to the pool.  NULL is
    legitimate for a zero-length block. *)
Definition pool_entries {A B} (sizeof : Z) (build : bool -> list A -> B) (r : Z + list A)
    : C (dst St) (Z + B) :=
  match r with
  | inl res => ret (inl res)
  | inr es =>
      let* output_entries := lift_alloc (pool_alloc (size_t (zlen es * sizeof))) in
      match output_entries with
      | None =>
          if zlen es =? 0 then ret (inr (build false es)) else ret (inl AMQP_STATUS_NO_MEMORY)
      | Some _ => ret (inr (build true es))
      end
  end.

Definition loop_fuel (encoded : amqp_bytes_t) : nat := S (length (mem_of encoded)).

Definition amqp_decode_array (decode_value : C (dst St) amqp_field_value_t)
    (encoded : amqp_bytes_t) : C (dst St) amqp_field_value_t :=
  let* arraysize := require AMQP_STATUS_BAD_AMQP_DATA (amqp_decode_32 encoded) in
  let* o := d_offset in
  if len encoded <? size_t (arraysize + o) then throw AMQP_STATUS_BAD_AMQP_DATA
  else
    let* m := lift_alloc (malloc (size_t (INITIAL_ARRAY_SIZE * sizeof_amqp_field_value_t))) in
    match m with
    | None => throw AMQP_STATUS_NO_MEMORY
    | Some entries =>
        let limit := size_t (o + arraysize) in
        let* '(entries', r) :=
          decode_array_loop (loop_fuel encoded) decode_value limit entries INITIAL_ARRAY_SIZE [] in
        let* res := pool_entries sizeof_amqp_field_value_t FV_ARRAY r in
        do* lift_alloc (free entries') in
        finish res
    end.

(** [while ( *offset < limit)] of [amqp_decode_table_internal]. *)
Fixpoint decode_table_loop (fuel : nat) (decode_value : C (dst St) amqp_field_value_t)
    (encoded : amqp_bytes_t) (limit : Z) (entries : ptr) (allocated_entries : Z)
    (acc : amqp_table_t) : C (dst St) (ptr * (Z + amqp_table_t)) :=
  match fuel with
  | O => out_of_fuel
  | S fuel' =>
      let* o := d_offset in
      if o <? limit then
        let* keylen := amqp_decode_8 encoded in
        match keylen with
        | None => ret (entries, inl AMQP_STATUS_BAD_AMQP_DATA)
        | Some keylen =>
            let* g := grow_entries sizeof_amqp_table_entry_t entries (zlen acc) allocated_entries in
            match g with
            | None => ret (entries, inl AMQP_STATUS_NO_MEMORY)
            | Some (entries', allocated') =>
                let* k := amqp_decode_bytes encoded keylen in
                match k with
                | None => ret (entries', inl AMQP_STATUS_BAD_AMQP_DATA)
                | Some k =>
                    let* r := try_ decode_value in
                    match r with
                    | inl res => ret (entries', inl res)
                    | inr v =>
                        decode_table_loop fuel' decode_value encoded limit entries' allocated'
                          (acc ++ [(k, v)])
                    end
                end
            end
        end
      else ret (entries, inr acc)
  end.

Definition amqp_decode_table_internal (decode_value : C (dst St) amqp_field_value_t)
    (encoded : amqp_bytes_t) : C (dst St) amqp_table_t :=
  let* tablesize := require AMQP_STATUS_BAD_AMQP_DATA (amqp_decode_32 encoded) in
  let* o := d_offset in
  if len encoded <? size_t (tablesize + o) then throw AMQP_STATUS_BAD_AMQP_DATA
  else
    let* m := lift_alloc (malloc (size_t (INITIAL_TABLE_SIZE * sizeof_amqp_table_entry_t))) in
    match m with
    | None => throw AMQP_STATUS_NO_MEMORY
    | Some entries =>
        let limit := size_t (o + tablesize) in
        let* '(entries', r) :=
          decode_table_loop (loop_fuel encoded) decode_value encoded limit entries
            INITIAL_TABLE_SIZE [] in
        let* res := pool_entries sizeof_amqp_table_entry_t (fun _ es => es) r in
        do* lift_alloc (free entries') in
        finish res
    end.

(** [fuel] bounds the nesting; the depth limit of the code is reached first. *)
Fixpoint amqp_decode_field_value (fuel : nat) (encoded : amqp_bytes_t) (depth : Z)
    : C (dst St) amqp_field_value_t :=
  match fuel with
  | O => out_of_fuel
  | S fuel' =>
      if TABLE_DEPTH_LIMIT <? depth then throw AMQP_STATUS_BAD_AMQP_DATA
      else
        let* k := require AMQP_STATUS_BAD_AMQP_DATA (amqp_decode_8 encoded) in
        match kind_of k with
        | Some AMQP_FIELD_KIND_BOOLEAN =>
            let* val := require AMQP_STATUS_BAD_AMQP_DATA (amqp_decode_8 encoded) in
            ret (FV_BOOLEAN (if val =? 0 then 0 else 1))
        | Some AMQP_FIELD_KIND_I8 =>
            let* val := require AMQP_STATUS_BAD_AMQP_DATA (amqp_decode_8 encoded) in
            ret (FV_I8 (to_signed 8 val))
        | Some AMQP_FIELD_KIND_U8 =>
            let* val := require AMQP_STATUS_BAD_AMQP_DATA (amqp_decode_8 encoded) in
            ret (FV_U8 val)
        | Some AMQP_FIELD_KIND_I16 =>
            let* val := require AMQP_STATUS_BAD_AMQP_DATA (amqp_decode_16 encoded) in
            ret (FV_I16 (to_signed 16 val))
        | Some AMQP_FIELD_KIND_U16 =>
            let* val := require AMQP_STATUS_BAD_AMQP_DATA (amqp_decode_16 encoded) in
            ret (FV_U16 val)
        | Some AMQP_FIELD_KIND_I32 =>
            let* val := require AMQP_STATUS_BAD_AMQP_DATA (amqp_decode_32 encoded) in
            ret (FV_I32 (to_signed 32 val))
        | Some AMQP_FIELD_KIND_U32 =>
            let* val := require AMQP_STATUS_BAD_AMQP_DATA (amqp_decode_32 encoded) in
            ret (FV_U32 val)
        | Some AMQP_FIELD_KIND_I64 =>
            let* val := require AMQP_STATUS_BAD_AMQP_DATA (amqp_decode_64 encoded) in
            ret (FV_I64 (to_signed 64 val))
        | Some AMQP_FIELD_KIND_U64 =>
            let* val := require AMQP_STATUS_BAD_AMQP_DATA (amqp_decode_64 encoded) in
            ret (FV_U64 val)
        | Some AMQP_FIELD_KIND_F32 =>
            let* val := require AMQP_STATUS_BAD_AMQP_DATA (amqp_decode_32 encoded) in
            ret (FV_F32 val)
        | Some AMQP_FIELD_KIND_F64 =>
            let* val := require AMQP_STATUS_BAD_AMQP_DATA (amqp_decode_64 encoded) in
            ret (FV_F64 val)
        | Some AMQP_FIELD_KIND_DECIMAL =>
            let* decimals := require AMQP_STATUS_BAD_AMQP_DATA (amqp_decode_8 encoded) in
            let* val := require AMQP_STATUS_BAD_AMQP_DATA (amqp_decode_32 encoded) in
            ret (FV_DECIMAL decimals val)
        | Some AMQP_FIELD_KIND_UTF8 =>
            let* n := require AMQP_STATUS_BAD_AMQP_DATA (amqp_decode_32 encoded) in
            let* b := require AMQP_STATUS_BAD_AMQP_DATA (amqp_decode_bytes encoded n) in
            ret (FV_UTF8 b)
        | Some AMQP_FIELD_KIND_BYTES =>
            let* n := require AMQP_STATUS_BAD_AMQP_DATA (amqp_decode_32 encoded) in
            let* b := require AMQP_STATUS_BAD_AMQP_DATA (amqp_decode_bytes encoded n) in
            ret (FV_BYTES b)
        | Some AMQP_FIELD_KIND_ARRAY =>
            amqp_decode_array (amqp_decode_field_value fuel' encoded (depth + 1)) encoded
        | Some AMQP_FIELD_KIND_TIMESTAMP =>
            let* val := require AMQP_STATUS_BAD_AMQP_DATA (amqp_decode_64 encoded) in
            ret (FV_TIMESTAMP val)
        | Some AMQP_FIELD_KIND_TABLE =>
            let* t := amqp_decode_table_internal
                        (amqp_decode_field_value fuel' encoded (depth + 1)) encoded in
            ret (FV_TABLE t)
        | Some AMQP_FIELD_KIND_VOID => ret FV_VOID
        | None => throw AMQP_STATUS_BAD_AMQP_DATA
        end
  end.

(** Enough for the nesting the depth limit allows. *)
Definition depth_fuel : nat := S (S (Z.to_nat TABLE_DEPTH_LIMIT)).

Definition amqp_decode_table (encoded : amqp_bytes_t) : C (dst St) amqp_table_t :=
  amqp_decode_table_internal (amqp_decode_field_value depth_fuel encoded 0) encoded.
End Decode.

(** ** Encoding *)

Section Encode.
Context `{Host}.

Definition e_offset : C ebuf Z := fun s => Ret (e_off s) s.
Definition advance (n : Z) : C ebuf unit :=
  modify (fun s => {| e_mem := e_mem s; e_off := size_t (e_off s + n) |}).

Definition amqp_encode_array_with (encode_value : amqp_field_value_t -> C ebuf unit)
    (encoded_len : Z) (input : list amqp_field_value_t) : C ebuf unit :=
  let* start := e_offset in
  do* advance 4 in
  do* for_each encode_value input in
  let* o := e_offset in
  require_true AMQP_STATUS_TABLE_TOO_BIG
    (at_offset start (amqp_encode_32 encoded_len (size_t (o - start - 4)))).

Definition encode_entry_with (encode_value : amqp_field_value_t -> C ebuf unit)
    (encoded_len : Z) (e : amqp_table_entry_t) : C ebuf unit :=
  do* require_true AMQP_STATUS_TABLE_TOO_BIG (amqp_encode_8 encoded_len (len e.1)) in
  do* require_true AMQP_STATUS_TABLE_TOO_BIG (amqp_encode_bytes encoded_len e.1) in
  encode_value e.2.

Definition amqp_encode_table_with (encode_value : amqp_field_value_t -> C ebuf unit)
    (encoded_len : Z) (input : amqp_table_t) : C ebuf unit :=
  let* start := e_offset in
  do* advance 4 in
  do* for_each (encode_entry_with encode_value encoded_len) input in
  let* o := e_offset in
  require_true AMQP_STATUS_TABLE_TOO_BIG
    (at_offset start (amqp_encode_32 encoded_len (size_t (o - start - 4)))).

Fixpoint amqp_encode_field_value (encoded_len : Z) (entry : amqp_field_value_t) : C ebuf unit :=
  do* require_true AMQP_STATUS_BAD_AMQP_DATA (amqp_encode_8 encoded_len (kind entry)) in
  match entry with
  | FV_BOOLEAN b =>
      require_true AMQP_STATUS_TABLE_TOO_BIG
        (amqp_encode_8 encoded_len (if b =? 0 then 0 else 1))
  | FV_I8 v | FV_U8 v =>
      require_true AMQP_STATUS_TABLE_TOO_BIG (amqp_encode_8 encoded_len v)
  | FV_I16 v | FV_U16 v =>
      require_true AMQP_STATUS_TABLE_TOO_BIG (amqp_encode_16 encoded_len v)
  | FV_I32 v | FV_U32 v | FV_F32 v =>
      require_true AMQP_STATUS_TABLE_TOO_BIG (amqp_encode_32 encoded_len v)
  | FV_I64 v | FV_U64 v | FV_F64 v | FV_TIMESTAMP v =>
      require_true AMQP_STATUS_TABLE_TOO_BIG (amqp_encode_64 encoded_len v)
  | FV_DECIMAL decimals v =>
      do* require_true AMQP_STATUS_TABLE_TOO_BIG (amqp_encode_8 encoded_len decimals) in
      require_true AMQP_STATUS_TABLE_TOO_BIG (amqp_encode_32 encoded_len v)
  | FV_UTF8 b | FV_BYTES b =>
      do* require_true AMQP_STATUS_TABLE_TOO_BIG (amqp_encode_32 encoded_len (len b)) in
      require_true AMQP_STATUS_TABLE_TOO_BIG (amqp_encode_bytes encoded_len b)
  | FV_ARRAY _ l => amqp_encode_array_with (amqp_encode_field_value encoded_len) encoded_len l
  | FV_TABLE l => amqp_encode_table_with (amqp_encode_field_value encoded_len) encoded_len l
  | FV_VOID => ret tt
  | FV_OTHER _ => throw AMQP_STATUS_INVALID_PARAMETER
  end.

Definition amqp_encode_array (encoded_len : Z) (input : list amqp_field_value_t) : C ebuf unit :=
  amqp_encode_array_with (amqp_encode_field_value encoded_len) encoded_len input.

Definition amqp_encode_table (encoded_len : Z) (input : amqp_table_t) : C ebuf unit :=
  amqp_encode_table_with (amqp_encode_field_value encoded_len) encoded_len input.
End Encode.

(** ** Induction over field values *)

(** [Forall] as a function, so that it can appear inside a recursion over field
    values. *)
Definition allP {A} (P : A -> Prop) : list A -> Prop :=
  fix go l := match l with [] => True | x :: l' => P x /\ go l' end.

Lemma allP_Forall {A} (P : A -> Prop) l : allP P l <-> Forall P l.
Proof.
  induction l as [|x l IH]; simpl; [done|]. rewrite Forall_cons. by rewrite IH.
Qed.

Definition is_leaf (v : amqp_field_value_t) : bool :=
  match v with FV_ARRAY _ _ | FV_TABLE _ => false | _ => true end.

Section ValueInd.
Context (P : amqp_field_value_t -> Prop).
Context (Hleaf : forall v, is_leaf v = true -> P v).
Context (Harray : forall b l, Forall P l -> P (FV_ARRAY b l)).
Context (Htable : forall l, Forall (fun e => P e.2) l -> P (FV_TABLE l)).

Fixpoint value_ind (v : amqp_field_value_t) : P v :=
  match v with
  | FV_ARRAY b l =>
      Harray b l ((fix go l : Forall P l :=
        match l with
        | [] => Forall_nil_2 P
        | x :: l' => Forall_cons_2 P x l' (value_ind x) (go l')
        end) l)
  | FV_TABLE l =>
      Htable l ((fix go l : Forall (fun e => P e.2) l :=
        match l with
        | [] => Forall_nil_2 _
        | x :: l' => Forall_cons_2 _ x l' (value_ind x.2) (go l')
        end) l)
  | v => Hleaf v eq_refl
  end.
End ValueInd.
