(* ===== verification/TableEncode.v ===== *)
(** * The table encoder writes the AMQP wire format

    The grammar of field values as byte strings, and the proof that
    [amqp_encode_table] and [amqp_encode_field_value] write exactly that string
    when it fits the buffer and otherwise report an error without touching what
    lies before their offset. *)

From S2P Require Import Prelude Machine Status Alloc Codec Table.

(** ** The wire format *)

Definition wire_longstr (b : amqp_bytes_t) : list Z := be_encode 4 (len b) ++ contents b.
Definition wire_shortstr (b : amqp_bytes_t) : list Z := be_encode 1 (len b) ++ contents b.
Definition wire_sized (body : list Z) : list Z := be_encode 4 (zlen body) ++ body.

Fixpoint wire_value (v : amqp_field_value_t) : list Z :=
  be_encode 1 (kind v) ++
  match v with
  | FV_BOOLEAN b => be_encode 1 (if b =? 0 then 0 else 1)
  | FV_I8 x | FV_U8 x => be_encode 1 x
  | FV_I16 x | FV_U16 x => be_encode 2 x
  | FV_I32 x | FV_U32 x | FV_F32 x => be_encode 4 x
  | FV_I64 x | FV_U64 x | FV_F64 x | FV_TIMESTAMP x => be_encode 8 x
  | FV_DECIMAL d x => be_encode 1 d ++ be_encode 4 x
  | FV_UTF8 b | FV_BYTES b => wire_longstr b
  | FV_ARRAY _ l => wire_sized (concat (map wire_value l))
  | FV_TABLE l =>
      wire_sized (concat (map (fun e => wire_shortstr e.1 ++ wire_value e.2) l))
  | FV_VOID | FV_OTHER _ => []
  end.

Definition wire_entry (e : amqp_table_entry_t) : list Z := wire_shortstr e.1 ++ wire_value e.2.
Definition wire_table (t : amqp_table_t) : list Z := wire_sized (concat (map wire_entry t)).

(** Values the encoder accepts: known kinds, with readable strings. *)
Fixpoint encodable (v : amqp_field_value_t) : Prop :=
  match v with
  | FV_UTF8 b | FV_BYTES b => readable b
  | FV_ARRAY _ l => allP encodable l
  | FV_TABLE l => allP (fun e => readable e.1 /\ encodable e.2) l
  | FV_OTHER _ => False
  | _ => True
  end.

Definition encodable_table (t : amqp_table_t) : Prop :=
  Forall (fun e => readable e.1 /\ encodable e.2) t.

(** The statuses the encoder reports when the buffer is too small. *)
Definition encode_status (e : Z) : Prop :=
  e = AMQP_STATUS_TABLE_TOO_BIG \/ e = AMQP_STATUS_BAD_AMQP_DATA.

(** ** Proofs *)

Section Encode.
Context {HH : Host} (elen : Z).

Lemma e8_wire v : amqp_e8 (u8 v) = be_encode 1 v.
Proof. rewrite amqp_e8_be. apply (be_encode_mod 1). Qed.
Lemma e16_wire v : amqp_e16 (u16 v) = be_encode 2 v.
Proof. rewrite amqp_e16_be. apply (be_encode_mod 2). Qed.
Lemma e32_wire v : amqp_e32 (u32 v) = be_encode 4 v.
Proof. rewrite amqp_e32_be. apply (be_encode_mod 4). Qed.
Lemma e64_wire v : amqp_e64 (u64 v) = be_encode 8 v.
Proof. rewrite amqp_e64_be. apply (be_encode_mod 8). Qed.

Section Prim.
Context (F : Z -> Prop) (e : Z) (He : F e).

Lemma writes_8 v : writes elen (require_true e (amqp_encode_8 elen v)) (be_encode 1 v) F.
Proof. unfold amqp_encode_8. rewrite e8_wire. apply writes_base; [|done]. by rewrite zlen_be_encode. Qed.
Lemma writes_16 v : writes elen (require_true e (amqp_encode_16 elen v)) (be_encode 2 v) F.
Proof. unfold amqp_encode_16. rewrite e16_wire. apply writes_base; [|done]. by rewrite zlen_be_encode. Qed.
Lemma writes_32 v : writes elen (require_true e (amqp_encode_32 elen v)) (be_encode 4 v) F.
Proof. unfold amqp_encode_32. rewrite e32_wire. apply writes_base; [|done]. by rewrite zlen_be_encode. Qed.
Lemma writes_64 v : writes elen (require_true e (amqp_encode_64 elen v)) (be_encode 8 v) F.
Proof. unfold amqp_encode_64. rewrite e64_wire. apply writes_base; [|done]. by rewrite zlen_be_encode. Qed.
End Prim.

(** A computation whose first action is to encode a byte fails beyond the end
    of the buffer. *)
Definition fails_past (m : C ebuf unit) : Prop :=
  forall s, 0 <= e_off s -> elen <= e_off s < 2 ^ 63 + 8 ->
    exists e s', m s = Err e s' /\ encode_status e /\ keeps_prefix s s'.

Lemma fails_past_8 e v m :
  encode_status e -> fails_past (do* require_true e (amqp_encode_8 elen v) in m).
Proof.
  intros He s Ho Hl. unfold amqp_encode_8. rewrite e8_wire.
  destruct (encode_base_full elen (be_encode 1 v) s) as (s' & Hs & Hk);
    [done|rewrite zlen_be_encode; lia|].
  exists e, s'. unfold require_true, bind. by rewrite Hs.
Qed.

(** Patching the length in front of the body. *)
Lemma patch_fits n s :
  elen <= zlen (e_mem s) -> elen <= PTRDIFF_MAX -> forall start, 0 <= start -> start + 4 <= elen ->
  require_true AMQP_STATUS_TABLE_TOO_BIG (at_offset start (amqp_encode_32 elen n)) s =
    Ret tt {| e_mem := overwrite start (be_encode 4 n) (e_mem s); e_off := e_off s |}.
Proof.
  intros Hl Hp start Hs He. unfold require_true, bind, at_offset, amqp_encode_32.
  rewrite e32_wire. rewrite encode_base_fits; simpl.
  - done.
  - repeat split; simpl; lia.
  - rewrite zlen_be_encode. lia.
Qed.

Lemma patch_full n s start :
  0 <= start -> elen < start + 4 < 2 ^ 64 -> 0 <= e_off s <= start + 4 ->
  exists s', require_true AMQP_STATUS_TABLE_TOO_BIG (at_offset start (amqp_encode_32 elen n)) s =
      Err AMQP_STATUS_TABLE_TOO_BIG s' /\ keeps_prefix s s'.
Proof.
  intros Hs He Ho. unfold require_true, bind, at_offset, amqp_encode_32. rewrite e32_wire.
  destruct (encode_base_full elen (be_encode 4 n) {| e_mem := e_mem s; e_off := start |})
    as (s' & Hr & Hk); simpl; [done|rewrite zlen_be_encode; lia|].
  rewrite Hr. eexists. split; [done|].
  unfold encode_base in Hr. destruct (_ <=? _); [by destruct (store _ _ _)|]. by simplify_eq/=.
Qed.

(** The size-prefixed body both the array and the table encoder write. *)
Definition sized_with (body : C ebuf unit) : C ebuf unit :=
  let* start := e_offset in
  do* advance 4 in
  do* body in
  let* o := e_offset in
  require_true AMQP_STATUS_TABLE_TOO_BIG
    (at_offset start (amqp_encode_32 elen (size_t (o - start - 4)))).

Lemma sized_with_run body s :
  0 <= e_off s < 2 ^ 63 ->
  sized_with body s =
    (do* body in
     let* o := e_offset in
     require_true AMQP_STATUS_TABLE_TOO_BIG
       (at_offset (e_off s) (amqp_encode_32 elen (size_t (o - e_off s - 4)))))
      {| e_mem := e_mem s; e_off := e_off s + 4 |}.
Proof.
  intros Ho. unfold sized_with. rewrite (bind_ret e_offset _ _ _ _ eq_refl).
  by rewrite (bind_ret (advance 4) _ _ tt {| e_mem := e_mem s; e_off := e_off s + 4 |})
    by (unfold advance, modify; rewrite size_t_small by lia; done).
Qed.

Lemma keeps_prefix_advanced s s' :
  0 <= e_off s -> keeps_prefix {| e_mem := e_mem s; e_off := e_off s + 4 |} s' ->
  keeps_prefix s s'.
Proof.
  intros Ho [Hk1 Hk2]. simpl in *. split; [done|].
  rewrite <- (slice_prefix (e_off s + 4) (e_off s) (e_mem s')), Hk2 by lia.
  by rewrite slice_prefix by lia.
Qed.

Lemma writes_sized body w :
  writes elen body w encode_status ->
  (body = ret tt /\ w = [] \/ fails_past body) ->
  writes elen (sized_with body) (wire_sized w) encode_status.
Proof.
  intros Hb Hpast s Hs. pose proof Hs as (Ho & Hl & Hp). pose proof (zlen_nonneg w).
  unfold PTRDIFF_MAX in *. unfold writes_at, wire_sized.
  rewrite zlen_app, zlen_be_encode, sized_with_run by lia. change (Z.of_nat 4) with 4.
  destruct (decide (e_off s + 4 <= elen)) as [H4|H4].
  - destruct (Hb {| e_mem := e_mem s; e_off := e_off s + 4 |}) as [Hf Hn];
      [repeat split; simpl; unfold PTRDIFF_MAX; lia|]. split; intros Hw.
    + rewrite (bind_ret _ _ _ _ _ (Hf ltac:(simpl; lia))).
      rewrite (bind_ret e_offset _ _ _ _ eq_refl). simpl.
      rewrite patch_fits by (simpl; rewrite ?zlen_overwrite by lia; unfold PTRDIFF_MAX; lia). simpl.
      replace (e_off s + 4 + zlen w - e_off s - 4) with (zlen w) by lia.
      rewrite size_t_small by lia.
      rewrite <- (overwrite_patch _ (be_encode 4 (zlen w))) by (rewrite ?zlen_be_encode; lia).
      rewrite zlen_be_encode. do 2 f_equal. lia.
    + destruct Hn as (e & s' & He & HF & Hk); [simpl; lia|].
      exists e, s'. unfold bind at 1. rewrite He. split_and!; [done..|].
      apply keeps_prefix_advanced; [lia|done].
  - split; intros Hw; [lia|]. destruct Hpast as [[-> ->]|Hpast].
    + unfold bind, ret, e_offset. cbv beta iota. simpl e_off.
      destruct (patch_full (size_t (e_off s + 4 - e_off s - 4))
        {| e_mem := e_mem s; e_off := e_off s + 4 |} (e_off s)) as (s' & Hr & Hk); [simpl; lia..|].
      exists AMQP_STATUS_TABLE_TOO_BIG, s'. split; [exact Hr|]. split; [by left|].
      apply keeps_prefix_advanced; [lia|done].
    + destruct (Hpast {| e_mem := e_mem s; e_off := e_off s + 4 |})
        as (e & s' & Hr & He & Hk); [simpl; lia..|].
      exists e, s'. unfold bind at 1. rewrite Hr. split_and!; [done..|].
      apply keeps_prefix_advanced; [lia|done].
Qed.

Lemma for_each_fails_past {A} (f : A -> C ebuf unit) l :
  Forall (fun x => fails_past (f x)) l ->
  for_each f l = ret tt /\ l = [] \/ fails_past (for_each f l).
Proof.
  destruct 1 as [|x l Hx _]; [by left|right]. intros s Ho Hl.
  destruct (Hx s Ho Hl) as (e & s' & He & Hk). exists e, s'. simpl. unfold bind. by rewrite He.
Qed.

Lemma encode_value_fails_past v : fails_past (amqp_encode_field_value elen v).
Proof. destruct v; (apply fails_past_8; by right). Qed.

Lemma encode_entry_fails_past f e : fails_past (encode_entry_with f elen e).
Proof. apply fails_past_8. by left. Qed.

Lemma writes_longstr b :
  readable b ->
  writes elen (do* require_true AMQP_STATUS_TABLE_TOO_BIG (amqp_encode_32 elen (len b)) in
               require_true AMQP_STATUS_TABLE_TOO_BIG (amqp_encode_bytes elen b))
    (wire_longstr b) encode_status.
Proof.
  intros Hb. apply writes_bind; [apply writes_32|apply writes_bytes]; try done; by left.
Qed.

Lemma writes_entry f w e :
  readable e.1 -> writes elen (f e.2) w encode_status ->
  writes elen (encode_entry_with f elen e) (wire_shortstr e.1 ++ w) encode_status.
Proof.
  intros Hr Hv. unfold encode_entry_with, wire_shortstr. rewrite <- app_assoc.
  apply writes_bind; [apply writes_8; by left|].
  apply writes_bind; [|done]. apply writes_bytes; [done|by left].
Qed.

Lemma writes_array f w l :
  Forall (fun v => writes elen (f v) (w v) encode_status) l ->
  Forall (fun v => fails_past (f v)) l ->
  writes elen (amqp_encode_array_with f elen l) (wire_sized (concat (map w l))) encode_status.
Proof.
  intros Hw Hp. apply writes_sized.
  - by apply writes_for_each.
  - destruct (for_each_fails_past f l Hp) as [[? ->]|?]; [by left|by right].
Qed.

Lemma writes_table f w l :
  Forall (fun e => readable e.1 /\ writes elen (f e.2) (w e.2) encode_status) l ->
  writes elen (amqp_encode_table_with f elen l)
    (wire_sized (concat (map (fun e => wire_shortstr e.1 ++ w e.2) l))) encode_status.
Proof.
  intros Hw. apply writes_sized.
  - apply writes_for_each. eapply Forall_impl; [done|].
    intros e [Hr He]. by apply writes_entry.
  - destruct (for_each_fails_past (encode_entry_with f elen) l) as [[? ->]|?];
      [|by left|by right].
    apply Forall_forall. intros. apply encode_entry_fails_past.
Qed.

Lemma writes_value v :
  encodable v -> writes elen (amqp_encode_field_value elen v) (wire_value v) encode_status.
Proof.
  induction v as [v Hleaf|b l IH|l IH] using value_ind; intros Hv.
  - destruct v; try done; simpl in Hv; (apply writes_bind; [apply writes_8; by right|]);
      match goal with
      | |- writes _ _ (be_encode 1 _) _ => apply writes_8; by left
      | |- writes _ _ (be_encode 2 _) _ => apply writes_16; by left
      | |- writes _ _ (be_encode 4 _) _ => apply writes_32; by left
      | |- writes _ _ (be_encode 8 _) _ => apply writes_64; by left
      | |- writes _ _ (wire_longstr _) _ => by apply writes_longstr
      | |- writes _ _ [] _ => apply writes_ret
      | _ => idtac
      end.
    apply writes_bind; [apply writes_8|apply writes_32]; by left.
  - apply writes_bind; [apply writes_8; by right|].
    simpl in Hv. rewrite allP_Forall in Hv. apply writes_array.
    + rewrite Forall_forall in IH, Hv |- *. auto.
    + apply Forall_forall. intros. apply encode_value_fails_past.
  - apply writes_bind; [apply writes_8; by right|].
    simpl in Hv. rewrite allP_Forall in Hv. apply writes_table.
    rewrite Forall_forall in IH, Hv |- *. intros e He. destruct (Hv e He). auto.
Qed.

Lemma writes_wire_table t :
  encodable_table t -> writes elen (amqp_encode_table elen t) (wire_table t) encode_status.
Proof.
  intros Ht. apply writes_table. eapply Forall_impl; [exact Ht|].
  intros e [Hr He]. split; [done|]. by apply writes_value.
Qed.
End Encode.
