(* ===== verification/TableDecode.v ===== *)
(** * The table decoder: safety, termination and round trip

    One set of rules for the decoder's loops, used twice: on arbitrary bytes, to
    show that [amqp_decode_table] never reads outside its buffer, always
    terminates and gives back all temporary memory; and on bytes the encoder
    wrote, to show that it returns the encoded table. *)

From S2P Require Import Prelude Machine Status Alloc Codec Table TableEncode.

Section Rules.
Context {HH : Host} {St : Type} {HA : Allocator St} {HL : AllocatorLaws St}.
Context (R : bool) (D : Z -> Prop) (HD : R = false -> D AMQP_STATUS_NO_MEMORY).
Context (encoded : amqp_bytes_t) (Hread : readable encoded) (Hsmall : len encoded <= 2 ^ 30).

Lemma wp_lift_alloc {A} (m : C St A) Q E (s : dst St) :
  wp m (fun a s' => Q a {| d_off := d_off s; d_alloc := s' |})
       (fun e s' => E e {| d_off := d_off s; d_alloc := s' |}) (d_alloc s) ->
  wp (lift_alloc m) Q E s.
Proof. unfold wp, lift_alloc. by destruct (m (d_alloc s)). Qed.

(** What a decoding loop keeps about the array it owns: [p] was live at the
    start; everything else that was live still is, and is not the array. *)
Definition keeps_others (p : ptr) (s : St) (p' : ptr) (s' : St) : Prop :=
  a_inv s' /\ reliable_if R s' /\ a_live p' s' /\
  forall q, q <> p -> a_live q s -> q <> p' /\ a_live q s'.

Lemma keeps_others_refl p s :
  a_inv s -> reliable_if R s -> a_live p s -> keeps_others p s p s.
Proof. intros. split_and!; [done..|]. auto. Qed.

Lemma keeps_others_trans p1 s1 p2 s2 p3 s3 :
  keeps_others p1 s1 p2 s2 -> keeps_others p2 s2 p3 s3 -> keeps_others p1 s1 p3 s3.
Proof.
  intros (_ & _ & _ & H1) (? & ? & ? & H2). split_and!; [done..|].
  intros q Hq Hl. destruct (H1 q Hq Hl). by apply H2.
Qed.

Lemma keeps_others_ext p s s' :
  a_live p s -> alloc_ext s s' -> reliable_if R s' -> keeps_others p s p s'.
Proof. intros Hp [Hi Hl] Hr. split_and!; [done..|by apply Hl|]. auto. Qed.

Lemma wp_grow sizeof p num alloc (s : dst St) :
  0 < sizeof <= 40 -> 16 <= alloc <= INT32_MAX -> 0 <= num < 2 ^ 30 ->
  a_inv (d_alloc s) -> reliable_if R (d_alloc s) -> a_live p (d_alloc s) ->
  wp (grow_entries sizeof p num alloc) (fun r s' =>
      d_off s' = d_off s /\ a_room (d_alloc s') = a_room (d_alloc s) /\
      match r with
      | Some (p', alloc') => 16 <= alloc' <= INT32_MAX /\ keeps_others p (d_alloc s) p' (d_alloc s')
      | None => D AMQP_STATUS_NO_MEMORY /\ keeps_others p (d_alloc s) p (d_alloc s')
      end) (fun _ _ => False) s.
Proof.
  intros Hsz Ha Hn Hi Hr Hp. unfold grow_entries, INT32_MAX in *.
  destruct (Z.leb_spec alloc num);
    [|apply wp_ret; split_and!; [done..|lia|lia|by apply keeps_others_refl]].
  rewrite (proj2 (Z.ltb_ge _ _)) by lia. rewrite size_t_small by nia.
  apply wp_bind, wp_lift_alloc. wp_use (realloc_law p (alloc * 2 * sizeof)); [done..|unfold PTRDIFF_MAX; nia| |done].
  intros r s' (Hi' & Hl & Hroom & Hrel & Hm). apply wp_ret. split; [done|]. split; [done|].
  assert (Hr' : reliable_if R s') by (intros HR; by apply Hrel, Hr).
  destruct r as [p'|]; simpl.
  - destruct Hm as [Hp' Hne]. split; [lia|]. split_and!; [done..|]. auto.
  - split.
    + apply HD. destruct R eqn:ER; [|done]. destruct Hrel as [_ [? ?]]; [by apply Hr|done].
    + split_and!; [done..|]. auto.
Qed.

(** ** The array loop *)

Section ArrayLoop.
Context (decode_value : C (dst St) amqp_field_value_t) (limit : Z).
Context (Hlimit : limit <= len encoded).
Context (J : list amqp_field_value_t -> Z -> Prop).
Context (Hdec : forall acc o, J acc o -> o < limit ->
  dspec (len encoded) R D decode_value o (fun v o' => J (acc ++ [v]) o' /\ o < o')).

Lemma array_loop_spec fuel p alloc acc (s : dst St) :
  J acc (d_off s) -> zlen acc <= d_off s -> Z.max 0 (limit - d_off s) < Z.of_nat fuel ->
  16 <= alloc <= INT32_MAX ->
  a_inv (d_alloc s) -> reliable_if R (d_alloc s) -> has_room (len encoded) s ->
  a_live p (d_alloc s) ->
  wp (decode_array_loop fuel decode_value limit p alloc acc) (fun r s' =>
      keeps_others p (d_alloc s) r.1 (d_alloc s') /\
      match r.2 with
      | inr acc' => J acc' (d_off s') /\ limit <= d_off s' /\ spends 0 s s'
      | inl e => D e
      end) (fun _ _ => False) s.
Proof.
  revert p alloc acc s. induction fuel as [|fuel IH];
    intros p alloc acc s HJ Hlen Hfuel Ha Hi Hr Hb Hp; cbn [decode_array_loop];
    destruct (Z.ltb_spec (d_off s) limit) as [Hlt|Hge]; try lia.
  - apply wp_bind. unfold wp at 1, d_offset. rewrite (proj2 (Z.ltb_lt _ _)) by done.
    apply wp_bind. pose proof (zlen_nonneg acc).
    wp_use (wp_grow sizeof_amqp_field_value_t p (zlen acc) alloc);
      [unfold sizeof_amqp_field_value_t; lia|done|lia|done..| |done].
    intros [[p' alloc']|] s1 (Ho1 & Hm1 & Hg).
    + destruct Hg as [Ha' Hk]. apply wp_bind, wp_try. pose proof Hk as (Hi1 & Hr1 & Hp1 & _).
      unfold has_room, spends in *.
      wp_use (Hdec acc (d_off s)); [done..|unfold has_room; lia| |].
      * intros v s2 ((HJ' & Hlt') & He & Hr2 & Hs2). unfold spends in Hs2.
        assert (Hk2 : keeps_others p (d_alloc s) p' (d_alloc s2)).
        { eapply keeps_others_trans; [done|]. by apply keeps_others_ext. }
        destruct Hk2 as (Hi2 & _ & Hp2 & ?).
        wp_use (IH p' alloc' (acc ++ [v]) s2); [done|rewrite zlen_app; change (zlen [v]) with 1; lia
          |lia|done..|lia|done| |done].
        intros [p3 r] s3 [Hk3 Hpost].
        split; [by eapply keeps_others_trans; [|exact Hk3]|].
        simpl in *. destruct r; [done|]. destruct Hpost as (? & ? & ?). split_and!; [done..|lia].
      * intros e s2 (He & Hext & Hr2). apply wp_ret. split; [|done]. simpl.
        eapply keeps_others_trans; [done|]. by apply keeps_others_ext.
    + destruct Hg as [HDe Hk]. apply wp_ret. done.
  - apply wp_bind. unfold wp at 1, d_offset. rewrite (proj2 (Z.ltb_ge _ _)) by done.
    apply wp_ret. split; [by apply keeps_others_refl|]. split_and!; [done..|by apply spends_refl].
Qed.
End ArrayLoop.

(** ** The table loop *)

Section TableLoop.
Context (decode_value : C (dst St) amqp_field_value_t) (limit : Z).
Context (Hlimit : limit <= len encoded).
Context (J : amqp_table_t -> Z -> Prop).
Context (Hdec : forall acc o, J acc o -> o < limit ->
  dspec (len encoded) R (fun _ => False) (amqp_decode_8 encoded) o (fun r o1 =>
    match r with
    | None => D AMQP_STATUS_BAD_AMQP_DATA
    | Some n =>
        dspec (len encoded) R (fun _ => False) (amqp_decode_bytes encoded n) o1 (fun r o2 =>
          match r with
          | None => D AMQP_STATUS_BAD_AMQP_DATA
          | Some k => dspec (len encoded) R D decode_value o2 (fun v o3 => J (acc ++ [(k, v)]) o3 /\ o < o3)
          end)
    end)).

Lemma table_loop_spec fuel p alloc acc (s : dst St) :
  J acc (d_off s) -> zlen acc <= d_off s -> Z.max 0 (limit - d_off s) < Z.of_nat fuel ->
  16 <= alloc <= INT32_MAX ->
  a_inv (d_alloc s) -> reliable_if R (d_alloc s) -> has_room (len encoded) s ->
  a_live p (d_alloc s) ->
  wp (decode_table_loop fuel decode_value encoded limit p alloc acc) (fun r s' =>
      keeps_others p (d_alloc s) r.1 (d_alloc s') /\
      match r.2 with
      | inr acc' => J acc' (d_off s') /\ limit <= d_off s' /\ spends 0 s s'
      | inl e => D e
      end) (fun _ _ => False) s.
Proof.
  revert p alloc acc s. induction fuel as [|fuel IH];
    intros p alloc acc s HJ Hlen Hfuel Ha Hi Hr Hb Hp; cbn [decode_table_loop];
    destruct (Z.ltb_spec (d_off s) limit) as [Hlt|Hge]; try lia.
  2: { apply wp_bind. unfold wp at 1, d_offset. rewrite (proj2 (Z.ltb_ge _ _)) by done.
       apply wp_ret. split; [by apply keeps_others_refl|].
       split_and!; [done..|by apply spends_refl]. }
  apply wp_bind. unfold wp at 1, d_offset. rewrite (proj2 (Z.ltb_lt _ _)) by done.
  apply wp_bind. wp_use (Hdec acc (d_off s)); [done..| |by intros ? ? [? _]].
  intros [n|] s1 (Hn & He1 & Hr1 & Hs1);
    [|apply wp_ret; split; [by apply keeps_others_ext|done]].
  assert (Hk1 : keeps_others p (d_alloc s) p (d_alloc s1)) by by apply keeps_others_ext.
  pose proof Hk1 as (Hi1 & _ & Hp1 & _). pose proof (zlen_nonneg acc).
  unfold has_room, spends in *.
  apply wp_bind. wp_use (wp_grow sizeof_amqp_table_entry_t p (zlen acc) alloc);
    [unfold sizeof_amqp_table_entry_t; lia|done|lia|done..| |done].
  intros [[p' alloc']|] s2 (Ho2 & Hm2 & Hg); [|destruct Hg as [HDe Hk2]; apply wp_ret;
    split; [by eapply keeps_others_trans|done]].
  destruct Hg as [Ha' Hk2]. pose proof Hk2 as (Hi2 & Hr2 & Hp2 & _).
  apply wp_bind. wp_use Hn; [done..|unfold has_room; lia| |by intros ? ? [? _]].
  unfold spends. intros [k|] s3 (Hk & He3 & Hr3 & Hs3); (assert (Hk3 : keeps_others p (d_alloc s) p' (d_alloc s3))
    by (eapply keeps_others_trans; [exact Hk1|eapply keeps_others_trans; [exact Hk2|];
        by apply keeps_others_ext])); [|apply wp_ret; done].
  pose proof Hk3 as (Hi3 & _ & Hp3 & _).
  apply wp_bind, wp_try. wp_use Hk; [done..|unfold has_room; lia| |].
  - unfold spends. intros v s4 ((HJ' & Hlt') & He4 & Hr4 & Hs4).
    assert (Hk4 : keeps_others p (d_alloc s) p' (d_alloc s4)).
    { eapply keeps_others_trans; [done|]. by apply keeps_others_ext. }
    pose proof Hk4 as (Hi4 & _ & Hp4 & _).
    wp_use (IH p' alloc' (acc ++ [(k, v)]) s4);
      [done|rewrite zlen_app; change (zlen [(k, v)]) with 1; lia|lia|done..|lia|done| |done].
    intros [p5 r] s5 [Hk5 Hpost]. split; [by eapply keeps_others_trans|].
    simpl in *. destruct r; [done|]. destruct Hpost as (? & ? & ?). split_and!; [done..|lia].
  - intros e s4 (He & Hext & Hr4). apply wp_ret. split; [|done]. simpl.
    eapply keeps_others_trans; [done|]. by apply keeps_others_ext.
Qed.
End TableLoop.

(** ** Size-prefixed sequences: the common frame of arrays and tables *)

Lemma wp_pool_entries {A B} sizeof (build : bool -> list A -> B) r (s : dst St) :
  0 < sizeof <= 40 ->
  match r with inl e => D e | inr es => zlen es <= 2 ^ 30 end ->
  a_inv (d_alloc s) -> reliable_if R (d_alloc s) ->
  match r with inl _ => True | inr _ => 0 < a_room (d_alloc s) end ->
  wp (pool_entries sizeof build r) (fun res s' =>
      d_off s' = d_off s /\ alloc_ext (d_alloc s) (d_alloc s') /\ reliable_if R (d_alloc s') /\
      match res, r with
      | inl e, _ => D e
      | inr b, inr es =>
          b = build (negb (zlen es =? 0)) es /\ a_room (d_alloc s) - 1 <= a_room (d_alloc s')
      | inr _, inl _ => False
      end) (fun _ _ => False) s.
Proof.
  intros Hsz Hr Hi Hrel Hb. destruct r as [e|es]; simpl.
  { apply wp_ret. split_and!; [done|by apply alloc_ext_refl|done..]. }
  pose proof (zlen_nonneg es). rewrite size_t_small by nia.
  apply wp_bind, wp_lift_alloc. wp_use (pool_alloc_law (zlen es * sizeof));
    [done|unfold PTRDIFF_MAX; nia|done| |done].
  intros q s' (Hi' & Hl & Hroom & Hrel' & Hz).
  assert (Hr' : reliable_if R s') by (intros HR; by apply Hrel', Hrel).
  destruct q as [q|]; destruct (Z.eqb_spec (zlen es) 0) as [H0|H0]; apply wp_ret;
    (do 3 (split; [done|])); try done.
  - rewrite H0 in Hz. by discriminate Hz.
  - apply HD. destruct R eqn:ER; [|done].
    destruct Hrel' as [_ Hsome]; [by apply Hrel|].
    destruct Hsome as [? ?]; [unfold PTRDIFF_MAX; nia|done].
Qed.

(** [malloc] the array, run the loop, copy to the pool, [free]. *)
Definition with_entries {A B} (sizeof : Z) (build : bool -> list A -> B)
    (loop : ptr -> C (dst St) (ptr * (Z + list A))) : C (dst St) B :=
  let* m := lift_alloc (malloc (size_t (16 * sizeof))) in
  match m with
  | None => throw AMQP_STATUS_NO_MEMORY
  | Some entries =>
      let* '(entries', r) := loop entries in
      let* res := pool_entries sizeof build r in
      do* lift_alloc (free entries') in
      finish res
  end.

Lemma with_entries_spec {A B} sizeof (build : bool -> list A -> B) loop o (Q : B -> Z -> Prop) :
  0 < sizeof <= 40 ->
  (forall p s, d_off s = o -> a_inv (d_alloc s) -> reliable_if R (d_alloc s) ->
    has_room (len encoded) s -> a_live p (d_alloc s) ->
    wp (loop p) (fun r s' =>
      keeps_others p (d_alloc s) r.1 (d_alloc s') /\
      match r.2 with
      | inr es => Q (build (negb (zlen es =? 0)) es) (d_off s') /\ zlen es <= 2 ^ 30 /\
                  d_off s' <= len encoded /\ spends 0 s s'
      | inl e => D e
      end) (fun _ _ => False) s) ->
  dspec_g (len encoded) 1 R D (with_entries sizeof build loop) o Q.
Proof.
  intros Hsz Hloop s Ho Hi Hr Hb. unfold with_entries. rewrite size_t_small by lia.
  apply wp_bind, wp_lift_alloc. wp_use (malloc_law (16 * sizeof));
    [done|unfold PTRDIFF_MAX; lia| |done].
  intros [p|] s1 (Hi1 & Hl1 & Hroom1 & Hrel1 & Hm).
  2: { apply wp_throw. split_and!; [|done|].
       - apply HD. destruct R eqn:ER; [|done]. destruct Hrel1 as [_ [? ?]]; [by apply Hr|done].
       - intros HR. by apply Hrel1, Hr. }
  destruct Hm as [Hp Hfresh]. apply wp_bind. unfold has_room, spends in *.
  wp_use (Hloop p {| d_off := d_off s; d_alloc := s1 |});
    [done..|intros HR; by apply Hrel1, Hr|simpl; lia|done| |done].
  intros [p' r] s2 [(Hi2 & Hr2 & Hp2 & Hk2) Hpost]. simpl in *.
  apply wp_bind. wp_use (wp_pool_entries sizeof build r); [done| |done..| | |done].
  { destruct r; [done|]. by destruct Hpost as (_ & ? & _). }
  { destruct r; [done|]. lia. }
  intros res s3 (Ho3 & [Hi3 Hl3] & Hr3 & Hres). apply wp_bind, wp_lift_alloc.
  wp_use (free_law p'); [done|by apply Hl3| |done].
  intros _ s4 (Hi4 & Hl4 & Hroom4 & Hrel4).
  assert (Hext : alloc_ext (d_alloc s) s4).
  { split; [done|]. intros q Hq. assert (q <> p) by congruence.
    destruct (Hk2 q) as [? ?]; [done|by apply Hl1|]. apply Hl4; [done|]. by apply Hl3. }
  assert (Hr4 : reliable_if R s4) by (intros HR; by apply Hrel4, Hr3).
  destruct res as [e|b]; simpl; [apply wp_throw; done|apply wp_ret].
  destruct r as [|es]; [done|]. destruct Hpost as (HQ & _ & _ & Hsp), Hres as [-> Hroom3].
  simpl. rewrite Ho3. split_and!; [done..|lia].
Qed.
End Rules.

(** ** Well-formed values *)

(** A byte string whose bytes can be read and are bytes. *)
Definition wf_bytes (b : amqp_bytes_t) : Prop := readable b /\ Forall is_byte (mem_of b).

(** Every member lies in the range of its C type and every string is readable. *)
Fixpoint wf_value (v : amqp_field_value_t) : Prop :=
  match v with
  | FV_BOOLEAN b => in_s 32 b
  | FV_I8 x => in_s 8 x
  | FV_U8 x => in_u 8 x
  | FV_I16 x => in_s 16 x
  | FV_U16 x => in_u 16 x
  | FV_I32 x => in_s 32 x
  | FV_U32 x | FV_F32 x => in_u 32 x
  | FV_I64 x => in_s 64 x
  | FV_U64 x | FV_F64 x | FV_TIMESTAMP x => in_u 64 x
  | FV_DECIMAL d x => in_u 8 d /\ in_u 32 x
  | FV_UTF8 b | FV_BYTES b => wf_bytes b
  | FV_ARRAY _ l => allP wf_value l
  | FV_TABLE l => allP (fun e => wf_bytes e.1 /\ wf_value e.2) l
  | FV_VOID => True
  | FV_OTHER _ => False
  end.

Definition wf_table (t : amqp_table_t) : Prop :=
  Forall (fun e => wf_bytes e.1 /\ wf_value e.2) t.

(** Keys have a length that fits the one-byte length field. *)
Fixpoint short_keys (v : amqp_field_value_t) : Prop :=
  match v with
  | FV_ARRAY _ l => allP short_keys l
  | FV_TABLE l => allP (fun e => len e.1 <= UINT8_MAX /\ short_keys e.2) l
  | _ => True
  end.

Definition short_keys_table (t : amqp_table_t) : Prop :=
  Forall (fun e => len e.1 <= UINT8_MAX /\ short_keys e.2) t.

(** How deep arrays and tables are nested. *)
Fixpoint nesting (v : amqp_field_value_t) : nat :=
  match v with
  | FV_ARRAY _ l => S (foldr (fun v n => Nat.max (nesting v) n) O l)
  | FV_TABLE l => S (foldr (fun e n => Nat.max (nesting e.2) n) O l)
  | _ => O
  end.

Definition nesting_table (t : amqp_table_t) : nat :=
  foldr (fun e n => Nat.max (nesting e.2) n) O t.

(** What decoding gives back: booleans become 0 or 1, strings become views of
    their bytes, and an array's pointer is NULL exactly when it is empty. *)
Fixpoint norm_value (v : amqp_field_value_t) : amqp_field_value_t :=
  match v with
  | FV_BOOLEAN b => FV_BOOLEAN (if b =? 0 then 0 else 1)
  | FV_UTF8 b => FV_UTF8 (view (contents b))
  | FV_BYTES b => FV_BYTES (view (contents b))
  | FV_ARRAY _ l => FV_ARRAY (negb (zlen l =? 0)) (map norm_value l)
  | FV_TABLE l => FV_TABLE (map (fun e => (view (contents e.1), norm_value e.2)) l)
  | _ => v
  end.

Definition norm_table (t : amqp_table_t) : amqp_table_t :=
  map (fun e => (view (contents e.1), norm_value e.2)) t.

(** The statuses decoding reports. *)
Definition decode_status (e : Z) : Prop :=
  e = AMQP_STATUS_BAD_AMQP_DATA \/ e = AMQP_STATUS_NO_MEMORY.

Section Prims.
Context {HH : Host} {St : Type} {HA : Allocator St} {HL : AllocatorLaws St}.
Context (encoded : amqp_bytes_t) (Hread : readable encoded).

Lemma d8_wire v : amqp_d8 (be_encode 1 v) = u8 v.
Proof. rewrite amqp_d8_be, be_decode_encode by apply length_be_encode. done. Qed.
Lemma d16_wire v : amqp_d16 (be_encode 2 v) = u16 v.
Proof. rewrite amqp_d16_be, be_decode_encode by (apply be_encode_bytes || apply length_be_encode). done. Qed.
Lemma d32_wire v : amqp_d32 (be_encode 4 v) = u32 v.
Proof. rewrite amqp_d32_be, be_decode_encode by (apply be_encode_bytes || apply length_be_encode). done. Qed.
Lemma d64_wire v : amqp_d64 (be_encode 8 v) = u64 v.
Proof. rewrite amqp_d64_be, be_decode_encode by (apply be_encode_bytes || apply length_be_encode). done. Qed.

Lemma u8_idem v : u8 (u8 v) = u8 v.
Proof. apply wrap_small, wrap_range. lia. Qed.

(** What a fixed-width read returns for any integer the encoder was given. *)
Lemma decodes_8 e v :
  decodes (HL := HL) encoded (require e (amqp_decode_8 encoded)) (be_encode 1 v) (u8 v).
Proof.
  rewrite <- (be_encode_mod 1 v). apply (decodes_base encoded Hread e 1); [lia|].
  rewrite d8_wire. apply u8_idem.
Qed.
Lemma decodes_16 e v :
  decodes (HL := HL) encoded (require e (amqp_decode_16 encoded)) (be_encode 2 v) (u16 v).
Proof.
  rewrite <- (be_encode_mod 2 v). apply (decodes_base encoded Hread e 2); [lia|].
  rewrite d16_wire. apply wrap_small, wrap_range. lia.
Qed.
Lemma decodes_32 e v :
  decodes (HL := HL) encoded (require e (amqp_decode_32 encoded)) (be_encode 4 v) (u32 v).
Proof.
  rewrite <- (be_encode_mod 4 v). apply (decodes_base encoded Hread e 4); [lia|].
  rewrite d32_wire. apply wrap_small, wrap_range. lia.
Qed.
Lemma decodes_64 e v :
  decodes (HL := HL) encoded (require e (amqp_decode_64 encoded)) (be_encode 8 v) (u64 v).
Proof.
  rewrite <- (be_encode_mod 8 v). apply (decodes_base encoded Hread e 8); [lia|].
  rewrite d64_wire. apply wrap_small, wrap_range. lia.
Qed.

(** Length-prefixed strings, as tables and methods read them. *)
Lemma decodes_longstr {A} e1 e2 b (f : amqp_bytes_t -> C (dst St) A) a :
  readable b -> len b <= UINT32_MAX -> f (view (contents b)) = ret a ->
  decodes (HL := HL) encoded
    (let* n := require e1 (amqp_decode_32 encoded) in
     let* x := require e2 (amqp_decode_bytes encoded n) in f x) (wire_longstr b) a.
Proof.
  intros Hb Hl Hf. unfold UINT32_MAX in Hl.
  eapply decodes_bind; [done|apply decodes_32|].
  eapply decodes_map; [done| |done].
  replace (u32 (len b)) with (zlen (contents b)).
  - apply decodes_bytes; [done|]. rewrite zlen_contents by done. lia.
  - rewrite zlen_contents by done. symmetry. apply wrap_small. destruct Hb. unfold in_u. lia.
Qed.

Lemma decodes_shortstr {A} e1 e2 b (f : amqp_bytes_t -> C (dst St) A) w a :
  readable b -> len b <= UINT8_MAX ->
  decodes (HL := HL) encoded (f (view (contents b))) w a ->
  decodes (HL := HL) encoded
    (let* n := require e1 (amqp_decode_8 encoded) in
     let* x := require e2 (amqp_decode_bytes encoded n) in f x) (wire_shortstr b ++ w) a.
Proof.
  intros Hb Hl Hf. unfold UINT8_MAX in Hl. unfold wire_shortstr. rewrite <- app_assoc.
  eapply decodes_bind; [done|apply decodes_8|].
  eapply decodes_bind; [done| |exact Hf].
  replace (u8 (len b)) with (zlen (contents b)).
  - apply decodes_bytes; [done|]. rewrite zlen_contents by done. lia.
  - rewrite zlen_contents by done. symmetry. apply wrap_small. destruct Hb. unfold in_u. lia.
Qed.

Section Safe.
Context (D : Z -> Prop) (e : Z) (He : D e) (Hbytes : Forall is_byte (mem_of encoded)).

Lemma be_decode_in_u n bs : Forall is_byte bs -> zlen bs = n -> in_u (8 * n) (be_decode bs).
Proof.
  intros Hb Hl. pose proof (be_decode_range bs Hb) as Hr. rewrite Hl in Hr.
  unfold in_u. rewrite Z.pow_mul_r by (pose proof (zlen_nonneg bs); lia). done.
Qed.

Lemma dsafe_8 :
  dsafe (HL := HL) encoded D 1 (require e (amqp_decode_8 encoded)) (in_u 8).
Proof.
  apply dsafe_base; [done..|lia| |done]. intros bs Hb Hl.
  rewrite amqp_d8_be by (unfold zlen in Hl; lia). by apply (be_decode_in_u 1).
Qed.
Lemma dsafe_16 :
  dsafe (HL := HL) encoded D 2 (require e (amqp_decode_16 encoded)) (in_u 16).
Proof.
  apply dsafe_base; [done..|lia| |done]. intros bs Hb Hl.
  rewrite amqp_d16_be by (done || unfold zlen in Hl; lia). by apply (be_decode_in_u 2).
Qed.
Lemma dsafe_32 :
  dsafe (HL := HL) encoded D 4 (require e (amqp_decode_32 encoded)) (in_u 32).
Proof.
  apply dsafe_base; [done..|lia| |done]. intros bs Hb Hl.
  rewrite amqp_d32_be by (done || unfold zlen in Hl; lia). by apply (be_decode_in_u 4).
Qed.
Lemma dsafe_64 :
  dsafe (HL := HL) encoded D 8 (require e (amqp_decode_64 encoded)) (in_u 64).
Proof.
  apply dsafe_base; [done..|lia| |done]. intros bs Hb Hl.
  rewrite amqp_d64_be by (done || unfold zlen in Hl; lia). by apply (be_decode_in_u 8).
Qed.
Lemma dsafe_str n :
  0 <= n < 2 ^ 33 ->
  dsafe (HL := HL) encoded D 0 (require e (amqp_decode_bytes encoded n)) wf_bytes.
Proof.
  intros Hn. eapply dsafe_weaken; [by apply dsafe_bytes|done|]. by intros b (_ & ? & ?).
Qed.
End Safe.
End Prims.

(** ** Decoding arbitrary bytes *)

Section Safety.
Context {HH : Host} {St : Type} {HA : Allocator St} {HL : AllocatorLaws St}.
Context (encoded : amqp_bytes_t) (Hread : readable encoded) (Hsmall : len encoded <= 2 ^ 30).
Context (Hbytes : Forall is_byte (mem_of encoded)).

Lemma decode_status_bad : decode_status AMQP_STATUS_BAD_AMQP_DATA.
Proof. by left. Qed.
Lemma decode_status_nomem : decode_status AMQP_STATUS_NO_MEMORY.
Proof. by right. Qed.
Hint Resolve decode_status_bad decode_status_nomem : core.

Lemma dspec_offset L R D o :
  dspec (HL := HL) L R D d_offset o (fun r o' => r = o /\ o' = o).
Proof.
  intros s Ho Hi Hr _. unfold wp, d_offset.
  split_and!; [done..|by apply alloc_ext_refl|done|by apply spends_refl].
Qed.

(** The size prefix, the check against the buffer, and the entries: reading the
    prefix makes room for the block the entries need. *)
Lemma dspec_sized {A B} R (D : Z -> Prop) sizeof (build : bool -> list A -> B) loop o P Q :
  (forall n o1, P n o1 -> len encoded < size_t (n + o1) -> D AMQP_STATUS_BAD_AMQP_DATA) ->
  dspec (len encoded) R D (require AMQP_STATUS_BAD_AMQP_DATA (amqp_decode_32 encoded)) o
    (fun n o1 => P n o1 /\ o + 4 <= o1) ->
  (forall n o1, P n o1 -> size_t (n + o1) <= len encoded ->
    dspec_g (len encoded) 1 R D (with_entries sizeof build (loop (size_t (o1 + n)))) o1 Q) ->
  dspec (len encoded) R D
    (let* n := require AMQP_STATUS_BAD_AMQP_DATA (amqp_decode_32 encoded) in
     let* o := d_offset in
     if len encoded <? size_t (n + o) then throw AMQP_STATUS_BAD_AMQP_DATA
     else with_entries sizeof build (loop (size_t (o + n)))) o Q.
Proof.
  intros HD Hread32 Hloop. eapply (dspec_bind_g _ _ _ (- 4) 1); [lia..| |].
  - apply (dspec_gain _ _ _ _ 4); [apply read_alloc|exact Hread32|]. by intros n o1 [_ ?].
  - intros n o1 [HP _]. eapply (dspec_bind_g _ _ _ 0 1); [lia..|apply dspec_offset|].
    intros ? ? [-> ->]. destruct (Z.ltb_spec (len encoded) (size_t (n + o1))).
    + apply dspec_throw. by eapply HD.
    + by apply Hloop.
Qed.

Lemma dsafe_sized {A B} sizeof (build : bool -> list A -> B) loop (P : A -> Prop) (Q : B -> Prop) :
  0 < sizeof <= 40 ->
  (forall b es, Forall P es -> Q (build b es)) ->
  (forall limit p s, limit <= len encoded -> 0 <= d_off s <= limit ->
    a_inv (d_alloc s) -> has_room (len encoded) s -> a_live p (d_alloc s) ->
    wp (loop limit p) (fun r s' =>
      keeps_others false p (d_alloc s) r.1 (d_alloc s') /\
      match r.2 with
      | inr es => Forall P es /\ d_off s <= d_off s' <= len encoded /\
                  zlen es <= d_off s' /\ spends 0 s s'
      | inl e => decode_status e
      end) (fun _ _ => False) s) ->
  dsafe encoded decode_status 4
    (let* n := require AMQP_STATUS_BAD_AMQP_DATA (amqp_decode_32 encoded) in
     let* o := d_offset in
     if len encoded <? size_t (n + o) then throw AMQP_STATUS_BAD_AMQP_DATA
     else with_entries sizeof build (loop (size_t (o + n)))) Q.
Proof.
  intros Hsz HQ Hloop o Ho.
  eapply (dspec_sized _ _ _ _ _ _ (fun n o1 => in_u 32 n /\ o + 4 <= o1 <= len encoded)); [done| |].
  { eapply dspec_mono; [by apply (dsafe_32 encoded Hread decode_status)|].
    intros n o1 [? ?]. split; [done|lia]. }
  unfold in_u. intros n o1 [Hn Ho1]. rewrite (Z.add_comm n), size_t_small by lia. intros Hle.
  apply with_entries_spec; [done..|]. intros p s Hs Hi _ Hb Hp.
  wp_use (Hloop (o1 + n) p s); [lia..|done|done|done| |done].
  intros [p' [e|es]] s' [Hk Hr]; (split; [done|]); simpl in *; [done|].
  destruct Hr as (HP & Ho' & Hz & ?). split_and!; [by apply HQ|lia..|done].
Qed.

Lemma dsafe_array dec :
  dsafe encoded decode_status 1 dec wf_value ->
  dsafe encoded decode_status 4 (amqp_decode_array dec encoded) wf_value.
Proof.
  intros Hdec. apply (dsafe_sized sizeof_amqp_field_value_t FV_ARRAY
    (fun limit p => decode_array_loop (loop_fuel encoded) dec limit p INITIAL_ARRAY_SIZE [])
    wf_value).
  - unfold sizeof_amqp_field_value_t; lia.
  - intros b es Hes. simpl. by apply allP_Forall.
  - intros limit p s Hlim Ho Hi Hb Hp.
    pose proof Hread as [Hl _]. unfold zlen in Hl.
    wp_use (array_loop_spec false decode_status (fun _ => decode_status_nomem) encoded
              Hsmall dec limit Hlim
              (fun acc o => Forall wf_value acc /\ d_off s <= o <= len encoded /\ zlen acc <= o));
      [|split_and!; [done|lia..|change (zlen []) with 0; lia]|change (zlen []) with 0; lia
       |unfold loop_fuel; lia|unfold INITIAL_ARRAY_SIZE, INT32_MAX; lia|done..| |done].
    + intros acc o (Hacc & Ho' & Hz) Hlt. eapply dspec_mono; [apply Hdec; lia|].
      intros v o' [Hv Ho'']. split; [|lia]. rewrite Forall_app, Forall_singleton, zlen_app.
      change (zlen [v]) with 1. split_and!; [done..|lia|lia|lia].
    + intros [p' [e|es]] s' [Hk Hr]; (split; [done|]); simpl in *; [done|].
      destruct Hr as ((? & ? & ?) & ? & ?). split_and!; done || lia.
Qed.

Lemma dsafe_table_internal dec :
  dsafe encoded decode_status 1 dec wf_value ->
  dsafe encoded decode_status 4 (amqp_decode_table_internal dec encoded) wf_table.
Proof.
  intros Hdec. apply (dsafe_sized sizeof_amqp_table_entry_t (fun _ es => es)
    (fun limit p => decode_table_loop (loop_fuel encoded) dec encoded limit p INITIAL_TABLE_SIZE [])
    (fun e => wf_bytes e.1 /\ wf_value e.2)).
  - unfold sizeof_amqp_table_entry_t; lia.
  - done.
  - intros limit p s Hlim Ho Hi Hb Hp.
    pose proof Hread as [Hl _]. unfold zlen in Hl.
    wp_use (table_loop_spec false decode_status (fun _ => decode_status_nomem) encoded
              Hsmall dec limit Hlim
              (fun acc o => wf_table acc /\ d_off s <= o <= len encoded /\ zlen acc <= o));
      [|split_and!; [apply Forall_nil_2|lia..|change (zlen []) with 0; lia]|change (zlen []) with 0; lia
       |unfold loop_fuel; lia|unfold INITIAL_TABLE_SIZE, INT32_MAX; lia|done..| |done].
    + intros acc o (Hacc & Ho' & Hz) Hlt.
      eapply dspec_mono; [apply dspec_base; [done|lia..]|].
      intros [n|] o1; [|done]. intros (-> & -> & ?).
      assert (Hn : in_u 8 (amqp_d8 (slice o 1 (mem_of encoded)))).
      { rewrite amqp_d8_be.
        - apply (be_decode_in_u 1); [by apply Forall_take, Forall_drop|apply zlen_slice; unfold zlen; lia].
        - pose proof (zlen_slice o 1 (mem_of encoded)). unfold zlen in *. lia. }
      unfold in_u in Hn. set (n := amqp_d8 _) in *. clearbody n.
      eapply dspec_mono; [apply dspec_bytes; [done|lia..]|].
      intros [k|] o2; [|done]. intros (-> & -> & ?).
      eapply dspec_mono; [apply Hdec; lia|]. intros v o3 [Hv Ho3]. split; [|lia].
      unfold wf_table. rewrite Forall_app, Forall_singleton, zlen_app.
      change (zlen [_]) with 1. split_and!; [done| |done|lia|lia|lia].
      unfold wf_bytes, readable, mem_of, PTRDIFF_MAX; simpl.
      rewrite zlen_slice by (unfold mem_of, zlen in *; lia).
      split; [lia|]. by apply Forall_take, Forall_drop.
    + intros [p' [e|es]] s' [Hk Hr]; (split; [done|]); simpl in *; [done|].
      destruct Hr as ((? & ? & ?) & ? & ?). split_and!; done || lia.
Qed.

(** A read followed by a pure conversion. *)
Lemma dsafe_read {A} k (m : C (dst St) Z) (P : Z -> Prop) (f : Z -> A) (Q : A -> Prop) :
  0 <= k -> dsafe encoded decode_status k m P -> (forall x, P x -> Q (f x)) ->
  dsafe encoded decode_status 0 (let* x := m in ret (f x)) Q.
Proof.
  intros Hk Hm HQ. eapply dsafe_bind_0; [exact Hk|exact Hm|]. intros x Hx.
  apply dsafe_ret. by apply HQ.
Qed.

Lemma dsafe_string (f : amqp_bytes_t -> amqp_field_value_t) :
  (forall b, wf_bytes b -> wf_value (f b)) ->
  dsafe encoded decode_status 0
    (let* n := require AMQP_STATUS_BAD_AMQP_DATA (amqp_decode_32 encoded) in
     let* b := require AMQP_STATUS_BAD_AMQP_DATA (amqp_decode_bytes encoded n) in
     ret (f b)) wf_value.
Proof.
  intros Hf. eapply (dsafe_bind_0 _ _ 4); [lia|by apply dsafe_32|]. unfold in_u. intros n Hn.
  eapply (dsafe_bind_0 _ _ 0); [lia|apply dsafe_str; [done..|lia]|].
  intros b Hb. apply dsafe_ret. by apply Hf.
Qed.

Lemma dsafe_field_value fuel depth :
  Z.max 0 (TABLE_DEPTH_LIMIT + 1 - depth) < Z.of_nat fuel ->
  dsafe encoded decode_status 1 (amqp_decode_field_value fuel encoded depth) wf_value.
Proof.
  revert depth. induction fuel as [|fuel IH]; intros depth Hf; [lia|].
  cbn [amqp_decode_field_value].
  destruct (Z.ltb_spec TABLE_DEPTH_LIMIT depth); [by apply dsafe_throw|].
  assert (Hrec : dsafe encoded decode_status 1
    (amqp_decode_field_value fuel encoded (depth + 1)) wf_value) by (apply IH; lia).
  eapply (dsafe_bind_l _ _ 1); [lia|by apply dsafe_8|]. intros k _.
  destruct (kind_of k) as [[]|]; try (by apply dsafe_throw); try (by apply dsafe_ret);
    try (eapply dsafe_read; [|first [by apply dsafe_8|by apply dsafe_16|by apply dsafe_32
      |by apply dsafe_64]|]; [lia|]; intros x Hx; simpl; try done).
  - by destruct (x =? 0).
  - by apply to_signed_range.
  - by apply to_signed_range.
  - by apply to_signed_range.
  - by apply to_signed_range.
  - eapply (dsafe_bind_0 _ _ 1); [lia|by apply dsafe_8|]. intros d Hd.
    eapply dsafe_read; [|by apply dsafe_32|]; [lia|]. done.
  - by apply dsafe_string.
  - eapply dsafe_weaken; [by apply dsafe_array|lia|done].
  - eapply (dsafe_bind_0 _ _ 4); [lia|by apply dsafe_table_internal|].
    intros t Ht. apply dsafe_ret. simpl. by apply allP_Forall.
  - by apply dsafe_string.
Qed.

Lemma dsafe_table : dsafe encoded decode_status 4 (amqp_decode_table encoded) wf_table.
Proof.
  apply dsafe_table_internal, dsafe_field_value. unfold depth_fuel, TABLE_DEPTH_LIMIT. lia.
Qed.
End Safety.

(** ** Decoding what was encoded *)

Section RoundTrip.
Context {HH : Host} {St : Type} {HA : Allocator St} {HL : AllocatorLaws St}.
Context (encoded : amqp_bytes_t) (Hread : readable encoded) (Hsmall : len encoded <= 2 ^ 30).

Abbreviation never := (fun _ : Z => False).

Lemma never_nomem : true = false -> never AMQP_STATUS_NO_MEMORY.
Proof. done. Qed.

(** The position of a loop that reads the elements of [l], encoded by [w], and
    collects [g] of each. *)
Section Position.
Context {A B : Type} (w : A -> list Z) (g : A -> B) (l : list A) (o0 : Z).
Context (Hw : Forall (fun x => 0 < zlen (w x)) l).
Context (Hat : holds_at encoded o0 (concat (map w l))).

Definition read_upto (acc : list B) (o : Z) : Prop :=
  exists l1 l2, l = l1 ++ l2 /\ acc = map g l1 /\ o = o0 + zlen (concat (map w l1)).

Lemma read_upto_start : read_upto [] o0.
Proof. exists [], l. change (zlen _) with 0. split_and!; [done..|lia]. Qed.

Lemma read_upto_step acc o :
  read_upto acc o -> o < o0 + zlen (concat (map w l)) ->
  exists x, x ∈ l /\ holds_at encoded o (w x) /\ 0 < zlen (w x) /\
    read_upto (acc ++ [g x]) (o + zlen (w x)).
Proof.
  intros (l1 & l2 & Hl & -> & ->) Hlt. destruct l2 as [|x l2].
  { rewrite app_nil_r in Hl. subst. lia. }
  exists x. assert (Hx : x ∈ l) by (rewrite Hl; set_solver).
  split; [done|]. split; [|split].
  - rewrite Hl, map_app, concat_app in Hat. apply holds_at_app in Hat as [_ Ha]; [|done].
    simpl in Ha. by apply holds_at_app in Ha as [Ha _].
  - rewrite Forall_forall in Hw. by apply Hw.
  - exists (l1 ++ [x]), l2. rewrite !map_app, concat_app, zlen_app, <- app_assoc. simpl.
    rewrite app_nil_r. split_and!; [done..|lia].
Qed.

Lemma read_upto_end acc o :
  read_upto acc o -> o0 + zlen (concat (map w l)) <= o ->
  acc = map g l /\ o = o0 + zlen (concat (map w l)).
Proof.
  intros (l1 & l2 & Hl & -> & ->) Hge. destruct l2 as [|x l2].
  { rewrite app_nil_r in Hl. by subst. }
  exfalso. rewrite Hl, map_app, concat_app, zlen_app in Hge. simpl in Hge.
  rewrite zlen_app in Hge. pose proof (zlen_nonneg (concat (map w l2))).
  rewrite Forall_forall in Hw. specialize (Hw x). rewrite Hl in Hw. specialize (Hw ltac:(set_solver)).
  lia.
Qed.

Lemma length_le_wire : zlen l <= zlen (concat (map w l)).
Proof.
  clear Hat. induction l as [|x l' IH]; [done|]. apply Forall_cons in Hw as [Hx Hl].
  simpl. rewrite zlen_app. specialize (IH Hl). unfold zlen in *. simpl length. lia.
Qed.
End Position.

Lemma decodes_sized {A B R} sizeof (build : bool -> list B -> R)
    (loop : Z -> ptr -> C (dst St) (ptr * (Z + list B))) (w : A -> list Z) (g : A -> B) l :
  0 < sizeof <= 40 ->
  Forall (fun x => 0 < zlen (w x)) l ->
  (forall p s, holds_at encoded (d_off s) (concat (map w l)) ->
    a_inv (d_alloc s) -> a_reliable (d_alloc s) -> has_room (len encoded) s ->
    a_live p (d_alloc s) ->
    wp (loop (d_off s + zlen (concat (map w l))) p) (fun r s' =>
      keeps_others true p (d_alloc s) r.1 (d_alloc s') /\
      match r.2 with
      | inr es => es = map g l /\ d_off s' = d_off s + zlen (concat (map w l)) /\ spends 0 s s'
      | inl e => False
      end) (fun _ _ => False) s) ->
  decodes encoded
    (let* n := require AMQP_STATUS_BAD_AMQP_DATA (amqp_decode_32 encoded) in
     let* o := d_offset in
     if len encoded <? size_t (n + o) then throw AMQP_STATUS_BAD_AMQP_DATA
     else with_entries sizeof build (loop (size_t (o + n))))
    (wire_sized (concat (map w l))) (build (negb (zlen l =? 0)) (map g l)).
Proof.
  intros Hsz Hw Hloop o Ho. set (W := concat (map w l)) in *.
  unfold wire_sized in *. apply holds_at_app in Ho as [Ho1 Ho2]; [|done].
  rewrite zlen_app. rewrite zlen_be_encode in *. change (Z.of_nat 4) with 4 in *.
  pose proof (zlen_nonneg W). pose proof Ho2 as (? & ? & ?).
  set (P := fun n o1 => n = zlen W /\ o1 = o + 4).
  apply (dspec_sized encoded _ _ _ _ _ _ P).
  { intros n o1 [-> ->]. rewrite size_t_small; lia. }
  { eapply dspec_mono; [by apply decodes_32|]. intros n ? [-> ->]. unfold P.
    rewrite zlen_be_encode. change (Z.of_nat 4) with 4.
    split_and!; [apply wrap_small; unfold in_u; lia|lia..]. }
  { intros n o1 [-> ->] _. rewrite size_t_small by lia.
    apply with_entries_spec; [done..|]. intros p s Hs Hi Hr Hb Hp.
    specialize (Hloop p s). rewrite Hs in Hloop.
    wp_use Hloop; [done|done|by apply Hr|done|done| |done].
    intros [p' [|es]] s' [Hk Hr']; (split; [done|]); simpl in *; [done|].
    destruct Hr' as (-> & -> & ?). pose proof (length_le_wire w l Hw) as Hlw. fold W in Hlw.
    unfold zlen in *. rewrite length_map. split_and!; [done|lia..|done]. }
Qed.

Lemma wire_value_nonempty v : 0 < zlen (wire_value v).
Proof.
  destruct v; cbn [wire_value]; rewrite zlen_app, zlen_be_encode;
    match goal with |- context [zlen ?x] => pose proof (zlen_nonneg x) end; lia.
Qed.

Lemma wire_entry_nonempty e : 0 < zlen (wire_entry e).
Proof.
  unfold wire_entry. rewrite zlen_app. pose proof (wire_value_nonempty e.2).
  pose proof (zlen_nonneg (wire_shortstr e.1)). lia.
Qed.

Lemma decodes_array dec l :
  Forall (fun v => decodes encoded dec (wire_value v) (norm_value v)) l ->
  decodes encoded (amqp_decode_array dec encoded)
    (wire_sized (concat (map wire_value l))) (FV_ARRAY (negb (zlen l =? 0)) (map norm_value l)).
Proof.
  intros Hdec. apply (decodes_sized sizeof_amqp_field_value_t FV_ARRAY
    (fun limit p => decode_array_loop (loop_fuel encoded) dec limit p INITIAL_ARRAY_SIZE [])).
  - unfold sizeof_amqp_field_value_t; lia.
  - apply Forall_forall. intros. apply wire_value_nonempty.
  - intros p s Hat Hi Hr Hb Hp. set (W := concat (map wire_value l)) in *.
    pose proof Hat as (? & ? & _). pose proof Hread as [Hl _].
    assert (Hne : Forall (fun x => 0 < zlen (wire_value x)) l)
      by (apply Forall_forall; intros; apply wire_value_nonempty).
    wp_use (array_loop_spec true never never_nomem encoded Hsmall dec (d_off s + zlen W)
              ltac:(lia) (read_upto wire_value norm_value l (d_off s)));
      [|apply read_upto_start|change (zlen []) with 0; lia
       |unfold loop_fuel, zlen in *; lia|unfold INITIAL_ARRAY_SIZE, INT32_MAX; lia
       |done|by intros _|done|done| |done].
    + intros acc o HJ Hlt.
      destruct (read_upto_step wire_value norm_value l (d_off s) Hne Hat acc o HJ Hlt)
        as (x & Hx & Hox & Hpos & HJ').
      rewrite Forall_forall in Hdec. eapply dspec_mono; [by apply (Hdec x Hx)|].
      intros v o' [-> ->]. split; [done|lia].
    + intros [p' [e|es]] s' [Hk Hres]; (split; [done|]); simpl in *; [done|].
      destruct Hres as (HJ & Hge & ?).
      by destruct (read_upto_end wire_value norm_value l (d_off s) Hne Hat es (d_off s') HJ Hge).
Qed.

Lemma decodes_table_internal dec l :
  Forall (fun e => readable e.1 /\ len e.1 <= UINT8_MAX /\
                   decodes encoded dec (wire_value e.2) (norm_value e.2)) l ->
  decodes encoded (amqp_decode_table_internal dec encoded) (wire_table l) (norm_table l).
Proof.
  intros Hdec. apply (decodes_sized sizeof_amqp_table_entry_t (fun _ es => es)
    (fun limit p => decode_table_loop (loop_fuel encoded) dec encoded limit p INITIAL_TABLE_SIZE [])
    wire_entry (fun e => (view (contents e.1), norm_value e.2))).
  - unfold sizeof_amqp_table_entry_t; lia.
  - apply Forall_forall. intros. apply wire_entry_nonempty.
  - intros p s Hat Hi Hr Hb Hp. set (W := concat (map wire_entry l)) in *.
    pose proof Hat as (? & ? & _). pose proof Hread as [Hl _].
    assert (Hne : Forall (fun x => 0 < zlen (wire_entry x)) l)
      by (apply Forall_forall; intros; apply wire_entry_nonempty).
    set (g := fun e : amqp_table_entry_t => (view (contents e.1), norm_value e.2)).
    wp_use (table_loop_spec true never never_nomem encoded Hsmall dec (d_off s + zlen W)
              ltac:(lia) (read_upto wire_entry g l (d_off s)));
      [|apply read_upto_start|change (zlen []) with 0; lia
       |unfold loop_fuel, zlen in *; lia|unfold INITIAL_TABLE_SIZE, INT32_MAX; lia
       |done|by intros _|done|done| |done].
    + intros acc o HJ Hlt.
      destruct (read_upto_step wire_entry g l (d_off s) Hne Hat acc o HJ Hlt)
        as (x & Hx & Hox & Hpos & HJ').
      rewrite Forall_forall in Hdec. destruct (Hdec x Hx) as (Hrx & Hkx & Hvx).
      unfold wire_entry, wire_shortstr in Hox. rewrite <- app_assoc in Hox.
      apply holds_at_app in Hox as [Ho8 Hox]; [|done].
      apply holds_at_app in Hox as [Hok Hov]; [|done].
      pose proof (zlen_contents _ Hrx) as Hc. pose proof (zlen_nonneg (contents x.1)).
      unfold UINT8_MAX in Hkx.
      rewrite zlen_be_encode in *. change (Z.of_nat 1) with 1 in *.
      destruct Ho8 as (Ho8a & Ho8b & Ho8c). rewrite zlen_be_encode in *.
      eapply dspec_mono; [apply dspec_base; [done|lia..]|].
      intros [n|] o1; [|lia]. intros (-> & -> & _). change (Z.of_nat 1) with 1 in Ho8c.
      rewrite Ho8c, d8_wire.
      replace (u8 (len x.1)) with (zlen (contents x.1))
        by (rewrite Hc; symmetry; apply wrap_small; destruct Hrx; unfold in_u; lia).
      destruct Hok as (Hoka & Hokb & Hokc).
      eapply dspec_mono; [apply dspec_bytes; [done|lia..]|].
      intros [k|] o2; [|lia]. intros (-> & -> & _). rewrite Hokc.
      eapply dspec_mono; [by apply Hvx|]. intros v o' [-> ->].
      replace (o + 1 + zlen (contents x.1) + zlen (wire_value x.2)) with (o + zlen (wire_entry x)).
      * split; [done|lia].
      * unfold wire_entry, wire_shortstr. rewrite !zlen_app, zlen_be_encode. lia.
    + intros [p' [e|es]] s' [Hk Hres]; (split; [done|]); simpl in *; [done|].
      destruct Hres as (HJ & Hge & ?).
      by destruct (read_upto_end wire_entry g l (d_off s) Hne Hat es (d_off s') HJ Hge).
Qed.

Lemma nesting_array_le v l : v ∈ l -> (nesting v <= foldr (fun v n => Nat.max (nesting v) n) O l)%nat.
Proof. induction l as [|x l IH]; [by intros ?%elem_of_nil|]. intros [->|Hv]%elem_of_cons; simpl; [|specialize (IH Hv)]; lia. Qed.

Lemma nesting_entry_le e t : e ∈ t -> (nesting e.2 <= nesting_table t)%nat.
Proof. induction t as [|x t IH]; [by intros ?%elem_of_nil|]. intros [->|Hv]%elem_of_cons; simpl; [|specialize (IH Hv)]; unfold nesting_table in *; lia. Qed.

(** A long string read back, whatever its length: the buffer bounds it. *)
Lemma decodes_longstr_value b (f : amqp_bytes_t -> amqp_field_value_t) :
  readable b ->
  decodes encoded
    (let* n := require AMQP_STATUS_BAD_AMQP_DATA (amqp_decode_32 encoded) in
     let* x := require AMQP_STATUS_BAD_AMQP_DATA (amqp_decode_bytes encoded n) in ret (f x))
    (wire_longstr b) (f (view (contents b))).
Proof.
  intros Hb o Ho. assert (len b <= UINT32_MAX).
  { destruct Ho as (? & Hl & _). unfold wire_longstr in Hl.
    rewrite zlen_app, zlen_be_encode, zlen_contents in Hl by done. unfold UINT32_MAX. lia. }
  by apply decodes_longstr.
Qed.

Ltac read_leaf := eapply decodes_map;
  [done|first [by apply decodes_8|by apply decodes_16|by apply decodes_32|by apply decodes_64]|];
  simpl; do 2 f_equal;
  first [by apply wrap_small|by apply to_signed_wrap; [lia|]].

(** Reduce the [switch] on a kind byte that was just read. *)
Ltac known_kind :=
  match goal with
  | |- context [kind_of ?z] =>
      let r := eval vm_compute in (kind_of z) in change (kind_of z) with r; cbv iota
  end.

Lemma decodes_value v : forall fuel depth,
  wf_value v -> short_keys v ->
  Z.of_nat (nesting v) + depth <= TABLE_DEPTH_LIMIT -> (nesting v < fuel)%nat ->
  decodes encoded (amqp_decode_field_value fuel encoded depth) (wire_value v) (norm_value v).
Proof.
  induction v as [v Hleaf|b l IH|l IH] using value_ind;
    intros [|fuel] depth Hwf Hkeys Hdepth Hfuel; try lia;
    cbn [amqp_decode_field_value]; rewrite (proj2 (Z.ltb_ge _ _)) by lia.
  - destruct v; try done; cbn [wire_value norm_value wf_value] in *;
      (eapply decodes_bind; [done|by apply decodes_8|]); known_kind;
      try read_leaf; try (by apply decodes_longstr_value, Hwf).
    + eapply decodes_map; [done|by apply decodes_8|]. by destruct (boolean =? 0).
    + destruct Hwf. eapply decodes_bind; [done|by apply decodes_8|].
      eapply decodes_map; [done|by apply decodes_32|]. simpl. do 2 f_equal; by apply wrap_small.
    + apply decodes_ret.
  - cbn [wire_value norm_value wf_value short_keys nesting] in *.
    apply allP_Forall in Hwf, Hkeys.
    eapply decodes_bind; [done|by apply decodes_8|]. known_kind.
    apply decodes_array. rewrite Forall_forall in *. intros v Hv.
    pose proof (nesting_array_le v l Hv). apply IH; auto; lia.
  - cbn [wire_value norm_value wf_value short_keys nesting] in *.
    apply allP_Forall in Hwf, Hkeys.
    eapply decodes_bind; [done|by apply decodes_8|]. known_kind.
    eapply decodes_map; [done|apply decodes_table_internal|done].
    rewrite Forall_forall in *. intros e He.
    pose proof (nesting_entry_le e l He) as Hn. unfold nesting_table in Hn.
    destruct (Hwf e He) as [[? ?] ?], (Hkeys e He). split_and!; [done..|]. apply IH; auto; lia.
Qed.

Lemma decodes_table t :
  wf_table t -> short_keys_table t -> Z.of_nat (nesting_table t) <= TABLE_DEPTH_LIMIT ->
  decodes encoded (amqp_decode_table encoded) (wire_table t) (norm_table t).
Proof.
  intros Hwf Hkeys Hn. apply decodes_table_internal. unfold wf_table, short_keys_table in *.
  rewrite Forall_forall in *. intros e He. pose proof (nesting_entry_le e t He).
  destruct (Hwf e He) as [[? ?] ?], (Hkeys e He). split_and!; [done..|].
  apply decodes_value; [done..|lia|unfold depth_fuel; lia].
Qed.
End RoundTrip.
