(* ===== verification/Mem.v ===== *)
(** * Memory: the heap of the C library and the pools of [librabbitmq/amqp_mem.c]

    The heap is a finite map from block numbers to byte strings.  An environment
    decides which requests are granted and what fresh memory contains.  On top
    of it: [amqp_pool_t] with its block lists, allocation, recycling and
    emptying, the channel pool table and the byte-string helpers.  The theorems
    about pools are in [MemTheory.v]. *)

From S2P Require Import Prelude Machine Status Alloc.

(** ** The heap *)

(** What the C library does that the program cannot know in advance: whether
    the [n]-th request is granted, and the contents of uninitialised memory. *)
Record env : Type := mk_env {
  grants : nat -> bool;
  junk : nat -> nat -> Z
}.

Record heap : Type := mk_heap {
  h_blocks : gmap Z (list Z);
  h_next : Z;
  h_count : nat;
  h_env : env
}.

Definition counted (h : heap) : heap :=
  {| h_blocks := h_blocks h; h_next := h_next h; h_count := S (h_count h); h_env := h_env h |}.

Definition set_blocks (bs : gmap Z (list Z)) (h : heap) : heap :=
  {| h_blocks := bs; h_next := h_next h; h_count := h_count h; h_env := h_env h |}.

(** A request for [n] bytes with the given initial contents.  A size above
    [PTRDIFF_MAX] is never granted. *)
Definition heap_alloc (n : Z) (fill : nat -> Z) : C heap (option ptr) := fun h =>
  if (n <=? PTRDIFF_MAX) && grants (h_env h) (h_count h) then
    Ret (Some {| p_block := h_next h; p_off := 0 |})
      {| h_blocks := <[h_next h := fill <$> seq 0 (Z.to_nat n)]> (h_blocks h);
         h_next := h_next h + 1;
         h_count := S (h_count h);
         h_env := h_env h |}
  else Ret None (counted h).

Definition c_malloc (n : Z) : C heap (option ptr) := fun h =>
  heap_alloc n (junk (h_env h) (h_count h)) h.

(** [calloc(1, n)] *)
Definition c_calloc (n : Z) : C heap (option ptr) := heap_alloc n (fun _ => 0).

(** Only a pointer to the start of a live block may be freed; [free(NULL)] does
    nothing. *)
Definition c_free (p : option ptr) : C heap unit := fun h =>
  match p with
  | None => Ret tt h
  | Some p =>
      match h_blocks h !! p_block p with
      | Some _ =>
          if p_off p =? 0 then Ret tt (set_blocks (delete (p_block p) (h_blocks h)) h) else UB
      | None => UB
      end
  end.

(** [realloc] of a live block: the block moves, keeping what fits. *)
Definition c_realloc (p : ptr) (n : Z) : C heap (option ptr) := fun h =>
  match h_blocks h !! p_block p with
  | Some old =>
      if p_off p =? 0 then
        match heap_alloc n (fun i => default (junk (h_env h) (h_count h) i) (old !! i)) h with
        | Ret (Some q) h' => Ret (Some q) (set_blocks (delete (p_block p) (h_blocks h')) h')
        | o => o
        end
      else UB
  | None => UB
  end.

(** [memcpy] into a live block. *)
Definition heap_store (p : ptr) (bs : list Z) : C heap unit := fun h =>
  match h_blocks h !! p_block p with
  | Some old =>
      match store (p_off p) bs old with
      | Some new => Ret tt (set_blocks (<[p_block p := new]> (h_blocks h)) h)
      | None => UB
      end
  | None => UB
  end.

(** Reading [n] bytes of a live block. *)
Definition heap_load (p : ptr) (n : Z) : C heap (list Z) := fun h =>
  match h_blocks h !! p_block p with
  | Some b => match load (p_off p) n b with Some bs => Ret bs h | None => UB end
  | None => UB
  end.

(** ** Pools *)

Definition sizeof_void_p : Z := 8.

(** [blocklist] points to an array of pointers: the block that holds the array
    together with the pointers stored in it. *)
Record amqp_pool_blocklist_t : Type := mk_blocklist {
  num_blocks : Z;
  blocklist : option (ptr * list ptr)
}.

Record amqp_pool_t : Type := mk_pool {
  pagesize : Z;
  pages : amqp_pool_blocklist_t;
  large_blocks : amqp_pool_blocklist_t;
  next_page : Z;
  alloc_block : option ptr;
  alloc_used : Z
}.

Definition empty_list : amqp_pool_blocklist_t := {| num_blocks := 0; blocklist := None |}.

Definition init_amqp_pool (pagesize : Z) : amqp_pool_t :=
  {| pagesize := if pagesize =? 0 then 4096 else pagesize;
     pages := {| num_blocks := 0; blocklist := None |};
     large_blocks := {| num_blocks := 0; blocklist := None |};
     next_page := 0;
     alloc_block := None;
     alloc_used := 0 |}.

(** [for (i = 0; i < num_blocks; i++) free(blocklist[i]);] reads each slot of
    the array while it is still allocated. *)
Fixpoint free_blocks (cells : list ptr) (n : nat) : C heap unit :=
  match n with
  | O => ret tt
  | S n' =>
      match cells with
      | [] => undefined
      | p :: cells' => do* c_free (Some p) in free_blocks cells' n'
      end
  end.

Definition empty_blocklist (x : amqp_pool_blocklist_t) : C heap amqp_pool_blocklist_t :=
  match blocklist x with
  | None => ret {| num_blocks := 0; blocklist := None |}
  | Some (array, cells) =>
      do* free_blocks cells (Z.to_nat (num_blocks x)) in
      do* c_free (Some array) in
      ret {| num_blocks := 0; blocklist := None |}
  end.

Definition recycle_amqp_pool (pool : amqp_pool_t) : C heap amqp_pool_t :=
  let* large := empty_blocklist (large_blocks pool) in
  ret {| pagesize := pagesize pool; pages := pages pool; large_blocks := large;
         next_page := 0; alloc_block := None; alloc_used := 0 |}.

Definition empty_amqp_pool (pool : amqp_pool_t) : C heap amqp_pool_t :=
  let* pool := recycle_amqp_pool pool in
  let* pgs := empty_blocklist (pages pool) in
  ret {| pagesize := pagesize pool; pages := pgs; large_blocks := large_blocks pool;
         next_page := next_page pool; alloc_block := alloc_block pool;
         alloc_used := alloc_used pool |}.

(** [x->blocklist[x->num_blocks] = block]: the slot must lie inside the array. *)
Definition store_cell (array : ptr) (cells : list ptr) (i : Z) (block : ptr)
    : C heap (list ptr) := fun h =>
  match h_blocks h !! p_block array with
  | Some mem =>
      if (p_off array =? 0) && (0 <=? i) && (sizeof_void_p * (i + 1) <=? zlen mem) then
        Ret (take (Z.to_nat i) cells ++ [block]) h
      else UB
  | None => UB
  end.

(** Incrementing [num_blocks] past [INT_MAX] is a signed overflow. *)
Definition record_pool_block (x : amqp_pool_blocklist_t) (block : ptr)
    : C heap (bool * amqp_pool_blocklist_t) :=
  if INT32_MAX <? num_blocks x + 1 then undefined
  else
    let blocklistlength := size_t (sizeof_void_p * (num_blocks x + 1)) in
    let* array :=
      match blocklist x with
      | None => let* a := c_malloc blocklistlength in ret ((fun a => (a, [])) <$> a)
      | Some (a, cells) =>
          let* newbl := c_realloc a blocklistlength in ret ((fun a => (a, cells)) <$> newbl)
      end in
    match array with
    | None => ret (false, x)
    | Some (a, cells) =>
        let* cells' := store_cell a cells (num_blocks x) block in
        ret (true, {| num_blocks := num_blocks x + 1; blocklist := Some (a, cells') |})
    end.

(** [(amount + 7) & (~7)]: the mask is an [int] that is converted to [size_t]. *)
Definition round_up (amount : Z) : Z := Z.land (size_t (amount + 7)) (size_t (Z.lnot 7)).

Definition set_page (pool : amqp_pool_t) (pgs : amqp_pool_blocklist_t) (next : Z)
    (block : option ptr) (used : Z) : amqp_pool_t :=
  {| pagesize := pagesize pool; pages := pgs; large_blocks := large_blocks pool;
     next_page := next; alloc_block := block; alloc_used := used |}.

(** The part of [amqp_pool_alloc] behind the large-block case and the attempt
    to use the current page: take a new page. *)
Definition next_pool_page (pool : amqp_pool_t) (amount : Z)
    : C heap (option ptr * amqp_pool_t) :=
  if num_blocks (pages pool) <=? next_page pool then
    let* page := c_calloc (pagesize pool) in
    match page with
    | None => ret (None, set_page pool (pages pool) (next_page pool) None (alloc_used pool))
    | Some p =>
        let* '(ok, pgs) := record_pool_block (pages pool) p in
        if ok : bool then ret (Some p, set_page pool pgs (num_blocks pgs) (Some p) amount)
        else ret (None, set_page pool pgs (next_page pool) (Some p) (alloc_used pool))
    end
  else
    match (blocklist (pages pool)) ≫= (fun bl => bl.2 !! Z.to_nat (next_page pool)) with
    | None => undefined
    | Some p =>
        ret (Some p, set_page pool (pages pool) (next_page pool + 1) (Some p) amount)
    end.

Definition amqp_pool_alloc (pool : amqp_pool_t) (amount : Z)
    : C heap (option ptr * amqp_pool_t) :=
  if amount =? 0 then ret (None, pool)
  else
    let amount := round_up amount in
    if pagesize pool <? amount then
      let* result := c_calloc amount in
      match result with
      | None => ret (None, pool)
      | Some p =>
          let* '(ok, large) := record_pool_block (large_blocks pool) p in
          let pool := {| pagesize := pagesize pool; pages := pages pool; large_blocks := large;
                         next_page := next_page pool; alloc_block := alloc_block pool;
                         alloc_used := alloc_used pool |} in
          if ok : bool then ret (Some p, pool)
          else do* c_free (Some p) in ret (None, pool)
      end
    else
      match alloc_block pool with
      | None => next_pool_page pool amount
      | Some b =>
          if pagesize pool <? alloc_used pool then undefined (* the assertion *)
          else if size_t (alloc_used pool + amount) <=? pagesize pool then
            ret (Some {| p_block := p_block b; p_off := p_off b + alloc_used pool |},
                 set_page pool (pages pool) (next_page pool) (Some b)
                   (size_t (alloc_used pool + amount)))
          else next_pool_page pool amount
      end.

(** ** Byte strings in memory *)

(** An [amqp_bytes_t] that points into the heap. *)
Record heap_bytes : Type := mk_heap_bytes { hb_len : Z; hb_bytes : option ptr }.

Definition amqp_pool_alloc_bytes (pool : amqp_pool_t) (amount : Z)
    : C heap (heap_bytes * amqp_pool_t) :=
  let* '(p, pool') := amqp_pool_alloc pool amount in
  ret ({| hb_len := amount; hb_bytes := p |}, pool').

Definition amqp_bytes_malloc (amount : Z) : C heap heap_bytes :=
  let* p := c_malloc amount in
  ret {| hb_len := amount; hb_bytes := p |}.

(** The source operand of [memcpy]: a NULL pointer is undefined whatever the
    length is, and so is reading outside the object. *)
Definition memcpy_source (src : amqp_bytes_t) : C heap (list Z) :=
  match bytes src with
  | None => undefined
  | Some m => match load 0 (len src) m with Some bs => ret bs | None => undefined end
  end.

Definition amqp_bytes_malloc_dup (src : amqp_bytes_t) : C heap heap_bytes :=
  let* p := c_malloc (len src) in
  match p with
  | None => ret {| hb_len := len src; hb_bytes := None |}
  | Some p =>
      let* bs := memcpy_source src in
      do* heap_store p bs in
      ret {| hb_len := len src; hb_bytes := Some p |}
  end.

Definition amqp_bytes_free (b : heap_bytes) : C heap unit := c_free (hb_bytes b).

(** [strlen]: the position of the first zero byte; without one the search leaves
    the object. *)
Fixpoint strlen (m : list Z) : option Z :=
  match m with
  | [] => None
  | c :: m' => if c =? 0 then Some 0 else (Z.add 1) <$> strlen m'
  end.

Definition amqp_cstring_bytes {S} (cstr : list Z) : C S amqp_bytes_t :=
  match strlen cstr with
  | Some n => ret {| len := n; bytes := Some cstr |}
  | None => undefined
  end.

(** Equality of byte strings.  Two NULL pointers are equal as pointers; a single
    NULL pointer is passed to [memcmp], which is undefined. *)
Definition amqp_bytes_equal {S} (r l : amqp_bytes_t) : C S bool :=
  if len r =? len l then
    match bytes r, bytes l with
    | None, None => ret true
    | Some a, Some b =>
        match load 0 (len r) a, load 0 (len r) b with
        | Some x, Some y => ret (bytes_eqb x y)
        | _, _ => undefined
        end
    | _, _ => undefined
    end
  else ret false.

(** ** The channel pool table of a connection *)

Definition POOL_TABLE_SIZE : Z := 16.
Definition sizeof_amqp_pool_table_entry_t : Z := 80.

Record amqp_pool_table_entry_t : Type := mk_entry {
  entry_block : ptr;
  entry_pool : amqp_pool_t;
  entry_channel : Z
}.

(** One linked list per slot, in [next] order. *)
Abbreviation pool_table_t := (list (list amqp_pool_table_entry_t)).

Definition find_entry (channel : Z) (l : list amqp_pool_table_entry_t) : option amqp_pool_t :=
  entry_pool <$> List.find (fun e => channel =? entry_channel e) l.

Definition slot (table : pool_table_t) (channel : Z) : list amqp_pool_table_entry_t :=
  default [] (table !! Z.to_nat (channel mod POOL_TABLE_SIZE)).

Definition amqp_get_channel_pool (table : pool_table_t) (channel : Z) : option amqp_pool_t :=
  find_entry channel (slot table channel).

(** Returns the pool and the updated table; [frame_max] is the connection's. *)
Definition amqp_get_or_create_channel_pool (table : pool_table_t) (frame_max channel : Z)
    : C heap (option amqp_pool_t * pool_table_t) :=
  match find_entry channel (slot table channel) with
  | Some pool => ret (Some pool, table)
  | None =>
      let* entry := c_malloc sizeof_amqp_pool_table_entry_t in
      match entry with
      | None => ret (None, table)
      | Some p =>
          let pool := init_amqp_pool (size_t frame_max) in
          let e := {| entry_block := p; entry_pool := pool; entry_channel := channel |} in
          ret (Some pool,
               <[Z.to_nat (channel mod POOL_TABLE_SIZE) := e :: slot table channel]> table)
      end
  end.

(** Writing a pool back through the pointer the lookups return. *)
Fixpoint update_entry (channel : Z) (pool : amqp_pool_t) (l : list amqp_pool_table_entry_t)
    : list amqp_pool_table_entry_t :=
  match l with
  | [] => []
  | e :: l' =>
      if channel =? entry_channel e then
        {| entry_block := entry_block e; entry_pool := pool; entry_channel := channel |} :: l'
      else e :: update_entry channel pool l'
  end.

Definition set_channel_pool (table : pool_table_t) (channel : Z) (pool : amqp_pool_t)
    : pool_table_t :=
  <[Z.to_nat (channel mod POOL_TABLE_SIZE) := update_entry channel pool (slot table channel)]> table.
