(* ===== verification/MemTheory.v ===== *)
(** * Pools hand out memory safely

    The pool invariant, its preservation by allocation, recycling and emptying,
    the disjointness of the regions a pool hands out, and the instance of the
    allocator interface the decoders are verified against. *)

From S2P Require Import Prelude Machine Status Alloc Mem.

(** ** Heap operations *)

Definition heap_ok (h : heap) : Prop :=
  forall b m, h_blocks h !! b = Some m -> b < h_next h /\ zlen m <= PTRDIFF_MAX.

Definition live (h : heap) (b : Z) (n : Z) : Prop :=
  exists m, h_blocks h !! b = Some m /\ zlen m = n.

(** From now on every request of a reasonable size is granted. *)
Definition reliable (h : heap) : Prop :=
  forall n, (h_count h <= n)%nat -> grants (h_env h) n = true.

(** [h'] comes from [h] by requests to the environment. *)
Definition later (h h' : heap) : Prop :=
  h_env h' = h_env h /\ (h_count h <= h_count h')%nat.

Lemma later_refl h : later h h.
Proof. by split. Qed.

Lemma later_trans h1 h2 h3 : later h1 h2 -> later h2 h3 -> later h1 h3.
Proof. intros [? ?] [? ?]. split; [congruence|lia]. Qed.

Lemma later_reliable h h' : later h h' -> reliable h -> reliable h'.
Proof. intros [He Hc] Hr n Hn. rewrite He. apply Hr. lia. Qed.

Lemma live_fresh h : heap_ok h -> h_blocks h !! h_next h = None.
Proof. intros Hok. apply eq_None_not_Some. intros [m Hs]. destruct (Hok _ _ Hs). lia. Qed.

Lemma live_insert_ne h h' b n p m :
  h_blocks h' = <[p := m]> (h_blocks h) -> b <> p -> live h' b n <-> live h b n.
Proof. intros Hb Hne. unfold live. by rewrite Hb, lookup_insert_ne by done. Qed.

Lemma live_same h h' b n : h_blocks h' !! b = h_blocks h !! b -> live h b n -> live h' b n.
Proof. unfold live. by intros ->. Qed.

Lemma wp_heap_alloc n fill h :
  heap_ok h -> 0 <= n ->
  wp (heap_alloc n fill) (fun r h' =>
    heap_ok h' /\ later h h' /\ (reliable h -> n <= PTRDIFF_MAX -> is_Some r) /\
    match r with
    | Some p => p_off p = 0 /\ h_blocks h !! p_block p = None /\ n <= PTRDIFF_MAX /\
                exists m, zlen m = n /\ h_blocks h' = <[p_block p := m]> (h_blocks h)
    | None => h_blocks h' = h_blocks h
    end) (fun _ _ => False) h.
Proof.
  intros Hok Hn. unfold wp, heap_alloc. destruct (Z.leb_spec n PTRDIFF_MAX) as [Hle|Hgt]; simpl.
  - destruct (grants (h_env h) (h_count h)) eqn:Hg; simpl.
    + split_and!; [|split; [done|simpl; lia]|done|done|by apply live_fresh|done|].
      * intros b m. simpl. intros [[<- <-]|[Hne Hs]]%lookup_insert_Some.
        -- unfold zlen. rewrite length_fmap, length_seq. lia.
        -- destruct (Hok _ _ Hs). lia.
      * eexists. split; [|done]. unfold zlen. rewrite length_fmap, length_seq. lia.
    + split_and!; [done|split; [done|simpl; lia]| |done]. intros Hr _.
      rewrite (Hr (h_count h)) in Hg by lia. done.
  - split_and!; [done|split; [done|simpl; lia]|lia|done].
Qed.

Lemma wp_free p n h :
  heap_ok h -> p_off p = 0 -> live h (p_block p) n ->
  wp (c_free (Some p)) (fun _ h' =>
    heap_ok h' /\ later h h' /\ h_blocks h' = delete (p_block p) (h_blocks h))
    (fun _ _ => False) h.
Proof.
  intros Hok Ho (m & Hm & _). unfold wp, c_free. rewrite Hm, Ho. simpl.
  split_and!; [|done..]. intros b x. simpl. intros [_ Hx]%lookup_delete_Some. by apply (Hok b).
Qed.

Lemma wp_realloc p k n h :
  heap_ok h -> p_off p = 0 -> live h (p_block p) k -> 0 <= n ->
  wp (c_realloc p n) (fun r h' =>
    heap_ok h' /\ later h h' /\ (reliable h -> n <= PTRDIFF_MAX -> is_Some r) /\
    match r with
    | Some q => p_off q = 0 /\ h_blocks h !! p_block q = None /\
                exists m, zlen m = n /\
                  h_blocks h' = <[p_block q := m]> (delete (p_block p) (h_blocks h))
    | None => h_blocks h' = h_blocks h
    end) (fun _ _ => False) h.
Proof.
  intros Hok Ho (old & Hold & _) Hn. unfold wp, c_realloc. rewrite Hold, Ho. simpl.
  pose proof (wp_heap_alloc n (fun i => default (junk (h_env h) (h_count h) i) (old !! i)) h Hok Hn)
    as Ha. unfold wp in Ha. destruct (heap_alloc _ _ h) as [[q|] h'|e h'| |]; [|done..].
  destruct Ha as (Hok' & Hl & Hr & Hq & Hfresh & _ & m & Hm & Hb). split_and!; [|done..|].
  - intros b x. simpl. intros [_ Hx]%lookup_delete_Some. by apply (Hok' b).
  - exists m. split; [done|]. simpl. rewrite Hb, delete_insert_ne; [done|]. congruence.
Qed.

(** ** The pool invariant *)

Definition cells (x : amqp_pool_blocklist_t) : list ptr := from_option snd [] (blocklist x).
Definition array (x : amqp_pool_blocklist_t) : list Z :=
  from_option (fun bl => [p_block bl.1]) [] (blocklist x).

(** The blocks a list owns: its array and the recorded blocks. *)
Definition owned (x : amqp_pool_blocklist_t) : list Z := array x ++ (p_block <$> cells x).

Definition owned_pool (pool : amqp_pool_t) : list Z := owned (pages pool) ++ owned (large_blocks pool).

Definition blocklist_ok (h : heap) (sz : Z -> Prop) (x : amqp_pool_blocklist_t) : Prop :=
  num_blocks x = zlen (cells x) /\ num_blocks x <= INT32_MAX /\
  match blocklist x with
  | Some (a, _) => p_off a = 0 /\ live h (p_block a) (sizeof_void_p * num_blocks x)
  | None => True
  end /\
  Forall (fun c => p_off c = 0 /\ exists n, live h (p_block c) n /\ sz n) (cells x).

(** The pages that are not in use yet. *)
Definition unused_pages (pool : amqp_pool_t) : list Z :=
  p_block <$> drop (Z.to_nat (next_page pool)) (cells (pages pool)).

Record pool_ok (h : heap) (pool : amqp_pool_t) : Prop := {
  ok_pagesize : 0 < pagesize pool < 2 ^ 64;
  ok_pages : blocklist_ok h (fun n => n = pagesize pool) (pages pool);
  ok_large : blocklist_ok h (fun n => pagesize pool < n) (large_blocks pool);
  ok_nodup : NoDup (owned_pool pool);
  ok_next : 0 <= next_page pool <= num_blocks (pages pool);
  ok_used : 0 <= alloc_used pool <= pagesize pool /\ alloc_used pool mod 8 = 0;
  ok_block : forall b, alloc_block pool = Some b ->
    p_off b = 0 /\ live h (p_block b) (pagesize pool) /\ (p_block b ∉ unused_pages pool) /\
    (p_block b ∉ array (pages pool)) /\ (p_block b ∉ owned (large_blocks pool))
}.

(** Every block the pool points to. *)
Definition pool_blocks (pool : amqp_pool_t) : list Z :=
  owned_pool pool ++ from_option (fun b => [p_block b]) [] (alloc_block pool).

Lemma cells_owned x c : c ∈ cells x -> p_block c ∈ owned x.
Proof. intros. unfold owned. rewrite elem_of_app, list_elem_of_fmap. eauto. Qed.

Lemma blocklist_ok_frame h h' sz x :
  blocklist_ok h sz x -> (forall b, b ∈ owned x -> h_blocks h' !! b = h_blocks h !! b) ->
  blocklist_ok h' sz x.
Proof.
  intros (Hn & Hmax & Ha & Hc) Hsame. split_and!; [done..| |].
  - destruct (blocklist x) as [[a cs]|] eqn:E; [|done]. destruct Ha. split; [done|].
    eapply live_same; [|done]. apply Hsame. unfold owned, array. rewrite E. by left.
  - rewrite Forall_forall in *. intros c Hin. destruct (Hc c Hin) as (? & n & ? & ?).
    split; [done|]. exists n. split; [|done]. eapply live_same; [|done].
    by apply Hsame, cells_owned.
Qed.

Lemma blocklist_ok_live h sz x b :
  blocklist_ok h sz x -> b ∈ owned x -> exists n, live h b n.
Proof.
  intros (_ & _ & Ha & Hc). unfold owned, array, cells in *. rewrite elem_of_app.
  destruct (blocklist x) as [[a cs]|]; simpl in *; [|by intros [?%elem_of_nil|?%elem_of_nil]].
  intros [Hb|Hb]; [apply list_elem_of_singleton in Hb as ->; destruct Ha; eauto|].
  apply list_elem_of_fmap in Hb as (c & -> & Hin). rewrite Forall_forall in Hc.
  destruct (Hc c Hin) as (_ & n & ? & _). eauto.
Qed.

Lemma pool_ok_frame h h' pool :
  pool_ok h pool -> (forall b, b ∈ pool_blocks pool -> h_blocks h' !! b = h_blocks h !! b) ->
  pool_ok h' pool.
Proof.
  intros Hp Hsame. unfold pool_blocks, owned_pool in Hsame. split; try apply Hp.
  - eapply blocklist_ok_frame; [apply Hp|]. intros b Hb. apply Hsame.
    rewrite !elem_of_app. auto.
  - eapply blocklist_ok_frame; [apply Hp|]. intros b Hb. apply Hsame.
    rewrite !elem_of_app. auto.
  - intros b Hb. destruct (ok_block _ _ Hp b Hb) as (? & ? & ?). split; [done|]. split; [|done].
    eapply live_same; [|done]. apply Hsame. rewrite Hb, elem_of_app. right.
    by apply list_elem_of_singleton.
Qed.

Lemma pool_ok_live h pool b : pool_ok h pool -> b ∈ pool_blocks pool -> exists n, live h b n.
Proof.
  intros Hp Hb. unfold pool_blocks, owned_pool in Hb. rewrite !elem_of_app in Hb.
  destruct Hb as [[Hb|Hb]|Hb];
    [by eapply blocklist_ok_live; [apply (ok_pages _ _ Hp)|]
    |by eapply blocklist_ok_live; [apply (ok_large _ _ Hp)|]|].
  destruct (alloc_block pool) as [p|] eqn:E; simpl in Hb; [|by apply elem_of_nil in Hb].
  apply list_elem_of_singleton in Hb as ->. destruct (ok_block _ _ Hp p E) as (_ & ? & _); eauto.
Qed.

Lemma live_Some h b n : live h b n -> is_Some (h_blocks h !! b).
Proof. intros (m & ? & _). by eexists. Qed.

(** ** Recording a block *)

Lemma wp_record_pool_block h sz x block n :
  heap_ok h -> blocklist_ok h sz x -> num_blocks x < INT32_MAX -> NoDup (owned x) ->
  p_off block = 0 -> live h (p_block block) n -> sz n -> p_block block ∉ owned x ->
  wp (record_pool_block x block) (fun '(ok, x') h' =>
    heap_ok h' /\ later h h' /\ (reliable h -> ok = true) /\
    if ok : bool then
      blocklist_ok h' sz x' /\ num_blocks x' = num_blocks x + 1 /\ cells x' = cells x ++ [block] /\
      exists a, array x' = [a] /\ h_blocks h !! a = None /\
        (forall b, b ∉ array x -> b <> a -> h_blocks h' !! b = h_blocks h !! b) /\
        (forall b, b ∈ array x -> h_blocks h' !! b = None)
    else x' = x /\ h_blocks h' = h_blocks h) (fun _ _ => False) h.
Proof.
  intros Hok (Hnum & Hmax & Ha & Hc) Hlt Hnd Ho Hlive Hsz Hnew. unfold record_pool_block.
  pose proof (zlen_nonneg (cells x)). unfold INT32_MAX in *.
  rewrite (proj2 (Z.ltb_ge _ _)) by lia. unfold sizeof_void_p. rewrite size_t_small by lia.
  apply wp_bind. eapply (wp_mono _ (fun r h' =>
    heap_ok h' /\ later h h' /\ (reliable h -> is_Some r) /\
    match r with
    | None => h_blocks h' = h_blocks h
    | Some (a, cs) => cs = cells x /\ p_off a = 0 /\ h_blocks h !! p_block a = None /\
        live h' (p_block a) (8 * (num_blocks x + 1)) /\
        (forall b, b ∉ array x -> b <> p_block a -> h_blocks h' !! b = h_blocks h !! b) /\
        (forall b, b ∈ array x -> h_blocks h' !! b = None)
    end)); [| |intros e s' He; exact He].
  - unfold cells, array in *. destruct (blocklist x) as [[a cs]|] eqn:E; simpl in *; apply wp_bind.
    + destruct Ha as [Hao Hal]. wp_use (wp_realloc a (sizeof_void_p * num_blocks x) (8 * (num_blocks x + 1))); [done..|lia| |done].
      intros r h' (? & ? & Hr & Hq). assert (Hrs : reliable h -> is_Some r).
      { intros. apply Hr; [done|unfold PTRDIFF_MAX; lia]. }
      destruct r as [q|]; apply wp_ret; simpl; do 2 (split; [done|]);
        (split; [by intros [? ?]%Hrs|]); [|done].
      destruct Hq as (? & Hfresh & m & Hm & Hb). split_and!; [done..|exists m| |].
      * rewrite Hb, lookup_insert_eq. done.
      * intros b Hba Hbq. rewrite Hb, lookup_insert_ne, lookup_delete_ne; [done| |done].
        intros Heq. by apply Hba, list_elem_of_singleton.
      * intros b ->%list_elem_of_singleton. rewrite Hb, lookup_insert_ne; [apply lookup_delete_eq|].
        apply live_Some in Hal as [? ?]. congruence.
    + wp_use (wp_heap_alloc (8 * (num_blocks x + 1))); [done|lia| |done].
      intros r h' (? & ? & Hr & Hq). assert (Hrs : reliable h -> is_Some r).
      { intros. apply Hr; [done|unfold PTRDIFF_MAX; lia]. }
      destruct r as [q|]; apply wp_ret; simpl; do 2 (split; [done|]);
        (split; [by intros [? ?]%Hrs|]); [|done].
      destruct Hq as (? & Hfresh & _ & m & Hm & Hb). split_and!; [done..|exists m| |by intros ? ?%elem_of_nil].
      * rewrite Hb, lookup_insert_eq. done.
      * intros b _ Hbq. by rewrite Hb, lookup_insert_ne by done.
  - intros [[a cs]|] h' (Hok' & Hlat & Hr & Hcase).
    + destruct Hcase as (-> & Hao & Hfresh & Hal & Hsame & Hdead).
      apply wp_bind. unfold store_cell, wp at 1. destruct Hal as (m & Hm & Hml).
      rewrite Hm, Hao, Hml. simpl. rewrite (proj2 (Z.leb_le _ _)) by lia.
      unfold sizeof_void_p. rewrite (proj2 (Z.leb_le _ _)) by lia. simpl.
      replace (take _ (cells x)) with (cells x)
        by (rewrite Hnum; unfold zlen; by rewrite Nat2Z.id, firstn_all).
      assert (Hkeep : forall c, c ∈ p_block block :: (p_block <$> cells x) ->
                h_blocks h' !! c = h_blocks h !! c).
      { intros c Hin. assert (is_Some (h_blocks h !! c)) as [? ?].
        { apply elem_of_cons in Hin as [->|Hin]; [by eapply live_Some|].
          apply list_elem_of_fmap in Hin as (c' & -> & Hin). rewrite Forall_forall in Hc.
          destruct (Hc c' Hin) as (_ & k & Hk & _). by eapply live_Some. }
        apply Hsame; [|congruence]. unfold owned in *. apply NoDup_app in Hnd as (_ & Hnd & _).
        intros Hca. apply elem_of_cons in Hin as [->|Hin]; [|by apply (Hnd c)].
        apply Hnew. rewrite elem_of_app. by left. }
      apply wp_ret. do 3 (split; [done|]). split; [split_and!|split_and!; [done..|]].
      * change (num_blocks x + 1 = zlen (cells x ++ [block])). by rewrite Hnum, zlen_app.
      * simpl. unfold INT32_MAX. lia.
      * split; [done|]. exists m. by rewrite Hm.
      * unfold cells at 1. simpl. apply Forall_app. split.
        -- rewrite Forall_forall in *. intros c Hin. destruct (Hc c Hin) as (? & k & Hk & ?).
           split; [done|]. exists k. split; [|done].
           eapply live_same; [|done]. apply Hkeep. right. by apply list_elem_of_fmap_2.
        -- rewrite Forall_singleton. split; [done|]. exists n. split; [|done].
           eapply live_same; [|done]. apply Hkeep. by left.
      * exists (p_block a). done.
    + apply wp_ret. do 2 (split; [done|]). split; [|done].
      intros Hrel. by destruct (Hr Hrel).
Qed.

(** ** Rounding *)

Lemma round_up_spec amount :
  0 < amount <= PTRDIFF_MAX ->
  amount <= round_up amount < amount + 8 /\ round_up amount mod 8 = 0.
Proof.
  intros Ha. unfold PTRDIFF_MAX in *. unfold round_up. rewrite (size_t_small (amount + 7)) by lia.
  replace (size_t (Z.lnot 7)) with (Z.ldiff (Z.ones 64) (Z.ones 3)) by reflexivity.
  rewrite Z.ldiff_land, Z.land_assoc, Z.land_ones, Z.mod_small, <- Z.ldiff_land by lia.
  rewrite Z.ldiff_ones_r, Z.shiftl_mul_pow2, Z.shiftr_div_pow2 by lia.
  change (2 ^ 3) with 8. rewrite Z_mod_mult. split; [|done].
  pose proof (Z_div_mod_eq_full (amount + 7) 8). pose proof (Z.mod_pos_bound (amount + 7) 8). lia.
Qed.

(** ** What an allocation does *)

(** A region the pool has handed out: where it starts and how long it is. *)
Abbreviation region := (ptr * Z)%type.

Definition disjoint (r1 r2 : region) : Prop :=
  p_block r1.1 <> p_block r2.1 \/ p_off r1.1 + r1.2 <= p_off r2.1 \/
  p_off r2.1 + r2.2 <= p_off r1.1.

(** The regions handed out since the pool was last recycled: aligned, inside
    live blocks, pairwise disjoint, and out of the way of later allocations. *)
Record region_ok (h : heap) (pool : amqp_pool_t) (r : region) : Prop := {
  reg_pos : 0 < r.2 /\ 0 <= p_off r.1;
  reg_aligned : p_off r.1 mod 8 = 0;
  reg_live : exists n, live h (p_block r.1) n /\ p_off r.1 + r.2 <= n;
  reg_unused : p_block r.1 ∉ unused_pages pool;
  reg_array : p_block r.1 ∉ array (pages pool) ++ array (large_blocks pool);
  reg_used : forall b, alloc_block pool = Some b -> p_block r.1 = p_block b ->
    p_off r.1 + r.2 <= alloc_used pool
}.

Definition regions_ok (h : heap) (pool : amqp_pool_t) (rs : list region) : Prop :=
  Forall (region_ok h pool) rs /\ ForallOrdPairs disjoint rs.

(** The current page is one of the recorded pages. *)
Definition recorded (pool : amqp_pool_t) : Prop :=
  forall b, alloc_block pool = Some b -> b ∈ cells (pages pool).

Definition block_count (pool : amqp_pool_t) : Z :=
  Z.max (num_blocks (pages pool)) (num_blocks (large_blocks pool)).

Record alloc_post (h : heap) (pool : amqp_pool_t) (amount : Z) (r : option ptr)
    (pool' : amqp_pool_t) (h' : heap) : Prop := {
  post_heap : heap_ok h' /\ later h h';
  post_pool : pool_ok h' pool';
  post_size : pagesize pool' = pagesize pool;
  post_count : block_count pool' <= block_count pool + 1;
  post_frame : forall b, b ∉ pool_blocks pool -> is_Some (h_blocks h !! b) ->
    h_blocks h' !! b = h_blocks h !! b /\ b ∉ pool_blocks pool';
  post_clean : forall b, h_blocks h !! b = None \/ b ∈ owned_pool pool ->
    b ∉ pool_blocks pool' -> h_blocks h' !! b = None;
  post_some : reliable h -> pagesize pool <= PTRDIFF_MAX -> amount <= PTRDIFF_MAX ->
    is_Some r /\ (recorded pool -> recorded pool');
  post_regions : forall rs, regions_ok h pool rs ->
    regions_ok h' pool' (from_option (fun p => (p, amount) :: rs) rs r);
  post_block : forall p, r = Some p -> p_block p ∈ pool_blocks pool'
}.

(** Recording a fresh block [block] in the list [x] of a pool whose other
    blocks are [O]. *)
Section Recorded.
Context (h h' : heap) (x x' : amqp_pool_blocklist_t) (block : ptr) (a : Z) (O : list Z).
Context (Hcells : cells x' = cells x ++ [block]) (Harray : array x' = [a]).
Context (Hfresh : h_blocks h !! a = None) (Hne : p_block block <> a).
Context (HO : forall b, b ∈ O ++ owned x -> is_Some (h_blocks h !! b)).
Context (Hnew : p_block block ∉ O ++ owned x).

Lemma recorded_owned b :
  b ∈ owned x' <-> b = a \/ b ∈ p_block <$> cells x \/ b = p_block block.
Proof using Hcells Harray.
  unfold owned. rewrite Hcells, Harray, fmap_app, !elem_of_app.
  rewrite list_elem_of_singleton. simpl. rewrite list_elem_of_singleton. tauto.
Qed.

Lemma recorded_nodup : NoDup (O ++ owned x) -> NoDup (O ++ owned x').
Proof using Hcells Harray Hfresh Hne HO Hnew.
  assert (Ha : a ∉ O ++ owned x).
  { intros Hin. destruct (HO a Hin) as [? ?]. congruence. }
  unfold owned in *. rewrite Hcells, Harray, fmap_app. simpl.
  rewrite !elem_of_app in Ha, Hnew. rewrite !NoDup_app. setoid_rewrite elem_of_app.
  intros (? & Hd & (? & Hd' & ?)). split_and!; [done| |apply NoDup_cons; split].
  - intros b Hb Hin. apply elem_of_cons in Hin as [->|Hin]; [tauto|].
    apply elem_of_app in Hin as [Hin|Hin%list_elem_of_singleton]; [by apply (Hd b); auto|].
    subst. tauto.
  - rewrite elem_of_app, list_elem_of_singleton. intuition congruence.
  - apply NoDup_app. split_and!; [done| |apply NoDup_singleton].
    intros b Hb ->%list_elem_of_singleton. tauto.
Qed.
End Recorded.

Lemma region_ok_step h h' pool pool' r :
  region_ok h pool r ->
  h_blocks h' !! p_block r.1 = h_blocks h !! p_block r.1 ->
  p_block r.1 ∉ unused_pages pool' ->
  p_block r.1 ∉ array (pages pool') ++ array (large_blocks pool') ->
  (forall b, alloc_block pool' = Some b -> p_block r.1 = p_block b ->
    p_off r.1 + r.2 <= alloc_used pool') ->
  region_ok h' pool' r.
Proof.
  intros Hr Hsame Hun Harr Hu. split; try apply Hr; try done.
  destruct (reg_live _ _ _ Hr) as (n & Hn & ?). exists n. split; [|done]. by eapply live_same.
Qed.

Lemma region_live h pool r : region_ok h pool r -> is_Some (h_blocks h !! p_block r.1).
Proof. intros Hr. destruct (reg_live _ _ _ Hr) as (n & Hn & _). by eapply live_Some. Qed.

(** Adding a region in a block none of the others uses. *)
Lemma regions_ok_cons h pool p n rs :
  region_ok h pool (p, n) -> regions_ok h pool rs ->
  Forall (fun r => disjoint (p, n) r) rs -> regions_ok h pool ((p, n) :: rs).
Proof. intros Hr [Hrs Hd] Hdis. split; [by constructor|by constructor]. Qed.

Lemma regions_ok_map h pool h' pool' rs :
  regions_ok h pool rs -> (forall r, region_ok h pool r -> region_ok h' pool' r) ->
  regions_ok h' pool' rs.
Proof. intros [Hrs Hd] Hstep. split; [|done]. eapply Forall_impl; [done|]. exact Hstep. Qed.

Lemma pool_blocks_live h pool b :
  pool_ok h pool -> b ∈ pool_blocks pool -> is_Some (h_blocks h !! b).
Proof. intros Hp Hb. destruct (pool_ok_live _ _ _ Hp Hb) as [n Hn]. by eapply live_Some. Qed.

Lemma pool_blocks_elem pool b :
  b ∈ pool_blocks pool <-> b ∈ owned (pages pool) \/ b ∈ owned (large_blocks pool) \/
    exists p, alloc_block pool = Some p /\ b = p_block p.
Proof.
  unfold pool_blocks, owned_pool. rewrite !elem_of_app. destruct (alloc_block pool) as [p|]; simpl.
  - rewrite list_elem_of_singleton. split.
    + intros [[?|?]|?]; eauto.
    + intros [?|[?|(q & [= <-] & ?)]]; eauto.
  - rewrite elem_of_nil. split; [intros [[?|?]|?]; eauto; done|].
    intros [?|[?|(q & ? & ?)]]; [auto..|done].
Qed.

Lemma array_owned x b : b ∈ array x -> b ∈ owned x.
Proof. intros. apply elem_of_app. by left. Qed.

Lemma cells_array x c : NoDup (owned x) -> c ∈ cells x -> p_block c ∉ array x.
Proof.
  intros (_ & Hd & _)%NoDup_app Hc Ha. apply (Hd _ Ha). by apply list_elem_of_fmap_2.
Qed.

Lemma unused_owned pool b : b ∈ unused_pages pool -> b ∈ owned (pages pool).
Proof.
  intros (c & -> & Hc)%list_elem_of_fmap. apply cells_owned.
  rewrite <- (take_drop (Z.to_nat (next_page pool))). apply elem_of_app. by right.
Qed.

Section Alloc.
Context (h : heap) (pool : amqp_pool_t) (Hok : heap_ok h) (Hpool : pool_ok h pool).

Definition set_large (x : amqp_pool_blocklist_t) : amqp_pool_t :=
  {| pagesize := pagesize pool; pages := pages pool; large_blocks := x;
     next_page := next_page pool; alloc_block := alloc_block pool;
     alloc_used := alloc_used pool |}.

Lemma set_large_id : set_large (large_blocks pool) = pool.
Proof. unfold set_large. clear Hpool. by destruct pool. Qed.

Lemma nodup_pages : NoDup (owned (pages pool)).
Proof. pose proof (ok_nodup _ _ Hpool) as Hn. by apply NoDup_app in Hn as (? & _ & _). Qed.

Lemma nodup_large : NoDup (owned (large_blocks pool)).
Proof. pose proof (ok_nodup _ _ Hpool) as Hn. by apply NoDup_app in Hn as (_ & _ & ?). Qed.

Lemma nodup_disjoint b : b ∈ owned (pages pool) -> b ∉ owned (large_blocks pool).
Proof. pose proof (ok_nodup _ _ Hpool) as Hn. apply NoDup_app in Hn as (_ & Hd & _). apply Hd. Qed.

(** The heap changed only outside the pool. *)
Lemma alloc_post_fail h' amount :
  heap_ok h' -> later h h' -> h_blocks h' = h_blocks h ->
  (reliable h -> pagesize pool <= PTRDIFF_MAX -> amount <= PTRDIFF_MAX -> False) ->
  alloc_post h pool amount None pool h'.
Proof.
  intros Hok' Hl Hsame Hrel. split.
  - done.
  - eapply pool_ok_frame; [done|]. intros. by rewrite Hsame.
  - done.
  - lia.
  - intros b Hb _. by rewrite Hsame.
  - intros b [Hb|Hb] Hn; [by rewrite Hsame|]. destruct Hn. apply elem_of_app. by left.
  - intros Hr H1 H2. destruct (Hrel Hr H1 H2).
  - intros rs Hrs. eapply regions_ok_map; [done|]. intros r Hr.
    eapply region_ok_step; [done|by rewrite Hsame|apply Hr|apply Hr|apply Hr].
  - done.
Qed.

(** A fresh block [p], recorded in one of the lists by a call that moved the
    list's array to [a]: what is unchanged. *)
Definition block_added (x : amqp_pool_blocklist_t) (p : ptr) (n a : Z) (h' : heap) : Prop :=
  h_blocks h !! p_block p = None /\ h_blocks h !! a = None /\ p_block p <> a /\
  live h' (p_block p) n /\
  (forall b, b ∉ array x -> b <> a -> b <> p_block p -> h_blocks h' !! b = h_blocks h !! b) /\
  (forall b, b ∈ array x -> h_blocks h' !! b = None).

(** [calloc] a block and record it. *)
Lemma wp_calloc_record sz x n :
  blocklist_ok h sz x -> NoDup (owned x) -> num_blocks x < INT32_MAX -> 0 <= n -> sz n ->
  wp (c_calloc n) (fun r h1 =>
    heap_ok h1 /\ later h h1 /\ (reliable h -> n <= PTRDIFF_MAX -> is_Some r) /\
    match r with
    | None => h_blocks h1 = h_blocks h
    | Some p =>
        p_off p = 0 /\ h_blocks h !! p_block p = None /\ live h1 (p_block p) n /\
        (exists m, h_blocks h1 = <[p_block p := m]> (h_blocks h)) /\
        wp (record_pool_block x p) (fun '(ok, x') h2 =>
          heap_ok h2 /\ later h h2 /\ (reliable h -> ok = true) /\
          if ok : bool then
            blocklist_ok h2 sz x' /\ num_blocks x' = num_blocks x + 1 /\
            cells x' = cells x ++ [p] /\ exists a, array x' = [a] /\ block_added x p n a h2
          else x' = x /\ h_blocks h2 = h_blocks h1) (fun _ _ => False) h1
    end) (fun _ _ => False) h.
Proof using Hok.
  intros Hx Hnd Hlt Hn Hsz. wp_use (wp_heap_alloc n); [done|done| |done].
  intros [p|] h1 (Hok1 & Hl1 & Hr1 & Hp); [|done].
  destruct Hp as (Hpo & Hpf & _ & m & Hm & Hb1). do 3 (split; [done|]).
  assert (Hpl : live h1 (p_block p) n) by (exists m; by rewrite Hb1, lookup_insert_eq).
  assert (Hsame : forall b, is_Some (h_blocks h !! b) -> h_blocks h1 !! b = h_blocks h !! b).
  { intros b [? ?]. rewrite Hb1, lookup_insert_ne; [done|congruence]. }
  assert (Hold : forall b, b ∈ owned x -> is_Some (h_blocks h !! b)).
  { intros b Hb. destruct (blocklist_ok_live _ _ _ _ Hx Hb). by eapply live_Some. }
  assert (Hpn : p_block p ∉ owned x) by (intros Hin; destruct (Hold _ Hin); congruence).
  split_and!; [done..|by eexists|].
  wp_use (wp_record_pool_block h1 sz x p n); [done| |done..| |done].
  { eapply blocklist_ok_frame; [done|]. auto. }
  intros [[] x'] h2 (Hok2 & Hl2 & Hr2 & Hpost).
  - destruct Hpost as (? & ? & ? & a & Ha & Haf & Hkeep & Hdead).
    split_and!; [done|by eapply later_trans|done|done..|]. exists a. split; [done|].
    assert (Hap : p_block p <> a).
    { intros Heq. rewrite Heq in Hpl. apply live_Some in Hpl as [? ?]. congruence. }
    split_and!; [done| |done| | |done].
    + by rewrite Hb1, lookup_insert_ne in Haf by done.
    + eapply live_same; [|exact Hpl]. apply Hkeep; [|done]. intros Hin. by apply Hpn, array_owned.
    + intros b Hbx Hba Hbp. by rewrite Hkeep, Hb1, lookup_insert_ne by done.
  - destruct Hpost. split_and!; [done|by eapply later_trans| |done..].
    intros Hr. apply Hr2. by eapply later_reliable.
Qed.

Lemma alloc_post_large x' p n a h' :
  heap_ok h' -> later h h' -> pagesize pool < n -> p_off p = 0 ->
  blocklist_ok h' (fun n => pagesize pool < n) x' -> num_blocks x' = num_blocks (large_blocks pool) + 1 ->
  cells x' = cells (large_blocks pool) ++ [p] -> array x' = [a] ->
  block_added (large_blocks pool) p n a h' ->
  alloc_post h pool n (Some p) (set_large x') h'.
Proof.
  intros Hok' Hl Hn Hpo Hx' Hnum Hcells Harr (Hpf & Haf & Hpa & Hpl & Hkeep & Hdead).
  pose proof (ok_pagesize _ _ Hpool). pose proof (ok_nodup _ _ Hpool) as Hnd.
  assert (Hlive : forall b, b ∈ pool_blocks pool -> is_Some (h_blocks h !! b))
    by (intros; by eapply pool_blocks_live).
  assert (Hold : forall b, is_Some (h_blocks h !! b) -> b ∉ array (large_blocks pool) ->
    h_blocks h' !! b = h_blocks h !! b).
  { intros b [? ?] Hb. apply Hkeep; [done|congruence..]. }
  assert (Hpages : forall b, b ∈ owned (pages pool) -> h_blocks h' !! b = h_blocks h !! b).
  { intros b Hb. apply Hold; [apply Hlive, pool_blocks_elem; auto|].
    intros Ha. apply (nodup_disjoint b Hb). by apply array_owned. }
  assert (Hown : forall b, b ∈ owned x' <-> b = a \/ b ∈ p_block <$> cells (large_blocks pool) \/ b = p_block p)
    by (intros b; by apply recorded_owned).
  split.
  - done.
  - split; simpl; try apply Hpool.
    + eapply blocklist_ok_frame; [apply (ok_pages _ _ Hpool)|done].
    + done.
    + unfold owned_pool. simpl. apply (recorded_nodup h (large_blocks pool) _ p a); try done.
      * intros b Hb. apply Hlive, pool_blocks_elem. rewrite elem_of_app in Hb. tauto.
      * intros Hb. destruct (Hlive (p_block p)); [|congruence]. apply pool_blocks_elem.
        rewrite elem_of_app in Hb. tauto.
    + intros b Hb. destruct (ok_block _ _ Hpool b Hb) as (? & Hbl & ? & ? & Hbo).
      assert (is_Some (h_blocks h !! p_block b)) as Hs by by eapply live_Some.
      split_and!; [done| |done..|].
      * eapply live_same; [|done]. apply Hold; [done|]. intros Ha. by apply Hbo, array_owned.
      * rewrite Hown. destruct Hs as [? ?]. intros [Heq|[Hc|Heq]]; [congruence| |congruence].
        apply Hbo, elem_of_app. by right.
  - done.
  - unfold block_count. simpl. lia.
  - intros b Hb Hs. rewrite pool_blocks_elem in Hb |- *. simpl. rewrite Hown.
    assert (b <> a) by (intros ->; destruct Hs; congruence).
    assert (b <> p_block p) by (intros ->; destruct Hs; congruence). split.
    + apply Hold; [done|]. intros Ha. apply Hb. right; left. by apply array_owned.
    + unfold owned in Hb. rewrite !elem_of_app in Hb. unfold owned. rewrite elem_of_app. tauto.
  - intros b Hb Hn'. rewrite pool_blocks_elem in Hn'. simpl in Hn'. rewrite Hown in Hn'.
    assert (b <> a /\ b <> p_block p) as [? ?] by tauto.
    destruct (decide (b ∈ array (large_blocks pool))) as [Ha|Ha]; [by apply Hdead|].
    rewrite Hkeep by done. destruct Hb as [|Hb]; [done|]. destruct Hn'.
    unfold owned_pool in Hb. apply elem_of_app in Hb as [?|Hb]; [by left|].
    apply elem_of_app in Hb as [?|?]; [done|]. auto.
  - done.
  - intros rs Hrs. simpl.
    assert (Hne : forall r, region_ok h pool r -> p_block r.1 <> p_block p /\ p_block r.1 <> a).
    { intros r Hr. destruct (region_live _ _ _ Hr). split; congruence. }
    apply regions_ok_cons.
    + split; simpl; rewrite ?Hpo; [lia|done|by exists n|..].
      * intros Hu. apply unused_owned in Hu. simpl in Hu.
        destruct (Hlive (p_block p)); [apply pool_blocks_elem; auto|congruence].
      * rewrite Harr, elem_of_app, list_elem_of_singleton. intros [Hin|Hin]; [|done].
        apply array_owned in Hin. destruct (Hlive (p_block p)); [apply pool_blocks_elem; auto|congruence].
      * intros b Hb Heq. destruct (Hlive (p_block b)); [apply pool_blocks_elem; eauto|congruence].
    + eapply regions_ok_map; [done|]. intros r Hr. destruct (Hne r Hr) as [? ?].
      pose proof (reg_array _ _ _ Hr) as Hra. rewrite elem_of_app in Hra.
      eapply region_ok_step; [done| |apply Hr| |apply Hr].
      * apply Hold; [by eapply region_live|]. tauto.
      * simpl. rewrite Harr, elem_of_app, list_elem_of_singleton. tauto.
    + destruct Hrs as [Hrs _]. eapply Forall_impl; [done|]. intros r Hr. left. simpl.
      destruct (Hne r Hr). congruence.
  - intros q [= <-]. apply pool_blocks_elem. right; left. simpl. apply Hown. auto.
Qed.

(** Allocations that keep both block lists and change the current page. *)
Section SetPage.
Context (h' : heap) (next' used' : Z) (blk : option ptr).
Context (Hok' : heap_ok h') (Hl : later h h').
Context (Hsame : forall b, is_Some (h_blocks h !! b) -> h_blocks h' !! b = h_blocks h !! b).
Context (Hnext : next_page pool <= next' <= num_blocks (pages pool)).
Context (Hused : 0 <= used' <= pagesize pool /\ used' mod 8 = 0).
Let pool' := set_page pool (pages pool) next' blk used'.
Context (Hblk : forall p, blk = Some p ->
  p_off p = 0 /\ live h' (p_block p) (pagesize pool) /\ (p_block p ∉ unused_pages pool') /\
  (p_block p ∉ array (pages pool)) /\ (p_block p ∉ owned (large_blocks pool)) /\
  (p_block p ∈ pool_blocks pool \/ h_blocks h !! p_block p = None)).
Context (Hclean : forall b, h_blocks h !! b = None ->
  h_blocks h' !! b = None \/ exists p, blk = Some p /\ b = p_block p).

Lemma unused_mono b : b ∈ unused_pages pool' -> b ∈ unused_pages pool.
Proof using Hnext Hpool.
  unfold unused_pages. simpl. intros (c & -> & Hc)%list_elem_of_fmap.
  apply list_elem_of_fmap_2. pose proof (ok_next _ _ Hpool).
  rewrite <- (Nat.add_sub (Z.to_nat next') (Z.to_nat (next_page pool))) in Hc.
  replace (Z.to_nat next' + Z.to_nat (next_page pool) - Z.to_nat (next_page pool))%nat
    with (Z.to_nat (next_page pool) + (Z.to_nat next' - Z.to_nat (next_page pool)))%nat in Hc by lia.
  rewrite <- drop_drop in Hc. by eapply elem_of_submseteq, sublist_submseteq, sublist_drop.
Qed.

Lemma alloc_post_set_page amount r :
  (reliable h -> pagesize pool <= PTRDIFF_MAX -> amount <= PTRDIFF_MAX ->
    is_Some r /\ (recorded pool -> recorded pool')) ->
  (forall rs, regions_ok h pool rs ->
    regions_ok h' pool' (from_option (fun p => (p, amount) :: rs) rs r)) ->
  (forall p, r = Some p -> exists q, blk = Some q /\ p_block p = p_block q) ->
  alloc_post h pool amount r pool' h'.
Proof.
  intros Hsome Hreg Hpage.
  assert (Hlive : forall b, b ∈ pool_blocks pool -> is_Some (h_blocks h !! b))
    by (intros; by eapply pool_blocks_live).
  split; [done| |done|unfold block_count; simpl; lia| | |done|done|].
  - pose proof (ok_next _ _ Hpool). split; simpl; try apply Hpool; try done.
    + eapply blocklist_ok_frame; [apply (ok_pages _ _ Hpool)|]. intros b Hb.
      apply Hsame, Hlive, pool_blocks_elem. auto.
    + eapply blocklist_ok_frame; [apply (ok_large _ _ Hpool)|]. intros b Hb.
      apply Hsame, Hlive, pool_blocks_elem. auto.
    + lia.
    + intros b Hb. destruct (Hblk b Hb) as (? & ? & ? & ? & ? & _). done.
  - intros b Hb Hs. split; [by apply Hsame|]. rewrite pool_blocks_elem in Hb |- *. simpl.
    intros [?|[?|(p & Hp & ->)]]; [tauto..|].
    destruct (Hblk p Hp) as (_ & _ & _ & _ & _ & [Hin|Hnone]).
    + by rewrite pool_blocks_elem in Hin.
    + destruct Hs. congruence.
  - intros b Hb Hn. rewrite pool_blocks_elem in Hn. simpl in Hn.
    destruct Hb as [Hb|Hb]; [destruct (Hclean b Hb); [done|tauto]|].
    unfold owned_pool in Hb. rewrite elem_of_app in Hb. tauto.
  - intros q Hq. destruct (Hpage q Hq) as (b & Hb & Heq). apply pool_blocks_elem. eauto.
Qed.

(** The regions handed out so far stay valid. *)
Lemma set_page_region r :
  region_ok h pool r ->
  (forall p, blk = Some p -> p_block r.1 = p_block p -> p_off r.1 + r.2 <= used') ->
  region_ok h' pool' r.
Proof using Hsame Hnext Hpool.
  intros Hr Hu. eapply region_ok_step; [done| | |apply Hr|done].
  - apply Hsame. by eapply region_live.
  - intros Hin. by apply (reg_unused _ _ _ Hr), unused_mono.
Qed.

(** The new region lies in the current page, behind every other one there. *)
Lemma set_page_new p o amount rs :
  blk = Some p -> 0 <= o -> o mod 8 = 0 -> 0 < amount -> o + amount <= used' ->
  regions_ok h pool rs ->
  (forall r, region_ok h pool r -> p_block r.1 = p_block p -> p_off r.1 + r.2 <= o) ->
  regions_ok h' pool' (({| p_block := p_block p; p_off := p_off p + o |}, amount) :: rs).
Proof using Hsame Hnext Hused Hpool Hblk.
  clear Hclean. intros Hp Ho Hmod Ham Hfit Hrs Hbelow.
  destruct (Hblk p Hp) as (Hpo & Hpl & Hpu & Hpa & Hpg & _). rewrite Hpo. apply regions_ok_cons.
  - split; simpl; [lia|done|exists (pagesize pool); split; [done|lia]|done| |].
    + rewrite elem_of_app. intros [?|?%array_owned]; done.
    + intros b Hb _. rewrite Hp in Hb. lia.
  - eapply regions_ok_map; [done|]. intros r Hr. apply set_page_region; [done|].
    intros q Hq Heq. rewrite Hp in Hq. simplify_eq. specialize (Hbelow r Hr Heq). lia.
  - destruct Hrs as [Hrs _]. eapply Forall_impl; [done|]. intros r Hr. unfold disjoint. simpl.
    destruct (decide (p_block r.1 = p_block p)) as [Heq|]; [|left; congruence].
    right; right. specialize (Hbelow r Hr Heq). lia.
Qed.
End SetPage.

(** A new page at the end of the page list. *)
Lemma alloc_post_page x' p amount a h' :
  heap_ok h' -> later h h' -> p_off p = 0 ->
  0 < amount <= pagesize pool -> amount mod 8 = 0 ->
  blocklist_ok h' (fun n => n = pagesize pool) x' -> num_blocks x' = num_blocks (pages pool) + 1 ->
  cells x' = cells (pages pool) ++ [p] -> array x' = [a] ->
  block_added (pages pool) p (pagesize pool) a h' ->
  alloc_post h pool amount (Some p) (set_page pool x' (num_blocks x') (Some p) amount) h'.
Proof.
  intros Hok' Hl Hpo Ham Hmod Hx' Hnum Hcells Harr (Hpf & Haf & Hpa & Hpl & Hkeep & Hdead).
  pose proof (ok_pagesize _ _ Hpool).
  assert (Hlive : forall b, b ∈ pool_blocks pool -> is_Some (h_blocks h !! b))
    by (intros; by eapply pool_blocks_live).
  assert (Hold : forall b, is_Some (h_blocks h !! b) -> b ∉ array (pages pool) ->
    h_blocks h' !! b = h_blocks h !! b).
  { intros b [? ?] Hb. apply Hkeep; [done|congruence..]. }
  assert (Hlarge : forall b, b ∈ owned (large_blocks pool) -> is_Some (h_blocks h !! b)).
  { intros b Hb. apply Hlive, pool_blocks_elem. auto. }
  assert (Hown : forall b, b ∈ owned x' <-> b = a \/ b ∈ p_block <$> cells (pages pool) \/ b = p_block p)
    by (intros b; by apply recorded_owned).
  set (pool' := set_page _ _ _ _ _).
  assert (Hun : unused_pages pool' = []).
  { unfold unused_pages, pool'. simpl. destruct Hx' as (-> & _ & _ & _). unfold zlen.
    by rewrite Nat2Z.id, drop_all. }
  assert (Hpl' : p_block p ∉ owned (large_blocks pool)).
  { intros Hb. destruct (Hlarge _ Hb). congruence. }
  split; [done| |done|unfold block_count; simpl; lia| | | | |].
  - split; simpl; try apply Hpool; try done.
    + eapply blocklist_ok_frame; [apply (ok_large _ _ Hpool)|]. intros b Hb.
      apply Hold; [by apply Hlarge|]. intros Ha. apply (nodup_disjoint b); [|done]. by apply array_owned.
    + unfold owned_pool. simpl. rewrite (Permutation_app_comm (owned x')).
      apply (recorded_nodup h (pages pool) _ p a); try done.
      * intros b Hb. apply Hlive, pool_blocks_elem. rewrite elem_of_app in Hb. tauto.
      * intros Hb. destruct (Hlive (p_block p)); [|congruence]. apply pool_blocks_elem.
        rewrite elem_of_app in Hb. tauto.
      * rewrite Permutation_app_comm. apply (ok_nodup _ _ Hpool).
    + pose proof (ok_next _ _ Hpool). lia.
    + lia.
    + intros b [= <-]. rewrite Harr, Hun, list_elem_of_singleton, elem_of_nil. tauto.
  - intros b Hb Hs. rewrite pool_blocks_elem in Hb |- *. simpl. rewrite Hown.
    assert (b <> a) by (intros ->; destruct Hs; congruence).
    assert (b <> p_block p) by (intros ->; destruct Hs; congruence).
    unfold owned in Hb at 1. rewrite elem_of_app in Hb. split.
    + apply Hold; [done|]. tauto.
    + intros [[?|[?|?]]|[?|(q & [= <-] & ?)]]; tauto.
  - intros b Hb Hn. rewrite pool_blocks_elem in Hn. simpl in Hn. rewrite Hown in Hn.
    assert (b <> a /\ b <> p_block p) as [? ?] by tauto.
    destruct (decide (b ∈ array (pages pool))) as [Ha|Ha]; [by apply Hdead|].
    rewrite Hkeep by done. destruct Hb as [|Hb]; [done|]. destruct Hn.
    unfold owned_pool in Hb. apply elem_of_app in Hb as [Hb|?]; [|by auto].
    apply elem_of_app in Hb as [?|?]; [done|]. auto.
  - intros _ _ _. split; [done|]. intros _ b [= <-]. simpl. rewrite Hcells.
    apply elem_of_app. right. by apply list_elem_of_singleton.
  - intros rs Hrs. simpl.
    assert (Hne : forall r, region_ok h pool r -> p_block r.1 <> p_block p /\ p_block r.1 <> a).
    { intros r Hr. destruct (region_live _ _ _ Hr). split; congruence. }
    apply regions_ok_cons.
    + split; simpl; rewrite ?Hpo, ?Hun; [lia|done| |apply not_elem_of_nil| |intros; lia].
      * exists (pagesize pool). split; [done|lia].
      * rewrite Harr, elem_of_app, list_elem_of_singleton. intros [Hin|Hin]; [done|].
        by apply Hpl', array_owned.
    + eapply regions_ok_map; [done|]. intros r Hr. destruct (Hne r Hr) as [? ?].
      pose proof (reg_array _ _ _ Hr) as Hra. rewrite elem_of_app in Hra.
      eapply region_ok_step; [done| |rewrite Hun; apply not_elem_of_nil| |].
      * apply Hold; [by eapply region_live|]. tauto.
      * simpl. rewrite Harr, elem_of_app, list_elem_of_singleton. tauto.
      * by intros b [= <-].
    + destruct Hrs as [Hrs _]. eapply Forall_impl; [done|]. intros r Hr. left. simpl.
      destruct (Hne r Hr). congruence.
  - intros q [= <-]. apply pool_blocks_elem. left. simpl. apply Hown. auto.
Qed.

Lemma wp_next_pool_page amount :
  0 < amount <= pagesize pool -> amount mod 8 = 0 -> num_blocks (pages pool) < INT32_MAX ->
  wp (next_pool_page pool amount) (fun '(r, pool') h' => alloc_post h pool amount r pool' h')
    (fun _ _ => False) h.
Proof.
  intros Ham Hmod Hnum. pose proof (ok_pagesize _ _ Hpool). pose proof (ok_next _ _ Hpool).
  pose proof (ok_used _ _ Hpool). unfold next_pool_page.
  destruct (Z.leb_spec (num_blocks (pages pool)) (next_page pool)).
  - apply wp_bind. wp_use (wp_calloc_record (fun n => n = pagesize pool) (pages pool) (pagesize pool));
      [apply Hpool|apply nodup_pages|done|lia|done| |done].
    intros [p|] h1 (Hok1 & Hl1 & Hr1 & Hcase).
    + destruct Hcase as (Hpo & Hpf & Hpl & [m Hb1] & Hrec). apply wp_bind. wp_use Hrec; [|done].
      intros [[] x'] h2 (Hok2 & Hl2 & Hr2 & Hpost); apply wp_ret.
      * destruct Hpost as (? & ? & ? & a & ? & ?). by eapply alloc_post_page.
      * destruct Hpost as [-> Hb2]. apply alloc_post_set_page; try done; try lia.
        -- intros b [? ?]. rewrite Hb2, Hb1, lookup_insert_ne; [done|congruence].
        -- intros q [= <-]. assert (Hno : p_block p ∉ pool_blocks pool).
           { intros Hin. destruct (pool_blocks_live _ _ _ Hpool Hin). congruence. }
           rewrite pool_blocks_elem in Hno. split_and!; [done|by eapply live_same; [rewrite Hb2|]|..].
           ++ intros Hin%unused_owned. simpl in Hin. tauto.
           ++ intros Hin%array_owned. tauto.
           ++ tauto.
           ++ by right.
        -- intros b Hb. rewrite Hb2, Hb1.
           destruct (decide (b = p_block p)); [eauto|]. rewrite lookup_insert_ne by done. by left.
        -- intros Hr. by specialize (Hr2 Hr).
        -- intros rs Hrs. eapply regions_ok_map; [done|]. intros r Hr.
           apply set_page_region; try done; try lia.
           ++ intros b [? ?]. rewrite Hb2, Hb1, lookup_insert_ne; [done|congruence].
           ++ intros q [= <-] Heq. destruct (region_live _ _ _ Hr). congruence.
    + apply wp_ret. apply alloc_post_set_page; try done; try lia.
      * intros b _. by rewrite Hcase.
      * intros b Hb. rewrite Hcase. by left.
      * intros Hr Hp. by destruct (Hr1 Hr Hp).
      * intros rs Hrs. eapply regions_ok_map; [done|]. intros r Hr.
        apply set_page_region; try done; try lia. intros b _. by rewrite Hcase.
  - destruct (ok_pages _ _ Hpool) as (Hlen & _ & _ & Hcs). unfold cells in Hlen.
    destruct (blocklist (pages pool)) as [[arr cs]|] eqn:Ebl; simpl in Hlen; [|change (zlen []) with 0 in Hlen; lia].
    destruct (lookup_lt_is_Some_2 cs (Z.to_nat (next_page pool))) as [p Hp];
      [unfold zlen in *; lia|]. simpl. rewrite Hp.
    assert (Hcells : cells (pages pool) = cs) by (unfold cells; by rewrite Ebl).
    assert (Hpc : p ∈ cells (pages pool)) by (rewrite Hcells; by eapply list_elem_of_lookup_2).
    assert (Hpu : p_block p ∈ unused_pages pool).
    { unfold unused_pages. apply list_elem_of_fmap_2. rewrite Hcells.
      apply (list_elem_of_lookup_2 _ 0). by rewrite lookup_drop, Nat.add_0_r. }
    rewrite Forall_forall in Hcs. destruct (Hcs p Hpc) as (Hpo & n & Hpl & ->).
    assert (Hblk : forall q, Some p = Some q ->
      p_off q = 0 /\ live h (p_block q) (pagesize pool) /\
      (p_block q ∉ unused_pages (set_page pool (pages pool) (next_page pool + 1) (Some p) amount)) /\
      (p_block q ∉ array (pages pool)) /\ (p_block q ∉ owned (large_blocks pool)) /\
      (p_block q ∈ pool_blocks pool \/ h_blocks h !! p_block q = None)).
    { intros q [= <-]. split_and!; [done..| | | |left].
      - unfold unused_pages. simpl. rewrite Hcells. pose proof nodup_pages as Hnd.
        unfold owned in Hnd. rewrite Hcells in Hnd. apply NoDup_app in Hnd as (_ & _ & Hnd).
        rewrite <- (take_drop_middle cs _ p Hp), fmap_app, fmap_cons in Hnd.
        apply NoDup_app in Hnd as (_ & _ & Hnd). apply NoDup_cons in Hnd as [Hnd _].
        by replace (Z.to_nat (next_page pool + 1)) with (S (Z.to_nat (next_page pool))) by lia.
      - apply cells_array; [apply nodup_pages|done].
      - by apply nodup_disjoint, cells_owned.
      - apply pool_blocks_elem. left. by apply cells_owned. }
    apply wp_ret. apply alloc_post_set_page; try done; try lia; [by left| | |by eauto].
    + intros _ _ _. split; [done|]. intros _ b [= <-]. done.
    + intros rs Hrs. simpl.
      replace p with {| p_block := p_block p; p_off := p_off p + 0 |} at 2
        by (destruct p; simpl; f_equal; lia).
      apply set_page_new; try done; try lia. intros r Hr Heq.
      destruct (reg_unused _ _ _ Hr). by rewrite Heq.
Qed.

(** [amqp_pool_alloc] on every branch: it returns NULL or a block of the rounded
    size, keeps the pool well formed and touches nothing else. *)
Lemma wp_pool_alloc amount :
  0 < amount <= PTRDIFF_MAX -> block_count pool < INT32_MAX ->
  wp (amqp_pool_alloc pool amount)
    (fun '(r, pool') h' => alloc_post h pool (round_up amount) r pool' h')
    (fun _ _ => False) h.
Proof.
  intros Ham Hcount. unfold block_count in Hcount. unfold amqp_pool_alloc.
  destruct (round_up_spec amount Ham) as [Hru Hmod]. set (n := round_up amount) in *. clearbody n.
  unfold PTRDIFF_MAX in Ham. pose proof (ok_pagesize _ _ Hpool). pose proof (ok_used _ _ Hpool) as [Hu Hum].
  rewrite (proj2 (Z.eqb_neq _ _)) by lia. destruct (Z.ltb_spec (pagesize pool) n).
  - apply wp_bind. wp_use (wp_calloc_record (fun n => pagesize pool < n) (large_blocks pool) n);
      [apply Hpool|apply nodup_large|lia|lia|done| |done].
    intros [p|] h1 (Hok1 & Hl1 & Hr1 & Hcase).
    + destruct Hcase as (Hpo & Hpf & Hpl & [m Hb1] & Hrec). apply wp_bind. wp_use Hrec; [|done].
      intros [[] x'] h2 (Hok2 & Hl2 & Hr2 & Hpost).
      * apply wp_ret. destruct Hpost as (? & ? & ? & a & ? & ?). by eapply alloc_post_large.
      * destruct Hpost as [-> Hb2]. apply wp_bind.
        wp_use (wp_free p n); [done..|by eapply live_same; [rewrite Hb2|]| |done].
        intros _ h3 (Hok3 & Hl3 & Hb3). apply wp_ret. fold (set_large (large_blocks pool)).
        rewrite set_large_id. apply alloc_post_fail; [done|by eapply later_trans| |].
        -- by rewrite Hb3, Hb2, Hb1, delete_insert_id.
        -- intros Hr. by specialize (Hr2 Hr).
    + apply wp_ret. apply alloc_post_fail; [done..|]. intros Hr _ Hn. by destruct (Hr1 Hr Hn).
  - destruct (alloc_block pool) as [b|] eqn:Eb; [|apply wp_next_pool_page; [lia|done|lia]].
    rewrite (proj2 (Z.ltb_ge _ _)) by lia.
    destruct (Z.leb_spec (size_t (alloc_used pool + n)) (pagesize pool)) as [Hfit|];
      [|apply wp_next_pool_page; [lia|done|lia]].
    destruct (ok_block _ _ Hpool b Eb) as (Hbo & Hbl & Hbu & Hba & Hbg).
    assert (pagesize pool <= PTRDIFF_MAX).
    { destruct Hbl as (m & Hm & <-). by destruct (Hok _ _ Hm). }
    unfold PTRDIFF_MAX in *. rewrite size_t_small in Hfit |- * by lia.
    assert (Hmod' : (alloc_used pool + n) mod 8 = 0)
      by (rewrite Z.add_mod, Hum, Hmod by lia; reflexivity).
    assert (Hblk : forall q, Some b = Some q ->
      p_off q = 0 /\ live h (p_block q) (pagesize pool) /\
      (p_block q ∉ unused_pages pool) /\
      (p_block q ∉ array (pages pool)) /\ (p_block q ∉ owned (large_blocks pool)) /\
      (p_block q ∈ pool_blocks pool \/ h_blocks h !! p_block q = None)).
    { intros q [= <-]. split_and!; [done..|left]. apply pool_blocks_elem. eauto. }
    pose proof (ok_next _ _ Hpool).
    apply wp_ret. apply alloc_post_set_page; try done; try lia; [by left| | |by intros ? [= <-]; eauto].
    + intros _ _ _. split; [done|]. intros Hrec q [= <-]. by apply Hrec.
    + intros rs Hrs. simpl. apply set_page_new; try done; try lia.
      intros r Hr Heq. by apply (reg_used _ _ _ Hr b).
Qed.
End Alloc.

(** ** Emptying and recycling *)

Lemma wp_free_blocks cs h :
  heap_ok h -> NoDup (p_block <$> cs) ->
  Forall (fun c => p_off c = 0 /\ exists n, live h (p_block c) n) cs ->
  wp (free_blocks cs (length cs)) (fun _ h' =>
    heap_ok h' /\ later h h' /\
    (forall b, b ∈ p_block <$> cs -> h_blocks h' !! b = None) /\
    (forall b, b ∉ p_block <$> cs -> h_blocks h' !! b = h_blocks h !! b))
    (fun _ _ => False) h.
Proof.
  revert h. induction cs as [|c cs IH]; intros h Hok Hnd Hc; simpl.
  { apply wp_ret. split_and!; [done|apply later_refl|by intros ? ?%elem_of_nil|done]. }
  rewrite fmap_cons in Hnd. apply NoDup_cons in Hnd as [Hn Hnd].
  apply Forall_cons in Hc as [(Ho & n & Hlive) Hc].
  apply wp_bind. wp_use (wp_free c n); [done..| |done]. intros _ h1 (Hok1 & Hl1 & Hb1).
  wp_use IH; [done..| | |done].
  - rewrite Forall_forall in *. intros x Hx. destruct (Hc x Hx) as (? & k & Hk).
    split; [done|]. exists k. eapply live_same; [|done]. rewrite Hb1, lookup_delete_ne; [done|].
    intros Heq. apply Hn. rewrite Heq. by apply list_elem_of_fmap_2.
  - intros _ h2 (? & ? & Hdead & Hsame). split_and!; [done|by eapply later_trans|..].
    + intros b [->|Hb]%elem_of_cons; [|by apply Hdead]. by rewrite Hsame, Hb1, lookup_delete_eq.
    + intros b [? ?]%not_elem_of_cons. by rewrite Hsame, Hb1, lookup_delete_ne.
Qed.

Lemma wp_empty_blocklist sz x h :
  heap_ok h -> blocklist_ok h sz x -> NoDup (owned x) ->
  wp (empty_blocklist x) (fun x' h' =>
    x' = empty_list /\ heap_ok h' /\ later h h' /\
    (forall b, b ∈ owned x -> h_blocks h' !! b = None) /\
    (forall b, b ∉ owned x -> h_blocks h' !! b = h_blocks h !! b))
    (fun _ _ => False) h.
Proof.
  intros Hok (Hnum & _ & Ha & Hc) Hnd. unfold empty_blocklist, owned, array, cells in *.
  destruct (blocklist x) as [[a cs]|]; simpl in *.
  2: { apply wp_ret. split_and!; [done..|apply later_refl|by intros ? ?%elem_of_nil|done]. }
  destruct Ha as [Hao Hal]. apply NoDup_cons in Hnd as [Hna Hnd].
  rewrite Hnum. unfold zlen. rewrite Nat2Z.id. apply wp_bind.
  wp_use (wp_free_blocks cs); [done..| | |done].
  { eapply Forall_impl; [done|]. intros c (? & n & ? & _). eauto. }
  intros _ h1 (Hok1 & Hl1 & Hdead & Hsame). apply wp_bind.
  wp_use (wp_free a (sizeof_void_p * num_blocks x)); [done..| | |done].
  { eapply live_same; [|done]. by apply Hsame. }
  intros _ h2 (Hok2 & Hl2 & Hb2). apply wp_ret.
  split_and!; [done..|by eapply later_trans| |]; intros b; rewrite Hb2.
  - intros [->|Hb]%elem_of_cons; [by rewrite lookup_delete_eq|].
    rewrite lookup_delete_ne; [by apply Hdead|]. congruence.
  - intros [? ?]%not_elem_of_cons. rewrite lookup_delete_ne by done. by apply Hsame.
Qed.

Definition recycled (pool : amqp_pool_t) : amqp_pool_t :=
  {| pagesize := pagesize pool; pages := pages pool; large_blocks := empty_list;
     next_page := 0; alloc_block := None; alloc_used := 0 |}.

Lemma wp_recycle h pool :
  heap_ok h -> pool_ok h pool ->
  wp (recycle_amqp_pool pool) (fun pool' h' =>
    pool' = recycled pool /\ heap_ok h' /\ later h h' /\ pool_ok h' pool' /\
    (forall b, b ∈ owned (large_blocks pool) -> h_blocks h' !! b = None) /\
    (forall b, b ∉ owned (large_blocks pool) -> h_blocks h' !! b = h_blocks h !! b))
    (fun _ _ => False) h.
Proof.
  intros Hok Hp. apply wp_bind.
  wp_use (wp_empty_blocklist (fun n => pagesize pool < n));
    [done|apply Hp|by eapply nodup_large| |done].
  intros x' h' (-> & Hok' & Hl & Hdead & Hsame). apply wp_ret.
  split_and!; try done. split; simpl; try apply Hp; try done.
  - eapply blocklist_ok_frame; [apply (ok_pages _ _ Hp)|]. intros b Hb.
    apply Hsame. by eapply nodup_disjoint.
  - unfold owned_pool. simpl. unfold owned at 2. simpl. rewrite app_nil_r. by eapply nodup_pages.
  - pose proof (ok_next _ _ Hp). lia.
  - pose proof (ok_pagesize _ _ Hp). split; [lia|done].
Qed.

(** Every recorded block is given back exactly once, and nothing else is. *)
Lemma wp_empty h pool :
  heap_ok h -> pool_ok h pool ->
  wp (empty_amqp_pool pool) (fun pool' h' =>
    pool' = init_amqp_pool (pagesize pool) /\ heap_ok h' /\ later h h' /\
    (forall b, b ∈ owned_pool pool -> h_blocks h' !! b = None) /\
    (forall b, b ∉ owned_pool pool -> h_blocks h' !! b = h_blocks h !! b))
    (fun _ _ => False) h.
Proof.
  intros Hok Hp. apply wp_bind. wp_use (wp_recycle h pool); [done..| |done].
  intros pool1 h1 (-> & Hok1 & Hl1 & Hp1 & Hdead1 & Hsame1). apply wp_bind.
  wp_use (wp_empty_blocklist (fun n => n = pagesize pool) (pages pool));
    [done|apply Hp1|by eapply nodup_pages| |done].
  intros x' h2 (-> & Hok2 & Hl2 & Hdead2 & Hsame2). apply wp_ret. unfold owned_pool.
  split_and!; [|done|by eapply later_trans|..].
  - unfold init_amqp_pool. pose proof (ok_pagesize _ _ Hp).
    by rewrite (proj2 (Z.eqb_neq _ _)) by lia.
  - intros b. destruct (decide (b ∈ owned (pages pool))); [auto|].
    intros [?|?]%elem_of_app; [done|]. rewrite Hsame2 by done. auto.
  - intros b Hb. rewrite elem_of_app in Hb. rewrite Hsame2, Hsame1; tauto.
Qed.

Lemma init_ok h ps : 0 <= ps < 2 ^ 64 -> pool_ok h (init_amqp_pool ps).
Proof.
  intros Hps. split; unfold owned_pool, owned, blocklist_ok; simpl; try done.
  - destruct (Z.eqb_spec ps 0); lia.
  - apply NoDup_nil_2.
  - split; [destruct (Z.eqb_spec ps 0); lia|done].
Qed.

(** ** The allocator of the decoders: a pool on the heap *)

Record pstate : Type := mk_pstate { ps_heap : heap; ps_pool : amqp_pool_t }.

Definition on_heap {A} (m : C heap A) : C pstate A := fun s =>
  match m (ps_heap s) with
  | Ret a h => Ret a {| ps_heap := h; ps_pool := ps_pool s |}
  | Err e h => Err e {| ps_heap := h; ps_pool := ps_pool s |}
  | UB => UB
  | NoFuel => NoFuel
  end.

Definition on_pool {A} (f : amqp_pool_t -> C heap (A * amqp_pool_t)) : C pstate A := fun s =>
  match f (ps_pool s) (ps_heap s) with
  | Ret (a, pool) h => Ret a {| ps_heap := h; ps_pool := pool |}
  | Err e h => Err e {| ps_heap := h; ps_pool := ps_pool s |}
  | UB => UB
  | NoFuel => NoFuel
  end.

#[export] Instance pool_allocator : Allocator pstate := {
  malloc n := on_heap (c_malloc n);
  realloc p n := on_heap (c_realloc p n);
  free p := on_heap (c_free (Some p));
  pool_alloc n := on_pool (fun pool => amqp_pool_alloc pool n)
}.

Lemma wp_on_heap {A} (m : C heap A) Q E s :
  wp m (fun a h => Q a {| ps_heap := h; ps_pool := ps_pool s |})
       (fun e h => E e {| ps_heap := h; ps_pool := ps_pool s |}) (ps_heap s) ->
  wp (on_heap m) Q E s.
Proof. unfold wp, on_heap. by destruct (m (ps_heap s)). Qed.

Lemma wp_on_pool {A} (f : amqp_pool_t -> C heap (A * amqp_pool_t)) Q E s :
  wp (f (ps_pool s)) (fun '(a, pool) h => Q a {| ps_heap := h; ps_pool := pool |})
       (fun e h => E e {| ps_heap := h; ps_pool := ps_pool s |}) (ps_heap s) ->
  wp (on_pool f) Q E s.
Proof. unfold wp, on_pool. by destruct (f (ps_pool s) (ps_heap s)) as [[a pool] h|e h| |]. Qed.

Definition pstate_inv (s : pstate) : Prop :=
  heap_ok (ps_heap s) /\ pool_ok (ps_heap s) (ps_pool s) /\ pagesize (ps_pool s) <= PTRDIFF_MAX.

(** A block the client owns: live, and none of the pool's. *)
Definition client_live (p : ptr) (s : pstate) : Prop :=
  p_off p = 0 /\ is_Some (h_blocks (ps_heap s) !! p_block p) /\
  (p_block p ∉ pool_blocks (ps_pool s)).

Definition pool_room (s : pstate) : Z := INT32_MAX - block_count (ps_pool s).

Lemma client_live_size p s : client_live p s -> exists n, live (ps_heap s) (p_block p) n.
Proof. intros (_ & [m Hm] & _). by exists (zlen m), m. Qed.

Lemma fresh_not_pool h pool b : pool_ok h pool -> h_blocks h !! b = None -> b ∉ pool_blocks pool.
Proof. intros Hp Hb Hin. destruct (pool_blocks_live _ _ _ Hp Hin). congruence. Qed.

Lemma ptr_block_ne p q : p_off p = 0 -> p_off q = 0 -> p <> q -> p_block p <> p_block q.
Proof. destruct p, q. simpl. intros -> -> Hne ->. done. Qed.

Lemma pstate_malloc n s :
  pstate_inv s -> 0 < n <= PTRDIFF_MAX ->
  wp (on_heap (c_malloc n)) (fun r s' =>
    pstate_inv s' /\ (forall q, client_live q s -> client_live q s') /\ pool_room s' = pool_room s /\
    (reliable (ps_heap s) -> reliable (ps_heap s') /\ is_Some r) /\
    match r with Some p => client_live p s' /\ ~ client_live p s | None => True end)
    (fun _ _ => False) s.
Proof.
  intros (Hok & Hp & Hps) Hn. apply wp_on_heap.
  wp_use (wp_heap_alloc n); [done|lia| |done].
  intros r h' (Hok' & Hl & Hr & Hcase).
  assert (Hsame : forall b, is_Some (h_blocks (ps_heap s) !! b) ->
    h_blocks h' !! b = h_blocks (ps_heap s) !! b).
  { destruct r as [p|]; [|by rewrite Hcase]. destruct Hcase as (_ & Hf & _ & m & _ & Hb).
    intros b [? ?]. rewrite Hb, lookup_insert_ne; [done|congruence]. }
  assert (Hinv : pstate_inv {| ps_heap := h'; ps_pool := ps_pool s |}).
  { split_and!; [done| |done]. eapply pool_ok_frame; [done|]. intros b Hb.
    by apply Hsame, (pool_blocks_live _ _ _ Hp). }
  split_and!; [done| |done| |].
  - intros q (? & Hq & ?). split_and!; [done| |done]. simpl. by rewrite Hsame.
  - intros Hrel. split; [by eapply later_reliable|]. apply Hr; [done|lia].
  - destruct r as [p|]; [|done]. destruct Hcase as (Hpo & Hf & _ & m & _ & Hb). split.
    + split_and!; [done| |by eapply fresh_not_pool]. simpl. rewrite Hb, lookup_insert_eq. by eexists.
    + intros (_ & [? ?] & _). congruence.
Qed.

Lemma pstate_realloc p n s :
  pstate_inv s -> client_live p s -> 0 < n <= PTRDIFF_MAX ->
  wp (on_heap (c_realloc p n)) (fun r s' =>
    pstate_inv s' /\ (forall q, q <> p -> client_live q s -> client_live q s') /\
    pool_room s' = pool_room s /\
    (reliable (ps_heap s) -> reliable (ps_heap s') /\ is_Some r) /\
    match r with
    | Some p' => client_live p' s' /\ forall q, q <> p -> client_live q s -> q <> p'
    | None => client_live p s'
    end) (fun _ _ => False) s.
Proof.
  intros (Hok & Hp & Hps) Hpl Hn. apply wp_on_heap.
  destruct (client_live_size _ _ Hpl) as [k Hk]. pose proof Hpl as (Hpo & _ & Hpn).
  wp_use (wp_realloc p k n); [done..|lia| |done].
  intros r h' (Hok' & Hl & Hr & Hcase).
  assert (Hsame : forall b, is_Some (h_blocks (ps_heap s) !! b) -> b <> p_block p ->
    h_blocks h' !! b = h_blocks (ps_heap s) !! b).
  { destruct r as [q|]; [|by rewrite Hcase]. destruct Hcase as (_ & Hf & m & _ & Hb).
    intros b [? ?] Hne. rewrite Hb, lookup_insert_ne, lookup_delete_ne; [done|congruence..]. }
  split_and!; [split_and!; [done| |done]| |done| |].
  - eapply pool_ok_frame; [done|]. intros b Hb. apply Hsame; [by eapply pool_blocks_live|].
    by intros ->.
  - intros q Hne (? & Hq & ?). split_and!; [done| |done]. simpl. rewrite Hsame; [done..|].
    by apply ptr_block_ne.
  - intros Hrel. split; [by eapply later_reliable|]. apply Hr; [done|lia].
  - destruct r as [q|].
    + destruct Hcase as (Hqo & Hf & m & _ & Hb). split.
      * split_and!; [done| |by eapply fresh_not_pool]. simpl. rewrite Hb, lookup_insert_eq. by eexists.
      * intros q' _ (_ & [? ?] & _) ->. congruence.
    + destruct Hpl as (? & ? & ?). split_and!; [done| |done]. simpl. by rewrite Hcase.
Qed.

Lemma pstate_free p s :
  pstate_inv s -> client_live p s ->
  wp (on_heap (c_free (Some p))) (fun _ s' =>
    pstate_inv s' /\ (forall q, q <> p -> client_live q s -> client_live q s') /\
    pool_room s' = pool_room s /\ (reliable (ps_heap s) -> reliable (ps_heap s')))
    (fun _ _ => False) s.
Proof.
  intros (Hok & Hp & Hps) Hpl. apply wp_on_heap.
  destruct (client_live_size _ _ Hpl) as [k Hk]. pose proof Hpl as (Hpo & _ & Hpn).
  wp_use (wp_free p k); [done..| |done]. intros _ h' (Hok' & Hl & Hb).
  split_and!; [split_and!; [done| |done]| |done|].
  - eapply pool_ok_frame; [done|]. intros b Hin. simpl. rewrite Hb, lookup_delete_ne; [done|].
    by intros <-.
  - intros q Hne (? & Hq & ?). split_and!; [done| |done]. simpl.
    rewrite Hb, lookup_delete_ne; [done|]. by apply ptr_block_ne.
  - by apply later_reliable.
Qed.

Lemma pstate_pool_alloc n s :
  pstate_inv s -> 0 <= n <= PTRDIFF_MAX -> 0 < pool_room s ->
  wp (on_pool (fun pool => amqp_pool_alloc pool n)) (fun r s' =>
    pstate_inv s' /\ (forall q, client_live q s -> client_live q s') /\
    pool_room s - 1 <= pool_room s' /\
    (reliable (ps_heap s) ->
      reliable (ps_heap s') /\ (0 < n <= PTRDIFF_MAX - 7 -> is_Some r)) /\
    (n = 0 -> r = None)) (fun _ _ => False) s.
Proof.
  intros (Hok & Hp & Hps) Hn Hroom. apply wp_on_pool. unfold pool_room in Hroom.
  destruct (decide (n = 0)) as [->|Hn0].
  { apply wp_ret. destruct s. split_and!; simpl; [done|done|lia| |done].
    intros ?. split; [done|lia]. }
  wp_use (wp_pool_alloc (ps_heap s) (ps_pool s) Hok Hp n); [lia|lia| |done].
  intros [r pool'] h' Hpost. destruct (round_up_spec n) as [Hru _]; [lia|].
  destruct (post_heap _ _ _ _ _ _ Hpost) as [Hok' Hl].
  split_and!; simpl.
  - split_and!; [done|by apply Hpost|]. simpl. by rewrite (post_size _ _ _ _ _ _ Hpost).
  - intros q (? & Hq & Hnq).
    destruct (post_frame _ _ _ _ _ _ Hpost _ Hnq Hq) as [Hs Hn'].
    split_and!; [done| |done]. simpl. by rewrite Hs.
  - pose proof (post_count _ _ _ _ _ _ Hpost). unfold pool_room. simpl. lia.
  - intros Hrel. split; [by eapply later_reliable|]. intros Hn7.
    apply (post_some _ _ _ _ _ _ Hpost); [done..|]. unfold PTRDIFF_MAX in *. lia.
  - done.
Qed.

(** *** Framing

    Nothing a decoder does touches a block that is neither its pool's nor its
    own: with [F] the blocks that must stay as they are, the laws hold with
    [outside F] added to the invariant. *)
Section Framed.
Context (F : gmap Z (list Z)).

Definition outside (s : pstate) : Prop :=
  forall b m, F !! b = Some m ->
    h_blocks (ps_heap s) !! b = Some m /\ b ∉ pool_blocks (ps_pool s).

Definition framed_inv (s : pstate) : Prop := pstate_inv s /\ outside s.
Definition framed_live (p : ptr) (s : pstate) : Prop := client_live p s /\ F !! p_block p = None.

Lemma outside_fresh s b : outside s -> h_blocks (ps_heap s) !! b = None -> F !! b = None.
Proof.
  intros Ho Hb. apply eq_None_not_Some. intros [m Hm]. destruct (Ho b m Hm). congruence.
Qed.

Lemma outside_blocks s h' :
  outside s -> (forall b m, F !! b = Some m -> h_blocks h' !! b = h_blocks (ps_heap s) !! b) ->
  outside {| ps_heap := h'; ps_pool := ps_pool s |}.
Proof. intros Ho Hs b m Hb. simpl. rewrite (Hs b m) by done. by apply Ho. Qed.

Lemma frame_malloc n s :
  framed_inv s -> 0 < n <= PTRDIFF_MAX ->
  wp (on_heap (c_malloc n)) (fun r s' => outside s' /\
    forall p, r = Some p -> F !! p_block p = None) (fun _ _ => False) s.
Proof.
  intros [(Hok & _ & _) Ho] Hn. apply wp_on_heap. wp_use (wp_heap_alloc n); [done|lia| |done].
  intros [p|] h' (_ & _ & _ & Hr); [destruct Hr as (_ & Hf & _ & m & _ & Hb)|]; split; try done.
  - apply outside_blocks; [done|]. intros b m' Hm'. rewrite Hb, lookup_insert_ne; [done|].
    intros <-. rewrite (outside_fresh s (p_block p)) in Hm' by done. done.
  - intros q [= <-]. by eapply outside_fresh.
  - apply outside_blocks; [done|]. intros. by rewrite Hr.
Qed.

Lemma frame_realloc p n s :
  framed_inv s -> framed_live p s -> 0 < n <= PTRDIFF_MAX ->
  wp (on_heap (c_realloc p n)) (fun r s' => outside s' /\
    forall q, r = Some q -> F !! p_block q = None) (fun _ _ => False) s.
Proof.
  intros [(Hok & _ & _) Ho] [Hlive Hp] Hn. destruct (client_live_size _ _ Hlive) as [k Hk].
  apply wp_on_heap. wp_use (wp_realloc p k n); [done|apply Hlive|done|lia| |done].
  intros [q|] h' (_ & _ & _ & Hr); [destruct Hr as (_ & Hf & m & _ & Hb)|]; split; try done.
  - apply outside_blocks; [done|]. intros b m' Hm'.
    rewrite Hb, lookup_insert_ne, lookup_delete_ne; [done|congruence|].
    intros <-. rewrite (outside_fresh s (p_block q)) in Hm' by done. done.
  - intros q' [= <-]. by eapply outside_fresh.
  - apply outside_blocks; [done|]. intros. by rewrite Hr.
Qed.

Lemma frame_free p s :
  framed_inv s -> framed_live p s ->
  wp (on_heap (c_free (Some p))) (fun _ s' => outside s') (fun _ _ => False) s.
Proof.
  intros [(Hok & _ & _) Ho] [Hlive Hp]. destruct (client_live_size _ _ Hlive) as [k Hk].
  apply wp_on_heap. wp_use (wp_free p k); [done|apply Hlive|done| |done].
  intros _ h' (_ & _ & Hb). apply outside_blocks; [done|]. intros b m Hm.
  rewrite Hb, lookup_delete_ne; congruence.
Qed.

Lemma frame_pool_alloc n s :
  framed_inv s -> 0 <= n <= PTRDIFF_MAX -> 0 < pool_room s ->
  wp (on_pool (fun pool => amqp_pool_alloc pool n)) (fun _ s' => outside s') (fun _ _ => False) s.
Proof.
  intros [(Hok & Hp & Hps) Ho] Hn Hroom. unfold pool_room in Hroom. apply wp_on_pool.
  destruct (Z.eqb_spec n 0) as [->|Hne]; [by destruct s|].
  wp_use (wp_pool_alloc (ps_heap s) (ps_pool s)); [done..|lia|lia| |done].
  intros [r pool'] h' Hpost b m Hm. destruct (Ho b m Hm) as [Hb Hnb].
  destruct (post_frame _ _ _ _ _ _ Hpost b) as [Heq Hn']; [done|by eexists|].
  simpl. by rewrite Heq.
Qed.

Lemma framed_malloc n s :
  framed_inv s -> 0 < n <= PTRDIFF_MAX ->
  wp (on_heap (c_malloc n)) (fun r s' =>
    framed_inv s' /\ (forall q, framed_live q s -> framed_live q s') /\ pool_room s' = pool_room s /\
    (reliable (ps_heap s) -> reliable (ps_heap s') /\ is_Some r) /\
    match r with Some p => framed_live p s' /\ ~ framed_live p s | None => True end)
    (fun _ _ => False) s.
Proof.
  intros Hi Hn. eapply wp_mono; [apply (wp_conj _ _ _ _ _ s (pstate_malloc n s (proj1 Hi) Hn)
    (frame_malloc n s Hi Hn))| |by intros ? ? []].
  intros r s' ((? & Hl & ? & ? & Hr) & ? & Hf). split_and!; [by split| |done..|].
  - intros q [? ?]. split; auto.
  - destruct r as [p|]; [|done]. destruct Hr as [? Hnl]. split; [split; auto|]. by intros [? _].
Qed.

Lemma framed_realloc p n s :
  framed_inv s -> framed_live p s -> 0 < n <= PTRDIFF_MAX ->
  wp (on_heap (c_realloc p n)) (fun r s' =>
    framed_inv s' /\ (forall q, q <> p -> framed_live q s -> framed_live q s') /\
    pool_room s' = pool_room s /\
    (reliable (ps_heap s) -> reliable (ps_heap s') /\ is_Some r) /\
    match r with
    | Some p' => framed_live p' s' /\ forall q, q <> p -> framed_live q s -> q <> p'
    | None => framed_live p s'
    end) (fun _ _ => False) s.
Proof.
  intros Hi Hp Hn. eapply wp_mono; [apply (wp_conj _ _ _ _ _ s
    (pstate_realloc p n s (proj1 Hi) (proj1 Hp) Hn) (frame_realloc p n s Hi Hp Hn))| |by intros ? ? []].
  intros r s' ((? & Hl & ? & ? & Hr) & ? & Hf). split_and!; [by split| |done..|].
  - intros q ? [? ?]. split; auto.
  - destruct r as [q|]; [|split; [done|apply Hp]]. destruct Hr as [? Hne].
    split; [split; auto|]. intros q' ? [? _]. auto.
Qed.

Lemma framed_free p s :
  framed_inv s -> framed_live p s ->
  wp (on_heap (c_free (Some p))) (fun _ s' =>
    framed_inv s' /\ (forall q, q <> p -> framed_live q s -> framed_live q s') /\
    pool_room s' = pool_room s /\ (reliable (ps_heap s) -> reliable (ps_heap s')))
    (fun _ _ => False) s.
Proof.
  intros Hi Hp. eapply wp_mono; [apply (wp_conj _ _ _ _ _ s
    (pstate_free p s (proj1 Hi) (proj1 Hp)) (frame_free p s Hi Hp))| |by intros ? ? []].
  intros r s' ((? & Hl & ? & ?) & ?). split_and!; [by split| |done..]. intros q ? [? ?]. split; auto.
Qed.

Lemma framed_pool_alloc n s :
  framed_inv s -> 0 <= n <= PTRDIFF_MAX -> 0 < pool_room s ->
  wp (on_pool (fun pool => amqp_pool_alloc pool n)) (fun r s' =>
    framed_inv s' /\ (forall q, framed_live q s -> framed_live q s') /\
    pool_room s - 1 <= pool_room s' /\
    (reliable (ps_heap s) ->
      reliable (ps_heap s') /\ (0 < n <= PTRDIFF_MAX - 7 -> is_Some r)) /\
    (n = 0 -> r = None)) (fun _ _ => False) s.
Proof.
  intros Hi Hn Hr. eapply wp_mono; [apply (wp_conj _ _ _ _ _ s
    (pstate_pool_alloc n s (proj1 Hi) Hn Hr) (frame_pool_alloc n s Hi Hn Hr))| |by intros ? ? []].
  intros r s' ((? & Hl & ? & ? & ?) & ?). split_and!; [by split| |done..]. intros q [? ?]. split; auto.
Qed.

Definition framed_laws : AllocatorLaws pstate := {|
  a_inv := framed_inv;
  a_live := framed_live;
  a_reliable := fun s => reliable (ps_heap s);
  a_room := pool_room;
  malloc_law := framed_malloc;
  realloc_law := framed_realloc;
  free_law := framed_free;
  pool_alloc_law := framed_pool_alloc
|}.
End Framed.

#[export] Instance pool_allocator_laws : AllocatorLaws pstate := {
  a_inv := pstate_inv;
  a_live := client_live;
  a_reliable := fun s => reliable (ps_heap s);
  a_room := pool_room;
  malloc_law := pstate_malloc;
  realloc_law := pstate_realloc;
  free_law := pstate_free;
  pool_alloc_law := pstate_pool_alloc
}.
