(* ===== verification/PoolTheorems.v ===== *)
(** * Theorems about pools

    Arbitrary sequences of allocations and recyclings of one pool: the memory
    handed out is aligned, in bounds and disjoint; emptying the pool gives back
    everything it took; and the one way in which a page can be lost. *)

From S2P Require Import Prelude Machine Status Alloc Mem MemTheory.

(** ** Sequences of operations *)

Inductive pool_op : Type :=
| Alloc (amount : Z)
| Recycle.

(** Runs the operations and collects the regions handed out since the last
    recycling, with the sizes that were asked for. *)
Fixpoint run_ops (ops : list pool_op) (pool : amqp_pool_t) (rs : list region)
    : C heap (amqp_pool_t * list region) :=
  match ops with
  | [] => ret (pool, rs)
  | Alloc n :: ops' =>
      let* '(r, pool') := amqp_pool_alloc pool n in
      run_ops ops' pool' (from_option (fun p => (p, n) :: rs) rs r)
  | Recycle :: ops' =>
      let* pool' := recycle_amqp_pool pool in
      run_ops ops' pool' []
  end.

Definition op_ok (op : pool_op) : Prop :=
  match op with Alloc n => 0 <= n <= PTRDIFF_MAX | Recycle => True end.

(** The requests are small enough to be granted. *)
Definition op_fits (op : pool_op) : Prop :=
  match op with Alloc n => 0 <= n <= PTRDIFF_MAX - 7 | Recycle => True end.

(** ** Invariant of a run *)

Lemma regions_ok_shrink h pool p n m rs :
  0 < m <= n -> regions_ok h pool ((p, n) :: rs) -> regions_ok h pool ((p, m) :: rs).
Proof.
  intros Hm [Hr Hd]. apply Forall_cons in Hr as [Hr Hrs]. inversion Hd as [|? ? Hd1 Hd2]; subst.
  split.
  - constructor; [|done]. destruct Hr as [Hpos Hal (k & Hk & Hfit) Hun Harr Hu]; simpl in *.
    split; simpl; [lia|done|exists k; split; [done|lia]|done|done|].
    intros b Hb Heq. specialize (Hu b Hb Heq). lia.
  - constructor; [|done]. eapply Forall_impl; [exact Hd1|]. unfold disjoint. simpl. intros r Hdr.
    destruct Hdr as [?|[?|?]]; [by left|right; left; lia|right; right; lia].
Qed.

(** [h0] is the heap the pool was created in: blocks outside the pool are as
    they were. *)
Record run_inv (h0 h : heap) (pool : amqp_pool_t) (rs : list region) : Prop := {
  inv_heap : heap_ok h /\ later h0 h;
  inv_pool : pool_ok h pool;
  inv_regions : regions_ok h pool rs;
  inv_frame : forall b, is_Some (h_blocks h0 !! b) ->
    h_blocks h !! b = h_blocks h0 !! b /\ b ∉ pool_blocks pool
}.

(** Nothing was refused so far: the pool accounts for every new block. *)
Record run_clean (h0 h : heap) (pool : amqp_pool_t) : Prop := {
  clean_recorded : recorded pool;
  clean_blocks : forall b, h_blocks h0 !! b = None -> b ∉ owned_pool pool -> h_blocks h !! b = None
}.

Lemma recorded_blocks pool b : recorded pool -> b ∈ pool_blocks pool -> b ∈ owned_pool pool.
Proof.
  intros Hrec. rewrite pool_blocks_elem. unfold owned_pool. rewrite elem_of_app.
  intros [?|[?|(p & Hp & ->)]]; [auto..|]. left. by apply cells_owned, Hrec.
Qed.

Lemma run_inv_alloc h0 h pool rs n :
  run_inv h0 h pool rs -> 0 <= n <= PTRDIFF_MAX -> block_count pool < INT32_MAX ->
  wp (amqp_pool_alloc pool n) (fun '(r, pool') h' =>
    run_inv h0 h' pool' (from_option (fun p => (p, n) :: rs) rs r) /\
    block_count pool' <= block_count pool + 1 /\ pagesize pool' = pagesize pool /\
    (reliable h0 -> pagesize pool <= PTRDIFF_MAX -> n <= PTRDIFF_MAX - 7 ->
      run_clean h0 h pool -> run_clean h0 h' pool')) (fun _ _ => False) h.
Proof.
  intros [[Hok Hl] Hp Hrs Hframe] Hn Hc. destruct (decide (n = 0)) as [->|Hn0].
  { apply wp_ret. simpl. split_and!; [done|lia|done|done]. }
  wp_use (wp_pool_alloc h pool Hok Hp n); [lia|done| |done].
  intros [r pool'] h' Hpost. destruct (round_up_spec n) as [Hru _]; [lia|].
  pose proof (post_heap _ _ _ _ _ _ Hpost) as [Hok' Hl'].
  split_and!; [|by apply Hpost|by apply Hpost|].
  - split.
    + split; [done|by eapply later_trans].
    + apply Hpost.
    + pose proof (post_regions _ _ _ _ _ _ Hpost rs Hrs) as Hr. destruct r as [p|]; [|done].
      simpl in *. eapply regions_ok_shrink; [|done]. lia.
    + intros b Hb. destruct (Hframe b Hb) as [Hs Hnb].
      destruct (post_frame _ _ _ _ _ _ Hpost b Hnb) as [Hs' ?]; [by rewrite Hs|].
      split; [congruence|done].
  - intros Hrel Hps Hn7 [Hrec Hcl].
    destruct (post_some _ _ _ _ _ _ Hpost) as [_ Hrec'];
      [by eapply later_reliable|done|unfold PTRDIFF_MAX in *; lia|].
    specialize (Hrec' Hrec). split; [done|].
    intros b Hb Hno. apply (post_clean _ _ _ _ _ _ Hpost).
    + destruct (decide (b ∈ owned_pool pool)); [by right|]. left. by apply Hcl.
    + intros Hin. by apply Hno, recorded_blocks.
Qed.

Lemma run_inv_recycle h0 h pool rs :
  run_inv h0 h pool rs ->
  wp (recycle_amqp_pool pool) (fun pool' h' =>
    run_inv h0 h' pool' [] /\ block_count pool' <= block_count pool /\ pagesize pool' = pagesize pool /\
    (run_clean h0 h pool -> run_clean h0 h' pool')) (fun _ _ => False) h.
Proof.
  intros [[Hok Hl] Hp Hrs Hframe]. wp_use (wp_recycle h pool); [done..| |done].
  intros pool' h' (-> & Hok' & Hl' & Hp' & Hdead & Hsame).
  assert (Hsub : forall b, b ∈ pool_blocks (recycled pool) -> b ∈ pool_blocks pool).
  { intros b. rewrite !pool_blocks_elem. simpl. intros [?|[?%elem_of_nil|(p & ? & _)]]; [by left|done..]. }
  split_and!.
  - split; [split; [done|by eapply later_trans]|done|by split; constructor|].
    intros b Hb. destruct (Hframe b Hb) as [Hs Hnb]. split.
    + rewrite Hsame; [done|]. intros Hin. apply Hnb, pool_blocks_elem. auto.
    + intros Hin. by apply Hnb, Hsub.
  - unfold block_count. simpl. pose proof (ok_next _ _ Hp). lia.
  - done.
  - intros [Hrec Hcl]. split; [done|]. intros b Hb Hno.
    destruct (decide (b ∈ owned (large_blocks pool))); [by apply Hdead|].
    rewrite Hsame by done. apply Hcl; [done|]. unfold owned_pool in *. simpl in Hno.
    rewrite elem_of_app in Hno |- *. tauto.
Qed.

Lemma run_inv_ops h0 ops : forall h pool rs,
  run_inv h0 h pool rs -> Forall op_ok ops -> block_count pool + zlen ops <= INT32_MAX ->
  wp (run_ops ops pool rs) (fun '(pool', rs') h' =>
    run_inv h0 h' pool' rs' /\
    (reliable h0 -> pagesize pool <= PTRDIFF_MAX -> Forall op_fits ops ->
      run_clean h0 h pool -> run_clean h0 h' pool')) (fun _ _ => False) h.
Proof.
  induction ops as [|[n|] ops IH]; intros h pool rs Hinv Hops Hc; cbn [run_ops].
  { by apply wp_ret. }
  all: apply Forall_cons in Hops as [Hop Hops].
  all: assert (Hz : zlen (A := pool_op) ops + 1 <= INT32_MAX - block_count pool)
    by (unfold zlen in *; simpl in Hc; lia); pose proof (zlen_nonneg ops).
  - apply wp_bind. wp_use run_inv_alloc; [done|done|lia| |done].
    intros [r pool'] h' (Hinv' & Hc' & Hps & Hcl).
    wp_use IH; [done..|lia| |done]. intros [pool'' rs''] h'' [Hinv'' Hcl'']. split; [done|].
    intros Hrel Hp Hf Hclean. apply Forall_cons in Hf as [Hfit Hf]. simpl in Hfit.
    apply Hcl''; [done|by rewrite Hps|done|apply Hcl; [done..|lia|done]].
  - apply wp_bind. wp_use run_inv_recycle; [done| |done].
    intros pool' h' (Hinv' & Hc' & Hps & Hcl).
    wp_use IH; [done..|lia| |done]. intros [pool'' rs''] h'' [Hinv'' Hcl'']. split; [done|].
    intros Hrel Hp Hf Hclean. apply Forall_cons in Hf as [_ Hf].
    apply Hcl''; [done|by rewrite Hps|done|by apply Hcl].
Qed.

Lemma run_inv_init h ps :
  heap_ok h -> 0 <= ps < 2 ^ 64 -> run_inv h h (init_amqp_pool ps) [].
Proof.
  intros Hok Hps. split.
  - split; [done|apply later_refl].
  - by apply init_ok.
  - split; constructor.
  - intros b Hb. split; [done|]. by intros ?%elem_of_nil.
Qed.

(** ** The theorems *)


(** A heap with nothing in it and an environment that grants every request. *)
Definition fresh_heap (e : env) : heap :=
  {| h_blocks := ∅; h_next := 1; h_count := 0; h_env := e |}.

Definition generous : env := {| grants := fun _ => true; junk := fun _ _ => 0 |}.

Lemma fresh_heap_ok e : heap_ok (fresh_heap e).
Proof. intros b m Hb. simpl in Hb. by rewrite lookup_empty in Hb. Qed.


(** As long as no request for memory is refused, emptying a pool after any
    sequence of allocations and recyclings leaves exactly the heap there was
    before the pool was created: nothing leaks and nothing else is freed. *)
Theorem pool_empty_restores h ps ops :
  heap_ok h -> reliable h -> 0 < ps <= PTRDIFF_MAX ->
  Forall op_fits ops -> zlen ops <= INT32_MAX ->
  wp (let* '(pool, rs) := run_ops ops (init_amqp_pool ps) [] in empty_amqp_pool pool)
    (fun _ h' => forall b, h_blocks h' !! b = h_blocks h !! b) (fun _ _ => False) h.
Proof.
  intros Hok Hrel Hps Hfits Hlen. unfold PTRDIFF_MAX in Hps. apply wp_bind.
  wp_use (run_inv_ops h ops h (init_amqp_pool ps) []).
  - apply run_inv_init; [done|lia].
  - eapply Forall_impl; [exact Hfits|]. intros [n|]; simpl; [lia|done].
  - done.
  - intros [pool rs] h1 [[[Hok1 _] Hp1 _ Hframe] Hcl].
    destruct Hcl as [Hrec Hclean]; [done| |done| |].
    { unfold init_amqp_pool, PTRDIFF_MAX. simpl. destruct (ps =? 0); lia. }
    { split; [done|]. done. }
    wp_use (wp_empty h1 pool); [done..| |done]. intros pool' h2 (_ & _ & _ & Hdead & Hsame) b.
    destruct (decide (b ∈ owned_pool pool)) as [Hb|Hb].
    + rewrite Hdead by done. destruct (h_blocks h !! b) eqn:E; [|done].
      destruct (Hframe b) as [_ Hno]; [by rewrite E|]. destruct Hno. apply elem_of_app. by left.
    + rewrite Hsame by done. destruct (h_blocks h !! b) eqn:E.
      * destruct (Hframe b) as [Hs _]; [by rewrite E|]. by rewrite Hs.
      * by apply Hclean.
  - done.
Qed.

Lemma pool_empty_restores_witness :
  exists pool h', (let* '(pool, rs) := run_ops [Alloc 5; Alloc 100; Recycle; Alloc 16] (init_amqp_pool 32) [] in
      empty_amqp_pool pool) (fresh_heap generous) = Ret pool h' /\
    forall b, h_blocks h' !! b = None.
Proof.
  pose proof (pool_empty_restores (fresh_heap generous) 32 [Alloc 5; Alloc 100; Recycle; Alloc 16]
    (fresh_heap_ok _) ltac:(done) ltac:(unfold PTRDIFF_MAX; lia)
    ltac:(repeat constructor; vm_compute; intros ?; discriminate) ltac:(by vm_compute)) as Hwp.
  unfold wp in Hwp.
  destruct ((let* '(pool, rs) := _ in _) _) as [pool h'|e h'| |] eqn:E; [|destruct Hwp..].
  exists pool, h'. split; [reflexivity|]. intros b. rewrite Hwp. apply lookup_empty.
Defined.

(** A page is lost for good when [calloc] provides it but the block list
    cannot grow to record it: [amqp_pool_alloc] returns NULL, and after
    [empty_amqp_pool] the page is still allocated. *)
Theorem pool_page_leak h ps n :
  heap_ok h -> 0 < ps <= PTRDIFF_MAX -> 0 < n <= PTRDIFF_MAX -> round_up n <= ps ->
  grants (h_env h) (h_count h) = true -> grants (h_env h) (S (h_count h)) = false ->
  exists pool1 h1 pool2 h2,
    amqp_pool_alloc (init_amqp_pool ps) n h = Ret (None, pool1) h1 /\
    empty_amqp_pool pool1 h1 = Ret pool2 h2 /\
    h_blocks h !! h_next h = None /\ live h2 (h_next h) ps.
Proof.
  intros Hok Hps Hn Hru Hg1 Hg2. unfold amqp_pool_alloc, init_amqp_pool.
  rewrite (proj2 (Z.eqb_neq ps 0)), (proj2 (Z.eqb_neq n 0)) by lia. cbn [pagesize alloc_block].
  rewrite (proj2 (Z.ltb_ge _ _)) by lia. unfold next_pool_page. cbn [pages num_blocks next_page].
  change (0 <=? 0) with true. unfold bind at 1, c_calloc, heap_alloc. cbn [pagesize].
  rewrite Hg1, (proj2 (Z.leb_le _ _)) by lia. cbn [andb].
  unfold record_pool_block, c_malloc, heap_alloc, bind at 1. cbn [num_blocks blocklist].
  change (INT32_MAX <? 0 + 1) with false. cbn [h_env h_count]. unfold bind, ret. cbn [h_env h_count].
  rewrite Hg2. rewrite andb_false_r. cbn.
  do 4 eexists. split; [reflexivity|]. split; [reflexivity|]. split; [by apply live_fresh|].
  eexists. simpl. rewrite lookup_insert_eq. split; [reflexivity|].
  unfold zlen. rewrite length_fmap, length_seq. lia.
Qed.

Definition refuse_second : env :=
  {| grants := fun i => negb (i =? 1)%nat; junk := fun _ _ => 0 |}.

Lemma pool_page_leak_witness :
  exists pool1 h1 pool2 h2,
    amqp_pool_alloc (init_amqp_pool 16) 8 (fresh_heap refuse_second) = Ret (None, pool1) h1 /\
    empty_amqp_pool pool1 h1 = Ret pool2 h2 /\ live h2 1 16.
Proof.
  destruct (pool_page_leak (fresh_heap refuse_second) 16 8 (fresh_heap_ok _)
    ltac:(unfold PTRDIFF_MAX; lia) ltac:(unfold PTRDIFF_MAX; lia) ltac:(by vm_compute)
    eq_refl eq_refl) as (pool1 & h1 & pool2 & h2 & H1 & H2 & _ & H3).
  by exists pool1, h1, pool2, h2.
Defined.

(** The rounding of the requested size wraps around for sizes within 7 of
    [SIZE_MAX]: with a current page, [amqp_pool_alloc] then reports success
    and returns a pointer without reserving a single byte. *)
Theorem pool_alloc_size_overflow h pool b amount :
  alloc_block pool = Some b -> 0 <= alloc_used pool <= pagesize pool -> pagesize pool < 2 ^ 64 ->
  2 ^ 64 - 8 < amount < 2 ^ 64 ->
  amqp_pool_alloc pool amount h =
    Ret (Some {| p_block := p_block b; p_off := p_off b + alloc_used pool |}, pool) h.
Proof.
  intros Hb Hu Hps Ha. unfold amqp_pool_alloc. rewrite (proj2 (Z.eqb_neq _ _)) by lia.
  assert (Hz : round_up amount = 0).
  { unfold round_up. replace (size_t (amount + 7)) with (amount + 7 - 2 ^ 64).
    - replace (size_t (Z.lnot 7)) with (Z.ldiff (Z.ones 64) (Z.ones 3)) by reflexivity.
      rewrite Z.ldiff_land, Z.land_assoc, Z.land_ones, Z.mod_small, <- Z.ldiff_land by lia.
      rewrite Z.ldiff_ones_r, Z.shiftr_div_pow2, Z.div_small by lia. reflexivity.
    - unfold size_t, u64, wrap. rewrite <- (Z_mod_plus_full _ (-1)). rewrite Z.mod_small; lia. }
  rewrite Hz, Hb. rewrite !(proj2 (Z.ltb_ge _ _)) by lia.
  rewrite Z.add_0_r, size_t_small by lia. rewrite (proj2 (Z.leb_le _ _)) by lia.
  unfold ret, set_page. do 2 f_equal. rewrite <- Hb. by destruct pool.
Qed.

Lemma pool_alloc_size_overflow_witness :
  exists pool p h, amqp_pool_alloc pool (2 ^ 64 - 1) h = Ret (Some p, pool) h.
Proof.
  pose proof (pool_alloc_size_overflow (fresh_heap generous)
    (set_page (init_amqp_pool 32) empty_list 0 (Some {| p_block := 1; p_off := 0 |}) 8)
    {| p_block := 1; p_off := 0 |} (2 ^ 64 - 1) eq_refl) as H.
  do 3 eexists. apply H; simpl; lia.
Defined.
