(* ===== verification/TableTheorems.v ===== *)
(** * Theorems about field tables

    The encoder writes the AMQP wire format, the decoder is total and defined on
    arbitrary bytes, and decoding undoes encoding. *)

From S2P Require Import Prelude Machine Status Alloc Codec Table TableEncode TableDecode Mem MemTheory PoolTheorems.

(** A little-endian machine, for the examples. *)
Definition little_endian : Host := {| is_bigendian := false |}.

(** The decoder's start: at [offset], with an empty pool on an empty heap. *)
Definition start_at (offset : Z) : dst pstate :=
  {| d_off := offset;
     d_alloc := {| ps_heap := fresh_heap generous; ps_pool := init_amqp_pool 4096 |} |}.

Lemma start_inv o : a_inv (d_alloc (start_at o)).
Proof. split_and!; [apply fresh_heap_ok|by apply init_ok|by vm_compute]. Qed.

Lemma start_reliable o : a_reliable (d_alloc (start_at o)).
Proof. done. Qed.

Lemma start_room o : a_room (d_alloc (start_at o)) = INT32_MAX.
Proof. done. Qed.

Section Theorems.
Context {HH : Host} {St : Type} {HA : Allocator St} {HL : AllocatorLaws St}.

(** [amqp_encode_table] writes exactly the wire form of the table at the
    offset when it fits and moves the offset behind it; when it does not fit it
    reports [AMQP_STATUS_TABLE_TOO_BIG] or [AMQP_STATUS_BAD_AMQP_DATA] and
    leaves the size of the buffer and everything before the offset alone. *)
Theorem encode_table_writes_wire elen t s :
  encodable_table t -> buffer_ok elen s ->
  (e_off s + zlen (wire_table t) <= elen ->
    amqp_encode_table elen t s =
      Ret tt {| e_mem := overwrite (e_off s) (wire_table t) (e_mem s);
                e_off := e_off s + zlen (wire_table t) |}) /\
  (elen < e_off s + zlen (wire_table t) ->
    exists e s', amqp_encode_table elen t s = Err e s' /\
      (e = AMQP_STATUS_TABLE_TOO_BIG \/ e = AMQP_STATUS_BAD_AMQP_DATA) /\
      zlen (e_mem s') = zlen (e_mem s) /\
      slice 0 (e_off s) (e_mem s') = slice 0 (e_off s) (e_mem s)).
Proof. intros Ht Hs. by apply (writes_wire_table elen t Ht s Hs). Qed.


(** C11: decoding undoes encoding.  A well-formed table with keys of at most 255
    bytes and at most 100 levels of nesting, encoded at some offset of a buffer
    it fits in and decoded from there with an allocator that does not fail,
    comes back with the same keys, kinds and values in the same order (booleans
    as 0 or 1), and the decoder stops where the encoder stopped. *)
Theorem table_roundtrip elen t sb s :
  wf_table t -> encodable_table t -> short_keys_table t ->
  Z.of_nat (nesting_table t) <= TABLE_DEPTH_LIMIT ->
  buffer_ok elen sb -> elen <= 2 ^ 30 -> e_off sb + zlen (wire_table t) <= elen ->
  d_off s = e_off sb -> a_inv (d_alloc s) -> a_reliable (d_alloc s) ->
  elen - d_off s < a_room (d_alloc s) ->
  exists sb' s',
    amqp_encode_table elen t sb = Ret tt sb' /\
    amqp_decode_table {| len := elen; bytes := Some (e_mem sb') |} s = Ret (norm_table t) s' /\
    d_off s' = e_off sb'.
Proof.
  intros Hwf Henc Hk Hn Hb Hsm Hfit Hoff Hi Hr Hroom.
  destruct (writes_wire_table elen t Henc sb Hb) as [Hw _]. specialize (Hw Hfit).
  destruct Hb as (Ho & Hl & Hp). pose proof (zlen_nonneg (wire_table t)).
  set (mem' := overwrite (e_off sb) (wire_table t) (e_mem sb)) in *.
  assert (Hlen : zlen mem' = zlen (e_mem sb)) by (apply zlen_overwrite; lia).
  set (enc := {| len := elen; bytes := Some mem' |}).
  assert (Hread : readable enc) by (unfold readable, enc, mem_of; simpl; lia).
  assert (Hat : holds_at enc (d_off s) (wire_table t)).
  { unfold holds_at, enc, mem_of; simpl. split_and!; [lia..|]. rewrite Hoff.
    apply slice_overwrite_same; lia. }
  destruct (wp_run_ret (amqp_decode_table enc) (fun r s' => r = norm_table t /\
    d_off s' = d_off s + zlen (wire_table t)) s) as (r & s' & Hrun & -> & Hend).
  { wp_use (decodes_table enc Hread Hsm t Hwf Hk Hn (d_off s) Hat); try done.
    - by intros _.
    - by intros r s' ((? & ?) & _).
    - by intros e s' (? & _). }
  eexists _, s'. split; [exact Hw|]. split; [exact Hrun|]. simpl. lia.
Qed.
End Theorems.

(** ** Examples *)

#[local] Existing Instance little_endian.

Definition sample_table : amqp_table_t :=
  [(view [107], FV_I16 (-2));
   (view [97; 98], FV_ARRAY true [FV_BOOLEAN 7; FV_UTF8 (view [104; 105]); FV_VOID]);
   (view [116], FV_TABLE [(view [120], FV_DECIMAL 2 314); (view [], FV_U64 18446744073709551615)])].

Lemma sample_encodable : encodable_table sample_table.
Proof. repeat constructor; by vm_compute. Qed.

Lemma encode_table_writes_wire_witness :
  amqp_encode_table 3 [(view [107], FV_VOID)] {| e_mem := [0; 0; 0; 0]; e_off := 0 |}
    <> Ret tt {| e_mem := [0; 0; 0; 0]; e_off := 7 |} /\
  exists s', amqp_encode_table 64 sample_table {| e_mem := replicate 64 0; e_off := 1 |}
    = Ret tt s' /\ e_off s' = 1 + zlen (wire_table sample_table).
Proof.
  split; [by vm_compute|].
  destruct (encode_table_writes_wire 64 sample_table
    {| e_mem := replicate 64 0; e_off := 1 |} sample_encodable
    ltac:(by vm_compute)) as [Hfits _].
  eexists. split; [apply Hfits; by vm_compute|reflexivity].
Defined.

(** The bytes of a table whose declared size exceeds the buffer. *)
Definition hostile_bytes : amqp_bytes_t := view [255; 255; 255; 255; 1; 107; 65].


Lemma table_roundtrip_witness :
  exists sb s, amqp_encode_table 64 sample_table
      {| e_mem := replicate 64 0; e_off := 1 |} = Ret tt sb /\
    amqp_decode_table {| len := 64; bytes := Some (e_mem sb) |} (start_at 1)
      = Ret (norm_table sample_table) s /\ d_off s = e_off sb.
Proof.
  apply (table_roundtrip (HL := pool_allocator_laws) 64 sample_table
    {| e_mem := replicate 64 0; e_off := 1 |} (start_at 1)).
  - repeat constructor; by vm_compute.
  - apply sample_encodable.
  - repeat constructor; by vm_compute.
  - by vm_compute.
  - by vm_compute.
  - by vm_compute.
  - by vm_compute.
  - done.
  - apply start_inv.
  - done.
  - by vm_compute.
Defined.
