(* ===== verification/TableClone.v ===== *)
(** * Copying, comparing and building tables: [librabbitmq/amqp_table.c]

    [amqp_table_clone] with its helpers, [amqp_table_entry_cmp], the entry
    constructors and the lookup by key; then: a copy has the keys, kinds and
    values of its original, and the comparison is the lexicographic order of the
    keys. *)

From S2P Require Import Prelude Machine Status Alloc Codec Table TableEncode TableDecode Mem MemTheory PoolTheorems TableTheorems.

(** ** Copying *)

Section Clone.
Context {St : Type} `{Allocator St}.

(** [f] on every element in turn; the first failure ends the loop. *)
Definition clone_each {A} (f : A -> C St A) : list A -> C St (list A) :=
  fix go l :=
    match l with
    | [] => ret []
    | x :: l' => let* y := f x in let* l' := go l' in ret (y :: l')
    end.

(** The pool bytes hold a copy of the bytes of [b], which is not empty. *)
Definition clone_bytes (b : amqp_bytes_t) : C St amqp_bytes_t :=
  let* p := pool_alloc (len b) in
  match p with
  | None => throw AMQP_STATUS_NO_MEMORY
  | Some _ =>
      match load 0 (len b) (mem_of b) with
      | None => undefined
      | Some bs => ret {| len := len b; bytes := Some bs |}
      end
  end.

Definition clone_bytes_or_empty (b : amqp_bytes_t) : C St amqp_bytes_t :=
  if len b =? 0 then ret amqp_empty_bytes else clone_bytes b.

Definition amqp_table_entry_clone (clone_value : amqp_field_value_t -> C St amqp_field_value_t)
    (original : amqp_table_entry_t) : C St amqp_table_entry_t :=
  if len (key original) =? 0 then throw AMQP_STATUS_INVALID_PARAMETER
  else
    let* k := clone_bytes (key original) in
    let* v := clone_value (value original) in
    ret (k, v).

Definition amqp_table_clone_with (clone_value : amqp_field_value_t -> C St amqp_field_value_t)
    (original : amqp_table_t) : C St amqp_table_t :=
  if zlen original =? 0 then ret amqp_empty_table
  else
    let* entries := pool_alloc (size_t (zlen original * sizeof_amqp_table_entry_t)) in
    match entries with
    | None => throw AMQP_STATUS_NO_MEMORY
    | Some _ => clone_each (fun e => amqp_table_entry_clone clone_value e) original
    end.

Fixpoint amqp_field_value_clone (original : amqp_field_value_t) : C St amqp_field_value_t :=
  match original with
  | FV_UTF8 b => let* b := clone_bytes_or_empty b in ret (FV_UTF8 b)
  | FV_BYTES b => let* b := clone_bytes_or_empty b in ret (FV_BYTES b)
  | FV_ARRAY nonnull l =>
      if negb nonnull then ret (FV_ARRAY false [])
      else
        let* entries := pool_alloc (size_t (zlen l * sizeof_amqp_field_value_t)) in
        match entries with
        | None => throw AMQP_STATUS_NO_MEMORY
        | Some _ => let* l := clone_each amqp_field_value_clone l in ret (FV_ARRAY true l)
        end
  | FV_TABLE l => let* t := amqp_table_clone_with amqp_field_value_clone l in ret (FV_TABLE t)
  | FV_OTHER _ => throw AMQP_STATUS_INVALID_PARAMETER
  | v => ret v
  end.

Definition amqp_table_clone (original : amqp_table_t) : C St amqp_table_t :=
  amqp_table_clone_with amqp_field_value_clone original.
End Clone.

(** ** Comparing *)

(** The C library promises the sign only. *)
Fixpoint memcmp (a b : list Z) : Z :=
  match a, b with
  | x :: a', y :: b' => if x =? y then memcmp a' b' else x - y
  | _, _ => 0
  end.

(** [int] subtraction. *)
Definition int_sub {S} (a b : Z) : C S Z :=
  if (INT_MIN <=? a - b) && (a - b <=? INT32_MAX) then ret (a - b) else undefined.

Definition amqp_table_entry_cmp {S} (p1 p2 : amqp_table_entry_t) : C S Z :=
  let minlen := if len (key p2) <? len (key p1) then len (key p2) else len (key p1) in
  match bytes (key p1), bytes (key p2) with
  | Some a, Some b =>
      match load 0 minlen a, load 0 minlen b with
      | Some x, Some y =>
          let d := memcmp x y in
          if negb (d =? 0) then ret d else int_sub (to_int (len (key p1))) (to_int (len (key p2)))
      | _, _ => undefined
      end
  | _, _ => undefined
  end.

(** ** Building and looking up *)

Definition amqp_table_construct_utf8_entry {S} (k v : list Z) : C S amqp_table_entry_t :=
  let* k := amqp_cstring_bytes k in
  let* v := amqp_cstring_bytes v in
  ret (k, FV_UTF8 v).

Definition amqp_table_construct_table_entry {S} (k : list Z) (v : amqp_table_t) : C S amqp_table_entry_t :=
  let* k := amqp_cstring_bytes k in
  ret (k, FV_TABLE v).

Definition amqp_table_construct_bool_entry {S} (k : list Z) (v : Z) : C S amqp_table_entry_t :=
  let* k := amqp_cstring_bytes k in
  ret (k, FV_BOOLEAN v).

(** The index of the entry the C function returns a pointer to. *)
Fixpoint amqp_table_get_entry_by_key {S} (table : amqp_table_t) (k : amqp_bytes_t) : C S (option nat) :=
  match table with
  | [] => ret None
  | e :: table' =>
      let* eq := amqp_bytes_equal (key e) k in
      if eq then ret (Some O)
      else
        let* r := amqp_table_get_entry_by_key table' k in
        ret (Nat.succ <$> r)
  end.

(** ** A copy is like its original *)

(** The members the copy reads can be read and the blocks it needs can exist. *)
Definition small_bytes (b : amqp_bytes_t) : Prop := readable b /\ len b <= PTRDIFF_MAX - 7.

Fixpoint copyable (v : amqp_field_value_t) : Prop :=
  match v with
  | FV_UTF8 b | FV_BYTES b => small_bytes b
  | FV_ARRAY nonnull l => zlen l * 24 <= PTRDIFF_MAX - 7 /\ (nonnull = false -> l = []) /\ allP copyable l
  | FV_TABLE l => zlen l * 40 <= PTRDIFF_MAX - 7 /\ allP (fun e => small_bytes e.1 /\ copyable e.2) l
  | _ => True
  end.

Definition copyable_table (t : amqp_table_t) : Prop :=
  zlen t * 40 <= PTRDIFF_MAX - 7 /\ Forall (fun e => small_bytes e.1 /\ copyable e.2) t.

(** What the code refuses to copy: empty keys, an array without entries whose
    pointer is not NULL, unknown kinds. *)
Fixpoint accepted (v : amqp_field_value_t) : Prop :=
  match v with
  | FV_ARRAY nonnull l => (nonnull = true -> l <> []) /\ allP accepted l
  | FV_TABLE l => allP (fun e => len e.1 <> 0 /\ accepted e.2) l
  | FV_OTHER _ => False
  | _ => True
  end.

Definition accepted_table (t : amqp_table_t) : Prop := Forall (fun e => len e.1 <> 0 /\ accepted e.2) t.

(** The number of pool requests. *)
Fixpoint requests (v : amqp_field_value_t) : Z :=
  match v with
  | FV_UTF8 _ | FV_BYTES _ => 1
  | FV_ARRAY _ l => 1 + foldr (fun v n => requests v + n) 0 l
  | FV_TABLE l => 1 + foldr (fun e n => 1 + requests e.2 + n) 0 l
  | _ => 0
  end.

Definition requests_table (t : amqp_table_t) : Z := 1 + foldr (fun e n => 1 + requests e.2 + n) 0 t.

Lemma requests_nonneg v : 0 <= requests v.
Proof.
  induction v as [v Hv|b l IH|l IH] using value_ind; [by destruct v| |]; simpl.
  all: apply Z.add_nonneg_nonneg; [lia|]; induction IH; simpl; lia.
Qed.

Section Faithful.
Context {St : Type} {HA : Allocator St} {HL : AllocatorLaws St}.

(** [m] makes at most [n] requests and returns a value with [Q]; when it fails,
    memory has run out or the input is not [ok]. *)
Definition copies {A} (n : Z) (ok : Prop) (Q : A -> Prop) (m : C St A) : Prop :=
  forall s, a_inv s -> n <= a_room s ->
  wp m (fun a s' => Q a /\ a_inv s' /\ (forall q, a_live q s -> a_live q s') /\
          a_room s - n <= a_room s' /\ (a_reliable s -> a_reliable s'))
       (fun e s' => (e = AMQP_STATUS_NO_MEMORY \/ e = AMQP_STATUS_INVALID_PARAMETER /\ ~ ok) /\
          ~ (ok /\ a_reliable s) /\ a_inv s' /\ (forall q, a_live q s -> a_live q s')) s.

Lemma copies_ret {A} n (ok : Prop) (Q : A -> Prop) a : 0 <= n -> Q a -> copies n ok Q (ret a).
Proof. intros Hn HQ s Hi Hr. apply wp_ret. split_and!; try done; lia. Qed.

Lemma copies_refuse {A} n (ok : Prop) (Q : A -> Prop) : ~ ok -> copies n ok Q (throw AMQP_STATUS_INVALID_PARAMETER).
Proof. intros Hn s Hi Hr. apply wp_throw. split_and!; try done; [by right|by intros [? _]]. Qed.

Lemma copies_weaken {A} n n' (ok ok' : Prop) (Q Q' : A -> Prop) m :
  copies n ok Q m -> n <= n' -> (ok' -> ok) -> (forall a, Q a -> Q' a) -> copies n' ok' Q' m.
Proof.
  intros Hm Hn Hok HQ s Hi Hr. wp_use Hm; [done|lia| |].
  - intros a s' (? & ? & ? & ? & ?). split_and!; auto; lia.
  - intros e s' (He & Hno & ? & ?). split_and!; try done; [|by intros [? ?]; apply Hno; auto].
    destruct He as [->|[-> ?]]; [by left|right]. split; [done|]. auto.
Qed.

Lemma copies_bind {A B} n1 n2 (ok1 ok2 : Prop) (Q1 : A -> Prop) (Q2 : B -> Prop) m k :
  copies n1 ok1 Q1 m -> 0 <= n2 -> (forall a, Q1 a -> copies n2 ok2 Q2 (k a)) ->
  copies (n1 + n2) (ok1 /\ ok2) Q2 (bind m k).
Proof.
  intros Hm Hn2 Hk s Hi Hr. apply wp_bind. wp_use Hm; [done|lia| |].
  - intros a s' (HQ & Hi' & Hl & Hr' & Hrel). wp_use Hk; [exact HQ|done|lia| |].
    + intros b s2 (? & ? & ? & ? & ?). split_and!; auto; lia.
    + intros e s2 (He & Hno & ? & ?). split_and!; auto; [|by intros [[_ ?] ?]; apply Hno; auto].
      destruct He as [->|[-> ?]]; [by left|right]. by split; [|intros [_ ?]].
  - intros e s2 (He & Hno & ? & ?). split_and!; auto; [|by intros [[? _] ?]; apply Hno; auto].
    destruct He as [->|[-> ?]]; [by left|right]. by split; [|intros [? _]].
Qed.

Lemma copies_map {A B} n (ok : Prop) (Q : A -> Prop) (Q' : B -> Prop) m f :
  copies n ok Q m -> (forall a, Q a -> Q' (f a)) -> copies n ok Q' (let* a := m in ret (f a)).
Proof.
  intros Hm HQ. eapply (copies_weaken (n + 0) n (ok /\ True)); [|lia|done|intros ? H; exact H].
  eapply copies_bind; [exact Hm|done|]. intros a Ha. apply copies_ret; [done|]. by apply HQ.
Qed.

Lemma copies_alloc {A} n k (ok : Prop) (Q : A -> Prop) (m : C St A) :
  0 <= k <= PTRDIFF_MAX - 7 -> 0 <= n -> (ok -> 0 < k) -> copies n ok Q m ->
  copies (1 + n) ok Q (let* p := pool_alloc k in match p with None => throw AMQP_STATUS_NO_MEMORY | Some _ => m end).
Proof.
  intros Hk Hn Hok Hm s Hi Hr. apply wp_bind.
  wp_use pool_alloc_law; [done|unfold PTRDIFF_MAX in *; lia|lia| |by intros ? ? []].
  intros r s1 (Hi1 & Hl1 & Hr1 & Hrel1 & _). destruct r as [p|].
  - wp_use Hm; [done|lia| |].
    + intros a s2 (? & ? & ? & ? & Hrel2). split_and!; auto; [lia|]. intros ?. by apply Hrel2, Hrel1.
    + intros e s2 (He & Hno & ? & ?). split_and!; auto. intros [? ?]. apply Hno. split; [done|]. by apply Hrel1.
  - apply wp_throw. split_and!; auto. intros [Hok' Hrel]. apply Hrel1 in Hrel as [_ Hsome].
    destruct (Hsome ltac:(specialize (Hok Hok'); lia)). done.
Qed.

Lemma copies_bytes b : small_bytes b ->
  copies 1 (len b <> 0) (fun b' => contents b' = contents b /\ len b' = len b /\ readable b') (clone_bytes b).
Proof.
  intros [[Hr Hp] Hs]. unfold clone_bytes. apply (copies_alloc 0); [lia|done|lia|].
  rewrite load_Some by lia. apply copies_ret; [done|].
  unfold contents, readable, mem_of. simpl.
  assert (Hz : zlen (slice 0 (len b) (default [] (bytes b))) = len b) by (apply zlen_slice; unfold mem_of in Hr; lia).
  split_and!; [|done|lia..]. rewrite <- Hz at 1. apply slice_full.
Qed.

Lemma copies_bytes_or_empty b : small_bytes b ->
  copies 1 True (fun b' => contents b' = contents b /\ len b' = len b /\ readable b') (clone_bytes_or_empty b).
Proof.
  intros Hb. unfold clone_bytes_or_empty. destruct (Z.eqb_spec (len b) 0) as [Hz|Hz].
  - apply copies_ret; [done|]. split_and!; [|by symmetry|apply readable_empty]. unfold contents. by rewrite Hz, !slice_0_len.
  - eapply copies_weaken; [by apply copies_bytes|done|done|done].
Qed.

Lemma copies_each {A} (f : A -> C St A) (n : A -> Z) (ok : A -> Prop) (R : A -> A -> Prop) l :
  Forall (fun x => 0 <= n x /\ copies (n x) (ok x) (R x) (f x)) l ->
  copies (foldr (fun x k => n x + k) 0 l) (Forall ok l) (Forall2 R l) (clone_each f l).
Proof.
  induction 1 as [|x l [Hn Hx] Hl IH]; simpl; [by apply copies_ret|].
  assert (Hk : 0 <= foldr (fun x k => n x + k) 0 l) by (clear -Hl; induction Hl; simpl; lia).
  eapply copies_weaken; [eapply copies_bind; [exact Hx|exact Hk|]|done|by rewrite Forall_cons|done].
  intros y Hy. eapply copies_map; [exact IH|]. intros l' Hl'. by constructor.
Qed.

Lemma copies_entry clone_value n (ok : Prop) (Q : amqp_field_value_t -> Prop) e :
  0 <= n -> small_bytes e.1 -> copies n ok Q (clone_value e.2) ->
  copies (1 + n) (len e.1 <> 0 /\ ok)
    (fun e' => contents e'.1 = contents e.1 /\ len e'.1 = len e.1 /\ readable e'.1 /\ Q e'.2)
    (amqp_table_entry_clone clone_value e).
Proof.
  intros Hn Hb Hv. unfold amqp_table_entry_clone, key, value. destruct (Z.eqb_spec (len e.1) 0) as [Hz|Hz].
  { by apply copies_refuse; intros [? _]. }
  eapply copies_bind; [by apply copies_bytes|done|]. intros k (Hc & Hl & Hr).
  eapply copies_map; [exact Hv|]. intros v HQ. done.
Qed.

(** [v'] is a copy of [v]: the same value, and as good for encoding and copying. *)
Record same_value (v v' : amqp_field_value_t) : Prop := {
  sv_norm : norm_value v' = norm_value v;
  sv_encodable : encodable v';
  sv_copyable : copyable v';
  sv_accepted : accepted v -> accepted v';
  sv_requests : requests v' = requests v
}.
Definition same_entry (e e' : amqp_table_entry_t) : Prop :=
  contents e'.1 = contents e.1 /\ len e'.1 = len e.1 /\ readable e'.1 /\ same_value e.2 e'.2.

Lemma copies_table_with clone_value t :
  zlen t * 40 <= PTRDIFF_MAX - 7 -> Forall (fun e => small_bytes e.1) t ->
  Forall (fun e => copies (requests e.2) (accepted e.2) (same_value e.2) (clone_value e.2)) t ->
  copies (requests_table t) (accepted_table t) (Forall2 same_entry t) (amqp_table_clone_with clone_value t).
Proof.
  intros Hz Hb Hv. unfold amqp_table_clone_with, requests_table. pose proof (zlen_nonneg t) as Hnn.
  assert (Hk : 0 <= foldr (fun e n => 1 + requests e.2 + n) 0 t).
  { clear. induction t as [|e t IH]; simpl; [done|]. pose proof (requests_nonneg e.2). lia. }
  destruct (Z.eqb_spec (zlen t) 0) as [Ht|Ht].
  { destruct t; [|unfold zlen in Ht; simpl in Ht; lia]. by apply copies_ret. }
  unfold sizeof_amqp_table_entry_t. rewrite size_t_small by (unfold PTRDIFF_MAX in Hz; lia).
  apply copies_alloc; [lia|done|lia|].
  apply (copies_each _ (fun e => 1 + requests e.2) (fun e => len e.1 <> 0 /\ accepted e.2) same_entry).
  apply Forall_forall. intros e He. rewrite Forall_forall in Hb, Hv.
  split; [pose proof (requests_nonneg e.2); lia|].
  apply copies_entry; [apply requests_nonneg|by apply Hb|by apply Hv].
Qed.

Lemma same_entries_norm t t' : Forall2 same_entry t t' -> norm_table t' = norm_table t /\ encodable_table t'.
Proof.
  induction 1 as [|e e' t t' (Hc & Hl & Hr & [Hn He _ _ _]) _ [IH1 IH2]]; [by split; [|constructor]|]. unfold norm_table, encodable_table in *. simpl.
  split; [by rewrite Hc, Hn, IH1|by constructor].
Qed.

Lemma same_entries_again t t' : Forall2 same_entry t t' -> Forall (fun e => small_bytes e.1) t ->
  Forall (fun e => small_bytes e.1 /\ copyable e.2) t' /\ (accepted_table t -> accepted_table t') /\
  requests_table t' = requests_table t.
Proof.
  unfold accepted_table, requests_table.
  induction 1 as [|e e' t t' (Hc & Hl & Hr & [_ _ Hcp Ha Hq]) _ IH]; intros Hs; [done|].
  apply Forall_cons in Hs as [[_ Hs] Hss]. destruct (IH Hss) as (IH1 & IH2 & IH3). split_and!.
  - constructor; [|done]. split; [split; [done|lia]|done].
  - intros [[? ?] ?]%Forall_cons. constructor; [split; [lia|auto]|auto].
  - simpl in *. lia.
Qed.

Lemma same_values_norm l l' : Forall2 same_value l l' -> map norm_value l' = map norm_value l /\ Forall encodable l'.
Proof.
  induction 1 as [|v v' l l' [Hn He _ _ _] _ [IH1 IH2]]; [by split; [|constructor]|]. simpl. split; [by rewrite Hn, IH1|by constructor].
Qed.

Lemma same_values_again l l' : Forall2 same_value l l' ->
  Forall copyable l' /\ (Forall accepted l -> Forall accepted l') /\
  foldr (fun v n => requests v + n) 0 l' = foldr (fun v n => requests v + n) 0 l.
Proof.
  induction 1 as [|v v' l l' [_ _ Hc Ha Hq] _ (IH1 & IH2 & IH3)]; [done|]. split_and!; [by constructor| |simpl; lia].
  intros [? ?]%Forall_cons. constructor; auto.
Qed.

Lemma copies_value v : copyable v -> copies (requests v) (accepted v) (same_value v) (amqp_field_value_clone v).
Proof.
  induction v as [v Hv|b l IH|l IH] using value_ind.
  - destruct v; try done; intros Hc; try (by apply copies_ret); try (apply copies_refuse; by intros []).
    all: simpl; eapply copies_map; [by apply copies_bytes_or_empty|]; intros b' (Hb' & Hlen & ?).
    all: split; [simpl; by rewrite Hb'|done| |done|done]; destruct Hc; split; [done|lia].
  - intros (Hz & Hnull & Hl). pose proof (zlen_nonneg l). simpl. destruct b; simpl.
    2: { rewrite Hnull by done. by apply copies_ret. }
    unfold sizeof_amqp_field_value_t. rewrite size_t_small by (unfold PTRDIFF_MAX in Hz; lia).
    assert (Hk : 0 <= foldr (fun v n => requests v + n) 0 l).
    { clear. induction l as [|v l IHl]; simpl; [done|]. pose proof (requests_nonneg v). lia. }
    apply copies_alloc; [lia|done| |].
    { intros [Hne _]. specialize (Hne eq_refl). destruct l; [done|unfold zlen; simpl; lia]. }
    eapply copies_weaken; [eapply copies_map; [apply copies_each|]|done| |intros ? Hq; exact Hq].
    + apply allP_Forall in Hl. apply Forall_forall. intros v Hv. rewrite Forall_forall in IH, Hl.
      split; [apply requests_nonneg|by apply IH; [|apply Hl]].
    + intros l' Hl'. pose proof (Forall2_length _ _ _ Hl') as Hlen. destruct (same_values_norm _ _ Hl') as [Hn He].
      destruct (same_values_again _ _ Hl') as (Hcp & Ha & Hq). unfold zlen in *.
      split; simpl; unfold zlen; [by rewrite Hn, Hlen|by apply allP_Forall|rewrite <- Hlen| |by rewrite Hq].
      * split_and!; [done|done|by apply allP_Forall].
      * intros [Hne Hacc]. split; [|by apply allP_Forall, Ha, allP_Forall]. intros _ ->. by destruct l; [apply Hne|].
    + intros [_ Hok]. by apply allP_Forall.
  - intros [Hz Hl]. simpl. apply allP_Forall in Hl.
    eapply copies_weaken; [eapply copies_map; [apply copies_table_with|]|done| |intros ? Hq; exact Hq].
    + done.
    + eapply Forall_impl; [exact Hl|]. by intros ? [? _].
    + apply Forall_forall. intros e He. rewrite Forall_forall in IH, Hl. apply IH; [done|]. by apply Hl.
    + intros t Ht. destruct (same_entries_norm _ _ Ht) as [Hn He]. pose proof (Forall2_length _ _ _ Ht) as Hlen.
      destruct (same_entries_again _ _ Ht) as (Hcp & Ha & Hq); [eapply Forall_impl; [exact Hl|]; by intros ? [? _]|].
      unfold zlen in *. split; simpl; unfold zlen; [by f_equal|by apply allP_Forall| | |exact Hq].
      * rewrite <- Hlen. split; [done|by apply allP_Forall].
      * intros Hacc. apply allP_Forall, Ha. by apply allP_Forall.
    + intros Hok. by apply allP_Forall.
Qed.

Lemma copies_table t : copyable_table t ->
  copies (requests_table t) (accepted_table t) (Forall2 same_entry t) (amqp_table_clone t).
Proof.
  intros [Hz Ht]. apply copies_table_with; [done| |].
  - eapply Forall_impl; [exact Ht|]. by intros ? [? _].
  - eapply Forall_impl; [exact Ht|]. intros e [_ He]. by apply copies_value.
Qed.

End Faithful.

(** ** The comparison is the lexicographic order *)

Fixpoint lex (a b : list Z) : comparison :=
  match a, b with
  | [], [] => Eq
  | [], _ :: _ => Lt
  | _ :: _, [] => Gt
  | x :: a', y :: b' => match x ?= y with Eq => lex a' b' | c => c end
  end.

Lemma lex_eq a : forall b, lex a b = Eq <-> a = b.
Proof.
  induction a as [|x a IH]; intros [|y b]; simpl; try done.
  destruct (Z.compare_spec x y) as [->|Hlt|Hlt]; [rewrite IH| |]; split; try done; intros; simplify_eq; done || lia.
Qed.

Lemma lex_antisym a : forall b, lex b a = CompOpp (lex a b).
Proof.
  induction a as [|x a IH]; intros [|y b]; simpl; try done.
  rewrite (Z.compare_antisym x y). destruct (x ?= y) eqn:E; simpl; [apply IH|done|done].
Qed.

Lemma lex_trans a : forall b c, lex a b = Lt -> lex b c = Lt -> lex a c = Lt.
Proof.
  induction a as [|x a IH]; intros [|y b] [|z c]; simpl; try done.
  destruct (Z.compare_spec x y), (Z.compare_spec y z), (Z.compare_spec x z); intros; subst; try done; try lia.
  by eapply IH.
Qed.

Lemma memcmp_lex a : forall b,
  let m := min (length a) (length b) in
  let d := memcmp (take m a) (take m b) in
  (if d =? 0 then (zlen a - zlen b ?= 0) else (d ?= 0)) = lex a b.
Proof.
  induction a as [|x a IH]; intros [|y b].
  - done.
  - change ((zlen (@nil Z) - zlen (y :: b) ?= 0) = Lt). unfold zlen. simpl length. rewrite Z.compare_lt_iff. lia.
  - change ((zlen (x :: a) - zlen (@nil Z) ?= 0) = Gt). unfold zlen. simpl length. rewrite Z.compare_gt_iff. lia.
  - cbv zeta. simpl. destruct (Z.eqb_spec x y) as [->|Hne].
    + rewrite Z.compare_refl, <- IH. unfold zlen. simpl length.
    replace (Z.of_nat (S (length a)) - Z.of_nat (S (length b))) with (Z.of_nat (length a) - Z.of_nat (length b)) by lia. done.
    + rewrite (proj2 (Z.eqb_neq (x - y) 0)) by lia.
      destruct (Z.compare_spec x y), (Z.compare_spec (x - y) 0); try done; lia.
Qed.

(** [amqp_table_entry_cmp] is defined on all entries with readable keys of at
    most [INT_MAX] bytes, and the sign of its result is that of the comparison of
    the keys in the lexicographic order of byte strings, which is a total order
    ([lex_eq], [lex_antisym], [lex_trans]): sorting a table with it is sorting by
    key, and it says "equal" only for equal keys. *)
Theorem entry_cmp_lexicographic {S} (e1 e2 : amqp_table_entry_t) (s : S) :
  readable e1.1 -> readable e2.1 -> is_Some (bytes e1.1) -> is_Some (bytes e2.1) ->
  len e1.1 <= INT32_MAX -> len e2.1 <= INT32_MAX ->
  exists d, amqp_table_entry_cmp e1 e2 s = Ret d s /\ (d ?= 0) = lex (contents e1.1) (contents e2.1).
Proof.
  intros Hr1 Hr2 [a Ha] [b Hb] Hl1 Hl2. unfold amqp_table_entry_cmp, key. rewrite Ha, Hb.
  pose proof (zlen_contents _ Hr1) as Hz1. pose proof (zlen_contents _ Hr2) as Hz2.
  destruct Hr1 as [Hr1 _], Hr2 as [Hr2 _]. unfold mem_of in *. rewrite Ha in Hr1. rewrite Hb in Hr2. simpl in *.
  set (m := if len e2.1 <? len e1.1 then len e2.1 else len e1.1).
  assert (Hm : m = Z.min (len e1.1) (len e2.1)) by (unfold m; destruct (Z.ltb_spec (len e2.1) (len e1.1)); lia).
  rewrite !load_Some by lia.
  assert (Ht : forall n l, 0 <= m <= n -> n <= zlen l -> slice 0 m l = take (Z.to_nat m) (slice 0 n l)).
  { intros n l Hn Hl. unfold slice. rewrite !drop_0, take_take. f_equal. lia. }
  rewrite (Ht (len e1.1) a), (Ht (len e2.1) b) by lia.
  assert (Hc1 : contents e1.1 = slice 0 (len e1.1) a) by (unfold contents, mem_of; by rewrite Ha).
  assert (Hc2 : contents e2.1 = slice 0 (len e2.1) b) by (unfold contents, mem_of; by rewrite Hb).
  rewrite <- Hc1, <- Hc2. pose proof (memcmp_lex (contents e1.1) (contents e2.1)) as Hlex. cbv zeta in Hlex.
  replace (min (length (contents e1.1)) (length (contents e2.1))) with (Z.to_nat m) in Hlex by (unfold zlen in *; lia).
  destruct (Z.eqb_spec (memcmp (take (Z.to_nat m) (contents e1.1)) (take (Z.to_nat m) (contents e2.1))) 0); simpl.
  - unfold int_sub. rewrite !to_int_small by (unfold INT32_MAX in *; lia).
    rewrite (proj2 (Z.leb_le _ _)), (proj2 (Z.leb_le _ _)) by (unfold INT_MIN, INT32_MAX in *; lia).
    eexists. split; [done|]. by rewrite <- Hz1, <- Hz2.
  - eexists. split; [done|]. done.
Qed.

(** ** Examples *)

Definition cloned_table : amqp_table_t :=
  [(view [107], FV_I16 (-2)); (view [97; 98], FV_ARRAY true [FV_BOOLEAN 7; FV_UTF8 (view [104; 105]); FV_VOID]);
   (view [116], FV_TABLE [(view [120], FV_DECIMAL 2 314); (view [121], FV_BYTES amqp_empty_bytes)])].

Lemma cloned_copyable : copyable_table cloned_table.
Proof. split; [by vm_compute|]. repeat constructor; by vm_compute. Qed.

Lemma cloned_accepted : accepted_table cloned_table.
Proof. repeat constructor; by vm_compute. Qed.


Lemma entry_cmp_lexicographic_witness :
  exists d, amqp_table_entry_cmp (view [97; 98], FV_VOID) (view [97], FV_U8 1) tt = Ret d tt /\ 0 < d.
Proof.
  destruct (entry_cmp_lexicographic (view [97; 98], FV_VOID) (view [97], FV_U8 1) tt) as (d & Hd & Hlex);
    [by vm_compute|by vm_compute|by eexists|by eexists|by vm_compute|by vm_compute|].
  exists d. split; [exact Hd|]. apply Z.compare_gt_iff. exact Hlex.
Defined.
