(* ===== verification/Framing.v ===== *)
(** * Protocol constants: [include/rabbitmq-c/framing.h] and the lookup
    functions of [librabbitmq/amqp_framing.c]

    The constants, class and method numbers, and the functions that name and
    classify them.  A [switch] is a list of cases searched in order. *)

From Stdlib Require Import String.
From S2P Require Import Prelude Machine Status.

(** [switch (n) { case c: ...; default: ... }] *)
Definition switch {A} (n : Z) (cases : list (Z * A)) (otherwise : A) : A :=
  from_option snd otherwise (List.find (fun c => c.1 =? n) cases).

Lemma switch_nil {A} n (d : A) : switch n [] d = d.
Proof. done. Qed.

Lemma switch_cons {A} n c x (l : list (Z * A)) d :
  switch n ((c, x) :: l) d = if c =? n then x else switch n l d.
Proof. unfold switch. simpl. by destruct (c =? n). Qed.

(** A [switch] either takes one of its cases or the default. *)
Lemma switch_ind {A} (P : A -> Prop) n cases d :
  Forall (fun c => P c.2) cases -> P d -> P (switch n cases d).
Proof.
  intros Hc Hd. unfold switch. destruct (List.find _ _) as [[c x]|] eqn:E; [|done].
  apply List.find_some in E as [Hin _]. rewrite Forall_forall in Hc.
  apply (Hc (c, x)). by apply list_elem_of_In.
Qed.

(** ** Constants *)

Definition AMQP_FRAME_METHOD : Z := 1.
Definition AMQP_FRAME_HEADER : Z := 2.
Definition AMQP_FRAME_BODY : Z := 3.
Definition AMQP_FRAME_HEARTBEAT : Z := 8.
Definition AMQP_FRAME_MIN_SIZE : Z := 4096.
Definition AMQP_FRAME_END : Z := 206.
Definition AMQP_REPLY_SUCCESS : Z := 200.
Definition AMQP_CONTENT_TOO_LARGE : Z := 311.
Definition AMQP_NO_ROUTE : Z := 312.
Definition AMQP_NO_CONSUMERS : Z := 313.
Definition AMQP_ACCESS_REFUSED : Z := 403.
Definition AMQP_NOT_FOUND : Z := 404.
Definition AMQP_RESOURCE_LOCKED : Z := 405.
Definition AMQP_PRECONDITION_FAILED : Z := 406.
Definition AMQP_CONNECTION_FORCED : Z := 320.
Definition AMQP_INVALID_PATH : Z := 402.
Definition AMQP_FRAME_ERROR : Z := 501.
Definition AMQP_SYNTAX_ERROR : Z := 502.
Definition AMQP_COMMAND_INVALID : Z := 503.
Definition AMQP_CHANNEL_ERROR : Z := 504.
Definition AMQP_UNEXPECTED_FRAME : Z := 505.
Definition AMQP_RESOURCE_ERROR : Z := 506.
Definition AMQP_NOT_ALLOWED : Z := 530.
Definition AMQP_NOT_IMPLEMENTED : Z := 540.
Definition AMQP_INTERNAL_ERROR : Z := 541.

(** ** Method numbers *)

Definition AMQP_CONNECTION_START_METHOD : Z := 0x000A000A.
Definition AMQP_CONNECTION_START_OK_METHOD : Z := 0x000A000B.
Definition AMQP_CONNECTION_SECURE_METHOD : Z := 0x000A0014.
Definition AMQP_CONNECTION_SECURE_OK_METHOD : Z := 0x000A0015.
Definition AMQP_CONNECTION_TUNE_METHOD : Z := 0x000A001E.
Definition AMQP_CONNECTION_TUNE_OK_METHOD : Z := 0x000A001F.
Definition AMQP_CONNECTION_OPEN_METHOD : Z := 0x000A0028.
Definition AMQP_CONNECTION_OPEN_OK_METHOD : Z := 0x000A0029.
Definition AMQP_CONNECTION_CLOSE_METHOD : Z := 0x000A0032.
Definition AMQP_CONNECTION_CLOSE_OK_METHOD : Z := 0x000A0033.
Definition AMQP_CONNECTION_BLOCKED_METHOD : Z := 0x000A003C.
Definition AMQP_CONNECTION_UNBLOCKED_METHOD : Z := 0x000A003D.
Definition AMQP_CONNECTION_UPDATE_SECRET_METHOD : Z := 0x000A0046.
Definition AMQP_CONNECTION_UPDATE_SECRET_OK_METHOD : Z := 0x000A0047.
Definition AMQP_CHANNEL_OPEN_METHOD : Z := 0x0014000A.
Definition AMQP_CHANNEL_OPEN_OK_METHOD : Z := 0x0014000B.
Definition AMQP_CHANNEL_FLOW_METHOD : Z := 0x00140014.
Definition AMQP_CHANNEL_FLOW_OK_METHOD : Z := 0x00140015.
Definition AMQP_CHANNEL_CLOSE_METHOD : Z := 0x00140028.
Definition AMQP_CHANNEL_CLOSE_OK_METHOD : Z := 0x00140029.
Definition AMQP_ACCESS_REQUEST_METHOD : Z := 0x001E000A.
Definition AMQP_ACCESS_REQUEST_OK_METHOD : Z := 0x001E000B.
Definition AMQP_EXCHANGE_DECLARE_METHOD : Z := 0x0028000A.
Definition AMQP_EXCHANGE_DECLARE_OK_METHOD : Z := 0x0028000B.
Definition AMQP_EXCHANGE_DELETE_METHOD : Z := 0x00280014.
Definition AMQP_EXCHANGE_DELETE_OK_METHOD : Z := 0x00280015.
Definition AMQP_EXCHANGE_BIND_METHOD : Z := 0x0028001E.
Definition AMQP_EXCHANGE_BIND_OK_METHOD : Z := 0x0028001F.
Definition AMQP_EXCHANGE_UNBIND_METHOD : Z := 0x00280028.
Definition AMQP_EXCHANGE_UNBIND_OK_METHOD : Z := 0x00280033.
Definition AMQP_QUEUE_DECLARE_METHOD : Z := 0x0032000A.
Definition AMQP_QUEUE_DECLARE_OK_METHOD : Z := 0x0032000B.
Definition AMQP_QUEUE_BIND_METHOD : Z := 0x00320014.
Definition AMQP_QUEUE_BIND_OK_METHOD : Z := 0x00320015.
Definition AMQP_QUEUE_PURGE_METHOD : Z := 0x0032001E.
Definition AMQP_QUEUE_PURGE_OK_METHOD : Z := 0x0032001F.
Definition AMQP_QUEUE_DELETE_METHOD : Z := 0x00320028.
Definition AMQP_QUEUE_DELETE_OK_METHOD : Z := 0x00320029.
Definition AMQP_QUEUE_UNBIND_METHOD : Z := 0x00320032.
Definition AMQP_QUEUE_UNBIND_OK_METHOD : Z := 0x00320033.
Definition AMQP_BASIC_QOS_METHOD : Z := 0x003C000A.
Definition AMQP_BASIC_QOS_OK_METHOD : Z := 0x003C000B.
Definition AMQP_BASIC_CONSUME_METHOD : Z := 0x003C0014.
Definition AMQP_BASIC_CONSUME_OK_METHOD : Z := 0x003C0015.
Definition AMQP_BASIC_CANCEL_METHOD : Z := 0x003C001E.
Definition AMQP_BASIC_CANCEL_OK_METHOD : Z := 0x003C001F.
Definition AMQP_BASIC_PUBLISH_METHOD : Z := 0x003C0028.
Definition AMQP_BASIC_RETURN_METHOD : Z := 0x003C0032.
Definition AMQP_BASIC_DELIVER_METHOD : Z := 0x003C003C.
Definition AMQP_BASIC_GET_METHOD : Z := 0x003C0046.
Definition AMQP_BASIC_GET_OK_METHOD : Z := 0x003C0047.
Definition AMQP_BASIC_GET_EMPTY_METHOD : Z := 0x003C0048.
Definition AMQP_BASIC_ACK_METHOD : Z := 0x003C0050.
Definition AMQP_BASIC_REJECT_METHOD : Z := 0x003C005A.
Definition AMQP_BASIC_RECOVER_ASYNC_METHOD : Z := 0x003C0064.
Definition AMQP_BASIC_RECOVER_METHOD : Z := 0x003C006E.
Definition AMQP_BASIC_RECOVER_OK_METHOD : Z := 0x003C006F.
Definition AMQP_BASIC_NACK_METHOD : Z := 0x003C0078.
Definition AMQP_TX_SELECT_METHOD : Z := 0x005A000A.
Definition AMQP_TX_SELECT_OK_METHOD : Z := 0x005A000B.
Definition AMQP_TX_COMMIT_METHOD : Z := 0x005A0014.
Definition AMQP_TX_COMMIT_OK_METHOD : Z := 0x005A0015.
Definition AMQP_TX_ROLLBACK_METHOD : Z := 0x005A001E.
Definition AMQP_TX_ROLLBACK_OK_METHOD : Z := 0x005A001F.
Definition AMQP_CONFIRM_SELECT_METHOD : Z := 0x0055000A.
Definition AMQP_CONFIRM_SELECT_OK_METHOD : Z := 0x0055000B.

(** ** Lookup functions *)

Definition amqp_constant_name (constantNumber : Z) : string :=
  switch constantNumber
    [(AMQP_FRAME_METHOD, "AMQP_FRAME_METHOD"%string);
     (AMQP_FRAME_HEADER, "AMQP_FRAME_HEADER"%string);
     (AMQP_FRAME_BODY, "AMQP_FRAME_BODY"%string);
     (AMQP_FRAME_HEARTBEAT, "AMQP_FRAME_HEARTBEAT"%string);
     (AMQP_FRAME_MIN_SIZE, "AMQP_FRAME_MIN_SIZE"%string);
     (AMQP_FRAME_END, "AMQP_FRAME_END"%string);
     (AMQP_REPLY_SUCCESS, "AMQP_REPLY_SUCCESS"%string);
     (AMQP_CONTENT_TOO_LARGE, "AMQP_CONTENT_TOO_LARGE"%string);
     (AMQP_NO_ROUTE, "AMQP_NO_ROUTE"%string);
     (AMQP_NO_CONSUMERS, "AMQP_NO_CONSUMERS"%string);
     (AMQP_ACCESS_REFUSED, "AMQP_ACCESS_REFUSED"%string);
     (AMQP_NOT_FOUND, "AMQP_NOT_FOUND"%string);
     (AMQP_RESOURCE_LOCKED, "AMQP_RESOURCE_LOCKED"%string);
     (AMQP_PRECONDITION_FAILED, "AMQP_PRECONDITION_FAILED"%string);
     (AMQP_CONNECTION_FORCED, "AMQP_CONNECTION_FORCED"%string);
     (AMQP_INVALID_PATH, "AMQP_INVALID_PATH"%string);
     (AMQP_FRAME_ERROR, "AMQP_FRAME_ERROR"%string);
     (AMQP_SYNTAX_ERROR, "AMQP_SYNTAX_ERROR"%string);
     (AMQP_COMMAND_INVALID, "AMQP_COMMAND_INVALID"%string);
     (AMQP_CHANNEL_ERROR, "AMQP_CHANNEL_ERROR"%string);
     (AMQP_UNEXPECTED_FRAME, "AMQP_UNEXPECTED_FRAME"%string);
     (AMQP_RESOURCE_ERROR, "AMQP_RESOURCE_ERROR"%string);
     (AMQP_NOT_ALLOWED, "AMQP_NOT_ALLOWED"%string);
     (AMQP_NOT_IMPLEMENTED, "AMQP_NOT_IMPLEMENTED"%string);
     (AMQP_INTERNAL_ERROR, "AMQP_INTERNAL_ERROR"%string)]
    "(unknown)"%string.

Definition amqp_method_name (methodNumber : Z) : option string :=
  switch methodNumber
    [(AMQP_CONNECTION_START_METHOD, Some "AMQP_CONNECTION_START_METHOD"%string);
     (AMQP_CONNECTION_START_OK_METHOD, Some "AMQP_CONNECTION_START_OK_METHOD"%string);
     (AMQP_CONNECTION_SECURE_METHOD, Some "AMQP_CONNECTION_SECURE_METHOD"%string);
     (AMQP_CONNECTION_SECURE_OK_METHOD, Some "AMQP_CONNECTION_SECURE_OK_METHOD"%string);
     (AMQP_CONNECTION_TUNE_METHOD, Some "AMQP_CONNECTION_TUNE_METHOD"%string);
     (AMQP_CONNECTION_TUNE_OK_METHOD, Some "AMQP_CONNECTION_TUNE_OK_METHOD"%string);
     (AMQP_CONNECTION_OPEN_METHOD, Some "AMQP_CONNECTION_OPEN_METHOD"%string);
     (AMQP_CONNECTION_OPEN_OK_METHOD, Some "AMQP_CONNECTION_OPEN_OK_METHOD"%string);
     (AMQP_CONNECTION_CLOSE_METHOD, Some "AMQP_CONNECTION_CLOSE_METHOD"%string);
     (AMQP_CONNECTION_CLOSE_OK_METHOD, Some "AMQP_CONNECTION_CLOSE_OK_METHOD"%string);
     (AMQP_CONNECTION_BLOCKED_METHOD, Some "AMQP_CONNECTION_BLOCKED_METHOD"%string);
     (AMQP_CONNECTION_UNBLOCKED_METHOD, Some "AMQP_CONNECTION_UNBLOCKED_METHOD"%string);
     (AMQP_CONNECTION_UPDATE_SECRET_METHOD, Some "AMQP_CONNECTION_UPDATE_SECRET_METHOD"%string);
     (AMQP_CONNECTION_UPDATE_SECRET_OK_METHOD, Some "AMQP_CONNECTION_UPDATE_SECRET_OK_METHOD"%string);
     (AMQP_CHANNEL_OPEN_METHOD, Some "AMQP_CHANNEL_OPEN_METHOD"%string);
     (AMQP_CHANNEL_OPEN_OK_METHOD, Some "AMQP_CHANNEL_OPEN_OK_METHOD"%string);
     (AMQP_CHANNEL_FLOW_METHOD, Some "AMQP_CHANNEL_FLOW_METHOD"%string);
     (AMQP_CHANNEL_FLOW_OK_METHOD, Some "AMQP_CHANNEL_FLOW_OK_METHOD"%string);
     (AMQP_CHANNEL_CLOSE_METHOD, Some "AMQP_CHANNEL_CLOSE_METHOD"%string);
     (AMQP_CHANNEL_CLOSE_OK_METHOD, Some "AMQP_CHANNEL_CLOSE_OK_METHOD"%string);
     (AMQP_ACCESS_REQUEST_METHOD, Some "AMQP_ACCESS_REQUEST_METHOD"%string);
     (AMQP_ACCESS_REQUEST_OK_METHOD, Some "AMQP_ACCESS_REQUEST_OK_METHOD"%string);
     (AMQP_EXCHANGE_DECLARE_METHOD, Some "AMQP_EXCHANGE_DECLARE_METHOD"%string);
     (AMQP_EXCHANGE_DECLARE_OK_METHOD, Some "AMQP_EXCHANGE_DECLARE_OK_METHOD"%string);
     (AMQP_EXCHANGE_DELETE_METHOD, Some "AMQP_EXCHANGE_DELETE_METHOD"%string);
     (AMQP_EXCHANGE_DELETE_OK_METHOD, Some "AMQP_EXCHANGE_DELETE_OK_METHOD"%string);
     (AMQP_EXCHANGE_BIND_METHOD, Some "AMQP_EXCHANGE_BIND_METHOD"%string);
     (AMQP_EXCHANGE_BIND_OK_METHOD, Some "AMQP_EXCHANGE_BIND_OK_METHOD"%string);
     (AMQP_EXCHANGE_UNBIND_METHOD, Some "AMQP_EXCHANGE_UNBIND_METHOD"%string);
     (AMQP_EXCHANGE_UNBIND_OK_METHOD, Some "AMQP_EXCHANGE_UNBIND_OK_METHOD"%string);
     (AMQP_QUEUE_DECLARE_METHOD, Some "AMQP_QUEUE_DECLARE_METHOD"%string);
     (AMQP_QUEUE_DECLARE_OK_METHOD, Some "AMQP_QUEUE_DECLARE_OK_METHOD"%string);
     (AMQP_QUEUE_BIND_METHOD, Some "AMQP_QUEUE_BIND_METHOD"%string);
     (AMQP_QUEUE_BIND_OK_METHOD, Some "AMQP_QUEUE_BIND_OK_METHOD"%string);
     (AMQP_QUEUE_PURGE_METHOD, Some "AMQP_QUEUE_PURGE_METHOD"%string);
     (AMQP_QUEUE_PURGE_OK_METHOD, Some "AMQP_QUEUE_PURGE_OK_METHOD"%string);
     (AMQP_QUEUE_DELETE_METHOD, Some "AMQP_QUEUE_DELETE_METHOD"%string);
     (AMQP_QUEUE_DELETE_OK_METHOD, Some "AMQP_QUEUE_DELETE_OK_METHOD"%string);
     (AMQP_QUEUE_UNBIND_METHOD, Some "AMQP_QUEUE_UNBIND_METHOD"%string);
     (AMQP_QUEUE_UNBIND_OK_METHOD, Some "AMQP_QUEUE_UNBIND_OK_METHOD"%string);
     (AMQP_BASIC_QOS_METHOD, Some "AMQP_BASIC_QOS_METHOD"%string);
     (AMQP_BASIC_QOS_OK_METHOD, Some "AMQP_BASIC_QOS_OK_METHOD"%string);
     (AMQP_BASIC_CONSUME_METHOD, Some "AMQP_BASIC_CONSUME_METHOD"%string);
     (AMQP_BASIC_CONSUME_OK_METHOD, Some "AMQP_BASIC_CONSUME_OK_METHOD"%string);
     (AMQP_BASIC_CANCEL_METHOD, Some "AMQP_BASIC_CANCEL_METHOD"%string);
     (AMQP_BASIC_CANCEL_OK_METHOD, Some "AMQP_BASIC_CANCEL_OK_METHOD"%string);
     (AMQP_BASIC_PUBLISH_METHOD, Some "AMQP_BASIC_PUBLISH_METHOD"%string);
     (AMQP_BASIC_RETURN_METHOD, Some "AMQP_BASIC_RETURN_METHOD"%string);
     (AMQP_BASIC_DELIVER_METHOD, Some "AMQP_BASIC_DELIVER_METHOD"%string);
     (AMQP_BASIC_GET_METHOD, Some "AMQP_BASIC_GET_METHOD"%string);
     (AMQP_BASIC_GET_OK_METHOD, Some "AMQP_BASIC_GET_OK_METHOD"%string);
     (AMQP_BASIC_GET_EMPTY_METHOD, Some "AMQP_BASIC_GET_EMPTY_METHOD"%string);
     (AMQP_BASIC_ACK_METHOD, Some "AMQP_BASIC_ACK_METHOD"%string);
     (AMQP_BASIC_REJECT_METHOD, Some "AMQP_BASIC_REJECT_METHOD"%string);
     (AMQP_BASIC_RECOVER_ASYNC_METHOD, Some "AMQP_BASIC_RECOVER_ASYNC_METHOD"%string);
     (AMQP_BASIC_RECOVER_METHOD, Some "AMQP_BASIC_RECOVER_METHOD"%string);
     (AMQP_BASIC_RECOVER_OK_METHOD, Some "AMQP_BASIC_RECOVER_OK_METHOD"%string);
     (AMQP_BASIC_NACK_METHOD, Some "AMQP_BASIC_NACK_METHOD"%string);
     (AMQP_TX_SELECT_METHOD, Some "AMQP_TX_SELECT_METHOD"%string);
     (AMQP_TX_SELECT_OK_METHOD, Some "AMQP_TX_SELECT_OK_METHOD"%string);
     (AMQP_TX_COMMIT_METHOD, Some "AMQP_TX_COMMIT_METHOD"%string);
     (AMQP_TX_COMMIT_OK_METHOD, Some "AMQP_TX_COMMIT_OK_METHOD"%string);
     (AMQP_TX_ROLLBACK_METHOD, Some "AMQP_TX_ROLLBACK_METHOD"%string);
     (AMQP_TX_ROLLBACK_OK_METHOD, Some "AMQP_TX_ROLLBACK_OK_METHOD"%string);
     (AMQP_CONFIRM_SELECT_METHOD, Some "AMQP_CONFIRM_SELECT_METHOD"%string);
     (AMQP_CONFIRM_SELECT_OK_METHOD, Some "AMQP_CONFIRM_SELECT_OK_METHOD"%string)]
    None.

Definition amqp_constant_is_hard_error (constantNumber : Z) : Z :=
  switch constantNumber
    [(AMQP_CONNECTION_FORCED, 1);
     (AMQP_INVALID_PATH, 1);
     (AMQP_FRAME_ERROR, 1);
     (AMQP_SYNTAX_ERROR, 1);
     (AMQP_COMMAND_INVALID, 1);
     (AMQP_CHANNEL_ERROR, 1);
     (AMQP_UNEXPECTED_FRAME, 1);
     (AMQP_RESOURCE_ERROR, 1);
     (AMQP_NOT_ALLOWED, 1);
     (AMQP_NOT_IMPLEMENTED, 1);
     (AMQP_INTERNAL_ERROR, 1)]
    0.

Definition amqp_method_has_content (methodNumber : Z) : Z :=
  switch methodNumber
    [(AMQP_BASIC_PUBLISH_METHOD, 1);
     (AMQP_BASIC_RETURN_METHOD, 1);
     (AMQP_BASIC_DELIVER_METHOD, 1);
     (AMQP_BASIC_GET_OK_METHOD, 1)]
    0.
