(* ===== verification/Methods.v ===== *)
(** * The methods: structures of [include/rabbitmq-c/framing.h]

    One record per method with fields, and the type of a decoded method, which
    pairs the method number with the structure it selects.  Methods without
    fields have a one-byte dummy structure in C and no argument here. *)

From S2P Require Import Prelude Machine Status Alloc Codec Table Framing.

Record amqp_connection_start_t : Type := mk_connection_start {
  connection_start_version_major : Z;
  connection_start_version_minor : Z;
  connection_start_server_properties : amqp_table_t;
  connection_start_mechanisms : amqp_bytes_t;
  connection_start_locales : amqp_bytes_t
}.

Record amqp_connection_start_ok_t : Type := mk_connection_start_ok {
  connection_start_ok_client_properties : amqp_table_t;
  connection_start_ok_mechanism : amqp_bytes_t;
  connection_start_ok_response : amqp_bytes_t;
  connection_start_ok_locale : amqp_bytes_t
}.

Record amqp_connection_secure_t : Type := mk_connection_secure {
  connection_secure_challenge : amqp_bytes_t
}.

Record amqp_connection_secure_ok_t : Type := mk_connection_secure_ok {
  connection_secure_ok_response : amqp_bytes_t
}.

Record amqp_connection_tune_t : Type := mk_connection_tune {
  connection_tune_channel_max : Z;
  connection_tune_frame_max : Z;
  connection_tune_heartbeat : Z
}.

Record amqp_connection_tune_ok_t : Type := mk_connection_tune_ok {
  connection_tune_ok_channel_max : Z;
  connection_tune_ok_frame_max : Z;
  connection_tune_ok_heartbeat : Z
}.

Record amqp_connection_open_t : Type := mk_connection_open {
  connection_open_virtual_host : amqp_bytes_t;
  connection_open_capabilities : amqp_bytes_t;
  connection_open_insist : Z
}.

Record amqp_connection_open_ok_t : Type := mk_connection_open_ok {
  connection_open_ok_known_hosts : amqp_bytes_t
}.

Record amqp_connection_close_t : Type := mk_connection_close {
  connection_close_reply_code : Z;
  connection_close_reply_text : amqp_bytes_t;
  connection_close_class_id : Z;
  connection_close_method_id : Z
}.

Record amqp_connection_blocked_t : Type := mk_connection_blocked {
  connection_blocked_reason : amqp_bytes_t
}.

Record amqp_connection_update_secret_t : Type := mk_connection_update_secret {
  connection_update_secret_new_secret : amqp_bytes_t;
  connection_update_secret_reason : amqp_bytes_t
}.

Record amqp_channel_open_t : Type := mk_channel_open {
  channel_open_out_of_band : amqp_bytes_t
}.

Record amqp_channel_open_ok_t : Type := mk_channel_open_ok {
  channel_open_ok_channel_id : amqp_bytes_t
}.

Record amqp_channel_flow_t : Type := mk_channel_flow {
  channel_flow_active : Z
}.

Record amqp_channel_flow_ok_t : Type := mk_channel_flow_ok {
  channel_flow_ok_active : Z
}.

Record amqp_channel_close_t : Type := mk_channel_close {
  channel_close_reply_code : Z;
  channel_close_reply_text : amqp_bytes_t;
  channel_close_class_id : Z;
  channel_close_method_id : Z
}.

Record amqp_access_request_t : Type := mk_access_request {
  access_request_realm : amqp_bytes_t;
  access_request_exclusive : Z;
  access_request_passive : Z;
  access_request_active : Z;
  access_request_write : Z;
  access_request_read : Z
}.

Record amqp_access_request_ok_t : Type := mk_access_request_ok {
  access_request_ok_ticket : Z
}.

Record amqp_exchange_declare_t : Type := mk_exchange_declare {
  exchange_declare_ticket : Z;
  exchange_declare_exchange : amqp_bytes_t;
  exchange_declare_type : amqp_bytes_t;
  exchange_declare_passive : Z;
  exchange_declare_durable : Z;
  exchange_declare_auto_delete : Z;
  exchange_declare_internal : Z;
  exchange_declare_nowait : Z;
  exchange_declare_arguments : amqp_table_t
}.

Record amqp_exchange_delete_t : Type := mk_exchange_delete {
  exchange_delete_ticket : Z;
  exchange_delete_exchange : amqp_bytes_t;
  exchange_delete_if_unused : Z;
  exchange_delete_nowait : Z
}.

Record amqp_exchange_bind_t : Type := mk_exchange_bind {
  exchange_bind_ticket : Z;
  exchange_bind_destination : amqp_bytes_t;
  exchange_bind_source : amqp_bytes_t;
  exchange_bind_routing_key : amqp_bytes_t;
  exchange_bind_nowait : Z;
  exchange_bind_arguments : amqp_table_t
}.

Record amqp_exchange_unbind_t : Type := mk_exchange_unbind {
  exchange_unbind_ticket : Z;
  exchange_unbind_destination : amqp_bytes_t;
  exchange_unbind_source : amqp_bytes_t;
  exchange_unbind_routing_key : amqp_bytes_t;
  exchange_unbind_nowait : Z;
  exchange_unbind_arguments : amqp_table_t
}.

Record amqp_queue_declare_t : Type := mk_queue_declare {
  queue_declare_ticket : Z;
  queue_declare_queue : amqp_bytes_t;
  queue_declare_passive : Z;
  queue_declare_durable : Z;
  queue_declare_exclusive : Z;
  queue_declare_auto_delete : Z;
  queue_declare_nowait : Z;
  queue_declare_arguments : amqp_table_t
}.

Record amqp_queue_declare_ok_t : Type := mk_queue_declare_ok {
  queue_declare_ok_queue : amqp_bytes_t;
  queue_declare_ok_message_count : Z;
  queue_declare_ok_consumer_count : Z
}.

Record amqp_queue_bind_t : Type := mk_queue_bind {
  queue_bind_ticket : Z;
  queue_bind_queue : amqp_bytes_t;
  queue_bind_exchange : amqp_bytes_t;
  queue_bind_routing_key : amqp_bytes_t;
  queue_bind_nowait : Z;
  queue_bind_arguments : amqp_table_t
}.

Record amqp_queue_purge_t : Type := mk_queue_purge {
  queue_purge_ticket : Z;
  queue_purge_queue : amqp_bytes_t;
  queue_purge_nowait : Z
}.

Record amqp_queue_purge_ok_t : Type := mk_queue_purge_ok {
  queue_purge_ok_message_count : Z
}.

Record amqp_queue_delete_t : Type := mk_queue_delete {
  queue_delete_ticket : Z;
  queue_delete_queue : amqp_bytes_t;
  queue_delete_if_unused : Z;
  queue_delete_if_empty : Z;
  queue_delete_nowait : Z
}.

Record amqp_queue_delete_ok_t : Type := mk_queue_delete_ok {
  queue_delete_ok_message_count : Z
}.

Record amqp_queue_unbind_t : Type := mk_queue_unbind {
  queue_unbind_ticket : Z;
  queue_unbind_queue : amqp_bytes_t;
  queue_unbind_exchange : amqp_bytes_t;
  queue_unbind_routing_key : amqp_bytes_t;
  queue_unbind_arguments : amqp_table_t
}.

Record amqp_basic_qos_t : Type := mk_basic_qos {
  basic_qos_prefetch_size : Z;
  basic_qos_prefetch_count : Z;
  basic_qos_global : Z
}.

Record amqp_basic_consume_t : Type := mk_basic_consume {
  basic_consume_ticket : Z;
  basic_consume_queue : amqp_bytes_t;
  basic_consume_consumer_tag : amqp_bytes_t;
  basic_consume_no_local : Z;
  basic_consume_no_ack : Z;
  basic_consume_exclusive : Z;
  basic_consume_nowait : Z;
  basic_consume_arguments : amqp_table_t
}.

Record amqp_basic_consume_ok_t : Type := mk_basic_consume_ok {
  basic_consume_ok_consumer_tag : amqp_bytes_t
}.

Record amqp_basic_cancel_t : Type := mk_basic_cancel {
  basic_cancel_consumer_tag : amqp_bytes_t;
  basic_cancel_nowait : Z
}.

Record amqp_basic_cancel_ok_t : Type := mk_basic_cancel_ok {
  basic_cancel_ok_consumer_tag : amqp_bytes_t
}.

Record amqp_basic_publish_t : Type := mk_basic_publish {
  basic_publish_ticket : Z;
  basic_publish_exchange : amqp_bytes_t;
  basic_publish_routing_key : amqp_bytes_t;
  basic_publish_mandatory : Z;
  basic_publish_immediate : Z
}.

Record amqp_basic_return_t : Type := mk_basic_return {
  basic_return_reply_code : Z;
  basic_return_reply_text : amqp_bytes_t;
  basic_return_exchange : amqp_bytes_t;
  basic_return_routing_key : amqp_bytes_t
}.

Record amqp_basic_deliver_t : Type := mk_basic_deliver {
  basic_deliver_consumer_tag : amqp_bytes_t;
  basic_deliver_delivery_tag : Z;
  basic_deliver_redelivered : Z;
  basic_deliver_exchange : amqp_bytes_t;
  basic_deliver_routing_key : amqp_bytes_t
}.

Record amqp_basic_get_t : Type := mk_basic_get {
  basic_get_ticket : Z;
  basic_get_queue : amqp_bytes_t;
  basic_get_no_ack : Z
}.

Record amqp_basic_get_ok_t : Type := mk_basic_get_ok {
  basic_get_ok_delivery_tag : Z;
  basic_get_ok_redelivered : Z;
  basic_get_ok_exchange : amqp_bytes_t;
  basic_get_ok_routing_key : amqp_bytes_t;
  basic_get_ok_message_count : Z
}.

Record amqp_basic_get_empty_t : Type := mk_basic_get_empty {
  basic_get_empty_cluster_id : amqp_bytes_t
}.

Record amqp_basic_ack_t : Type := mk_basic_ack {
  basic_ack_delivery_tag : Z;
  basic_ack_multiple : Z
}.

Record amqp_basic_reject_t : Type := mk_basic_reject {
  basic_reject_delivery_tag : Z;
  basic_reject_requeue : Z
}.

Record amqp_basic_recover_async_t : Type := mk_basic_recover_async {
  basic_recover_async_requeue : Z
}.

Record amqp_basic_recover_t : Type := mk_basic_recover {
  basic_recover_requeue : Z
}.

Record amqp_basic_nack_t : Type := mk_basic_nack {
  basic_nack_delivery_tag : Z;
  basic_nack_multiple : Z;
  basic_nack_requeue : Z
}.

Record amqp_confirm_select_t : Type := mk_confirm_select {
  confirm_select_nowait : Z
}.

(** What [*decoded] points to. *)
Inductive amqp_decoded_t : Type :=
| M_CONNECTION_START (m : amqp_connection_start_t)
| M_CONNECTION_START_OK (m : amqp_connection_start_ok_t)
| M_CONNECTION_SECURE (m : amqp_connection_secure_t)
| M_CONNECTION_SECURE_OK (m : amqp_connection_secure_ok_t)
| M_CONNECTION_TUNE (m : amqp_connection_tune_t)
| M_CONNECTION_TUNE_OK (m : amqp_connection_tune_ok_t)
| M_CONNECTION_OPEN (m : amqp_connection_open_t)
| M_CONNECTION_OPEN_OK (m : amqp_connection_open_ok_t)
| M_CONNECTION_CLOSE (m : amqp_connection_close_t)
| M_CONNECTION_CLOSE_OK
| M_CONNECTION_BLOCKED (m : amqp_connection_blocked_t)
| M_CONNECTION_UNBLOCKED
| M_CONNECTION_UPDATE_SECRET (m : amqp_connection_update_secret_t)
| M_CONNECTION_UPDATE_SECRET_OK
| M_CHANNEL_OPEN (m : amqp_channel_open_t)
| M_CHANNEL_OPEN_OK (m : amqp_channel_open_ok_t)
| M_CHANNEL_FLOW (m : amqp_channel_flow_t)
| M_CHANNEL_FLOW_OK (m : amqp_channel_flow_ok_t)
| M_CHANNEL_CLOSE (m : amqp_channel_close_t)
| M_CHANNEL_CLOSE_OK
| M_ACCESS_REQUEST (m : amqp_access_request_t)
| M_ACCESS_REQUEST_OK (m : amqp_access_request_ok_t)
| M_EXCHANGE_DECLARE (m : amqp_exchange_declare_t)
| M_EXCHANGE_DECLARE_OK
| M_EXCHANGE_DELETE (m : amqp_exchange_delete_t)
| M_EXCHANGE_DELETE_OK
| M_EXCHANGE_BIND (m : amqp_exchange_bind_t)
| M_EXCHANGE_BIND_OK
| M_EXCHANGE_UNBIND (m : amqp_exchange_unbind_t)
| M_EXCHANGE_UNBIND_OK
| M_QUEUE_DECLARE (m : amqp_queue_declare_t)
| M_QUEUE_DECLARE_OK (m : amqp_queue_declare_ok_t)
| M_QUEUE_BIND (m : amqp_queue_bind_t)
| M_QUEUE_BIND_OK
| M_QUEUE_PURGE (m : amqp_queue_purge_t)
| M_QUEUE_PURGE_OK (m : amqp_queue_purge_ok_t)
| M_QUEUE_DELETE (m : amqp_queue_delete_t)
| M_QUEUE_DELETE_OK (m : amqp_queue_delete_ok_t)
| M_QUEUE_UNBIND (m : amqp_queue_unbind_t)
| M_QUEUE_UNBIND_OK
| M_BASIC_QOS (m : amqp_basic_qos_t)
| M_BASIC_QOS_OK
| M_BASIC_CONSUME (m : amqp_basic_consume_t)
| M_BASIC_CONSUME_OK (m : amqp_basic_consume_ok_t)
| M_BASIC_CANCEL (m : amqp_basic_cancel_t)
| M_BASIC_CANCEL_OK (m : amqp_basic_cancel_ok_t)
| M_BASIC_PUBLISH (m : amqp_basic_publish_t)
| M_BASIC_RETURN (m : amqp_basic_return_t)
| M_BASIC_DELIVER (m : amqp_basic_deliver_t)
| M_BASIC_GET (m : amqp_basic_get_t)
| M_BASIC_GET_OK (m : amqp_basic_get_ok_t)
| M_BASIC_GET_EMPTY (m : amqp_basic_get_empty_t)
| M_BASIC_ACK (m : amqp_basic_ack_t)
| M_BASIC_REJECT (m : amqp_basic_reject_t)
| M_BASIC_RECOVER_ASYNC (m : amqp_basic_recover_async_t)
| M_BASIC_RECOVER (m : amqp_basic_recover_t)
| M_BASIC_RECOVER_OK
| M_BASIC_NACK (m : amqp_basic_nack_t)
| M_TX_SELECT
| M_TX_SELECT_OK
| M_TX_COMMIT
| M_TX_COMMIT_OK
| M_TX_ROLLBACK
| M_TX_ROLLBACK_OK
| M_CONFIRM_SELECT (m : amqp_confirm_select_t)
| M_CONFIRM_SELECT_OK.

(** The method number that goes with a structure. *)
Definition method_number (d : amqp_decoded_t) : Z :=
  match d with
  | M_CONNECTION_START _ => AMQP_CONNECTION_START_METHOD
  | M_CONNECTION_START_OK _ => AMQP_CONNECTION_START_OK_METHOD
  | M_CONNECTION_SECURE _ => AMQP_CONNECTION_SECURE_METHOD
  | M_CONNECTION_SECURE_OK _ => AMQP_CONNECTION_SECURE_OK_METHOD
  | M_CONNECTION_TUNE _ => AMQP_CONNECTION_TUNE_METHOD
  | M_CONNECTION_TUNE_OK _ => AMQP_CONNECTION_TUNE_OK_METHOD
  | M_CONNECTION_OPEN _ => AMQP_CONNECTION_OPEN_METHOD
  | M_CONNECTION_OPEN_OK _ => AMQP_CONNECTION_OPEN_OK_METHOD
  | M_CONNECTION_CLOSE _ => AMQP_CONNECTION_CLOSE_METHOD
  | M_CONNECTION_CLOSE_OK => AMQP_CONNECTION_CLOSE_OK_METHOD
  | M_CONNECTION_BLOCKED _ => AMQP_CONNECTION_BLOCKED_METHOD
  | M_CONNECTION_UNBLOCKED => AMQP_CONNECTION_UNBLOCKED_METHOD
  | M_CONNECTION_UPDATE_SECRET _ => AMQP_CONNECTION_UPDATE_SECRET_METHOD
  | M_CONNECTION_UPDATE_SECRET_OK => AMQP_CONNECTION_UPDATE_SECRET_OK_METHOD
  | M_CHANNEL_OPEN _ => AMQP_CHANNEL_OPEN_METHOD
  | M_CHANNEL_OPEN_OK _ => AMQP_CHANNEL_OPEN_OK_METHOD
  | M_CHANNEL_FLOW _ => AMQP_CHANNEL_FLOW_METHOD
  | M_CHANNEL_FLOW_OK _ => AMQP_CHANNEL_FLOW_OK_METHOD
  | M_CHANNEL_CLOSE _ => AMQP_CHANNEL_CLOSE_METHOD
  | M_CHANNEL_CLOSE_OK => AMQP_CHANNEL_CLOSE_OK_METHOD
  | M_ACCESS_REQUEST _ => AMQP_ACCESS_REQUEST_METHOD
  | M_ACCESS_REQUEST_OK _ => AMQP_ACCESS_REQUEST_OK_METHOD
  | M_EXCHANGE_DECLARE _ => AMQP_EXCHANGE_DECLARE_METHOD
  | M_EXCHANGE_DECLARE_OK => AMQP_EXCHANGE_DECLARE_OK_METHOD
  | M_EXCHANGE_DELETE _ => AMQP_EXCHANGE_DELETE_METHOD
  | M_EXCHANGE_DELETE_OK => AMQP_EXCHANGE_DELETE_OK_METHOD
  | M_EXCHANGE_BIND _ => AMQP_EXCHANGE_BIND_METHOD
  | M_EXCHANGE_BIND_OK => AMQP_EXCHANGE_BIND_OK_METHOD
  | M_EXCHANGE_UNBIND _ => AMQP_EXCHANGE_UNBIND_METHOD
  | M_EXCHANGE_UNBIND_OK => AMQP_EXCHANGE_UNBIND_OK_METHOD
  | M_QUEUE_DECLARE _ => AMQP_QUEUE_DECLARE_METHOD
  | M_QUEUE_DECLARE_OK _ => AMQP_QUEUE_DECLARE_OK_METHOD
  | M_QUEUE_BIND _ => AMQP_QUEUE_BIND_METHOD
  | M_QUEUE_BIND_OK => AMQP_QUEUE_BIND_OK_METHOD
  | M_QUEUE_PURGE _ => AMQP_QUEUE_PURGE_METHOD
  | M_QUEUE_PURGE_OK _ => AMQP_QUEUE_PURGE_OK_METHOD
  | M_QUEUE_DELETE _ => AMQP_QUEUE_DELETE_METHOD
  | M_QUEUE_DELETE_OK _ => AMQP_QUEUE_DELETE_OK_METHOD
  | M_QUEUE_UNBIND _ => AMQP_QUEUE_UNBIND_METHOD
  | M_QUEUE_UNBIND_OK => AMQP_QUEUE_UNBIND_OK_METHOD
  | M_BASIC_QOS _ => AMQP_BASIC_QOS_METHOD
  | M_BASIC_QOS_OK => AMQP_BASIC_QOS_OK_METHOD
  | M_BASIC_CONSUME _ => AMQP_BASIC_CONSUME_METHOD
  | M_BASIC_CONSUME_OK _ => AMQP_BASIC_CONSUME_OK_METHOD
  | M_BASIC_CANCEL _ => AMQP_BASIC_CANCEL_METHOD
  | M_BASIC_CANCEL_OK _ => AMQP_BASIC_CANCEL_OK_METHOD
  | M_BASIC_PUBLISH _ => AMQP_BASIC_PUBLISH_METHOD
  | M_BASIC_RETURN _ => AMQP_BASIC_RETURN_METHOD
  | M_BASIC_DELIVER _ => AMQP_BASIC_DELIVER_METHOD
  | M_BASIC_GET _ => AMQP_BASIC_GET_METHOD
  | M_BASIC_GET_OK _ => AMQP_BASIC_GET_OK_METHOD
  | M_BASIC_GET_EMPTY _ => AMQP_BASIC_GET_EMPTY_METHOD
  | M_BASIC_ACK _ => AMQP_BASIC_ACK_METHOD
  | M_BASIC_REJECT _ => AMQP_BASIC_REJECT_METHOD
  | M_BASIC_RECOVER_ASYNC _ => AMQP_BASIC_RECOVER_ASYNC_METHOD
  | M_BASIC_RECOVER _ => AMQP_BASIC_RECOVER_METHOD
  | M_BASIC_RECOVER_OK => AMQP_BASIC_RECOVER_OK_METHOD
  | M_BASIC_NACK _ => AMQP_BASIC_NACK_METHOD
  | M_TX_SELECT => AMQP_TX_SELECT_METHOD
  | M_TX_SELECT_OK => AMQP_TX_SELECT_OK_METHOD
  | M_TX_COMMIT => AMQP_TX_COMMIT_METHOD
  | M_TX_COMMIT_OK => AMQP_TX_COMMIT_OK_METHOD
  | M_TX_ROLLBACK => AMQP_TX_ROLLBACK_METHOD
  | M_TX_ROLLBACK_OK => AMQP_TX_ROLLBACK_OK_METHOD
  | M_CONFIRM_SELECT _ => AMQP_CONFIRM_SELECT_METHOD
  | M_CONFIRM_SELECT_OK => AMQP_CONFIRM_SELECT_OK_METHOD
  end.

(** Evaluate a [switch] on the number of a known method. *)
Ltac eval_method_switch :=
  cbv [switch List.find fst snd from_option Z.eqb Pos.eqb method_number
       AMQP_CONNECTION_START_METHOD
       AMQP_CONNECTION_START_OK_METHOD
       AMQP_CONNECTION_SECURE_METHOD
       AMQP_CONNECTION_SECURE_OK_METHOD
       AMQP_CONNECTION_TUNE_METHOD
       AMQP_CONNECTION_TUNE_OK_METHOD
       AMQP_CONNECTION_OPEN_METHOD
       AMQP_CONNECTION_OPEN_OK_METHOD
       AMQP_CONNECTION_CLOSE_METHOD
       AMQP_CONNECTION_CLOSE_OK_METHOD
       AMQP_CONNECTION_BLOCKED_METHOD
       AMQP_CONNECTION_UNBLOCKED_METHOD
       AMQP_CONNECTION_UPDATE_SECRET_METHOD
       AMQP_CONNECTION_UPDATE_SECRET_OK_METHOD
       AMQP_CHANNEL_OPEN_METHOD
       AMQP_CHANNEL_OPEN_OK_METHOD
       AMQP_CHANNEL_FLOW_METHOD
       AMQP_CHANNEL_FLOW_OK_METHOD
       AMQP_CHANNEL_CLOSE_METHOD
       AMQP_CHANNEL_CLOSE_OK_METHOD
       AMQP_ACCESS_REQUEST_METHOD
       AMQP_ACCESS_REQUEST_OK_METHOD
       AMQP_EXCHANGE_DECLARE_METHOD
       AMQP_EXCHANGE_DECLARE_OK_METHOD
       AMQP_EXCHANGE_DELETE_METHOD
       AMQP_EXCHANGE_DELETE_OK_METHOD
       AMQP_EXCHANGE_BIND_METHOD
       AMQP_EXCHANGE_BIND_OK_METHOD
       AMQP_EXCHANGE_UNBIND_METHOD
       AMQP_EXCHANGE_UNBIND_OK_METHOD
       AMQP_QUEUE_DECLARE_METHOD
       AMQP_QUEUE_DECLARE_OK_METHOD
       AMQP_QUEUE_BIND_METHOD
       AMQP_QUEUE_BIND_OK_METHOD
       AMQP_QUEUE_PURGE_METHOD
       AMQP_QUEUE_PURGE_OK_METHOD
       AMQP_QUEUE_DELETE_METHOD
       AMQP_QUEUE_DELETE_OK_METHOD
       AMQP_QUEUE_UNBIND_METHOD
       AMQP_QUEUE_UNBIND_OK_METHOD
       AMQP_BASIC_QOS_METHOD
       AMQP_BASIC_QOS_OK_METHOD
       AMQP_BASIC_CONSUME_METHOD
       AMQP_BASIC_CONSUME_OK_METHOD
       AMQP_BASIC_CANCEL_METHOD
       AMQP_BASIC_CANCEL_OK_METHOD
       AMQP_BASIC_PUBLISH_METHOD
       AMQP_BASIC_RETURN_METHOD
       AMQP_BASIC_DELIVER_METHOD
       AMQP_BASIC_GET_METHOD
       AMQP_BASIC_GET_OK_METHOD
       AMQP_BASIC_GET_EMPTY_METHOD
       AMQP_BASIC_ACK_METHOD
       AMQP_BASIC_REJECT_METHOD
       AMQP_BASIC_RECOVER_ASYNC_METHOD
       AMQP_BASIC_RECOVER_METHOD
       AMQP_BASIC_RECOVER_OK_METHOD
       AMQP_BASIC_NACK_METHOD
       AMQP_TX_SELECT_METHOD
       AMQP_TX_SELECT_OK_METHOD
       AMQP_TX_COMMIT_METHOD
       AMQP_TX_COMMIT_OK_METHOD
       AMQP_TX_ROLLBACK_METHOD
       AMQP_TX_ROLLBACK_OK_METHOD
       AMQP_CONFIRM_SELECT_METHOD
       AMQP_CONFIRM_SELECT_OK_METHOD].
