(* ===== verification/MethodDecode.v ===== *)
(** * Decoding methods: [amqp_decode_method] of [librabbitmq/amqp_framing.c]

    One definition per [case]: the structure is allocated from the pool, then
    its fields are read in order. *)

From S2P Require Import Prelude Machine Status Alloc Codec Table Framing Methods.

Section Decode.
Context `{Host} {St : Type} `{Allocator St}.

(** [m = amqp_pool_alloc(pool, sizeof( *m)); if (m == NULL) return
    AMQP_STATUS_NO_MEMORY;] *)
Definition alloc_struct (sizeof : Z) : C (dst St) unit :=
  let* m := lift_alloc (pool_alloc sizeof) in
  match m with Some _ => ret tt | None => throw AMQP_STATUS_NO_MEMORY end.

(** The blocks that read a short and a long string. *)
Definition decode_shortstr (encoded : amqp_bytes_t) : C (dst St) amqp_bytes_t :=
  let* len := require AMQP_STATUS_BAD_AMQP_DATA (amqp_decode_8 encoded) in
  require AMQP_STATUS_BAD_AMQP_DATA (amqp_decode_bytes encoded len).

Definition decode_longstr (encoded : amqp_bytes_t) : C (dst St) amqp_bytes_t :=
  let* len := require AMQP_STATUS_BAD_AMQP_DATA (amqp_decode_32 encoded) in
  require AMQP_STATUS_BAD_AMQP_DATA (amqp_decode_bytes encoded len).

(** [(bit_buffer & (1 << i)) ? 1 : 0] *)
Definition bit (bit_buffer i : Z) : Z :=
  if Z.land bit_buffer (Z.shiftl 1 i) =? 0 then 0 else 1.

Definition decode_connection_start (encoded : amqp_bytes_t) : C (dst St) amqp_decoded_t :=
  do* alloc_struct 56 in
  let* version_major := require AMQP_STATUS_BAD_AMQP_DATA (amqp_decode_8 encoded) in
  let* version_minor := require AMQP_STATUS_BAD_AMQP_DATA (amqp_decode_8 encoded) in
  let* server_properties := amqp_decode_table encoded in
  let* mechanisms := decode_longstr encoded in
  let* locales := decode_longstr encoded in
  ret (M_CONNECTION_START {| connection_start_version_major := version_major;
    connection_start_version_minor := version_minor;
    connection_start_server_properties := server_properties;
    connection_start_mechanisms := mechanisms;
    connection_start_locales := locales |}).

Definition decode_connection_start_ok (encoded : amqp_bytes_t) : C (dst St) amqp_decoded_t :=
  do* alloc_struct 64 in
  let* client_properties := amqp_decode_table encoded in
  let* mechanism := decode_shortstr encoded in
  let* response := decode_longstr encoded in
  let* locale := decode_shortstr encoded in
  ret (M_CONNECTION_START_OK {| connection_start_ok_client_properties := client_properties;
    connection_start_ok_mechanism := mechanism;
    connection_start_ok_response := response;
    connection_start_ok_locale := locale |}).

Definition decode_connection_secure (encoded : amqp_bytes_t) : C (dst St) amqp_decoded_t :=
  do* alloc_struct 16 in
  let* challenge := decode_longstr encoded in
  ret (M_CONNECTION_SECURE {| connection_secure_challenge := challenge |}).

Definition decode_connection_secure_ok (encoded : amqp_bytes_t) : C (dst St) amqp_decoded_t :=
  do* alloc_struct 16 in
  let* response := decode_longstr encoded in
  ret (M_CONNECTION_SECURE_OK {| connection_secure_ok_response := response |}).

Definition decode_connection_tune (encoded : amqp_bytes_t) : C (dst St) amqp_decoded_t :=
  do* alloc_struct 12 in
  let* channel_max := require AMQP_STATUS_BAD_AMQP_DATA (amqp_decode_16 encoded) in
  let* frame_max := require AMQP_STATUS_BAD_AMQP_DATA (amqp_decode_32 encoded) in
  let* heartbeat := require AMQP_STATUS_BAD_AMQP_DATA (amqp_decode_16 encoded) in
  ret (M_CONNECTION_TUNE {| connection_tune_channel_max := channel_max;
    connection_tune_frame_max := frame_max;
    connection_tune_heartbeat := heartbeat |}).

Definition decode_connection_tune_ok (encoded : amqp_bytes_t) : C (dst St) amqp_decoded_t :=
  do* alloc_struct 12 in
  let* channel_max := require AMQP_STATUS_BAD_AMQP_DATA (amqp_decode_16 encoded) in
  let* frame_max := require AMQP_STATUS_BAD_AMQP_DATA (amqp_decode_32 encoded) in
  let* heartbeat := require AMQP_STATUS_BAD_AMQP_DATA (amqp_decode_16 encoded) in
  ret (M_CONNECTION_TUNE_OK {| connection_tune_ok_channel_max := channel_max;
    connection_tune_ok_frame_max := frame_max;
    connection_tune_ok_heartbeat := heartbeat |}).

Definition decode_connection_open (encoded : amqp_bytes_t) : C (dst St) amqp_decoded_t :=
  do* alloc_struct 40 in
  let* virtual_host := decode_shortstr encoded in
  let* capabilities := decode_shortstr encoded in
  let* bit_buffer := require AMQP_STATUS_BAD_AMQP_DATA (amqp_decode_8 encoded) in
  let insist := bit bit_buffer 0 in
  ret (M_CONNECTION_OPEN {| connection_open_virtual_host := virtual_host;
    connection_open_capabilities := capabilities;
    connection_open_insist := insist |}).

Definition decode_connection_open_ok (encoded : amqp_bytes_t) : C (dst St) amqp_decoded_t :=
  do* alloc_struct 16 in
  let* known_hosts := decode_shortstr encoded in
  ret (M_CONNECTION_OPEN_OK {| connection_open_ok_known_hosts := known_hosts |}).

Definition decode_connection_close (encoded : amqp_bytes_t) : C (dst St) amqp_decoded_t :=
  do* alloc_struct 32 in
  let* reply_code := require AMQP_STATUS_BAD_AMQP_DATA (amqp_decode_16 encoded) in
  let* reply_text := decode_shortstr encoded in
  let* class_id := require AMQP_STATUS_BAD_AMQP_DATA (amqp_decode_16 encoded) in
  let* method_id := require AMQP_STATUS_BAD_AMQP_DATA (amqp_decode_16 encoded) in
  ret (M_CONNECTION_CLOSE {| connection_close_reply_code := reply_code;
    connection_close_reply_text := reply_text;
    connection_close_class_id := class_id;
    connection_close_method_id := method_id |}).

Definition decode_connection_close_ok (encoded : amqp_bytes_t) : C (dst St) amqp_decoded_t :=
  do* alloc_struct 1 in
  ret M_CONNECTION_CLOSE_OK.

Definition decode_connection_blocked (encoded : amqp_bytes_t) : C (dst St) amqp_decoded_t :=
  do* alloc_struct 16 in
  let* reason := decode_shortstr encoded in
  ret (M_CONNECTION_BLOCKED {| connection_blocked_reason := reason |}).

Definition decode_connection_unblocked (encoded : amqp_bytes_t) : C (dst St) amqp_decoded_t :=
  do* alloc_struct 1 in
  ret M_CONNECTION_UNBLOCKED.

Definition decode_connection_update_secret (encoded : amqp_bytes_t) : C (dst St) amqp_decoded_t :=
  do* alloc_struct 32 in
  let* new_secret := decode_longstr encoded in
  let* reason := decode_shortstr encoded in
  ret (M_CONNECTION_UPDATE_SECRET {| connection_update_secret_new_secret := new_secret;
    connection_update_secret_reason := reason |}).

Definition decode_connection_update_secret_ok (encoded : amqp_bytes_t) : C (dst St) amqp_decoded_t :=
  do* alloc_struct 1 in
  ret M_CONNECTION_UPDATE_SECRET_OK.

Definition decode_channel_open (encoded : amqp_bytes_t) : C (dst St) amqp_decoded_t :=
  do* alloc_struct 16 in
  let* out_of_band := decode_shortstr encoded in
  ret (M_CHANNEL_OPEN {| channel_open_out_of_band := out_of_band |}).

Definition decode_channel_open_ok (encoded : amqp_bytes_t) : C (dst St) amqp_decoded_t :=
  do* alloc_struct 16 in
  let* channel_id := decode_longstr encoded in
  ret (M_CHANNEL_OPEN_OK {| channel_open_ok_channel_id := channel_id |}).

Definition decode_channel_flow (encoded : amqp_bytes_t) : C (dst St) amqp_decoded_t :=
  do* alloc_struct 4 in
  let* bit_buffer := require AMQP_STATUS_BAD_AMQP_DATA (amqp_decode_8 encoded) in
  let active := bit bit_buffer 0 in
  ret (M_CHANNEL_FLOW {| channel_flow_active := active |}).

Definition decode_channel_flow_ok (encoded : amqp_bytes_t) : C (dst St) amqp_decoded_t :=
  do* alloc_struct 4 in
  let* bit_buffer := require AMQP_STATUS_BAD_AMQP_DATA (amqp_decode_8 encoded) in
  let active := bit bit_buffer 0 in
  ret (M_CHANNEL_FLOW_OK {| channel_flow_ok_active := active |}).

Definition decode_channel_close (encoded : amqp_bytes_t) : C (dst St) amqp_decoded_t :=
  do* alloc_struct 32 in
  let* reply_code := require AMQP_STATUS_BAD_AMQP_DATA (amqp_decode_16 encoded) in
  let* reply_text := decode_shortstr encoded in
  let* class_id := require AMQP_STATUS_BAD_AMQP_DATA (amqp_decode_16 encoded) in
  let* method_id := require AMQP_STATUS_BAD_AMQP_DATA (amqp_decode_16 encoded) in
  ret (M_CHANNEL_CLOSE {| channel_close_reply_code := reply_code;
    channel_close_reply_text := reply_text;
    channel_close_class_id := class_id;
    channel_close_method_id := method_id |}).

Definition decode_channel_close_ok (encoded : amqp_bytes_t) : C (dst St) amqp_decoded_t :=
  do* alloc_struct 1 in
  ret M_CHANNEL_CLOSE_OK.

Definition decode_access_request (encoded : amqp_bytes_t) : C (dst St) amqp_decoded_t :=
  do* alloc_struct 40 in
  let* realm := decode_shortstr encoded in
  let* bit_buffer := require AMQP_STATUS_BAD_AMQP_DATA (amqp_decode_8 encoded) in
  let exclusive := bit bit_buffer 0 in
  let passive := bit bit_buffer 1 in
  let active := bit bit_buffer 2 in
  let write := bit bit_buffer 3 in
  let read := bit bit_buffer 4 in
  ret (M_ACCESS_REQUEST {| access_request_realm := realm;
    access_request_exclusive := exclusive;
    access_request_passive := passive;
    access_request_active := active;
    access_request_write := write;
    access_request_read := read |}).

Definition decode_access_request_ok (encoded : amqp_bytes_t) : C (dst St) amqp_decoded_t :=
  do* alloc_struct 2 in
  let* ticket := require AMQP_STATUS_BAD_AMQP_DATA (amqp_decode_16 encoded) in
  ret (M_ACCESS_REQUEST_OK {| access_request_ok_ticket := ticket |}).

Definition decode_exchange_declare (encoded : amqp_bytes_t) : C (dst St) amqp_decoded_t :=
  do* alloc_struct 80 in
  let* ticket := require AMQP_STATUS_BAD_AMQP_DATA (amqp_decode_16 encoded) in
  let* exchange := decode_shortstr encoded in
  let* type := decode_shortstr encoded in
  let* bit_buffer := require AMQP_STATUS_BAD_AMQP_DATA (amqp_decode_8 encoded) in
  let passive := bit bit_buffer 0 in
  let durable := bit bit_buffer 1 in
  let auto_delete := bit bit_buffer 2 in
  let internal := bit bit_buffer 3 in
  let nowait := bit bit_buffer 4 in
  let* arguments := amqp_decode_table encoded in
  ret (M_EXCHANGE_DECLARE {| exchange_declare_ticket := ticket;
    exchange_declare_exchange := exchange;
    exchange_declare_type := type;
    exchange_declare_passive := passive;
    exchange_declare_durable := durable;
    exchange_declare_auto_delete := auto_delete;
    exchange_declare_internal := internal;
    exchange_declare_nowait := nowait;
    exchange_declare_arguments := arguments |}).

Definition decode_exchange_declare_ok (encoded : amqp_bytes_t) : C (dst St) amqp_decoded_t :=
  do* alloc_struct 1 in
  ret M_EXCHANGE_DECLARE_OK.

Definition decode_exchange_delete (encoded : amqp_bytes_t) : C (dst St) amqp_decoded_t :=
  do* alloc_struct 32 in
  let* ticket := require AMQP_STATUS_BAD_AMQP_DATA (amqp_decode_16 encoded) in
  let* exchange := decode_shortstr encoded in
  let* bit_buffer := require AMQP_STATUS_BAD_AMQP_DATA (amqp_decode_8 encoded) in
  let if_unused := bit bit_buffer 0 in
  let nowait := bit bit_buffer 1 in
  ret (M_EXCHANGE_DELETE {| exchange_delete_ticket := ticket;
    exchange_delete_exchange := exchange;
    exchange_delete_if_unused := if_unused;
    exchange_delete_nowait := nowait |}).

Definition decode_exchange_delete_ok (encoded : amqp_bytes_t) : C (dst St) amqp_decoded_t :=
  do* alloc_struct 1 in
  ret M_EXCHANGE_DELETE_OK.

Definition decode_exchange_bind (encoded : amqp_bytes_t) : C (dst St) amqp_decoded_t :=
  do* alloc_struct 80 in
  let* ticket := require AMQP_STATUS_BAD_AMQP_DATA (amqp_decode_16 encoded) in
  let* destination := decode_shortstr encoded in
  let* source := decode_shortstr encoded in
  let* routing_key := decode_shortstr encoded in
  let* bit_buffer := require AMQP_STATUS_BAD_AMQP_DATA (amqp_decode_8 encoded) in
  let nowait := bit bit_buffer 0 in
  let* arguments := amqp_decode_table encoded in
  ret (M_EXCHANGE_BIND {| exchange_bind_ticket := ticket;
    exchange_bind_destination := destination;
    exchange_bind_source := source;
    exchange_bind_routing_key := routing_key;
    exchange_bind_nowait := nowait;
    exchange_bind_arguments := arguments |}).

Definition decode_exchange_bind_ok (encoded : amqp_bytes_t) : C (dst St) amqp_decoded_t :=
  do* alloc_struct 1 in
  ret M_EXCHANGE_BIND_OK.

Definition decode_exchange_unbind (encoded : amqp_bytes_t) : C (dst St) amqp_decoded_t :=
  do* alloc_struct 80 in
  let* ticket := require AMQP_STATUS_BAD_AMQP_DATA (amqp_decode_16 encoded) in
  let* destination := decode_shortstr encoded in
  let* source := decode_shortstr encoded in
  let* routing_key := decode_shortstr encoded in
  let* bit_buffer := require AMQP_STATUS_BAD_AMQP_DATA (amqp_decode_8 encoded) in
  let nowait := bit bit_buffer 0 in
  let* arguments := amqp_decode_table encoded in
  ret (M_EXCHANGE_UNBIND {| exchange_unbind_ticket := ticket;
    exchange_unbind_destination := destination;
    exchange_unbind_source := source;
    exchange_unbind_routing_key := routing_key;
    exchange_unbind_nowait := nowait;
    exchange_unbind_arguments := arguments |}).

Definition decode_exchange_unbind_ok (encoded : amqp_bytes_t) : C (dst St) amqp_decoded_t :=
  do* alloc_struct 1 in
  ret M_EXCHANGE_UNBIND_OK.

Definition decode_queue_declare (encoded : amqp_bytes_t) : C (dst St) amqp_decoded_t :=
  do* alloc_struct 64 in
  let* ticket := require AMQP_STATUS_BAD_AMQP_DATA (amqp_decode_16 encoded) in
  let* queue := decode_shortstr encoded in
  let* bit_buffer := require AMQP_STATUS_BAD_AMQP_DATA (amqp_decode_8 encoded) in
  let passive := bit bit_buffer 0 in
  let durable := bit bit_buffer 1 in
  let exclusive := bit bit_buffer 2 in
  let auto_delete := bit bit_buffer 3 in
  let nowait := bit bit_buffer 4 in
  let* arguments := amqp_decode_table encoded in
  ret (M_QUEUE_DECLARE {| queue_declare_ticket := ticket;
    queue_declare_queue := queue;
    queue_declare_passive := passive;
    queue_declare_durable := durable;
    queue_declare_exclusive := exclusive;
    queue_declare_auto_delete := auto_delete;
    queue_declare_nowait := nowait;
    queue_declare_arguments := arguments |}).

Definition decode_queue_declare_ok (encoded : amqp_bytes_t) : C (dst St) amqp_decoded_t :=
  do* alloc_struct 24 in
  let* queue := decode_shortstr encoded in
  let* message_count := require AMQP_STATUS_BAD_AMQP_DATA (amqp_decode_32 encoded) in
  let* consumer_count := require AMQP_STATUS_BAD_AMQP_DATA (amqp_decode_32 encoded) in
  ret (M_QUEUE_DECLARE_OK {| queue_declare_ok_queue := queue;
    queue_declare_ok_message_count := message_count;
    queue_declare_ok_consumer_count := consumer_count |}).

Definition decode_queue_bind (encoded : amqp_bytes_t) : C (dst St) amqp_decoded_t :=
  do* alloc_struct 80 in
  let* ticket := require AMQP_STATUS_BAD_AMQP_DATA (amqp_decode_16 encoded) in
  let* queue := decode_shortstr encoded in
  let* exchange := decode_shortstr encoded in
  let* routing_key := decode_shortstr encoded in
  let* bit_buffer := require AMQP_STATUS_BAD_AMQP_DATA (amqp_decode_8 encoded) in
  let nowait := bit bit_buffer 0 in
  let* arguments := amqp_decode_table encoded in
  ret (M_QUEUE_BIND {| queue_bind_ticket := ticket;
    queue_bind_queue := queue;
    queue_bind_exchange := exchange;
    queue_bind_routing_key := routing_key;
    queue_bind_nowait := nowait;
    queue_bind_arguments := arguments |}).

Definition decode_queue_bind_ok (encoded : amqp_bytes_t) : C (dst St) amqp_decoded_t :=
  do* alloc_struct 1 in
  ret M_QUEUE_BIND_OK.

Definition decode_queue_purge (encoded : amqp_bytes_t) : C (dst St) amqp_decoded_t :=
  do* alloc_struct 32 in
  let* ticket := require AMQP_STATUS_BAD_AMQP_DATA (amqp_decode_16 encoded) in
  let* queue := decode_shortstr encoded in
  let* bit_buffer := require AMQP_STATUS_BAD_AMQP_DATA (amqp_decode_8 encoded) in
  let nowait := bit bit_buffer 0 in
  ret (M_QUEUE_PURGE {| queue_purge_ticket := ticket;
    queue_purge_queue := queue;
    queue_purge_nowait := nowait |}).

Definition decode_queue_purge_ok (encoded : amqp_bytes_t) : C (dst St) amqp_decoded_t :=
  do* alloc_struct 4 in
  let* message_count := require AMQP_STATUS_BAD_AMQP_DATA (amqp_decode_32 encoded) in
  ret (M_QUEUE_PURGE_OK {| queue_purge_ok_message_count := message_count |}).

Definition decode_queue_delete (encoded : amqp_bytes_t) : C (dst St) amqp_decoded_t :=
  do* alloc_struct 40 in
  let* ticket := require AMQP_STATUS_BAD_AMQP_DATA (amqp_decode_16 encoded) in
  let* queue := decode_shortstr encoded in
  let* bit_buffer := require AMQP_STATUS_BAD_AMQP_DATA (amqp_decode_8 encoded) in
  let if_unused := bit bit_buffer 0 in
  let if_empty := bit bit_buffer 1 in
  let nowait := bit bit_buffer 2 in
  ret (M_QUEUE_DELETE {| queue_delete_ticket := ticket;
    queue_delete_queue := queue;
    queue_delete_if_unused := if_unused;
    queue_delete_if_empty := if_empty;
    queue_delete_nowait := nowait |}).

Definition decode_queue_delete_ok (encoded : amqp_bytes_t) : C (dst St) amqp_decoded_t :=
  do* alloc_struct 4 in
  let* message_count := require AMQP_STATUS_BAD_AMQP_DATA (amqp_decode_32 encoded) in
  ret (M_QUEUE_DELETE_OK {| queue_delete_ok_message_count := message_count |}).

Definition decode_queue_unbind (encoded : amqp_bytes_t) : C (dst St) amqp_decoded_t :=
  do* alloc_struct 72 in
  let* ticket := require AMQP_STATUS_BAD_AMQP_DATA (amqp_decode_16 encoded) in
  let* queue := decode_shortstr encoded in
  let* exchange := decode_shortstr encoded in
  let* routing_key := decode_shortstr encoded in
  let* arguments := amqp_decode_table encoded in
  ret (M_QUEUE_UNBIND {| queue_unbind_ticket := ticket;
    queue_unbind_queue := queue;
    queue_unbind_exchange := exchange;
    queue_unbind_routing_key := routing_key;
    queue_unbind_arguments := arguments |}).

Definition decode_queue_unbind_ok (encoded : amqp_bytes_t) : C (dst St) amqp_decoded_t :=
  do* alloc_struct 1 in
  ret M_QUEUE_UNBIND_OK.

Definition decode_basic_qos (encoded : amqp_bytes_t) : C (dst St) amqp_decoded_t :=
  do* alloc_struct 12 in
  let* prefetch_size := require AMQP_STATUS_BAD_AMQP_DATA (amqp_decode_32 encoded) in
  let* prefetch_count := require AMQP_STATUS_BAD_AMQP_DATA (amqp_decode_16 encoded) in
  let* bit_buffer := require AMQP_STATUS_BAD_AMQP_DATA (amqp_decode_8 encoded) in
  let global := bit bit_buffer 0 in
  ret (M_BASIC_QOS {| basic_qos_prefetch_size := prefetch_size;
    basic_qos_prefetch_count := prefetch_count;
    basic_qos_global := global |}).

Definition decode_basic_qos_ok (encoded : amqp_bytes_t) : C (dst St) amqp_decoded_t :=
  do* alloc_struct 1 in
  ret M_BASIC_QOS_OK.

Definition decode_basic_consume (encoded : amqp_bytes_t) : C (dst St) amqp_decoded_t :=
  do* alloc_struct 72 in
  let* ticket := require AMQP_STATUS_BAD_AMQP_DATA (amqp_decode_16 encoded) in
  let* queue := decode_shortstr encoded in
  let* consumer_tag := decode_shortstr encoded in
  let* bit_buffer := require AMQP_STATUS_BAD_AMQP_DATA (amqp_decode_8 encoded) in
  let no_local := bit bit_buffer 0 in
  let no_ack := bit bit_buffer 1 in
  let exclusive := bit bit_buffer 2 in
  let nowait := bit bit_buffer 3 in
  let* arguments := amqp_decode_table encoded in
  ret (M_BASIC_CONSUME {| basic_consume_ticket := ticket;
    basic_consume_queue := queue;
    basic_consume_consumer_tag := consumer_tag;
    basic_consume_no_local := no_local;
    basic_consume_no_ack := no_ack;
    basic_consume_exclusive := exclusive;
    basic_consume_nowait := nowait;
    basic_consume_arguments := arguments |}).

Definition decode_basic_consume_ok (encoded : amqp_bytes_t) : C (dst St) amqp_decoded_t :=
  do* alloc_struct 16 in
  let* consumer_tag := decode_shortstr encoded in
  ret (M_BASIC_CONSUME_OK {| basic_consume_ok_consumer_tag := consumer_tag |}).

Definition decode_basic_cancel (encoded : amqp_bytes_t) : C (dst St) amqp_decoded_t :=
  do* alloc_struct 24 in
  let* consumer_tag := decode_shortstr encoded in
  let* bit_buffer := require AMQP_STATUS_BAD_AMQP_DATA (amqp_decode_8 encoded) in
  let nowait := bit bit_buffer 0 in
  ret (M_BASIC_CANCEL {| basic_cancel_consumer_tag := consumer_tag;
    basic_cancel_nowait := nowait |}).

Definition decode_basic_cancel_ok (encoded : amqp_bytes_t) : C (dst St) amqp_decoded_t :=
  do* alloc_struct 16 in
  let* consumer_tag := decode_shortstr encoded in
  ret (M_BASIC_CANCEL_OK {| basic_cancel_ok_consumer_tag := consumer_tag |}).

Definition decode_basic_publish (encoded : amqp_bytes_t) : C (dst St) amqp_decoded_t :=
  do* alloc_struct 48 in
  let* ticket := require AMQP_STATUS_BAD_AMQP_DATA (amqp_decode_16 encoded) in
  let* exchange := decode_shortstr encoded in
  let* routing_key := decode_shortstr encoded in
  let* bit_buffer := require AMQP_STATUS_BAD_AMQP_DATA (amqp_decode_8 encoded) in
  let mandatory := bit bit_buffer 0 in
  let immediate := bit bit_buffer 1 in
  ret (M_BASIC_PUBLISH {| basic_publish_ticket := ticket;
    basic_publish_exchange := exchange;
    basic_publish_routing_key := routing_key;
    basic_publish_mandatory := mandatory;
    basic_publish_immediate := immediate |}).

Definition decode_basic_return (encoded : amqp_bytes_t) : C (dst St) amqp_decoded_t :=
  do* alloc_struct 56 in
  let* reply_code := require AMQP_STATUS_BAD_AMQP_DATA (amqp_decode_16 encoded) in
  let* reply_text := decode_shortstr encoded in
  let* exchange := decode_shortstr encoded in
  let* routing_key := decode_shortstr encoded in
  ret (M_BASIC_RETURN {| basic_return_reply_code := reply_code;
    basic_return_reply_text := reply_text;
    basic_return_exchange := exchange;
    basic_return_routing_key := routing_key |}).

Definition decode_basic_deliver (encoded : amqp_bytes_t) : C (dst St) amqp_decoded_t :=
  do* alloc_struct 64 in
  let* consumer_tag := decode_shortstr encoded in
  let* delivery_tag := require AMQP_STATUS_BAD_AMQP_DATA (amqp_decode_64 encoded) in
  let* bit_buffer := require AMQP_STATUS_BAD_AMQP_DATA (amqp_decode_8 encoded) in
  let redelivered := bit bit_buffer 0 in
  let* exchange := decode_shortstr encoded in
  let* routing_key := decode_shortstr encoded in
  ret (M_BASIC_DELIVER {| basic_deliver_consumer_tag := consumer_tag;
    basic_deliver_delivery_tag := delivery_tag;
    basic_deliver_redelivered := redelivered;
    basic_deliver_exchange := exchange;
    basic_deliver_routing_key := routing_key |}).

Definition decode_basic_get (encoded : amqp_bytes_t) : C (dst St) amqp_decoded_t :=
  do* alloc_struct 32 in
  let* ticket := require AMQP_STATUS_BAD_AMQP_DATA (amqp_decode_16 encoded) in
  let* queue := decode_shortstr encoded in
  let* bit_buffer := require AMQP_STATUS_BAD_AMQP_DATA (amqp_decode_8 encoded) in
  let no_ack := bit bit_buffer 0 in
  ret (M_BASIC_GET {| basic_get_ticket := ticket;
    basic_get_queue := queue;
    basic_get_no_ack := no_ack |}).

Definition decode_basic_get_ok (encoded : amqp_bytes_t) : C (dst St) amqp_decoded_t :=
  do* alloc_struct 56 in
  let* delivery_tag := require AMQP_STATUS_BAD_AMQP_DATA (amqp_decode_64 encoded) in
  let* bit_buffer := require AMQP_STATUS_BAD_AMQP_DATA (amqp_decode_8 encoded) in
  let redelivered := bit bit_buffer 0 in
  let* exchange := decode_shortstr encoded in
  let* routing_key := decode_shortstr encoded in
  let* message_count := require AMQP_STATUS_BAD_AMQP_DATA (amqp_decode_32 encoded) in
  ret (M_BASIC_GET_OK {| basic_get_ok_delivery_tag := delivery_tag;
    basic_get_ok_redelivered := redelivered;
    basic_get_ok_exchange := exchange;
    basic_get_ok_routing_key := routing_key;
    basic_get_ok_message_count := message_count |}).

Definition decode_basic_get_empty (encoded : amqp_bytes_t) : C (dst St) amqp_decoded_t :=
  do* alloc_struct 16 in
  let* cluster_id := decode_shortstr encoded in
  ret (M_BASIC_GET_EMPTY {| basic_get_empty_cluster_id := cluster_id |}).

Definition decode_basic_ack (encoded : amqp_bytes_t) : C (dst St) amqp_decoded_t :=
  do* alloc_struct 16 in
  let* delivery_tag := require AMQP_STATUS_BAD_AMQP_DATA (amqp_decode_64 encoded) in
  let* bit_buffer := require AMQP_STATUS_BAD_AMQP_DATA (amqp_decode_8 encoded) in
  let multiple := bit bit_buffer 0 in
  ret (M_BASIC_ACK {| basic_ack_delivery_tag := delivery_tag;
    basic_ack_multiple := multiple |}).

Definition decode_basic_reject (encoded : amqp_bytes_t) : C (dst St) amqp_decoded_t :=
  do* alloc_struct 16 in
  let* delivery_tag := require AMQP_STATUS_BAD_AMQP_DATA (amqp_decode_64 encoded) in
  let* bit_buffer := require AMQP_STATUS_BAD_AMQP_DATA (amqp_decode_8 encoded) in
  let requeue := bit bit_buffer 0 in
  ret (M_BASIC_REJECT {| basic_reject_delivery_tag := delivery_tag;
    basic_reject_requeue := requeue |}).

Definition decode_basic_recover_async (encoded : amqp_bytes_t) : C (dst St) amqp_decoded_t :=
  do* alloc_struct 4 in
  let* bit_buffer := require AMQP_STATUS_BAD_AMQP_DATA (amqp_decode_8 encoded) in
  let requeue := bit bit_buffer 0 in
  ret (M_BASIC_RECOVER_ASYNC {| basic_recover_async_requeue := requeue |}).

Definition decode_basic_recover (encoded : amqp_bytes_t) : C (dst St) amqp_decoded_t :=
  do* alloc_struct 4 in
  let* bit_buffer := require AMQP_STATUS_BAD_AMQP_DATA (amqp_decode_8 encoded) in
  let requeue := bit bit_buffer 0 in
  ret (M_BASIC_RECOVER {| basic_recover_requeue := requeue |}).

Definition decode_basic_recover_ok (encoded : amqp_bytes_t) : C (dst St) amqp_decoded_t :=
  do* alloc_struct 1 in
  ret M_BASIC_RECOVER_OK.

Definition decode_basic_nack (encoded : amqp_bytes_t) : C (dst St) amqp_decoded_t :=
  do* alloc_struct 16 in
  let* delivery_tag := require AMQP_STATUS_BAD_AMQP_DATA (amqp_decode_64 encoded) in
  let* bit_buffer := require AMQP_STATUS_BAD_AMQP_DATA (amqp_decode_8 encoded) in
  let multiple := bit bit_buffer 0 in
  let requeue := bit bit_buffer 1 in
  ret (M_BASIC_NACK {| basic_nack_delivery_tag := delivery_tag;
    basic_nack_multiple := multiple;
    basic_nack_requeue := requeue |}).

Definition decode_tx_select (encoded : amqp_bytes_t) : C (dst St) amqp_decoded_t :=
  do* alloc_struct 1 in
  ret M_TX_SELECT.

Definition decode_tx_select_ok (encoded : amqp_bytes_t) : C (dst St) amqp_decoded_t :=
  do* alloc_struct 1 in
  ret M_TX_SELECT_OK.

Definition decode_tx_commit (encoded : amqp_bytes_t) : C (dst St) amqp_decoded_t :=
  do* alloc_struct 1 in
  ret M_TX_COMMIT.

Definition decode_tx_commit_ok (encoded : amqp_bytes_t) : C (dst St) amqp_decoded_t :=
  do* alloc_struct 1 in
  ret M_TX_COMMIT_OK.

Definition decode_tx_rollback (encoded : amqp_bytes_t) : C (dst St) amqp_decoded_t :=
  do* alloc_struct 1 in
  ret M_TX_ROLLBACK.

Definition decode_tx_rollback_ok (encoded : amqp_bytes_t) : C (dst St) amqp_decoded_t :=
  do* alloc_struct 1 in
  ret M_TX_ROLLBACK_OK.

Definition decode_confirm_select (encoded : amqp_bytes_t) : C (dst St) amqp_decoded_t :=
  do* alloc_struct 4 in
  let* bit_buffer := require AMQP_STATUS_BAD_AMQP_DATA (amqp_decode_8 encoded) in
  let nowait := bit bit_buffer 0 in
  ret (M_CONFIRM_SELECT {| confirm_select_nowait := nowait |}).

Definition decode_confirm_select_ok (encoded : amqp_bytes_t) : C (dst St) amqp_decoded_t :=
  do* alloc_struct 1 in
  ret M_CONFIRM_SELECT_OK.

(** [switch (methodNumber)], with the offset starting at 0. *)
Definition decode_cases (encoded : amqp_bytes_t) : list (Z * C (dst St) amqp_decoded_t) :=
  [(AMQP_CONNECTION_START_METHOD, decode_connection_start encoded);
   (AMQP_CONNECTION_START_OK_METHOD, decode_connection_start_ok encoded);
   (AMQP_CONNECTION_SECURE_METHOD, decode_connection_secure encoded);
   (AMQP_CONNECTION_SECURE_OK_METHOD, decode_connection_secure_ok encoded);
   (AMQP_CONNECTION_TUNE_METHOD, decode_connection_tune encoded);
   (AMQP_CONNECTION_TUNE_OK_METHOD, decode_connection_tune_ok encoded);
   (AMQP_CONNECTION_OPEN_METHOD, decode_connection_open encoded);
   (AMQP_CONNECTION_OPEN_OK_METHOD, decode_connection_open_ok encoded);
   (AMQP_CONNECTION_CLOSE_METHOD, decode_connection_close encoded);
   (AMQP_CONNECTION_CLOSE_OK_METHOD, decode_connection_close_ok encoded);
   (AMQP_CONNECTION_BLOCKED_METHOD, decode_connection_blocked encoded);
   (AMQP_CONNECTION_UNBLOCKED_METHOD, decode_connection_unblocked encoded);
   (AMQP_CONNECTION_UPDATE_SECRET_METHOD, decode_connection_update_secret encoded);
   (AMQP_CONNECTION_UPDATE_SECRET_OK_METHOD, decode_connection_update_secret_ok encoded);
   (AMQP_CHANNEL_OPEN_METHOD, decode_channel_open encoded);
   (AMQP_CHANNEL_OPEN_OK_METHOD, decode_channel_open_ok encoded);
   (AMQP_CHANNEL_FLOW_METHOD, decode_channel_flow encoded);
   (AMQP_CHANNEL_FLOW_OK_METHOD, decode_channel_flow_ok encoded);
   (AMQP_CHANNEL_CLOSE_METHOD, decode_channel_close encoded);
   (AMQP_CHANNEL_CLOSE_OK_METHOD, decode_channel_close_ok encoded);
   (AMQP_ACCESS_REQUEST_METHOD, decode_access_request encoded);
   (AMQP_ACCESS_REQUEST_OK_METHOD, decode_access_request_ok encoded);
   (AMQP_EXCHANGE_DECLARE_METHOD, decode_exchange_declare encoded);
   (AMQP_EXCHANGE_DECLARE_OK_METHOD, decode_exchange_declare_ok encoded);
   (AMQP_EXCHANGE_DELETE_METHOD, decode_exchange_delete encoded);
   (AMQP_EXCHANGE_DELETE_OK_METHOD, decode_exchange_delete_ok encoded);
   (AMQP_EXCHANGE_BIND_METHOD, decode_exchange_bind encoded);
   (AMQP_EXCHANGE_BIND_OK_METHOD, decode_exchange_bind_ok encoded);
   (AMQP_EXCHANGE_UNBIND_METHOD, decode_exchange_unbind encoded);
   (AMQP_EXCHANGE_UNBIND_OK_METHOD, decode_exchange_unbind_ok encoded);
   (AMQP_QUEUE_DECLARE_METHOD, decode_queue_declare encoded);
   (AMQP_QUEUE_DECLARE_OK_METHOD, decode_queue_declare_ok encoded);
   (AMQP_QUEUE_BIND_METHOD, decode_queue_bind encoded);
   (AMQP_QUEUE_BIND_OK_METHOD, decode_queue_bind_ok encoded);
   (AMQP_QUEUE_PURGE_METHOD, decode_queue_purge encoded);
   (AMQP_QUEUE_PURGE_OK_METHOD, decode_queue_purge_ok encoded);
   (AMQP_QUEUE_DELETE_METHOD, decode_queue_delete encoded);
   (AMQP_QUEUE_DELETE_OK_METHOD, decode_queue_delete_ok encoded);
   (AMQP_QUEUE_UNBIND_METHOD, decode_queue_unbind encoded);
   (AMQP_QUEUE_UNBIND_OK_METHOD, decode_queue_unbind_ok encoded);
   (AMQP_BASIC_QOS_METHOD, decode_basic_qos encoded);
   (AMQP_BASIC_QOS_OK_METHOD, decode_basic_qos_ok encoded);
   (AMQP_BASIC_CONSUME_METHOD, decode_basic_consume encoded);
   (AMQP_BASIC_CONSUME_OK_METHOD, decode_basic_consume_ok encoded);
   (AMQP_BASIC_CANCEL_METHOD, decode_basic_cancel encoded);
   (AMQP_BASIC_CANCEL_OK_METHOD, decode_basic_cancel_ok encoded);
   (AMQP_BASIC_PUBLISH_METHOD, decode_basic_publish encoded);
   (AMQP_BASIC_RETURN_METHOD, decode_basic_return encoded);
   (AMQP_BASIC_DELIVER_METHOD, decode_basic_deliver encoded);
   (AMQP_BASIC_GET_METHOD, decode_basic_get encoded);
   (AMQP_BASIC_GET_OK_METHOD, decode_basic_get_ok encoded);
   (AMQP_BASIC_GET_EMPTY_METHOD, decode_basic_get_empty encoded);
   (AMQP_BASIC_ACK_METHOD, decode_basic_ack encoded);
   (AMQP_BASIC_REJECT_METHOD, decode_basic_reject encoded);
   (AMQP_BASIC_RECOVER_ASYNC_METHOD, decode_basic_recover_async encoded);
   (AMQP_BASIC_RECOVER_METHOD, decode_basic_recover encoded);
   (AMQP_BASIC_RECOVER_OK_METHOD, decode_basic_recover_ok encoded);
   (AMQP_BASIC_NACK_METHOD, decode_basic_nack encoded);
   (AMQP_TX_SELECT_METHOD, decode_tx_select encoded);
   (AMQP_TX_SELECT_OK_METHOD, decode_tx_select_ok encoded);
   (AMQP_TX_COMMIT_METHOD, decode_tx_commit encoded);
   (AMQP_TX_COMMIT_OK_METHOD, decode_tx_commit_ok encoded);
   (AMQP_TX_ROLLBACK_METHOD, decode_tx_rollback encoded);
   (AMQP_TX_ROLLBACK_OK_METHOD, decode_tx_rollback_ok encoded);
   (AMQP_CONFIRM_SELECT_METHOD, decode_confirm_select encoded);
   (AMQP_CONFIRM_SELECT_OK_METHOD, decode_confirm_select_ok encoded)].

(** Run with a local offset that starts at 0. *)
Definition with_offset {A} (m : C (dst St) A) : C St A := fun s =>
  match m {| d_off := 0; d_alloc := s |} with
  | Ret a s' => Ret a (d_alloc s')
  | Err e s' => Err e (d_alloc s')
  | UB => UB
  | NoFuel => NoFuel
  end.

Definition amqp_decode_method (methodNumber : Z) (encoded : amqp_bytes_t) : C St amqp_decoded_t :=
  with_offset (switch methodNumber (decode_cases encoded) (throw AMQP_STATUS_UNKNOWN_METHOD)).
End Decode.
