(* ===== verification/MethodEncode.v ===== *)
(** * Encoding methods: [amqp_encode_method] of [librabbitmq/amqp_framing.c]

    One definition per [case] with fields. *)

From S2P Require Import Prelude Machine Status Alloc Codec Table Framing Methods.

Section Encode.
Context `{Host}.

(** [UINT8_MAX < s.len || !amqp_encode_8(...) || !amqp_encode_bytes(...)], and the
    same with 32 bits. *)
Definition encode_shortstr (encoded_len : Z) (s : amqp_bytes_t) : C ebuf unit :=
  if UINT8_MAX <? len s then throw AMQP_STATUS_BAD_AMQP_DATA
  else
    do* require_true AMQP_STATUS_BAD_AMQP_DATA (amqp_encode_8 encoded_len (len s)) in
    require_true AMQP_STATUS_BAD_AMQP_DATA (amqp_encode_bytes encoded_len s).

Definition encode_longstr (encoded_len : Z) (s : amqp_bytes_t) : C ebuf unit :=
  if UINT32_MAX <? len s then throw AMQP_STATUS_BAD_AMQP_DATA
  else
    do* require_true AMQP_STATUS_BAD_AMQP_DATA (amqp_encode_32 encoded_len (len s)) in
    require_true AMQP_STATUS_BAD_AMQP_DATA (amqp_encode_bytes encoded_len s).

(** [if (flag) bit_buffer |= (1 << i);] on a [uint8_t]. *)
Definition set_bit (bit_buffer flag i : Z) : Z :=
  if flag =? 0 then bit_buffer else u8 (Z.lor bit_buffer (Z.shiftl 1 i)).

Definition encode_connection_start (encoded_len : Z) (m : amqp_connection_start_t) : C ebuf unit :=
  do* require_true AMQP_STATUS_BAD_AMQP_DATA (amqp_encode_8 encoded_len (connection_start_version_major m)) in
  do* require_true AMQP_STATUS_BAD_AMQP_DATA (amqp_encode_8 encoded_len (connection_start_version_minor m)) in
  do* amqp_encode_table encoded_len (connection_start_server_properties m) in
  do* encode_longstr encoded_len (connection_start_mechanisms m) in
  do* encode_longstr encoded_len (connection_start_locales m) in
  ret tt.

Definition encode_connection_start_ok (encoded_len : Z) (m : amqp_connection_start_ok_t) : C ebuf unit :=
  do* amqp_encode_table encoded_len (connection_start_ok_client_properties m) in
  do* encode_shortstr encoded_len (connection_start_ok_mechanism m) in
  do* encode_longstr encoded_len (connection_start_ok_response m) in
  do* encode_shortstr encoded_len (connection_start_ok_locale m) in
  ret tt.

Definition encode_connection_secure (encoded_len : Z) (m : amqp_connection_secure_t) : C ebuf unit :=
  do* encode_longstr encoded_len (connection_secure_challenge m) in
  ret tt.

Definition encode_connection_secure_ok (encoded_len : Z) (m : amqp_connection_secure_ok_t) : C ebuf unit :=
  do* encode_longstr encoded_len (connection_secure_ok_response m) in
  ret tt.

Definition encode_connection_tune (encoded_len : Z) (m : amqp_connection_tune_t) : C ebuf unit :=
  do* require_true AMQP_STATUS_BAD_AMQP_DATA (amqp_encode_16 encoded_len (connection_tune_channel_max m)) in
  do* require_true AMQP_STATUS_BAD_AMQP_DATA (amqp_encode_32 encoded_len (connection_tune_frame_max m)) in
  do* require_true AMQP_STATUS_BAD_AMQP_DATA (amqp_encode_16 encoded_len (connection_tune_heartbeat m)) in
  ret tt.

Definition encode_connection_tune_ok (encoded_len : Z) (m : amqp_connection_tune_ok_t) : C ebuf unit :=
  do* require_true AMQP_STATUS_BAD_AMQP_DATA (amqp_encode_16 encoded_len (connection_tune_ok_channel_max m)) in
  do* require_true AMQP_STATUS_BAD_AMQP_DATA (amqp_encode_32 encoded_len (connection_tune_ok_frame_max m)) in
  do* require_true AMQP_STATUS_BAD_AMQP_DATA (amqp_encode_16 encoded_len (connection_tune_ok_heartbeat m)) in
  ret tt.

Definition encode_connection_open (encoded_len : Z) (m : amqp_connection_open_t) : C ebuf unit :=
  do* encode_shortstr encoded_len (connection_open_virtual_host m) in
  do* encode_shortstr encoded_len (connection_open_capabilities m) in
  let bit_buffer := 0 in
  let bit_buffer := set_bit bit_buffer (connection_open_insist m) 0 in
  do* require_true AMQP_STATUS_BAD_AMQP_DATA (amqp_encode_8 encoded_len bit_buffer) in
  ret tt.

Definition encode_connection_open_ok (encoded_len : Z) (m : amqp_connection_open_ok_t) : C ebuf unit :=
  do* encode_shortstr encoded_len (connection_open_ok_known_hosts m) in
  ret tt.

Definition encode_connection_close (encoded_len : Z) (m : amqp_connection_close_t) : C ebuf unit :=
  do* require_true AMQP_STATUS_BAD_AMQP_DATA (amqp_encode_16 encoded_len (connection_close_reply_code m)) in
  do* encode_shortstr encoded_len (connection_close_reply_text m) in
  do* require_true AMQP_STATUS_BAD_AMQP_DATA (amqp_encode_16 encoded_len (connection_close_class_id m)) in
  do* require_true AMQP_STATUS_BAD_AMQP_DATA (amqp_encode_16 encoded_len (connection_close_method_id m)) in
  ret tt.

Definition encode_connection_blocked (encoded_len : Z) (m : amqp_connection_blocked_t) : C ebuf unit :=
  do* encode_shortstr encoded_len (connection_blocked_reason m) in
  ret tt.

Definition encode_connection_update_secret (encoded_len : Z) (m : amqp_connection_update_secret_t) : C ebuf unit :=
  do* encode_longstr encoded_len (connection_update_secret_new_secret m) in
  do* encode_shortstr encoded_len (connection_update_secret_reason m) in
  ret tt.

Definition encode_channel_open (encoded_len : Z) (m : amqp_channel_open_t) : C ebuf unit :=
  do* encode_shortstr encoded_len (channel_open_out_of_band m) in
  ret tt.

Definition encode_channel_open_ok (encoded_len : Z) (m : amqp_channel_open_ok_t) : C ebuf unit :=
  do* encode_longstr encoded_len (channel_open_ok_channel_id m) in
  ret tt.

Definition encode_channel_flow (encoded_len : Z) (m : amqp_channel_flow_t) : C ebuf unit :=
  let bit_buffer := 0 in
  let bit_buffer := set_bit bit_buffer (channel_flow_active m) 0 in
  do* require_true AMQP_STATUS_BAD_AMQP_DATA (amqp_encode_8 encoded_len bit_buffer) in
  ret tt.

Definition encode_channel_flow_ok (encoded_len : Z) (m : amqp_channel_flow_ok_t) : C ebuf unit :=
  let bit_buffer := 0 in
  let bit_buffer := set_bit bit_buffer (channel_flow_ok_active m) 0 in
  do* require_true AMQP_STATUS_BAD_AMQP_DATA (amqp_encode_8 encoded_len bit_buffer) in
  ret tt.

Definition encode_channel_close (encoded_len : Z) (m : amqp_channel_close_t) : C ebuf unit :=
  do* require_true AMQP_STATUS_BAD_AMQP_DATA (amqp_encode_16 encoded_len (channel_close_reply_code m)) in
  do* encode_shortstr encoded_len (channel_close_reply_text m) in
  do* require_true AMQP_STATUS_BAD_AMQP_DATA (amqp_encode_16 encoded_len (channel_close_class_id m)) in
  do* require_true AMQP_STATUS_BAD_AMQP_DATA (amqp_encode_16 encoded_len (channel_close_method_id m)) in
  ret tt.

Definition encode_access_request (encoded_len : Z) (m : amqp_access_request_t) : C ebuf unit :=
  do* encode_shortstr encoded_len (access_request_realm m) in
  let bit_buffer := 0 in
  let bit_buffer := set_bit bit_buffer (access_request_exclusive m) 0 in
  let bit_buffer := set_bit bit_buffer (access_request_passive m) 1 in
  let bit_buffer := set_bit bit_buffer (access_request_active m) 2 in
  let bit_buffer := set_bit bit_buffer (access_request_write m) 3 in
  let bit_buffer := set_bit bit_buffer (access_request_read m) 4 in
  do* require_true AMQP_STATUS_BAD_AMQP_DATA (amqp_encode_8 encoded_len bit_buffer) in
  ret tt.

Definition encode_access_request_ok (encoded_len : Z) (m : amqp_access_request_ok_t) : C ebuf unit :=
  do* require_true AMQP_STATUS_BAD_AMQP_DATA (amqp_encode_16 encoded_len (access_request_ok_ticket m)) in
  ret tt.

Definition encode_exchange_declare (encoded_len : Z) (m : amqp_exchange_declare_t) : C ebuf unit :=
  do* require_true AMQP_STATUS_BAD_AMQP_DATA (amqp_encode_16 encoded_len (exchange_declare_ticket m)) in
  do* encode_shortstr encoded_len (exchange_declare_exchange m) in
  do* encode_shortstr encoded_len (exchange_declare_type m) in
  let bit_buffer := 0 in
  let bit_buffer := set_bit bit_buffer (exchange_declare_passive m) 0 in
  let bit_buffer := set_bit bit_buffer (exchange_declare_durable m) 1 in
  let bit_buffer := set_bit bit_buffer (exchange_declare_auto_delete m) 2 in
  let bit_buffer := set_bit bit_buffer (exchange_declare_internal m) 3 in
  let bit_buffer := set_bit bit_buffer (exchange_declare_nowait m) 4 in
  do* require_true AMQP_STATUS_BAD_AMQP_DATA (amqp_encode_8 encoded_len bit_buffer) in
  do* amqp_encode_table encoded_len (exchange_declare_arguments m) in
  ret tt.

Definition encode_exchange_delete (encoded_len : Z) (m : amqp_exchange_delete_t) : C ebuf unit :=
  do* require_true AMQP_STATUS_BAD_AMQP_DATA (amqp_encode_16 encoded_len (exchange_delete_ticket m)) in
  do* encode_shortstr encoded_len (exchange_delete_exchange m) in
  let bit_buffer := 0 in
  let bit_buffer := set_bit bit_buffer (exchange_delete_if_unused m) 0 in
  let bit_buffer := set_bit bit_buffer (exchange_delete_nowait m) 1 in
  do* require_true AMQP_STATUS_BAD_AMQP_DATA (amqp_encode_8 encoded_len bit_buffer) in
  ret tt.

Definition encode_exchange_bind (encoded_len : Z) (m : amqp_exchange_bind_t) : C ebuf unit :=
  do* require_true AMQP_STATUS_BAD_AMQP_DATA (amqp_encode_16 encoded_len (exchange_bind_ticket m)) in
  do* encode_shortstr encoded_len (exchange_bind_destination m) in
  do* encode_shortstr encoded_len (exchange_bind_source m) in
  do* encode_shortstr encoded_len (exchange_bind_routing_key m) in
  let bit_buffer := 0 in
  let bit_buffer := set_bit bit_buffer (exchange_bind_nowait m) 0 in
  do* require_true AMQP_STATUS_BAD_AMQP_DATA (amqp_encode_8 encoded_len bit_buffer) in
  do* amqp_encode_table encoded_len (exchange_bind_arguments m) in
  ret tt.

Definition encode_exchange_unbind (encoded_len : Z) (m : amqp_exchange_unbind_t) : C ebuf unit :=
  do* require_true AMQP_STATUS_BAD_AMQP_DATA (amqp_encode_16 encoded_len (exchange_unbind_ticket m)) in
  do* encode_shortstr encoded_len (exchange_unbind_destination m) in
  do* encode_shortstr encoded_len (exchange_unbind_source m) in
  do* encode_shortstr encoded_len (exchange_unbind_routing_key m) in
  let bit_buffer := 0 in
  let bit_buffer := set_bit bit_buffer (exchange_unbind_nowait m) 0 in
  do* require_true AMQP_STATUS_BAD_AMQP_DATA (amqp_encode_8 encoded_len bit_buffer) in
  do* amqp_encode_table encoded_len (exchange_unbind_arguments m) in
  ret tt.

Definition encode_queue_declare (encoded_len : Z) (m : amqp_queue_declare_t) : C ebuf unit :=
  do* require_true AMQP_STATUS_BAD_AMQP_DATA (amqp_encode_16 encoded_len (queue_declare_ticket m)) in
  do* encode_shortstr encoded_len (queue_declare_queue m) in
  let bit_buffer := 0 in
  let bit_buffer := set_bit bit_buffer (queue_declare_passive m) 0 in
  let bit_buffer := set_bit bit_buffer (queue_declare_durable m) 1 in
  let bit_buffer := set_bit bit_buffer (queue_declare_exclusive m) 2 in
  let bit_buffer := set_bit bit_buffer (queue_declare_auto_delete m) 3 in
  let bit_buffer := set_bit bit_buffer (queue_declare_nowait m) 4 in
  do* require_true AMQP_STATUS_BAD_AMQP_DATA (amqp_encode_8 encoded_len bit_buffer) in
  do* amqp_encode_table encoded_len (queue_declare_arguments m) in
  ret tt.

Definition encode_queue_declare_ok (encoded_len : Z) (m : amqp_queue_declare_ok_t) : C ebuf unit :=
  do* encode_shortstr encoded_len (queue_declare_ok_queue m) in
  do* require_true AMQP_STATUS_BAD_AMQP_DATA (amqp_encode_32 encoded_len (queue_declare_ok_message_count m)) in
  do* require_true AMQP_STATUS_BAD_AMQP_DATA (amqp_encode_32 encoded_len (queue_declare_ok_consumer_count m)) in
  ret tt.

Definition encode_queue_bind (encoded_len : Z) (m : amqp_queue_bind_t) : C ebuf unit :=
  do* require_true AMQP_STATUS_BAD_AMQP_DATA (amqp_encode_16 encoded_len (queue_bind_ticket m)) in
  do* encode_shortstr encoded_len (queue_bind_queue m) in
  do* encode_shortstr encoded_len (queue_bind_exchange m) in
  do* encode_shortstr encoded_len (queue_bind_routing_key m) in
  let bit_buffer := 0 in
  let bit_buffer := set_bit bit_buffer (queue_bind_nowait m) 0 in
  do* require_true AMQP_STATUS_BAD_AMQP_DATA (amqp_encode_8 encoded_len bit_buffer) in
  do* amqp_encode_table encoded_len (queue_bind_arguments m) in
  ret tt.

Definition encode_queue_purge (encoded_len : Z) (m : amqp_queue_purge_t) : C ebuf unit :=
  do* require_true AMQP_STATUS_BAD_AMQP_DATA (amqp_encode_16 encoded_len (queue_purge_ticket m)) in
  do* encode_shortstr encoded_len (queue_purge_queue m) in
  let bit_buffer := 0 in
  let bit_buffer := set_bit bit_buffer (queue_purge_nowait m) 0 in
  do* require_true AMQP_STATUS_BAD_AMQP_DATA (amqp_encode_8 encoded_len bit_buffer) in
  ret tt.

Definition encode_queue_purge_ok (encoded_len : Z) (m : amqp_queue_purge_ok_t) : C ebuf unit :=
  do* require_true AMQP_STATUS_BAD_AMQP_DATA (amqp_encode_32 encoded_len (queue_purge_ok_message_count m)) in
  ret tt.

Definition encode_queue_delete (encoded_len : Z) (m : amqp_queue_delete_t) : C ebuf unit :=
  do* require_true AMQP_STATUS_BAD_AMQP_DATA (amqp_encode_16 encoded_len (queue_delete_ticket m)) in
  do* encode_shortstr encoded_len (queue_delete_queue m) in
  let bit_buffer := 0 in
  let bit_buffer := set_bit bit_buffer (queue_delete_if_unused m) 0 in
  let bit_buffer := set_bit bit_buffer (queue_delete_if_empty m) 1 in
  let bit_buffer := set_bit bit_buffer (queue_delete_nowait m) 2 in
  do* require_true AMQP_STATUS_BAD_AMQP_DATA (amqp_encode_8 encoded_len bit_buffer) in
  ret tt.

Definition encode_queue_delete_ok (encoded_len : Z) (m : amqp_queue_delete_ok_t) : C ebuf unit :=
  do* require_true AMQP_STATUS_BAD_AMQP_DATA (amqp_encode_32 encoded_len (queue_delete_ok_message_count m)) in
  ret tt.

Definition encode_queue_unbind (encoded_len : Z) (m : amqp_queue_unbind_t) : C ebuf unit :=
  do* require_true AMQP_STATUS_BAD_AMQP_DATA (amqp_encode_16 encoded_len (queue_unbind_ticket m)) in
  do* encode_shortstr encoded_len (queue_unbind_queue m) in
  do* encode_shortstr encoded_len (queue_unbind_exchange m) in
  do* encode_shortstr encoded_len (queue_unbind_routing_key m) in
  do* amqp_encode_table encoded_len (queue_unbind_arguments m) in
  ret tt.

Definition encode_basic_qos (encoded_len : Z) (m : amqp_basic_qos_t) : C ebuf unit :=
  do* require_true AMQP_STATUS_BAD_AMQP_DATA (amqp_encode_32 encoded_len (basic_qos_prefetch_size m)) in
  do* require_true AMQP_STATUS_BAD_AMQP_DATA (amqp_encode_16 encoded_len (basic_qos_prefetch_count m)) in
  let bit_buffer := 0 in
  let bit_buffer := set_bit bit_buffer (basic_qos_global m) 0 in
  do* require_true AMQP_STATUS_BAD_AMQP_DATA (amqp_encode_8 encoded_len bit_buffer) in
  ret tt.

Definition encode_basic_consume (encoded_len : Z) (m : amqp_basic_consume_t) : C ebuf unit :=
  do* require_true AMQP_STATUS_BAD_AMQP_DATA (amqp_encode_16 encoded_len (basic_consume_ticket m)) in
  do* encode_shortstr encoded_len (basic_consume_queue m) in
  do* encode_shortstr encoded_len (basic_consume_consumer_tag m) in
  let bit_buffer := 0 in
  let bit_buffer := set_bit bit_buffer (basic_consume_no_local m) 0 in
  let bit_buffer := set_bit bit_buffer (basic_consume_no_ack m) 1 in
  let bit_buffer := set_bit bit_buffer (basic_consume_exclusive m) 2 in
  let bit_buffer := set_bit bit_buffer (basic_consume_nowait m) 3 in
  do* require_true AMQP_STATUS_BAD_AMQP_DATA (amqp_encode_8 encoded_len bit_buffer) in
  do* amqp_encode_table encoded_len (basic_consume_arguments m) in
  ret tt.

Definition encode_basic_consume_ok (encoded_len : Z) (m : amqp_basic_consume_ok_t) : C ebuf unit :=
  do* encode_shortstr encoded_len (basic_consume_ok_consumer_tag m) in
  ret tt.

Definition encode_basic_cancel (encoded_len : Z) (m : amqp_basic_cancel_t) : C ebuf unit :=
  do* encode_shortstr encoded_len (basic_cancel_consumer_tag m) in
  let bit_buffer := 0 in
  let bit_buffer := set_bit bit_buffer (basic_cancel_nowait m) 0 in
  do* require_true AMQP_STATUS_BAD_AMQP_DATA (amqp_encode_8 encoded_len bit_buffer) in
  ret tt.

Definition encode_basic_cancel_ok (encoded_len : Z) (m : amqp_basic_cancel_ok_t) : C ebuf unit :=
  do* encode_shortstr encoded_len (basic_cancel_ok_consumer_tag m) in
  ret tt.

Definition encode_basic_publish (encoded_len : Z) (m : amqp_basic_publish_t) : C ebuf unit :=
  do* require_true AMQP_STATUS_BAD_AMQP_DATA (amqp_encode_16 encoded_len (basic_publish_ticket m)) in
  do* encode_shortstr encoded_len (basic_publish_exchange m) in
  do* encode_shortstr encoded_len (basic_publish_routing_key m) in
  let bit_buffer := 0 in
  let bit_buffer := set_bit bit_buffer (basic_publish_mandatory m) 0 in
  let bit_buffer := set_bit bit_buffer (basic_publish_immediate m) 1 in
  do* require_true AMQP_STATUS_BAD_AMQP_DATA (amqp_encode_8 encoded_len bit_buffer) in
  ret tt.

Definition encode_basic_return (encoded_len : Z) (m : amqp_basic_return_t) : C ebuf unit :=
  do* require_true AMQP_STATUS_BAD_AMQP_DATA (amqp_encode_16 encoded_len (basic_return_reply_code m)) in
  do* encode_shortstr encoded_len (basic_return_reply_text m) in
  do* encode_shortstr encoded_len (basic_return_exchange m) in
  do* encode_shortstr encoded_len (basic_return_routing_key m) in
  ret tt.

Definition encode_basic_deliver (encoded_len : Z) (m : amqp_basic_deliver_t) : C ebuf unit :=
  do* encode_shortstr encoded_len (basic_deliver_consumer_tag m) in
  do* require_true AMQP_STATUS_BAD_AMQP_DATA (amqp_encode_64 encoded_len (basic_deliver_delivery_tag m)) in
  let bit_buffer := 0 in
  let bit_buffer := set_bit bit_buffer (basic_deliver_redelivered m) 0 in
  do* require_true AMQP_STATUS_BAD_AMQP_DATA (amqp_encode_8 encoded_len bit_buffer) in
  do* encode_shortstr encoded_len (basic_deliver_exchange m) in
  do* encode_shortstr encoded_len (basic_deliver_routing_key m) in
  ret tt.

Definition encode_basic_get (encoded_len : Z) (m : amqp_basic_get_t) : C ebuf unit :=
  do* require_true AMQP_STATUS_BAD_AMQP_DATA (amqp_encode_16 encoded_len (basic_get_ticket m)) in
  do* encode_shortstr encoded_len (basic_get_queue m) in
  let bit_buffer := 0 in
  let bit_buffer := set_bit bit_buffer (basic_get_no_ack m) 0 in
  do* require_true AMQP_STATUS_BAD_AMQP_DATA (amqp_encode_8 encoded_len bit_buffer) in
  ret tt.

Definition encode_basic_get_ok (encoded_len : Z) (m : amqp_basic_get_ok_t) : C ebuf unit :=
  do* require_true AMQP_STATUS_BAD_AMQP_DATA (amqp_encode_64 encoded_len (basic_get_ok_delivery_tag m)) in
  let bit_buffer := 0 in
  let bit_buffer := set_bit bit_buffer (basic_get_ok_redelivered m) 0 in
  do* require_true AMQP_STATUS_BAD_AMQP_DATA (amqp_encode_8 encoded_len bit_buffer) in
  do* encode_shortstr encoded_len (basic_get_ok_exchange m) in
  do* encode_shortstr encoded_len (basic_get_ok_routing_key m) in
  do* require_true AMQP_STATUS_BAD_AMQP_DATA (amqp_encode_32 encoded_len (basic_get_ok_message_count m)) in
  ret tt.

Definition encode_basic_get_empty (encoded_len : Z) (m : amqp_basic_get_empty_t) : C ebuf unit :=
  do* encode_shortstr encoded_len (basic_get_empty_cluster_id m) in
  ret tt.

Definition encode_basic_ack (encoded_len : Z) (m : amqp_basic_ack_t) : C ebuf unit :=
  do* require_true AMQP_STATUS_BAD_AMQP_DATA (amqp_encode_64 encoded_len (basic_ack_delivery_tag m)) in
  let bit_buffer := 0 in
  let bit_buffer := set_bit bit_buffer (basic_ack_multiple m) 0 in
  do* require_true AMQP_STATUS_BAD_AMQP_DATA (amqp_encode_8 encoded_len bit_buffer) in
  ret tt.

Definition encode_basic_reject (encoded_len : Z) (m : amqp_basic_reject_t) : C ebuf unit :=
  do* require_true AMQP_STATUS_BAD_AMQP_DATA (amqp_encode_64 encoded_len (basic_reject_delivery_tag m)) in
  let bit_buffer := 0 in
  let bit_buffer := set_bit bit_buffer (basic_reject_requeue m) 0 in
  do* require_true AMQP_STATUS_BAD_AMQP_DATA (amqp_encode_8 encoded_len bit_buffer) in
  ret tt.

Definition encode_basic_recover_async (encoded_len : Z) (m : amqp_basic_recover_async_t) : C ebuf unit :=
  let bit_buffer := 0 in
  let bit_buffer := set_bit bit_buffer (basic_recover_async_requeue m) 0 in
  do* require_true AMQP_STATUS_BAD_AMQP_DATA (amqp_encode_8 encoded_len bit_buffer) in
  ret tt.

Definition encode_basic_recover (encoded_len : Z) (m : amqp_basic_recover_t) : C ebuf unit :=
  let bit_buffer := 0 in
  let bit_buffer := set_bit bit_buffer (basic_recover_requeue m) 0 in
  do* require_true AMQP_STATUS_BAD_AMQP_DATA (amqp_encode_8 encoded_len bit_buffer) in
  ret tt.

Definition encode_basic_nack (encoded_len : Z) (m : amqp_basic_nack_t) : C ebuf unit :=
  do* require_true AMQP_STATUS_BAD_AMQP_DATA (amqp_encode_64 encoded_len (basic_nack_delivery_tag m)) in
  let bit_buffer := 0 in
  let bit_buffer := set_bit bit_buffer (basic_nack_multiple m) 0 in
  let bit_buffer := set_bit bit_buffer (basic_nack_requeue m) 1 in
  do* require_true AMQP_STATUS_BAD_AMQP_DATA (amqp_encode_8 encoded_len bit_buffer) in
  ret tt.

Definition encode_confirm_select (encoded_len : Z) (m : amqp_confirm_select_t) : C ebuf unit :=
  let bit_buffer := 0 in
  let bit_buffer := set_bit bit_buffer (confirm_select_nowait m) 0 in
  do* require_true AMQP_STATUS_BAD_AMQP_DATA (amqp_encode_8 encoded_len bit_buffer) in
  ret tt.

(** The [case] of a method number: the cast of [decoded] to the case's structure is
    undefined for any other structure. *)
Definition encode_cases (encoded_len : Z) (decoded : amqp_decoded_t) : list (Z * C ebuf unit) :=
  [(AMQP_CONNECTION_START_METHOD,
     match decoded with M_CONNECTION_START m => encode_connection_start encoded_len m | _ => undefined end);
   (AMQP_CONNECTION_START_OK_METHOD,
     match decoded with M_CONNECTION_START_OK m => encode_connection_start_ok encoded_len m | _ => undefined end);
   (AMQP_CONNECTION_SECURE_METHOD,
     match decoded with M_CONNECTION_SECURE m => encode_connection_secure encoded_len m | _ => undefined end);
   (AMQP_CONNECTION_SECURE_OK_METHOD,
     match decoded with M_CONNECTION_SECURE_OK m => encode_connection_secure_ok encoded_len m | _ => undefined end);
   (AMQP_CONNECTION_TUNE_METHOD,
     match decoded with M_CONNECTION_TUNE m => encode_connection_tune encoded_len m | _ => undefined end);
   (AMQP_CONNECTION_TUNE_OK_METHOD,
     match decoded with M_CONNECTION_TUNE_OK m => encode_connection_tune_ok encoded_len m | _ => undefined end);
   (AMQP_CONNECTION_OPEN_METHOD,
     match decoded with M_CONNECTION_OPEN m => encode_connection_open encoded_len m | _ => undefined end);
   (AMQP_CONNECTION_OPEN_OK_METHOD,
     match decoded with M_CONNECTION_OPEN_OK m => encode_connection_open_ok encoded_len m | _ => undefined end);
   (AMQP_CONNECTION_CLOSE_METHOD,
     match decoded with M_CONNECTION_CLOSE m => encode_connection_close encoded_len m | _ => undefined end);
   (AMQP_CONNECTION_CLOSE_OK_METHOD, ret tt);
   (AMQP_CONNECTION_BLOCKED_METHOD,
     match decoded with M_CONNECTION_BLOCKED m => encode_connection_blocked encoded_len m | _ => undefined end);
   (AMQP_CONNECTION_UNBLOCKED_METHOD, ret tt);
   (AMQP_CONNECTION_UPDATE_SECRET_METHOD,
     match decoded with M_CONNECTION_UPDATE_SECRET m => encode_connection_update_secret encoded_len m | _ => undefined end);
   (AMQP_CONNECTION_UPDATE_SECRET_OK_METHOD, ret tt);
   (AMQP_CHANNEL_OPEN_METHOD,
     match decoded with M_CHANNEL_OPEN m => encode_channel_open encoded_len m | _ => undefined end);
   (AMQP_CHANNEL_OPEN_OK_METHOD,
     match decoded with M_CHANNEL_OPEN_OK m => encode_channel_open_ok encoded_len m | _ => undefined end);
   (AMQP_CHANNEL_FLOW_METHOD,
     match decoded with M_CHANNEL_FLOW m => encode_channel_flow encoded_len m | _ => undefined end);
   (AMQP_CHANNEL_FLOW_OK_METHOD,
     match decoded with M_CHANNEL_FLOW_OK m => encode_channel_flow_ok encoded_len m | _ => undefined end);
   (AMQP_CHANNEL_CLOSE_METHOD,
     match decoded with M_CHANNEL_CLOSE m => encode_channel_close encoded_len m | _ => undefined end);
   (AMQP_CHANNEL_CLOSE_OK_METHOD, ret tt);
   (AMQP_ACCESS_REQUEST_METHOD,
     match decoded with M_ACCESS_REQUEST m => encode_access_request encoded_len m | _ => undefined end);
   (AMQP_ACCESS_REQUEST_OK_METHOD,
     match decoded with M_ACCESS_REQUEST_OK m => encode_access_request_ok encoded_len m | _ => undefined end);
   (AMQP_EXCHANGE_DECLARE_METHOD,
     match decoded with M_EXCHANGE_DECLARE m => encode_exchange_declare encoded_len m | _ => undefined end);
   (AMQP_EXCHANGE_DECLARE_OK_METHOD, ret tt);
   (AMQP_EXCHANGE_DELETE_METHOD,
     match decoded with M_EXCHANGE_DELETE m => encode_exchange_delete encoded_len m | _ => undefined end);
   (AMQP_EXCHANGE_DELETE_OK_METHOD, ret tt);
   (AMQP_EXCHANGE_BIND_METHOD,
     match decoded with M_EXCHANGE_BIND m => encode_exchange_bind encoded_len m | _ => undefined end);
   (AMQP_EXCHANGE_BIND_OK_METHOD, ret tt);
   (AMQP_EXCHANGE_UNBIND_METHOD,
     match decoded with M_EXCHANGE_UNBIND m => encode_exchange_unbind encoded_len m | _ => undefined end);
   (AMQP_EXCHANGE_UNBIND_OK_METHOD, ret tt);
   (AMQP_QUEUE_DECLARE_METHOD,
     match decoded with M_QUEUE_DECLARE m => encode_queue_declare encoded_len m | _ => undefined end);
   (AMQP_QUEUE_DECLARE_OK_METHOD,
     match decoded with M_QUEUE_DECLARE_OK m => encode_queue_declare_ok encoded_len m | _ => undefined end);
   (AMQP_QUEUE_BIND_METHOD,
     match decoded with M_QUEUE_BIND m => encode_queue_bind encoded_len m | _ => undefined end);
   (AMQP_QUEUE_BIND_OK_METHOD, ret tt);
   (AMQP_QUEUE_PURGE_METHOD,
     match decoded with M_QUEUE_PURGE m => encode_queue_purge encoded_len m | _ => undefined end);
   (AMQP_QUEUE_PURGE_OK_METHOD,
     match decoded with M_QUEUE_PURGE_OK m => encode_queue_purge_ok encoded_len m | _ => undefined end);
   (AMQP_QUEUE_DELETE_METHOD,
     match decoded with M_QUEUE_DELETE m => encode_queue_delete encoded_len m | _ => undefined end);
   (AMQP_QUEUE_DELETE_OK_METHOD,
     match decoded with M_QUEUE_DELETE_OK m => encode_queue_delete_ok encoded_len m | _ => undefined end);
   (AMQP_QUEUE_UNBIND_METHOD,
     match decoded with M_QUEUE_UNBIND m => encode_queue_unbind encoded_len m | _ => undefined end);
   (AMQP_QUEUE_UNBIND_OK_METHOD, ret tt);
   (AMQP_BASIC_QOS_METHOD,
     match decoded with M_BASIC_QOS m => encode_basic_qos encoded_len m | _ => undefined end);
   (AMQP_BASIC_QOS_OK_METHOD, ret tt);
   (AMQP_BASIC_CONSUME_METHOD,
     match decoded with M_BASIC_CONSUME m => encode_basic_consume encoded_len m | _ => undefined end);
   (AMQP_BASIC_CONSUME_OK_METHOD,
     match decoded with M_BASIC_CONSUME_OK m => encode_basic_consume_ok encoded_len m | _ => undefined end);
   (AMQP_BASIC_CANCEL_METHOD,
     match decoded with M_BASIC_CANCEL m => encode_basic_cancel encoded_len m | _ => undefined end);
   (AMQP_BASIC_CANCEL_OK_METHOD,
     match decoded with M_BASIC_CANCEL_OK m => encode_basic_cancel_ok encoded_len m | _ => undefined end);
   (AMQP_BASIC_PUBLISH_METHOD,
     match decoded with M_BASIC_PUBLISH m => encode_basic_publish encoded_len m | _ => undefined end);
   (AMQP_BASIC_RETURN_METHOD,
     match decoded with M_BASIC_RETURN m => encode_basic_return encoded_len m | _ => undefined end);
   (AMQP_BASIC_DELIVER_METHOD,
     match decoded with M_BASIC_DELIVER m => encode_basic_deliver encoded_len m | _ => undefined end);
   (AMQP_BASIC_GET_METHOD,
     match decoded with M_BASIC_GET m => encode_basic_get encoded_len m | _ => undefined end);
   (AMQP_BASIC_GET_OK_METHOD,
     match decoded with M_BASIC_GET_OK m => encode_basic_get_ok encoded_len m | _ => undefined end);
   (AMQP_BASIC_GET_EMPTY_METHOD,
     match decoded with M_BASIC_GET_EMPTY m => encode_basic_get_empty encoded_len m | _ => undefined end);
   (AMQP_BASIC_ACK_METHOD,
     match decoded with M_BASIC_ACK m => encode_basic_ack encoded_len m | _ => undefined end);
   (AMQP_BASIC_REJECT_METHOD,
     match decoded with M_BASIC_REJECT m => encode_basic_reject encoded_len m | _ => undefined end);
   (AMQP_BASIC_RECOVER_ASYNC_METHOD,
     match decoded with M_BASIC_RECOVER_ASYNC m => encode_basic_recover_async encoded_len m | _ => undefined end);
   (AMQP_BASIC_RECOVER_METHOD,
     match decoded with M_BASIC_RECOVER m => encode_basic_recover encoded_len m | _ => undefined end);
   (AMQP_BASIC_RECOVER_OK_METHOD, ret tt);
   (AMQP_BASIC_NACK_METHOD,
     match decoded with M_BASIC_NACK m => encode_basic_nack encoded_len m | _ => undefined end);
   (AMQP_TX_SELECT_METHOD, ret tt);
   (AMQP_TX_SELECT_OK_METHOD, ret tt);
   (AMQP_TX_COMMIT_METHOD, ret tt);
   (AMQP_TX_COMMIT_OK_METHOD, ret tt);
   (AMQP_TX_ROLLBACK_METHOD, ret tt);
   (AMQP_TX_ROLLBACK_OK_METHOD, ret tt);
   (AMQP_CONFIRM_SELECT_METHOD,
     match decoded with M_CONFIRM_SELECT m => encode_confirm_select encoded_len m | _ => undefined end);
   (AMQP_CONFIRM_SELECT_OK_METHOD, ret tt)].

(** Run with a local offset that starts at 0; [e_mem] is the buffer. *)
Definition with_local_offset (m : C ebuf unit) : C (list Z) Z := fun mem =>
  match m {| e_mem := mem; e_off := 0 |} with
  | Ret _ s' => Ret (to_int (e_off s')) (e_mem s')
  | Err e s' => Err e (e_mem s')
  | UB => UB
  | NoFuel => NoFuel
  end.

(** Returns [(int)offset]. *)
Definition amqp_encode_method (methodNumber : Z) (decoded : amqp_decoded_t) (encoded_len : Z)
    : C (list Z) Z :=
  with_local_offset
    (switch methodNumber (encode_cases encoded_len decoded) (throw AMQP_STATUS_UNKNOWN_METHOD)).
End Encode.
