(* ===== verification/MethodWire.v ===== *)
(** * The wire format of methods

    The fields of every method in wire order, the byte string they stand for,
    and what decoding gives back. *)

From S2P Require Import Prelude Machine Status Alloc Codec Table TableEncode TableDecode Framing Methods.

(** One wire item of a method. *)
Inductive field : Type :=
| F8 (x : Z)
| F16 (x : Z)
| F32 (x : Z)
| F64 (x : Z)
| FShort (s : amqp_bytes_t)
| FLong (s : amqp_bytes_t)
| FTable (t : amqp_table_t)
| FBits (bs : list Z).

(** Consecutive flags share one byte, the first in the lowest bit. *)
Fixpoint flag_byte (bs : list Z) : Z :=
  match bs with
  | [] => 0
  | b :: bs' => (if b =? 0 then 0 else 1) + 2 * flag_byte bs'
  end.

Definition wire_field (f : field) : list Z :=
  match f with
  | F8 x => be_encode 1 x
  | F16 x => be_encode 2 x
  | F32 x => be_encode 4 x
  | F64 x => be_encode 8 x
  | FShort s => wire_shortstr s
  | FLong s => wire_longstr s
  | FTable t => wire_table t
  | FBits bs => be_encode 1 (flag_byte bs)
  end.

(** Fields the encoder accepts. *)
Definition encodable_field (f : field) : Prop :=
  match f with
  | F8 _ | F16 _ | F32 _ | F64 _ | FBits _ => True
  | FShort s => readable s /\ len s <= UINT8_MAX
  | FLong s => readable s /\ len s <= UINT32_MAX
  | FTable t => encodable_table t
  end.

(** Fields in the range of their C types. *)
Definition wf_field (f : field) : Prop :=
  match f with
  | F8 x => in_u 8 x
  | F16 x => in_u 16 x
  | F32 x => in_u 32 x
  | F64 x => in_u 64 x
  | FShort s => wf_bytes s /\ len s <= UINT8_MAX
  | FLong s => wf_bytes s
  | FTable t => wf_table t
  | FBits bs => Forall (in_s 32) bs
  end.

(** Tables the decoder reads back: short keys and limited nesting. *)
Definition decodable_field (f : field) : Prop :=
  match f with
  | FTable t => short_keys_table t /\ Z.of_nat (nesting_table t) <= TABLE_DEPTH_LIMIT
  | _ => True
  end.

Definition norm_bytes (s : amqp_bytes_t) : amqp_bytes_t := view (contents s).
Definition norm_flag (b : Z) : Z := if b =? 0 then 0 else 1.

Definition norm_field (f : field) : field :=
  match f with
  | FShort s => FShort (norm_bytes s)
  | FLong s => FLong (norm_bytes s)
  | FTable t => FTable (norm_table t)
  | FBits bs => FBits (map norm_flag bs)
  | f => f
  end.

(** ** The fields of each method *)

Definition method_fields (d : amqp_decoded_t) : list field :=
  match d with
  | M_CONNECTION_START m =>
      [F8 (connection_start_version_major m);
       F8 (connection_start_version_minor m);
       FTable (connection_start_server_properties m);
       FLong (connection_start_mechanisms m);
       FLong (connection_start_locales m)]
  | M_CONNECTION_START_OK m =>
      [FTable (connection_start_ok_client_properties m);
       FShort (connection_start_ok_mechanism m);
       FLong (connection_start_ok_response m);
       FShort (connection_start_ok_locale m)]
  | M_CONNECTION_SECURE m =>
      [FLong (connection_secure_challenge m)]
  | M_CONNECTION_SECURE_OK m =>
      [FLong (connection_secure_ok_response m)]
  | M_CONNECTION_TUNE m =>
      [F16 (connection_tune_channel_max m);
       F32 (connection_tune_frame_max m);
       F16 (connection_tune_heartbeat m)]
  | M_CONNECTION_TUNE_OK m =>
      [F16 (connection_tune_ok_channel_max m);
       F32 (connection_tune_ok_frame_max m);
       F16 (connection_tune_ok_heartbeat m)]
  | M_CONNECTION_OPEN m =>
      [FShort (connection_open_virtual_host m);
       FShort (connection_open_capabilities m);
       FBits [connection_open_insist m]]
  | M_CONNECTION_OPEN_OK m =>
      [FShort (connection_open_ok_known_hosts m)]
  | M_CONNECTION_CLOSE m =>
      [F16 (connection_close_reply_code m);
       FShort (connection_close_reply_text m);
       F16 (connection_close_class_id m);
       F16 (connection_close_method_id m)]
  | M_CONNECTION_CLOSE_OK => []
  | M_CONNECTION_BLOCKED m =>
      [FShort (connection_blocked_reason m)]
  | M_CONNECTION_UNBLOCKED => []
  | M_CONNECTION_UPDATE_SECRET m =>
      [FLong (connection_update_secret_new_secret m);
       FShort (connection_update_secret_reason m)]
  | M_CONNECTION_UPDATE_SECRET_OK => []
  | M_CHANNEL_OPEN m =>
      [FShort (channel_open_out_of_band m)]
  | M_CHANNEL_OPEN_OK m =>
      [FLong (channel_open_ok_channel_id m)]
  | M_CHANNEL_FLOW m =>
      [FBits [channel_flow_active m]]
  | M_CHANNEL_FLOW_OK m =>
      [FBits [channel_flow_ok_active m]]
  | M_CHANNEL_CLOSE m =>
      [F16 (channel_close_reply_code m);
       FShort (channel_close_reply_text m);
       F16 (channel_close_class_id m);
       F16 (channel_close_method_id m)]
  | M_CHANNEL_CLOSE_OK => []
  | M_ACCESS_REQUEST m =>
      [FShort (access_request_realm m);
       FBits [access_request_exclusive m; access_request_passive m; access_request_active m; access_request_write m; access_request_read m]]
  | M_ACCESS_REQUEST_OK m =>
      [F16 (access_request_ok_ticket m)]
  | M_EXCHANGE_DECLARE m =>
      [F16 (exchange_declare_ticket m);
       FShort (exchange_declare_exchange m);
       FShort (exchange_declare_type m);
       FBits [exchange_declare_passive m; exchange_declare_durable m; exchange_declare_auto_delete m; exchange_declare_internal m; exchange_declare_nowait m];
       FTable (exchange_declare_arguments m)]
  | M_EXCHANGE_DECLARE_OK => []
  | M_EXCHANGE_DELETE m =>
      [F16 (exchange_delete_ticket m);
       FShort (exchange_delete_exchange m);
       FBits [exchange_delete_if_unused m; exchange_delete_nowait m]]
  | M_EXCHANGE_DELETE_OK => []
  | M_EXCHANGE_BIND m =>
      [F16 (exchange_bind_ticket m);
       FShort (exchange_bind_destination m);
       FShort (exchange_bind_source m);
       FShort (exchange_bind_routing_key m);
       FBits [exchange_bind_nowait m];
       FTable (exchange_bind_arguments m)]
  | M_EXCHANGE_BIND_OK => []
  | M_EXCHANGE_UNBIND m =>
      [F16 (exchange_unbind_ticket m);
       FShort (exchange_unbind_destination m);
       FShort (exchange_unbind_source m);
       FShort (exchange_unbind_routing_key m);
       FBits [exchange_unbind_nowait m];
       FTable (exchange_unbind_arguments m)]
  | M_EXCHANGE_UNBIND_OK => []
  | M_QUEUE_DECLARE m =>
      [F16 (queue_declare_ticket m);
       FShort (queue_declare_queue m);
       FBits [queue_declare_passive m; queue_declare_durable m; queue_declare_exclusive m; queue_declare_auto_delete m; queue_declare_nowait m];
       FTable (queue_declare_arguments m)]
  | M_QUEUE_DECLARE_OK m =>
      [FShort (queue_declare_ok_queue m);
       F32 (queue_declare_ok_message_count m);
       F32 (queue_declare_ok_consumer_count m)]
  | M_QUEUE_BIND m =>
      [F16 (queue_bind_ticket m);
       FShort (queue_bind_queue m);
       FShort (queue_bind_exchange m);
       FShort (queue_bind_routing_key m);
       FBits [queue_bind_nowait m];
       FTable (queue_bind_arguments m)]
  | M_QUEUE_BIND_OK => []
  | M_QUEUE_PURGE m =>
      [F16 (queue_purge_ticket m);
       FShort (queue_purge_queue m);
       FBits [queue_purge_nowait m]]
  | M_QUEUE_PURGE_OK m =>
      [F32 (queue_purge_ok_message_count m)]
  | M_QUEUE_DELETE m =>
      [F16 (queue_delete_ticket m);
       FShort (queue_delete_queue m);
       FBits [queue_delete_if_unused m; queue_delete_if_empty m; queue_delete_nowait m]]
  | M_QUEUE_DELETE_OK m =>
      [F32 (queue_delete_ok_message_count m)]
  | M_QUEUE_UNBIND m =>
      [F16 (queue_unbind_ticket m);
       FShort (queue_unbind_queue m);
       FShort (queue_unbind_exchange m);
       FShort (queue_unbind_routing_key m);
       FTable (queue_unbind_arguments m)]
  | M_QUEUE_UNBIND_OK => []
  | M_BASIC_QOS m =>
      [F32 (basic_qos_prefetch_size m);
       F16 (basic_qos_prefetch_count m);
       FBits [basic_qos_global m]]
  | M_BASIC_QOS_OK => []
  | M_BASIC_CONSUME m =>
      [F16 (basic_consume_ticket m);
       FShort (basic_consume_queue m);
       FShort (basic_consume_consumer_tag m);
       FBits [basic_consume_no_local m; basic_consume_no_ack m; basic_consume_exclusive m; basic_consume_nowait m];
       FTable (basic_consume_arguments m)]
  | M_BASIC_CONSUME_OK m =>
      [FShort (basic_consume_ok_consumer_tag m)]
  | M_BASIC_CANCEL m =>
      [FShort (basic_cancel_consumer_tag m);
       FBits [basic_cancel_nowait m]]
  | M_BASIC_CANCEL_OK m =>
      [FShort (basic_cancel_ok_consumer_tag m)]
  | M_BASIC_PUBLISH m =>
      [F16 (basic_publish_ticket m);
       FShort (basic_publish_exchange m);
       FShort (basic_publish_routing_key m);
       FBits [basic_publish_mandatory m; basic_publish_immediate m]]
  | M_BASIC_RETURN m =>
      [F16 (basic_return_reply_code m);
       FShort (basic_return_reply_text m);
       FShort (basic_return_exchange m);
       FShort (basic_return_routing_key m)]
  | M_BASIC_DELIVER m =>
      [FShort (basic_deliver_consumer_tag m);
       F64 (basic_deliver_delivery_tag m);
       FBits [basic_deliver_redelivered m];
       FShort (basic_deliver_exchange m);
       FShort (basic_deliver_routing_key m)]
  | M_BASIC_GET m =>
      [F16 (basic_get_ticket m);
       FShort (basic_get_queue m);
       FBits [basic_get_no_ack m]]
  | M_BASIC_GET_OK m =>
      [F64 (basic_get_ok_delivery_tag m);
       FBits [basic_get_ok_redelivered m];
       FShort (basic_get_ok_exchange m);
       FShort (basic_get_ok_routing_key m);
       F32 (basic_get_ok_message_count m)]
  | M_BASIC_GET_EMPTY m =>
      [FShort (basic_get_empty_cluster_id m)]
  | M_BASIC_ACK m =>
      [F64 (basic_ack_delivery_tag m);
       FBits [basic_ack_multiple m]]
  | M_BASIC_REJECT m =>
      [F64 (basic_reject_delivery_tag m);
       FBits [basic_reject_requeue m]]
  | M_BASIC_RECOVER_ASYNC m =>
      [FBits [basic_recover_async_requeue m]]
  | M_BASIC_RECOVER m =>
      [FBits [basic_recover_requeue m]]
  | M_BASIC_RECOVER_OK => []
  | M_BASIC_NACK m =>
      [F64 (basic_nack_delivery_tag m);
       FBits [basic_nack_multiple m; basic_nack_requeue m]]
  | M_TX_SELECT => []
  | M_TX_SELECT_OK => []
  | M_TX_COMMIT => []
  | M_TX_COMMIT_OK => []
  | M_TX_ROLLBACK => []
  | M_TX_ROLLBACK_OK => []
  | M_CONFIRM_SELECT m =>
      [FBits [confirm_select_nowait m]]
  | M_CONFIRM_SELECT_OK => []
  end.

Definition wire_method (d : amqp_decoded_t) : list Z := concat (map wire_field (method_fields d)).

(** What decoding the wire form of a method gives back. *)
Definition norm_method (d : amqp_decoded_t) : amqp_decoded_t :=
  match d with
  | M_CONNECTION_START m =>
      M_CONNECTION_START {| connection_start_version_major := connection_start_version_major m;
        connection_start_version_minor := connection_start_version_minor m;
        connection_start_server_properties := norm_table (connection_start_server_properties m);
        connection_start_mechanisms := norm_bytes (connection_start_mechanisms m);
        connection_start_locales := norm_bytes (connection_start_locales m) |}
  | M_CONNECTION_START_OK m =>
      M_CONNECTION_START_OK {| connection_start_ok_client_properties := norm_table (connection_start_ok_client_properties m);
        connection_start_ok_mechanism := norm_bytes (connection_start_ok_mechanism m);
        connection_start_ok_response := norm_bytes (connection_start_ok_response m);
        connection_start_ok_locale := norm_bytes (connection_start_ok_locale m) |}
  | M_CONNECTION_SECURE m =>
      M_CONNECTION_SECURE {| connection_secure_challenge := norm_bytes (connection_secure_challenge m) |}
  | M_CONNECTION_SECURE_OK m =>
      M_CONNECTION_SECURE_OK {| connection_secure_ok_response := norm_bytes (connection_secure_ok_response m) |}
  | M_CONNECTION_TUNE m =>
      M_CONNECTION_TUNE {| connection_tune_channel_max := connection_tune_channel_max m;
        connection_tune_frame_max := connection_tune_frame_max m;
        connection_tune_heartbeat := connection_tune_heartbeat m |}
  | M_CONNECTION_TUNE_OK m =>
      M_CONNECTION_TUNE_OK {| connection_tune_ok_channel_max := connection_tune_ok_channel_max m;
        connection_tune_ok_frame_max := connection_tune_ok_frame_max m;
        connection_tune_ok_heartbeat := connection_tune_ok_heartbeat m |}
  | M_CONNECTION_OPEN m =>
      M_CONNECTION_OPEN {| connection_open_virtual_host := norm_bytes (connection_open_virtual_host m);
        connection_open_capabilities := norm_bytes (connection_open_capabilities m);
        connection_open_insist := norm_flag (connection_open_insist m) |}
  | M_CONNECTION_OPEN_OK m =>
      M_CONNECTION_OPEN_OK {| connection_open_ok_known_hosts := norm_bytes (connection_open_ok_known_hosts m) |}
  | M_CONNECTION_CLOSE m =>
      M_CONNECTION_CLOSE {| connection_close_reply_code := connection_close_reply_code m;
        connection_close_reply_text := norm_bytes (connection_close_reply_text m);
        connection_close_class_id := connection_close_class_id m;
        connection_close_method_id := connection_close_method_id m |}
  | M_CONNECTION_CLOSE_OK => M_CONNECTION_CLOSE_OK
  | M_CONNECTION_BLOCKED m =>
      M_CONNECTION_BLOCKED {| connection_blocked_reason := norm_bytes (connection_blocked_reason m) |}
  | M_CONNECTION_UNBLOCKED => M_CONNECTION_UNBLOCKED
  | M_CONNECTION_UPDATE_SECRET m =>
      M_CONNECTION_UPDATE_SECRET {| connection_update_secret_new_secret := norm_bytes (connection_update_secret_new_secret m);
        connection_update_secret_reason := norm_bytes (connection_update_secret_reason m) |}
  | M_CONNECTION_UPDATE_SECRET_OK => M_CONNECTION_UPDATE_SECRET_OK
  | M_CHANNEL_OPEN m =>
      M_CHANNEL_OPEN {| channel_open_out_of_band := norm_bytes (channel_open_out_of_band m) |}
  | M_CHANNEL_OPEN_OK m =>
      M_CHANNEL_OPEN_OK {| channel_open_ok_channel_id := norm_bytes (channel_open_ok_channel_id m) |}
  | M_CHANNEL_FLOW m =>
      M_CHANNEL_FLOW {| channel_flow_active := norm_flag (channel_flow_active m) |}
  | M_CHANNEL_FLOW_OK m =>
      M_CHANNEL_FLOW_OK {| channel_flow_ok_active := norm_flag (channel_flow_ok_active m) |}
  | M_CHANNEL_CLOSE m =>
      M_CHANNEL_CLOSE {| channel_close_reply_code := channel_close_reply_code m;
        channel_close_reply_text := norm_bytes (channel_close_reply_text m);
        channel_close_class_id := channel_close_class_id m;
        channel_close_method_id := channel_close_method_id m |}
  | M_CHANNEL_CLOSE_OK => M_CHANNEL_CLOSE_OK
  | M_ACCESS_REQUEST m =>
      M_ACCESS_REQUEST {| access_request_realm := norm_bytes (access_request_realm m);
        access_request_exclusive := norm_flag (access_request_exclusive m);
        access_request_passive := norm_flag (access_request_passive m);
        access_request_active := norm_flag (access_request_active m);
        access_request_write := norm_flag (access_request_write m);
        access_request_read := norm_flag (access_request_read m) |}
  | M_ACCESS_REQUEST_OK m =>
      M_ACCESS_REQUEST_OK {| access_request_ok_ticket := access_request_ok_ticket m |}
  | M_EXCHANGE_DECLARE m =>
      M_EXCHANGE_DECLARE {| exchange_declare_ticket := exchange_declare_ticket m;
        exchange_declare_exchange := norm_bytes (exchange_declare_exchange m);
        exchange_declare_type := norm_bytes (exchange_declare_type m);
        exchange_declare_passive := norm_flag (exchange_declare_passive m);
        exchange_declare_durable := norm_flag (exchange_declare_durable m);
        exchange_declare_auto_delete := norm_flag (exchange_declare_auto_delete m);
        exchange_declare_internal := norm_flag (exchange_declare_internal m);
        exchange_declare_nowait := norm_flag (exchange_declare_nowait m);
        exchange_declare_arguments := norm_table (exchange_declare_arguments m) |}
  | M_EXCHANGE_DECLARE_OK => M_EXCHANGE_DECLARE_OK
  | M_EXCHANGE_DELETE m =>
      M_EXCHANGE_DELETE {| exchange_delete_ticket := exchange_delete_ticket m;
        exchange_delete_exchange := norm_bytes (exchange_delete_exchange m);
        exchange_delete_if_unused := norm_flag (exchange_delete_if_unused m);
        exchange_delete_nowait := norm_flag (exchange_delete_nowait m) |}
  | M_EXCHANGE_DELETE_OK => M_EXCHANGE_DELETE_OK
  | M_EXCHANGE_BIND m =>
      M_EXCHANGE_BIND {| exchange_bind_ticket := exchange_bind_ticket m;
        exchange_bind_destination := norm_bytes (exchange_bind_destination m);
        exchange_bind_source := norm_bytes (exchange_bind_source m);
        exchange_bind_routing_key := norm_bytes (exchange_bind_routing_key m);
        exchange_bind_nowait := norm_flag (exchange_bind_nowait m);
        exchange_bind_arguments := norm_table (exchange_bind_arguments m) |}
  | M_EXCHANGE_BIND_OK => M_EXCHANGE_BIND_OK
  | M_EXCHANGE_UNBIND m =>
      M_EXCHANGE_UNBIND {| exchange_unbind_ticket := exchange_unbind_ticket m;
        exchange_unbind_destination := norm_bytes (exchange_unbind_destination m);
        exchange_unbind_source := norm_bytes (exchange_unbind_source m);
        exchange_unbind_routing_key := norm_bytes (exchange_unbind_routing_key m);
        exchange_unbind_nowait := norm_flag (exchange_unbind_nowait m);
        exchange_unbind_arguments := norm_table (exchange_unbind_arguments m) |}
  | M_EXCHANGE_UNBIND_OK => M_EXCHANGE_UNBIND_OK
  | M_QUEUE_DECLARE m =>
      M_QUEUE_DECLARE {| queue_declare_ticket := queue_declare_ticket m;
        queue_declare_queue := norm_bytes (queue_declare_queue m);
        queue_declare_passive := norm_flag (queue_declare_passive m);
        queue_declare_durable := norm_flag (queue_declare_durable m);
        queue_declare_exclusive := norm_flag (queue_declare_exclusive m);
        queue_declare_auto_delete := norm_flag (queue_declare_auto_delete m);
        queue_declare_nowait := norm_flag (queue_declare_nowait m);
        queue_declare_arguments := norm_table (queue_declare_arguments m) |}
  | M_QUEUE_DECLARE_OK m =>
      M_QUEUE_DECLARE_OK {| queue_declare_ok_queue := norm_bytes (queue_declare_ok_queue m);
        queue_declare_ok_message_count := queue_declare_ok_message_count m;
        queue_declare_ok_consumer_count := queue_declare_ok_consumer_count m |}
  | M_QUEUE_BIND m =>
      M_QUEUE_BIND {| queue_bind_ticket := queue_bind_ticket m;
        queue_bind_queue := norm_bytes (queue_bind_queue m);
        queue_bind_exchange := norm_bytes (queue_bind_exchange m);
        queue_bind_routing_key := norm_bytes (queue_bind_routing_key m);
        queue_bind_nowait := norm_flag (queue_bind_nowait m);
        queue_bind_arguments := norm_table (queue_bind_arguments m) |}
  | M_QUEUE_BIND_OK => M_QUEUE_BIND_OK
  | M_QUEUE_PURGE m =>
      M_QUEUE_PURGE {| queue_purge_ticket := queue_purge_ticket m;
        queue_purge_queue := norm_bytes (queue_purge_queue m);
        queue_purge_nowait := norm_flag (queue_purge_nowait m) |}
  | M_QUEUE_PURGE_OK m =>
      M_QUEUE_PURGE_OK {| queue_purge_ok_message_count := queue_purge_ok_message_count m |}
  | M_QUEUE_DELETE m =>
      M_QUEUE_DELETE {| queue_delete_ticket := queue_delete_ticket m;
        queue_delete_queue := norm_bytes (queue_delete_queue m);
        queue_delete_if_unused := norm_flag (queue_delete_if_unused m);
        queue_delete_if_empty := norm_flag (queue_delete_if_empty m);
        queue_delete_nowait := norm_flag (queue_delete_nowait m) |}
  | M_QUEUE_DELETE_OK m =>
      M_QUEUE_DELETE_OK {| queue_delete_ok_message_count := queue_delete_ok_message_count m |}
  | M_QUEUE_UNBIND m =>
      M_QUEUE_UNBIND {| queue_unbind_ticket := queue_unbind_ticket m;
        queue_unbind_queue := norm_bytes (queue_unbind_queue m);
        queue_unbind_exchange := norm_bytes (queue_unbind_exchange m);
        queue_unbind_routing_key := norm_bytes (queue_unbind_routing_key m);
        queue_unbind_arguments := norm_table (queue_unbind_arguments m) |}
  | M_QUEUE_UNBIND_OK => M_QUEUE_UNBIND_OK
  | M_BASIC_QOS m =>
      M_BASIC_QOS {| basic_qos_prefetch_size := basic_qos_prefetch_size m;
        basic_qos_prefetch_count := basic_qos_prefetch_count m;
        basic_qos_global := norm_flag (basic_qos_global m) |}
  | M_BASIC_QOS_OK => M_BASIC_QOS_OK
  | M_BASIC_CONSUME m =>
      M_BASIC_CONSUME {| basic_consume_ticket := basic_consume_ticket m;
        basic_consume_queue := norm_bytes (basic_consume_queue m);
        basic_consume_consumer_tag := norm_bytes (basic_consume_consumer_tag m);
        basic_consume_no_local := norm_flag (basic_consume_no_local m);
        basic_consume_no_ack := norm_flag (basic_consume_no_ack m);
        basic_consume_exclusive := norm_flag (basic_consume_exclusive m);
        basic_consume_nowait := norm_flag (basic_consume_nowait m);
        basic_consume_arguments := norm_table (basic_consume_arguments m) |}
  | M_BASIC_CONSUME_OK m =>
      M_BASIC_CONSUME_OK {| basic_consume_ok_consumer_tag := norm_bytes (basic_consume_ok_consumer_tag m) |}
  | M_BASIC_CANCEL m =>
      M_BASIC_CANCEL {| basic_cancel_consumer_tag := norm_bytes (basic_cancel_consumer_tag m);
        basic_cancel_nowait := norm_flag (basic_cancel_nowait m) |}
  | M_BASIC_CANCEL_OK m =>
      M_BASIC_CANCEL_OK {| basic_cancel_ok_consumer_tag := norm_bytes (basic_cancel_ok_consumer_tag m) |}
  | M_BASIC_PUBLISH m =>
      M_BASIC_PUBLISH {| basic_publish_ticket := basic_publish_ticket m;
        basic_publish_exchange := norm_bytes (basic_publish_exchange m);
        basic_publish_routing_key := norm_bytes (basic_publish_routing_key m);
        basic_publish_mandatory := norm_flag (basic_publish_mandatory m);
        basic_publish_immediate := norm_flag (basic_publish_immediate m) |}
  | M_BASIC_RETURN m =>
      M_BASIC_RETURN {| basic_return_reply_code := basic_return_reply_code m;
        basic_return_reply_text := norm_bytes (basic_return_reply_text m);
        basic_return_exchange := norm_bytes (basic_return_exchange m);
        basic_return_routing_key := norm_bytes (basic_return_routing_key m) |}
  | M_BASIC_DELIVER m =>
      M_BASIC_DELIVER {| basic_deliver_consumer_tag := norm_bytes (basic_deliver_consumer_tag m);
        basic_deliver_delivery_tag := basic_deliver_delivery_tag m;
        basic_deliver_redelivered := norm_flag (basic_deliver_redelivered m);
        basic_deliver_exchange := norm_bytes (basic_deliver_exchange m);
        basic_deliver_routing_key := norm_bytes (basic_deliver_routing_key m) |}
  | M_BASIC_GET m =>
      M_BASIC_GET {| basic_get_ticket := basic_get_ticket m;
        basic_get_queue := norm_bytes (basic_get_queue m);
        basic_get_no_ack := norm_flag (basic_get_no_ack m) |}
  | M_BASIC_GET_OK m =>
      M_BASIC_GET_OK {| basic_get_ok_delivery_tag := basic_get_ok_delivery_tag m;
        basic_get_ok_redelivered := norm_flag (basic_get_ok_redelivered m);
        basic_get_ok_exchange := norm_bytes (basic_get_ok_exchange m);
        basic_get_ok_routing_key := norm_bytes (basic_get_ok_routing_key m);
        basic_get_ok_message_count := basic_get_ok_message_count m |}
  | M_BASIC_GET_EMPTY m =>
      M_BASIC_GET_EMPTY {| basic_get_empty_cluster_id := norm_bytes (basic_get_empty_cluster_id m) |}
  | M_BASIC_ACK m =>
      M_BASIC_ACK {| basic_ack_delivery_tag := basic_ack_delivery_tag m;
        basic_ack_multiple := norm_flag (basic_ack_multiple m) |}
  | M_BASIC_REJECT m =>
      M_BASIC_REJECT {| basic_reject_delivery_tag := basic_reject_delivery_tag m;
        basic_reject_requeue := norm_flag (basic_reject_requeue m) |}
  | M_BASIC_RECOVER_ASYNC m =>
      M_BASIC_RECOVER_ASYNC {| basic_recover_async_requeue := norm_flag (basic_recover_async_requeue m) |}
  | M_BASIC_RECOVER m =>
      M_BASIC_RECOVER {| basic_recover_requeue := norm_flag (basic_recover_requeue m) |}
  | M_BASIC_RECOVER_OK => M_BASIC_RECOVER_OK
  | M_BASIC_NACK m =>
      M_BASIC_NACK {| basic_nack_delivery_tag := basic_nack_delivery_tag m;
        basic_nack_multiple := norm_flag (basic_nack_multiple m);
        basic_nack_requeue := norm_flag (basic_nack_requeue m) |}
  | M_TX_SELECT => M_TX_SELECT
  | M_TX_SELECT_OK => M_TX_SELECT_OK
  | M_TX_COMMIT => M_TX_COMMIT
  | M_TX_COMMIT_OK => M_TX_COMMIT_OK
  | M_TX_ROLLBACK => M_TX_ROLLBACK
  | M_TX_ROLLBACK_OK => M_TX_ROLLBACK_OK
  | M_CONFIRM_SELECT m =>
      M_CONFIRM_SELECT {| confirm_select_nowait := norm_flag (confirm_select_nowait m) |}
  | M_CONFIRM_SELECT_OK => M_CONFIRM_SELECT_OK
  end.

Lemma norm_method_fields d : method_fields (norm_method d) = map norm_field (method_fields d).
Proof. by destruct d. Qed.

Lemma norm_method_number d : method_number (norm_method d) = method_number d.
Proof. by destruct d. Qed.
