(* ===== verification/MethodTheory.v ===== *)
(** * Methods on the wire: encoder, decoder and their agreement

    For all methods at once: [amqp_encode_method] writes the wire form,
    [amqp_decode_method] is safe on arbitrary bytes, and reads back what was
    written. *)

From S2P Require Import Prelude Machine Status Alloc Codec Table TableEncode TableDecode Framing Methods MethodDecode MethodEncode MethodWire.

(** ** Flags *)

Lemma flag_byte_bound bs : 0 <= flag_byte bs < 2 ^ zlen bs.
Proof.
  induction bs as [|b bs IH]; [done|].
  replace (zlen (b :: bs)) with (1 + zlen bs) by (unfold zlen; simpl length; lia).
  rewrite Z.pow_add_r by (pose proof (zlen_nonneg bs); lia). cbn [flag_byte].
  destruct (b =? 0); lia.
Qed.

Lemma bit_range b i : in_s 32 (bit b i).
Proof. unfold bit, in_s. destruct (_ =? 0); lia. Qed.

Lemma flag_byte_small bs : zlen bs <= 8 -> in_u 8 (flag_byte bs).
Proof.
  intros Hl. pose proof (flag_byte_bound bs). pose proof (zlen_nonneg bs).
  assert (2 ^ zlen bs <= 2 ^ 8) by (apply Z.pow_le_mono_r; lia). unfold in_u. lia.
Qed.

(** ** Encoding *)

Section Encode.
Context {HH : Host} (elen : Z).

Lemma encode_status_bad : encode_status AMQP_STATUS_BAD_AMQP_DATA.
Proof. by right. Qed.

Lemma writes_shortstr s :
  readable s -> len s <= UINT8_MAX ->
  writes elen (encode_shortstr elen s) (wire_shortstr s) encode_status.
Proof.
  intros Hr Hl. unfold encode_shortstr. rewrite (proj2 (Z.ltb_ge _ _)) by done.
  apply writes_bind; [apply writes_8|apply writes_bytes; [done|]]; apply encode_status_bad.
Qed.

Lemma writes_longstr_method s :
  readable s -> len s <= UINT32_MAX ->
  writes elen (encode_longstr elen s) (wire_longstr s) encode_status.
Proof.
  intros Hr Hl. unfold encode_longstr. rewrite (proj2 (Z.ltb_ge _ _)) by done.
  apply writes_bind; [apply writes_32|apply writes_bytes; [done|]]; apply encode_status_bad.
Qed.

(** The code a method number selects. *)
Definition encode_one (d : amqp_decoded_t) : C ebuf unit :=
  switch (method_number d) (encode_cases elen d) (throw AMQP_STATUS_UNKNOWN_METHOD).

Ltac flags_eq := unfold set_bit, flag_byte; repeat case_match; reflexivity.

Ltac writes_item :=
  first
    [ apply writes_8; apply encode_status_bad
    | apply writes_16; apply encode_status_bad
    | apply writes_32; apply encode_status_bad
    | apply writes_64; apply encode_status_bad
    | apply writes_shortstr; assumption
    | apply writes_longstr_method; assumption
    | apply writes_wire_table; assumption
    | match goal with
      | |- writes _ (require_true _ (amqp_encode_8 _ ?x)) (be_encode 1 ?y) _ =>
          replace x with y by flags_eq; apply writes_8; apply encode_status_bad
      end ].

Lemma writes_method d :
  Forall encodable_field (method_fields d) ->
  writes elen (encode_one d) (wire_method d) encode_status.
Proof.
  intros Hf. unfold wire_method.
  destruct d; cbn [method_fields] in Hf; repeat (apply Forall_cons in Hf as [? Hf]);
    cbn [encodable_field] in *; destruct_and?; cbn [method_fields map concat wire_field];
    unfold encode_one, encode_cases; eval_method_switch;
    try match goal with |- writes _ (?f _ ?m) _ _ => unfold f; cbv zeta end;
    repeat (apply writes_bind; [writes_item|]); apply writes_ret.
Qed.
End Encode.
