(* ===== verification/MethodSafety.v ===== *)
(** * Decoding methods: safety on arbitrary bytes and agreement with the encoder *)

From S2P Require Import Prelude Machine Status Alloc Codec Table TableEncode TableDecode Framing Methods MethodDecode MethodEncode MethodWire MethodTheory.

Section Decode.
Context {HH : Host} {St : Type} {HA : Allocator St} {HL : AllocatorLaws St}.
Context (encoded : amqp_bytes_t) (Hread : readable encoded) (Hsmall : len encoded <= 2 ^ 30).

(** Allocating the structure takes at most one block of the pool. *)
Lemma dspec_struct {A} R (D : Z -> Prop) sizeof (body : C (dst St) A) o Q :
  0 < sizeof <= 4096 -> (R = false -> D AMQP_STATUS_NO_MEMORY) -> o <= len encoded ->
  dspec (len encoded) R D body o Q ->
  dspec_g (len encoded + 1) 1 R D (do* alloc_struct sizeof in body) o Q.
Proof.
  intros Hsz HD Hle Hbody s Ho Hi Hr Hroom. unfold has_room in Hroom.
  destruct Hread as [Hl _]. apply wp_bind. unfold alloc_struct. apply wp_bind, wp_lift_alloc.
  wp_use (pool_alloc_law sizeof); [done|unfold PTRDIFF_MAX; lia|lia| |done].
  intros r s1 (Hi1 & Hl1 & Hroom1 & Hrel & Hz).
  assert (Hr1 : reliable_if R s1) by (intros HR; by apply Hrel, Hr).
  destruct r as [p|].
  - apply wp_ret. wp_use (Hbody {| d_off := d_off s; d_alloc := s1 |});
      [done..|unfold has_room; simpl; lia| |].
    + intros a s2 (HQ & [Hi2 Hl2] & Hr2 & Hsp). unfold spends in *. simpl in *.
      split_and!; [done| |done|lia]. split; [done|]. auto.
    + intros e s2 (HDe & [Hi2 Hl2] & Hr2). simpl in *. split_and!; [done| |done].
      split; [done|]. auto.
  - apply wp_throw. split_and!; [|done|done]. destruct R; [|by apply HD].
    destruct Hrel as [_ Hsome]; [by apply Hr|].
    destruct Hsome; [unfold PTRDIFF_MAX; lia|done].
Qed.

(** *** Reading back what was written, one field at a time *)

Lemma decodes_int {A} bits n (m : C (dst St) Z) v (f : Z -> C (dst St) A) w a :
  decodes encoded m (be_encode n v) (wrap bits v) -> in_u bits v ->
  decodes encoded (f v) w a -> decodes encoded (let* x := m in f x) (be_encode n v ++ w) a.
Proof.
  intros Hm Hv Hf. eapply decodes_bind; [done|exact Hm|]. by rewrite wrap_small.
Qed.

Lemma decodes_str bits n (m : C (dst St) Z) s :
  decodes encoded m (be_encode n (len s)) (wrap bits (len s)) ->
  readable s -> in_u bits (len s) -> len s <= UINT32_MAX ->
  decodes encoded
    (let* k := m in require AMQP_STATUS_BAD_AMQP_DATA (amqp_decode_bytes encoded k))
    (be_encode n (len s) ++ contents s) (norm_bytes s).
Proof.
  intros Hm Hr Hb Hl. eapply decodes_bind; [done|exact Hm|]. rewrite wrap_small by done.
  rewrite <- (zlen_contents s) by done. apply decodes_bytes; [done|].
  rewrite zlen_contents by done. unfold UINT32_MAX in Hl. lia.
Qed.

Lemma decodes_short_field {A} s (f : amqp_bytes_t -> C (dst St) A) w a :
  wf_bytes s /\ len s <= UINT8_MAX -> decodes encoded (f (norm_bytes s)) w a ->
  decodes encoded (let* x := decode_shortstr encoded in f x) (wire_shortstr s ++ w) a.
Proof.
  intros [[Hr _] Hl] Hf. eapply decodes_bind; [done| |exact Hf]. destruct Hr as [? ?].
  unfold UINT8_MAX in Hl. apply (decodes_str 8); [by apply decodes_8|done|unfold in_u; lia|].
  unfold UINT32_MAX. lia.
Qed.

Lemma decodes_long_field {A} s (f : amqp_bytes_t -> C (dst St) A) w a :
  wf_bytes s -> decodes encoded (f (norm_bytes s)) w a ->
  decodes encoded (let* x := decode_longstr encoded in f x) (wire_longstr s ++ w) a.
Proof.
  intros [Hr _] Hf o Ho. revert o Ho.
  assert (Hl : forall o, holds_at encoded o (wire_longstr s ++ w) -> len s <= 2 ^ 30).
  { intros o (Ho & Hl & _). unfold wire_longstr in Hl. pose proof (zlen_nonneg w).
    rewrite !zlen_app, zlen_be_encode, zlen_contents in Hl by done. destruct Hread. lia. }
  intros o Ho. specialize (Hl o Ho). revert o Ho. fold (decodes (HL := HL) encoded
    (let* x := decode_longstr encoded in f x) (wire_longstr s ++ w) a).
  eapply decodes_bind; [done| |exact Hf]. destruct Hr as [? ?].
  apply (decodes_str 32); [by apply decodes_32|done|unfold in_u; lia|unfold UINT32_MAX; lia].
Qed.

Lemma decodes_table_field {A} t (f : amqp_table_t -> C (dst St) A) w a :
  wf_table t -> short_keys_table t /\ Z.of_nat (nesting_table t) <= TABLE_DEPTH_LIMIT ->
  decodes encoded (f (norm_table t)) w a ->
  decodes encoded (let* x := amqp_decode_table encoded in f x) (wire_table t ++ w) a.
Proof.
  intros Ht [Hk Hn] Hf. eapply decodes_bind; [done|by apply decodes_table|exact Hf].
Qed.

Lemma decodes_bits {A} bs (f : Z -> C (dst St) A) w a :
  zlen bs <= 8 -> decodes encoded (f (flag_byte bs)) w a ->
  decodes encoded (let* x := require AMQP_STATUS_BAD_AMQP_DATA (amqp_decode_8 encoded) in f x)
    (be_encode 1 (flag_byte bs) ++ w) a.
Proof.
  intros Hl Hf. apply (decodes_int 8); [by apply decodes_8|by apply flag_byte_small|done].
Qed.

(** The code a method number selects. *)
Definition decode_one (n : Z) : C (dst St) amqp_decoded_t :=
  switch n (decode_cases encoded) (throw AMQP_STATUS_UNKNOWN_METHOD).

(** The reads behind the allocation of the structure. *)
Definition reads {A} (m : C (dst St) A) (w : list Z) (a : A) : Prop :=
  exists sizeof body, m = (do* alloc_struct sizeof in body) /\ 0 < sizeof <= 4096 /\
    decodes encoded body w a.

Ltac decodes_item :=
  first
    [ apply (decodes_int 8); [by apply decodes_8|assumption|]
    | apply (decodes_int 16); [by apply decodes_16|assumption|]
    | apply (decodes_int 32); [by apply decodes_32|assumption|]
    | apply (decodes_int 64); [by apply decodes_64|assumption|]
    | apply decodes_bits; [by vm_compute|]
    | apply decodes_short_field; [assumption|]
    | apply decodes_long_field; [assumption|]
    | apply decodes_table_field; [assumption..|] ].

Ltac flags_norm :=
  unfold norm_flag, bit; cbn [flag_byte];
  repeat match goal with
  | m : _ |- context [(?x ?m) =? 0] => is_var m; destruct (x m =? 0)
  end; reflexivity.

Lemma reads_method d :
  Forall wf_field (method_fields d) -> Forall decodable_field (method_fields d) ->
  reads (decode_one (method_number d)) (wire_method d) (norm_method d).
Proof.
  intros Hf Hd. unfold wire_method.
  destruct d; cbn [method_fields] in Hf, Hd; repeat (apply Forall_cons in Hf as [? Hf]);
    repeat (apply Forall_cons in Hd as [? Hd]); cbn [wf_field decodable_field] in *;
    cbn [method_fields map concat wire_field norm_method];
    unfold decode_one, decode_cases; eval_method_switch;
    (do 2 eexists; split; [reflexivity|]; split; [lia|]);
    repeat decodes_item; cbv zeta;
    match goal with |- decodes _ (ret ?x) _ ?y => replace y with x by flags_norm end;
    apply decodes_ret.
Qed.

(** *** Safety on arbitrary bytes *)

Section Safety.
Context (Hbytes : Forall is_byte (mem_of encoded)).

Lemma dsafe_short_field :
  dsafe encoded decode_status 0 (decode_shortstr encoded)
    (fun s => wf_bytes s /\ len s <= UINT8_MAX).
Proof.
  eapply dsafe_bind_0; [|apply dsafe_8; [done|by left|done]|]; [lia|]. unfold in_u. intros n Hn.
  eapply dsafe_weaken; [apply dsafe_bytes; [done|by left|lia|done]|done|].
  intros b (Hl & ? & ?). split; [done|]. unfold UINT8_MAX. lia.
Qed.

Lemma dsafe_long_field :
  dsafe encoded decode_status 0 (decode_longstr encoded) wf_bytes.
Proof.
  eapply dsafe_bind_0; [|apply dsafe_32; [done|by left|done]|]; [lia|]. unfold in_u. intros n Hn.
  apply dsafe_str; [done|by left|done|lia].
Qed.

(** A case of the [switch]: allocate, read the fields, return the structure of
    that method with every field in range. *)
Definition case_safe (n : Z) (m : C (dst St) amqp_decoded_t) : Prop :=
  exists sizeof body, m = (do* alloc_struct sizeof in body) /\ 0 < sizeof <= 4096 /\
    dsafe encoded decode_status 0 body
      (fun d => method_number d = n /\ Forall wf_field (method_fields d)).

Ltac dsafe_item :=
  first
    [ eapply (dsafe_bind_0 _ _ 1); [lia|apply dsafe_8; [done|by left|done]|]
    | eapply (dsafe_bind_0 _ _ 2); [lia|apply dsafe_16; [done|by left|done]|]
    | eapply (dsafe_bind_0 _ _ 4); [lia|apply dsafe_32; [done|by left|done]|]
    | eapply (dsafe_bind_0 _ _ 8); [lia|apply dsafe_64; [done|by left|done]|]
    | eapply (dsafe_bind_0 _ _ 0); [lia|apply dsafe_short_field|]
    | eapply (dsafe_bind_0 _ _ 0); [lia|apply dsafe_long_field|]
    | eapply (dsafe_bind_0 _ _ 4); [lia|apply dsafe_table; done|] ]; intros ? ?.

Lemma cases_safe : Forall (fun c => case_safe c.1 c.2) (decode_cases encoded).
Proof.
  unfold decode_cases. repeat (apply Forall_cons; split); try apply Forall_nil_2;
    cbn [fst snd]; (do 2 eexists; split; [reflexivity|]; split; [lia|]);
    repeat dsafe_item; cbv zeta; apply dsafe_ret; (split; [reflexivity|]);
    cbn [method_fields]; repeat (apply Forall_cons; split); try apply Forall_nil_2;
    cbn [wf_field]; try assumption;
    repeat (apply Forall_cons; split); try apply Forall_nil_2; apply bit_range.
Qed.
End Safety.
End Decode.
