(* ===== verification/MethodTheorems.v ===== *)
(** * Theorems about methods *)

From S2P Require Import Prelude Machine Status Alloc Codec Table TableEncode TableDecode Framing Methods MethodDecode MethodEncode MethodWire MethodTheory MethodSafety Mem MemTheory PoolTheorems TableTheorems.

(** A [switch] takes the case of its number or the default. *)
Lemma switch_cases {A} (P : Z -> A -> Prop) n cases d :
  Forall (fun c => P c.1 c.2) cases -> P n d -> P n (switch n cases d).
Proof.
  intros Hc Hd. unfold switch. destruct (List.find _ _) as [[c x]|] eqn:E; [|done].
  apply List.find_some in E as [Hin Heq]. simpl in Heq. apply Z.eqb_eq in Heq as ->. rewrite Forall_forall in Hc.
  apply (Hc (n, x)). by apply list_elem_of_In.
Qed.

Section Theorems.
Context {HH : Host} {St : Type} {HA : Allocator St} {HL : AllocatorLaws St}.

Lemma wp_with_offset {A} (m : C (dst St) A) Q E s :
  wp m (fun a s' => Q a (d_alloc s')) (fun e s' => E e (d_alloc s')) {| d_off := 0; d_alloc := s |} ->
  wp (with_offset m) Q E s.
Proof. unfold wp, with_offset. by destruct (m _). Qed.

Lemma encode_method_fits d elen mem :
  Forall encodable_field (method_fields d) -> 0 <= elen <= zlen mem -> elen <= INT32_MAX ->
  zlen (wire_method d) <= elen ->
  amqp_encode_method (method_number d) d elen mem =
    Ret (zlen (wire_method d)) (overwrite 0 (wire_method d) mem).
Proof.
  intros Hf Hl Hm Hw. unfold INT32_MAX in Hm.
  assert (Hb : buffer_ok elen {| e_mem := mem; e_off := 0 |})
    by (unfold buffer_ok, PTRDIFF_MAX; simpl; lia).
  destruct (writes_method elen d Hf _ Hb) as [Hfit _]. simpl in *.
  unfold amqp_encode_method, with_local_offset. fold (encode_one elen d).
  rewrite Hfit by done. simpl. f_equal. pose proof (zlen_nonneg (wire_method d)).
  apply to_int_small; lia.
Qed.

Lemma encode_method_full d elen mem :
  Forall encodable_field (method_fields d) -> 0 <= elen <= zlen mem -> elen <= INT32_MAX ->
  elen < zlen (wire_method d) ->
  exists e mem', amqp_encode_method (method_number d) d elen mem = Err e mem' /\
    (e = AMQP_STATUS_TABLE_TOO_BIG \/ e = AMQP_STATUS_BAD_AMQP_DATA) /\ zlen mem' = zlen mem.
Proof.
  intros Hf Hl Hm Hw. unfold INT32_MAX in Hm.
  assert (Hb : buffer_ok elen {| e_mem := mem; e_off := 0 |})
    by (unfold buffer_ok, PTRDIFF_MAX; simpl; lia).
  destruct (writes_method elen d Hf _ Hb) as [_ Hno]. simpl in *.
  unfold amqp_encode_method, with_local_offset. fold (encode_one elen d).
  destruct Hno as (e & s' & -> & He & Hk & _); [done|]. by exists e, (e_mem s').
Qed.

(** Decoding any bytes: what is returned, and how much of the pool it costs. *)
Lemma wp_decode_method n encoded s :
  readable encoded -> len encoded <= 2 ^ 30 -> Forall is_byte (mem_of encoded) ->
  a_inv s -> len encoded + 1 < a_room s ->
  wp (amqp_decode_method n encoded)
    (fun d s' => method_number d = n /\ Forall wf_field (method_fields d) /\ a_inv s' /\
                 a_room s - len encoded - 1 <= a_room s')
    (fun e s' => (e = AMQP_STATUS_BAD_AMQP_DATA \/ e = AMQP_STATUS_NO_MEMORY \/
                  e = AMQP_STATUS_UNKNOWN_METHOD) /\ a_inv s') s.
Proof.
  intros Hr Hsm Hb Hi Hroom. apply wp_with_offset.
  apply (switch_cases (fun n m => wp m
    (fun d s' => method_number d = n /\ Forall wf_field (method_fields d) /\ a_inv (d_alloc s') /\
                 a_room s - len encoded - 1 <= a_room (d_alloc s'))
    (fun e s' => (e = AMQP_STATUS_BAD_AMQP_DATA \/ e = AMQP_STATUS_NO_MEMORY \/
                  e = AMQP_STATUS_UNKNOWN_METHOD) /\ a_inv (d_alloc s'))
    {| d_off := 0; d_alloc := s |})).
  - eapply Forall_impl; [by apply (cases_safe encoded)|].
    intros [c m] (sizeof & body & -> & Hsz & Hsafe). simpl. destruct Hr as [Hl Hp].
    wp_use (dspec_struct encoded (conj Hl Hp) false decode_status sizeof body 0);
      [done|by right|lia|apply Hsafe; lia|done|done|done|unfold has_room; simpl; lia| |].
    + intros d s' ([[? ?] Hoff] & [? _] & _ & Hsp). unfold spends in Hsp. simpl in *.
      split_and!; [done..|]. lia.
    + intros e s' ([? | ?] & [? _] & _); auto.
  - apply wp_throw. auto.
Qed.

(** Decoding bytes that start with the wire form of a method. *)
Lemma decode_method_reads d enc s :
  Forall wf_field (method_fields d) -> Forall decodable_field (method_fields d) ->
  readable enc -> len enc <= 2 ^ 30 -> holds_at enc 0 (wire_method d) ->
  a_inv s -> a_reliable s -> len enc + 1 < a_room s ->
  exists s', amqp_decode_method (method_number d) enc s = Ret (norm_method d) s' /\
    a_inv s' /\ a_reliable s' /\ a_room s - len enc - 1 <= a_room s'.
Proof.
  intros Hwf Hdec Hread Hsm Hat Hi Hrel Hroom. pose proof Hread as [Hl _].
  destruct (reads_method enc Hread Hsm d Hwf Hdec) as (sizeof & body & Heq & Hsz & Hbody).
  destruct (wp_run_ret (amqp_decode_method (method_number d) enc)
    (fun r s' => r = norm_method d /\ a_inv s' /\ a_reliable s' /\
                 a_room s - len enc - 1 <= a_room s') s) as (r & s' & Hrun & -> & ?).
  { apply wp_with_offset. fold (decode_one enc (method_number d)). rewrite Heq.
    wp_use (dspec_struct enc Hread true (fun _ => False) sizeof body 0);
      [done|done|simpl; lia|by apply Hbody|done|done|by intros _|unfold has_room; simpl; lia| |].
    - intros r s' ((? & Hoff) & [? _] & Hrel' & Hsp). unfold spends in Hsp. simpl in *.
      destruct Hat as (_ & Hfit & _). split_and!; [done..|by apply Hrel'|]. lia.
    - intros e s' (? & _). done. }
  exists s'. done.
Qed.

(** [amqp_encode_method] writes the wire form of the method at the start of
    the buffer and returns its length when it fits; otherwise it reports
    [AMQP_STATUS_TABLE_TOO_BIG] or [AMQP_STATUS_BAD_AMQP_DATA].  In neither
    case does it write past the buffer. *)
Theorem encode_method_writes_wire d elen mem :
  Forall encodable_field (method_fields d) -> 0 <= elen <= zlen mem -> elen <= INT32_MAX ->
  (zlen (wire_method d) <= elen ->
    amqp_encode_method (method_number d) d elen mem =
      Ret (zlen (wire_method d)) (overwrite 0 (wire_method d) mem)) /\
  (elen < zlen (wire_method d) ->
    exists e mem', amqp_encode_method (method_number d) d elen mem = Err e mem' /\
      (e = AMQP_STATUS_TABLE_TOO_BIG \/ e = AMQP_STATUS_BAD_AMQP_DATA) /\
      zlen mem' = zlen mem).
Proof.
  intros Hf Hl Hm. split; [by apply encode_method_fits|by apply encode_method_full].
Qed.

(** C14: on any readable bytes and for any method number, [amqp_decode_method]
    terminates without undefined behaviour: it returns the structure of exactly
    the method asked for, with every field in the range of its type and every
    string and table readable, or it fails with [AMQP_STATUS_BAD_AMQP_DATA],
    [AMQP_STATUS_NO_MEMORY] or, for a number that is no method,
    [AMQP_STATUS_UNKNOWN_METHOD]. *)
Theorem decode_method_safe n encoded s :
  readable encoded -> len encoded <= 2 ^ 30 -> Forall is_byte (mem_of encoded) ->
  a_inv s -> len encoded + 1 < a_room s ->
  wp (amqp_decode_method n encoded)
    (fun d s' => method_number d = n /\ Forall wf_field (method_fields d) /\ a_inv s')
    (fun e s' => (e = AMQP_STATUS_BAD_AMQP_DATA \/ e = AMQP_STATUS_NO_MEMORY \/
                  e = AMQP_STATUS_UNKNOWN_METHOD) /\ a_inv s') s.
Proof.
  intros Hr Hsm Hb Hi Hroom. wp_use wp_decode_method; [done..| |done].
  intros d s' (? & ? & ? & _). done.
Qed.

(** C13: decoding undoes encoding for every method: a method whose fields are in
    range, with short strings of at most 255 bytes and decodable tables, is
    read back from its encoding field by field (flags as 0 or 1), whatever
    follows in the buffer. *)
Theorem method_roundtrip d elen mem s :
  Forall wf_field (method_fields d) -> Forall encodable_field (method_fields d) ->
  Forall decodable_field (method_fields d) ->
  0 <= elen <= zlen mem -> elen <= 2 ^ 30 -> zlen (wire_method d) <= elen ->
  a_inv s -> a_reliable s -> elen + 1 < a_room s ->
  exists mem' d' s',
    amqp_encode_method (method_number d) d elen mem = Ret (zlen (wire_method d)) mem' /\
    amqp_decode_method (method_number d) {| len := elen; bytes := Some mem' |} s = Ret d' s' /\
    method_number d' = method_number d /\
    method_fields d' = map norm_field (method_fields d).
Proof.
  intros Hwf Henc Hdec Hl Hsm Hfit Hi Hrel Hroom. pose proof (zlen_nonneg (wire_method d)).
  set (mem' := overwrite 0 (wire_method d) mem).
  assert (Hlen : zlen mem' = zlen mem) by (apply zlen_overwrite; lia).
  set (enc := {| len := elen; bytes := Some mem' |}).
  destruct (decode_method_reads d enc s) as (s' & Hrun & _); try done.
  { unfold readable, enc, mem_of, PTRDIFF_MAX; simpl; lia. }
  { unfold holds_at, enc, mem_of; simpl. split_and!; [lia..|]. apply slice_overwrite_same; lia. }
  exists mem', (norm_method d), s'. split_and!.
  - apply encode_method_fits; try done. unfold INT32_MAX. lia.
  - exact Hrun.
  - apply norm_method_number.
  - apply norm_method_fields.
Qed.
End Theorems.

(** ** Examples *)

#[local] Existing Instance little_endian.

Definition sample_method : amqp_decoded_t :=
  M_QUEUE_DECLARE {| queue_declare_ticket := 0;
    queue_declare_queue := view [113; 49];
    queue_declare_passive := 0; queue_declare_durable := 1; queue_declare_exclusive := 0;
    queue_declare_auto_delete := 5; queue_declare_nowait := 0;
    queue_declare_arguments := [(view [107], FV_I32 (-7))] |}.

Lemma sample_method_encodable : Forall encodable_field (method_fields sample_method).
Proof. repeat constructor; by vm_compute. Qed.

Lemma encode_method_writes_wire_witness :
  amqp_encode_method AMQP_QUEUE_DECLARE_METHOD sample_method 32 (replicate 40 9) =
    Ret 17 (overwrite 0 (wire_method sample_method) (replicate 40 9)).
Proof.
  destruct (encode_method_writes_wire sample_method 32 (replicate 40 9) sample_method_encodable
    ltac:(vm_compute; split; intros ?; discriminate) ltac:(vm_compute; intros ?; discriminate))
    as [Hfit _].
  apply Hfit. vm_compute. intros ?; discriminate.
Defined.

Lemma decode_method_safe_witness :
  exists e s', amqp_decode_method AMQP_QUEUE_DECLARE_METHOD (view [0; 1; 255; 97])
      (d_alloc (start_at 0)) = Err e s' /\ e = AMQP_STATUS_BAD_AMQP_DATA.
Proof.
  pose proof (decode_method_safe (HL := pool_allocator_laws) AMQP_QUEUE_DECLARE_METHOD
    (view [0; 1; 255; 97]) (d_alloc (start_at 0)) ltac:(by vm_compute) ltac:(by vm_compute)
    ltac:(repeat constructor; unfold is_byte; lia) (start_inv 0) ltac:(by vm_compute)) as Hwp.
  unfold wp in Hwp. destruct (amqp_decode_method _ _ _) as [d s'|e s'| |] eqn:E; [| |destruct Hwp..].
  - vm_compute in E. discriminate E.
  - exists e, s'. split; [reflexivity|]. vm_compute in E. by injection E as <- _.
Defined.

Lemma method_roundtrip_witness :
  exists mem' d' s',
    amqp_encode_method AMQP_QUEUE_DECLARE_METHOD sample_method 32 (replicate 32 0) = Ret 17 mem' /\
    amqp_decode_method AMQP_QUEUE_DECLARE_METHOD {| len := 32; bytes := Some mem' |}
      (d_alloc (start_at 0)) = Ret d' s' /\
    method_fields d' = [F16 0; FShort (view [113; 49]); FBits [0; 1; 0; 1; 0];
                        FTable [(view [107], FV_I32 (-7))]].
Proof.
  destruct (method_roundtrip (HL := pool_allocator_laws) sample_method 32 (replicate 32 0)
    (d_alloc (start_at 0))) as (mem' & d' & s' & H1 & H2 & _ & H4).
  - repeat constructor; by vm_compute.
  - apply sample_method_encodable.
  - repeat constructor; by vm_compute.
  - vm_compute. split; intros ?; discriminate.
  - lia.
  - vm_compute. intros ?; discriminate.
  - apply (start_inv 0).
  - done.
  - by vm_compute.
  - exists mem', d', s'. split; [exact H1|]. split; [exact H2|]. rewrite H4. reflexivity.
Defined.
