(* ===== verification/Properties.v ===== *)
(** * Content properties: [amqp_decode_properties] and [amqp_encode_properties]
    of [librabbitmq/amqp_framing.c]

    The property flags, the basic class with its fourteen optional fields, and
    the classes that have none. *)

From S2P Require Import Prelude Machine Status Alloc Codec Table Framing MethodDecode MethodEncode.

(** ** Data *)


Definition AMQP_CONNECTION_CLASS : Z := 10.
Definition AMQP_CHANNEL_CLASS : Z := 20.
Definition AMQP_ACCESS_CLASS : Z := 30.
Definition AMQP_EXCHANGE_CLASS : Z := 40.
Definition AMQP_QUEUE_CLASS : Z := 50.
Definition AMQP_BASIC_CLASS : Z := 60.
Definition AMQP_TX_CLASS : Z := 90.
Definition AMQP_CONFIRM_CLASS : Z := 85.

Definition AMQP_BASIC_CONTENT_TYPE_FLAG : Z := Z.shiftl 1 15.
Definition AMQP_BASIC_CONTENT_ENCODING_FLAG : Z := Z.shiftl 1 14.
Definition AMQP_BASIC_HEADERS_FLAG : Z := Z.shiftl 1 13.
Definition AMQP_BASIC_DELIVERY_MODE_FLAG : Z := Z.shiftl 1 12.
Definition AMQP_BASIC_PRIORITY_FLAG : Z := Z.shiftl 1 11.
Definition AMQP_BASIC_CORRELATION_ID_FLAG : Z := Z.shiftl 1 10.
Definition AMQP_BASIC_REPLY_TO_FLAG : Z := Z.shiftl 1 9.
Definition AMQP_BASIC_EXPIRATION_FLAG : Z := Z.shiftl 1 8.
Definition AMQP_BASIC_MESSAGE_ID_FLAG : Z := Z.shiftl 1 7.
Definition AMQP_BASIC_TIMESTAMP_FLAG : Z := Z.shiftl 1 6.
Definition AMQP_BASIC_TYPE_FLAG : Z := Z.shiftl 1 5.
Definition AMQP_BASIC_USER_ID_FLAG : Z := Z.shiftl 1 4.
Definition AMQP_BASIC_APP_ID_FLAG : Z := Z.shiftl 1 3.
Definition AMQP_BASIC_CLUSTER_ID_FLAG : Z := Z.shiftl 1 2.

(** [_flags] says which of the other fields are present. *)
Record amqp_basic_properties_t : Type := mk_basic_properties {
  basic__flags : Z;
  basic_content_type : amqp_bytes_t;
  basic_content_encoding : amqp_bytes_t;
  basic_headers : amqp_table_t;
  basic_delivery_mode : Z;
  basic_priority : Z;
  basic_correlation_id : amqp_bytes_t;
  basic_reply_to : amqp_bytes_t;
  basic_expiration : amqp_bytes_t;
  basic_message_id : amqp_bytes_t;
  basic_timestamp : Z;
  basic_type : amqp_bytes_t;
  basic_user_id : amqp_bytes_t;
  basic_app_id : amqp_bytes_t;
  basic_cluster_id : amqp_bytes_t
}.

(** What [*decoded] points to: the other classes have only the flags. *)
Inductive amqp_properties_t : Type :=
| P_CONNECTION (_flags : Z)
| P_CHANNEL (_flags : Z)
| P_ACCESS (_flags : Z)
| P_EXCHANGE (_flags : Z)
| P_QUEUE (_flags : Z)
| P_BASIC (p : amqp_basic_properties_t)
| P_TX (_flags : Z)
| P_CONFIRM (_flags : Z).

Definition class_id (p : amqp_properties_t) : Z :=
  match p with
  | P_CONNECTION _ => AMQP_CONNECTION_CLASS
  | P_CHANNEL _ => AMQP_CHANNEL_CLASS
  | P_ACCESS _ => AMQP_ACCESS_CLASS
  | P_EXCHANGE _ => AMQP_EXCHANGE_CLASS
  | P_QUEUE _ => AMQP_QUEUE_CLASS
  | P_BASIC _ => AMQP_BASIC_CLASS
  | P_TX _ => AMQP_TX_CLASS
  | P_CONFIRM _ => AMQP_CONFIRM_CLASS
  end.

(** [*(amqp_flags_t * )decoded] *)
Definition flags_of (p : amqp_properties_t) : Z :=
  match p with
  | P_CONNECTION f => f
  | P_CHANNEL f => f
  | P_ACCESS f => f
  | P_EXCHANGE f => f
  | P_QUEUE f => f
  | P_BASIC p => basic__flags p
  | P_TX f => f
  | P_CONFIRM f => f
  end.

(** ** Decoding *)

Section Decode.
Context `{Host} {St : Type} `{Allocator St}.

(** The [do ... while (partial_flags & 1)] loop.  [partial_flags] is promoted to
    [int] before it is shifted: shifting by 32 or more, or out of the range of
    [int], is undefined. *)
Fixpoint decode_flags (fuel : nat) (encoded : amqp_bytes_t) (flags flagword_index : Z)
    : C (dst St) Z :=
  match fuel with
  | O => out_of_fuel
  | S fuel' =>
      let* partial_flags := require AMQP_STATUS_BAD_AMQP_DATA (amqp_decode_16 encoded) in
      if (32 <=? flagword_index * 16) || (INT32_MAX <? Z.shiftl partial_flags (flagword_index * 16))
      then undefined
      else
        let flags := Z.lor flags (Z.shiftl partial_flags (flagword_index * 16)) in
        if Z.land partial_flags 1 =? 0 then ret flags
        else decode_flags fuel' encoded flags (flagword_index + 1)
  end.

(** [if (flags & flag) { read the field }]; otherwise the field keeps what the
    memory of the structure held. *)
Definition decode_if {A} (flags flag : Z) (uninit : A) (m : C (dst St) A) : C (dst St) A :=
  if Z.land flags flag =? 0 then ret uninit else m.

(** [uninit] is what the memory of the new structure happens to hold. *)
Definition decode_basic_properties (uninit : amqp_basic_properties_t) (flags : Z)
    (encoded : amqp_bytes_t) : C (dst St) amqp_properties_t :=
  do* alloc_struct 200 in
  let* content_type := decode_if flags AMQP_BASIC_CONTENT_TYPE_FLAG (basic_content_type uninit)
    (decode_shortstr encoded) in
  let* content_encoding := decode_if flags AMQP_BASIC_CONTENT_ENCODING_FLAG (basic_content_encoding uninit)
    (decode_shortstr encoded) in
  let* headers := decode_if flags AMQP_BASIC_HEADERS_FLAG (basic_headers uninit)
    (amqp_decode_table encoded) in
  let* delivery_mode := decode_if flags AMQP_BASIC_DELIVERY_MODE_FLAG (basic_delivery_mode uninit)
    (require AMQP_STATUS_BAD_AMQP_DATA (amqp_decode_8 encoded)) in
  let* priority := decode_if flags AMQP_BASIC_PRIORITY_FLAG (basic_priority uninit)
    (require AMQP_STATUS_BAD_AMQP_DATA (amqp_decode_8 encoded)) in
  let* correlation_id := decode_if flags AMQP_BASIC_CORRELATION_ID_FLAG (basic_correlation_id uninit)
    (decode_shortstr encoded) in
  let* reply_to := decode_if flags AMQP_BASIC_REPLY_TO_FLAG (basic_reply_to uninit)
    (decode_shortstr encoded) in
  let* expiration := decode_if flags AMQP_BASIC_EXPIRATION_FLAG (basic_expiration uninit)
    (decode_shortstr encoded) in
  let* message_id := decode_if flags AMQP_BASIC_MESSAGE_ID_FLAG (basic_message_id uninit)
    (decode_shortstr encoded) in
  let* timestamp := decode_if flags AMQP_BASIC_TIMESTAMP_FLAG (basic_timestamp uninit)
    (require AMQP_STATUS_BAD_AMQP_DATA (amqp_decode_64 encoded)) in
  let* type := decode_if flags AMQP_BASIC_TYPE_FLAG (basic_type uninit)
    (decode_shortstr encoded) in
  let* user_id := decode_if flags AMQP_BASIC_USER_ID_FLAG (basic_user_id uninit)
    (decode_shortstr encoded) in
  let* app_id := decode_if flags AMQP_BASIC_APP_ID_FLAG (basic_app_id uninit)
    (decode_shortstr encoded) in
  let* cluster_id := decode_if flags AMQP_BASIC_CLUSTER_ID_FLAG (basic_cluster_id uninit)
    (decode_shortstr encoded) in
  ret (P_BASIC {| basic__flags := flags;
    basic_content_type := content_type;
    basic_content_encoding := content_encoding;
    basic_headers := headers;
    basic_delivery_mode := delivery_mode;
    basic_priority := priority;
    basic_correlation_id := correlation_id;
    basic_reply_to := reply_to;
    basic_expiration := expiration;
    basic_message_id := message_id;
    basic_timestamp := timestamp;
    basic_type := type;
    basic_user_id := user_id;
    basic_app_id := app_id;
    basic_cluster_id := cluster_id |}).

Definition decode_connection_properties (flags : Z) : C (dst St) amqp_properties_t :=
  do* alloc_struct 8 in
  ret (P_CONNECTION flags).

Definition decode_channel_properties (flags : Z) : C (dst St) amqp_properties_t :=
  do* alloc_struct 8 in
  ret (P_CHANNEL flags).

Definition decode_access_properties (flags : Z) : C (dst St) amqp_properties_t :=
  do* alloc_struct 8 in
  ret (P_ACCESS flags).

Definition decode_exchange_properties (flags : Z) : C (dst St) amqp_properties_t :=
  do* alloc_struct 8 in
  ret (P_EXCHANGE flags).

Definition decode_queue_properties (flags : Z) : C (dst St) amqp_properties_t :=
  do* alloc_struct 8 in
  ret (P_QUEUE flags).

Definition decode_tx_properties (flags : Z) : C (dst St) amqp_properties_t :=
  do* alloc_struct 8 in
  ret (P_TX flags).

Definition decode_confirm_properties (flags : Z) : C (dst St) amqp_properties_t :=
  do* alloc_struct 8 in
  ret (P_CONFIRM flags).

Definition properties_cases (uninit : amqp_basic_properties_t) (flags : Z)
    (encoded : amqp_bytes_t) : list (Z * C (dst St) amqp_properties_t) :=
  [(10, decode_connection_properties flags);
   (20, decode_channel_properties flags);
   (30, decode_access_properties flags);
   (40, decode_exchange_properties flags);
   (50, decode_queue_properties flags);
   (60, decode_basic_properties uninit flags encoded);
   (90, decode_tx_properties flags);
   (85, decode_confirm_properties flags)].

Definition amqp_decode_properties (uninit : amqp_basic_properties_t) (class_id : Z)
    (encoded : amqp_bytes_t) : C St amqp_properties_t :=
  with_offset
    (let* flags := decode_flags (S (length (mem_of encoded))) encoded 0 0 in
     switch class_id (properties_cases uninit flags encoded) (throw AMQP_STATUS_UNKNOWN_CLASS)).
End Decode.

(** ** Encoding *)

Section Encode.
Context `{Host}.

(** The [do ... while (remaining_flags != 0)] loop. *)
Fixpoint encode_flags (fuel : nat) (encoded_len remaining_flags : Z) : C ebuf unit :=
  match fuel with
  | O => out_of_fuel
  | S fuel' =>
      let remainder := Z.shiftr remaining_flags 16 in
      let partial_flags := Z.land remaining_flags 0xFFFE in
      let partial_flags := if remainder =? 0 then partial_flags else Z.lor partial_flags 1 in
      do* require_true AMQP_STATUS_BAD_AMQP_DATA (amqp_encode_16 encoded_len partial_flags) in
      if remainder =? 0 then ret tt else encode_flags fuel' encoded_len remainder
  end.

(** [if (flags & flag) { write the field }] *)
Definition encode_if (flags flag : Z) (m : C ebuf unit) : C ebuf unit :=
  if Z.land flags flag =? 0 then ret tt else m.

Definition encode_basic_properties (encoded_len flags : Z) (p : amqp_basic_properties_t) : C ebuf unit :=
  do* encode_if flags AMQP_BASIC_CONTENT_TYPE_FLAG
    (encode_shortstr encoded_len (basic_content_type p)) in
  do* encode_if flags AMQP_BASIC_CONTENT_ENCODING_FLAG
    (encode_shortstr encoded_len (basic_content_encoding p)) in
  do* encode_if flags AMQP_BASIC_HEADERS_FLAG
    (amqp_encode_table encoded_len (basic_headers p)) in
  do* encode_if flags AMQP_BASIC_DELIVERY_MODE_FLAG
    (require_true AMQP_STATUS_BAD_AMQP_DATA (amqp_encode_8 encoded_len (basic_delivery_mode p))) in
  do* encode_if flags AMQP_BASIC_PRIORITY_FLAG
    (require_true AMQP_STATUS_BAD_AMQP_DATA (amqp_encode_8 encoded_len (basic_priority p))) in
  do* encode_if flags AMQP_BASIC_CORRELATION_ID_FLAG
    (encode_shortstr encoded_len (basic_correlation_id p)) in
  do* encode_if flags AMQP_BASIC_REPLY_TO_FLAG
    (encode_shortstr encoded_len (basic_reply_to p)) in
  do* encode_if flags AMQP_BASIC_EXPIRATION_FLAG
    (encode_shortstr encoded_len (basic_expiration p)) in
  do* encode_if flags AMQP_BASIC_MESSAGE_ID_FLAG
    (encode_shortstr encoded_len (basic_message_id p)) in
  do* encode_if flags AMQP_BASIC_TIMESTAMP_FLAG
    (require_true AMQP_STATUS_BAD_AMQP_DATA (amqp_encode_64 encoded_len (basic_timestamp p))) in
  do* encode_if flags AMQP_BASIC_TYPE_FLAG
    (encode_shortstr encoded_len (basic_type p)) in
  do* encode_if flags AMQP_BASIC_USER_ID_FLAG
    (encode_shortstr encoded_len (basic_user_id p)) in
  do* encode_if flags AMQP_BASIC_APP_ID_FLAG
    (encode_shortstr encoded_len (basic_app_id p)) in
  do* encode_if flags AMQP_BASIC_CLUSTER_ID_FLAG
    (encode_shortstr encoded_len (basic_cluster_id p)) in
  ret tt.

Definition encode_properties_cases (encoded_len : Z) (decoded : amqp_properties_t)
    : list (Z * C ebuf unit) :=
  [(10, ret tt);
   (20, ret tt);
   (30, ret tt);
   (40, ret tt);
   (50, ret tt);
   (60,
     match decoded with
     | P_BASIC p => encode_basic_properties encoded_len (flags_of decoded) p
     | _ => undefined
     end);
   (90, ret tt);
   (85, ret tt)].

(** A [uint32_t] has at most two flag words. *)
Definition amqp_encode_properties (class_id : Z) (decoded : amqp_properties_t) (encoded_len : Z)
    : C (list Z) Z :=
  with_local_offset
    (do* encode_flags 2 encoded_len (flags_of decoded) in
     switch class_id (encode_properties_cases encoded_len decoded)
       (throw AMQP_STATUS_UNKNOWN_CLASS)).
End Encode.
