(* ===== verification/PropertiesTheory.v ===== *)
(** * The wire format of content properties *)

From S2P Require Import Prelude Machine Status Alloc Codec Table TableEncode TableDecode Framing Methods MethodDecode MethodEncode MethodWire MethodTheory MethodSafety Properties.

(** The optional fields of the basic class in wire order, with their flags. *)
Definition basic_fields (p : amqp_basic_properties_t) : list (Z * field) :=
  [(AMQP_BASIC_CONTENT_TYPE_FLAG, FShort (basic_content_type p));
   (AMQP_BASIC_CONTENT_ENCODING_FLAG, FShort (basic_content_encoding p));
   (AMQP_BASIC_HEADERS_FLAG, FTable (basic_headers p));
   (AMQP_BASIC_DELIVERY_MODE_FLAG, F8 (basic_delivery_mode p));
   (AMQP_BASIC_PRIORITY_FLAG, F8 (basic_priority p));
   (AMQP_BASIC_CORRELATION_ID_FLAG, FShort (basic_correlation_id p));
   (AMQP_BASIC_REPLY_TO_FLAG, FShort (basic_reply_to p));
   (AMQP_BASIC_EXPIRATION_FLAG, FShort (basic_expiration p));
   (AMQP_BASIC_MESSAGE_ID_FLAG, FShort (basic_message_id p));
   (AMQP_BASIC_TIMESTAMP_FLAG, F64 (basic_timestamp p));
   (AMQP_BASIC_TYPE_FLAG, FShort (basic_type p));
   (AMQP_BASIC_USER_ID_FLAG, FShort (basic_user_id p));
   (AMQP_BASIC_APP_ID_FLAG, FShort (basic_app_id p));
   (AMQP_BASIC_CLUSTER_ID_FLAG, FShort (basic_cluster_id p))].

(** A field is present when its flag is set. *)
Definition present (flags : Z) (f : Z * field) : bool := negb (Z.land flags f.1 =? 0).

Definition wire_if (flags : Z) (f : Z * field) : list Z :=
  if present flags f then wire_field f.2 else [].

Definition fields_of (p : amqp_properties_t) : list (Z * field) :=
  match p with P_BASIC p => basic_fields p | _ => [] end.

(** The flag word, then the fields that are present. *)
Definition wire_properties (p : amqp_properties_t) : list Z :=
  be_encode 2 (flags_of p) ++ concat (map (wire_if (flags_of p)) (fields_of p)).

(** One flag word without continuation. *)
Definition simple_flags (flags : Z) : Prop := in_u 16 flags /\ Z.land flags 1 = 0.

(** Every field that is present satisfies [P]. *)
Definition fields_ok (P : field -> Prop) (p : amqp_properties_t) : Prop :=
  Forall (fun f => present (flags_of p) f = true -> P f.2) (fields_of p).

(** What decoding gives back: the fields that are present as the decoder reads
    them, the others as the memory held them. *)
Definition norm_if {A} (flags flag : Z) (uninit norm : A) : A :=
  if Z.land flags flag =? 0 then uninit else norm.

Definition norm_basic (uninit p : amqp_basic_properties_t) : amqp_basic_properties_t :=
  {| basic__flags := basic__flags p;
     basic_content_type := norm_if (basic__flags p) AMQP_BASIC_CONTENT_TYPE_FLAG (basic_content_type uninit)
       (norm_bytes (basic_content_type p));
     basic_content_encoding := norm_if (basic__flags p) AMQP_BASIC_CONTENT_ENCODING_FLAG (basic_content_encoding uninit)
       (norm_bytes (basic_content_encoding p));
     basic_headers := norm_if (basic__flags p) AMQP_BASIC_HEADERS_FLAG (basic_headers uninit)
       (norm_table (basic_headers p));
     basic_delivery_mode := norm_if (basic__flags p) AMQP_BASIC_DELIVERY_MODE_FLAG (basic_delivery_mode uninit)
       (basic_delivery_mode p);
     basic_priority := norm_if (basic__flags p) AMQP_BASIC_PRIORITY_FLAG (basic_priority uninit)
       (basic_priority p);
     basic_correlation_id := norm_if (basic__flags p) AMQP_BASIC_CORRELATION_ID_FLAG (basic_correlation_id uninit)
       (norm_bytes (basic_correlation_id p));
     basic_reply_to := norm_if (basic__flags p) AMQP_BASIC_REPLY_TO_FLAG (basic_reply_to uninit)
       (norm_bytes (basic_reply_to p));
     basic_expiration := norm_if (basic__flags p) AMQP_BASIC_EXPIRATION_FLAG (basic_expiration uninit)
       (norm_bytes (basic_expiration p));
     basic_message_id := norm_if (basic__flags p) AMQP_BASIC_MESSAGE_ID_FLAG (basic_message_id uninit)
       (norm_bytes (basic_message_id p));
     basic_timestamp := norm_if (basic__flags p) AMQP_BASIC_TIMESTAMP_FLAG (basic_timestamp uninit)
       (basic_timestamp p);
     basic_type := norm_if (basic__flags p) AMQP_BASIC_TYPE_FLAG (basic_type uninit)
       (norm_bytes (basic_type p));
     basic_user_id := norm_if (basic__flags p) AMQP_BASIC_USER_ID_FLAG (basic_user_id uninit)
       (norm_bytes (basic_user_id p));
     basic_app_id := norm_if (basic__flags p) AMQP_BASIC_APP_ID_FLAG (basic_app_id uninit)
       (norm_bytes (basic_app_id p));
     basic_cluster_id := norm_if (basic__flags p) AMQP_BASIC_CLUSTER_ID_FLAG (basic_cluster_id uninit)
       (norm_bytes (basic_cluster_id p)) |}.

Definition norm_properties (uninit : amqp_basic_properties_t) (p : amqp_properties_t)
    : amqp_properties_t :=
  match p with P_BASIC p => P_BASIC (norm_basic uninit p) | p => p end.

(** ** Encoding *)

Lemma simple_flags_mask f : simple_flags f -> Z.shiftr f 16 = 0 /\ Z.land f 0xFFFE = f.
Proof.
  intros [Hf H1]. unfold in_u in Hf. split.
  - rewrite Z.shiftr_div_pow2 by lia. apply Z.div_small. lia.
  - change 0xFFFE with (Z.ldiff (Z.ones 16) 1).
    rewrite Z.ldiff_land, Z.land_assoc, Z.land_ones, Z.mod_small, <- Z.ldiff_land by lia.
    rewrite <- (Z.lor_0_r f) at 2. rewrite <- H1, Z.lor_comm. rewrite <- (Z.lor_0_r f) at 1.
    apply Z.bits_inj'. intros n Hn. rewrite Z.ldiff_spec, !Z.lor_spec, Z.land_spec, Z.testbit_0_l.
    destruct (Z.testbit f n) eqn:E1, (Z.testbit 1 n) eqn:E2; try done. simpl.
    assert (Z.testbit (Z.land f 1) n = true) as Hb by (by rewrite Z.land_spec, E1, E2).
    by rewrite H1, Z.testbit_0_l in Hb.
Qed.

Section Encode.
Context {HH : Host} (elen : Z).

Lemma writes_flags f :
  simple_flags f -> writes elen (encode_flags 2 elen f) (be_encode 2 f) encode_status.
Proof.
  intros Hf. destruct (simple_flags_mask f Hf) as [Hs Hm]. cbn [encode_flags].
  rewrite Hs, Hm. cbn [Z.eqb]. rewrite <- (app_nil_r (be_encode 2 f)).
  apply writes_bind; [apply writes_16, encode_status_bad|apply writes_ret].
Qed.

Lemma writes_if flags flag m f :
  (present flags (flag, f) = true -> writes elen m (wire_field f) encode_status) ->
  writes elen (encode_if flags flag m) (wire_if flags (flag, f)) encode_status.
Proof.
  intros Hm. unfold encode_if, wire_if. unfold present in *. simpl in *.
  destruct (Z.land flags flag =? 0); [apply writes_ret|by apply Hm].
Qed.

Definition encode_class (p : amqp_properties_t) : C ebuf unit :=
  do* encode_flags 2 elen (flags_of p) in
  switch (class_id p) (encode_properties_cases elen p) (throw AMQP_STATUS_UNKNOWN_CLASS).

Ltac writes_present Hp := apply writes_if; intros Hpr; specialize (Hp Hpr); cbn [encodable_field] in Hp;
  first
    [ apply writes_8; apply encode_status_bad
    | apply writes_64; apply encode_status_bad
    | apply writes_shortstr; [apply Hp|apply Hp]
    | apply writes_wire_table; exact Hp ].

Lemma writes_properties p :
  simple_flags (flags_of p) -> fields_ok encodable_field p ->
  writes elen (encode_class p) (wire_properties p) encode_status.
Proof.
  intros Hf Hok. unfold encode_class, wire_properties. apply writes_bind; [by apply writes_flags|].
  unfold fields_ok in Hok.
  destruct p as [f|f|f|f|f|p|f|f]; cbn [fields_of] in *; try apply writes_ret.
  change (switch _ _ _) with (encode_basic_properties elen (flags_of (P_BASIC p)) p).
  cbn [flags_of] in *. unfold basic_fields in *. cbn [map concat]. unfold encode_basic_properties.
  repeat (let H := fresh "Hp" in apply Forall_cons in Hok as [H Hok];
          apply writes_bind; [writes_present H|]).
  apply writes_ret.
Qed.
End Encode.

(** ** Decoding *)

Section Decode.
Context {HH : Host} {St : Type} {HA : Allocator St} {HL : AllocatorLaws St}.
Context (encoded : amqp_bytes_t) (Hread : readable encoded) (Hsmall : len encoded <= 2 ^ 30).
Context (uninit : amqp_basic_properties_t).

Lemma decode_flags_alloc fuel : forall flags index (s : dst St) f s',
  decode_flags fuel encoded flags index s = Ret f s' -> d_alloc s' = d_alloc s.
Proof.
  induction fuel as [|fuel IH]; intros flags index s f s' Hrun; [done|]. cbn [decode_flags] in Hrun.
  apply bind_ret_inv in Hrun as (v & s1 & Hv & Hk).
  apply read_alloc in Hv. destruct (_ || _); [done|]. destruct (Z.land v 1 =? 0).
  - unfold ret in Hk. by simplify_eq.
  - apply IH in Hk. congruence.
Qed.

(** A single flag word, whatever it is followed by. *)
Lemma dspec_flags R (D : Z -> Prop) fuel o :
  0 <= o <= len encoded -> Forall is_byte (slice o 2 (mem_of encoded)) ->
  (len encoded < o + 2 -> D AMQP_STATUS_BAD_AMQP_DATA) ->
  (o + 2 <= len encoded -> Z.land (be_decode (slice o 2 (mem_of encoded))) 1 = 0) ->
  dspec_g (len encoded + 1) (-2) R D (decode_flags (S fuel) encoded 0 0) o (fun f o' =>
    f = be_decode (slice o 2 (mem_of encoded)) /\ o' = o + 2 /\ o + 2 <= len encoded).
Proof.
  intros Ho Hbs HD Hsimple. apply (dspec_gain _ _ _ _ 2).
  - intros s f s'. apply decode_flags_alloc.
  - cbn [decode_flags]. eapply dspec_bind.
    + apply dspec_require; [done|]. eapply dspec_mono; [apply dspec_base; [done|done|lia]|].
      intros [v|] o' Hv; [|by apply HD]. exact Hv.
    + intros v o' (-> & -> & Hle). destruct Hread as [Hl _].
      assert (Hz : zlen (slice o 2 (mem_of encoded)) = 2) by (apply zlen_slice; lia).
      rewrite amqp_d16_be by (done || (unfold zlen in Hz; lia)).
      pose proof (be_decode_in_u 2 _ Hbs Hz) as Hv. unfold in_u in Hv.
      change (0 * 16) with 0. rewrite Z.shiftl_0_r, Z.lor_0_l.
      rewrite (proj2 (Z.ltb_ge _ _)) by (unfold INT32_MAX; lia). cbn [Z.leb Z.compare orb].
      rewrite Hsimple by done. by apply dspec_ret.
  - intros f o' (_ & -> & _). lia.
Qed.

(** *** Reading back *)

Lemma decodes_if {A} flags flag (u a : A) (m : C (dst St) A) f {B} (k : A -> C (dst St) B) w b :
  (present flags (flag, f) = true -> decodes encoded m (wire_field f) a) ->
  decodes encoded (k (norm_if flags flag u a)) w b ->
  decodes encoded (let* x := decode_if flags flag u m in k x) (wire_if flags (flag, f) ++ w) b.
Proof.
  intros Hm Hk. eapply decodes_bind; [done| |exact Hk]. unfold decode_if, wire_if, norm_if.
  unfold present in *. simpl in *. destruct (Z.land flags flag =? 0); [apply decodes_ret|by apply Hm].
Qed.

Lemma decodes_field f :
  wf_field f -> decodable_field f ->
  match f with
  | F8 x => decodes encoded (require AMQP_STATUS_BAD_AMQP_DATA (amqp_decode_8 encoded)) (wire_field f) x
  | F64 x => decodes encoded (require AMQP_STATUS_BAD_AMQP_DATA (amqp_decode_64 encoded)) (wire_field f) x
  | FShort s => decodes encoded (decode_shortstr encoded) (wire_field f) (norm_bytes s)
  | FTable t => decodes encoded (amqp_decode_table encoded) (wire_field f) (norm_table t)
  | _ => True
  end.
Proof.
  destruct f as [x|x|x|x|s|s|t|bs]; cbn [wf_field decodable_field wire_field]; try done.
  - intros Hx _. rewrite <- (wrap_small 8 x Hx) at 2. by apply decodes_8.
  - intros Hx _. rewrite <- (wrap_small 64 x Hx) at 2. by apply decodes_64.
  - intros [[Hr _] Hl] _. destruct Hr as [? ?]. unfold UINT8_MAX in Hl.
    apply (decodes_str encoded Hread 8); [by apply decodes_8|done|unfold in_u; lia|unfold UINT32_MAX; lia].
  - intros Ht [Hk Hn]. by apply decodes_table.
Qed.

Definition decode_class (flags cid : Z) : C (dst St) amqp_properties_t :=
  switch cid (properties_cases uninit flags encoded) (throw AMQP_STATUS_UNKNOWN_CLASS).

Lemma reads_properties p :
  fields_ok wf_field p -> fields_ok decodable_field p ->
  reads encoded (decode_class (flags_of p) (class_id p))
    (concat (map (wire_if (flags_of p)) (fields_of p))) (norm_properties uninit p).
Proof.
  unfold fields_ok. intros Hok Hdec. unfold decode_class.
  destruct p as [f|f|f|f|f|p|f|f]; cbn [fields_of flags_of class_id norm_properties] in *.
  6: { change (switch _ _ _) with (decode_basic_properties uninit (basic__flags p) encoded).
    unfold decode_basic_properties. do 2 eexists. split; [reflexivity|]. split; [lia|].
    unfold basic_fields in *. cbn [map concat].
    repeat (let H := fresh "Hw" in let H' := fresh "Hd" in
      apply Forall_cons in Hok as [H Hok]; apply Forall_cons in Hdec as [H' Hdec];
      eapply decodes_if;
      [intros Hpr; exact (decodes_field _ (H Hpr) (H' Hpr))|]).
    apply decodes_ret. }
  all: (do 2 eexists; split; [reflexivity|]; split; [lia|apply decodes_ret]).
Qed.

(** *** Safety *)

Section Safety.
Context (Hbytes : Forall is_byte (mem_of encoded)).

Lemma dsafe_if {A} flags flag (u : A) (m : C (dst St) A) k P :
  0 <= k -> dsafe encoded decode_status k m P ->
  dsafe encoded decode_status 0 (decode_if flags flag u m)
    (fun x => negb (Z.land flags flag =? 0) = true -> P x).
Proof.
  intros Hk Hm. unfold decode_if. destruct (Z.land flags flag =? 0); [by apply dsafe_ret|].
  eapply dsafe_weaken; [exact Hm|done|]. auto.
Qed.

(** The case of a class: allocate, read the fields that are present. *)
Definition class_safe (flags cid : Z) (m : C (dst St) amqp_properties_t) : Prop :=
  exists sizeof body, m = (do* alloc_struct sizeof in body) /\ 0 < sizeof <= 4096 /\
    dsafe encoded decode_status 0 body
      (fun p => class_id p = cid /\ flags_of p = flags /\ fields_ok wf_field p).

Ltac dsafe_present :=
  eapply dsafe_bind_0; [done|
    first
    [ apply (dsafe_if _ _ _ _ 1); [lia|apply dsafe_8; [done|by left|done]]
    | apply (dsafe_if _ _ _ _ 8); [lia|apply dsafe_64; [done|by left|done]]
    | apply (dsafe_if _ _ _ _ 0); [lia|apply dsafe_short_field; done]
    | apply (dsafe_if _ _ _ _ 4); [lia|apply dsafe_table; done] ]|]; intros ? ?.

Lemma classes_safe flags :
  Forall (fun c => class_safe flags c.1 c.2) (properties_cases uninit flags encoded).
Proof.
  unfold properties_cases. repeat (apply Forall_cons; split); try apply Forall_nil_2; cbn [fst snd].
  6: { unfold decode_basic_properties. do 2 eexists. split; [reflexivity|]. split; [lia|].
    repeat dsafe_present. apply dsafe_ret. split; [done|]. split; [done|].
    unfold fields_ok, basic_fields, present. cbn.
    repeat (apply Forall_cons; split); try apply Forall_nil_2; cbn; assumption. }
  all: (do 2 eexists; split; [reflexivity|]; split; [lia|]; apply dsafe_ret;
    split; [done|]; split; [done|]; apply Forall_nil_2).
Qed.
End Safety.
End Decode.
