(* ===== verification/PropertiesTheorems.v ===== *)
(** * Theorems about content properties *)

From S2P Require Import Prelude Machine Status Alloc Codec Table TableEncode TableDecode Framing Methods MethodDecode MethodEncode MethodWire MethodTheory MethodSafety MethodTheorems Properties PropertiesTheory Mem MemTheory PoolTheorems TableTheorems.

Section Theorems.
Context {HH : Host} {St : Type} {HA : Allocator St} {HL : AllocatorLaws St}.

Lemma encode_properties_fits p elen mem :
  simple_flags (flags_of p) -> fields_ok encodable_field p ->
  0 <= elen <= zlen mem -> elen <= INT32_MAX -> zlen (wire_properties p) <= elen ->
  amqp_encode_properties (class_id p) p elen mem =
    Ret (zlen (wire_properties p)) (overwrite 0 (wire_properties p) mem).
Proof.
  intros Hfl Hf Hl Hm Hw. unfold INT32_MAX in Hm.
  assert (Hb : buffer_ok elen {| e_mem := mem; e_off := 0 |})
    by (unfold buffer_ok, PTRDIFF_MAX; simpl; lia).
  destruct (writes_properties elen p Hfl Hf _ Hb) as [Hfit _]. simpl in *.
  unfold amqp_encode_properties, with_local_offset. fold (encode_class elen p).
  rewrite Hfit by done. simpl. f_equal. pose proof (zlen_nonneg (wire_properties p)).
  apply to_int_small; lia.
Qed.

Lemma encode_properties_full p elen mem :
  simple_flags (flags_of p) -> fields_ok encodable_field p ->
  0 <= elen <= zlen mem -> elen <= INT32_MAX -> elen < zlen (wire_properties p) ->
  exists e mem', amqp_encode_properties (class_id p) p elen mem = Err e mem' /\
    (e = AMQP_STATUS_TABLE_TOO_BIG \/ e = AMQP_STATUS_BAD_AMQP_DATA) /\ zlen mem' = zlen mem.
Proof.
  intros Hfl Hf Hl Hm Hw. unfold INT32_MAX in Hm.
  assert (Hb : buffer_ok elen {| e_mem := mem; e_off := 0 |})
    by (unfold buffer_ok, PTRDIFF_MAX; simpl; lia).
  destruct (writes_properties elen p Hfl Hf _ Hb) as [_ Hno]. simpl in *.
  unfold amqp_encode_properties, with_local_offset. fold (encode_class elen p).
  destruct Hno as (e & s' & -> & He & Hk & _); [done|]. by exists e, (e_mem s').
Qed.

Definition properties_status (e : Z) : Prop :=
  e = AMQP_STATUS_BAD_AMQP_DATA \/ e = AMQP_STATUS_NO_MEMORY \/ e = AMQP_STATUS_UNKNOWN_CLASS.

Lemma wp_decode_properties uninit cid encoded s :
  readable encoded -> len encoded <= 2 ^ 30 -> Forall is_byte (mem_of encoded) ->
  (2 <= len encoded -> Z.land (be_decode (slice 0 2 (mem_of encoded))) 1 = 0) ->
  a_inv s -> len encoded + 1 < a_room s ->
  wp (amqp_decode_properties uninit cid encoded)
    (fun p s' => class_id p = cid /\ flags_of p = be_decode (slice 0 2 (mem_of encoded)) /\
                 fields_ok wf_field p /\ a_inv s' /\ a_room s - len encoded - 1 <= a_room s')
    (fun e s' => properties_status e /\ a_inv s') s.
Proof.
  intros Hr Hsm Hb Hone Hi Hroom. apply wp_with_offset.
  set (word := be_decode (slice 0 2 (mem_of encoded))).
  assert (Hspec : dspec_g (HL := HL) (len encoded + 1) 0 false properties_status
    (let* flags := decode_flags (S (length (mem_of encoded))) encoded 0 0 in
     switch cid (properties_cases uninit flags encoded) (throw AMQP_STATUS_UNKNOWN_CLASS)) 0
    (fun p o => class_id p = cid /\ flags_of p = word /\ fields_ok wf_field p /\ o <= len encoded)).
  { pose proof Hr as [Hl _]. eapply (dspec_bind_g _ _ _ (-2) 1); [lia..| |].
    - apply (dspec_flags encoded Hr false properties_status);
        [lia|by apply Forall_take, Forall_drop|by left|exact Hone].
    - intros f o (-> & -> & Hle). fold word.
      apply (switch_cases (fun cid m => dspec_g (HL := HL) (len encoded + 1) 1 false properties_status
        m (0 + 2) (fun p o => class_id p = cid /\ flags_of p = word /\ fields_ok wf_field p /\
                              o <= len encoded))).
      + eapply Forall_impl; [by apply (classes_safe encoded)|].
        intros [c m] (sizeof & body & -> & Hsz & Hsafe). simpl.
        apply dspec_struct; [done|done|by right; left|lia|].
        intros s' Hs' Hi' Hr' Hroom'. wp_use (Hsafe 2); [lia|done..| |].
        * intros p s'' (((? & ? & ?) & ?) & ? & ? & ?). split_and!; try done. lia.
        * intros e s'' (He & ? & ?). split; [|done]. destruct He; [by left|by right; left].
      + apply dspec_throw. by right; right. }
  wp_use Hspec; [done|done|done|unfold has_room; simpl; lia| |].
  - intros p s' ((? & ? & ? & ?) & [? _] & _ & Hsp). unfold spends in Hsp. simpl in *.
    split_and!; [done..|]. lia.
  - intros e s' (? & [? _] & _). done.
Qed.

Lemma decode_properties_reads uninit p enc s :
  simple_flags (flags_of p) -> fields_ok wf_field p -> fields_ok decodable_field p ->
  readable enc -> len enc <= 2 ^ 30 -> holds_at enc 0 (wire_properties p) ->
  a_inv s -> a_reliable s -> len enc + 1 < a_room s ->
  exists s', amqp_decode_properties uninit (class_id p) enc s = Ret (norm_properties uninit p) s' /\
    a_inv s' /\ a_reliable s' /\ a_room s - len enc - 1 <= a_room s'.
Proof.
  intros Hfl Hwf Hdec Hread Hsm Hat Hi Hrel Hroom. pose proof Hread as [Hlen _].
  unfold wire_properties in Hat. apply holds_at_app in Hat as [Hat1 Hat2]; [|done].
  rewrite zlen_be_encode in Hat2. change (0 + Z.of_nat 2) with 2 in Hat2.
  destruct Hat1 as (_ & Hl2 & Hword). rewrite zlen_be_encode in Hl2, Hword.
  change (Z.of_nat 2) with 2 in Hl2, Hword. pose proof Hfl as [Hfu Hfc].
  assert (Hdw : be_decode (slice 0 2 (mem_of enc)) = flags_of p).
  { rewrite Hword, be_decode_encode. apply (wrap_small 16). done. }
  destruct (reads_properties enc Hread Hsm uninit p Hwf Hdec) as (sizeof & body & Heq & Hsz & Hbody).
  destruct (wp_run_ret (amqp_decode_properties uninit (class_id p) enc)
    (fun r s' => r = norm_properties uninit p /\ a_inv s' /\ a_reliable s' /\
                 a_room s - len enc - 1 <= a_room s') s) as (r & s' & Hrun & -> & ?);
    [|by exists s'].
  apply wp_with_offset.
  assert (Hspec : dspec_g (HL := HL) (len enc + 1) 0 true (fun _ => False)
    (let* flags := decode_flags (S (length (mem_of enc))) enc 0 0 in
     switch (class_id p) (properties_cases uninit flags enc) (throw AMQP_STATUS_UNKNOWN_CLASS)) 0
    (fun r o => r = norm_properties uninit p /\ o <= len enc)).
  { eapply (dspec_bind_g _ _ _ (-2) 1); [lia..| |].
    - apply (dspec_flags enc Hread true (fun _ => False)); [simpl; lia| |simpl; lia|].
      + rewrite Hword. apply be_encode_bytes.
      + intros _. by rewrite Hdw.
    - intros f o (-> & -> & _). rewrite Hdw. fold (decode_class enc uninit (flags_of p) (class_id p)).
      rewrite Heq. apply (dspec_struct enc Hread); [done|done|simpl; lia|].
      eapply dspec_mono; [by apply Hbody|]. intros a o' [-> ->]. split; [done|].
      destruct Hat2 as (_ & ? & _). lia. }
  wp_use Hspec; [done|done|by intros _|unfold has_room; simpl; lia| |].
  - intros r s' ((? & ?) & [? _] & Hr' & Hsp). unfold spends in Hsp. simpl in *.
    split_and!; [done..|by apply Hr'|]. lia.
  - intros e s' (? & _). done.
Qed.

(** C17: on readable bytes whose first flag word does not announce another one,
    [amqp_decode_properties] terminates without undefined behaviour for every
    class: it returns the properties of that class with the flags that were
    read and every field that is flagged in the range of its type, or it fails
    with [AMQP_STATUS_BAD_AMQP_DATA], [AMQP_STATUS_NO_MEMORY] or
    [AMQP_STATUS_UNKNOWN_CLASS]. *)
Theorem decode_properties_safe uninit cid encoded s :
  readable encoded -> len encoded <= 2 ^ 30 -> Forall is_byte (mem_of encoded) ->
  (2 <= len encoded -> Z.land (be_decode (slice 0 2 (mem_of encoded))) 1 = 0) ->
  a_inv s -> len encoded + 1 < a_room s ->
  wp (amqp_decode_properties uninit cid encoded)
    (fun p s' => class_id p = cid /\ flags_of p = be_decode (slice 0 2 (mem_of encoded)) /\
                 fields_ok wf_field p /\ a_inv s')
    (fun e s' => (e = AMQP_STATUS_BAD_AMQP_DATA \/ e = AMQP_STATUS_NO_MEMORY \/
                  e = AMQP_STATUS_UNKNOWN_CLASS) /\ a_inv s') s.
Proof.
  intros Hr Hsm Hb Hone Hi Hroom. wp_use wp_decode_properties; [done..| |done].
  intros p s' (? & ? & ? & ? & _). done.
Qed.

(** C16: [amqp_encode_properties] writes the flag word and the flagged fields and
    returns their length when they fit, otherwise it reports an error; and
    decoding the result gives back every flagged field, leaving the others as
    the memory of the new structure held them. *)
Theorem properties_roundtrip uninit p elen mem s :
  simple_flags (flags_of p) ->
  fields_ok wf_field p -> fields_ok encodable_field p -> fields_ok decodable_field p ->
  0 <= elen <= zlen mem -> elen <= 2 ^ 30 -> zlen (wire_properties p) <= elen ->
  a_inv s -> a_reliable s -> elen + 1 < a_room s ->
  exists mem' s',
    amqp_encode_properties (class_id p) p elen mem = Ret (zlen (wire_properties p)) mem' /\
    amqp_decode_properties uninit (class_id p) {| len := elen; bytes := Some mem' |} s =
      Ret (norm_properties uninit p) s'.
Proof.
  intros Hfl Hwf Henc Hdec Hl Hsm Hfit Hi Hrel Hroom.
  pose proof (zlen_nonneg (wire_properties p)).
  set (mem' := overwrite 0 (wire_properties p) mem).
  assert (Hlen : zlen mem' = zlen mem) by (apply zlen_overwrite; lia).
  set (enc := {| len := elen; bytes := Some mem' |}).
  destruct (decode_properties_reads uninit p enc s) as (s' & Hrun & _); try done.
  { unfold readable, enc, mem_of, PTRDIFF_MAX; simpl; lia. }
  { unfold holds_at, enc, mem_of; simpl. split_and!; [lia..|]. apply slice_overwrite_same; lia. }
  exists mem', s'. split; [|exact Hrun].
  apply encode_properties_fits; try done. unfold INT32_MAX. lia.
Qed.

(** C39: when the first two flag words both announce another one (and the second
    has its top bit clear), the loop of [amqp_decode_properties] shifts the
    third word by 32 bits, which is undefined for the 32-bit [int] it is
    promoted to: bytes from the peer decide whether that happens. *)
Theorem decode_properties_third_word_ub uninit cid b0 b1 b2 b3 b4 b5 rest s :
  Forall is_byte (b0 :: b1 :: b2 :: b3 :: b4 :: b5 :: rest) -> zlen rest <= 2 ^ 30 ->
  Z.land b1 1 = 1 -> Z.land b3 1 = 1 -> b2 < 128 ->
  amqp_decode_properties uninit cid (view (b0 :: b1 :: b2 :: b3 :: b4 :: b5 :: rest)) s = UB.
Proof.
  intros Hb Hl H1 H3 H2. set (l := b0 :: b1 :: b2 :: b3 :: b4 :: b5 :: rest) in *.
  assert (Hlen : 6 <= zlen l <= 2 ^ 31) by (unfold l, zlen in *; simpl length; lia).
  assert (Hstep : forall o w (k : Z -> C (dst St) Z), 0 <= o -> o + 2 <= zlen l ->
    be_decode (slice o 2 l) = w ->
    bind (require AMQP_STATUS_BAD_AMQP_DATA (amqp_decode_16 (view l))) k {| d_off := o; d_alloc := s |}
      = k w {| d_off := o + 2; d_alloc := s |}).
  { intros o w k Ho Hfit <-. unfold require, amqp_decode_16, decode_base, bind.
    cbn [d_off d_alloc len view]. rewrite size_t_small by lia.
    rewrite (proj2 (Z.leb_le _ _)) by done. rewrite load_Some by (unfold mem_of; simpl; lia).
    unfold ret. f_equal. apply amqp_d16_be; [by apply Forall_take, Forall_drop|].
    pose proof (zlen_slice o 2 l). unfold zlen in *. lia. }
  assert (Hodd : forall x y, Z.land y 1 = 1 -> Z.land (x * 256 + y) 1 = 1).
  { intros x y. change 1 with (Z.ones 1) at 1 3. rewrite !Z.land_ones by lia.
    change (2 ^ 1) with 2. intros <-. rewrite Z.add_mod, Z.mul_mod by lia.
    change (256 mod 2) with 0. by rewrite Z.mul_0_r, Z.mod_0_l, Z.add_0_l, Z.mod_mod by lia. }
  unfold l in Hb. do 6 (apply Forall_cons in Hb as [? Hb]). unfold is_byte in *.
  unfold amqp_decode_properties, with_offset, bind at 1.
  change (length (mem_of (view l))) with (S (S (S (S (S (S (length rest))))))).
  cbn [decode_flags]. rewrite (Hstep 0 (b0 * 256 + b1)) by (try done; lia).
  change (0 * 16) with 0. rewrite Z.shiftl_0_r, (proj2 (Z.ltb_ge _ _)) by (unfold INT32_MAX; lia).
  rewrite Hodd by done. cbn [Z.leb Z.compare orb Z.eqb]. change (0 + 2) with 2. change (0 + 1) with 1.
  rewrite (Hstep 2 (b2 * 256 + b3)) by (try done; lia). change (1 * 16) with 16.
  rewrite Z.shiftl_mul_pow2, (proj2 (Z.ltb_ge _ _)) by (unfold INT32_MAX; lia).
  rewrite Hodd by done. cbn [Z.leb Z.compare Pos.compare Pos.compare_cont orb Z.eqb].
  change (2 + 2) with 4. change (1 + 1) with 2.
  rewrite (Hstep 4 (b4 * 256 + b5)) by (try done; lia). reflexivity.
Qed.
End Theorems.

(** ** Examples *)

#[local] Existing Instance little_endian.

Definition blank_properties : amqp_basic_properties_t :=
  {| basic__flags := 0; basic_content_type := amqp_empty_bytes;
     basic_content_encoding := amqp_empty_bytes; basic_headers := [];
     basic_delivery_mode := 0; basic_priority := 0; basic_correlation_id := amqp_empty_bytes;
     basic_reply_to := amqp_empty_bytes; basic_expiration := amqp_empty_bytes;
     basic_message_id := amqp_empty_bytes; basic_timestamp := 0; basic_type := amqp_empty_bytes;
     basic_user_id := amqp_empty_bytes; basic_app_id := amqp_empty_bytes;
     basic_cluster_id := amqp_empty_bytes |}.

(** A content type and a persistent delivery mode. *)
Definition sample_properties : amqp_properties_t :=
  P_BASIC {| basic__flags := Z.lor AMQP_BASIC_CONTENT_TYPE_FLAG AMQP_BASIC_DELIVERY_MODE_FLAG;
     basic_content_type := view [116; 47; 112];
     basic_content_encoding := amqp_empty_bytes; basic_headers := [];
     basic_delivery_mode := 2; basic_priority := 0; basic_correlation_id := amqp_empty_bytes;
     basic_reply_to := amqp_empty_bytes; basic_expiration := amqp_empty_bytes;
     basic_message_id := amqp_empty_bytes; basic_timestamp := 0; basic_type := amqp_empty_bytes;
     basic_user_id := amqp_empty_bytes; basic_app_id := amqp_empty_bytes;
     basic_cluster_id := amqp_empty_bytes |}.

Lemma decode_properties_safe_witness :
  exists p s', amqp_decode_properties blank_properties 60 (view [144; 0; 1; 97; 7])
      (d_alloc (start_at 0)) = Ret p s' /\ flags_of p = 0x9000 /\ fields_ok wf_field p.
Proof.
  pose proof (decode_properties_safe (HL := pool_allocator_laws) blank_properties 60
    (view [144; 0; 1; 97; 7]) (d_alloc (start_at 0)) ltac:(by vm_compute) ltac:(by vm_compute)
    ltac:(repeat constructor; unfold is_byte; lia) ltac:(by vm_compute)
    (start_inv 0) ltac:(by vm_compute)) as Hwp.
  unfold wp in Hwp.
  destruct (amqp_decode_properties _ _ _ _) as [p s'|e s'| |] eqn:E; [| |destruct Hwp..].
  - exists p, s'. split; [reflexivity|]. split; apply Hwp.
  - vm_compute in E. discriminate E.
Defined.

Lemma properties_roundtrip_witness :
  exists mem' s',
    amqp_encode_properties 60 sample_properties 16 (replicate 16 0) = Ret 7 mem' /\
    amqp_decode_properties blank_properties 60 {| len := 16; bytes := Some mem' |}
      (d_alloc (start_at 0)) = Ret sample_properties s'.
Proof.
  apply (properties_roundtrip (HL := pool_allocator_laws) blank_properties sample_properties 16
    (replicate 16 0) (d_alloc (start_at 0))).
  - by vm_compute.
  - repeat constructor; by vm_compute.
  - repeat constructor; by vm_compute.
  - repeat constructor; by vm_compute.
  - by vm_compute.
  - lia.
  - by vm_compute.
  - apply (start_inv 0).
  - done.
  - by vm_compute.
Defined.

Lemma decode_properties_third_word_ub_witness :
  amqp_decode_properties blank_properties 60 (view [0; 1; 0; 1; 0; 0]) (d_alloc (start_at 0)) = UB.
Proof.
  apply (decode_properties_third_word_ub (HA := pool_allocator)).
  - repeat constructor; unfold is_byte; lia.
  - by vm_compute.
  - reflexivity.
  - reflexivity.
  - lia.
Defined.
