(* ===== verification/Time.v ===== *)
(** * Points in time: [librabbitmq/amqp_time.c]

    Deadlines on the monotonic clock, in nanoseconds, with 0 for "now" and
    [UINT64_MAX] for "never".  The system clock is a parameter. *)

From S2P Require Import Prelude Machine Status.

Definition AMQP_MS_PER_S : Z := 1000.
Definition AMQP_US_PER_MS : Z := 1000.
Definition AMQP_NS_PER_S : Z := 1000000000.
Definition AMQP_NS_PER_MS : Z := 1000000.
Definition AMQP_NS_PER_US : Z := 1000.

Record amqp_time_t : Type := mk_time { time_point_ns : Z }.
Record timeval : Type := mk_timeval { tv_sec : Z; tv_usec : Z }.

(** [clock_gettime(CLOCK_MONOTONIC, &tp)]: [None] when it returns -1, otherwise
    [tp.tv_sec] and [tp.tv_nsec]. *)
Class Clock (S : Type) : Type := { clock_gettime : C S (option (Z * Z)) }.

Section Time.
Context {S : Type} {HC : Clock S}.

Definition amqp_get_monotonic_timestamp : C S Z :=
  let* tp := clock_gettime in
  match tp with
  | None => ret 0
  | Some (tv_sec, tv_nsec) => ret (u64 (u64 (u64 tv_sec * AMQP_NS_PER_S) + u64 tv_nsec))
  end.

Definition amqp_time_infinite : amqp_time_t := {| time_point_ns := UINT64_MAX |}.

(** [time->time_point_ns = now_ns + delta_ns], with the check for overflow.
    The functions with an [amqp_time_t *time] parameter return the value they
    leave in [*time] and their status: [*time] is overwritten even when the
    status is [AMQP_STATUS_INVALID_PARAMETER]. *)
Definition time_after (now_ns delta_ns : Z) : amqp_time_t * Z :=
  let t := u64 (now_ns + delta_ns) in
  ({| time_point_ns := t |},
   if (t <? now_ns) || (t <? delta_ns) then AMQP_STATUS_INVALID_PARAMETER
   else AMQP_STATUS_OK).

Definition amqp_time_from_now (time : amqp_time_t) (timeout : option timeval) :
    C S (amqp_time_t * Z) :=
  match timeout with
  | None => ret (amqp_time_infinite, AMQP_STATUS_OK)
  | Some tv =>
      if (tv_sec tv <? 0) || (tv_usec tv <? 0)
      then ret (time, AMQP_STATUS_INVALID_PARAMETER)
      else
        let delta_ns := u64 (u64 (u64 (tv_sec tv) * AMQP_NS_PER_S) +
                             u64 (u64 (tv_usec tv) * AMQP_NS_PER_US)) in
        let* now_ns := amqp_get_monotonic_timestamp in
        if now_ns =? 0 then ret (time, AMQP_STATUS_TIMER_FAILURE)
        else ret (time_after now_ns delta_ns)
  end.

Definition amqp_time_s_from_now (time : amqp_time_t) (seconds : Z) :
    C S (amqp_time_t * Z) :=
  if seconds <=? 0 then ret (amqp_time_infinite, AMQP_STATUS_OK)
  else
    let* now_ns := amqp_get_monotonic_timestamp in
    if now_ns =? 0 then ret (time, AMQP_STATUS_TIMER_FAILURE)
    else ret (time_after now_ns (u64 (u64 seconds * AMQP_NS_PER_S))).

Definition amqp_time_ms_until (time : amqp_time_t) : C S Z :=
  if time_point_ns time =? UINT64_MAX then ret (-1)
  else if time_point_ns time =? 0 then ret 0
  else
    let* now_ns := amqp_get_monotonic_timestamp in
    if now_ns =? 0 then ret AMQP_STATUS_TIMER_FAILURE
    else if time_point_ns time <=? now_ns then ret 0
    else
      let delta_ns := u64 (time_point_ns time - now_ns) in
      ret (to_int (delta_ns / AMQP_NS_PER_MS)).

(** [None] is [*out = NULL]. *)
Definition amqp_time_tv_until (time : amqp_time_t) : C S (option timeval) :=
  if time_point_ns time =? UINT64_MAX then ret None
  else if time_point_ns time =? 0 then ret (Some {| tv_sec := 0; tv_usec := 0 |})
  else
    let* now_ns := amqp_get_monotonic_timestamp in
    if now_ns =? 0 then throw AMQP_STATUS_TIMER_FAILURE
    else if time_point_ns time <=? now_ns then ret (Some {| tv_sec := 0; tv_usec := 0 |})
    else
      let delta_ns := u64 (time_point_ns time - now_ns) in
      ret (Some {| tv_sec := to_int (delta_ns / AMQP_NS_PER_S);
                   tv_usec := to_int (delta_ns mod AMQP_NS_PER_S / AMQP_NS_PER_US) |}).

(** Returns [AMQP_STATUS_OK] or [AMQP_STATUS_TIMEOUT]. *)
Definition amqp_time_has_past (time : amqp_time_t) : C S Z :=
  if time_point_ns time =? UINT64_MAX then ret AMQP_STATUS_OK
  else
    let* now_ns := amqp_get_monotonic_timestamp in
    if now_ns =? 0 then ret AMQP_STATUS_TIMER_FAILURE
    else if time_point_ns time <? now_ns then ret AMQP_STATUS_TIMEOUT
    else ret AMQP_STATUS_OK.

Definition amqp_time_first (l r : amqp_time_t) : amqp_time_t :=
  if time_point_ns l <? time_point_ns r then l else r.

Definition amqp_time_equal (l r : amqp_time_t) : bool := time_point_ns l =? time_point_ns r.

(** ** Theorems *)

Lemma u64_small z : 0 <= z < 2 ^ 64 -> u64 z = z.
Proof. apply wrap_small. Qed.

Lemma time_after_spec now delta :
  in_u 64 now -> in_u 64 delta ->
  if now + delta <? 2 ^ 64
  then time_after now delta = ({| time_point_ns := now + delta |}, AMQP_STATUS_OK)
  else (time_after now delta).2 = AMQP_STATUS_INVALID_PARAMETER.
Proof.
  unfold in_u, time_after. intros Hn Hd. destruct (Z.ltb_spec (now + delta) (2 ^ 64)) as [Hlt|Hge].
  - rewrite u64_small by lia.
    rewrite (proj2 (Z.ltb_ge _ _)), (proj2 (Z.ltb_ge _ _)) by lia. done.
  - replace (u64 (now + delta)) with (now + delta - 2 ^ 64).
    + by rewrite (proj2 (Z.ltb_lt _ now)) by lia.
    + unfold u64, wrap. rewrite <- (Z_mod_plus_full _ (-1)), Z.mod_small by lia. lia.
Qed.

Lemma timestamp_reads s s' sec nsec :
  clock_gettime s = Ret (Some (sec, nsec)) s' ->
  0 <= sec -> 0 <= nsec -> sec * 1000000000 + nsec < 2 ^ 64 ->
  amqp_get_monotonic_timestamp s = Ret (sec * 1000000000 + nsec) s'.
Proof.
  intros Hc Hs Hn Hlt. unfold amqp_get_monotonic_timestamp.
  rewrite (bind_ret _ _ _ _ _ Hc). unfold ret, AMQP_NS_PER_S. f_equal.
  rewrite (u64_small sec), (u64_small nsec), (u64_small (sec * _)), u64_small; lia.
Qed.


(** [amqp_time_ms_until] rounds the time left down to whole milliseconds,
    is 0 for a deadline that is not in the future, and is negative for a future
    deadline only when the milliseconds left exceed [INT_MAX] (the conversion to
    [int] keeps their low 32 bits). *)
Theorem time_ms_until_exact time s s' sec nsec :
  let now := sec * 1000000000 + nsec in
  clock_gettime s = Ret (Some (sec, nsec)) s' ->
  0 <= sec -> 0 <= nsec -> 0 < now < 2 ^ 64 ->
  0 < time_point_ns time < UINT64_MAX ->
  amqp_time_ms_until time s = Ret (to_int (Z.max 0 (time_point_ns time - now) / 1000000)) s' /\
  (time_point_ns time - now < 2147483648 * 1000000 ->
   to_int (Z.max 0 (time_point_ns time - now) / 1000000) =
     Z.max 0 (time_point_ns time - now) / 1000000).
Proof.
  intros now Hc Hs Hn Hnow Ht. unfold now, UINT64_MAX in *. split.
  - unfold amqp_time_ms_until, UINT64_MAX.
    rewrite !(proj2 (Z.eqb_neq _ _)) by lia.
    rewrite (bind_ret _ _ _ _ _ (timestamp_reads _ _ _ _ Hc Hs Hn ltac:(lia))).
    rewrite (proj2 (Z.eqb_neq _ _)) by lia.
    case_match eqn:Hle.
    + apply Z.leb_le in Hle. by rewrite Z.max_l by lia.
    + apply Z.leb_gt in Hle. rewrite Z.max_r, u64_small by lia. done.
  - intros Hlt. apply to_int_small.
    split; [apply Z.div_pos; lia|]. apply Z.div_lt_upper_bound; lia.
Qed.

(** Waiting on [amqp_time_first] of two deadlines times out exactly when one
    of them is past: [amqp_time_has_past] of it is [AMQP_STATUS_TIMEOUT] when the
    clock is strictly after [l] or after [r] and [AMQP_STATUS_OK] when it is after
    neither, "never" being later than every time the clock shows. *)
Theorem time_has_past_exact l r s s' sec nsec :
  let now := sec * 1000000000 + nsec in
  clock_gettime s = Ret (Some (sec, nsec)) s' ->
  0 <= sec -> 0 <= nsec -> 0 < now < UINT64_MAX ->
  0 <= time_point_ns l <= UINT64_MAX -> 0 <= time_point_ns r <= UINT64_MAX ->
  (exists s'' c, amqp_time_has_past (amqp_time_first l r) s = Ret c s'' /\
    (c = AMQP_STATUS_TIMEOUT <-> time_point_ns l < now \/ time_point_ns r < now) /\
    (c = AMQP_STATUS_OK <-> now <= time_point_ns l /\ now <= time_point_ns r)).
Proof.
  intros now Hc Hs Hn Hnow Hl Hr. unfold now, UINT64_MAX in *.
  assert (Hf : time_point_ns (amqp_time_first l r) = Z.min (time_point_ns l) (time_point_ns r)).
  { unfold amqp_time_first. destruct (Z.ltb_spec (time_point_ns l) (time_point_ns r)); lia. }
  unfold amqp_time_has_past, UINT64_MAX. rewrite Hf. case_match eqn:Hi.
  - apply Z.eqb_eq in Hi. eexists _, _. split; [done|].
    unfold AMQP_STATUS_OK, AMQP_STATUS_TIMEOUT. lia.
  - rewrite (bind_ret _ _ _ _ _ (timestamp_reads _ _ _ _ Hc Hs Hn ltac:(lia))).
    rewrite (proj2 (Z.eqb_neq _ _)) by lia.
    case_match eqn:Hp; [apply Z.ltb_lt in Hp|apply Z.ltb_ge in Hp];
      eexists _, _; (split; [done|]); unfold AMQP_STATUS_OK, AMQP_STATUS_TIMEOUT; lia.
Qed.
End Time.

(** A clock that shows the same time for ever. *)
Definition stopped_clock (sec nsec : Z) : Clock unit :=
  {| clock_gettime := ret (Some (sec, nsec)) |}.


Lemma time_ms_until_exact_witness :
  @amqp_time_ms_until unit (stopped_clock 5 7) (mk_time 7000000000) tt = Ret 1999 tt.
Proof.
  exact (proj1 (@time_ms_until_exact unit (stopped_clock 5 7) (mk_time 7000000000) tt tt 5 7
           eq_refl ltac:(lia) ltac:(lia) ltac:(lia) ltac:(unfold UINT64_MAX; simpl; lia))).
Defined.

Lemma time_has_past_exact_witness :
  exists s'' c, @amqp_time_has_past unit (stopped_clock 5 7)
    (amqp_time_first (mk_time 4000000000) amqp_time_infinite) tt = Ret c s'' /\
    (c = AMQP_STATUS_TIMEOUT <-> 4000000000 < 5000000007 \/ UINT64_MAX < 5000000007) /\
    (c = AMQP_STATUS_OK <-> 5000000007 <= 4000000000 /\ 5000000007 <= UINT64_MAX).
Proof.
  exact (@time_has_past_exact unit (stopped_clock 5 7) (mk_time 4000000000) amqp_time_infinite
           tt tt 5 7 eq_refl ltac:(lia) ltac:(lia) ltac:(unfold UINT64_MAX; lia)
           ltac:(split; vm_compute; discriminate) ltac:(split; vm_compute; discriminate)).
Defined.
