(* ===== verification/Frame.v ===== *)
(** * Frames: [amqp_frame_t] and [amqp_frame_to_bytes]

    The frame type of [include/rabbitmq-c/amqp.h], its serialisation in
    [librabbitmq/amqp_connection.c], and the AMQP 0-9-1 wire form of a frame. *)

From S2P Require Import Prelude Machine Status Alloc Codec Table Framing Methods MethodDecode MethodEncode MethodWire Properties PropertiesTheory Mem.

Definition HEADER_SIZE : Z := 7.
Definition FOOTER_SIZE : Z := 1.
Definition AMQP_PSEUDOFRAME_PROTOCOL_HEADER : Z := 65.

(** The union [payload]: the member that was written last.  [PL_none] is a union
    that was never written. *)
Inductive frame_payload : Type :=
| PL_none
| PL_method (id : Z) (decoded : amqp_decoded_t)
| PL_properties (class_id body_size : Z) (decoded : amqp_properties_t) (raw : amqp_bytes_t)
| PL_body_fragment (b : amqp_bytes_t)
| PL_protocol_header (transport_high transport_low version_major version_minor : Z).

Record amqp_frame_t : Type := mk_frame {
  frame_type : Z;
  channel : Z;
  payload : frame_payload
}.

(** ** Serialisation

    The state is the memory [buffer.bytes] points to. *)

(** [memcpy(amqp_offset(out_frame, o), bs, n)] *)
Definition put (o : Z) (bs : list Z) : C (list Z) unit := fun m =>
  match store o bs m with Some m' => Ret tt m' | None => UB end.

(** Work on [amqp_offset(out_frame, o)]. *)
Definition at_ptr {A} (o : Z) (m : C (list Z) A) : C (list Z) A := fun mem =>
  if (0 <=? o) && (o <=? zlen mem) then
    match m (drop (Z.to_nat o) mem) with
    | Ret a s => Ret a (take (Z.to_nat o) mem ++ s)
    | Err e s => Err e (take (Z.to_nat o) mem ++ s)
    | UB => UB
    | NoFuel => NoFuel
    end
  else UB.

Section Serialise.
Context `{Host}.

(** The [switch] on the frame type: writes the payload and gives
    [out_frame_len]. *)
Definition frame_payload_to_bytes (frame : amqp_frame_t) (buffer_len : Z) : C (list Z) Z :=
  if frame_type frame =? AMQP_FRAME_BODY then
    match payload frame with
    | PL_body_fragment body =>
        match bytes body with
        | None => undefined
        | Some src =>
            match load 0 (len body) src with
            | Some bs => do* put HEADER_SIZE bs in ret (len body)
            | None => undefined
            end
        end
    | _ => undefined
    end
  else if frame_type frame =? AMQP_FRAME_METHOD then
    match payload frame with
    | PL_method id decoded =>
        do* put HEADER_SIZE (amqp_e32 id) in
        let method_encoded_len := size_t (buffer_len - HEADER_SIZE - 4 - FOOTER_SIZE) in
        let* res := at_ptr (HEADER_SIZE + 4) (amqp_encode_method id decoded method_encoded_len) in
        if res <? 0 then throw res else ret (size_t (res + 4))
    | _ => undefined
    end
  else if frame_type frame =? AMQP_FRAME_HEADER then
    match payload frame with
    | PL_properties class_id body_size decoded _ =>
        do* put HEADER_SIZE (amqp_e16 class_id) in
        do* put (HEADER_SIZE + 2) (amqp_e16 0) in
        do* put (HEADER_SIZE + 4) (amqp_e64 body_size) in
        let properties_encoded_len := size_t (buffer_len - HEADER_SIZE - 12 - FOOTER_SIZE) in
        let* res := at_ptr (HEADER_SIZE + 12)
                      (amqp_encode_properties class_id decoded properties_encoded_len) in
        if res <? 0 then throw res else ret (size_t (res + 12))
    | _ => undefined
    end
  else if frame_type frame =? AMQP_FRAME_HEARTBEAT then ret 0
  else throw AMQP_STATUS_INVALID_PARAMETER.

(** Returns [encoded->len]; [encoded->bytes] is the start of the buffer. *)
Definition amqp_frame_to_bytes (frame : amqp_frame_t) (buffer_len : Z) : C (list Z) Z :=
  do* put 0 (amqp_e8 (frame_type frame)) in
  do* put 1 (amqp_e16 (channel frame)) in
  let* out_frame_len := frame_payload_to_bytes frame buffer_len in
  do* put 3 (amqp_e32 (u32 out_frame_len)) in
  do* put (size_t (HEADER_SIZE + out_frame_len)) (amqp_e8 AMQP_FRAME_END) in
  ret (size_t (out_frame_len + HEADER_SIZE + FOOTER_SIZE)).
End Serialise.

(** ** The wire form *)

Definition wire_payload (p : frame_payload) : list Z :=
  match p with
  | PL_none | PL_protocol_header _ _ _ _ => []
  | PL_method id d => be_encode 4 id ++ wire_method d
  | PL_properties cid size p _ =>
      be_encode 2 cid ++ be_encode 2 0 ++ be_encode 8 size ++ wire_properties p
  | PL_body_fragment b => contents b
  end.

(** Type, channel, payload size, payload, frame-end octet. *)
Definition wire_bytes (ft ch : Z) (body : list Z) : list Z :=
  be_encode 1 ft ++ be_encode 2 ch ++ be_encode 4 (zlen body) ++ body ++ be_encode 1 AMQP_FRAME_END.

Definition wire_frame (f : amqp_frame_t) : list Z :=
  wire_bytes (frame_type f) (channel f) (wire_payload (payload f)).

(** A frame whose type and payload agree and whose payload can be written. *)
Definition sendable (f : amqp_frame_t) : Prop :=
  in_u 16 (channel f) /\
  match payload f with
  | PL_none => frame_type f = AMQP_FRAME_HEARTBEAT
  | PL_method id d =>
      frame_type f = AMQP_FRAME_METHOD /\ id = method_number d /\
      Forall encodable_field (method_fields d)
  | PL_properties cid size p _ =>
      frame_type f = AMQP_FRAME_HEADER /\ cid = class_id p /\ in_u 64 size /\
      simple_flags (flags_of p) /\ fields_ok encodable_field p
  | PL_body_fragment b => frame_type f = AMQP_FRAME_BODY /\ readable b /\ is_Some (bytes b)
  | PL_protocol_header _ _ _ _ => False
  end.
