(* ===== verification/FrameTheorems.v ===== *)
(** * Theorems about sending frames *)

From S2P Require Import Prelude Machine Status Alloc Codec Table TableEncode TableDecode Framing Methods MethodDecode MethodEncode MethodWire MethodTheory MethodSafety MethodTheorems Properties PropertiesTheory PropertiesTheorems Mem MemTheory PoolTheorems TableTheorems Frame.

Lemma put_fits o bs m : 0 <= o -> o + zlen bs <= zlen m -> put o bs m = Ret tt (overwrite o bs m).
Proof. intros. unfold put. by rewrite store_Some. Qed.

Lemma at_ptr_overwrite {A} o (m : C (list Z) A) a w mem :
  0 <= o -> o + zlen w <= zlen mem ->
  m (drop (Z.to_nat o) mem) = Ret a (overwrite 0 w (drop (Z.to_nat o) mem)) ->
  at_ptr o m mem = Ret a (overwrite o w mem).
Proof.
  intros Ho Hl Hm. pose proof (zlen_nonneg w). unfold at_ptr.
  rewrite !(proj2 (Z.leb_le _ _)) by lia. cbn [andb]. rewrite Hm. f_equal. unfold overwrite.
  simpl. by rewrite drop_drop.
Qed.

Lemma at_ptr_err {A} o (m : C (list Z) A) e s mem :
  0 <= o <= zlen mem -> m (drop (Z.to_nat o) mem) = Err e s -> zlen s = zlen mem - o ->
  exists s', at_ptr o m mem = Err e s' /\ zlen s' = zlen mem.
Proof.
  intros Ho Hm Hs. unfold at_ptr. rewrite !(proj2 (Z.leb_le _ _)) by lia. cbn [andb]. rewrite Hm.
  eexists. split; [done|]. rewrite zlen_app. unfold zlen in *. rewrite length_take. lia.
Qed.

Lemma zlen_drop o (m : list Z) : 0 <= o <= zlen m -> zlen (drop (Z.to_nat o) m) = zlen m - o.
Proof. intros. unfold zlen in *. rewrite length_drop. lia. Qed.

(** Run the next store of a fixed-width field. *)
Ltac run_put := erewrite bind_ret; [|apply put_fits; [lia|rewrite zlen_be_encode; lia]].

Section Theorems.
Context {HH : Host}.

Lemma payload_to_bytes f blen mem :
  sendable f -> 8 + zlen (wire_payload (payload f)) <= blen -> blen <= zlen mem -> blen <= INT32_MAX ->
  frame_payload_to_bytes f blen mem =
    Ret (zlen (wire_payload (payload f))) (overwrite 7 (wire_payload (payload f)) mem).
Proof.
  unfold INT32_MAX. intros [_ Hs] Hfit Hb Hmax. unfold frame_payload_to_bytes, HEADER_SIZE, FOOTER_SIZE.
  destruct f as [ft ch [|id d|cid size p raw|b|]]; simpl in *.
  - subst ft. simpl. change (zlen []) with 0 in *. by rewrite overwrite_nil by lia.
  - destruct Hs as (-> & -> & Henc). rewrite zlen_app, zlen_be_encode in Hfit.
    pose proof (zlen_nonneg (wire_method d)). simpl.
    rewrite amqp_e32_be. unfold bind at 1. rewrite put_fits by (rewrite ?zlen_be_encode; lia).
    set (m1 := overwrite 7 _ mem).
    assert (Hm1 : zlen m1 = zlen mem) by (apply zlen_overwrite; rewrite ?zlen_be_encode; lia).
    rewrite size_t_small by lia.
    erewrite bind_ret; [|apply at_ptr_overwrite; [lia|..|apply encode_method_fits]];
      [|lia|done|rewrite zlen_drop; lia|unfold INT32_MAX; lia|lia].
    rewrite (proj2 (Z.ltb_ge _ _)), size_t_small by lia.
    rewrite zlen_app, zlen_be_encode. unfold ret, m1. f_equal; [lia|].
    rewrite <- overwrite_app by (rewrite ?zlen_be_encode; lia). by rewrite zlen_be_encode.
  - destruct Hs as (-> & -> & Hsz & Hfl & Henc).
    rewrite !zlen_app, !zlen_be_encode in Hfit. pose proof (zlen_nonneg (wire_properties p)). simpl.
    rewrite !amqp_e16_be, amqp_e64_be. change (7 + 2) with 9. change (7 + 4) with 11. change (7 + 12) with 19.
    run_put.
    set (m1 := overwrite 7 _ mem).
    assert (Hm1 : zlen m1 = zlen mem) by (apply zlen_overwrite; rewrite ?zlen_be_encode; lia).
    run_put.
    set (m2 := overwrite 9 _ m1).
    assert (Hm2 : zlen m2 = zlen mem) by (unfold m2; rewrite zlen_overwrite; rewrite ?zlen_be_encode; lia).
    run_put.
    set (m3 := overwrite 11 _ m2).
    assert (Hm3 : zlen m3 = zlen mem) by (unfold m3; rewrite zlen_overwrite; rewrite ?zlen_be_encode; lia).
    rewrite size_t_small by lia.
    erewrite bind_ret; [|apply at_ptr_overwrite; [lia|..|apply encode_properties_fits]];
      [|lia|done|done|rewrite zlen_drop; lia|unfold INT32_MAX; lia|lia].
    rewrite (proj2 (Z.ltb_ge _ _)), size_t_small by lia.
    rewrite !zlen_app, !zlen_be_encode. unfold ret. f_equal; [lia|].
    rewrite <- !(overwrite_app 7), !zlen_be_encode by (rewrite ?zlen_app, ?zlen_be_encode; lia).
    change (7 + Z.of_nat 2) with 9. fold m1.
    rewrite <- (overwrite_app 9), !zlen_be_encode by (rewrite ?zlen_app, ?zlen_be_encode; lia).
    change (9 + Z.of_nat 2) with 11. fold m2.
    rewrite <- (overwrite_app 11), !zlen_be_encode by (rewrite ?zlen_be_encode; lia).
    done.
  - destruct Hs as (-> & Hr & [m Hm]). simpl. rewrite Hm. pose proof Hr as [Hl Hp].
    unfold contents, mem_of in *. rewrite Hm in *. simpl in *. rewrite zlen_slice in Hfit by lia.
    rewrite load_Some by lia. rewrite zlen_slice by lia.
    erewrite bind_ret; [done|]. apply put_fits; [lia|]. rewrite zlen_slice; lia.
  - done.
Qed.

Lemma zlen_wire_frame f : zlen (wire_frame f) = 8 + zlen (wire_payload (payload f)).
Proof. unfold wire_frame, wire_bytes. rewrite !zlen_app, !zlen_be_encode. lia. Qed.

Lemma frame_to_bytes_fits f blen mem :
  sendable f -> zlen (wire_frame f) <= blen -> blen <= zlen mem -> blen <= INT32_MAX ->
  amqp_frame_to_bytes f blen mem = Ret (zlen (wire_frame f)) (overwrite 0 (wire_frame f) mem).
Proof.
  intros Hs Hfit Hb Hmax. rewrite zlen_wire_frame in *. unfold INT32_MAX in *.
  set (w := wire_payload (payload f)) in *. pose proof (zlen_nonneg w).
  unfold amqp_frame_to_bytes, HEADER_SIZE, FOOTER_SIZE. rewrite !amqp_e8_be, amqp_e16_be.
  run_put.
  set (m0 := overwrite 0 _ mem).
  assert (Hm0 : zlen m0 = zlen mem) by (apply zlen_overwrite; rewrite ?zlen_be_encode; lia).
  run_put.
  set (m1 := overwrite 1 _ m0).
  assert (Hm1 : zlen m1 = zlen mem) by (unfold m1; rewrite zlen_overwrite; rewrite ?zlen_be_encode; lia).
  rewrite (bind_ret _ _ _ _ _ (payload_to_bytes f blen m1 Hs Hfit ltac:(lia) Hmax)). fold w.
  unfold u32. rewrite (wrap_small 32) by (unfold in_u; lia). rewrite amqp_e32_be.
  assert (Hm2 : zlen (overwrite 7 w m1) = zlen mem) by (rewrite zlen_overwrite; lia).
  run_put.
  assert (Hm3 : overwrite 3 (be_encode 4 (zlen w)) (overwrite 7 w m1) =
                overwrite 3 (be_encode 4 (zlen w) ++ w) m1).
  { rewrite <- overwrite_patch by (rewrite ?zlen_be_encode; lia). by rewrite zlen_be_encode. }
  rewrite Hm3, !size_t_small by lia.
  erewrite bind_ret; [|apply put_fits; [lia|]];
    [|rewrite zlen_overwrite, zlen_be_encode; rewrite ?zlen_app, ?zlen_be_encode; lia].
  unfold ret. f_equal; [lia|]. unfold wire_frame, wire_bytes. fold w.
  rewrite (app_assoc (be_encode 4 _)), (app_assoc (be_encode 2 _)), (app_assoc (be_encode 1 (frame_type f))).
  rewrite <- (overwrite_app 0) by (rewrite ?zlen_app, ?zlen_be_encode; lia).
  rewrite <- (overwrite_app 0 (be_encode 1 (frame_type f))) by (rewrite ?zlen_app, ?zlen_be_encode; lia).
  rewrite <- (overwrite_app (0 + zlen (be_encode 1 (frame_type f)))) by
    (fold m0; rewrite ?zlen_app, ?zlen_be_encode, ?Hm0; lia).
  rewrite !zlen_app, !zlen_be_encode. change (0 + Z.of_nat 1) with 1.
  change (1 + Z.of_nat 2) with 3. fold m0. fold m1. f_equal. lia.
Qed.

(** [amqp_frame_to_bytes] writes exactly the wire form of the frame, its
    type, channel, payload size, payload and the frame-end octet, at the start
    of the buffer, leaves the rest of the buffer alone and returns the length,
    for every frame that fits. *)
Theorem frame_to_bytes_writes_wire f blen mem :
  sendable f -> zlen (wire_frame f) <= blen -> blen <= zlen mem -> blen <= INT32_MAX ->
  amqp_frame_to_bytes f blen mem = Ret (zlen (wire_frame f)) (overwrite 0 (wire_frame f) mem).
Proof. apply frame_to_bytes_fits. Qed.

Lemma bind_err {S A B} (m : C S A) (k : A -> C S B) s e s' :
  m s = Err e s' -> bind m k s = Err e s'.
Proof. unfold bind. by intros ->. Qed.

(** The payload of a method or content header that does not fit. *)
Lemma payload_too_big f blen mem :
  sendable f -> frame_type f = AMQP_FRAME_METHOD \/ frame_type f = AMQP_FRAME_HEADER ->
  20 <= blen -> blen <= zlen mem -> blen <= INT32_MAX ->
  blen < 8 + zlen (wire_payload (payload f)) ->
  exists e mem', frame_payload_to_bytes f blen mem = Err e mem' /\
    (e = AMQP_STATUS_TABLE_TOO_BIG \/ e = AMQP_STATUS_BAD_AMQP_DATA) /\ zlen mem' = zlen mem.
Proof.
  unfold INT32_MAX. intros [_ Hs] Hty Hlo Hb Hmax Hbig.
  unfold frame_payload_to_bytes, HEADER_SIZE, FOOTER_SIZE.
  destruct f as [ft ch [|id d|cid size p raw|b|]]; simpl in *.
  - subst ft. by destruct Hty.
  - destruct Hs as (-> & -> & Henc). rewrite zlen_app, zlen_be_encode in Hbig. simpl.
    rewrite amqp_e32_be. run_put. rewrite size_t_small by lia. set (m1 := overwrite 7 _ mem).
    assert (Hm1 : zlen m1 = zlen mem) by (apply zlen_overwrite; rewrite ?zlen_be_encode; lia).
    assert (Hd : zlen (drop (Z.to_nat (7 + 4)) m1) = zlen mem - 11) by (rewrite zlen_drop; lia).
    destruct (encode_method_full d (blen - 7 - 4 - 1) (drop (Z.to_nat (7 + 4)) m1))
      as (e & mem' & Hrun & He & Hz); [done|lia|unfold INT32_MAX; lia|lia|].
    destruct (at_ptr_err (7 + 4) _ e mem' m1 ltac:(lia) Hrun ltac:(lia)) as (s' & Hat & Hs').
    exists e, s'. rewrite (bind_err _ _ _ _ _ Hat). split_and!; [done..|lia].
  - destruct Hs as (-> & -> & Hsz & Hfl & Henc). rewrite !zlen_app, !zlen_be_encode in Hbig. simpl.
    rewrite !amqp_e16_be, amqp_e64_be. run_put. set (m1 := overwrite 7 _ mem).
    assert (Hm1 : zlen m1 = zlen mem) by (apply zlen_overwrite; rewrite ?zlen_be_encode; lia).
    run_put. set (m2 := overwrite _ _ m1).
    assert (Hm2 : zlen m2 = zlen mem) by (unfold m2; rewrite zlen_overwrite; rewrite ?zlen_be_encode; lia).
    run_put. set (m3 := overwrite _ _ m2).
    assert (Hm3 : zlen m3 = zlen mem) by (unfold m3; rewrite zlen_overwrite; rewrite ?zlen_be_encode; lia).
    rewrite size_t_small by lia.
    assert (Hd : zlen (drop (Z.to_nat (7 + 12)) m3) = zlen mem - 19) by (rewrite zlen_drop; lia).
    destruct (encode_properties_full p (blen - 7 - 12 - 1) (drop (Z.to_nat (7 + 12)) m3))
      as (e & mem' & Hrun & He & Hz); [done|done|lia|unfold INT32_MAX; lia|lia|].
    destruct (at_ptr_err (7 + 12) _ e mem' m3 ltac:(lia) Hrun ltac:(lia)) as (s' & Hat & Hs').
    exists e, s'. rewrite (bind_err _ _ _ _ _ Hat). split_and!; [done..|lia].
  - destruct Hs as (-> & _). by destruct Hty.
  - done.
Qed.

(** A method or content header that does not fit in the outbound buffer (of
    at least 20 bytes) is reported as [AMQP_STATUS_TABLE_TOO_BIG] or
    [AMQP_STATUS_BAD_AMQP_DATA] and nothing is written past the buffer. *)
Theorem frame_to_bytes_too_big f blen mem :
  sendable f -> frame_type f = AMQP_FRAME_METHOD \/ frame_type f = AMQP_FRAME_HEADER ->
  20 <= blen -> blen <= zlen mem -> blen <= INT32_MAX -> blen < zlen (wire_frame f) ->
  exists e mem', amqp_frame_to_bytes f blen mem = Err e mem' /\
    (e = AMQP_STATUS_TABLE_TOO_BIG \/ e = AMQP_STATUS_BAD_AMQP_DATA) /\ zlen mem' = zlen mem.
Proof.
  intros Hs Hty Hlo Hb Hmax Hbig. rewrite zlen_wire_frame in Hbig. unfold amqp_frame_to_bytes.
  rewrite amqp_e8_be, amqp_e16_be. run_put. set (m0 := overwrite 0 _ mem).
  assert (Hm0 : zlen m0 = zlen mem) by (apply zlen_overwrite; rewrite ?zlen_be_encode; lia).
  run_put. set (m1 := overwrite 1 _ m0).
  assert (Hm1 : zlen m1 = zlen mem) by (unfold m1; rewrite zlen_overwrite; rewrite ?zlen_be_encode; lia).
  destruct (payload_too_big f blen m1) as (e & mem' & Hrun & He & Hz); [done..|lia|done|done|].
  exists e, mem'. rewrite (bind_err _ _ _ _ _ Hrun). split_and!; [done..|lia].
Qed.

(** The body of a frame is copied without a look at the size of the buffer:
    a body fragment that is longer than the buffer minus the frame header is
    written past the end of the outbound buffer, whatever the buffer's size
    says. *)
Theorem frame_to_bytes_body_overflow ch b m blen mem :
  in_u 16 ch -> bytes b = Some m -> 0 <= len b <= zlen m -> 3 <= zlen mem < 7 + len b ->
  amqp_frame_to_bytes {| frame_type := AMQP_FRAME_BODY; channel := ch;
                         payload := PL_body_fragment b |} blen mem = UB.
Proof.
  intros Hc Hb Hl Hbig. unfold amqp_frame_to_bytes, frame_payload_to_bytes. simpl.
  rewrite amqp_e8_be, amqp_e16_be. run_put. set (m0 := overwrite 0 _ mem).
  assert (Hm0 : zlen m0 = zlen mem) by (apply zlen_overwrite; rewrite ?zlen_be_encode; lia).
  run_put. set (m1 := overwrite 1 _ m0).
  assert (Hm1 : zlen m1 = zlen mem) by (unfold m1; rewrite zlen_overwrite; rewrite ?zlen_be_encode; lia).
  rewrite Hb, load_Some by lia. unfold bind, put, store, HEADER_SIZE.
  replace (in_bounds m1 7 _) with false; [done|]. symmetry. apply not_true_iff_false.
  rewrite in_bounds_spec, zlen_slice by lia. lia.
Qed.
End Theorems.

(** ** Examples *)

#[local] Existing Instance little_endian.

Definition sample_method_frame : amqp_frame_t :=
  {| frame_type := AMQP_FRAME_METHOD; channel := 1;
     payload := PL_method AMQP_QUEUE_DECLARE_METHOD sample_method |}.

Definition sample_header_frame : amqp_frame_t :=
  {| frame_type := AMQP_FRAME_HEADER; channel := 1;
     payload := PL_properties 60 5 sample_properties amqp_empty_bytes |}.

Lemma sample_method_frame_sendable : sendable sample_method_frame.
Proof. split; [by vm_compute|]. split_and!; [done..|apply sample_method_encodable]. Qed.

Lemma frame_to_bytes_writes_wire_witness :
  amqp_frame_to_bytes sample_method_frame 64 (replicate 64 0) =
    Ret 29 (overwrite 0 (wire_frame sample_method_frame) (replicate 64 0)).
Proof.
  apply (frame_to_bytes_writes_wire sample_method_frame 64 (replicate 64 0)
    sample_method_frame_sendable); vm_compute; discriminate.
Defined.

Lemma frame_to_bytes_too_big_witness :
  exists e mem', amqp_frame_to_bytes sample_method_frame 24 (replicate 24 0) = Err e mem' /\
    zlen mem' = 24.
Proof.
  destruct (frame_to_bytes_too_big sample_method_frame 24 (replicate 24 0)
    sample_method_frame_sendable (or_introl eq_refl) ltac:(lia) ltac:(vm_compute; discriminate)
    ltac:(vm_compute; discriminate) ltac:(by vm_compute)) as (e & mem' & Hrun & _ & Hz).
  exists e, mem'. split; [exact Hrun|exact Hz].
Defined.

Lemma frame_to_bytes_body_overflow_witness :
  amqp_frame_to_bytes {| frame_type := AMQP_FRAME_BODY; channel := 1;
    payload := PL_body_fragment (view (replicate 100 7)) |} 64 (replicate 64 0) = UB.
Proof.
  apply (frame_to_bytes_body_overflow 1 (view (replicate 100 7)) (replicate 100 7)).
  - by vm_compute.
  - done.
  - by vm_compute.
  - by vm_compute.
Defined.
