(* ===== verification/Connection.v ===== *)
(** * The connection state machine: [librabbitmq/amqp_connection.c]

    The connection structure, its creation, tuning and destruction, the
    incremental parser [amqp_handle_input] and the release of channel memory.
    A computation works on the connection, the heap and a world [W] that holds
    the clock and the sockets. *)

From S2P Require Import Prelude Machine Status Alloc Codec Table Framing Methods MethodDecode MethodEncode Properties Mem MemTheory Time Frame.

Inductive amqp_connection_state_enum : Type :=
| CONNECTION_STATE_IDLE
| CONNECTION_STATE_INITIAL
| CONNECTION_STATE_HEADER
| CONNECTION_STATE_BODY.

#[export] Instance state_enum_eq_dec : EqDecision amqp_connection_state_enum.
Proof. solve_decision. Defined.

(** Where [inbound_buffer.bytes] points: into the connection structure or into
    a pool. *)
Inductive inbound_ptr : Type := IB_header_buffer | IB_pool (p : ptr).

(** The fields of the connection the incremental parser works on. *)
Record reader_t : Type := mk_reader {
  state : amqp_connection_state_enum;
  header_buffer : list Z;
  inbound_len : Z;
  inbound_bytes : option inbound_ptr;
  inbound_offset : Z;
  target_size : Z
}.

Inductive amqp_response_type_enum : Type :=
| AMQP_RESPONSE_NONE
| AMQP_RESPONSE_NORMAL
| AMQP_RESPONSE_LIBRARY_EXCEPTION
| AMQP_RESPONSE_SERVER_EXCEPTION.

Record amqp_rpc_reply_t : Type := mk_reply {
  reply_type : amqp_response_type_enum;
  reply_id : Z;
  reply_decoded : option amqp_decoded_t;
  library_error : Z
}.

(** [struct amqp_connection_state_t_].  [self] is the block it lies in; the
    linked list of queued frames is a list; a pointer to a [struct timeval] is
    NULL or points to the structure's own copy. *)
Record amqp_connection_state_t : Type := mk_conn {
  self : ptr;
  pool_table : pool_table_t;
  reader : reader_t;
  channel_max : Z;
  frame_max : Z;
  heartbeat : Z;
  next_recv_heartbeat : amqp_time_t;
  next_send_heartbeat : amqp_time_t;
  outbound_buffer : heap_bytes;
  socket : option Z;
  sock_inbound_buffer : heap_bytes;
  sock_inbound_offset : Z;
  sock_inbound_limit : Z;
  queued_frames : list amqp_frame_t;
  most_recent_api_result : amqp_rpc_reply_t;
  server_properties : amqp_table_t;
  client_properties : amqp_table_t;
  properties_pool : amqp_pool_t;
  handshake_timeout : option timeval;
  rpc_timeout : option timeval
}.

Definition sizeof_amqp_connection_state_t : Z := 448.
Definition sizeof_header_buffer : Z := HEADER_SIZE + 1.
Definition AMQP_INITIAL_FRAME_POOL_PAGE_SIZE : Z := 65536.
Definition AMQP_INITIAL_INBOUND_SOCK_BUFFER_SIZE : Z := 131072.
Definition AMQP_DEFAULT_LOGIN_TIMEOUT_SEC : Z := 12.

(** ** Field updates *)

Definition set_reader (r : reader_t) (c : amqp_connection_state_t) : amqp_connection_state_t :=
  {| self := self c; pool_table := pool_table c; reader := r; channel_max := channel_max c;
     frame_max := frame_max c; heartbeat := heartbeat c;
     next_recv_heartbeat := next_recv_heartbeat c; next_send_heartbeat := next_send_heartbeat c;
     outbound_buffer := outbound_buffer c; socket := socket c;
     sock_inbound_buffer := sock_inbound_buffer c; sock_inbound_offset := sock_inbound_offset c;
     sock_inbound_limit := sock_inbound_limit c; queued_frames := queued_frames c;
     most_recent_api_result := most_recent_api_result c; server_properties := server_properties c;
     client_properties := client_properties c; properties_pool := properties_pool c;
     handshake_timeout := handshake_timeout c; rpc_timeout := rpc_timeout c |}.

Definition set_pool_table (t : pool_table_t) (c : amqp_connection_state_t) : amqp_connection_state_t :=
  {| self := self c; pool_table := t; reader := reader c; channel_max := channel_max c;
     frame_max := frame_max c; heartbeat := heartbeat c;
     next_recv_heartbeat := next_recv_heartbeat c; next_send_heartbeat := next_send_heartbeat c;
     outbound_buffer := outbound_buffer c; socket := socket c;
     sock_inbound_buffer := sock_inbound_buffer c; sock_inbound_offset := sock_inbound_offset c;
     sock_inbound_limit := sock_inbound_limit c; queued_frames := queued_frames c;
     most_recent_api_result := most_recent_api_result c; server_properties := server_properties c;
     client_properties := client_properties c; properties_pool := properties_pool c;
     handshake_timeout := handshake_timeout c; rpc_timeout := rpc_timeout c |}.

Definition set_tuning (cmax fmax hb : Z) (recv send : amqp_time_t) (out : heap_bytes)
    (c : amqp_connection_state_t) : amqp_connection_state_t :=
  {| self := self c; pool_table := pool_table c; reader := reader c; channel_max := cmax;
     frame_max := fmax; heartbeat := hb; next_recv_heartbeat := recv; next_send_heartbeat := send;
     outbound_buffer := out; socket := socket c;
     sock_inbound_buffer := sock_inbound_buffer c; sock_inbound_offset := sock_inbound_offset c;
     sock_inbound_limit := sock_inbound_limit c; queued_frames := queued_frames c;
     most_recent_api_result := most_recent_api_result c; server_properties := server_properties c;
     client_properties := client_properties c; properties_pool := properties_pool c;
     handshake_timeout := handshake_timeout c; rpc_timeout := rpc_timeout c |}.

Definition set_next_send (t : amqp_time_t) (c : amqp_connection_state_t) : amqp_connection_state_t :=
  set_tuning (channel_max c) (frame_max c) (heartbeat c) (next_recv_heartbeat c) t (outbound_buffer c) c.
Definition set_next_recv (t : amqp_time_t) (c : amqp_connection_state_t) : amqp_connection_state_t :=
  set_tuning (channel_max c) (frame_max c) (heartbeat c) t (next_send_heartbeat c) (outbound_buffer c) c.
Definition set_outbound (b : heap_bytes) (c : amqp_connection_state_t) : amqp_connection_state_t :=
  set_tuning (channel_max c) (frame_max c) (heartbeat c) (next_recv_heartbeat c) (next_send_heartbeat c) b c.

Definition set_sock_inbound (buf : heap_bytes) (off lim : Z) (c : amqp_connection_state_t)
    : amqp_connection_state_t :=
  {| self := self c; pool_table := pool_table c; reader := reader c; channel_max := channel_max c;
     frame_max := frame_max c; heartbeat := heartbeat c;
     next_recv_heartbeat := next_recv_heartbeat c; next_send_heartbeat := next_send_heartbeat c;
     outbound_buffer := outbound_buffer c; socket := socket c;
     sock_inbound_buffer := buf; sock_inbound_offset := off; sock_inbound_limit := lim;
     queued_frames := queued_frames c;
     most_recent_api_result := most_recent_api_result c; server_properties := server_properties c;
     client_properties := client_properties c; properties_pool := properties_pool c;
     handshake_timeout := handshake_timeout c; rpc_timeout := rpc_timeout c |}.

Definition set_defaults (pool : amqp_pool_t) (timeout : option timeval) (c : amqp_connection_state_t)
    : amqp_connection_state_t :=
  {| self := self c; pool_table := pool_table c; reader := reader c; channel_max := channel_max c;
     frame_max := frame_max c; heartbeat := heartbeat c;
     next_recv_heartbeat := next_recv_heartbeat c; next_send_heartbeat := next_send_heartbeat c;
     outbound_buffer := outbound_buffer c; socket := socket c;
     sock_inbound_buffer := sock_inbound_buffer c; sock_inbound_offset := sock_inbound_offset c;
     sock_inbound_limit := sock_inbound_limit c; queued_frames := queued_frames c;
     most_recent_api_result := most_recent_api_result c; server_properties := server_properties c;
     client_properties := client_properties c; properties_pool := pool;
     handshake_timeout := timeout; rpc_timeout := rpc_timeout c |}.

(** ** The machine state *)

Record cst (W : Type) : Type := mk_cst { conn : amqp_connection_state_t; hp : heap; world : W }.
Arguments mk_cst {W}.
Arguments conn {W}.
Arguments hp {W}.
Arguments world {W}.

(** [struct amqp_socket_class_t]: the operations of the sockets of the world,
    which are known by number.  [recv] returns its result and what it has put
    into the buffer; [delete] may give the socket's own memory back. *)
Class Sockets (W : Type) : Type := {
  klass_send : Z -> list Z -> Z -> C W Z;
  klass_recv : Z -> Z -> Z -> C W (Z * list Z);
  klass_open : Z -> list Z -> Z -> option timeval -> C W Z;
  klass_close : Z -> Z -> C W Z;
  klass_get_sockfd : Z -> C W Z;
  klass_delete : Z -> C (heap * W) unit
}.

(** [amqp_abort] prints a message and ends the process: no caller continues. *)
Definition amqp_abort {S A} : C S A := undefined.

Section Conn.
Context {W : Type} {HC : Clock W} {HS : Sockets W}.
Abbreviation CC A := (C (cst W) A).

Definition the_conn : CC amqp_connection_state_t := fun s => Ret (conn s) s.
Definition upd (f : amqp_connection_state_t -> amqp_connection_state_t) : CC unit := fun s =>
  Ret tt {| conn := f (conn s); hp := hp s; world := world s |}.

Definition on_mem {A} (m : C heap A) : CC A := fun s =>
  match m (hp s) with
  | Ret a h => Ret a {| conn := conn s; hp := h; world := world s |}
  | Err e h => Err e {| conn := conn s; hp := h; world := world s |}
  | UB => UB
  | NoFuel => NoFuel
  end.

Definition on_world {A} (m : C W A) : CC A := fun s =>
  match m (world s) with
  | Ret a w => Ret a {| conn := conn s; hp := hp s; world := w |}
  | Err e w => Err e {| conn := conn s; hp := hp s; world := w |}
  | UB => UB
  | NoFuel => NoFuel
  end.

Definition on_both {A} (m : C (heap * W) A) : CC A := fun s =>
  match m (hp s, world s) with
  | Ret a (h, w) => Ret a {| conn := conn s; hp := h; world := w |}
  | Err e (h, w) => Err e {| conn := conn s; hp := h; world := w |}
  | UB => UB
  | NoFuel => NoFuel
  end.

#[export] Instance conn_clock : Clock (cst W) := {| clock_gettime := on_world clock_gettime |}.

(** [amqp_get_or_create_channel_pool(state, channel)]; the result tells whether
    the pointer is non-NULL. *)
Definition get_or_create_pool (channel : Z) : CC bool :=
  let* c := the_conn in
  let* '(pool, table) :=
    on_mem (amqp_get_or_create_channel_pool (pool_table c) (frame_max c) channel) in
  do* upd (set_pool_table table) in
  ret (match pool with Some _ => true | None => false end).

(** Work with the pool [channel_pool] points to. *)
Definition in_channel_pool {A} (channel : Z) (m : C pstate A) : CC A := fun s =>
  match amqp_get_channel_pool (pool_table (conn s)) channel with
  | None => UB
  | Some pool =>
      let back (p : pstate) : cst W :=
        {| conn := set_pool_table (set_channel_pool (pool_table (conn s)) channel (ps_pool p)) (conn s);
           hp := ps_heap p; world := world s |} in
      match m {| ps_heap := hp s; ps_pool := pool |} with
      | Ret a p => Ret a (back p)
      | Err e p => Err e (back p)
      | UB => UB
      | NoFuel => NoFuel
      end
  end.

(** ** Tuning *)

Definition amqp_heartbeat_send (c : amqp_connection_state_t) : Z := heartbeat c.

(** [2 * state->heartbeat] overflows [int] above [INT_MAX / 2]. *)
Definition amqp_heartbeat_recv (c : amqp_connection_state_t) : CC Z :=
  if INT32_MAX <? 2 * heartbeat c then undefined else ret (2 * heartbeat c).

(** [amqp_time_s_from_now(&state->next_..._heartbeat, seconds)] *)
Definition restart_send_timer : CC Z :=
  let* c := the_conn in
  let* '(t, res) := amqp_time_s_from_now (next_send_heartbeat c) (amqp_heartbeat_send c) in
  do* upd (set_next_send t) in
  ret res.

Definition restart_recv_timer : CC Z :=
  let* c := the_conn in
  let* seconds := amqp_heartbeat_recv c in
  let* '(t, res) := amqp_time_s_from_now (next_recv_heartbeat c) seconds in
  do* upd (set_next_recv t) in
  ret res.

(** [realloc] of a pointer that may be NULL. *)
Definition realloc_null (p : option ptr) (n : Z) : C heap (option ptr) :=
  match p with None => c_malloc n | Some p => c_realloc p n end.

(** Returns the status. *)
Definition amqp_tune_connection (cmax fmax hb : Z) : CC Z :=
  let* c := the_conn in
  if bool_decide (state (reader c) = CONNECTION_STATE_IDLE) then
    do* upd (fun c => set_tuning cmax fmax (if hb <? 0 then 0 else hb) (next_recv_heartbeat c)
                        (next_send_heartbeat c) (outbound_buffer c) c) in
    let* res := restart_send_timer in
    if negb (res =? AMQP_STATUS_OK) then ret res
    else
      let* res := restart_recv_timer in
      if negb (res =? AMQP_STATUS_OK) then ret res
      else
        let old := hb_bytes (outbound_buffer c) in
        do* upd (set_outbound {| hb_len := size_t fmax; hb_bytes := old |}) in
        let* newbuf := on_mem (realloc_null old (size_t fmax)) in
        match newbuf with
        | None => ret AMQP_STATUS_NO_MEMORY
        | Some p =>
            do* upd (set_outbound {| hb_len := size_t fmax; hb_bytes := Some p |}) in
            ret AMQP_STATUS_OK
        end
  else amqp_abort.

Definition amqp_get_channel_max (c : amqp_connection_state_t) : Z := channel_max c.
Definition amqp_get_frame_max (c : amqp_connection_state_t) : Z := frame_max c.
Definition amqp_get_heartbeat (c : amqp_connection_state_t) : Z := heartbeat c.

(** ** Sockets *)

(** [amqp_socket_delete], which accepts NULL. *)
Definition amqp_socket_delete (s : option Z) : CC unit :=
  match s with None => ret tt | Some i => on_both (klass_delete i) end.

Definition set_socket (s : option Z) (c : amqp_connection_state_t) : amqp_connection_state_t :=
  {| self := self c; pool_table := pool_table c; reader := reader c; channel_max := channel_max c;
     frame_max := frame_max c; heartbeat := heartbeat c;
     next_recv_heartbeat := next_recv_heartbeat c; next_send_heartbeat := next_send_heartbeat c;
     outbound_buffer := outbound_buffer c; socket := s;
     sock_inbound_buffer := sock_inbound_buffer c; sock_inbound_offset := sock_inbound_offset c;
     sock_inbound_limit := sock_inbound_limit c; queued_frames := queued_frames c;
     most_recent_api_result := most_recent_api_result c; server_properties := server_properties c;
     client_properties := client_properties c; properties_pool := properties_pool c;
     handshake_timeout := handshake_timeout c; rpc_timeout := rpc_timeout c |}.

Definition amqp_set_socket (s : option Z) : CC unit :=
  let* c := the_conn in
  do* amqp_socket_delete (socket c) in
  upd (set_socket s).

Definition amqp_get_socket (c : amqp_connection_state_t) : option Z := socket c.

(** ** Creation and destruction *)

Definition zero_pool : amqp_pool_t :=
  {| pagesize := 0; pages := empty_list; large_blocks := empty_list; next_page := 0;
     alloc_block := None; alloc_used := 0 |}.

(** What [calloc] leaves in the structure. *)
Definition zeroed_connection (p : ptr) : amqp_connection_state_t :=
  {| self := p; pool_table := replicate (Z.to_nat POOL_TABLE_SIZE) [];
     reader := {| state := CONNECTION_STATE_IDLE;
                  header_buffer := replicate (Z.to_nat sizeof_header_buffer) 0;
                  inbound_len := 0; inbound_bytes := None; inbound_offset := 0;
                  target_size := 0 |};
     channel_max := 0; frame_max := 0; heartbeat := 0;
     next_recv_heartbeat := {| time_point_ns := 0 |}; next_send_heartbeat := {| time_point_ns := 0 |};
     outbound_buffer := {| hb_len := 0; hb_bytes := None |}; socket := None;
     sock_inbound_buffer := {| hb_len := 0; hb_bytes := None |};
     sock_inbound_offset := 0; sock_inbound_limit := 0; queued_frames := [];
     most_recent_api_result := {| reply_type := AMQP_RESPONSE_NONE; reply_id := 0;
                                  reply_decoded := None; library_error := 0 |};
     server_properties := []; client_properties := []; properties_pool := zero_pool;
     handshake_timeout := None; rpc_timeout := None |}.

(** [out_nomem:]; returns whether there is a connection to return. *)
Definition out_nomem : CC bool :=
  let* c := the_conn in
  do* on_mem (c_free (hb_bytes (sock_inbound_buffer c))) in
  do* on_mem (c_free (Some (self c))) in
  ret false.

(** [amqp_new_connection] after the [calloc]. *)
Definition init_connection : CC bool :=
  let* res := amqp_tune_connection 0 AMQP_INITIAL_FRAME_POOL_PAGE_SIZE 0 in
  if negb (res =? 0) then out_nomem
  else
    do* upd (fun c => set_reader {| state := CONNECTION_STATE_INITIAL;
                                    header_buffer := header_buffer (reader c);
                                    inbound_len := sizeof_header_buffer;
                                    inbound_bytes := Some IB_header_buffer;
                                    inbound_offset := inbound_offset (reader c);
                                    target_size := 8 |} c) in
    let* p := on_mem (c_malloc AMQP_INITIAL_INBOUND_SOCK_BUFFER_SIZE) in
    do* upd (fun c => set_sock_inbound
               {| hb_len := AMQP_INITIAL_INBOUND_SOCK_BUFFER_SIZE; hb_bytes := p |}
               (sock_inbound_offset c) (sock_inbound_limit c) c) in
    match p with
    | None => out_nomem
    | Some _ =>
        do* upd (set_defaults (init_amqp_pool 512)
                   (Some {| tv_sec := AMQP_DEFAULT_LOGIN_TIMEOUT_SEC; tv_usec := 0 |})) in
        ret true
    end.

Definition amqp_new_connection : C (heap * W) (option amqp_connection_state_t) := fun '(h, w) =>
  match c_calloc sizeof_amqp_connection_state_t h with
  | Ret None h' => Ret None (h', w)
  | Ret (Some p) h' =>
      match init_connection {| conn := zeroed_connection p; hp := h'; world := w |} with
      | Ret true s => Ret (Some (conn s)) (hp s, world s)
      | Ret false s => Ret None (hp s, world s)
      | Err e s => Err e (hp s, world s)
      | UB => UB
      | NoFuel => NoFuel
      end
  | Err e h' => Err e (h', w)
  | UB => UB
  | NoFuel => NoFuel
  end.

(** [while (NULL != entry) { empty the pool, move on, free the entry }] *)
Definition destroy_entry (e : amqp_pool_table_entry_t) : CC unit :=
  let* _ := on_mem (empty_amqp_pool (entry_pool e)) in
  on_mem (c_free (Some (entry_block e))).

Definition amqp_destroy_connection : CC Z :=
  let* c := the_conn in
  do* for_each (for_each destroy_entry) (pool_table c) in
  do* on_mem (c_free (hb_bytes (outbound_buffer c))) in
  do* on_mem (c_free (hb_bytes (sock_inbound_buffer c))) in
  do* amqp_socket_delete (socket c) in
  let* _ := on_mem (empty_amqp_pool (properties_pool c)) in
  do* on_mem (c_free (Some (self c))) in
  ret AMQP_STATUS_OK.

(** ** The incremental frame parser *)

Definition return_to_idle : CC unit :=
  upd (fun c => set_reader {| state := CONNECTION_STATE_IDLE;
                              header_buffer := header_buffer (reader c);
                              inbound_len := sizeof_header_buffer;
                              inbound_bytes := Some IB_header_buffer;
                              inbound_offset := 0; target_size := HEADER_SIZE |} c).

Definition set_state (st : amqp_connection_state_enum) (c : amqp_connection_state_t)
    : amqp_connection_state_t :=
  let r := reader c in
  set_reader {| state := st; header_buffer := header_buffer r; inbound_len := inbound_len r;
                inbound_bytes := inbound_bytes r; inbound_offset := inbound_offset r;
                target_size := target_size r |} c.

Definition set_target (n : Z) (c : amqp_connection_state_t) : amqp_connection_state_t :=
  let r := reader c in
  set_reader {| state := state r; header_buffer := header_buffer r; inbound_len := inbound_len r;
                inbound_bytes := inbound_bytes r; inbound_offset := inbound_offset r;
                target_size := n |} c.

Definition set_offset (n : Z) (c : amqp_connection_state_t) : amqp_connection_state_t :=
  let r := reader c in
  set_reader {| state := state r; header_buffer := header_buffer r; inbound_len := inbound_len r;
                inbound_bytes := inbound_bytes r; inbound_offset := n;
                target_size := target_size r |} c.

Definition set_header_buffer (b : list Z) (c : amqp_connection_state_t) : amqp_connection_state_t :=
  let r := reader c in
  set_reader {| state := state r; header_buffer := b; inbound_len := inbound_len r;
                inbound_bytes := inbound_bytes r; inbound_offset := inbound_offset r;
                target_size := target_size r |} c.

Definition set_inbound (b : heap_bytes) (c : amqp_connection_state_t) : amqp_connection_state_t :=
  let r := reader c in
  set_reader {| state := state r; header_buffer := header_buffer r; inbound_len := hb_len b;
                inbound_bytes := IB_pool <$> hb_bytes b; inbound_offset := inbound_offset r;
                target_size := target_size r |} c.

(** [memcpy(amqp_offset(state->inbound_buffer.bytes, o), bs, n)] *)
Definition inbound_store (o : Z) (bs : list Z) : CC unit :=
  let* c := the_conn in
  match inbound_bytes (reader c) with
  | None => undefined
  | Some IB_header_buffer =>
      match store o bs (header_buffer (reader c)) with
      | Some b => upd (set_header_buffer b)
      | None => undefined
      end
  | Some (IB_pool p) => on_mem (heap_store {| p_block := p_block p; p_off := p_off p + o |} bs)
  end.

(** Reading [n] bytes at [amqp_offset(raw_frame, o)]: [raw_frame] is
    [state->inbound_buffer.bytes] wherever it is used. *)
Definition raw_load (o n : Z) : CC (list Z) :=
  let* c := the_conn in
  match inbound_bytes (reader c) with
  | None => undefined
  | Some IB_header_buffer =>
      match load o n (header_buffer (reader c)) with Some bs => ret bs | None => undefined end
  | Some (IB_pool p) => on_mem (heap_load {| p_block := p_block p; p_off := p_off p + o |} n)
  end.

(** The bytes [{len, amqp_offset(raw_frame, o)}] reaches: at most those up to
    the end of the block. *)
Definition raw_view (o n : Z) : CC amqp_bytes_t :=
  let* c := the_conn in
  match inbound_bytes (reader c) with
  | Some (IB_pool p) =>
      let* s := get in
      match h_blocks (hp s) !! p_block p with
      | None => undefined
      | Some m =>
          if (0 <=? p_off p + o) && (p_off p + o <=? zlen m) then
            ret {| len := n; bytes := Some (slice (p_off p + o) (Z.min n (zlen m - (p_off p + o))) m) |}
          else undefined
      end
  | _ => undefined
  end.

(** Returns the number of bytes consumed and what is left of the data. *)
Definition consume_data (received : amqp_bytes_t) : CC (Z * amqp_bytes_t) :=
  let* c := the_conn in
  let r := reader c in
  let room := size_t (target_size r - inbound_offset r) in
  let n := if len received <? room then len received else room in
  match load 0 n (mem_of received) with
  | None => undefined
  | Some bs =>
      do* inbound_store (inbound_offset r) bs in
      do* upd (set_offset (size_t (inbound_offset r + n))) in
      ret (n, {| len := len received - n; bytes := Some (drop (Z.to_nat n) (mem_of received)) |})
  end.

Section Parser.
Context {HH : Host} (uninit : amqp_basic_properties_t).

Definition set_payload (fr : amqp_frame_t) (p : frame_payload) : amqp_frame_t :=
  {| frame_type := frame_type fr; channel := channel fr; payload := p |}.

(** [case AMQP_FRAME_METHOD] and [case AMQP_FRAME_HEADER] of the body. *)
Definition read_method (ch : Z) : CC frame_payload :=
  let* b := raw_load HEADER_SIZE 4 in
  let id := amqp_d32 b in
  let* c := the_conn in
  let* encoded := raw_view (HEADER_SIZE + 4)
                    (size_t (target_size (reader c) - HEADER_SIZE - 4 - FOOTER_SIZE)) in
  let* decoded := in_channel_pool ch (amqp_decode_method id encoded) in
  ret (PL_method id decoded).

Definition read_properties (ch : Z) : CC frame_payload :=
  let* b := raw_load HEADER_SIZE 2 in
  let cid := amqp_d16 b in
  let* b := raw_load (HEADER_SIZE + 4) 8 in
  let size := amqp_d64 b in
  let* c := the_conn in
  let* encoded := raw_view (HEADER_SIZE + 12)
                    (size_t (target_size (reader c) - HEADER_SIZE - 12 - FOOTER_SIZE)) in
  let* decoded := in_channel_pool ch (amqp_decode_properties uninit cid encoded) in
  ret (PL_properties cid size decoded encoded).

(** [case CONNECTION_STATE_BODY]. *)
Definition handle_body (bytes_consumed : Z) (decoded_frame : amqp_frame_t) : CC (Z * amqp_frame_t) :=
  let* c := the_conn in
  let target := target_size (reader c) in
  let* b := raw_load (size_t (target - 1)) 1 in
  if negb (amqp_d8 b =? AMQP_FRAME_END) then throw AMQP_STATUS_BAD_AMQP_DATA
  else
    let* b := raw_load 0 1 in
    let ft := amqp_d8 b in
    let* b := raw_load 1 2 in
    let ch := amqp_d16 b in
    let fr := {| frame_type := ft; channel := ch; payload := payload decoded_frame |} in
    let* found := get_or_create_pool ch in
    if negb found then throw AMQP_STATUS_NO_MEMORY
    else
      let* fr :=
        if ft =? AMQP_FRAME_METHOD then let* p := read_method ch in ret (set_payload fr p)
        else if ft =? AMQP_FRAME_HEADER then let* p := read_properties ch in ret (set_payload fr p)
        else if ft =? AMQP_FRAME_BODY then
          let* b := raw_view HEADER_SIZE (size_t (target - HEADER_SIZE - FOOTER_SIZE)) in
          ret (set_payload fr (PL_body_fragment b))
        else if ft =? AMQP_FRAME_HEARTBEAT then ret fr
        else ret {| frame_type := 0; channel := ch; payload := payload fr |} in
      do* return_to_idle in
      ret (to_int bytes_consumed, fr).

(** [case CONNECTION_STATE_HEADER], falling through to the body. *)
Definition handle_header (bytes_consumed : Z) (received : amqp_bytes_t)
    (decoded_frame : amqp_frame_t) : CC (Z * amqp_frame_t) :=
  let* b := raw_load 1 2 in
  let ch := amqp_d16 b in
  let* b := raw_load 3 4 in
  let frame_size := amqp_d32 b in
  if INT32_MAX <=? frame_size then throw AMQP_STATUS_BAD_AMQP_DATA
  else
    let target := u32 (frame_size + HEADER_SIZE + FOOTER_SIZE) in
    do* upd (set_target target) in
    let* c := the_conn in
    if size_t (frame_max c) <? target then throw AMQP_STATUS_BAD_AMQP_DATA
    else
      let* found := get_or_create_pool ch in
      if negb found then throw AMQP_STATUS_NO_MEMORY
      else
        let* buf := in_channel_pool ch (on_pool (fun pool => amqp_pool_alloc_bytes pool target)) in
        do* upd (set_inbound buf) in
        match hb_bytes buf with
        | None => throw AMQP_STATUS_NO_MEMORY
        | Some _ =>
            let* c := the_conn in
            match load 0 HEADER_SIZE (header_buffer (reader c)) with
            | None => undefined
            | Some bs =>
                do* inbound_store 0 bs in
                do* upd (set_state CONNECTION_STATE_BODY) in
                let* '(n, _) := consume_data received in
                let bytes_consumed := size_t (bytes_consumed + n) in
                let* c := the_conn in
                if inbound_offset (reader c) <? target_size (reader c)
                then ret (to_int bytes_consumed, decoded_frame)
                else handle_body bytes_consumed decoded_frame
            end
        end.

Definition protocol_header_frame (raw : list Z) : amqp_frame_t :=
  {| frame_type := AMQP_PSEUDOFRAME_PROTOCOL_HEADER; channel := 0;
     payload := PL_protocol_header (amqp_d8 (slice 4 1 raw)) (amqp_d8 (slice 5 1 raw))
                  (amqp_d8 (slice 6 1 raw)) (amqp_d8 (slice 7 1 raw)) |}.

(** Returns the number of bytes consumed and [*decoded_frame], whose previous
    contents are an argument. *)
Definition amqp_handle_input (received : amqp_bytes_t) (decoded_frame : amqp_frame_t)
    : CC (Z * amqp_frame_t) :=
  let fr := {| frame_type := 0; channel := channel decoded_frame; payload := payload decoded_frame |} in
  if len received =? 0 then ret (AMQP_STATUS_OK, fr)
  else
    let* c := the_conn in
    do* (if bool_decide (state (reader c) = CONNECTION_STATE_IDLE)
         then upd (set_state CONNECTION_STATE_HEADER) else ret tt) in
    let* '(n, rest) := consume_data received in
    let* c := the_conn in
    if inbound_offset (reader c) <? target_size (reader c) then ret (to_int n, fr)
    else
      match state (reader c) with
      | CONNECTION_STATE_INITIAL =>
          let* magic := raw_load 0 4 in
          if bytes_eqb magic [65; 77; 81; 80] then
            let* raw := raw_load 0 8 in
            do* return_to_idle in
            ret (to_int n, protocol_header_frame raw)
          else handle_header n rest fr
      | CONNECTION_STATE_HEADER => handle_header n rest fr
      | CONNECTION_STATE_BODY => handle_body n fr
      | CONNECTION_STATE_IDLE => amqp_abort
      end.
End Parser.

(** ** Releasing channel memory *)

Definition amqp_release_buffers_ok (c : amqp_connection_state_t) : bool :=
  bool_decide (state (reader c) = CONNECTION_STATE_IDLE).

Definition amqp_maybe_release_buffers_on_channel (ch : Z) : CC unit :=
  let* c := the_conn in
  if bool_decide (state (reader c) = CONNECTION_STATE_IDLE) then
    if existsb (fun f => ch =? channel f) (queued_frames c) then ret tt
    else
      match amqp_get_channel_pool (pool_table c) ch with
      | None => ret tt
      | Some pool =>
          let* pool' := on_mem (recycle_amqp_pool pool) in
          upd (fun c => set_pool_table (set_channel_pool (pool_table c) ch pool') c)
      end
  else ret tt.

(** Recycling changes no entry's channel and no list, so the walk visits the
    channels the table has at the start. *)
Definition amqp_release_buffers : CC unit :=
  let* c := the_conn in
  if amqp_release_buffers_ok c then
    for_each (for_each (fun e => amqp_maybe_release_buffers_on_channel (entry_channel e)))
      (pool_table c)
  else amqp_abort.

Definition amqp_maybe_release_buffers : CC unit :=
  let* c := the_conn in
  if amqp_release_buffers_ok c then amqp_release_buffers else ret tt.
End Conn.
