(* ===== verification/PoolTable.v ===== *)
(** * The channel pools of a connection

    The channel pool table behaves as a finite map from channels to pools, the
    pools of a connection share the heap without sharing a block, and whatever
    is done with one channel's pool leaves the others, and every block outside
    the pools, alone. *)

From S2P Require Import Prelude Machine Status Alloc Mem MemTheory.

(** ** The table as a map *)

Section Table.
Context (t : pool_table_t) (Ht : length t = Z.to_nat POOL_TABLE_SIZE).

Lemma slot_lookup ch : t !! Z.to_nat (ch mod POOL_TABLE_SIZE) = Some (slot t ch).
Proof.
  unfold slot. destruct (lookup_lt_is_Some_2 t (Z.to_nat (ch mod POOL_TABLE_SIZE))) as [l Hl].
  - rewrite Ht. unfold POOL_TABLE_SIZE. pose proof (Z.mod_pos_bound ch 16). lia.
  - by rewrite Hl.
Qed.

Lemma slot_insert ch l ch' :
  slot (<[Z.to_nat (ch mod POOL_TABLE_SIZE) := l]> t) ch' =
    if ch' mod POOL_TABLE_SIZE =? ch mod POOL_TABLE_SIZE then l else slot t ch'.
Proof.
  unfold slot. pose proof (slot_lookup ch) as Hch. unfold POOL_TABLE_SIZE in *.
  pose proof (Z.mod_pos_bound ch 16). pose proof (Z.mod_pos_bound ch' 16).
  destruct (Z.eqb_spec (ch' mod 16) (ch mod 16)) as [->|Hne].
  - rewrite list_lookup_insert_eq; [done|]. apply lookup_lt_Some in Hch. done.
  - rewrite list_lookup_insert_ne by lia. done.
Qed.
End Table.

Lemma find_update_same ch pool l :
  is_Some (find_entry ch l) -> find_entry ch (update_entry ch pool l) = Some pool.
Proof.
  unfold find_entry. induction l as [|e l IH]; simpl; [by intros [? ?]|].
  destruct (ch =? entry_channel e) eqn:E; simpl; [by rewrite Z.eqb_refl|]. by rewrite E.
Qed.

Lemma find_update_ne ch ch' pool l :
  ch' <> ch -> find_entry ch' (update_entry ch pool l) = find_entry ch' l.
Proof.
  intros Hne. unfold find_entry. induction l as [|e l IH]; simpl; [done|].
  destruct (Z.eqb_spec ch (entry_channel e)) as [->|He]; simpl.
  - rewrite (proj2 (Z.eqb_neq ch' (entry_channel e))) by done. done.
  - destruct (ch' =? entry_channel e); [done|apply IH].
Qed.

Lemma get_set_channel_pool t ch pool ch' :
  length t = Z.to_nat POOL_TABLE_SIZE -> is_Some (amqp_get_channel_pool t ch) ->
  amqp_get_channel_pool (set_channel_pool t ch pool) ch' =
    if ch' =? ch then Some pool else amqp_get_channel_pool t ch'.
Proof.
  intros Ht Hs. unfold amqp_get_channel_pool, set_channel_pool in *. rewrite slot_insert by done.
  destruct (Z.eqb_spec ch' ch) as [->|Hne].
  - rewrite Z.eqb_refl. by apply find_update_same.
  - destruct (Z.eqb_spec (ch' mod POOL_TABLE_SIZE) (ch mod POOL_TABLE_SIZE)) as [Hm|]; [|done].
    rewrite find_update_ne by done. unfold slot. by rewrite Hm.
Qed.

Lemma length_set_channel_pool t ch pool : length (set_channel_pool t ch pool) = length t.
Proof. apply length_insert. Qed.

(** ** Pools on one heap *)

Abbreviation pools := (Z -> option amqp_pool_t).

(** [K] are blocks outside all pools, with their contents. *)
Record pools_ok (K : gmap Z (list Z)) (h : heap) (get : pools) : Prop := {
  po_heap : heap_ok h;
  po_pool : forall ch pool, get ch = Some pool -> pool_ok h pool /\ pagesize pool <= PTRDIFF_MAX;
  po_disjoint : forall c1 c2 p1 p2 b, get c1 = Some p1 -> get c2 = Some p2 ->
    b ∈ pool_blocks p1 -> b ∈ pool_blocks p2 -> c1 = c2;
  po_kept : forall b m, K !! b = Some m -> h_blocks h !! b = Some m /\
    forall ch pool, get ch = Some pool -> b ∉ pool_blocks pool
}.

(** The blocks that are not the pool's. *)
Definition beside (h : heap) (pool : amqp_pool_t) : gmap Z (list Z) :=
  filter (fun x => x.1 ∉ pool_blocks pool) (h_blocks h).

Lemma beside_Some h pool b m :
  beside h pool !! b = Some m <-> h_blocks h !! b = Some m /\ b ∉ pool_blocks pool.
Proof. unfold beside. by rewrite map_lookup_filter_Some. Qed.

Lemma pools_ok_framed K h get ch pool :
  pools_ok K h get -> get ch = Some pool ->
  framed_inv (beside h pool) {| ps_heap := h; ps_pool := pool |}.
Proof.
  intros Hok Hget. destruct (po_pool _ _ _ Hok ch pool Hget). split.
  - split_and!; [apply Hok|done|done].
  - by intros b m [? ?]%beside_Some.
Qed.

(** One pool changes, the others and the kept blocks stay. *)
Lemma pools_ok_step K h get ch pool h' pool' get' :
  pools_ok K h get -> get ch = Some pool ->
  framed_inv (beside h pool) {| ps_heap := h'; ps_pool := pool' |} ->
  (forall c, get' c = if c =? ch then Some pool' else get c) ->
  pools_ok K h' get'.
Proof.
  intros Hok Hget [(Hh & Hp & Hps) Hout] Hget'. unfold outside in Hout. simpl in *.
  assert (Hother : forall c p b, get c = Some p -> c <> ch -> b ∈ pool_blocks p ->
    h_blocks h' !! b = h_blocks h !! b /\ b ∉ pool_blocks pool').
  { intros c p b Hc Hne Hb. destruct (po_pool _ _ _ Hok c p Hc) as [Hpc _].
    destruct (pool_blocks_live h p b Hpc Hb) as [m Hm].
    destruct (Hout b m) as [Hb' Hn]; [|by rewrite Hb'].
    apply beside_Some. split; [done|]. intros Hin. apply Hne.
    by eapply (po_disjoint _ _ _ Hok c ch p pool b). }
  split.
  - done.
  - intros c p. rewrite Hget'. destruct (Z.eqb_spec c ch) as [->|Hne]; [by intros [= <-]|].
    intros Hc. destruct (po_pool _ _ _ Hok c p Hc) as [Hpc ?]. split; [|done].
    eapply pool_ok_frame; [done|]. intros b Hb. by eapply Hother.
  - intros c1 c2 p1 p2 b. rewrite !Hget'.
    destruct (Z.eqb_spec c1 ch) as [->|H1], (Z.eqb_spec c2 ch) as [->|H2]; [done| | |].
    + intros [= <-] Hc2 Hb1 Hb2. by destruct (Hother c2 p2 b).
    + intros Hc1 [= <-] Hb1 Hb2. by destruct (Hother c1 p1 b).
    + by apply (po_disjoint _ _ _ Hok).
  - intros b m Hb. destruct (po_kept _ _ _ Hok b m Hb) as [Hm Hn].
    destruct (Hout b m) as [Hb' Hn']; [apply beside_Some; split; [done|by eapply Hn]|].
    split; [done|]. intros c p. rewrite Hget'. destruct (Z.eqb_spec c ch); [by intros [= <-]|apply Hn].
Qed.

(** An empty pool is added. *)
Lemma pools_ok_new K h get h' ch n get' :
  pools_ok K h get -> heap_ok h' -> 0 <= n <= PTRDIFF_MAX ->
  (forall b, is_Some (h_blocks h !! b) -> h_blocks h' !! b = h_blocks h !! b) ->
  (forall c, get' c = if c =? ch then Some (init_amqp_pool n) else get c) ->
  pools_ok K h' get'.
Proof.
  intros Hok Hh Hn Hsame Hget'. unfold PTRDIFF_MAX in Hn.
  assert (Hinit : forall b, b ∉ pool_blocks (init_amqp_pool n)).
  { intros b. unfold pool_blocks, owned_pool, owned, array, cells. simpl. by apply not_elem_of_nil. }
  split.
  - done.
  - intros c p. rewrite Hget'. destruct (Z.eqb_spec c ch) as [->|Hne].
    + intros [= <-]. split; [apply init_ok; lia|]. simpl. unfold PTRDIFF_MAX.
      destruct (n =? 0); lia.
    + intros Hc. destruct (po_pool _ _ _ Hok c p Hc) as [Hpc ?]. split; [|done].
      eapply pool_ok_frame; [done|]. intros b Hb. apply Hsame. by eapply pool_blocks_live.
  - intros c1 c2 p1 p2 b. rewrite !Hget'.
    destruct (Z.eqb_spec c1 ch), (Z.eqb_spec c2 ch); [congruence| | |by apply (po_disjoint _ _ _ Hok)].
    + by intros [= <-] _ ?%Hinit.
    + by intros _ [= <-] _ ?%Hinit.
  - intros b m Hb. destruct (po_kept _ _ _ Hok b m Hb) as [Hm Hk].
    split; [by rewrite Hsame by (by eexists)|].
    intros c p. rewrite Hget'. destruct (c =? ch); [intros [= <-]; apply Hinit|apply Hk].
Qed.

(** A store inside a block of a pool. *)
Lemma pool_ok_sizes h h' pool :
  (forall b n, live h b n -> live h' b n) -> pool_ok h pool -> pool_ok h' pool.
Proof.
  intros Hl Hp.
  assert (Hlist : forall sz x, blocklist_ok h sz x -> blocklist_ok h' sz x).
  { intros sz x (? & ? & Ha & Hc). split_and!; [done..| |].
    - destruct (blocklist x) as [[a cs]|]; [|done]. destruct Ha. auto.
    - eapply Forall_impl; [exact Hc|]. intros c (? & n & ? & ?). eauto. }
  split; try apply Hp.
  - apply Hlist, Hp.
  - apply Hlist, Hp.
  - intros b Hb. destruct (ok_block _ _ Hp b Hb) as (? & ? & ?). auto.
Qed.

Lemma pools_ok_store K h get ch pool b m m' :
  pools_ok K h get -> get ch = Some pool -> b ∈ pool_blocks pool ->
  h_blocks h !! b = Some m -> zlen m' = zlen m ->
  pools_ok K (set_blocks (<[b := m']> (h_blocks h)) h) get.
Proof.
  intros Hok Hget Hb Hm Hz. split.
  - intros b' x. simpl. intros [[<- <-]|[_ Hx]]%lookup_insert_Some.
    + rewrite Hz. by apply (po_heap _ _ _ Hok b m).
    + by apply (po_heap _ _ _ Hok b').
  - intros c p Hc. destruct (po_pool _ _ _ Hok c p Hc) as [Hp ?]. split; [|done].
    eapply pool_ok_sizes; [|done]. intros b' n (x & Hx & Hn). unfold live. simpl.
    destruct (decide (b' = b)) as [->|Hne].
    + exists m'. rewrite lookup_insert_eq. split; [done|]. congruence.
    + exists x. by rewrite lookup_insert_ne.
  - apply Hok.
  - intros b' x Hx. destruct (po_kept _ _ _ Hok b' x Hx) as [Hb' Hn]. split; [|done]. simpl.
    rewrite lookup_insert_ne; [done|]. intros ->. by apply (Hn ch pool).
Qed.

(** ** Looking up or creating a channel's pool *)

Lemma get_add_entry t ch p pool ch' :
  length t = Z.to_nat POOL_TABLE_SIZE ->
  amqp_get_channel_pool (<[Z.to_nat (ch mod POOL_TABLE_SIZE) :=
    {| entry_block := p; entry_pool := pool; entry_channel := ch |} :: slot t ch]> t) ch' =
    if ch' =? ch then Some pool else amqp_get_channel_pool t ch'.
Proof.
  intros Ht. unfold amqp_get_channel_pool. rewrite slot_insert by done.
  destruct (Z.eqb_spec ch' ch) as [->|Hne].
  - rewrite Z.eqb_refl. unfold find_entry. simpl. by rewrite Z.eqb_refl.
  - destruct (Z.eqb_spec (ch' mod POOL_TABLE_SIZE) (ch mod POOL_TABLE_SIZE)) as [Hm|]; [|done].
    unfold find_entry. simpl. rewrite (proj2 (Z.eqb_neq _ _)) by done. unfold slot. by rewrite Hm.
Qed.

Lemma wp_get_or_create K t fm ch h :
  length t = Z.to_nat POOL_TABLE_SIZE -> 0 <= fm <= PTRDIFF_MAX ->
  pools_ok K h (amqp_get_channel_pool t) ->
  wp (amqp_get_or_create_channel_pool t fm ch) (fun '(r, t') h' =>
    length t' = Z.to_nat POOL_TABLE_SIZE /\ later h h' /\
    pools_ok K h' (amqp_get_channel_pool t') /\ (reliable h -> is_Some r) /\
    amqp_get_channel_pool t' ch = r /\
    (forall c p, amqp_get_channel_pool t c = Some p -> amqp_get_channel_pool t' c = Some p) /\
    (forall c p, amqp_get_channel_pool t' c = Some p ->
      amqp_get_channel_pool t c = Some p \/ p = init_amqp_pool fm) /\
    (forall b, is_Some (h_blocks h !! b) -> h_blocks h' !! b = h_blocks h !! b))
    (fun _ _ => False) h.
Proof.
  intros Ht Hfm Hok. unfold amqp_get_or_create_channel_pool.
  change (find_entry ch (slot t ch)) with (amqp_get_channel_pool t ch).
  destruct (amqp_get_channel_pool t ch) as [pool|] eqn:Eg.
  - apply wp_ret. split_and!; eauto; done || apply later_refl.
  - apply wp_bind. wp_use (wp_heap_alloc sizeof_amqp_pool_table_entry_t); [apply Hok|done| |done].
    intros r h' (Hh' & Hl & Hrel & Hr). assert (Hsome : reliable h -> is_Some r) by (intros; by apply Hrel).
    destruct r as [p|]; apply wp_ret.
    + destruct Hr as (_ & Hfresh & _ & m & _ & Hb).
      assert (Hsame : forall b, is_Some (h_blocks h !! b) -> h_blocks h' !! b = h_blocks h !! b).
      { intros b [x Hx]. rewrite Hb, lookup_insert_ne; congruence. }
      unfold size_t, u64. rewrite (wrap_small 64) by (unfold in_u, PTRDIFF_MAX in *; lia).
      split_and!; [by rewrite length_insert|done| |by eauto| | | |done].
      * eapply pools_ok_new; [done|done|exact Hfm|done|]. intros c. by apply get_add_entry.
      * rewrite get_add_entry by done. by rewrite Z.eqb_refl.
      * intros c q Hc. rewrite get_add_entry by done.
        destruct (Z.eqb_spec c ch) as [->|]; [congruence|done].
      * intros c q. rewrite get_add_entry by done.
        destruct (Z.eqb_spec c ch) as [->|]; [intros [= <-]; auto|auto].
    + split_and!; eauto.
      * split; try apply Hok; [done|..].
        -- intros c q Hc. destruct (po_pool _ _ _ Hok c q Hc) as [Hp ?]. split; [|done].
           eapply pool_ok_frame; [done|]. intros. by rewrite Hr.
        -- intros b x. rewrite Hr. apply Hok.
      * intros Hre. by destruct (Hsome Hre).
      * intros. by rewrite Hr.
Qed.

(** ** Room for the records of new blocks *)

Definition room_for (B : Z) (get : pools) : Prop :=
  forall ch pool, get ch = Some pool -> B <= INT32_MAX - block_count pool.

Lemma room_for_step B B' get ch pool' get' :
  room_for B get -> B' <= B -> B' <= INT32_MAX - block_count pool' ->
  (forall c, get' c = if c =? ch then Some pool' else get c) -> room_for B' get'.
Proof.
  intros Hr Hle Hp Hget c p. rewrite Hget. destruct (c =? ch); [by intros [= <-]|].
  intros Hc. pose proof (Hr c p Hc). lia.
Qed.
