(* ===== verification/ParserTheory.v ===== *)
(** * The incremental parser reads frames

    The representation of "these bytes of the current frame have been received"
    in the connection, and what [amqp_handle_input] does to it: the lemmas
    behind the theorems of [ParserTheorems.v]. *)

From S2P Require Import Prelude Machine Status Alloc Codec Table TableEncode TableDecode Framing Methods MethodDecode MethodEncode MethodWire MethodTheory MethodSafety MethodTheorems Properties PropertiesTheory PropertiesTheorems Mem MemTheory PoolTable Time Frame FrameTheorems Connection.

Lemma wp_bind_inv {S A B} (m : C S A) (k : A -> C S B) Q E s :
  wp (bind m k) Q E s -> wp m (fun a s' => wp (k a) Q E s') E s.
Proof. unfold wp, bind. by destruct (m s). Qed.

Lemma wp_bind3 {S A B D F} (m1 : C S A) (m2 : C S B) (m3 : C S D) (k : D -> C S F) Q E s :
  wp (do* m1 in do* m2 in m3) (fun a s' => wp (k a) Q E s') E s ->
  wp (do* m1 in do* m2 in bind m3 k) Q E s.
Proof.
  unfold wp, bind. destruct (m1 s) as [a s1| | |]; [|done..].
  destruct (m2 s1) as [b s2| | |]; [|done..]. by destruct (m3 s2).
Qed.

Lemma slice_bytes o n m : Forall is_byte m -> Forall is_byte (slice o n m).
Proof. intros. by apply Forall_take, Forall_drop. Qed.

Section Parser.
Context {W : Type} {HH : Host} (uninit : amqp_basic_properties_t).

Abbreviation pools_of s := (amqp_get_channel_pool (pool_table (conn s))).

(** The memory of the connection: the pool table, the pools, the blocks [K]
    outside the pools; [rel] says that no allocation fails. *)
Record cmem (rel : bool) (K : gmap Z (list Z)) (fm : Z) (s : cst W) : Prop := {
  cm_table : length (pool_table (conn s)) = Z.to_nat POOL_TABLE_SIZE;
  cm_pools : pools_ok K (hp s) (pools_of s);
  cm_rel : rel = true -> reliable (hp s);
  cm_fm : frame_max (conn s) = fm /\ 0 <= fm <= 2 ^ 30
}.

(** ** The representation of the bytes received so far *)

Definition frame_size (acc : list Z) : Z := be_decode (slice 3 4 acc).
Definition frame_channel (acc : list Z) : Z := be_decode (slice 1 2 acc).

(** The region of the channel's pool the frame is gathered in. *)
Definition gathers (h : heap) (get : pools) (fm : Z) (acc : list Z) (r : reader_t) : Prop :=
  exists p m pool,
    inbound_bytes r = Some (IB_pool p) /\ get (frame_channel acc) = Some pool /\
    p_block p ∈ pool_blocks pool /\ h_blocks h !! p_block p = Some m /\
    0 <= p_off p /\ p_off p + target_size r <= zlen m /\
    slice (p_off p) (zlen acc) m = acc /\
    target_size r = frame_size acc + 8 /\ target_size r <= fm.

Definition reader_at (h : heap) (get : pools) (fm : Z) (acc : list Z) (r : reader_t) : Prop :=
  zlen (header_buffer r) = 8 /\ inbound_offset r = zlen acc /\
  if zlen acc <? 7 then
    state r = (if zlen acc =? 0 then CONNECTION_STATE_IDLE else CONNECTION_STATE_HEADER) /\
    inbound_bytes r = Some IB_header_buffer /\ target_size r = 7 /\
    slice 0 (zlen acc) (header_buffer r) = acc
  else
    state r = CONNECTION_STATE_BODY /\ zlen acc < target_size r /\ gathers h get fm acc r.

(** [B] more bytes can be received without running out of block records. *)
Record reading (rel : bool) (K : gmap Z (list Z)) (fm B : Z) (acc : list Z) (s : cst W) : Prop := {
  rd_mem : cmem rel K fm s;
  rd_bytes : Forall is_byte acc;
  rd_budget : 0 <= B /\ B + zlen acc <= INT32_MAX;
  rd_room : room_for (B + zlen acc - (if zlen acc <? 7 then 0 else 1)) (pools_of s);
  rd_reader : reader_at (hp s) (pools_of s) fm acc (reader (conn s))
}.

(** ** One operation at a time *)

Lemma wp_the_conn (Q : amqp_connection_state_t -> cst W -> Prop) E s :
  Q (conn s) s -> wp the_conn Q E s.
Proof. done. Qed.

Lemma wp_upd f (Q : unit -> cst W -> Prop) E s :
  Q tt {| conn := f (conn s); hp := hp s; world := world s |} -> wp (upd f) Q E s.
Proof. done. Qed.

Lemma wp_on_mem {A} (m : C heap A) (Q : A -> cst W -> Prop) E s :
  wp m (fun a h => Q a {| conn := conn s; hp := h; world := world s |})
       (fun e h => E e {| conn := conn s; hp := h; world := world s |}) (hp s) ->
  wp (on_mem m) Q E s.
Proof. unfold wp, on_mem. by destruct (m (hp s)). Qed.

Lemma wp_get_or_create_pool rel K fm R ch s :
  cmem rel K fm s -> room_for R (pools_of s) -> R <= INT32_MAX ->
  wp (get_or_create_pool ch) (fun found s' =>
    cmem rel K fm s' /\ room_for R (pools_of s') /\ reader (conn s') = reader (conn s) /\
    (rel = true -> found = true) /\ (found = true -> is_Some (pools_of s' ch)) /\
    (forall c p, pools_of s c = Some p -> pools_of s' c = Some p) /\
    (forall b, is_Some (h_blocks (hp s) !! b) -> h_blocks (hp s') !! b = h_blocks (hp s) !! b))
    (fun _ _ => False) s.
Proof.
  intros [Ht Hp Hrel [<- Hfm]] Hroom HR. unfold get_or_create_pool.
  apply wp_bind, wp_the_conn, wp_bind, wp_on_mem.
  wp_use (wp_get_or_create K (pool_table (conn s)) (frame_max (conn s)) ch); [done| |done| |done].
  { unfold PTRDIFF_MAX. lia. }
  intros [r t'] h' (Ht' & Hl & Hp' & Hsome & Hget & Hold & Hnew & Hsame).
  apply wp_bind, wp_upd, wp_ret. simpl. split_and!; try done.
  - split; try done. intros Hr. eapply later_reliable; [done|]. by apply Hrel.
  - intros c p Hc. destruct (Hnew c p Hc) as [Hc'| ->]; [by apply (Hroom c)|].
    unfold block_count. simpl. lia.
  - intros Hr. destruct Hsome as [? ->]; [by apply Hrel|done].
  - rewrite Hget. destruct r; [by eexists|done].
Qed.

(** Working with a channel's pool, given what the computation does to a pool
    and the heap. *)
Lemma wp_in_channel_pool {A} rel K fm R R' ch pool (m : C pstate A) (P : A -> pstate -> Prop) D s :
  cmem rel K fm s -> room_for R (pools_of s) -> pools_of s ch = Some pool -> R' <= R ->
  wp m (fun a p => P a p /\ framed_inv (beside (hp s) pool) p /\ R' <= pool_room p /\
                   (rel = true -> reliable (ps_heap p)))
       (fun e p => D e /\ framed_inv (beside (hp s) pool) p /\
                   (rel = true -> reliable (ps_heap p)))
    {| ps_heap := hp s; ps_pool := pool |} ->
  wp (in_channel_pool ch m) (fun a s' =>
    exists p, P a p /\ cmem rel K fm s' /\ room_for R' (pools_of s') /\
      conn s' = set_pool_table (pool_table (conn s')) (conn s) /\
      pools_of s' ch = Some (ps_pool p) /\ hp s' = ps_heap p)
    (fun e s' => D e /\ cmem rel K fm s') s.
Proof.
  intros [Ht Hp Hrel Hfm] Hroom Hget HR Hm. unfold wp at 1, in_channel_pool. rewrite Hget.
  unfold wp in Hm.
  assert (Hget' : forall p c, amqp_get_channel_pool
    (set_channel_pool (pool_table (conn s)) ch (ps_pool p)) c =
    if c =? ch then Some (ps_pool p) else pools_of s c).
  { intros p c. apply get_set_channel_pool; [done|by eexists]. }
  destruct (m _) as [a p|e p| |]; [| |done..].
  - destruct Hm as (HP & Hf & HR' & Hr). exists p. simpl. split_and!; try done.
    + split; simpl; try done.
      * by rewrite length_set_channel_pool.
      * destruct p. by eapply pools_ok_step.
    + eapply room_for_step; [done|done| |done]. done.
    + rewrite Hget', Z.eqb_refl. done.
  - destruct Hm as (HD & Hf & Hr). split; [done|]. split; simpl; try done.
    + by rewrite length_set_channel_pool.
    + destruct p. by eapply pools_ok_step.
Qed.

(** *** Gathering bytes *)

Definition rest_of (n : Z) (data : amqp_bytes_t) : amqp_bytes_t :=
  {| len := len data - n; bytes := Some (drop (Z.to_nat n) (mem_of data)) |}.

Definition taken (r : reader_t) (data : amqp_bytes_t) : Z :=
  Z.min (len data) (target_size r - inbound_offset r).

Lemma rest_readable n data : readable data -> 0 <= n <= len data -> readable (rest_of n data).
Proof.
  intros [Hl Hp] Hn. unfold readable, rest_of, mem_of in *. simpl.
  rewrite zlen_drop; unfold mem_of; lia.
Qed.

Lemma contents_split n data :
  readable data -> 0 <= n <= len data ->
  contents data = slice 0 n (mem_of data) ++ contents (rest_of n data).
Proof.
  intros [Hl Hp] Hn. unfold contents. replace (len data) with (n + (len data - n)) at 1 by lia.
  rewrite slice_split by lia. f_equal.
Qed.

Lemma consume_header data (s : cst W) :
  let r := reader (conn s) in
  inbound_bytes r = Some IB_header_buffer ->
  0 <= inbound_offset r <= target_size r -> target_size r <= zlen (header_buffer r) ->
  target_size r <= PTRDIFF_MAX -> readable data ->
  consume_data data s =
    Ret (taken r data, rest_of (taken r data) data)
      {| conn := set_offset (inbound_offset r + taken r data)
                   (set_header_buffer
                     (overwrite (inbound_offset r) (slice 0 (taken r data) (mem_of data))
                        (header_buffer r)) (conn s));
         hp := hp s; world := world s |}.
Proof.
  intros r Hin Ho Ht Hmax [Hl Hp]. unfold PTRDIFF_MAX in *. unfold consume_data, bind at 1, the_conn.
  fold r. rewrite (size_t_small (target_size r - inbound_offset r)) by lia.
  replace (if _ <? _ then _ else _) with (taken r data) by (unfold taken; case_match eqn:E; lia).
  assert (Hn : 0 <= taken r data <= len data /\ inbound_offset r + taken r data <= target_size r)
    by (unfold taken; lia).
  rewrite load_Some by lia. unfold bind, inbound_store, the_conn, bind. fold r. rewrite Hin.
  rewrite store_Some by (rewrite ?zlen_slice; lia). unfold upd. simpl. unfold ret.
  by rewrite size_t_small by lia.
Qed.

(** The connection points to a region [p] of block [m] with room for the frame. *)
Definition in_region (s : cst W) (p : ptr) (m : list Z) : Prop :=
  let r := reader (conn s) in
  inbound_bytes r = Some (IB_pool p) /\ h_blocks (hp s) !! p_block p = Some m /\
  0 <= p_off p /\ p_off p + target_size r <= zlen m.

Lemma consume_pool data (s : cst W) p m :
  let r := reader (conn s) in
  in_region s p m -> 0 <= inbound_offset r <= target_size r -> target_size r <= PTRDIFF_MAX ->
  readable data ->
  consume_data data s =
    Ret (taken r data, rest_of (taken r data) data)
      {| conn := set_offset (inbound_offset r + taken r data) (conn s);
         hp := set_blocks (<[p_block p := overwrite (p_off p + inbound_offset r)
                               (slice 0 (taken r data) (mem_of data)) m]> (h_blocks (hp s))) (hp s);
         world := world s |}.
Proof.
  intros r (Hin & Hm & Hpo & Hfit) Ho Hmax [Hl Hp]. unfold PTRDIFF_MAX in *.
  unfold consume_data, bind at 1, the_conn.
  fold r in Hin, Hfit |- *. rewrite (size_t_small (target_size r - inbound_offset r)) by lia.
  replace (if _ <? _ then _ else _) with (taken r data) by (unfold taken; case_match eqn:E; lia).
  assert (Hn : 0 <= taken r data <= len data /\ inbound_offset r + taken r data <= target_size r)
    by (unfold taken; lia).
  rewrite load_Some by lia. unfold bind, inbound_store, the_conn, bind. fold r. rewrite Hin.
  unfold on_mem, heap_store. simpl. rewrite Hm.
  rewrite store_Some by (rewrite ?zlen_slice; lia). unfold upd. simpl. unfold ret.
  by rewrite size_t_small by lia.
Qed.

(** *** Reading the gathered bytes *)

Lemma raw_load_pool s p m o n :
  in_region s p m -> 0 <= o -> 0 <= n -> o + n <= target_size (reader (conn s)) ->
  raw_load o n s = Ret (slice (p_off p + o) n m) s.
Proof.
  intros (Hin & Hm & Hpo & Hfit) Ho Hn Hle. unfold raw_load, bind, the_conn. rewrite Hin.
  unfold on_mem, heap_load. simpl. rewrite Hm, load_Some by lia. by destruct s.
Qed.

Lemma raw_load_header (s : cst W) o n :
  inbound_bytes (reader (conn s)) = Some IB_header_buffer ->
  0 <= o -> 0 <= n -> o + n <= zlen (header_buffer (reader (conn s))) ->
  raw_load o n s = Ret (slice o n (header_buffer (reader (conn s)))) s.
Proof.
  intros Hin Ho Hn Hle. unfold raw_load, bind, the_conn. by rewrite Hin, load_Some by lia.
Qed.

Lemma raw_view_pool s p m o n :
  in_region s p m -> 0 <= o -> 0 <= n -> o + n <= target_size (reader (conn s)) ->
  raw_view o n s = Ret (view (slice (p_off p + o) n m)) s.
Proof.
  intros (Hin & Hm & Hpo & Hfit) Ho Hn Hle. unfold raw_view, bind, the_conn, get. rewrite Hin, Hm.
  rewrite !(proj2 (Z.leb_le _ _)) by lia. simpl. rewrite Z.min_l by lia. unfold ret, view.
  by rewrite zlen_slice by lia.
Qed.

(** ** The body of a frame *)

Definition frame_kind (raw : list Z) : Z := be_decode (slice 0 1 raw).
Definition frame_body (raw : list Z) : list Z := slice 7 (zlen raw - 8) raw.

(** What [amqp_handle_input] makes of a payload. *)
Definition decode_payload (ft : Z) (body : list Z) (old : frame_payload) : C pstate frame_payload :=
  if ft =? AMQP_FRAME_METHOD then
    let id := be_decode (slice 0 4 body) in
    let* d := amqp_decode_method id (view (slice 4 (zlen body - 4) body)) in
    ret (PL_method id d)
  else if ft =? AMQP_FRAME_HEADER then
    let cid := be_decode (slice 0 2 body) in
    let raw := view (slice 12 (zlen body - 12) body) in
    let* d := amqp_decode_properties uninit cid raw in
    ret (PL_properties cid (be_decode (slice 4 8 body)) d raw)
  else if ft =? AMQP_FRAME_BODY then ret (PL_body_fragment (view body))
  else ret old.

Definition known_kind (ft : Z) : bool :=
  (ft =? AMQP_FRAME_METHOD) || (ft =? AMQP_FRAME_HEADER) || (ft =? AMQP_FRAME_BODY) ||
  (ft =? AMQP_FRAME_HEARTBEAT).

Definition result_frame (raw : list Z) (pl : frame_payload) : amqp_frame_t :=
  {| frame_type := if known_kind (frame_kind raw) then frame_kind raw else 0;
     channel := frame_channel raw; payload := pl |}.

(** The fixed part of the payload is there. *)
Definition long_enough (raw : list Z) : Prop :=
  (frame_kind raw = AMQP_FRAME_METHOD -> 4 <= zlen (frame_body raw)) /\
  (frame_kind raw = AMQP_FRAME_HEADER -> 12 <= zlen (frame_body raw)).

(** Decoding the payload gives a [Qp] or a status in [D], whatever else is in
    memory. *)
Definition decodes_to (rel : bool) (raw : list Z) (old : frame_payload)
    (Qp : frame_payload -> Prop) (D : Z -> Prop) : Prop :=
  forall F p, framed_inv F p -> (rel = true -> reliable (ps_heap p)) ->
    zlen (frame_body raw) + 1 < pool_room p ->
    wp (decode_payload (frame_kind raw) (frame_body raw) old)
      (fun pl p' => Qp pl /\ framed_inv F p' /\
         pool_room p - zlen (frame_body raw) - 1 <= pool_room p' /\
         (rel = true -> reliable (ps_heap p')))
      (fun e p' => D e /\ framed_inv F p' /\ (rel = true -> reliable (ps_heap p'))) p.

Lemma raw_region m p raw o n :
  slice (p_off p) (zlen raw) m = raw -> 0 <= p_off p -> 0 <= o -> 0 <= n -> o + n <= zlen raw ->
  slice (p_off p + o) n m = slice o n raw.
Proof.
  intros Hr Hp Ho Hn Hle. transitivity (slice o n (slice (p_off p) (zlen raw) m)).
  - by rewrite slice_slice by lia.
  - by rewrite Hr.
Qed.

Lemma decode_slice n o raw d :
  (forall bs, Forall is_byte bs -> length bs = n -> d bs = be_decode bs) ->
  Forall is_byte raw -> 0 <= o -> o + Z.of_nat n <= zlen raw ->
  d (slice o (Z.of_nat n) raw) = be_decode (slice o (Z.of_nat n) raw).
Proof.
  intros Hd Hb Ho Hle. apply Hd; [by apply slice_bytes|].
  pose proof (zlen_slice o (Z.of_nat n) raw). unfold zlen in *. lia.
Qed.

Lemma d16_slice o raw :
  Forall is_byte raw -> 0 <= o -> o + 2 <= zlen raw -> amqp_d16 (slice o 2 raw) = be_decode (slice o 2 raw).
Proof. exact (decode_slice 2 o raw amqp_d16 amqp_d16_be). Qed.

Lemma d32_slice o raw :
  Forall is_byte raw -> 0 <= o -> o + 4 <= zlen raw -> amqp_d32 (slice o 4 raw) = be_decode (slice o 4 raw).
Proof. exact (decode_slice 4 o raw amqp_d32 amqp_d32_be). Qed.

Lemma d64_slice o raw :
  Forall is_byte raw -> 0 <= o -> o + 8 <= zlen raw -> amqp_d64 (slice o 8 raw) = be_decode (slice o 8 raw).
Proof. exact (decode_slice 8 o raw amqp_d64 amqp_d64_be). Qed.

Lemma reading_idle rel K fm B s :
  cmem rel K fm s -> room_for B (pools_of s) -> 0 <= B <= INT32_MAX ->
  zlen (header_buffer (reader (conn s))) = 8 ->
  wp return_to_idle (fun _ s' => reading rel K fm B [] s') (fun _ _ => False) s.
Proof.
  intros [? ? ? ?] Hr HB Hh. unfold return_to_idle. apply wp_upd. split; simpl.
  - by split.
  - by constructor.
  - change (zlen []) with 0. lia.
  - change (zlen []) with 0. simpl. by replace (B + 0 - 0) with B by lia.
  - split_and!; done.
Qed.

Lemma room_for_mono B B' get : room_for B get -> B' <= B -> room_for B' get.
Proof. intros Hr Hle c p Hc. pose proof (Hr c p Hc). lia. Qed.

(** Everything about a completely gathered frame. *)
Record gathered (rel : bool) (K : gmap Z (list Z)) (fm B : Z) (raw : list Z) (p : ptr) (m : list Z)
    (s : cst W) : Prop := {
  ga_mem : cmem rel K fm s;
  ga_room : room_for (B + zlen raw - 1) (pools_of s);
  ga_budget : 0 <= B /\ B + zlen raw <= INT32_MAX;
  ga_region : in_region s p m;
  ga_target : target_size (reader (conn s)) = zlen raw;
  ga_size : 8 <= zlen raw <= 2 ^ 30;
  ga_raw : slice (p_off p) (zlen raw) m = raw;
  ga_bytes : Forall is_byte raw;
  ga_header : zlen (header_buffer (reader (conn s))) = 8
}.

Lemma gathered_load rel K fm B raw p m s o n :
  gathered rel K fm B raw p m s -> 0 <= o -> 0 <= n -> o + n <= zlen raw ->
  raw_load o n s = Ret (slice o n raw) s.
Proof.
  intros Hg Ho Hn Hle. rewrite (raw_load_pool s p m) by (rewrite ?(ga_target _ _ _ _ _ _ _ _ Hg); by try apply Hg).
  rewrite (raw_region m p raw); [done|apply Hg|apply Hg|done..].
Qed.

Lemma gathered_view rel K fm B raw p m s o n :
  gathered rel K fm B raw p m s -> 0 <= o -> 0 <= n -> o + n <= zlen raw ->
  raw_view o n s = Ret (view (slice o n raw)) s.
Proof.
  intros Hg Ho Hn Hle. rewrite (raw_view_pool s p m) by (rewrite ?(ga_target _ _ _ _ _ _ _ _ Hg); by try apply Hg).
  rewrite (raw_region m p raw); [done|apply Hg|apply Hg|done..].
Qed.

Lemma wp_pool_gathered rel K fm B raw p m s ch :
  gathered rel K fm B raw p m s ->
  wp (get_or_create_pool ch) (fun found s' =>
    gathered rel K fm B raw p m s' /\ (rel = true -> found = true) /\
    (found = true -> is_Some (pools_of s' ch))) (fun _ _ => False) s.
Proof.
  intros Hg. wp_use wp_get_or_create_pool; [apply Hg|apply (ga_room _ _ _ _ _ _ _ _ Hg)| | |done].
  { pose proof (ga_budget _ _ _ _ _ _ _ _ Hg). lia. }
  intros found s' (Hm & Hr & Hrd & Hrel & Hsome & _ & Hsame). split; [|done].
  destruct (ga_region _ _ _ _ _ _ _ _ Hg) as (Hin & Hb & Hpo & Hfit).
  split; try apply Hg; try done; rewrite ?Hrd; try apply Hg. unfold in_region. rewrite Hrd.
  split_and!; [done| |done..]. by rewrite Hsame.
Qed.

(** The decoder runs in the channel's pool. *)
Lemma wp_decode_in_pool {A} rel K fm B raw p m s ch pool (dec : C pstate A) mk old Qp D :
  gathered rel K fm B raw p m s -> pools_of s ch = Some pool ->
  decodes_to rel raw old Qp D ->
  decode_payload (frame_kind raw) (frame_body raw) old = (let* d := dec in ret (mk d)) ->
  wp (in_channel_pool ch dec) (fun d s' => Qp (mk d) /\ cmem rel K fm s' /\
      room_for B (pools_of s') /\ zlen (header_buffer (reader (conn s'))) = 8)
    (fun e s' => D e /\ cmem rel K fm s') s.
Proof.
  intros Hg Hpool Hdec Heq. destruct (ga_budget _ _ _ _ _ _ _ _ Hg) as [HB0 HB].
  pose proof (ga_room _ _ _ _ _ _ _ _ Hg ch pool Hpool) as Hroom.
  pose proof (ga_size _ _ _ _ _ _ _ _ Hg) as Hsz.
  assert (Hbody : zlen (frame_body raw) = zlen raw - 8) by (unfold frame_body; rewrite zlen_slice; lia).
  destruct (ga_mem _ _ _ _ _ _ _ _ Hg) as [Ht Hp Hrel Hfm].
  specialize (Hdec (beside (hp s) pool) {| ps_heap := hp s; ps_pool := pool |}
    (pools_ok_framed _ _ _ _ _ Hp Hpool) Hrel). rewrite Heq in Hdec.
  specialize (Hdec ltac:(unfold pool_room; simpl; lia)). apply wp_bind_inv in Hdec.
  eapply wp_mono; [eapply (wp_in_channel_pool rel K fm (B + zlen raw - 1) B ch pool dec
    (fun d _ => Qp (mk d)) D)| |].
  - apply Hg.
  - apply Hg.
  - done.
  - lia.
  - eapply wp_mono; [exact Hdec| |].
    + intros d p' (HQ & Hf & Hr & Hre). split_and!; [done|done| |done].
      unfold pool_room in *. simpl in *. lia.
    + done.
  - intros d s' (p' & HQ & Hm & Hr & Hc & _). split_and!; [done..|]. rewrite Hc. simpl. apply Hg.
  - done.
Qed.

Lemma wp_read_method rel K fm B raw p m s ch pool old Qp D :
  gathered rel K fm B raw p m s -> pools_of s ch = Some pool -> long_enough raw ->
  decodes_to rel raw old Qp D -> frame_kind raw = AMQP_FRAME_METHOD ->
  wp (read_method ch) (fun pl s' => Qp pl /\ cmem rel K fm s' /\ room_for B (pools_of s') /\
      zlen (header_buffer (reader (conn s'))) = 8) (fun e s' => D e /\ cmem rel K fm s') s.
Proof.
  intros Hg Hpool [Hlong _] Hdec Hk. specialize (Hlong Hk).
  pose proof (ga_size _ _ _ _ _ _ _ _ Hg) as Hsz.
  assert (Hbody : zlen (frame_body raw) = zlen raw - 8) by (unfold frame_body; rewrite zlen_slice; lia).
  unfold read_method, HEADER_SIZE, FOOTER_SIZE. apply wp_bind.
  eapply wp_eq; [apply (gathered_load _ _ _ _ _ _ _ _ 7 4 Hg); lia|].
  apply wp_bind, wp_the_conn, wp_bind. rewrite (ga_target _ _ _ _ _ _ _ _ Hg).
  rewrite size_t_small by lia.
  eapply wp_eq; [apply (gathered_view _ _ _ _ _ _ _ _ 11 (zlen raw - 7 - 4 - 1) Hg); lia|].
  apply wp_bind. rewrite d32_slice by (try apply Hg; lia).
  eapply wp_mono; [eapply (wp_decode_in_pool rel K fm B raw p m s ch pool _
    (PL_method (be_decode (slice 7 4 raw))) old Qp D Hg Hpool Hdec)| |].
  - unfold decode_payload. rewrite Hk. change (AMQP_FRAME_METHOD =? AMQP_FRAME_METHOD) with true.
    cbv beta iota zeta. rewrite Hbody. unfold frame_body. rewrite !slice_slice by lia.
    change (7 + 0) with 7. change (7 + 4) with 11.
    by replace (zlen raw - 8 - 4) with (zlen raw - 7 - 4 - 1) by lia.
  - intros d s' H. by apply wp_ret.
  - done.
Qed.

Lemma wp_read_properties rel K fm B raw p m s ch pool old Qp D :
  gathered rel K fm B raw p m s -> pools_of s ch = Some pool -> long_enough raw ->
  decodes_to rel raw old Qp D -> frame_kind raw = AMQP_FRAME_HEADER ->
  wp (read_properties uninit ch) (fun pl s' => Qp pl /\ cmem rel K fm s' /\
      room_for B (pools_of s') /\ zlen (header_buffer (reader (conn s'))) = 8)
    (fun e s' => D e /\ cmem rel K fm s') s.
Proof.
  intros Hg Hpool [_ Hlong] Hdec Hk. specialize (Hlong Hk).
  pose proof (ga_size _ _ _ _ _ _ _ _ Hg) as Hsz.
  assert (Hbody : zlen (frame_body raw) = zlen raw - 8) by (unfold frame_body; rewrite zlen_slice; lia).
  unfold read_properties, HEADER_SIZE, FOOTER_SIZE. apply wp_bind.
  eapply wp_eq; [apply (gathered_load _ _ _ _ _ _ _ _ 7 2 Hg); lia|]. apply wp_bind.
  eapply wp_eq; [apply (gathered_load _ _ _ _ _ _ _ _ 11 8 Hg); lia|].
  apply wp_bind, wp_the_conn, wp_bind. rewrite (ga_target _ _ _ _ _ _ _ _ Hg).
  rewrite size_t_small by lia.
  eapply wp_eq; [apply (gathered_view _ _ _ _ _ _ _ _ 19 (zlen raw - 7 - 12 - 1) Hg); lia|].
  apply wp_bind. rewrite d16_slice by (try apply Hg; lia).
  set (view19 := view _).
  eapply wp_mono; [eapply (wp_decode_in_pool rel K fm B raw p m s ch pool _
    (fun d => PL_properties (be_decode (slice 7 2 raw)) (be_decode (slice 11 8 raw)) d view19)
    old Qp D Hg Hpool Hdec)| |].
  - unfold decode_payload. rewrite Hk. change (AMQP_FRAME_HEADER =? AMQP_FRAME_METHOD) with false.
    change (AMQP_FRAME_HEADER =? AMQP_FRAME_HEADER) with true.
    cbv beta iota zeta. rewrite Hbody. unfold frame_body. rewrite !slice_slice by lia.
    change (7 + 0) with 7. change (7 + 4) with 11. change (7 + 12) with 19. unfold view19.
    by replace (zlen raw - 8 - 12) with (zlen raw - 7 - 12 - 1) by lia.
  - intros d s' H. apply wp_ret. by rewrite d64_slice by (try apply Hg; lia).
  - done.
Qed.

(** *** [case CONNECTION_STATE_BODY] *)

Lemma handle_body_bad_end rel K fm B raw p m s n fr :
  gathered rel K fm B raw p m s -> be_decode (slice (zlen raw - 1) 1 raw) <> AMQP_FRAME_END ->
  handle_body uninit n fr s = Err AMQP_STATUS_BAD_AMQP_DATA s.
Proof.
  intros Hg Hend. pose proof (ga_size _ _ _ _ _ _ _ _ Hg) as Hsz.
  unfold handle_body, bind at 1, the_conn. rewrite (ga_target _ _ _ _ _ _ _ _ Hg).
  rewrite size_t_small by lia.
  erewrite bind_ret; [|apply (gathered_load _ _ _ _ _ _ _ _ (zlen raw - 1) 1 Hg); lia].
  rewrite amqp_d8_be.
  - rewrite (proj2 (Z.eqb_neq _ _)) by done. done.
  - pose proof (zlen_slice (zlen raw - 1) 1 raw). unfold zlen in *. lia.
Qed.

Lemma wp_handle_body rel K fm B raw p m s n fr Qp D :
  gathered rel K fm B raw p m s -> be_decode (slice (zlen raw - 1) 1 raw) = AMQP_FRAME_END ->
  long_enough raw -> decodes_to rel raw (payload fr) Qp D ->
  wp (handle_body uninit n fr)
    (fun '(k, f) s' => k = to_int n /\ (exists pl, Qp pl /\ f = result_frame raw pl) /\
       reading rel K fm B [] s')
    (fun e s' => (D e \/ e = AMQP_STATUS_NO_MEMORY /\ rel = false) /\ cmem rel K fm s') s.
Proof.
  intros Hg Hend Hlong Hdec. pose proof (ga_size _ _ _ _ _ _ _ _ Hg) as Hsz.
  unfold handle_body. apply wp_bind, wp_the_conn, wp_bind. rewrite (ga_target _ _ _ _ _ _ _ _ Hg).
  rewrite size_t_small by lia.
  eapply wp_eq; [apply (gathered_load _ _ _ _ _ _ _ _ (zlen raw - 1) 1 Hg); lia|].
  rewrite amqp_d8_be, Hend by (pose proof (zlen_slice (zlen raw - 1) 1 raw); unfold zlen in *; lia).
  change (negb (AMQP_FRAME_END =? AMQP_FRAME_END)) with false. cbv iota.
  apply wp_bind. eapply wp_eq; [apply (gathered_load _ _ _ _ _ _ _ _ 0 1 Hg); lia|].
  rewrite amqp_d8_be by (pose proof (zlen_slice 0 1 raw); unfold zlen in *; lia).
  apply wp_bind. eapply wp_eq; [apply (gathered_load _ _ _ _ _ _ _ _ 1 2 Hg); lia|].
  rewrite d16_slice by (try apply Hg; lia). fold (frame_channel raw) (frame_kind raw). cbv zeta.
  apply wp_bind. wp_use wp_pool_gathered; [exact Hg| |done].
  intros found s1 (Hg1 & Hrel & Hsome). destruct found; simpl.
  2: { apply wp_throw. split; [|apply Hg1]. right. split; [done|]. by destruct rel; [discriminate Hrel|]. }
  destruct Hsome as [pool Hpool]; [done|]. clear Hrel.
  set (fr1 := {| frame_type := frame_kind raw; channel := _; payload := payload fr |}).
  apply wp_bind. eapply (wp_mono _ (fun f s' => (exists pl, Qp pl /\ f = result_frame raw pl) /\
    cmem rel K fm s' /\ room_for B (pools_of s') /\ zlen (header_buffer (reader (conn s'))) = 8)
    _ (fun e s' => D e /\ cmem rel K fm s')).
  - assert (Hid : decode_payload (frame_kind raw) (frame_body raw) (payload fr) =
        ret (if frame_kind raw =? AMQP_FRAME_BODY then PL_body_fragment (view (frame_body raw))
             else payload fr) ->
      Qp (if frame_kind raw =? AMQP_FRAME_BODY then PL_body_fragment (view (frame_body raw))
          else payload fr)).
    { intros Heq. pose proof (wp_decode_in_pool rel K fm B raw p m s1 _ pool (ret tt)
        (fun _ => if frame_kind raw =? AMQP_FRAME_BODY then PL_body_fragment (view (frame_body raw))
             else payload fr) _ Qp D Hg1 Hpool Hdec Heq) as Hw.
      unfold wp, in_channel_pool, ret in Hw. rewrite Hpool in Hw. apply Hw. }
    unfold decode_payload in Hid. destruct (Z.eqb_spec (frame_kind raw) AMQP_FRAME_METHOD) as [Hk|Hk1].
    + apply wp_bind. wp_use wp_read_method; [exact Hg1|done..| |done].
      intros pl s' (? & ? & ? & ?). apply wp_ret. split; [|done]. exists pl. split; [done|].
      unfold result_frame, fr1, set_payload. by rewrite Hk.
    + destruct (Z.eqb_spec (frame_kind raw) AMQP_FRAME_HEADER) as [Hk|Hk2].
      * apply wp_bind. wp_use wp_read_properties; [exact Hg1|done..| |done].
        intros pl s' (? & ? & ? & ?). apply wp_ret. split; [|done]. exists pl. split; [done|].
        unfold result_frame, fr1, set_payload. by rewrite Hk.
      * assert (Hgood : cmem rel K fm s1 /\ room_for B (pools_of s1) /\
          zlen (header_buffer (reader (conn s1))) = 8).
        { split_and!; [apply Hg1| |apply Hg1]. eapply room_for_mono; [apply Hg1|]. lia. }
        destruct (Z.eqb_spec (frame_kind raw) AMQP_FRAME_BODY) as [Hk|Hk3].
        -- apply wp_bind. unfold HEADER_SIZE, FOOTER_SIZE. rewrite size_t_small by lia.
           eapply wp_eq; [apply (gathered_view _ _ _ _ _ _ _ _ 7 (zlen raw - 7 - 1) Hg1); lia|].
           apply wp_ret. split; [|done].
           exists (PL_body_fragment (view (frame_body raw))). split; [by apply Hid|].
           unfold result_frame, fr1, set_payload, frame_body. rewrite Hk. simpl.
           by replace (zlen raw - 7 - 1) with (zlen raw - 8) by lia.
        -- destruct (Z.eqb_spec (frame_kind raw) AMQP_FRAME_HEARTBEAT) as [Hk|Hk4]; apply wp_ret;
             (split; [|done]); exists (payload fr); (split; [by apply Hid|]); unfold result_frame, known_kind.
           ++ unfold fr1. by rewrite Hk.
           ++ rewrite !(proj2 (Z.eqb_neq _ _)) by done. done.
  - intros f s' (Hf & Hm & Hr & Hh). apply wp_bind. wp_use reading_idle; [done|done| |done| |done].
    { pose proof (ga_budget _ _ _ _ _ _ _ _ Hg). lia. }
    intros u s2 Hs2. by apply wp_ret.
  - intros e s' [? ?]. split; [by left|done].
Qed.

(** ** The header of a frame *)

Lemma alloc_post_framed F h pool n r pool' h' :
  alloc_post h pool n r pool' h' -> framed_inv F {| ps_heap := h; ps_pool := pool |} ->
  framed_inv F {| ps_heap := h'; ps_pool := pool' |}.
Proof.
  intros Hpost [(_ & _ & Hps) Hout]. split.
  - split_and!; simpl; [apply Hpost|apply Hpost|]. by rewrite (post_size _ _ _ _ _ _ Hpost).
  - intros b m Hb. destruct (Hout b m Hb) as [Hm Hn]. simpl in *.
    destruct (post_frame _ _ _ _ _ _ Hpost b Hn) as [-> ?]; [by eexists|done].
Qed.

Lemma wp_alloc_inbound rel K fm R ch pool t s :
  cmem rel K fm s -> room_for R (pools_of s) -> pools_of s ch = Some pool ->
  0 < t <= 2 ^ 30 -> 1 <= R ->
  wp (in_channel_pool ch (on_pool (fun pool => amqp_pool_alloc_bytes pool t))) (fun buf s' =>
    cmem rel K fm s' /\ room_for (R - 1) (pools_of s') /\
    conn s' = set_pool_table (pool_table (conn s')) (conn s) /\
    hb_len buf = t /\ (rel = true -> is_Some (hb_bytes buf)) /\
    forall p, hb_bytes buf = Some p -> exists m pool',
      pools_of s' ch = Some pool' /\ p_block p ∈ pool_blocks pool' /\
      h_blocks (hp s') !! p_block p = Some m /\ 0 <= p_off p /\ p_off p + t <= zlen m)
    (fun _ _ => False) s.
Proof.
  intros Hm Hroom Hget Ht HR. destruct (po_pool _ _ _ (cm_pools _ _ _ _ Hm) ch pool Hget) as [Hpool Hps].
  pose proof (po_heap _ _ _ (cm_pools _ _ _ _ Hm)) as Hh. pose proof (Hroom ch pool Hget) as Hcount.
  assert (Hru : t <= round_up t <= 2 ^ 31).
  { pose proof (round_up_spec t). unfold PTRDIFF_MAX in *. lia. }
  eapply wp_mono; [eapply (wp_in_channel_pool rel K fm R (R - 1) ch pool _ (fun buf p =>
    hb_len buf = t /\ (rel = true -> is_Some (hb_bytes buf)) /\
    forall q, hb_bytes buf = Some q -> exists m, p_block q ∈ pool_blocks (ps_pool p) /\
      h_blocks (ps_heap p) !! p_block q = Some m /\ 0 <= p_off q /\ p_off q + t <= zlen m)
    (fun _ => False) s Hm Hroom Hget)| |].
  - lia.
  - apply wp_on_pool. simpl. apply wp_bind. unfold PTRDIFF_MAX in *.
    wp_use (wp_pool_alloc (hp s) pool Hh Hpool t); [unfold PTRDIFF_MAX; lia|lia| |done].
    intros [r pool'] h' Hpost. apply wp_ret. simpl.
    assert (Hlat : later (hp s) h') by apply Hpost.
    split_and!; [done| | | | |].
    + intros Hrel. apply Hpost; unfold PTRDIFF_MAX; [by apply Hm|lia|lia].
    + intros q ->. pose proof (post_regions _ _ _ _ _ _ Hpost []) as Hreg.
      destruct Hreg as [Hall _]; [split; constructor|]. apply Forall_cons in Hall as [Hq _].
      destruct (reg_live _ _ _ Hq) as (n & (m & Hmq & <-) & Hle). simpl in *. exists m.
      split_and!; [by apply Hpost|done|apply Hq|lia].
    + eapply alloc_post_framed; [done|]. by apply (pools_ok_framed K _ (pools_of s) ch); [apply Hm|].
    + unfold pool_room. simpl. pose proof (post_count _ _ _ _ _ _ Hpost). lia.
    + intros Hrel. eapply later_reliable; [done|]. by apply Hm.
  - intros buf s' (p & (Hlen & Hsome & Hq) & Hm' & Hr' & Hc & Hp' & Hh'). split_and!; try done.
    intros q Hbq. destruct (Hq q Hbq) as (m & ? & ? & ? & ?). exists m, (ps_pool p).
    by rewrite Hh'.
  - by intros e s' [[] _].
Qed.

(** Copying the header into the new block and going on with the data. *)
Lemma wp_gather rel K fm B hdr rest s (p : ptr) m pool (Q : Z * amqp_bytes_t -> cst W -> Prop) E :
  let r := reader (conn s) in let t := target_size r in
  cmem rel K fm s -> room_for (B + 6) (pools_of s) -> B + 7 <= INT32_MAX -> len rest <= B ->
  inbound_bytes r = Some (IB_pool p) -> inbound_offset r = 7 ->
  zlen (header_buffer r) = 8 -> slice 0 7 (header_buffer r) = hdr -> Forall is_byte hdr ->
  readable rest -> Forall is_byte (contents rest) ->
  pools_of s (frame_channel hdr) = Some pool -> p_block p ∈ pool_blocks pool ->
  h_blocks (hp s) !! p_block p = Some m -> 0 <= p_off p -> p_off p + t <= zlen m ->
  t = frame_size hdr + 8 -> 8 <= t <= fm ->
  (7 + len rest < t -> forall s', inbound_offset (reader (conn s')) < target_size (reader (conn s')) ->
    reading rel K fm (B - len rest) (hdr ++ contents rest) s' -> Q (len rest, rest_of (len rest) rest) s') ->
  (t <= 7 + len rest -> forall s' m', inbound_offset (reader (conn s')) = target_size (reader (conn s')) ->
    gathered rel K fm (B - (t - 7)) (hdr ++ slice 0 (t - 7) (mem_of rest)) p m' s' ->
    Q (t - 7, rest_of (t - 7) rest) s') ->
  wp (do* inbound_store 0 hdr in do* upd (set_state CONNECTION_STATE_BODY) in consume_data rest) Q E s.
Proof.
  intros r t Hm Hroom HB Hlen Hin Hoff Hhb Hhdr Hbytes Hrest Hrb Hpool Hpb Hblk Hpo Hfit Ht Htm Hpart Hfull.
  destruct (cm_fm _ _ _ _ Hm) as [Hfm Hfm0].
  assert (Hz : zlen hdr = 7) by (rewrite <- Hhdr, zlen_slice; lia).
  pose proof Hrest as [Hl0 Hl1].
  apply wp_bind. unfold inbound_store. apply wp_bind, wp_the_conn. fold r. rewrite Hin. apply wp_on_mem.
  unfold heap_store, wp at 1. simpl. rewrite Hblk, Z.add_0_r, store_Some by lia.
  apply wp_bind, wp_upd. simpl. set (m1 := overwrite (p_off p) hdr m).
  assert (Hm1 : zlen m1 = zlen m) by (apply zlen_overwrite; lia).
  set (s1 := {| conn := _; hp := _; world := _ |}).
  assert (Hr1 : in_region s1 p m1).
  { unfold in_region, s1. simpl. rewrite lookup_insert_eq. split_and!; try done. fold r t. lia. }
  set (k := Z.min (len rest) (t - 7)).
  assert (Hk : taken (reader (conn s1)) rest = k).
  { unfold taken, s1. simpl. fold r t. by rewrite Hoff. }
  eapply wp_eq; [apply (consume_pool rest s1 p m1); [done|..|done]|].
  { unfold s1. simpl. fold r t. lia. }
  { unfold s1, PTRDIFF_MAX. simpl. fold r t. lia. }
  rewrite Hk. change (inbound_offset (reader (conn s1))) with (inbound_offset r). rewrite Hoff.
  set (m2 := overwrite _ _ m1). set (s2 := {| conn := _; hp := _; world := _ |}).
  assert (Hks : zlen (slice 0 k (mem_of rest)) = k) by (apply zlen_slice; lia).
  assert (Hm2 : m2 = overwrite (p_off p) (hdr ++ slice 0 k (mem_of rest)) m).
  { unfold m2, m1. rewrite <- overwrite_app by lia. by rewrite Hz. }
  assert (Hm2z : zlen m2 = zlen m) by (rewrite Hm2, zlen_overwrite; rewrite ?zlen_app; lia).
  assert (Hsl : slice (p_off p) (7 + k) m2 = hdr ++ slice 0 k (mem_of rest)).
  { rewrite Hm2, <- Hz, <- Hks, <- zlen_app. rewrite Hks. apply slice_overwrite_same; [lia|].
    rewrite zlen_app. lia. }
  assert (Hpool2 : pools_of s2 = pools_of s) by done.
  assert (Hmem2 : cmem rel K fm s2).
  { destruct Hm as [Htab Hp Hrel Hfme]. split; [done| |by apply Hrel|done]. rewrite Hpool2.
    apply (pools_ok_store K _ _ (frame_channel hdr) pool (p_block p) m1 m2);
      [|done|done|simpl; apply lookup_insert_eq|lia].
    by apply (pools_ok_store K _ _ (frame_channel hdr) pool (p_block p) m m1). }
  assert (Hkb : Forall is_byte (slice 0 k (mem_of rest))).
  { replace (slice 0 k (mem_of rest)) with (slice 0 k (contents rest)); [by apply slice_bytes|].
    unfold contents. rewrite slice_slice by lia. done. }
  assert (Hkd : k = Z.min (len rest) (t - 7)) by done. clearbody k. clear Hk.
  destruct (decide (7 + len rest < t)) as [Hlt|Hge].
  - rewrite Z.min_l in Hkd by lia. subst k. apply Hpart; [done|simpl; fold r t; lia|].
    change (slice 0 (len rest) (mem_of rest)) with (contents rest) in *.
    assert (Hza : zlen (hdr ++ contents rest) = 7 + len rest) by (rewrite zlen_app; lia).
    assert (Hlt7 : (zlen (hdr ++ contents rest) <? 7) = false) by (apply Z.ltb_ge; lia).
    split; [done|by apply Forall_app|lia| |].
    + rewrite Hlt7, Hza, Hpool2. eapply room_for_mono; [done|lia].
    + split; [done|]. rewrite Hlt7. split; [simpl; lia|]. split; [done|]. split; [simpl; fold r t; lia|].
      exists p, m2, pool. unfold frame_channel, frame_size. rewrite !slice_app_l by lia.
      split_and!; try done; simpl; fold r t; try lia.
      * apply lookup_insert_eq.
      * by rewrite Hza.
  - rewrite Z.min_r in Hkd by lia. subst k. apply (Hfull ltac:(lia) s2 m2); [simpl; fold r t; lia|].
    assert (Hza : zlen (hdr ++ slice 0 (t - 7) (mem_of rest)) = t) by (rewrite zlen_app; lia).
    split; [done| |lia| |simpl; fold r t; lia|lia| |by apply Forall_app|done].
    + rewrite Hza, Hpool2. eapply room_for_mono; [done|lia].
    + unfold in_region. simpl. fold r t. split_and!; try done; [apply lookup_insert_eq|lia].
    + rewrite Hza. by replace (7 + (t - 7)) with t in Hsl by lia.
Qed.

(** The header buffer holds the header [hdr] of a frame. *)
Record header_read (rel : bool) (K : gmap Z (list Z)) (fm : Z) (hdr : list Z) (s : cst W) : Prop := {
  hr_mem : cmem rel K fm s;
  hr_in : inbound_bytes (reader (conn s)) = Some IB_header_buffer;
  hr_off : inbound_offset (reader (conn s)) = 7;
  hr_len : zlen (header_buffer (reader (conn s))) = 8;
  hr_hdr : slice 0 7 (header_buffer (reader (conn s))) = hdr;
  hr_bytes : Forall is_byte hdr
}.

Lemma header_zlen rel K fm hdr s : header_read rel K fm hdr s -> zlen hdr = 7.
Proof. intros Hr. rewrite <- (hr_hdr _ _ _ _ _ Hr), zlen_slice; rewrite ?(hr_len _ _ _ _ _ Hr); lia. Qed.

Lemma frame_size_range acc : Forall is_byte acc -> 7 <= zlen acc -> 0 <= frame_size acc < 2 ^ 32.
Proof.
  intros Hb Hz. unfold frame_size. pose proof (be_decode_range _ (slice_bytes 3 4 acc Hb)) as Hr.
  rewrite zlen_slice in Hr by lia. lia.
Qed.

Lemma header_load rel K fm hdr s o n :
  header_read rel K fm hdr s -> 0 <= o -> 0 <= n -> o + n <= 7 -> raw_load o n s = Ret (slice o n hdr) s.
Proof.
  intros Hr Ho Hn Hle. rewrite raw_load_header; [|apply Hr|done..|rewrite (hr_len _ _ _ _ _ Hr); lia].
  f_equal. rewrite <- (hr_hdr _ _ _ _ _ Hr). by rewrite slice_slice by lia.
Qed.

(** An announced size that is out of range or above [frame_max]. *)
Lemma handle_header_rejects rel K fm hdr rest s n fr :
  header_read rel K fm hdr s -> fm < frame_size hdr + 8 ->
  exists s', handle_header uninit n rest fr s = Err AMQP_STATUS_BAD_AMQP_DATA s' /\ cmem rel K fm s'.
Proof.
  intros Hr Hbig. pose proof (header_zlen _ _ _ _ _ Hr) as Hz. pose proof (hr_bytes _ _ _ _ _ Hr) as Hb.
  pose proof (frame_size_range hdr Hb ltac:(lia)) as Hsz.
  destruct (hr_mem _ _ _ _ _ Hr) as [Ht Hp Hrel [Hfm Hfm0]].
  unfold handle_header, HEADER_SIZE, FOOTER_SIZE.
  erewrite bind_ret; [|by apply (header_load _ _ _ _ _ 1 2 Hr)].
  erewrite bind_ret; [|by apply (header_load _ _ _ _ _ 3 4 Hr)].
  rewrite d32_slice by (done || lia). fold (frame_size hdr). case_match eqn:E; [by exists s; split; [|split]|].
  apply Z.leb_gt in E. unfold INT32_MAX in E. unfold bind, upd, the_conn. simpl.
  unfold u32. rewrite (wrap_small 32) by (unfold in_u; lia). rewrite Hfm.
  unfold size_t, u64. rewrite (wrap_small 64) by (unfold in_u; lia).
  rewrite (proj2 (Z.ltb_lt _ _)) by lia. eexists. split; [done|]. by split.
Qed.

Lemma wp_handle_header rel K fm B hdr rest s n fr Q E :
  let t := frame_size hdr + 8 in
  header_read rel K fm hdr s -> room_for (B + 7) (pools_of s) -> B + 7 <= INT32_MAX ->
  len rest <= B -> readable rest -> Forall is_byte (contents rest) -> t <= fm ->
  0 <= n -> n + len rest <= PTRDIFF_MAX ->
  (7 + len rest < t -> forall s', reading rel K fm (B - len rest) (hdr ++ contents rest) s' ->
    Q (to_int (n + len rest), fr) s') ->
  (t <= 7 + len rest -> forall s' p m,
    gathered rel K fm (B - (t - 7)) (hdr ++ slice 0 (t - 7) (mem_of rest)) p m s' ->
    wp (handle_body uninit (n + (t - 7)) fr) Q E s') ->
  (forall s', rel = false -> cmem rel K fm s' -> E AMQP_STATUS_NO_MEMORY s') ->
  wp (handle_header uninit n rest fr) Q E s.
Proof.
  intros t Hr Hroom HB Hlen Hrest Hrb Htm Hn Hsum Hpart Hfull Hnomem.
  pose proof (header_zlen _ _ _ _ _ Hr) as Hz. pose proof (hr_bytes _ _ _ _ _ Hr) as Hb.
  pose proof (frame_size_range hdr Hb ltac:(lia)) as Hsz. unfold PTRDIFF_MAX in Hsum.
  destruct (cm_fm _ _ _ _ (hr_mem _ _ _ _ _ Hr)) as [Hfm Hfm0]. pose proof Hrest as [Hl0 Hl1].
  unfold handle_header, HEADER_SIZE, FOOTER_SIZE. apply wp_bind.
  eapply wp_eq; [by apply (header_load _ _ _ _ _ 1 2 Hr)|]. apply wp_bind.
  eapply wp_eq; [by apply (header_load _ _ _ _ _ 3 4 Hr)|].
  rewrite d32_slice, d16_slice by (done || lia). fold (frame_size hdr) (frame_channel hdr).
  rewrite (proj2 (Z.leb_gt _ _)) by (unfold INT32_MAX; lia). cbv zeta.
  unfold u32. rewrite (wrap_small 32) by (unfold in_u; lia).
  replace (frame_size hdr + 7 + 1) with t by lia.
  apply wp_bind, wp_upd, wp_bind, wp_the_conn. simpl. rewrite Hfm.
  rewrite size_t_small by lia. rewrite (proj2 (Z.ltb_ge _ _)) by lia.
  set (s0 := {| conn := _; hp := _; world := _ |}).
  assert (Hm0 : cmem rel K fm s0) by (destruct (hr_mem _ _ _ _ _ Hr); by split).
  apply wp_bind. wp_use (wp_get_or_create_pool rel K fm (B + 7)); [done..| |done].
  intros found s1 (Hm1 & Hroom1 & Hrd1 & Hrel1 & Hsome1 & _ & _). destruct found; simpl.
  2: { apply wp_throw. apply Hnomem; [|done]. by destruct rel; [discriminate Hrel1|]. }
  destruct Hsome1 as [pool1 Hpool1]; [done|]. apply wp_bind.
  wp_use (wp_alloc_inbound rel K fm (B + 7) (frame_channel hdr) pool1 t); [done..|lia|lia| |done].
  intros buf s2 (Hm2 & Hroom2 & Hc2 & Hbl & Hsome2 & Hbuf). apply wp_bind, wp_upd.
  destruct (hb_bytes buf) as [p|] eqn:Ebuf.
  2: { apply wp_throw. assert (rel = false) by (destruct rel; [by destruct Hsome2|done]).
       apply Hnomem; [done|]. destruct Hm2. by split. }
  destruct (Hbuf p eq_refl) as (m & pool2 & Hpool2 & Hpb & Hblk & Hpo & Hfit).
  set (s3 := {| conn := _; hp := _; world := _ |}).
  assert (Hrd3 : reader (conn s3) = {| state := state (reader (conn s));
    header_buffer := header_buffer (reader (conn s)); inbound_len := t;
    inbound_bytes := Some (IB_pool p); inbound_offset := inbound_offset (reader (conn s));
    target_size := t |}).
  { unfold s3. simpl. rewrite Ebuf, Hbl, Hc2. simpl. rewrite Hrd1. done. }
  apply wp_bind, wp_the_conn. rewrite Hrd3. simpl header_buffer.
  rewrite load_Some by (rewrite ?(hr_len _ _ _ _ _ Hr); lia). rewrite (hr_hdr _ _ _ _ _ Hr).
  apply wp_bind3.
  apply (wp_gather rel K fm B hdr rest s3 p m pool2); rewrite ?Hrd3; simpl; try done; try apply Hr.
  - destruct Hm2. by split.
  - eapply room_for_mono; [done|]. lia.
  - lia.
  - intros Hlt s' Hoff Hs'. apply wp_bind, wp_the_conn. rewrite (proj2 (Z.ltb_lt _ _)) by done.
    apply wp_ret. rewrite size_t_small by lia. auto.
  - intros Hge s' m' Hoff Hs'. apply wp_bind, wp_the_conn. rewrite Hoff, Z.ltb_irrefl.
    rewrite size_t_small by lia. eauto.
Qed.

(** ** One call of [amqp_handle_input] *)

Definition no_frame (fr : amqp_frame_t) : amqp_frame_t :=
  {| frame_type := 0; channel := channel fr; payload := payload fr |}.

(** What the call does, in terms of all bytes [full] of the current frame: the
    continuation for each case. *)
Record input_cases (rel : bool) (K : gmap Z (list Z)) (fm B : Z) (acc : list Z)
    (data : amqp_bytes_t) (fr : amqp_frame_t) (full : list Z)
    (Q : Z * amqp_frame_t -> cst W -> Prop) (E : Z -> cst W -> Prop) : Prop := {
  ic_partial : (7 <= zlen full -> zlen full < frame_size full + 8 <= fm) ->
    forall s', reading rel K fm (B - len data) full s' -> Q (len data, no_frame fr) s';
  ic_reject : 7 <= zlen full -> fm < frame_size full + 8 ->
    forall s', cmem rel K fm s' -> E AMQP_STATUS_BAD_AMQP_DATA s';
  ic_complete : 7 <= zlen full -> frame_size full + 8 <= fm -> frame_size full + 8 <= zlen full ->
    forall s' p m,
      gathered rel K fm (B - (frame_size full + 8 - zlen acc)) (slice 0 (frame_size full + 8) full) p m s' ->
      wp (handle_body uninit (frame_size full + 8 - zlen acc) (no_frame fr)) Q E s';
  ic_nomem : forall s', rel = false -> cmem rel K fm s' -> E AMQP_STATUS_NO_MEMORY s'
}.

Lemma slice_prefix_app o n (l1 l2 : list Z) k :
  0 <= o -> 0 <= n -> o + n <= k -> k = zlen l1 -> slice o n (l1 ++ l2) = slice o n l1.
Proof. intros. subst. by apply slice_app_l. Qed.

Lemma slice_0_app (l1 l2 : list Z) k : 0 <= k -> slice 0 (zlen l1 + k) (l1 ++ l2) = l1 ++ slice 0 k l2.
Proof.
  intros. unfold slice, zlen. rewrite !drop_0.
  rewrite take_app_ge by lia. do 2 f_equal. lia.
Qed.

(** With less than a header so far. *)
Lemma wp_input_header rel K fm B acc data s fr Q E :
  reading rel K fm B acc s -> readable data -> Forall is_byte (contents data) -> 0 < len data <= B ->
  zlen acc < 7 -> input_cases rel K fm B acc data fr (acc ++ contents data) Q E ->
  wp (amqp_handle_input uninit data fr) Q E s.
Proof.
  intros [Hm Hab [HB0 HB1] Hroom (Hhb & Hoff & Hrd)] Hr Hb Hlen Hacc [Hpart Hrej Hcomp Hno].
  rewrite (proj2 (Z.ltb_lt _ _)) in Hrd, Hroom by done. destruct Hrd as (Hst & Hin & Htgt & Hhdr).
  pose proof (zlen_nonneg acc). pose proof Hr as [Hl0 Hl1].
  unfold amqp_handle_input. rewrite (proj2 (Z.eqb_neq _ _)) by lia. fold (no_frame fr).
  apply wp_bind, wp_the_conn, wp_bind.
  eapply (wp_mono _ (fun _ s1 => s1 = {| conn := set_state CONNECTION_STATE_HEADER (conn s);
    hp := hp s; world := world s |}) _ (fun _ _ => False)); [| |done].
  { rewrite Hst. destruct (Z.eqb_spec (zlen acc) 0) as [H0|H0].
    - rewrite bool_decide_eq_true_2 by done. by apply wp_upd.
    - rewrite bool_decide_eq_false_2 by done. apply wp_ret.
      clear - Hst. destruct s as [c h w]. simpl in *.
      f_equal. destruct c as [? ? rd]. unfold set_state, set_reader. simpl in *. f_equal.
      destruct rd; simpl in *. by subst. }
  intros u s1 ->. clear u. set (s1 := {| conn := _; hp := _; world := _ |}).
  set (r := reader (conn s)) in *. set (k := Z.min (len data) (7 - zlen acc)).
  assert (Htk : taken (reader (conn s1)) data = k).
  { unfold taken, s1. simpl. fold r. by rewrite Htgt, Hoff. }
  apply wp_bind. eapply wp_eq.
  { apply (consume_header data s1); unfold s1, PTRDIFF_MAX; simpl; fold r; try done; lia. }
  rewrite Htk. unfold s1. simpl. fold r. rewrite Hoff. apply wp_bind, wp_the_conn. simpl. fold r. rewrite Htgt.
  set (hb := overwrite (zlen acc) (slice 0 k (mem_of data)) (header_buffer r)).
  assert (Hkz : zlen (slice 0 k (mem_of data)) = k) by (apply zlen_slice; lia).
  assert (Hhbz : zlen hb = 8) by (unfold hb; rewrite zlen_overwrite; lia).
  assert (Hhb' : slice 0 (zlen acc + k) hb = acc ++ slice 0 k (mem_of data)).
  { rewrite slice_split by lia. f_equal.
    - unfold hb. by rewrite slice_overwrite_before by lia.
    - unfold hb. rewrite <- Hkz at 1. apply slice_overwrite_same; lia. }
  set (s2 := {| conn := _; hp := _; world := _ |}).
  assert (Hm2 : cmem rel K fm s2) by (destruct Hm; by split).
  destruct (Z.ltb_spec (zlen acc + k) 7) as [Hlt|Hge].
  - assert (Hk : k = len data) by lia. rewrite Hk in *.
    change (slice 0 (len data) (mem_of data)) with (contents data) in *.
    assert (Hfz : zlen (acc ++ contents data) = zlen acc + len data) by (rewrite zlen_app; lia).
    apply wp_ret. rewrite to_int_small by (unfold INT32_MAX in *; lia). apply Hpart; [lia|].
    split; [done|by apply Forall_app|lia| |].
    + rewrite Hfz, (proj2 (Z.ltb_lt _ _)) by lia. eapply room_for_mono; [exact Hroom|]. lia.
    + split; [done|]. rewrite Hfz, (proj2 (Z.ltb_lt _ _)), (proj2 (Z.eqb_neq _ _)) by lia.
      split_and!; try done; simpl; lia.
  - assert (Hk : k = 7 - zlen acc) by lia. set (hdr := acc ++ slice 0 k (mem_of data)) in *.
    assert (Hhz : zlen hdr = 7) by (unfold hdr; rewrite zlen_app; lia).
    assert (Hfull : acc ++ contents data = hdr ++ contents (rest_of k data)).
    { unfold hdr. rewrite <- app_assoc. f_equal. apply contents_split; [done|lia]. }
    rewrite Hfull in *.
    assert (Hfz : zlen (hdr ++ contents (rest_of k data)) = 7 + (len data - k)).
    { rewrite zlen_app, zlen_contents by (apply rest_readable; [done|lia]). simpl. lia. }
    assert (Hsame : frame_size (hdr ++ contents (rest_of k data)) = frame_size hdr).
    { unfold frame_size. by rewrite (slice_prefix_app 3 4 _ _ 7). }
    rewrite Hsame in *. assert (Hhdrb : Forall is_byte hdr /\ Forall is_byte (contents (rest_of k data))).
    { apply Forall_app. rewrite <- Hfull. by apply Forall_app. }
    assert (Hhr : header_read rel K fm hdr s2).
    { split; try done; simpl; try apply Hhdrb; [lia|]. fold r hb.
      by replace (zlen acc + k) with 7 in Hhb' by lia. }
    destruct (decide (frame_size hdr + 8 <= fm)) as [Hfit|Hbig].
    + eapply (wp_handle_header rel K fm (B - k) hdr); simpl; try done; try lia.
      * eapply room_for_mono; [exact Hroom|]. lia.
      * apply rest_readable; [done|lia].
      * apply Hhdrb.
      * intros Hlt s' Hs'. rewrite to_int_small by (unfold INT32_MAX in *; lia).
        replace (k + (len data - k)) with (len data) by lia. apply Hpart; [lia|].
        by replace (B - k - (len data - k)) with (B - len data) in Hs' by lia.
      * intros Hle s' p m Hs'.
        replace (k + (frame_size hdr + 8 - 7)) with (frame_size hdr + 8 - zlen acc) by lia.
        apply (Hcomp ltac:(lia) ltac:(lia) ltac:(lia) s' p m).
        replace (slice 0 (frame_size hdr + 8) _) with
          (hdr ++ slice 0 (frame_size hdr + 8 - 7) (drop (Z.to_nat k) (mem_of data))).
        { by replace (B - (frame_size hdr + 8 - zlen acc)) with (B - k - (frame_size hdr + 8 - 7)) by lia. }
        replace (frame_size hdr + 8) with (zlen hdr + (frame_size hdr + 8 - 7)) at 2 by lia.
        pose proof (frame_size_range hdr (proj1 Hhdrb) ltac:(lia)).
        rewrite slice_0_app by lia. f_equal. unfold contents, rest_of, mem_of. simpl.
        rewrite slice_slice by lia. done.
    + destruct (handle_header_rejects rel K fm hdr (rest_of k data) s2 k (no_frame fr) Hhr ltac:(lia))
        as (s' & Hrun & Hs').
      change (wp (handle_header uninit k (rest_of k data) (no_frame fr)) Q E s2).
      unfold wp. rewrite Hrun. apply Hrej; [lia|lia|done].
Qed.

(** With the header read and the frame being gathered. *)
Lemma wp_input_body rel K fm B acc data s fr Q E :
  reading rel K fm B acc s -> readable data -> Forall is_byte (contents data) -> 0 < len data <= B ->
  7 <= zlen acc -> input_cases rel K fm B acc data fr (acc ++ contents data) Q E ->
  wp (amqp_handle_input uninit data fr) Q E s.
Proof.
  intros [Hm Hab [HB0 HB1] Hroom (Hhb & Hoff & Hrd)] Hr Hb Hlen Hacc [Hpart Hrej Hcomp Hno].
  rewrite (proj2 (Z.ltb_ge _ _)) in Hrd, Hroom by done.
  destruct Hrd as (Hst & Hlt & p & m & pool & Hin & Hget & Hpb & Hblk & Hpo & Hfit & Hsl & Ht & Hfm).
  pose proof Hr as [Hl0 Hl1]. destruct (cm_fm _ _ _ _ Hm) as [_ Hfm0].
  set (r := reader (conn s)) in *. set (t := target_size r) in *.
  unfold amqp_handle_input. rewrite (proj2 (Z.eqb_neq _ _)) by lia. fold (no_frame fr).
  apply wp_bind, wp_the_conn, wp_bind. fold r. rewrite Hst, bool_decide_eq_false_2 by done. apply wp_ret.
  set (k := Z.min (len data) (t - zlen acc)).
  assert (Htk : taken r data = k) by (unfold taken; fold t; by rewrite Hoff).
  apply wp_bind. eapply wp_eq.
  { apply (consume_pool data s p m); unfold PTRDIFF_MAX; fold r t; [|lia|lia|done].
    unfold in_region. fold r t. done. }
  fold r. rewrite Htk, Hoff. apply wp_bind, wp_the_conn. simpl. fold r t.
  set (m' := overwrite _ _ m). set (s2 := {| conn := _; hp := _; world := _ |}).
  assert (Hkz : zlen (slice 0 k (mem_of data)) = k) by (apply zlen_slice; lia).
  assert (Hmz : zlen m' = zlen m) by (unfold m'; rewrite zlen_overwrite; lia).
  assert (Hsl' : slice (p_off p) (zlen acc + k) m' = acc ++ slice 0 k (mem_of data)).
  { rewrite slice_split by lia. f_equal.
    - unfold m'. by rewrite slice_overwrite_before by lia.
    - unfold m'. rewrite <- Hkz at 1. apply slice_overwrite_same; lia. }
  assert (Hm2 : cmem rel K fm s2).
  { destruct Hm as [Htab Hp Hrel Hfme]. split; [done| |by apply Hrel|done].
    by apply (pools_ok_store K _ _ (frame_channel acc) pool (p_block p) m m'). }
  assert (Hkb : Forall is_byte (slice 0 k (mem_of data))).
  { replace (slice 0 k (mem_of data)) with (slice 0 k (contents data)); [by apply slice_bytes|].
    unfold contents. rewrite slice_slice by lia. done. }
  assert (Hfs : frame_size (acc ++ contents data) = frame_size acc).
  { unfold frame_size. by rewrite slice_app_l by lia. }
  assert (Hfc : frame_channel (acc ++ contents data) = frame_channel acc).
  { unfold frame_channel. by rewrite slice_app_l by lia. }
  assert (Hfz : zlen (acc ++ contents data) = zlen acc + len data)
    by (rewrite zlen_app, zlen_contents by done; lia).
  rewrite Hfs in *. rewrite <- Ht in *. assert (Hkd : k = Z.min (len data) (t - zlen acc)) by done.
  clearbody k. clear Htk. destruct (Z.ltb_spec (zlen acc + k) t) as [Hlt'|Hge].
  - rewrite Z.min_l in Hkd by lia. subst k.
    change (slice 0 (len data) (mem_of data)) with (contents data) in *.
    apply wp_ret. rewrite to_int_small by (unfold INT32_MAX in *; lia). apply Hpart; [lia|].
    split; [done|by apply Forall_app|lia| |].
    + rewrite Hfz, (proj2 (Z.ltb_ge _ _)) by lia. eapply room_for_mono; [exact Hroom|]. lia.
    + split; [done|]. rewrite Hfz, (proj2 (Z.ltb_ge _ _)) by lia.
      split; [done|]. split; [done|]. split; [done|]. exists p, m', pool.
      rewrite Hfc, Hfs, Hfz. split_and!; try done; simpl; fold r t; try lia. apply lookup_insert_eq.
  - assert (t - zlen acc <= len data) by lia. rewrite Z.min_r in Hkd by lia. subst k. simpl. rewrite Hst.
    apply (Hcomp ltac:(lia) ltac:(lia) ltac:(lia) s2 p m').
    replace (slice 0 t (acc ++ contents data)) with (acc ++ slice 0 (t - zlen acc) (mem_of data)).
    2: { replace t with (zlen acc + (t - zlen acc)) at 2 by lia. rewrite slice_0_app by lia. f_equal.
         unfold contents. by rewrite slice_slice by lia. }
    assert (Hraw : zlen (acc ++ slice 0 (t - zlen acc) (mem_of data)) = t) by (rewrite zlen_app; lia).
    split; [done| |lia| |rewrite Hraw; done|lia| |by apply Forall_app|done].
    + rewrite Hraw. eapply room_for_mono; [exact Hroom|]. lia.
    + unfold in_region. simpl. fold r t. split_and!; try done; [apply lookup_insert_eq|lia].
    + rewrite Hraw. by replace (zlen acc + (t - zlen acc)) with t in Hsl' by lia.
Qed.

Lemma wp_handle_input rel K fm B acc data s fr Q E :
  reading rel K fm B acc s -> readable data -> Forall is_byte (contents data) -> 0 < len data <= B ->
  input_cases rel K fm B acc data fr (acc ++ contents data) Q E ->
  wp (amqp_handle_input uninit data fr) Q E s.
Proof.
  intros Hs Hr Hb Hlen Hc. destruct (decide (zlen acc < 7)).
  - by eapply wp_input_header.
  - by eapply wp_input_body; try done; lia.
Qed.
End Parser.
