(* ===== verification/ParserTheorems.v ===== *)
(** * Theorems about receiving frames *)

From S2P Require Import Prelude Machine Status Alloc Codec Table TableEncode TableDecode Framing Methods MethodDecode MethodEncode MethodWire MethodTheory MethodSafety MethodTheorems Properties PropertiesTheory PropertiesTheorems Mem MemTheory PoolTheorems TableTheorems PoolTable Time Frame FrameTheorems Connection ParserTheory.

(** ** The parts of a frame on the wire *)

Section Wire.
Context (ft ch : Z) (body : list Z).
Context (Hft : in_u 8 ft) (Hch : in_u 16 ch) (Hbody : zlen body < 2 ^ 32).
Let w := wire_bytes ft ch body.

Lemma zlen_wire_bytes : zlen w = zlen body + 8.
Proof using. unfold w, wire_bytes. rewrite !zlen_app, !zlen_be_encode. lia. Qed.

Lemma be_decode_be_encode n v bits :
  in_u bits v -> 2 ^ bits = 256 ^ Z.of_nat n -> be_decode (be_encode n v) = v.
Proof using. intros Hv Hb. rewrite be_decode_encode, <- Hb. apply Z.mod_small. done. Qed.

Lemma wire_kind : frame_kind w = ft.
Proof using Hft.
  unfold frame_kind, w, wire_bytes. change 1 with (zlen (be_encode 1 ft)).
  rewrite slice_app_l by (rewrite ?zlen_be_encode; lia).
  rewrite slice_full. by apply (be_decode_be_encode 1 ft 8).
Qed.

Lemma wire_channel : frame_channel w = ch.
Proof using Hch.
  unfold frame_channel, w, wire_bytes.
  replace (slice 1 2 _) with (be_encode 2 ch); [by apply (be_decode_be_encode 2 ch 16)|].
  symmetry. exact (slice_app_mid (be_encode 1 ft) (be_encode 2 ch) _).
Qed.

Lemma wire_size : frame_size w = zlen body.
Proof using Hbody.
  unfold frame_size, w, wire_bytes. rewrite app_assoc.
  replace (slice 3 4 _) with (be_encode 4 (zlen body)).
  - apply (be_decode_be_encode 4 _ 32); [|done]. unfold in_u. pose proof (zlen_nonneg body). lia.
  - symmetry. exact (slice_app_mid (be_encode 1 ft ++ be_encode 2 ch) (be_encode 4 (zlen body)) _).
Qed.

Lemma wire_body : frame_body w = body.
Proof using.
  unfold frame_body. rewrite zlen_wire_bytes. replace (zlen body + 8 - 8) with (zlen body) by lia.
  unfold w, wire_bytes. rewrite !app_assoc, <- app_assoc.
  exact (slice_app_mid ((be_encode 1 ft ++ be_encode 2 ch) ++ be_encode 4 (zlen body)) body _).
Qed.

Lemma wire_end : be_decode (slice (zlen w - 1) 1 w) = AMQP_FRAME_END.
Proof using.
  rewrite zlen_wire_bytes. unfold w, wire_bytes. rewrite !app_assoc.
  rewrite slice_app_r by (rewrite !zlen_app, !zlen_be_encode; lia).
  rewrite !zlen_app, !zlen_be_encode.
  replace (zlen body + 8 - 1 - _) with 0 by lia. change 1 with (zlen (be_encode 1 AMQP_FRAME_END)).
  by rewrite slice_full.
Qed.

Lemma wire_is_bytes : Forall is_byte body -> Forall is_byte w.
Proof using. intros Hb. unfold w, wire_bytes. rewrite !Forall_app. by split_and!; try apply be_encode_bytes. Qed.
End Wire.

(** ** Frames that arrive as they were sent *)

Definition receivable (f : amqp_frame_t) : Prop :=
  in_u 16 (channel f) /\ Forall is_byte (wire_payload (payload f)) /\
  match payload f with
  | PL_none => frame_type f = AMQP_FRAME_HEARTBEAT
  | PL_method id d =>
      frame_type f = AMQP_FRAME_METHOD /\ id = method_number d /\ in_u 32 id /\
      Forall wf_field (method_fields d) /\ Forall decodable_field (method_fields d)
  | PL_properties cid size p _ =>
      frame_type f = AMQP_FRAME_HEADER /\ cid = class_id p /\ in_u 16 cid /\ in_u 64 size /\
      simple_flags (flags_of p) /\ fields_ok wf_field p /\ fields_ok decodable_field p
  | PL_body_fragment b => frame_type f = AMQP_FRAME_BODY
  | PL_protocol_header _ _ _ _ => False
  end.

(** The frame as the receiver sees it: flags are 0 or 1, strings are views into
    the received bytes, members the sender left out are as the receiver's memory
    was, and a heartbeat leaves the payload as it was. *)
Definition received (uninit : amqp_basic_properties_t) (old : frame_payload) (f : amqp_frame_t)
    : amqp_frame_t :=
  {| frame_type := frame_type f; channel := channel f;
     payload := match payload f with
                | PL_method id d => PL_method id (norm_method d)
                | PL_properties cid size p _ =>
                    PL_properties cid size (norm_properties uninit p) (view (wire_properties p))
                | PL_body_fragment b => PL_body_fragment (view (contents b))
                | PL_none | PL_protocol_header _ _ _ _ => old
                end |}.

Section Theorems.
Context {W : Type} {HH : Host} (uninit : amqp_basic_properties_t).

Lemma view_holds w : holds_at (view w) 0 w.
Proof.
  unfold holds_at, view, mem_of. simpl. rewrite slice_full. split_and!; [lia|lia|done].
Qed.

Lemma receivable_kind f : receivable f -> in_u 8 (frame_type f).
Proof.
  intros (_ & _ & Hf). destruct (payload f);
    [rewrite Hf|destruct Hf as [-> _]|destruct Hf as [-> _]|rewrite Hf|done]; by vm_compute.
Qed.

Lemma receivable_long f : receivable f -> long_enough (wire_frame f).
Proof.
  intros Hrf. pose proof (receivable_kind f Hrf) as Hk. destruct Hrf as (Hc & _ & Hf).
  unfold long_enough, wire_frame. rewrite wire_body, wire_kind by done.
  destruct (payload f); simpl;
    [rewrite Hf|destruct Hf as [-> _]|destruct Hf as [-> _]|rewrite Hf|done]; split; try done; intros _;
    rewrite !zlen_app, !zlen_be_encode.
  - pose proof (zlen_nonneg (wire_method decoded)). lia.
  - pose proof (zlen_nonneg (wire_properties decoded)). lia.
Qed.

(** Decoding the payload of such a frame. *)
Lemma receivable_decodes f old :
  receivable f -> zlen (wire_frame f) <= 2 ^ 30 ->
  decodes_to uninit true (wire_frame f) old (fun pl => pl = payload (received uninit old f)) (fun _ => False).
Proof.
  intros Hrf Hsz F p Hinv Hrel Hroom. rewrite zlen_wire_frame in Hsz.
  pose proof (receivable_kind f Hrf) as Hk. destruct Hrf as (Hc & Hb & Hf).
  unfold wire_frame in *. rewrite wire_body in *. rewrite wire_kind by done.
  unfold decode_payload, received.
  destruct (payload f) as [|id d|cid size q raw|b|]; simpl in *.
  - rewrite Hf. apply wp_ret. split_and!; try done. change (zlen []) with 0. lia.
  - destruct Hf as (-> & -> & Hid & Hwf & Hdec). simpl. rewrite zlen_app, zlen_be_encode in *.
    pose proof (zlen_nonneg (wire_method d)).
    replace (be_decode (slice 0 4 _)) with (method_number d).
    2: { rewrite slice_app_l by (rewrite ?zlen_be_encode; lia).
         change 4 with (zlen (be_encode 4 (method_number d))) at 1. rewrite slice_full.
         symmetry. by apply (be_decode_be_encode 4 _ 32). }
    replace (slice 4 _ _) with (wire_method d).
    2: { rewrite slice_app_r by (rewrite zlen_be_encode; lia). rewrite zlen_be_encode.
         replace (4 - Z.of_nat 4) with 0 by lia. replace (Z.of_nat 4 + _ - 4) with (zlen (wire_method d)) by lia.
         by rewrite slice_full. }
    destruct (decode_method_reads (HL := framed_laws F) d (view (wire_method d)) p)
      as (p' & Hrun & Hi & Hr & Hroom'); try done.
    + apply readable_view. unfold PTRDIFF_MAX. lia.
    + simpl. lia.
    + apply view_holds.
    + by apply Hrel.
    + simpl. lia.
    + apply wp_bind. eapply wp_eq; [exact Hrun|]. apply wp_ret. simpl in *.
      split_and!; [done|done|lia|done].
  - destruct Hf as (-> & -> & Hcid & Hsize & Hfl & Hwf & Hdec). simpl.
    rewrite !zlen_app, !zlen_be_encode in *. pose proof (zlen_nonneg (wire_properties q)).
    replace (be_decode (slice 0 2 _)) with (class_id q).
    2: { rewrite slice_app_l by (rewrite ?zlen_be_encode; lia).
         change 2 with (zlen (be_encode 2 (class_id q))) at 1. rewrite slice_full.
         symmetry. by apply (be_decode_be_encode 2 _ 16). }
    replace (slice 12 _ _) with (wire_properties q).
    2: { rewrite !app_assoc, slice_app_r by (rewrite !zlen_app, !zlen_be_encode; lia).
         rewrite !zlen_app, !zlen_be_encode. symmetry. etransitivity; [|apply slice_full]. f_equal; lia. }
    replace (be_decode (slice 4 8 _)) with size.
    2: { rewrite app_assoc. replace (slice 4 8 _) with (be_encode 8 size).
         - symmetry. by apply (be_decode_be_encode 8 _ 64).
         - symmetry. exact (slice_app_mid (be_encode 2 (class_id q) ++ be_encode 2 0) (be_encode 8 size) _). }
    destruct (decode_properties_reads (HL := framed_laws F) uninit q (view (wire_properties q)) p)
      as (p' & Hrun & Hi & Hr & Hroom'); try done.
    + apply readable_view. unfold PTRDIFF_MAX. lia.
    + simpl. lia.
    + apply view_holds.
    + by apply Hrel.
    + simpl. lia.
    + apply wp_bind. eapply wp_eq; [exact Hrun|]. apply wp_ret. simpl in *.
      split_and!; [done|done|lia|done].
  - rewrite Hf. simpl. apply wp_ret. pose proof (zlen_nonneg (contents b)). split_and!; try done. lia.
  - done.
Qed.

Lemma receivable_result f pl :
  receivable f -> result_frame (wire_frame f) pl =
    {| frame_type := frame_type f; channel := channel f; payload := pl |}.
Proof.
  intros Hf. unfold result_frame, wire_frame.
  rewrite wire_kind by (by apply receivable_kind). rewrite wire_channel by apply Hf.
  replace (known_kind (frame_type f)) with true; [done|]. destruct Hf as (_ & _ & Hf).
  destruct (payload f); [rewrite Hf|destruct Hf as [-> _]|destruct Hf as [-> _]|rewrite Hf|]; done.
Qed.

(** One call on data that continues the frame [f] of which [acc] has arrived. *)
Lemma input_of_stream K fm B acc data f more later (s : cst W) fr :
  reading true K fm B acc s -> receivable f -> zlen (wire_frame f) <= fm ->
  acc ++ contents data ++ later = wire_frame f ++ more -> zlen acc < zlen (wire_frame f) ->
  readable data -> Forall is_byte (contents data) -> 0 < len data <= B ->
  exists n g s', amqp_handle_input uninit data fr s = Ret (n, g) s' /\
    if zlen acc + len data <? zlen (wire_frame f)
    then n = len data /\ g = no_frame fr /\ reading true K fm (B - n) (acc ++ contents data) s'
    else n = zlen (wire_frame f) - zlen acc /\ g = received uninit (payload fr) f /\
         reading true K fm (B - n) [] s'.
Proof.
  intros Hs Hf Hfm Heq Hacc Hr Hb Hlen. set (w := wire_frame f) in *. set (full := acc ++ contents data) in *.
  rewrite app_assoc in Heq. fold full in Heq.
  assert (Hwz : zlen w = zlen (wire_payload (payload f)) + 8) by (unfold w; rewrite zlen_wire_frame; lia).
  pose proof (zlen_nonneg (wire_payload (payload f))) as Hpz. pose proof (zlen_nonneg acc).
  destruct (cm_fm _ _ _ _ (rd_mem _ _ _ _ _ _ Hs)) as [_ Hfm0].
  assert (Hfz : zlen full = zlen acc + len data)
    by (unfold full; rewrite zlen_app, zlen_contents by done; lia).
  assert (Hfs : 7 <= zlen full -> frame_size full + 8 = zlen w).
  { intros H7. rewrite Hwz. f_equal. etransitivity; [|apply (wire_size (frame_type f) (channel f)); lia].
    change (wire_bytes _ _ _) with w. unfold frame_size. f_equal.
    transitivity (slice 3 4 (full ++ later)); [by rewrite slice_app_l by lia|].
    rewrite Heq. by rewrite slice_app_l by lia. }
  assert (Hraw : zlen w <= zlen full -> slice 0 (zlen w) full = w).
  { intros Hle. transitivity (slice 0 (zlen w) (full ++ later)); [by rewrite slice_app_l by lia|].
    rewrite Heq, slice_app_l by lia. apply slice_full. }
  destruct (wp_run_ret (amqp_handle_input uninit data fr) (fun '(n, g) s' =>
    if zlen acc + len data <? zlen w
    then n = len data /\ g = no_frame fr /\ reading true K fm (B - n) full s'
    else n = zlen w - zlen acc /\ g = received uninit (payload fr) f /\
         reading true K fm (B - n) [] s') s) as ([n g] & s' & Hrun & Hpost); [|by exists n, g, s'].
  eapply (wp_handle_input uninit true K fm B acc data s fr); [done..|]. fold full. split.
  - intros Hin s' Hs'. destruct (Z.ltb_spec (zlen acc + len data) (zlen w)); [done|].
    specialize (Hfs ltac:(lia)). specialize (Hin ltac:(lia)). lia.
  - intros H7 Hbig. specialize (Hfs H7). lia.
  - intros H7 Hle1 Hle2 s' p m Hg. specialize (Hfs H7). rewrite Hfs in *. rewrite Hraw in Hg by lia.
    rewrite (proj2 (Z.ltb_ge _ _)) by lia.
    eapply wp_mono; [eapply (wp_handle_body uninit true K fm _ w p m s' _ _
      (fun pl => pl = payload (received uninit (payload fr) f)) (fun _ => False) Hg)| |].
    + apply wire_end.
    + by apply receivable_long.
    + apply receivable_decodes; [done|fold w; lia].
    + intros [n g] s2 (-> & (pl & -> & ->) & Hs2). unfold w. rewrite receivable_result by done. fold w.
      pose proof (rd_budget _ _ _ _ _ _ Hs). unfold INT32_MAX in *.
      rewrite to_int_small by lia. done.
    + intros e s2 [[[]|[_ Hfalse]] _]. done.
  - done.
Qed.

(** ** Streams

    The receive loop: what arrives is handed to [amqp_handle_input] until it is
    used up, as [amqp_simple_wait_frame] does with the socket's buffer; a frame
    type of 0 is no frame. *)
Fixpoint receive (fuel : nat) (data : amqp_bytes_t) (fr : amqp_frame_t) : C (cst W) (list amqp_frame_t) :=
  match fuel with
  | O => out_of_fuel
  | S fuel' =>
      if len data =? 0 then ret []
      else
        let* '(n, f) := amqp_handle_input uninit data fr in
        let* fs := receive fuel' (rest_of n data) fr in
        ret (if frame_type f =? 0 then fs else f :: fs)
  end.

Fixpoint receive_all (chunks : list amqp_bytes_t) (fr : amqp_frame_t) : C (cst W) (list amqp_frame_t) :=
  match chunks with
  | [] => ret []
  | d :: ds =>
      let* fs := receive (S (Z.to_nat (len d))) d fr in
      let* gs := receive_all ds fr in
      ret (fs ++ gs)
  end.

Abbreviation wires fs := (concat (map wire_frame fs)).

(** [acc] is a proper part of the first frame to come. *)
Definition strictly_before (acc : list Z) (fs : list amqp_frame_t) : Prop :=
  match fs with [] => acc = [] | f :: _ => zlen acc < zlen (wire_frame f) end.

Definition acceptable (fm : Z) (f : amqp_frame_t) : Prop :=
  receivable f /\ zlen (wire_frame f) <= fm.

Lemma before_nil fs : strictly_before [] fs.
Proof.
  destruct fs as [|f fs]; [done|]. simpl. rewrite zlen_wire_frame. change (zlen []) with 0.
  pose proof (zlen_nonneg (wire_payload (payload f))). lia.
Qed.

Lemma receivable_nonzero f : receivable f -> frame_type f <> 0.
Proof.
  intros (_ & _ & Hf).
  destruct (payload f); [rewrite Hf|destruct Hf as [-> _]|destruct Hf as [-> _]|rewrite Hf|]; done.
Qed.

Lemma receive_stream K fm fr fuel : forall B acc data later fs (s : cst W),
  reading true K fm B acc s -> Forall (acceptable fm) fs -> readable data ->
  Forall is_byte (contents data) -> len data <= B -> (Z.to_nat (len data) < fuel)%nat ->
  acc ++ contents data ++ later = wires fs -> strictly_before acc fs ->
  exists now next acc' s', fs = now ++ next /\
    receive fuel data fr s = Ret (map (received uninit (payload fr)) now) s' /\
    acc' ++ later = wires next /\ strictly_before acc' next /\
    reading true K fm (B - len data) acc' s'.
Proof.
  induction fuel as [|fuel IH]; intros B acc data later fs s Hs Hfs Hr Hb HB Hfuel Heq Hst; [lia|].
  pose proof Hr as [Hl0 _]. simpl. destruct (Z.eqb_spec (len data) 0) as [H0|H0].
  { exists [], fs, acc, s. rewrite H0, Z.sub_0_r. unfold contents in Heq. rewrite H0 in Heq.
    split_and!; done. }
  assert (Hcz : zlen (contents data) = len data) by (by apply zlen_contents).
  destruct fs as [|f fs].
  { assert (Hz : zlen (acc ++ contents data ++ later) = 0) by (rewrite Heq; done).
    rewrite !zlen_app in Hz. pose proof (zlen_nonneg acc). pose proof (zlen_nonneg later). lia. }
  apply Forall_cons in Hfs as [[Hf Hfm] Hfs]. simpl in Heq, Hst.
  destruct (input_of_stream K fm B acc data f (wires fs) later s fr) as (n & g & s1 & Hrun & Hpost);
    [done..|lia|].
  rewrite (bind_ret _ _ _ _ _ Hrun).
  destruct (Z.ltb_spec (zlen acc + len data) (zlen (wire_frame f))) as [Hlt|Hge];
    destruct Hpost as (-> & -> & Hs1).
  - exists [], (f :: fs), (acc ++ contents data), s1.
    destruct fuel as [|fuel]; [lia|]. simpl. rewrite Z.sub_diag. simpl.
    split_and!; try done; [by rewrite <- app_assoc|]. rewrite zlen_app. lia.
  - set (n := zlen (wire_frame f) - zlen acc) in *.
    assert (Hn : 0 < n <= len data) by lia.
    rewrite (contents_split n data Hr ltac:(lia)) in Heq. rewrite <- app_assoc, app_assoc in Heq.
    apply app_inj_1 in Heq as [_ Heq].
    2: { rewrite length_app. pose proof (zlen_slice 0 n (mem_of data)). unfold zlen in *. lia. }
    assert (Hrb : Forall is_byte (contents (rest_of n data))).
    { rewrite (contents_split n data Hr ltac:(lia)) in Hb. by apply Forall_app in Hb as [_ ?]. }
    destruct (IH (B - n) [] (rest_of n data) later fs s1) as (now & next & acc' & s2 & -> & Hrec & Heq' & Hst' & Hs2);
      try done; [apply rest_readable; [done|lia]|simpl; lia|simpl; lia|apply before_nil|].
    exists (f :: now), next, acc', s2. split_and!; try done.
    + rewrite (bind_ret _ _ _ _ _ Hrec). simpl.
      by rewrite (proj2 (Z.eqb_neq _ _)) by (by apply receivable_nonzero).
    + by replace (B - len data) with (B - n - len (rest_of n data)) by (simpl; lia).
Qed.

Lemma receive_all_stream K fm fr chunks : forall B acc fs (s : cst W),
  reading true K fm B acc s -> Forall (acceptable fm) fs -> Forall readable chunks ->
  Forall (fun d => Forall is_byte (contents d)) chunks -> zlen (concat (map contents chunks)) <= B ->
  acc ++ concat (map contents chunks) = wires fs -> strictly_before acc fs ->
  exists s', receive_all chunks fr s = Ret (map (received uninit (payload fr)) fs) s' /\
    reading true K fm (B - zlen (concat (map contents chunks))) [] s'.
Proof.
  induction chunks as [|d ds IH]; intros B acc fs s Hs Hfs Hr Hb HB Heq Hst; simpl in *.
  - rewrite app_nil_r in Heq. destruct fs as [|f fs].
    + simpl in Hst. subst acc. exists s. change (zlen []) with 0. by rewrite Z.sub_0_r.
    + simpl in *. subst acc. rewrite zlen_app in Hst. pose proof (zlen_nonneg (wires fs)). lia.
  - apply Forall_cons in Hr as [Hd Hr], Hb as [Hdb Hb]. rewrite zlen_app in HB |- *.
    pose proof (zlen_nonneg (concat (map contents ds))). rewrite zlen_contents in * by done.
    pose proof Hd as [Hl0 _].
    destruct (receive_stream K fm fr (S (Z.to_nat (len d))) B acc d (concat (map contents ds)) fs s)
      as (now & next & acc' & s1 & -> & Hrec & Heq' & Hst' & Hs1); try done; [lia..|].
    rewrite (bind_ret _ _ _ _ _ Hrec). apply Forall_app in Hfs as [_ Hnext].
    destruct (IH (B - len d) acc' next s1) as (s2 & Hrec2 & Hs2); try done; [lia|].
    exists s2. rewrite (bind_ret _ _ _ _ _ Hrec2). rewrite map_app. split; [done|].
    by rewrite Z.sub_add_distr.
Qed.

(** C1: frames survive the network.  However the bytes of a sequence of frames
    are cut into pieces, handing the pieces to [amqp_handle_input] on a
    connection that is between frames (and whose allocations succeed) yields
    exactly these frames in order, each with its channel and its decoded payload,
    and leaves the connection between frames again with every block outside the
    pools as it was. *)
Theorem frames_reassembled K fm B chunks fs (s : cst W) fr :
  reading true K fm B [] s -> Forall (acceptable fm) fs ->
  Forall readable chunks -> Forall (fun d => Forall is_byte (contents d)) chunks ->
  concat (map contents chunks) = concat (map wire_frame fs) ->
  zlen (concat (map wire_frame fs)) <= B ->
  exists s', receive_all chunks fr s = Ret (map (received uninit (payload fr)) fs) s' /\
    reading true K fm (B - zlen (concat (map wire_frame fs))) [] s'.
Proof.
  intros Hs Hfs Hr Hb Heq HB. rewrite <- Heq in HB |- *.
  apply (receive_all_stream K fm fr chunks B [] fs s); try done. apply before_nil.
Qed.

(** ** Arbitrary input *)

Definition input_status (e : Z) : Prop :=
  e = AMQP_STATUS_BAD_AMQP_DATA \/ e = AMQP_STATUS_NO_MEMORY \/
  e = AMQP_STATUS_UNKNOWN_METHOD \/ e = AMQP_STATUS_UNKNOWN_CLASS.

Definition wf_payload (p : frame_payload) : Prop :=
  match p with
  | PL_method id d => id = method_number d /\ Forall wf_field (method_fields d)
  | PL_properties cid _ q _ => cid = class_id q /\ fields_ok wf_field q
  | _ => True
  end.

(** The fixed part of the payload is there, and a content header has one flag
    word. *)
Definition well_formed (raw : list Z) : Prop :=
  long_enough raw /\
  (frame_kind raw = AMQP_FRAME_HEADER -> 14 <= zlen (frame_body raw) ->
   Z.land (be_decode (slice 12 2 (frame_body raw))) 1 = 0).

Lemma any_payload_decodes raw old :
  Forall is_byte raw -> 8 <= zlen raw <= 2 ^ 30 -> well_formed raw ->
  decodes_to uninit false raw old
    (fun pl => known_kind (frame_kind raw) = true -> pl = old \/ wf_payload pl) input_status.
Proof.
  intros Hb Hsz [[Hm Hp] Hfl] F p Hinv _ Hroom. set (body := frame_body raw) in *.
  assert (Hbb : Forall is_byte body) by (by apply slice_bytes).
  assert (Hz : zlen body = zlen raw - 8) by (unfold body, frame_body; rewrite zlen_slice; lia).
  unfold decode_payload. destruct (Z.eqb_spec (frame_kind raw) AMQP_FRAME_METHOD) as [Hk|_].
  { specialize (Hm Hk). assert (Hv : zlen (slice 4 (zlen body - 4) body) = zlen body - 4)
      by (apply zlen_slice; lia).
    apply wp_bind. wp_use (wp_decode_method (HL := framed_laws F)); simpl; rewrite ?Hv; try lia; try done.
    - apply readable_view. unfold PTRDIFF_MAX. lia.
    - by apply slice_bytes.
    - simpl. intros d s' (Hn & Hwf & Hi & Hr). apply wp_ret. split_and!; [|done|lia|done].
      intros _. right. simpl. done.
    - simpl. intros e s' (He & Hi). split_and!; [|done|done]. unfold input_status. tauto. }
  destruct (Z.eqb_spec (frame_kind raw) AMQP_FRAME_HEADER) as [Hk|_].
  { specialize (Hp Hk). assert (Hv : zlen (slice 12 (zlen body - 12) body) = zlen body - 12)
      by (apply zlen_slice; lia).
    apply wp_bind. wp_use (wp_decode_properties (HL := framed_laws F) uninit); simpl; rewrite ?Hv; try lia; try done.
    - apply readable_view. unfold PTRDIFF_MAX. lia.
    - by apply slice_bytes.
    - intros H2. change (mem_of (view ?x)) with x. rewrite slice_slice by lia. apply Hfl; [done|lia].
    - simpl. intros d s' (Hn & _ & Hwf & Hi & Hr). apply wp_ret. split_and!; [|done|lia|done].
      intros _. right. simpl. done.
    - simpl. intros e s' (He & Hi). split_and!; [|done|done]. unfold input_status, properties_status in *.
      tauto. }
  case_match; apply wp_ret; (split_and!; [|done|lia|done]); intros _; [by right|by left].
Qed.

End Theorems.
