(* ===== verification/Greeting.v ===== *)
(** * The first frame of a connection

    A new connection collects 8 bytes before it looks at them, because the broker
    may answer with a protocol header of that length.  When they are the start of
    a frame, 7 of them are copied to the block of the frame; the eighth is the
    first byte of the payload, the high byte of a class number, which is zero, and
    so is the fresh memory of a pool.  From then on the connection is in the
    invariant [reading] of ParserTheory.v. *)

From S2P Require Import Prelude Machine Status Alloc Codec Table Framing Methods MethodDecode MethodEncode MethodWire Properties Mem MemTheory PoolTable Time Frame FrameTheorems Connection ParserTheory ParserTheorems.

(** ** Fresh pools hold zeroes *)

Lemma record_keeps x p ok x' h h' b :
  blocklist x = None -> record_pool_block x p h = Ret (ok, x') h' -> b <> h_next h ->
  h_blocks h' !! b = h_blocks h !! b.
Proof.
  intros Hx Hrun Hb. unfold record_pool_block in Hrun. rewrite Hx in Hrun. destruct (_ <? _); [done|].
  unfold bind, c_malloc, heap_alloc in Hrun. destruct (_ && _); simpl in Hrun.
  - unfold store_cell in Hrun. simpl in Hrun. rewrite lookup_insert_eq in Hrun.
    destruct (_ && _); [|done]. injection Hrun as _ _ <-. simpl. by rewrite lookup_insert_ne.
  - by injection Hrun as _ _ <-.
Qed.

Lemma fresh_pool_zero ps n p pool' h h' :
  amqp_pool_alloc (init_amqp_pool ps) n h = Ret (Some p, pool') h' ->
  exists m, h_blocks h' !! p_block p = Some m /\ Forall (eq 0) m.
Proof.
  assert (Hz : forall k, Forall (eq 0) ((fun _ => 0) <$> seq 0 k)).
  { intros k. apply Forall_fmap, Forall_forall. done. }
  assert (Hcall : forall k h1 q, c_calloc k h = Ret (Some q) h1 -> q = {| p_block := h_next h; p_off := 0 |} /\
    h_next h1 = h_next h + 1 /\ exists m, h_blocks h1 !! h_next h = Some m /\ Forall (eq 0) m).
  { intros k h1 q. unfold c_calloc, heap_alloc. destruct (_ && _); intros [= <- <-]. simpl.
    split_and!; [done|done|]. eexists. by rewrite lookup_insert_eq. }
  unfold amqp_pool_alloc. destruct (n =? 0); [done|]. cbv zeta. destruct (_ <? _).
  - unfold bind at 1. destruct (c_calloc (round_up n) h) as [[q|] h1| | |] eqn:Ec; try done.
    destruct (Hcall _ _ _ Ec) as (-> & Hn1 & m & Hm & Hmz). unfold bind at 1.
    destruct (record_pool_block _ _ h1) as [[[] large] h2| | |] eqn:Er; try done.
    + intros [= <- _ <-]. exists m. simpl. split; [|done].
      erewrite record_keeps; [exact Hm| |exact Er|lia]. done.
    + unfold bind. destruct (c_free _ h2); done.
  - simpl. unfold next_pool_page. simpl. unfold bind at 1.
    destruct (c_calloc _ h) as [[q|] h1| | |] eqn:Ec; try done.
    destruct (Hcall _ _ _ Ec) as (-> & Hn1 & m & Hm & Hmz). unfold bind at 1.
    destruct (record_pool_block _ _ h1) as [[[] pgs] h2| | |] eqn:Er; try done.
    intros [= <- _ <-]. exists m. simpl. split; [|done].
    erewrite record_keeps; [exact Hm| |exact Er|lia]. done.
Qed.

Section Greeting.
Context {W : Type} {HH : Host} (uninit : amqp_basic_properties_t).

Abbreviation pools_of s := (amqp_get_channel_pool (pool_table (conn s))).

(** ** The end of [handle_header] *)

(** From [bytes_consumed += consume_data(...)] on. *)
Definition header_tail (n : Z) (rest : amqp_bytes_t) (fr : amqp_frame_t) : C (cst W) (Z * amqp_frame_t) :=
  let* '(k, _) := consume_data rest in
  let bytes_consumed := size_t (n + k) in
  let* c := the_conn in
  if inbound_offset (reader c) <? target_size (reader c) then ret (to_int bytes_consumed, fr)
  else handle_body uninit bytes_consumed fr.

(** The result with another count of bytes. *)
Definition recount (n : Z) (o : outcome (cst W) (Z * amqp_frame_t)) : outcome (cst W) (Z * amqp_frame_t) :=
  match o with
  | Ret (_, f) s => Ret (to_int n, f) s
  | Err e s => Err e s
  | UB => UB
  | NoFuel => NoFuel
  end.

Lemma recount_bind {A} n (m : C (cst W) A) k1 k2 s :
  (forall a s, k1 a s = recount n (k2 a s)) -> bind m k1 s = recount n (bind m k2 s).
Proof. intros Hk. unfold bind. destruct (m s); [apply Hk|done..]. Qed.

Lemma handle_body_count n k fr (s : cst W) : handle_body uninit n fr s = recount n (handle_body uninit k fr s).
Proof.
  unfold handle_body. do 2 (apply recount_bind; intros). destruct (negb _); [done|].
  do 3 (apply recount_bind; intros). destruct (negb _); [done|]. do 2 (apply recount_bind; intros). done.
Qed.

Lemma consume_data_run data (s : cst W) n rest s' :
  consume_data data s = Ret (n, rest) s' -> 0 <= len data ->
  0 <= n <= len data /\ state (reader (conn s')) = state (reader (conn s)).
Proof.
  unfold consume_data, bind at 1, the_conn. intros Hrun Hl.
  assert (Hroom : 0 <= size_t (target_size (reader (conn s)) - inbound_offset (reader (conn s)))).
  { unfold size_t, u64, wrap. apply Z.mod_pos_bound. lia. }
  destruct (load 0 _ (mem_of data)) as [bs|]; [|done]. unfold bind at 1 in Hrun.
  destruct (inbound_store _ bs s) as [[] s1| | |] eqn:Est; try done. unfold bind, upd, ret in Hrun.
  injection Hrun as <- _ <-. split; [case_match eqn:E; [apply Z.ltb_lt in E|apply Z.ltb_ge in E]; lia|].
  simpl. unfold inbound_store, bind, the_conn in Est.
  destruct (inbound_bytes (reader (conn s))) as [[|p]|]; [| |done].
  - destruct (store _ _ _); [|done]. unfold upd in Est. by injection Est as <-.
  - unfold on_mem in Est. destruct (heap_store _ _ _); [|done..]. by injection Est as _ <-.
Qed.

(** The end of the header case is the body case, apart from the bytes that were
    consumed before. *)
Lemma tail_of_input n rest fr (s s' : cst W) k g :
  amqp_handle_input uninit rest fr s = Ret (k, g) s' -> state (reader (conn s)) = CONNECTION_STATE_BODY ->
  0 < len rest -> 0 <= n -> n + len rest <= INT32_MAX ->
  header_tail n rest (no_frame fr) s = Ret (n + k, g) s'.
Proof.
  intros Hrun Hst Hl Hn Hle. unfold amqp_handle_input in Hrun. rewrite (proj2 (Z.eqb_neq _ _)) in Hrun by lia.
  fold (no_frame fr) in Hrun. unfold bind at 1, the_conn in Hrun. unfold bind at 1 in Hrun.
  rewrite Hst, bool_decide_eq_false_2 in Hrun by done. unfold ret at 1 in Hrun.
  unfold header_tail, bind at 1. unfold bind at 1 in Hrun.
  destruct (consume_data rest s) as [[k0 r0] s1| | |] eqn:Ec; try done.
  destruct (consume_data_run _ _ _ _ _ Ec) as [Hk Hst1]; [lia|].
  unfold INT32_MAX in Hle. unfold bind at 1, the_conn in Hrun. unfold bind at 1, the_conn. rewrite size_t_small by lia.
  destruct (_ <? _).
  - injection Hrun as <- <- <-. unfold ret. by rewrite !to_int_small by (unfold INT32_MAX; lia).
  - rewrite Hst1, Hst in Hrun. rewrite (handle_body_count _ k0).
    destruct (handle_body uninit k0 _ s1) as [[k1 f] s2| | |] eqn:Eb; try done.
    pose proof (handle_body_count k0 k0 (no_frame fr) s1) as Hc. rewrite Eb in Hc. injection Hc as Hk1.
    injection Hrun as <- <- <-. rewrite Hk1. unfold recount. by rewrite !to_int_small by (unfold INT32_MAX; lia).
Qed.

(** ** Collecting the first bytes *)

(** The first bytes [acc] are in the header buffer; there is no pool yet. *)
Record greeting (K : gmap Z (list Z)) (fm B : Z) (acc : list Z) (s : cst W) : Prop := {
  gr_mem : cmem true K fm s;
  gr_none : forall ch, pools_of s ch = None;
  gr_bytes : Forall is_byte acc;
  gr_budget : 0 <= B /\ B + zlen acc <= INT32_MAX;
  gr_state : state (reader (conn s)) = CONNECTION_STATE_INITIAL;
  gr_in : inbound_bytes (reader (conn s)) = Some IB_header_buffer;
  gr_target : target_size (reader (conn s)) = 8;
  gr_off : inbound_offset (reader (conn s)) = zlen acc;
  gr_len : zlen (header_buffer (reader (conn s))) = 8;
  gr_short : zlen acc < 8;
  gr_acc : slice 0 (zlen acc) (header_buffer (reader (conn s))) = acc
}.

(** What the first frame must look like: a payload that starts with a zero. *)
Definition presentable (f : amqp_frame_t) : Prop :=
  9 <= zlen (wire_frame f) /\ slice 7 1 (wire_frame f) = [0] /\ slice 0 4 (wire_frame f) <> [65; 77; 81; 80].

(** The first pool is new. *)
Lemma wp_first_pool K fm R ch (s : cst W) :
  cmem true K fm s -> (forall c, pools_of s c = None) -> R <= INT32_MAX ->
  wp (get_or_create_pool ch) (fun found s' =>
    found = true /\ cmem true K fm s' /\ room_for R (pools_of s') /\ reader (conn s') = reader (conn s) /\
    pools_of s' ch = Some (init_amqp_pool fm)) (fun _ _ => False) s.
Proof.
  intros [Ht Hp Hrel [<- Hfm]] Hnone HR. unfold get_or_create_pool.
  apply wp_bind, wp_the_conn, wp_bind, wp_on_mem.
  wp_use (wp_get_or_create K (pool_table (conn s)) (frame_max (conn s)) ch); [done| |done| |done].
  { unfold PTRDIFF_MAX. lia. }
  intros [r t'] h' (Ht' & Hl & Hp' & Hsome & Hget & Hold & Hnew & Hsame).
  assert (Hinit : forall c p, amqp_get_channel_pool t' c = Some p -> p = init_amqp_pool (frame_max (conn s))).
  { intros c p Hc. destruct (Hnew c p Hc) as [Hc'|]; [|done]. by rewrite Hnone in Hc'. }
  destruct Hsome as [pool ->]; [by apply Hrel|]. apply wp_bind, wp_upd, wp_ret. simpl. split_and!; try done.
  - split; try done. intros _. eapply later_reliable; [done|]. by apply Hrel.
  - intros c p Hc. rewrite (Hinit c p Hc). unfold block_count. simpl. lia.
  - rewrite Hget. by rewrite (Hinit ch pool Hget).
Qed.

Lemma first_alloc_zero ch ps t (s s' : cst W) buf p :
  pools_of s ch = Some (init_amqp_pool ps) ->
  in_channel_pool ch (on_pool (fun pool => amqp_pool_alloc_bytes pool t)) s = Ret buf s' ->
  hb_bytes buf = Some p -> exists m, h_blocks (hp s') !! p_block p = Some m /\ Forall (eq 0) m.
Proof.
  intros Hp Hrun Hb. unfold in_channel_pool in Hrun. rewrite Hp in Hrun.
  unfold on_pool, amqp_pool_alloc_bytes, bind in Hrun. simpl in Hrun.
  destruct (amqp_pool_alloc (init_amqp_pool ps) t (hp s)) as [[r pool'] h'| | |] eqn:Ea; try done.
  injection Hrun as <- <-. simpl in Hb. subst r. simpl. by eapply fresh_pool_zero.
Qed.

(** Seven bytes of the header before a zero. *)
Lemma first_bytes hdr m o :
  zlen hdr = 8 -> slice 7 1 hdr = [0] -> Forall (eq 0) m -> 0 <= o -> o + 8 <= zlen m ->
  slice o 8 (overwrite o (slice 0 7 hdr) m) = hdr.
Proof.
  intros Hz H7 Hzero Ho Hfit. assert (H7z : zlen (slice 0 7 hdr) = 7) by (apply zlen_slice; lia).
  assert (Hh : hdr = slice 0 7 hdr ++ [0]).
  { rewrite <- (slice_full hdr) at 1. rewrite Hz. change 8 with (7 + 1). rewrite slice_split by lia. by rewrite Z.add_0_l, H7. }
  rewrite Hh at 2. change 8 with (7 + 1). rewrite slice_split by lia. f_equal.
  - rewrite <- H7z at 1. apply slice_overwrite_same; lia.
  - rewrite slice_overwrite_after by lia.
    assert (Hs : Forall (eq 0) (slice (o + 7) 1 m)) by (by apply Forall_take, Forall_drop).
    assert (H1 : zlen (slice (o + 7) 1 m) = 1) by (apply zlen_slice; lia).
    destruct (slice (o + 7) 1 m) as [|x [|y l]]; [done| |unfold zlen in H1; simpl in H1; lia].
    apply Forall_cons in Hs as [<- _]. done.
Qed.

(** The eight bytes are in the header buffer: the block of the frame is allocated,
    and the connection is in the middle of the frame. *)
Lemma wp_first_header K fm B hdr rest (s : cst W) n fr Q E :
  let t := frame_size hdr + 8 in
  cmem true K fm s -> (forall ch, pools_of s ch = None) -> Forall is_byte hdr -> zlen hdr = 8 ->
  inbound_bytes (reader (conn s)) = Some IB_header_buffer -> inbound_offset (reader (conn s)) = 8 ->
  header_buffer (reader (conn s)) = hdr -> slice 7 1 hdr = [0] -> 8 < t <= fm -> 0 <= B -> B + 8 <= INT32_MAX ->
  (forall s', reading true K fm B hdr s' -> wp (header_tail n rest fr) Q E s') ->
  wp (handle_header uninit n rest fr) Q E s.
Proof.
  intros t Hm Hnone Hb Hz Hin Hoff Hhb H7 Ht HB HB8 Hk. pose proof (cm_fm _ _ _ _ Hm) as [Hfm Hfm0].
  pose proof (frame_size_range hdr Hb ltac:(lia)) as Hsz.
  assert (Hload : forall o k, 0 <= o -> 0 <= k -> o + k <= 8 -> raw_load o k s = Ret (slice o k hdr) s).
  { intros o k Ho Hk0 Hle. rewrite raw_load_header by (rewrite ?Hhb; done || lia). by rewrite Hhb. }
  unfold handle_header, HEADER_SIZE, FOOTER_SIZE. apply wp_bind. eapply wp_eq; [apply (Hload 1 2); lia|].
  apply wp_bind. eapply wp_eq; [apply (Hload 3 4); lia|].
  rewrite d32_slice, d16_slice by (done || lia). fold (frame_size hdr) (frame_channel hdr).
  rewrite (proj2 (Z.leb_gt _ _)) by (unfold INT32_MAX; lia). cbv zeta.
  unfold u32. rewrite (wrap_small 32) by (unfold in_u; lia).
  replace (frame_size hdr + 7 + 1) with t by lia.
  apply wp_bind, wp_upd, wp_bind, wp_the_conn. simpl. rewrite Hfm.
  rewrite size_t_small by lia. rewrite (proj2 (Z.ltb_ge _ _)) by lia.
  set (s0 := {| conn := _; hp := _; world := _ |}).
  assert (Hm0 : cmem true K fm s0) by (destruct Hm; by split).
  apply wp_bind. wp_use (wp_first_pool K fm (B + 8) (frame_channel hdr) s0); [done|done|lia| |done].
  intros found s1 (-> & Hm1 & Hroom1 & Hrd1 & Hpool1). simpl. apply wp_bind.
  destruct (wp_run_ret _ _ _ (wp_alloc_inbound true K fm (B + 8) (frame_channel hdr) _ t s1 Hm1 Hroom1 Hpool1
    ltac:(lia) ltac:(lia))) as (buf & s2 & Hrun & Hm2 & Hroom2 & Hc2 & Hbl & Hsome & Hbuf).
  eapply wp_eq; [exact Hrun|]. destruct Hsome as [p Hp]; [done|]. apply wp_bind, wp_upd. rewrite Hp.
  destruct (Hbuf p Hp) as (m & pool2 & Hpool2 & Hpb & Hblk & Hpo & Hfit).
  destruct (first_alloc_zero _ _ _ _ _ _ _ Hpool1 Hrun Hp) as (m' & Hm' & Hzero). assert (m' = m) as -> by congruence.
  set (s3 := {| conn := _; hp := _; world := _ |}).
  assert (Hrd3 : reader (conn s3) = {| state := state (reader (conn s)); header_buffer := hdr; inbound_len := t;
    inbound_bytes := Some (IB_pool p); inbound_offset := 8; target_size := t |}).
  { unfold s3. simpl. rewrite Hp, Hbl, Hc2. simpl. rewrite Hrd1. simpl. by rewrite Hoff, Hhb. }
  apply wp_bind, wp_the_conn. rewrite Hrd3. simpl header_buffer. rewrite load_Some by lia.
  apply wp_bind. unfold inbound_store. apply wp_bind, wp_the_conn. rewrite Hrd3. simpl inbound_bytes. cbv iota.
  apply wp_on_mem. assert (H7z : zlen (slice 0 7 hdr) = 7) by (apply zlen_slice; lia).
  unfold heap_store, wp at 1. simpl. rewrite Hblk, Z.add_0_r, store_Some by lia.
  apply wp_bind, wp_upd. simpl. apply Hk.
  set (m1 := overwrite (p_off p) (slice 0 7 hdr) m).
  assert (Hm1z : zlen m1 = zlen m) by (apply zlen_overwrite; lia).
  split; [|done|split; [done|lia]| |].
  - destruct Hm2 as [Htab Hpo2 Hrel2 Hfm2]. split; [done| |by apply Hrel2|done]. simpl.
    by apply (pools_ok_store K _ _ (frame_channel hdr) pool2 (p_block p) m m1).
  - rewrite Hz. simpl. eapply room_for_mono; [exact Hroom2|lia].
  - simpl. unfold reader_at. rewrite Hz. change (8 <? 7) with false. cbv iota. unfold s3 in Hrd3. simpl in Hrd3.
    injection Hrd3 as _ E2 _ E4 E5 E6. simpl. rewrite E2, E5, E6. split_and!; [done|done|done|lia|].
    exists p, m1, pool2. rewrite Hz. simpl. rewrite E4. split_and!; [done|done|done|by rewrite lookup_insert_eq|done|lia|apply first_bytes; [done|done|done|done|lia]|done|lia].
Qed.

(** ** The first frame *)

Lemma reading_body rel K fm B acc (s : cst W) :
  reading rel K fm B acc s -> 7 <= zlen acc -> state (reader (conn s)) = CONNECTION_STATE_BODY /\
  inbound_offset (reader (conn s)) = zlen acc /\ zlen acc < target_size (reader (conn s)) /\ gathers (hp s) (pools_of s) fm acc (reader (conn s)).
Proof. intros [_ _ _ _ (_ & Hoff & Hrd)] H7. rewrite (proj2 (Z.ltb_ge _ _)) in Hrd by done. by destruct Hrd as (? & ? & ?). Qed.

(** Nothing after the header. *)
Lemma header_tail_empty K fm B hdr n rest fr (s : cst W) :
  reading true K fm B hdr s -> zlen hdr = 8 -> readable rest -> len rest = 0 -> 0 <= n <= INT32_MAX ->
  header_tail n rest fr s = Ret (n, fr) s.
Proof.
  intros Hs Hz Hr Hl Hn.
  destruct (reading_body _ _ _ _ _ _ Hs ltac:(lia)) as (Hst & Hoff & Hlt & p & m & pool & Hin & _ & _ & Hb & Hpo & Hfit & _ & _ & Hfm).
  destruct (cm_fm _ _ _ _ (rd_mem _ _ _ _ _ _ Hs)) as [_ Hfm0].
  assert (Htk : taken (reader (conn s)) rest = 0) by (unfold taken; lia).
  assert (Hsame : {| conn := set_offset (inbound_offset (reader (conn s)) + 0) (conn s);
    hp := set_blocks (<[p_block p := overwrite (p_off p + inbound_offset (reader (conn s))) [] m]> (h_blocks (hp s))) (hp s);
    world := world s |} = s).
  { unfold overwrite. simpl. rewrite Nat.add_0_r, take_drop, insert_id, Z.add_0_r by done.
    destruct s as [[] [] ?]. unfold set_offset, set_reader, set_blocks. simpl. do 2 f_equal. by destruct reader. }
  unfold header_tail, bind at 1. rewrite (consume_pool rest s p m), Htk; [|done|lia|unfold PTRDIFF_MAX; lia|done].
  change (slice 0 0 (mem_of rest)) with (@nil Z). rewrite Hsame.
  unfold bind, the_conn. rewrite (proj2 (Z.ltb_lt _ _)) by lia. unfold ret, INT32_MAX in *.
  by rewrite Z.add_0_r, size_t_small, to_int_small by lia.
Qed.

(** With the eight bytes in the header buffer. *)
Lemma wp_first_frame K fm B hdr rest k f more later fr (s : cst W) :
  cmem true K fm s -> (forall ch, pools_of s ch = None) -> Forall is_byte hdr -> zlen hdr = 8 ->
  inbound_bytes (reader (conn s)) = Some IB_header_buffer -> inbound_offset (reader (conn s)) = 8 ->
  header_buffer (reader (conn s)) = hdr -> receivable f -> presentable f -> zlen (wire_frame f) <= fm ->
  hdr ++ contents rest ++ later = wire_frame f ++ more -> readable rest -> Forall is_byte (contents rest) ->
  0 <= len rest <= B -> B + 8 <= INT32_MAX -> 0 <= k -> k + len rest <= INT32_MAX ->
  wp (handle_header uninit k rest (no_frame fr)) (fun '(n, g) s' =>
    if 8 + len rest <? zlen (wire_frame f)
    then n = k + len rest /\ g = no_frame fr /\ reading true K fm (B - len rest) (hdr ++ contents rest) s'
    else n = k + (zlen (wire_frame f) - 8) /\ g = received uninit (payload fr) f /\
         reading true K fm (B - (zlen (wire_frame f) - 8)) [] s') (fun _ _ => False) s.
Proof.
  intros Hm Hnone Hb Hz Hin Hoff Hhb Hf (H9 & H7 & _) Hfm Heq Hr Hbr Hl HB Hk Hkl. pose proof Hr as [Hl0 Hl1].
  assert (Hw : forall o n, 0 <= o -> 0 <= n -> o + n <= 8 -> slice o n hdr = slice o n (wire_frame f)).
  { intros o n Ho Hn Hle. transitivity (slice o n (hdr ++ contents rest ++ later)); [by rewrite slice_app_l by lia|].
    rewrite Heq. by rewrite slice_app_l by lia. }
  assert (Hsize : frame_size hdr + 8 = zlen (wire_frame f)).
  { assert (Hwz : zlen (wire_frame f) = zlen (wire_payload (payload f)) + 8) by (rewrite zlen_wire_frame; lia).
    destruct (cm_fm _ _ _ _ Hm) as [_ ?]. pose proof (zlen_nonneg (wire_payload (payload f))). rewrite Hwz. f_equal.
    etransitivity; [|apply (wire_size (frame_type f) (channel f)); lia].
    change (wire_bytes _ _ _) with (wire_frame f). unfold frame_size. f_equal. apply Hw; lia. }
  destruct (cm_fm _ _ _ _ Hm) as [_ Hfm0].
  apply (wp_first_header K fm B hdr rest s k (no_frame fr)); try done; [rewrite Hw by lia; done|rewrite Hsize; lia|lia|].
  intros s1 Hs1. destruct (Z.eqb_spec (len rest) 0) as [E|E].
  - eapply wp_eq; [apply (header_tail_empty K fm B hdr); [done|done|done|done|unfold INT32_MAX in *; lia]|].
    rewrite E, (proj2 (Z.ltb_lt _ _)) by lia. rewrite Z.add_0_r, Z.sub_0_r. split_and!; [done|done|].
    assert (contents rest = []) as -> by (apply length_zero_iff_nil; pose proof (zlen_contents rest Hr); unfold zlen in *; lia).
    by rewrite app_nil_r.
  - destruct (input_of_stream uninit K fm B hdr rest f more later s1 fr) as (n & g & s2 & Hrun & Hpost); try done; [lia|lia|].
    eapply wp_eq; [apply (tail_of_input k rest fr s1 s2 n g); [done|by apply (reading_body _ _ _ _ _ _ Hs1); lia|lia|lia|done]|].
    rewrite Hz in Hpost. destruct (_ <? _); destruct Hpost as (-> & -> & Hs2); split_and!; done.
Qed.

(** What a call leaves behind. *)
Definition after_input K fm B acc data f fr (n : Z) (g : amqp_frame_t) (s' : cst W) : Prop :=
  if zlen acc + len data <? zlen (wire_frame f)
  then n = len data /\ g = no_frame fr /\
       (if zlen acc + len data <? 8 then greeting K fm (B - n) (acc ++ contents data) s'
        else reading true K fm (B - n) (acc ++ contents data) s')
  else n = zlen (wire_frame f) - zlen acc /\ g = received uninit (payload fr) f /\ reading true K fm (B - n) [] s'.

(** One call on data that continues the first frame. *)
Lemma greeting_input K fm B acc data f more later (s : cst W) fr :
  greeting K fm B acc s -> receivable f -> presentable f -> zlen (wire_frame f) <= fm ->
  acc ++ contents data ++ later = wire_frame f ++ more ->
  readable data -> Forall is_byte (contents data) -> 0 < len data <= B ->
  wp (amqp_handle_input uninit data fr) (fun '(n, g) s' => after_input K fm B acc data f fr n g s') (fun _ _ => False) s.
Proof.
  intros [Hm Hnone Hab [HB0 HB1] Hst Hin Htgt Hoff Hlen8 Hsh Hacc] Hf (H9 & H7 & Hmagic) Hfm Heq Hr Hb Hlen.
  pose proof (zlen_nonneg acc). pose proof Hr as [Hl0 Hl1]. set (k := Z.min (len data) (8 - zlen acc)).
  unfold amqp_handle_input. rewrite (proj2 (Z.eqb_neq _ _)) by lia. fold (no_frame fr).
  apply wp_bind, wp_the_conn, wp_bind. rewrite Hst, bool_decide_eq_false_2 by done. apply wp_ret.
  assert (Htk : taken (reader (conn s)) data = k) by (unfold taken; by rewrite Htgt, Hoff).
  apply wp_bind. eapply wp_eq; [apply consume_header; unfold PTRDIFF_MAX; done || lia|].
  rewrite Htk, Hoff. apply wp_bind, wp_the_conn. simpl. rewrite Htgt.
  set (hb := overwrite (zlen acc) (slice 0 k (mem_of data)) (header_buffer (reader (conn s)))).
  assert (Hkz : zlen (slice 0 k (mem_of data)) = k) by (apply zlen_slice; lia).
  assert (Hhbz : zlen hb = 8) by (unfold hb; rewrite zlen_overwrite; lia).
  assert (Hhb' : slice 0 (zlen acc + k) hb = acc ++ slice 0 k (mem_of data)).
  { rewrite slice_split by lia. f_equal.
    - unfold hb. by rewrite slice_overwrite_before by lia.
    - unfold hb. rewrite <- Hkz at 1. apply slice_overwrite_same; lia. }
  set (s2 := {| conn := _; hp := _; world := _ |}).
  assert (Hm2 : cmem true K fm s2) by (destruct Hm; by split).
  destruct (Z.ltb_spec (zlen acc + k) 8) as [Hlt|Hge].
  - assert (Hk : k = len data) by lia. rewrite Hk in *.
    change (slice 0 (len data) (mem_of data)) with (contents data) in *.
    assert (Hfz : zlen (acc ++ contents data) = zlen acc + len data) by (rewrite zlen_app; lia).
    apply wp_ret. rewrite to_int_small by (unfold INT32_MAX in *; lia). unfold after_input.
    rewrite (proj2 (Z.ltb_lt (zlen acc + len data) (zlen (wire_frame f)))) by lia. rewrite (proj2 (Z.ltb_lt _ 8)) by lia.
    split_and!; [done|done|]. split; simpl; try done; try lia; rewrite ?Hfz; try done; try lia. by apply Forall_app.
  - assert (Hk : k = 8 - zlen acc) by lia. replace (zlen acc + k) with 8 in * by lia.
    rewrite <- Hhbz in Hhb' at 1. rewrite slice_full in Hhb'.
    assert (Hfull : acc ++ contents data = hb ++ contents (rest_of k data)).
    { rewrite Hhb', <- app_assoc. f_equal. apply contents_split; [done|lia]. }
    rewrite app_assoc, Hfull, <- app_assoc in Heq.
    assert (Hbytes : Forall is_byte hb /\ Forall is_byte (contents (rest_of k data))).
    { apply Forall_app. rewrite <- Hfull. by apply Forall_app. }
    assert (Hw4 : slice 0 4 hb = slice 0 4 (wire_frame f)).
    { transitivity (slice 0 4 (hb ++ contents (rest_of k data) ++ later)); [by rewrite slice_app_l by lia|].
      rewrite Heq. by rewrite slice_app_l by lia. }
    rewrite Hst. apply wp_bind. eapply wp_eq; [apply (raw_load_header s2 0 4); [done|lia|lia|simpl; fold hb; lia]|].
    simpl. fold hb. unfold bytes_eqb. rewrite Hw4, bool_decide_eq_false_2 by done.
    wp_use (wp_first_frame K fm (B - k) hb (rest_of k data) k f more later fr s2); simpl; try done; try apply Hbytes; try lia.
    + by apply rest_readable; [|lia].
    + intros [n g] s' Hpost. unfold after_input. replace (8 + (len data - k)) with (zlen acc + len data) in Hpost by lia.
      destruct (_ <? zlen (wire_frame f)); destruct Hpost as (-> & -> & Hs').
      * rewrite (proj2 (Z.ltb_ge _ 8)) by lia. rewrite Hfull. split_and!; [lia|done|].
        by replace (B - (k + (len data - k))) with (B - k - (len data - k)) by lia.
      * split_and!; [lia|done|]. by replace (B - (k + (zlen (wire_frame f) - 8))) with (B - k - (zlen (wire_frame f) - 8)) by lia.
Qed.
End Greeting.
