(* ===== verification/ConnectionTheorems.v ===== *)
(** * Theorems about connections *)

From S2P Require Import Prelude Machine Status Alloc Codec Table TableEncode TableDecode Framing Methods MethodDecode MethodEncode MethodWire MethodTheory MethodSafety MethodTheorems Properties PropertiesTheory PropertiesTheorems Mem MemTheory PoolTheorems TableTheorems PoolTable Time Frame FrameTheorems Connection ParserTheory ParserTheorems.

Section Setup.
Context {W : Type} {HC : Clock W} {HH : Host} (uninit : amqp_basic_properties_t).

Lemma heap_alloc_granted n fill h :
  heap_ok h -> reliable h -> 0 <= n <= PTRDIFF_MAX ->
  exists p h' m, heap_alloc n fill h = Ret (Some p) h' /\ heap_ok h' /\ reliable h' /\
    p_off p = 0 /\ h_blocks h !! p_block p = None /\ zlen m = n /\
    h_blocks h' = <[p_block p := m]> (h_blocks h).
Proof.
  intros Hok Hr Hn. destruct (wp_run_ret (heap_alloc n fill) _ h (wp_heap_alloc n fill h Hok ltac:(lia)))
    as (r & h' & Hrun & Hok' & Hl & Hsome & Hp).
  destruct (Hsome Hr ltac:(lia)) as [p ->]. destruct Hp as (? & ? & _ & m & ? & ?).
  exists p, h', m. split_and!; try done. by eapply later_reliable.
Qed.

(** A connection without channels, between frames. *)
Lemma reading_fresh rel fm B (s : cst W) :
  pool_table (conn s) = replicate (Z.to_nat POOL_TABLE_SIZE) [] -> heap_ok (hp s) ->
  (rel = true -> reliable (hp s)) -> frame_max (conn s) = fm -> 0 <= fm <= 2 ^ 30 ->
  0 <= B <= INT32_MAX -> zlen (header_buffer (reader (conn s))) = 8 ->
  state (reader (conn s)) = CONNECTION_STATE_IDLE ->
  inbound_bytes (reader (conn s)) = Some IB_header_buffer ->
  inbound_offset (reader (conn s)) = 0 -> target_size (reader (conn s)) = 7 ->
  reading rel (h_blocks (hp s)) fm B [] s.
Proof.
  intros Ht Hok Hr Hfm Hfm0 HB Hh Hst Hin Hoff Htgt.
  assert (Hnone : forall ch, amqp_get_channel_pool (pool_table (conn s)) ch = None).
  { intros ch. unfold amqp_get_channel_pool, slot. rewrite Ht.
    destruct (replicate _ _ !! _) as [l|] eqn:E; [|done]. by apply lookup_replicate in E as [-> _]. }
  split.
  - split; [by rewrite Ht| |done|done].
    split; [done| | |].
    + intros ch p. by rewrite Hnone.
    + intros c1 c2 p1 p2 b. by rewrite Hnone.
    + intros b m Hb. split; [done|]. intros ch p. by rewrite Hnone.
  - constructor.
  - change (zlen []) with 0. lia.
  - intros ch p. by rewrite Hnone.
  - split_and!; done.
Qed.

(** The four bytes of the protocol header and the version the broker announces. *)
Definition server_protocol_header (major minor : Z) : list Z := [65; 77; 81; 80; 0; 0; major; minor].

(** The connection [amqp_new_connection] returns: the structure, the outbound
    buffer and the socket buffer. *)
Definition fresh_connection (p out inb : ptr) : amqp_connection_state_t :=
  set_defaults (init_amqp_pool 512) (Some {| tv_sec := AMQP_DEFAULT_LOGIN_TIMEOUT_SEC; tv_usec := 0 |})
    (set_sock_inbound {| hb_len := AMQP_INITIAL_INBOUND_SOCK_BUFFER_SIZE; hb_bytes := Some inb |} 0 0
      (set_reader {| state := CONNECTION_STATE_INITIAL; header_buffer := replicate 8 0; inbound_len := sizeof_header_buffer;
                     inbound_bytes := Some IB_header_buffer; inbound_offset := 0; target_size := 8 |}
        (set_tuning 0 AMQP_INITIAL_FRAME_POOL_PAGE_SIZE 0 amqp_time_infinite amqp_time_infinite
           {| hb_len := AMQP_INITIAL_FRAME_POOL_PAGE_SIZE; hb_bytes := Some out |} (zeroed_connection p)))).

(** Its two buffers. *)
Record fresh_memory (out inb : ptr) (h : heap) : Prop := {
  fm_heap : heap_ok h;
  fm_reliable : reliable h;
  fm_out : p_off out = 0 /\ exists m, h_blocks h !! p_block out = Some m /\ zlen m = AMQP_INITIAL_FRAME_POOL_PAGE_SIZE;
  fm_in : p_off inb = 0 /\ exists m, h_blocks h !! p_block inb = Some m /\ zlen m = AMQP_INITIAL_INBOUND_SOCK_BUFFER_SIZE;
  fm_apart : p_block out <> p_block inb
}.

Lemma new_connection_shape h (w : W) :
  heap_ok h -> reliable h ->
  exists p out inb h', amqp_new_connection (h, w) = Ret (Some (fresh_connection p out inb)) (h', w) /\
    fresh_memory out inb h'.
Proof.
  intros Hok Hr.
  destruct (heap_alloc_granted sizeof_amqp_connection_state_t (fun _ => 0) h)
    as (p1 & h1 & m1 & H1 & Hok1 & Hr1 & _); [done|done|by vm_compute|].
  destruct (heap_alloc_granted 65536 (junk (h_env h1) (h_count h1)) h1)
    as (p2 & h2 & m2 & H2 & Hok2 & Hr2 & Ho2 & Hf2 & Hz2 & Hb2); [done|done|by vm_compute|].
  destruct (heap_alloc_granted AMQP_INITIAL_INBOUND_SOCK_BUFFER_SIZE (junk (h_env h2) (h_count h2)) h2)
    as (p3 & h3 & m3 & H3 & Hok3 & Hr3 & Ho3 & Hf3 & Hz3 & Hb3); [done|done|by vm_compute|].
  assert (Hne : p_block p2 <> p_block p3) by (intros E; by rewrite <- E, Hb2, lookup_insert_eq in Hf3).
  exists p1, p2, p3, h3. split.
  - unfold amqp_new_connection, c_calloc. rewrite H1.
    unfold init_connection, amqp_tune_connection, restart_send_timer, restart_recv_timer.
    cbv [bind the_conn upd ret]. simpl. unfold c_malloc, on_mem at 1.
    change (size_t AMQP_INITIAL_FRAME_POOL_PAGE_SIZE) with 65536. simpl hp. cbv beta. rewrite H2. simpl.
    unfold on_mem at 1. simpl hp. rewrite H3. simpl. reflexivity.
  - split; try done; (split; [done|]); eexists; (split; [|done]); rewrite Hb3; [|by rewrite lookup_insert_eq].
    by rewrite lookup_insert_ne, Hb2, lookup_insert_eq by done.
Qed.

(** A new connection starts the protocol.  As long as memory is available,
    [amqp_new_connection] returns a connection; the protocol header a broker
    answers with is delivered as such with its version, and from then on the
    connection is between frames with no memory in any pool, so that the theorems
    about frames apply. *)
Theorem new_connection_ready h (w : W) major minor B fr :
  heap_ok h -> reliable h -> is_byte major -> is_byte minor -> 0 <= B <= INT32_MAX ->
  exists c h' s', amqp_new_connection (h, w) = Ret (Some c) (h', w) /\
    amqp_handle_input uninit (view (server_protocol_header major minor)) fr
      {| conn := c; hp := h'; world := w |} =
      Ret (8, {| frame_type := AMQP_PSEUDOFRAME_PROTOCOL_HEADER; channel := 0;
                 payload := PL_protocol_header 0 0 major minor |}) s' /\
    reading true (h_blocks (hp s')) AMQP_INITIAL_FRAME_POOL_PAGE_SIZE B [] s'.
Proof.
  intros Hok Hr Hma Hmi HB. destruct (new_connection_shape h w Hok Hr) as (p & out & inb & h' & Hrun & [Hok' Hr' _ _ _]).
  eexists _, h', _. split; [exact Hrun|split].
  - cbv [amqp_handle_input]. simpl. unfold consume_data, inbound_store, raw_load, bytes_eqb.
    cbv [bind the_conn upd ret]. simpl. unfold protocol_header_frame. simpl.
    rewrite !amqp_d8_be by done. unfold be_decode. simpl. reflexivity.
  - apply reading_fresh; simpl; try done; by vm_compute.
Qed.
End Setup.

(** ** After a rejected header *)

Section Rejected.
Context {W : Type} {HH : Host} (uninit : amqp_basic_properties_t).

(** What is left after the header [hdr] was rejected. *)
Record rejected (t : Z) (s : cst W) : Prop := {
  rj_state : state (reader (conn s)) = CONNECTION_STATE_HEADER;
  rj_in : inbound_bytes (reader (conn s)) = Some IB_header_buffer;
  rj_off : inbound_offset (reader (conn s)) = 7;
  rj_target : target_size (reader (conn s)) = t;
  rj_len : zlen (header_buffer (reader (conn s))) = 8
}.

Lemma consume_past_header t data (s : cst W) :
  rejected t s -> 9 <= t <= INT32_MAX + 8 -> readable data -> 2 <= len data -> consume_data data s = UB.
Proof.
  intros [_ Hin Hoff Htgt Hlen] Ht [Hl0 Hl1] H2. unfold INT32_MAX, PTRDIFF_MAX in *.
  unfold consume_data, bind at 1, the_conn. cbv beta iota zeta. rewrite Htgt, Hoff.
  rewrite (size_t_small (t - 7)) by lia. set (n := if _ <? _ then _ else _).
  assert (Hn : 2 <= n <= len data) by (unfold n; destruct (Z.ltb_spec (len data) (t - 7)); lia).
  rewrite load_Some by lia. unfold bind at 1, inbound_store, bind at 1, the_conn. cbv beta iota.
  rewrite Hin. unfold store. replace (in_bounds _ _ _) with false; [done|].
  symmetry. apply not_true_iff_false. rewrite in_bounds_spec, zlen_slice by lia. lia.
Qed.

Lemma handle_header_rejected rel K fm hdr rest (s : cst W) n fr :
  header_read rel K fm hdr s -> fm < frame_size hdr + 8 -> frame_size hdr < INT32_MAX ->
  state (reader (conn s)) = CONNECTION_STATE_HEADER ->
  exists s', handle_header uninit n rest fr s = Err AMQP_STATUS_BAD_AMQP_DATA s' /\
    rejected (frame_size hdr + 8) s'.
Proof.
  intros Hr Hbig Hmax Hst. pose proof (header_zlen _ _ _ _ _ Hr) as Hz.
  pose proof (hr_bytes _ _ _ _ _ Hr) as Hb.
  pose proof (frame_size_range hdr Hb ltac:(lia)) as Hsz. unfold INT32_MAX in *.
  destruct (cm_fm _ _ _ _ (hr_mem _ _ _ _ _ Hr)) as [Hfm Hfm0].
  unfold handle_header, HEADER_SIZE, FOOTER_SIZE.
  erewrite bind_ret; [|by apply (header_load _ _ _ _ _ 1 2 Hr)].
  erewrite bind_ret; [|by apply (header_load _ _ _ _ _ 3 4 Hr)].
  rewrite d32_slice by (done || lia). fold (frame_size hdr).
  rewrite (proj2 (Z.leb_gt _ _)) by (unfold INT32_MAX; lia). unfold bind, upd, the_conn. simpl.
  unfold u32. rewrite (wrap_small 32) by (unfold in_u; lia). rewrite Hfm.
  rewrite size_t_small by lia. rewrite (proj2 (Z.ltb_lt _ _)) by lia.
  eexists. split; [done|]. split; simpl; try apply Hr; [done|lia].
Qed.

(** C36: a connection must not be used after a frame that is larger than
    [frame_max].  The header is rejected with [AMQP_STATUS_BAD_AMQP_DATA], but the
    parser has already raised the target size while its buffer is still the
    eight-byte [header_buffer]; whatever two or more bytes are handed to
    [amqp_handle_input] next are copied past the end of that buffer. *)
Theorem oversize_frame_then_overflow rel K fm B hdr (s : cst W) fr :
  reading rel K fm B [] s -> zlen hdr = 7 -> Forall is_byte hdr -> 7 <= B ->
  8 <= fm < frame_size hdr + 8 -> frame_size hdr < INT32_MAX ->
  exists s', amqp_handle_input uninit (view hdr) fr s = Err AMQP_STATUS_BAD_AMQP_DATA s' /\
    forall data fr', readable data -> 2 <= len data -> amqp_handle_input uninit data fr' s' = UB.
Proof.
  intros [Hm _ [HB0 HB1] _ (Hhb & Hoff & Hrd)] Hz Hb HB Hfm Hmax. change (zlen []) with 0 in *.
  simpl in Hrd. destruct Hrd as (Hst & Hin & Htgt & _).
  set (r := reader (conn s)) in *. unfold INT32_MAX in HB1.
  set (s1 := {| conn := set_state CONNECTION_STATE_HEADER (conn s); hp := hp s; world := world s |}).
  pose proof (consume_header (view hdr) s1) as Hc. simpl in Hc. fold r in Hc.
  specialize (Hc Hin ltac:(lia) ltac:(lia) ltac:(unfold PTRDIFF_MAX; lia)
    ltac:(apply readable_view; unfold PTRDIFF_MAX; lia)).
  replace (taken _ _) with 7 in Hc by (unfold taken; simpl; rewrite Htgt, Hoff, Hz; done).
  rewrite Hoff in Hc. change (mem_of (view hdr)) with hdr in Hc.
  replace (slice 0 7 hdr) with hdr in Hc by (by rewrite <- Hz, slice_full).
  set (s2 := {| conn := _; hp := _; world := _ |}) in Hc.
  assert (Hhr : header_read rel K fm hdr s2).
  { split; try done.
    - destruct Hm. by split.
    - simpl. rewrite zlen_overwrite; lia.
    - simpl. rewrite <- Hz. apply slice_overwrite_same; lia. }
  destruct (handle_header_rejected rel K fm hdr (rest_of 7 (view hdr)) s2 7 (no_frame fr) Hhr)
    as (s' & Hrun & Hrj); [lia|done|done|].
  exists s'. split.
  - unfold amqp_handle_input. change (len (view hdr)) with (zlen hdr). rewrite Hz.
    change (7 =? 0) with false. cbv iota zeta. unfold bind at 1, the_conn. fold r.
    rewrite Hst. unfold bind at 1. simpl. fold s1. rewrite (bind_ret _ _ _ _ _ Hc).
    unfold bind at 1, the_conn. cbv beta iota.
    change (target_size (reader (conn s2))) with (target_size r). rewrite Htgt. exact Hrun.
  - intros data fr' Hr H2. pose proof (frame_size_range hdr Hb ltac:(lia)) as Hsz.
    unfold amqp_handle_input. rewrite (proj2 (Z.eqb_neq _ _)) by lia.
    unfold bind, the_conn, ret. rewrite (rj_state _ _ Hrj), bool_decide_eq_false_2 by done.
    rewrite (consume_past_header _ data s' Hrj); [done| |done|done]. unfold INT32_MAX in *. lia.
Qed.
End Rejected.

(** ** Releasing channel memory *)

Section Release.
Context {W : Type}.
Abbreviation pools_of s := (amqp_get_channel_pool (pool_table (conn s))).

Definition has_queued (s : cst W) (ch : Z) : bool :=
  existsb (fun f => ch =? channel f) (queued_frames (conn s)).

(** The pool of [ch] after a release. *)
Definition released (s : cst W) (ch : Z) : option amqp_pool_t :=
  if has_queued s ch then pools_of s ch else recycled <$> pools_of s ch.

Lemma recycled_blocks pool b : b ∈ pool_blocks (recycled pool) -> b ∈ pool_blocks pool.
Proof.
  rewrite !pool_blocks_elem. simpl. unfold owned at 2, array, cells. simpl.
  intros [?|[?%elem_of_nil|(p & ? & _)]]; [by left|done|done].
Qed.

Lemma wp_release_channel rel K fm B ch (s : cst W) :
  reading rel K fm B [] s ->
  wp (amqp_maybe_release_buffers_on_channel ch) (fun _ s' =>
    reading rel K fm B [] s' /\ queued_frames (conn s') = queued_frames (conn s) /\
    forall c, pools_of s' c = if c =? ch then released s ch else pools_of s c)
    (fun _ _ => False) s.
Proof.
  intros Hs. destruct Hs as [Hm Hb HB Hroom (Hh & Hoff & Hrd)]. simpl in Hrd.
  destruct Hrd as (Hst & Hin & Htgt & Hsl). unfold amqp_maybe_release_buffers_on_channel.
  apply wp_bind, wp_the_conn. rewrite Hst, bool_decide_eq_true_2 by done.
  unfold released, has_queued. destruct (existsb _ _) eqn:Eq.
  { apply wp_ret. split_and!; [by split|done|]. intros c. by destruct (Z.eqb_spec c ch) as [->|]. }
  destruct (pools_of s ch) as [pool|] eqn:Epool; simpl.
  2: { apply wp_ret. split_and!; [by split|done|]. intros c. by destruct (Z.eqb_spec c ch) as [->|]. }
  destruct Hm as [Htab Hp Hrel Hfm]. destruct (po_pool _ _ _ Hp ch pool Epool) as [Hpool Hps].
  apply wp_bind, wp_on_mem. wp_use (wp_recycle (hp s) pool); [apply Hp|done| |done].
  intros pool' h' (-> & Hok' & Hl & Hpool' & Hdead & Hsame). apply wp_upd. simpl.
  assert (Hget : forall c, amqp_get_channel_pool
    (set_channel_pool (pool_table (conn s)) ch (recycled pool)) c =
    if c =? ch then Some (recycled pool) else pools_of s c)
    by (intros c; apply get_set_channel_pool; [done|by eexists]).
  split_and!; [|done|done]. split; simpl.
  - split; simpl; [by rewrite length_set_channel_pool| | |done].
    + eapply pools_ok_step; [exact Hp|exact Epool| |exact Hget]. split; [by split_and!|].
      intros b m [Hbm Hnb]%beside_Some. simpl. rewrite Hsame.
      * split; [done|]. by intros ?%recycled_blocks.
      * intros Hin'. apply Hnb, pool_blocks_elem. auto.
    + intros Hr. eapply later_reliable; [done|by apply Hrel].
  - done.
  - done.
  - eapply room_for_step; [exact Hroom|reflexivity| |exact Hget]. etrans; [exact (Hroom ch pool Epool)|].
    unfold block_count. simpl. destruct Hpool' as [_ _ (Hnum & _) _ _ _ _]. simpl in Hnum.
    destruct (ok_large _ _ Hpool) as (Hn & _). pose proof (zlen_nonneg (cells (large_blocks pool))). lia.
  - split_and!; done.
Qed.

Lemma for_each_concat {S A} (f : A -> C S unit) l s :
  for_each (for_each f) l s = for_each f (concat l) s.
Proof.
  revert s. induction l as [|x l IH]; intros s; [done|]. simpl. rewrite for_each_app.
  unfold bind. by destruct (for_each f x s).
Qed.

Lemma pool_has_entry t ch pool :
  amqp_get_channel_pool t ch = Some pool -> ch ∈ map entry_channel (concat t).
Proof.
  unfold amqp_get_channel_pool, find_entry, slot. destruct (t !! _) as [l|] eqn:El; [|done]. simpl.
  destruct (List.find _ l) as [e|] eqn:Ef; [|done]. intros _. apply List.find_some in Ef as [Hin He].
  apply Z.eqb_eq in He. apply list_elem_of_fmap. exists e. split; [done|].
  apply list_elem_of_In, List.in_concat. exists l. split; [|done].
  by apply list_elem_of_In, (list_elem_of_lookup_2 _ _ _ El).
Qed.

Lemma wp_release_buffers rel K fm B (s : cst W) :
  reading rel K fm B [] s ->
  wp amqp_release_buffers (fun _ s' =>
    reading rel K fm B [] s' /\ queued_frames (conn s') = queued_frames (conn s) /\
    forall ch, pools_of s' ch = released s ch) (fun _ _ => False) s.
Proof.
  intros Hs. unfold amqp_release_buffers. apply wp_bind, wp_the_conn.
  assert (Hst : amqp_release_buffers_ok (conn s) = true).
  { destruct (rd_reader _ _ _ _ _ _ Hs) as (_ & _ & Hrd). simpl in Hrd. destruct Hrd as [Hst _].
    unfold amqp_release_buffers_ok. by rewrite bool_decide_eq_true_2. }
  rewrite Hst. unfold wp. rewrite for_each_concat.
  fold (wp (for_each (fun e => amqp_maybe_release_buffers_on_channel (entry_channel e))
         (concat (pool_table (conn s)))) (fun _ s' => reading rel K fm B [] s' /\
      queued_frames (conn s') = queued_frames (conn s) /\ forall ch, pools_of s' ch = released s ch)
      (fun _ _ => False) s).
  eapply wp_mono; [eapply (wp_for_each _ (fun l s' => reading rel K fm B [] s' /\
      queued_frames (conn s') = queued_frames (conn s) /\
      forall ch, pools_of s' ch = released s ch \/
        pools_of s' ch = pools_of s ch /\ ch ∈ map entry_channel l) (fun _ _ => False))| |done].
  - split_and!; try done. intros ch. unfold released.
    destruct (pools_of s ch) as [pool|] eqn:E; [|by left; destruct (has_queued s ch)].
    right. split; [done|]. by eapply pool_has_entry.
  - intros e l s' (Hs' & Hq & Hpools). wp_use wp_release_channel; [done| |done].
    intros _ s2 (Hs2 & Hq2 & Hp2). split_and!; [done|congruence|]. intros ch. rewrite Hp2.
    destruct (Z.eqb_spec ch (entry_channel e)) as [->|Hne].
    + assert (Hhq : has_queued s' (entry_channel e) = has_queued s (entry_channel e))
        by (unfold has_queued; by rewrite Hq).
      left. specialize (Hpools (entry_channel e)). unfold released in *. rewrite Hhq.
      destruct (has_queued s (entry_channel e)); destruct Hpools as [->|[-> _]]; try done.
      by destruct (pools_of s (entry_channel e)).
    + destruct (Hpools ch) as [->|[-> Hin]]; [by left|]. simpl in Hin.
      apply elem_of_cons in Hin as [?|?]; [done|by right].
  - intros u s' (Hs' & Hq & Hpools). split_and!; try done. intros ch.
    destruct (Hpools ch) as [?|[_ Hin]]; [done|]. by apply elem_of_nil in Hin.
Qed.

(** C33: between frames, [amqp_release_buffers] recycles the memory of every
    channel except those with frames still queued (whose payloads live in it),
    frees only blocks of the recycled pools, and leaves the connection ready for
    the next frame. *)
Theorem release_buffers_spares_queued rel K fm B (s : cst W) :
  reading rel K fm B [] s ->
  wp amqp_release_buffers (fun _ s' =>
    reading rel K fm B [] s' /\ queued_frames (conn s') = queued_frames (conn s) /\
    forall ch, pools_of s' ch = released s ch) (fun _ _ => False) s.
Proof. apply wp_release_buffers. Qed.
End Release.

(** ** Examples *)

#[local] Existing Instance little_endian.
#[local] Instance example_clock : Clock unit := stopped_clock 5 7.

Definition blank_frame : amqp_frame_t :=
  {| frame_type := 0; channel := 0; payload := PL_none |}.

(** A connection between frames that has seen no channel yet. *)
Definition idle_connection : cst unit :=
  {| conn := set_tuning 0 4096 0 amqp_time_infinite amqp_time_infinite {| hb_len := 0; hb_bytes := None |}
       (set_reader {| state := CONNECTION_STATE_IDLE; header_buffer := replicate 8 0; inbound_len := 8;
                      inbound_bytes := Some IB_header_buffer; inbound_offset := 0; target_size := 7 |}
          (zeroed_connection {| p_block := 0; p_off := 0 |}));
     hp := fresh_heap generous; world := tt |}.

Lemma idle_reading rel : reading rel ∅ 4096 100000 [] idle_connection.
Proof.
  apply (reading_fresh rel 4096 100000 idle_connection); try done; try (by vm_compute).
Qed.

Lemma sample_method_frame_acceptable : acceptable 4096 sample_method_frame.
Proof.
  split; [|by vm_compute]. split; [by vm_compute|]. split; [repeat constructor; by vm_compute|].
  split; [done|]. split; [done|]. split; [by vm_compute|]. split; repeat constructor; by vm_compute.
Qed.

Lemma sample_header_frame_acceptable : acceptable 4096 sample_header_frame.
Proof.
  split; [|by vm_compute]. split; [by vm_compute|]. split; [repeat constructor; by vm_compute|].
  split; [done|]. split; [done|]. split; [by vm_compute|]. split; [by vm_compute|].
  split; [by vm_compute|]. split; repeat constructor; by vm_compute.
Qed.

(** Two frames in three pieces, the first cut inside the header. *)
Definition sample_stream : list Z := wire_frame sample_method_frame ++ wire_frame sample_header_frame.
Definition sample_chunks : list amqp_bytes_t :=
  [view (take 5 sample_stream); view (take 30 (drop 5 sample_stream)); view (drop 35 sample_stream)].

Lemma frames_reassembled_witness :
  exists s', receive_all blank_properties sample_chunks blank_frame idle_connection =
    Ret [received blank_properties PL_none sample_method_frame;
         received blank_properties PL_none sample_header_frame] s'.
Proof.
  destruct (frames_reassembled blank_properties ∅ 4096 100000 sample_chunks
    [sample_method_frame; sample_header_frame] idle_connection blank_frame (idle_reading true))
    as (s' & Hrun & _).
  - apply Forall_cons. split; [apply sample_method_frame_acceptable|].
    apply Forall_cons. split; [apply sample_header_frame_acceptable|constructor].
  - repeat constructor; by vm_compute.
  - repeat constructor; by vm_compute.
  - by vm_compute.
  - by vm_compute.
  - exists s'. exact Hrun.
Defined.

(** A method frame with an unknown method number. *)
Definition unknown_method_bytes : list Z := [1; 0; 1; 0; 0; 0; 5; 1; 2; 3; 4; 5; 206].

Lemma unknown_method_well_formed full :
  full = unknown_method_bytes -> well_formed (slice 0 (frame_size full + 8) full).
Proof.
  intros ->. replace (slice _ _ _) with unknown_method_bytes by (by vm_compute).
  split; [split; [intros _|intros H]|intros H]; [by vm_compute|vm_compute in H; discriminate H..].
Qed.

Lemma unknown_method_run r s' :
  amqp_handle_input blank_properties (view unknown_method_bytes) blank_frame idle_connection <> Ret r s'.
Proof. vm_compute. discriminate. Qed.


Lemma new_connection_ready_witness :
  exists c h' s', amqp_new_connection (fresh_heap generous, tt) = Ret (Some c) (h', tt) /\
    amqp_handle_input blank_properties (view (server_protocol_header 9 1)) blank_frame
      {| conn := c; hp := h'; world := tt |} =
      Ret (8, {| frame_type := AMQP_PSEUDOFRAME_PROTOCOL_HEADER; channel := 0;
                 payload := PL_protocol_header 0 0 9 1 |}) s' /\
    reading true (h_blocks (hp s')) 65536 1000 [] s'.
Proof.
  apply (new_connection_ready blank_properties (fresh_heap generous) tt 9 1 1000 blank_frame).
  - apply fresh_heap_ok.
  - by intros n _.
  - by vm_compute.
  - by vm_compute.
  - by vm_compute.
Defined.

Lemma oversize_frame_then_overflow_witness :
  exists s', amqp_handle_input blank_properties (view [1; 0; 1; 0; 1; 0; 0]) blank_frame idle_connection
      = Err AMQP_STATUS_BAD_AMQP_DATA s' /\
    amqp_handle_input blank_properties (view [0; 0; 0]) blank_frame s' = UB.
Proof.
  destruct (oversize_frame_then_overflow blank_properties true ∅ 4096 100000 [1; 0; 1; 0; 1; 0; 0]
    idle_connection blank_frame (idle_reading true) eq_refl ltac:(repeat constructor; by vm_compute)
    ltac:(lia) ltac:(by vm_compute) ltac:(by vm_compute)) as (s' & Hrun & Hub).
  exists s'. split; [exact Hrun|]. apply Hub; [by vm_compute|by vm_compute].
Defined.

Lemma release_buffers_spares_queued_witness :
  exists s', amqp_release_buffers idle_connection = Ret tt s' /\ reading true ∅ 4096 100000 [] s'.
Proof.
  destruct (wp_run_ret _ _ _ (release_buffers_spares_queued true ∅ 4096 100000 idle_connection
    (idle_reading true))) as ([] & s' & Hrun & Hs' & _).
  exists s'. split; [exact Hrun|exact Hs'].
Defined.

(** ** What a peer can do *)


(** The first frame on a new connection loses its eighth byte: when the broker
    starts with a frame instead of a protocol header, only seven of the eight
    bytes gathered so far are copied into the frame's block, so that a heartbeat
    (whose eighth byte is its end marker) is rejected as
    [AMQP_STATUS_BAD_AMQP_DATA]. *)
Theorem first_frame_heartbeat_rejected :
  match amqp_new_connection (fresh_heap generous, tt) with
  | Ret (Some c) (h, _) =>
      match amqp_handle_input blank_properties
              (view (wire_frame {| frame_type := AMQP_FRAME_HEARTBEAT; channel := 0; payload := PL_none |}))
              blank_frame {| conn := c; hp := h; world := tt |} with
      | Err e _ => e = AMQP_STATUS_BAD_AMQP_DATA
      | _ => False
      end
  | _ => False
  end.
Proof. vm_compute. done. Qed.

(** When the socket buffer of a new connection cannot be allocated,
    [amqp_new_connection] returns NULL but the outbound buffer it has allocated
    before is not freed. *)
Theorem new_connection_leak :
  match amqp_new_connection (fresh_heap {| grants := fun n => negb (Nat.eqb n 2); junk := fun _ _ => 0 |}, tt) with
  | Ret None (h, _) => size (h_blocks h) = 1%nat /\ zlen <$> (snd <$> map_to_list (h_blocks h)) = [65536]
  | _ => False
  end.
Proof. vm_compute. done. Qed.
