(* ===== verification/Socket.v ===== *)
(** * Input and output of a connection: [librabbitmq/amqp_socket.c]

    Waiting for a file descriptor, sending whole frames, receiving into the
    socket buffer, the queue of frames that arrived before they were asked for,
    waiting for frames and methods, and remote procedure calls.  The socket
    behind a connection is a parameter (the class [Sockets]), as is [poll].

    An out-parameter [decoded_frame] is an argument (its contents before the
    call) and a result.  A function that fails with a status raises it. *)

From S2P Require Import Prelude Machine Status Alloc Codec Table Framing Methods MethodDecode MethodEncode Properties Mem MemTheory Time Frame Connection.

(** ** Constants *)

Definition AMQP_SF_NONE : Z := 0.
Definition AMQP_SF_MORE : Z := 1.
Definition AMQP_SF_POLLIN : Z := 2.
Definition AMQP_SF_POLLOUT : Z := 4.
Definition AMQP_SC_NONE : Z := 0.
Definition AMQP_SC_FORCE : Z := 1.
Definition AMQP_PRIVATE_STATUS_SOCKET_NEEDREAD : Z := -0x1301.
Definition AMQP_PRIVATE_STATUS_SOCKET_NEEDWRITE : Z := -0x1302.
Definition sizeof_amqp_frame_t : Z := 48.
Definition sizeof_amqp_link_t : Z := 16.

Definition POLLIN : Z := 1.
Definition POLLOUT : Z := 4.
Definition EINTR : Z := 4.

(** [poll(&pfd, 1, timeout)] on a descriptor for one event: its result and
    [errno]. *)
Class Poll (W : Type) : Type := { os_poll : Z -> Z -> Z -> C W (Z * Z) }.

(** The world of a connection can be polled. *)
#[export] Instance conn_poll {W} `{Poll W} : Poll (cst W) :=
  {| os_poll := fun fd event ms => on_world (os_poll fd event ms) |}.

(** ** Waiting for a descriptor *)

(** The variant for systems with [poll]. *)
Definition amqp_poll {S} `{Clock S, Poll S} (fuel : nat) (fd event : Z) (deadline : amqp_time_t) : C S Z :=
  if (event =? AMQP_SF_POLLIN) || (event =? AMQP_SF_POLLOUT) then
    iter fuel (fun _ =>
      let events := if event =? AMQP_SF_POLLIN then POLLIN else POLLOUT in
      let* timeout_ms := amqp_time_ms_until deadline in
      if timeout_ms <? -1 then ret (inr timeout_ms)
      else
        let* '(res, errno) := os_poll fd events timeout_ms in
        if 0 <? res then ret (inr AMQP_STATUS_OK)
        else if res =? 0 then ret (inr AMQP_STATUS_TIMEOUT)
        else if errno =? EINTR then ret (inl tt)
        else ret (inr AMQP_STATUS_SOCKET_ERROR)) tt
  else undefined.

(** ** The frame queue *)

Definition set_queue (q : list amqp_frame_t) (c : amqp_connection_state_t) : amqp_connection_state_t :=
  {| self := self c; pool_table := pool_table c; reader := reader c; channel_max := channel_max c;
     frame_max := frame_max c; heartbeat := heartbeat c;
     next_recv_heartbeat := next_recv_heartbeat c; next_send_heartbeat := next_send_heartbeat c;
     outbound_buffer := outbound_buffer c; socket := socket c;
     sock_inbound_buffer := sock_inbound_buffer c; sock_inbound_offset := sock_inbound_offset c;
     sock_inbound_limit := sock_inbound_limit c; queued_frames := q;
     most_recent_api_result := most_recent_api_result c; server_properties := server_properties c;
     client_properties := client_properties c; properties_pool := properties_pool c;
     handshake_timeout := handshake_timeout c; rpc_timeout := rpc_timeout c |}.

Definition set_api_result (r : amqp_rpc_reply_t) (c : amqp_connection_state_t) : amqp_connection_state_t :=
  {| self := self c; pool_table := pool_table c; reader := reader c; channel_max := channel_max c;
     frame_max := frame_max c; heartbeat := heartbeat c;
     next_recv_heartbeat := next_recv_heartbeat c; next_send_heartbeat := next_send_heartbeat c;
     outbound_buffer := outbound_buffer c; socket := socket c;
     sock_inbound_buffer := sock_inbound_buffer c; sock_inbound_offset := sock_inbound_offset c;
     sock_inbound_limit := sock_inbound_limit c; queued_frames := queued_frames c;
     most_recent_api_result := r; server_properties := server_properties c;
     client_properties := client_properties c; properties_pool := properties_pool c;
     handshake_timeout := handshake_timeout c; rpc_timeout := rpc_timeout c |}.

Definition amqp_frames_enqueued (c : amqp_connection_state_t) : bool :=
  match queued_frames c with [] => false | _ => true end.

Definition amqp_data_in_buffer (c : amqp_connection_state_t) : bool :=
  sock_inbound_offset c <? sock_inbound_limit c.

(** The loop over the queue in [amqp_simple_wait_frame_on_channel]: the first
    frame of the channel and [cur->next], which becomes the queue. *)
Fixpoint first_on_channel (ch : Z) (q : list amqp_frame_t) : option (amqp_frame_t * list amqp_frame_t) :=
  match q with
  | [] => None
  | f :: q' => if ch =? channel f then Some (f, q') else first_on_channel ch q'
  end.

(** A list of method numbers ends with 0. *)
Fixpoint amqp_id_in_reply_list (expected : Z) (list : list Z) : bool :=
  match list with
  | [] => false
  | x :: list' =>
      if x =? 0 then false else if x =? expected then true else amqp_id_in_reply_list expected list'
  end.

Record amqp_method_t : Type := mk_method { method_id : Z; method_decoded : amqp_decoded_t }.

(** [frame.payload.method]; undefined when the union holds something else. *)
Definition method_of {S} (f : amqp_frame_t) : C S amqp_method_t :=
  match payload f with
  | PL_method id d => ret {| method_id := id; method_decoded := d |}
  | _ => undefined
  end.

(** [amqp_rpc_reply_error]; the members it leaves uninitialised are zero here. *)
Definition amqp_rpc_reply_error (status : Z) : amqp_rpc_reply_t :=
  {| reply_type := AMQP_RESPONSE_LIBRARY_EXCEPTION; reply_id := 0; reply_decoded := None;
     library_error := status |}.

(** A local variable of type [amqp_frame_t]. *)
Definition new_frame : amqp_frame_t := {| frame_type := 0; channel := 0; payload := PL_none |}.

Section Io.
Context {W : Type} {HC : Clock W} {HS : Sockets W} {HP : Poll W} {HH : Host}.
Context (uninit : amqp_basic_properties_t).
Context (fuel : nat).
Abbreviation CC A := (C (cst W) A).

(** ** Sockets *)

Definition amqp_socket_send (self : option Z) (buf : list Z) (flags : Z) : CC Z :=
  match self with None => undefined | Some i => on_world (klass_send i buf flags) end.

Definition amqp_socket_recv (self : option Z) (len flags : Z) : CC (Z * list Z) :=
  match self with None => undefined | Some i => on_world (klass_recv i len flags) end.

Definition amqp_socket_open_noblock (self : option Z) (host : list Z) (port : Z) (timeout : option timeval)
    : CC Z :=
  match self with None => undefined | Some i => on_world (klass_open i host port timeout) end.

Definition amqp_socket_open (self : option Z) (host : list Z) (port : Z) : CC Z :=
  match self with None => undefined | Some i => on_world (klass_open i host port None) end.

Definition amqp_socket_close (self : option Z) (force : Z) : CC Z :=
  match self with None => undefined | Some i => on_world (klass_close i force) end.

Definition amqp_socket_get_sockfd (self : option Z) : CC Z :=
  match self with None => undefined | Some i => on_world (klass_get_sockfd i) end.

Definition amqp_get_sockfd : CC Z :=
  let* c := the_conn in
  match socket c with
  | Some _ => amqp_socket_get_sockfd (socket c)
  | None => ret (-1)
  end.

(** After the socket has asked to wait. *)
Definition do_poll (res : Z) (deadline : amqp_time_t) : CC Z :=
  let* fd := amqp_get_sockfd in
  if fd =? -1 then ret AMQP_STATUS_SOCKET_CLOSED
  else if res =? AMQP_PRIVATE_STATUS_SOCKET_NEEDREAD then amqp_poll fuel fd AMQP_SF_POLLIN deadline
  else if res =? AMQP_PRIVATE_STATUS_SOCKET_NEEDWRITE then amqp_poll fuel fd AMQP_SF_POLLOUT deadline
  else ret res.

(** ** Sending *)

(** Returns what the C function returns: the number of bytes sent or a
    status. *)
Definition amqp_try_send (buf : list Z) (deadline : amqp_time_t) (flags : Z) : CC Z :=
  let n := zlen buf in
  iter fuel (fun '(buf_left, len_left) =>
    match load 0 (size_t len_left) buf_left with
    | None => undefined
    | Some data =>
        let* c := the_conn in
        let* res := amqp_socket_send (socket c) data flags in
        if 0 <? res then
          let len_left := len_left - res in
          if len_left =? 0 then ret (inr n)
          else ret (inl (drop (Z.to_nat res) buf_left, len_left))
        else
          let* res := do_poll res deadline in
          if res =? AMQP_STATUS_OK then ret (inl (buf_left, len_left))
          else if res =? AMQP_STATUS_TIMEOUT then ret (inr (n - len_left))
          else ret (inr res)
    end) (buf, n).

Definition amqp_protocol_header : list Z := [65; 77; 81; 80; 0; 0; 9; 1].

Definition send_header_inner (deadline : amqp_time_t) : CC Z :=
  let* res := amqp_try_send amqp_protocol_header deadline AMQP_SF_NONE in
  if res =? 8 then ret AMQP_STATUS_OK else ret (to_int res).

Definition amqp_send_header : CC Z := send_header_inner amqp_time_infinite.

(** ** Receiving *)

(** [decoded_frame] and the number of bytes used up. *)
Definition consume_one_frame (decoded_frame : amqp_frame_t) : CC amqp_frame_t :=
  let* c := the_conn in
  match hb_bytes (sock_inbound_buffer c) with
  | None => undefined
  | Some p =>
      let n := size_t (sock_inbound_limit c - sock_inbound_offset c) in
      let* data := on_mem (heap_load {| p_block := p_block p; p_off := p_off p + sock_inbound_offset c |} n) in
      let* '(res, fr) := amqp_handle_input uninit (view data) decoded_frame in
      do* upd (fun c => set_sock_inbound (sock_inbound_buffer c)
                          (size_t (sock_inbound_offset c + res)) (sock_inbound_limit c) c) in
      ret fr
  end.

(** Returns the status. *)
Definition recv_with_timeout (timeout : amqp_time_t) : CC Z :=
  iter fuel (fun _ =>
    let* c := the_conn in
    match hb_bytes (sock_inbound_buffer c) with
    | None => undefined
    | Some p =>
        let* '(res, data) := amqp_socket_recv (socket c) (hb_len (sock_inbound_buffer c)) 0 in
        do* on_mem (heap_store p data) in
        if res <? 0 then
          let* fd := amqp_get_sockfd in
          if fd =? -1 then ret (inr AMQP_STATUS_CONNECTION_CLOSED)
          else if (res =? AMQP_PRIVATE_STATUS_SOCKET_NEEDREAD)
                  || (res =? AMQP_PRIVATE_STATUS_SOCKET_NEEDWRITE) then
            let* res := amqp_poll fuel fd (if res =? AMQP_PRIVATE_STATUS_SOCKET_NEEDREAD
                                      then AMQP_SF_POLLIN else AMQP_SF_POLLOUT) timeout in
            if res =? AMQP_STATUS_OK then ret (inl tt) else ret (inr res)
          else ret (inr (to_int res))
        else
          do* upd (fun c => set_sock_inbound (sock_inbound_buffer c) 0 res c) in
          let* res := restart_recv_timer in
          ret (inr res)
    end) tt.

(** Memory from the pool of a channel, the way the frame queue asks for it. *)
Definition channel_alloc (ch n : Z) : CC (option ptr) :=
  in_channel_pool ch (on_pool (fun pool => amqp_pool_alloc pool n)).

(** The block shared by [amqp_try_recv] and [simple_rpc_inner]: append a copy
    of the frame to the queue. *)
Definition keep_frame (frame : amqp_frame_t) : CC unit :=
  let* found := get_or_create_pool (channel frame) in
  if negb found then throw AMQP_STATUS_NO_MEMORY
  else
    let* frame_copy := channel_alloc (channel frame) sizeof_amqp_frame_t in
    let* link := channel_alloc (channel frame) sizeof_amqp_link_t in
    match frame_copy, link with
    | Some _, Some _ => upd (fun c => set_queue (queued_frames c ++ [frame]) c)
    | _, _ => throw AMQP_STATUS_NO_MEMORY
    end.

(** Raises a status other than [AMQP_STATUS_OK]. *)
Definition check (res : Z) : CC unit := if res =? AMQP_STATUS_OK then ret tt else throw res.

Definition amqp_try_recv : CC unit :=
  do* iter fuel (fun _ =>
    let* c := the_conn in
    if amqp_data_in_buffer c then
      let* frame := consume_one_frame new_frame in
      if negb (frame_type frame =? 0) then do* keep_frame frame in ret (inl tt)
      else ret (inl tt)
    else ret (inr tt)) tt in
  let* '(timeout, res) := amqp_time_from_now {| time_point_ns := 0 |} (Some {| tv_sec := 0; tv_usec := 0 |}) in
  do* check res in
  let* res := recv_with_timeout timeout in
  check res.

(** ** Sending frames ([librabbitmq/amqp_connection.c]) *)

(** A computation on the memory behind a pointer. *)
Definition on_block {A} (p : ptr) (m : C (list Z) A) : C heap A := fun h =>
  match h_blocks h !! p_block p with
  | None => UB
  | Some mem =>
      match at_ptr (p_off p) m mem with
      | Ret a mem' => Ret a (set_blocks (<[p_block p := mem']> (h_blocks h)) h)
      | Err e mem' => Err e (set_blocks (<[p_block p := mem']> (h_blocks h)) h)
      | UB => UB
      | NoFuel => NoFuel
      end
  end.

(** [encoded]: nothing else uses the outbound buffer until the frame is sent. *)
Definition encode_outbound (frame : amqp_frame_t) : CC (list Z) :=
  let* c := the_conn in
  match hb_bytes (outbound_buffer c) with
  | None => undefined
  | Some p =>
      let* n := on_mem (on_block p (amqp_frame_to_bytes frame (hb_len (outbound_buffer c)))) in
      on_mem (heap_load p n)
  end.

(** Raises every status but [AMQP_STATUS_OK]. *)
Definition amqp_send_frame_inner (frame : amqp_frame_t) (flags : Z) (deadline : amqp_time_t) : CC unit :=
  let* encoded := encode_outbound frame in
  do* iter fuel (fun encoded =>
    let* c := the_conn in
    let next_timeout := amqp_time_first deadline (next_recv_heartbeat c) in
    let* sent := amqp_try_send encoded next_timeout flags in
    if sent <? 0 then throw (to_int sent)
    else if negb (zlen encoded =? sent) then
      if amqp_time_equal next_timeout deadline then throw AMQP_STATUS_TIMEOUT
      else
        let* r := try_ amqp_try_recv in
        match r with
        | inl res => throw (if res =? AMQP_STATUS_TIMEOUT then AMQP_STATUS_HEARTBEAT_TIMEOUT else res)
        | inr _ => ret (inl (drop (Z.to_nat sent) encoded))
        end
    else ret (inr tt)) encoded in
  let* res := restart_send_timer in
  check res.

Definition amqp_send_frame (frame : amqp_frame_t) : CC unit :=
  amqp_send_frame_inner frame AMQP_SF_NONE amqp_time_infinite.

Definition amqp_send_method_inner (ch : Z) (m : amqp_method_t) (flags : Z) (deadline : amqp_time_t) : CC unit :=
  amqp_send_frame_inner {| frame_type := AMQP_FRAME_METHOD; channel := ch;
                           payload := PL_method (method_id m) (method_decoded m) |} flags deadline.

Definition amqp_send_method (ch : Z) (m : amqp_method_t) : CC unit :=
  amqp_send_method_inner ch m AMQP_SF_NONE amqp_time_infinite.

(** ** Waiting for a frame *)

(** The [while] loop of [wait_frame_inner]: a complete frame, or [None] when the
    buffer is used up. *)
Definition drain_buffer (decoded_frame : amqp_frame_t) : CC (option amqp_frame_t * amqp_frame_t) :=
  iter fuel (fun fr =>
    let* c := the_conn in
    if amqp_data_in_buffer c then
      let* fr := consume_one_frame fr in
      if frame_type fr =? AMQP_FRAME_HEARTBEAT then
        do* amqp_maybe_release_buffers_on_channel 0 in
        ret (inl fr)
      else if negb (frame_type fr =? 0) then ret (inr (Some fr, fr))
      else ret (inl fr)
    else ret (inr (None, fr))) decoded_frame.

Definition heartbeat_frame : amqp_frame_t :=
  {| frame_type := AMQP_FRAME_HEARTBEAT; channel := 0; payload := PL_none |}.

(** From [beginrecv:] until data has arrived. *)
Definition receive_more (timeout_deadline : amqp_time_t) : CC unit :=
  iter fuel (fun _ =>
    let* c := the_conn in
    let* res := amqp_time_has_past (next_send_heartbeat c) in
    if res =? AMQP_STATUS_TIMER_FAILURE then throw res
    else
      do* (if res =? AMQP_STATUS_TIMEOUT then amqp_send_frame heartbeat_frame else ret tt) in
      let* c := the_conn in
      let deadline := amqp_time_first timeout_deadline
                        (amqp_time_first (next_recv_heartbeat c) (next_send_heartbeat c)) in
      let* res := recv_with_timeout deadline in
      let* c := the_conn in
      if res =? AMQP_STATUS_TIMEOUT then
        if amqp_time_equal deadline (next_recv_heartbeat c) then
          let* _ := amqp_socket_close (socket c) AMQP_SC_FORCE in
          throw AMQP_STATUS_HEARTBEAT_TIMEOUT
        else if amqp_time_equal deadline timeout_deadline then throw AMQP_STATUS_TIMEOUT
        else if amqp_time_equal deadline (next_send_heartbeat c) then ret (inl tt)
        else amqp_abort
      else do* check res in ret (inr tt)) tt.

Definition wait_frame_inner (decoded_frame : amqp_frame_t) (timeout_deadline : amqp_time_t) : CC amqp_frame_t :=
  iter fuel (fun fr =>
    let* '(r, fr) := drain_buffer fr in
    match r with
    | Some f => ret (inr f)
    | None => do* receive_more timeout_deadline in ret (inl fr)
    end) decoded_frame.

(** ** The queue of frames *)

(** [amqp_create_link_for_frame]; tells whether there is a link. *)
Definition amqp_create_link_for_frame (frame : amqp_frame_t) : CC bool :=
  let* found := get_or_create_pool (channel frame) in
  if negb found then ret false
  else
    let* link := channel_alloc (channel frame) sizeof_amqp_link_t in
    let* frame_copy := channel_alloc (channel frame) sizeof_amqp_frame_t in
    match link, frame_copy with
    | Some _, Some _ => ret true
    | _, _ => ret false
    end.

Definition amqp_queue_frame (frame : amqp_frame_t) : CC unit :=
  let* link := amqp_create_link_for_frame frame in
  if negb link then throw AMQP_STATUS_NO_MEMORY
  else upd (fun c => set_queue (queued_frames c ++ [frame]) c).

Definition amqp_put_back_frame (frame : amqp_frame_t) : CC unit :=
  let* link := amqp_create_link_for_frame frame in
  if negb link then throw AMQP_STATUS_NO_MEMORY
  else upd (fun c => set_queue (frame :: queued_frames c) c).

Definition amqp_simple_wait_frame_on_channel (ch : Z) (decoded_frame : amqp_frame_t) : CC amqp_frame_t :=
  let* c := the_conn in
  match first_on_channel ch (queued_frames c) with
  | Some (f, q) => do* upd (set_queue q) in ret f
  | None =>
      iter fuel (fun fr =>
        let* fr := wait_frame_inner fr amqp_time_infinite in
        if ch =? channel fr then ret (inr fr)
        else do* amqp_queue_frame fr in ret (inl fr)) decoded_frame
  end.

Definition amqp_simple_wait_frame_noblock (decoded_frame : amqp_frame_t) (timeout : option timeval)
    : CC amqp_frame_t :=
  let* '(deadline, res) := amqp_time_from_now {| time_point_ns := 0 |} timeout in
  do* check res in
  let* c := the_conn in
  match queued_frames c with
  | f :: q => do* upd (set_queue q) in ret f
  | [] => wait_frame_inner decoded_frame deadline
  end.

Definition amqp_simple_wait_frame (decoded_frame : amqp_frame_t) : CC amqp_frame_t :=
  amqp_simple_wait_frame_noblock decoded_frame None.

(** ** Waiting for a method *)

Definition amqp_simple_wait_method_list (expected_channel : Z) (expected_methods : list Z)
    (deadline : amqp_time_t) : CC amqp_method_t :=
  let* tvp := amqp_time_tv_until deadline in
  let* frame := amqp_simple_wait_frame_noblock new_frame tvp in
  if negb (frame_type frame =? AMQP_FRAME_METHOD) || negb (expected_channel =? channel frame)
  then throw AMQP_STATUS_WRONG_METHOD
  else
    let* m := method_of frame in
    if negb (amqp_id_in_reply_list (method_id m) expected_methods) then throw AMQP_STATUS_WRONG_METHOD
    else ret m.

Definition simple_wait_method_inner (expected_channel expected_method : Z) (deadline : amqp_time_t)
    : CC amqp_method_t :=
  amqp_simple_wait_method_list expected_channel [expected_method; 0] deadline.

Definition amqp_simple_wait_method (expected_channel expected_method : Z) : CC amqp_method_t :=
  simple_wait_method_inner expected_channel expected_method amqp_time_infinite.

(** ** Remote procedure calls *)

(** Whether the frame concerns the call: a reply, or the end of its channel or of
    the connection. *)
Definition concerns_rpc (ch : Z) (expected_reply_ids : list Z) (frame : amqp_frame_t) : CC bool :=
  if frame_type frame =? AMQP_FRAME_METHOD then
    let* m := method_of frame in
    ret (((channel frame =? ch) && (amqp_id_in_reply_list (method_id m) expected_reply_ids
                                    || (method_id m =? AMQP_CHANNEL_CLOSE_METHOD)))
         || ((channel frame =? 0) && (method_id m =? AMQP_CONNECTION_CLOSE_METHOD)))
  else ret false.

(** From [retry:] on. *)
Definition wait_reply (ch : Z) (expected_reply_ids : list Z) (deadline : amqp_time_t) : CC amqp_rpc_reply_t :=
  iter fuel (fun fr =>
    let* r := try_ (wait_frame_inner fr deadline) in
    match r with
    | inl status =>
        do* (if status =? AMQP_STATUS_TIMEOUT then
               let* c := the_conn in
               let* _ := amqp_socket_close (socket c) AMQP_SC_FORCE in ret tt
             else ret tt) in
        ret (inr (amqp_rpc_reply_error status))
    | inr frame =>
        let* mine := concerns_rpc ch expected_reply_ids frame in
        if negb mine then
          let* k := try_ (keep_frame frame) in
          match k with
          | inl status => ret (inr (amqp_rpc_reply_error status))
          | inr _ => ret (inl frame)
          end
        else
          let* m := method_of frame in
          ret (inr {| reply_type := if amqp_id_in_reply_list (method_id m) expected_reply_ids
                                    then AMQP_RESPONSE_NORMAL else AMQP_RESPONSE_SERVER_EXCEPTION;
                      reply_id := method_id m; reply_decoded := Some (method_decoded m);
                      library_error := 0 |})
    end) new_frame.

Definition simple_rpc_inner (ch : Z) (request : amqp_method_t) (expected_reply_ids : list Z)
    (deadline : amqp_time_t) : CC amqp_rpc_reply_t :=
  let* status := status_of (amqp_send_method ch request) in
  if status <? 0 then ret (amqp_rpc_reply_error status)
  else wait_reply ch expected_reply_ids deadline.

Definition amqp_simple_rpc (ch : Z) (request : amqp_method_t) (expected_reply_ids : list Z)
    : CC amqp_rpc_reply_t :=
  let* c := the_conn in
  let* '(deadline, res) := amqp_time_from_now {| time_point_ns := 0 |} (rpc_timeout c) in
  if negb (res =? AMQP_STATUS_OK) then ret (amqp_rpc_reply_error res)
  else simple_rpc_inner ch request expected_reply_ids deadline.

(** [None] is NULL. *)
Definition amqp_simple_rpc_decoded (ch : Z) (request : amqp_method_t) (reply_id : Z)
    : CC (option amqp_decoded_t) :=
  let* c := the_conn in
  let* '(deadline, res) := amqp_time_from_now {| time_point_ns := 0 |} (rpc_timeout c) in
  if negb (res =? AMQP_STATUS_OK) then
    do* upd (set_api_result (amqp_rpc_reply_error res)) in
    ret None
  else
    let* result := simple_rpc_inner ch request [reply_id; 0] deadline in
    do* upd (set_api_result result) in
    match reply_type result with
    | AMQP_RESPONSE_NORMAL => ret (reply_decoded result)
    | _ => ret None
    end.

Definition amqp_get_rpc_reply (c : amqp_connection_state_t) : amqp_rpc_reply_t := most_recent_api_result c.
End Io.
