(* ===== verification/TcpSocket.v ===== *)
(** * TCP sockets: [librabbitmq/amqp_tcp_socket.c] and the connecting half of
    [librabbitmq/amqp_socket.c]

    The system calls are a parameter (the class [Os]), with the constants of
    Linux and the code that is compiled there ([MSG_NOSIGNAL], [MSG_MORE], [poll]).
    The socket objects live in a store next to the system, under the number of the
    block they were allocated in; together the two are the world of a connection
    whose socket class is [amqp_tcp_socket_class]. *)

From S2P Require Import Prelude Machine Status Alloc Codec Table Framing Methods MethodDecode MethodEncode Properties Mem MemTheory Time Frame Connection Socket.

(** ** The system *)

Record addrinfo : Type := mk_addrinfo { ai_family : Z; ai_socktype : Z; ai_protocol : Z; ai_addr : list Z }.

(** Calls that set [errno] return it second; [os_recv] also returns what it has
    put into the buffer, [os_getsockopt] the value. *)
Class Os (W : Type) : Type := {
  os_send : Z -> list Z -> Z -> C W (Z * Z);
  os_recv : Z -> Z -> Z -> C W (Z * list Z * Z);
  os_close : Z -> C W Z;
  os_socket : Z -> Z -> Z -> C W Z;
  os_fcntl : Z -> Z -> Z -> C W Z;
  os_setsockopt : Z -> Z -> Z -> Z -> C W Z;
  os_getsockopt : Z -> Z -> Z -> C W (Z * Z);
  os_connect : Z -> list Z -> C W (Z * Z);
  os_getaddrinfo : list Z -> list Z -> addrinfo -> C W (Z * list addrinfo)
}.

Definition EAGAIN : Z := 11.
Definition EWOULDBLOCK : Z := 11.
Definition EINPROGRESS : Z := 115.
Definition MSG_NOSIGNAL : Z := 0x4000.
Definition MSG_MORE : Z := 0x8000.
Definition F_GETFD : Z := 1.
Definition F_SETFD : Z := 2.
Definition F_GETFL : Z := 3.
Definition F_SETFL : Z := 4.
Definition FD_CLOEXEC : Z := 1.
Definition O_NONBLOCK : Z := 0x800.
Definition SOL_SOCKET : Z := 1.
Definition SO_ERROR : Z := 4.
Definition SO_KEEPALIVE : Z := 9.
Definition IPPROTO_TCP : Z := 6.
Definition TCP_NODELAY : Z := 1.
Definition PF_UNSPEC : Z := 0.
Definition SOCK_STREAM : Z := 1.

(** ** Connecting ([amqp_socket.c]) *)

Section Connect.
Context {W : Type} `{Os W, Clock W, Poll W}.
Context (fuel : nat).

(** [flags = fcntl(fd, get); if (flags == -1 || fcntl(fd, set, flags | bit) == -1)
    goto err;] *)
Definition add_flag (fd get set bit : Z) : C W unit :=
  let* flags := os_fcntl fd get 0 in
  if flags =? -1 then throw AMQP_STATUS_SOCKET_ERROR
  else
    let* r := os_fcntl fd set (Z.lor flags bit) in
    if r =? -1 then throw AMQP_STATUS_SOCKET_ERROR else ret tt.

(** [if (0 != setsockopt(fd, level, name, &one, sizeof(one))) goto err;] *)
Definition set_option (fd level name : Z) : C W unit :=
  let* r := os_setsockopt fd level name 1 in
  if negb (r =? 0) then throw AMQP_STATUS_SOCKET_ERROR else ret tt.

(** From the creation of the socket on; an error goes to [err]. *)
Definition prepare_socket (sockfd : Z) (addr : addrinfo) (deadline : amqp_time_t) : C W unit :=
  do* add_flag sockfd F_GETFD F_SETFD FD_CLOEXEC in
  do* add_flag sockfd F_GETFL F_SETFL O_NONBLOCK in
  do* set_option sockfd IPPROTO_TCP TCP_NODELAY in
  do* set_option sockfd SOL_SOCKET SO_KEEPALIVE in
  let* '(r, errno) := os_connect sockfd (ai_addr addr) in
  if r =? 0 then ret tt
  else if negb (errno =? EINPROGRESS) then throw AMQP_STATUS_SOCKET_ERROR
  else
    let* last_error := amqp_poll fuel sockfd AMQP_SF_POLLOUT deadline in
    if negb (last_error =? AMQP_STATUS_OK) then throw last_error
    else
      let* '(r, result) := os_getsockopt sockfd SOL_SOCKET SO_ERROR in
      if (r =? -1) || negb (result =? 0) then throw AMQP_STATUS_SOCKET_ERROR else ret tt.

(** Returns a descriptor or a status. *)
Definition connect_socket (addr : addrinfo) (deadline : amqp_time_t) : C W Z :=
  let* sockfd := os_socket (ai_family addr) (ai_socktype addr) (ai_protocol addr) in
  if sockfd =? -1 then ret AMQP_STATUS_SOCKET_ERROR
  else
    let* r := try_ (prepare_socket sockfd addr deadline) in
    match r with
    | inr _ => ret sockfd
    | inl last_error => let* _ := os_close sockfd in ret last_error
    end.

(** The loop over the addresses: [sockfd] and [last_error] when it ends. *)
Fixpoint connect_any (addresses : list addrinfo) (deadline : amqp_time_t) (sockfd last_error : Z)
    : C W (Z * Z) :=
  match addresses with
  | [] => ret (sockfd, last_error)
  | addr :: addresses' =>
      let* sockfd := connect_socket addr deadline in
      if 0 <=? sockfd then ret (sockfd, AMQP_STATUS_OK)
      else if sockfd =? AMQP_STATUS_TIMEOUT then ret (sockfd, sockfd)
      else connect_any addresses' deadline sockfd last_error
  end.

(** [sprintf(portnumber_string, "%d", portnumber)] *)
Definition portnumber_string (portnumber : Z) : list Z :=
  (if portnumber <? 0 then 45 :: decimal 10 (- portnumber) else decimal 10 portnumber) ++ [0].

Definition hint : addrinfo :=
  {| ai_family := PF_UNSPEC; ai_socktype := SOCK_STREAM; ai_protocol := IPPROTO_TCP; ai_addr := [] |}.

Definition amqp_open_socket_inner (hostname : list Z) (portnumber : Z) (deadline : amqp_time_t) : C W Z :=
  let* '(last_error, address_list) := os_getaddrinfo hostname (portnumber_string portnumber) hint in
  if negb (last_error =? 0) then ret AMQP_STATUS_HOSTNAME_RESOLUTION_FAILED
  else
    let* '(sockfd, last_error) := connect_any address_list deadline (-1) last_error in
    if negb (last_error =? AMQP_STATUS_OK) || (sockfd =? -1) then ret last_error else ret sockfd.

Definition amqp_open_socket (hostname : list Z) (portnumber : Z) : C W Z :=
  amqp_open_socket_inner hostname portnumber amqp_time_infinite.

Definition amqp_open_socket_noblock (hostname : list Z) (portnumber : Z) (timeout : option timeval) : C W Z :=
  let* '(deadline, res) := amqp_time_from_now {| time_point_ns := 0 |} timeout in
  if negb (res =? AMQP_STATUS_OK) then ret res
  else amqp_open_socket_inner hostname portnumber deadline.
End Connect.

(** ** The socket class ([amqp_tcp_socket.c]) *)

Record amqp_tcp_socket_t : Type := mk_tcp { sockfd : Z; internal_error : Z }.

Definition sizeof_amqp_tcp_socket_t : Z := 24.

(** The system and the socket objects. *)
Record tcp (W : Type) : Type := mk_tcp_world { tc_os : W; tc_sockets : gmap Z amqp_tcp_socket_t }.
Arguments mk_tcp_world {W}.
Arguments tc_os {W}.
Arguments tc_sockets {W}.

Section Tcp.
Context {W : Type} {HO : Os W} {HC : Clock W} {HP : Poll W}.
Context (fuel : nat).

Definition on_os {A} (m : C W A) : C (tcp W) A := fun w =>
  match m (tc_os w) with
  | Ret a o => Ret a {| tc_os := o; tc_sockets := tc_sockets w |}
  | Err e o => Err e {| tc_os := o; tc_sockets := tc_sockets w |}
  | UB => UB
  | NoFuel => NoFuel
  end.

(** [*self]; undefined when there is no such object. *)
Definition the_socket (self : Z) : C (tcp W) amqp_tcp_socket_t := fun w =>
  match tc_sockets w !! self with Some o => Ret o w | None => UB end.

Definition set_the_socket (self : Z) (o : amqp_tcp_socket_t) : C (tcp W) unit := fun w =>
  Ret tt {| tc_os := tc_os w; tc_sockets := <[self := o]> (tc_sockets w) |}.

Definition set_internal_error (self e : Z) : C (tcp W) unit :=
  let* o := the_socket self in set_the_socket self {| sockfd := sockfd o; internal_error := e |}.

Definition set_sockfd (self fd : Z) : C (tcp W) unit :=
  let* o := the_socket self in set_the_socket self {| sockfd := fd; internal_error := internal_error o |}.

(** What a failed [send] or [recv] returns; [None] for [goto start]. *)
Definition socket_failure (errno need : Z) : option Z :=
  if errno =? EINTR then None
  else if (errno =? EWOULDBLOCK) || (errno =? EAGAIN) then Some need
  else Some AMQP_STATUS_SOCKET_ERROR.

Definition amqp_tcp_socket_send (self : Z) (buf : list Z) (flags : Z) : C (tcp W) Z :=
  let* o := the_socket self in
  if sockfd o =? -1 then ret AMQP_STATUS_SOCKET_CLOSED
  else
    let flagz := Z.lor MSG_NOSIGNAL (if negb (Z.land flags AMQP_SF_MORE =? 0) then MSG_MORE else 0) in
    iter fuel (fun _ =>
      let* '(res, errno) := on_os (os_send (sockfd o) buf flagz) in
      if res <? 0 then
        do* set_internal_error self errno in
        match socket_failure errno AMQP_PRIVATE_STATUS_SOCKET_NEEDWRITE with
        | None => ret (inl tt)
        | Some r => ret (inr r)
        end
      else do* set_internal_error self 0 in ret (inr res)) tt.

Definition amqp_tcp_socket_recv (self len flags : Z) : C (tcp W) (Z * list Z) :=
  let* o := the_socket self in
  if sockfd o =? -1 then ret (AMQP_STATUS_SOCKET_CLOSED, [])
  else
    iter fuel (fun _ =>
      let* '(r, data, errno) := on_os (os_recv (sockfd o) len flags) in
      if r <? 0 then
        do* set_internal_error self errno in
        match socket_failure errno AMQP_PRIVATE_STATUS_SOCKET_NEEDREAD with
        | None => ret (inl tt)
        | Some r => ret (inr (r, data))
        end
      else if r =? 0 then ret (inr (AMQP_STATUS_CONNECTION_CLOSED, data))
      else ret (inr (r, data))) tt.

Definition amqp_tcp_socket_open (self : Z) (host : list Z) (port : Z) (timeout : option timeval)
    : C (tcp W) Z :=
  let* o := the_socket self in
  if negb (sockfd o =? -1) then ret AMQP_STATUS_SOCKET_INUSE
  else
    let* fd := on_os (amqp_open_socket_noblock fuel host port timeout) in
    do* set_sockfd self fd in
    if fd <? 0 then do* set_sockfd self (-1) in ret fd
    else ret AMQP_STATUS_OK.

Definition amqp_tcp_socket_close (self force : Z) : C (tcp W) Z :=
  let* o := the_socket self in
  if sockfd o =? -1 then ret AMQP_STATUS_SOCKET_CLOSED
  else
    let* r := on_os (os_close (sockfd o)) in
    if negb (r =? 0) then ret AMQP_STATUS_SOCKET_ERROR
    else do* set_sockfd self (-1) in ret AMQP_STATUS_OK.

Definition amqp_tcp_socket_get_sockfd (self : Z) : C (tcp W) Z :=
  let* o := the_socket self in ret (sockfd o).

(** The object ends with its memory. *)
Definition amqp_tcp_socket_delete (self : Z) : C (heap * tcp W) unit := fun '(h, w) =>
  match amqp_tcp_socket_close self AMQP_SC_NONE w with
  | Ret _ w' =>
      match c_free (Some {| p_block := self; p_off := 0 |}) h with
      | Ret _ h' => Ret tt (h', {| tc_os := tc_os w'; tc_sockets := delete self (tc_sockets w') |})
      | Err e h' => Err e (h', w')
      | UB => UB
      | NoFuel => NoFuel
      end
  | Err e w' => Err e (h, w')
  | UB => UB
  | NoFuel => NoFuel
  end.

Definition amqp_tcp_socket_class : Sockets (tcp W) := {|
  klass_send := amqp_tcp_socket_send;
  klass_recv := amqp_tcp_socket_recv;
  klass_open := amqp_tcp_socket_open;
  klass_close := amqp_tcp_socket_close;
  klass_get_sockfd := amqp_tcp_socket_get_sockfd;
  klass_delete := amqp_tcp_socket_delete
|}.

#[export] Instance tcp_clock : Clock (tcp W) := {| clock_gettime := on_os clock_gettime |}.
#[export] Instance tcp_poll : Poll (tcp W) := {| os_poll := fun fd event ms => on_os (os_poll fd event ms) |}.

(** The socket becomes the socket of the connection, which deletes the one it
    had. *)
Definition amqp_tcp_socket_new : C (cst (tcp W)) (option Z) :=
  let* p := on_mem (c_calloc sizeof_amqp_tcp_socket_t) in
  match p with
  | None => ret None
  | Some p =>
      do* on_world (set_the_socket (p_block p) {| sockfd := -1; internal_error := 0 |}) in
      do* @amqp_set_socket _ amqp_tcp_socket_class (Some (p_block p)) in
      ret (Some (p_block p))
  end.

(** Every socket of this world is a TCP socket; anything else is an abort. *)
Definition amqp_tcp_socket_set_sockfd (base fd : Z) : C (tcp W) unit := set_sockfd base fd.
End Tcp.
