(* ===== verification/TlsSocket.v ===== *)
(** * TLS sockets: [librabbitmq/amqp_openssl.c] and [librabbitmq/amqp_openssl_bio.c]

    OpenSSL is a parameter (the class [OpenSSL]), with the constants of its
    headers; so are the mutex and [errno].  The static variables of the two files
    and the socket objects live next to the system; together they are the world of
    a connection whose socket class is [amqp_ssl_socket_class]. *)

From S2P Require Import Prelude Machine Status Alloc Codec Table Framing Methods MethodDecode MethodEncode Properties Mem MemTheory Time Frame Connection Socket TcpSocket.

(** ** The library *)

(** A pointer to an object of OpenSSL; [None] is NULL. *)
Abbreviation handle := (option Z).

(** The functions of a [BIO_METHOD]. *)
Inductive bio_slot : Type :=
  | BIO_create | BIO_destroy | BIO_ctrl | BIO_callback_ctrl | BIO_read | BIO_write | BIO_gets | BIO_puts.

(** What can be in a slot: a function of OpenSSL, or one of the two below. *)
Inductive bio_function : Type :=
  | BIO_builtin (f : Z)
  | BIO_amqp_write
  | BIO_amqp_read.

Definition SSL_ERROR_WANT_READ : Z := 2.
Definition SSL_ERROR_WANT_WRITE : Z := 3.
Definition SSL_ERROR_ZERO_RETURN : Z := 6.
Definition SSL_FILETYPE_PEM : Z := 1.
Definition SSL_MODE_ENABLE_PARTIAL_WRITE : Z := 1.
Definition SSL_MODE_AUTO_RETRY : Z := 4.
Definition TLS1_2_VERSION : Z := 0x0303.
Definition TLS1_3_VERSION : Z := 0x0304.
Definition X509_V_OK : Z := 0.
Definition X509_CHECK_FLAG_NO_PARTIAL_WILDCARDS : Z := 4.
Definition BIO_NOCLOSE : Z := 0.
Definition BIO_TYPE_SOCKET : Z := 0x0505.
Definition ENGINE_METHOD_ALL : Z := 0xFFFF.
Definition ENOTCONN : Z := 107.
Definition EPROTO : Z := 71.
Definition EALREADY : Z := 114.
Definition INT_MAX : Z := INT32_MAX.

(** Strings are passed as the characters up to and with the terminator;
    [SSL_read] returns what it has put into the buffer after its result. *)
Class OpenSSL (W : Type) : Type := {
  amqp_os_socket_error : C W Z;
  pthread_mutex_lock : C W Z;
  pthread_mutex_unlock : C W Z;
  ERR_clear_error : C W unit;
  ERR_peek_error : C W Z;
  SSL_new : handle -> C W handle;
  SSL_free : handle -> C W unit;
  SSL_write : handle -> list Z -> C W Z;
  SSL_read : handle -> Z -> C W (Z * list Z);
  SSL_get_error : handle -> Z -> C W Z;
  SSL_set_bio : handle -> handle -> handle -> C W unit;
  SSL_set_tlsext_host_name : handle -> list Z -> C W Z;
  SSL_connect : handle -> C W Z;
  SSL_shutdown : handle -> C W Z;
  SSL_get_peer_certificate : handle -> C W handle;
  SSL_get_verify_result : handle -> C W Z;
  X509_check_host : handle -> list Z -> Z -> C W Z;
  X509_free : handle -> C W unit;
  SSL_CTX_new : C W handle;
  SSL_CTX_free : handle -> C W unit;
  SSL_CTX_set_mode : handle -> Z -> C W unit;
  SSL_CTX_clear_mode : handle -> Z -> C W unit;
  SSL_CTX_set_min_proto_version : handle -> Z -> C W Z;
  SSL_CTX_set_max_proto_version : handle -> Z -> C W Z;
  SSL_CTX_load_verify_locations : handle -> list Z -> C W Z;
  SSL_CTX_use_certificate_chain_file : handle -> list Z -> C W Z;
  SSL_CTX_use_PrivateKey_file : handle -> list Z -> Z -> C W Z;
  SSL_CTX_use_PrivateKey : handle -> handle -> C W Z;
  SSL_CTX_use_RSAPrivateKey : handle -> handle -> C W Z;
  SSL_CTX_set_default_passwd_cb_userdata : handle -> list Z -> C W unit;
  BIO_new : handle -> C W handle;
  BIO_set_fd : handle -> Z -> Z -> C W unit;
  BIO_get_fd : Z -> C W Z;
  BIO_clear_retry_flags : Z -> C W unit;
  BIO_set_retry_read : Z -> C W unit;
  BIO_set_retry_write : Z -> C W unit;
  BIO_new_mem_buf : list Z -> C W handle;
  BIO_vfree : handle -> C W unit;
  BIO_s_socket : C W handle;
  BIO_meth_new : Z -> C W handle;
  BIO_meth_free : handle -> C W unit;
  BIO_meth_get : bio_slot -> handle -> C W bio_function;
  BIO_meth_set : bio_slot -> handle -> bio_function -> C W unit;
  PEM_read_bio_RSAPrivateKey : handle -> C W handle;
  RSA_free : handle -> C W unit;
  EVP_PKEY_free : handle -> C W unit;
  ENGINE_load_builtin_engines : C W unit;
  ENGINE_by_id : list Z -> C W handle;
  ENGINE_free : handle -> C W unit;
  ENGINE_set_default : handle -> Z -> C W Z;
  ENGINE_load_private_key : handle -> list Z -> C W handle
}.

(** ** Reading and writing for OpenSSL ([amqp_openssl_bio.c]) *)

Section Bio.
Context {W : Type} {HO : Os W} {HX : OpenSSL W}.

(** [errno] is that of the call that returned [res]. *)
Definition amqp_openssl_bio_should_retry (res errno : Z) : bool :=
  (res =? -1) &&
  ((errno =? EWOULDBLOCK) || (errno =? ENOTCONN) || (errno =? EINTR) || (errno =? EAGAIN) ||
   (errno =? EPROTO) || (errno =? EINPROGRESS) || (errno =? EALREADY)).

Definition amqp_openssl_bio_write (b : Z) (data : list Z) : C W Z :=
  let* fd := BIO_get_fd b in
  let* '(res, errno) := os_send fd data MSG_NOSIGNAL in
  do* BIO_clear_retry_flags b in
  do* (if (res <=? 0) && amqp_openssl_bio_should_retry res errno then BIO_set_retry_write b else ret tt) in
  ret res.

Definition amqp_openssl_bio_read (b outl : Z) : C W (Z * list Z) :=
  let* fd := BIO_get_fd b in
  let* '(res, out, errno) := os_recv fd outl MSG_NOSIGNAL in
  do* BIO_clear_retry_flags b in
  do* (if (res <=? 0) && amqp_openssl_bio_should_retry res errno then BIO_set_retry_read b else ret tt) in
  ret (res, out).
End Bio.

(** ** State *)

(** The static variables: [amqp_ssl_bio_initialized] and [amqp_bio_method] of
    amqp_openssl_bio.c, the rest of amqp_openssl.c. *)
Record openssl_statics : Type := mk_statics {
  amqp_ssl_bio_initialized : bool;
  amqp_bio_method : handle;
  openssl_bio_initialized : bool;
  openssl_connections : Z;
  openssl_engine : handle
}.

Definition initial_statics : openssl_statics :=
  {| amqp_ssl_bio_initialized := false; amqp_bio_method := None; openssl_bio_initialized := false;
     openssl_connections := 0; openssl_engine := None |}.

(** The classes a socket can have. *)
Inductive socket_klass : Type := the_amqp_ssl_socket_class | another_class.

#[export] Instance socket_klass_eq_dec : EqDecision socket_klass.
Proof. solve_decision. Defined.

Record amqp_ssl_socket_t : Type := mk_ssl_socket {
  klass : socket_klass;
  ctx : handle;
  sockfd : Z;
  ssl : handle;
  verify_peer : bool;
  verify_hostname : bool;
  internal_error : Z
}.

Definition sizeof_amqp_ssl_socket_t : Z := 48.

(** The system, the sockets and the static variables. *)
Record tls (W : Type) : Type := mk_tls {
  tl_sys : W;
  tl_sockets : gmap Z amqp_ssl_socket_t;
  tl_statics : openssl_statics
}.
Arguments mk_tls {W}.
Arguments tl_sys {W}.
Arguments tl_sockets {W}.
Arguments tl_statics {W}.

Section Tls.
Context {W : Type} {HO : Os W} {HC : Clock W} {HP : Poll W} {HX : OpenSSL W}.
Context (fuel : nat).

Abbreviation T A := (C (tls W) A).

Definition on_sys {A} (m : C W A) : T A := fun w =>
  match m (tl_sys w) with
  | Ret a o => Ret a {| tl_sys := o; tl_sockets := tl_sockets w; tl_statics := tl_statics w |}
  | Err e o => Err e {| tl_sys := o; tl_sockets := tl_sockets w; tl_statics := tl_statics w |}
  | UB => UB
  | NoFuel => NoFuel
  end.

#[export] Instance tls_clock : Clock (tls W) := {| clock_gettime := on_sys clock_gettime |}.
#[export] Instance tls_poll : Poll (tls W) := {| os_poll := fun fd event ms => on_sys (os_poll fd event ms) |}.

Definition statics : T openssl_statics := fun w => Ret (tl_statics w) w.

Definition set_statics (g : openssl_statics) : T unit := fun w =>
  Ret tt {| tl_sys := tl_sys w; tl_sockets := tl_sockets w; tl_statics := g |}.

(** [*self]; undefined when there is no such object. *)
Definition the_ssl_socket (self : Z) : T amqp_ssl_socket_t := fun w =>
  match tl_sockets w !! self with Some o => Ret o w | None => UB end.

Definition put_ssl_socket (self : Z) (o : amqp_ssl_socket_t) : T unit := fun w =>
  Ret tt {| tl_sys := tl_sys w; tl_sockets := <[self := o]> (tl_sockets w); tl_statics := tl_statics w |}.

Definition upd_ssl_socket (self : Z) (f : amqp_ssl_socket_t -> amqp_ssl_socket_t) : T unit :=
  let* o := the_ssl_socket self in put_ssl_socket self (f o).

Definition with_ctx (x : handle) (o : amqp_ssl_socket_t) : amqp_ssl_socket_t :=
  {| klass := klass o; ctx := x; sockfd := sockfd o; ssl := ssl o; verify_peer := verify_peer o;
     verify_hostname := verify_hostname o; internal_error := internal_error o |}.
Definition with_sockfd (fd : Z) (o : amqp_ssl_socket_t) : amqp_ssl_socket_t :=
  {| klass := klass o; ctx := ctx o; sockfd := fd; ssl := ssl o; verify_peer := verify_peer o;
     verify_hostname := verify_hostname o; internal_error := internal_error o |}.
Definition with_ssl (x : handle) (o : amqp_ssl_socket_t) : amqp_ssl_socket_t :=
  {| klass := klass o; ctx := ctx o; sockfd := sockfd o; ssl := x; verify_peer := verify_peer o;
     verify_hostname := verify_hostname o; internal_error := internal_error o |}.
Definition with_verify_peer (v : bool) (o : amqp_ssl_socket_t) : amqp_ssl_socket_t :=
  {| klass := klass o; ctx := ctx o; sockfd := sockfd o; ssl := ssl o; verify_peer := v;
     verify_hostname := verify_hostname o; internal_error := internal_error o |}.
Definition with_verify_hostname (v : bool) (o : amqp_ssl_socket_t) : amqp_ssl_socket_t :=
  {| klass := klass o; ctx := ctx o; sockfd := sockfd o; ssl := ssl o; verify_peer := verify_peer o;
     verify_hostname := v; internal_error := internal_error o |}.
Definition with_error (e : Z) (o : amqp_ssl_socket_t) : amqp_ssl_socket_t :=
  {| klass := klass o; ctx := ctx o; sockfd := sockfd o; ssl := ssl o; verify_peer := verify_peer o;
     verify_hostname := verify_hostname o; internal_error := e |}.

(** [self->internal_error = e], an [int]. *)
Definition set_ssl_error (self e : Z) : T unit := upd_ssl_socket self (with_error (to_int e)).

(** A call with [self->ssl] or [self->ctx]. *)
Definition on_ssl {A} (self : Z) (m : handle -> C W A) : T A :=
  let* o := the_ssl_socket self in on_sys (m (ssl o)).
Definition on_ctx {A} (self : Z) (m : handle -> C W A) : T A :=
  let* o := the_ssl_socket self in on_sys (m (ctx o)).

(** ** The BIO method ([amqp_openssl_bio.c]) *)

Definition set_bio_method (initialized : bool) (m : handle) : T unit :=
  let* g := statics in
  set_statics {| amqp_ssl_bio_initialized := initialized; amqp_bio_method := m;
                 openssl_bio_initialized := openssl_bio_initialized g;
                 openssl_connections := openssl_connections g; openssl_engine := openssl_engine g |}.

(** [BIO_meth_set_x(amqp_bio_method, BIO_meth_get_x(BIO_s_socket()));] *)
Definition inherit_slot (m : handle) (slot : bio_slot) : T unit :=
  let* socket := on_sys BIO_s_socket in
  let* f := on_sys (BIO_meth_get slot socket) in
  on_sys (BIO_meth_set slot m f).

(** A failed assertion ends the process. *)
Definition c_assert (b : bool) : T unit := if b then ret tt else amqp_abort.

(** Returns the status. *)
Definition amqp_openssl_bio_init : T Z :=
  let* g := statics in
  do* c_assert (negb (amqp_ssl_bio_initialized g)) in
  let* m := on_sys (BIO_meth_new BIO_TYPE_SOCKET) in
  do* set_bio_method (amqp_ssl_bio_initialized g) m in
  match m with
  | None => ret AMQP_STATUS_NO_MEMORY
  | Some _ =>
      do* inherit_slot m BIO_create in
      do* inherit_slot m BIO_destroy in
      do* inherit_slot m BIO_ctrl in
      do* inherit_slot m BIO_callback_ctrl in
      do* inherit_slot m BIO_read in
      do* inherit_slot m BIO_write in
      do* inherit_slot m BIO_gets in
      do* inherit_slot m BIO_puts in
      do* on_sys (BIO_meth_set BIO_write m BIO_amqp_write) in
      do* on_sys (BIO_meth_set BIO_read m BIO_amqp_read) in
      do* set_bio_method true m in
      ret AMQP_STATUS_OK
  end.

Definition amqp_openssl_bio_destroy : T unit :=
  let* g := statics in
  do* c_assert (amqp_ssl_bio_initialized g) in
  do* on_sys (BIO_meth_free (amqp_bio_method g)) in
  set_bio_method false None.

Definition amqp_openssl_bio : T handle :=
  let* g := statics in
  do* c_assert (amqp_ssl_bio_initialized g) in
  ret (amqp_bio_method g).

(** ** The count of connections ([amqp_openssl.c]) *)

Definition CHECK_SUCCESS (condition : C W Z) : T unit :=
  let* check_success_ret := on_sys condition in
  if negb (check_success_ret =? 0) then amqp_abort else ret tt.

Definition set_bio_ready (b : bool) : T unit :=
  let* g := statics in
  set_statics {| amqp_ssl_bio_initialized := amqp_ssl_bio_initialized g; amqp_bio_method := amqp_bio_method g;
                 openssl_bio_initialized := b; openssl_connections := openssl_connections g;
                 openssl_engine := openssl_engine g |}.

(** [openssl_connections] is an [int]; its overflow is undefined. *)
Definition set_connections (n : Z) : T unit :=
  if INT_MAX <? n then undefined
  else
    let* g := statics in
    set_statics {| amqp_ssl_bio_initialized := amqp_ssl_bio_initialized g; amqp_bio_method := amqp_bio_method g;
                   openssl_bio_initialized := openssl_bio_initialized g; openssl_connections := n;
                   openssl_engine := openssl_engine g |}.

Definition initialize_ssl_and_increment_connections : T Z :=
  do* CHECK_SUCCESS pthread_mutex_lock in
  let* g := statics in
  let* status :=
    (if negb (openssl_bio_initialized g) then
       let* status := amqp_openssl_bio_init in
       if negb (status =? 0) then ret status else do* set_bio_ready true in ret status
     else ret 0) in
  let* status :=
    (if negb (status =? 0) then ret status
     else do* set_connections (openssl_connections g + 1) in ret AMQP_STATUS_OK) in
  do* CHECK_SUCCESS pthread_mutex_unlock in
  ret status.

Definition decrement_ssl_connections : T Z :=
  do* CHECK_SUCCESS pthread_mutex_lock in
  let* g := statics in
  do* (if 0 <? openssl_connections g then set_connections (openssl_connections g - 1) else ret tt) in
  let* g := statics in
  do* (if openssl_connections g =? 0
       then do* amqp_openssl_bio_destroy in set_bio_ready false
       else ret tt) in
  do* CHECK_SUCCESS pthread_mutex_unlock in
  ret AMQP_STATUS_OK.

(** ** Sending and receiving *)

(** The [switch] on the error of a failed [SSL_write] or [SSL_read]. *)
Definition ssl_status (error : Z) : Z :=
  if error =? SSL_ERROR_WANT_READ then AMQP_PRIVATE_STATUS_SOCKET_NEEDREAD
  else if error =? SSL_ERROR_WANT_WRITE then AMQP_PRIVATE_STATUS_SOCKET_NEEDWRITE
  else if error =? SSL_ERROR_ZERO_RETURN then AMQP_STATUS_CONNECTION_CLOSED
  else AMQP_STATUS_SSL_ERROR.

Definition amqp_ssl_socket_send (self : Z) (buf : list Z) (flags : Z) : T Z :=
  let* o := the_ssl_socket self in
  if sockfd o =? -1 then ret AMQP_STATUS_SOCKET_CLOSED
  else if INT_MAX <? zlen buf then ret AMQP_STATUS_INVALID_PARAMETER
  else
    do* on_sys ERR_clear_error in
    do* set_ssl_error self 0 in
    let* res := on_ssl self (fun s => SSL_write s buf) in
    if res <=? 0 then
      let* error := on_ssl self (fun s => SSL_get_error s res) in
      do* set_ssl_error self error in
      ret (ssl_status error)
    else do* set_ssl_error self 0 in ret res.

Definition amqp_ssl_socket_recv (self len flags : Z) : T (Z * list Z) :=
  let* o := the_ssl_socket self in
  if sockfd o =? -1 then ret (AMQP_STATUS_SOCKET_CLOSED, [])
  else if INT_MAX <? len then ret (AMQP_STATUS_INVALID_PARAMETER, [])
  else
    do* on_sys ERR_clear_error in
    do* set_ssl_error self 0 in
    let* '(received, buf) := on_ssl self (fun s => SSL_read s len) in
    if received <=? 0 then
      let* error := on_ssl self (fun s => SSL_get_error s received) in
      do* set_ssl_error self error in
      ret (ssl_status error, buf)
    else ret (received, buf).

(** ** Opening *)

Definition error_out1 (self status : Z) : T Z :=
  do* on_ssl self SSL_free in
  do* upd_ssl_socket self (with_ssl None) in
  ret status.

Definition error_out2 (self status : Z) : T Z :=
  let* o := the_ssl_socket self in
  let* _ := on_sys (os_close (sockfd o)) in
  do* upd_ssl_socket self (with_sockfd (-1)) in
  error_out1 self status.

Definition error_out3 (self status : Z) : T Z :=
  let* _ := on_ssl self SSL_shutdown in
  error_out2 self status.

Definition error_out4 (self : Z) (cert : handle) (status : Z) : T Z :=
  do* on_sys (X509_free cert) in
  error_out3 self status.

(** From [start_connect] to the end of the handshake; [None] when it has
    succeeded, a status to fail with otherwise. *)
Definition start_connect (self : Z) (deadline : amqp_time_t) : T (option Z) :=
  iter fuel (fun _ =>
    let* status := on_ssl self SSL_connect in
    if status =? 1 then ret (inr None)
    else
      let* error := on_ssl self (fun s => SSL_get_error s status) in
      do* set_ssl_error self error in
      let* o := the_ssl_socket self in
      let* status :=
        (if error =? SSL_ERROR_WANT_READ then on_sys (amqp_poll fuel (sockfd o) AMQP_SF_POLLIN deadline)
         else if error =? SSL_ERROR_WANT_WRITE then on_sys (amqp_poll fuel (sockfd o) AMQP_SF_POLLOUT deadline)
         else ret AMQP_STATUS_SSL_CONNECTION_FAILED) in
      if status =? AMQP_STATUS_OK then ret (inl tt) else ret (inr (Some status))) tt.

(** [if (self->verify_peer) ...]: [None] when there is nothing to complain about,
    otherwise the status and whether there is a certificate to free. *)
Definition check_peer (self : Z) (cert : handle) : T (option Z) :=
  let* o := the_ssl_socket self in
  if verify_peer o then
    match cert with
    | None => do* set_ssl_error self 0 in ret (Some AMQP_STATUS_SSL_PEER_VERIFY_FAILED)
    | Some _ =>
        let* result := on_ssl self SSL_get_verify_result in
        if negb (result =? X509_V_OK)
        then do* set_ssl_error self result in ret (Some AMQP_STATUS_SSL_PEER_VERIFY_FAILED)
        else ret None
    end
  else ret None.

(** [if (self->verify_hostname) ...] *)
Definition check_hostname (self : Z) (cert : handle) (host : list Z) : T (option Z) :=
  let* o := the_ssl_socket self in
  if verify_hostname o then
    match cert with
    | None => do* set_ssl_error self 0 in ret (Some AMQP_STATUS_SSL_HOSTNAME_VERIFY_FAILED)
    | Some _ =>
        let* r := on_sys (X509_check_host cert host X509_CHECK_FLAG_NO_PARTIAL_WILDCARDS) in
        if negb (r =? 1)
        then do* set_ssl_error self 0 in ret (Some AMQP_STATUS_SSL_HOSTNAME_VERIFY_FAILED)
        else ret None
    end
  else ret None.

(** A check that fails goes to [error_out3] without a certificate and to
    [error_out4] with one. *)
Definition reject (self : Z) (cert : handle) (status : Z) : T Z :=
  match cert with None => error_out3 self status | Some _ => error_out4 self cert status end.

(** After the handshake. *)
Definition verify (self : Z) (host : list Z) : T Z :=
  let* cert := on_ssl self SSL_get_peer_certificate in
  let* bad := check_peer self cert in
  match bad with
  | Some status => reject self cert status
  | None =>
      let* bad := check_hostname self cert host in
      match bad with
      | Some status => reject self cert status
      | None =>
          do* on_sys (X509_free cert) in
          do* set_ssl_error self 0 in
          ret AMQP_STATUS_OK
      end
  end.

(** With a descriptor: attach it to the SSL object and shake hands. *)
Definition handshake (self : Z) (host : list Z) (deadline : amqp_time_t) : T Z :=
  let* method := amqp_openssl_bio in
  let* bio := on_sys (BIO_new method) in
  match bio with
  | None => error_out2 self AMQP_STATUS_NO_MEMORY
  | Some _ =>
      let* o := the_ssl_socket self in
      do* on_sys (BIO_set_fd bio (sockfd o) BIO_NOCLOSE) in
      do* on_ssl self (fun s => SSL_set_bio s bio bio) in
      let* status := on_ssl self (fun s => SSL_set_tlsext_host_name s host) in
      if status =? 0 then
        let* error := on_ssl self (fun s => SSL_get_error s status) in
        do* set_ssl_error self error in
        error_out2 self AMQP_STATUS_SSL_ERROR
      else
        let* failed := start_connect self deadline in
        match failed with
        | Some status => error_out2 self status
        | None => verify self host
        end
  end.

(** With an SSL object: a deadline and a descriptor. *)
Definition open_descriptor (self : Z) (host : list Z) (port : Z) (timeout : option timeval) : T Z :=
  let* '(deadline, status) := on_sys (amqp_time_from_now {| time_point_ns := 0 |} timeout) in
  if negb (status =? AMQP_STATUS_OK) then ret status
  else
    let* fd := on_sys (amqp_open_socket_inner fuel host port deadline) in
    do* upd_ssl_socket self (with_sockfd fd) in
    if fd <? 0 then
      let* errno := on_sys amqp_os_socket_error in
      do* set_ssl_error self errno in
      do* upd_ssl_socket self (with_sockfd (-1)) in
      error_out1 self fd
    else handshake self host deadline.

Definition amqp_ssl_socket_open (self : Z) (host : list Z) (port : Z) (timeout : option timeval) : T Z :=
  let* o := the_ssl_socket self in
  if negb (sockfd o =? -1) then ret AMQP_STATUS_SOCKET_INUSE
  else
    do* on_sys ERR_clear_error in
    let* s := on_ctx self SSL_new in
    do* upd_ssl_socket self (with_ssl s) in
    match s with
    | None =>
        let* error := on_sys ERR_peek_error in
        do* set_ssl_error self error in
        ret AMQP_STATUS_SSL_ERROR
    | Some _ => open_descriptor self host port timeout
    end.

(** ** Closing *)

Definition amqp_ssl_socket_close (self force : Z) : T Z :=
  let* o := the_ssl_socket self in
  if sockfd o =? -1 then ret AMQP_STATUS_SOCKET_CLOSED
  else
    do* (if force =? AMQP_SC_NONE then let* _ := on_ssl self SSL_shutdown in ret tt else ret tt) in
    do* on_ssl self SSL_free in
    do* upd_ssl_socket self (with_ssl None) in
    let* r := on_sys (os_close (sockfd o)) in
    if negb (r =? 0) then ret AMQP_STATUS_SOCKET_ERROR
    else do* upd_ssl_socket self (with_sockfd (-1)) in ret AMQP_STATUS_OK.

Definition amqp_ssl_socket_get_sockfd (self : Z) : T Z :=
  let* o := the_ssl_socket self in ret (sockfd o).

(** Functions of the world next to the heap. *)
Definition in_tls {A} (m : T A) : C (heap * tls W) A := fun '(h, w) =>
  match m w with
  | Ret a w' => Ret a (h, w')
  | Err e w' => Err e (h, w')
  | UB => UB
  | NoFuel => NoFuel
  end.

Definition in_heap {A} (m : C heap A) : C (heap * tls W) A := fun '(h, w) =>
  match m h with
  | Ret a h' => Ret a (h', w)
  | Err e h' => Err e (h', w)
  | UB => UB
  | NoFuel => NoFuel
  end.

(** The object ends with its memory. *)
Definition forget_ssl_socket (self : Z) : T unit := fun w =>
  Ret tt {| tl_sys := tl_sys w; tl_sockets := delete self (tl_sockets w); tl_statics := tl_statics w |}.

Definition amqp_ssl_socket_delete (base : option Z) : C (heap * tls W) unit :=
  do* match base with
      | None => ret tt
      | Some self =>
          let* _ := in_tls (amqp_ssl_socket_close self AMQP_SC_NONE) in
          do* in_tls (on_ctx self SSL_CTX_free) in
          do* in_heap (c_free (Some {| p_block := self; p_off := 0 |})) in
          in_tls (forget_ssl_socket self)
      end in
  let* _ := in_tls decrement_ssl_connections in
  ret tt.

Definition amqp_ssl_socket_class : Sockets (tls W) := {|
  klass_send := amqp_ssl_socket_send;
  klass_recv := amqp_ssl_socket_recv;
  klass_open := amqp_ssl_socket_open;
  klass_close := amqp_ssl_socket_close;
  klass_get_sockfd := amqp_ssl_socket_get_sockfd;
  klass_delete := fun base => amqp_ssl_socket_delete (Some base)
|}.

(** ** Settings *)

(** [if (base->klass != &amqp_ssl_socket_class) amqp_abort(...)] *)
Definition as_ssl_socket (base : Z) : T amqp_ssl_socket_t :=
  let* o := the_ssl_socket base in
  if bool_decide (klass o = the_amqp_ssl_socket_class) then ret o else amqp_abort.

Definition amqp_ssl_socket_get_context (base : Z) : T handle :=
  let* o := as_ssl_socket base in ret (ctx o).

(** [if (1 != status) return AMQP_STATUS_SSL_ERROR;] *)
Definition ssl_check (m : C W Z) : T unit :=
  let* status := on_sys m in
  if negb (status =? 1) then throw AMQP_STATUS_SSL_ERROR else ret tt.

Definition amqp_ssl_socket_set_cacert (base : Z) (cacert : list Z) : T Z :=
  let* o := as_ssl_socket base in
  status_of (ssl_check (SSL_CTX_load_verify_locations (ctx o) cacert)).

Definition amqp_ssl_socket_set_key (base : Z) (cert key : list Z) : T Z :=
  let* o := as_ssl_socket base in
  status_of (
    do* ssl_check (SSL_CTX_use_certificate_chain_file (ctx o) cert) in
    ssl_check (SSL_CTX_use_PrivateKey_file (ctx o) key SSL_FILETYPE_PEM)).

Definition amqp_ssl_socket_set_key_engine (base : Z) (cert key : list Z) : T Z :=
  let* o := as_ssl_socket base in
  status_of (
    do* ssl_check (SSL_CTX_use_certificate_chain_file (ctx o) cert) in
    let* g := statics in
    let* pkey := on_sys (ENGINE_load_private_key (openssl_engine g) key) in
    match pkey with
    | None => throw AMQP_STATUS_SSL_ERROR
    | Some _ =>
        let* status := on_sys (SSL_CTX_use_PrivateKey (ctx o) pkey) in
        do* on_sys (EVP_PKEY_free pkey) in
        if negb (status =? 1) then throw AMQP_STATUS_SSL_ERROR else ret tt
    end).

(** [exit]: both are freed, whatever they are. *)
Definition free_key (buf rsa : handle) (status : Z) : T Z :=
  do* on_sys (BIO_vfree buf) in
  do* on_sys (RSA_free rsa) in
  ret status.

Definition amqp_ssl_socket_set_key_buffer (base : Z) (cert key : list Z) : T Z :=
  let* o := as_ssl_socket base in
  if INT_MAX <? zlen key then ret AMQP_STATUS_INVALID_PARAMETER
  else
    let* status := on_sys (SSL_CTX_use_certificate_chain_file (ctx o) cert) in
    if negb (status =? 1) then ret AMQP_STATUS_SSL_ERROR
    else
      let* buf := on_sys (BIO_new_mem_buf key) in
      match buf with
      | None => free_key buf None AMQP_STATUS_SSL_ERROR
      | Some _ =>
          let* rsa := on_sys (PEM_read_bio_RSAPrivateKey buf) in
          match rsa with
          | None => free_key buf None AMQP_STATUS_SSL_ERROR
          | Some _ =>
              let* status := on_sys (SSL_CTX_use_RSAPrivateKey (ctx o) rsa) in
              free_key buf rsa (if negb (status =? 1) then AMQP_STATUS_SSL_ERROR else AMQP_STATUS_OK)
          end
      end.

(** The callback OpenSSL calls for an encrypted key. *)
Definition password_cb : T Z := amqp_abort.

Definition amqp_ssl_socket_set_cert (base : Z) (cert : list Z) : T Z :=
  let* o := as_ssl_socket base in
  status_of (ssl_check (SSL_CTX_use_certificate_chain_file (ctx o) cert)).

Definition amqp_ssl_socket_set_key_passwd (base : Z) (passwd : list Z) : T unit :=
  let* o := as_ssl_socket base in
  on_sys (SSL_CTX_set_default_passwd_cb_userdata (ctx o) passwd).

Definition amqp_ssl_socket_set_verify_peer (base : Z) (v : bool) : T unit :=
  let* o := as_ssl_socket base in put_ssl_socket base (with_verify_peer v o).

Definition amqp_ssl_socket_set_verify_hostname (base : Z) (v : bool) : T unit :=
  let* o := as_ssl_socket base in put_ssl_socket base (with_verify_hostname v o).

Definition amqp_ssl_socket_set_verify (base : Z) (v : bool) : T unit :=
  do* amqp_ssl_socket_set_verify_peer base v in
  amqp_ssl_socket_set_verify_hostname base v.

(** The enumeration [amqp_tls_version_t]. *)
Definition AMQP_TLSv1 : Z := 1.
Definition AMQP_TLSv1_1 : Z := 2.
Definition AMQP_TLSv1_2 : Z := 3.
Definition AMQP_TLSv1_3 : Z := 4.
Definition AMQP_TLSvLATEST : Z := 0xFFFF.

Definition get_tls_version (ver : Z) : option Z :=
  if ver =? AMQP_TLSv1_2 then Some TLS1_2_VERSION
  else if (ver =? AMQP_TLSv1_3) || (ver =? AMQP_TLSvLATEST) then Some TLS1_3_VERSION
  else None.

Definition amqp_ssl_socket_set_ssl_versions (base vmin vmax : Z) : T Z :=
  let* o := as_ssl_socket base in
  if vmax <? vmin then ret AMQP_STATUS_INVALID_PARAMETER
  else
    match get_tls_version vmin, get_tls_version vmax with
    | Some min_ver, Some max_ver =>
        let* r := on_sys (SSL_CTX_set_min_proto_version (ctx o) min_ver) in
        if r =? 0 then ret AMQP_STATUS_INVALID_PARAMETER
        else
          let* r := on_sys (SSL_CTX_set_max_proto_version (ctx o) max_ver) in
          if r =? 0 then ret AMQP_STATUS_INVALID_PARAMETER else ret AMQP_STATUS_OK
    | _, _ => ret AMQP_STATUS_UNSUPPORTED
    end.

(** ** The library *)

Definition amqp_set_initialize_ssl_library (do_initialize : bool) : T unit := ret tt.
Definition amqp_initialize_ssl_library : T Z := ret AMQP_STATUS_OK.
Definition amqp_uninitialize_ssl_library : T Z := ret AMQP_STATUS_OK.

Definition set_engine (e : handle) : T unit :=
  let* g := statics in
  set_statics {| amqp_ssl_bio_initialized := amqp_ssl_bio_initialized g; amqp_bio_method := amqp_bio_method g;
                 openssl_bio_initialized := openssl_bio_initialized g;
                 openssl_connections := openssl_connections g; openssl_engine := e |}.

Definition amqp_set_ssl_engine (engine : option (list Z)) : T Z :=
  do* CHECK_SUCCESS pthread_mutex_lock in
  let* g := statics in
  do* match openssl_engine g with
      | Some _ => do* on_sys (ENGINE_free (openssl_engine g)) in set_engine None
      | None => ret tt
      end in
  let* status :=
    match engine with
    | None => ret AMQP_STATUS_OK
    | Some id =>
        do* on_sys ENGINE_load_builtin_engines in
        let* e := on_sys (ENGINE_by_id id) in
        do* set_engine e in
        match e with
        | None => ret AMQP_STATUS_SSL_SET_ENGINE_FAILED
        | Some _ =>
            let* r := on_sys (ENGINE_set_default e ENGINE_METHOD_ALL) in
            if r =? 0 then
              do* on_sys (ENGINE_free e) in
              do* set_engine None in
              ret AMQP_STATUS_SSL_SET_ENGINE_FAILED
            else ret AMQP_STATUS_OK
        end
    end in
  do* CHECK_SUCCESS pthread_mutex_unlock in
  ret status.

(** ** Creation *)

(** What [calloc] and the assignments after it leave. *)
Definition new_ssl_socket : amqp_ssl_socket_t :=
  {| klass := the_amqp_ssl_socket_class; ctx := None; sockfd := -1; ssl := None; verify_peer := true;
     verify_hostname := true; internal_error := 0 |}.

(** Everything that can fail between the allocation and [amqp_set_socket]; an error
    goes to [error]. *)
Definition prepare_ssl_socket (self : Z) : T unit :=
  let* status := initialize_ssl_and_increment_connections in
  if negb (status =? 0) then throw status
  else
    let* x := on_sys SSL_CTX_new in
    do* upd_ssl_socket self (with_ctx x) in
    match x with
    | None => throw AMQP_STATUS_SSL_ERROR
    | Some _ =>
        let* status := amqp_ssl_socket_set_ssl_versions self AMQP_TLSv1_2 AMQP_TLSvLATEST in
        if negb (status =? AMQP_STATUS_OK) then throw status
        else
          do* on_ctx self (fun x => SSL_CTX_set_mode x SSL_MODE_ENABLE_PARTIAL_WRITE) in
          on_ctx self (fun x => SSL_CTX_clear_mode x SSL_MODE_AUTO_RETRY)
    end.

Definition amqp_ssl_socket_new : C (cst (tls W)) (option Z) :=
  let* p := on_mem (c_calloc sizeof_amqp_ssl_socket_t) in
  match p with
  | None => ret None
  | Some p =>
      let self := p_block p in
      do* on_world (put_ssl_socket self new_ssl_socket) in
      let* r := try_ (on_world (prepare_ssl_socket self)) in
      match r with
      | inl _ => do* on_both (amqp_ssl_socket_delete (Some self)) in ret None
      | inr _ =>
          do* @amqp_set_socket _ amqp_ssl_socket_class (Some self) in
          ret (Some self)
      end
  end.
End Tls.
