(* ===== verification/Network.v ===== *)
(** * What a connection may rely on: the network

    The laws a socket class, [poll] and the clock have to satisfy, as the manual
    pages document them, and the loops that wait, send and receive over any
    network that satisfies them. *)

From S2P Require Import Prelude Machine Status Alloc Codec Table Framing Methods MethodDecode MethodEncode Properties Mem MemTheory Time Frame Connection ParserTheory Socket.

Definition would_block (r : Z) : Prop :=
  r = AMQP_PRIVATE_STATUS_SOCKET_NEEDREAD \/ r = AMQP_PRIVATE_STATUS_SOCKET_NEEDWRITE.

(** [n_sent] are the bytes the socket has accepted, [n_coming] those the peer
    will still deliver, [n_waits] bounds how often the socket will make the
    caller wait from now on, [n_socket] is the socket of the connection, [n_limit]
    the most a call moves.  In a
    healthy network the descriptor is open, the clock runs and nothing fails; what
    happens at the end of the stream is left open. *)
Class NetworkLaws (W : Type) {HC : Clock W} {HS : Sockets W} {HP : Poll W} : Type := {
  n_ok : W -> Prop;
  n_healthy : W -> Prop;
  n_sent : W -> list Z;
  n_coming : W -> list Z;
  n_waits : W -> nat;
  n_socket : Z;
  n_limit : Z;
  limit_law : INT32_MAX <= n_limit <= PTRDIFF_MAX;
  clock_law w : n_ok w ->
    wp clock_gettime (fun r w' =>
      n_ok w' /\ n_sent w' = n_sent w /\ n_coming w' = n_coming w /\ (n_waits w' <= n_waits w)%nat /\
      (n_healthy w -> n_healthy w' /\ exists sec nsec, r = Some (sec, nsec) /\
         0 <= sec /\ 0 <= nsec /\ 0 < sec * 1000000000 + nsec < UINT64_MAX))
      (fun _ _ => False) w;
  sockfd_law w : n_ok w ->
    wp (klass_get_sockfd n_socket) (fun fd w' =>
      n_ok w' /\ n_sent w' = n_sent w /\ n_coming w' = n_coming w /\ (n_waits w' <= n_waits w)%nat /\
      (n_healthy w -> n_healthy w' /\ n_waits w' = n_waits w /\ fd <> -1))
      (fun _ _ => False) w;
  close_law force w : n_ok w ->
    wp (klass_close n_socket force) (fun _ w' =>
      n_ok w' /\ n_sent w' = n_sent w /\ n_coming w' = n_coming w /\ (n_waits w' <= n_waits w)%nat)
      (fun _ _ => False) w;
  send_law data flags w : n_ok w -> data <> [] -> zlen data <= n_limit ->
    wp (klass_send n_socket data flags) (fun r w' =>
      n_ok w' /\ n_coming w' = n_coming w /\ (n_waits w' <= n_waits w)%nat /\ (n_healthy w -> n_healthy w') /\
      if 0 <? r then r <= zlen data /\ n_sent w' = n_sent w ++ take (Z.to_nat r) data
      else - 2 ^ 31 <= r < 0 /\ n_sent w' = n_sent w /\ (n_healthy w -> would_block r /\ (0 < n_waits w')%nat))
      (fun _ _ => False) w;
  recv_law n flags w : n_ok w -> 0 < n <= n_limit ->
    wp (klass_recv n_socket n flags) (fun '(r, data) w' =>
      n_ok w' /\ n_sent w' = n_sent w /\ (n_waits w' <= n_waits w)%nat /\ (n_healthy w -> n_healthy w') /\
      if 0 <? r then r <= n /\ zlen data = r /\ Forall is_byte data /\ n_coming w = data ++ n_coming w'
      else - 2 ^ 31 <= r < 0 /\ data = [] /\ n_coming w' = n_coming w /\
           (n_healthy w -> n_coming w <> [] -> would_block r /\ (0 < n_waits w')%nat))
      (fun _ _ => False) w;
  poll_law fd event ms w : n_ok w ->
    wp (os_poll fd event ms) (fun '(r, errno) w' =>
      n_ok w' /\ n_sent w' = n_sent w /\ n_coming w' = n_coming w /\ (n_waits w' <= n_waits w)%nat /\
      (0 < r \/ errno = EINTR -> (n_waits w' < n_waits w)%nat) /\ (r = 0 -> 0 <= ms) /\
      (n_healthy w -> n_healthy w' /\
         ((0 < n_waits w)%nat -> r < 0 -> errno = EINTR /\ (0 < n_waits w')%nat)))
      (fun _ _ => False) w
}.

Section Loops.
Context {W : Type} {HC : Clock W} {HS : Sockets W} {HP : Poll W} {HL : NetworkLaws W}.
Context (fuel : nat).

Abbreviation net s := (world (s : cst W)).

(** Only the world changes. *)
Definition same_conn (s s' : cst W) : Prop := conn s' = conn s /\ hp s' = hp s.

(** A step of the world that moves no data. *)
Record quiet (s s' : cst W) : Prop := {
  q_conn : same_conn s s';
  q_ok : n_ok (net s');
  q_sent : n_sent (net s') = n_sent (net s);
  q_coming : n_coming (net s') = n_coming (net s);
  q_waits : (n_waits (net s') <= n_waits (net s))%nat
}.

Lemma quiet_refl s : n_ok (net s) -> quiet s s.
Proof. intros H. by repeat split. Qed.

Lemma quiet_trans s1 s2 s3 : quiet s1 s2 -> quiet s2 s3 -> quiet s1 s3.
Proof.
  intros [[] ? ? ? ?] [[] ? ? ? ?]. repeat split; try done; try congruence. lia.
Qed.

Lemma wp_on_world {A} (m : C W A) (Q : A -> cst W -> Prop) E s :
  wp m (fun a w => Q a {| conn := conn s; hp := hp s; world := w |})
       (fun e w => E e {| conn := conn s; hp := hp s; world := w |}) (world s) ->
  wp (on_world m) Q E s.
Proof. unfold wp, on_world. by destruct (m (world s)). Qed.

(** ** The clock *)

Lemma wp_timestamp s :
  n_ok (net s) ->
  wp amqp_get_monotonic_timestamp (fun t s' => quiet s s' /\
    (n_healthy (net s) -> n_healthy (net s') /\ 0 < t < UINT64_MAX)) (fun _ _ => False) s.
Proof.
  intros Hok. unfold amqp_get_monotonic_timestamp. apply wp_bind. simpl. apply wp_on_world.
  wp_use clock_law; [done| |done]. intros r w' (Hok' & Hs & Hc & Hw & Hh).
  assert (Hq : quiet s {| conn := conn s; hp := hp s; world := w' |}) by (by repeat split).
  destruct r as [[sec nsec]|]; apply wp_ret; (split; [done|]); intros Hhe;
    destruct (Hh Hhe) as [Hh' (a & b & E & Ha & Hb & Hab)]; [|done].
  injection E as -> ->. split; [done|]. unfold UINT64_MAX, AMQP_NS_PER_S in *.
  rewrite (u64_small a), (u64_small b), (u64_small (a * _)), u64_small; lia.
Qed.

Lemma to_int_range z : - 2 ^ 31 <= to_int z < 2 ^ 31.
Proof.
  unfold to_int, to_signed, wrap. pose proof (Z.mod_pos_bound z (2 ^ 32) ltac:(lia)).
  case_match eqn:E; [apply Z.ltb_lt in E|apply Z.ltb_ge in E]; lia.
Qed.

Lemma wp_ms_until deadline s :
  n_ok (net s) ->
  wp (amqp_time_ms_until deadline) (fun ms s' => quiet s s' /\ - 2 ^ 31 <= ms /\
    (time_point_ns deadline = UINT64_MAX -> ms = -1 /\ s' = s) /\
    (n_healthy (net s) -> n_healthy (net s'))) (fun _ _ => False) s.
Proof.
  intros Hok. unfold amqp_time_ms_until. destruct (Z.eqb_spec (time_point_ns deadline) UINT64_MAX) as [->|Hne].
  { apply wp_ret. split_and!; [by apply quiet_refl|done|done|done]. }
  destruct (time_point_ns deadline =? 0).
  { apply wp_ret. split_and!; [by apply quiet_refl|done|done|done]. }
  apply wp_bind. wp_use wp_timestamp; [done| |done]. intros t s' [Hq Hh].
  destruct (t =? 0); [apply wp_ret; split_and!; [done|done|done|intros ?; by apply Hh]|].
  destruct (_ <=? t); apply wp_ret; (split_and!; [done|apply to_int_range || done|done|intros ?; by apply Hh]).
Qed.

(** ** Waiting *)

Definition infinite (t : amqp_time_t) : Prop := time_point_ns t = UINT64_MAX.

Lemma wp_poll fd event deadline s :
  n_ok (net s) -> event = AMQP_SF_POLLIN \/ event = AMQP_SF_POLLOUT -> (n_waits (net s) < fuel)%nat ->
  wp (amqp_poll fuel fd event deadline) (fun r s' => quiet s s' /\
    (r = AMQP_STATUS_OK -> (n_waits (net s') < n_waits (net s))%nat) /\ - 2 ^ 31 <= r <= 0 /\
    (n_healthy (net s) -> n_healthy (net s') /\
      (infinite deadline -> (0 < n_waits (net s))%nat -> r = AMQP_STATUS_OK)))
    (fun _ _ => False) s.
Proof.
  intros Hok Hev Hfuel. unfold amqp_poll.
  replace (_ || _) with true by (destruct Hev as [-> | ->]; done).
  eapply (wp_iter _ (fun _ s' => quiet s s' /\ (n_healthy (net s) -> n_healthy (net s') /\
      ((0 < n_waits (net s))%nat -> (0 < n_waits (net s'))%nat))) (fun _ s' => n_waits (net s')));
    [|split; [by apply quiet_refl|done]|done].
  intros _ s1 [Hq1 Hh1]. apply wp_bind. wp_use wp_ms_until; [apply Hq1| |done].
  intros ms s2 (Hq2 & Hmin & Hinf & Hh2). assert (Hq12 := quiet_trans _ _ _ Hq1 Hq2).
  assert (Hh12 : n_healthy (net s) -> n_healthy (net s2) /\
    (infinite deadline -> (0 < n_waits (net s))%nat -> (0 < n_waits (net s2))%nat)).
  { intros Hh. destruct (Hh1 Hh) as [Hhs1 Hw]. split; [by apply Hh2|].
    intros Hi Hw0. destruct (Hinf Hi) as [_ ->]. auto. }
  destruct (Z.ltb_spec ms (-1)) as [Hms|Hms].
  { apply wp_ret. split_and!; [done| |lia|lia|].
    - intros ->. unfold AMQP_STATUS_OK in Hms. lia.
    - intros Hh. destruct (Hh12 Hh) as [Hhs2 _]. split; [done|]. intros Hi. destruct (Hinf Hi). lia. }
  apply wp_bind, wp_on_world. wp_use poll_law; [apply Hq12| |done].
  intros [r errno] w' (Hok' & Hs' & Hc' & Hw' & Hlt & H0 & Hh').
  assert (Hq3 : quiet s2 {| conn := conn s2; hp := hp s2; world := w' |}) by (by repeat split).
  assert (Hq : quiet s {| conn := conn s2; hp := hp s2; world := w' |}) by (by eapply quiet_trans).
  pose proof (q_waits _ _ Hq12). pose proof (q_waits _ _ Hq2).
  destruct (Z.ltb_spec 0 r) as [Hr|Hr].
  { apply wp_ret. specialize (Hlt (or_introl Hr)). split_and!; [done| |done|done|].
    - intros _. simpl. lia.
    - intros Hh. destruct (Hh12 Hh) as [Hhs2 _]. by destruct (Hh' Hhs2). }
  destruct (Z.eqb_spec r 0) as [->|Hr0].
  { apply wp_ret. split_and!; [done|done|done|done|]. intros Hh. destruct (Hh12 Hh) as [Hhs2 _].
    split; [by apply Hh'|]. intros Hi. destruct (Hinf Hi) as [-> _]. specialize (H0 eq_refl). lia. }
  destruct (Z.eqb_spec errno EINTR) as [->|He]; apply wp_ret.
  - specialize (Hlt (or_intror eq_refl)). split; [|simpl; lia]. split; [done|].
    intros Hh. destruct (Hh12 Hh) as [Hhs2 _]. destruct (Hh' Hhs2) as [Hhw Hhe]. split; [done|].
    intros Hw. simpl. apply Hhe; [|lia]. lia.
  - split_and!; [done|done|done|done|]. intros Hh. destruct (Hh12 Hh) as [Hhs2 Hw2].
    destruct (Hh' Hhs2) as [Hhw Hhe]. split; [done|]. intros Hi Hw.
    destruct Hhe as [-> _]; [by apply Hw2|lia|done].
Qed.

Lemma wp_get_sockfd s :
  n_ok (net s) -> socket (conn s) = Some n_socket ->
  wp amqp_get_sockfd (fun fd s' => quiet s s' /\
    (n_healthy (net s) -> n_healthy (net s') /\ n_waits (net s') = n_waits (net s) /\ fd <> -1))
    (fun _ _ => False) s.
Proof.
  intros Hok Hsock. unfold amqp_get_sockfd. apply wp_bind, wp_the_conn. rewrite Hsock. simpl.
  apply wp_on_world. wp_use sockfd_law; [done| |done]. intros fd w' (? & ? & ? & ? & Hh).
  split; [by repeat split|done].
Qed.

(** Waiting after the socket has refused to make progress. *)
Lemma wp_do_poll res deadline s :
  n_ok (net s) -> socket (conn s) = Some n_socket -> - 2 ^ 31 <= res < 0 -> (n_waits (net s) < fuel)%nat ->
  wp (do_poll fuel res deadline) (fun r s' => quiet s s' /\
    (r = AMQP_STATUS_OK -> (n_waits (net s') < n_waits (net s))%nat) /\ - 2 ^ 31 <= r <= 0 /\
    (n_healthy (net s) -> n_healthy (net s') /\
      (would_block res -> infinite deadline -> (0 < n_waits (net s))%nat -> r = AMQP_STATUS_OK)))
    (fun _ _ => False) s.
Proof.
  intros Hok Hsock Hres Hfuel. unfold do_poll. apply wp_bind. wp_use wp_get_sockfd; [done|done| |done].
  intros fd s1 [Hq1 Hh1]. pose proof (q_waits _ _ Hq1) as Hw1.
  destruct (Z.eqb_spec fd (-1)) as [->|Hfd].
  { apply wp_ret. split_and!; [done|done|done|done|]. intros Hh. by destruct (Hh1 Hh) as (_ & _ & []). }
  assert (Hpoll : forall ev, ev = AMQP_SF_POLLIN \/ ev = AMQP_SF_POLLOUT ->
    wp (amqp_poll fuel fd ev deadline) (fun r s' => quiet s s' /\
    (r = AMQP_STATUS_OK -> (n_waits (net s') < n_waits (net s))%nat) /\ - 2 ^ 31 <= r <= 0 /\
    (n_healthy (net s) -> n_healthy (net s') /\
      (would_block res -> infinite deadline -> (0 < n_waits (net s))%nat -> r = AMQP_STATUS_OK)))
    (fun _ _ => False) s1).
  { intros ev Hev. wp_use wp_poll; [apply Hq1|done|lia| |done]. intros r s2 (Hq2 & Hok2 & Hr & Hh2).
    split_and!; [by eapply quiet_trans| |lia|lia|].
    - intros Hr0. specialize (Hok2 Hr0). lia.
    - intros Hh. destruct (Hh1 Hh) as (Hhs1 & Hws1 & _). destruct (Hh2 Hhs1) as [Hhs2 Hgo].
      split; [done|]. intros _ Hi Hw. apply Hgo; [done|lia]. }
  destruct (Z.eqb_spec res AMQP_PRIVATE_STATUS_SOCKET_NEEDREAD); [apply Hpoll; by left|].
  destruct (Z.eqb_spec res AMQP_PRIVATE_STATUS_SOCKET_NEEDWRITE); [apply Hpoll; by right|].
  apply wp_ret. split_and!; [done| |lia|lia|].
  - intros ->. unfold AMQP_STATUS_OK in Hres. lia.
  - intros Hh. destruct (Hh1 Hh) as (Hhs1 & Hws1 & _). split; [done|]. by intros [?|?].
Qed.

(** ** Sending *)

(** [k] bytes of [buf] have been sent between two states. *)
Record sent_upto (buf : list Z) (s : cst W) (k : Z) (s' : cst W) : Prop := {
  su_conn : same_conn s s';
  su_ok : n_ok (net s');
  su_range : 0 <= k <= zlen buf;
  su_sent : n_sent (net s') = n_sent (net s) ++ take (Z.to_nat k) buf;
  su_coming : n_coming (net s') = n_coming (net s);
  su_waits : (n_waits (net s') <= n_waits (net s))%nat;
  su_healthy : n_healthy (net s) -> n_healthy (net s')
}.

Lemma sent_quiet buf s k s1 s2 :
  sent_upto buf s k s1 -> quiet s1 s2 -> (n_healthy (net s1) -> n_healthy (net s2)) -> sent_upto buf s k s2.
Proof.
  intros [[] ? ? ? ? ? ?] [[] ? ? ? ?] Hh. repeat split; try done; try congruence; try lia. auto.
Qed.

Lemma take_sent (buf : list Z) k r :
  0 <= k -> 0 <= r ->
  take (Z.to_nat k) buf ++ take (Z.to_nat r) (drop (Z.to_nat k) buf) = take (Z.to_nat (k + r)) buf.
Proof.
  intros Hk Hr. rewrite Z2Nat.inj_add by lia.
  rewrite <- (take_drop (Z.to_nat k) buf) at 3.
  destruct (decide (Z.to_nat k <= length buf)%nat) as [Hle|Hgt].
  - rewrite take_app_ge by (rewrite length_take; lia). rewrite length_take, Nat.min_l by lia.
    by replace (Z.to_nat k + Z.to_nat r - Z.to_nat k)%nat with (Z.to_nat r) by lia.
  - rewrite drop_ge by lia. rewrite take_nil, !app_nil_r.
    by rewrite (take_ge (take _ _)) by (rewrite length_take; lia).
Qed.

Lemma wp_try_send buf deadline flags s :
  n_ok (net s) -> socket (conn s) = Some n_socket -> buf <> [] -> zlen buf <= n_limit ->
  (length buf + n_waits (net s) < fuel)%nat ->
  wp (amqp_try_send fuel buf deadline flags) (fun r s' => exists k, sent_upto buf s k s' /\
    ((r = k /\ (r = zlen buf \/ ~ infinite deadline \/ ~ n_healthy (net s))) \/
     (- 2 ^ 31 <= r < 0 /\ ~ (n_healthy (net s) /\ infinite deadline))))
    (fun _ _ => False) s.
Proof.
  intros Hok Hsock Hne Hmax Hfuel. unfold amqp_try_send.
  eapply (wp_iter _ (fun '(rest, n) s' => exists k, sent_upto buf s k s' /\ k < zlen buf /\
      rest = drop (Z.to_nat k) buf /\ n = zlen buf - k)
    (fun '(rest, _) s' => (length rest + n_waits (net s'))%nat)); [| |simpl; lia].
  2: { exists 0. rewrite drop_0. pose proof (zlen_nonneg buf).
       assert (0 < zlen buf) by (destruct buf; [done|unfold zlen; simpl; lia]).
       split_and!; [|done|done|lia]. repeat split; try done; try lia. by rewrite take_0, app_nil_r. }
  intros [rest n] s1 (k & Hs1 & Hk & -> & ->). pose proof (su_range _ _ _ _ Hs1).
  assert (Hl : zlen (drop (Z.to_nat k) buf) = zlen buf - k) by (unfold zlen in *; rewrite length_drop; lia).
  pose proof limit_law. rewrite size_t_small by (unfold PTRDIFF_MAX in *; lia). rewrite load_Some by lia. rewrite <- Hl, slice_full.
  apply wp_bind, wp_the_conn. rewrite (proj1 (su_conn _ _ _ _ Hs1)), Hsock. apply wp_bind. simpl.
  apply wp_on_world. wp_use send_law; [apply Hs1| |lia| |done].
  { intros E. rewrite E in Hl. change (zlen []) with 0 in Hl. lia. }
  intros r w' (Hok' & Hc & Hw & Hh & Hr). pose proof Hs1 as [[Hcn Hhp] ? ? Hsent Hcom Hwts Hhe].
  destruct (Z.ltb_spec 0 r) as [Hpos|Hneg].
  - destruct Hr as [Hrle Hsnt].
    assert (Hs2 : sent_upto buf s (k + r) {| conn := conn s1; hp := hp s1; world := w' |}).
    { repeat split; simpl; try done; try congruence; try lia; [|by auto].
      rewrite Hsnt, Hsent, <- app_assoc. by rewrite take_sent by lia. }
    destruct (Z.eqb_spec (zlen (drop (Z.to_nat k) buf) - r) 0) as [E|E]; apply wp_ret.
    + exists (k + r). split; [done|]. left. split; [lia|]. left. done.
    + split.
      * exists (k + r). split_and!; [done|lia| |lia]. rewrite drop_drop. f_equal. lia.
      * simpl. rewrite length_drop. unfold zlen in *. lia.
  - destruct Hr as (Hr & Hsnt & Hblk).
    set (s2 := {| conn := conn s1; hp := hp s1; world := w' |}).
    assert (Hs2 : sent_upto buf s k s2).
    { repeat split; simpl; try done; try congruence; try lia. by auto. }
    apply wp_bind. wp_use (wp_do_poll r deadline s2); [done|simpl; congruence|done|simpl; lia| |done].
    intros r2 s3 (Hq3 & Hw3 & Hr2 & Hh3). pose proof (q_waits _ _ Hq3).
    assert (Hs3 : sent_upto buf s k s3) by (eapply sent_quiet; [done|done|intros; by apply Hh3]).
    assert (Hstuck : r2 <> AMQP_STATUS_OK -> ~ (n_healthy (net s) /\ infinite deadline)).
    { intros Hn [Hhs Hi]. apply Hn. destruct (Hblk (Hhe Hhs)) as [Hwb Hw0].
      apply (Hh3 (Hh (Hhe Hhs))); done. }
    destruct (Z.eqb_spec r2 AMQP_STATUS_OK) as [->|Hn]; [|destruct (Z.eqb_spec r2 AMQP_STATUS_TIMEOUT) as [->|Hn2]];
      apply wp_ret.
    + split; [by exists k|]. specialize (Hw3 eq_refl). simpl in *. lia.
    + exists k. split; [done|]. left. split; [lia|]. right. specialize (Hstuck Hn).
      destruct (decide (time_point_ns deadline = UINT64_MAX)); [right|by left]. intros ?. by apply Hstuck.
    + exists k. split; [done|]. right. split; [unfold AMQP_STATUS_OK in Hn; lia|by apply Hstuck].
Qed.

(** ** Receiving *)

(** The socket buffer: a block of its own. *)
Record sock_buffer (s : cst W) (p : ptr) (buf : list Z) : Prop := {
  sb_ptr : hb_bytes (sock_inbound_buffer (conn s)) = Some p;
  sb_off : p_off p = 0;
  sb_block : h_blocks (hp s) !! p_block p = Some buf;
  sb_len : hb_len (sock_inbound_buffer (conn s)) = zlen buf;
  sb_size : 0 < zlen buf <= INT32_MAX
}.

(** [data] has been put at the start of the socket buffer. *)
Definition with_data (p : ptr) (buf data : list Z) (s s' : cst W) : Prop :=
  conn s' = set_next_recv amqp_time_infinite
              (set_sock_inbound (sock_inbound_buffer (conn s)) 0 (zlen data) (conn s)) /\
  hp s' = set_blocks (<[p_block p := overwrite 0 data buf]> (h_blocks (hp s))) (hp s).

Lemma heap_store_block p buf data h :
  h_blocks h !! p_block p = Some buf -> p_off p = 0 -> zlen data <= zlen buf ->
  heap_store p data h = Ret tt (set_blocks (<[p_block p := overwrite 0 data buf]> (h_blocks h)) h).
Proof.
  intros Hb Ho Hle. unfold heap_store. by rewrite Hb, Ho, store_Some by lia.
Qed.

Lemma store_nothing p buf h :
  h_blocks h !! p_block p = Some buf ->
  set_blocks (<[p_block p := overwrite 0 [] buf]> (h_blocks h)) h = h.
Proof.
  intros Hb. unfold overwrite, set_blocks. simpl. rewrite drop_0, insert_id by done. by destruct h.
Qed.

(** Without heartbeats the receive timer is off. *)
Lemma restart_recv_off (s : cst W) :
  heartbeat (conn s) = 0 ->
  restart_recv_timer s = Ret AMQP_STATUS_OK
    {| conn := set_next_recv amqp_time_infinite (conn s); hp := hp s; world := world s |}.
Proof.
  intros Hhb. unfold restart_recv_timer, bind, the_conn, amqp_heartbeat_recv. rewrite Hhb. done.
Qed.

Lemma restart_send_off (s : cst W) :
  heartbeat (conn s) = 0 ->
  restart_send_timer s = Ret AMQP_STATUS_OK
    {| conn := set_next_send amqp_time_infinite (conn s); hp := hp s; world := world s |}.
Proof.
  intros Hhb. unfold restart_send_timer, bind, the_conn, amqp_heartbeat_send. rewrite Hhb. done.
Qed.

Lemma to_int_neg z : - 2 ^ 31 <= z < 0 -> to_int z = z.
Proof.
  intros H. unfold to_int, to_signed, wrap.
  replace (z mod 2 ^ 32) with (z + 2 ^ 32) by (apply (Z.mod_unique _ _ (-1)); lia).
  case_match; lia.
Qed.

Lemma wp_recv_with_timeout p buf deadline s :
  n_ok (net s) -> socket (conn s) = Some n_socket -> heartbeat (conn s) = 0 -> sock_buffer s p buf ->
  (n_waits (net s) < fuel)%nat ->
  wp (recv_with_timeout fuel deadline) (fun r s' =>
    n_ok (net s') /\ n_sent (net s') = n_sent (net s) /\ (n_waits (net s') <= n_waits (net s))%nat /\
    if r =? AMQP_STATUS_OK then
      (n_healthy (net s) -> n_healthy (net s')) /\
      exists data, with_data p buf data s s' /\ data <> [] /\ zlen data <= zlen buf /\
        Forall is_byte data /\ n_coming (net s) = data ++ n_coming (net s')
    else same_conn s s' /\ n_coming (net s') = n_coming (net s) /\
         (infinite deadline -> n_healthy (net s) -> n_coming (net s) = []))
    (fun _ _ => False) s.
Proof.
  intros Hok Hsock Hhb Hbuf Hfuel. pose proof Hbuf as [Hp Ho Hb Hl Hz]. unfold recv_with_timeout.
  eapply (wp_iter _ (fun _ s' => quiet s s' /\ (n_healthy (net s) -> n_healthy (net s')))
    (fun _ s' => n_waits (net s'))); [|split; [by apply quiet_refl|done]|done].
  intros _ s1 [Hq1 Hh1]. pose proof Hq1 as [[Hcn Hhp] Hok1 Hse1 Hco1 Hwa1].
  apply wp_bind, wp_the_conn. rewrite Hcn, Hp, Hsock, Hl. apply wp_bind. simpl. apply wp_on_world.
  wp_use recv_law; [done|pose proof limit_law; lia| |done]. intros [r data] w' (Hok' & Hs' & Hw' & Hh' & Hr).
  assert (Hdl : zlen data <= zlen buf).
  { destruct (0 <? r); [lia|]. destruct Hr as (_ & -> & _). change (zlen []) with 0. lia. }
  apply wp_bind, wp_on_mem. simpl. rewrite Hhp.
  eapply wp_eq; [by apply heap_store_block|]. destruct (Z.ltb_spec 0 r) as [Hpos|Hneg].
  - destruct Hr as (Hrn & Hdz & Hby & Hcoming). rewrite (proj2 (Z.ltb_ge r 0)) by lia.
    apply wp_bind, wp_upd. apply wp_bind. eapply wp_eq; [apply restart_recv_off; simpl; congruence|].
    apply wp_ret. simpl. rewrite Hcn. split_and!; [done|congruence|lia|by auto|].
    exists data. subst r. split_and!; [done|by intros ->|done|done|congruence].
  - destruct Hr as ([Hmin Hr] & -> & Hco & Hblk). rewrite (proj2 (Z.ltb_lt r 0)) by lia.
    rewrite store_nothing, Hcn by done. set (s2 := {| conn := conn s; hp := hp s; world := w' |}).
    assert (Hq2 : quiet s s2) by (repeat split; simpl; try done; try congruence; lia).
    assert (Hh2 : n_healthy (net s) -> n_healthy (net s2)) by (simpl; auto).
    assert (Hstuck : ~ would_block r -> infinite deadline -> n_healthy (net s) -> n_coming (net s) = []).
    { intros Hn _ Hh. destruct (n_coming (net s)) eqn:E; [done|]. exfalso. apply Hn, Hblk; [by auto|congruence]. }
    apply wp_bind. wp_use (wp_get_sockfd s2); [done|done| |done]. intros fd s3 [Hq3 Hh3].
    assert (Hq := quiet_trans _ _ _ Hq2 Hq3).
    destruct (Z.eqb_spec fd (-1)) as [->|Hfd].
    { apply wp_ret. simpl. split_and!; [apply Hq..|]. intros _ Hh. by destruct (Hh3 (Hh2 Hh)) as (_ & _ & []). }
    destruct (_ || _) eqn:Eblk.
    + apply wp_bind. pose proof (q_waits _ _ Hq3).
      wp_use wp_poll; [apply Hq3|destruct (r =? _); auto|simpl in *; lia| |done].
      intros r2 s4 (Hq4 & Hlt & Hle & Hh4). assert (Hq' := quiet_trans _ _ _ Hq Hq4).
      destruct (Z.eqb_spec r2 AMQP_STATUS_OK) as [->|Hne]; apply wp_ret.
      * specialize (Hlt eq_refl). simpl in *. split; [split; [done|]|lia]. intros Hh.
        apply Hh4, Hh3. auto.
      * rewrite (proj2 (Z.eqb_neq _ _)) by done. split_and!; [apply Hq'..|]. intros Hi Hh.
        destruct (n_coming (net s)) eqn:E; [done|]. exfalso. apply Hne.
        destruct (Hh3 (Hh2 Hh)) as (Hhs3 & Hws3 & _). destruct (Hh4 Hhs3) as [_ Hgo].
        destruct (Hblk (Hh1 Hh)) as [_ Hw]; [congruence|]. apply Hgo; [done|]. rewrite Hws3. exact Hw.
    + apply wp_ret. apply orb_false_iff in Eblk as [E1 E2]. apply Z.eqb_neq in E1, E2.
      split_and!; [apply Hq..|].
      assert (Hnb : ~ would_block r) by (by intros [?|?]).
      rewrite to_int_neg by lia. rewrite (proj2 (Z.eqb_neq _ _)) by (unfold AMQP_STATUS_OK; lia).
      split_and!; [apply Hq|apply Hq|by apply Hstuck].
Qed.
End Loops.
