(* ===== verification/Scripted.v ===== *)
(** * A scripted network

    A network that satisfies the laws of [Network.v]: it makes the caller wait a
    given number of times, then moves at most [sc_chunk] bytes per call.  It
    serves as the concrete network of the examples. *)

From S2P Require Import Prelude Machine Status Alloc Codec Table Framing Methods MethodDecode MethodEncode Properties Mem MemTheory Time Frame Connection ParserTheory Socket Network.

Record script : Type := mk_script {
  sc_sent : list Z;
  sc_coming : list Z;
  sc_hiccups : nat;
  sc_chunk : Z
}.

#[export] Instance script_clock : Clock script := {| clock_gettime := ret (Some (5, 7)) |}.

Definition script_send (data : list Z) : C script Z := fun w =>
  match sc_hiccups w with
  | S _ => Ret AMQP_PRIVATE_STATUS_SOCKET_NEEDWRITE w
  | O => let n := Z.min (sc_chunk w) (zlen data) in
         Ret n {| sc_sent := sc_sent w ++ take (Z.to_nat n) data; sc_coming := sc_coming w;
                  sc_hiccups := 0; sc_chunk := sc_chunk w |}
  end.

Definition script_recv (len : Z) : C script (Z * list Z) := fun w =>
  match sc_hiccups w, sc_coming w with
  | S _, _ => Ret (AMQP_PRIVATE_STATUS_SOCKET_NEEDREAD, []) w
  | O, [] => Ret (AMQP_STATUS_CONNECTION_CLOSED, []) w
  | O, _ =>
      let n := Z.min (Z.min (sc_chunk w) len) (zlen (sc_coming w)) in
      Ret (n, take (Z.to_nat n) (sc_coming w))
        {| sc_sent := sc_sent w; sc_coming := drop (Z.to_nat n) (sc_coming w);
           sc_hiccups := 0; sc_chunk := sc_chunk w |}
  end.

#[export] Instance script_sockets : Sockets script := {|
  klass_send := fun _ data _ => script_send data;
  klass_recv := fun _ len _ => script_recv len;
  klass_open := fun _ _ _ _ => ret AMQP_STATUS_OK;
  klass_close := fun _ _ => ret AMQP_STATUS_OK;
  klass_get_sockfd := fun _ => ret 3;
  klass_delete := fun _ => ret tt
|}.

(** Every wait ends; when nothing is left to wait for, the descriptor is bad. *)
#[export] Instance script_poll : Poll script := {|
  os_poll := fun _ _ _ w =>
    match sc_hiccups w with
    | S n => Ret (1, 0) {| sc_sent := sc_sent w; sc_coming := sc_coming w; sc_hiccups := n;
                           sc_chunk := sc_chunk w |}
    | O => Ret (-1, 9) w
    end
|}.

Definition script_ok (w : script) : Prop := 0 < sc_chunk w /\ Forall is_byte (sc_coming w).

Lemma script_send_law data (flags : Z) w : script_ok w -> data <> [] -> zlen data <= PTRDIFF_MAX ->
  wp (script_send data) (fun r w' =>
    script_ok w' /\ sc_coming w' = sc_coming w /\ (sc_hiccups w' <= sc_hiccups w)%nat /\ (True -> True) /\
    if 0 <? r then r <= zlen data /\ sc_sent w' = sc_sent w ++ take (Z.to_nat r) data
    else - 2 ^ 31 <= r < 0 /\ sc_sent w' = sc_sent w /\ (True -> would_block r /\ (0 < sc_hiccups w')%nat))
    (fun _ _ => False) w.
Proof.
  intros [Hc Hb] Hne _. assert (0 < zlen data) by (destruct data; [done|unfold zlen; simpl; lia]).
  unfold wp, script_send. destruct (sc_hiccups w) as [|n] eqn:E.
  - rewrite (proj2 (Z.ltb_lt 0 _)) by lia. simpl. split_and!; try done; lia.
  - simpl. split_and!; try done; try lia. intros _. split; [by right|lia].
Qed.

Lemma script_recv_law n (flags : Z) w : script_ok w -> 0 < n ->
  wp (script_recv n) (fun '(r, data) w' =>
    script_ok w' /\ sc_sent w' = sc_sent w /\ (sc_hiccups w' <= sc_hiccups w)%nat /\ (True -> True) /\
    if 0 <? r then r <= n /\ zlen data = r /\ Forall is_byte data /\ sc_coming w = data ++ sc_coming w'
    else - 2 ^ 31 <= r < 0 /\ data = [] /\ sc_coming w' = sc_coming w /\
         (True -> sc_coming w <> [] -> would_block r /\ (0 < sc_hiccups w')%nat))
    (fun _ _ => False) w.
Proof.
  intros Hok Hn. pose proof Hok as [Hc Hb]. unfold wp, script_recv. destruct (sc_hiccups w) as [|k] eqn:E.
  - destruct (sc_coming w) as [|c l] eqn:El; [simpl; split_and!; try done; lia|]. rewrite <- El in *.
    assert (0 < zlen (sc_coming w)) by (rewrite El; unfold zlen; simpl; lia).
    rewrite (proj2 (Z.ltb_lt 0 _)) by lia. simpl. split_and!; try done; try lia.
    + split; [done|]. by apply Forall_drop.
    + unfold zlen in *. rewrite length_take. lia.
    + by apply Forall_take.
    + by rewrite take_drop.
  - simpl. split_and!; try done; try lia. intros _ _. split; [by left|lia].
Qed.

#[export] Instance script_laws : NetworkLaws script.
Proof.
  refine {| n_ok := script_ok; n_healthy := fun _ => True; n_sent := sc_sent; n_coming := sc_coming;
            n_waits := sc_hiccups; n_socket := 1; n_limit := PTRDIFF_MAX; send_law := script_send_law; recv_law := fun n flags w Hok Hn => script_recv_law n flags w Hok (proj1 Hn) |}.
  - done.
  - intros w Hw. unfold wp. simpl. split_and!; try done. intros _. split; [done|]. by exists 5, 7.
  - intros w Hw. unfold wp. simpl. by split_and!.
  - intros force w Hw. unfold wp. simpl. by split_and!.
  - intros fd ev ms w [Hc Hb]. unfold wp. simpl. destruct (sc_hiccups w) as [|n] eqn:E; simpl.
    + split_and!; try done; try lia; first [by intros [?|?]|intros _; split; [done|lia]].
    + split_and!; try done; try lia; intros _; split; done || lia.
Defined.
