(* ===== verification/TcpTheorems.v ===== *)
(** * Theorems about TCP sockets

    Opening a connection leaves no descriptor behind; and over a system whose
    calls behave as their manual pages say, the TCP socket class keeps the
    contract of [Network.v], so that everything proved there about connections
    holds over TCP. *)

From S2P Require Import Prelude Machine Status Alloc Codec Table Framing Methods MethodDecode MethodEncode Properties Mem MemTheory Time Frame Connection ParserTheory Socket TcpSocket Network Scripted PoolTheorems.

(** ** Descriptors *)

(** [d_open] are the open descriptors; [d_waits] bounds how often a wait will be
    interrupted; [d_rest] is what none of these calls touches.  Name resolution that
    succeeds gives at least one address. *)
Class DescriptorLaws (W : Type) `{Os W, Clock W, Poll W} : Type := {
  d_open : W -> gset Z;
  d_waits : W -> nat;
  d_others : Type;
  d_rest : W -> d_others;
  d_same (w w' : W) : Prop := d_open w' = d_open w /\ (d_waits w' <= d_waits w)%nat /\ d_rest w' = d_rest w;
  d_socket a b c w : wp (os_socket a b c) (fun fd w' =>
    (d_waits w' <= d_waits w)%nat /\ d_rest w' = d_rest w /\
    (fd = -1 /\ d_open w' = d_open w \/
     0 <= fd /\ (fd ∉ d_open w) /\ d_open w' = {[fd]} ∪ d_open w)) (fun _ _ => False) w;
  d_close fd w : wp (os_close fd) (fun _ w' =>
    d_open w' = d_open w ∖ {[fd]} /\ (d_waits w' <= d_waits w)%nat /\ d_rest w' = d_rest w) (fun _ _ => False) w;
  d_fcntl fd cmd arg w : wp (os_fcntl fd cmd arg) (fun _ w' => d_same w w') (fun _ _ => False) w;
  d_setsockopt fd level name v w : wp (os_setsockopt fd level name v) (fun _ w' => d_same w w') (fun _ _ => False) w;
  d_getsockopt fd level name w : wp (os_getsockopt fd level name) (fun _ w' => d_same w w') (fun _ _ => False) w;
  d_connect fd a w : wp (os_connect fd a) (fun _ w' => d_same w w') (fun _ _ => False) w;
  d_getaddrinfo host port h w : wp (os_getaddrinfo host port h) (fun r w' =>
    d_same w w' /\ (r.1 = 0 -> r.2 <> [])) (fun _ _ => False) w;
  d_clock w : wp clock_gettime (fun _ w' => d_same w w') (fun _ _ => False) w;
  d_poll fd event ms w : wp (os_poll fd event ms) (fun '(r, errno) w' =>
    d_same w w' /\
    (r < 0 -> errno = EINTR -> (d_waits w' < d_waits w)%nat)) (fun _ _ => False) w
}.

Section Descriptors.
Context {W : Type} {HO : Os W} {HC : Clock W} {HP : Poll W} {HL : DescriptorLaws W}.
Context (fuel : nat).

Lemma d_same_refl w : d_same w w.
Proof. done. Qed.
Lemma d_same_trans w1 w2 w3 : d_same w1 w2 -> d_same w2 w3 -> d_same w1 w3.
Proof. intros (? & ? & ?) (? & ? & ?). split_and!; [congruence|lia|congruence]. Qed.

(** [m] opens and closes nothing; when it fails, the status is not to be confused
    with a descriptor or the -1 of the system. *)
Definition tidy {A} (m : C W A) : Prop := forall w, (d_waits w < fuel)%nat ->
  wp m (fun _ w' => d_same w w') (fun e w' => d_same w w' /\ e < -1) w.

Lemma tidy_ret {A} (a : A) : tidy (ret a).
Proof. intros w _. apply wp_ret, d_same_refl. Qed.

Lemma tidy_throw {A} e : e < -1 -> tidy (A := A) (throw e).
Proof. intros He w _. apply wp_throw. split; [apply d_same_refl|done]. Qed.

Lemma tidy_bind {A B} (m : C W A) (k : A -> C W B) : tidy m -> (forall a, tidy (k a)) -> tidy (bind m k).
Proof.
  intros Hm Hk w Hw. apply wp_bind. wp_use Hm; [done| |done]. intros a w1 Hw1.
  wp_use Hk; [destruct Hw1; lia| |].
  - intros b w2 Hw2. by eapply d_same_trans.
  - intros e w2 [Hw2 He]. split; [by eapply d_same_trans|done].
Qed.

Lemma tidy_law {A} (m : C W A) : (forall w, wp m (fun _ w' => d_same w w') (fun _ _ => False) w) -> tidy m.
Proof. intros Hm w _. wp_use Hm; [done|by intros ? ? []]. Qed.

(** Waiting returns a status that is not positive. *)
Lemma wp_poll_tidy fd event deadline w :
  event = AMQP_SF_POLLIN \/ event = AMQP_SF_POLLOUT -> (d_waits w < fuel)%nat ->
  wp (amqp_poll fuel fd event deadline) (fun r w' => d_same w w' /\ (r = 0 \/ r < -1)) (fun _ _ => False) w.
Proof.
  intros Hev Hfuel. unfold amqp_poll.
  replace (_ || _) with true by (destruct Hev as [-> | ->]; done).
  eapply (wp_iter _ (fun _ w' => d_same w w') (fun _ w' => d_waits w')); [|apply d_same_refl|done].
  intros _ w1 Hw1. apply wp_bind.
  assert (Hms : wp (amqp_time_ms_until deadline) (fun _ w' => d_same w1 w') (fun _ _ => False) w1).
  { unfold amqp_time_ms_until. destruct (_ =? _); [apply wp_ret, d_same_refl|].
    destruct (_ =? _); [apply wp_ret, d_same_refl|]. apply wp_bind. unfold amqp_get_monotonic_timestamp.
    apply wp_bind. wp_use d_clock; [|done]. intros [[sec nsec]|] w2 Hw2; apply wp_ret.
    - destruct (_ =? _); [by apply wp_ret|]. destruct (_ <=? _); by apply wp_ret.
    - by apply wp_ret. }
  wp_use Hms; [|done]. intros ms w2 Hw2. assert (Hw12 := d_same_trans _ _ _ Hw1 Hw2).
  destruct (Z.ltb_spec ms (-1)); [apply wp_ret; split; [done|by right]|].
  apply wp_bind. wp_use d_poll; [|done]. intros [r errno] w3 (Hs3 & Hlt).
  assert (Hw3 : d_same w w3) by (eapply d_same_trans; [exact Hw12|done]).
  destruct (Z.ltb_spec 0 r); [apply wp_ret; split; [done|by left]|].
  destruct (Z.eqb_spec r 0); [apply wp_ret; split; [done|by right]|].
  destruct (Z.eqb_spec errno EINTR) as [->|]; apply wp_ret; [|split; [done|by right]].
  split; [done|]. destruct Hw2 as (_ & Hle2 & _). specialize (Hlt ltac:(lia) eq_refl). lia.
Qed.

Lemma tidy_add_flag fd get set bit : tidy (add_flag fd get set bit).
Proof.
  apply tidy_bind; [apply tidy_law; intros; apply d_fcntl|]. intros flags. destruct (flags =? -1); [by apply tidy_throw|].
  apply tidy_bind; [apply tidy_law; intros; apply d_fcntl|]. intros r.
  destruct (r =? -1); [by apply tidy_throw|apply tidy_ret].
Qed.

Lemma tidy_set_option fd level name : tidy (set_option fd level name).
Proof.
  apply tidy_bind; [apply tidy_law; intros; apply d_setsockopt|]. intros r.
  destruct (negb _); [by apply tidy_throw|apply tidy_ret].
Qed.

Lemma tidy_prepare fd addr deadline : tidy (prepare_socket fuel fd addr deadline).
Proof.
  unfold prepare_socket. do 2 (apply tidy_bind; [apply tidy_add_flag|intros _]).
  do 2 (apply tidy_bind; [apply tidy_set_option|intros _]).
  apply tidy_bind; [apply tidy_law; intros; apply d_connect|]. intros [r errno].
  destruct (r =? 0); [apply tidy_ret|]. destruct (negb _); [by apply tidy_throw|].
  intros w Hw. apply wp_bind. wp_use wp_poll_tidy; [by right|done| |done]. intros e w1 [Hw1 He].
  destruct (Z.eqb_spec e AMQP_STATUS_OK) as [->|Hne]; simpl.
  - apply wp_bind. wp_use d_getsockopt; [|done]. intros [r2 result] w2 Hw2.
    destruct (_ || _); [apply wp_throw; split; [|done]|apply wp_ret]; by eapply d_same_trans.
  - apply wp_throw. split; [done|]. by destruct He.
Qed.

(** A descriptor that is returned is new and open; nothing else changes. *)
Definition opens (w : W) (r : Z) (w' : W) : Prop :=
  (d_waits w' <= d_waits w)%nat /\ d_rest w' = d_rest w /\
  (0 <= r /\ (r ∉ d_open w) /\ d_open w' = {[r]} ∪ d_open w \/ r < -1 /\ d_open w' = d_open w).

Lemma wp_connect_socket addr deadline w :
  (d_waits w < fuel)%nat -> wp (connect_socket fuel addr deadline) (opens w) (fun _ _ => False) w.
Proof.
  intros Hw. unfold connect_socket. apply wp_bind. wp_use d_socket; [|done].
  intros fd w1 (Hle & Hre & [[-> Ho]|(Hfd & Hnew & Ho)]); [apply wp_ret; split_and!; [done|done|by right]|].
  rewrite (proj2 (Z.eqb_neq _ _)) by lia. apply wp_bind, wp_try. wp_use tidy_prepare; [lia| |].
  - intros [] w2 (Ho2 & Hle2 & Hre2). apply wp_ret. split_and!; [lia|congruence|left]. split_and!; [done|done|congruence].
  - intros e w2 [(Ho2 & Hle2 & Hre2) He]. apply wp_bind. wp_use d_close; [|done]. intros _ w3 (Ho3 & Hle3 & Hre3).
    apply wp_ret. split_and!; [lia|congruence|right]. split; [done|]. rewrite Ho3, Ho2, Ho. apply set_eq. intros x.
    rewrite elem_of_difference, elem_of_union, !elem_of_singleton. split; [by intros [[->|?] ?]|].
    intros Hx. split; [by right|]. by intros ->.
Qed.

Lemma wp_connect_any addresses deadline : forall w fd,
  (d_waits w < fuel)%nat -> fd < 0 ->
  wp (connect_any fuel addresses deadline fd 0) (fun '(fd', e) w' =>
    e = 0 /\ 0 <= fd' /\ opens w fd' w' \/ d_same w w' /\ fd' < 0 /\ (e = 0 \/ e < -1) /\ (fd' = -1 -> fd = -1 /\ addresses = []))
    (fun _ _ => False) w.
Proof.
  induction addresses as [|addr l IH]; intros w fd Hw Hfd; simpl.
  - apply wp_ret. right. split_and!; [apply d_same_refl|done|by left|done].
  - apply wp_bind. wp_use wp_connect_socket; [done| |done]. intros fd1 w1 (Hle & Hre & Hop).
    destruct (Z.leb_spec 0 fd1) as [Hpos|Hneg]; [apply wp_ret; left; by split_and!|].
    destruct Hop as [[? _]|[Hlt Ho]]; [lia|].
    destruct (Z.eqb_spec fd1 AMQP_STATUS_TIMEOUT) as [->|Hne].
    { apply wp_ret. right. split_and!; [by split|done|by right|done]. }
    wp_use IH; [lia|lia| |done]. intros [fd2 e] w2 [(He & H2 & Hle2 & Hre2 & Hop2)|(Hsame & H2 & He & H1)].
    + left. rewrite Ho in Hop2. split_and!; [done|done|]. split_and!; [lia|congruence|done].
    + right. split_and!; [eapply d_same_trans; [by split|exact Hsame]|done|done|]. intros ->. destruct (H1 eq_refl). lia.
Qed.

(** A new descriptor, or a status and everything as before. *)
Lemma wp_open_socket hostname port deadline w :
  (d_waits w < fuel)%nat ->
  wp (amqp_open_socket_inner fuel hostname port deadline) (fun r w' => (d_waits w' <= d_waits w)%nat /\
    d_rest w' = d_rest w /\
    (0 <= r /\ (r ∉ d_open w) /\ d_open w' = {[r]} ∪ d_open w \/ r < -1 /\ d_open w' = d_open w)) (fun _ _ => False) w.
Proof.
  intros Hw. unfold amqp_open_socket_inner. apply wp_bind. wp_use d_getaddrinfo; [|done].
  intros [e l] w1 [(Ho & Hle & Hre) Hne]. simpl in Hne. destruct (Z.eqb_spec e 0) as [->|He]; simpl.
  2: { apply wp_ret. split_and!; [done|done|]. right. by split. }
  apply wp_bind. wp_use wp_connect_any; [lia|lia| |done].
  intros [fd e] w2 [(-> & Hfd & Hle2 & Hre2 & Hop)|((Ho2 & Hle2 & Hre2) & Hfd & He & H1)].
  - simpl. rewrite (proj2 (Z.eqb_neq _ _)) by lia. apply wp_ret. rewrite Ho in Hop.
    split_and!; [lia|congruence|]. destruct Hop; [by left|lia].
  - assert (Hd : (d_waits w2 <= d_waits w)%nat /\ d_rest w2 = d_rest w) by (split; [lia|congruence]).
    destruct Hd, He as [->|He].
    + simpl. destruct (Z.eqb_spec fd (-1)) as [->|]; [by destruct (Hne eq_refl), (H1 eq_refl)|].
      apply wp_ret. split_and!; [done|done|]. right. split; [lia|congruence].
    + rewrite (proj2 (Z.eqb_neq _ _)) by (unfold AMQP_STATUS_OK; lia). apply wp_ret.
      split_and!; [done|done|]. right. split; [lia|congruence].
Qed.

(** C28: opening a connection leaks no descriptor.  [amqp_open_socket_inner] ends
    with a new open descriptor or with a negative status; in the second case every
    descriptor it has opened on the way, one for each address it has tried, is
    closed again. *)
Theorem open_socket_no_leak hostname port deadline w :
  (d_waits w < fuel)%nat ->
  wp (amqp_open_socket_inner fuel hostname port deadline) (fun r w' =>
    0 <= r /\ (r ∉ d_open w) /\ d_open w' = {[r]} ∪ d_open w \/ r < 0 /\ d_open w' = d_open w) (fun _ _ => False) w.
Proof.
  intros Hw. wp_use wp_open_socket; [done| |done]. intros r w' (_ & _ & [Hr|[Hr Ho]]); [by left|].
  right. split; [lia|done].
Qed.
End Descriptors.

(** ** Streams *)

(** What the manual pages promise about one connected stream socket, the
    descriptor [o_fd]: a call moves data or fails with -1 and [errno].  In a
    healthy system only interruptions and full or empty buffers make it fail, and
    [o_waits] bounds how often. *)
Class StreamLaws (W : Type) `{Os W, Clock W, Poll W} : Type := {
  o_fd : Z;
  o_ok : W -> Prop;
  o_healthy : W -> Prop;
  o_sent : W -> list Z;
  o_coming : W -> list Z;
  o_waits : W -> nat;
  o_fd_valid : o_fd <> -1;
  o_clock w : o_ok w ->
    wp clock_gettime (fun r w' =>
      o_ok w' /\ o_sent w' = o_sent w /\ o_coming w' = o_coming w /\ (o_waits w' <= o_waits w)%nat /\
      (o_healthy w -> o_healthy w' /\ exists sec nsec, r = Some (sec, nsec) /\
         0 <= sec /\ 0 <= nsec /\ 0 < sec * 1000000000 + nsec < UINT64_MAX))
      (fun _ _ => False) w;
  o_close fd w : o_ok w ->
    wp (os_close fd) (fun _ w' =>
      o_ok w' /\ o_sent w' = o_sent w /\ o_coming w' = o_coming w /\ (o_waits w' <= o_waits w)%nat)
      (fun _ _ => False) w;
  o_send data flags w : o_ok w -> data <> [] ->
    wp (os_send o_fd data flags) (fun '(r, errno) w' =>
      o_ok w' /\ o_coming w' = o_coming w /\ (o_waits w' <= o_waits w)%nat /\ (o_healthy w -> o_healthy w') /\
      (0 < r <= zlen data /\ o_sent w' = o_sent w ++ take (Z.to_nat r) data \/
       r = -1 /\ o_sent w' = o_sent w /\ (errno = EINTR -> (o_waits w' < o_waits w)%nat) /\
       (o_healthy w -> errno = EINTR \/ errno = EAGAIN /\ (0 < o_waits w')%nat)))
      (fun _ _ => False) w;
  o_recv n flags w : o_ok w -> 0 < n ->
    wp (os_recv o_fd n flags) (fun '(r, data, errno) w' =>
      o_ok w' /\ o_sent w' = o_sent w /\ (o_waits w' <= o_waits w)%nat /\ (o_healthy w -> o_healthy w') /\
      (0 < r <= n /\ zlen data = r /\ Forall is_byte data /\ o_coming w = data ++ o_coming w' \/
       r = 0 /\ data = [] /\ o_coming w' = o_coming w /\ (o_healthy w -> o_coming w = []) \/
       r = -1 /\ data = [] /\ o_coming w' = o_coming w /\ (errno = EINTR -> (o_waits w' < o_waits w)%nat) /\
       (o_healthy w -> o_coming w <> [] -> errno = EINTR \/ errno = EAGAIN /\ (0 < o_waits w')%nat)))
      (fun _ _ => False) w;
  o_poll fd event ms w : o_ok w ->
    wp (os_poll fd event ms) (fun '(r, errno) w' =>
      o_ok w' /\ o_sent w' = o_sent w /\ o_coming w' = o_coming w /\ (o_waits w' <= o_waits w)%nat /\
      (0 < r \/ errno = EINTR -> (o_waits w' < o_waits w)%nat) /\ (r = 0 -> 0 <= ms) /\
      (o_healthy w -> o_healthy w' /\
         ((0 < o_waits w)%nat -> r < 0 -> errno = EINTR /\ (0 < o_waits w')%nat)))
      (fun _ _ => False) w
}.

Section Streams.
Context {W : Type} {HO : Os W} {HC : Clock W} {HP : Poll W} {HL : StreamLaws W}.
Context (fuel : nat) (self : Z).

(** The object [self] is a socket for [o_fd], or a closed one. *)
Definition tcp_ok (w : tcp W) : Prop :=
  o_ok (tc_os w) /\ (o_waits (tc_os w) < fuel)%nat /\
  exists o, tc_sockets w !! self = Some o /\ (sockfd o = o_fd \/ sockfd o = -1).

Definition tcp_healthy (w : tcp W) : Prop :=
  o_healthy (tc_os w) /\ exists o, tc_sockets w !! self = Some o /\ sockfd o = o_fd.

Lemma wp_on_os {A} (m : C W A) (Q : A -> tcp W -> Prop) E w :
  wp m (fun a o => Q a {| tc_os := o; tc_sockets := tc_sockets w |})
       (fun e o => E e {| tc_os := o; tc_sockets := tc_sockets w |}) (tc_os w) ->
  wp (on_os m) Q E w.
Proof. unfold wp, on_os. by destruct (m (tc_os w)). Qed.

Lemma wp_the_socket o (Q : amqp_tcp_socket_t -> tcp W -> Prop) E w :
  tc_sockets w !! self = Some o -> Q o w -> wp (the_socket self) Q E w.
Proof. intros Ho HQ. unfold wp, the_socket. by rewrite Ho. Qed.

(** Writing [internal_error] changes nothing the laws speak of. *)
Lemma wp_set_internal_error o e (Q : unit -> tcp W -> Prop) E w :
  tc_sockets w !! self = Some o ->
  Q tt {| tc_os := tc_os w; tc_sockets := <[self := {| sockfd := sockfd o; internal_error := e |}]> (tc_sockets w) |} ->
  wp (set_internal_error self e) Q E w.
Proof. intros Ho HQ. apply wp_bind. by eapply wp_the_socket. Qed.

Lemma tcp_ok_same o w os e :
  tcp_ok w -> tc_sockets w !! self = Some o -> o_ok os -> (o_waits os <= o_waits (tc_os w))%nat ->
  tcp_ok {| tc_os := os; tc_sockets := <[self := {| sockfd := sockfd o; internal_error := e |}]> (tc_sockets w) |}.
Proof.
  intros (_ & Hf & o' & Ho' & Hfd) Ho Hok Hle. simplify_eq. split; [done|]. split; [simpl; lia|].
  eexists. simpl. rewrite lookup_insert_eq. by split.
Qed.

(** [self] is open for [o_fd] in both states and the system of the second is [os]. *)
Definition moved (w : tcp W) (os : W) (w' : tcp W) : Prop :=
  tc_os w' = os /\ tcp_ok w' /\ (o_healthy os -> tcp_healthy w') /\
  exists o, tc_sockets w' !! self = Some o /\ sockfd o = o_fd.

Lemma moved_step o w os e :
  tcp_ok w -> tc_sockets w !! self = Some o -> sockfd o = o_fd -> o_ok os ->
  (o_waits os <= o_waits (tc_os w))%nat ->
  moved w os {| tc_os := os; tc_sockets := <[self := {| sockfd := sockfd o; internal_error := e |}]> (tc_sockets w) |}.
Proof.
  intros Hok Ho Hfd Hos Hle. split; [done|]. split; [by apply tcp_ok_same|]. split.
  - intros Hh. split; [done|]. eexists. simpl. rewrite lookup_insert_eq. by split.
  - eexists. simpl. rewrite lookup_insert_eq. by split.
Qed.

Lemma moved_quiet o w os :
  tcp_ok w -> tc_sockets w !! self = Some o -> sockfd o = o_fd -> o_ok os ->
  (o_waits os <= o_waits (tc_os w))%nat -> moved w os {| tc_os := os; tc_sockets := tc_sockets w |}.
Proof.
  intros (_ & Hf & _) Ho Hfd Hos Hle. split; [done|]. split; [split; [done|split; [simpl; lia|]]|split].
  - exists o. split; [done|by left].
  - intros Hh. split; [done|]. by exists o.
  - by exists o.
Qed.

(** Between two attempts. *)
Definition poised (w w1 : tcp W) : Prop :=
  tcp_ok w1 /\ (exists o, tc_sockets w1 !! self = Some o /\ sockfd o = o_fd) /\
  o_sent (tc_os w1) = o_sent (tc_os w) /\ o_coming (tc_os w1) = o_coming (tc_os w) /\
  (o_waits (tc_os w1) <= o_waits (tc_os w))%nat /\ (tcp_healthy w -> tcp_healthy w1).

Lemma tcp_send_contract data flags w : tcp_ok w -> data <> [] -> zlen data <= PTRDIFF_MAX ->
  wp (amqp_tcp_socket_send fuel self data flags) (fun r w' =>
    tcp_ok w' /\ o_coming (tc_os w') = o_coming (tc_os w) /\ (o_waits (tc_os w') <= o_waits (tc_os w))%nat /\
    (tcp_healthy w -> tcp_healthy w') /\
    if 0 <? r then r <= zlen data /\ o_sent (tc_os w') = o_sent (tc_os w) ++ take (Z.to_nat r) data
    else - 2 ^ 31 <= r < 0 /\ o_sent (tc_os w') = o_sent (tc_os w) /\
         (tcp_healthy w -> would_block r /\ (0 < o_waits (tc_os w'))%nat)) (fun _ _ => False) w.
Proof.
  intros Hok Hne _. pose proof Hok as (Hos & Hf & o & Ho & Hfd). unfold amqp_tcp_socket_send.
  apply wp_bind. eapply wp_the_socket; [exact Ho|]. destruct (Z.eqb_spec (sockfd o) (-1)) as [E|E].
  { apply wp_ret. change (0 <? AMQP_STATUS_SOCKET_CLOSED) with false. cbv iota. split_and!; try done.
    intros (_ & o' & Ho' & Hfd'). destruct o_fd_valid. congruence. }
  destruct Hfd as [Hfd|]; [|done]. rewrite Hfd. clear E.
  eapply (wp_iter _ (fun _ => poised w) (fun _ w1 => o_waits (tc_os w1))); [|by split_and!; [|exists o| | | |]|done].
  intros _ w1 (Hok1 & (o1 & Ho1 & Hfd1) & Hs1 & Hc1 & Hw1 & Hh1). apply wp_bind, wp_on_os.
  wp_use o_send; [apply Hok1|done| |done]. intros [r errno] os (Hos2 & Hc2 & Hw2 & Hh2 & Hr).
  assert (Hmv : forall e, moved w1 os {| tc_os := os; tc_sockets := <[self := {| sockfd := sockfd o1; internal_error := e |}]> (tc_sockets w1) |}).
  { intros e. by apply moved_step. }
  assert (Hheal : tcp_healthy w -> o_healthy os) by (intros Hh; apply Hh2, Hh1, Hh).
  destruct Hr as [[Hr Hsent]|(-> & Hsent & Hintr & Hhe)].
  - rewrite (proj2 (Z.ltb_ge r 0)) by lia. apply wp_bind. eapply wp_set_internal_error; [exact Ho1|]. apply wp_ret.
    destruct (Hmv 0) as (_ & Hok3 & Hh3 & _). rewrite (proj2 (Z.ltb_lt 0 r)) by lia. simpl.
    split_and!; [done|congruence|lia|by auto|lia|congruence].
  - apply wp_bind. eapply wp_set_internal_error; [exact Ho1|]. destruct (Hmv errno) as (_ & Hok3 & Hh3 & Ho3).
    unfold socket_failure. destruct (Z.eqb_spec errno EINTR) as [->|Hne2]; [|destruct (_ || _) eqn:E]; apply wp_ret; cbn [tc_os tc_sockets].
    + specialize (Hintr eq_refl). split; [unfold poised; cbn [tc_os]|lia]. split_and!; [done|done|congruence|congruence|lia|by auto].
    + change (0 <? AMQP_PRIVATE_STATUS_SOCKET_NEEDWRITE) with false. cbv iota.
      split_and!; [done|congruence|lia|by auto|done|done|congruence|]. intros Hh. split; [by right|].
      destruct (Hhe (proj1 (Hh1 Hh))) as [?|[_ ?]]; [done|lia].
    + change (0 <? AMQP_STATUS_SOCKET_ERROR) with false. cbv iota.
      split_and!; [done|congruence|lia|by auto|done|done|congruence|]. intros Hh. exfalso.
      destruct (Hhe (proj1 (Hh1 Hh))) as [?|[-> ?]]; done.
Qed.

Lemma tcp_recv_contract n flags w : tcp_ok w -> 0 < n <= PTRDIFF_MAX ->
  wp (amqp_tcp_socket_recv fuel self n flags) (fun '(r, data) w' =>
    tcp_ok w' /\ o_sent (tc_os w') = o_sent (tc_os w) /\ (o_waits (tc_os w') <= o_waits (tc_os w))%nat /\
    (tcp_healthy w -> tcp_healthy w') /\
    if 0 <? r then r <= n /\ zlen data = r /\ Forall is_byte data /\
      o_coming (tc_os w) = data ++ o_coming (tc_os w')
    else - 2 ^ 31 <= r < 0 /\ data = [] /\ o_coming (tc_os w') = o_coming (tc_os w) /\
         (tcp_healthy w -> o_coming (tc_os w) <> [] -> would_block r /\ (0 < o_waits (tc_os w'))%nat))
    (fun _ _ => False) w.
Proof.
  intros Hok [Hn _]. pose proof Hok as (Hos & Hf & o & Ho & Hfd). unfold amqp_tcp_socket_recv.
  apply wp_bind. eapply wp_the_socket; [exact Ho|]. destruct (Z.eqb_spec (sockfd o) (-1)) as [E|E].
  { apply wp_ret. change (0 <? AMQP_STATUS_SOCKET_CLOSED) with false. cbv iota. split_and!; try done.
    intros (_ & o' & Ho' & Hfd'). destruct o_fd_valid. congruence. }
  destruct Hfd as [Hfd|]; [|done]. rewrite Hfd. clear E.
  eapply (wp_iter _ (fun _ => poised w) (fun _ w1 => o_waits (tc_os w1))); [|by split_and!; [|exists o| | | |]|done].
  intros _ w1 (Hok1 & (o1 & Ho1 & Hfd1) & Hs1 & Hc1 & Hw1 & Hh1). apply wp_bind, wp_on_os.
  wp_use o_recv; [apply Hok1|done| |done]. intros [[r data] errno] os (Hos2 & Hs2 & Hw2 & Hh2 & Hr).
  destruct (moved_quiet o1 w1 os Hok1 Ho1 Hfd1 Hos2 Hw2) as (_ & Hok2 & Hh2' & _).
  assert (Hheal : tcp_healthy w -> o_healthy os) by (intros Hh; apply Hh2, Hh1, Hh).
  destruct Hr as [(Hr & Hz & Hb & Hco)|[(-> & -> & Hco & Hend)|(-> & -> & Hco & Hintr & Hhe)]].
  - rewrite (proj2 (Z.ltb_ge r 0)), (proj2 (Z.eqb_neq r 0)) by lia. apply wp_ret.
    rewrite (proj2 (Z.ltb_lt 0 r)) by lia. simpl. split_and!; try done; [congruence|lia|by auto|lia|congruence].
  - apply wp_ret. change (0 <? AMQP_STATUS_CONNECTION_CLOSED) with false. cbv iota. cbn [tc_os].
    split_and!; [done|congruence|lia|by auto|done|done|done|congruence|].
    intros Hh Hne. destruct Hne. rewrite <- Hc1. apply Hend, Hh1, Hh.
  - apply wp_bind. eapply wp_set_internal_error; [exact Ho1|].
    destruct (moved_step o1 w1 os errno Hok1 Ho1 Hfd1 Hos2 Hw2) as (_ & Hok3 & Hh3 & Ho3).
    unfold socket_failure. destruct (Z.eqb_spec errno EINTR) as [->|Hne2]; [|destruct (_ || _) eqn:E]; apply wp_ret; cbn [tc_os tc_sockets].
    + specialize (Hintr eq_refl). split; [unfold poised; cbn [tc_os]|lia]. split_and!; [done|done|congruence|congruence|lia|by auto].
    + change (0 <? AMQP_PRIVATE_STATUS_SOCKET_NEEDREAD) with false. cbv iota.
      split_and!; [done|congruence|lia|by auto|done|done|done|congruence|]. intros Hh Hne. split; [by left|].
      rewrite <- Hc1 in Hne. destruct (Hhe (proj1 (Hh1 Hh)) Hne) as [?|[_ ?]]; [done|lia].
    + change (0 <? AMQP_STATUS_SOCKET_ERROR) with false. cbv iota.
      split_and!; [done|congruence|lia|by auto|done|done|done|congruence|]. intros Hh Hne. exfalso.
      rewrite <- Hc1 in Hne. destruct (Hhe (proj1 (Hh1 Hh)) Hne) as [?|[-> ?]]; done.
Qed.

(** A call that changes the system only. *)
Lemma tcp_ok_os w os : tcp_ok w -> o_ok os -> (o_waits os <= o_waits (tc_os w))%nat ->
  tcp_ok {| tc_os := os; tc_sockets := tc_sockets w |} /\
  (tcp_healthy w -> o_healthy os -> tcp_healthy {| tc_os := os; tc_sockets := tc_sockets w |}).
Proof.
  intros (_ & Hf & o & Ho & Hfd) Hos Hw. split; [split; [done|split; [simpl; lia|by exists o]]|].
  by intros [_ Ho'] Hh.
Qed.

(** The TCP socket class keeps the contract. *)
#[local] Instance tcp_class : Sockets (tcp W) := amqp_tcp_socket_class fuel.

Definition tcp_network_laws : NetworkLaws (tcp W).
Proof.
  refine {| n_ok := tcp_ok; n_healthy := tcp_healthy; n_sent := fun w => o_sent (tc_os w);
            n_coming := fun w => o_coming (tc_os w); n_waits := fun w => o_waits (tc_os w); n_socket := self; n_limit := PTRDIFF_MAX;
            send_law := tcp_send_contract; recv_law := tcp_recv_contract |}.
  - done.
  - intros w Hok. simpl. apply wp_on_os. wp_use o_clock; [apply Hok| |done].
    intros r os (Hos & Hs & Hc & Hw & Hh). pose proof (tcp_ok_os w os Hok Hos Hw) as [Hok' Hhe].
    split_and!; try done. intros [Hho Ho]. destruct (Hh Hho). by split; [split|].
  - intros w Hok. pose proof Hok as (Hos & Hf & o & Ho & Hfd). simpl. apply wp_bind.
    eapply wp_the_socket; [exact Ho|]. apply wp_ret. split_and!; try done. intros Hh. split_and!; try done.
    destruct Hh as (_ & o' & Ho' & Hfd'). pose proof o_fd_valid. congruence.
  - intros force w Hok. pose proof Hok as (Hos & Hf & o & Ho & Hfd). simpl. apply wp_bind.
    eapply wp_the_socket; [exact Ho|]. destruct (_ =? _); [by apply wp_ret|]. apply wp_bind, wp_on_os.
    wp_use o_close; [done| |done]. intros r os (Hos' & Hs & Hc & Hw). destruct (negb _).
    { apply wp_ret. split_and!; try done. by apply tcp_ok_os. }
    apply wp_bind, wp_bind. eapply wp_the_socket; [exact Ho|]. apply wp_ret. simpl. split_and!; try done.
    split; [done|]. split; [simpl; lia|]. eexists. simpl. rewrite lookup_insert_eq. split; [done|by right].
  - intros fd event ms w Hok. simpl. apply wp_on_os. wp_use o_poll; [apply Hok| |done].
    intros [r errno] os (Hos & Hs & Hc & Hw & Hlt & H0 & Hh). pose proof (tcp_ok_os w os Hok Hos Hw) as [Hok' Hhe].
    split_and!; try done. intros [Hho Ho]. destruct (Hh Hho). by split; [split|].
Defined.

#[local] Existing Instance tcp_network_laws.

(** C23: over TCP, [amqp_try_send] transmits the whole buffer.  On an open socket
    of a healthy system, with no deadline, it returns the length of the buffer and
    exactly those bytes have been handed to the system, in order, however often
    [send] is interrupted, finds its buffer full or takes only a part. *)
Theorem tcp_try_send_exact fuel' buf flags (s : cst (tcp W)) :
  tcp_ok (world s) -> tcp_healthy (world s) -> socket (conn s) = Some self ->
  buf <> [] -> zlen buf <= PTRDIFF_MAX -> (length buf + o_waits (tc_os (world s)) < fuel')%nat ->
  wp (amqp_try_send fuel' buf amqp_time_infinite flags) (fun r s' => r = zlen buf /\ conn s' = conn s /\
    o_sent (tc_os (world s')) = o_sent (tc_os (world s)) ++ buf /\
    o_coming (tc_os (world s')) = o_coming (tc_os (world s))) (fun _ _ => False) s.
Proof.
  intros Hok Hh Hso Hne Hz Hf.
  wp_use (wp_try_send (HL := tcp_network_laws) fuel' buf amqp_time_infinite flags s); [done|done|done|done|done| |done].
  intros r s' (k & [[Hc _] _ Hk Hsent Hco _ _] & [[-> Hr]|[_ Hr]]); [|by destruct Hr].
  assert (k = zlen buf) as -> by (by destruct Hr as [?|[[]|[]]]).
  split_and!; [done|done| |done]. simpl in Hsent. unfold zlen in Hsent. by rewrite Nat2Z.id, firstn_all in Hsent.
Qed.
End Streams.

(** ** Example: a small machine *)

(** The scripted network as a system: odd interruptions end a call with [EINTR],
    even ones with [EAGAIN]. *)
Record machine : Type := mk_machine { mc_script : script; mc_open : gset Z; mc_next : Z }.

Definition with_script (s : script) (w : machine) : machine :=
  {| mc_script := s; mc_open := mc_open w; mc_next := mc_next w |}.

Definition less_hiccups (n : nat) (s : script) : script :=
  {| sc_sent := sc_sent s; sc_coming := sc_coming s; sc_hiccups := n; sc_chunk := sc_chunk s |}.

(** [None] when the call goes through. *)
Definition disturbed (w : machine) : option (Z * machine) :=
  match sc_hiccups (mc_script w) with
  | O => None
  | S n => if Nat.odd (S n) then Some (EINTR, with_script (less_hiccups n (mc_script w)) w) else Some (EAGAIN, w)
  end.

Definition as_system {A} (m : C script A) : C machine A := fun w =>
  match m (mc_script w) with
  | Ret a s => Ret a (with_script s w)
  | Err e s => Err e (with_script s w)
  | UB => UB
  | NoFuel => NoFuel
  end.

Definition mc_close (fd : Z) : C machine Z := fun w =>
  Ret 0 {| mc_script := mc_script w; mc_open := mc_open w ∖ {[fd]}; mc_next := mc_next w |}.

Definition mc_socket : C machine Z := fun w =>
  if bool_decide (0 <= mc_next w /\ mc_next w ∉ mc_open w)
  then Ret (mc_next w) {| mc_script := mc_script w; mc_open := {[mc_next w]} ∪ mc_open w; mc_next := mc_next w + 1 |}
  else Ret (-1) w.

(** The address [[1]] refuses connections. *)
#[export] Instance machine_os : Os machine := {|
  os_send := fun _ data _ w =>
    match disturbed w with
    | Some (errno, w') => Ret (-1, errno) w'
    | None => bind (as_system (script_send data)) (fun r => ret (r, 0)) w
    end;
  os_recv := fun _ n _ w =>
    match disturbed w with
    | Some (errno, w') => Ret (-1, [], errno) w'
    | None =>
        match sc_coming (mc_script w) with
        | [] => Ret (0, [], 0) w
        | _ => bind (as_system (script_recv n)) (fun '(r, data) => ret (r, data, 0)) w
        end
    end;
  os_close := mc_close;
  os_socket := fun _ _ _ => mc_socket;
  os_fcntl := fun _ _ _ => ret 0;
  os_setsockopt := fun _ _ _ _ => ret 0;
  os_getsockopt := fun _ _ _ => ret (0, 0);
  os_connect := fun _ a => ret (if bool_decide (a = [1]) then (-1, 111) else (0, 0));
  os_getaddrinfo := fun _ _ h => ret (0, [{| ai_family := 2; ai_socktype := 1; ai_protocol := 6; ai_addr := [1] |};
                                          {| ai_family := 2; ai_socktype := 1; ai_protocol := 6; ai_addr := [2] |}])
|}.

#[export] Instance machine_clock : Clock machine := {| clock_gettime := as_system clock_gettime |}.
#[export] Instance machine_poll : Poll machine := {| os_poll := fun fd event ms => as_system (os_poll fd event ms) |}.

#[export] Instance machine_descriptors : DescriptorLaws machine.
Proof.
  refine {| d_open := mc_open; d_waits := fun w => sc_hiccups (mc_script w); d_rest := fun _ => tt |}; intros.
  - unfold wp, os_socket. simpl. unfold mc_socket. case_bool_decide as E; simpl.
    + split_and!; [done|done|right]. by destruct E.
    + split_and!; [done|done|by left].
  - unfold wp, os_close. by simpl.
  - by unfold wp, os_fcntl.
  - by unfold wp, os_setsockopt.
  - by unfold wp, os_getsockopt.
  - by unfold wp, os_connect.
  - by unfold wp, os_getaddrinfo.
  - by unfold wp, clock_gettime.
  - unfold wp, os_poll. simpl. unfold as_system. simpl. destruct (sc_hiccups (mc_script w)) as [|n] eqn:E; simpl.
    + split; [split_and!; [done|simpl; lia|done]|done].
    + split; [split_and!; [done|simpl; lia|done]|simpl; lia].
Defined.

Definition machine_ok (w : machine) : Prop := script_ok (mc_script w).

Lemma disturbed_cases w :
  disturbed w = None /\ sc_hiccups (mc_script w) = O \/
  exists n, sc_hiccups (mc_script w) = S n /\
    (disturbed w = Some (EINTR, with_script (less_hiccups n (mc_script w)) w) \/ disturbed w = Some (EAGAIN, w)).
Proof.
  unfold disturbed. destruct (sc_hiccups (mc_script w)) as [|n]; [by left|right]. exists n. split; [done|].
  destruct (Nat.odd (S n)); [by left|by right].
Qed.

Lemma machine_send data flags w : machine_ok w -> data <> [] ->
  wp (os_send 3 data flags) (fun '(r, errno) w' =>
    machine_ok w' /\ sc_coming (mc_script w') = sc_coming (mc_script w) /\
    (sc_hiccups (mc_script w') <= sc_hiccups (mc_script w))%nat /\ (True -> True) /\
    (0 < r <= zlen data /\ sc_sent (mc_script w') = sc_sent (mc_script w) ++ take (Z.to_nat r) data \/
     r = -1 /\ sc_sent (mc_script w') = sc_sent (mc_script w) /\
     (errno = EINTR -> (sc_hiccups (mc_script w') < sc_hiccups (mc_script w))%nat) /\
     (True -> errno = EINTR \/ errno = EAGAIN /\ (0 < sc_hiccups (mc_script w'))%nat)))
    (fun _ _ => False) w.
Proof.
  intros [Hc Hb] Hne. unfold wp, os_send. simpl. destruct (disturbed_cases w) as [[-> E]|(n & E & [-> | ->])]; simpl.
  - unfold bind, as_system, script_send. rewrite E. simpl.
    assert (0 < zlen data) by (destruct data; [done|unfold zlen; simpl; lia]). split_and!; try done.
    left. split; [lia|done].
  - split_and!; try done; [lia|]. right. split_and!; try done; [lia|by left].
  - split_and!; try done. right. split_and!; try done. intros _. right. split; [done|lia].
Qed.

Lemma machine_recv n flags w : machine_ok w -> 0 < n ->
  wp (os_recv 3 n flags) (fun '(r, data, errno) w' =>
    machine_ok w' /\ sc_sent (mc_script w') = sc_sent (mc_script w) /\
    (sc_hiccups (mc_script w') <= sc_hiccups (mc_script w))%nat /\ (True -> True) /\
    (0 < r <= n /\ zlen data = r /\ Forall is_byte data /\ sc_coming (mc_script w) = data ++ sc_coming (mc_script w') \/
     r = 0 /\ data = [] /\ sc_coming (mc_script w') = sc_coming (mc_script w) /\ (True -> sc_coming (mc_script w) = []) \/
     r = -1 /\ data = [] /\ sc_coming (mc_script w') = sc_coming (mc_script w) /\
     (errno = EINTR -> (sc_hiccups (mc_script w') < sc_hiccups (mc_script w))%nat) /\
     (True -> sc_coming (mc_script w) <> [] -> errno = EINTR \/ errno = EAGAIN /\ (0 < sc_hiccups (mc_script w'))%nat)))
    (fun _ _ => False) w.
Proof.
  intros Hok Hn. unfold wp, os_recv. simpl. destruct (disturbed_cases w) as [[-> E]|(k & E & [-> | ->])].
  - destruct (sc_coming (mc_script w)) as [|c l] eqn:El; simpl.
    { split_and!; try done. right; left. by split_and!. }
    pose proof (script_recv_law n 0 (mc_script w) Hok Hn) as Hl. unfold wp in Hl. unfold bind, as_system.
    unfold script_recv in *. rewrite E, El in *. simpl in Hl |- *. destruct Hl as (Hok' & _ & _ & _ & Hr).
    assert (0 < zlen (c :: l)) by (unfold zlen; simpl; lia). destruct Hok as [Hc _].
    rewrite (proj2 (Z.ltb_lt 0 _)) in Hr by lia. destruct Hr as (Hr & Hz & Hb & Hco).
    split_and!; try done. left. split_and!; try done; lia.
  - simpl. split_and!; try done; [lia|]. right; right. split_and!; try done; [lia|by left].
  - split_and!; try done. right; right. split_and!; try done. intros _ _. right. split; [done|lia].
Qed.

#[export] Instance machine_streams : StreamLaws machine.
Proof.
  refine {| o_fd := 3; o_ok := machine_ok; o_healthy := fun _ => True; o_sent := fun w => sc_sent (mc_script w);
            o_coming := fun w => sc_coming (mc_script w); o_waits := fun w => sc_hiccups (mc_script w);
            o_send := machine_send; o_recv := machine_recv |}; [done|intros..].
  - unfold wp. simpl. split_and!; try done. intros _. split; [done|]. by exists 5, 7.
  - unfold wp. by simpl.
  - unfold wp, os_poll. simpl. unfold as_system. simpl. destruct (sc_hiccups (mc_script w)) as [|k] eqn:E; simpl.
    + split_and!; try done; try lia; first [by intros [?|?]|intros _; split; [done|lia]].
    + split_and!; try done; try lia; intros _; split; done || lia.
Defined.

Definition small_machine : machine :=
  {| mc_script := {| sc_sent := []; sc_coming := []; sc_hiccups := 3; sc_chunk := 2 |}; mc_open := {[0]}; mc_next := 3 |}.

(** The first address refuses, the second answers: one new descriptor is left. *)
Lemma open_socket_no_leak_witness :
  exists w', amqp_open_socket_inner 10 [104; 0] 5672 amqp_time_infinite small_machine = Ret 4 w' /\
    d_open w' = {[4]} ∪ d_open small_machine.
Proof.
  assert (Hf : (d_waits small_machine < 10)%nat) by (apply Nat.ltb_lt; reflexivity).
  destruct (wp_run_ret _ _ _ (open_socket_no_leak 10 [104; 0] 5672 amqp_time_infinite small_machine Hf))
    as (r & w' & Hrun & Hw').
  assert (r = 4) as ->.
  { clear -Hrun. vm_compute in Hrun. congruence. }
  exists w'. split; [exact Hrun|]. destruct Hw' as [(_ & _ & Ho)|[? _]]; [exact Ho|lia].
Defined.

Definition tcp_connection : cst (tcp machine) :=
  {| conn := set_socket (Some 9) (zeroed_connection {| p_block := 1; p_off := 0 |});
     hp := {| h_blocks := ∅; h_next := 10; h_count := 0; h_env := generous |};
     world := {| tc_os := small_machine; tc_sockets := {[9 := {| sockfd := 3; internal_error := 0 |}]} |} |}.

Lemma tcp_try_send_exact_witness :
  exists s', amqp_try_send (HS := amqp_tcp_socket_class 10) 20 [1; 2; 3; 4; 5] amqp_time_infinite AMQP_SF_NONE tcp_connection = Ret 5 s' /\
    sc_sent (mc_script (tc_os (world s'))) = [1; 2; 3; 4; 5].
Proof.
  unshelve epose proof (tcp_try_send_exact (W := machine) 10 9 20 [1; 2; 3; 4; 5] AMQP_SF_NONE tcp_connection _ _ eq_refl _ _ _) as Hw.
  - split; [by split; [|constructor]|]. split; [apply Nat.ltb_lt; reflexivity|].
    exists {| sockfd := 3; internal_error := 0 |}. split; [reflexivity|by left].
  - split; [exact I|]. exists {| sockfd := 3; internal_error := 0 |}. split; reflexivity.
  - done.
  - by vm_compute.
  - apply Nat.ltb_lt. reflexivity.
  - destruct (wp_run_ret _ _ _ Hw) as (r & s' & Hrun & -> & _ & Hsent & _).
    exists s'. split; [exact Hrun|exact Hsent].
Defined.
