(* ===== verification/TlsTheory.v ===== *)
(** * What TLS sockets rely on, and opening one

    The laws of the calls of OpenSSL that [amqp_ssl_socket_open] makes and those
    of a connected object, as the manual pages document them, and what the function
    does over any library that keeps them: which objects it leaves, and what has
    been checked when it succeeds. *)

From stdpp Require Import gmultiset.
From S2P Require Import Prelude Machine Status Alloc Codec Table Framing Methods MethodDecode MethodEncode Properties Mem MemTheory Time Frame Connection ParserTheory Socket TcpSocket TcpTheorems TlsSocket.

(** ** Laws *)

(** [x_ssl] are the live SSL objects, [x_bios] the BIOs no SSL object owns yet,
    [x_refs] the references to certificates the program holds; [x_rounds] bounds
    how often a handshake in progress has to wait.  [x_peer] is the certificate the
    other side of an SSL object has shown, [x_verdict] what the verification of
    its chain has given, [x_matches] whether a certificate is for a host. *)
Class OpenSSLLaws (W : Type) `{HO : Os W, HC : Clock W, HP : Poll W} {HX : OpenSSL W} {HD : DescriptorLaws W} : Type := {
  x_ssl : W -> gset Z;
  x_bios : W -> gset Z;
  x_refs : W -> gmultiset Z;
  x_rounds : W -> nat;
  x_peer : W -> Z -> option Z;
  x_verdict : W -> Z -> Z;
  x_matches : W -> Z -> list Z -> bool;
  (** The objects the program owns. *)
  x_owned (w : W) := (d_open w, x_ssl w, x_bios w, x_refs w);
  (** No object comes or goes. *)
  x_same (w w' : W) : Prop :=
    x_owned w' = x_owned w /\ (d_waits w' <= d_waits w)%nat /\ (x_rounds w' <= x_rounds w)%nat;
  (** What is known about the peers stays. *)
  x_known (w w' : W) : Prop :=
    x_peer w' = x_peer w /\ x_verdict w' = x_verdict w /\ x_matches w' = x_matches w;
  x_unaffected w w' : d_rest w' = d_rest w ->
    x_ssl w' = x_ssl w /\ x_bios w' = x_bios w /\ x_refs w' = x_refs w /\ x_rounds w' = x_rounds w /\
    x_peer w' = x_peer w /\ x_verdict w' = x_verdict w /\ x_matches w' = x_matches w;
  x_errno w : wp amqp_os_socket_error (fun _ => x_same w) (fun _ _ => False) w;
  x_clear_error w : wp ERR_clear_error (fun _ => x_same w) (fun _ _ => False) w;
  x_peek_error w : wp ERR_peek_error (fun _ => x_same w) (fun _ _ => False) w;
  x_get_error s r w : wp (SSL_get_error s r) (fun _ => x_same w) (fun _ _ => False) w;
  x_set_fd b fd flag w : wp (BIO_set_fd b fd flag) (fun _ => x_same w) (fun _ _ => False) w;
  x_host_name s host w : wp (SSL_set_tlsext_host_name s host) (fun _ => x_same w) (fun _ _ => False) w;
  x_shutdown s w : wp (SSL_shutdown s) (fun _ => x_same w) (fun _ _ => False) w;
  x_new c w : wp (SSL_new c) (fun r w' =>
    (d_waits w' <= d_waits w)%nat /\ (x_rounds w' <= x_rounds w)%nat /\
    match r with
    | None => x_owned w' = x_owned w
    | Some s => (s ∉ x_ssl w) /\ x_owned w' = (d_open w, {[s]} ∪ x_ssl w, x_bios w, x_refs w)
    end) (fun _ _ => False) w;
  x_free s w : wp (SSL_free (Some s)) (fun _ w' =>
    (d_waits w' <= d_waits w)%nat /\ (x_rounds w' <= x_rounds w)%nat /\
    x_owned w' = (d_open w, x_ssl w ∖ {[s]}, x_bios w, x_refs w)) (fun _ _ => False) w;
  x_bio_new m w : wp (BIO_new m) (fun r w' =>
    (d_waits w' <= d_waits w)%nat /\ (x_rounds w' <= x_rounds w)%nat /\
    match r with
    | None => x_owned w' = x_owned w
    | Some b => (b ∉ x_bios w) /\ x_owned w' = (d_open w, x_ssl w, {[b]} ∪ x_bios w, x_refs w)
    end) (fun _ _ => False) w;
  (** The SSL object takes the BIO over. *)
  x_set_bio s b w : wp (SSL_set_bio s (Some b) (Some b)) (fun _ w' =>
    (d_waits w' <= d_waits w)%nat /\ (x_rounds w' <= x_rounds w)%nat /\
    x_owned w' = (d_open w, x_ssl w, x_bios w ∖ {[b]}, x_refs w)) (fun _ _ => False) w;
  x_connect s w : wp (SSL_connect s) (fun r w' =>
    x_same w w' /\ (r <> 1 -> (x_rounds w' < x_rounds w)%nat)) (fun _ _ => False) w;
  (** The reference is the caller's. *)
  x_certificate s w : wp (SSL_get_peer_certificate (Some s)) (fun r w' =>
    (d_waits w' <= d_waits w)%nat /\ (x_rounds w' <= x_rounds w)%nat /\ x_known w w' /\ r = x_peer w s /\
    x_owned w' = (d_open w, x_ssl w, x_bios w,
      match r with None => x_refs w | Some c => {[+ c +]} ⊎ x_refs w end)) (fun _ _ => False) w;
  x_verify_result s w : wp (SSL_get_verify_result (Some s)) (fun r w' =>
    x_same w w' /\ x_known w w' /\ r = x_verdict w s) (fun _ _ => False) w;
  x_check_host c host flags w : wp (X509_check_host (Some c) host flags) (fun r w' =>
    x_same w w' /\ x_known w w' /\ (r = 1 <-> x_matches w c host = true)) (fun _ _ => False) w;
  x_x509_free c w : wp (X509_free c) (fun _ w' =>
    (d_waits w' <= d_waits w)%nat /\ (x_rounds w' <= x_rounds w)%nat /\ x_known w w' /\
    x_owned w' = (d_open w, x_ssl w, x_bios w,
      match c with None => x_refs w | Some c => x_refs w ∖ {[+ c +]} end)) (fun _ _ => False) w
}.

(** What the manual pages promise about one connected SSL object [t_ssl] over the
    descriptor [t_fd]: a call moves data, or it fails and [SSL_get_error] says why.
    In a healthy system a call fails only because the descriptor is not ready, and
    [t_waits] bounds how often; [close] succeeds. *)
Class SecureLaws (W : Type) `{Os W, Clock W, Poll W, OpenSSL W} : Type := {
  t_ssl : Z;
  t_fd : Z;
  t_ok : W -> Prop;
  t_healthy : W -> Prop;
  t_sent : W -> list Z;
  t_coming : W -> list Z;
  t_waits : W -> nat;
  t_error : W -> Z -> Z;
  t_fd_valid : t_fd <> -1;
  (** No data moves. *)
  t_quiet (w w' : W) : Prop :=
    t_ok w' /\ t_sent w' = t_sent w /\ t_coming w' = t_coming w /\ (t_waits w' <= t_waits w)%nat;
  t_clock w : t_ok w -> wp clock_gettime (fun r w' =>
    t_quiet w w' /\ (t_healthy w -> t_healthy w' /\ exists sec nsec, r = Some (sec, nsec) /\
      0 <= sec /\ 0 <= nsec /\ 0 < sec * 1000000000 + nsec < UINT64_MAX)) (fun _ _ => False) w;
  t_clear w : t_ok w -> wp ERR_clear_error (fun _ w' =>
    t_quiet w w' /\ (t_healthy w -> t_healthy w')) (fun _ _ => False) w;
  t_shutdown w : t_ok w -> wp (SSL_shutdown (Some t_ssl)) (fun _ => t_quiet w) (fun _ _ => False) w;
  t_free w : t_ok w -> wp (SSL_free (Some t_ssl)) (fun _ => t_quiet w) (fun _ _ => False) w;
  t_close w : t_ok w -> wp (os_close t_fd) (fun r w' => r = 0 /\ t_quiet w w') (fun _ _ => False) w;
  t_get_error r w : t_ok w -> wp (SSL_get_error (Some t_ssl) r) (fun e w' =>
    e = t_error w r /\ t_quiet w w' /\ t_waits w' = t_waits w /\ (t_healthy w -> t_healthy w')) (fun _ _ => False) w;
  t_write data w : t_ok w -> data <> [] -> zlen data <= INT32_MAX ->
    wp (SSL_write (Some t_ssl) data) (fun r w' =>
      t_ok w' /\ t_coming w' = t_coming w /\ (t_waits w' <= t_waits w)%nat /\ (t_healthy w -> t_healthy w') /\
      (0 < r <= zlen data /\ t_sent w' = t_sent w ++ take (Z.to_nat r) data \/
       r <= 0 /\ t_sent w' = t_sent w /\
       (t_healthy w -> (t_error w' r = SSL_ERROR_WANT_READ \/ t_error w' r = SSL_ERROR_WANT_WRITE) /\ (0 < t_waits w')%nat)))
      (fun _ _ => False) w;
  t_read n w : t_ok w -> 0 < n <= INT32_MAX ->
    wp (SSL_read (Some t_ssl) n) (fun '(r, data) w' =>
      t_ok w' /\ t_sent w' = t_sent w /\ (t_waits w' <= t_waits w)%nat /\ (t_healthy w -> t_healthy w') /\
      (0 < r <= n /\ zlen data = r /\ Forall is_byte data /\ t_coming w = data ++ t_coming w' \/
       r <= 0 /\ data = [] /\ t_coming w' = t_coming w /\
       (t_healthy w -> t_coming w <> [] ->
         (t_error w' r = SSL_ERROR_WANT_READ \/ t_error w' r = SSL_ERROR_WANT_WRITE) /\ (0 < t_waits w')%nat)))
      (fun _ _ => False) w;
  t_poll fd event ms w : t_ok w ->
    wp (os_poll fd event ms) (fun '(r, errno) w' =>
      t_quiet w w' /\ (0 < r \/ errno = EINTR -> (t_waits w' < t_waits w)%nat) /\ (r = 0 -> 0 <= ms) /\
      (t_healthy w -> t_healthy w' /\
         ((0 < t_waits w)%nat -> r < 0 -> errno = EINTR /\ (0 < t_waits w')%nat)))
      (fun _ _ => False) w
}.

Section Open.
Context {W : Type} {HO : Os W} {HC : Clock W} {HP : Poll W} {HX : OpenSSL W} {HD : DescriptorLaws W}.
Context {HL : OpenSSLLaws W}.
Context (fuel : nat) (self : Z) (w0 : tls W).

Abbreviation owned := (gset Z * gset Z * gset Z * gmultiset Z)%type.

Lemma x_same_descriptors w w' : d_same w w' -> x_same w w'.
Proof.
  intros (Ho & Hw & Hr). destruct (x_unaffected w w' Hr) as (H1 & H2 & H3 & H4 & _).
  split_and!; [|done|by rewrite H4]. unfold x_owned. by rewrite Ho, H1, H2, H3.
Qed.

(** In the middle of [amqp_ssl_socket_open]: the object is [o], the program owns
    [R], the rest is as it was at the beginning. *)
Record midway (o : amqp_ssl_socket_t) (R : owned) (w : tls W) : Prop := {
  mw_self : tl_sockets w !! self = Some o;
  mw_others : forall i, i <> self -> tl_sockets w !! i = tl_sockets w0 !! i;
  mw_statics : tl_statics w = tl_statics w0;
  mw_owned : x_owned (tl_sys w) = R;
  mw_waits : (d_waits (tl_sys w) < fuel)%nat;
  mw_rounds : (x_rounds (tl_sys w) < fuel)%nat
}.

Lemma wp_on_sys {A} (m : C W A) (Q : A -> tls W -> Prop) E w :
  wp m (fun a o => Q a {| tl_sys := o; tl_sockets := tl_sockets w; tl_statics := tl_statics w |})
       (fun e o => E e {| tl_sys := o; tl_sockets := tl_sockets w; tl_statics := tl_statics w |}) (tl_sys w) ->
  wp (on_sys m) Q E w.
Proof. unfold wp, on_sys. by destruct (m (tl_sys w)). Qed.

Lemma wp_the_ssl_socket o (Q : amqp_ssl_socket_t -> tls W -> Prop) E w :
  tl_sockets w !! self = Some o -> Q o w -> wp (the_ssl_socket self) Q E w.
Proof. intros Ho HQ. unfold wp, the_ssl_socket. by rewrite Ho. Qed.

(** A call of the library that takes what is owned from [R] to [R']. *)
Lemma wp_library {A} (m : C W A) (P : A -> W -> Prop) Q E o R w :
  midway o R w ->
  wp m (fun a y => (d_waits y <= d_waits (tl_sys w))%nat /\ (x_rounds y <= x_rounds (tl_sys w))%nat /\ P a y)
    (fun _ _ => False) (tl_sys w) ->
  (forall a w', P a (tl_sys w') -> midway o (x_owned (tl_sys w')) w' -> Q a w') ->
  wp (on_sys m) Q E w.
Proof.
  intros [] Hm HQ. apply wp_on_sys. wp_use Hm; [|done]. intros a y (Hd & Hx & Ha). apply HQ; [done|].
  split; try done; simpl; lia.
Qed.

Lemma wp_quiet {A} (m : C W A) Q E o R w :
  midway o R w -> (forall y, wp m (fun _ => x_same y) (fun _ _ => False) y) ->
  (forall a w', midway o R w' -> Q a w') -> wp (on_sys m) Q E w.
Proof.
  intros Hw Hm HQ. eapply (wp_library m (fun _ y => x_owned y = R)); [exact Hw| |].
  - wp_use (Hm (tl_sys w)); [|done]. intros a y (Ho & Hd & Hx). split_and!; [done|done|]. rewrite Ho. apply Hw.
  - intros a w' HR Hw'. apply HQ. by rewrite HR in Hw'.
Qed.

Lemma wp_on_ssl {A} (m : handle -> C W A) Q E o R w :
  midway o R w -> wp (on_sys (m (ssl o))) Q E w -> wp (on_ssl self m) Q E w.
Proof. intros Hw HQ. apply wp_bind. by eapply wp_the_ssl_socket; [apply Hw|]. Qed.

Lemma wp_upd_ssl o f (Q : unit -> tls W -> Prop) E w :
  tl_sockets w !! self = Some o ->
  Q tt {| tl_sys := tl_sys w; tl_sockets := <[self := f o]> (tl_sockets w); tl_statics := tl_statics w |} ->
  wp (upd_ssl_socket self f) Q E w.
Proof. intros Ho HQ. apply wp_bind. by eapply wp_the_ssl_socket. Qed.

(** Writing a field of the object. *)
Lemma wp_field f (Q : unit -> tls W -> Prop) E o R w :
  midway o R w -> (forall w', midway (f o) R w' -> tl_sys w' = tl_sys w -> Q tt w') -> wp (upd_ssl_socket self f) Q E w.
Proof.
  intros Hw HQ. eapply wp_upd_ssl; [apply Hw|]. apply HQ; [|done].
  destruct Hw. split; try done; simpl.
  - by rewrite lookup_insert_eq.
  - intros i Hi. rewrite lookup_insert_ne by congruence. by auto.
Qed.

Lemma wp_error e (Q : unit -> tls W -> Prop) E o R w :
  midway o R w -> (forall w', midway (with_error (to_int e) o) R w' -> tl_sys w' = tl_sys w -> Q tt w') ->
  wp (set_ssl_error self e) Q E w.
Proof. apply wp_field. Qed.

(** ** The object while it is opened *)

Context (o0 : amqp_ssl_socket_t).

Definition object (fd : Z) (s : handle) (e : Z) : amqp_ssl_socket_t :=
  {| klass := klass o0; ctx := ctx o0; sockfd := fd; ssl := s; verify_peer := verify_peer o0;
     verify_hostname := verify_hostname o0; internal_error := e |}.

(** A failure: the object is closed and the program owns what it owned before. *)
Definition refused (R : owned) (r : Z) (w : tls W) : Prop := r <> AMQP_STATUS_OK /\ exists e, midway (object (-1) None e) R w.

(** A success, for the descriptor [fd] and the SSL object [s]. *)
Definition verified (host : list Z) (s : Z) (y : W) : Prop :=
  (verify_peer o0 = true -> is_Some (x_peer y s) /\ x_verdict y s = X509_V_OK) /\
  (verify_hostname o0 = true -> exists c, x_peer y s = Some c /\ x_matches y c host = true).

Context (F S B : gset Z) (M : gmultiset Z) (s fd : Z).
Hypothesis Hs : s ∉ S.
Hypothesis Hfd : fd ∉ F.

Lemma without_new (x : Z) (X : gset Z) : x ∉ X -> ({[x]} ∪ X) ∖ {[x]} = X.
Proof.
  intros Hx. apply set_eq. intros y. rewrite elem_of_difference, elem_of_union, !elem_of_singleton.
  split; [by intros [[->|?] ?]|]. intros Hy. split; [by right|]. by intros ->.
Qed.

Lemma wp_error_out1 e status w :
  status <> AMQP_STATUS_OK -> midway (object (-1) (Some s) e) (F, {[s]} ∪ S, B, M) w ->
  wp (error_out1 self status) (refused (F, S, B, M)) (fun _ _ => False) w.
Proof.
  intros Hst Hw. apply wp_bind. eapply wp_on_ssl; [done|]. simpl.
  eapply (wp_library _ (fun _ y => x_owned y = (F, S, B, M))); [exact Hw| |].
  - wp_use x_free; [|done]. intros _ y (Hd & Hx & Ho). split_and!; [done|done|]. rewrite Ho.
    pose proof (mw_owned _ _ _ Hw) as HR. unfold x_owned in HR. injection HR as -> -> -> ->. by rewrite without_new.
  - intros _ w' -> Hw'. apply wp_bind. eapply wp_field; [exact Hw'|]. intros w2 Hw2 _. apply wp_ret.
    split; [done|]. by exists e.
Qed.

Lemma wp_error_out2 e status w :
  status <> AMQP_STATUS_OK -> midway (object fd (Some s) e) ({[fd]} ∪ F, {[s]} ∪ S, B, M) w ->
  wp (error_out2 self status) (refused (F, S, B, M)) (fun _ _ => False) w.
Proof.
  intros Hst Hw. apply wp_bind. eapply wp_the_ssl_socket; [apply Hw|]. apply wp_bind. simpl.
  eapply (wp_library _ (fun _ y => x_owned y = (F, {[s]} ∪ S, B, M))); [exact Hw| |].
  - wp_use d_close; [|done]. intros _ y (Ho & Hd & Hr).
    destruct (x_unaffected _ _ Hr) as (H1 & H2 & H3 & H4 & _). split_and!; [done|by rewrite H4|].
    pose proof (mw_owned _ _ _ Hw) as HR. unfold x_owned in *. injection HR as E1 E2 E3 E4.
    by rewrite Ho, H1, H2, H3, E1, E2, E3, E4, without_new.
  - intros _ w' -> Hw'. apply wp_bind. eapply wp_field; [exact Hw'|]. intros w2 Hw2 _. by eapply wp_error_out1.
Qed.

Lemma wp_error_out3 e status w :
  status <> AMQP_STATUS_OK -> midway (object fd (Some s) e) ({[fd]} ∪ F, {[s]} ∪ S, B, M) w ->
  wp (error_out3 self status) (refused (F, S, B, M)) (fun _ _ => False) w.
Proof.
  intros Hst Hw. apply wp_bind. eapply wp_on_ssl; [done|]. eapply wp_quiet; [done|intros; apply x_shutdown|].
  intros _ w' Hw'. by eapply wp_error_out2.
Qed.

(** A certificate that has been obtained is given back. *)
Definition with_cert (cert : handle) : gmultiset Z := match cert with None => M | Some c => {[+ c +]} ⊎ M end.

Lemma wp_drop_cert cert Q E o w :
  midway o ({[fd]} ∪ F, {[s]} ∪ S, B, with_cert cert) w ->
  (forall w', x_known (tl_sys w) (tl_sys w') -> midway o ({[fd]} ∪ F, {[s]} ∪ S, B, M) w' -> Q tt w') ->
  wp (on_sys (X509_free cert)) Q E w.
Proof.
  intros Hw HQ. eapply (wp_library _ (fun _ y => x_known (tl_sys w) y /\ x_owned y = ({[fd]} ∪ F, {[s]} ∪ S, B, M))); [exact Hw| |].
  - wp_use x_x509_free; [|done]. intros _ y (Hd & Hx & Hk & Ho). split_and!; [done|done|done|]. rewrite Ho.
    pose proof (mw_owned _ _ _ Hw) as HR. unfold x_owned in HR. injection HR as -> -> -> ->. f_equal.
    destruct cert; simpl; [multiset_solver|done].
  - intros [] w' [Hk ->] Hw'. by apply HQ.
Qed.

Lemma wp_reject cert e status w :
  status <> AMQP_STATUS_OK -> midway (object fd (Some s) e) ({[fd]} ∪ F, {[s]} ∪ S, B, with_cert cert) w ->
  wp (reject self cert status) (refused (F, S, B, M)) (fun _ _ => False) w.
Proof.
  intros Hst Hw. destruct cert as [c|]; [|by eapply wp_error_out3]. apply wp_bind.
  eapply wp_drop_cert; [exact Hw|]. intros w' _ Hw'. by eapply wp_error_out3.
Qed.

(** ** The handshake *)

Abbreviation with_fd := ({[fd]} ∪ F, {[s]} ∪ S, B, M).

Lemma wp_wait event deadline o R w :
  event = AMQP_SF_POLLIN \/ event = AMQP_SF_POLLOUT -> midway o R w ->
  wp (on_sys (amqp_poll fuel fd event deadline)) (fun r w' =>
    midway o R w' /\ (x_rounds (tl_sys w') <= x_rounds (tl_sys w))%nat) (fun _ _ => False) w.
Proof.
  intros Hev Hw. apply wp_on_sys. wp_use wp_poll_tidy; [done|apply Hw| |done].
  intros r y [Hsame _]. apply x_same_descriptors in Hsame as (Ho & Hd & Hx). simpl. split; [|done].
  destruct Hw. split; try done; simpl; [congruence|lia|lia].
Qed.

Lemma wp_start_connect e deadline w :
  midway (object fd (Some s) e) with_fd w ->
  wp (start_connect fuel self deadline) (fun r w' => r <> Some AMQP_STATUS_OK /\
    exists e', midway (object fd (Some s) e') with_fd w') (fun _ _ => False) w.
Proof.
  intros Hw. unfold start_connect.
  eapply (wp_iter _ (fun _ w' => exists e', midway (object fd (Some s) e') with_fd w')
    (fun _ w' => x_rounds (tl_sys w'))); [|by exists e|apply Hw].
  intros _ w1 [e1 Hw1]. apply wp_bind. eapply wp_on_ssl; [done|]. simpl.
  eapply (wp_library _ (fun r y => x_owned y = with_fd /\ (r <> 1 -> (x_rounds y < x_rounds (tl_sys w1))%nat))); [exact Hw1| |].
  { wp_use x_connect; [|done]. intros r y [(Ho & Hd & Hx) Hr]. split_and!; [done|done|rewrite Ho; apply Hw1|done]. }
  intros r w2 [Ho2 Hr] Hw2. rewrite Ho2 in Hw2.
  destruct (Z.eqb_spec r 1) as [->|Hne]; [apply wp_ret; split; [done|by exists e1]|]. specialize (Hr Hne).
  apply wp_bind. eapply wp_on_ssl; [done|]. simpl.
  eapply (wp_library _ (fun _ y => x_owned y = with_fd /\ (x_rounds y <= x_rounds (tl_sys w2))%nat)); [exact Hw2| |].
  { wp_use x_get_error; [|done]. intros a y (Ho & Hd & Hx). split_and!; [done|done|rewrite Ho; apply Hw2|done]. }
  intros error w3 [Ho3 Hr3] Hw3. rewrite Ho3 in Hw3. apply wp_bind. eapply wp_error; [exact Hw3|].
  intros w4 Hw4 E4. apply wp_bind. eapply wp_the_ssl_socket; [apply Hw4|]. apply wp_bind. simpl.
  assert (Hend : forall status w5, midway (object fd (Some s) (to_int error)) with_fd w5 ->
    (x_rounds (tl_sys w5) <= x_rounds (tl_sys w4))%nat ->
    wp (if status =? AMQP_STATUS_OK then ret (inl tt) else ret (inr (Some status))) (fun r w' =>
      match r with
      | inl _ => (exists e', midway (object fd (Some s) e') with_fd w') /\ (x_rounds (tl_sys w') < x_rounds (tl_sys w1))%nat
      | inr r => r <> Some AMQP_STATUS_OK /\ exists e', midway (object fd (Some s) e') with_fd w'
      end) (fun _ _ => False) w5).
  { intros status w5 Hw5 Hr5. rewrite E4 in Hr5. destruct (Z.eqb_spec status AMQP_STATUS_OK); apply wp_ret.
    - split; [by eexists|lia].
    - split; [congruence|by eexists]. }
  destruct (_ =? _); [|destruct (_ =? _)].
  - wp_use wp_wait; [by left|exact Hw4| |done]. intros status w5 [Hw5 Hr5]. by apply Hend.
  - wp_use wp_wait; [by right|exact Hw4| |done]. intros status w5 [Hw5 Hr5]. by apply Hend.
  - apply wp_ret. by apply Hend.
Qed.

(** ** The checks *)

(** With the certificate [cert] the peer has shown. *)
Definition checking (cert : handle) (w : tls W) : Prop :=
  cert = x_peer (tl_sys w) s /\
  exists e, midway (object fd (Some s) e) ({[fd]} ∪ F, {[s]} ∪ S, B, with_cert cert) w.

(** A call that asks about the peer. *)
Lemma wp_ask {A} (m : C W A) (P : A -> Prop) Q E cert w :
  checking cert w ->
  wp m (fun a y => x_same (tl_sys w) y /\ x_known (tl_sys w) y /\ P a) (fun _ _ => False) (tl_sys w) ->
  (forall a w', checking cert w' -> x_known (tl_sys w) (tl_sys w') -> P a -> Q a w') -> wp (on_sys m) Q E w.
Proof.
  intros [Hc [e Hw]] Hm HQ.
  eapply (wp_library _ (fun a y => x_owned y = x_owned (tl_sys w) /\ x_known (tl_sys w) y /\ P a)); [exact Hw| |].
  - wp_use Hm; [|done]. by intros a y ((Ho & Hd & Hx) & Hk & Ha).
  - intros a w' (Ho & Hk & Ha) Hw'. apply HQ; [|done..]. split; [by destruct Hk as (-> & _)|].
    exists e. by rewrite Ho, (mw_owned _ _ _ Hw) in Hw'.
Qed.

Lemma wp_complain status cert e (w : tls W) (Q : option Z -> tls W -> Prop) :
  checking cert w -> (forall w', checking cert w' -> Q (Some status) w') ->
  wp (do* set_ssl_error self e in ret (Some status)) Q (fun _ _ => False) w.
Proof.
  intros [Hc [e0 Hw]] HQ. apply wp_bind. eapply wp_error; [exact Hw|]. intros w' Hw' E. apply wp_ret, HQ.
  split; [by rewrite E|by eexists].
Qed.

Lemma wp_check_peer cert w :
  checking cert w ->
  wp (check_peer self cert) (fun r w' => checking cert w' /\ r <> Some AMQP_STATUS_OK /\
    (r = None -> x_known (tl_sys w) (tl_sys w') /\
       (verify_peer o0 = true -> is_Some cert /\ x_verdict (tl_sys w) s = X509_V_OK))) (fun _ _ => False) w.
Proof.
  intros Hch. pose proof Hch as [Hc [e Hw]]. apply wp_bind. eapply wp_the_ssl_socket; [apply Hw|]. simpl.
  destruct (verify_peer o0); [|by apply wp_ret].
  destruct cert as [c|]; [|by apply wp_complain with None].
  apply wp_bind. eapply wp_on_ssl; [done|]. simpl.
  eapply (wp_ask _ (fun r => r = x_verdict (tl_sys w) s)); [done|apply x_verify_result|].
  intros r w' Hch' Hk ->. destruct (Z.eqb_spec (x_verdict (tl_sys w) s) X509_V_OK); simpl.
  - apply wp_ret. split_and!; try done.
  - by eapply wp_complain.
Qed.

Lemma wp_check_hostname cert host w :
  checking cert w ->
  wp (check_hostname self cert host) (fun r w' => checking cert w' /\ r <> Some AMQP_STATUS_OK /\
    (r = None -> x_known (tl_sys w) (tl_sys w') /\
       (verify_hostname o0 = true -> exists c, cert = Some c /\ x_matches (tl_sys w) c host = true))) (fun _ _ => False) w.
Proof.
  intros Hch. pose proof Hch as [Hc [e Hw]]. apply wp_bind. eapply wp_the_ssl_socket; [apply Hw|]. simpl.
  destruct (verify_hostname o0); [|by apply wp_ret].
  destruct cert as [c|]; [|by apply wp_complain with None]. apply wp_bind.
  eapply (wp_ask _ (fun r => r = 1 <-> x_matches (tl_sys w) c host = true)); [done|apply x_check_host|].
  intros r w' Hch' Hk Hr. destruct (Z.eqb_spec r 1) as [->|]; simpl.
  - apply wp_ret. split_and!; try done. intros _. split; [done|]. intros _. exists c. split; [done|]. by apply Hr.
  - by eapply wp_complain.
Qed.

(** Open, verified, and owning two objects more. *)
Definition opened (host : list Z) (r : Z) (w : tls W) : Prop :=
  r = AMQP_STATUS_OK /\ midway (object fd (Some s) 0) with_fd w /\ verified host s (tl_sys w).

Lemma wp_verify e host w :
  midway (object fd (Some s) e) with_fd w ->
  wp (verify self host) (fun r w' => opened host r w' \/ refused (F, S, B, M) r w') (fun _ _ => False) w.
Proof.
  intros Hw. apply wp_bind. eapply wp_on_ssl; [done|]. simpl.
  eapply (wp_library _ (fun r y => r = x_peer y s /\ x_owned y = ({[fd]} ∪ F, {[s]} ∪ S, B, with_cert r))); [exact Hw| |].
  { wp_use x_certificate; [|done]. intros r y (Hd & Hx & (Hp & _) & Hr & Ho). split_and!; [done|done|by rewrite Hp|].
    rewrite Ho. pose proof (mw_owned _ _ _ Hw) as HR. unfold x_owned in HR. injection HR as -> -> -> ->. by destruct r. }
  intros cert w1 [Hc Ho1] Hw1. rewrite Ho1 in Hw1. assert (Hch1 : checking cert w1) by (split; [done|by exists e]).
  apply wp_bind. wp_use wp_check_peer; [exact Hch1| |done]. intros [status|] w2 (Hch2 & Hst & Hok).
  { destruct Hch2 as [_ [e2 Hw2]]. wp_use wp_reject; [congruence|exact Hw2|by right|done]. }
  destruct (Hok eq_refl) as [Hk2 Hpeer]. clear Hst Hok. apply wp_bind.
  wp_use wp_check_hostname; [exact Hch2| |done]. intros [status|] w3 (Hch3 & Hst & Hok).
  { destruct Hch3 as [_ [e3 Hw3]]. wp_use wp_reject; [congruence|exact Hw3|by right|done]. }
  destruct (Hok eq_refl) as [Hk3 Hhost]. destruct Hch3 as [_ [e3 Hw3]]. apply wp_bind.
  eapply wp_drop_cert; [exact Hw3|]. intros w4 Hk4 Hw4. apply wp_bind. eapply wp_error; [exact Hw4|].
  intros w5 Hw5 E5. apply wp_ret. left. split_and!; [done|done|]. rewrite E5.
  destruct Hk2 as (P2 & V2 & N2), Hk3 as (P3 & V3 & N3), Hk4 as (P4 & V4 & N4). split; rewrite P4, P3, P2, <- Hc.
  - rewrite V4, V3, V2. done.
  - rewrite N4, N3. done.
Qed.

Lemma wp_handshake e host deadline w :
  amqp_ssl_bio_initialized (tl_statics w0) = true -> midway (object fd (Some s) e) with_fd w ->
  wp (handshake fuel self host deadline) (fun r w' => opened host r w' \/ refused (F, S, B, M) r w') (fun _ _ => False) w.
Proof.
  intros Hini Hw. apply wp_bind. unfold amqp_openssl_bio. apply wp_bind. unfold statics, wp at 1.
  rewrite (mw_statics _ _ _ Hw). unfold c_assert. rewrite Hini. apply wp_bind, wp_ret, wp_ret, wp_bind.
  eapply (wp_library _ (fun r y => match r with None => x_owned y = with_fd | Some b =>
    (b ∉ B) /\ x_owned y = ({[fd]} ∪ F, {[s]} ∪ S, {[b]} ∪ B, M) end)); [exact Hw| |].
  { wp_use x_bio_new; [|done]. intros r y (Hd & Hx & Hr). split_and!; [done|done|].
    pose proof (mw_owned _ _ _ Hw) as HR. unfold x_owned in HR, Hr. injection HR as E1 E2 E3 E4.
    rewrite E1, E2, E3, E4 in Hr. by destruct r. }
  intros [b|] w1 Hb Hw1.
  2: { rewrite Hb in Hw1. wp_use wp_error_out2; [|exact Hw1|by right|done]. done. }
  destruct Hb as [Hb Hb1]. rewrite Hb1 in Hw1. apply wp_bind. eapply wp_the_ssl_socket; [apply Hw1|]. apply wp_bind.
  eapply wp_quiet; [exact Hw1|intros; apply x_set_fd|]. intros _ w2 Hw2. apply wp_bind. eapply wp_on_ssl; [done|]. simpl.
  eapply (wp_library _ (fun _ y => x_owned y = with_fd)); [exact Hw2| |].
  { wp_use x_set_bio; [|done]. intros _ y (Hd & Hx & Ho). split_and!; [done|done|]. rewrite Ho.
    pose proof (mw_owned _ _ _ Hw2) as HR. unfold x_owned in HR. injection HR as -> -> -> ->. by rewrite without_new. }
  intros _ w3 Ho3 Hw3. rewrite Ho3 in Hw3. apply wp_bind. eapply wp_on_ssl; [done|]. simpl.
  eapply wp_quiet; [exact Hw3|intros; apply x_host_name|]. intros r w4 Hw4. destruct (_ =? _).
  - apply wp_bind. eapply wp_on_ssl; [done|]. eapply wp_quiet; [exact Hw4|intros; apply x_get_error|].
    intros error w5 Hw5. apply wp_bind. eapply wp_error; [exact Hw5|]. intros w6 Hw6 _.
    wp_use wp_error_out2; [|exact Hw6|by right|done]. done.
  - apply wp_bind. wp_use wp_start_connect; [exact Hw4| |done]. intros [status|] w5 [Hst [e5 Hw5]].
    + wp_use wp_error_out2; [congruence|exact Hw5|by right|done].
    + by eapply wp_verify.
Qed.
End Open.

(** ** Opening *)

Section Whole.
Context {W : Type} {HO : Os W} {HC : Clock W} {HP : Poll W} {HX : OpenSSL W} {HD : DescriptorLaws W}.
Context {HL : OpenSSLLaws W}.
Context (fuel : nat) (self : Z).

(** Open: one descriptor and one SSL object more, and the checks have passed. *)
Definition open_at (o : amqp_ssl_socket_t) (host : list Z) (w : tls W) (r : Z) (w' : tls W) : Prop :=
  exists s fd, (s ∉ x_ssl (tl_sys w)) /\ (fd ∉ d_open (tl_sys w)) /\
    opened fuel self w o (d_open (tl_sys w)) (x_ssl (tl_sys w)) (x_bios (tl_sys w)) (x_refs (tl_sys w)) s fd host r w'.

(** Given up for the timeout: the object is closed, but its SSL object lives. *)
Definition abandoned (o : amqp_ssl_socket_t) (timeout : option timeval) (w : tls W) (r : Z) (w' : tls W) : Prop :=
  timeout <> None /\ (r = AMQP_STATUS_INVALID_PARAMETER \/ r = AMQP_STATUS_TIMER_FAILURE) /\
  exists s, (s ∉ x_ssl (tl_sys w)) /\
    midway fuel self w (object o (-1) (Some s) (internal_error o))
      (d_open (tl_sys w), {[s]} ∪ x_ssl (tl_sys w), x_bios (tl_sys w), x_refs (tl_sys w)) w'.

Lemma wp_deadline timeout t (y : W) :
  wp (amqp_time_from_now t timeout) (fun '(_, r) y' => x_same y y' /\
    (r = AMQP_STATUS_OK \/ timeout <> None /\ (r = AMQP_STATUS_INVALID_PARAMETER \/ r = AMQP_STATUS_TIMER_FAILURE)))
    (fun _ _ => False) y.
Proof.
  assert (Hy : x_same y y) by done. destruct timeout as [tv|]; [|apply wp_ret; split; [done|by left]]. simpl.
  destruct (_ || _); [apply wp_ret; split; [done|by right; split; [|left]]|]. apply wp_bind.
  unfold amqp_get_monotonic_timestamp. apply wp_bind. wp_use d_clock; [|done].
  intros tp y' Hy'. apply x_same_descriptors in Hy'.
  assert (Hend : forall now, wp (if now =? 0 then ret (t, AMQP_STATUS_TIMER_FAILURE) else
    ret (time_after now (u64 (u64 (u64 (tv_sec tv) * AMQP_NS_PER_S) + u64 (u64 (tv_usec tv) * AMQP_NS_PER_US)))))
    (fun '(_, r) y' => x_same y y' /\ (r = AMQP_STATUS_OK \/ Some tv <> None /\
      (r = AMQP_STATUS_INVALID_PARAMETER \/ r = AMQP_STATUS_TIMER_FAILURE))) (fun _ _ => False) y').
  { intros now. destruct (_ =? 0); apply wp_ret; [split; [done|by right; split; [|right]]|].
    unfold time_after. destruct (_ || _); (split; [done|]); [by right; split; [|left]|by left]. }
  destruct tp as [[sec nsec]|]; apply wp_ret; apply Hend.
Qed.

(** What the program owns with the SSL object [s] more. *)
Definition plus_ssl (s : Z) (w : tls W) :=
  (d_open (tl_sys w), {[s]} ∪ x_ssl (tl_sys w), x_bios (tl_sys w), x_refs (tl_sys w)).

Lemma wp_open_descriptor o host port timeout s w w1 :
  amqp_ssl_bio_initialized (tl_statics w) = true -> (s ∉ x_ssl (tl_sys w)) ->
  midway fuel self w (object o (-1) (Some s) (internal_error o)) (plus_ssl s w) w1 ->
  wp (open_descriptor fuel self host port timeout) (fun r w' =>
    open_at o host w r w' \/ refused fuel self w o (x_owned (tl_sys w)) r w' \/ abandoned o timeout w r w')
    (fun _ _ => False) w1.
Proof.
  intros Hini Hs Hw1. apply wp_bind.
  eapply (wp_library fuel self w _ (fun '(_, r) y => x_owned y = plus_ssl s w /\ (r = AMQP_STATUS_OK \/
    timeout <> None /\ (r = AMQP_STATUS_INVALID_PARAMETER \/ r = AMQP_STATUS_TIMER_FAILURE)))); [exact Hw1| |].
  { wp_use wp_deadline; [|done]. intros [t r] y [(Hy & Hd & Hr) Hst]. split_and!; [done|done|rewrite Hy; apply Hw1|done]. }
  intros [deadline status] w2 [Ho2 Hst] Hw2. rewrite Ho2 in Hw2.
  destruct (Z.eqb_spec status AMQP_STATUS_OK) as [->|Hne]; simpl.
  2: { apply wp_ret. right; right. destruct Hst as [?|[Ht Hr]]; [done|]. split_and!; [done|done|]. by exists s. }
  apply wp_bind.
  eapply (wp_library fuel self w _ (fun r y =>
    0 <= r /\ (r ∉ d_open (tl_sys w)) /\ x_owned y = ({[r]} ∪ d_open (tl_sys w), {[s]} ∪ x_ssl (tl_sys w),
      x_bios (tl_sys w), x_refs (tl_sys w)) \/ r < -1 /\ x_owned y = plus_ssl s w)); [exact Hw2| |].
  { wp_use wp_open_socket; [apply Hw2| |done]. intros r y (Hd & Hr & Hop).
    destruct (x_unaffected _ _ Hr) as (H1 & H2 & H3 & H4 & _). split_and!; [done|by rewrite H4|].
    pose proof (mw_owned _ _ _ _ _ _ Hw2) as HR. unfold plus_ssl, x_owned in *. injection HR as E1 E2 E3 E4.
    rewrite H1, H2, H3, E2, E3, E4. rewrite E1 in Hop.
    destruct Hop as [(? & ? & ->)|[? ->]]; [by left|by right]. }
  intros fd w3 Hop Hw3. apply wp_bind. eapply wp_field; [exact Hw3|]. intros w4 Hw4 _.
  destruct Hop as [(Hpos & Hnew & Ho3)|[Hneg Ho3]]; rewrite Ho3 in Hw4.
  - rewrite (proj2 (Z.ltb_ge _ _)) by lia.
    wp_use wp_handshake; [exact Hs|exact Hnew|exact Hini|exact Hw4| |done].
    intros r w' [Hok|Hno]; [left; by exists s, fd|by right; left].
  - rewrite (proj2 (Z.ltb_lt _ _)) by lia. apply wp_bind.
    eapply wp_quiet; [exact Hw4|intros; apply x_errno|]. intros errno w5 Hw5. apply wp_bind.
    eapply wp_error; [exact Hw5|]. intros w6 Hw6 _. apply wp_bind. eapply wp_field; [exact Hw6|]. intros w7 Hw7 _.
    wp_use wp_error_out1; [exact Hs| |exact Hw7|by right; left|done]. unfold AMQP_STATUS_OK. lia.
Qed.

Lemma wp_ssl_open o host port timeout w :
  tl_sockets w !! self = Some o -> sockfd o = -1 -> amqp_ssl_bio_initialized (tl_statics w) = true ->
  (d_waits (tl_sys w) < fuel)%nat -> (x_rounds (tl_sys w) < fuel)%nat ->
  wp (amqp_ssl_socket_open fuel self host port timeout) (fun r w' =>
    open_at o host w r w' \/ refused fuel self w o (x_owned (tl_sys w)) r w' \/ abandoned o timeout w r w')
    (fun _ _ => False) w.
Proof.
  intros Ho Hfd Hini Hf Hx. apply wp_bind. eapply wp_the_ssl_socket; [exact Ho|]. rewrite Hfd. simpl.
  assert (Hobj : o = object o (-1) (ssl o) (internal_error o)) by (destruct o; simpl in *; by subst).
  assert (Hw : midway fuel self w (object o (-1) (ssl o) (internal_error o)) (x_owned (tl_sys w)) w) by (by rewrite <- Hobj).
  apply wp_bind. eapply wp_quiet; [exact Hw|intros; apply x_clear_error|]. clear Hw. intros _ w1 Hw1.
  apply wp_bind. unfold on_ctx. apply wp_bind. eapply wp_the_ssl_socket; [apply Hw1|].
  eapply (wp_library fuel self w _ (fun r y => match r with None => x_owned y = x_owned (tl_sys w) | Some s =>
    (s ∉ x_ssl (tl_sys w)) /\ x_owned y = plus_ssl s w end)); [exact Hw1| |].
  { wp_use x_new; [|done]. intros r y (Hd & Hr & Hnew). split_and!; [done|done|].
    pose proof (mw_owned _ _ _ _ _ _ Hw1) as HR. unfold plus_ssl, x_owned in *. injection HR as E1 E2 E3 E4.
    rewrite E1, E2, E3, E4 in Hnew. by destruct r. }
  intros [s|] w2 Hs Hw2; apply wp_bind; (eapply wp_field; [exact Hw2|]); intros w3 Hw3 _.
  - destruct Hs as [Hs Hs2]. rewrite Hs2 in Hw3. by eapply wp_open_descriptor.
  - rewrite Hs in Hw3. apply wp_bind. eapply wp_quiet; [exact Hw3|intros; apply x_peek_error|].
    intros error w4 Hw4. apply wp_bind. eapply wp_error; [exact Hw4|]. intros w5 Hw5 _. apply wp_ret.
    right; left. split; [done|]. by exists (to_int error).
Qed.
End Whole.
