(* ===== verification/Vault.v ===== *)
(** * A small OpenSSL

    A library that keeps the laws of TlsTheory.v, on top of the
    machine of TcpTheorems.v: handles are numbers that are never used again, every
    handshake has to wait a given number of times, and the other side shows a given
    certificate.  It serves as the concrete library of the examples. *)

From stdpp Require Import gmultiset.
From S2P Require Import Prelude Machine Status Alloc Codec Table Framing Methods MethodDecode MethodEncode Properties Mem MemTheory Time Frame Connection ParserTheory Socket TcpSocket Network Scripted PoolTheorems TcpTheorems TlsSocket TlsTheory.

Record vault : Type := mk_vault {
  va_machine : machine;
  va_ssl : gset Z;
  va_bios : gset Z;
  va_refs : gmultiset Z;
  va_rounds : nat;
  va_peer : option Z;
  va_verdict : Z;
  va_host : list Z;
  va_next : Z
}.

Definition va_objects (ssls bios : gset Z) (refs : gmultiset Z) (rounds : nat) (next : Z) (v : vault) : vault :=
  {| va_machine := va_machine v; va_ssl := ssls; va_bios := bios; va_refs := refs; va_rounds := rounds;
     va_peer := va_peer v; va_verdict := va_verdict v; va_host := va_host v; va_next := next |}.

Definition va_with (m : machine) (v : vault) : vault :=
  {| va_machine := m; va_ssl := va_ssl v; va_bios := va_bios v; va_refs := va_refs v; va_rounds := va_rounds v;
     va_peer := va_peer v; va_verdict := va_verdict v; va_host := va_host v; va_next := va_next v |}.

(** What the machine below knows nothing about. *)
Definition va_rest (v : vault) :=
  (va_ssl v, va_bios v, va_refs v, va_rounds v, (va_peer v, va_verdict v, va_host v)).

Definition in_vault {A} (m : C machine A) : C vault A := fun v =>
  match m (va_machine v) with
  | Ret a y => Ret a (va_with y v)
  | Err e y => Err e (va_with y v)
  | UB => UB
  | NoFuel => NoFuel
  end.

#[export] Instance vault_os : Os vault := {|
  os_send := fun fd data flags => in_vault (os_send fd data flags);
  os_recv := fun fd n flags => in_vault (os_recv fd n flags);
  os_close := fun fd => in_vault (os_close fd);
  os_socket := fun a b c => in_vault (os_socket a b c);
  os_fcntl := fun fd cmd arg => in_vault (os_fcntl fd cmd arg);
  os_setsockopt := fun fd level name v => in_vault (os_setsockopt fd level name v);
  os_getsockopt := fun fd level name => in_vault (os_getsockopt fd level name);
  os_connect := fun fd a => in_vault (os_connect fd a);
  os_getaddrinfo := fun host port h => in_vault (os_getaddrinfo host port h)
|}.

#[export] Instance vault_clock : Clock vault := {| clock_gettime := in_vault clock_gettime |}.
#[export] Instance vault_poll : Poll vault := {| os_poll := fun fd event ms => in_vault (os_poll fd event ms) |}.

(** A new SSL object. *)
Definition va_ssl_new : C vault handle := fun v =>
  if bool_decide (va_next v ∈ va_ssl v) then Ret None v
  else Ret (Some (va_next v)) (va_objects ({[va_next v]} ∪ va_ssl v) (va_bios v) (va_refs v) (va_rounds v) (va_next v + 1) v).

Definition va_ssl_free (s : handle) : C vault unit := fun v =>
  match s with
  | None => Ret tt v
  | Some s => Ret tt (va_objects (va_ssl v ∖ {[s]}) (va_bios v) (va_refs v) (va_rounds v) (va_next v) v)
  end.

Definition va_bio_new : C vault handle := fun v =>
  if bool_decide (va_next v ∈ va_bios v) then Ret None v
  else Ret (Some (va_next v)) (va_objects (va_ssl v) ({[va_next v]} ∪ va_bios v) (va_refs v) (va_rounds v) (va_next v + 1) v).

Definition va_set_bio (b : handle) : C vault unit := fun v =>
  match b with
  | None => Ret tt v
  | Some b => Ret tt (va_objects (va_ssl v) (va_bios v ∖ {[b]}) (va_refs v) (va_rounds v) (va_next v) v)
  end.

Definition va_connect : C vault Z := fun v =>
  match va_rounds v with
  | O => Ret 1 v
  | S n => Ret (-1) (va_objects (va_ssl v) (va_bios v) (va_refs v) n (va_next v) v)
  end.

Definition va_certificate : C vault handle := fun v =>
  Ret (va_peer v) (va_objects (va_ssl v) (va_bios v)
    (match va_peer v with None => va_refs v | Some c => {[+ c +]} ⊎ va_refs v end) (va_rounds v) (va_next v) v).

Definition va_x509_free (c : handle) : C vault unit := fun v =>
  Ret tt (va_objects (va_ssl v) (va_bios v)
    (match c with None => va_refs v | Some c => va_refs v ∖ {[+ c +]} end) (va_rounds v) (va_next v) v).

(** Writing and reading fail while the descriptor is not ready; using the null
    pointer is undefined. *)
Definition va_write (s : handle) (data : list Z) : C vault Z := fun v =>
  match s with
  | None => UB
  | Some _ =>
      match sc_hiccups (mc_script (va_machine v)) with
      | O => in_vault (as_system (script_send data)) v
      | S _ => Ret (-1) v
      end
  end.

Definition va_read (s : handle) (n : Z) : C vault (Z * list Z) := fun v =>
  match s with
  | None => UB
  | Some _ =>
      match sc_hiccups (mc_script (va_machine v)), sc_coming (mc_script (va_machine v)) with
      | O, [] => Ret (0, []) v
      | O, _ => in_vault (as_system (script_recv n)) v
      | S _, _ => Ret (-1, []) v
      end
  end.

(** With or without the memory for a BIO method. *)
Definition vault_library (memory : bool) : OpenSSL vault := {|
  amqp_os_socket_error := ret 0;
  pthread_mutex_lock := ret 0;
  pthread_mutex_unlock := ret 0;
  ERR_clear_error := ret tt;
  ERR_peek_error := ret 0;
  SSL_new := fun _ => va_ssl_new;
  SSL_free := va_ssl_free;
  SSL_write := va_write;
  SSL_read := va_read;
  SSL_get_error := fun _ r => ret (if r =? 0 then SSL_ERROR_ZERO_RETURN else SSL_ERROR_WANT_READ);
  SSL_set_bio := fun _ b _ => va_set_bio b;
  SSL_set_tlsext_host_name := fun _ _ => ret 1;
  SSL_connect := fun _ => va_connect;
  SSL_shutdown := fun _ => ret 0;
  SSL_get_peer_certificate := fun _ => va_certificate;
  SSL_get_verify_result := fun _ v => Ret (va_verdict v) v;
  X509_check_host := fun _ host _ v => Ret (if bool_decide (host = va_host v) then 1 else 0) v;
  X509_free := va_x509_free;
  SSL_CTX_new := ret (Some 5);
  SSL_CTX_free := fun _ => ret tt;
  SSL_CTX_set_mode := fun _ _ => ret tt;
  SSL_CTX_clear_mode := fun _ _ => ret tt;
  SSL_CTX_set_min_proto_version := fun _ _ => ret 1;
  SSL_CTX_set_max_proto_version := fun _ _ => ret 1;
  SSL_CTX_load_verify_locations := fun _ _ => ret 1;
  SSL_CTX_use_certificate_chain_file := fun _ _ => ret 1;
  SSL_CTX_use_PrivateKey_file := fun _ _ _ => ret 1;
  SSL_CTX_use_PrivateKey := fun _ _ => ret 1;
  SSL_CTX_use_RSAPrivateKey := fun _ _ => ret 1;
  SSL_CTX_set_default_passwd_cb_userdata := fun _ _ => ret tt;
  BIO_new := fun _ => va_bio_new;
  BIO_set_fd := fun _ _ _ => ret tt;
  BIO_get_fd := fun _ => ret 3;
  BIO_clear_retry_flags := fun _ => ret tt;
  BIO_set_retry_read := fun _ => ret tt;
  BIO_set_retry_write := fun _ => ret tt;
  BIO_new_mem_buf := fun _ => ret (Some 6);
  BIO_vfree := fun _ => ret tt;
  BIO_s_socket := ret (Some 8);
  BIO_meth_new := fun _ => ret (if memory then Some 7 else None);
  BIO_meth_free := fun _ => ret tt;
  BIO_meth_get := fun _ _ => ret (BIO_builtin 0);
  BIO_meth_set := fun _ _ _ => ret tt;
  PEM_read_bio_RSAPrivateKey := fun _ => ret (Some 9);
  RSA_free := fun _ => ret tt;
  EVP_PKEY_free := fun _ => ret tt;
  ENGINE_load_builtin_engines := ret tt;
  ENGINE_by_id := fun _ => ret None;
  ENGINE_free := fun _ => ret tt;
  ENGINE_set_default := fun _ _ => ret 1;
  ENGINE_load_private_key := fun _ _ => ret None
|}.

#[export] Instance vault_openssl : OpenSSL vault := vault_library true.

Lemma wp_in_vault {A} (m : C machine A) (Q : A -> vault -> Prop) E v :
  wp m (fun a y => Q a (va_with y v)) (fun e y => E e (va_with y v)) (va_machine v) -> wp (in_vault m) Q E v.
Proof. unfold wp, in_vault. by destruct (m (va_machine v)). Qed.

#[export] Instance vault_descriptors : DescriptorLaws vault.
Proof.
  refine {| d_open := fun v => d_open (va_machine v); d_waits := fun v => d_waits (va_machine v); d_rest := va_rest |}.
  - intros a b c v. apply wp_in_vault. wp_use d_socket; [|done]. intros fd y (Hw & _ & Hr). by split_and!.
  - intros fd v. apply wp_in_vault. wp_use d_close; [|done]. intros r y (Ho & Hw & _). by split_and!.
  - intros fd cmd arg v. apply wp_in_vault. wp_use d_fcntl; [|done]. intros r y (Ho & Hw & _). by split_and!.
  - intros fd level name x v. apply wp_in_vault. wp_use d_setsockopt; [|done]. intros r y (Ho & Hw & _). by split_and!.
  - intros fd level name v. apply wp_in_vault. wp_use d_getsockopt; [|done]. intros r y (Ho & Hw & _). by split_and!.
  - intros fd a v. apply wp_in_vault. wp_use d_connect; [|done]. intros r y (Ho & Hw & _). by split_and!.
  - intros host port h v. apply wp_in_vault. wp_use d_getaddrinfo; [|done]. intros r y [(Ho & Hw & _) Hr]. by split_and!.
  - intros v. apply wp_in_vault. wp_use d_clock; [|done]. intros r y (Ho & Hw & _). by split_and!.
  - intros fd event ms v. apply wp_in_vault. wp_use d_poll; [|done]. intros [r errno] y [(Ho & Hw & _) Hr]. by split_and!.
Defined.

#[export] Instance vault_laws : OpenSSLLaws vault.
Proof.
  refine {| x_ssl := va_ssl; x_bios := va_bios; x_refs := va_refs; x_rounds := va_rounds;
            x_peer := fun v _ => va_peer v; x_verdict := fun v _ => va_verdict v;
            x_matches := fun v _ host => bool_decide (host = va_host v) |}; try (intros; by unfold wp; simpl).
  - intros w w' Hr. unfold d_rest, vault_descriptors, va_rest in Hr. injection Hr as -> -> -> -> -> -> ->. done.
  - intros c w. unfold wp. simpl. unfold va_ssl_new. case_bool_decide; simpl; by split_and!.
  - intros m w. unfold wp. simpl. unfold va_bio_new. case_bool_decide; simpl; by split_and!.
  - intros s w. unfold wp. simpl. unfold va_connect. destruct (va_rounds w) as [|n] eqn:E; simpl.
    + split; [split_and!; [done|done|lia]|done].
    + split; [split_and!; [done|done|simpl; lia]|intros _; simpl; lia].
  - intros c host flags w. unfold wp. simpl. split; [done|]. split; [done|]. by case_bool_decide.
Defined.

(** The SSL object 1 over the descriptor 3. *)
#[export] Instance vault_secure : SecureLaws vault.
Proof.
  refine {| t_ssl := 1; t_fd := 3; t_ok := fun v => machine_ok (va_machine v); t_healthy := fun _ => True;
            t_sent := fun v => sc_sent (mc_script (va_machine v)); t_coming := fun v => sc_coming (mc_script (va_machine v));
            t_waits := fun v => sc_hiccups (mc_script (va_machine v));
            t_error := fun _ r => if r =? 0 then SSL_ERROR_ZERO_RETURN else SSL_ERROR_WANT_READ |};
    [done|intros..]; try by unfold wp; simpl.
  - unfold wp. simpl. split; [done|]. intros _. split; [done|]. by exists 5, 7.
  - unfold wp, SSL_write. simpl. unfold va_write. destruct (sc_hiccups (mc_script (va_machine w))) as [|n] eqn:E.
    + pose proof (script_send_law data 0 (mc_script (va_machine w)) ltac:(done) ltac:(done)) as Hl.
      specialize (Hl ltac:(unfold PTRDIFF_MAX, INT32_MAX in *; lia)). unfold wp in Hl.
      unfold in_vault, as_system. destruct (script_send data (mc_script (va_machine w))) as [r y| | |] eqn:Es; try done. simpl.
      destruct Hl as (Hok & Hc & Hw & _ & Hr). split_and!; try done; [by rewrite <- E|].
      unfold script_send in Es. rewrite E in Es. injection Es as <- <-. destruct H as [Hch _].
      assert (0 < zlen data) by (destruct data; [done|unfold zlen; simpl; lia]).
      rewrite (proj2 (Z.ltb_lt 0 _)) in Hr by lia. left. split; [lia|apply Hr].
    + split_and!; try done; [by rewrite E|]. right. split_and!; [done|done|]. intros _. split; [by left|by rewrite E; lia].
  - unfold wp, SSL_read. simpl. unfold va_read. destruct (sc_hiccups (mc_script (va_machine w))) as [|k] eqn:E.
    + destruct (sc_coming (mc_script (va_machine w))) as [|c l] eqn:El.
      { split_and!; try done; [by rewrite E|]. right. by split_and!. }
      pose proof (script_recv_law n 0 (mc_script (va_machine w)) ltac:(done) ltac:(lia)) as Hl. unfold wp in Hl.
      unfold in_vault, as_system. unfold script_recv in *. rewrite E, El in *. simpl in Hl |- *.
      destruct Hl as (Hok & _ & _ & _ & Hr). destruct H as [Hch _].
      assert (0 < zlen (c :: l)) by (unfold zlen; simpl; lia).
      rewrite (proj2 (Z.ltb_lt 0 _)) in Hr by lia. split_and!; try done. left.
      destruct Hr as (Hle & Hz & Hb & Hco). split_and!; try done; lia.
    + split_and!; try done; [by rewrite E|]. right. split_and!; [done|done|done|]. intros _ _. split; [by left|by rewrite E; lia].
  - pose proof (o_poll fd event ms (va_machine w) H) as Hl.
    apply wp_in_vault. wp_use Hl; [|done]. intros [r errno] y (Ho & Hs & Hc & Hw & Hlt & H0 & Hh). by split_and!.
Defined.

(** A new program. *)
Definition young_vault : vault :=
  {| va_machine := small_machine; va_ssl := ∅; va_bios := ∅; va_refs := ∅; va_rounds := 2; va_peer := Some 77;
     va_verdict := X509_V_OK; va_host := [104; 0]; va_next := 1 |}.

Definition young_program : cst (tls vault) :=
  {| conn := zeroed_connection {| p_block := 1; p_off := 0 |};
     hp := {| h_blocks := ∅; h_next := 10; h_count := 0; h_env := generous |};
     world := {| tl_sys := young_vault; tl_sockets := ∅; tl_statics := initial_statics |} |}.

(** With a closed socket, and with a connected one. *)
Definition one_socket (o : amqp_ssl_socket_t) : tls vault :=
  {| tl_sys := young_vault; tl_sockets := {[11 := o]};
     tl_statics := {| amqp_ssl_bio_initialized := true; amqp_bio_method := Some 7; openssl_bio_initialized := true;
                      openssl_connections := 1; openssl_engine := None |} |}.

Definition closed_socket : amqp_ssl_socket_t := with_ctx (Some 5) new_ssl_socket.
Definition connected_socket : amqp_ssl_socket_t := with_sockfd 3 (with_ssl (Some 1) closed_socket).
