(* ===== verification/TlsTheorems.v ===== *)
(** * Theorems about TLS sockets

    A socket that opens has verified its peer, and one that fails to open leaves
    nothing behind but in one case; the BIO method exists exactly while there are
    sockets; and over an OpenSSL whose calls behave as documented, the TLS socket
    class keeps the contract of [Network.v], so that everything proved there about
    connections holds over TLS. *)

From stdpp Require Import gmultiset.
From S2P Require Import Prelude Machine Status Alloc Codec Table Framing Methods MethodDecode MethodEncode Properties Mem MemTheory Time Frame Connection ParserTheory Socket TcpSocket Network Scripted PoolTheorems TcpTheorems TlsSocket TlsTheory Vault.

(** ** Streams *)

Section Secure.
Context {W : Type} {HO : Os W} {HC : Clock W} {HP : Poll W} {HX : OpenSSL W} {HL : SecureLaws W}.
Context (fuel : nat) (self : Z).

(** The object is connected. *)
Definition secure (o : amqp_ssl_socket_t) : Prop := sockfd o = t_fd /\ ssl o = Some t_ssl.

(** The object [self] is a socket for [t_ssl], or a closed one. *)
Definition tls_ok (w : tls W) : Prop :=
  t_ok (tl_sys w) /\ exists o, tl_sockets w !! self = Some o /\ (secure o \/ sockfd o = -1).

Definition tls_healthy (w : tls W) : Prop :=
  t_healthy (tl_sys w) /\ exists o, tl_sockets w !! self = Some o /\ secure o.

(** Connected, with the system [y]. *)
Definition secured (y : W) (w : tls W) : Prop :=
  tl_sys w = y /\ exists o, tl_sockets w !! self = Some o /\ secure o.

Lemma secured_ok w y : secured y w -> t_ok y -> tls_ok w /\ (t_healthy y -> tls_healthy w).
Proof. intros (<- & o & Ho & Hs) Hy. split; [split; [done|exists o; split; [done|by left]]|]. intros Hh. split; [done|by exists o]. Qed.

Lemma wp_secured {A} (m : C W A) (P : A -> W -> Prop) Q E y w :
  secured y w -> wp m P (fun _ _ => False) y -> (forall a y' w', P a y' -> secured y' w' -> Q a w') ->
  wp (on_sys m) Q E w.
Proof.
  intros (<- & o & Ho & Hs) Hm HQ. apply wp_on_sys. wp_use Hm; [|done]. intros a y' Ha. eapply HQ; [done|].
  split; [done|by exists o].
Qed.

Lemma wp_secured_ssl {A} (m : handle -> C W A) (P : A -> W -> Prop) Q E y w :
  secured y w -> wp (m (Some t_ssl)) P (fun _ _ => False) y -> (forall a y' w', P a y' -> secured y' w' -> Q a w') ->
  wp (on_ssl self m) Q E w.
Proof.
  intros Hw Hm HQ. pose proof Hw as (_ & o & Ho & Hfd & Hss). apply wp_bind. eapply wp_the_ssl_socket; [exact Ho|].
  rewrite Hss. by eapply wp_secured.
Qed.

Lemma wp_secured_error e (Q : unit -> tls W -> Prop) E y w :
  secured y w -> (forall w', secured y w' -> Q tt w') -> wp (set_ssl_error self e) Q E w.
Proof.
  intros (<- & o & Ho & Hs) HQ. eapply wp_upd_ssl; [exact Ho|]. apply HQ. split; [done|].
  eexists. simpl. rewrite lookup_insert_eq. split; [done|]. exact Hs.
Qed.

(** The statuses of failed calls. *)
Lemma ssl_status_range e : - 2 ^ 31 <= ssl_status e < 0.
Proof. unfold ssl_status. destruct (_ =? _); [|destruct (_ =? _); [|destruct (_ =? _)]]; by vm_compute. Qed.

Lemma ssl_status_wants e : e = SSL_ERROR_WANT_READ \/ e = SSL_ERROR_WANT_WRITE -> would_block (ssl_status e).
Proof. intros [-> | ->]; [by left|by right]. Qed.

Lemma tls_send_contract data flags w : tls_ok w -> data <> [] -> zlen data <= INT32_MAX ->
  wp (amqp_ssl_socket_send self data flags) (fun r w' =>
    tls_ok w' /\ t_coming (tl_sys w') = t_coming (tl_sys w) /\ (t_waits (tl_sys w') <= t_waits (tl_sys w))%nat /\
    (tls_healthy w -> tls_healthy w') /\
    if 0 <? r then r <= zlen data /\ t_sent (tl_sys w') = t_sent (tl_sys w) ++ take (Z.to_nat r) data
    else - 2 ^ 31 <= r < 0 /\ t_sent (tl_sys w') = t_sent (tl_sys w) /\
         (tls_healthy w -> would_block r /\ (0 < t_waits (tl_sys w'))%nat)) (fun _ _ => False) w.
Proof.
  intros Hok Hne Hmax. pose proof Hok as (Hy & o & Ho & Hs). apply wp_bind. eapply wp_the_ssl_socket; [exact Ho|].
  destruct Hs as [Hs|Hs].
  2: { rewrite Hs. apply wp_ret. simpl. split_and!; try done. intros (_ & o' & Ho' & Hfd & _). pose proof t_fd_valid. congruence. }
  rewrite (proj1 Hs), (proj2 (Z.eqb_neq _ _)) by apply t_fd_valid. unfold INT_MAX. rewrite (proj2 (Z.ltb_ge _ _)) by done.
  apply wp_bind. eapply wp_secured; [split; [reflexivity|by exists o]|by apply t_clear|].
  intros [] y1 w1 ((Hy1 & Hs1 & Hc1 & Hw1) & Hh1) Hw1'. apply wp_bind. eapply wp_secured_error; [exact Hw1'|].
  clear Hw1' w1. intros w1 Hsec1. apply wp_bind. eapply wp_secured_ssl; [exact Hsec1|by apply t_write|].
  intros r y2 w2 (Hy2 & Hc2 & Hw2 & Hh2 & Hr) Hsec2. destruct Hr as [[Hr Hs2]|(Hr & Hs2 & Hblk)].
  - rewrite (proj2 (Z.leb_gt _ _)) by lia. apply wp_bind. eapply wp_secured_error; [exact Hsec2|].
    intros w3 Hsec3. apply wp_ret. destruct (secured_ok _ _ Hsec3 Hy2) as [Hok3 Hh3]. destruct Hsec3 as [-> _].
    rewrite (proj2 (Z.ltb_lt _ _)) by lia. split_and!; [done|congruence|lia|intros [? _]; by auto|lia|congruence].
  - rewrite (proj2 (Z.leb_le _ _)) by lia. apply wp_bind. eapply wp_secured_ssl; [exact Hsec2|by apply t_get_error|].
    intros e y3 w3 (-> & (Hy3 & Hs3 & Hc3 & Hw3) & Ew & Hh3) Hsec3. apply wp_bind. eapply wp_secured_error; [exact Hsec3|].
    intros w4 Hsec4. apply wp_ret. destruct (secured_ok _ _ Hsec4 Hy3) as [Hok4 Hh4]. destruct Hsec4 as [-> _].
    pose proof (ssl_status_range (t_error y2 r)). rewrite (proj2 (Z.ltb_ge _ _)) by lia.
    split_and!; [done|congruence|lia|intros [? _]; by auto|lia|lia|congruence|].
    intros [Hh _]. destruct (Hblk (Hh1 Hh)) as [Hwant Hpos]. split; [by apply ssl_status_wants|lia].
Qed.

Lemma tls_recv_contract n flags w : tls_ok w -> 0 < n <= INT32_MAX ->
  wp (amqp_ssl_socket_recv self n flags) (fun '(r, data) w' =>
    tls_ok w' /\ t_sent (tl_sys w') = t_sent (tl_sys w) /\ (t_waits (tl_sys w') <= t_waits (tl_sys w))%nat /\
    (tls_healthy w -> tls_healthy w') /\
    if 0 <? r then r <= n /\ zlen data = r /\ Forall is_byte data /\ t_coming (tl_sys w) = data ++ t_coming (tl_sys w')
    else - 2 ^ 31 <= r < 0 /\ data = [] /\ t_coming (tl_sys w') = t_coming (tl_sys w) /\
         (tls_healthy w -> t_coming (tl_sys w) <> [] -> would_block r /\ (0 < t_waits (tl_sys w'))%nat))
    (fun _ _ => False) w.
Proof.
  intros Hok Hn. pose proof Hok as (Hy & o & Ho & Hs). apply wp_bind. eapply wp_the_ssl_socket; [exact Ho|].
  destruct Hs as [Hs|Hs].
  2: { rewrite Hs. apply wp_ret. simpl. split_and!; try done. intros (_ & o' & Ho' & Hfd & _). pose proof t_fd_valid. congruence. }
  rewrite (proj1 Hs), (proj2 (Z.eqb_neq _ _)) by apply t_fd_valid. unfold INT_MAX. rewrite (proj2 (Z.ltb_ge _ _)) by lia.
  apply wp_bind. eapply wp_secured; [split; [reflexivity|by exists o]|by apply t_clear|].
  intros [] y1 w1 ((Hy1 & Hs1 & Hc1 & Hw1) & Hh1) Hw1'. apply wp_bind. eapply wp_secured_error; [exact Hw1'|].
  clear Hw1' w1. intros w1 Hsec1. apply wp_bind. eapply wp_secured_ssl; [exact Hsec1|by apply t_read|].
  intros [r data] y2 w2 (Hy2 & Hs2 & Hw2 & Hh2 & Hr) Hsec2. destruct Hr as [(Hr & Hz & Hb & Hc2)|(Hr & -> & Hc2 & Hblk)].
  - rewrite (proj2 (Z.leb_gt _ _)) by lia. apply wp_ret. destruct (secured_ok _ _ Hsec2 Hy2) as [Hok3 Hh3].
    destruct Hsec2 as [-> _]. rewrite (proj2 (Z.ltb_lt _ _)) by lia.
    split_and!; [done|congruence|lia|intros [? _]; by auto|lia|done|done|congruence].
  - rewrite (proj2 (Z.leb_le _ _)) by lia. apply wp_bind. eapply wp_secured_ssl; [exact Hsec2|by apply t_get_error|].
    intros e y3 w3 (-> & (Hy3 & Hs3 & Hc3 & Hw3) & Ew & Hh3) Hsec3. apply wp_bind. eapply wp_secured_error; [exact Hsec3|].
    intros w4 Hsec4. apply wp_ret. destruct (secured_ok _ _ Hsec4 Hy3) as [Hok4 Hh4]. destruct Hsec4 as [-> _].
    pose proof (ssl_status_range (t_error y2 r)). rewrite (proj2 (Z.ltb_ge _ _)) by lia.
    split_and!; [done|congruence|lia|intros [? _]; by auto|lia|lia|done|congruence|].
    intros [Hh _] Hne. rewrite <- Hc1 in Hne. destruct (Hblk (Hh1 Hh) Hne) as [Hwant Hpos].
    split; [by apply ssl_status_wants|lia].
Qed.

(** Closing leaves a closed object. *)
Lemma tls_close_contract force w : tls_ok w ->
  wp (amqp_ssl_socket_close self force) (fun _ w' =>
    tls_ok w' /\ t_sent (tl_sys w') = t_sent (tl_sys w) /\ t_coming (tl_sys w') = t_coming (tl_sys w) /\
    (t_waits (tl_sys w') <= t_waits (tl_sys w))%nat) (fun _ _ => False) w.
Proof.
  intros Hok. pose proof Hok as (Hy & o & Ho & Hs). apply wp_bind. eapply wp_the_ssl_socket; [exact Ho|].
  destruct Hs as [Hs|Hs]; [|by rewrite Hs; apply wp_ret].
  rewrite (proj1 Hs), (proj2 (Z.eqb_neq _ _)) by apply t_fd_valid. apply wp_bind.
  assert (Hsec : secured (tl_sys w) w) by (split; [done|by exists o]).
  assert (Hdown : wp (if force =? AMQP_SC_NONE then let* _ := on_ssl self SSL_shutdown in ret tt else ret tt)
    (fun _ w' => exists y, secured y w' /\ t_quiet (tl_sys w) y) (fun _ _ => False) w).
  { destruct (_ =? _); [|apply wp_ret; by exists (tl_sys w)]. apply wp_bind.
    eapply wp_secured_ssl; [exact Hsec|by apply t_shutdown|]. intros a y w' Hq Hw'. apply wp_ret. by exists y. }
  wp_use Hdown; [|done]. intros _ w1 (y1 & Hsec1 & Hy1 & Hs1 & Hc1 & Hw1). apply wp_bind.
  eapply wp_secured_ssl; [exact Hsec1|by apply t_free|]. intros [] y2 w2 (Hy2 & Hs2 & Hc2 & Hw2) (Hsys2 & o2 & Ho2 & Hfd2).
  apply wp_bind. eapply wp_upd_ssl; [exact Ho2|]. apply wp_bind, wp_on_sys.
  simpl. rewrite Hsys2. wp_use t_close; [done| |done]. intros r y3 (-> & Hy3 & Hs3 & Hc3 & Hw3). simpl.
  apply wp_bind. eapply wp_upd_ssl; [apply lookup_insert_eq|]. apply wp_ret. simpl. split_and!; [|congruence|congruence|lia].
  split; [done|]. eexists. simpl. rewrite lookup_insert_eq. split; [done|by right].
Qed.

(** A call that changes the system only. *)
Lemma tls_ok_sys w y : tls_ok w -> t_ok y ->
  let w' := {| tl_sys := y; tl_sockets := tl_sockets w; tl_statics := tl_statics w |} in
  tls_ok w' /\ (tls_healthy w -> t_healthy y -> tls_healthy w').
Proof. intros (_ & o & Ho & Hs) Hy w'. split; [split; [done|by exists o]|]. by intros [_ Ho'] Hh. Qed.

(** The TLS socket class keeps the contract. *)
#[local] Instance tls_class : Sockets (tls W) := amqp_ssl_socket_class fuel.

Definition tls_network_laws : NetworkLaws (tls W).
Proof.
  refine {| n_ok := tls_ok; n_healthy := tls_healthy; n_sent := fun w => t_sent (tl_sys w);
            n_coming := fun w => t_coming (tl_sys w); n_waits := fun w => t_waits (tl_sys w); n_socket := self;
            n_limit := INT32_MAX; close_law := tls_close_contract;
            send_law := tls_send_contract; recv_law := tls_recv_contract |}.
  - done.
  - intros w Hok. simpl. apply wp_on_sys. wp_use t_clock; [apply Hok| |done].
    intros r y ((Hy & Hs & Hc & Hw) & Hh). pose proof (tls_ok_sys w y Hok Hy) as [Hok' Hhe].
    split_and!; try done. intros [Hho Ho]. destruct (Hh Hho). by split; [split|].
  - intros w Hok. pose proof Hok as (Hy & o & Ho & Hs). simpl. apply wp_bind.
    eapply wp_the_ssl_socket; [exact Ho|]. apply wp_ret. split_and!; try done. intros Hh. split_and!; try done.
    destruct Hh as (_ & o' & Ho' & Hfd' & _). pose proof t_fd_valid. congruence.
  - intros fd event ms w Hok. simpl. apply wp_on_sys. wp_use t_poll; [apply Hok| |done].
    intros [r errno] y ((Hy & Hs & Hc & Hw) & Hlt & H0 & Hh). pose proof (tls_ok_sys w y Hok Hy) as [Hok' Hhe].
    split_and!; try done. intros [Hho Ho]. destruct (Hh Hho). by split; [split|].
Defined.

#[local] Existing Instance tls_network_laws.

End Secure.

(** ** Opening *)

Section Opening.
Context {W : Type} {HO : Os W} {HC : Clock W} {HP : Poll W} {HX : OpenSSL W} {HD : DescriptorLaws W}.
Context {HL : OpenSSLLaws W}.
Context (fuel : nat) (self : Z).

(** C25: a TLS socket that opens has verified its peer.  When
    [amqp_ssl_socket_open] returns [AMQP_STATUS_OK], the object holds an SSL object;
    if peer verification is on, the peer has shown a certificate and its chain has
    been found good; and if hostname verification is on, that certificate is one for
    the host that was asked for. *)
Theorem tls_open_verifies o host port timeout w :
  tl_sockets w !! self = Some o -> sockfd o = -1 -> amqp_ssl_bio_initialized (tl_statics w) = true ->
  (d_waits (tl_sys w) < fuel)%nat -> (x_rounds (tl_sys w) < fuel)%nat ->
  wp (amqp_ssl_socket_open fuel self host port timeout) (fun r w' => r = AMQP_STATUS_OK ->
    exists o' s, tl_sockets w' !! self = Some o' /\ ssl o' = Some s /\
      (verify_peer o = true -> is_Some (x_peer (tl_sys w') s) /\ x_verdict (tl_sys w') s = X509_V_OK) /\
      (verify_hostname o = true -> exists c, x_peer (tl_sys w') s = Some c /\ x_matches (tl_sys w') c host = true))
    (fun _ _ => False) w.
Proof.
  intros Ho Hfd Hini Hf Hx. wp_use (wp_ssl_open fuel self o host port timeout w); [done|done|done|done|done| |done].
  intros r w' [(s & fd & Hs & Hnew & -> & Hw' & Hpeer & Hhost)|[[Hr _]|(_ & Hr & _)]] Hok; [|done|by destruct Hr; subst].
  eexists _, s. split; [apply Hw'|]. done.
Qed.

(** C26: opening a TLS socket leaks nothing, but for one case.  It ends open with one
    descriptor and one SSL object more than before, or closed, with the object's
    fields reset and every descriptor, SSL object, BIO and certificate reference it
    has acquired on the way released.  The one exception is a timeout that cannot be
    turned into a deadline: the SSL object is then still allocated, in an object
    that counts as closed. *)
Theorem tls_open_no_leak o host port timeout w :
  tl_sockets w !! self = Some o -> sockfd o = -1 -> amqp_ssl_bio_initialized (tl_statics w) = true ->
  (d_waits (tl_sys w) < fuel)%nat -> (x_rounds (tl_sys w) < fuel)%nat ->
  wp (amqp_ssl_socket_open fuel self host port timeout) (fun r w' => exists o', tl_sockets w' !! self = Some o' /\
    ((r = AMQP_STATUS_OK /\ exists s fd, (s ∉ x_ssl (tl_sys w)) /\ (fd ∉ d_open (tl_sys w)) /\
        sockfd o' = fd /\ ssl o' = Some s /\ d_open (tl_sys w') = {[fd]} ∪ d_open (tl_sys w) /\
        x_ssl (tl_sys w') = {[s]} ∪ x_ssl (tl_sys w) /\ x_bios (tl_sys w') = x_bios (tl_sys w) /\
        x_refs (tl_sys w') = x_refs (tl_sys w)) \/
     (r <> AMQP_STATUS_OK /\ sockfd o' = -1 /\ ssl o' = None /\ x_owned (tl_sys w') = x_owned (tl_sys w)) \/
     (timeout <> None /\ (r = AMQP_STATUS_INVALID_PARAMETER \/ r = AMQP_STATUS_TIMER_FAILURE) /\
        sockfd o' = -1 /\ exists s, (s ∉ x_ssl (tl_sys w)) /\ x_ssl (tl_sys w') = {[s]} ∪ x_ssl (tl_sys w))))
    (fun _ _ => False) w.
Proof.
  intros Ho Hfd Hini Hf Hx. wp_use (wp_ssl_open fuel self o host port timeout w); [done|done|done|done|done| |done].
  intros r w' [(s & fd & Hs & Hnew & -> & Hw' & _)|[[Hr [e Hw']]|(Ht & Hr & s & Hs & Hw')]];
    eexists; (split; [apply Hw'|]); pose proof (mw_owned _ _ _ _ _ _ Hw') as HR.
  - left. split; [done|]. exists s, fd. unfold x_owned in HR. injection HR as -> -> -> ->. done.
  - right; left. done.
  - right; right. split_and!; [done|done|done|]. exists s. unfold x_owned in HR. injection HR as _ -> _ _. done.
Qed.
End Opening.

(** ** Examples *)

(** The handshake waits twice; the certificate is for the host. *)
Lemma tls_open_verifies_witness :
  exists w', amqp_ssl_socket_open 9 11 [104; 0] 5671 None (one_socket closed_socket) = Ret AMQP_STATUS_OK w' /\
    exists c, x_peer (tl_sys w') 1 = Some c /\ x_matches (tl_sys w') c [104; 0] = true.
Proof.
  unshelve epose proof (tls_open_verifies 9 11 closed_socket [104; 0] 5671 None (one_socket closed_socket)
    eq_refl eq_refl eq_refl _ _) as Hw; [apply Nat.ltb_lt; reflexivity|apply Nat.ltb_lt; reflexivity|].
  destruct (wp_run_ret _ _ _ Hw) as (r & w' & Hrun & Hpost).
  assert (r = AMQP_STATUS_OK) as -> by (clear -Hrun; vm_compute in Hrun; injection Hrun as <- _; reflexivity).
  exists w'. split; [exact Hrun|]. destruct (Hpost eq_refl) as (o' & s & _ & Hs & _ & Hhost).
  destruct (Hhost eq_refl) as (c & Hp & Hm). exists c. split; [exact Hp|exact Hm].
Defined.

(** A negative timeout: the SSL object 1 stays behind. *)
Lemma tls_open_no_leak_witness :
  exists w', amqp_ssl_socket_open 9 11 [104; 0] 5671 (Some {| tv_sec := -1; tv_usec := 0 |}) (one_socket closed_socket)
      = Ret AMQP_STATUS_INVALID_PARAMETER w' /\
    exists s, x_ssl (tl_sys w') = {[s]} ∪ x_ssl (tl_sys (one_socket closed_socket)).
Proof.
  unshelve epose proof (tls_open_no_leak 9 11 closed_socket [104; 0] 5671 (Some {| tv_sec := -1; tv_usec := 0 |})
    (one_socket closed_socket) eq_refl eq_refl eq_refl _ _) as Hw; [apply Nat.ltb_lt; reflexivity|apply Nat.ltb_lt; reflexivity|].
  destruct (wp_run_ret _ _ _ Hw) as (r & w' & Hrun & o' & Ho' & Hpost).
  assert (r = AMQP_STATUS_INVALID_PARAMETER /\ ssl o' = Some 1) as [-> Hs].
  { clear -Hrun Ho'. vm_compute in Hrun. injection Hrun as <- <-. vm_compute in Ho'. by injection Ho' as <-. }
  exists w'. split; [exact Hrun|]. destruct Hpost as [[? _]|[(_ & _ & Hn & _)|(_ & _ & _ & s & _ & Hx)]].
  - discriminate.
  - rewrite Hs in Hn. discriminate.
  - exists s. exact Hx.
Defined.

Definition tls_connection : cst (tls vault) :=
  {| conn := set_socket (Some 11) (zeroed_connection {| p_block := 1; p_off := 0 |});
     hp := {| h_blocks := ∅; h_next := 12; h_count := 0; h_env := generous |}; world := one_socket connected_socket |}.

