(* ===== verification/TlsLifetime.v ===== *)
(** * The lifetime of TLS sockets

    The BIO method that all TLS sockets share is counted: created with the first
    socket, destroyed with the last.  Creating and deleting sockets keeps the
    count equal to the number of sockets, so that the assertions of
    amqp_openssl_bio.c hold; the exception is a method that cannot be created,
    where the clean-up of the failed socket runs into one of them. *)

From S2P Require Import Prelude Machine Status Alloc Codec Table Framing Methods MethodDecode MethodEncode Properties Mem MemTheory Time Frame Connection ParserTheory Socket TcpSocket Network Scripted PoolTheorems TcpTheorems TlsSocket TlsTheory Vault.

(** ** Laws *)

(** [m] returns a value that satisfies [P]. *)
Definition returns {W A} (m : C W A) (P : A -> Prop) : Prop := forall w, wp m (fun a _ => P a) (fun _ _ => False) w.

(** The calls that create and delete sockets; the mutex works, the BIO method can
    be created, and [close] succeeds. *)
Class LifeLaws (W : Type) `{Os W, OpenSSL W} : Prop := {
  l_lock : returns pthread_mutex_lock (fun r => r = 0);
  l_unlock : returns pthread_mutex_unlock (fun r => r = 0);
  l_meth_new : returns (BIO_meth_new BIO_TYPE_SOCKET) is_Some;
  l_meth_get slot m : returns (BIO_meth_get slot m) (fun _ => True);
  l_meth_set slot m f : returns (BIO_meth_set slot m f) (fun _ => True);
  l_meth_free m : returns (BIO_meth_free m) (fun _ => True);
  l_socket_method : returns BIO_s_socket (fun _ => True);
  l_ctx_new : returns SSL_CTX_new (fun _ => True);
  l_ctx_free c : returns (SSL_CTX_free c) (fun _ => True);
  l_ctx_min c v : returns (SSL_CTX_set_min_proto_version (Some c) v) (fun _ => True);
  l_ctx_max c v : returns (SSL_CTX_set_max_proto_version (Some c) v) (fun _ => True);
  l_ctx_mode c m : returns (SSL_CTX_set_mode (Some c) m) (fun _ => True);
  l_ctx_clear c m : returns (SSL_CTX_clear_mode (Some c) m) (fun _ => True);
  l_shutdown s : returns (SSL_shutdown (Some s)) (fun _ => True);
  l_free s : returns (SSL_free (Some s)) (fun _ => True);
  l_close fd : returns (os_close fd) (fun r => r = 0)
}.

Section Life.
Context {W : Type} {HO : Os W} {HC : Clock W} {HP : Poll W} {HX : OpenSSL W} {HL : LifeLaws W}.
Context (fuel : nat).

Abbreviation T A := (C (tls W) A).

(** ** The count *)

(** The static variables while there are [n] sockets. *)
Record counted (n : Z) (g : openssl_statics) : Prop := {
  co_connections : openssl_connections g = n;
  co_range : 0 <= n <= INT_MAX;
  co_ready : openssl_bio_initialized g = (0 <? n);
  co_initialized : amqp_ssl_bio_initialized g = (0 <? n);
  co_method : is_Some (amqp_bio_method g) <-> 0 < n
}.

(** A call of the library. *)
Lemma wp_returns {A} (m : C W A) P (Q : A -> tls W -> Prop) E w :
  returns m P ->
  (forall a w', P a -> tl_sockets w' = tl_sockets w -> tl_statics w' = tl_statics w -> Q a w') -> wp (on_sys m) Q E w.
Proof. intros Hm HQ. apply wp_on_sys. wp_use Hm; [|done]. intros a y Ha. by apply HQ. Qed.

Lemma wp_check (m : C W Z) (Q : unit -> tls W -> Prop) E w :
  returns m (fun r => r = 0) ->
  (forall w', tl_sockets w' = tl_sockets w -> tl_statics w' = tl_statics w -> Q tt w') -> wp (CHECK_SUCCESS m) Q E w.
Proof.
  intros Hm HQ. apply wp_bind. eapply wp_returns; [exact Hm|]. intros r w' -> Hs Hg. apply wp_ret. by apply HQ.
Qed.

(** Only the static variables change. *)
Definition static_step (w w' : tls W) (P : openssl_statics -> Prop) : Prop :=
  tl_sockets w' = tl_sockets w /\ P (tl_statics w').

Lemma wp_inherit m slot (Q : unit -> tls W -> Prop) E w :
  (forall w', tl_sockets w' = tl_sockets w -> tl_statics w' = tl_statics w -> Q tt w') -> wp (inherit_slot m slot) Q E w.
Proof.
  intros HQ. apply wp_bind. eapply wp_returns; [apply l_socket_method|]. intros x w1 _ Hs1 Hg1. apply wp_bind.
  eapply wp_returns; [apply l_meth_get|]. intros f w2 _ Hs2 Hg2. eapply wp_returns; [apply l_meth_set|].
  intros [] w3 _ Hs3 Hg3. apply HQ; congruence.
Qed.

Lemma wp_bio_init w :
  amqp_ssl_bio_initialized (tl_statics w) = false ->
  wp amqp_openssl_bio_init (fun r w' => r = AMQP_STATUS_OK /\ static_step w w' (fun g =>
    amqp_ssl_bio_initialized g = true /\ is_Some (amqp_bio_method g) /\
    openssl_bio_initialized g = openssl_bio_initialized (tl_statics w) /\
    openssl_connections g = openssl_connections (tl_statics w))) (fun _ _ => False) w.
Proof.
  intros Hi. unfold amqp_openssl_bio_init. apply wp_bind. unfold wp at 1, statics. unfold c_assert. rewrite Hi.
  apply wp_bind, wp_ret, wp_bind. eapply wp_returns; [apply l_meth_new|]. intros r w1 [m ->] Hs1 Hg1.
  apply wp_bind. unfold set_bio_method at 1. apply wp_bind. unfold wp at 1, statics. unfold wp at 1, set_statics.
  set (w2 := {| tl_sys := _; tl_sockets := _; tl_statics := _ |}).
  do 8 (apply wp_bind, wp_inherit; intros ? ? ?).
  do 2 (apply wp_bind; eapply wp_returns; [apply l_meth_set|]; intros ? ? ? ? ?).
  apply wp_bind. unfold set_bio_method. apply wp_bind. unfold wp at 1, statics. unfold wp at 1, set_statics. apply wp_ret.
  split; [done|]. assert (Hg : tl_statics w'8 = tl_statics w2) by congruence.
  split; simpl; [|rewrite Hg; simpl; by rewrite Hg1]. by transitivity (tl_sockets w2); [congruence|].
Qed.

Lemma wp_set_connections n (Q : unit -> tls W -> Prop) E w :
  n <= INT_MAX ->
  Q tt {| tl_sys := tl_sys w; tl_sockets := tl_sockets w; tl_statics :=
    {| amqp_ssl_bio_initialized := amqp_ssl_bio_initialized (tl_statics w);
       amqp_bio_method := amqp_bio_method (tl_statics w);
       openssl_bio_initialized := openssl_bio_initialized (tl_statics w); openssl_connections := n;
       openssl_engine := openssl_engine (tl_statics w) |} |} ->
  wp (set_connections n) Q E w.
Proof. intros Hn HQ. unfold set_connections. rewrite (proj2 (Z.ltb_ge _ _)) by done. exact HQ. Qed.

Lemma wp_initialize n w :
  counted n (tl_statics w) -> n < INT_MAX ->
  wp initialize_ssl_and_increment_connections (fun r w' =>
    r = AMQP_STATUS_OK /\ static_step w w' (counted (n + 1))) (fun _ _ => False) w.
Proof.
  intros [Hc Hr Hb Hi Hm] Hn. apply wp_bind, wp_check; [apply l_lock|]. intros w1 Hs1 Hg1. apply wp_bind.
  unfold wp at 1, statics. rewrite Hg1, Hb.
  assert (Hinit : wp (if negb (0 <? n) then let* status := amqp_openssl_bio_init in
        if negb (status =? 0) then ret status else do* set_bio_ready true in ret status else ret 0)
      (fun r w' => r = 0 /\ static_step w w' (fun g => amqp_ssl_bio_initialized g = true /\
         is_Some (amqp_bio_method g) /\ openssl_bio_initialized g = true)) (fun _ _ => False) w1).
  { destruct (Z.ltb_spec 0 n) as [Hpos|Hle]; simpl.
    - apply wp_ret. split; [done|]. split; [done|]. rewrite Hg1. by rewrite Hi, Hb, Hm.
    - apply wp_bind. wp_use wp_bio_init; [by rewrite Hg1, Hi| |done]. intros r w2 (-> & Hs2 & H1 & H2 & H3 & H4).
      simpl. apply wp_bind. unfold set_bio_ready. apply wp_bind. unfold wp at 1, statics. unfold wp at 1, set_statics.
      apply wp_ret. split; [done|]. split; [simpl; congruence|done]. }
  apply wp_bind. wp_use Hinit; [|done]. intros r w2 (-> & Hs2 & H1 & H2 & H3). simpl.
  apply wp_bind, wp_bind, wp_set_connections; [lia|]. apply wp_ret, wp_bind, wp_check; [apply l_unlock|].
  intros w3 Hs3 Hg3. apply wp_ret. split; [done|]. split; [by rewrite Hs3|]. rewrite Hg3.
  split; simpl; [lia|lia|rewrite H3; symmetry; apply Z.ltb_lt; lia|rewrite H1; symmetry; apply Z.ltb_lt; lia|split; [lia|done]].
Qed.

Lemma wp_decrement n w :
  counted n (tl_statics w) -> 0 < n ->
  wp decrement_ssl_connections (fun _ w' => static_step w w' (counted (n - 1))) (fun _ _ => False) w.
Proof.
  intros [Hc Hr Hb Hi Hm] Hn. apply wp_bind, wp_check; [apply l_lock|]. intros w1 Hs1 Hg1. apply wp_bind.
  unfold wp at 1, statics. rewrite Hg1, Hc, (proj2 (Z.ltb_lt _ _)) by lia. apply wp_bind, wp_set_connections; [lia|].
  apply wp_bind. unfold wp at 1, statics. simpl. rewrite Hg1. apply wp_bind.
  assert (Hpos : (0 <? n) = true) by (apply Z.ltb_lt; lia). rewrite Hpos in *.
  destruct (Z.eqb_spec (n - 1) 0) as [E|E].
  - apply wp_bind. unfold amqp_openssl_bio_destroy. apply wp_bind. unfold wp at 1, statics. simpl. rewrite Hi.
    apply wp_bind, wp_ret, wp_bind. eapply wp_returns; [apply l_meth_free|]. intros [] w2 _ Hs2 Hg2.
    unfold set_bio_method. apply wp_bind. unfold wp at 1, statics. unfold wp at 1, set_statics.
    unfold set_bio_ready. apply wp_bind. unfold wp at 1, statics. unfold wp at 1, set_statics. simpl.
    apply wp_bind, wp_check; [apply l_unlock|]. intros w3 Hs3 Hg3. apply wp_ret. split; [rewrite Hs3; simpl; by rewrite Hs2|].
    rewrite Hg3. simpl. rewrite Hg2. rewrite E. split; simpl; [lia|unfold INT_MAX, INT32_MAX; lia|done|done|].
    split; [by intros []|lia].
  - apply wp_ret, wp_bind, wp_check; [apply l_unlock|]. intros w2 Hs2 Hg2. apply wp_ret. split; [by rewrite Hs2|].
    rewrite Hg2. assert (Hlt : (0 <? n - 1) = true) by (apply Z.ltb_lt; lia).
    split; simpl; [lia|lia|by rewrite Hlt|by rewrite Hlt|]. rewrite Hm. lia.
Qed.

(** ** The objects *)

(** Of this class, in a block of their own, and connected when they have a
    descriptor. *)
Definition object_ok (h : heap) (i : Z) (o : amqp_ssl_socket_t) : Prop :=
  klass o = the_amqp_ssl_socket_class /\ (sockfd o = -1 \/ is_Some (ssl o)) /\ is_Some (h_blocks h !! i).

Record alive (h : heap) (w : tls W) : Prop := {
  al_heap : heap_ok h;
  al_count : counted (Z.of_nat (size (tl_sockets w))) (tl_statics w);
  al_objects : map_Forall (object_ok h) (tl_sockets w)
}.

(** The object [self] is now [o]; nothing else has changed. *)
Definition only (self : Z) (o : amqp_ssl_socket_t) (w w' : tls W) : Prop :=
  tl_sockets w' = <[self := o]> (tl_sockets w) /\ tl_statics w' = tl_statics w.

Lemma wp_close_alive self force o w :
  tl_sockets w !! self = Some o -> (sockfd o = -1 \/ is_Some (ssl o)) ->
  wp (amqp_ssl_socket_close self force) (fun _ w' => exists o',
    klass o' = klass o /\ (sockfd o' = -1 \/ is_Some (ssl o')) /\ only self o' w w') (fun _ _ => False) w.
Proof.
  intros Ho Hok. apply wp_bind. eapply wp_the_ssl_socket; [exact Ho|].
  destruct (Z.eqb_spec (sockfd o) (-1)) as [E|E].
  { apply wp_ret. exists o. split_and!; [done|done|]. split; [|done]. by rewrite insert_id. }
  destruct Hok as [?|[s Hs]]; [done|]. apply wp_bind.
  assert (Hdown : wp (if force =? AMQP_SC_NONE then let* _ := on_ssl self SSL_shutdown in ret tt else ret tt)
    (fun _ w' => tl_sockets w' = tl_sockets w /\ tl_statics w' = tl_statics w) (fun _ _ => False) w).
  { destruct (_ =? _); [|by apply wp_ret]. apply wp_bind, wp_bind. eapply wp_the_ssl_socket; [exact Ho|].
    rewrite Hs. eapply wp_returns; [apply l_shutdown|]. intros r w' _ H1 H2. by apply wp_ret. }
  wp_use Hdown; [|done]. intros _ w1 [Hs1 Hg1]. apply wp_bind, wp_bind.
  eapply wp_the_ssl_socket; [by rewrite Hs1|]. rewrite Hs. eapply wp_returns; [apply l_free|].
  intros [] w2 _ Hs2 Hg2. apply wp_bind. eapply wp_upd_ssl; [by rewrite Hs2, Hs1|]. apply wp_bind.
  eapply wp_returns; [apply l_close|]. intros r w3 -> Hs3 Hg3. simpl in *. apply wp_bind.
  eapply wp_upd_ssl; [rewrite Hs3; apply lookup_insert_eq|]. apply wp_ret. exists (with_sockfd (-1) (with_ssl None o)). split_and!; [done|by left|]. split; simpl.
  - by rewrite Hs3, insert_insert_eq, Hs2, Hs1.
  - congruence.
Qed.

Lemma wp_in_tls {A} (m : T A) (Q : A -> heap * tls W -> Prop) E h w :
  wp m (fun a w' => Q a (h, w')) (fun e w' => E e (h, w')) w -> wp (in_tls m) Q E (h, w).
Proof. unfold wp, in_tls. by destruct (m w). Qed.

Lemma wp_in_heap {A} (m : C heap A) (Q : A -> heap * tls W -> Prop) E h w :
  wp m (fun a h' => Q a (h', w)) (fun e h' => E e (h', w)) h -> wp (in_heap m) Q E (h, w).
Proof. unfold wp, in_heap. by destruct (m h). Qed.

Lemma wp_delete self h w :
  alive h w -> is_Some (tl_sockets w !! self) ->
  wp (amqp_ssl_socket_delete (Some self)) (fun _ '(h', w') =>
    alive h' w' /\ tl_sockets w' = delete self (tl_sockets w)) (fun _ _ => False) (h, w).
Proof.
  intros [Hh Hc Hobj] [o Ho]. destruct (Hobj self o Ho) as (_ & Hok & m & Hm). apply wp_bind, wp_bind, wp_in_tls.
  wp_use wp_close_alive; [exact Ho|exact Hok| |done]. intros r w1 (o1 & _ & _ & Hs1 & Hg1). apply wp_bind, wp_in_tls, wp_bind.
  eapply wp_the_ssl_socket; [rewrite Hs1; apply lookup_insert_eq|].
  eapply wp_returns; [apply l_ctx_free|]. intros [] w2 _ Hs2 Hg2. apply wp_bind, wp_in_heap.
  wp_use (wp_free {| p_block := self; p_off := 0 |} (zlen m)); [done|done|by exists m| |done].
  intros [] h' (Hh' & _ & Hb'). apply wp_in_tls. unfold wp at 1, forget_ssl_socket.
  set (w3 := {| tl_sys := _; tl_sockets := _; tl_statics := _ |}). simpl in Hb'.
  assert (Hs3 : tl_sockets w3 = delete self (tl_sockets w)) by (simpl; by rewrite Hs2, Hs1, delete_insert_eq).
  assert (Hsz : Z.of_nat (size (tl_sockets w)) = Z.of_nat (size (tl_sockets w3)) + 1).
  { rewrite Hs3, map_size_delete_Some by done. assert (size (tl_sockets w) <> 0%nat); [|lia].
    intros E. apply map_size_empty_inv in E. by rewrite E in Ho. }
  apply wp_bind, wp_in_tls. wp_use (wp_decrement (Z.of_nat (size (tl_sockets w)))); [simpl; congruence|lia| |done].
  intros _ w4 [Hs4 Hg4]. apply wp_ret. split; [|congruence]. split; [done| |].
  - rewrite Hs4. by replace (Z.of_nat (size (tl_sockets w3))) with (Z.of_nat (size (tl_sockets w)) - 1) by lia.
  - rewrite Hs4, Hs3. intros i x [Hne Hx]%lookup_delete_Some. destruct (Hobj i x Hx) as (? & ? & ?).
    split_and!; [done|done|]. by rewrite Hb', lookup_delete_ne.
Qed.

(** ** Creating a socket *)

Lemma wp_versions self o c vmin vmax w (Q : Z -> tls W -> Prop) E :
  tl_sockets w !! self = Some o -> klass o = the_amqp_ssl_socket_class -> ctx o = Some c ->
  (forall r w', tl_sockets w' = tl_sockets w -> tl_statics w' = tl_statics w -> Q r w') ->
  wp (amqp_ssl_socket_set_ssl_versions self vmin vmax) Q E w.
Proof.
  intros Ho Hk Hc HQ. apply wp_bind. unfold as_ssl_socket. apply wp_bind. eapply wp_the_ssl_socket; [exact Ho|].
  rewrite bool_decide_eq_true_2 by done. apply wp_ret. destruct (_ <? _); [by apply HQ|].
  destruct (get_tls_version vmin) as [v1|]; [|by apply HQ]. destruct (get_tls_version vmax) as [v2|]; [|by apply HQ].
  rewrite Hc. apply wp_bind. eapply wp_returns; [apply l_ctx_min|]. intros r1 w1 _ Hs1 Hg1.
  destruct (_ =? _); [by apply HQ|]. apply wp_bind. eapply wp_returns; [apply l_ctx_max|]. intros r2 w2 _ Hs2 Hg2.
  destruct (_ =? _); apply wp_ret, HQ; congruence.
Qed.

(** However it ends, the new socket has been counted. *)
Lemma wp_prepare self n w :
  counted n (tl_statics w) -> n < INT_MAX -> tl_sockets w !! self = Some new_ssl_socket ->
  let counted_in w' := exists o, klass o = the_amqp_ssl_socket_class /\ sockfd o = -1 /\
    tl_sockets w' = <[self := o]> (tl_sockets w) /\ counted (n + 1) (tl_statics w') in
  wp (prepare_ssl_socket self) (fun _ => counted_in) (fun _ => counted_in) w.
Proof.
  intros Hc Hn Ho counted_in. apply wp_bind. wp_use wp_initialize; [exact Hc|done| |done].
  intros r w1 (-> & Hs1 & Hg1). simpl. apply wp_bind. eapply wp_returns; [apply l_ctx_new|]. intros x w2 _ Hs2 Hg2.
  apply wp_bind. eapply wp_upd_ssl; [by rewrite Hs2, Hs1|]. set (w3 := {| tl_sys := _; tl_sockets := _; tl_statics := _ |}).
  assert (Hin : forall w', tl_sockets w' = tl_sockets w3 -> tl_statics w' = tl_statics w3 -> counted_in w').
  { intros w' Hs Hg. exists (with_ctx x new_ssl_socket). split_and!; [done|done| |].
    - rewrite Hs. simpl. by rewrite Hs2, Hs1.
    - rewrite Hg. simpl. by rewrite Hg2. }
  assert (Ho3 : tl_sockets w3 !! self = Some (with_ctx x new_ssl_socket)) by apply lookup_insert_eq.
  destruct x as [c|]; [|apply wp_throw; by apply Hin]. apply wp_bind.
  eapply wp_versions; [exact Ho3|done|done|]. intros r w4 Hs4 Hg4.
  destruct (negb _); [apply wp_throw; by apply Hin|]. apply wp_bind, wp_bind.
  eapply wp_the_ssl_socket; [by rewrite Hs4|]. eapply wp_returns; [apply l_ctx_mode|]. intros [] w5 _ Hs5 Hg5.
  apply wp_bind. eapply wp_the_ssl_socket; [by rewrite Hs5, Hs4|].
  eapply wp_returns; [apply l_ctx_clear|]. intros [] w6 _ Hs6 Hg6. apply Hin; congruence.
Qed.

(** A connection whose socket, if it has one, is alive. *)
Definition sound (s : cst (tls W)) : Prop :=
  alive (hp s) (world s) /\ (forall i, socket (conn s) = Some i -> is_Some (tl_sockets (world s) !! i)).

#[local] Instance life_class : Sockets (tls W) := amqp_ssl_socket_class fuel.

Lemma wp_on_both {A} (m : C (heap * tls W) A) (Q : A -> cst (tls W) -> Prop) E s :
  wp m (fun a '(h, w) => Q a {| conn := conn s; hp := h; world := w |})
       (fun e '(h, w) => E e {| conn := conn s; hp := h; world := w |}) (hp s, world s) ->
  wp (on_both m) Q E s.
Proof. unfold wp, on_both. destruct (m (hp s, world s)) as [a []|e []| |]; done. Qed.

Lemma wp_replace i s :
  alive (hp s) (world s) -> (forall j, socket (conn s) = Some j -> is_Some (tl_sockets (world s) !! j) /\ i <> Some j) ->
  (forall j, i = Some j -> is_Some (tl_sockets (world s) !! j)) ->
  wp (amqp_set_socket i) (fun _ s' => sound s' /\ conn s' = set_socket i (conn s)) (fun _ _ => False) s.
Proof.
  intros Hal Hold Hnew. apply wp_bind, wp_the_conn. apply wp_bind. unfold amqp_socket_delete.
  destruct (socket (conn s)) as [j|] eqn:Es.
  - apply wp_on_both. destruct (Hold j eq_refl) as [Hj Hne]. wp_use wp_delete; [exact Hal|exact Hj| |done].
    intros [] [h' w'] [Hal' Hs']. apply wp_upd. split; [|done]. split; [done|]. simpl. intros k ->.
    rewrite Hs', lookup_delete_ne by congruence. by apply Hnew.
  - apply wp_ret, wp_upd. split; [|done]. split; [done|]. simpl. intros k ->. by apply Hnew.
Qed.

(** A new object, counted. *)
Lemma alive_insert i o m h h' w w' :
  alive h w -> tl_sockets w !! i = None -> klass o = the_amqp_ssl_socket_class -> sockfd o = -1 ->
  heap_ok h' -> h_blocks h' = <[i := m]> (h_blocks h) -> tl_sockets w' = <[i := o]> (tl_sockets w) ->
  counted (Z.of_nat (size (tl_sockets w)) + 1) (tl_statics w') -> alive h' w'.
Proof.
  intros [_ _ Hobj] Hnone Hk Hfd Hh Hb Hs Hg. split; [done| |].
  - rewrite Hs, map_size_insert_None by done. by replace (Z.of_nat (S _)) with (Z.of_nat (size (tl_sockets w)) + 1) by lia.
  - rewrite Hs. intros j x [[<- <-]|[Hne Hx]]%lookup_insert_Some; unfold object_ok; rewrite Hb.
    + split_and!; [done|by left|]. rewrite lookup_insert_eq. by eexists.
    + destruct (Hobj j x Hx) as (? & ? & ?). by rewrite lookup_insert_ne.
Qed.

Lemma wp_new_sound s :
  sound s -> Z.of_nat (size (tl_sockets (world s))) < INT_MAX ->
  wp (amqp_ssl_socket_new fuel) (fun r s' => sound s' /\
    match r with
    | Some i => socket (conn s') = Some i /\ tl_sockets (world s) !! i = None
    | None => conn s' = conn s
    end) (fun _ _ => False) s.
Proof.
  intros [Hal Hsock] Hlt. pose proof Hal as [Hh Hc Hobj]. apply wp_bind, wp_on_mem. unfold c_calloc.
  wp_use (wp_heap_alloc sizeof_amqp_ssl_socket_t); [done|done| |done].
  intros [p|] h' (Hh' & _ & _ & Hb); [|apply wp_ret; split; [|done]; split; [|done]; split; [done|done|]].
  2: { intros i o Ho. destruct (Hobj i o Ho) as (? & ? & ?). split_and!; simpl; rewrite ?Hb; done. }
  destruct Hb as (Hpo & Hfresh & _ & m & _ & Hb).
  assert (Hnone : tl_sockets (world s) !! p_block p = None).
  { apply eq_None_not_Some. intros [o Ho]. destruct (Hobj _ _ Ho) as (_ & _ & x & Hx). congruence. }
  apply wp_bind, wp_on_world. unfold wp at 1, put_ssl_socket.
  apply wp_bind, wp_try, wp_on_world. simpl.
  set (w1 := {| tl_sys := _; tl_sockets := _; tl_statics := _ |}).
  assert (Hin : forall o w', klass o = the_amqp_ssl_socket_class -> sockfd o = -1 ->
    tl_sockets w' = <[p_block p := o]> (tl_sockets w1) -> counted (Z.of_nat (size (tl_sockets (world s))) + 1) (tl_statics w') ->
    alive h' w' /\ tl_sockets w' = <[p_block p := o]> (tl_sockets (world s))).
  { intros o w' Hk Hfd Hs Hg. simpl in Hs. rewrite insert_insert_eq in Hs. split; [|done]. by eapply alive_insert. }
  wp_use (wp_prepare (p_block p) (Z.of_nat (size (tl_sockets (world s)))) w1); [done|done|apply lookup_insert_eq| |].
  - intros [] w2 (o & Hk & Hfd & Hs & Hg). destruct (Hin o w2 Hk Hfd Hs Hg) as [Hal2 Hs2]. apply wp_bind.
    wp_use (wp_replace (Some (p_block p))); simpl; [done| | | |done].
    + intros j Hj. rewrite Hs2. destruct (Hsock j Hj) as [x Hx].
      assert (p_block p <> j) by congruence. split; [|congruence]. rewrite lookup_insert_ne by done. by eexists.
    + intros j [= <-]. rewrite Hs2, lookup_insert_eq. by eexists.
    + intros [] s' [Hs' Hcn]. apply wp_ret. split; [done|]. by rewrite Hcn.
  - intros e w2 (o & Hk & Hfd & Hs & Hg). destruct (Hin o w2 Hk Hfd Hs Hg) as [Hal2 Hs2]. apply wp_bind, wp_on_both. simpl.
    wp_use wp_delete; [exact Hal2|rewrite Hs2, lookup_insert_eq; by eexists| |done].
    intros [] [h3 w3] [Hal3 Hs3]. apply wp_ret. split; [|done]. split; [done|]. simpl. intros j Hj.
    rewrite Hs3, Hs2, delete_insert_eq, delete_id by done. by apply Hsock.
Qed.

(** ** The engine *)

(** Only [openssl_engine] changes. *)
Definition keeps_count {A} (m : T A) : Prop := forall n w a w',
  m w = Ret a w' -> counted n (tl_statics w) -> tl_sockets w' = tl_sockets w /\ counted n (tl_statics w').

Lemma keeps_count_bind {A B} (m : T A) (k : A -> T B) :
  keeps_count m -> (forall a, keeps_count (k a)) -> keeps_count (bind m k).
Proof.
  intros Hm Hk n w b w' Hrun Hc. unfold bind in Hrun. destruct (m w) as [a w1| | |] eqn:E; try done.
  destruct (Hm n w a w1 E Hc) as [Hs1 Hc1]. destruct (Hk a n w1 b w' Hrun Hc1) as [Hs2 Hc2]. split; [congruence|done].
Qed.

Lemma keeps_count_sys {A} (m : C W A) : keeps_count (on_sys m).
Proof. intros n w a w' Hrun Hc. unfold on_sys in Hrun. destruct (m (tl_sys w)); try done. by injection Hrun as <- <-. Qed.

Lemma keeps_count_ret {A} (a : A) : keeps_count (ret a).
Proof. intros n w b w' [= <- <-] Hc. done. Qed.

Lemma keeps_count_check m : keeps_count (CHECK_SUCCESS m).
Proof. apply keeps_count_bind; [apply keeps_count_sys|]. intros r. destruct (negb _); [by intros n w a w' ?|apply keeps_count_ret]. Qed.

Lemma keeps_count_engine e : keeps_count (set_engine e).
Proof. intros n w a w' [= <- <-] []. by split. Qed.

Lemma keeps_count_statics : keeps_count statics.
Proof. intros n w a w' [= <- <-] Hc. done. Qed.

#[local] Hint Resolve keeps_count_sys keeps_count_ret keeps_count_check keeps_count_engine keeps_count_statics : core.

Lemma keeps_count_set_engine engine : keeps_count (amqp_set_ssl_engine engine).
Proof.
  unfold amqp_set_ssl_engine.
  repeat match goal with
  | |- keeps_count (bind _ _) => apply keeps_count_bind
  | |- keeps_count (if ?b then _ else _) => destruct b
  | |- keeps_count (match ?x with _ => _ end) => destruct x
  | |- keeps_count _ => solve [eauto 1]
  | |- forall _, _ => intros ?
  end.
Qed.
End Life.

(** ** Everything a program does with TLS sockets *)

Section Steps.
Context {W : Type} {HO : Os W} {HC : Clock W} {HP : Poll W} {HX : OpenSSL W} {HD : DescriptorLaws W}.
Context {HL : OpenSSLLaws W} {HF : LifeLaws W}.
Context (fuel : nat).

#[local] Instance step_class : Sockets (tls W) := amqp_ssl_socket_class fuel.

(** A socket for the connection, which replaces the one it has; none; opening and
    closing it; another engine. *)
Inductive tls_step (s s' : cst (tls W)) : Prop :=
  | step_new r : Z.of_nat (size (tl_sockets (world s))) < INT_MAX -> amqp_ssl_socket_new fuel s = Ret r s' -> tls_step s s'
  | step_drop : amqp_set_socket None s = Ret tt s' -> tls_step s s'
  | step_open i host port timeout r :
      socket (conn s) = Some i ->
      (d_waits (tl_sys (world s)) < fuel)%nat -> (x_rounds (tl_sys (world s)) < fuel)%nat ->
      on_world (amqp_ssl_socket_open fuel i host port timeout) s = Ret r s' -> tls_step s s'
  | step_close i force r :
      socket (conn s) = Some i -> on_world (amqp_ssl_socket_close i force) s = Ret r s' -> tls_step s s'
  | step_engine engine r : on_world (amqp_set_ssl_engine engine) s = Ret r s' -> tls_step s s'.

(** A step that replaces one object by a good one. *)
Lemma sound_only i o o' (s s' : cst (tls W)) :
  sound s -> tl_sockets (world s) !! i = Some o -> klass o' = klass o -> (sockfd o' = -1 \/ is_Some (ssl o')) ->
  conn s' = conn s -> hp s' = hp s -> only i o' (world s) (world s') -> sound s'.
Proof.
  intros [[Hh Hc Hobj] Hsock] Ho Hk Hok Ecn Ehp [Hs Hg]. split.
  - split; rewrite ?Ehp, ?Hs, ?Hg; [done| |].
    + by rewrite map_size_insert_Some by done.
    + intros j x [[<- <-]|[Hne Hx]]%lookup_insert_Some; [|by apply Hobj].
      destruct (Hobj i o Ho) as (? & _ & ?). split_and!; [congruence|done|done].
  - intros j. rewrite Ecn, Hs. intros Hj. destruct (decide (j = i)) as [->|]; [rewrite lookup_insert_eq; by eexists|].
    rewrite lookup_insert_ne by done. by apply Hsock.
Qed.

Lemma on_world_ret {A} (m : C (tls W) A) a s s' :
  on_world m s = Ret a s' -> m (world s) = Ret a (world s') /\ conn s' = conn s /\ hp s' = hp s.
Proof. unfold on_world. destruct (m (world s)); try done. by intros [= <- <-]. Qed.

Lemma wp_ret_inv {S A} (m : C S A) Q E (s : S) a s' : wp m Q E s -> m s = Ret a s' -> Q a s'.
Proof. unfold wp. intros Hm Hr. by rewrite Hr in Hm. Qed.

Lemma sound_open i host port timeout r (s s' : cst (tls W)) :
  sound s -> socket (conn s) = Some i -> (d_waits (tl_sys (world s)) < fuel)%nat ->
  (x_rounds (tl_sys (world s)) < fuel)%nat ->
  on_world (amqp_ssl_socket_open fuel i host port timeout) s = Ret r s' -> sound s'.
Proof.
  intros Hs Hi Hf Hx Hrun. pose proof Hs as [[Hh Hc Hobj] Hsock]. destruct (Hsock i Hi) as [o Ho].
  apply on_world_ret in Hrun as (Hrun & Ecn & Ehp).
  assert (Hsame : forall o', tl_sockets (world s') !! i = Some o' ->
    (forall j, j <> i -> tl_sockets (world s') !! j = tl_sockets (world s) !! j) ->
    tl_statics (world s') = tl_statics (world s) -> only i o' (world s) (world s')).
  { intros o' Ho' Hoth Hg. split; [|done]. apply map_eq. intros j. destruct (decide (j = i)) as [->|Hne].
    - by rewrite lookup_insert_eq.
    - rewrite lookup_insert_ne by done. by apply Hoth. }
  destruct (decide (sockfd o = -1)) as [Hfd|Hfd].
  - assert (Hini : amqp_ssl_bio_initialized (tl_statics (world s)) = true).
    { rewrite (co_initialized _ _ Hc). apply Z.ltb_lt. assert (size (tl_sockets (world s)) <> 0%nat); [|lia].
      intros E. apply map_size_empty_inv in E. by rewrite E in Ho. }
    pose proof (wp_ret_inv _ _ _ _ _ _ (wp_ssl_open fuel i o host port timeout (world s) Ho Hfd Hini Hf Hx) Hrun) as Hend.
    destruct Hend as [(x & fd & _ & _ & _ & [] & _)|[[_ [e []]]|(_ & _ & x & _ & [])]];
      (eapply sound_only; [exact Hs|exact Ho| | |exact Ecn|exact Ehp|by apply Hsame]); [done| |done|by left|done|by left].
    right. by eexists.
  - unfold amqp_ssl_socket_open, bind at 1, the_ssl_socket in Hrun. rewrite Ho, (proj2 (Z.eqb_neq _ _)) in Hrun by done.
    injection Hrun as _ Ew. destruct (Hobj i o Ho) as (_ & Hok & _).
    eapply (sound_only i o o); [exact Hs|exact Ho|done|exact Hok|exact Ecn|exact Ehp|]. apply Hsame; by rewrite <- Ew.
Qed.

(** A closed object is a good one. *)
Lemma sound_close i force r (s s' : cst (tls W)) :
  sound s -> socket (conn s) = Some i -> on_world (amqp_ssl_socket_close i force) s = Ret r s' -> sound s'.
Proof.
  intros Hs Hi Hrun. pose proof Hs as [[Hh Hc Hobj] Hsock]. destruct (Hsock i Hi) as [o Ho].
  apply on_world_ret in Hrun as (Hrun & Ecn & Ehp). destruct (Hobj i o Ho) as (_ & Hok & _).
  destruct (wp_ret_inv _ _ _ _ _ _ (wp_close_alive i force o (world s) Ho Hok) Hrun) as (o' & Hk & Hok' & Hon).
  by eapply sound_only.
Qed.

Lemma sound_step s s' : sound s -> tls_step s s' -> sound s'.
Proof.
  intros Hs [r Hlt Hrun|Hrun|i host port timeout r Hi Hf Hx Hrun|i force r Hi Hrun|engine r Hrun].
  - by apply (wp_ret_inv _ _ _ _ _ _ (wp_new_sound fuel s Hs Hlt) Hrun).
  - pose proof Hs as [Hal Hsock].
    eapply (wp_ret_inv _ _ _ _ _ _ (wp_replace fuel None s Hal ltac:(intros j Hj; split; [by apply Hsock|done]) ltac:(done)) Hrun).
  - by eapply sound_open.
  - by eapply sound_close.
  - pose proof Hs as [[Hh Hc Hobj] Hsock]. apply on_world_ret in Hrun as (Hrun & Ecn & Ehp).
    destruct (keeps_count_set_engine engine _ _ _ _ Hrun Hc) as [Hs' Hc'].
    split; [split|]; rewrite ?Ehp, ?Ecn, ?Hs'; done.
Qed.

End Steps.

(** ** A method that cannot be created *)

Section Abort.
Context {W : Type} {HO : Os W} {HC : Clock W} {HP : Poll W} {HX : OpenSSL W} (fuel : nat).

(** The mutex works, freeing the null context does nothing, and there is no memory
    for a BIO method. *)
Hypothesis Hlock : returns pthread_mutex_lock (fun r => r = 0).
Hypothesis Hunlock : returns pthread_mutex_unlock (fun r => r = 0).
Hypothesis Hnone : returns (BIO_meth_new BIO_TYPE_SOCKET) (fun r => r = None).
Hypothesis Hfree : returns (SSL_CTX_free None) (fun _ => True).

Lemma bind_aborts {S A B} (m : C S A) (k : A -> C S B) s :
  wp m (fun a s' => k a s' = UB) (fun _ _ => False) s -> bind m k s = UB.
Proof. unfold wp, bind. by destruct (m s). Qed.

Lemma wp_initialize_fails w :
  tl_statics w = initial_statics ->
  wp initialize_ssl_and_increment_connections (fun r w' => r = AMQP_STATUS_NO_MEMORY /\
    tl_sockets w' = tl_sockets w /\ tl_statics w' = initial_statics) (fun _ _ => False) w.
Proof.
  intros Hg. apply wp_bind, wp_check; [exact Hlock|]. intros w1 Hs1 Hg1. apply wp_bind.
  unfold wp at 1, statics. rewrite Hg1, Hg. simpl negb. cbv iota. apply wp_bind, wp_bind.
  unfold amqp_openssl_bio_init. apply wp_bind. unfold wp at 1, statics. rewrite Hg1, Hg. simpl c_assert.
  apply wp_bind, wp_ret, wp_bind. eapply wp_returns; [exact Hnone|]. intros r w2 -> Hs2 Hg2.
  apply wp_bind. unfold set_bio_method. apply wp_bind. unfold wp at 1, statics. unfold wp at 1, set_statics.
  apply wp_ret, wp_ret. simpl. apply wp_bind, wp_ret, wp_bind, wp_check; [exact Hunlock|]. intros w3 Hs3 Hg3.
  apply wp_ret. simpl in *. split_and!; [done|congruence|]. by rewrite Hg3, Hg2, Hg1, Hg.
Qed.

(** When OpenSSL has no memory for the BIO method, [amqp_ssl_socket_new] does
    not return NULL but aborts.  The first TLS socket of a program is given up with
    [amqp_ssl_socket_delete], which also takes it off the count of connections where
    it never was; the count being zero, the BIO method is destroyed, which asserts
    that it exists. *)
Theorem tls_new_aborts p h (s : cst (tls W)) :
  tl_statics (world s) = initial_statics -> c_calloc sizeof_amqp_ssl_socket_t (hp s) = Ret (Some p) h ->
  h_blocks h !! p_block p <> None -> p_off p = 0 ->
  amqp_ssl_socket_new fuel s = UB.
Proof.
  intros Hg Hcal Hblk Hoff. unfold amqp_ssl_socket_new. apply bind_aborts, wp_on_mem. unfold wp. rewrite Hcal.
  apply bind_aborts, wp_on_world. unfold wp, put_ssl_socket. simpl.
  apply bind_aborts, wp_try, wp_on_world. simpl. unfold prepare_ssl_socket. apply wp_bind.
  wp_use wp_initialize_fails; [done| |done]. intros r w1 (-> & Hs1 & Hg1). simpl. apply wp_throw.
  assert (Ho : tl_sockets w1 !! p_block p = Some new_ssl_socket) by (rewrite Hs1; apply lookup_insert_eq).
  enough (Hd : amqp_ssl_socket_delete (Some (p_block p)) (h, w1) = UB) by (unfold bind, on_both; simpl; by rewrite Hd).
  apply bind_aborts. apply wp_bind, wp_in_tls. unfold amqp_ssl_socket_close. apply wp_bind.
  eapply wp_the_ssl_socket; [exact Ho|]. apply wp_ret, wp_bind, wp_in_tls, wp_bind.
  eapply wp_the_ssl_socket; [exact Ho|]. eapply wp_returns; [exact Hfree|]. intros [] w2 _ Hs2 Hg2.
  apply wp_bind, wp_in_heap. unfold wp, c_free. simpl. destruct (h_blocks h !! p_block p) eqn:E; [|done]. simpl.
  enough (Hdec : forall w3, tl_statics w3 = initial_statics -> decrement_ssl_connections w3 = UB).
  { unfold bind, in_tls. rewrite Hdec; [done|]. simpl. by rewrite Hg2. }
  intros w3 Hg3. apply bind_aborts, wp_check; [exact Hlock|]. intros w4 _ Hg4. unfold bind, statics.
  rewrite Hg4, Hg3. simpl. unfold ret. rewrite Hg4, Hg3. simpl. unfold amqp_openssl_bio_destroy, bind at 1, statics. by rewrite Hg4, Hg3.
Qed.
End Abort.

(** ** Examples *)

#[export] Instance vault_life : LifeLaws vault.
Proof. split; intros; intros w; unfold wp; simpl; done. Qed.

Definition after {S A} (m : C S A) (s : S) : S := match m s with Ret _ s' | Err _ s' => s' | _ => s end.


Lemma tls_new_aborts_witness : amqp_ssl_socket_new (HX := vault_library false) 9 young_program = UB.
Proof.
  eapply (tls_new_aborts (HX := vault_library false) 9) with (p := {| p_block := 10; p_off := 0 |});
    [by intros w|by intros w|by intros w|by intros w|reflexivity|vm_compute; reflexivity|by vm_compute|reflexivity].
Defined.
