(* ===== verification/Inbox.v ===== *)
(** * Receiving frames through a socket

    [amqp_handle_input] touches the parser's own fields and the channel pools
    only; the socket buffer is a block outside the pools; so the theory of the
    incremental parser carries over to the loops that feed it from the
    network. *)

From S2P Require Import Prelude Machine Status Alloc Codec Table Framing Methods MethodDecode MethodEncode MethodWire Properties Mem MemTheory PoolTable Time Frame FrameTheorems Connection ParserTheory ParserTheorems Greeting ConnectionTheorems Socket Network.

(** ** What the parser leaves alone *)

Section Frame.
Context {W : Type}.
Abbreviation CC A := (C (cst W) A).

(** Everything but the parser's fields, the pools and the heap. *)
Record kept (s s' : cst W) : Prop := {
  k_world : world s' = world s;
  k_conn : conn s' = set_reader (reader (conn s')) (set_pool_table (pool_table (conn s')) (conn s))
}.

Lemma kept_refl s : kept s s.
Proof. split; [done|]. by destruct s as [[] ? ?]. Qed.

Lemma kept_trans s1 s2 s3 : kept s1 s2 -> kept s2 s3 -> kept s1 s3.
Proof.
  intros [W1 C1] [W2 C2]. split; [congruence|]. rewrite C2 at 1. rewrite C1 at 1. done.
Qed.

Definition keeps {A} (m : CC A) : Prop :=
  forall s, match m s with Ret _ s' | Err _ s' => kept s s' | UB | NoFuel => True end.

Lemma keeps_run {A} (m : CC A) s a s' : keeps m -> m s = Ret a s' -> kept s s'.
Proof. intros Hm Hr. specialize (Hm s). by rewrite Hr in Hm. Qed.

Lemma keeps_ret {A} (a : A) : keeps (ret a).
Proof. intros s. apply kept_refl. Qed.
Lemma keeps_throw {A} e : keeps (throw (A := A) e).
Proof. intros s. apply kept_refl. Qed.
Lemma keeps_undefined {A} : keeps (@undefined (cst W) A).
Proof. by intros s. Qed.
Lemma keeps_the_conn : keeps the_conn.
Proof. intros s. apply kept_refl. Qed.
Lemma keeps_get : keeps get.
Proof. intros s. apply kept_refl. Qed.

Lemma keeps_bind {A B} (m : CC A) (k : A -> CC B) : keeps m -> (forall a, keeps (k a)) -> keeps (bind m k).
Proof.
  intros Hm Hk s. unfold bind. specialize (Hm s). destruct (m s) as [a s'|e s'| |]; try done.
  specialize (Hk a s'). destruct (k a s'); try done; by eapply kept_trans.
Qed.

Lemma keeps_upd f :
  (forall c, f c = set_reader (reader (f c)) (set_pool_table (pool_table (f c)) c)) -> keeps (upd f).
Proof. intros Hf s. split; [done|]. apply Hf. Qed.

Lemma keeps_on_mem {A} (m : C heap A) : keeps (on_mem m).
Proof. intros s. unfold on_mem. destruct (m (hp s)); try done; split; try done; by destruct (conn s). Qed.

Lemma keeps_in_pool {A} ch (m : C pstate A) : keeps (in_channel_pool ch m).
Proof.
  intros s. unfold in_channel_pool. destruct (amqp_get_channel_pool _ _); [|done].
  destruct (m _); try done; split; try done; by destruct (conn s).
Qed.

Lemma keeps_if {A} (b : bool) (m1 m2 : CC A) : keeps m1 -> keeps m2 -> keeps (if b then m1 else m2).
Proof. by destruct b. Qed.
End Frame.

Create HintDb keeps_db.
#[export] Hint Resolve keeps_ret keeps_throw keeps_undefined keeps_the_conn keeps_get keeps_on_mem
  keeps_in_pool : keeps_db.

Ltac keeps :=
  repeat match goal with
  | |- forall _, _ => intros
  | |- keeps (bind _ _) => apply keeps_bind
  | |- keeps (if _ then _ else _) => apply keeps_if
  | |- keeps (match ?x with _ => _ end) => destruct x
  | |- keeps (let _ := _ in _) => cbv zeta
  | |- keeps (upd _) => apply keeps_upd; intros []; reflexivity
  | |- _ => solve [eauto 2 with keeps_db]
  end.

Section Parser.
Context {W : Type} {HH : Host} (uninit : amqp_basic_properties_t).

Lemma keeps_pool ch : keeps (W := W) (get_or_create_pool ch).
Proof. unfold get_or_create_pool. keeps. Qed.

#[local] Hint Resolve keeps_pool : keeps_db.

Lemma keeps_consume data : keeps (W := W) (consume_data data).
Proof. unfold consume_data, inbound_store. keeps. Qed.
#[local] Hint Resolve keeps_consume : keeps_db.

Lemma keeps_load o n : keeps (W := W) (raw_load o n).
Proof. unfold raw_load. keeps. Qed.
Lemma keeps_view o n : keeps (W := W) (raw_view o n).
Proof. unfold raw_view. keeps. Qed.
Lemma keeps_store o bs : keeps (W := W) (inbound_store o bs).
Proof. unfold inbound_store. keeps. Qed.
#[local] Hint Resolve keeps_load keeps_view keeps_store : keeps_db.

Lemma keeps_body n fr : keeps (W := W) (handle_body uninit n fr).
Proof. unfold handle_body, read_method, read_properties, return_to_idle. keeps. Qed.
#[local] Hint Resolve keeps_body : keeps_db.

Lemma keeps_header n data fr : keeps (W := W) (handle_header uninit n data fr).
Proof. unfold handle_header. keeps. Qed.
#[local] Hint Resolve keeps_header : keeps_db.

Lemma keeps_handle_input data fr : keeps (W := W) (amqp_handle_input uninit data fr).
Proof. unfold amqp_handle_input, return_to_idle, amqp_abort. keeps. Qed.

Lemma keeps_release ch : keeps (W := W) (amqp_maybe_release_buffers_on_channel ch).
Proof. unfold amqp_maybe_release_buffers_on_channel. keeps. Qed.
End Parser.

(** ** The parser's state and the rest *)

Section Kept.
Context {W : Type}.
Abbreviation pools_of s := (amqp_get_channel_pool (pool_table (conn s))).

Lemma pools_ok_kept_store K h get b m m' :
  pools_ok K h get -> K !! b = Some m -> zlen m' = zlen m ->
  pools_ok (<[b := m']> K) (set_blocks (<[b := m']> (h_blocks h)) h) get.
Proof.
  intros Hok Hb Hz. destruct (po_kept _ _ _ Hok b m Hb) as [Hm Hn]. split.
  - intros b' x. simpl. intros [[<- <-]|[_ Hx]]%lookup_insert_Some.
    + rewrite Hz. by apply (po_heap _ _ _ Hok b m).
    + by apply (po_heap _ _ _ Hok b').
  - intros c p Hc. destruct (po_pool _ _ _ Hok c p Hc) as [Hp ?]. split; [|done].
    eapply pool_ok_sizes; [|done]. intros b' n (x & Hx & Hl). unfold live. simpl.
    destruct (decide (b' = b)) as [->|Hne].
    + exists m'. rewrite lookup_insert_eq. split; [done|]. congruence.
    + exists x. by rewrite lookup_insert_ne.
  - apply Hok.
  - intros b' x. simpl. intros [[<- <-]|[Hne Hx]]%lookup_insert_Some.
    + split; [apply lookup_insert_eq|done].
    + destruct (po_kept _ _ _ Hok b' x Hx) as [Hx' Hn']. by rewrite lookup_insert_ne.
Qed.

(** The parser's view of a state. *)
Definition same_parser (s s' : cst W) : Prop :=
  pool_table (conn s') = pool_table (conn s) /\ reader (conn s') = reader (conn s) /\
  frame_max (conn s') = frame_max (conn s).

Lemma reading_same rel K fm B acc s s' :
  reading rel K fm B acc s -> same_parser s s' -> hp s' = hp s -> reading rel K fm B acc s'.
Proof.
  intros [[] ? ? ? ?] (Ht & Hr & Hf) Hh. split; rewrite ?Ht, ?Hr, ?Hh; try done.
  split; rewrite ?Ht, ?Hr, ?Hh, ?Hf; done.
Qed.

Lemma reading_stored rel K fm B acc s s' b m m' :
  reading rel K fm B acc s -> same_parser s s' -> K !! b = Some m -> zlen m' = zlen m ->
  hp s' = set_blocks (<[b := m']> (h_blocks (hp s))) (hp s) ->
  reading rel (<[b := m']> K) fm B acc s'.
Proof.
  intros [[Ht Hp Hrel Hfm] Hb HB Hroom Hrd] (Et & Er & Ef) Hk Hz Eh.
  split; rewrite ?Et, ?Er, ?Eh; try done.
  - split; rewrite ?Et, ?Er, ?Eh, ?Ef; try done. by eapply pools_ok_kept_store.
  - destruct Hrd as (Hh & Ho & Hrd). split_and!; [done|done|].
    destruct (zlen acc <? 7); [done|]. destruct Hrd as (Hst & Hlt & p & x & pool & Hin & Hg & Hpb & Hx & Hrest).
    split_and!; [done|done|]. exists p, x, pool. split_and!; try done; [|by apply Hrest..].
    simpl. rewrite lookup_insert_ne; [done|]. intros ->. by apply (proj2 (po_kept _ _ _ Hp _ _ Hk) _ _ Hg).
Qed.

Lemma greeting_same K fm B acc s s' :
  greeting K fm B acc s -> same_parser s s' -> hp s' = hp s -> greeting K fm B acc s'.
Proof.
  intros [[] ? ? ? ? ? ? ? ? ? ?] (Ht & Hr & Hf) Hh. split; rewrite ?Ht, ?Hr, ?Hh; try done.
  split; rewrite ?Ht, ?Hr, ?Hh, ?Hf; done.
Qed.

Lemma greeting_stored K fm B acc s s' b m m' :
  greeting K fm B acc s -> same_parser s s' -> K !! b = Some m -> zlen m' = zlen m ->
  hp s' = set_blocks (<[b := m']> (h_blocks (hp s))) (hp s) -> greeting (<[b := m']> K) fm B acc s'.
Proof.
  intros [[Ht Hp Hrel Hfm] ? ? ? ? ? ? ? ? ? ?] (Et & Er & Ef) Hk Hz Eh. split; rewrite ?Et, ?Er; try done.
  split; rewrite ?Et, ?Er, ?Eh, ?Ef; try done. by eapply pools_ok_kept_store.
Qed.

(** In the middle of the stream, or, if [g], perhaps still at the beginning of the
    first frame of the connection. *)
Definition takes (g : bool) (K : gmap Z (list Z)) (fm B : Z) (acc : list Z) (fs : list amqp_frame_t) (s : cst W) : Prop :=
  reading true K fm B acc s \/
  g = true /\ greeting K fm B acc s /\ match fs with [] => True | f :: _ => presentable f end.

Lemma takes_reading K fm B acc fs s : takes false K fm B acc fs s -> reading true K fm B acc s.
Proof. by intros [?|[? _]]. Qed.

Lemma takes_mem g K fm B acc fs s : takes g K fm B acc fs s -> cmem true K fm s.
Proof. intros [H|(_ & H & _)]; apply H. Qed.

Lemma takes_same g K fm B acc fs s s' :
  takes g K fm B acc fs s -> same_parser s s' -> hp s' = hp s -> takes g K fm B acc fs s'.
Proof.
  intros [Hs|(Hg & Hs & Hf)] Hp Hh; [left; by eapply reading_same|right]. split_and!; [done|by eapply greeting_same|done].
Qed.

Lemma takes_stored g K fm B acc fs s s' b m m' :
  takes g K fm B acc fs s -> same_parser s s' -> K !! b = Some m -> zlen m' = zlen m ->
  hp s' = set_blocks (<[b := m']> (h_blocks (hp s))) (hp s) -> takes g (<[b := m']> K) fm B acc fs s'.
Proof.
  intros [Hs|(Hg & Hs & Hf)] Hp Hk Hz Hh; [left; by eapply reading_stored|right].
  split_and!; [done|by eapply greeting_stored|done].
Qed.

(** One call on data that continues the stream. *)
Lemma takes_input {HH : Host} uninit g K fm B acc data f fs more later s fr :
  takes g K fm B acc (f :: fs) s -> receivable f -> zlen (wire_frame f) <= fm ->
  acc ++ contents data ++ later = wire_frame f ++ more -> zlen acc < zlen (wire_frame f) ->
  readable data -> Forall is_byte (contents data) -> 0 < len data <= B ->
  exists n x s', amqp_handle_input uninit data fr s = Ret (n, x) s' /\
    if zlen acc + len data <? zlen (wire_frame f)
    then n = len data /\ x = no_frame fr /\ takes g K fm (B - n) (acc ++ contents data) (f :: fs) s'
    else n = zlen (wire_frame f) - zlen acc /\ x = received uninit (payload fr) f /\
         takes false K fm (B - n) [] fs s'.
Proof.
  intros [Hs|(-> & Hs & Hp)] Hf Hfm Heq Hacc Hr Hb Hlen.
  - destruct (input_of_stream uninit K fm B acc data f more later s fr) as (n & x & s' & Hrun & Hpost); try done.
    exists n, x, s'. split; [done|]. destruct (_ <? _); destruct Hpost as (-> & -> & Hs'); split_and!; try done; by left.
  - destruct (wp_run_ret _ _ _ (greeting_input uninit K fm B acc data f more later s fr Hs Hf Hp Hfm Heq Hr Hb Hlen))
      as ([n x] & s' & Hrun & Hpost).
    exists n, x, s'. split; [done|]. unfold after_input in Hpost.
    destruct (_ <? zlen (wire_frame f)); destruct Hpost as (-> & -> & Hs'); split_and!; try done; [|by left].
    destruct (_ <? 8); [by right|by left].
Qed.

(** The fields no receiving function changes. *)
Definition anchor (c : amqp_connection_state_t) :=
  (self c, channel_max c, frame_max c, heartbeat c, next_recv_heartbeat c, next_send_heartbeat c,
   outbound_buffer c, socket c, sock_inbound_buffer c, most_recent_api_result c, server_properties c,
   client_properties c, properties_pool c, handshake_timeout c, rpc_timeout c).

Lemma kept_anchor (s s' : cst W) : kept s s' -> anchor (conn s') = anchor (conn s) /\
  queued_frames (conn s') = queued_frames (conn s) /\ world s' = world s /\
  sock_inbound_offset (conn s') = sock_inbound_offset (conn s) /\
  sock_inbound_limit (conn s') = sock_inbound_limit (conn s).
Proof. intros [Hw Hc]. rewrite Hc. done. Qed.
End Kept.

(** ** A connection listening to a stream of frames *)

Section Listen.
Context {W : Type} {HC : Clock W} {HS : Sockets W} {HP : Poll W} {HL : NetworkLaws W} {HH : Host}.
Context (uninit : amqp_basic_properties_t) (fuel : nat).

Abbreviation net s := (world (s : cst W)).
Abbreviation wires fs := (concat (map wire_frame fs)).

(** What stays the same while frames are received. *)
Definition stays (s s' : cst W) : Prop :=
  anchor (conn s') = anchor (conn s) /\ n_sent (net s') = n_sent (net s) /\
  queued_frames (conn s') = queued_frames (conn s).

Lemma stays_refl s : stays s s.
Proof. done. Qed.
Lemma stays_trans s1 s2 s3 : stays s1 s2 -> stays s2 s3 -> stays s1 s3.
Proof. intros (? & ? & ?) (? & ? & ?). split_and!; congruence. Qed.

(** The connection is open, in good health and without heartbeats; [acc] of the
    current frame has been parsed, [pend] waits in the socket buffer, and what is
    still to come makes up the frames [fs]. *)
Record hears (g : bool) (K : gmap Z (list Z)) (fm B : Z) (acc pend : list Z) (p : ptr) (buf : list Z)
    (fs : list amqp_frame_t) (s : cst W) : Prop := {
  he_reading : takes g K fm B acc fs s;
  he_kept : K !! p_block p = Some buf;
  he_ptr : hb_bytes (sock_inbound_buffer (conn s)) = Some p;
  he_off : p_off p = 0;
  he_len : hb_len (sock_inbound_buffer (conn s)) = zlen buf;
  he_size : 0 < zlen buf <= INT32_MAX;
  he_from : 0 <= sock_inbound_offset (conn s);
  he_pend : zlen pend = sock_inbound_limit (conn s) - sock_inbound_offset (conn s);
  he_limit : sock_inbound_limit (conn s) <= zlen buf;
  he_data : slice (sock_inbound_offset (conn s)) (zlen pend) buf = pend;
  he_bytes : Forall is_byte pend;
  he_stream : acc ++ pend ++ n_coming (net s) = wires fs;
  he_before : strictly_before acc fs;
  he_frames : Forall (acceptable fm) fs;
  he_budget : zlen pend + zlen (n_coming (net s)) + 2 * zlen fs <= B;
  he_socket : socket (conn s) = Some n_socket;
  he_heartbeat : heartbeat (conn s) = 0;
  he_recv_timer : next_recv_heartbeat (conn s) = amqp_time_infinite;
  he_send_timer : next_send_heartbeat (conn s) = amqp_time_infinite;
  he_ok : n_ok (net s);
  he_healthy : n_healthy (net s)
}.

Lemma drop_slice o k n (m : list Z) :
  0 <= o -> 0 <= n <= k -> drop (Z.to_nat n) (slice o k m) = slice (o + n) (k - n) m.
Proof.
  intros Ho Hn. unfold slice. replace (Z.to_nat k) with (Z.to_nat n + Z.to_nat (k - n))%nat by lia.
  rewrite <- take_drop_commute, drop_drop. do 2 f_equal. lia.
Qed.

Lemma hears_load g K fm B acc pend p buf fs s :
  hears g K fm B acc pend p buf fs s ->
  heap_load {| p_block := p_block p; p_off := p_off p + sock_inbound_offset (conn s) |}
    (size_t (sock_inbound_limit (conn s) - sock_inbound_offset (conn s))) (hp s) = Ret pend (hp s).
Proof.
  intros Hs. destruct Hs as [Hrd Hk Hp Ho Hl Hz Hfr Hpd Hlim Hdat Hby Hstr Hbef Hacc Hbud Hso Hhb Hrt Hst Hok Hhe].
  destruct (po_kept _ _ _ (cm_pools _ _ _ _ (takes_mem _ _ _ _ _ _ _ Hrd)) _ _ Hk) as [Hb _].
  pose proof (zlen_nonneg pend). unfold heap_load. simpl. rewrite Hb, Ho, <- Hpd.
  rewrite size_t_small by (unfold INT32_MAX in *; lia).
  rewrite load_Some by lia. by rewrite Z.add_0_l, Hdat.
Qed.

(** Moving on in the socket buffer. *)
Lemma hears_advance g g' K fm B B' acc acc' pend p buf fs fs' n s s1 :
  hears g K fm B acc pend p buf fs s -> kept s s1 -> takes g' K fm B' acc' fs' s1 -> 0 <= n <= zlen pend ->
  acc' ++ drop (Z.to_nat n) pend ++ n_coming (net s) = wires fs' -> strictly_before acc' fs' ->
  Forall (acceptable fm) fs' -> B' = B - n -> zlen fs' <= zlen fs ->
  let s' := {| conn := set_sock_inbound (sock_inbound_buffer (conn s1))
                 (size_t (sock_inbound_offset (conn s1) + n)) (sock_inbound_limit (conn s1)) (conn s1);
               hp := hp s1; world := world s1 |} in
  hears g' K fm B' acc' (drop (Z.to_nat n) pend) p buf fs' s' /\ stays s s' /\ world s' = world s.
Proof.
  intros Hs Hkept Hrd1 Hn Hstr' Hbef' Hacc' -> Hlen s'.
  destruct Hs as [Hrd Hk Hp Ho Hl Hz Hfr Hpd Hlim Hdat Hby Hstr Hbef Hacc Hbud Hso Hhb Hrt Hst Hok Hhe].
  destruct (kept_anchor s s1 Hkept) as (Ha & Hq & Hw & Hoff & Hli).
  unfold anchor in Ha. injection Ha as E1 E2 E3 E4 E5 E6 E7 E8 E9 E10 E11 E12 E13 E14 E15.
  assert (Hdz : zlen (drop (Z.to_nat n) pend) = zlen pend - n) by (unfold zlen in *; rewrite length_drop; lia).
  assert (Hso' : size_t (sock_inbound_offset (conn s1) + n) = sock_inbound_offset (conn s) + n).
  { rewrite Hoff. apply size_t_small. unfold INT32_MAX in *. lia. }
  split_and!; [split|..]; simpl; try done; try congruence.
  - eapply takes_same; [exact Hrd1|done|done].
  - rewrite Hso'. lia.
  - rewrite Hso', Hli. lia.
  - rewrite Hso', Hdz.
    rewrite <- drop_slice by lia. by rewrite Hdat.
  - by apply Forall_drop.
  - rewrite Hw. lia.
  - unfold stays, anchor. simpl. split_and!; congruence.
Qed.

Lemma consume_one_hears g K fm B acc pend p buf f fs s fr :
  hears g K fm B acc pend p buf (f :: fs) s -> pend <> [] ->
  exists x s', consume_one_frame uninit fr s = Ret x s' /\ stays s s' /\ world s' = world s /\
    if zlen acc + zlen pend <? zlen (wire_frame f)
    then x = no_frame fr /\ hears g K fm (B - zlen pend) (acc ++ pend) [] p buf (f :: fs) s'
    else x = received uninit (payload fr) f /\
      let n := zlen (wire_frame f) - zlen acc in
      hears false K fm (B - n) [] (drop (Z.to_nat n) pend) p buf fs s' /\ 0 < n <= zlen pend.
Proof.
  intros Hs Hne. pose proof Hs as [Hrd Hk Hp Ho Hl Hz Hfr Hpd Hlim Hdat Hby Hstr Hbef Hacc Hbud Hso Hhb Hrt Hst Hok Hhe].
  assert (Hpp : 0 < zlen pend) by (destruct pend; [done|unfold zlen; simpl; lia]).
  pose proof (zlen_nonneg (n_coming (net s))). pose proof (zlen_nonneg (f :: fs)).
  apply Forall_cons in Hacc as [[Hrf Hfm] Hfs]. simpl in Hstr, Hbef.
  destruct (takes_input uninit g K fm B acc (view pend) f fs (wires fs) (n_coming (net s)) s fr)
    as (n & x & s1 & Hrun & Hpost); try done; rewrite ?contents_view; try done.
  { apply readable_view. unfold PTRDIFF_MAX, INT32_MAX in *. lia. }
  { simpl. lia. }
  assert (Hkept : kept s s1) by (eapply keeps_run; [apply keeps_handle_input|exact Hrun]).
  assert (Hcons : consume_one_frame uninit fr s = Ret x
    {| conn := set_sock_inbound (sock_inbound_buffer (conn s1))
         (size_t (sock_inbound_offset (conn s1) + n)) (sock_inbound_limit (conn s1)) (conn s1);
       hp := hp s1; world := world s1 |}).
  { unfold consume_one_frame, bind at 1, the_conn. rewrite Hp.
    erewrite bind_ret; [|unfold on_mem; rewrite (hears_load _ _ _ _ _ _ _ _ _ _ Hs); reflexivity].
    replace {| conn := conn s; hp := hp s; world := world s |} with s by (by destruct s).
    by erewrite bind_ret; [|exact Hrun]. }
  eexists x, _. split; [exact Hcons|]. simpl len in Hpost.
  rewrite contents_view in Hpost.
  destruct (Z.ltb_spec (zlen acc + zlen pend) (zlen (wire_frame f))) as [Hlt|Hge];
    destruct Hpost as (-> & -> & Hs1).
  - destruct (hears_advance g g K fm B (B - zlen pend) acc (acc ++ pend) pend p buf (f :: fs) (f :: fs) (zlen pend) s s1)
      as (Hh & Hstay & Hw); try done.
    + lia.
    + unfold zlen. rewrite Nat2Z.id, drop_all. simpl. by rewrite <- app_assoc.
    + simpl. rewrite zlen_app. lia.
    + by apply Forall_cons.
    + unfold zlen in Hh at 2. rewrite Nat2Z.id, drop_all in Hh. done.
  - set (n := zlen (wire_frame f) - zlen acc) in *.
    destruct (hears_advance g false K fm B (B - n) acc [] pend p buf (f :: fs) fs n s s1)
      as (Hh & Hstay & Hw); try done.
    + lia.
    + simpl. rewrite <- (take_drop (Z.to_nat n) pend), <- app_assoc, app_assoc in Hstr.
      apply app_inj_1 in Hstr as [_ ?]; [done|]. rewrite length_app, length_take.
      unfold zlen in *. lia.
    + apply before_nil.
    + unfold zlen. simpl. lia.
    + split_and!; try done. cbv zeta. split; [done|]. unfold n. lia.
Qed.

Lemma hears_kept g g' K fm B B' acc pend p buf fs s s1 :
  hears g K fm B acc pend p buf fs s -> kept s s1 -> takes g' K fm B' acc fs s1 ->
  zlen pend + zlen (n_coming (net s)) + 2 * zlen fs <= B' ->
  hears g' K fm B' acc pend p buf fs s1 /\ stays s s1 /\ world s1 = world s.
Proof.
  intros [Hrd Hk Hp Ho Hl Hz Hfr Hpd Hlim Hdat Hby Hstr Hbef Hacc Hbud Hso Hhb Hrt Hst Hok Hhe] Hkept Hrd1 HB'.
  destruct (kept_anchor s s1 Hkept) as (Ha & Hq & Hw & Hoff & Hli). pose proof Ha as Ha'.
  unfold anchor in Ha. injection Ha as E1 E2 E3 E4 E5 E6 E7 E8 E9 E10 E11 E12 E13 E14 E15.
  split_and!; [split|..]; rewrite ?Hoff, ?Hli, ?Hw; try done; try congruence.
  split_and!; congruence.
Qed.

(** A state from which the frames [fs] will be heard, with [R] block records to
    spare; [K0] are the blocks outside the pools and the socket buffer. *)
Definition listening (K0 : gmap Z (list Z)) (fm R : Z) (fs : list amqp_frame_t) (s : cst W) : Prop :=
  exists g K B acc pend p buf, delete (p_block p) K = K0 /\ hears g K fm B acc pend p buf fs s /\
    zlen pend + zlen (n_coming (net s)) + 2 * zlen fs + R <= B /\ 0 <= R.

(** The same between frames. *)
Definition resting (K0 : gmap Z (list Z)) (fm R : Z) (fs : list amqp_frame_t) (s : cst W) : Prop :=
  exists K B pend p buf, delete (p_block p) K = K0 /\ hears false K fm B [] pend p buf fs s /\
    zlen pend + zlen (n_coming (net s)) + 2 * zlen fs + R <= B /\ 0 <= R.

Lemma resting_listening K0 fm R fs s : resting K0 fm R fs s -> listening K0 fm R fs s.
Proof. intros (K & B & pend & p & buf & H). by exists false, K, B, [], pend, p, buf. Qed.

(** What waits in the socket buffer. *)
Definition pending (s : cst W) : nat :=
  Z.to_nat (sock_inbound_limit (conn s) - sock_inbound_offset (conn s)).

Definition is_heartbeat (f : amqp_frame_t) : bool := frame_type f =? AMQP_FRAME_HEARTBEAT.

(** [fs] starts with the heartbeats that have been skipped. *)
Definition skips (fs fs' : list amqp_frame_t) : Prop :=
  exists hbs, fs = hbs ++ fs' /\ Forall (fun f => is_heartbeat f = true) hbs.

Lemma skips_refl fs : skips fs fs.
Proof. by exists []. Qed.

Lemma skips_more fs f fs' : skips fs (f :: fs') -> is_heartbeat f = true -> skips fs fs'.
Proof.
  intros (hbs & -> & Hh) Hf. exists (hbs ++ [f]). rewrite <- app_assoc. split; [done|].
  apply Forall_app. by split; [|constructor].
Qed.

Lemma received_old f old : receivable f -> is_heartbeat f = false ->
  received uninit old f = received uninit PL_none f.
Proof.
  intros (_ & _ & Hf) Hh. unfold received, is_heartbeat in *. destruct (payload f); try done.
  rewrite Hf in Hh. done.
Qed.

(** One frame, or the end of the buffer. *)
Definition drained (K0 : gmap Z (list Z)) (fm R : Z) (fs : list amqp_frame_t) (s : cst W)
    (r : option amqp_frame_t) (s' : cst W) : Prop :=
  stays s s' /\ world s' = world s /\
  match r with
  | None => exists fs', skips fs fs' /\ listening K0 fm R fs' s' /\ pending s' = 0%nat
  | Some g => exists f fs', skips fs (f :: fs') /\ is_heartbeat f = false /\
      g = received uninit PL_none f /\ resting K0 fm (R + 2) fs' s' /\ (pending s' < pending s)%nat
  end.

Lemma hears_pending g K fm B acc pend p buf fs s :
  hears g K fm B acc pend p buf fs s -> pending s = length pend.
Proof. intros Hs. unfold pending. rewrite <- (he_pend _ _ _ _ _ _ _ _ _ _ Hs). unfold zlen. lia. Qed.

Lemma hears_data g K fm B acc pend p buf fs s :
  hears g K fm B acc pend p buf fs s -> amqp_data_in_buffer (conn s) = true <-> pend <> [].
Proof.
  intros Hs. unfold amqp_data_in_buffer. rewrite Z.ltb_lt. pose proof (he_pend _ _ _ _ _ _ _ _ _ _ Hs).
  destruct pend; unfold zlen in *; simpl in *; split; intros; try done; lia.
Qed.

Lemma hears_more g K fm B acc pend p buf fs s :
  hears g K fm B acc pend p buf fs s -> pend ++ n_coming (net s) <> [] -> exists f fs', fs = f :: fs'.
Proof.
  intros Hs Hne. destruct fs as [|f fs]; [|by eauto]. exfalso. apply Hne.
  pose proof (he_stream _ _ _ _ _ _ _ _ _ _ Hs) as Hstr. by apply app_nil in Hstr as [_ ?].
Qed.

Lemma drain_step K0 fm R fs s fr :
  listening K0 fm R fs s ->
  wp (let* c := the_conn in
      if amqp_data_in_buffer c then
        let* fr := consume_one_frame uninit fr in
        if frame_type fr =? AMQP_FRAME_HEARTBEAT then
          do* amqp_maybe_release_buffers_on_channel 0 in ret (inl fr)
        else if negb (frame_type fr =? 0) then ret (inr (Some fr, fr))
        else ret (inl fr)
      else ret (inr (None, fr)))
    (fun r s' =>
      match r with
      | inl _ => stays s s' /\ world s' = world s /\ (pending s' < pending s)%nat /\
          exists fs', skips fs fs' /\ listening K0 fm R fs' s'
      | inr (r, _) => drained K0 fm R fs s r s'
      end) (fun _ _ => False) s.
Proof.
  intros (g & K & B & acc & pend & p & buf & HK & Hs & HB & HR). apply wp_bind, wp_the_conn.
  destruct (amqp_data_in_buffer (conn s)) eqn:Edata.
  2: { apply wp_ret. split_and!; [apply stays_refl|done|]. exists fs.
       assert (Hnil : pend = []).
       { destruct pend; [done|]. exfalso. apply not_false_iff_true in Edata; [done|].
         by apply (hears_data _ _ _ _ _ _ _ _ _ _ Hs). }
       split_and!; [apply skips_refl|by exists g, K, B, acc, pend, p, buf|].
       rewrite (hears_pending _ _ _ _ _ _ _ _ _ _ Hs). by rewrite Hnil. }
  apply (hears_data _ _ _ _ _ _ _ _ _ _ Hs) in Edata.
  destruct (hears_more _ _ _ _ _ _ _ _ _ _ Hs) as (f & fs' & ->).
  { intros [? _]%app_nil. done. }
  destruct (consume_one_hears g K fm B acc pend p buf f fs' s fr Hs Edata) as (x & s1 & Hrun & Hst1 & Hw1 & Hpost).
  pose proof (hears_pending _ _ _ _ _ _ _ _ _ _ Hs) as Hpe.
  apply wp_bind. eapply wp_eq; [exact Hrun|].
  destruct (zlen acc + zlen pend <? zlen (wire_frame f)).
  - destruct Hpost as [-> Hs1]. change (frame_type (no_frame fr)) with 0. apply wp_ret.
    split_and!; [done|done| |].
    + rewrite (hears_pending _ _ _ _ _ _ _ _ _ _ Hs1), Hpe. destruct pend; [done|simpl; lia].
    + exists (f :: fs'). split; [apply skips_refl|]. exists g, K, (B - zlen pend), (acc ++ pend), [], p, buf.
      split_and!; try done. rewrite Hw1. change (zlen []) with 0. lia.
  - destruct Hpost as [-> (Hs1 & Hn)]. cbv zeta in *. set (n := zlen (wire_frame f) - zlen acc) in *.
    pose proof (he_frames _ _ _ _ _ _ _ _ _ _ Hs) as Hfs. apply Forall_cons in Hfs as [[Hrf _] _].
    assert (Hpe1 : pending s1 = (length pend - Z.to_nat n)%nat).
    { rewrite (hears_pending _ _ _ _ _ _ _ _ _ _ Hs1). apply length_drop. }
    assert (Hdz : zlen (drop (Z.to_nat n) pend) = zlen pend - n) by (unfold zlen in *; rewrite length_drop; lia).
    assert (Hlen : zlen (f :: fs') = zlen fs' + 1) by (unfold zlen; simpl; lia).
    assert (Hlt : (pending s1 < pending s)%nat) by (rewrite Hpe1, Hpe; unfold zlen in *; lia).
    change (frame_type (received uninit (payload fr) f)) with (frame_type f).
    destruct (frame_type f =? AMQP_FRAME_HEARTBEAT) eqn:Ehb.
    + apply wp_bind.
      eapply (wp_mono _ (fun _ s2 => kept s1 s2 /\ reading true K fm (B - n) [] s2) _ (fun _ _ => False)).
      { pose proof (wp_release_channel true K fm (B - n) 0 s1 (takes_reading _ _ _ _ _ _ (he_reading _ _ _ _ _ _ _ _ _ _ Hs1))) as Hrel.
        pose proof (keeps_release (W := W) 0 s1) as Hkp. unfold wp in *.
        destruct (amqp_maybe_release_buffers_on_channel 0 s1); [|done..]. by split; [|apply Hrel]. }
      2: done.
      intros _ s2 [Hkept Hrd2]. destruct (hears_kept _ false _ _ _ _ _ _ _ _ _ _ _ Hs1 Hkept (or_introl Hrd2) (he_budget _ _ _ _ _ _ _ _ _ _ Hs1)) as (Hs2 & Hst2 & Hw2).
      apply wp_ret. split_and!.
      * by eapply stays_trans.
      * congruence.
      * rewrite (hears_pending _ _ _ _ _ _ _ _ _ _ Hs2), length_drop. lia.
      * exists fs'. split; [by eapply skips_more; [apply skips_refl|]|].
        exists false, K, (B - n), [], (drop (Z.to_nat n) pend), p, buf. split_and!; try done. rewrite Hw2, Hw1. lia.
    + rewrite (proj2 (Z.eqb_neq _ _)) by (by apply receivable_nonzero). simpl. apply wp_ret.
      split_and!; [done|done|]. exists f, fs'. split_and!; try done; [apply skips_refl|by apply received_old|].
      exists K, (B - n), (drop (Z.to_nat n) pend), p, buf. split_and!; try done; [rewrite Hw1|]; lia.
Qed.

Lemma heartbeats_left hbs h2 f fs fs' :
  hbs ++ f :: fs = h2 ++ fs' -> Forall (fun h => is_heartbeat h = true) h2 -> is_heartbeat f = false ->
  exists h3, hbs = h2 ++ h3 /\ fs' = h3 ++ f :: fs.
Proof.
  revert h2. induction hbs as [|h hbs IH]; intros [|x h2] Heq F2 Hf; simpl in *.
  - by exists [].
  - injection Heq as <- _. apply Forall_cons in F2 as [? _]. congruence.
  - exists (h :: hbs). done.
  - injection Heq as <- Heq. apply Forall_cons in F2 as [_ F2].
    destruct (IH h2 Heq F2 Hf) as (h3 & -> & ->). by exists h3.
Qed.

Lemma heartbeats_split hbs h2 f f' fs fs' :
  hbs ++ f :: fs = h2 ++ f' :: fs' -> Forall (fun h => is_heartbeat h = true) hbs ->
  Forall (fun h => is_heartbeat h = true) h2 -> is_heartbeat f = false -> is_heartbeat f' = false ->
  hbs = h2 /\ f = f' /\ fs = fs'.
Proof.
  intros Heq F1 F2 Hf Hf'. destruct (heartbeats_left _ _ _ _ _ Heq F2 Hf) as ([|x h3] & -> & E).
  - injection E as <- <-. by rewrite app_nil_r.
  - injection E as <- _. apply Forall_app in F1 as [_ F1]. apply Forall_cons in F1 as [? _]. congruence.
Qed.

(** What is left to do: bytes to receive, bytes to parse, waits. *)
Definition effort (s : cst W) : nat := (length (n_coming (net s)) + pending s + n_waits (net s))%nat.

Lemma drain_listening K0 fm R fs s fr :
  listening K0 fm R fs s -> (effort s < fuel)%nat ->
  wp (drain_buffer uninit fuel fr) (fun '(r, _) s' => drained K0 fm R fs s r s') (fun _ _ => False) s.
Proof.
  intros Hs Hfuel. unfold drain_buffer.
  eapply (wp_iter _ (fun _ s1 => stays s s1 /\ world s1 = world s /\ (pending s1 <= pending s)%nat /\
      exists fs', skips fs fs' /\ listening K0 fm R fs' s1) (fun _ s1 => pending s1)).
  - intros fr1 s1 (Hst1 & Hw1 & Hle1 & fs1 & Hsk1 & Hs1). wp_use drain_step; [exact Hs1| |done].
    intros [fr2|[r fr2]] s2; cbv beta iota.
    + intros (Hst2 & Hw2 & Hlt2 & fs2 & Hsk2 & Hs2). split; [|lia].
      split_and!; [by eapply stays_trans|congruence|lia|]. exists fs2. split; [|done].
      destruct Hsk1 as (h1 & -> & F1), Hsk2 as (h2 & -> & F2). exists (h1 ++ h2).
      rewrite <- app_assoc. split; [done|]. by apply Forall_app.
    + intros (Hst2 & Hw2 & Hr). split_and!; [by eapply stays_trans|congruence|].
      destruct Hsk1 as (h1 & -> & F1). destruct r as [g|].
      * destruct Hr as (f & fs' & (h2 & -> & F2) & Hhb & -> & Hs2 & Hlt). exists f, fs'.
        split_and!; try done; [|lia]. exists (h1 ++ h2). rewrite <- app_assoc. split; [done|].
        by apply Forall_app.
      * destruct Hr as (fs' & (h2 & -> & F2) & Hs2 & Hp0). exists fs'. split_and!; try done.
        exists (h1 ++ h2). rewrite <- app_assoc. split; [done|]. by apply Forall_app.
  - split_and!; [apply stays_refl|done|done|]. exists fs. split; [apply skips_refl|done].
  - unfold effort in Hfuel. lia.
Qed.

(** New data in the socket buffer. *)
Lemma hears_received g K fm B acc p buf fs s s' data :
  hears g K fm B acc [] p buf fs s -> with_data p buf data s s' -> zlen data <= zlen buf ->
  Forall is_byte data -> n_coming (net s) = data ++ n_coming (net s') -> n_ok (net s') -> n_healthy (net s') ->
  hears g (<[p_block p := overwrite 0 data buf]> K) fm B acc data p (overwrite 0 data buf) fs s' /\
  (n_sent (net s') = n_sent (net s) -> stays s s').
Proof.
  intros [Hrd Hk Hp Ho Hl Hz Hfr Hpd Hlim Hdat Hby Hstr Hbef Hacc Hbud Hso Hhb Hrt Hst Hok Hhe]
    [Hcn Hhp] Hdl Hdb Hco Hok' Hhe'.
  pose proof (zlen_nonneg data) as Hd0.
  assert (Hov : zlen (overwrite 0 data buf) = zlen buf) by (apply zlen_overwrite; lia).
  split; [split; rewrite ?Hcn, ?Hov; simpl; try done; try lia|].
  - eapply takes_stored; [exact Hrd|unfold same_parser; by rewrite Hcn|exact Hk|done|done].
  - apply lookup_insert_eq.
  - by apply slice_overwrite_same.
  - rewrite <- Hstr. simpl. by rewrite Hco.
  - rewrite Hco, zlen_app in Hbud. change (zlen []) with 0 in Hbud. lia.
  - intros Hse. unfold stays, anchor. rewrite Hcn. simpl. by rewrite Hrt.
Qed.

Lemma wp_receive_more K0 fm R fs s td :
  listening K0 fm R fs s -> pending s = 0%nat -> n_coming (net s) <> [] -> (effort s < fuel)%nat ->
  time_point_ns td <= UINT64_MAX ->
  wp (receive_more uninit fuel td) (fun _ s' => stays s s' /\ listening K0 fm R fs s' /\
      (effort s' <= effort s)%nat /\ (length (n_coming (net s')) < length (n_coming (net s)))%nat)
    (fun _ _ => ~ infinite td) s.
Proof.
  intros (g & K & B & acc & pend & p & buf & HK & Hs & HB & HR) Hpe Hcom Hfuel Htd.
  assert (pend = []) as -> by (rewrite (hears_pending _ _ _ _ _ _ _ _ _ _ Hs) in Hpe; by destruct pend).
  pose proof Hs as [Hrd Hk Hp Ho Hl Hz Hfr Hpd Hlim Hdat Hby Hstr Hbef Hacc Hbud Hso Hhb Hrt Hst Hok Hhe].
  unfold receive_more. destruct fuel as [|fuel'] eqn:Ef; [lia|]. rewrite <- Ef in *. rewrite Ef at 1. simpl iter.
  apply wp_bind, wp_bind, wp_the_conn. rewrite Hst. apply wp_bind. apply wp_ret.
  change (AMQP_STATUS_OK =? AMQP_STATUS_TIMER_FAILURE) with false. cbv iota.
  apply wp_bind, wp_ret. apply wp_bind, wp_the_conn. rewrite Hrt, Hst. apply wp_bind.
  set (deadline := amqp_time_first td (amqp_time_first amqp_time_infinite amqp_time_infinite)).
  assert (Hdl : deadline = td \/ infinite td /\ infinite deadline).
  { unfold deadline, amqp_time_first, infinite. simpl.
    destruct (Z.ltb_spec (time_point_ns td) UINT64_MAX); [by left|]. right. split; [lia|done]. }
  destruct (po_kept _ _ _ (cm_pools _ _ _ _ (takes_mem _ _ _ _ _ _ _ Hrd)) _ _ Hk) as [Hb _].
  wp_use (wp_recv_with_timeout fuel p buf deadline s); [done|done|done| | | |done].
  { by split. }
  { unfold effort in Hfuel. lia. }
  intros r s1 (Hok1 & Hse1 & Hw1 & Hr). apply wp_bind, wp_the_conn.
  destruct (Z.eqb_spec r AMQP_STATUS_OK) as [->|Hne].
  - destruct Hr as (Hhe1 & data & Hwd & Hdne & Hdl' & Hdb & Hco).
    change (AMQP_STATUS_OK =? AMQP_STATUS_TIMEOUT) with false. cbv iota.
    destruct (hears_received g K fm B acc p buf fs s s1 data Hs Hwd Hdl' Hdb Hco Hok1 (Hhe1 Hhe)) as [Hs1 Hstay].
    assert (Hpos : (0 < length data)%nat) by (destruct data; [done|simpl; lia]).
    pose proof (hears_pending _ _ _ _ _ _ _ _ _ _ Hs1) as Hpe1.
    apply wp_bind, wp_ret, wp_ret, wp_ret. unfold effort. rewrite Hpe, Hpe1, Hco, length_app.
    split_and!; [by apply Hstay| |lia|lia].
    exists g, (<[p_block p := overwrite 0 data buf]> K), B, acc, data, p, (overwrite 0 data buf).
    split_and!; [by rewrite delete_insert_eq|done| |done]. rewrite Hco, zlen_app in HB.
    change (zlen []) with 0 in HB. lia.
  - destruct Hr as ([Hcn Hhp] & Hco & Hinf). rewrite Hcn, Hrt, Hst.
    assert (Hni : ~ infinite td).
    { intros Hi. apply Hcom, Hinf; [|done]. by destruct Hdl as [->|[_ ?]]. }
    destruct Hdl as [->|[? _]]; [|done].
    destruct (r =? AMQP_STATUS_TIMEOUT).
    + unfold amqp_time_equal. change (time_point_ns amqp_time_infinite) with UINT64_MAX.
      rewrite (proj2 (Z.eqb_neq _ _)) by done. rewrite Z.eqb_refl. by apply wp_throw.
    + apply wp_bind. unfold check. rewrite (proj2 (Z.eqb_neq _ _)) by done. by apply wp_throw.
Qed.

(** There is still something to come: a frame that is not a heartbeat. *)
Lemma listening_coming K0 fm R f fs s :
  listening K0 fm R (f :: fs) s -> pending s = 0%nat -> n_coming (net s) <> [].
Proof.
  intros (g & K & B & acc & pend & p & buf & HK & Hs & HB & HR) Hpe Hnil.
  assert (pend = []) as -> by (rewrite (hears_pending _ _ _ _ _ _ _ _ _ _ Hs) in Hpe; by destruct pend).
  pose proof (he_stream _ _ _ _ _ _ _ _ _ _ Hs) as Hstr. pose proof (he_before _ _ _ _ _ _ _ _ _ _ Hs) as Hbef.
  rewrite Hnil, !app_nil_r in Hstr. simpl in *. rewrite Hstr, zlen_app in Hbef.
  pose proof (zlen_nonneg (wires fs)). lia.
Qed.

(** Waiting delivers the first frame that is no heartbeat. *)
Definition delivers (K0 : gmap Z (list Z)) (fm R : Z) (f : amqp_frame_t) (fs : list amqp_frame_t) (s : cst W)
    (g : amqp_frame_t) (s' : cst W) : Prop :=
  g = received uninit PL_none f /\ stays s s' /\ resting K0 fm (R + 2) fs s' /\ (effort s' < effort s)%nat.

Lemma wp_wait_frame K0 fm R hbs f fs s fr td :
  listening K0 fm R (hbs ++ f :: fs) s -> Forall (fun h => is_heartbeat h = true) hbs ->
  is_heartbeat f = false -> (effort s < fuel)%nat -> time_point_ns td <= UINT64_MAX ->
  wp (wait_frame_inner uninit fuel fr td) (delivers K0 fm R f fs s) (fun _ _ => ~ infinite td) s.
Proof.
  intros Hs Hhb Hf Hfuel Htd. unfold wait_frame_inner.
  eapply (wp_iter _ (fun _ s1 => stays s s1 /\ (effort s1 <= effort s)%nat /\
      exists hbs1, listening K0 fm R (hbs1 ++ f :: fs) s1 /\ Forall (fun h => is_heartbeat h = true) hbs1)
    (fun _ s1 => length (n_coming (net s1)))).
  2: { split_and!; [apply stays_refl|done|by exists hbs]. }
  2: { unfold effort in Hfuel. lia. }
  intros fr1 s1 (Hst1 & Hle1 & hbs1 & Hs1 & Hhb1). apply wp_bind.
  eapply wp_mono; [apply (drain_listening K0 fm R _ s1 fr1 Hs1); lia| |done].
  intros [r fr2] s2 (Hst2 & Hw2 & Hr). destruct r as [g|].
  - destruct Hr as (f' & fs' & (h2 & Heq & F2) & Hf' & -> & Hs2 & Hlt). apply wp_ret.
    destruct (heartbeats_split hbs1 h2 f f' fs fs' Heq Hhb1 F2 Hf Hf') as (-> & -> & ->).
    split_and!; [done|by eapply stays_trans|done|]. unfold effort in *. rewrite Hw2. lia.
  - destruct Hr as (fs' & (h2 & Heq & F2) & Hs2 & Hp0).
    destruct (heartbeats_left hbs1 h2 f fs fs' Heq F2 Hf) as (h3 & -> & ->).
    apply Forall_app in Hhb1 as [_ F3].
    assert (Hcom : n_coming (net s2) <> []) by (destruct h3; by eapply listening_coming).
    apply wp_bind. eapply wp_mono; [eapply (wp_receive_more K0 fm R _ s2 td Hs2 Hp0 Hcom)| |done].
    + unfold effort in *. rewrite Hw2, Hp0. lia.
    + done.
    + intros _ s3 (Hst3 & Hs3 & Hef3 & Hco3). apply wp_ret. rewrite Hw2 in Hco3.
      split; [|done]. split_and!; [by do 2 eapply stays_trans| |by exists h3].
      unfold effort in *. rewrite Hw2, Hp0 in *. lia.
Qed.
End Listen.
