(* ===== verification/Outbox.v ===== *)
(** * Sending frames through a socket *)

From S2P Require Import Prelude Machine Status Alloc Codec Table Framing Methods MethodDecode MethodEncode MethodWire Properties Mem MemTheory PoolTable Time Frame FrameTheorems Connection ParserTheory ParserTheorems Socket Network Inbox.

Section Send.
Context {W : Type} {HC : Clock W} {HS : Sockets W} {HP : Poll W} {HL : NetworkLaws W} {HH : Host}.
Context (uninit : amqp_basic_properties_t) (fuel : nat).

Abbreviation net s := (world (s : cst W)).

(** A connection that can send: a socket, an outbound buffer of its own, no
    heartbeats. *)
Record can_send (q : ptr) (m : list Z) (s : cst W) : Prop := {
  cs_ok : n_ok (net s);
  cs_socket : socket (conn s) = Some n_socket;
  cs_ptr : hb_bytes (outbound_buffer (conn s)) = Some q;
  cs_off : p_off q = 0;
  cs_block : h_blocks (hp s) !! p_block q = Some m;
  cs_len : hb_len (outbound_buffer (conn s)) = zlen m;
  cs_size : zlen m <= INT32_MAX;
  cs_heartbeat : heartbeat (conn s) = 0;
  cs_recv_timer : next_recv_heartbeat (conn s) = amqp_time_infinite
}.

Lemma drop_zero_at {A} (m : C (list Z) A) mem : at_ptr 0 m mem = m mem.
Proof.
  unfold at_ptr. rewrite (proj2 (Z.leb_le 0 (zlen mem))) by apply zlen_nonneg. simpl.
  rewrite drop_0. by destruct (m mem).
Qed.

(** The memory after a frame has been put into the outbound buffer. *)
Definition with_frame (q : ptr) (m : list Z) (f : amqp_frame_t) (h : heap) : heap :=
  set_blocks (<[p_block q := overwrite 0 (wire_frame f) m]> (h_blocks h)) h.

Lemma encode_outbound_wire q m f s :
  can_send q m s -> sendable f -> zlen (wire_frame f) <= zlen m ->
  encode_outbound f s = Ret (wire_frame f)
    {| conn := conn s; hp := with_frame q m f (hp s); world := world s |}.
Proof.
  intros [Hok Hso Hp Ho Hb Hl Hz Hhb Hrt] Hf Hfit. pose proof (zlen_nonneg (wire_frame f)).
  unfold encode_outbound, bind at 1, the_conn. rewrite Hp, Hl.
  erewrite bind_ret.
  2: { unfold on_mem, on_block. rewrite Hb, Ho, drop_zero_at.
       rewrite frame_to_bytes_fits by (done || lia). reflexivity. }
  unfold on_mem, heap_load, with_frame. simpl. rewrite lookup_insert_eq, Ho.
  rewrite load_Some by (rewrite ?zlen_overwrite; lia).
  by rewrite slice_overwrite_same by lia.
Qed.

(** What sending [w] does: [k] bytes of it are on the wire. *)
Record transmitted (q : ptr) (m : list Z) (f : amqp_frame_t) (k : Z) (s s' : cst W) : Prop := {
  tr_conn : conn s' = conn s;
  tr_heap : hp s' = with_frame q m f (hp s);
  tr_ok : n_ok (net s');
  tr_sent : n_sent (net s') = n_sent (net s) ++ take (Z.to_nat k) (wire_frame f);
  tr_coming : n_coming (net s') = n_coming (net s);
  tr_waits : (n_waits (net s') <= n_waits (net s))%nat;
  tr_healthy : n_healthy (net s) -> n_healthy (net s')
}.

Lemma wire_frame_nonempty f : wire_frame f <> [].
Proof.
  intros E. pose proof (zlen_wire_frame f) as Hz. rewrite E in Hz. change (zlen []) with 0 in Hz.
  pose proof (zlen_nonneg (wire_payload (payload f))). lia.
Qed.

Lemma first_infinite d : time_point_ns d <= UINT64_MAX -> amqp_time_equal (amqp_time_first d amqp_time_infinite) d = true.
Proof.
  intros Hd. unfold amqp_time_equal, amqp_time_first. simpl.
  destruct (Z.ltb_spec (time_point_ns d) UINT64_MAX); apply Z.eqb_eq; simpl; lia.
Qed.

(** One frame: all of it, or a status and a beginning of it. *)
Lemma wp_send_frame q m f flags deadline s :
  can_send q m s -> sendable f -> zlen (wire_frame f) <= zlen m -> time_point_ns deadline <= UINT64_MAX ->
  (length (wire_frame f) + n_waits (net s) < fuel)%nat ->
  wp (amqp_send_frame_inner uninit fuel f flags deadline)
    (fun _ s' => exists s1, transmitted q m f (zlen (wire_frame f)) s s1 /\
       s' = {| conn := set_next_send amqp_time_infinite (conn s1); hp := hp s1; world := world s1 |})
    (fun e s' => e < 0 /\ ~ (n_healthy (net s) /\ infinite deadline) /\
       exists k, 0 <= k <= zlen (wire_frame f) /\ transmitted q m f k s s') s.
Proof.
  intros Hs Hf Hfit Hdl Hfuel. pose proof Hs as [Hok Hso Hp Ho Hb Hl Hz Hhb Hrt].
  unfold amqp_send_frame_inner. apply wp_bind.
  eapply wp_eq; [by apply (encode_outbound_wire q m)|]. apply wp_bind.
  destruct fuel as [|fuel'] eqn:Ef; [lia|]. rewrite <- Ef in *. rewrite Ef at 1. simpl iter.
  apply wp_bind, wp_bind, wp_the_conn. simpl. rewrite Hrt. apply wp_bind.
  set (s0 := {| conn := conn s; hp := _; world := world s |}).
  set (nt := amqp_time_first deadline amqp_time_infinite).
  assert (Hinf : infinite deadline -> infinite nt).
  { unfold infinite, nt, amqp_time_first. intros Hi. by destruct (_ <? _). }
  wp_use (wp_try_send fuel (wire_frame f) nt flags s0); [done|done|apply wire_frame_nonempty| | | |done].
  { pose proof limit_law. lia. }
  { simpl. lia. }
  intros r s1 (k & [[Hcn Hhp] Hok1 Hk Hse Hco Hwa Hhe] & Hr). simpl in *.
  assert (Htr : transmitted q m f k s s1) by (split; done).
  destruct Hr as [[-> Hr]|[Hr Hnot]].
  - rewrite (proj2 (Z.ltb_ge _ _)) by lia. destruct (Z.eqb_spec (zlen (wire_frame f)) k) as [<-|Hne]; simpl.
    + apply wp_ret, wp_ret. apply wp_bind.
      eapply wp_eq; [apply restart_send_off; congruence|]. apply wp_ret. exists s1. by rewrite Hcn.
    + unfold nt. rewrite first_infinite by done. apply wp_throw. split_and!; [done| |by exists k].
      intros [Hh Hi]. destruct Hr as [?|[Hn|Hn]]; [done|by apply Hn, Hinf|done].
  - rewrite (proj2 (Z.ltb_lt _ _)) by lia. rewrite to_int_neg by lia. apply wp_throw.
    split_and!; [lia| |by exists k]. intros [Hh Hi]. apply Hnot. auto.
Qed.
End Send.
