(* ===== verification/FrameQueue.v ===== *)
(** * The queue of frames that arrived before they were asked for *)

From S2P Require Import Prelude Machine Status Alloc Codec Table Framing Methods MethodDecode MethodEncode MethodWire Properties Mem MemTheory PoolTable Time Frame FrameTheorems Connection ParserTheory ParserTheorems Greeting ConnectionTheorems Socket Network Inbox.

Section Queue.
Context {W : Type} {HC : Clock W} {HS : Sockets W} {HP : Poll W} {HL : NetworkLaws W} {HH : Host}.
Context (uninit : amqp_basic_properties_t) (fuel : nat).

Abbreviation net s := (world (s : cst W)).
Abbreviation pools_of s := (amqp_get_channel_pool (pool_table (conn s))).

(** Between frames, with [B] block records to spare: one allocation takes one. *)
Lemma wp_channel_alloc K fm B ch n (s : cst W) :
  reading true K fm B [] s -> 0 < B -> is_Some (pools_of s ch) -> 0 < n <= PTRDIFF_MAX - 7 ->
  wp (channel_alloc ch n) (fun r s' => is_Some r /\ kept s s' /\ reading true K fm (B - 1) [] s' /\
      is_Some (pools_of s' ch)) (fun _ _ => False) s.
Proof.
  intros Hs HB [pool Hpool] Hn. destruct Hs as [Hm Hb HBB Hroom (Hh & Hoff & Hrd)].
  change (zlen []) with 0 in *. simpl in Hroom. rewrite Z.add_0_r, Z.sub_0_r in Hroom.
  pose proof (Hroom ch pool Hpool) as Hr.
  pose proof (pools_ok_framed K (hp s) _ ch pool (cm_pools _ _ _ _ Hm) Hpool) as Hinv.
  pose proof (keeps_in_pool (W := W) ch (on_pool (fun pool => amqp_pool_alloc pool n)) s) as Hk.
  assert (Hwp : wp (channel_alloc ch n) (fun r s' => exists p, is_Some r /\ cmem true K fm s' /\
      room_for (B - 1) (pools_of s') /\ conn s' = set_pool_table (pool_table (conn s')) (conn s) /\
      pools_of s' ch = Some (ps_pool p) /\ hp s' = ps_heap p) (fun _ s' => False /\ cmem true K fm s') s).
  { apply (wp_in_channel_pool true K fm B (B - 1) ch pool _ (fun r _ => is_Some r) (fun _ => False) s);
      [done|done|done|lia|].
    wp_use (pool_alloc_law (AllocatorLaws := framed_laws (beside (hp s) pool))); simpl;
      [exact Hinv|lia|unfold pool_room; simpl; lia| |done].
    intros r p (Hi & _ & Hro & Hrel & _). unfold pool_room in *. simpl in *.
    destruct (Hrel (cm_rel _ _ _ _ Hm eq_refl)) as [Hre Hso]. split_and!; [by apply Hso|done|lia|done]. }
  unfold wp in *. unfold channel_alloc in *. destruct (in_channel_pool _ _ s) as [r s'|e s'| |]; [|by destruct Hwp|done..].
  destruct Hwp as (p & Hsome & Hm' & Hroom' & Hcn & Hpool' & _). split_and!; [done|done| |by rewrite Hpool'].
  split; [done|constructor| | |].
  - change (zlen []) with 0. lia.
  - change (zlen []) with 0. simpl. by rewrite Z.add_0_r, Z.sub_0_r.
  - rewrite Hcn. simpl. change (reader (set_pool_table _ (conn s))) with (reader (conn s)). by split_and!.
Qed.

(** The two allocations of a link and a copy of the frame. *)
Lemma wp_two_allocs {A} K fm B ch n1 n2 (s : cst W) fail (k : option ptr -> option ptr -> C (cst W) A) Q :
  reading true K fm B [] s -> 2 <= B -> 0 < n1 <= PTRDIFF_MAX - 7 -> 0 < n2 <= PTRDIFF_MAX - 7 ->
  (forall p1 p2 s', kept s s' -> reading true K fm (B - 2) [] s' ->
     wp (k (Some p1) (Some p2)) Q (fun _ _ => False) s') ->
  wp (let* found := get_or_create_pool ch in
      if negb found then fail
      else let* r1 := channel_alloc ch n1 in let* r2 := channel_alloc ch n2 in k r1 r2) Q (fun _ _ => False) s.
Proof.
  intros Hs HB Hn1 Hn2 Hk. apply wp_bind. pose proof Hs as [Hm Hb HBB Hroom (Hh & Hoff & Hrd)].
  change (zlen []) with 0 in *. simpl in Hroom. rewrite Z.add_0_r, Z.sub_0_r in Hroom.
  pose proof (keeps_pool (W := W) ch s) as Hkp.
  pose proof (wp_get_or_create_pool true K fm B ch s Hm Hroom ltac:(lia)) as Hwp.
  unfold wp in Hwp |- * at 1. destruct (get_or_create_pool ch s) as [found s1| | |]; [|done..].
  destruct Hwp as (Hm1 & Hroom1 & Hrd1 & Hf & Hp1 & _). rewrite (Hf eq_refl) in *. simpl.
  fold (wp (let* r1 := channel_alloc ch n1 in let* r2 := channel_alloc ch n2 in k r1 r2) Q (fun _ _ => False) s1).
  assert (Hs1 : reading true K fm B [] s1).
  { split; [done|constructor|done| |].
    - change (zlen []) with 0. simpl. by rewrite Z.add_0_r, Z.sub_0_r.
    - rewrite Hrd1. by split_and!. }
  apply wp_bind. wp_use (wp_channel_alloc K fm B ch n1 s1); [done|lia|by apply Hp1|done| |done].
  intros r1 s2 ([p1 ->] & Hk2 & Hs2 & Hp2). apply wp_bind.
  wp_use (wp_channel_alloc K fm (B - 1) ch n2 s2); [done|lia|done|done| |done].
  intros r2 s3 ([p2 ->] & Hk3 & Hs3 & Hp3). apply Hk.
  - by do 2 (eapply kept_trans; [|done]).
  - by replace (B - 2) with (B - 1 - 1) by lia.
Qed.

(** Only the queue changes. *)
Definition queued (q : list amqp_frame_t) (s s' : cst W) : Prop :=
  anchor (conn s') = anchor (conn s) /\ queued_frames (conn s') = q /\ world s' = world s /\
  pending s' = pending s.

Lemma hears_queue g K fm B acc pend p buf fs s q :
  hears g K fm B acc pend p buf fs s ->
  hears g K fm B acc pend p buf fs {| conn := set_queue q (conn s); hp := hp s; world := world s |}.
Proof. intros []. split; simpl; try done. by eapply takes_same. Qed.

Lemma resting_queue K0 fm R fs s q :
  resting K0 fm R fs s -> resting K0 fm R fs {| conn := set_queue q (conn s); hp := hp s; world := world s |}.
Proof.
  intros (K & B & pend & p & buf & HK & Hs & HB & HR). exists K, B, pend, p, buf.
  split_and!; try done. by apply hears_queue.
Qed.

(** A computation that takes two allocations and then stores a frame in the
    queue. *)
Lemma wp_enqueue {A} K0 fm R fs f s n1 n2 fail (k : option ptr -> option ptr -> C (cst W) A) Q :
  resting K0 fm (R + 2) fs s -> 0 <= R -> 0 < n1 <= PTRDIFF_MAX - 7 -> 0 < n2 <= PTRDIFF_MAX - 7 ->
  (forall p1 p2 s', resting K0 fm R fs s' -> stays s s' -> world s' = world s -> pending s' = pending s ->
     wp (k (Some p1) (Some p2)) Q (fun _ _ => False) s') ->
  wp (let* found := get_or_create_pool (channel f) in
      if negb found then fail
      else let* r1 := channel_alloc (channel f) n1 in let* r2 := channel_alloc (channel f) n2 in k r1 r2)
    Q (fun _ _ => False) s.
Proof.
  intros Hs HR Hn1 Hn2 Hk. pose proof Hs as (K & B & pend & p & buf & HK & Hh & HB & HR2).
  pose proof (zlen_nonneg pend). pose proof (zlen_nonneg (n_coming (net s))). pose proof (zlen_nonneg fs).
  apply (wp_two_allocs K fm B); [exact (takes_reading _ _ _ _ _ _ (he_reading _ _ _ _ _ _ _ _ _ _ Hh))|lia|done|done|].
  intros p1 p2 s' Hkept Hrd. destruct (hears_kept _ false _ _ _ (B - 2) _ _ _ _ _ _ _ Hh Hkept (or_introl Hrd) ltac:(lia)) as (Hs' & Hst & Hw).
  apply Hk; [|done|done|].
  - exists K, (B - 2), pend, p, buf. split_and!; try done. rewrite Hw. lia.
  - by rewrite (hears_pending _ _ _ _ _ _ _ _ _ _ Hh), (hears_pending _ _ _ _ _ _ _ _ _ _ Hs').
Qed.

Lemma wp_keep_frame K0 fm R fs f s :
  resting K0 fm (R + 2) fs s -> 0 <= R ->
  wp (keep_frame f) (fun _ s' => resting K0 fm R fs s' /\ queued (queued_frames (conn s) ++ [f]) s s')
    (fun _ _ => False) s.
Proof.
  intros Hs HR. unfold keep_frame. apply (wp_enqueue K0 fm R fs f s _ _ _ _ _ Hs HR); [done|done|].
  intros p1 p2 s' Hs' (Ha & _ & Hq) Hw Hp. apply wp_upd. split; [by apply resting_queue|].
  split_and!; [done|simpl; by rewrite Hq|done|done].
Qed.

Lemma wp_create_link K0 fm R fs f s :
  resting K0 fm (R + 2) fs s -> 0 <= R ->
  wp (amqp_create_link_for_frame f) (fun b s' => b = true /\ resting K0 fm R fs s' /\
      queued (queued_frames (conn s)) s s') (fun _ _ => False) s.
Proof.
  intros Hs HR. unfold amqp_create_link_for_frame.
  apply (wp_enqueue K0 fm R fs f s _ _ _ _ _ Hs HR); [done|done|].
  intros p1 p2 s' Hs' (Ha & _ & Hq) Hw Hp. apply wp_ret. by split_and!.
Qed.

Lemma wp_queue_frame K0 fm R fs f s :
  resting K0 fm (R + 2) fs s -> 0 <= R ->
  wp (amqp_queue_frame f) (fun _ s' => resting K0 fm R fs s' /\ queued (queued_frames (conn s) ++ [f]) s s')
    (fun _ _ => False) s.
Proof.
  intros Hs HR. unfold amqp_queue_frame. apply wp_bind. wp_use wp_create_link; [done|done| |done].
  intros b s' (-> & Hs' & Ha & Hq & Hw & Hp). apply wp_upd. split; [by apply resting_queue|].
  split_and!; [done|simpl; by rewrite Hq|done|done].
Qed.

Lemma wp_put_back_frame K0 fm R fs f s :
  resting K0 fm (R + 2) fs s -> 0 <= R ->
  wp (amqp_put_back_frame f) (fun _ s' => resting K0 fm R fs s' /\ queued (f :: queued_frames (conn s)) s s')
    (fun _ _ => False) s.
Proof.
  intros Hs HR. unfold amqp_put_back_frame. apply wp_bind. wp_use wp_create_link; [done|done| |done].
  intros b s' (-> & Hs' & Ha & Hq & Hw & Hp). apply wp_upd. split; [by apply resting_queue|].
  split_and!; [done|simpl; by rewrite Hq|done|done].
Qed.
End Queue.
