(* ===== verification/RpcTheory.v ===== *)
(** * Conversations: sending and receiving on one connection *)

From S2P Require Import Prelude Machine Status Alloc Codec Table Framing Methods MethodDecode MethodEncode MethodWire TableDecode Properties PropertiesTheory Mem MemTheory PoolTable Time Frame FrameTheorems Connection ParserTheory ParserTheorems Greeting ConnectionTheorems Socket Network Inbox Outbox FrameQueue.

Section Conversation.
Context {W : Type} {HC : Clock W} {HS : Sockets W} {HP : Poll W} {HL : NetworkLaws W} {HH : Host}.
Context (uninit : amqp_basic_properties_t) (fuel : nat).

Abbreviation net s := (world (s : cst W)).

(** The outbound buffer is one of the blocks [K0]. *)
Record outbox (K0 : gmap Z (list Z)) (q : ptr) (m : list Z) (s : cst W) : Prop := {
  ob_ptr : hb_bytes (outbound_buffer (conn s)) = Some q;
  ob_off : p_off q = 0;
  ob_kept : K0 !! p_block q = Some m;
  ob_len : hb_len (outbound_buffer (conn s)) = zlen m;
  ob_size : zlen m <= INT32_MAX
}.

Lemma outbox_anchor K0 q m s s' : outbox K0 q m s -> anchor (conn s') = anchor (conn s) -> outbox K0 q m s'.
Proof.
  intros [] Ha. unfold anchor in Ha. injection Ha as E1 E2 E3 E4 E5 E6 E7 E8 E9 E10 E11 E12 E13 E14 E15.
  split; by rewrite ?E7.
Qed.

Lemma listening_can_send K0 fm R fs q m s :
  listening K0 fm R fs s -> outbox K0 q m s -> can_send q m s.
Proof.
  intros (g & K & B & acc & pend & p & buf & <- & Hs & _ & _) [Hp Ho Hk Hl Hz].
  apply lookup_delete_Some in Hk as [Hne Hk].
  destruct (po_kept _ _ _ (cm_pools _ _ _ _ (takes_mem _ _ _ _ _ _ _ (he_reading _ _ _ _ _ _ _ _ _ _ Hs))) _ _ Hk) as [Hb _].
  split; try done; apply Hs.
Qed.

Lemma next_send_same (c : amqp_connection_state_t) :
  next_send_heartbeat c = amqp_time_infinite -> set_next_send amqp_time_infinite c = c.
Proof. destruct c. simpl. by intros ->. Qed.

(** Storing into the outbound buffer does not disturb the receiving side. *)
Lemma hears_sent g K fm B acc pend p buf fs s s' b m m' :
  hears g K fm B acc pend p buf fs s -> K !! b = Some m -> b <> p_block p -> zlen m' = zlen m ->
  conn s' = conn s -> hp s' = set_blocks (<[b := m']> (h_blocks (hp s))) (hp s) ->
  n_ok (net s') -> n_healthy (net s') -> n_coming (net s') = n_coming (net s) ->
  hears g (<[b := m']> K) fm B acc pend p buf fs s'.
Proof.
  intros [] Hb Hne Hz Hc Hh Hok Hhe Hco. split; rewrite ?Hc, ?Hco; try done.
  - eapply takes_stored; [done|unfold same_parser; by rewrite Hc|done|done|done].
  - by rewrite lookup_insert_ne.
Qed.

Lemma wp_send_listening K0 fm R fs q m f flags s :
  listening K0 fm R fs s -> outbox K0 q m s -> sendable f -> zlen (wire_frame f) <= zlen m ->
  (length (wire_frame f) + n_waits (net s) < fuel)%nat ->
  wp (amqp_send_frame_inner uninit fuel f flags amqp_time_infinite) (fun _ s' =>
    let m' := overwrite 0 (wire_frame f) m in
    conn s' = conn s /\ n_sent (net s') = n_sent (net s) ++ wire_frame f /\
    n_coming (net s') = n_coming (net s) /\ (n_waits (net s') <= n_waits (net s))%nat /\
    (listening K0 fm R fs s -> listening (<[p_block q := m']> K0) fm R fs s') /\
    (resting K0 fm R fs s -> resting (<[p_block q := m']> K0) fm R fs s') /\
    outbox (<[p_block q := m']> K0) q m' s' /\ zlen m' = zlen m)
    (fun _ _ => False) s.
Proof.
  intros Hl Hob Hf Hfit Hfuel. pose proof (listening_can_send _ _ _ _ _ _ _ Hl Hob) as Hcs.
  pose proof Hl as (g & K & B & acc & pend & p & buf & HK & Hs & HB & HR).
  wp_use (wp_send_frame uninit fuel q m f flags amqp_time_infinite s); try done.
  2: { intros e s' (_ & Hn & _). apply Hn. split; [apply Hs|done]. }
  intros _ s' (s1 & [Hcn Hhp Hok Hse Hco Hwa Hhe] & ->). simpl.
  specialize (Hhe (he_healthy _ _ _ _ _ _ _ _ _ _ Hs)).
  assert (Hz : zlen (overwrite 0 (wire_frame f) m) = zlen m).
  { apply zlen_overwrite; [done|]. pose proof (zlen_nonneg (wire_frame f)). lia. }
  assert (Hsame : set_next_send amqp_time_infinite (conn s1) = conn s).
  { rewrite Hcn. apply next_send_same, Hs. }
  set (s' := {| conn := _; hp := hp s1; world := world s1 |}).
  assert (Hhear : forall g K B acc pend p buf, delete (p_block p) K = K0 -> hears g K fm B acc pend p buf fs s ->
    delete (p_block p) (<[p_block q := overwrite 0 (wire_frame f) m]> K) =
      <[p_block q := overwrite 0 (wire_frame f) m]> K0 /\
    hears g (<[p_block q := overwrite 0 (wire_frame f) m]> K) fm B acc pend p buf fs s').
  { intros g' K' B' acc' pend' p' buf' <- Hs'. pose proof (ob_kept _ _ _ _ Hob) as Hk.
    apply lookup_delete_Some in Hk as [Hne Hk]. split; [by rewrite delete_insert_ne|].
    eapply hears_sent; [exact Hs'|exact Hk|congruence|done|done|done|done|done|done]. }
  unfold zlen in Hse. rewrite Nat2Z.id, firstn_all in Hse.
  split_and!; [done|done|done|done| | | |done].
  - intros (g' & K' & B' & acc' & pend' & p' & buf' & HK' & Hs' & HB' & HR').
    destruct (Hhear _ _ _ _ _ _ _ HK' Hs') as [HK2 Hs2]. eexists g', _, B', acc', pend', p', buf'.
    split_and!; [exact HK2|exact Hs2| |done]. simpl. by rewrite Hco.
  - intros (K' & B' & pend' & p' & buf' & HK' & Hs' & HB' & HR').
    destruct (Hhear _ _ _ _ _ _ _ HK' Hs') as [HK2 Hs2]. eexists _, B', pend', p', buf'.
    split_and!; [exact HK2|exact Hs2| |done]. simpl. by rewrite Hco.
  - destruct Hob. split; rewrite ?Hz; simpl; rewrite ?Hcn; try done. apply lookup_insert_eq.
Qed.

(** ** Replies *)

(** Whether a frame on the wire is an answer to a call on [ch]. *)
Definition rpc_match (ch : Z) (ids : list Z) (f : amqp_frame_t) : bool :=
  match payload f with
  | PL_method id _ =>
      ((channel f =? ch) && (amqp_id_in_reply_list id ids || (id =? AMQP_CHANNEL_CLOSE_METHOD)))
      || ((channel f =? 0) && (id =? AMQP_CONNECTION_CLOSE_METHOD))
  | _ => false
  end.

Lemma concerns_received ch ids f (s : cst W) :
  receivable f -> concerns_rpc ch ids (received uninit PL_none f) s = Ret (rpc_match ch ids f) s.
Proof.
  intros (_ & _ & Hf). unfold concerns_rpc, rpc_match, received. simpl.
  destruct (payload f); simpl in *;
    [by rewrite Hf|by destruct Hf as [-> _]|by destruct Hf as [-> _]|by rewrite Hf|done].
Qed.

(** Frames that are not heartbeats, as they are received. *)
Definition heard (fs : list amqp_frame_t) : list amqp_frame_t :=
  map (received uninit PL_none) (List.filter (fun f => negb (is_heartbeat f)) fs).

Lemma heard_app fs gs : heard (fs ++ gs) = heard fs ++ heard gs.
Proof. unfold heard. by rewrite List.filter_app, map_app. Qed.

Lemma heard_heartbeats hbs : Forall (fun f => is_heartbeat f = true) hbs -> heard hbs = [].
Proof. induction 1 as [|f hbs Hf _ IH]; [done|]. unfold heard in *. simpl. by rewrite Hf. Qed.

(** The first frame that is no heartbeat. *)
Lemma first_heard fs : heard fs = [] /\ Forall (fun f => is_heartbeat f = true) fs \/
  exists hbs f fs', fs = hbs ++ f :: fs' /\ Forall (fun f => is_heartbeat f = true) hbs /\ is_heartbeat f = false.
Proof.
  induction fs as [|f fs IH]; [by left|]. destruct (is_heartbeat f) eqn:E.
  - destruct IH as [[Hh Hf]|(hbs & g & fs' & -> & Hf & Hg)].
    + left. split; [|by constructor]. unfold heard in *. simpl. by rewrite E.
    + right. exists (f :: hbs), g, fs'. split_and!; [done|by constructor|done].
  - right. by exists [], f, fs.
Qed.

Lemma listening_frames K0 fm R fs s : listening K0 fm R fs s -> Forall (acceptable fm) fs.
Proof. intros (g & K & B & acc & pend & p & buf & _ & Hs & _). apply Hs. Qed.

(** ** Waiting *)

Lemma wp_wait_noblock K0 fm R hbs f fs s fr :
  listening K0 fm R (hbs ++ f :: fs) s -> Forall (fun h => is_heartbeat h = true) hbs ->
  is_heartbeat f = false -> (effort s < fuel)%nat -> queued_frames (conn s) = [] ->
  wp (amqp_simple_wait_frame uninit fuel fr) (delivers uninit K0 fm R f fs s) (fun _ _ => False) s.
Proof.
  intros Hs Hhb Hf Hfuel Hq. unfold amqp_simple_wait_frame, amqp_simple_wait_frame_noblock.
  apply wp_bind. simpl. apply wp_ret. apply wp_bind, wp_ret. apply wp_bind, wp_the_conn. rewrite Hq.
  wp_use wp_wait_frame; [done|done|done|done|done|done|].
  intros e s' Hn. by apply Hn.
Qed.

(** A frame from the queue. *)
Lemma wp_wait_queued g q s fr :
  queued_frames (conn s) = g :: q ->
  amqp_simple_wait_frame uninit fuel fr s =
    Ret g {| conn := set_queue q (conn s); hp := hp s; world := world s |}.
Proof. intros Hq. unfold amqp_simple_wait_frame, amqp_simple_wait_frame_noblock, bind. simpl. by rewrite Hq. Qed.

(** ** The reply to a call *)

Definition reply_of (ids : list Z) (id : Z) (d : amqp_decoded_t) : amqp_rpc_reply_t :=
  {| reply_type := if amqp_id_in_reply_list id ids then AMQP_RESPONSE_NORMAL else AMQP_RESPONSE_SERVER_EXCEPTION;
     reply_id := id; reply_decoded := Some (norm_method d); library_error := 0 |}.

(** State [s'] after the frames [seen] have been kept for later. *)
Definition kept_frames (seen : list amqp_frame_t) (s s' : cst W) : Prop :=
  anchor (conn s') = anchor (conn s) /\ n_sent (net s') = n_sent (net s) /\
  queued_frames (conn s') = queued_frames (conn s) ++ heard seen.

(** One round of a loop that waits for a frame it is interested in ([mine]) and
    keeps the others for later. *)
Definition waits_for {A} (body : amqp_frame_t -> C (cst W) (amqp_frame_t + A)) (mine : amqp_frame_t -> bool)
    (res : amqp_frame_t -> A) : Prop :=
  forall fr K0 fm R hbs g fs s,
  listening K0 fm R (hbs ++ g :: fs) s -> Forall (fun h => is_heartbeat h = true) hbs ->
  is_heartbeat g = false -> receivable g -> (effort s < fuel)%nat ->
  wp (body fr) (fun r s' => (effort s' < effort s)%nat /\
    if mine g then r = inr (res g) /\ stays s s' /\ resting K0 fm (R + 2) fs s'
    else (exists fr', r = inl fr') /\ resting K0 fm R fs s' /\ anchor (conn s') = anchor (conn s) /\
      n_sent (net s') = n_sent (net s) /\
      queued_frames (conn s') = queued_frames (conn s) ++ [received uninit PL_none g])
    (fun _ _ => False) s.

Lemma wp_wait_until {A} (body : amqp_frame_t -> C (cst W) (amqp_frame_t + A)) mine res K0 fm R pre f post s fr :
  waits_for body mine res -> listening K0 fm R (pre ++ f :: post) s ->
  Forall (fun g => is_heartbeat g = true \/ mine g = false) pre ->
  mine f = true -> is_heartbeat f = false -> (effort s < fuel)%nat ->
  wp (iter fuel body fr) (fun r s' => r = res f /\ kept_frames pre s s' /\
      resting K0 fm (R + 2) post s' /\ (effort s' < effort s)%nat) (fun _ _ => False) s.
Proof.
  intros Hbody Hs Hpre Hm Hnh Hfuel.
  eapply (wp_iter _ (fun _ s1 => exists seen todo, pre = seen ++ todo /\ kept_frames seen s s1 /\
      listening K0 fm R (todo ++ f :: post) s1 /\ (effort s1 <= effort s)%nat) (fun _ s1 => effort s1)); [| |done].
  2: { exists [], pre. split_and!; try done. unfold kept_frames. change (heard []) with (@nil amqp_frame_t).
       by rewrite app_nil_r. }
  intros fr1 s1 (seen & todo & -> & (Ha & Hse & Hq) & Hl & Hef).
  apply Forall_app in Hpre as [_ Htodo]. pose proof (listening_frames _ _ _ _ _ Hl) as Hac.
  destruct (first_heard todo) as [[Hno Hhb]|(hbs & g & todo' & -> & Hhb & Hg)].
  - apply Forall_app in Hac as [_ Hac]. apply Forall_cons in Hac as [[Hrf _] _].
    wp_use Hbody; [exact Hl|done|done|done|lia| |done].
    intros r s2 (Hef2 & Hr). rewrite Hm in Hr. destruct Hr as (-> & (Ha2 & Hse2 & Hq2) & Hs2).
    split_and!; [done| |done|lia]. unfold kept_frames. rewrite heard_app, Hno, app_nil_r.
    split_and!; congruence.
  - rewrite <- app_assoc in Hl. simpl in Hl. rewrite <- app_assoc in Hac. apply Forall_app in Hac as [_ Hac].
    apply Forall_cons in Hac as [[Hrg _] _].
    apply Forall_app in Htodo as [_ Htodo]. apply Forall_cons in Htodo as [[?|Hmg] _]; [congruence|].
    wp_use Hbody; [exact Hl|done|done|done|lia| |done].
    intros r s2 (Hef2 & Hr). rewrite Hmg in Hr. destruct Hr as ([fr' ->] & Hs2 & Ha2 & Hse2 & Hq2).
    split; [|lia]. exists (seen ++ hbs ++ [g]), todo'. rewrite <- !app_assoc. split_and!; [done| | |lia].
    + unfold kept_frames. rewrite !heard_app, (heard_heartbeats hbs) by done.
      replace (heard [g]) with [received uninit PL_none g] by (unfold heard; simpl; by rewrite Hg).
      rewrite Hq2, Hq, <- app_assoc. split_and!; [congruence|congruence|done].
    + by apply resting_listening.
Qed.

Lemma listening_spare K0 fm R fs s : listening K0 fm R fs s -> 0 <= R.
Proof. by intros (? & ? & ? & ? & ? & ? & ? & ? & ? & ? & ?). Qed.

(** The reply a received frame stands for. *)
Definition frame_reply (ids : list Z) (f : amqp_frame_t) : amqp_rpc_reply_t :=
  match payload f with PL_method id d => reply_of ids id d | _ => amqp_rpc_reply_error 0 end.

Lemma wp_wait_reply K0 fm R ch ids pre f post s td :
  listening K0 fm R (pre ++ f :: post) s ->
  Forall (fun g => is_heartbeat g = true \/ rpc_match ch ids g = false) pre ->
  rpc_match ch ids f = true -> (effort s < fuel)%nat -> infinite td ->
  wp (wait_reply uninit fuel ch ids td) (fun r s' => r = frame_reply ids f /\ kept_frames pre s s' /\
      resting K0 fm (R + 2) post s' /\ (effort s' < effort s)%nat) (fun _ _ => False) s.
Proof.
  intros Hs Hpre Hm Hfuel Hinf. unfold wait_reply.
  assert (Htd : time_point_ns td <= UINT64_MAX) by (rewrite Hinf; done).
  eapply wp_wait_until; [|done|done|done| |done].
  - clear - Hinf Htd HL. intros fr K0 fm R hbs g fs s Hl Hhb Hg Hrg Hfuel. apply wp_bind, wp_try.
    wp_use wp_wait_frame; [exact Hl|done|done|done|done| |by intros e s' []].
    intros g' s2 (-> & Hst & Hs2 & Hef2). cbv beta iota.
    apply wp_bind. eapply wp_eq; [by apply concerns_received|]. destruct (rpc_match ch ids g) eqn:Em; simpl.
    + unfold rpc_match in Em. apply wp_bind. unfold method_of, frame_reply. simpl.
      destruct (payload g); [done| |done..]. by apply wp_ret, wp_ret.
    + apply wp_bind, wp_try. wp_use wp_keep_frame; [exact Hs2|by eapply listening_spare| |done].
      intros _ s3 (Hs3 & Ha3 & Hq3 & Hw3 & Hp3). cbv beta iota. apply wp_ret. destruct Hst as (Ha & Hse & Hq).
      assert (Hef3 : effort s3 = effort s2) by (unfold effort; by rewrite Hw3, Hp3).
      split; [lia|]. rewrite Hw3. split_and!; [by eexists|done|congruence|done|congruence].
  - pose proof (listening_frames _ _ _ _ _ Hs) as Hac. apply Forall_app in Hac as [_ Hac].
    apply Forall_cons in Hac as [[(_ & _ & Hty) _] _]. unfold rpc_match in Hm. unfold is_heartbeat.
    destruct (payload f); [done| |done..]. by destruct Hty as [-> _].
Qed.

Lemma wp_wait_channel K0 fm R ch pre f post s fr :
  listening K0 fm R (pre ++ f :: post) s ->
  Forall (fun g => is_heartbeat g = true \/ channel g <> ch) pre -> channel f = ch ->
  is_heartbeat f = false -> (effort s < fuel)%nat -> Forall (fun g => channel g <> ch) (queued_frames (conn s)) ->
  wp (amqp_simple_wait_frame_on_channel uninit fuel ch fr) (fun r s' => r = received uninit PL_none f /\
      kept_frames pre s s' /\ resting K0 fm (R + 2) post s' /\ (effort s' < effort s)%nat) (fun _ _ => False) s.
Proof.
  intros Hs Hpre Hm Hnh Hfuel Hq. unfold amqp_simple_wait_frame_on_channel. apply wp_bind, wp_the_conn.
  replace (first_on_channel ch (queued_frames (conn s))) with (@None (amqp_frame_t * list amqp_frame_t)).
  2: { clear - Hq. induction Hq as [|g q Hg _ IH]; [done|]. simpl. by rewrite (proj2 (Z.eqb_neq _ _)) by done. }
  eapply (wp_wait_until _ (fun g => ch =? channel g)); [|done| | |done|done].
  - clear - HL. intros fr K0 fm R hbs g fs s Hl Hhb Hg Hrg Hfuel. apply wp_bind.
    wp_use wp_wait_frame; [exact Hl|done|done|done|done| |intros e s' Hn; by apply Hn].
    intros g' s2 (-> & Hst & Hs2 & Hef2). change (channel (received uninit PL_none g)) with (channel g).
    destruct (ch =? channel g); [by apply wp_ret|].
    apply wp_bind. wp_use wp_queue_frame; [exact Hs2|by eapply listening_spare| |done].
    intros _ s3 (Hs3 & Ha3 & Hq3 & Hw3 & Hp3). apply wp_ret. destruct Hst as (Ha & Hse & Hq).
    assert (Hef3 : effort s3 = effort s2) by (unfold effort; by rewrite Hw3, Hp3).
    split; [lia|]. rewrite Hw3. split_and!; [by eexists|done|congruence|done|congruence].
  - eapply Forall_impl; [exact Hpre|]. intros g [?|?]; [by left|right]. apply Z.eqb_neq. congruence.
  - by apply Z.eqb_eq.
Qed.

(** A call: the request goes out, the first frame that concerns it is the reply. *)
Lemma wp_simple_rpc_inner K0 fm R q m ch req ids pre f post s td :
  let reqf := {| frame_type := AMQP_FRAME_METHOD; channel := ch;
                 payload := PL_method (method_id req) (method_decoded req) |} in
  listening K0 fm R (pre ++ f :: post) s -> outbox K0 q m s -> infinite td ->
  sendable reqf -> zlen (wire_frame reqf) <= zlen m ->
  Forall (fun g => is_heartbeat g = true \/ rpc_match ch ids g = false) pre -> rpc_match ch ids f = true ->
  (length (wire_frame reqf) + effort s < fuel)%nat ->
  wp (simple_rpc_inner uninit fuel ch req ids td) (fun r s' => r = frame_reply ids f /\
      n_sent (net s') = n_sent (net s) ++ wire_frame reqf /\
      queued_frames (conn s') = queued_frames (conn s) ++ heard pre /\
      anchor (conn s') = anchor (conn s) /\
      exists m', resting (<[p_block q := m']> K0) fm (R + 2) post s' /\
        outbox (<[p_block q := m']> K0) q m' s' /\ zlen m' = zlen m /\ (effort s' < effort s)%nat) (fun _ _ => False) s.
Proof.
  intros reqf Hs Hob Htd Hse Hfit Hpre Hm Hfuel. unfold simple_rpc_inner. apply wp_bind, wp_status_of.
  unfold amqp_send_method, amqp_send_method_inner. fold reqf.
  wp_use wp_send_listening; [exact Hs|exact Hob|done|done|unfold effort in Hfuel; lia| |done].
  intros _ s1 (Hcn & Hsent & Hco & Hwa & Hl & _ & Hob1 & Hz). cbv beta iota zeta in *.
  assert (Hpe : pending s1 = pending s) by (unfold pending; by rewrite Hcn).
  assert (Hef : (effort s1 <= effort s)%nat) by (unfold effort; rewrite Hco, Hpe; lia).
  wp_use wp_wait_reply; [apply Hl, Hs|done|done|lia|done| |done].
  intros r s2 (-> & (Ha2 & Hse2 & Hq2) & Hs2 & Hef2). split_and!; [done|congruence|congruence|congruence|].
  eexists. split; [exact Hs2|]. split_and!; [by eapply outbox_anchor|exact Hz|lia].
Qed.
End Conversation.
