(* ===== verification/RpcTheorems.v ===== *)
(** * Theorems about sending, receiving and remote procedure calls *)

From S2P Require Import Prelude Machine Status Alloc Codec Table Framing Methods MethodDecode MethodEncode MethodWire Properties PropertiesTheory PropertiesTheorems MethodTheorems TableTheorems Mem MemTheory PoolTheorems PoolTable Time Frame FrameTheorems Connection ParserTheory ParserTheorems Greeting ConnectionTheorems Socket Network Scripted Inbox Outbox FrameQueue RpcTheory.

Section Theorems.
Context {W : Type} {HC : Clock W} {HS : Sockets W} {HP : Poll W} {HL : NetworkLaws W} {HH : Host}.
Context (uninit : amqp_basic_properties_t) (fuel : nat).

Abbreviation net s := (world (s : cst W)).

(** ** Sending *)

(** C8: over any network, [amqp_send_frame_inner] terminates and puts the wire
    form of the frame on the network without altering, repeating or dropping a
    byte, whatever partial sends and waits the socket demands.  When it
    succeeds, the whole frame has been sent; when it fails, the status is
    negative and a beginning of the frame has been sent, which does not happen on
    a healthy network without a deadline.  (Heartbeats are off.) *)
Theorem send_frame_exact q m f flags deadline s :
  can_send q m s -> sendable f -> zlen (wire_frame f) <= zlen m -> time_point_ns deadline <= UINT64_MAX ->
  (length (wire_frame f) + n_waits (net s) < fuel)%nat ->
  wp (amqp_send_frame_inner uninit fuel f flags deadline)
    (fun _ s' => n_sent (net s') = n_sent (net s) ++ wire_frame f /\
       next_send_heartbeat (conn s') = amqp_time_infinite)
    (fun e s' => e < 0 /\ ~ (n_healthy (net s) /\ infinite deadline) /\
       exists k, 0 <= k <= zlen (wire_frame f) /\
         n_sent (net s') = n_sent (net s) ++ take (Z.to_nat k) (wire_frame f)) s.
Proof.
  intros Hs Hf Hfit Hdl Hfuel. wp_use wp_send_frame; [exact Hs|done..| |].
  - intros _ s' (s1 & Htr & ->). split; [|done]. simpl. rewrite (tr_sent _ _ _ _ _ _ Htr).
    unfold zlen. by rewrite Nat2Z.id, firstn_all.
  - intros e s' (He & Hn & k & Hk & Htr). split_and!; [done|done|]. exists k. split; [done|]. apply Htr.
Qed.

(** ** Receiving *)

(** [n] calls of [amqp_simple_wait_frame]. *)
Fixpoint wait_frames (n : nat) : C (cst W) (list amqp_frame_t) :=
  match n with
  | O => ret []
  | S n' =>
      let* f := amqp_simple_wait_frame uninit fuel new_frame in
      let* fs := wait_frames n' in
      ret (f :: fs)
  end.

Lemma wp_wait_stream n : forall K0 fm R fs s,
  listening K0 fm R fs s -> (effort s < fuel)%nat -> queued_frames (conn s) = [] -> n = length (heard uninit fs) ->
  wp (wait_frames n) (fun gs s' => gs = heard uninit fs /\ stays s s' /\ exists R' rest, listening K0 fm R' rest s' /\
      heard uninit rest = []) (fun _ _ => False) s.
Proof.
  induction n as [|n IH]; intros K0 fm R fs s Hs Hfuel Hq Hn.
  - apply wp_ret. destruct (heard uninit fs) eqn:E; [|done]. split_and!; [done|apply stays_refl|]. by exists R, fs.
  - destruct (first_heard uninit fs) as [[Hno _]|(hbs & f & fs' & -> & Hhb & Hf)]; [by rewrite Hno in Hn|].
    assert (Hh : heard uninit (hbs ++ f :: fs') = received uninit PL_none f :: heard uninit fs').
    { rewrite heard_app, heard_heartbeats by done. unfold heard. simpl. by rewrite Hf. }
    rewrite Hh in *. simpl. apply wp_bind. wp_use wp_wait_noblock; [exact Hs|done|done|done|done| |done].
    intros g s1 (-> & Hst & Hs1 & Hef). apply wp_bind.
    wp_use (IH K0 fm (R + 2) fs' s1); [by apply resting_listening|lia| |by injection Hn| |done].
    { destruct Hst as (_ & _ & ->). done. }
    intros gs s2 (-> & Hst2 & R' & rest & Hs2 & Hr2). apply wp_ret.
    split_and!; [done|by eapply stays_trans|by exists R', rest].
Qed.

Lemma wp_wait_queue q : forall k s Q,
  queued_frames (conn s) = q ->
  (forall s', s' = {| conn := set_queue [] (conn s); hp := hp s; world := world s |} ->
     wp (wait_frames k) (fun gs s'' => Q (q ++ gs) s'') (fun _ _ => False) s') ->
  wp (wait_frames (length q + k)) Q (fun _ _ => False) s.
Proof.
  induction q as [|g q IH]; intros k s Q Hq Hk; simpl.
  - apply Hk. destruct s as [c h w]. simpl in *. f_equal. destruct c. simpl in *. by subst.
  - apply wp_bind. eapply wp_eq; [by apply wp_wait_queued|]. apply wp_bind. apply IH; [done|].
    intros s' ->. apply (Hk _ eq_refl).
Qed.

(** C7: the application sees every frame once and in order: on a healthy
    connection without heartbeat timers, whatever pieces the network delivers,
    successive calls of [amqp_simple_wait_frame] return first the frames already
    queued and then exactly the frames of the stream with the heartbeats left out,
    each decoded, and nothing is sent meanwhile. *)
Theorem wait_frames_in_order K0 fm R fs s :
  listening K0 fm R fs s -> (effort s < fuel)%nat ->
  wp (wait_frames (length (queued_frames (conn s)) + length (heard uninit fs)))
    (fun gs s' => gs = queued_frames (conn s) ++ heard uninit fs /\ n_sent (net s') = n_sent (net s))
    (fun _ _ => False) s.
Proof.
  intros Hs Hfuel. eapply wp_wait_queue; [done|]. intros s' ->.
  set (s' := {| conn := _; hp := _; world := _ |}).
  assert (Hs' : listening K0 fm R fs s').
  { destruct Hs as (g & K & B & acc & pend & p & buf & HK & Hh & HB & HR). exists g, K, B, acc, pend, p, buf.
    split_and!; try done. by apply hears_queue. }
  wp_use (wp_wait_stream (length (heard uninit fs)) K0 fm R fs s' Hs'); [done|done|done| |done].
  intros gs s2 (-> & (_ & Hse & _) & _). done.
Qed.

(** Waiting for a channel loses nothing: when no frame of the channel is
    queued, [amqp_simple_wait_frame_on_channel] returns the next frame of that
    channel, and every other frame that arrives before it (heartbeats apart) is
    appended to the queue, in order. *)
Theorem wait_on_channel_exact K0 fm R ch pre f post s fr :
  listening K0 fm R (pre ++ f :: post) s ->
  Forall (fun g => is_heartbeat g = true \/ channel g <> ch) pre -> channel f = ch ->
  is_heartbeat f = false -> (effort s < fuel)%nat -> Forall (fun g => channel g <> ch) (queued_frames (conn s)) ->
  wp (amqp_simple_wait_frame_on_channel uninit fuel ch fr) (fun r s' => r = received uninit PL_none f /\
      queued_frames (conn s') = queued_frames (conn s) ++ heard uninit pre /\
      n_sent (net s') = n_sent (net s) /\ listening K0 fm (R + 2) post s') (fun _ _ => False) s.
Proof.
  intros Hs Hpre Hch Hhb Hfuel Hq. wp_use wp_wait_channel; [exact Hs|done..| |done].
  intros r s' (-> & (_ & Hse & Hqu) & Hs' & _). split_and!; try done. by apply resting_listening.
Qed.

(** C35: a frame taken from the middle of the queue takes the frames before it
    along: when the queue holds frames of other channels followed by one of the
    channel, [amqp_simple_wait_frame_on_channel] returns the latter and makes the
    queue start after it, so that the frames of the other channels are never
    delivered. *)
Theorem wait_on_channel_drops_earlier ch pre f post s fr :
  queued_frames (conn s) = pre ++ f :: post -> Forall (fun g => channel g <> ch) pre -> channel f = ch ->
  amqp_simple_wait_frame_on_channel uninit fuel ch fr s =
    Ret f {| conn := set_queue post (conn s); hp := hp s; world := world s |}.
Proof.
  intros Hq Hpre Hch. unfold amqp_simple_wait_frame_on_channel, bind at 1, the_conn. rewrite Hq.
  assert (Hf : first_on_channel ch (pre ++ f :: post) = Some (f, post)).
  { clear Hq. induction Hpre as [|g q Hg _ IH]; simpl.
    - by rewrite (proj2 (Z.eqb_eq _ _)).
    - by rewrite (proj2 (Z.eqb_neq _ _)). }
  by rewrite Hf.
Qed.

(** ** Remote procedure calls *)

(** C2: a remote procedure call sends exactly the request and returns exactly the
    answer.  On a healthy connection, [amqp_simple_rpc] puts the wire form of the
    request on the network; frames that arrive before the answer and do not
    concern the call are queued in order (heartbeats apart); the first frame that
    does, a method in the list of expected replies on the channel, a
    [channel.close] on it or a [connection.close], becomes the reply, of type
    [AMQP_RESPONSE_NORMAL] exactly if it is in the list, with its decoded
    arguments. *)
Theorem rpc_exact K0 fm R q m ch req ids pre f post s :
  let reqf := {| frame_type := AMQP_FRAME_METHOD; channel := ch;
                 payload := PL_method (method_id req) (method_decoded req) |} in
  listening K0 fm R (pre ++ f :: post) s -> outbox K0 q m s -> rpc_timeout (conn s) = None ->
  sendable reqf -> zlen (wire_frame reqf) <= zlen m ->
  Forall (fun g => is_heartbeat g = true \/ rpc_match ch ids g = false) pre -> rpc_match ch ids f = true ->
  (length (wire_frame reqf) + effort s < fuel)%nat ->
  wp (amqp_simple_rpc uninit fuel ch req ids) (fun r s' => r = frame_reply ids f /\
      n_sent (net s') = n_sent (net s) ++ wire_frame reqf /\
      queued_frames (conn s') = queued_frames (conn s) ++ heard uninit pre /\
      exists K1, listening K1 fm (R + 2) post s') (fun _ _ => False) s.
Proof.
  intros reqf Hs Hob Hto Hse Hfit Hpre Hm Hfuel. unfold amqp_simple_rpc. apply wp_bind, wp_the_conn. rewrite Hto.
  apply wp_bind. simpl. apply wp_ret. simpl.
  wp_use wp_simple_rpc_inner; [exact Hs|exact Hob|done|exact Hse|exact Hfit|exact Hpre|exact Hm|exact Hfuel| |done].
  intros r s' (-> & Hsent & Hq & _ & m' & Hs' & _). split_and!; [done|done|done|].
  eexists. apply resting_listening. exact Hs'.
Qed.
End Theorems.

(** ** Examples *)

#[local] Existing Instance little_endian.

(** A server that has answered a [queue.declare] on channel 1, after a heartbeat
    and an unrelated content header. *)
Definition sample_answer : amqp_frame_t :=
  {| frame_type := AMQP_FRAME_METHOD; channel := 1;
     payload := PL_method AMQP_QUEUE_DECLARE_OK_METHOD
       (M_QUEUE_DECLARE_OK {| queue_declare_ok_queue := view [113; 49];
          queue_declare_ok_message_count := 3; queue_declare_ok_consumer_count := 70000 |}) |}.

Definition sample_other : amqp_frame_t :=
  {| frame_type := AMQP_FRAME_BODY; channel := 2; payload := PL_body_fragment (view [1; 2; 3]) |}.

Definition sample_heartbeat : amqp_frame_t :=
  {| frame_type := AMQP_FRAME_HEARTBEAT; channel := 0; payload := PL_none |}.

Definition sample_traffic : list amqp_frame_t := [sample_heartbeat; sample_other; sample_answer].

Definition open_blocks : gmap Z (list Z) := <[1 := replicate 64 0]> (<[2 := replicate 256 0]> ∅).

(** An open connection over a network that will bring the frames [fs], ten bytes
    at a time, and makes the client wait twice. *)
Definition opened (fm : Z) (fs : list amqp_frame_t) : cst script :=
  {| conn := set_socket (Some 1) (set_sock_inbound {| hb_len := 64; hb_bytes := Some {| p_block := 1; p_off := 0 |} |} 0 0
       (set_tuning 0 fm 0 amqp_time_infinite amqp_time_infinite
          {| hb_len := 256; hb_bytes := Some {| p_block := 2; p_off := 0 |} |} (conn idle_connection)));
     hp := {| h_blocks := open_blocks; h_next := 3; h_count := 0;
              h_env := generous |};
     world := {| sc_sent := []; sc_coming := concat (map wire_frame fs); sc_hiccups := 2; sc_chunk := 10 |} |}.

Abbreviation connected fs := (opened 4096 fs).

Definition open_connection : cst script := connected sample_traffic.

Abbreviation open_kept := (delete 1 open_blocks).

Lemma opened_reading fm fs : 0 <= fm <= 2 ^ 30 -> reading true open_blocks fm 100000 [] (opened fm fs).
Proof.
  intros Hfm. change open_blocks with (h_blocks (hp (opened fm fs))).
  apply reading_fresh; [reflexivity| |intros _ k; reflexivity|reflexivity|exact Hfm|by vm_compute|reflexivity..].
  intros b m. change (h_blocks (hp (opened fm fs))) with open_blocks. unfold open_blocks.
  intros [[<- <-]|[_ [[<- <-]|[_ Hb]]%lookup_insert_Some]]%lookup_insert_Some;
    [by vm_compute..|]. by rewrite lookup_empty in Hb.
Qed.

Lemma opened_resting fm fs :
  0 <= fm <= 2 ^ 30 -> Forall (acceptable fm) fs -> Forall is_byte (concat (map wire_frame fs)) ->
  zlen (concat (map wire_frame fs)) + 2 * zlen fs <= 90000 -> resting open_kept fm 1000 fs (opened fm fs).
Proof.
  intros Hfm Hfs Hb Hz. exists open_blocks, 100000, [], {| p_block := 1; p_off := 0 |}, (replicate 64 0).
  split; [done|]. split; [|change (zlen (@nil Z)) with 0; change (n_coming (world (opened fm fs))) with (concat (map wire_frame fs)); lia].
  split; [left; by apply opened_reading|reflexivity|reflexivity|reflexivity|reflexivity|by vm_compute|by vm_compute
    |reflexivity|by vm_compute|reflexivity|constructor|reflexivity|apply before_nil|done| |reflexivity
    |reflexivity|reflexivity|reflexivity|by split|exact I].
  change (zlen (@nil Z)) with 0. change (n_coming (world (opened fm fs))) with (concat (map wire_frame fs)). lia.
Qed.

Lemma connected_resting fs :
  Forall (acceptable 4096) fs -> Forall is_byte (concat (map wire_frame fs)) ->
  zlen (concat (map wire_frame fs)) + 2 * zlen fs <= 90000 -> resting open_kept 4096 1000 fs (connected fs).
Proof. by apply opened_resting. Qed.

Lemma connected_listening fs :
  Forall (acceptable 4096) fs -> Forall is_byte (concat (map wire_frame fs)) ->
  zlen (concat (map wire_frame fs)) + 2 * zlen fs <= 90000 -> listening open_kept 4096 1000 fs (connected fs).
Proof. intros. apply resting_listening. by apply connected_resting. Qed.

Lemma sample_traffic_acceptable : Forall (acceptable 4096) sample_traffic.
Proof.
  repeat apply Forall_cons_2; [| | |constructor].
  1,2: split; [|by vm_compute]; split; [by vm_compute|]; split; [repeat constructor; by vm_compute|done].
  split; [|by vm_compute]. split; [by vm_compute|]. split; [repeat constructor; by vm_compute|].
  split; [done|]. split; [done|]. split; [by vm_compute|]. split; repeat constructor; by vm_compute.
Qed.

Lemma open_listening : listening open_kept 4096 1000 sample_traffic open_connection.
Proof.
  apply connected_listening; [apply sample_traffic_acceptable|repeat constructor; by vm_compute|by vm_compute].
Qed.

Lemma open_outbox : outbox open_kept {| p_block := 2; p_off := 0 |} (replicate 256 0) open_connection.
Proof. split; done. Qed.

Lemma open_can_send : can_send {| p_block := 2; p_off := 0 |} (replicate 256 0) open_connection.
Proof. split; try done. split; [done|]. repeat constructor; by vm_compute. Qed.

Lemma send_frame_exact_witness :
  exists s', amqp_send_frame_inner blank_properties 100 sample_method_frame 0 amqp_time_infinite open_connection
      = Ret tt s' /\ sc_sent (world s') = wire_frame sample_method_frame.
Proof.
  pose proof (send_frame_exact blank_properties 100 _ _ sample_method_frame 0 amqp_time_infinite open_connection
    open_can_send sample_method_frame_sendable ltac:(by vm_compute) ltac:(by vm_compute)
    ltac:(apply Nat.ltb_lt; by vm_compute)) as Hw.
  destruct (wp_run_ret _ _ _ (wp_mono _ _ _ _ _ _ Hw (fun _ _ H => H)
    (fun e s' H => proj1 (proj2 H) (conj I eq_refl)))) as ([] & s' & Hrun & Hsent & _).
  exists s'. split; [exact Hrun|exact Hsent].
Defined.

Lemma wait_frames_in_order_witness :
  exists s', wait_frames blank_properties 100 2 open_connection =
    Ret [received blank_properties PL_none sample_other; received blank_properties PL_none sample_answer] s'.
Proof.
  destruct (wp_run_ret _ _ _ (wait_frames_in_order blank_properties 100 _ 4096 1000 sample_traffic open_connection
    open_listening ltac:(apply Nat.ltb_lt; by vm_compute))) as (gs & s' & Hrun & -> & _).
  exists s'. exact Hrun.
Defined.

Lemma wait_on_channel_exact_witness :
  exists s', amqp_simple_wait_frame_on_channel blank_properties 100 1 blank_frame open_connection =
    Ret (received blank_properties PL_none sample_answer) s' /\
    queued_frames (conn s') = [received blank_properties PL_none sample_other].
Proof.
  destruct (wp_run_ret _ _ _ (wait_on_channel_exact blank_properties 100 _ 4096 1000 1
    [sample_heartbeat; sample_other] sample_answer [] open_connection blank_frame open_listening
    ltac:(apply Forall_cons_2; [by left|]; apply Forall_cons_2; [by right|constructor]) eq_refl eq_refl ltac:(apply Nat.ltb_lt; by vm_compute)
    (Forall_nil_2 _))) as (r & s' & Hrun & -> & Hq & _).
  exists s'. split; [exact Hrun|exact Hq].
Defined.

Lemma wait_on_channel_drops_earlier_witness :
  let s := {| conn := set_queue [sample_other; sample_answer] (conn open_connection);
              hp := hp open_connection; world := world open_connection |} in
  exists s', amqp_simple_wait_frame_on_channel blank_properties 100 1 blank_frame s = Ret sample_answer s' /\
    queued_frames (conn s') = [].
Proof.
  intros s. eexists. split.
  - apply (wait_on_channel_drops_earlier blank_properties 100 1 [sample_other] sample_answer [] s blank_frame);
      [done|by repeat constructor|done].
  - done.
Defined.

Lemma rpc_exact_witness :
  exists r s', amqp_simple_rpc blank_properties 200 1
      {| method_id := AMQP_QUEUE_DECLARE_METHOD; method_decoded := sample_method |}
      [AMQP_QUEUE_DECLARE_OK_METHOD; 0] open_connection = Ret r s' /\
    reply_type r = AMQP_RESPONSE_NORMAL /\ reply_id r = AMQP_QUEUE_DECLARE_OK_METHOD /\
    sc_sent (world s') = wire_frame sample_method_frame.
Proof.
  destruct (wp_run_ret _ _ _ (rpc_exact blank_properties 200 _ 4096 1000 _ _ 1
    {| method_id := AMQP_QUEUE_DECLARE_METHOD; method_decoded := sample_method |}
    [AMQP_QUEUE_DECLARE_OK_METHOD; 0] [sample_heartbeat; sample_other] sample_answer [] open_connection
    open_listening open_outbox eq_refl sample_method_frame_sendable ltac:(by vm_compute)
    ltac:(apply Forall_cons_2; [by left|]; apply Forall_cons_2; [by right|constructor]) ltac:(by vm_compute) ltac:(apply Nat.ltb_lt; by vm_compute)))
    as (r & s' & Hrun & -> & Hsent & _).
  exists (frame_reply [AMQP_QUEUE_DECLARE_OK_METHOD; 0] sample_answer), s'. split; [exact Hrun|]. split; [done|]. split; [done|exact Hsent].
Defined.
