(* ===== verification/Url.v ===== *)
(** * Connection URLs: [librabbitmq/amqp_url.c]

    [amqp_parse_url] works in place: it decodes percent-encodings, puts NUL
    characters where the delimiters were and returns pointers into the string.
    The state is the memory that holds the URL, pointers are positions in it. *)

From Stdlib Require Import String Ascii.
From S2P Require Import Prelude Machine Status.

(** The characters of a C string literal, without the terminating NUL. *)
Definition chars (s : string) : list Z :=
  List.map (fun a => Z.of_N (N_of_ascii a)) (list_ascii_of_string s).

(** ** Memory accesses *)

Definition peek (p : Z) : C (list Z) Z := fun m =>
  match load p 1 m with Some [c] => Ret c m | _ => UB end.

Definition poke (p c : Z) : C (list Z) unit := fun m =>
  match store p [c] m with Some m' => Ret tt m' | None => UB end.

(** The string at a position: up to the first NUL, without which reading it
    leaves the object. *)
Fixpoint until_nul (m : list Z) : option (list Z) :=
  match m with
  | [] => None
  | c :: m' => if c =? 0 then Some [] else cons c <$> until_nul m'
  end.

Definition string_at (p : Z) (m : list Z) : option (list Z) :=
  if 0 <=? p then until_nul (drop (Z.to_nat p) m) else None.

Definition c_string (p : Z) : C (list Z) (list Z) := fun m =>
  match string_at p m with Some s => Ret s m | None => UB end.

(** ** What is used of the C library *)

Definition isspace (c : Z) : bool := (c =? 32) || ((9 <=? c) && (c <=? 13)).

Fixpoint skip_space (s : list Z) : Z * list Z :=
  match s with
  | c :: s' => if isspace c then let '(n, r) := skip_space s' in (n + 1, r) else (0, s)
  | [] => (0, [])
  end.

Definition digit_value (c : Z) : option Z :=
  if (48 <=? c) && (c <=? 57) then Some (c - 48) else None.

Definition hex_value (c : Z) : option Z :=
  if (48 <=? c) && (c <=? 57) then Some (c - 48)
  else if (65 <=? c) && (c <=? 70) then Some (c - 55)
  else if (97 <=? c) && (c <=? 102) then Some (c - 87)
  else None.

Definition is_sign (c : Z) : bool := (c =? 43) || (c =? 45).

(** [sscanf(s, "%2x%n", &val, &chars)]: [None] when the result is EOF or 0,
    otherwise [val] and [chars].  White space is skipped and counted; the two
    characters may include a sign; "0x" alone is a prefix without a number. *)
Definition sscanf_2x (s : list Z) : option (Z * Z) :=
  let '(w, s) := skip_space s in
  match s with
  | [] => None
  | c :: s' =>
      if is_sign c then
        match s' with
        | d :: _ => (fun v => (if c =? 45 then u32 (- v) else v, w + 2)) <$> hex_value d
        | [] => None
        end
      else
        match hex_value c with
        | None => None
        | Some v =>
            match s' with
            | [] => Some (v, w + 1)
            | d :: _ =>
                match hex_value d with
                | Some v' => Some (v * 16 + v', w + 2)
                | None => if (c =? 48) && ((d =? 120) || (d =? 88)) then None else Some (v, w + 1)
                end
            end
        end
  end.

Fixpoint digits (acc n : Z) (s : list Z) : Z * Z :=
  match s with
  | c :: s' =>
      match digit_value c with
      | Some v => digits (acc * 10 + v) (n + 1) s'
      | None => (acc, n)
      end
  | [] => (acc, n)
  end.

Definition LONG_MAX : Z := 9223372036854775807.
Definition LONG_MIN : Z := -9223372036854775808.

(** [strtol(s, &end, 10)]: the value and [end - s]. *)
Definition strtol_10 (s : list Z) : Z * Z :=
  let '(w, s1) := skip_space s in
  let '(sg, neg, s2) :=
    match s1 with
    | c :: s2 => if is_sign c then (1, c =? 45, s2) else (0, false, s1)
    | [] => (0, false, s1)
    end in
  let '(v, n) := digits 0 0 s2 in
  if n =? 0 then (0, 0)
  else
    (let v := if neg then - v else v in
     if LONG_MAX <? v then LONG_MAX else if v <? LONG_MIN then LONG_MIN else v, w + sg + n).

(** ** The URL parser *)

(** A [char *] member: a literal of the program or a position in the URL. *)
Inductive url_str : Type := Lit (s : list Z) | At (p : Z).

Record amqp_connection_info : Type := mk_info {
  user : url_str;
  password : url_str;
  host : url_str;
  vhost : url_str;
  port : Z;
  ssl : Z
}.

Definition amqp_default_connection_info : amqp_connection_info :=
  {| user := Lit (chars "guest"); password := Lit (chars "guest");
     host := Lit (chars "localhost"); port := 5672; vhost := Lit (chars "/"); ssl := 0 |}.

Definition colon : Z := 58.
Definition at_sign : Z := 64.
Definition percent : Z := 37.
Definition slash : Z := 47.
Definition open_bracket : Z := 91.
Definition close_bracket : Z := 93.

(** The characters that end a component, besides ':' and '@'. *)
Definition is_delim (c : Z) : bool :=
  (c =? 0) || (c =? slash) || (c =? 63) || (c =? 35) || (c =? open_bracket) || (c =? close_bracket).

Definition CHAR_MAX : Z := 127.

(** Returns the delimiter and the new [*pp]. *)
Fixpoint find_delim_loop (fuel : nat) (pp from to : Z) (colon_and_at_sign_are_delims : bool)
    : C (list Z) (Z * Z) :=
  match fuel with
  | O => out_of_fuel
  | S fuel' =>
      let* ch := peek from in
      let from := from + 1 in
      if ((ch =? colon) || (ch =? at_sign)) && negb colon_and_at_sign_are_delims then
        do* poke to ch in
        find_delim_loop fuel' pp from (to + 1) colon_and_at_sign_are_delims
      else if (ch =? colon) || (ch =? at_sign) || is_delim ch then
        do* poke to 0 in
        ret (ch, from)
      else if ch =? percent then
        let* s := c_string from in
        match sscanf_2x s with
        | None => ret (percent, pp)
        | Some (val, chars) =>
            if negb (chars =? 2) || (CHAR_MAX <? val) then ret (percent, pp)
            else
              do* poke to val in
              find_delim_loop fuel' pp (from + 2) (to + 1) colon_and_at_sign_are_delims
        end
      else
        do* poke to ch in
        find_delim_loop fuel' pp from (to + 1) colon_and_at_sign_are_delims
  end.

Definition find_delim (pp : Z) (colon_and_at_sign_are_delims : bool) : C (list Z) (Z * Z) := fun m =>
  find_delim_loop (S (length m)) pp pp pp colon_and_at_sign_are_delims m.

Definition set_credentials (u : url_str) (p : option Z) (ci : amqp_connection_info) : amqp_connection_info :=
  {| user := u; password := from_option At (password ci) p; host := host ci; vhost := vhost ci;
     port := port ci; ssl := ssl ci |}.
Definition set_host (h : url_str) (ci : amqp_connection_info) : amqp_connection_info :=
  {| user := user ci; password := password ci; host := h; vhost := vhost ci; port := port ci; ssl := ssl ci |}.
Definition set_vhost (v : url_str) (ci : amqp_connection_info) : amqp_connection_info :=
  {| user := user ci; password := password ci; host := host ci; vhost := v; port := port ci; ssl := ssl ci |}.
Definition set_port (n : Z) (ci : amqp_connection_info) : amqp_connection_info :=
  {| user := user ci; password := password ci; host := host ci; vhost := vhost ci; port := n; ssl := ssl ci |}.

(** [goto out] with [AMQP_STATUS_BAD_URL]; the members set so far stay set. *)
Abbreviation bad_url ci := (ret (AMQP_STATUS_BAD_URL, ci)).

(** The path: from "if (delim == '/')". *)
Definition parse_path (delim url : Z) (ci : amqp_connection_info)
    : C (list Z) (Z * amqp_connection_info) :=
  if delim =? slash then
    let* '(delim, _) := find_delim url true in
    if negb (delim =? 0) then bad_url ci
    else ret (AMQP_STATUS_OK, set_vhost (At url) ci)
  else if delim =? 0 then ret (AMQP_STATUS_OK, ci)
  else bad_url ci.

(** The port: from the second "if (delim == ':')". *)
Definition parse_port (delim url : Z) (portp : option Z) (ci : amqp_connection_info)
    : C (list Z) (Z * amqp_connection_info) :=
  let* '(delim, url, portp) :=
    if delim =? colon then
      let* '(delim, url') := find_delim url true in ret (delim, url', Some url)
    else ret (delim, url, portp) in
  match portp with
  | None => parse_path delim url ci
  | Some p =>
      let* s := c_string p in
      let '(portnum, n) := strtol_10 s in
      if (n =? 0) || negb (n =? zlen s) || (portnum <? 0) || (65535 <? portnum) then bad_url ci
      else parse_path delim url (set_port portnum ci)
  end.

(** The host: from "if (delim == '[')". *)
Definition parse_host (delim url hostp start : Z) (portp : option Z) (ci : amqp_connection_info)
    : C (list Z) (Z * amqp_connection_info) :=
  if delim =? open_bracket then
    let* c := peek hostp in
    if negb (hostp =? start) || negb (c =? 0) then bad_url ci
    else
      let start := url in
      let* '(delim, url) := find_delim url false in
      if negb (delim =? close_bracket) then bad_url ci
      else
        let ci := set_host (At start) ci in
        let start := url in
        let* '(delim, url) := find_delim url true in
        let* c := peek start in
        if negb (c =? 0) then bad_url ci
        else parse_port delim url portp ci
  else
    let* c := peek hostp in
    parse_port delim url portp (if negb (c =? 0) then set_host (At hostp) ci else ci).

(** The user information: everything behind the prefix. *)
Definition parse_authority (url : Z) (ci : amqp_connection_info)
    : C (list Z) (Z * amqp_connection_info) :=
  let hostp := url in
  let* '(delim, url) := find_delim url true in
  let* '(delim, url, start, portp) :=
    if delim =? colon then
      let* '(delim, url') := find_delim url true in ret (delim, url', url, Some url)
    else ret (delim, url, hostp, None) in
  if delim =? at_sign then
    let ci := set_credentials (At hostp) portp ci in
    let* '(delim, url') := find_delim url true in
    parse_host delim url' url url None ci
  else parse_host delim url hostp start portp ci.

(** [amqp_parse_url(url, parsed)] with the URL at the start of the memory. *)
Definition amqp_parse_url : C (list Z) (Z * amqp_connection_info) :=
  let ci := amqp_default_connection_info in
  let* s := c_string 0 in
  if bytes_eqb (take 7 s) (chars "amqp://") then parse_authority 7 ci
  else if bytes_eqb (take 8 s) (chars "amqps://") then
    parse_authority 8 {| user := user ci; password := password ci; host := host ci;
                         vhost := vhost ci; port := 5671; ssl := 1 |}
  else bad_url ci.

(** ** The repository's own examples ([tests/test_parse_url.c]) *)

Definition value (s : url_str) (m : list Z) : option (list Z) :=
  match s with Lit s => Some s | At p => string_at p m end.

(** The components a successful parse yields. *)
Definition parsed (url : string) : option (list (list Z) * Z * Z) :=
  match amqp_parse_url (chars url ++ [0]) with
  | Ret (r, ci) m =>
      if r =? AMQP_STATUS_OK then
        match value (user ci) m, value (password ci) m, value (host ci) m, value (vhost ci) m with
        | Some u, Some p, Some h, Some v => Some ([u; p; h; v], port ci, ssl ci)
        | _, _, _, _ => None
        end
      else None
  | _ => None
  end.

Definition components (u p h v : string) : list (list Z) := [chars u; chars p; chars h; chars v].

Example url_full : parsed "amqps://user%61:%61pass@ho%61st:10000/v%2fhost"
  = Some (components "usera" "apass" "hoast" "v/host", 10000, 1).
Proof. reflexivity. Qed.

Example url_defaults : parsed "amqp://" = Some (components "guest" "guest" "localhost" "/", 5672, 0).
Proof. reflexivity. Qed.

Example url_empty_parts : parsed "amqp://:@/" = Some (components "" "" "localhost" "", 5672, 0).
Proof. reflexivity. Qed.

Example url_ipv6 : parsed "amqp://user:pass@[::1]:100" = Some (components "user" "pass" "::1" "/", 100, 0).
Proof. reflexivity. Qed.

Example url_failures : Forall (fun u => parsed u = None)
  ["http://www.rabbitmq.com"; "amqp://foo:bar:baz"; "amqp://foo[::1]"; "amqp://foo:[::1]";
   "amqp://[::1]foo"; "amqp://foo:1000xyz"; "amqp://foo:1000000"; "amqp://foo/bar/baz";
   "amqp://foo%1"; "amqp://foo%1x"; "amqp://foo%xy"]%string.
Proof. repeat constructor. Qed.
