(* ===== verification/Api.v ===== *)
(** * The application interface: [librabbitmq/amqp_api.c]

    Error messages, publishing, acknowledging, closing and timeouts.  Methods that
    the code fills in field by field are built as records. *)

From Stdlib Require Import String.
From S2P Require Import Prelude Machine Status Alloc Codec Table Framing Methods MethodDecode MethodEncode Properties Mem MemTheory Time Frame Connection Socket.

(** ** Error messages *)

Definition ERROR_MASK : Z := 0x00FF.
Definition ERROR_CATEGORY_MASK : Z := 0xFF00.
Definition EC_base : Z := 0.
Definition EC_tcp : Z := 1.
Definition EC_ssl : Z := 2.

Definition base_error_strings : list string := [
  "operation completed successfully"; "could not allocate memory"; "invalid AMQP data";
  "unknown AMQP class id"; "unknown AMQP method id"; "hostname lookup failed";
  "incompatible AMQP version"; "connection closed unexpectedly"; "could not parse AMQP URL";
  "a socket error occurred"; "invalid parameter"; "table too large for buffer";
  "unexpected method received"; "request timed out"; "system timer has failed";
  "heartbeat timeout, connection closed"; "unexpected protocol state"; "socket is closed";
  "socket already open"; "unsupported sasl method requested"; "parameter value is unsupported"]%string.

Definition tcp_error_strings : list string := [
  "a socket error occurred"; "socket library initialization failed"]%string.

Definition ssl_error_strings : list string := [
  "a SSL error occurred"; "SSL hostname verification failed"; "SSL peer cert verification failed";
  "SSL handshake failed"; "SSL setting engine failed"]%string.

Definition unknown_error_string : string := "(unknown error)"%string.

(** [strings[error]] when [error] is an index of the array. *)
Definition message_at (strings : list string) (error : Z) : string :=
  default unknown_error_string (strings !! Z.to_nat error).

(** Undefined for [INT_MIN], whose negation overflows. *)
Definition amqp_error_string2 {S} (code : Z) : C S string :=
  if code =? INT_MIN then undefined
  else
    let category := Z.shiftr (Z.land (- code) ERROR_CATEGORY_MASK) 8 in
    let error := Z.land (- code) ERROR_MASK in
    ret (if category =? EC_base then message_at base_error_strings error
         else if category =? EC_tcp then message_at tcp_error_strings error
         else if category =? EC_ssl then message_at ssl_error_strings error
         else unknown_error_string).

(** The text of the copy [strdup] makes. *)
Definition amqp_error_string {S} (code : Z) : C S string :=
  amqp_error_string2 (if 0 <? code then - code else code).

(** ** Publishing *)

(** [memset(&default_properties, 0, sizeof(default_properties))] *)
Definition default_properties : amqp_basic_properties_t :=
  {| basic__flags := 0; basic_content_type := amqp_empty_bytes;
     basic_content_encoding := amqp_empty_bytes; basic_headers := [];
     basic_delivery_mode := 0; basic_priority := 0; basic_correlation_id := amqp_empty_bytes;
     basic_reply_to := amqp_empty_bytes; basic_expiration := amqp_empty_bytes;
     basic_message_id := amqp_empty_bytes; basic_timestamp := 0; basic_type := amqp_empty_bytes;
     basic_user_id := amqp_empty_bytes; basic_app_id := amqp_empty_bytes;
     basic_cluster_id := amqp_empty_bytes |}.

Section Api.
Context {W : Type} {HC : Clock W} {HS : Sockets W} {HP : Poll W} {HH : Host}.
Context (uninit : amqp_basic_properties_t).
Context (fuel : nat).
Abbreviation CC A := (C (cst W) A).

(** [if (res < 0) return res;] *)
Definition unless_negative (m : CC unit) : CC unit :=
  let* res := status_of m in
  if res <? 0 then throw res else ret tt.

(** The part of [body] from [body_offset] on, of at most
    [usable_body_payload_size] bytes. *)
Definition body_fragment_at (body : amqp_bytes_t) (body_offset usable_body_payload_size : Z) : amqp_bytes_t :=
  let remaining := size_t (len body - body_offset) in
  {| len := if usable_body_payload_size <=? remaining then usable_body_payload_size else remaining;
     bytes := drop (Z.to_nat body_offset) <$> bytes body |}.

(** The [while] loop. *)
Definition publish_body (ch usable_body_payload_size : Z) (body : amqp_bytes_t) : CC unit :=
  iter fuel (fun body_offset =>
    if body_offset <? len body then
      let remaining := size_t (len body - body_offset) in
      if remaining =? 0 then ret (inr tt)
      else
        let fragment := body_fragment_at body body_offset usable_body_payload_size in
        let flagz := if usable_body_payload_size <=? remaining then AMQP_SF_MORE else AMQP_SF_NONE in
        let body_offset := size_t (body_offset + len fragment) in
        do* unless_negative (amqp_send_frame_inner uninit fuel
              {| frame_type := AMQP_FRAME_BODY; channel := ch; payload := PL_body_fragment fragment |}
              flagz amqp_time_infinite) in
        ret (inl body_offset)
    else ret (inr tt)) 0.

(** [properties] is [None] for a NULL pointer. *)
Definition amqp_basic_publish (ch : Z) (exchange routing_key : amqp_bytes_t) (mandatory immediate : Z)
    (properties : option amqp_basic_properties_t) (body : amqp_bytes_t) : CC unit :=
  let* c := the_conn in
  let usable_body_payload_size := size_t (frame_max c - (HEADER_SIZE + FOOTER_SIZE)) in
  let m := {| basic_publish_ticket := 0; basic_publish_exchange := exchange;
              basic_publish_routing_key := routing_key; basic_publish_mandatory := mandatory;
              basic_publish_immediate := immediate |} in
  let* res := amqp_time_has_past (next_recv_heartbeat c) in
  do* (if res =? AMQP_STATUS_TIMER_FAILURE then throw res
       else if res =? AMQP_STATUS_TIMEOUT then
         let* res := status_of (amqp_try_recv uninit fuel) in
         if res =? AMQP_STATUS_TIMEOUT then throw AMQP_STATUS_HEARTBEAT_TIMEOUT
         else if negb (res =? AMQP_STATUS_OK) then throw res
         else ret tt
       else ret tt) in
  do* unless_negative (amqp_send_method_inner uninit fuel ch
        {| method_id := AMQP_BASIC_PUBLISH_METHOD; method_decoded := M_BASIC_PUBLISH m |}
        AMQP_SF_MORE amqp_time_infinite) in
  let f := {| frame_type := AMQP_FRAME_HEADER; channel := ch;
              payload := PL_properties AMQP_BASIC_CLASS (len body)
                (P_BASIC (default default_properties properties)) amqp_empty_bytes |} in
  let flagz := if 0 <? len body then AMQP_SF_MORE else AMQP_SF_NONE in
  do* unless_negative (amqp_send_frame_inner uninit fuel f flagz amqp_time_infinite) in
  publish_body ch usable_body_payload_size body.

(** ** Closing *)

(** [sprintf(codestr, "%d", code)] for a code of at most five digits. *)
Definition codestr (code : Z) : amqp_bytes_t := view (decimal 5 code).

Definition amqp_channel_close (ch code : Z) : CC amqp_rpc_reply_t :=
  if (code <? 0) || (UINT16_MAX <? code) then ret (amqp_rpc_reply_error AMQP_STATUS_INVALID_PARAMETER)
  else
    amqp_simple_rpc uninit fuel ch
      {| method_id := AMQP_CHANNEL_CLOSE_METHOD;
         method_decoded := M_CHANNEL_CLOSE {| channel_close_reply_code := u16 code;
           channel_close_reply_text := codestr code; channel_close_class_id := 0;
           channel_close_method_id := 0 |} |}
      [AMQP_CHANNEL_CLOSE_OK_METHOD; 0].

(** The code fills in an [amqp_channel_close_t], which has the members of an
    [amqp_connection_close_t]. *)
Definition amqp_connection_close (code : Z) : CC amqp_rpc_reply_t :=
  if (code <? 0) || (UINT16_MAX <? code) then ret (amqp_rpc_reply_error AMQP_STATUS_INVALID_PARAMETER)
  else
    amqp_simple_rpc uninit fuel 0
      {| method_id := AMQP_CONNECTION_CLOSE_METHOD;
         method_decoded := M_CONNECTION_CLOSE {| connection_close_reply_code := u16 code;
           connection_close_reply_text := codestr code; connection_close_class_id := 0;
           connection_close_method_id := 0 |} |}
      [AMQP_CONNECTION_CLOSE_OK_METHOD; 0].

(** ** Acknowledging and getting *)

Definition amqp_basic_ack (ch delivery_tag multiple : Z) : CC unit :=
  amqp_send_method uninit fuel ch
    {| method_id := AMQP_BASIC_ACK_METHOD;
       method_decoded := M_BASIC_ACK {| basic_ack_delivery_tag := delivery_tag;
                                        basic_ack_multiple := multiple |} |}.

Definition amqp_basic_get (ch : Z) (queue : amqp_bytes_t) (no_ack : Z) : CC amqp_rpc_reply_t :=
  let* result := amqp_simple_rpc uninit fuel ch
    {| method_id := AMQP_BASIC_GET_METHOD;
       method_decoded := M_BASIC_GET {| basic_get_ticket := 0; basic_get_queue := queue;
                                        basic_get_no_ack := no_ack |} |}
    [AMQP_BASIC_GET_OK_METHOD; AMQP_BASIC_GET_EMPTY_METHOD; 0] in
  do* upd (set_api_result result) in
  let* c := the_conn in
  ret (most_recent_api_result c).

Definition amqp_basic_reject (ch delivery_tag requeue : Z) : CC unit :=
  amqp_send_method uninit fuel ch
    {| method_id := AMQP_BASIC_REJECT_METHOD;
       method_decoded := M_BASIC_REJECT {| basic_reject_delivery_tag := delivery_tag;
                                           basic_reject_requeue := requeue |} |}.

Definition amqp_basic_nack (ch delivery_tag multiple requeue : Z) : CC unit :=
  amqp_send_method uninit fuel ch
    {| method_id := AMQP_BASIC_NACK_METHOD;
       method_decoded := M_BASIC_NACK {| basic_nack_delivery_tag := delivery_tag;
                                         basic_nack_multiple := multiple; basic_nack_requeue := requeue |} |}.

(** ** Timeouts *)

Definition set_timeouts (handshake rpc : option timeval) (c : amqp_connection_state_t)
    : amqp_connection_state_t :=
  {| self := self c; pool_table := pool_table c; reader := reader c; channel_max := channel_max c;
     frame_max := frame_max c; heartbeat := heartbeat c;
     next_recv_heartbeat := next_recv_heartbeat c; next_send_heartbeat := next_send_heartbeat c;
     outbound_buffer := outbound_buffer c; socket := socket c;
     sock_inbound_buffer := sock_inbound_buffer c; sock_inbound_offset := sock_inbound_offset c;
     sock_inbound_limit := sock_inbound_limit c; queued_frames := queued_frames c;
     most_recent_api_result := most_recent_api_result c; server_properties := server_properties c;
     client_properties := client_properties c; properties_pool := properties_pool c;
     handshake_timeout := handshake; rpc_timeout := rpc |}.

Definition negative_timeval (t : timeval) : bool := (tv_sec t <? 0) || (tv_usec t <? 0).

Definition amqp_get_handshake_timeout (c : amqp_connection_state_t) : option timeval := handshake_timeout c.

Definition amqp_set_handshake_timeout (timeout : option timeval) : CC unit :=
  match timeout with
  | Some t =>
      if negative_timeval t then throw AMQP_STATUS_INVALID_PARAMETER
      else upd (fun c => set_timeouts (Some t) (rpc_timeout c) c)
  | None => upd (fun c => set_timeouts None (rpc_timeout c) c)
  end.

Definition amqp_get_rpc_timeout (c : amqp_connection_state_t) : option timeval := rpc_timeout c.

Definition amqp_set_rpc_timeout (timeout : option timeval) : CC unit :=
  match timeout with
  | Some t =>
      if negative_timeval t then throw AMQP_STATUS_INVALID_PARAMETER
      else upd (fun c => set_timeouts (handshake_timeout c) (Some t) c)
  | None => upd (fun c => set_timeouts (handshake_timeout c) None c)
  end.
End Api.
