(* ===== verification/ApiTheorems.v ===== *)
(** * Theorems about publishing and error messages *)

From Stdlib Require Import String.
From S2P Require Import Prelude Machine Status Alloc Codec Table Framing Methods MethodDecode MethodEncode MethodWire MethodTheorems Properties PropertiesTheory PropertiesTheorems TableTheorems Mem MemTheory PoolTheorems PoolTable Time Frame FrameTheorems Connection ParserTheory ParserTheorems ConnectionTheorems Socket Network Scripted Inbox Outbox FrameQueue RpcTheory RpcTheorems Api.

(** ** The frames of a message *)

(** Cut [l] into pieces of [u] bytes, the last of them shorter if need be. *)
Fixpoint cut (n : nat) (u : Z) (l : list Z) : list (list Z) :=
  match n, l with
  | S n', _ :: _ => take (Z.to_nat u) l :: cut n' u (drop (Z.to_nat u) l)
  | _, _ => []
  end.

Definition fragments (u : Z) (l : list Z) : list (list Z) := cut (length l) u l.

Lemma cut_enough u : 0 < u -> forall n l, (length l <= n)%nat -> cut n u l = fragments u l.
Proof.
  intros Hu. assert (forall n l, (length l <= n)%nat -> forall k, (length l <= k)%nat -> cut n u l = cut k u l) as H.
  { induction n as [|n IH]; intros [|x l] Hn [|k] Hk; simpl in *; try done; try lia.
    f_equal. apply IH; rewrite length_drop; simpl; lia. }
  intros n l Hn. unfold fragments. by apply H.
Qed.

Lemma fragments_step u l : 0 < u -> l <> [] ->
  fragments u l = take (Z.to_nat u) l :: fragments u (drop (Z.to_nat u) l).
Proof.
  intros Hu Hl. destruct l as [|x l]; [done|]. unfold fragments at 1. simpl. f_equal.
  apply cut_enough; [done|]. rewrite length_drop. simpl. lia.
Qed.

Lemma fragments_exact u l : 0 < u ->
  concat (fragments u l) = l /\ Forall (fun b => 0 < zlen b <= u) (fragments u l).
Proof.
  intros Hu. remember (length l) as n eqn:Hn. revert l Hn.
  induction (lt_wf n) as [n _ IH]; intros l ->. destruct l as [|x l]; [done|].
  rewrite fragments_step by done.
  destruct (IH (length (drop (Z.to_nat u) (x :: l))) ltac:(rewrite length_drop; simpl; lia) _ eq_refl) as [Hc Hf].
  split; [simpl concat; by rewrite Hc, take_drop|]. constructor; [|done].
  unfold zlen. rewrite length_take. simpl. lia.
Qed.

Definition publish_frame (ch : Z) (m : amqp_basic_publish_t) : amqp_frame_t :=
  {| frame_type := AMQP_FRAME_METHOD; channel := ch;
     payload := PL_method AMQP_BASIC_PUBLISH_METHOD (M_BASIC_PUBLISH m) |}.
Definition content_header (ch size : Z) (p : amqp_basic_properties_t) : amqp_frame_t :=
  {| frame_type := AMQP_FRAME_HEADER; channel := ch;
     payload := PL_properties AMQP_BASIC_CLASS size (P_BASIC p) amqp_empty_bytes |}.
Definition body_frame (ch : Z) (l : list Z) : amqp_frame_t :=
  {| frame_type := AMQP_FRAME_BODY; channel := ch; payload := PL_body_fragment (view l) |}.

(** What a message looks like on the wire: the method, the header, the body in
    pieces of at most [u] bytes. *)
Definition message_frames (u ch : Z) (m : amqp_basic_publish_t) (p : amqp_basic_properties_t) (body : list Z)
    : list amqp_frame_t :=
  publish_frame ch m :: content_header ch (zlen body) p :: map (body_frame ch) (fragments u body).

Abbreviation wires fs := (concat (map wire_frame fs)).

(** ** Sending frame after frame *)

Section Publish.
Context {W : Type} {HC : Clock W} {HS : Sockets W} {HP : Poll W} {HL : NetworkLaws W} {HH : Host}.
Context (uninit : amqp_basic_properties_t) (fuel : nat).

Abbreviation net s := (world (s : cst W)).

(** All of [w] has been sent, the outbound buffer is all the memory that has
    changed, and the connection can go on sending. *)
Record advanced (q : ptr) (w : list Z) (s s' : cst W) : Prop := {
  ad_conn : set_next_send amqp_time_infinite (conn s') = set_next_send amqp_time_infinite (conn s);
  ad_timer : next_send_heartbeat (conn s) = amqp_time_infinite -> next_send_heartbeat (conn s') = amqp_time_infinite;
  ad_send : exists m, can_send q m s' /\ zlen m = hb_len (outbound_buffer (conn s));
  ad_heap : exists m, hp s' = set_blocks (<[p_block q := m]> (h_blocks (hp s))) (hp s);
  ad_sent : n_sent (net s') = n_sent (net s) ++ w;
  ad_coming : n_coming (net s') = n_coming (net s);
  ad_waits : (n_waits (net s') <= n_waits (net s))%nat;
  ad_healthy : n_healthy (net s) -> n_healthy (net s')
}.

(** A status, and a beginning of [w] has been sent. *)
Definition broken (w : list Z) (s : cst W) (e : Z) (s' : cst W) : Prop :=
  e < 0 /\ ~ n_healthy (net s) /\ exists k, n_sent (net s') = n_sent (net s) ++ take k w.

Lemma advanced_refl q m s : can_send q m s -> advanced q [] s s.
Proof.
  intros Hs. split; [done|done| | |by rewrite app_nil_r|done|done|done].
  - exists m. split; [done|]. symmetry. apply Hs.
  - exists m. rewrite insert_id by apply Hs. by destruct (hp s).
Qed.

Lemma same_out (s s' : cst W) : set_next_send amqp_time_infinite (conn s') = set_next_send amqp_time_infinite (conn s) ->
  outbound_buffer (conn s') = outbound_buffer (conn s) /\ frame_max (conn s') = frame_max (conn s).
Proof.
  intros H. split; [by apply (f_equal outbound_buffer) in H|by apply (f_equal frame_max) in H].
Qed.

Lemma advanced_trans q w1 w2 s s1 s2 :
  advanced q w1 s s1 -> advanced q w2 s1 s2 -> advanced q (w1 ++ w2) s s2.
Proof.
  intros [Hc1 Ht1 _ (m1 & Hm1) Hs1 Ho1 Hw1 Hh1] [Hc2 Ht2 (m & Hm & Hz) (m2 & Hm2) Hs2 Ho2 Hw2 Hh2].
  split; [congruence|auto| | | |congruence|lia|auto].
  - exists m. split; [done|]. rewrite Hz. by destruct (same_out _ _ Hc1) as [-> _].
  - exists m2. rewrite Hm2, Hm1. unfold set_blocks. simpl. by rewrite insert_insert_eq.
  - by rewrite Hs2, Hs1, app_assoc.
Qed.

Lemma broken_after q w1 w2 s s1 e s2 : advanced q w1 s s1 -> broken w2 s1 e s2 -> broken (w1 ++ w2) s e s2.
Proof.
  intros [_ _ _ _ Hs1 _ _ Hh1] (He & Hh & k & Hk). split; [done|]. split; [auto|].
  exists (length w1 + k)%nat. rewrite Hk, Hs1, <- app_assoc. f_equal.
  rewrite take_app_ge by lia. do 2 f_equal. lia.
Qed.

Lemma broken_more w1 w2 s e s' : broken w1 s e s' -> broken (w1 ++ w2) s e s'.
Proof.
  intros (He & Hh & k & Hk). split; [done|]. split; [done|]. exists (min k (length w1)).
  rewrite Hk, take_app_le by lia. f_equal. by rewrite <- take_take, (firstn_all2 w1 (Nat.le_refl _)).
Qed.

Lemma wp_send_one q f flags s :
  (exists m, can_send q m s /\ zlen (wire_frame f) <= zlen m) -> sendable f ->
  (length (wire_frame f) + n_waits (net s) < fuel)%nat ->
  wp (unless_negative (amqp_send_frame_inner uninit fuel f flags amqp_time_infinite))
    (fun _ s' => advanced q (wire_frame f) s s') (broken (wire_frame f) s) s.
Proof.
  intros (m & Hs & Hfit) Hf Hfuel. unfold unless_negative. apply wp_bind, wp_status_of.
  wp_use wp_send_frame; [exact Hs|done|done|done|done| |].
  - intros _ s' (s1 & [Hcn Hhp Hok Hse Hco Hwa Hhe] & ->). apply wp_ret. pose proof Hs as [].
    split; simpl; [by rewrite Hcn|done| |by eexists| |done|done|done].
    + exists (overwrite 0 (wire_frame f) m).
      rewrite zlen_overwrite by (pose proof (zlen_nonneg (wire_frame f)); lia). split; [|done].
      split; simpl; rewrite ?zlen_overwrite, ?Hcn by (pose proof (zlen_nonneg (wire_frame f)); lia); try done.
      rewrite Hhp. apply lookup_insert_eq.
    + rewrite Hse. unfold zlen. by rewrite Nat2Z.id, firstn_all.
  - intros e s' (He & Hn & k & Hk & Htr). rewrite (proj2 (Z.ltb_lt _ _)) by lia. apply wp_throw.
    split; [done|]. split; [by intros ?; apply Hn|]. exists (Z.to_nat k). apply Htr.
Qed.

(** One frame and then the rest. *)
Lemma wp_send_then q f flags w (k : C (cst W) unit) s :
  (exists m, can_send q m s /\ zlen (wire_frame f) <= zlen m) -> sendable f ->
  (length (wire_frame f) + n_waits (net s) < fuel)%nat ->
  (forall s1, advanced q (wire_frame f) s s1 -> wp k (fun _ s' => advanced q w s1 s') (broken w s1) s1) ->
  wp (do* unless_negative (amqp_send_frame_inner uninit fuel f flags amqp_time_infinite) in k)
    (fun _ s' => advanced q (wire_frame f ++ w) s s') (broken (wire_frame f ++ w) s) s.
Proof.
  intros Hs Hf Hfuel Hk. apply wp_bind. wp_use wp_send_one; [done|done|done| |].
  - intros ? s1 Had. wp_use Hk; [exact Had| |].
    + intros ? s2 Had2. by eapply advanced_trans.
    + intros e s2 Hbr. by eapply broken_after.
  - intros e s1 Hbr. by apply broken_more.
Qed.

Lemma body_fragment_contents body off u :
  readable body -> 0 < u -> 0 <= off < len body ->
  let b := body_fragment_at body off u in
  contents b = take (Z.to_nat u) (drop (Z.to_nat off) (contents body)) /\ readable b /\
  len b = Z.min u (len body - off).
Proof.
  intros [Hr Hp] Hu Hoff. unfold body_fragment_at. cbv zeta.
  assert (Hrem : size_t (len body - off) = len body - off).
  { apply size_t_small. unfold PTRDIFF_MAX in Hp. lia. }
  rewrite Hrem. set (n := if _ <=? _ then _ else _).
  assert (Hn : n = Z.min u (len body - off)) by (unfold n; destruct (Z.leb_spec u (len body - off)); lia).
  assert (Hm : mem_of {| len := n; bytes := drop (Z.to_nat off) <$> bytes body |} = drop (Z.to_nat off) (mem_of body)).
  { unfold mem_of. simpl. destruct (bytes body); simpl; by rewrite ?drop_nil. }
  split_and!; [| |done].
  - unfold contents. rewrite Hm. simpl len. unfold slice. change (Z.to_nat 0) with 0%nat.
    rewrite !drop_0, skipn_firstn_comm, take_take, Hn. f_equal. lia.
  - split; simpl len; [|lia]. rewrite Hm. rewrite zlen_drop by lia. lia.
Qed.

Lemma wire_fragment ch b : wire_frame {| frame_type := AMQP_FRAME_BODY; channel := ch; payload := PL_body_fragment b |}
  = wire_frame (body_frame ch (contents b)).
Proof. unfold wire_frame, body_frame. simpl. by rewrite contents_view. Qed.

Lemma wp_publish_body q m ch u body s :
  can_send q m s -> 0 < u -> u + 8 <= zlen m -> readable body -> (0 < len body -> is_Some (bytes body)) ->
  in_u 16 ch -> (Z.to_nat (u + 8) + n_waits (net s) + Z.to_nat (len body) < fuel)%nat ->
  let w := wires (map (body_frame ch) (fragments u (contents body))) in
  wp (publish_body uninit fuel ch u body) (fun _ s' => advanced q w s s') (broken w s) s.
Proof.
  intros Hs Hu Hfit Hr Hnn Hch Hfuel w. unfold publish_body.
  eapply (wp_iter _ (fun off s1 => 0 <= off <= len body /\ exists w1, advanced q w1 s s1 /\
      w = w1 ++ wires (map (body_frame ch) (fragments u (drop (Z.to_nat off) (contents body)))))
    (fun off _ => Z.to_nat (len body - off))).
  2: { destruct Hr as [Hr _]. split; [lia|]. exists []. split; [by eapply advanced_refl|done]. }
  2: { pose proof (ad_waits _ _ _ _ (advanced_refl _ _ _ Hs)). lia. }
  intros off s1 (Hoff & w1 & Had & Hw). destruct (Z.ltb_spec off (len body)) as [Hlt|Hge].
  2: { apply wp_ret. rewrite Hw, drop_ge; [by rewrite app_nil_r|].
       pose proof (zlen_contents body Hr). unfold zlen in *. lia. }
  destruct (body_fragment_contents body off u Hr Hu ltac:(lia)) as (Hc & Hrb & Hlen).
  set (b := body_fragment_at body off u) in *.
  destruct Hr as [Hr Hp]. pose proof (zlen_contents b Hrb) as Hzb.
  rewrite size_t_small by (unfold PTRDIFF_MAX in Hp; lia). rewrite (proj2 (Z.eqb_neq (len body - off) 0)) by lia.
  cbv zeta. apply wp_bind.
  set (f := {| frame_type := AMQP_FRAME_BODY; channel := ch; payload := PL_body_fragment b |}).
  assert (Hwf : zlen (wire_frame f) = len b + 8).
  { rewrite zlen_wire_frame. change (wire_payload (payload f)) with (contents b). lia. }
  assert (Hdrop : drop (Z.to_nat off) (contents body) <> []).
  { intros E. apply (f_equal length) in E. rewrite length_drop in E.
    pose proof (zlen_contents body (conj Hr Hp)). unfold zlen in *. simpl in E. lia. }
  rewrite fragments_step in Hw by done. cbn [map concat] in Hw. rewrite <- Hc, <- wire_fragment in Hw. fold f in Hw.
  destruct (ad_send _ _ _ _ Had) as (m1 & Hm1 & Hz1).
  wp_use (wp_send_one q f (if u <=? len body - off then AMQP_SF_MORE else AMQP_SF_NONE) s1).
  - exists m1. split; [done|]. rewrite Hz1, (cs_len _ _ _ Hs). lia.
  - split; [done|]. split_and!; [done|done|]. destruct Hnn as [mm Hmm]; [lia|].
    unfold b, body_fragment_at. simpl. rewrite Hmm. by eexists.
  - pose proof (ad_waits _ _ _ _ Had). unfold zlen in Hwf. lia.
  - intros [] s2 Had2. apply wp_ret. rewrite size_t_small by (unfold PTRDIFF_MAX in Hp; lia). split; [|lia].
    split; [lia|]. exists (w1 ++ wire_frame f). split; [by eapply advanced_trans|].
    assert (Hd : drop (Z.to_nat (off + len b)) (contents body) = drop (Z.to_nat u) (drop (Z.to_nat off) (contents body))).
    { rewrite drop_drop. destruct (Z.le_gt_cases u (len body - off)); [f_equal; lia|].
      rewrite !drop_ge; [done|..]; pose proof (zlen_contents body (conj Hr Hp)); unfold zlen in *; lia. }
    by rewrite Hw, <- app_assoc, Hd.
  - intros e s2 Hb. rewrite Hw, app_assoc. eapply broken_more, broken_after; done.
Qed.

(** ** Publishing *)

Lemma wp_basic_publish q m ch exchange routing_key mandatory immediate properties body s :
  let u := frame_max (conn s) - 8 in
  let pm := {| basic_publish_ticket := 0; basic_publish_exchange := exchange;
               basic_publish_routing_key := routing_key; basic_publish_mandatory := mandatory;
               basic_publish_immediate := immediate |} in
  let p := default default_properties properties in
  let w := wires (message_frames u ch pm p (contents body)) in
  can_send q m s -> zlen m = frame_max (conn s) -> 0 < u ->
  sendable (publish_frame ch pm) -> zlen (wire_frame (publish_frame ch pm)) <= frame_max (conn s) ->
  sendable (content_header ch (len body) p) -> zlen (wire_frame (content_header ch (len body) p)) <= frame_max (conn s) ->
  readable body -> (0 < len body -> is_Some (bytes body)) ->
  (Z.to_nat (frame_max (conn s)) + n_waits (net s) + Z.to_nat (len body) < fuel)%nat ->
  wp (amqp_basic_publish uninit fuel ch exchange routing_key mandatory immediate properties body)
    (fun _ s' => advanced q w s s') (broken w s) s.
Proof.
  intros u pm p w Hs Hm Hu Hpm Hpmz Hh Hhz Hr Hnn Hfuel.
  assert (Hw : w = wire_frame (publish_frame ch pm) ++ wire_frame (content_header ch (len body) p) ++
                   wires (map (body_frame ch) (fragments u (contents body)))).
  { unfold w, message_frames. rewrite zlen_contents by done. done. }
  pose proof Hs as [Hok Hso Hp Ho Hb Hl Hz Hhb Hrt]. unfold amqp_basic_publish.
  apply wp_bind, wp_the_conn. apply wp_bind. rewrite Hrt.
  unfold amqp_time_has_past. simpl. apply wp_ret. apply wp_bind, wp_ret. unfold amqp_send_method_inner. simpl.
  fold pm. fold p. change {| frame_type := AMQP_FRAME_METHOD; channel := ch;
    payload := PL_method AMQP_BASIC_PUBLISH_METHOD (M_BASIC_PUBLISH pm) |} with (publish_frame ch pm).
  change {| frame_type := AMQP_FRAME_HEADER; channel := ch; payload :=
    PL_properties AMQP_BASIC_CLASS (len body) (P_BASIC p) amqp_empty_bytes |} with (content_header ch (len body) p).
  replace (size_t (frame_max (conn s) - (HEADER_SIZE + FOOTER_SIZE))) with u.
  2: { change (HEADER_SIZE + FOOTER_SIZE) with 8. unfold INT32_MAX in Hz. rewrite size_t_small; lia. }
  wp_use (wp_send_then q (publish_frame ch pm) AMQP_SF_MORE
    (wire_frame (content_header ch (len body) p) ++ wires (map (body_frame ch) (fragments u (contents body)))));
    [exists m; split; [exact Hs|lia]|done|unfold zlen in *; lia| |by rewrite Hw|by rewrite Hw].
  intros s1 Had1. destruct (ad_send _ _ _ _ Had1) as (m1 & Hm1 & Hz1). pose proof (ad_waits _ _ _ _ Had1).
  apply wp_send_then; [exists m1; split; [exact Hm1|lia]|done|unfold zlen in *; lia|].
  intros s2 Had2. destruct (ad_send _ _ _ _ Had2) as (m2 & Hm2 & Hz2). pose proof (ad_waits _ _ _ _ Had2).
  destruct (same_out _ _ (ad_conn _ _ _ _ Had1)) as [Hob1 _].
  apply (wp_publish_body q m2); [done|done| |done|done|apply Hh|].
  - rewrite Hz2, Hob1. lia.
  - unfold u. replace (frame_max (conn s) - 8 + 8) with (frame_max (conn s)) by lia. lia.
Qed.

(** C6: publishing a message puts exactly the message on the network.  Whatever
    partial sends and waits the network demands, [amqp_basic_publish] terminates;
    when it succeeds, the bytes sent are the wire form of the [basic.publish]
    method, of the content header with the size and the properties, and of body
    frames that cut the body into non-empty pieces whose frames fit [frame_max];
    when it fails, the network is at fault, the status is negative and a
    beginning of these bytes has been sent.  (Heartbeats are off; the method and
    the header fit a frame.) *)
Theorem publish_exact q m ch exchange routing_key mandatory immediate properties body s :
  let u := frame_max (conn s) - 8 in
  let pm := {| basic_publish_ticket := 0; basic_publish_exchange := exchange;
               basic_publish_routing_key := routing_key; basic_publish_mandatory := mandatory;
               basic_publish_immediate := immediate |} in
  let p := default default_properties properties in
  let w := wires (message_frames u ch pm p (contents body)) in
  can_send q m s -> zlen m = frame_max (conn s) -> 0 < u ->
  sendable (publish_frame ch pm) -> zlen (wire_frame (publish_frame ch pm)) <= frame_max (conn s) ->
  sendable (content_header ch (len body) p) -> zlen (wire_frame (content_header ch (len body) p)) <= frame_max (conn s) ->
  readable body -> (0 < len body -> is_Some (bytes body)) ->
  (Z.to_nat (frame_max (conn s)) + n_waits (net s) + Z.to_nat (len body) < fuel)%nat ->
  concat (fragments u (contents body)) = contents body /\
  Forall (fun b => 0 < zlen b <= u) (fragments u (contents body)) /\
  wp (amqp_basic_publish uninit fuel ch exchange routing_key mandatory immediate properties body)
    (fun _ s' => n_sent (net s') = n_sent (net s) ++ w)
    (fun e s' => e < 0 /\ ~ n_healthy (net s) /\ exists k, n_sent (net s') = n_sent (net s) ++ take k w) s.
Proof.
  intros u pm p w Hs Hm Hu Hpm Hpmz Hh Hhz Hr Hnn Hfuel.
  destruct (fragments_exact u (contents body) Hu) as [Hcat Hfr]. split; [done|]. split; [done|].
  wp_use (wp_basic_publish q m ch exchange routing_key mandatory immediate properties body s); try done.
  intros _ s' Had. apply Had.
Qed.
End Publish.

(** ** Error messages *)

Definition known_statuses : list Z :=
  map Z.opp (seqZ 0 21) ++ map Z.opp (seqZ 256 2) ++ map Z.opp (seqZ 512 5).

(** Every status of [amqp_status_enum] has a message of its own table entry, and
    no other code of the three categories has one. *)
Lemma error_string_known (code : Z) : - 0x300 < code <= 0 ->
  exists m, amqp_error_string2 code tt = Ret m tt /\ (m = unknown_error_string <-> code ∉ known_statuses).
Proof.
  intros Hc. assert (Hall : forallb (fun k => match amqp_error_string2 (- k) tt with
      | Ret m _ => eqb (String.eqb m unknown_error_string) (negb (bool_decide (- k ∈ known_statuses)))
      | _ => false end) (seqZ 0 0x300) = true) by (vm_compute; reflexivity).
  rewrite forallb_forall in Hall. specialize (Hall (- code)).
  rewrite Z.opp_involutive in Hall. specialize (Hall ltac:(apply list_elem_of_In, elem_of_seqZ; lia)).
  destruct (amqp_error_string2 code tt) as [m []| | |]; try done. exists m. split; [done|].
  apply eqb_prop in Hall. destruct (String.eqb_spec m unknown_error_string); case_bool_decide; by split.
Qed.

(** ** Examples *)

#[local] Existing Instance little_endian.

(** A connection whose frames have at most 64 bytes. *)
Definition publishing_connection : cst script :=
  {| conn := set_socket (Some 1) (set_tuning 0 64 0 amqp_time_infinite amqp_time_infinite
          {| hb_len := 64; hb_bytes := Some {| p_block := 2; p_off := 0 |} |} (conn idle_connection));
     hp := {| h_blocks := <[2 := replicate 64 0]> ∅; h_next := 3; h_count := 0; h_env := generous |};
     world := {| sc_sent := []; sc_coming := []; sc_hiccups := 2; sc_chunk := 10 |} |}.

Lemma publishing_can_send : can_send {| p_block := 2; p_off := 0 |} (replicate 64 0) publishing_connection.
Proof. by split. Qed.

Definition sample_body : amqp_bytes_t := view (replicate 100 7).

Definition sample_publish : amqp_basic_publish_t :=
  {| basic_publish_ticket := 0; basic_publish_exchange := view [101]; basic_publish_routing_key := view [114; 107];
     basic_publish_mandatory := 0; basic_publish_immediate := 0 |}.

Lemma sample_publish_sendable : sendable (publish_frame 1 sample_publish).
Proof. split; [by vm_compute|]. split; [done|]. split; [done|]. repeat constructor; by vm_compute. Qed.

Lemma sample_content_sendable : sendable (content_header 1 (len sample_body) default_properties).
Proof.
  split; [by vm_compute|]. split; [done|]. split; [done|]. split; [by vm_compute|]. split; [by vm_compute|].
  repeat constructor; by vm_compute.
Qed.

Lemma publish_exact_witness :
  exists s', amqp_basic_publish blank_properties 400 1 (view [101]) (view [114; 107]) 0 0 None sample_body
      publishing_connection = Ret tt s' /\
    sc_sent (world s') = wires (message_frames 56 1 sample_publish default_properties (replicate 100 7)).
Proof.
  unshelve epose proof (publish_exact blank_properties 400 _ _ 1 (view [101]) (view [114; 107]) 0 0 None sample_body
    publishing_connection publishing_can_send eq_refl eq_refl sample_publish_sendable _ sample_content_sendable _
    (readable_view _ _) (fun _ => mk_is_Some _ _ eq_refl) _) as (_ & _ & Hw);
    [by vm_compute..|apply Nat.ltb_lt; by vm_compute|].
  destruct (wp_run_ret _ _ _ (wp_mono _ _ _ _ _ _ Hw (fun _ _ H => H)
    (fun e s' H => proj1 (proj2 H) I))) as ([] & s' & Hrun & Hsent).
  exists s'. split; [exact Hrun|]. rewrite (contents_view (replicate 100 7) : contents sample_body = _) in Hsent. exact Hsent.
Defined.
