(* ===== verification/Consumer.v ===== *)
(** * Reading messages: [librabbitmq/amqp_consumer.c]

    Copying content properties, reading a message (a content header and its body
    frames) from a channel, consuming a delivery, and giving the memory back.  A
    message body is a block of the heap; copied strings are values whose bytes the
    pool of the message holds. *)

From S2P Require Import Prelude Machine Status Alloc Codec Table TableClone Framing Methods MethodDecode MethodEncode Properties Mem MemTheory Time Frame Connection Socket Api.

Record amqp_message_t : Type := mk_message {
  message_properties : amqp_basic_properties_t;
  message_body : heap_bytes;
  message_pool : amqp_pool_t
}.

Record amqp_envelope_t : Type := mk_envelope {
  envelope_channel : Z;
  envelope_consumer_tag : heap_bytes;
  envelope_delivery_tag : Z;
  envelope_redelivered : Z;
  envelope_exchange : heap_bytes;
  envelope_routing_key : heap_bytes;
  envelope_message : amqp_message_t
}.

(** Structures after [memset(..., 0, ...)]. *)
Definition no_bytes : heap_bytes := {| hb_len := 0; hb_bytes := None |}.
Definition zeroed_pool : amqp_pool_t :=
  {| pagesize := 0; pages := empty_list; large_blocks := empty_list; next_page := 0;
     alloc_block := None; alloc_used := 0 |}.
Definition zeroed_message : amqp_message_t :=
  {| message_properties := default_properties; message_body := no_bytes; message_pool := zeroed_pool |}.
Definition zeroed_envelope : amqp_envelope_t :=
  {| envelope_channel := 0; envelope_consumer_tag := no_bytes; envelope_delivery_tag := 0;
     envelope_redelivered := 0; envelope_exchange := no_bytes; envelope_routing_key := no_bytes;
     envelope_message := zeroed_message |}.

(** ** Copying properties *)

Section Clone.
Context {St : Type} `{Allocator St}.

(** [if (clone->_flags & flag) { ... }] after the structure has been zeroed. *)
Definition clone_if {A} (flags flag : Z) (zero : A) (m : C St A) : C St A :=
  if Z.land flags flag =? 0 then ret zero else m.

(** All flags that select a member of [amqp_basic_properties_t]. *)
Definition basic_flags : Z := 0xFFFC.

(** [original] as the code reads it, an [amqp_basic_properties_t]: the structures
    of the other classes have the flags and nothing else. *)
Definition as_basic (original : amqp_properties_t) : C St amqp_basic_properties_t :=
  match original with
  | P_BASIC p => ret p
  | _ =>
      if Z.land (flags_of original) basic_flags =? 0 then
        ret {| basic__flags := flags_of original; basic_content_type := amqp_empty_bytes;
               basic_content_encoding := amqp_empty_bytes; basic_headers := [];
               basic_delivery_mode := 0; basic_priority := 0; basic_correlation_id := amqp_empty_bytes;
               basic_reply_to := amqp_empty_bytes; basic_expiration := amqp_empty_bytes;
               basic_message_id := amqp_empty_bytes; basic_timestamp := 0; basic_type := amqp_empty_bytes;
               basic_user_id := amqp_empty_bytes; basic_app_id := amqp_empty_bytes;
               basic_cluster_id := amqp_empty_bytes |}
      else undefined
  end.

(** [CLONE_BYTES_POOL] under its flag. *)
Definition clone_string (flags flag : Z) (b : amqp_bytes_t) : C St amqp_bytes_t :=
  clone_if flags flag amqp_empty_bytes (clone_bytes_or_empty b).

Definition amqp_basic_properties_clone (original : amqp_properties_t) : C St amqp_basic_properties_t :=
  let* o := as_basic original in
  let flags := basic__flags o in
  let* content_type := clone_string flags AMQP_BASIC_CONTENT_TYPE_FLAG (basic_content_type o) in
  let* content_encoding := clone_string flags AMQP_BASIC_CONTENT_ENCODING_FLAG (basic_content_encoding o) in
  let* headers := clone_if flags AMQP_BASIC_HEADERS_FLAG [] (amqp_table_clone (basic_headers o)) in
  let* delivery_mode := clone_if flags AMQP_BASIC_DELIVERY_MODE_FLAG 0 (ret (basic_delivery_mode o)) in
  let* priority := clone_if flags AMQP_BASIC_PRIORITY_FLAG 0 (ret (basic_priority o)) in
  let* correlation_id := clone_string flags AMQP_BASIC_CORRELATION_ID_FLAG (basic_correlation_id o) in
  let* reply_to := clone_string flags AMQP_BASIC_REPLY_TO_FLAG (basic_reply_to o) in
  let* expiration := clone_string flags AMQP_BASIC_EXPIRATION_FLAG (basic_expiration o) in
  let* message_id := clone_string flags AMQP_BASIC_MESSAGE_ID_FLAG (basic_message_id o) in
  let* timestamp := clone_if flags AMQP_BASIC_TIMESTAMP_FLAG 0 (ret (basic_timestamp o)) in
  let* type := clone_string flags AMQP_BASIC_TYPE_FLAG (basic_type o) in
  let* user_id := clone_string flags AMQP_BASIC_USER_ID_FLAG (basic_user_id o) in
  let* app_id := clone_string flags AMQP_BASIC_APP_ID_FLAG (basic_app_id o) in
  let* cluster_id := clone_string flags AMQP_BASIC_CLUSTER_ID_FLAG (basic_cluster_id o) in
  ret {| basic__flags := flags; basic_content_type := content_type;
         basic_content_encoding := content_encoding; basic_headers := headers;
         basic_delivery_mode := delivery_mode; basic_priority := priority;
         basic_correlation_id := correlation_id; basic_reply_to := reply_to;
         basic_expiration := expiration; basic_message_id := message_id;
         basic_timestamp := timestamp; basic_type := type; basic_user_id := user_id;
         basic_app_id := app_id; basic_cluster_id := cluster_id |}.
End Clone.

(** ** Giving memory back *)

Definition amqp_destroy_message (message : amqp_message_t) : C heap amqp_message_t :=
  let* pool := empty_amqp_pool (message_pool message) in
  do* amqp_bytes_free (message_body message) in
  ret {| message_properties := message_properties message; message_body := message_body message;
         message_pool := pool |}.

Definition amqp_destroy_envelope (envelope : amqp_envelope_t) : C heap unit :=
  let* _ := amqp_destroy_message (envelope_message envelope) in
  do* amqp_bytes_free (envelope_routing_key envelope) in
  do* amqp_bytes_free (envelope_exchange envelope) in
  amqp_bytes_free (envelope_consumer_tag envelope).

Definition amqp_bytes_malloc_dup_failed (b : heap_bytes) : bool :=
  negb (hb_len b =? 0) && match hb_bytes b with None => true | Some _ => false end.

(** ** Reading *)

Section Read.
Context {W : Type} {HC : Clock W} {HS : Sockets W} {HP : Poll W} {HH : Host}.
Context (uninit : amqp_basic_properties_t).
Context (fuel : nat).
Abbreviation CC A := (C (cst W) A).

(** A computation in a pool that is not one of the connection's. *)
Definition in_pool {A} (pool : amqp_pool_t) (m : C pstate A) : CC (A * amqp_pool_t) := fun s =>
  match m {| ps_heap := hp s; ps_pool := pool |} with
  | Ret a p => Ret (a, ps_pool p) {| conn := conn s; hp := ps_heap p; world := world s |}
  | Err e p => Err e {| conn := conn s; hp := ps_heap p; world := world s |}
  | UB => UB
  | NoFuel => NoFuel
  end.

Definition normal_reply : amqp_rpc_reply_t :=
  {| reply_type := AMQP_RESPONSE_NORMAL; reply_id := 0; reply_decoded := None; library_error := 0 |}.

Definition server_exception (m : amqp_method_t) : amqp_rpc_reply_t :=
  {| reply_type := AMQP_RESPONSE_SERVER_EXCEPTION; reply_id := method_id m;
     reply_decoded := Some (method_decoded m); library_error := 0 |}.

(** A method frame that closes the channel or the connection. *)
Definition closing_method (frame : amqp_frame_t) : CC (option amqp_method_t) :=
  if frame_type frame =? AMQP_FRAME_METHOD then
    let* m := method_of frame in
    ret (if (method_id m =? AMQP_CHANNEL_CLOSE_METHOD) || (method_id m =? AMQP_CONNECTION_CLOSE_METHOD)
         then Some m else None)
  else ret None.

(** The body of the [while] loop: the new [body_read], or the reply. *)
Definition read_fragment (ch : Z) (body : heap_bytes) (body_read : Z) : CC (Z + amqp_rpc_reply_t) :=
  let* r := try_ (amqp_simple_wait_frame_on_channel uninit fuel ch new_frame) in
  match r with
  | inl res => ret (inr (amqp_rpc_reply_error res))
  | inr frame =>
      if negb (frame_type frame =? AMQP_FRAME_BODY) then
        let* closing := closing_method frame in
        ret (inr (match closing with
                  | Some m => server_exception m
                  | None => amqp_rpc_reply_error AMQP_STATUS_BAD_AMQP_DATA
                  end))
      else
        match payload frame, hb_bytes body with
        | PL_body_fragment b, Some p =>
            if hb_len body <? size_t (body_read + len b) then
              ret (inr (amqp_rpc_reply_error AMQP_STATUS_BAD_AMQP_DATA))
            else
              do* (let* bs := on_mem (memcpy_source b) in
                   on_mem (heap_store {| p_block := p_block p; p_off := p_off p + body_read |} bs)) in
              ret (inl (size_t (body_read + len b)))
        | _, _ => undefined
        end
  end.

(** The [while] loop: the reply, after the body has been read into [body]. *)
Definition read_body (ch : Z) (body : heap_bytes) : CC amqp_rpc_reply_t :=
  iter fuel (fun body_read =>
    if body_read <? hb_len body then read_fragment ch body body_read
    else ret (inr normal_reply)) 0.

(** From the content header on. *)
Definition read_content (ch body_size : Z) (decoded : amqp_properties_t)
    : CC (amqp_rpc_reply_t * amqp_message_t) :=
  let* '(r, pool) := in_pool (init_amqp_pool 4096) (try_ (amqp_basic_properties_clone decoded)) in
  match r with
  | inl res =>
      let* pool := on_mem (empty_amqp_pool pool) in
      ret (amqp_rpc_reply_error res,
           {| message_properties := default_properties; message_body := no_bytes; message_pool := pool |})
  | inr properties =>
      (* [SIZE_MAX] is no less than any 64-bit [body_size] *)
      let* body := (if body_size =? 0 then ret no_bytes else on_mem (amqp_bytes_malloc (size_t body_size))) in
      let message := {| message_properties := properties; message_body := body; message_pool := pool |} in
      if negb (body_size =? 0) && match hb_bytes body with None => true | Some _ => false end then
        ret (amqp_rpc_reply_error AMQP_STATUS_NO_MEMORY, message)
      else
        let* reply := read_body ch body in
        match reply_type reply with
        | AMQP_RESPONSE_NORMAL => ret (reply, message)
        | _ =>
            do* on_mem (amqp_bytes_free body) in
            let* pool := on_mem (empty_amqp_pool pool) in
            ret (reply, {| message_properties := properties; message_body := body; message_pool := pool |})
        end
  end.

Definition amqp_read_message (ch : Z) : CC (amqp_rpc_reply_t * amqp_message_t) :=
  let* r := try_ (amqp_simple_wait_frame_on_channel uninit fuel ch new_frame) in
  match r with
  | inl res => ret (amqp_rpc_reply_error res, zeroed_message)
  | inr frame =>
      if negb (frame_type frame =? AMQP_FRAME_HEADER) then
        let* closing := closing_method frame in
        match closing with
        | Some m => ret (server_exception m, zeroed_message)
        | None =>
            let* _ := try_ (amqp_put_back_frame frame) in
            ret (amqp_rpc_reply_error AMQP_STATUS_UNEXPECTED_STATE, zeroed_message)
        end
      else
        match payload frame with
        | PL_properties _ body_size decoded _ => read_content ch body_size decoded
        | _ => undefined
        end
  end.

(** [error_out2] of [amqp_consume_message]. *)
Definition free_strings (envelope : amqp_envelope_t) : C heap unit :=
  do* amqp_bytes_free (envelope_routing_key envelope) in
  do* amqp_bytes_free (envelope_exchange envelope) in
  amqp_bytes_free (envelope_consumer_tag envelope).

(** From the [basic.deliver] method on. *)
Definition consume_delivery (ch : Z) (d : amqp_basic_deliver_t) : CC (amqp_rpc_reply_t * amqp_envelope_t) :=
  let* tag := on_mem (amqp_bytes_malloc_dup (basic_deliver_consumer_tag d)) in
  let* exchange := on_mem (amqp_bytes_malloc_dup (basic_deliver_exchange d)) in
  let* routing_key := on_mem (amqp_bytes_malloc_dup (basic_deliver_routing_key d)) in
  let envelope message :=
    {| envelope_channel := ch; envelope_consumer_tag := tag;
       envelope_delivery_tag := basic_deliver_delivery_tag d;
       envelope_redelivered := basic_deliver_redelivered d; envelope_exchange := exchange;
       envelope_routing_key := routing_key; envelope_message := message |} in
  if amqp_bytes_malloc_dup_failed tag || amqp_bytes_malloc_dup_failed exchange
     || amqp_bytes_malloc_dup_failed routing_key then
    do* on_mem (free_strings (envelope zeroed_message)) in
    ret (amqp_rpc_reply_error AMQP_STATUS_NO_MEMORY, envelope zeroed_message)
  else
    let* '(reply, message) := amqp_read_message ch in
    match reply_type reply with
    | AMQP_RESPONSE_NORMAL => ret (reply, envelope message)
    | _ =>
        do* on_mem (free_strings (envelope message)) in
        ret (reply, envelope message)
    end.

Definition amqp_consume_message (timeout : option timeval) : CC (amqp_rpc_reply_t * amqp_envelope_t) :=
  let* r := try_ (amqp_simple_wait_frame_noblock uninit fuel new_frame timeout) in
  match r with
  | inl res => ret (amqp_rpc_reply_error res, zeroed_envelope)
  | inr frame =>
      let* id := (if frame_type frame =? AMQP_FRAME_METHOD
                  then let* m := method_of frame in ret (Some m) else ret None) in
      match id with
      | Some m =>
          if method_id m =? AMQP_BASIC_DELIVER_METHOD then
            match method_decoded m with
            | M_BASIC_DELIVER d => consume_delivery (channel frame) d
            | _ => undefined
            end
          else
            let* _ := try_ (amqp_put_back_frame frame) in
            ret (amqp_rpc_reply_error AMQP_STATUS_UNEXPECTED_STATE, zeroed_envelope)
      | None =>
          let* _ := try_ (amqp_put_back_frame frame) in
          ret (amqp_rpc_reply_error AMQP_STATUS_UNEXPECTED_STATE, zeroed_envelope)
      end
  end.
End Read.
