(* ===== verification/ConsumerTheory.v ===== *)
(** * Copies of properties, and memory beside the connection

    What [amqp_basic_properties_clone] copies, and that a connection goes on
    listening when the application allocates memory of its own and writes to
    it. *)

From S2P Require Import Prelude Machine Status Alloc Codec Table TableEncode TableDecode TableClone Framing Methods MethodDecode MethodEncode MethodWire Properties PropertiesTheory Mem MemTheory PoolTable Time Frame FrameTheorems Connection ParserTheory ParserTheorems Greeting ConnectionTheorems Socket Network Inbox Outbox FrameQueue RpcTheory Api Consumer.

(** ** Normal forms *)

Lemma norm_view_twice b : view (contents (view (contents b))) = view (contents b).
Proof. by rewrite contents_view. Qed.

Lemma norm_value_twice v : norm_value (norm_value v) = norm_value v.
Proof.
  induction v as [v Hv|b l IH|l IH] using value_ind.
  - destruct v; try done; simpl; rewrite ?contents_view; try done. by destruct (boolean =? 0).
  - simpl. unfold zlen. rewrite length_map. f_equal. rewrite List.map_map. apply map_ext_Forall. exact IH.
  - simpl. f_equal. rewrite List.map_map. apply map_ext_Forall. eapply Forall_impl; [exact IH|].
    intros e He. simpl. by rewrite contents_view, He.
Qed.

Lemma norm_table_twice t : norm_table (norm_table t) = norm_table t.
Proof.
  unfold norm_table. rewrite List.map_map. apply map_ext. intros e. simpl. by rewrite contents_view, norm_value_twice.
Qed.

Lemma norm_if_twice {A} flags flag (u u' : A) x (f : A -> A) :
  f (f x) = f x -> norm_if flags flag u (f (norm_if flags flag u' (f x))) = norm_if flags flag u (f x).
Proof. unfold norm_if. by destruct (Z.land flags flag =? 0). Qed.

(** Reading received properties is reading the sent ones. *)
Lemma norm_basic_twice u u' p : norm_basic u (norm_basic u' p) = norm_basic u p.
Proof.
  unfold norm_basic. simpl. rewrite !norm_if_twice by first [apply norm_view_twice|apply norm_table_twice].
  rewrite !(norm_if_twice _ _ _ _ _ (fun x => x)) by done. done.
Qed.

(** ** Copying properties *)

Section Copy.
Context {St : Type} {HA : Allocator St} {HL : AllocatorLaws St}.

Definition present_in (flags flag : Z) (P : Prop) : Prop := Z.land flags flag <> 0 -> P.

Lemma copies_if {A} flags flag n ok (zero : A) (f : A -> A) x m :
  0 <= n -> present_in flags flag (copies n ok (fun y => f y = f x) m) ->
  copies n (present_in flags flag ok) (fun y => norm_if flags flag zero (f y) = norm_if flags flag zero (f x))
    (clone_if flags flag zero m).
Proof.
  intros Hn Hm. unfold clone_if, norm_if, present_in in *. destruct (Z.eqb_spec (Z.land flags flag) 0) as [Hz|Hz].
  - by apply copies_ret.
  - eapply copies_weaken; [by apply Hm|lia| |done]. intros H. by apply H.
Qed.

Lemma copies_string flags flag b : present_in flags flag (small_bytes b) ->
  copies 1 True (fun b' => norm_if flags flag amqp_empty_bytes (norm_bytes b') =
    norm_if flags flag amqp_empty_bytes (norm_bytes b)) (clone_string flags flag b).
Proof.
  intros Hb. eapply copies_weaken; [apply (copies_if _ _ 1 True amqp_empty_bytes norm_bytes b); [done|]|done|by intros _ _|by intros ? ?].
  intros Hf. eapply copies_weaken; [apply copies_bytes_or_empty; by apply Hb|done|done|].
  intros b' (Hc & _). unfold norm_bytes. by rewrite Hc.
Qed.

Lemma copies_number flags flag (x : Z) :
  copies 0 True (fun y => norm_if flags flag 0 y = norm_if flags flag 0 x) (clone_if flags flag 0 (ret x)).
Proof.
  eapply copies_weaken; [apply (copies_if _ _ 0 True 0 (fun x => x) x); [done|]|done|by intros _ _|by intros ? ?].
  intros _. by apply copies_ret.
Qed.

(** The members the flags select can be copied. *)
Record copyable_properties (p : amqp_basic_properties_t) : Prop := {
  cp_strings : Forall (fun '(flag, b) => present_in (basic__flags p) flag (small_bytes b))
    [(AMQP_BASIC_CONTENT_TYPE_FLAG, basic_content_type p); (AMQP_BASIC_CONTENT_ENCODING_FLAG, basic_content_encoding p);
     (AMQP_BASIC_CORRELATION_ID_FLAG, basic_correlation_id p); (AMQP_BASIC_REPLY_TO_FLAG, basic_reply_to p);
     (AMQP_BASIC_EXPIRATION_FLAG, basic_expiration p); (AMQP_BASIC_MESSAGE_ID_FLAG, basic_message_id p);
     (AMQP_BASIC_TYPE_FLAG, basic_type p); (AMQP_BASIC_USER_ID_FLAG, basic_user_id p);
     (AMQP_BASIC_APP_ID_FLAG, basic_app_id p); (AMQP_BASIC_CLUSTER_ID_FLAG, basic_cluster_id p)];
  cp_headers : present_in (basic__flags p) AMQP_BASIC_HEADERS_FLAG (copyable_table (basic_headers p))
}.

Definition accepted_properties (p : amqp_basic_properties_t) : Prop :=
  present_in (basic__flags p) AMQP_BASIC_HEADERS_FLAG (accepted_table (basic_headers p)).

Definition requests_headers (p : amqp_basic_properties_t) : Z :=
  if Z.land (basic__flags p) AMQP_BASIC_HEADERS_FLAG =? 0 then 0 else requests_table (basic_headers p).

Definition requests_properties (p : amqp_basic_properties_t) : Z := 10 + requests_headers p.

Lemma requests_table_nonneg t : 0 <= requests_table t.
Proof.
  unfold requests_table. induction t as [|e t IH]; simpl; [done|]. pose proof (requests_nonneg e.2). lia.
Qed.

Lemma copies_let {A B} n1 n (ok1 ok : Prop) (Q1 : A -> Prop) (Q2 : B -> Prop) m k :
  copies n1 ok1 Q1 m -> n1 <= n -> (ok -> ok1) -> (forall a, Q1 a -> copies (n - n1) ok Q2 (k a)) ->
  copies n ok Q2 (bind m k).
Proof.
  intros Hm Hn Hok Hk. eapply (copies_weaken (n1 + (n - n1)) n (ok1 /\ ok)); [|lia|by split; [apply Hok|]|intros ? H; exact H].
  eapply copies_bind; [exact Hm|lia|exact Hk].
Qed.

Lemma copies_properties p : copyable_properties p ->
  copies (requests_properties p) (accepted_properties p)
    (fun p' => norm_basic default_properties p' = norm_basic default_properties p)
    (amqp_basic_properties_clone (P_BASIC p)).
Proof.
  intros [Hs Hh]. assert (Hk : 0 <= requests_headers p).
  { unfold requests_headers. pose proof (requests_table_nonneg (basic_headers p)). by destruct (_ =? 0). }
  repeat (apply Forall_cons in Hs as [? Hs]). clear Hs. unfold requests_properties, amqp_basic_properties_clone.
  eapply (copies_let 0 _ True _ (fun o => o = p)); [by apply copies_ret|lia|done|intros o ->].
  do 2 (eapply copies_let; [by apply copies_string|lia|done|intros ? ?]).
  eapply copies_let; [apply (copies_if _ _ (requests_headers p) (accepted_table (basic_headers p)) []
      norm_table (basic_headers p)); [done|]|lia|done|intros ? ?].
  { intros Hf. unfold requests_headers. rewrite (proj2 (Z.eqb_neq _ _) Hf).
    eapply copies_weaken; [apply copies_table; by apply Hh|done|done|]. intros t Ht. by destruct (same_entries_norm _ _ Ht). }
  do 2 (eapply copies_let; [apply copies_number|lia|done|intros ? ?]).
  do 4 (eapply copies_let; [by apply copies_string|lia|done|intros ? ?]).
  eapply copies_let; [apply copies_number|lia|done|intros ? ?].
  do 4 (eapply copies_let; [by apply copies_string|lia|done|intros ? ?]).
  apply copies_ret; [lia|]. unfold norm_basic. simpl. by f_equal.
Qed.
End Copy.

(** ** Received properties can be copied when the sent ones can *)

Lemma small_norm b : small_bytes b -> small_bytes (norm_bytes b) /\ len (norm_bytes b) = len b.
Proof.
  intros [Hr Hs]. pose proof (zlen_contents b Hr) as Hz. unfold norm_bytes, small_bytes. simpl.
  split; [|done]. split; [apply readable_view; destruct Hr; lia|lia].
Qed.

Lemma copyable_norm v : copyable v -> copyable (norm_value v) /\ (accepted v -> accepted (norm_value v)) /\
  requests (norm_value v) = requests v.
Proof.
  induction v as [v Hv|b l IH|l IH] using value_ind.
  - destruct v; try discriminate Hv; intros Hb; cbn [copyable norm_value accepted requests] in *.
    all: split; [|split; [intros Ha; exact Ha|reflexivity]]; first [exact I|exact (proj1 (small_norm _ Hb))].
  - cbn [copyable norm_value accepted requests]. intros (Hz & _ & Hl). apply allP_Forall in Hl.
    assert (Hall : Forall copyable (map norm_value l) /\ (Forall accepted l -> Forall accepted (map norm_value l)) /\
      foldr (fun v n => requests v + n) 0 (map norm_value l) = foldr (fun v n => requests v + n) 0 l).
    { clear Hz. induction Hl as [|v l Hv _ IHl]; [done|]. apply Forall_cons in IH as [IHv IH].
      destruct (IHv Hv) as (? & ? & ?), (IHl IH) as (? & ? & ?). simpl.
      split_and!; [by constructor|by intros [? ?]%Forall_cons; constructor; auto|lia]. }
    destruct Hall as (Hc & Ha & Hr). rewrite !allP_Forall. unfold zlen in *. rewrite length_map.
    split_and!; [done| |done| |by rewrite Hr].
    + by destruct l.
    + intros [Hne Hacc]. split; [by destruct l|auto].
  - cbn [copyable norm_value accepted requests]. intros (Hz & Hl). apply allP_Forall in Hl.
    assert (Hall : Forall (fun e => small_bytes e.1 /\ copyable e.2) (norm_table l) /\
      (Forall (fun e => len e.1 <> 0 /\ accepted e.2) l -> Forall (fun e => len e.1 <> 0 /\ accepted e.2) (norm_table l)) /\
      foldr (fun e n => 1 + requests e.2 + n) 0 (norm_table l) = foldr (fun e n => 1 + requests e.2 + n) 0 l).
    { clear Hz. induction Hl as [|e l [Hk Hv] _ IHl]; [done|]. apply Forall_cons in IH as [IHv IH].
      destruct (IHv Hv) as (? & ? & ?), (IHl IH) as (? & ? & ?), (small_norm _ Hk) as [? Hlen]. cbn [norm_table map foldr] in *.
      unfold norm_bytes in *. split_and!; [by constructor| |simpl; unfold norm_table in *; lia].
      intros [[? ?] ?]%Forall_cons. constructor; [|auto]. split; [change (len (view (contents e.1)) <> 0); by rewrite Hlen|auto]. }
    fold (norm_table l). destruct Hall as (Hc & Ha & Hr). rewrite !allP_Forall. unfold zlen, norm_table in *. rewrite length_map.
    split_and!; [done|done|done|by rewrite Hr].
Qed.

Lemma copyable_table_norm t : copyable_table t -> copyable_table (norm_table t) /\
  (accepted_table t -> accepted_table (norm_table t)) /\ requests_table (norm_table t) = requests_table t.
Proof.
  intros [Hz Ht]. destruct (copyable_norm (FV_TABLE t)) as ([Hz' Hc] & Ha & Hr).
  { split; [done|]. by apply allP_Forall. }
  cbn [norm_value accepted requests] in *. rewrite !allP_Forall in *. by split_and!.
Qed.

Lemma copyable_received uninit p : copyable_properties p -> accepted_properties p ->
  copyable_properties (norm_basic uninit p) /\ accepted_properties (norm_basic uninit p) /\
  requests_properties (norm_basic uninit p) = requests_properties p.
Proof.
  intros [Hs Hh] Ha.
  assert (Hstr : forall flag b u, present_in (basic__flags p) flag (small_bytes b) ->
    present_in (basic__flags p) flag (small_bytes (norm_if (basic__flags p) flag u (norm_bytes b)))).
  { intros flag b u Hb Hf. unfold norm_if. rewrite (proj2 (Z.eqb_neq _ _) Hf). exact (proj1 (small_norm _ (Hb Hf))). }
  split_and!.
  - split.
    + repeat (apply Forall_cons in Hs as [? Hs]). repeat (apply Forall_cons; split; [by apply Hstr|]). constructor.
    + intros Hf. simpl in *. unfold norm_if. rewrite (proj2 (Z.eqb_neq _ _) Hf). exact (proj1 (copyable_table_norm _ (Hh Hf))).
  - intros Hf. simpl in *. unfold norm_if. rewrite (proj2 (Z.eqb_neq _ _) Hf).
    exact (proj1 (proj2 (copyable_table_norm _ (Hh Hf))) (Ha Hf)).
  - unfold requests_properties, requests_headers, norm_if. simpl. f_equal.
    destruct (Z.eqb_spec (Z.land (basic__flags p) AMQP_BASIC_HEADERS_FLAG) 0) as [|Hf]; [done|].
    change (requests_table (norm_if (basic__flags p) AMQP_BASIC_HEADERS_FLAG (basic_headers uninit)
      (norm_table (basic_headers p))) = requests_table (basic_headers p)).
    unfold norm_if. rewrite (proj2 (Z.eqb_neq _ _) Hf). exact (proj2 (proj2 (copyable_table_norm _ (Hh Hf)))).
Qed.

(** ** Memory of the application *)

(** [h'] has all blocks of [h] and perhaps more. *)
Definition grown (h h' : heap) : Prop :=
  heap_ok h' /\ (reliable h -> reliable h') /\ forall b m, h_blocks h !! b = Some m -> h_blocks h' !! b = Some m.

Definition fresh_blocks (h h' : heap) : gmap Z (list Z) :=
  filter (fun x => h_blocks h !! x.1 = None) (h_blocks h').

Lemma fresh_blocks_Some h h' b m :
  fresh_blocks h h' !! b = Some m <-> h_blocks h' !! b = Some m /\ h_blocks h !! b = None.
Proof. unfold fresh_blocks. by rewrite map_lookup_filter_Some. Qed.

Section Beside.
Context {W : Type} {HC : Clock W} {HS : Sockets W} {HP : Poll W} {HL : NetworkLaws W}.

Abbreviation net s := (world (s : cst W)).
Abbreviation with_heap s h := {| conn := conn s; hp := h; world := world s |}.

Lemma pools_ok_grow K h get h' :
  pools_ok K h get -> grown h h' -> pools_ok (K ∪ fresh_blocks h h') h' get.
Proof.
  intros Hok (Hh & _ & Hg). split; [done| |apply Hok|].
  - intros c p Hc. destruct (po_pool _ _ _ Hok c p Hc) as [Hp ?]. split; [|done].
    eapply pool_ok_frame; [done|]. intros b Hb. destruct (pool_blocks_live h p b Hp Hb) as [m Hm].
    rewrite Hm. by apply Hg.
  - intros b m [Hb|[_ Hb]]%lookup_union_Some_raw.
    + destruct (po_kept _ _ _ Hok b m Hb) as [Hm Hn]. split; [by apply Hg|done].
    + apply fresh_blocks_Some in Hb as [Hb Hn]. split; [done|]. intros c p Hc Hin.
      destruct (po_pool _ _ _ Hok c p Hc) as [Hp _]. destruct (pool_blocks_live h p b Hp Hin). congruence.
Qed.

Lemma reading_grow rel K fm B acc (s : cst W) h' :
  reading rel K fm B acc s -> grown (hp s) h' -> reading rel (K ∪ fresh_blocks (hp s) h') fm B acc (with_heap s h').
Proof.
  intros [[Ht Hp Hrel Hfm] Hb HB Hroom Hrd] Hg. split; try done.
  - split; try done; [by apply pools_ok_grow|]. intros Hr. destruct Hg as (_ & Hl & _). by apply Hl, Hrel.
  - destruct Hrd as (Hh & Ho & Hrd). split_and!; [done|done|]. simpl.
    destruct (zlen acc <? 7); [done|]. destruct Hrd as (Hst & Hlt & p & x & pool & Hin & Hgt & Hpb & Hx & Hrest).
    split_and!; [done|done|]. exists p, x, pool. split_and!; try done; [by apply Hg|by apply Hrest..].
Qed.

Lemma resting_kept K0 fm R fs (s : cst W) b m : resting K0 fm R fs s -> K0 !! b = Some m -> h_blocks (hp s) !! b = Some m.
Proof.
  intros (K & B & pend & p & buf & <- & Hs & _) [_ Hb]%lookup_delete_Some.
  by apply (po_kept _ _ _ (cm_pools _ _ _ _ (takes_mem _ _ _ _ _ _ _ (he_reading _ _ _ _ _ _ _ _ _ _ Hs)))).
Qed.

Lemma resting_memory K0 fm R fs (s : cst W) : resting K0 fm R fs s -> heap_ok (hp s) /\ reliable (hp s).
Proof.
  intros (K & B & pend & p & buf & _ & Hs & _). destruct (takes_reading _ _ _ _ _ _ (he_reading _ _ _ _ _ _ _ _ _ _ Hs)) as [[_ Hp Hrel _] _ _ _ _].
  split; [apply Hp|by apply Hrel].
Qed.

Lemma resting_grow K0 fm R fs (s : cst W) h' :
  resting K0 fm R fs s -> grown (hp s) h' -> resting (K0 ∪ fresh_blocks (hp s) h') fm R fs (with_heap s h').
Proof.
  intros (K & B & pend & p & buf & <- & Hs & HB & HR) Hg. exists (K ∪ fresh_blocks (hp s) h'), B, pend, p, buf.
  pose proof (he_kept _ _ _ _ _ _ _ _ _ _ Hs) as Hk.
  assert (Hp : fresh_blocks (hp s) h' !! p_block p = None).
  { apply eq_None_not_Some. intros [m [_ Hn]%fresh_blocks_Some].
    destruct (po_kept _ _ _ (cm_pools _ _ _ _ (takes_mem _ _ _ _ _ _ _ (he_reading _ _ _ _ _ _ _ _ _ _ Hs))) _ _ Hk). congruence. }
  split_and!; [rewrite delete_union, (delete_id (fresh_blocks _ _)) by done; done| |done|done].
  destruct Hs. split; try done; [left; apply reading_grow; [by eapply takes_reading|done]|]. by apply lookup_union_Some_l.
Qed.

Lemma resting_store K0 fm R fs (s : cst W) b m m' :
  resting K0 fm R fs s -> K0 !! b = Some m -> zlen m' = zlen m ->
  resting (<[b := m']> K0) fm R fs (with_heap s (set_blocks (<[b := m']> (h_blocks (hp s))) (hp s))).
Proof.
  intros (K & B & pend & p & buf & <- & Hs & HB & HR) [Hne Hb]%lookup_delete_Some Hz.
  exists (<[b := m']> K), B, pend, p, buf. split_and!; [by rewrite delete_insert_ne| |done|done].
  eapply hears_sent; [exact Hs|exact Hb|congruence|done|done|done|apply Hs|apply Hs|done].
Qed.
End Beside.
