(* ===== verification/ConsumerTheorems.v ===== *)
(** * Theorems about reading messages *)

From S2P Require Import Prelude Machine Status Alloc Codec Table TableEncode TableDecode TableClone TableTheorems Framing Methods MethodDecode MethodEncode MethodWire MethodTheorems Properties PropertiesTheory PropertiesTheorems Mem MemTheory PoolTheorems PoolTable Time Frame FrameTheorems Connection ParserTheory ParserTheorems Greeting ConnectionTheorems Socket Network Scripted Inbox Outbox FrameQueue RpcTheory RpcTheorems Api ApiTheorems Consumer ConsumerTheory.

(** ** A body in pieces *)

Definition fragment_frame (ch : Z) (b : amqp_bytes_t) : amqp_frame_t :=
  {| frame_type := AMQP_FRAME_BODY; channel := ch; payload := PL_body_fragment b |}.

(** The fragments of a body, each with the frames of other channels that arrive
    before it. *)
Abbreviation interleaving := (list (list amqp_frame_t * amqp_bytes_t)).

Definition stream_of (ch : Z) (segs : interleaving) : list amqp_frame_t :=
  concat (map (fun g => g.1 ++ [fragment_frame ch g.2]) segs).
Definition body_of (segs : interleaving) : list Z := concat (map (fun g => contents g.2) segs).
Definition others_of (segs : interleaving) : list amqp_frame_t := concat (map fst segs).

Definition elsewhere (ch : Z) (f : amqp_frame_t) : Prop := is_heartbeat f = true \/ channel f <> ch.
Definition fragments_ok (ch : Z) (segs : interleaving) : Prop :=
  Forall (fun g => Forall (elsewhere ch) g.1 /\ contents g.2 <> []) segs.

Lemma body_of_app a b : body_of (a ++ b) = body_of a ++ body_of b.
Proof. unfold body_of. by rewrite map_app, concat_app. Qed.
Lemma others_of_app a b : others_of (a ++ b) = others_of a ++ others_of b.
Proof. unfold others_of. by rewrite map_app, concat_app. Qed.

Section Read.
Context {W : Type} {HC : Clock W} {HS : Sockets W} {HP : Poll W} {HL : NetworkLaws W} {HH : Host}.
Context (uninit : amqp_basic_properties_t) (fuel : nat).

Abbreviation net s := (world (s : cst W)).
Abbreviation with_heap s h := {| conn := conn s; hp := h; world := world s |}.

Lemma kept_frames_trans a b (s s1 s2 : cst W) :
  kept_frames uninit a s s1 -> kept_frames uninit b s1 s2 -> kept_frames uninit (a ++ b) s s2.
Proof.
  intros (Ha & Hn & Hq) (Ha2 & Hn2 & Hq2). unfold kept_frames. rewrite heard_app, app_assoc. split_and!; congruence.
Qed.

Lemma kept_frames_nil (s : cst W) : kept_frames uninit [] s s.
Proof. split_and!; [done|done|]. unfold heard. simpl. by rewrite app_nil_r. Qed.

Lemma heard_elsewhere ch fs : Forall (elsewhere ch) fs -> Forall (fun g => channel g <> ch) (heard uninit fs).
Proof.
  induction 1 as [|f fs Hf _ IH]; [constructor|]. unfold heard in *. simpl. destruct (is_heartbeat f) eqn:E; simpl; [done|].
  constructor; [|done]. destruct Hf; [congruence|done].
Qed.

Lemma others_elsewhere ch segs : fragments_ok ch segs -> Forall (elsewhere ch) (others_of segs).
Proof.
  induction 1 as [|g segs [Hg _] _ IH]; [constructor|]. unfold others_of in *. simpl. by apply Forall_app.
Qed.

(** The memory of a body: nothing for an empty one. *)
Definition holder (K : gmap Z (list Z)) (body : heap_bytes) (m : list Z) : Prop :=
  match hb_bytes body with Some p => p_off p = 0 /\ K !! p_block p = Some m | None => m = [] end.

(** Every other kept block is as before. *)
Definition spares (body : heap_bytes) (K K' : gmap Z (list Z)) : Prop :=
  forall b x, K !! b = Some x -> (forall p, hb_bytes body = Some p -> b <> p_block p) -> K' !! b = Some x.

(** Copying one fragment. *)
Lemma wp_store_fragment K fm R fs (s : cst W) body p m off c :
  resting K fm R fs s -> hb_bytes body = Some p -> holder K body m -> 0 <= off -> off + zlen c <= zlen m ->
  wp (let* bs := on_mem (memcpy_source (view c)) in
      on_mem (heap_store {| p_block := p_block p; p_off := p_off p + off |} bs))
    (fun _ s' => exists h, s' = with_heap s h /\ let m' := overwrite off c m in
       resting (<[p_block p := m']> K) fm R fs s' /\ holder (<[p_block p := m']> K) body m' /\ zlen m' = zlen m)
    (fun _ _ => False) s.
Proof.
  intros Hs Hp Hm Ho Hfit. unfold holder in *. rewrite Hp in *. destruct Hm as [Hp0 Hm].
  pose proof (resting_kept _ _ _ _ _ _ _ Hs Hm) as Hb. pose proof (zlen_nonneg c).
  assert (Hz : zlen (overwrite off c m) = zlen m) by (apply zlen_overwrite; lia).
  unfold wp, bind, on_mem, memcpy_source. simpl. rewrite load_Some by lia. rewrite slice_full.
  unfold heap_store. simpl. rewrite Hb, Hp0. rewrite store_Some by lia. simpl.
  eexists. split; [done|]. split_and!; [by apply resting_store with (m := m)|done|by rewrite lookup_insert_eq|done].
Qed.

Lemma fragment_frame_live ch b : is_heartbeat (fragment_frame ch b) = false.
Proof. done. Qed.

(** One round of the loop. *)
Lemma wp_read_fragment K fm R ch pre b rest (s : cst W) body p m off :
  resting K fm R (pre ++ fragment_frame ch b :: rest) s -> Forall (elsewhere ch) pre ->
  Forall (fun g => channel g <> ch) (queued_frames (conn s)) -> (effort s < fuel)%nat ->
  hb_bytes body = Some p -> holder K body m -> zlen m = hb_len body -> hb_len body <= PTRDIFF_MAX ->
  0 <= off -> off + zlen (contents b) <= hb_len body ->
  wp (read_fragment uninit fuel ch body off)
    (fun r s' => r = inl (off + zlen (contents b)) /\ kept_frames uninit pre s s' /\ (effort s' < effort s)%nat /\
       exists K', resting K' fm (R + 2) rest s' /\ holder K' body (overwrite off (contents b) m) /\ spares body K K')
    (fun _ _ => False) s.
Proof.
  intros Hs Hpre Hq Hfuel Hp Hm Hzm Hmax Ho Hfit. pose proof (zlen_nonneg (contents b)).
  apply wp_bind, wp_try. wp_use wp_wait_channel; [by apply resting_listening|exact Hpre|done|done|done|done| |done].
  intros r s1 (-> & Hk & Hs1 & Hef). simpl. rewrite Hp.
  rewrite size_t_small by (unfold PTRDIFF_MAX in Hmax; lia). rewrite (proj2 (Z.ltb_ge _ _)) by lia.
  apply wp_bind. wp_use (wp_store_fragment K fm (R + 2) rest s1 body p m off (contents b)); [done|done|done|done|lia| |done].
  intros _ s2 (h & -> & Hs2 & Hm2 & _). apply wp_ret. split_and!; [done|done|done|].
  eexists. split_and!; [done|done|]. intros b' x Hb' Hne. rewrite lookup_insert_ne; [done|]. intros <-. by apply (Hne p).
Qed.

(** The loop. *)
Lemma wp_read_body K fm R ch segs post (s : cst W) body m :
  resting K fm R (stream_of ch segs ++ post) s -> fragments_ok ch segs ->
  Forall (fun g => channel g <> ch) (queued_frames (conn s)) -> (effort s < fuel)%nat ->
  hb_len body = zlen (body_of segs) -> hb_len body <= PTRDIFF_MAX -> holder K body m -> zlen m = hb_len body ->
  wp (read_body uninit fuel ch body) (fun r s' => r = normal_reply /\ kept_frames uninit (others_of segs) s s' /\
      exists K' R', R <= R' /\ resting K' fm R' post s' /\ holder K' body (body_of segs) /\ spares body K K')
    (fun _ _ => False) s.
Proof.
  intros Hs Hok Hq Hfuel Hlen Hmax Hm Hzm. unfold read_body.
  eapply (wp_iter _ (fun off s1 => exists seen todo K1 R1 m1, segs = seen ++ todo /\ off = zlen (body_of seen) /\
      R <= R1 /\ resting K1 fm R1 (stream_of ch todo ++ post) s1 /\ holder K1 body m1 /\ zlen m1 = hb_len body /\
      slice 0 off m1 = body_of seen /\ kept_frames uninit (others_of seen) s s1 /\ (effort s1 <= effort s)%nat /\
      spares body K K1)
    (fun _ s1 => effort s1)); [| |done].
  2: { exists [], segs, K, R, m. split_and!; try done; [apply kept_frames_nil|by intros b x]. }
  intros off s1 (seen & todo & K1 & R1 & m1 & -> & -> & HR & Hs1 & Hm1 & Hz1 & Hsl & Hk & Hef & Hsp).
  rewrite body_of_app, zlen_app in Hlen. destruct todo as [|[pre b] todo].
  - change (zlen (body_of [])) with 0 in Hlen. rewrite (proj2 (Z.ltb_ge _ _)) by lia. apply wp_ret.
    rewrite app_nil_r. split_and!; [done|done|]. exists K1, R1. split_and!; [done|done| |done].
    rewrite <- Hsl. replace (zlen (body_of seen)) with (zlen m1) by lia. by rewrite slice_full.
  - apply Forall_app in Hok as [Hok1 Hok2]. apply Forall_cons in Hok2 as [[Hpre Hne] Hok2]. simpl in Hpre, Hne.
    change (body_of ((pre, b) :: todo)) with (contents b ++ body_of todo) in Hlen. rewrite zlen_app in Hlen.
    pose proof (zlen_nonneg (body_of seen)). pose proof (zlen_nonneg (body_of todo)).
    assert (0 < zlen (contents b)) by (destruct (contents b); [done|unfold zlen; simpl; lia]).
    rewrite (proj2 (Z.ltb_lt _ _)) by lia.
    destruct (hb_bytes body) as [p|] eqn:Hp; [|unfold holder in Hm1; rewrite Hp in Hm1; subst m1; change (zlen []) with 0 in Hz1; lia].
    wp_use (wp_read_fragment K1 fm R1 ch pre b (stream_of ch todo ++ post) s1 body p m1); try done; try lia.
    + unfold stream_of in *. simpl in Hs1. by rewrite <- !app_assoc in Hs1.
    + destruct Hk as (_ & _ & ->). apply Forall_app. split; [done|]. by apply heard_elsewhere, others_elsewhere.
    + intros r s2 (-> & Hk2 & Hef2 & K2 & Hs2 & Hm2 & Hsp2). split; [|lia].
      exists (seen ++ [(pre, b)]), todo, K2, (R1 + 2), (overwrite (zlen (body_of seen)) (contents b) m1).
      assert (Hb : body_of (seen ++ [(pre, b)]) = body_of seen ++ contents b).
      { rewrite body_of_app. f_equal. apply app_nil_r. }
      assert (Hoth : others_of (seen ++ [(pre, b)]) = others_of seen ++ pre).
      { rewrite others_of_app. f_equal. apply app_nil_r. }
      rewrite Hb, Hoth, <- app_assoc.
      split_and!; [done|by rewrite zlen_app|lia|done|done|rewrite zlen_overwrite; lia| |by eapply kept_frames_trans|lia
        |intros b' x Hb' Hnot; by apply Hsp2; [apply Hsp|]].
      rewrite (slice_split 0 (zlen (body_of seen))) by lia.
      rewrite slice_overwrite_before by lia. rewrite Hsl, Z.add_0_l, slice_overwrite_same by lia. done.
Qed.

(** ** Properties and body in memory of the application *)

Lemma wp_in_pool {A} pool (m : C pstate A) Q E (s : cst W) :
  wp m (fun a p => Q (a, ps_pool p) (with_heap s (ps_heap p))) (fun e p => E e (with_heap s (ps_heap p)))
    {| ps_heap := hp s; ps_pool := pool |} ->
  wp (in_pool pool m) Q E s.
Proof. unfold wp, in_pool. by destruct (m _). Qed.

(** Copying the properties of a received header. *)
Lemma wp_clone_properties p (s : cst W) :
  heap_ok (hp s) -> reliable (hp s) -> copyable_properties p -> accepted_properties p ->
  requests_properties p <= INT32_MAX ->
  wp (in_pool (init_amqp_pool 4096) (try_ (amqp_basic_properties_clone (P_BASIC p))))
    (fun '(r, pool) s' => exists p' h, r = inr p' /\ s' = with_heap s h /\
       norm_basic default_properties p' = norm_basic default_properties p /\
       grown (hp s) h /\ pool_ok h pool /\ (forall b, b ∈ pool_blocks pool -> h_blocks (hp s) !! b = None))
    (fun _ _ => False) s.
Proof.
  intros Hok Hrel Hc Ha Hreq. apply wp_in_pool, wp_try.
  set (st := {| ps_heap := hp s; ps_pool := init_amqp_pool 4096 |}).
  assert (Hi : framed_inv (h_blocks (hp s)) st).
  { split; [split_and!; [done|by apply init_ok|by vm_compute]|]. intros b m Hb. split; [done|]. by apply not_elem_of_nil. }
  wp_use (copies_properties (HL := framed_laws (h_blocks (hp s))) p Hc st); [done|exact Hreq| |].
  - intros p' s' (Hn & [(Hh & Hp & _) Hout] & _ & _ & Hr). exists p', (ps_heap s').
    split_and!; try done; [by split; [|split; [|intros b m Hb; apply Hout]]|].
    intros b Hb. apply eq_None_not_Some. intros [m Hm]. by destruct (Hout b m Hm).
  - intros e s' (_ & Hno & _). by destruct Hno.
Qed.

(** Memory for the body. *)
Lemma wp_body_memory n (s : cst W) :
  heap_ok (hp s) -> reliable (hp s) -> 0 <= n <= PTRDIFF_MAX ->
  wp (if n =? 0 then ret no_bytes else on_mem (amqp_bytes_malloc (size_t n)))
    (fun body s' => exists h m, s' = with_heap s h /\ grown (hp s) h /\ hb_len body = n /\ zlen m = n /\
       match hb_bytes body with
       | Some p => p_off p = 0 /\ h_blocks h !! p_block p = Some m /\ h_blocks (hp s) !! p_block p = None /\ n <> 0
       | None => m = [] /\ n = 0
       end) (fun _ _ => False) s.
Proof.
  intros Hok Hrel Hn. destruct (Z.eqb_spec n 0) as [->|Hne].
  - apply wp_ret. exists (hp s), []. split_and!; try done. by destruct s.
  - rewrite size_t_small by (unfold PTRDIFF_MAX in Hn; lia).
    destruct (heap_alloc_granted n (junk (h_env (hp s)) (h_count (hp s))) (hp s) Hok Hrel Hn)
      as (p & h' & m & Hrun & Hok' & Hrel' & Hoff & Hfresh & Hz & Hb).
    unfold wp, on_mem, amqp_bytes_malloc, bind, c_malloc. rewrite Hrun. simpl.
    exists h', m. rewrite Hb. split_and!; try done.
    + split_and!; [done|done|]. intros b x Hx. rewrite Hb, lookup_insert_ne; [done|congruence].
    + by rewrite lookup_insert_eq.
Qed.

(** ** Giving a message back *)

Lemma wp_destroy_message msg h :
  heap_ok h -> pool_ok h (message_pool msg) ->
  (forall p, hb_bytes (message_body msg) = Some p -> p_off p = 0 /\ is_Some (h_blocks h !! p_block p) /\
     p_block p ∉ pool_blocks (message_pool msg)) ->
  wp (amqp_destroy_message msg) (fun _ _ => True) (fun _ _ => False) h.
Proof.
  intros Hok Hp Hb. unfold amqp_destroy_message. apply wp_bind. wp_use (wp_empty h); [done|done| |done].
  intros pool' h' (_ & Hok' & _ & _ & Hsame). apply wp_bind. unfold amqp_bytes_free.
  destruct (hb_bytes (message_body msg)) as [p|]; [|done].
  destruct (Hb p eq_refl) as (Hoff & [m Hm] & Hn). wp_use (wp_free p (zlen m)); [done|done| |done|done].
  exists m. split; [|done]. rewrite Hsame; [done|]. intros Hin. apply Hn. unfold pool_blocks. by apply elem_of_app; left.
Qed.

(** The message that [read_content] returns. *)
Record message_read (s : cst W) (msg : amqp_message_t) (p : amqp_basic_properties_t) (body : list Z) : Prop := {
  mr_properties : norm_basic default_properties (message_properties msg) = norm_basic default_properties p;
  mr_length : hb_len (message_body msg) = zlen body;
  mr_body : match hb_bytes (message_body msg) with
            | Some q => p_off q = 0 /\ h_blocks (hp s) !! p_block q = Some body
            | None => body = []
            end;
  mr_destroy : wp (amqp_destroy_message msg) (fun _ _ => True) (fun _ _ => False) (hp s)
}.

Lemma wp_read_content K fm R ch rp segs post (s : cst W) :
  resting K fm R (stream_of ch segs ++ post) s -> fragments_ok ch segs ->
  Forall (fun g => channel g <> ch) (queued_frames (conn s)) -> (effort s < fuel)%nat ->
  copyable_properties rp -> accepted_properties rp -> requests_properties rp <= INT32_MAX ->
  zlen (body_of segs) <= PTRDIFF_MAX ->
  wp (read_content uninit fuel ch (zlen (body_of segs)) (P_BASIC rp)) (fun '(r, msg) s' =>
      r = normal_reply /\ message_read s' msg rp (body_of segs) /\ kept_frames uninit (others_of segs) s s' /\
      exists K' R', R <= R' /\ resting K' fm R' post s') (fun _ _ => False) s.
Proof.
  intros Hs Hok Hq Hfuel Hc Ha Hreq Hmax. pose proof (zlen_nonneg (body_of segs)).
  unfold read_content. destruct (resting_memory _ _ _ _ _ Hs) as [Hh0 Hr0].
  apply wp_bind. wp_use wp_clone_properties; [done|done|done|done|done| |done].
  intros [r pool] s1 (p' & h1 & -> & -> & Hn & Hg1 & Hp1 & Hnew1). apply wp_bind.
  pose proof (resting_grow _ _ _ _ _ _ Hs Hg1) as Hs1. destruct (resting_memory _ _ _ _ _ Hs1) as [Hh1 Hr1].
  wp_use (wp_body_memory (zlen (body_of segs))); [done|done|lia| |done].
  intros body s2 (h2 & m & -> & Hg2 & Hlen & Hzm & Hb). simpl in Hg2, Hb. cbv zeta.
  pose proof (resting_grow _ _ _ _ _ _ Hs1 Hg2) as Hs2. simpl in Hs2.
  set (K2 := (K ∪ fresh_blocks (hp s) h1) ∪ fresh_blocks h1 h2) in *.
  assert (Hold : forall b x, (K ∪ fresh_blocks (hp s) h1) !! b = Some x -> K2 !! b = Some x).
  { intros b x Hx. by apply lookup_union_Some_l. }
  assert (Hm2 : holder K2 body m).
  { unfold holder. destruct (hb_bytes body) as [q|]; [|by destruct Hb]. destruct Hb as (Hoff & Hq2 & Hq1 & _). split; [done|].
    apply lookup_union_Some_raw. right. split; [|by apply fresh_blocks_Some].
    apply eq_None_not_Some. intros [x Hx]. pose proof (resting_kept _ _ _ _ _ _ _ Hs1 Hx) as Hx'. simpl in Hx'. congruence. }
  assert (Htest : negb (zlen (body_of segs) =? 0) && match hb_bytes body with None => true | Some _ => false end = false).
  { destruct (hb_bytes body); [by rewrite andb_false_r|]. by destruct Hb as [_ ->]. }
  rewrite Htest. apply wp_bind. wp_use (wp_read_body K2 fm R ch segs post); [exact Hs2|done|done|done|done|lia|done|lia| |done].
  intros r s3 (-> & Hk & K3 & R3 & HR & Hs3 & Hm3 & Hsp). simpl. apply wp_ret.
  destruct (resting_memory _ _ _ _ _ Hs3) as [Hh3 _].
  split_and!; [done| |done|by exists K3, R3]. split; simpl; [done|done| |].
  - unfold holder in Hm3. destruct (hb_bytes body) as [q|]; [|done]. destruct Hm3 as [? Hm3]. split; [done|].
    by eapply resting_kept.
  - apply wp_destroy_message; simpl; [done| |].
    + eapply pool_ok_frame; [exact Hp1|]. intros b Hbp. destruct (pool_blocks_live h1 pool b Hp1 Hbp) as [x Hx].
      rewrite Hx. eapply resting_kept; [exact Hs3|]. apply Hsp.
      * apply Hold, lookup_union_Some_raw. right. split; [|by apply fresh_blocks_Some; auto].
        apply eq_None_not_Some. intros [y Hy]. pose proof (resting_kept _ _ _ _ _ _ _ Hs Hy) as Hy'. rewrite Hnew1 in Hy'; done.
      * intros q Hq' ->. rewrite Hq' in Hb. destruct Hb as (_ & _ & Hb & _). congruence.
    + intros q Hq'. unfold holder in Hm3. rewrite Hq' in Hb, Hm3. destruct Hm3 as [Hoff Hm3]. split_and!; [done| |].
      * eexists. by eapply resting_kept.
      * intros Hin. destruct (pool_blocks_live h1 pool _ Hp1 Hin). destruct Hb as (_ & _ & Hb & _). congruence.
Qed.

(** C5: reading a message gives back what was published.  On a healthy connection
    without heartbeat timers, when the stream brings a content header of the
    basic class on the channel and then, mixed with frames of other channels and
    heartbeats, non-empty body frames of the size the header announces, the call
    [amqp_read_message] returns normally with a message that has the flags and
    the members of the header and a body that is the concatenation of the
    fragments; the other frames are queued in order; the connection goes on
    listening to what comes next; and the message can be destroyed. *)
Theorem read_message_exact K0 fm R ch pre raw p segs post (s : cst W) :
  let hdr := {| frame_type := AMQP_FRAME_HEADER; channel := ch;
                payload := PL_properties AMQP_BASIC_CLASS (zlen (body_of segs)) (P_BASIC p) raw |} in
  listening K0 fm R (pre ++ hdr :: stream_of ch segs ++ post) s ->
  Forall (elsewhere ch) pre -> fragments_ok ch segs ->
  Forall (fun g => channel g <> ch) (queued_frames (conn s)) -> (effort s < fuel)%nat ->
  copyable_properties p -> accepted_properties p -> requests_properties p <= INT32_MAX ->
  zlen (body_of segs) <= PTRDIFF_MAX ->
  wp (amqp_read_message uninit fuel ch) (fun '(r, msg) s' =>
      r = normal_reply /\ message_read s' msg p (body_of segs) /\
      queued_frames (conn s') = queued_frames (conn s) ++ heard uninit (pre ++ others_of segs) /\
      n_sent (net s') = n_sent (net s) /\
      exists K' R', R <= R' /\ listening K' fm R' post s') (fun _ _ => False) s.
Proof.
  intros hdr Hs Hpre Hok Hq Hfuel Hc Ha Hreq Hmax. destruct (copyable_received uninit p Hc Ha) as (Hc' & Ha' & Hr').
  unfold amqp_read_message. apply wp_bind, wp_try.
  wp_use wp_wait_channel; [exact Hs|exact Hpre|done|done|done|done| |done].
  intros r s1 (-> & Hk & Hs1 & Hef). cbn [negb received frame_type payload Z.eqb hdr norm_properties].
  wp_use (wp_read_content K0 fm (R + 2) ch (norm_basic uninit p) segs post s1); try done; [|lia|by rewrite Hr'|].
  - destruct Hk as (_ & _ & ->). apply Forall_app. split; [done|]. by apply heard_elsewhere.
  - intros [r msg] s2 (-> & [Hn Hl Hb Hd] & Hk2 & K' & R' & HR & Hs2).
    destruct (kept_frames_trans _ _ _ _ _ Hk Hk2) as (_ & Hse & Hqu).
    split_and!; [done| |done|done|exists K', R'; split; [lia|by apply resting_listening]].
    split; [by rewrite Hn, norm_basic_twice|done..].
Qed.
End Read.

(** ** Examples *)

#[local] Existing Instance little_endian.

Definition message_header : amqp_basic_properties_t :=
  {| basic__flags := Z.lor AMQP_BASIC_CONTENT_TYPE_FLAG (Z.lor AMQP_BASIC_HEADERS_FLAG AMQP_BASIC_DELIVERY_MODE_FLAG);
     basic_content_type := view [116; 47; 112]; basic_content_encoding := amqp_empty_bytes;
     basic_headers := [(view [107], FV_I16 (-2))]; basic_delivery_mode := 2; basic_priority := 0;
     basic_correlation_id := amqp_empty_bytes; basic_reply_to := amqp_empty_bytes;
     basic_expiration := amqp_empty_bytes; basic_message_id := amqp_empty_bytes; basic_timestamp := 0;
     basic_type := amqp_empty_bytes; basic_user_id := amqp_empty_bytes; basic_app_id := amqp_empty_bytes;
     basic_cluster_id := amqp_empty_bytes |}.

Definition message_segs : interleaving :=
  [([sample_other], view [1; 2; 3]); ([sample_heartbeat], view [4]); ([], view [5; 6])].

Definition message_stream : list amqp_frame_t :=
  content_header 1 6 message_header :: stream_of 1 message_segs ++ [].

Lemma message_stream_acceptable : Forall (acceptable 4096) message_stream.
Proof.
  repeat apply Forall_cons_2; [| | | | | |constructor].
  2-6: split; [|by vm_compute]; split; [by vm_compute|]; split; [repeat constructor; by vm_compute|done].
  split; [|by vm_compute]. split; [by vm_compute|]. split; [repeat constructor; by vm_compute|].
  split; [done|]. split; [done|]. split; [by vm_compute|]. split; [by vm_compute|].
  split; [by vm_compute|]. split; repeat constructor; by vm_compute.
Qed.

Lemma message_listening : listening open_kept 4096 1000 message_stream (connected message_stream).
Proof.
  apply connected_listening; [apply message_stream_acceptable|repeat constructor; by vm_compute|by vm_compute].
Qed.

Lemma message_copyable : copyable_properties message_header.
Proof.
  split; [repeat (apply Forall_cons_2; [intros _; by vm_compute|]); constructor|]. intros _. split; [by vm_compute|]. repeat constructor; by vm_compute.
Qed.

Lemma read_message_exact_witness :
  exists msg s', amqp_read_message blank_properties 200 1 (connected message_stream) = Ret (normal_reply, msg) s' /\
    message_read s' msg message_header [1; 2; 3; 4; 5; 6].
Proof.
  unshelve epose proof (read_message_exact blank_properties 200 _ 4096 1000 1 [] amqp_empty_bytes message_header message_segs []
    (connected message_stream) message_listening (Forall_nil_2 _) _ (Forall_nil_2 _) _ message_copyable _ _ _) as Hw.
  - repeat apply Forall_cons_2; [| | |constructor]; (split; [|done]).
    + apply Forall_cons_2; [by right|constructor].
    + apply Forall_cons_2; [by left|constructor].
    + constructor.
  - apply Nat.ltb_lt; by vm_compute.
  - intros _. repeat constructor; by vm_compute.
  - by vm_compute.
  - by vm_compute.
  - destruct (wp_run_ret _ _ _ Hw) as ([r msg] & s' & Hrun & -> & Hm & _). exists msg, s'. split; [exact Hrun|exact Hm].
Defined.
