(* ===== verification/Wrappers.v ===== *)
(** * Method wrappers: the end of [librabbitmq/amqp_framing.c]

    One function per synchronous method: it fills in the request and makes the
    remote procedure call.  The result is the pointer the wrapper returns, [None]
    for NULL; the cast of the wrapper to the structure of its reply is the subject
    of [wrapper_exact]. *)

From S2P Require Import Prelude Machine Status Alloc Codec Table Framing Methods MethodDecode MethodEncode Properties Mem MemTheory Time Frame Connection Socket.

Section Wrappers.
Context {W : Type} {HC : Clock W} {HS : Sockets W} {HP : Poll W} {HH : Host}.
Context (uninit : amqp_basic_properties_t).
Context (fuel : nat).
Abbreviation CC A := (C (cst W) A).

Definition amqp_connection_update_secret (ch : Z) (new_secret reason : amqp_bytes_t) :
    CC (option amqp_decoded_t) :=
  amqp_simple_rpc_decoded uninit fuel ch
    {| method_id := AMQP_CONNECTION_UPDATE_SECRET_METHOD;
       method_decoded := M_CONNECTION_UPDATE_SECRET
         {| connection_update_secret_new_secret := new_secret;
            connection_update_secret_reason := reason |} |}
    AMQP_CONNECTION_UPDATE_SECRET_OK_METHOD.

Definition amqp_channel_open (ch : Z) : CC (option amqp_decoded_t) :=
  amqp_simple_rpc_decoded uninit fuel ch
    {| method_id := AMQP_CHANNEL_OPEN_METHOD;
       method_decoded := M_CHANNEL_OPEN
         {| channel_open_out_of_band := amqp_empty_bytes |} |}
    AMQP_CHANNEL_OPEN_OK_METHOD.

Definition amqp_channel_flow (ch : Z) (active : Z) : CC (option amqp_decoded_t) :=
  amqp_simple_rpc_decoded uninit fuel ch
    {| method_id := AMQP_CHANNEL_FLOW_METHOD;
       method_decoded := M_CHANNEL_FLOW
         {| channel_flow_active := active |} |}
    AMQP_CHANNEL_FLOW_OK_METHOD.

Definition amqp_exchange_declare (ch : Z) (exchange type : amqp_bytes_t)
    (passive durable auto_delete internal : Z) (arguments : amqp_table_t) :
    CC (option amqp_decoded_t) :=
  amqp_simple_rpc_decoded uninit fuel ch
    {| method_id := AMQP_EXCHANGE_DECLARE_METHOD;
       method_decoded := M_EXCHANGE_DECLARE
         {| exchange_declare_ticket := 0; exchange_declare_exchange := exchange;
            exchange_declare_type := type; exchange_declare_passive := passive;
            exchange_declare_durable := durable; exchange_declare_auto_delete := auto_delete;
            exchange_declare_internal := internal; exchange_declare_nowait := 0;
            exchange_declare_arguments := arguments |} |}
    AMQP_EXCHANGE_DECLARE_OK_METHOD.

Definition amqp_exchange_delete (ch : Z) (exchange : amqp_bytes_t) (if_unused : Z) :
    CC (option amqp_decoded_t) :=
  amqp_simple_rpc_decoded uninit fuel ch
    {| method_id := AMQP_EXCHANGE_DELETE_METHOD;
       method_decoded := M_EXCHANGE_DELETE
         {| exchange_delete_ticket := 0; exchange_delete_exchange := exchange;
            exchange_delete_if_unused := if_unused; exchange_delete_nowait := 0 |} |}
    AMQP_EXCHANGE_DELETE_OK_METHOD.

Definition amqp_exchange_bind (ch : Z) (destination source routing_key : amqp_bytes_t)
    (arguments : amqp_table_t) : CC (option amqp_decoded_t) :=
  amqp_simple_rpc_decoded uninit fuel ch
    {| method_id := AMQP_EXCHANGE_BIND_METHOD;
       method_decoded := M_EXCHANGE_BIND
         {| exchange_bind_ticket := 0; exchange_bind_destination := destination;
            exchange_bind_source := source; exchange_bind_routing_key := routing_key;
            exchange_bind_nowait := 0; exchange_bind_arguments := arguments |} |}
    AMQP_EXCHANGE_BIND_OK_METHOD.

Definition amqp_exchange_unbind (ch : Z) (destination source routing_key : amqp_bytes_t)
    (arguments : amqp_table_t) : CC (option amqp_decoded_t) :=
  amqp_simple_rpc_decoded uninit fuel ch
    {| method_id := AMQP_EXCHANGE_UNBIND_METHOD;
       method_decoded := M_EXCHANGE_UNBIND
         {| exchange_unbind_ticket := 0; exchange_unbind_destination := destination;
            exchange_unbind_source := source; exchange_unbind_routing_key := routing_key;
            exchange_unbind_nowait := 0; exchange_unbind_arguments := arguments |} |}
    AMQP_EXCHANGE_UNBIND_OK_METHOD.

Definition amqp_queue_declare (ch : Z) (queue : amqp_bytes_t)
    (passive durable exclusive auto_delete : Z) (arguments : amqp_table_t) :
    CC (option amqp_decoded_t) :=
  amqp_simple_rpc_decoded uninit fuel ch
    {| method_id := AMQP_QUEUE_DECLARE_METHOD;
       method_decoded := M_QUEUE_DECLARE
         {| queue_declare_ticket := 0; queue_declare_queue := queue;
            queue_declare_passive := passive; queue_declare_durable := durable;
            queue_declare_exclusive := exclusive; queue_declare_auto_delete := auto_delete;
            queue_declare_nowait := 0; queue_declare_arguments := arguments |} |}
    AMQP_QUEUE_DECLARE_OK_METHOD.

Definition amqp_queue_bind (ch : Z) (queue exchange routing_key : amqp_bytes_t)
    (arguments : amqp_table_t) : CC (option amqp_decoded_t) :=
  amqp_simple_rpc_decoded uninit fuel ch
    {| method_id := AMQP_QUEUE_BIND_METHOD;
       method_decoded := M_QUEUE_BIND
         {| queue_bind_ticket := 0; queue_bind_queue := queue; queue_bind_exchange := exchange;
            queue_bind_routing_key := routing_key; queue_bind_nowait := 0;
            queue_bind_arguments := arguments |} |}
    AMQP_QUEUE_BIND_OK_METHOD.

Definition amqp_queue_purge (ch : Z) (queue : amqp_bytes_t) : CC (option amqp_decoded_t) :=
  amqp_simple_rpc_decoded uninit fuel ch
    {| method_id := AMQP_QUEUE_PURGE_METHOD;
       method_decoded := M_QUEUE_PURGE
         {| queue_purge_ticket := 0; queue_purge_queue := queue; queue_purge_nowait := 0 |} |}
    AMQP_QUEUE_PURGE_OK_METHOD.

Definition amqp_queue_delete (ch : Z) (queue : amqp_bytes_t) (if_unused if_empty : Z) :
    CC (option amqp_decoded_t) :=
  amqp_simple_rpc_decoded uninit fuel ch
    {| method_id := AMQP_QUEUE_DELETE_METHOD;
       method_decoded := M_QUEUE_DELETE
         {| queue_delete_ticket := 0; queue_delete_queue := queue;
            queue_delete_if_unused := if_unused; queue_delete_if_empty := if_empty;
            queue_delete_nowait := 0 |} |}
    AMQP_QUEUE_DELETE_OK_METHOD.

Definition amqp_queue_unbind (ch : Z) (queue exchange routing_key : amqp_bytes_t)
    (arguments : amqp_table_t) : CC (option amqp_decoded_t) :=
  amqp_simple_rpc_decoded uninit fuel ch
    {| method_id := AMQP_QUEUE_UNBIND_METHOD;
       method_decoded := M_QUEUE_UNBIND
         {| queue_unbind_ticket := 0; queue_unbind_queue := queue;
            queue_unbind_exchange := exchange; queue_unbind_routing_key := routing_key;
            queue_unbind_arguments := arguments |} |}
    AMQP_QUEUE_UNBIND_OK_METHOD.

Definition amqp_basic_qos (ch : Z) (prefetch_size prefetch_count global : Z) :
    CC (option amqp_decoded_t) :=
  amqp_simple_rpc_decoded uninit fuel ch
    {| method_id := AMQP_BASIC_QOS_METHOD;
       method_decoded := M_BASIC_QOS
         {| basic_qos_prefetch_size := prefetch_size; basic_qos_prefetch_count := prefetch_count;
            basic_qos_global := global |} |}
    AMQP_BASIC_QOS_OK_METHOD.

Definition amqp_basic_consume (ch : Z) (queue consumer_tag : amqp_bytes_t)
    (no_local no_ack exclusive : Z) (arguments : amqp_table_t) : CC (option amqp_decoded_t) :=
  amqp_simple_rpc_decoded uninit fuel ch
    {| method_id := AMQP_BASIC_CONSUME_METHOD;
       method_decoded := M_BASIC_CONSUME
         {| basic_consume_ticket := 0; basic_consume_queue := queue;
            basic_consume_consumer_tag := consumer_tag; basic_consume_no_local := no_local;
            basic_consume_no_ack := no_ack; basic_consume_exclusive := exclusive;
            basic_consume_nowait := 0; basic_consume_arguments := arguments |} |}
    AMQP_BASIC_CONSUME_OK_METHOD.

Definition amqp_basic_cancel (ch : Z) (consumer_tag : amqp_bytes_t) :
    CC (option amqp_decoded_t) :=
  amqp_simple_rpc_decoded uninit fuel ch
    {| method_id := AMQP_BASIC_CANCEL_METHOD;
       method_decoded := M_BASIC_CANCEL
         {| basic_cancel_consumer_tag := consumer_tag; basic_cancel_nowait := 0 |} |}
    AMQP_BASIC_CANCEL_OK_METHOD.

Definition amqp_basic_recover (ch : Z) (requeue : Z) : CC (option amqp_decoded_t) :=
  amqp_simple_rpc_decoded uninit fuel ch
    {| method_id := AMQP_BASIC_RECOVER_METHOD;
       method_decoded := M_BASIC_RECOVER
         {| basic_recover_requeue := requeue |} |}
    AMQP_BASIC_RECOVER_OK_METHOD.

Definition amqp_tx_select (ch : Z) : CC (option amqp_decoded_t) :=
  amqp_simple_rpc_decoded uninit fuel ch
    {| method_id := AMQP_TX_SELECT_METHOD;
       method_decoded := M_TX_SELECT |}
    AMQP_TX_SELECT_OK_METHOD.

Definition amqp_tx_commit (ch : Z) : CC (option amqp_decoded_t) :=
  amqp_simple_rpc_decoded uninit fuel ch
    {| method_id := AMQP_TX_COMMIT_METHOD;
       method_decoded := M_TX_COMMIT |}
    AMQP_TX_COMMIT_OK_METHOD.

Definition amqp_tx_rollback (ch : Z) : CC (option amqp_decoded_t) :=
  amqp_simple_rpc_decoded uninit fuel ch
    {| method_id := AMQP_TX_ROLLBACK_METHOD;
       method_decoded := M_TX_ROLLBACK |}
    AMQP_TX_ROLLBACK_OK_METHOD.

Definition amqp_confirm_select (ch : Z) : CC (option amqp_decoded_t) :=
  amqp_simple_rpc_decoded uninit fuel ch
    {| method_id := AMQP_CONFIRM_SELECT_METHOD;
       method_decoded := M_CONFIRM_SELECT
         {| confirm_select_nowait := 0 |} |}
    AMQP_CONFIRM_SELECT_OK_METHOD.

(** [wraps ch m request reply_id]: [m] is the wrapper that sends [request] on
    channel [ch] and waits for [reply_id]. *)
Inductive wraps : Z -> CC (option amqp_decoded_t) -> amqp_decoded_t -> Z -> Prop :=
| wraps_connection_update_secret ch new_secret reason :
    wraps ch (amqp_connection_update_secret ch new_secret reason)
      (M_CONNECTION_UPDATE_SECRET
       {| connection_update_secret_new_secret := new_secret;
          connection_update_secret_reason := reason |})
      AMQP_CONNECTION_UPDATE_SECRET_OK_METHOD
| wraps_channel_open ch :
    wraps ch (amqp_channel_open ch)
      (M_CHANNEL_OPEN
       {| channel_open_out_of_band := amqp_empty_bytes |})
      AMQP_CHANNEL_OPEN_OK_METHOD
| wraps_channel_flow ch active :
    wraps ch (amqp_channel_flow ch active)
      (M_CHANNEL_FLOW
       {| channel_flow_active := active |})
      AMQP_CHANNEL_FLOW_OK_METHOD
| wraps_exchange_declare ch exchange type passive durable auto_delete internal arguments :
    wraps ch (amqp_exchange_declare ch exchange type passive durable auto_delete internal arguments)
      (M_EXCHANGE_DECLARE
       {| exchange_declare_ticket := 0; exchange_declare_exchange := exchange;
          exchange_declare_type := type; exchange_declare_passive := passive;
          exchange_declare_durable := durable; exchange_declare_auto_delete := auto_delete;
          exchange_declare_internal := internal; exchange_declare_nowait := 0;
          exchange_declare_arguments := arguments |})
      AMQP_EXCHANGE_DECLARE_OK_METHOD
| wraps_exchange_delete ch exchange if_unused :
    wraps ch (amqp_exchange_delete ch exchange if_unused)
      (M_EXCHANGE_DELETE
       {| exchange_delete_ticket := 0; exchange_delete_exchange := exchange;
          exchange_delete_if_unused := if_unused; exchange_delete_nowait := 0 |})
      AMQP_EXCHANGE_DELETE_OK_METHOD
| wraps_exchange_bind ch destination source routing_key arguments :
    wraps ch (amqp_exchange_bind ch destination source routing_key arguments)
      (M_EXCHANGE_BIND
       {| exchange_bind_ticket := 0; exchange_bind_destination := destination;
          exchange_bind_source := source; exchange_bind_routing_key := routing_key;
          exchange_bind_nowait := 0; exchange_bind_arguments := arguments |})
      AMQP_EXCHANGE_BIND_OK_METHOD
| wraps_exchange_unbind ch destination source routing_key arguments :
    wraps ch (amqp_exchange_unbind ch destination source routing_key arguments)
      (M_EXCHANGE_UNBIND
       {| exchange_unbind_ticket := 0; exchange_unbind_destination := destination;
          exchange_unbind_source := source; exchange_unbind_routing_key := routing_key;
          exchange_unbind_nowait := 0; exchange_unbind_arguments := arguments |})
      AMQP_EXCHANGE_UNBIND_OK_METHOD
| wraps_queue_declare ch queue passive durable exclusive auto_delete arguments :
    wraps ch (amqp_queue_declare ch queue passive durable exclusive auto_delete arguments)
      (M_QUEUE_DECLARE
       {| queue_declare_ticket := 0; queue_declare_queue := queue; queue_declare_passive := passive;
          queue_declare_durable := durable; queue_declare_exclusive := exclusive;
          queue_declare_auto_delete := auto_delete; queue_declare_nowait := 0;
          queue_declare_arguments := arguments |})
      AMQP_QUEUE_DECLARE_OK_METHOD
| wraps_queue_bind ch queue exchange routing_key arguments :
    wraps ch (amqp_queue_bind ch queue exchange routing_key arguments)
      (M_QUEUE_BIND
       {| queue_bind_ticket := 0; queue_bind_queue := queue; queue_bind_exchange := exchange;
          queue_bind_routing_key := routing_key; queue_bind_nowait := 0;
          queue_bind_arguments := arguments |})
      AMQP_QUEUE_BIND_OK_METHOD
| wraps_queue_purge ch queue :
    wraps ch (amqp_queue_purge ch queue)
      (M_QUEUE_PURGE
       {| queue_purge_ticket := 0; queue_purge_queue := queue; queue_purge_nowait := 0 |})
      AMQP_QUEUE_PURGE_OK_METHOD
| wraps_queue_delete ch queue if_unused if_empty :
    wraps ch (amqp_queue_delete ch queue if_unused if_empty)
      (M_QUEUE_DELETE
       {| queue_delete_ticket := 0; queue_delete_queue := queue;
          queue_delete_if_unused := if_unused; queue_delete_if_empty := if_empty;
          queue_delete_nowait := 0 |})
      AMQP_QUEUE_DELETE_OK_METHOD
| wraps_queue_unbind ch queue exchange routing_key arguments :
    wraps ch (amqp_queue_unbind ch queue exchange routing_key arguments)
      (M_QUEUE_UNBIND
       {| queue_unbind_ticket := 0; queue_unbind_queue := queue; queue_unbind_exchange := exchange;
          queue_unbind_routing_key := routing_key; queue_unbind_arguments := arguments |})
      AMQP_QUEUE_UNBIND_OK_METHOD
| wraps_basic_qos ch prefetch_size prefetch_count global :
    wraps ch (amqp_basic_qos ch prefetch_size prefetch_count global)
      (M_BASIC_QOS
       {| basic_qos_prefetch_size := prefetch_size; basic_qos_prefetch_count := prefetch_count;
          basic_qos_global := global |})
      AMQP_BASIC_QOS_OK_METHOD
| wraps_basic_consume ch queue consumer_tag no_local no_ack exclusive arguments :
    wraps ch (amqp_basic_consume ch queue consumer_tag no_local no_ack exclusive arguments)
      (M_BASIC_CONSUME
       {| basic_consume_ticket := 0; basic_consume_queue := queue;
          basic_consume_consumer_tag := consumer_tag; basic_consume_no_local := no_local;
          basic_consume_no_ack := no_ack; basic_consume_exclusive := exclusive;
          basic_consume_nowait := 0; basic_consume_arguments := arguments |})
      AMQP_BASIC_CONSUME_OK_METHOD
| wraps_basic_cancel ch consumer_tag :
    wraps ch (amqp_basic_cancel ch consumer_tag)
      (M_BASIC_CANCEL
       {| basic_cancel_consumer_tag := consumer_tag; basic_cancel_nowait := 0 |})
      AMQP_BASIC_CANCEL_OK_METHOD
| wraps_basic_recover ch requeue :
    wraps ch (amqp_basic_recover ch requeue)
      (M_BASIC_RECOVER
       {| basic_recover_requeue := requeue |})
      AMQP_BASIC_RECOVER_OK_METHOD
| wraps_tx_select ch :
    wraps ch (amqp_tx_select ch)
      M_TX_SELECT
      AMQP_TX_SELECT_OK_METHOD
| wraps_tx_commit ch :
    wraps ch (amqp_tx_commit ch)
      M_TX_COMMIT
      AMQP_TX_COMMIT_OK_METHOD
| wraps_tx_rollback ch :
    wraps ch (amqp_tx_rollback ch)
      M_TX_ROLLBACK
      AMQP_TX_ROLLBACK_OK_METHOD
| wraps_confirm_select ch :
    wraps ch (amqp_confirm_select ch)
      (M_CONFIRM_SELECT
       {| confirm_select_nowait := 0 |})
      AMQP_CONFIRM_SELECT_OK_METHOD.
End Wrappers.
