(* ===== verification/WrapperTheorems.v ===== *)
(** * Theorems about the method wrappers

    Every wrapper sends the request it is named after and returns the structure
    it promises. *)

From S2P Require Import Prelude Machine Status Alloc Codec Table TableDecode Framing Methods MethodDecode MethodEncode MethodWire MethodTheorems TableTheorems Properties PropertiesTheory PropertiesTheorems Mem MemTheory PoolTable PoolTheorems Time Frame FrameTheorems Connection ParserTheory ParserTheorems ConnectionTheorems Socket Network Scripted Inbox Outbox FrameQueue RpcTheory RpcTheorems Wrappers.

Section Theorems.
Context {W : Type} {HC : Clock W} {HS : Sockets W} {HP : Poll W} {HL : NetworkLaws W} {HH : Host}.
Context (uninit : amqp_basic_properties_t) (fuel : nat).

Abbreviation net s := (world (s : cst W)).

(** The frame of a method on a channel. *)
Definition method_frame (ch : Z) (d : amqp_decoded_t) : amqp_frame_t :=
  {| frame_type := AMQP_FRAME_METHOD; channel := ch; payload := PL_method (method_number d) d |}.

Lemma wraps_is_rpc ch m req reply_id :
  wraps uninit fuel ch m req reply_id ->
  m = amqp_simple_rpc_decoded (W := W) uninit fuel ch {| method_id := method_number req; method_decoded := req |} reply_id /\
  reply_id <> 0 /\ reply_id <> AMQP_CHANNEL_CLOSE_METHOD /\ reply_id <> AMQP_CONNECTION_CLOSE_METHOD.
Proof. destruct 1; done. Qed.

(** The reply a frame stands for and what the wrapper returns for it. *)
Definition returned (reply_id : Z) (f : amqp_frame_t) : option amqp_decoded_t :=
  match payload f with
  | PL_method id d => if id =? reply_id then Some (norm_method d) else None
  | _ => None
  end.

(** C20: every method wrapper makes the call its name says.  On a healthy
    connection, a wrapper puts the wire form of its request on the network and
    returns the arguments of the reply when the next frame that concerns the call
    is the reply it waits for, NULL when that frame closes the channel or the
    connection; [amqp_get_rpc_reply] then gives the same frame; and what it
    returns is the structure of the method [reply_id], the one the wrapper casts it to. *)
Theorem wrapper_exact K0 fm R q mem m ch req reply_id pre f post s :
  wraps uninit fuel ch m req reply_id ->
  listening K0 fm R (pre ++ f :: post) s -> outbox K0 q mem s -> rpc_timeout (conn s) = None ->
  sendable (method_frame ch req) -> zlen (wire_frame (method_frame ch req)) <= zlen mem ->
  Forall (fun g => is_heartbeat g = true \/ rpc_match ch [reply_id; 0] g = false) pre ->
  rpc_match ch [reply_id; 0] f = true -> (length (wire_frame (method_frame ch req)) + effort s < fuel)%nat ->
  wp m (fun r s' => r = returned reply_id f /\
      amqp_get_rpc_reply (conn s') = frame_reply [reply_id; 0] f /\
      (forall d, r = Some d -> method_number d = reply_id) /\
      n_sent (net s') = n_sent (net s) ++ wire_frame (method_frame ch req) /\
      queued_frames (conn s') = queued_frames (conn s) ++ heard uninit pre) (fun _ _ => False) s.
Proof.
  intros Hw Hs Hob Hto Hse Hfit Hpre Hm Hfuel. destruct (wraps_is_rpc _ _ _ _ Hw) as (-> & Hr0 & _).
  pose proof (listening_frames _ _ _ _ _ Hs) as Hac. apply Forall_app in Hac as [_ Hac].
  apply Forall_cons in Hac as [[(_ & _ & Hty) _] _].
  unfold amqp_simple_rpc_decoded. apply wp_bind, wp_the_conn. rewrite Hto.
  apply wp_bind. simpl. apply wp_ret. simpl. apply wp_bind.
  wp_use wp_simple_rpc_inner; [exact Hs|exact Hob|done|exact Hse|exact Hfit|exact Hpre|exact Hm|exact Hfuel| |done].
  intros r s1 (-> & Hsent & Hq & _ & _). apply wp_bind, wp_upd.
  assert (Hret : forall d, returned reply_id f = Some d -> method_number d = reply_id).
  { unfold returned. intros d Hd. destruct (payload f) as [|id d'| | |]; [done| |done..].
    destruct (Z.eqb_spec id reply_id) as [->|]; [|done]. injection Hd as <-. rewrite norm_method_number.
    by destruct Hty as (_ & -> & _). }
  assert (Hreply : (match reply_type (frame_reply [reply_id; 0] f) with
    AMQP_RESPONSE_NORMAL => reply_decoded (frame_reply [reply_id; 0] f) | _ => None end) = returned reply_id f).
  { unfold rpc_match in Hm. unfold frame_reply, returned. destruct (payload f) as [|id d'| | |]; [done| |done..].
    unfold reply_of. simpl. rewrite (proj2 (Z.eqb_neq reply_id 0)) by done. rewrite (Z.eqb_sym reply_id id).
    by destruct (id =? reply_id). }
  destruct (reply_type (frame_reply [reply_id; 0] f)) eqn:E; apply wp_ret; rewrite <- Hreply in *; by split_and!.
Qed.
End Theorems.

(** ** Example *)

#[local] Existing Instance little_endian.

Lemma wrapper_exact_witness :
  exists r s', amqp_queue_declare blank_properties 200 1 amqp_empty_bytes 0 1 0 1 [] open_connection = Ret (Some r) s' /\
    method_number r = AMQP_QUEUE_DECLARE_OK_METHOD.
Proof.
  set (req := M_QUEUE_DECLARE {| queue_declare_ticket := 0; queue_declare_queue := amqp_empty_bytes;
    queue_declare_passive := 0; queue_declare_durable := 1; queue_declare_exclusive := 0;
    queue_declare_auto_delete := 1; queue_declare_nowait := 0; queue_declare_arguments := [] |}).
  unshelve epose proof (wrapper_exact blank_properties 200 _ 4096 1000 _ _
    (amqp_queue_declare blank_properties 200 1 amqp_empty_bytes 0 1 0 1 []) 1 req AMQP_QUEUE_DECLARE_OK_METHOD
    [sample_heartbeat; sample_other] sample_answer [] open_connection
    (wraps_queue_declare _ _ 1 amqp_empty_bytes 0 1 0 1 []) open_listening open_outbox eq_refl _ _ _ _ _) as Hw.
  - split; [by vm_compute|]. split; [done|]. split; [done|]. repeat constructor; by vm_compute.
  - by vm_compute.
  - apply Forall_cons_2; [by left|]; apply Forall_cons_2; [by right|constructor].
  - by vm_compute.
  - apply Nat.ltb_lt. by vm_compute.
  - destruct (wp_run_ret _ _ _ Hw) as (r & s' & Hrun & -> & _ & Hty & _).
    exists (norm_method (M_QUEUE_DECLARE_OK {| queue_declare_ok_queue := view [113; 49];
          queue_declare_ok_message_count := 3; queue_declare_ok_consumer_count := 70000 |})), s'.
    split; [exact Hrun|]. exact (Hty _ eq_refl).
Defined.
