(* ===== verification/Login.v ===== *)
(** * Logging in: [librabbitmq/amqp_socket.c]

    The choice of a SASL mechanism, the SASL response, the merge of the client
    properties, and the handshake from the protocol header to
    [connection.open-ok].  The version and platform strings come from the build
    and are parameters; [va_list] is the list of the remaining arguments, each a
    NUL-terminated string.

    A structure that a failed [amqp_table_clone] leaves half written keeps its
    old value here. *)

From Stdlib Require Import String.
From S2P Require Import Url Prelude Machine Status Alloc Codec Table TableEncode TableDecode Mem MemTheory TableClone Framing Methods MethodDecode MethodEncode Properties Time Frame Connection Socket Api Consumer.

(** ** SASL *)

Inductive amqp_sasl_method_enum : Type :=
  | AMQP_SASL_METHOD_UNDEFINED
  | AMQP_SASL_METHOD_PLAIN
  | AMQP_SASL_METHOD_EXTERNAL.

(** A string literal with its terminator. *)
Definition literal (s : string) : list Z := chars s ++ [0].

(** [amqp_abort] for an invalid method. *)
Definition sasl_method_name {S} (method : amqp_sasl_method_enum) : C S amqp_bytes_t :=
  match method with
  | AMQP_SASL_METHOD_PLAIN => amqp_cstring_bytes (literal "PLAIN")
  | AMQP_SASL_METHOD_EXTERNAL => amqp_cstring_bytes (literal "EXTERNAL")
  | AMQP_SASL_METHOD_UNDEFINED => amqp_abort
  end.

Definition bytes_equal {S} (l r : amqp_bytes_t) : C S bool :=
  if len l =? len r then
    match bytes l, bytes r with
    | Some a, Some b =>
        match load 0 (len l) a, load 0 (len l) b with
        | Some x, Some y => ret (memcmp x y =? 0)
        | _, _ => undefined
        end
    | _, _ => ret false
    end
  else ret false.

(** The offset of the first [c]. *)
Fixpoint memchr (c : Z) (l : list Z) : option Z :=
  match l with
  | [] => None
  | x :: l' => if x =? c then Some 0 else Z.add 1 <$> memchr c l'
  end.

(** [start] and [current] are offsets into [mechanisms.bytes]; the loop ends
    after at most one round per byte and one more. *)
Definition sasl_mechanism_in_list {S} (mechanisms : amqp_bytes_t) (method : amqp_sasl_method_enum) : C S bool :=
  match bytes mechanisms with
  | None => undefined
  | Some m =>
      let* mechanism := sasl_method_name method in
      match load 0 (len mechanisms) m with
      | None => undefined
      | Some data =>
          let end_ := len mechanisms in
          iter (2 + length data) (fun '(start, current) =>
            if current =? end_ then ret (inr false)
            else
              let rest := drop (Z.to_nat start) data in
              let current := match memchr 32 rest with Some i => start + i | None => end_ end in
              let* found := bytes_equal mechanism {| len := current - start; bytes := Some rest |} in
              if found then ret (inr true) else ret (inl (current + 1, current))) (0, 0)
      end
  end.

(** An argument of type [char*] and its [strlen]: the characters of the string. *)
Definition va_string {S} (args : list (list Z)) : C S (list Z * list (list Z)) :=
  match args with
  | [] => undefined
  | a :: args' =>
      match strlen a with
      | Some n => ret (take (Z.to_nat n) a, args')
      | None => undefined
      end
  end.

Section Sasl.
Context {St : Type} `{Allocator St}.

(** The bytes written to a new block of the pool; NULL when there is none. *)
Definition pool_bytes (bs : list Z) : C St amqp_bytes_t :=
  let* p := pool_alloc (size_t (zlen bs)) in
  ret {| len := size_t (zlen bs); bytes := match p with Some _ => Some bs | None => None end |}.

Definition sasl_response (method : amqp_sasl_method_enum) (args : list (list Z)) : C St amqp_bytes_t :=
  match method with
  | AMQP_SASL_METHOD_PLAIN =>
      let* '(username, args) := va_string args in
      let* '(password, _) := va_string args in
      pool_bytes ([0] ++ username ++ [0] ++ password)
  | AMQP_SASL_METHOD_EXTERNAL =>
      let* '(identity, _) := va_string args in
      pool_bytes identity
  | AMQP_SASL_METHOD_UNDEFINED => amqp_abort
  end.
End Sasl.

(** ** Merging tables *)

(** A computation in a pool of its own. *)
Definition in_temp_pool {A} (temp_pool : amqp_pool_t) (m : C pstate A) : C pstate (A * amqp_pool_t) := fun s =>
  match m {| ps_heap := ps_heap s; ps_pool := temp_pool |} with
  | Ret a s' => Ret (a, ps_pool s') {| ps_heap := ps_heap s'; ps_pool := ps_pool s |}
  | Err e s' => Err e {| ps_heap := ps_heap s'; ps_pool := ps_pool s |}
  | UB => UB
  | NoFuel => NoFuel
  end.

(** [e->value = v] for the entry with index [i]. *)
Definition set_entry_value (i : nat) (v : amqp_field_value_t) (t : list amqp_table_entry_t) : amqp_table_t :=
  alter (fun e => (key e, v)) i t.

(** The value behind the pointer [amqp_table_get_entry_by_key] returned. *)
Definition value_at (t : list amqp_table_entry_t) (i : option nat) : option amqp_field_value_t :=
  match i with Some i => option_map value (t !! i) | None => None end.

(** The loop over [add], with [temp_result]; [merge] is the recursive call. *)
Definition merge_entries (merge : amqp_field_value_t -> amqp_table_t -> C pstate amqp_table_t)
    (base : amqp_table_t) : amqp_table_t -> amqp_table_t -> C pstate amqp_table_t :=
  fix go add temp_result :=
    match add with
    | [] => ret temp_result
    | (k, v) :: add' =>
        let* e := amqp_table_get_entry_by_key temp_result k in
        match e with
        | None => go add' (temp_result ++ [(k, v)])
        | Some i =>
            match v, value_at temp_result e with
            | FV_TABLE _, Some (FV_TABLE _) =>
                let* be := amqp_table_get_entry_by_key base k in
                match value_at base be with
                | Some (FV_TABLE base_table) =>
                    let* merged := merge v base_table in
                    go add' (set_entry_value i (FV_TABLE merged) temp_result)
                | _ => undefined
                end
            | _, _ => go add' (set_entry_value i v temp_result)
            end
        end
    end.

(** The body of [amqp_merge_capabilities] for an [add] that is not NULL. *)
Definition merge_with (merge : amqp_field_value_t -> amqp_table_t -> C pstate amqp_table_t)
    (base add : amqp_table_t) : C pstate amqp_table_t :=
  let* '(r, temp_pool) := in_temp_pool (init_amqp_pool 4096) (try_ (
    if INT32_MAX <? zlen base + zlen add then undefined
    else
      let* entries := pool_alloc (size_t (sizeof_amqp_table_entry_t * (zlen base + zlen add))) in
      match entries with
      | None => throw AMQP_STATUS_NO_MEMORY
      | Some _ => merge_entries merge base add base
      end)) in
  let* r := match r with inl res => ret (inl res) | inr temp_result => try_ (amqp_table_clone temp_result) end in
  let* _ := on_heap (empty_amqp_pool temp_pool) in
  match r with inl res => throw res | inr result => ret result end.

(** [add] is a table value. *)
Fixpoint merge_tables (add : amqp_field_value_t) (base : amqp_table_t) : C pstate amqp_table_t :=
  match add with
  | FV_TABLE add => merge_with merge_tables base add
  | _ => undefined
  end.

(** [None] is NULL. *)
Definition amqp_merge_capabilities (base : amqp_table_t) (add : option amqp_table_t) : C pstate amqp_table_t :=
  match add with
  | None => amqp_table_clone base
  | Some add => merge_with merge_tables base add
  end.

(** ** The handshake *)

Definition AMQP_PROTOCOL_VERSION_MAJOR : Z := 0.
Definition AMQP_PROTOCOL_VERSION_MINOR : Z := 9.

Definition AMQ_COPYRIGHT : string :=
  "Copyright (c) 2007-2014 VMWare Inc, Tony Garnock-Jones, and Alan Antonuk."%string.

Definition set_properties (server client : amqp_table_t) (pool : amqp_pool_t) (c : amqp_connection_state_t)
    : amqp_connection_state_t :=
  {| self := self c; pool_table := pool_table c; reader := reader c; channel_max := channel_max c;
     frame_max := frame_max c; heartbeat := heartbeat c;
     next_recv_heartbeat := next_recv_heartbeat c; next_send_heartbeat := next_send_heartbeat c;
     outbound_buffer := outbound_buffer c; socket := socket c;
     sock_inbound_buffer := sock_inbound_buffer c; sock_inbound_offset := sock_inbound_offset c;
     sock_inbound_limit := sock_inbound_limit c; queued_frames := queued_frames c;
     most_recent_api_result := most_recent_api_result c; server_properties := server;
     client_properties := client; properties_pool := pool;
     handshake_timeout := handshake_timeout c; rpc_timeout := rpc_timeout c |}.

(** The limits the client asked for, the limits of the server, and the limits of
    the connection: channels, frame size, heartbeat. *)
Definition negotiate (client_channel_max client_frame_max client_heartbeat
    server_channel_max server_frame_max server_heartbeat : Z) : Z * Z * Z :=
  (if negb (server_channel_max =? 0)
      && ((server_channel_max <? client_channel_max) || (client_channel_max =? 0)) then server_channel_max
   else if (server_channel_max =? 0) && (client_channel_max =? 0) then UINT16_MAX
   else client_channel_max,
   if negb (server_frame_max =? 0) && (server_frame_max <? client_frame_max) then server_frame_max
   else client_frame_max,
   if negb (server_heartbeat =? 0) && (server_heartbeat <? client_heartbeat) then server_heartbeat
   else client_heartbeat).

Section Login.
Context {W : Type} {HC : Clock W} {HS : Sockets W} {HP : Poll W} {HH : Host}.
Context (uninit : amqp_basic_properties_t).
Context (fuel : nat).
Context (AMQP_VERSION_STRING AMQ_PLATFORM : list Z).
Abbreviation CC A := (C (cst W) A).

(** Work with [state->properties_pool]. *)
Definition in_properties_pool {A} (m : C pstate A) : CC A := fun s =>
  let back (p : pstate) : cst W :=
    {| conn := set_properties (server_properties (conn s)) (client_properties (conn s)) (ps_pool p) (conn s);
       hp := ps_heap p; world := world s |} in
  match m {| ps_heap := hp s; ps_pool := properties_pool (conn s) |} with
  | Ret a p => Ret a (back p)
  | Err e p => Err e (back p)
  | UB => UB
  | NoFuel => NoFuel
  end.

(** [connection.start]: the version, the server's properties and mechanisms. *)
Definition login_start (sasl_method : amqp_sasl_method_enum) (method : amqp_method_t) : CC unit :=
  match method_decoded method with
  | M_CONNECTION_START s =>
      if negb (connection_start_version_major s =? AMQP_PROTOCOL_VERSION_MAJOR)
         || negb (connection_start_version_minor s =? AMQP_PROTOCOL_VERSION_MINOR)
      then throw AMQP_STATUS_INCOMPATIBLE_AMQP_VERSION
      else
        let* t := in_properties_pool (amqp_table_clone (connection_start_server_properties s)) in
        do* upd (fun c => set_properties t (client_properties c) (properties_pool c) c) in
        let* supported := sasl_mechanism_in_list (connection_start_mechanisms s) sasl_method in
        if negb supported then throw AMQP_STATUS_BROKER_UNSUPPORTED_SASL_METHOD else ret tt
  | _ => undefined
  end.

(** [default_table] *)
Definition login_properties : CC amqp_table_t :=
  let* c0 := amqp_table_construct_bool_entry (literal "authentication_failure_close") 1 in
  let* c1 := amqp_table_construct_bool_entry (literal "exchange_exchange_bindings") 1 in
  let* p0 := amqp_table_construct_utf8_entry (literal "product") (literal "rabbitmq-c") in
  let* p1 := amqp_table_construct_utf8_entry (literal "version") AMQP_VERSION_STRING in
  let* p2 := amqp_table_construct_utf8_entry (literal "platform") AMQ_PLATFORM in
  let* p3 := amqp_table_construct_utf8_entry (literal "copyright") (literal AMQ_COPYRIGHT) in
  let* p4 := amqp_table_construct_utf8_entry (literal "information")
               (literal "See https://github.com/alanxz/rabbitmq-c") in
  let* p5 := amqp_table_construct_table_entry (literal "capabilities") [c0; c1] in
  ret [p0; p1; p2; p3; p4; p5].

(** [connection.start-ok]: the response, the merged properties, the frame. *)
Definition login_start_ok (props : option amqp_table_t) (sasl_method : amqp_sasl_method_enum)
    (vl : list (list Z)) (deadline : amqp_time_t) : CC unit :=
  let* channel_pool := get_or_create_pool 0 in
  if negb channel_pool then throw AMQP_STATUS_NO_MEMORY
  else
    let* response_bytes := in_channel_pool 0 (sasl_response sasl_method vl) in
    match bytes response_bytes with
    | None => throw AMQP_STATUS_NO_MEMORY
    | Some _ =>
        let* default_table := login_properties in
        let* merged := in_channel_pool 0 (amqp_merge_capabilities default_table props) in
        do* upd (fun c => set_properties (server_properties c) merged (properties_pool c) c) in
        let* mechanism := sasl_method_name sasl_method in
        let* locale := amqp_cstring_bytes (literal "en_US") in
        unless_negative (amqp_send_method_inner uninit fuel 0
          {| method_id := AMQP_CONNECTION_START_OK_METHOD;
             method_decoded := M_CONNECTION_START_OK
               {| connection_start_ok_client_properties := merged;
                  connection_start_ok_mechanism := mechanism;
                  connection_start_ok_response := response_bytes;
                  connection_start_ok_locale := locale |} |} AMQP_SF_NONE deadline)
    end.

(** [amqp_tune_connection] and [connection.tune-ok]. *)
Definition login_tune (client_channel_max client_frame_max client_heartbeat : Z)
    (tune : amqp_connection_tune_t) (deadline : amqp_time_t) : CC unit :=
  let '(cmax, fmax, hb) := negotiate client_channel_max client_frame_max client_heartbeat
                             (connection_tune_channel_max tune) (connection_tune_frame_max tune)
                             (connection_tune_heartbeat tune) in
  let* res := amqp_tune_connection cmax (to_int fmax) hb in
  if res <? 0 then throw res
  else
    unless_negative (amqp_send_method_inner uninit fuel 0
      {| method_id := AMQP_CONNECTION_TUNE_OK_METHOD;
         method_decoded := M_CONNECTION_TUNE_OK
           {| connection_tune_ok_channel_max := cmax; connection_tune_ok_frame_max := fmax;
              connection_tune_ok_heartbeat := hb |} |} AMQP_SF_NONE deadline).

(** [connection.open]; the answer is the result of the login. *)
Definition login_open (vhost : list Z) (deadline : amqp_time_t) : CC amqp_rpc_reply_t :=
  let* virtual_host := amqp_cstring_bytes vhost in
  let* result := simple_rpc_inner uninit fuel 0
    {| method_id := AMQP_CONNECTION_OPEN_METHOD;
       method_decoded := M_CONNECTION_OPEN
         {| connection_open_virtual_host := virtual_host;
            connection_open_capabilities := amqp_empty_bytes; connection_open_insist := 1 |} |}
    [AMQP_CONNECTION_OPEN_OK_METHOD; 0] deadline in
  match reply_type result with
  | AMQP_RESPONSE_NORMAL => do* amqp_maybe_release_buffers in ret normal_reply
  | _ => ret result
  end.

(** From [amqp_time_from_now] on; an error goes to [error_res]. *)
Definition login_steps (vhost : list Z) (client_channel_max client_frame_max client_heartbeat : Z)
    (props : option amqp_table_t) (timeout : option timeval) (sasl_method : amqp_sasl_method_enum)
    (vl : list (list Z)) : CC amqp_rpc_reply_t :=
  let* '(deadline, res) := amqp_time_from_now {| time_point_ns := 0 |} timeout in
  do* check res in
  let* res := send_header_inner fuel deadline in
  do* check res in
  let* method := simple_wait_method_inner uninit fuel 0 AMQP_CONNECTION_START_METHOD deadline in
  do* login_start sasl_method method in
  do* login_start_ok props sasl_method vl deadline in
  do* amqp_release_buffers in
  let* method := amqp_simple_wait_method_list uninit fuel 0
                   [AMQP_CONNECTION_TUNE_METHOD; AMQP_CONNECTION_CLOSE_METHOD; 0] deadline in
  if method_id method =? AMQP_CONNECTION_CLOSE_METHOD then ret (server_exception method)
  else
    match method_decoded method with
    | M_CONNECTION_TUNE tune =>
        do* login_tune client_channel_max client_frame_max client_heartbeat tune deadline in
        do* amqp_release_buffers in
        login_open vhost deadline
    | _ => undefined
    end.

(** [client_properties] is [None] for a NULL pointer. *)
Definition amqp_login_inner (vhost : list Z) (channel_max frame_max heartbeat : Z)
    (client_properties : option amqp_table_t) (timeout : option timeval)
    (sasl_method : amqp_sasl_method_enum) (vl : list (list Z)) : CC amqp_rpc_reply_t :=
  if (channel_max <? 0) || (UINT16_MAX <? channel_max) then
    ret (amqp_rpc_reply_error AMQP_STATUS_INVALID_PARAMETER)
  else if frame_max <? 0 then ret (amqp_rpc_reply_error AMQP_STATUS_INVALID_PARAMETER)
  else if (heartbeat <? 0) || (UINT16_MAX <? heartbeat) then
    ret (amqp_rpc_reply_error AMQP_STATUS_INVALID_PARAMETER)
  else
    let* r := try_ (login_steps vhost channel_max frame_max heartbeat client_properties timeout
                      sasl_method vl) in
    match r with
    | inr result => ret result
    | inl res =>
        let* c := the_conn in
        let* _ := amqp_socket_close (socket c) AMQP_SC_FORCE in
        ret (amqp_rpc_reply_error res)
    end.

Definition amqp_login (vhost : list Z) (channel_max frame_max heartbeat : Z)
    (sasl_method : amqp_sasl_method_enum) (vl : list (list Z)) : CC amqp_rpc_reply_t :=
  let* c := the_conn in
  amqp_login_inner vhost channel_max frame_max heartbeat (Some amqp_empty_table)
    (handshake_timeout c) sasl_method vl.

Definition amqp_login_with_properties (vhost : list Z) (channel_max frame_max heartbeat : Z)
    (client_properties : option amqp_table_t) (sasl_method : amqp_sasl_method_enum)
    (vl : list (list Z)) : CC amqp_rpc_reply_t :=
  let* c := the_conn in
  amqp_login_inner vhost channel_max frame_max heartbeat client_properties
    (handshake_timeout c) sasl_method vl.
End Login.
