(* ===== verification/MergeTheory.v ===== *)
(** * Merging tables: [amqp_merge_capabilities]

    What the merge of two tables is, entry by entry, and that the code computes
    it: in a temporary pool that is given back, with a deep copy as the result. *)

From S2P Require Import Url Prelude Machine Status Alloc Codec Table TableEncode TableDecode Mem MemTheory TableClone PoolTable Framing Methods MethodDecode MethodEncode Properties Time Frame Connection Socket Api Consumer Login.

(** ** The merge *)

Abbreviation keys t := (map (fun e : amqp_table_entry_t => contents e.1) t).

Section Merged.
Context (merged : amqp_field_value_t -> amqp_table_t -> amqp_table_t).

(** Two tables are merged; any other value replaces the old one. *)
Definition combine (old new : amqp_field_value_t) : amqp_field_value_t :=
  match old, new with
  | FV_TABLE base, FV_TABLE _ => FV_TABLE (merged new base)
  | _, _ => new
  end.

Fixpoint override (l : amqp_table_t) (k : amqp_bytes_t) (v : amqp_field_value_t) : amqp_field_value_t :=
  match l with
  | [] => v
  | (k', v') :: l' => if bool_decide (contents k' = contents k) then combine v v' else override l' k v
  end.

(** The old entries in their order, then the new ones. *)
Definition merged_with (l base : amqp_table_t) : amqp_table_t :=
  map (fun e => (e.1, override l e.1 e.2)) base ++ List.filter (fun e => bool_decide (contents e.1 ∉ keys base)) l.
End Merged.

Fixpoint merged (add : amqp_field_value_t) (base : amqp_table_t) : amqp_table_t :=
  match add with
  | FV_TABLE l => merged_with merged l base
  | _ => base
  end.

(** No key twice in one table. *)
Fixpoint distinct (v : amqp_field_value_t) : Prop :=
  match v with
  | FV_TABLE l => NoDup (keys l) /\ allP (fun e => distinct e.2) l
  | _ => True
  end.

Definition distinct_table (t : amqp_table_t) : Prop := NoDup (keys t) /\ Forall (fun e => distinct e.2) t.

Section Steps.
Context (mrg : amqp_field_value_t -> amqp_table_t -> amqp_table_t).

Lemma override_other l k v : contents k ∉ keys l -> override mrg l k v = v.
Proof.
  induction l as [|[k' v'] l IH]; [done|]. simpl. rewrite not_elem_of_cons. intros [Hne Hl].
  rewrite bool_decide_eq_false_2 by congruence. by apply IH.
Qed.

Lemma override_app l1 l2 k v : contents k ∉ keys l1 -> override mrg (l1 ++ l2) k v = override mrg l2 k v.
Proof.
  induction l1 as [|[k' v'] l IH]; [done|]. simpl. rewrite not_elem_of_cons. intros [Hne Hl].
  rewrite bool_decide_eq_false_2 by congruence. by apply IH.
Qed.

Lemma override_snoc l e k v : contents e.1 <> contents k -> override mrg (l ++ [e]) k v = override mrg l k v.
Proof.
  intros Hne. induction l as [|[k' v'] l IH]; simpl; [|by case_bool_decide].
  destruct e as [ke ve]. simpl in *. by rewrite bool_decide_eq_false_2.
Qed.

(** One more entry with a new key. *)
Lemma merged_new l e base :
  contents e.1 ∉ keys base -> merged_with mrg (l ++ [e]) base = merged_with mrg l base ++ [e].
Proof.
  intros Hn. unfold merged_with. rewrite List.filter_app, <- app_assoc. f_equal.
  - apply map_ext_Forall, Forall_forall. intros e' He'. f_equal. apply override_snoc. intros Heq. apply Hn.
    rewrite Heq. by apply (list_elem_of_fmap_2 (fun e : amqp_table_entry_t => contents e.1)).
  - f_equal. simpl. by rewrite bool_decide_eq_true_2.
Qed.

Lemma merged_lookup l base i k v :
  base !! i = Some (k, v) -> contents k ∉ keys l -> merged_with mrg l base !! i = Some (k, v).
Proof.
  intros Hi Hk. unfold merged_with. apply lookup_app_l_Some. change (map ?f base) with (f <$> base).
  rewrite list_lookup_fmap, Hi. simpl. by rewrite override_other.
Qed.

(** One more entry for an old key. *)
Lemma merged_old l e base i k v :
  NoDup (keys base) -> base !! i = Some (k, v) -> contents k = contents e.1 -> contents e.1 ∉ keys l ->
  merged_with mrg (l ++ [e]) base = <[i := (k, combine mrg v e.2)]> (merged_with mrg l base).
Proof.
  intros Hnd Hi Hke Hl. unfold merged_with. pose proof (lookup_lt_Some _ _ _ Hi) as Hlt.
  rewrite insert_app_l by (by rewrite length_map). f_equal.
  - apply list_eq. intros j. change (map ?f base) with (f <$> base). rewrite list_lookup_fmap.
    destruct (decide (j = i)) as [->|Hne].
    + rewrite list_lookup_insert_eq by (by rewrite length_fmap). rewrite Hi. simpl. f_equal. f_equal.
      rewrite override_app by (by rewrite Hke). destruct e as [ke ve]. simpl in *. by rewrite bool_decide_eq_true_2.
    + rewrite list_lookup_insert_ne by done. rewrite list_lookup_fmap.
      destruct (base !! j) as [[kj vj]|] eqn:Hj; [|done]. simpl. do 2 f_equal. apply override_snoc. rewrite <- Hke. intros Heq.
      apply Hne. eapply (NoDup_lookup (keys base)); [done| |].
      * change (keys base) with ((fun e : amqp_table_entry_t => contents e.1) <$> base). by rewrite list_lookup_fmap, Hj.
      * change (keys base) with ((fun e : amqp_table_entry_t => contents e.1) <$> base). rewrite list_lookup_fmap, Hi. simpl. by rewrite Heq.
  - rewrite List.filter_app. simpl. rewrite bool_decide_eq_false_2; [by rewrite app_nil_r|].
    intros Hn. apply Hn. rewrite <- Hke. apply (list_elem_of_fmap_2 (fun e : amqp_table_entry_t => contents e.1) _ (k, v)).
    by eapply list_elem_of_lookup_2.
Qed.
End Steps.

(** ** Looking up *)

(** A key that can be compared. *)
Definition good_key (k : amqp_bytes_t) : Prop := readable k /\ len k <> 0.

Lemma good_key_run {S} a b (s : S) :
  good_key a -> good_key b -> amqp_bytes_equal a b s = Ret (bool_decide (contents a = contents b)) s.
Proof.
  intros [Ha Ha0] [Hb Hb0]. unfold amqp_bytes_equal. pose proof Ha as [[Ha1 Ha2] _]. pose proof Hb as [[Hb1 Hb2] _].
  unfold contents in *. unfold mem_of in *.
  destruct (bytes a) as [ma|], (bytes b) as [mb|]; simpl in *; try (change (zlen []) with 0 in *; lia).
  destruct (Z.eqb_spec (len a) (len b)) as [Hl|Hl].
  - rewrite !load_Some by lia. rewrite <- Hl. unfold bytes_eqb. done.
  - rewrite bool_decide_eq_false_2; [done|]. intros E. apply Hl. apply (f_equal zlen) in E.
    by rewrite !zlen_slice in E by lia.
Qed.

Lemma lookup_none {S} t k (s : S) :
  Forall (fun e => good_key e.1) t -> good_key k -> contents k ∉ keys t -> amqp_table_get_entry_by_key t k s = Ret None s.
Proof.
  intros Ht Hk. induction Ht as [|e t He _ IH]; [done|]. cbn [map]. rewrite not_elem_of_cons. intros [Hne Hn]. simpl.
  unfold key. unfold bind at 1. rewrite good_key_run by done. rewrite bool_decide_eq_false_2 by congruence.
  unfold bind. by rewrite IH.
Qed.

Lemma lookup_at {S} t k i e (s : S) :
  Forall (fun e => good_key e.1) t -> good_key k -> t !! i = Some e -> contents e.1 = contents k -> NoDup (keys t) ->
  amqp_table_get_entry_by_key t k s = Ret (Some i) s.
Proof.
  intros Ht Hk. revert i. induction Ht as [|e' t He _ IH]; [done|]. intros i Hi He' [Hn Hnd]%NoDup_cons. simpl.
  unfold key. unfold bind at 1. rewrite good_key_run by done. destruct i as [|i]; simpl in Hi.
  - injection Hi as ->. by rewrite bool_decide_eq_true_2.
  - rewrite bool_decide_eq_false_2.
    + unfold bind. by rewrite (IH i).
    + intros E. apply Hn. rewrite E, <- He'. apply (list_elem_of_fmap_2 (fun e : amqp_table_entry_t => contents e.1)).
      by eapply list_elem_of_lookup_2.
Qed.

(** ** Pools beside pools *)

(** [m] takes at most [n] block records of its pool and leaves all other memory
    alone, as long as memory is available. *)
Definition supplies {A} (n : Z) (Q : A -> Prop) (m : C pstate A) : Prop :=
  forall F p, framed_inv F p -> reliable (ps_heap p) -> n <= pool_room p ->
  wp m (fun a p' => Q a /\ framed_inv F p' /\ pool_room p - n <= pool_room p' /\ reliable (ps_heap p'))
    (fun _ _ => False) p.

Lemma supplies_ret {A} n (Q : A -> Prop) a : 0 <= n -> Q a -> supplies n Q (ret a).
Proof. intros Hn HQ F p Hi Hr Hm. apply wp_ret. split_and!; try done. lia. Qed.

Lemma supplies_weaken {A} n n' (Q Q' : A -> Prop) m :
  supplies n Q m -> n <= n' -> (forall a, Q a -> Q' a) -> supplies n' Q' m.
Proof.
  intros Hm Hn HQ F p Hi Hr Hroom. wp_use Hm; [exact Hi|done|lia| |done].
  intros a p' (? & ? & ? & ?). split_and!; auto. lia.
Qed.

Lemma supplies_bind {A B} n1 n2 (Q1 : A -> Prop) (Q2 : B -> Prop) m k :
  supplies n1 Q1 m -> 0 <= n2 -> (forall a, Q1 a -> supplies n2 Q2 (k a)) -> supplies (n1 + n2) Q2 (bind m k).
Proof.
  intros Hm Hn Hk F p Hi Hr Hroom. apply wp_bind. wp_use Hm; [exact Hi|done|lia| |done].
  intros a p1 (HQ & Hi1 & Hroom1 & Hr1). wp_use (Hk a HQ); [exact Hi1|done|lia| |done].
  intros b p2 (? & ? & ? & ?). split_and!; auto. lia.
Qed.

(** A computation that neither reads nor changes memory. *)
Lemma supplies_pure {A B} n (a : A) (Q : B -> Prop) m k :
  (forall s, m s = Ret a s) -> supplies n Q (k a) -> supplies n Q (bind m k).
Proof. intros Hm Hk F p Hi Hr Hroom. unfold wp, bind. rewrite Hm. by apply Hk. Qed.

Lemma supplies_copies {A} n (ok : Prop) (Q : A -> Prop) m :
  (forall F, copies (HL := framed_laws F) n ok Q m) -> ok -> supplies n Q m.
Proof.
  intros Hm Hok F p Hi Hr Hroom. wp_use (Hm F); [exact Hi|exact Hroom| |].
  - intros a p' (HQ & Hi' & _ & Hroom' & Hr'). split_and!; try done. by apply Hr'.
  - intros e p' (_ & Hno & _). by apply Hno.
Qed.

Lemma supplies_alloc k : 0 < k <= PTRDIFF_MAX - 7 -> supplies 1 (fun r => is_Some r) (pool_alloc (St := pstate) k).
Proof.
  intros Hk F p Hi Hr Hroom.
  wp_use (pool_alloc_law (AllocatorLaws := framed_laws F)); [exact Hi|unfold PTRDIFF_MAX in *; lia|simpl; lia| |done].
  intros r p' (Hi' & _ & Hroom' & Hrel & _). destruct (Hrel Hr) as [Hr' Hs]. split_and!; [by apply Hs|exact Hi'|exact Hroom'|exact Hr'].
Qed.

Lemma wp_in_temp_pool {A} temp (m : C pstate A) Q E s :
  wp m (fun a p => Q (a, ps_pool p) {| ps_heap := ps_heap p; ps_pool := ps_pool s |})
       (fun e p => E e {| ps_heap := ps_heap p; ps_pool := ps_pool s |}) {| ps_heap := ps_heap s; ps_pool := temp |} ->
  wp (in_temp_pool temp m) Q E s.
Proof. unfold wp, in_temp_pool. by destruct (m _). Qed.

(** A new pool on a heap whose blocks are all left alone. *)
Lemma fresh_pool_inv h n : heap_ok h -> 0 <= n <= PTRDIFF_MAX ->
  framed_inv (h_blocks h) {| ps_heap := h; ps_pool := init_amqp_pool n |}.
Proof.
  intros Hok Hn. unfold PTRDIFF_MAX in Hn. split.
  - split_and!; [done|apply init_ok; lia|]. simpl. unfold PTRDIFF_MAX. destruct (Z.eqb_spec n 0); lia.
  - intros b m Hb. split; [done|]. by apply not_elem_of_nil.
Qed.

(** Work in a second pool has left the first one alone. *)
Lemma beside_second F h pool h1 temp :
  framed_inv F {| ps_heap := h; ps_pool := pool |} -> framed_inv (h_blocks h) {| ps_heap := h1; ps_pool := temp |} ->
  framed_inv (beside h1 pool) {| ps_heap := h1; ps_pool := pool |} /\
  (forall b, b ∈ pool_blocks temp -> h_blocks h !! b = None /\ exists m, beside h1 pool !! b = Some m).
Proof.
  intros [(Hok & Hp & Hps) Ho] [(Hok1 & Hp1 & Hps1) Ho1]. simpl in *. split.
  - split; [split_and!; [done| |done]|by intros b m [? ?]%beside_Some]. simpl.
    eapply pool_ok_frame; [exact Hp|]. intros b Hb. destruct (pool_blocks_live h pool b Hp Hb) as [m Hm].
    rewrite Hm. by apply Ho1.
  - intros b Hb. assert (Hn : h_blocks h !! b = None).
    { apply eq_None_not_Some. intros [m Hm]. by destruct (Ho1 b m Hm). }
    split; [done|]. destruct (pool_blocks_live h1 temp b Hp1 Hb) as [m Hm]. exists m. apply beside_Some. split; [done|].
    intros Hin. destruct (pool_blocks_live h pool b Hp Hin). congruence.
Qed.

(** Giving the second pool back. *)
Lemma wp_give_back F h pool h1 temp h2 pool2 :
  framed_inv F {| ps_heap := h; ps_pool := pool |} -> framed_inv (h_blocks h) {| ps_heap := h1; ps_pool := temp |} ->
  framed_inv (beside h1 pool) {| ps_heap := h2; ps_pool := pool2 |} -> reliable h2 ->
  wp (on_heap (empty_amqp_pool temp)) (fun _ p' => framed_inv F p' /\ ps_pool p' = pool2 /\ reliable (ps_heap p'))
    (fun _ _ => False) {| ps_heap := h2; ps_pool := pool2 |}.
Proof.
  intros Hi Hi1 [(Hok2 & Hp2 & Hps2) Ho2] Hr2. destruct (beside_second _ _ _ _ _ Hi Hi1) as [_ Ht].
  pose proof Hi as [_ Ho]. pose proof Hi1 as [(_ & Hp1 & _) Ho1]. simpl in *.
  assert (Hown : forall b, b ∈ owned_pool temp -> b ∈ pool_blocks temp) by (intros b Hb; apply elem_of_app; by left).
  apply wp_on_heap. wp_use (wp_empty h2 temp); [done| | |done].
  { eapply pool_ok_frame; [exact Hp1|]. intros b Hb. destruct (Ht b Hb) as (_ & m & Hm). destruct (Ho2 b m Hm) as [Hm2 _].
    apply beside_Some in Hm as [Hm _]. simpl in Hm2. congruence. }
  intros _ h3 (_ & Hok3 & Hl3 & _ & Hsame). split_and!; [split; [split_and!; [done| |done]|]|done|by eapply later_reliable].
  - eapply pool_ok_frame; [exact Hp2|]. intros b Hb. apply Hsame. intros Hin. destruct (Ht b (Hown b Hin)) as (_ & m & Hm).
    by destruct (Ho2 b m Hm).
  - intros b m Hb. destruct (Ho b m Hb) as [Hm Hn]. destruct (Ho1 b m Hm) as [Hm1 _].
    destruct (Ho2 b m) as [Hm2 Hn2]; [by apply beside_Some|]. split; [|done]. simpl in *. rewrite Hsame; [done|].
    intros Hin. destruct (Ht b (Hown b Hin)). simpl in Hm. congruence.
Qed.

Lemma supplies_merge_with merge base add n k (Q Q' : amqp_table_t -> Prop) :
  supplies n Q (merge_entries merge base add base) -> 0 <= n < INT32_MAX -> 0 < zlen base + zlen add <= 2 ^ 20 ->
  (forall t, Q t -> supplies k Q' (amqp_table_clone t)) -> supplies k Q' (merge_with merge base add).
Proof.
  intros Hm Hn Hz Hc F [h pool] Hi Hr Hroom. simpl in Hr.
  unfold merge_with. apply wp_bind, wp_in_temp_pool, wp_try. rewrite (proj2 (Z.ltb_ge _ _)) by (unfold INT32_MAX; lia).
  unfold sizeof_amqp_table_entry_t. rewrite size_t_small by lia.
  assert (Ht : supplies (1 + n) Q (let* entries := pool_alloc (40 * (zlen base + zlen add)) in
      match entries with None => throw AMQP_STATUS_NO_MEMORY | Some _ => merge_entries merge base add base end)).
  { eapply supplies_bind; [apply supplies_alloc; unfold PTRDIFF_MAX; lia|lia|]. by intros r [q ->]. }
  wp_use (Ht (h_blocks h)); [apply fresh_pool_inv; [apply Hi|by vm_compute]|done|change (1 + n <= INT32_MAX); lia| |done].
  intros t [h1 temp] (HQ & Hi1 & _ & Hr1). cbn [ps_heap ps_pool] in *. apply wp_bind, wp_try.
  wp_use (Hc t HQ (beside h1 pool)); [by eapply beside_second|done|exact Hroom| |done].
  intros t' [h2 pool2] (HQ' & Hi2 & Hroom2 & Hr2). apply wp_bind. wp_use wp_give_back; [exact Hi|exact Hi1|exact Hi2|done| |done].
  intros _ p' (Hi3 & Hp3 & Hr3). apply wp_ret. split_and!; try done. unfold pool_room in *. simpl in *. by rewrite Hp3.
Qed.

(** ** The merge of well-formed tables *)

Definition weight (t : amqp_table_t) : Z := foldr (fun e n => 1 + requests e.2 + n) 0 t.

Record fine_entry (e : amqp_table_entry_t) : Prop := {
  fe_small : small_bytes e.1;
  fe_key : len e.1 <> 0;
  fe_copyable : copyable e.2;
  fe_accepted : accepted e.2
}.

Record mergeable (t : amqp_table_t) : Prop := {
  mg_fine : Forall fine_entry t;
  mg_distinct : distinct_table t
}.

Lemma fine_good_key e : fine_entry e -> good_key e.1.
Proof. intros [[? _] ? _ _]. done. Qed.

Lemma zlen_weight t : zlen t <= weight t.
Proof.
  unfold zlen. induction t as [|e t IH]; simpl; [done|]. pose proof (requests_nonneg e.2). lia.
Qed.

Lemma weight_app t1 t2 : weight (t1 ++ t2) = weight t1 + weight t2.
Proof. induction t1 as [|e t IH]; simpl in *; lia. Qed.

Lemma weight_entry t i e : t !! i = Some e -> requests e.2 < weight t.
Proof.
  intros Hi. rewrite <- (take_drop_middle _ _ _ Hi), weight_app. simpl.
  pose proof (zlen_weight (take i t)). pose proof (zlen_weight (drop (S i) t)). unfold zlen in *. lia.
Qed.

Lemma weight_insert t i k v v' : t !! i = Some (k, v) -> weight (<[i := (k, v')]> t) = weight t - requests v + requests v'.
Proof.
  revert i. induction t as [|e t IH]; intros [|i] Hi; try done; simpl in *; [injection Hi as ->; simpl; lia|].
  rewrite (IH i Hi). lia.
Qed.

Lemma fine_copyable t : Forall fine_entry t -> weight t <= 2 ^ 20 -> copyable_table t /\ accepted_table t.
Proof.
  intros Ht Hw. pose proof (zlen_weight t). split; [split; [unfold PTRDIFF_MAX; lia|]|]; (eapply Forall_impl; [exact Ht|]);
    intros e []; split; done.
Qed.

Lemma keys_insert t i k v v' : t !! i = Some (k, v) -> keys (<[i := (k, v')]> t) = keys t.
Proof.
  revert i. induction t as [|e t IH]; intros [|i] Hi; try done; simpl in *; [injection Hi as ->; done|].
  f_equal. by apply IH.
Qed.

Lemma mergeable_table v base : mergeable base -> (exists i k, base !! i = Some (k, FV_TABLE v)) -> mergeable v.
Proof.
  intros [Hf [_ Hd]] (i & k & Hi). destruct (Forall_lookup_1 _ _ _ _ Hf Hi) as [_ _ [_ Hc] Ha].
  destruct (Forall_lookup_1 _ _ _ _ Hd Hi) as [Hn Hv]. apply allP_Forall in Hc, Ha, Hv.
  split; [|split; [exact Hn|exact Hv]]. rewrite Forall_forall in Hc, Ha |- *. intros e He. destruct (Hc e He), (Ha e He). by split.
Qed.

(** Entry by entry, the merge stays well formed and does not weigh more than its
    parts. *)
Definition tame (n : Z) (t : amqp_table_t) : Prop := Forall fine_entry t /\ NoDup (keys t) /\ weight t <= n.

Definition merges_well (mrg : amqp_field_value_t -> amqp_table_t -> amqp_table_t) (v : amqp_field_value_t) : Prop :=
  match v with
  | FV_TABLE l => forall base, mergeable l -> mergeable base -> weight base + weight l <= 2 ^ 20 ->
      tame (weight base + weight l) (mrg v base)
  | _ => True
  end.

Lemma combine_cases mrg v w : combine mrg v w = w \/
  exists b a, v = FV_TABLE b /\ w = FV_TABLE a /\ combine mrg v w = FV_TABLE (mrg w b).
Proof. destruct w; try (left; by destruct v). destruct v; try (by left). right. eauto. Qed.

Lemma combine_well mrg v w : merges_well mrg w -> copyable v -> accepted v -> copyable w -> accepted w ->
  (forall b, v = FV_TABLE b -> mergeable b) -> (forall a, w = FV_TABLE a -> mergeable a) -> requests v + requests w <= 2 ^ 20 ->
  copyable (combine mrg v w) /\ accepted (combine mrg v w) /\ requests (combine mrg v w) <= requests v + requests w.
Proof.
  intros Hm Hcv Hav Hcw Haw Hgv Hgw Hreq. pose proof (requests_nonneg v).
  destruct (combine_cases mrg v w) as [->|(b & a & -> & -> & ->)]; [split_and!; by try lia|]. simpl.
  change (requests (FV_TABLE a)) with (1 + weight a) in *. change (requests (FV_TABLE b)) with (1 + weight b) in *.
  destruct (Hm b) as (Hf & _ & Hw); [by apply Hgw|by apply Hgv|lia|].
  destruct (fine_copyable _ Hf) as [[Hc1 Hc2] Ha]; [lia|]. fold (weight (mrg (FV_TABLE a) b)) (weight a) (weight b).
  split_and!; [done|by apply allP_Forall|by apply allP_Forall|lia].
Qed.

(** What the merge with a part [l] of the new entries looks like. *)
Record partly (l base M : amqp_table_t) : Prop := {
  pa_tame : tame (weight base + weight l) M;
  pa_keys : forall x, x ∈ keys M -> x ∈ keys base \/ x ∈ keys l
}.

Lemma partly_new mrg l e base :
  partly l base (merged_with mrg l base) -> fine_entry e -> contents e.1 ∉ keys base -> contents e.1 ∉ keys l ->
  partly (l ++ [e]) base (merged_with mrg (l ++ [e]) base).
Proof.
  intros [(Hf & Hn & Hw) Hk] He Hb Hl. rewrite merged_new by done.
  split; [split_and!|].
  - apply Forall_app. split; [done|by constructor].
  - rewrite map_app. apply NoDup_app. split_and!; [done| |apply NoDup_singleton].
    intros x Hx Hin. apply list_elem_of_singleton in Hin as ->. by destruct (Hk _ Hx).
  - rewrite !weight_app. simpl. lia.
  - intros x. rewrite !map_app, !elem_of_app. intros [Hx|Hx]; [destruct (Hk x Hx); auto|auto].
Qed.

Lemma partly_old mrg l e base i k v :
  partly l base (merged_with mrg l base) -> fine_entry e -> NoDup (keys base) -> base !! i = Some (k, v) ->
  contents k = contents e.1 -> contents e.1 ∉ keys l ->
  copyable (combine mrg v e.2) -> accepted (combine mrg v e.2) -> requests (combine mrg v e.2) <= requests v + requests e.2 ->
  partly (l ++ [e]) base (merged_with mrg (l ++ [e]) base).
Proof.
  intros [(Hf & Hn & Hw) Hk] He Hnd Hi Hke Hl Hc Ha Hq. rewrite (merged_old mrg l e base i k v) by done.
  assert (HM : merged_with mrg l base !! i = Some (k, v)) by (apply merged_lookup; [done|congruence]).
  pose proof (Forall_lookup_1 _ _ _ _ Hf HM) as [].
  split; [split_and!|].
  - apply Forall_insert; [done|]. by split.
  - by rewrite (keys_insert _ _ _ v).
  - rewrite (weight_insert _ _ _ v), weight_app by done. simpl. lia.
  - intros x. rewrite (keys_insert _ _ _ v) by done. rewrite map_app, elem_of_app. intros Hx. destruct (Hk x Hx); auto.
Qed.

(** Old and new keys. *)
Lemma key_in (x : list Z) t : {i & {e | t !! i = Some e /\ contents e.1 = x}} + {x ∉ keys t}.
Proof.
  induction t as [|e t [(i & e' & Hi & He)|Hn]]; [right; apply not_elem_of_nil| |].
  - left. by exists (S i), e'.
  - destruct (decide (contents e.1 = x)) as [He|He]; [left; by exists O, e|right]. cbn [map].
    rewrite not_elem_of_cons. split; [congruence|done].
Qed.

Section Loop.
Context (mrg : amqp_field_value_t -> amqp_table_t -> amqp_table_t).
Context (l base : amqp_table_t).
Context (Hwell : Forall (fun e => merges_well mrg e.2) l).
Context (Hl : mergeable l) (Hbase : mergeable base) (Hw : weight base + weight l <= 2 ^ 20).

(** The next entry, and what it is combined with. *)
Lemma next_entry done e rest i k v :
  l = done ++ e :: rest -> base !! i = Some (k, v) ->
  copyable (combine mrg v e.2) /\ accepted (combine mrg v e.2) /\ requests (combine mrg v e.2) <= requests v + requests e.2 /\
  (forall b, v = FV_TABLE b -> mergeable b) /\ (forall a, e.2 = FV_TABLE a -> mergeable a) /\
  requests v + requests e.2 < weight base + weight l.
Proof using Hwell Hl Hbase Hw.
  intros Heq Hi. assert (He : l !! length done = Some e) by (by rewrite Heq, list_lookup_middle).
  pose proof (weight_entry _ _ _ Hi) as Hwb. pose proof (weight_entry _ _ _ He). simpl in *.
  destruct (Forall_lookup_1 _ _ _ _ (mg_fine _ Hbase) Hi), (Forall_lookup_1 _ _ _ _ (mg_fine _ Hl) He).
  assert (Hgv : forall b, v = FV_TABLE b -> mergeable b).
  { intros b ->. eapply mergeable_table; [exact Hbase|]. by exists i, k. }
  assert (Hge : forall a, e.2 = FV_TABLE a -> mergeable a).
  { intros a Ha. eapply mergeable_table; [exact Hl|]. exists (length done), e.1. rewrite He. destruct e. simpl in *. by subst. }
  destruct (combine_well mrg v e.2) as (? & ? & ?); try done; [by apply (Forall_lookup_1 _ _ _ _ Hwell He)|lia|].
  split_and!; try done. lia.
Qed.

Lemma distinct_prefix done e rest : l = done ++ e :: rest -> contents e.1 ∉ keys done.
Proof using Hl.
  intros Heq. destruct Hl as [_ [Hn _]]. rewrite Heq, map_app in Hn. apply NoDup_app in Hn as (_ & Hd & _).
  intros Hin. apply (Hd _ Hin). by left.
Qed.

Lemma partly_merged done rest : l = done ++ rest -> partly done base (merged_with mrg done base).
Proof using Hwell Hl Hbase Hw.
  revert rest. induction done as [|e done IH] using rev_ind; intros rest Heq.
  - replace (merged_with mrg [] base) with base.
    + split; [split_and!; [apply Hbase|apply Hbase|simpl; lia]|auto].
    + unfold merged_with. rewrite app_nil_r. clear. induction base as [|[k v] t IH]; [done|]. simpl. by f_equal.
  - rewrite <- app_assoc in Heq. simpl in Heq. specialize (IH _ Heq). pose proof (distinct_prefix _ _ _ Heq) as Hd.
    assert (He : fine_entry e).
    { apply (Forall_lookup_1 _ _ (length done) _ (mg_fine _ Hl)). by rewrite Heq, list_lookup_middle. }
    destruct (key_in (contents e.1) base) as [(i & [k v] & Hi & Hk)|Hn]; [|by apply partly_new].
    destruct (next_entry done e rest i k v Heq Hi) as (? & ? & ? & _). eapply partly_old; try done. apply Hbase.
Qed.
End Loop.

Lemma merged_well v : merges_well merged v.
Proof.
  induction v as [v Hv|b l IH|l IH] using value_ind; [by destruct v|done|].
  intros base Hl Hbase Hw. exact (pa_tame _ _ _ (partly_merged merged l base IH Hl Hbase Hw l [] (eq_sym (app_nil_r l)))).
Qed.

(** ** The code computes the merge *)

Lemma copyable_same v : copyable v -> accepted v -> same_value v v.
Proof.
  intros Hc Ha. split; try done. revert Hc Ha.
  induction v as [v Hv|b l IH|l IH] using value_ind; [destruct v; try exact (fun _ _ => I); try (intros [Hr _] _; exact Hr); first [discriminate Hv|intros _ []] | |].
  - intros (_ & _ & Hc) [_ Ha]. apply (allP_Forall encodable). apply allP_Forall in Hc, Ha. rewrite Forall_forall in *.
    intros v Hv. apply IH; [done|by apply Hc|by apply Ha].
  - intros [_ Hc] Ha. apply (allP_Forall (fun e => readable e.1 /\ encodable e.2)). apply allP_Forall in Hc, Ha.
    rewrite Forall_forall in *. intros e He. destruct (Hc e He) as [[? _] ?], (Ha e He). split; [done|by apply IH].
Qed.

Lemma same_value_trans v1 v2 v3 : same_value v1 v2 -> same_value v2 v3 -> same_value v1 v3.
Proof. intros [] []. split; [congruence|done|done|auto|congruence]. Qed.

Lemma same_table t t' : Forall2 same_entry t t' -> Forall fine_entry t -> weight t <= 2 ^ 20 ->
  same_value (FV_TABLE t) (FV_TABLE t').
Proof.
  intros Ht Hf Hw. destruct (same_entries_norm _ _ Ht) as [Hn He]. pose proof (Forall2_length _ _ _ Ht) as Hlen.
  pose proof (zlen_weight t). destruct (same_entries_again _ _ Ht) as (Hc & Ha & Hq).
  { eapply Forall_impl; [exact Hf|]. by intros ? []. }
  split; simpl; [by f_equal|by apply allP_Forall| | |exact Hq].
  - split; [unfold zlen, PTRDIFF_MAX in *; lia|by apply allP_Forall].
  - intros Hacc. apply allP_Forall, Ha. by apply allP_Forall.
Qed.

(** Tables with the same keys and copies of the values. *)
Definition near (e e' : amqp_table_entry_t) : Prop := e'.1 = e.1 /\ same_value e.2 e'.2.

Lemma near_refl t : Forall fine_entry t -> Forall2 near t t.
Proof. induction 1 as [|e t []]; constructor; [|done]. split; [done|by apply copyable_same]. Qed.

Lemma near_keys t t' : Forall2 near t t' -> keys t' = keys t.
Proof. induction 1 as [|e e' t t' [He _] _ IH]; [done|]. simpl. by rewrite He, IH. Qed.

Lemma near_fine t t' : Forall2 near t t' -> Forall fine_entry t -> Forall fine_entry t' /\ weight t' = weight t.
Proof.
  induction 1 as [|e e' t t' [He []] _ IH]; [done|]. intros [[] Hf]%Forall_cons. destruct (IH Hf) as [? Hw].
  split; [constructor; [|done]|simpl; lia]. split; rewrite ?He; auto.
Qed.

Lemma near_same t1 t2 t3 : Forall2 near t1 t2 -> Forall2 same_entry t2 t3 -> Forall2 same_entry t1 t3.
Proof.
  intros H. revert t3. induction H as [|e1 e2 t1 t2 [He Hv] _ IH]; intros t3 Ht; inversion Ht as [|? e3 ? t3' (Hc & Hl & Hr & Hs)]; subst; constructor.
  - rewrite He in *. split_and!; try done. by eapply same_value_trans.
  - by apply IH.
Qed.

Section Code.
Context (merge : amqp_field_value_t -> amqp_table_t -> C pstate amqp_table_t).
Context (mrg : amqp_field_value_t -> amqp_table_t -> amqp_table_t).
Context (l base : amqp_table_t).
Context (Hwell : Forall (fun e => merges_well mrg e.2) l).
Context (Hl : mergeable l) (Hbase : mergeable base).

Abbreviation N := (weight base + weight l).

Context (Hw : N <= 2 ^ 15).
Context (Hrec : forall e i k b a, e ∈ l -> e.2 = FV_TABLE a -> base !! i = Some (k, FV_TABLE b) ->
  supplies N (fun t => same_value (FV_TABLE (mrg e.2 b)) (FV_TABLE t)) (merge e.2 b)).

Lemma set_value_insert i k v' (t : amqp_table_t) v : t !! i = Some (k, v) -> set_entry_value i v' t = <[i := (k, v')]> t.
Proof.
  unfold set_entry_value. revert i. induction t as [|e t IH]; intros [|i] Hi; try done.
  - injection Hi as ->. done.
  - change (e :: alter (fun e => (key e, v')) i t = e :: <[i := (k, v')]> t). f_equal. by apply IH.
Qed.

Definition is_table (v : amqp_field_value_t) : bool := match v with FV_TABLE _ => true | _ => false end.

Lemma both_tables {A} w x (P Q : A) :
  match w, x with FV_TABLE _, Some (FV_TABLE _) => P | _, _ => Q end =
  if is_table w && match x with Some y => is_table y | None => false end then P else Q.
Proof. destruct w; try done. by destruct x as [[]|]. Qed.

Lemma same_is_table v v' : same_value v v' -> is_table v' = is_table v.
Proof. intros [Hn _ _ _ _]. destruct v, v'; done. Qed.

Lemma combine_plain v w : is_table w && is_table v = false -> combine mrg v w = w.
Proof. by destruct w, v. Qed.

(** The new value of an old key. *)
Lemma supplies_combine {B} e i k v n (Q : B -> Prop) (next : amqp_field_value_t -> C pstate B) fail :
  e ∈ l -> base !! i = Some (k, v) -> contents k = contents e.1 -> 0 <= n ->
  (forall w, same_value (combine mrg v e.2) w -> supplies n Q (next w)) ->
  supplies (N + n) Q
    (if is_table e.2 && is_table v then
       let* be := amqp_table_get_entry_by_key base e.1 in
       match value_at base be with
       | Some (FV_TABLE base_table) => let* merged := merge e.2 base_table in next (FV_TABLE merged)
       | _ => fail
       end
     else next e.2).
Proof using Hrec Hbase Hl.
  intros He Hi Hk Hn Hnext. pose proof (zlen_weight base). pose proof (zlen_weight l).
  pose proof (zlen_nonneg base). pose proof (zlen_nonneg l).
  pose proof (proj1 (Forall_forall _ _) (mg_fine _ Hl) e He) as Hfe. destruct (is_table e.2 && is_table v) eqn:E.
  - apply andb_prop in E as [Ea Eb]. destruct (e.2) as [| | | | | | | | | | | | | | |a| | |] eqn:Ew; try done.
    destruct v as [| | | | | | | | | | | | | | |b| | |]; try done.
    eapply (supplies_pure _ (Some i)).
    { intros s. eapply lookup_at; [|by apply fine_good_key|exact Hi|done|apply Hbase].
      eapply Forall_impl; [apply Hbase|]. apply fine_good_key. }
    simpl. rewrite Hi. simpl. eapply supplies_bind; [|exact Hn|].
    + rewrite <- Ew. by eapply Hrec.
    + intros t Ht. apply Hnext. simpl. by rewrite <- Ew.
  - eapply supplies_weaken; [apply Hnext|lia|done]. rewrite combine_plain by done. destruct Hfe. by apply copyable_same.
Qed.

Lemma near_lookup t t' i e : Forall2 near t t' -> t !! i = Some e -> exists v', t' !! i = Some (e.1, v') /\ same_value e.2 v'.
Proof.
  intros Ht Hi. destruct (Forall2_lookup_l _ _ _ _ _ Ht Hi) as ([k' v'] & Hi' & Hk & Hv). simpl in *. subst. eauto.
Qed.

(** The loop over the new entries. *)
Lemma supplies_entries rest : forall done temp, l = done ++ rest -> Forall2 near (merged_with mrg done base) temp ->
  supplies (zlen rest * N) (Forall2 near (merged_with mrg l base)) (merge_entries merge base rest temp).
Proof using Hrec Hwell Hl Hbase Hw.
  assert (HN : N <= 2 ^ 20) by lia. assert (HN0 : 0 <= N).
  { pose proof (zlen_weight base). pose proof (zlen_weight l). pose proof (zlen_nonneg base). pose proof (zlen_nonneg l). lia. }
  induction rest as [|[ke ve] rest IH]; intros done temp Heq Hnear; simpl.
  { apply supplies_ret; [done|]. rewrite app_nil_r in Heq. by rewrite Heq. }
  destruct (partly_merged mrg l base Hwell Hl Hbase HN done _ Heq) as [(Hf & Hnd & _) Hkeys].
  destruct (near_fine _ _ Hnear Hf) as [Hf' _]. pose proof (near_keys _ _ Hnear) as Hk'.
  pose proof (distinct_prefix l Hl done _ rest Heq) as Hdist.
  assert (He : (ke, ve) ∈ l) by (rewrite Heq; apply elem_of_app; right; by left).
  pose proof (proj1 (Forall_forall _ _) (mg_fine _ Hl) _ He) as Hfe.
  assert (Hgood : Forall (fun e => good_key e.1) temp) by (eapply Forall_impl; [exact Hf'|]; apply fine_good_key).
  assert (Hz : zlen ((ke, ve) :: rest) * N = N + zlen rest * N) by (unfold zlen; simpl; lia). rewrite Hz.
  assert (Hz0 : 0 <= zlen rest * N) by (pose proof (zlen_nonneg rest); nia).
  assert (Heq' : l = (done ++ [(ke, ve)]) ++ rest) by (by rewrite <- app_assoc).
  destruct (key_in (contents ke) base) as [(i & [k v] & Hi & Hk)|Hn].
  - pose proof (merged_lookup mrg done base i k v Hi ltac:(simpl in *; congruence)) as HM.
    destruct (near_lookup _ _ _ _ Hnear HM) as (v' & Ht & Hs). simpl in Ht, Hs.
    apply (supplies_pure _ (Some i)).
    { intros s. eapply lookup_at; [done|by apply (fine_good_key (ke, ve))|exact Ht|done|by rewrite Hk']. }
    cbn [value_at]. rewrite Ht. cbn [option_map]. unfold value at 1. cbn [snd].
    rewrite (both_tables ve (Some v')), (same_is_table v v' Hs).
    apply (supplies_combine (ke, ve) i k v (zlen rest * N) _ (fun w => merge_entries merge base rest (set_entry_value i w temp)) undefined);
      [done|done|done|done|].
    intros w Hsame. apply (IH (done ++ [(ke, ve)])); [done|]. rewrite (set_value_insert i k w temp v') by done.
    rewrite (merged_old mrg done (ke, ve) base i k v); [|apply Hbase|done|done|done].
    apply Forall2_insert; [done|]. by split.
  - apply (supplies_pure _ None).
    { intros s. apply lookup_none; [done|by apply (fine_good_key (ke, ve))|]. rewrite Hk'. intros Hin.
      by destruct (Hkeys _ Hin). }
    eapply supplies_weaken; [apply (IH (done ++ [(ke, ve)])); [done|]|lia|done].
    rewrite merged_new by done. apply Forall2_app; [done|]. constructor; [|constructor]. split; [done|].
    destruct Hfe. by apply copyable_same.
Qed.
(** One level of the merge. *)
Lemma supplies_level : 0 < zlen base + zlen l ->
  supplies (1 + N) (Forall2 same_entry (merged_with mrg l base)) (merge_with merge base l).
Proof using Hrec Hwell Hl Hbase Hw.
  intros Hpos. pose proof (zlen_weight base). pose proof (zlen_weight l). pose proof (zlen_nonneg base). pose proof (zlen_nonneg l).
  assert (HN : N <= 2 ^ 20) by lia.
  destruct (pa_tame _ _ _ (partly_merged mrg l base Hwell Hl Hbase HN l [] (eq_sym (app_nil_r l)))) as (Hf & _ & Hwt).
  eapply (supplies_merge_with _ _ _ (zlen l * N) _ (Forall2 near (merged_with mrg l base))).
  - apply (supplies_entries l [] base); [done|]. replace (merged_with mrg [] base) with base; [apply near_refl, Hbase|].
    unfold merged_with. rewrite app_nil_r. clear. induction base as [|[k v] t IH]; [done|]. simpl. by f_equal.
  - unfold INT32_MAX. split; [nia|]. assert (zlen l * N <= 2 ^ 15 * 2 ^ 15) by nia. lia.
  - lia.
  - intros t Ht. destruct (near_fine _ _ Ht Hf) as [Hft Hwt']. destruct (fine_copyable t Hft) as [Hc Ha]; [lia|].
    eapply supplies_weaken; [apply (supplies_copies (requests_table t) (accepted_table t) (Forall2 same_entry t)); [|done]| |].
    + intros F. by apply copies_table.
    + change (requests_table t) with (1 + weight t). lia.
    + intros t' Ht'. by eapply near_same.
Qed.
End Code.

(** No empty table inside the new entries: the merge of two empty tables asks the
    pool for zero bytes, and fails. *)
Fixpoint solid (v : amqp_field_value_t) : Prop :=
  match v with
  | FV_TABLE l => allP (fun e => e.2 <> FV_TABLE [] /\ solid e.2) l
  | _ => True
  end.

Lemma supplies_merge v : forall l base, v = FV_TABLE l -> mergeable l -> mergeable base -> solid v ->
  0 < zlen base + zlen l -> weight base + weight l <= 2 ^ 15 ->
  supplies (1 + (weight base + weight l)) (Forall2 same_entry (merged v base)) (merge_with merge_tables base l).
Proof.
  induction v as [v Hv|b l IH|l IH] using value_ind; intros l' base E; [by subst|done|].
  injection E as <-. intros Hl Hbase Hsolid Hpos Hw. simpl in Hsolid. apply allP_Forall in Hsolid. rewrite Forall_forall in IH, Hsolid.
  apply (supplies_level merge_tables merged l base); [|done|done|done| |done].
  { apply Forall_forall. intros e _. apply merged_well. }
  intros e i k b a He Ha Hi. destruct (Hsolid e He) as [Hne Hse]. apply list_elem_of_lookup in He as [j Hj].
  pose proof (weight_entry _ _ _ Hi) as Hwb. pose proof (weight_entry _ _ _ Hj) as Hwa. simpl in Hwb. rewrite Ha in Hwa.
  change (requests (FV_TABLE a)) with (1 + weight a) in Hwa. fold (weight b) in Hwb.
  assert (Hma : mergeable a).
  { apply (mergeable_table a l Hl). exists j, e.1. rewrite Hj. destruct e. simpl in *. by subst. }
  assert (Hmb : mergeable b) by (apply (mergeable_table b base Hbase); by exists i, k).
  assert (Hza : 0 < zlen a) by (rewrite Ha in Hne; destruct a; [done|unfold zlen; simpl; lia]).
  pose proof (zlen_nonneg b).
  assert (Htame : tame (weight b + weight a) (merged e.2 b)).
  { pose proof (merged_well e.2) as Hm. rewrite Ha in *. apply Hm; [done|done|lia]. }
  rewrite Ha. eapply supplies_weaken; [apply (IH e); [by eapply list_elem_of_lookup_2|done|done|done|done|lia|lia]|lia|].
  intros t Ht. rewrite <- Ha. destruct Htame as (Hf & _ & Hwt). apply same_table; [done|done|lia].
Qed.

(** The capabilities to announce; NULL adds nothing. *)
Definition announced (base : amqp_table_t) (add : option amqp_table_t) : amqp_table_t :=
  match add with None => base | Some l => merged (FV_TABLE l) base end.

Definition add_weight (add : option amqp_table_t) : Z := match add with None => 0 | Some l => weight l end.

Record may_merge (base : amqp_table_t) (add : option amqp_table_t) : Prop := {
  mm_base : mergeable base;
  mm_add : match add with None => True | Some l => mergeable l /\ solid (FV_TABLE l) /\ 0 < zlen base + zlen l end;
  mm_weight : weight base + add_weight add <= 2 ^ 15
}.

Lemma supplies_capabilities base add : may_merge base add ->
  supplies (1 + (weight base + add_weight add)) (Forall2 same_entry (announced base add)) (amqp_merge_capabilities base add).
Proof.
  intros [Hb Ha Hw]. destruct add as [l|]; simpl in *.
  - destruct Ha as (Hl & Hs & Hz). by apply (supplies_merge (FV_TABLE l)).
  - destruct (fine_copyable base (mg_fine _ Hb)) as [Hc Hacc]; [lia|].
    apply (supplies_weaken (requests_table base) _ (Forall2 same_entry base)); [|change (requests_table base) with (1 + weight base); lia|done].
    apply (supplies_copies _ (accepted_table base)); [|done]. intros F. by apply copies_table.
Qed.
