(* ===== verification/LoginTheory.v ===== *)
(** * Logging in, one step at a time

    The search for a mechanism, the response, the merge of the client properties
    and the memory they take. *)

From Stdlib Require Import String.
From S2P Require Import Url Prelude Machine Status Alloc Codec Table TableEncode TableDecode Mem MemTheory TableClone PoolTable Framing Methods MethodDecode MethodEncode MethodWire Properties Time Frame FrameTheorems Connection ParserTheory ParserTheorems Greeting ConnectionTheorems Socket Network Inbox Outbox FrameQueue RpcTheory Api Consumer ConsumerTheory Login MergeTheory.

(** ** Mechanisms *)

(** The words between the spaces. *)
Fixpoint words (l : list Z) : list (list Z) :=
  match l with
  | [] => [[]]
  | c :: l' =>
      if c =? 32 then [] :: words l'
      else match words l' with w :: ws => (c :: w) :: ws | [] => [[c]] end
  end.

(** The name of a valid method. *)
Definition mechanism_name (method : amqp_sasl_method_enum) : option (list Z) :=
  match method with
  | AMQP_SASL_METHOD_PLAIN => Some (chars "PLAIN")
  | AMQP_SASL_METHOD_EXTERNAL => Some (chars "EXTERNAL")
  | AMQP_SASL_METHOD_UNDEFINED => None
  end.

Lemma method_name_run {S} method name (s : S) : mechanism_name method = Some name ->
  exists b, sasl_method_name method s = Ret b s /\ len b = zlen name /\ name <> [] /\
    exists m, bytes b = Some m /\ load 0 (len b) m = Some name.
Proof.
  destruct method; [done|..]; intros [= <-]; eexists; (split; [reflexivity|]); (split_and!; [reflexivity|done|]);
    eexists; (split; [reflexivity|]); reflexivity.
Qed.

Lemma memchr_words l :
  match memchr 32 l with
  | Some i => 0 <= i < zlen l /\ words l = take (Z.to_nat i) l :: words (drop (Z.to_nat (i + 1)) l)
  | None => words l = [l]
  end.
Proof.
  induction l as [|c l IH]; [done|]. simpl. destruct (Z.eqb_spec c 32) as [->|Hc].
  { unfold zlen. simpl. split; [lia|]. by rewrite drop_0. }
  destruct (memchr 32 l) as [i|]; simpl; [|by rewrite IH]. destruct IH as [Hi ->].
  unfold zlen in *. simpl. split; [lia|]. rewrite (Z.add_comm 1 i).
  replace (Z.to_nat (i + 1)) with (S (Z.to_nat i)) by lia.
  by replace (Z.to_nat (i + 1 + 1)) with (S (S (Z.to_nat i))) by lia.
Qed.

Lemma memcmp_zero a b : length a = length b -> (memcmp a b =? 0) = bool_decide (a = b).
Proof.
  revert b. induction a as [|x a IH]; intros [|y b] Hl; try done. simpl. destruct (Z.eqb_spec x y) as [->|Hne].
  - rewrite IH by (by injection Hl). apply bool_decide_ext. split; [by intros ->|by intros [= ->]].
  - rewrite (proj2 (Z.eqb_neq _ _)) by lia. symmetry. apply bool_decide_eq_false. by intros [= ? _].
Qed.

Lemma bytes_equal_run {S} b m name rest k (s : S) :
  bytes b = Some m -> load 0 (len b) m = Some name -> len b = zlen name -> 0 <= k <= zlen rest ->
  bytes_equal b {| len := k; bytes := Some rest |} s = Ret (bool_decide (name = take (Z.to_nat k) rest)) s.
Proof.
  intros Hb Hl Hn Hk. unfold bytes_equal. simpl. rewrite Hb. destruct (Z.eqb_spec (len b) k) as [<-|Hne].
  - rewrite Hl, load_Some by lia. unfold slice. simpl. rewrite memcmp_zero; [done|].
    change (Z.to_nat 0) with O. rewrite drop_0, length_take. unfold zlen in *. lia.
  - unfold ret. f_equal. symmetry. apply bool_decide_eq_false. intros ->. apply Hne. rewrite Hn. unfold zlen in *.
    rewrite length_take. lia.
Qed.

Section Mechanisms.
Context {S : Type}.
Context (b : amqp_bytes_t) (m name data : list Z).
Context (Hb : bytes b = Some m) (Hl : load 0 (len b) m = Some name) (Hn : len b = zlen name).

(** The [for] loop as a function of [start] and [current]. *)
Definition search : Z * Z -> C S (Z * Z + bool) := fun '(start, current) =>
  if current =? zlen data then ret (inr false)
  else
    let rest := drop (Z.to_nat start) data in
    let current := match memchr 32 rest with Some i => start + i | None => zlen data end in
    let* found := bytes_equal b {| len := current - start; bytes := Some rest |} in
    if found then ret (inr true) else ret (inl (current + 1, current)).

Lemma search_words fuel : forall start current s,
  0 <= start <= zlen data -> current <> zlen data -> (length data + 1 < fuel + Z.to_nat start)%nat ->
  iter fuel search (start, current) s =
    Ret (bool_decide (name ∈ words (drop (Z.to_nat start) data))) s.
Proof.
  induction fuel as [|fuel IH]; intros start current s Hs Hc Hf; [unfold zlen in *; lia|].
  simpl. unfold bind at 1, search. rewrite (proj2 (Z.eqb_neq _ _)) by done.
  assert (Hz : zlen (drop (Z.to_nat start) data) = zlen data - start) by (unfold zlen in *; rewrite length_drop; lia).
  pose proof (memchr_words (drop (Z.to_nat start) data)) as Hw. fold search.
  destruct (memchr 32 (drop (Z.to_nat start) data)) as [i|]; cbv zeta.
  - destruct Hw as [Hi ->]. unfold bind at 1. erewrite bytes_equal_run by (done || lia).
    replace (start + i - start) with i by lia. rewrite drop_drop.
    replace (Z.to_nat start + Z.to_nat (i + 1))%nat with (Z.to_nat (start + i + 1)) by lia.
    destruct (bool_decide_reflect (name = take (Z.to_nat i) (drop (Z.to_nat start) data))) as [E|E].
    + unfold ret. f_equal. symmetry. apply bool_decide_eq_true. rewrite E. by left.
    + unfold ret at 1. rewrite IH by (unfold zlen in *; lia). f_equal. apply bool_decide_ext.
      rewrite elem_of_cons. split; [by right|by intros [?|?]].
  - rewrite Hw. unfold bind at 1. erewrite bytes_equal_run by (done || lia).
    rewrite take_ge by (unfold zlen in *; lia).
    destruct (bool_decide_reflect (name = drop (Z.to_nat start) data)) as [E|E].
    + unfold ret. f_equal. symmetry. apply bool_decide_eq_true. rewrite E. by left.
    + unfold ret at 1. destruct fuel as [|fuel]; [unfold zlen in *; lia|]. simpl. unfold bind at 1, search.
      rewrite Z.eqb_refl. unfold ret. f_equal. symmetry. apply bool_decide_eq_false.
      rewrite list_elem_of_singleton. done.
Qed.
End Mechanisms.

Lemma mechanism_search {S} mechanisms m method name (s : S) :
  bytes mechanisms = Some m -> 0 <= len mechanisms <= zlen m -> mechanism_name method = Some name ->
  sasl_mechanism_in_list mechanisms method s =
    Ret (bool_decide (name ∈ words (contents mechanisms))) s.
Proof.
  intros Hm Hlen Hname. destruct (method_name_run method name s Hname) as (b & Hrun & Hn & Hne & mb & Hb & Hl).
  unfold sasl_mechanism_in_list. rewrite Hm, (bind_ret _ _ _ _ _ Hrun), load_Some by lia.
  assert (Hc : contents mechanisms = slice 0 (len mechanisms) m) by (unfold contents, mem_of; by rewrite Hm).
  rewrite Hc. set (data := slice 0 (len mechanisms) m) in *.
  assert (Hz : len mechanisms = zlen data) by (symmetry; apply zlen_slice; lia). rewrite Hz.
  destruct (decide (data = [])) as [->|Hd].
  { symmetry. unfold ret. simpl. rewrite bool_decide_eq_false_2; [done|]. rewrite list_elem_of_singleton. done. }
  change (iter (2 + length data) (search (S := S) b data) (0, 0) s = Ret (bool_decide (name ∈ words data)) s).
  rewrite (search_words b mb name data Hb Hl Hn); [done|unfold zlen; lia| |change (Z.to_nat 0) with O; lia].
  destruct data; [done|]. unfold zlen. simpl. lia.
Qed.

(** ** Strings and tables the client announces *)

(** A C string as [amqp_cstring_bytes] makes it. *)
Definition cstr (l : list Z) : amqp_bytes_t := {| len := default 0 (strlen l); bytes := Some l |}.

Definition c_string (l : list Z) : Prop := is_Some (strlen l) /\ zlen l <= 2 ^ 40.

Lemma strlen_bound l n : strlen l = Some n -> 0 <= n < zlen l.
Proof.
  revert n. induction l as [|c l IH]; intros n; [done|]. unfold zlen in *. simpl. destruct (c =? 0); [intros [= <-]; lia|].
  destruct (strlen l) as [k|]; [|done]. intros [= <-]. specialize (IH k eq_refl). lia.
Qed.

Lemma cstr_run {S} l (s : S) : c_string l -> amqp_cstring_bytes l s = Ret (cstr l) s.
Proof. intros [[n Hn] _]. unfold amqp_cstring_bytes, cstr. by rewrite Hn. Qed.

Lemma cstr_small l : c_string l -> small_bytes (cstr l).
Proof.
  intros [[n Hn] Hz]. pose proof (strlen_bound _ _ Hn). unfold small_bytes, readable, cstr, mem_of, PTRDIFF_MAX. simpl.
  rewrite Hn. simpl. lia.
Qed.

(** The properties the library announces about itself. *)
Definition default_table (version platform : list Z) : amqp_table_t :=
  [(cstr (literal "product"), FV_UTF8 (cstr (literal "rabbitmq-c")));
   (cstr (literal "version"), FV_UTF8 (cstr version));
   (cstr (literal "platform"), FV_UTF8 (cstr platform));
   (cstr (literal "copyright"), FV_UTF8 (cstr (literal AMQ_COPYRIGHT)));
   (cstr (literal "information"), FV_UTF8 (cstr (literal "See https://github.com/alanxz/rabbitmq-c")));
   (cstr (literal "capabilities"),
    FV_TABLE [(cstr (literal "authentication_failure_close"), FV_BOOLEAN 1);
              (cstr (literal "exchange_exchange_bindings"), FV_BOOLEAN 1)])].

Lemma login_properties_run {W} version platform (s : cst W) :
  c_string version -> c_string platform -> login_properties version platform s = Ret (default_table version platform) s.
Proof.
  intros [[nv Hv] _] [[np Hp] _]. unfold login_properties, amqp_table_construct_utf8_entry, amqp_table_construct_bool_entry,
    amqp_table_construct_table_entry, amqp_cstring_bytes, default_table, cstr. rewrite Hv, Hp. reflexivity.
Qed.

Lemma default_weight version platform : weight (default_table version platform) = 14.
Proof. reflexivity. Qed.

Lemma default_mergeable version platform : c_string version -> c_string platform -> mergeable (default_table version platform).
Proof.
  intros Hv Hp. split; [|split].
  - repeat (apply Forall_cons; split; [split; cbn [fst snd accepted copyable]|]); [..|constructor].
    all: first [exact I|by apply cstr_small|vm_compute; repeat split; discriminate].
  - apply (bool_decide_eq_true_1 _). vm_compute. reflexivity.
  - do 5 (apply Forall_cons; split; [exact I|]). apply Forall_cons; split; [|constructor].
    split; [apply (bool_decide_eq_true_1 _); vm_compute; reflexivity|repeat split].
Qed.

(** *** Copies look the same on the wire *)

Lemma wire_value_norm v : encodable v -> wire_value (norm_value v) = wire_value v.
Proof.
  assert (Hs : forall b, readable b -> wire_longstr (view (contents b)) = wire_longstr b /\
    wire_shortstr (view (contents b)) = wire_shortstr b).
  { intros b Hb. unfold wire_longstr, wire_shortstr. rewrite contents_view. simpl. by rewrite zlen_contents. }
  induction v as [v Hv|b l IH|l IH] using value_ind.
  - destruct v; try done; simpl; intros Hb; rewrite ?(proj1 (Hs _ Hb)); try done. by destruct (boolean =? 0).
  - intros Hl. apply (allP_Forall encodable) in Hl. simpl. do 3 f_equal. rewrite List.map_map. apply map_ext_Forall.
    rewrite Forall_forall in *. auto.
  - intros Hl. apply (allP_Forall (fun e => readable e.1 /\ encodable e.2)) in Hl. simpl. do 3 f_equal. rewrite List.map_map.
    apply map_ext_Forall. rewrite Forall_forall in *. intros e He. destruct (Hl e He) as [Hk Hv]. simpl.
    by rewrite (proj2 (Hs _ Hk)), (IH e).
Qed.

Lemma wire_table_same t t' : Forall fine_entry t -> Forall2 same_entry t t' -> wire_table t' = wire_table t.
Proof.
  intros Hf Ht. unfold wire_table. f_equal. f_equal. induction Ht as [|e e' t t' (Hc & Hl & Hr & [Hn He _ _ _]) _ IH]; [done|].
  apply Forall_cons in Hf as [[Hk _ Hcv Hav] Hf]. simpl. f_equal; [|by apply IH]. unfold wire_entry. f_equal.
  - unfold wire_shortstr. by rewrite Hl, Hc.
  - rewrite <- (wire_value_norm e'.2), <- (wire_value_norm e.2) by (done || by apply copyable_same). by rewrite Hn.
Qed.

(** *** The response *)

(** The characters before the terminator. *)
Definition text (l : list Z) : list Z := contents (cstr l).

Definition response_of (method : amqp_sasl_method_enum) (vl : list (list Z)) : option (list Z) :=
  match method, vl with
  | AMQP_SASL_METHOD_PLAIN, user :: password :: _ => Some ([0] ++ text user ++ [0] ++ text password)
  | AMQP_SASL_METHOD_EXTERNAL, identity :: _ => Some (text identity)
  | _, _ => None
  end.

Lemma va_string_run {S} a args (s : S) : c_string a -> va_string (a :: args) s = Ret (text a, args) s.
Proof.
  intros [[n Hn] _]. unfold va_string, text, contents, cstr, mem_of. simpl. rewrite Hn. simpl.
  unfold slice. by rewrite drop_0.
Qed.

Lemma supplies_pool_bytes bs : bs <> [] -> zlen bs <= UINT32_MAX -> supplies 1 (fun b => b = view bs) (pool_bytes bs).
Proof.
  intros Hne Hz. unfold pool_bytes. pose proof (zlen_nonneg bs). unfold UINT32_MAX in Hz.
  assert (0 < zlen bs) by (destruct bs; [done|unfold zlen; simpl; lia]). rewrite size_t_small by lia.
  apply (supplies_bind 1 0 (fun r => is_Some r)); [apply supplies_alloc; unfold PTRDIFF_MAX; lia|done|].
  intros r [p ->]. by apply supplies_ret.
Qed.

Lemma supplies_response method vl r : Forall c_string vl -> response_of method vl = Some r -> r <> [] -> zlen r <= UINT32_MAX ->
  supplies 1 (fun b => b = view r) (sasl_response method vl).
Proof.
  intros Hvl Hr Hne Hz. destruct method; [done|..].
  - destruct vl as [|user [|password vl]]; try done. apply Forall_cons in Hvl as [Hu Hvl]. apply Forall_cons in Hvl as [Hp _].
    injection Hr as <-. unfold sasl_response. eapply supplies_pure; [intros s; by apply va_string_run|]. cbv beta iota.
    eapply supplies_pure; [intros s; by apply va_string_run|]. cbv beta iota. by apply supplies_pool_bytes.
  - destruct vl as [|id vl]; [done|]. apply Forall_cons in Hvl as [Hu _]. injection Hr as <-. unfold sasl_response.
    eapply supplies_pure; [intros s; by apply va_string_run|]. cbv beta iota. by apply supplies_pool_bytes.
Qed.

(** *** The frames of the client *)

Definition method_frame (id : Z) (d : amqp_decoded_t) : amqp_frame_t :=
  {| frame_type := AMQP_FRAME_METHOD; channel := 0; payload := PL_method id d |}.

Definition start_ok_frame (t : amqp_table_t) (name response : list Z) : amqp_frame_t :=
  method_frame AMQP_CONNECTION_START_OK_METHOD (M_CONNECTION_START_OK
    {| connection_start_ok_client_properties := t; connection_start_ok_mechanism := view name;
       connection_start_ok_response := view response; connection_start_ok_locale := view (chars "en_US") |}).

Definition tune_ok_frame (cmax fmax hb : Z) : amqp_frame_t :=
  method_frame AMQP_CONNECTION_TUNE_OK_METHOD (M_CONNECTION_TUNE_OK
    {| connection_tune_ok_channel_max := cmax; connection_tune_ok_frame_max := fmax; connection_tune_ok_heartbeat := hb |}).

Definition open_frame (vhost : amqp_bytes_t) : amqp_frame_t :=
  method_frame AMQP_CONNECTION_OPEN_METHOD (M_CONNECTION_OPEN
    {| connection_open_virtual_host := vhost; connection_open_capabilities := amqp_empty_bytes; connection_open_insist := 1 |}).

(** The frames of the server. *)
Abbreviation start_frame st := (method_frame AMQP_CONNECTION_START_METHOD (M_CONNECTION_START st)).
Abbreviation tune_frame tu := (method_frame AMQP_CONNECTION_TUNE_METHOD (M_CONNECTION_TUNE tu)).
Abbreviation open_ok_frame ok := (method_frame AMQP_CONNECTION_OPEN_OK_METHOD (M_CONNECTION_OPEN_OK ok)).

Abbreviation close_frame cl := (method_frame AMQP_CONNECTION_CLOSE_METHOD (M_CONNECTION_CLOSE cl)).

(** The frame the code sends for [start-ok]: a copy of the table, C strings. *)
Lemma start_ok_sent {S} t t' method name r mech (s : S) :
  mechanism_name method = Some name -> sasl_method_name method s = Ret mech s ->
  Forall fine_entry t -> Forall2 same_entry t t' -> zlen r <= UINT32_MAX ->
  let f := method_frame AMQP_CONNECTION_START_OK_METHOD (M_CONNECTION_START_OK
    {| connection_start_ok_client_properties := t'; connection_start_ok_mechanism := mech;
       connection_start_ok_response := view r; connection_start_ok_locale := cstr (literal "en_US") |}) in
  sendable f /\ wire_frame f = wire_frame (start_ok_frame t name r).
Proof.
  intros Hname Hmech Hf Ht Hz f. destruct (same_entries_norm _ _ Ht) as [_ He].
  assert (Hm : readable mech /\ len mech <= UINT8_MAX /\ wire_shortstr mech = wire_shortstr (view name)).
  { destruct method; [done|..]; injection Hname as <-; injection Hmech as <-; (split_and!; [by vm_compute..|reflexivity]). }
  destruct Hm as (Hr & Hl & Hw). unfold UINT32_MAX in Hz. split.
  - split; [by vm_compute|]. simpl. split_and!; [done|done|].
    repeat (apply Forall_cons; split); [done|done|split; [apply readable_view; unfold PTRDIFF_MAX; lia|simpl; unfold UINT32_MAX; lia]|by vm_compute|constructor].
  - unfold f, wire_frame, start_ok_frame, method_frame. cbn [frame_type channel payload wire_payload]. f_equal. f_equal.
    unfold wire_method. cbn [method_fields map wire_field concat]. cbn [connection_start_ok_client_properties connection_start_ok_mechanism
      connection_start_ok_response connection_start_ok_locale]. rewrite (wire_table_same t t') by done. rewrite Hw. reflexivity.
Qed.

(** ** Memory of the connection *)

Section Steps.
Context {W : Type} {HC : Clock W} {HS : Sockets W} {HP : Poll W} {HL : NetworkLaws W} {HH : Host}.
Context (uninit : amqp_basic_properties_t) (fuel : nat).

Abbreviation net s := (world (s : cst W)).
Abbreviation pools_of s := (amqp_get_channel_pool (pool_table (conn s))).

(** Work in the pool of a channel, between frames. *)
Lemma wp_supplies_reading {A} K fm B ch n (Q : A -> Prop) m (s : cst W) :
  reading true K fm B [] s -> 0 <= n <= B -> is_Some (pools_of s ch) -> supplies n Q m ->
  wp (in_channel_pool ch m) (fun a s' => Q a /\ kept s s' /\ reading true K fm (B - n) [] s' /\ is_Some (pools_of s' ch))
    (fun _ _ => False) s.
Proof.
  intros Hs Hn [pool Hpool] Hsup. destruct Hs as [Hm Hb HBB Hroom (Hh & Hoff & Hrd)].
  change (zlen []) with 0 in *. simpl in Hroom. rewrite Z.add_0_r, Z.sub_0_r in Hroom.
  pose proof (Hroom ch pool Hpool) as Hr.
  pose proof (pools_ok_framed K (hp s) _ ch pool (cm_pools _ _ _ _ Hm) Hpool) as Hinv.
  pose proof (keeps_in_pool (W := W) ch m s) as Hk.
  assert (Hwp : wp (in_channel_pool ch m) (fun a s' => exists p, Q a /\ cmem true K fm s' /\
      room_for (B - n) (pools_of s') /\ conn s' = set_pool_table (pool_table (conn s')) (conn s) /\
      pools_of s' ch = Some (ps_pool p) /\ hp s' = ps_heap p) (fun _ s' => False /\ cmem true K fm s') s).
  { apply (wp_in_channel_pool true K fm B (B - n) ch pool _ (fun a _ => Q a) (fun _ => False) s); [done|done|done|lia|].
    wp_use (Hsup (beside (hp s) pool)); [exact Hinv|apply Hm; done|unfold pool_room; simpl; lia| |done].
    intros a p (HQ & Hi & Hro & Hrel). split_and!; [done|done|unfold pool_room in *; simpl in *; lia|done]. }
  unfold wp in *. destruct (in_channel_pool _ _ s) as [a s'|e s'| |]; [|by destruct Hwp|done..].
  destruct Hwp as (p & HQ & Hm' & Hroom' & Hcn & Hpool' & _). split_and!; [done|done| |by rewrite Hpool'].
  split; [done|constructor| | |].
  - change (zlen []) with 0. lia.
  - change (zlen []) with 0. simpl. by rewrite Z.add_0_r, Z.sub_0_r.
  - rewrite Hcn. simpl. change (reader (set_pool_table _ (conn s))) with (reader (conn s)). by split_and!.
Qed.

(** A step that changes the pools only, on a connection that listens. *)
Lemma wp_resting_step {A} (m : C (cst W) A) n (Q : A -> cst W -> Prop) K0 fm R fs s :
  resting K0 fm R fs s -> 0 <= n <= R ->
  (forall K B, reading true K fm B [] s -> R <= B ->
     wp m (fun a s' => Q a s' /\ kept s s' /\ reading true K fm (B - n) [] s') (fun _ _ => False) s) ->
  wp m (fun a s' => Q a s' /\ resting K0 fm (R - n) fs s' /\ stays s s' /\ world s' = world s /\ effort s' = effort s)
    (fun _ _ => False) s.
Proof.
  intros (K & B & pend & p & buf & HK & Hs & HB & HR) Hn Hm.
  pose proof (zlen_nonneg pend). pose proof (zlen_nonneg (n_coming (net s))). pose proof (zlen_nonneg fs).
  wp_use (Hm K B); [exact (takes_reading _ _ _ _ _ _ (he_reading _ _ _ _ _ _ _ _ _ _ Hs))|lia| |done].
  intros a s' (HQ & Hk & Hrd).
  destruct (hears_kept _ false _ _ _ (B - n) _ _ _ _ _ _ _ Hs Hk (or_introl Hrd)) as (Hs' & Hst & Hw); [lia|].
  split_and!; [done| |done|done|].
  - exists K, (B - n), pend, p, buf. split_and!; try done; [rewrite Hw; lia|lia].
  - unfold effort. by rewrite Hw, (hears_pending _ _ _ _ _ _ _ _ _ _ Hs), (hears_pending _ _ _ _ _ _ _ _ _ _ Hs').
Qed.

Lemma wp_channel_zero K0 fm R fs s :
  resting K0 fm R fs s ->
  wp (get_or_create_pool 0) (fun found s' => found = true /\ is_Some (pools_of s' 0) /\
    resting K0 fm R fs s' /\ stays s s' /\ world s' = world s /\ effort s' = effort s) (fun _ _ => False) s.
Proof.
  intros Hs. pose proof (listening_spare _ _ _ _ _ (resting_listening _ _ _ _ _ Hs)).
  eapply wp_mono; [eapply (wp_resting_step _ 0 (fun found s' => found = true /\ is_Some (pools_of s' 0))); [exact Hs|lia|]| |done].
  - intros K B [Hm Hb HBB Hroom (Hh & Hoff & Hrd)] HB.
    change (zlen []) with 0 in *. simpl in Hroom. rewrite Z.add_0_r, Z.sub_0_r in Hroom.
    pose proof (keeps_pool (W := W) 0 s) as Hk. pose proof (wp_get_or_create_pool true K fm B 0 s Hm Hroom ltac:(lia)) as Hwp.
    unfold wp in *. destruct (get_or_create_pool 0 s) as [found s1| | |]; [|done..].
    destruct Hwp as (Hm1 & Hroom1 & Hrd1 & Hf & Hp1 & _). rewrite (Hf eq_refl) in *. split_and!; [done|by apply Hp1|done|].
    split; [done|constructor|change (zlen []) with 0; lia| |rewrite Hrd1; by split_and!].
    change (zlen []) with 0. simpl. by rewrite !Z.sub_0_r, Z.add_0_r.
  - intros found s' ([-> Hp] & Hr & Hrest). rewrite Z.sub_0_r in Hr. done.
Qed.

Lemma wp_in_channel_zero {A} K0 fm R fs n (Q : A -> Prop) m s :
  resting K0 fm R fs s -> 0 <= n <= R -> is_Some (pools_of s 0) -> supplies n Q m ->
  wp (in_channel_pool 0 m) (fun a s' => (Q a /\ is_Some (pools_of s' 0)) /\
    resting K0 fm (R - n) fs s' /\ stays s s' /\ world s' = world s /\ effort s' = effort s) (fun _ _ => False) s.
Proof.
  intros Hs Hn Hp Hsup. eapply (wp_resting_step _ n (fun a s' => Q a /\ is_Some (pools_of s' 0))); [exact Hs|done|].
  intros K B Hrd HB. wp_use (wp_supplies_reading K fm B 0 n Q m s); [done|lia|done|done| |done].
  intros a s' (HQ & Hk & Hrd' & Hp'). done.
Qed.
(** *** Releasing *)

Lemma keeps_for_each {A} (f : A -> C (cst W) unit) l : (forall a, keeps (f a)) -> keeps (for_each f l).
Proof. intros Hf. induction l as [|a l IH]; [apply keeps_ret|]. apply keeps_bind; [apply Hf|by intros _]. Qed.

Lemma keeps_release_all : keeps (W := W) amqp_release_buffers.
Proof.
  apply keeps_bind; [apply keeps_the_conn|]. intros c. apply keeps_if; [|by intros s].
  apply keeps_for_each. intros l. apply keeps_for_each. intros e. apply keeps_release.
Qed.

Lemma wp_release_resting K0 fm R fs s :
  resting K0 fm R fs s ->
  wp amqp_release_buffers (fun _ s' => resting K0 fm R fs s' /\ stays s s' /\ world s' = world s /\ effort s' = effort s)
    (fun _ _ => False) s.
Proof.
  intros Hs. pose proof (listening_spare _ _ _ _ _ (resting_listening _ _ _ _ _ Hs)).
  eapply wp_mono; [eapply (wp_resting_step _ 0 (fun _ _ => True)); [exact Hs|lia|]| |done].
  - intros K B Hrd HB. pose proof (wp_release_buffers true K fm B s Hrd) as Hwp.
    pose proof (keeps_release_all s) as Hk. unfold wp in *. destruct (amqp_release_buffers s); [|done..].
    rewrite Z.sub_0_r. split_and!; [done|done|apply Hwp].
  - intros _ s' (_ & Hr & Hrest). rewrite Z.sub_0_r in Hr. done.
Qed.

Lemma wp_maybe_release_resting K0 fm R fs s :
  resting K0 fm R fs s ->
  wp amqp_maybe_release_buffers (fun _ s' => resting K0 fm R fs s' /\ stays s s' /\ world s' = world s /\ effort s' = effort s) (fun _ _ => False) s.
Proof.
  intros Hs. unfold amqp_maybe_release_buffers. apply wp_bind, wp_the_conn. destruct (amqp_release_buffers_ok _).
  - by apply wp_release_resting.
  - apply wp_ret. by split_and!.
Qed.

(** *** The connection's own fields *)

(** Fields the receiving side does not look at. *)
Lemma hears_same g K fm B acc pend p buf fs (s s' : cst W) :
  hears g K fm B acc pend p buf fs s -> same_parser s s' -> hp s' = hp s -> world s' = world s ->
  sock_inbound_buffer (conn s') = sock_inbound_buffer (conn s) ->
  sock_inbound_offset (conn s') = sock_inbound_offset (conn s) ->
  sock_inbound_limit (conn s') = sock_inbound_limit (conn s) -> socket (conn s') = socket (conn s) ->
  heartbeat (conn s') = heartbeat (conn s) -> next_recv_heartbeat (conn s') = next_recv_heartbeat (conn s) ->
  next_send_heartbeat (conn s') = next_send_heartbeat (conn s) -> hears g K fm B acc pend p buf fs s'.
Proof.
  intros [] Hp Hh Hw E1 E2 E3 E4 E5 E6 E7. split; rewrite ?Hw, ?E1, ?E2, ?E3, ?E4, ?E5, ?E6, ?E7; try done.
  by eapply takes_same.
Qed.

Lemma resting_properties K0 fm R fs (s : cst W) srv cl pool :
  resting K0 fm R fs s ->
  resting K0 fm R fs {| conn := set_properties srv cl pool (conn s); hp := hp s; world := world s |}.
Proof.
  intros (K & B & pend & p & buf & HK & Hs & HB & HR). exists K, B, pend, p, buf. split_and!; try done.
  by eapply hears_same.
Qed.

(** *** Methods *)

(** The next frame is an expected method. *)
Lemma wp_expect K0 fm R f id d fs ids td s :
  listening K0 fm R (f :: fs) s -> payload f = PL_method id d -> channel f = 0 -> frame_type f = AMQP_FRAME_METHOD ->
  amqp_id_in_reply_list id ids = true -> queued_frames (conn s) = [] -> infinite td -> (effort s < fuel)%nat ->
  wp (amqp_simple_wait_method_list uninit fuel 0 ids td) (fun m s' =>
    m = {| method_id := id; method_decoded := norm_method d |} /\ stays s s' /\ resting K0 fm (R + 2) fs s' /\
    (effort s' < effort s)%nat) (fun _ _ => False) s.
Proof.
  intros Hs Hp Hch Hft Hid Hq Htd Hfuel. unfold amqp_simple_wait_method_list. apply wp_bind.
  unfold amqp_time_tv_until. rewrite Htd. apply wp_ret. apply wp_bind.
  wp_use (wp_wait_noblock uninit fuel K0 fm R [] f fs s new_frame); [exact Hs|done| |done|done| |done].
  { unfold is_heartbeat. by rewrite Hft. }
  intros g s' (-> & Hst & Hs' & Hef). unfold received. simpl. rewrite Hft, Hch, Hp. simpl.
  apply wp_bind. unfold method_of. simpl. apply wp_ret. simpl. rewrite Hid. by apply wp_ret.
Qed.

(** Sending the protocol header. *)
Lemma wp_protocol_header K0 fm R fs td s :
  listening K0 fm R fs s -> infinite td -> (8 + n_waits (net s) < fuel)%nat ->
  wp (send_header_inner fuel td) (fun r s' => r = AMQP_STATUS_OK /\ conn s' = conn s /\ hp s' = hp s /\
    n_sent (net s') = n_sent (net s) ++ amqp_protocol_header /\ listening K0 fm R fs s' /\ (effort s' <= effort s)%nat)
    (fun _ _ => False) s.
Proof.
  intros (g & K & B & acc & pend & p & buf & HK & Hs & HB & HR) Htd Hfuel. unfold send_header_inner. apply wp_bind.
  wp_use (wp_try_send fuel amqp_protocol_header td AMQP_SF_NONE s); [apply Hs|apply Hs|done| |exact Hfuel| |done].
  { pose proof limit_law. unfold INT32_MAX in *. change (8 <= n_limit). lia. }
  intros r s' (k & [[Hcn Hhp] Hok Hk Hse Hco Hwa Hhe] & Hr). pose proof (he_healthy _ _ _ _ _ _ _ _ _ _ Hs) as Hh.
  destruct Hr as [[-> [->|[Hn|Hn]]]|[_ Hn]]; [|by destruct Hn..|by destruct Hn].
  change (zlen amqp_protocol_header =? 8) with true. cbv iota. apply wp_ret. split_and!; try done.
  - exists g, K, B, acc, pend, p, buf. rewrite Hco. split_and!; try done.
    destruct Hs. split; rewrite ?Hcn, ?Hco; try done; [|by apply Hhe]. eapply takes_same; [done|split_and!; congruence|done].
  - unfold effort, pending. rewrite Hcn, Hco. lia.
Qed.
(** *** The server's greeting *)

(** A [connection.start] the client can answer with [method]. *)
Record agreeable (method : amqp_sasl_method_enum) (st : amqp_connection_start_t) : Prop := {
  ag_major : connection_start_version_major st = AMQP_PROTOCOL_VERSION_MAJOR;
  ag_minor : connection_start_version_minor st = AMQP_PROTOCOL_VERSION_MINOR;
  ag_copyable : copyable_table (connection_start_server_properties st);
  ag_accepted : accepted_table (connection_start_server_properties st);
  ag_requests : requests_table (connection_start_server_properties st) <= INT32_MAX;
  ag_mechanism : exists name, mechanism_name method = Some name /\
    name ∈ words (contents (connection_start_mechanisms st))
}.

(** The state with other properties and more memory. *)
Definition with_properties (srv cl : amqp_table_t) (pool : amqp_pool_t) (h : heap) (s : cst W) : cst W :=
  {| conn := set_properties srv cl pool (conn s); hp := h; world := world s |}.

Lemma wp_in_properties_pool {A} n (Q : A -> Prop) (m : C pstate A) ps (s : cst W) :
  heap_ok (hp s) -> reliable (hp s) -> properties_pool (conn s) = init_amqp_pool ps -> 0 <= ps <= PTRDIFF_MAX ->
  supplies n Q m -> n <= INT32_MAX ->
  wp (in_properties_pool m) (fun a s' => Q a /\ exists pool h, grown (hp s) h /\
    s' = with_properties (server_properties (conn s)) (client_properties (conn s)) pool h s) (fun _ _ => False) s.
Proof.
  intros Hok Hrel Hp Hps Hsup Hn. unfold wp, in_properties_pool. rewrite Hp.
  pose proof (Hsup (h_blocks (hp s)) {| ps_heap := hp s; ps_pool := init_amqp_pool ps |} (fresh_pool_inv _ _ Hok Hps) Hrel Hn) as Hw.
  unfold wp in Hw. destruct (m _) as [a p|e p| |]; [|done..]. destruct Hw as (HQ & [(Hh & _ & _) Ho] & _ & Hr).
  split; [done|]. exists (ps_pool p), (ps_heap p). split; [|done]. split_and!; [done|done|].
  intros b x Hb. by apply Ho.
Qed.

Lemma outbox_more K0 K1 q m (s s' : cst W) :
  outbox K0 q m s -> (forall b x, K0 !! b = Some x -> K1 !! b = Some x) ->
  outbound_buffer (conn s') = outbound_buffer (conn s) -> outbox K1 q m s'.
Proof. intros [] HK Ho. split; rewrite ?Ho; auto. Qed.

Lemma wp_login_start K0 fm R fs q m method st ps s :
  resting K0 fm R fs s -> outbox K0 q m s -> agreeable method st ->
  properties_pool (conn s) = init_amqp_pool ps -> 0 <= ps <= PTRDIFF_MAX ->
  wp (login_start method {| method_id := AMQP_CONNECTION_START_METHOD; method_decoded := norm_method (M_CONNECTION_START st) |})
    (fun _ s' => exists srv pool h K1, s' = with_properties srv (client_properties (conn s)) pool h s /\
       norm_table srv = norm_table (connection_start_server_properties st) /\
       resting K1 fm R fs s' /\ outbox K1 q m s') (fun _ _ => False) s.
Proof.
  intros Hs Hob [Hma Hmi Hc Ha Hq (name & Hname & Hin)] Hp Hps. destruct (resting_memory _ _ _ _ _ Hs) as [Hok Hrel].
  destruct (copyable_table_norm _ Hc) as (Hc' & Ha' & Hq'). unfold login_start. simpl. rewrite Hma, Hmi. simpl.
  apply wp_bind. wp_use (wp_in_properties_pool (requests_table (norm_table (connection_start_server_properties st)))
    (Forall2 same_entry (norm_table (connection_start_server_properties st)))); [done|done|exact Hp|done| |lia| |done].
  { apply (supplies_copies _ (accepted_table (norm_table (connection_start_server_properties st)))); [|auto].
    intros F. by apply copies_table. }
  intros srv s1 (Hsrv & pool & h & Hg & ->). apply wp_bind, wp_upd, wp_bind.
  eapply wp_eq; [eapply mechanism_search; [reflexivity|simpl; pose proof (zlen_nonneg (contents (connection_start_mechanisms st))); lia|exact Hname]|].
  unfold norm_bytes. rewrite contents_view, bool_decide_eq_true_2 by done. simpl. apply wp_ret.
  exists srv, pool, h, (K0 ∪ fresh_blocks (hp s) h). destruct (same_entries_norm _ _ Hsrv) as [Hn _].
  split_and!; [done|by rewrite Hn, norm_table_twice| |].
  - apply (resting_properties _ _ _ _ {| conn := conn s; hp := h; world := world s |}). by apply resting_grow.
  - eapply outbox_more; [exact Hob| |done]. intros b x Hb. by apply lookup_union_Some_l.
Qed.
(** A [connection.start] the client does not answer, and the status it reports. *)
Definition refusal (method : amqp_sasl_method_enum) (st : amqp_connection_start_t) : option Z :=
  if negb (connection_start_version_major st =? AMQP_PROTOCOL_VERSION_MAJOR)
     || negb (connection_start_version_minor st =? AMQP_PROTOCOL_VERSION_MINOR)
  then Some AMQP_STATUS_INCOMPATIBLE_AMQP_VERSION
  else match mechanism_name method with
       | Some name => if bool_decide (name ∈ words (contents (connection_start_mechanisms st))) then None
                      else Some AMQP_STATUS_BROKER_UNSUPPORTED_SASL_METHOD
       | None => None
       end.

Lemma wp_login_start_refused K0 fm R fs method st ps e s :
  resting K0 fm R fs s -> refusal method st = Some e -> copyable_table (connection_start_server_properties st) ->
  accepted_table (connection_start_server_properties st) -> requests_table (connection_start_server_properties st) <= INT32_MAX ->
  properties_pool (conn s) = init_amqp_pool ps -> 0 <= ps <= PTRDIFF_MAX ->
  wp (login_start method {| method_id := AMQP_CONNECTION_START_METHOD; method_decoded := norm_method (M_CONNECTION_START st) |})
    (fun _ _ => False) (fun e' s' => e' = e /\ world s' = world s /\ socket (conn s') = socket (conn s)) s.
Proof.
  intros Hs He Hc Ha Hq Hp Hps. destruct (resting_memory _ _ _ _ _ Hs) as [Hok Hrel].
  destruct (copyable_table_norm _ Hc) as (Hc' & Ha' & Hq'). unfold refusal in He. unfold login_start. simpl.
  destruct (_ || _); [injection He as <-; by apply wp_throw|].
  destruct (mechanism_name method) as [name|] eqn:Hname; [|done]. destruct (bool_decide _) eqn:Hb; [done|]. injection He as <-.
  apply wp_bind. wp_use (wp_in_properties_pool (requests_table (norm_table (connection_start_server_properties st)))
    (Forall2 same_entry (norm_table (connection_start_server_properties st)))); [done|done|exact Hp|done| |lia| |done].
  { apply (supplies_copies _ (accepted_table (norm_table (connection_start_server_properties st)))); [|auto].
    intros F. by apply copies_table. }
  intros srv s1 (_ & pool & h & _ & ->). apply wp_bind, wp_upd, wp_bind.
  eapply wp_eq; [eapply mechanism_search; [reflexivity|simpl; pose proof (zlen_nonneg (contents (connection_start_mechanisms st))); lia|exact Hname]|].
  unfold norm_bytes. rewrite contents_view, Hb. by apply wp_throw.
Qed.

(** *** The client's answer *)

(** What the handshake leaves alone. *)
Record steady (s s' : cst W) : Prop := {
  sd_queue : queued_frames (conn s') = queued_frames (conn s);
  sd_timeout : rpc_timeout (conn s') = rpc_timeout (conn s);
  sd_server : server_properties (conn s') = server_properties (conn s)
}.

Lemma steady_trans s1 s2 s3 : steady s1 s2 -> steady s2 s3 -> steady s1 s3.
Proof. intros [] []. split; congruence. Qed.

Lemma stays_steady s s' : stays s s' -> steady s s'.
Proof. intros (Ha & _ & Hq). unfold anchor in Ha. injection Ha. intros. by split. Qed.

Lemma stays_outbox K0 q m s s' : outbox K0 q m s -> stays s s' -> outbox K0 q m s'.
Proof. intros Ho (Ha & _). by eapply outbox_anchor. Qed.

(** What the client wants to announce. *)
Record presentable_client (version platform : list Z) (props : option amqp_table_t)
    (method : amqp_sasl_method_enum) (vl : list (list Z)) (name r : list Z) : Prop := {
  pc_version : c_string version;
  pc_platform : c_string platform;
  pc_args : Forall c_string vl;
  pc_props : match props with None => True | Some l => mergeable l /\ solid (FV_TABLE l) /\ weight l <= 2 ^ 14 end;
  pc_name : mechanism_name method = Some name;
  pc_response : response_of method vl = Some r;
  pc_nonempty : r <> [];
  pc_size : zlen r <= UINT32_MAX
}.

Lemma announced_fine version platform props method vl name r :
  presentable_client version platform props method vl name r ->
  may_merge (default_table version platform) props /\ Forall fine_entry (announced (default_table version platform) props) /\
  0 <= add_weight props <= 2 ^ 14.
Proof.
  intros [Hv Hp _ Ha _ _ _ _]. pose proof (default_mergeable version platform Hv Hp) as Hd.
  destruct props as [l|]; cbn [add_weight announced] in *.
  - destruct Ha as (Hl & Hs & Hw). pose proof (zlen_weight l). pose proof (zlen_nonneg l). split_and!; [|..|lia|lia].
    + split; [done| |unfold add_weight; rewrite default_weight; lia]. split_and!; [done|done|]. change (zlen (default_table version platform)) with 6. lia.
    + refine (proj1 (merged_well (FV_TABLE l) _ Hl Hd _)). rewrite default_weight. lia.
  - split_and!; [|apply Hd|lia|lia]. split; [done|done|by rewrite default_weight].
Qed.

(** Sending a method on channel 0. *)
Lemma wp_send_zero K0 fm R fs q m mth td s :
  let f := method_frame (method_id mth) (method_decoded mth) in
  resting K0 fm R fs s -> outbox K0 q m s -> sendable f -> zlen (wire_frame f) <= zlen m -> infinite td ->
  (length (wire_frame f) + effort s < fuel)%nat ->
  wp (unless_negative (amqp_send_method_inner uninit fuel 0 mth AMQP_SF_NONE td)) (fun _ s' => conn s' = conn s /\
    n_sent (net s') = n_sent (net s) ++ wire_frame f /\ (effort s' <= effort s)%nat /\
    exists m', zlen m' = zlen m /\ resting (<[p_block q := m']> K0) fm R fs s' /\
      outbox (<[p_block q := m']> K0) q m' s') (fun _ _ => False) s.
Proof.
  intros f Hs Hob Hf Hfit Htd Hfuel. unfold unless_negative, amqp_send_method_inner. fold f.
  assert (td = amqp_time_infinite) as -> by (destruct td; unfold infinite in Htd; simpl in Htd; by subst).
  apply wp_bind, wp_status_of. wp_use (wp_send_listening uninit fuel K0 fm R fs q m f); [by apply resting_listening|exact Hob|done|done|unfold effort in Hfuel; lia| |done].
  intros _ s' (Hcn & Hse & Hco & Hwa & _ & Hr & Hob' & Hz). cbv beta iota zeta in *. apply wp_ret.
  split_and!; [done|done|unfold effort, pending; rewrite Hcn, Hco; lia|]. eexists. split_and!; [exact Hz|by apply Hr|done].
Qed.

Lemma wp_login_start_ok K0 fm R fs q m version platform props method vl name r td s :
  let f := start_ok_frame (announced (default_table version platform) props) name r in
  resting K0 fm R fs s -> outbox K0 q m s -> presentable_client version platform props method vl name r ->
  16 + add_weight props <= R -> zlen (wire_frame f) <= zlen m -> infinite td ->
  (length (wire_frame f) + effort s < fuel)%nat ->
  wp (login_start_ok uninit fuel version platform props method vl td) (fun _ s' => steady s s' /\
    n_sent (net s') = n_sent (net s) ++ wire_frame f /\ (effort s' <= effort s)%nat /\
    exists m', zlen m' = zlen m /\ resting (<[p_block q := m']> K0) fm (R - (16 + add_weight props)) fs s' /\
      outbox (<[p_block q := m']> K0) q m' s') (fun _ _ => False) s.
Proof.
  intros f Hs Hob Hcl HR Hfit Htd Hfuel. destruct (announced_fine _ _ _ _ _ _ _ Hcl) as (Hmay & Hfine & Hw0).
  pose proof Hcl as [Hv Hp Hvl _ Hname Hresp Hne Hsz]. unfold login_start_ok.
  apply wp_bind. wp_use wp_channel_zero; [exact Hs| |done]. intros found s1 (-> & Hp1 & Hs1 & Hst1 & Hw1 & Hef1). simpl.
  apply wp_bind. wp_use (wp_in_channel_zero K0 fm R fs 1 (fun b => b = view r)); [exact Hs1|lia|done|by apply supplies_response| |done].
  intros rb s2 ([-> Hp2] & Hs2 & Hst2 & Hw2 & Hef2). cbn [bytes view].
  apply wp_bind. eapply wp_eq; [by apply login_properties_run|].
  apply wp_bind. wp_use (wp_in_channel_zero K0 fm (R - 1) fs (15 + add_weight props)
    (Forall2 same_entry (announced (default_table version platform) props))); [exact Hs2|lia|done| | |done].
  { pose proof (supplies_capabilities _ _ Hmay) as Hsup. rewrite default_weight in Hsup.
    by replace (15 + add_weight props) with (1 + (14 + add_weight props)) by lia. }
  intros t s3 ([Ht _] & Hs3 & Hst3 & Hw3 & Hef3). apply wp_bind, wp_upd. set (s4 := {| conn := _; hp := _; world := _ |}).
  destruct (method_name_run method name s4 Hname) as (mech & Hmech & _). apply wp_bind. eapply wp_eq; [exact Hmech|].
  apply wp_bind. eapply wp_eq; [by apply cstr_run; split; [by eexists|by vm_compute]|].
  destruct (start_ok_sent _ t method name r mech s4 Hname Hmech Hfine Ht Hsz) as [Hsend Hwire]. fold f in Hwire.
  assert (Hs4 : resting K0 fm (R - 1 - (15 + add_weight props)) fs s4) by (by apply resting_properties).
  assert (Hob4 : outbox K0 q m s4).
  { eapply (outbox_more K0 K0 q m s3); [|done|done]. eapply stays_outbox; [|exact Hst3].
    eapply stays_outbox; [|exact Hst2]. by eapply stays_outbox. }
  assert (Hef : effort s4 = effort s) by (change (effort s4) with (effort s3); congruence).
  set (mth := {| method_id := AMQP_CONNECTION_START_OK_METHOD; method_decoded := _ |}).
  change (wire_frame (method_frame (method_id mth) (method_decoded mth)) = wire_frame f) in Hwire.
  wp_use (wp_send_zero K0 fm (R - 1 - (15 + add_weight props)) fs q m mth td s4);
    [done|done|exact Hsend|by rewrite Hwire|done|rewrite Hwire; lia| |done].
  intros _ s5 (Hcn & Hse & Hef5 & m' & Hz & Hs5 & Hob5). rewrite Hwire in Hse.
  replace (R - (16 + add_weight props)) with (R - 1 - (15 + add_weight props)) by lia. split_and!; [| |lia|eauto].
  - eapply steady_trans; [by apply stays_steady, Hst1|]. eapply steady_trans; [by apply stays_steady, Hst2|].
    destruct (stays_steady _ _ Hst3). split; by rewrite Hcn.
  - rewrite Hse. change (net s4) with (net s3). congruence.
Qed.
(** *** Tuning *)

(** A kept block has moved. *)
Definition moved (b b' : Z) (m' : list Z) (K : gmap Z (list Z)) : gmap Z (list Z) := <[b' := m']> (delete b K).

Lemma pools_ok_moved K h get b b' m m' h' :
  pools_ok K h get -> K !! b = Some m -> heap_ok h' -> h_blocks h !! b' = None ->
  h_blocks h' = moved b b' m' (h_blocks h) -> pools_ok (moved b b' m' K) h' get.
Proof.
  intros Hok Hb Hh' Hfresh Heq. destruct (po_kept _ _ _ Hok b m Hb) as [Hm Hn].
  assert (Hpb : forall c p x, get c = Some p -> x ∈ pool_blocks p -> x <> b /\ x <> b').
  { intros c p x Hc Hx. split; [intros ->; by apply (Hn c p)|intros ->].
    destruct (po_pool _ _ _ Hok c p Hc) as [Hp _]. destruct (pool_blocks_live h p b' Hp Hx). congruence. }
  split; [done| |apply Hok|].
  - intros c p Hc. destruct (po_pool _ _ _ Hok c p Hc) as [Hp ?]. split; [|done]. eapply pool_ok_frame; [done|].
    intros x Hx. destruct (Hpb c p x Hc Hx). rewrite Heq. unfold moved. by rewrite lookup_insert_ne, lookup_delete_ne.
  - intros x y. unfold moved. rewrite Heq. intros [[<- <-]|[Hne [Hne' Hx]%lookup_delete_Some]]%lookup_insert_Some.
    + split; [apply lookup_insert_eq|]. intros c p Hc Hin. by destruct (Hpb c p _ Hc Hin).
    + destruct (po_kept _ _ _ Hok x y Hx). unfold moved. by rewrite lookup_insert_ne, lookup_delete_ne.
Qed.

(** New limits and a new outbound buffer, heartbeats off. *)
Definition tuned (cmax fmax : Z) (out : heap_bytes) (h : heap) (s : cst W) : cst W :=
  {| conn := set_tuning cmax fmax 0 amqp_time_infinite amqp_time_infinite out (conn s); hp := h; world := world s |}.

Lemma resting_tuned K0 fm fm' R fs (s : cst W) b b' m m' cmax out h' :
  resting K0 fm R fs s -> K0 !! b = Some m -> heap_ok h' -> later (hp s) h' -> h_blocks (hp s) !! b' = None ->
  h_blocks h' = moved b b' m' (h_blocks (hp s)) -> 0 <= fm' <= 2 ^ 30 -> Forall (acceptable fm') fs ->
  resting (moved b b' m' K0) fm' R fs (tuned cmax fm' out h' s).
Proof.
  intros (K & B & pend & p & buf & <- & Hs & HB & HR) [Hne Hb]%lookup_delete_Some Hok Hl Hfresh Hblocks Hfm Hfs.
  pose proof (takes_reading _ _ _ _ _ _ (he_reading _ _ _ _ _ _ _ _ _ _ Hs)) as [[Ht Hp Hrel _] Hby HBB Hroom Hrd].
  pose proof (he_kept _ _ _ _ _ _ _ _ _ _ Hs) as Hk.
  assert (Hb' : b' <> p_block p) by (intros ->; destruct (po_kept _ _ _ Hp _ _ Hk); congruence).
  exists (moved b b' m' K), B, pend, p, buf. split_and!; [| |done|done].
  { unfold moved. rewrite delete_insert_ne by done. f_equal. apply delete_delete. }
  destruct Hs as [_ _ ? ? ? ? ? ? ? ? ? ? ? _ ? ? _ _ _ ? ?]. split; try done.
  - left. split; try done. split; try done; [by eapply pools_ok_moved|]. intros _. by eapply later_reliable, Hrel.
  - unfold moved. by rewrite lookup_insert_ne, lookup_delete_ne.
Qed.

Lemma wp_tune K0 fm R fs q m cmax fmax s :
  resting K0 fm R fs s -> outbox K0 q m s -> 0 < fmax <= 2 ^ 30 -> Forall (acceptable fmax) fs ->
  wp (amqp_tune_connection cmax fmax 0) (fun r s' => r = AMQP_STATUS_OK /\ exists out h q' m',
    s' = tuned cmax fmax out h s /\ zlen m' = fmax /\
    resting (moved (p_block q) (p_block q') m' K0) fmax R fs s' /\ outbox (moved (p_block q) (p_block q') m' K0) q' m' s')
    (fun _ _ => False) s.
Proof.
  intros Hs [Hq Hq0 Hk Hl Hz] Hf Hfs. destruct (resting_memory _ _ _ _ _ Hs) as [Hok Hrel].
  assert (Hidle : state (reader (conn s)) = CONNECTION_STATE_IDLE).
  { destruct Hs as (K & B & pend & p & buf & _ & Hh & _).
    destruct (takes_reading _ _ _ _ _ _ (he_reading _ _ _ _ _ _ _ _ _ _ Hh)) as [_ _ _ _ (_ & _ & Hrd)]. apply Hrd. }
  pose proof (resting_kept _ _ _ _ _ _ _ Hs Hk) as Hblk.
  unfold amqp_tune_connection. apply wp_bind, wp_the_conn. rewrite Hidle, bool_decide_eq_true_2 by done.
  apply wp_bind, wp_upd, wp_bind. eapply wp_eq; [by apply restart_send_off|]. cbn [negb]. rewrite Z.eqb_refl. cbn [negb].
  apply wp_bind. eapply wp_eq; [by apply restart_recv_off|]. rewrite Z.eqb_refl. cbn [negb].
  rewrite Hq. apply wp_bind, wp_upd, wp_bind, wp_on_mem. simpl hp. rewrite size_t_small by lia. simpl realloc_null.
  wp_use (wp_realloc q (zlen m) fmax (hp s)); [done|done|by exists m|lia| |done].
  intros r h' (Hok' & Hl' & Hsome & Hr). destruct (Hsome Hrel) as [q' ->]; [unfold PTRDIFF_MAX; lia|].
  destruct Hr as (Hq0' & Hfresh & m' & Hzm & Hblocks). apply wp_bind, wp_upd, wp_ret. split; [done|].
  set (out := {| hb_len := fmax; hb_bytes := Some q' |}). exists out, h', q', m'. split_and!; [reflexivity|done| |].
  - change (resting (moved (p_block q) (p_block q') m' K0) fmax R fs (tuned cmax fmax out h' s)).
    eapply resting_tuned; try done; lia.
  - split; try done; [apply lookup_insert_eq|]. unfold INT32_MAX. lia.
Qed.
(** The limits a server's [connection.tune] leads to. *)
Definition agreed (cmax fmax hb : Z) (tu : amqp_connection_tune_t) : Z * Z * Z :=
  negotiate cmax fmax hb (connection_tune_channel_max tu) (connection_tune_frame_max tu) (connection_tune_heartbeat tu).

Lemma agreed_quiet cmax fmax tu : 0 <= connection_tune_heartbeat tu -> (agreed cmax fmax 0 tu).2 = 0.
Proof.
  intros H. unfold agreed, negotiate. simpl. rewrite (proj2 (Z.ltb_ge _ _)) by lia. by rewrite andb_false_r.
Qed.

Lemma wp_login_tune K0 fm R fs q m ccmax cfmax tu cmax fmax td s :
  let f := tune_ok_frame cmax fmax 0 in
  resting K0 fm R fs s -> outbox K0 q m s -> agreed ccmax cfmax 0 tu = (cmax, fmax, 0) -> 0 < fmax <= 2 ^ 30 ->
  Forall (acceptable fmax) fs -> zlen (wire_frame f) <= fmax -> infinite td ->
  (length (wire_frame f) + effort s < fuel)%nat ->
  wp (login_tune uninit fuel ccmax cfmax 0 tu td) (fun _ s' => steady s s' /\
    channel_max (conn s') = cmax /\ frame_max (conn s') = fmax /\ heartbeat (conn s') = 0 /\
    n_sent (net s') = n_sent (net s) ++ wire_frame f /\ (effort s' <= effort s)%nat /\
    exists K1 q' m', zlen m' = fmax /\ resting K1 fmax R fs s' /\ outbox K1 q' m' s') (fun _ _ => False) s.
Proof.
  intros f Hs Hob Hag Hf Hfs Hfit Htd Hfuel. unfold agreed in Hag. unfold login_tune. rewrite Hag.
  rewrite to_int_small by lia. apply wp_bind. wp_use wp_tune; [exact Hs|exact Hob|done|done| |done].
  intros r s1 (-> & out & h & q' & m' & Hs1 & Hz & Hr & Hob1). change (AMQP_STATUS_OK <? 0) with false. cbv iota.
  assert (Hef : effort s1 = effort s) by (by rewrite Hs1).
  set (mth := {| method_id := AMQP_CONNECTION_TUNE_OK_METHOD; method_decoded := _ |}).
  change (wire_frame f) with (wire_frame (method_frame (method_id mth) (method_decoded mth))) in *.
  wp_use (wp_send_zero (moved (p_block q) (p_block q') m' K0) fmax R fs q' m' mth td s1); [done|done| |by rewrite Hz|done|lia| |done].
  { split; [by vm_compute|]. simpl. split_and!; [done|done|]. repeat constructor. }
  intros _ s2 (Hcn & Hse & Hef2 & m2 & Hz2 & Hr2 & Hob2). rewrite Hcn. rewrite Hs1 in Hse |- *.
  split_and!; [by split; rewrite Hcn, Hs1|done|done|done|exact Hse|lia|]. do 3 eexists. split_and!; [|exact Hr2|exact Hob2]. lia.
Qed.

(** *** Opening *)

Lemma wp_login_open K0 fm R fs q m vhost f td s :
  let req := open_frame (cstr vhost) in
  resting K0 fm R (f :: fs) s -> outbox K0 q m s -> c_string vhost -> len (cstr vhost) <= UINT8_MAX ->
  rpc_match 0 [AMQP_CONNECTION_OPEN_OK_METHOD; 0] f = true ->
  reply_type (frame_reply [AMQP_CONNECTION_OPEN_OK_METHOD; 0] f) = AMQP_RESPONSE_NORMAL ->
  zlen (wire_frame req) <= zlen m -> infinite td -> (length (wire_frame req) + effort s < fuel)%nat ->
  wp (login_open uninit fuel vhost td) (fun r s' => r = normal_reply /\ stays {| conn := conn s; hp := hp s; world := world s' |} s' /\
    n_sent (net s') = n_sent (net s) ++ wire_frame req /\
    exists m', zlen m' = zlen m /\ resting (<[p_block q := m']> K0) fm (R + 2) fs s' /\ outbox (<[p_block q := m']> K0) q m' s')
    (fun _ _ => False) s.
Proof.
  intros req Hs Hob Hvh Hvl Hm Hnorm Hfit Htd Hfuel. unfold login_open. apply wp_bind. eapply wp_eq; [apply cstr_run; exact Hvh|].
  apply wp_bind. set (mth := {| method_id := AMQP_CONNECTION_OPEN_METHOD; method_decoded := _ |}).
  wp_use (wp_simple_rpc_inner uninit fuel K0 fm R q m 0 mth [AMQP_CONNECTION_OPEN_OK_METHOD; 0] [] f fs s td);
    [by apply resting_listening|done|done| |exact Hfit|done|done|exact Hfuel| |done].
  { split; [by vm_compute|]. simpl. split_and!; [done|done|]. apply Forall_cons. split; [split; [exact (proj1 (cstr_small _ Hvh))|exact Hvl]|].
    apply Forall_cons. split; [by vm_compute|]. by repeat constructor. }
  intros r s1 (-> & Hse & Hq & Ha & m' & Hr & Hob1 & Hz & _). rewrite Hnorm. unfold heard in Hq. simpl in Hq. rewrite app_nil_r in Hq.
  apply wp_bind. wp_use wp_maybe_release_resting; [exact Hr| |done]. intros _ s2 (Hr2 & Hst2 & Hw2 & _). apply wp_ret.
  pose proof Hst2 as (Ha2 & _ & Hq2). split_and!; [done|split_and!; [by rewrite Ha2|done|by rewrite Hq2]|rewrite Hw2; exact Hse|].
  exists m'. split_and!; [done|done|by eapply stays_outbox].
Qed.
(** ** The first half of the handshake *)

(** A new connection, ready to log in. *)
Record newcomer (K0 : gmap Z (list Z)) (fm R : Z) (fs : list amqp_frame_t) (q : ptr) (m : list Z) (s : cst W) : Prop := {
  nc_listening : listening K0 fm R fs s;
  nc_outbox : outbox K0 q m s;
  nc_queue : queued_frames (conn s) = [];
  nc_pool : exists ps, 0 <= ps <= PTRDIFF_MAX /\ properties_pool (conn s) = init_amqp_pool ps
}.

(** A connection from [amqp_new_connection], once it has a socket, is one. *)
Definition connecting (p out inb : ptr) (h : heap) (w : W) : cst W :=
  {| conn := set_timeouts None None (set_socket (Some n_socket) (fresh_connection p out inb)); hp := h; world := w |}.

Lemma connecting_greeting p out inb h w B :
  fresh_memory out inb h -> 0 <= B <= INT32_MAX ->
  greeting (h_blocks h) AMQP_INITIAL_FRAME_POOL_PAGE_SIZE B [] (connecting p out inb h w).
Proof.
  intros [Hok Hr _ _ _] HB.
  assert (Hnone : forall ch, pools_of (connecting p out inb h w) ch = None).
  { intros ch. unfold amqp_get_channel_pool, slot. change (pool_table _) with (replicate (Z.to_nat POOL_TABLE_SIZE) (@nil amqp_pool_table_entry_t)).
    destruct (replicate _ _ !! _) as [l|] eqn:E; [|done]. by apply lookup_replicate in E as [-> _]. }
  split; try done; [|change (zlen []) with 0; lia].
  split; try done. split; [done| | |].
  - intros ch pool. by rewrite Hnone.
  - intros c1 c2 p1 p2 b. by rewrite Hnone.
  - intros b m Hb. split; [done|]. intros ch pool. by rewrite Hnone.
Qed.

Lemma connecting_newcomer p out inb h w R fs :
  fresh_memory out inb h -> n_ok w -> n_healthy w -> n_coming w = concat (map wire_frame fs) ->
  Forall (acceptable AMQP_INITIAL_FRAME_POOL_PAGE_SIZE) fs -> match fs with [] => True | f :: _ => presentable f end ->
  zlen (n_coming w) + 2 * zlen fs + R <= INT32_MAX -> 0 <= R ->
  exists K0 m, zlen m = AMQP_INITIAL_FRAME_POOL_PAGE_SIZE /\
    newcomer K0 AMQP_INITIAL_FRAME_POOL_PAGE_SIZE R fs out m (connecting p out inb h w).
Proof.
  intros Hm Hok Hh Hco Hfs Hf HB HR. pose proof (zlen_nonneg (n_coming w)). pose proof (zlen_nonneg fs).
  pose proof Hm as [_ _ (Ho & m & Hbo & Hzo) (Hi & buf & Hbi & Hzi) Hne].
  set (B := zlen (n_coming w) + 2 * zlen fs + R) in *.
  exists (delete (p_block inb) (h_blocks h)), m. split; [done|]. split; [|split|done|].
  - exists true, (h_blocks h), B, [], [], inb, buf. split; [done|]. split; [|split; [unfold B; change (zlen []) with 0; simpl; lia|done]].
    split; try done.
    + right. split_and!; [done|apply connecting_greeting; [done|unfold B; lia]|done].
    + rewrite Hzi. by vm_compute.
    + rewrite Hzi. by vm_compute.
    + apply before_nil.
    + unfold B. change (zlen []) with 0. simpl. lia.
  - done.
  - done.
  - by rewrite lookup_delete_ne.
  - by rewrite Hzo.
  - rewrite Hzo. by vm_compute.
  - exists 512. split; [by vm_compute|done].
Qed.

(** The server's properties are known and [sent] has been sent. *)
Record introduced (fm R : Z) (fs : list amqp_frame_t) (n : Z) (st : amqp_connection_start_t) (sent : list Z) (s s' : cst W) : Prop := {
  in_memory : exists K q m, zlen m = n /\ resting K fm R fs s' /\ outbox K q m s';
  in_queue : queued_frames (conn s') = [];
  in_server : norm_table (server_properties (conn s')) = norm_table (connection_start_server_properties st);
  in_timeout : rpc_timeout (conn s') = rpc_timeout (conn s);
  in_sent : n_sent (net s') = n_sent (net s) ++ sent;
  in_effort : (effort s' <= effort s)%nat
}.

Section Hello.
Context (version platform : list Z) (props : option amqp_table_t) (method : amqp_sasl_method_enum) (vl : list (list Z)).
Context (name r : list Z) (Hclient : presentable_client version platform props method vl name r).

Abbreviation answer := (start_ok_frame (announced (default_table version platform) props) name r).

Lemma wp_hello {A} K0 fm R fs q m st s (k : amqp_time_t -> C (cst W) A) Q :
  newcomer K0 fm R (start_frame st :: fs) q m s -> agreeable method st -> 16 + add_weight props <= R ->
  zlen (wire_frame answer) <= zlen m -> (8 + length (wire_frame answer) + effort s < fuel)%nat ->
  (forall s', introduced fm (R - (14 + add_weight props)) fs (zlen m) st (amqp_protocol_header ++ wire_frame answer) s s' ->
     wp (k amqp_time_infinite) Q (fun _ _ => False) s') ->
  wp (let* '(deadline, res) := amqp_time_from_now {| time_point_ns := 0 |} None in
      do* check res in
      let* res := send_header_inner fuel deadline in
      do* check res in
      let* mth := simple_wait_method_inner uninit fuel 0 AMQP_CONNECTION_START_METHOD deadline in
      do* login_start method mth in
      do* login_start_ok uninit fuel version platform props method vl deadline in
      do* amqp_release_buffers in
      k deadline) Q (fun _ _ => False) s.
Proof using Hclient HL.
  intros [Hs Hob Hq (ps & Hps & Hp)] Hag HR Hfit Hfuel Hk. assert (Hfuel' : (8 + n_waits (net s) < fuel)%nat) by (unfold effort in Hfuel; lia).
  apply wp_bind, wp_ret, wp_bind, wp_ret. apply wp_bind. wp_use wp_protocol_header; [exact Hs|done|done| |done].
  intros res s1 (-> & Hcn1 & Hhp1 & Hse1 & Hs1 & Hef1). apply wp_bind, wp_ret. apply wp_bind. unfold simple_wait_method_inner.
  wp_use (wp_expect K0 fm R (start_frame st)); [exact Hs1|done|done|done|done|by rewrite Hcn1|done|lia| |done].
  intros mth s2 (-> & Hst2 & Hs2 & Hef2).
  assert (Hob2 : outbox K0 q m s2) by (eapply stays_outbox; [|exact Hst2]; eapply outbox_more; [exact Hob|done|by rewrite Hcn1]).
  pose proof Hst2 as (Ha2 & Hse2 & Hq2). unfold anchor in Ha2. injection Ha2 as E1 E2 E3 E4 E5 E6 E7 E8 E9 E10 E11 E12 E13 E14 E15.
  apply wp_bind. wp_use (wp_login_start K0 fm (R + 2) fs q m method st ps s2); [done|done|done|by rewrite E13, Hcn1|done| |done].
  intros _ s3 (srv & pool & h & K1 & Hs3 & Hsrv & Hr3 & Hob3).
  assert (Hef3 : effort s3 = effort s2) by (by rewrite Hs3).
  apply wp_bind. wp_use wp_login_start_ok; [exact Hr3|exact Hob3|exact Hclient|lia|done|done|lia| |done].
  intros _ s4 (Hst4 & Hse4 & Hef4 & m' & Hz & Hr4 & Hob4). apply wp_bind.
  wp_use wp_release_resting; [exact Hr4| |done]. intros _ s5 (Hr5 & Hst5 & Hw5 & Hef5). apply Hk.
  pose proof (steady_trans _ _ _ Hst4 (stays_steady _ _ Hst5)) as [Hq5 Ht5 Hv5]. rewrite Hs3 in Hq5, Ht5, Hv5. simpl in Hq5, Ht5, Hv5.
  split; [|congruence|congruence|congruence| |lia].
  - do 3 eexists. split; [exact Hz|]. split; [|by eapply stays_outbox].
    by replace (R - (14 + add_weight props)) with (R + 2 - (16 + add_weight props)) by lia.
  - rewrite Hw5, Hse4, Hs3. simpl. rewrite Hse2, Hse1. by rewrite <- app_assoc.
Qed.
End Hello.
End Steps.
