(* ===== verification/LoginTheorems.v ===== *)
(** * Theorems about logging in

    A login completes, a refusal is reported, credentials are not sent to a server
    that cannot take them; the merge of the client properties; what a very small
    frame size leads to. *)

From Stdlib Require Import String.
From S2P Require Import Url Prelude Machine Status Alloc Codec Table TableEncode TableDecode TableTheorems Mem MemTheory PoolTheorems TableClone PoolTable Framing Methods MethodDecode MethodEncode MethodWire MethodTheorems Properties PropertiesTheory PropertiesTheorems Time Frame FrameTheorems Connection ParserTheory ParserTheorems Greeting ConnectionTheorems Socket Network Scripted Inbox Outbox FrameQueue RpcTheory RpcTheorems Api Consumer ConsumerTheory Login MergeTheory LoginTheory.

(** ** The handshake *)

Section Login.
Context {W : Type} {HC : Clock W} {HS : Sockets W} {HP : Poll W} {HL : NetworkLaws W} {HH : Host}.
Context (uninit : amqp_basic_properties_t) (fuel : nat) (version platform : list Z).

Abbreviation net s := (world (s : cst W)).
Abbreviation answer props name r := (start_ok_frame (announced (default_table version platform) props) name r).

Lemma tune_heartbeat K0 fm R st tu fs s :
  listening K0 fm R (start_frame st :: tune_frame tu :: fs) s -> 0 <= connection_tune_heartbeat tu.
Proof.
  intros Hs. pose proof (listening_frames _ _ _ _ _ Hs) as Hac. apply Forall_cons in Hac as [_ Hac].
  apply Forall_cons in Hac as [[(_ & _ & Hty) _] _]. destruct Hty as (_ & _ & _ & Hwf & _). simpl in Hwf.
  apply Forall_cons in Hwf as [_ Hwf]. apply Forall_cons in Hwf as [_ Hwf]. apply Forall_cons in Hwf as [[? _] _]. done.
Qed.

(** After a login with these limits: [sent] has been sent, and [post] is still to
    come. *)
Record logged_in (limits : Z * Z * Z) (R : Z) (post : list amqp_frame_t) (st : amqp_connection_start_t) (sent : list Z)
    (s s' : cst W) : Prop := {
  li_limits : (channel_max (conn s'), frame_max (conn s'), heartbeat (conn s')) = limits;
  li_server : norm_table (server_properties (conn s')) = norm_table (connection_start_server_properties st);
  li_sent : n_sent (net s') = n_sent (net s) ++ sent;
  li_queue : queued_frames (conn s') = [];
  li_timeout : rpc_timeout (conn s') = rpc_timeout (conn s);
  li_memory : exists K1 q1 m1, zlen m1 = limits.1.2 /\ outbox K1 q1 m1 s' /\ listening K1 limits.1.2 R post s'
}.

(** From [connection.tune] on. *)
Lemma wp_agree fm R n st tu ok post vhost ccmax cfmax cmax fmax sent0 s s1 :
  introduced fm R (tune_frame tu :: open_ok_frame ok :: post) n st sent0 s s1 ->
  agreed ccmax cfmax 0 tu = (cmax, fmax, 0) -> 0 < fmax <= 2 ^ 30 -> c_string vhost -> len (cstr vhost) <= UINT8_MAX ->
  Forall (acceptable fmax) (open_ok_frame ok :: post) -> zlen (wire_frame (tune_ok_frame cmax fmax 0)) <= fmax ->
  zlen (wire_frame (open_frame (cstr vhost))) <= fmax ->
  (length (wire_frame (tune_ok_frame cmax fmax 0)) + length (wire_frame (open_frame (cstr vhost))) + effort s < fuel)%nat ->
  wp (let* method := amqp_simple_wait_method_list uninit fuel 0
                       [AMQP_CONNECTION_TUNE_METHOD; AMQP_CONNECTION_CLOSE_METHOD; 0] amqp_time_infinite in
      if method_id method =? AMQP_CONNECTION_CLOSE_METHOD then ret (server_exception method)
      else
        match method_decoded method with
        | M_CONNECTION_TUNE tune =>
            do* login_tune uninit fuel ccmax cfmax 0 tune amqp_time_infinite in
            do* amqp_release_buffers in
            login_open uninit fuel vhost amqp_time_infinite
        | _ => undefined
        end) (fun rep s' => rep = normal_reply /\ logged_in (cmax, fmax, 0) (R + 4) post st
          (sent0 ++ wire_frame (tune_ok_frame cmax fmax 0) ++ wire_frame (open_frame (cstr vhost))) s s')
    (fun _ _ => False) s1.
Proof.
  intros [(K1 & q1 & m1 & Hz1 & Hr1 & Hob1) Hq1 Hsrv1 Hto1 Hse1 Hef1] Hagr Hfm Hvh Hvl Hfs Hfit2 Hfit3 Hfuel.
  apply wp_bind. wp_use (wp_expect uninit fuel K1 fm R (tune_frame tu));
    [by apply resting_listening|done|done|done|done|done|done|lia| |done].
  intros mth s2 (-> & Hst2 & Hr2 & Hef2). cbn [method_id method_decoded norm_method].
  change (AMQP_CONNECTION_TUNE_METHOD =? AMQP_CONNECTION_CLOSE_METHOD) with false. cbv iota.
  set (tu' := {| connection_tune_channel_max := _ |}). assert (tu' = tu) as -> by (by destruct tu).
  pose proof (stays_steady _ _ Hst2) as Hsd2. pose proof Hst2 as (_ & Hse2 & _).
  apply wp_bind. wp_use wp_login_tune; [exact Hr2|by eapply stays_outbox|exact Hagr|done|done|done|done|lia| |done].
  intros _ s3 (Hsd3 & Hc3 & Hf3 & Hh3 & Hse3 & Hef3 & K3 & q3 & m3 & Hz3 & Hr3 & Hob3).
  apply wp_bind. wp_use wp_release_resting; [exact Hr3| |done]. intros _ s4 (Hr4 & Hst4 & Hw4 & Hef4).
  pose proof (steady_trans _ _ _ Hsd2 (steady_trans _ _ _ Hsd3 (stays_steady _ _ Hst4))) as [Hq4 Ht4 Hv4].
  pose proof Hst4 as (Ha4 & _ & _). unfold anchor in Ha4. injection Ha4 as _ Ec Ef Eh _ _ _ _ _ _ _ _ _ _ _.
  wp_use (wp_login_open uninit fuel K3 fmax); [exact Hr4|by eapply stays_outbox|done|done|done|done|lia|done|lia| |done].
  intros rep s5 (-> & (Ha5 & _ & Hq5) & Hse5 & m5 & Hz5 & Hr5 & Hob5).
  unfold anchor in Ha5. simpl in Ha5, Hq5. injection Ha5 as _ Fc Ff Fh _ _ _ _ _ _ Fs _ _ _ Ft.
  split; [done|]. split; try congruence.
  - rewrite Hse5, Hw4, Hse3, Hse2, Hse1, <- !app_assoc. done.
  - eexists _, _, _. split_and!; [|exact Hob5|]; [simpl; lia|]. apply resting_listening. simpl.
    by replace (R + 4) with (R + 2 + 2) by lia.
Qed.

(** C31: a server that refuses is heard.  When the server answers [start-ok] with
    [connection.close], as RabbitMQ does when the credentials are wrong,
    [amqp_login_with_properties] returns a server exception that holds the close
    method as it was received, and has sent nothing beyond the protocol header and
    [start-ok]. *)
Theorem login_refused K0 fm R q m st cl post vhost ccmax cfmax hb props method vl name r s :
  newcomer K0 fm R (start_frame st :: close_frame cl :: post) q m s ->
  handshake_timeout (conn s) = None -> 0 <= ccmax <= UINT16_MAX -> 0 <= cfmax -> 0 <= hb <= UINT16_MAX ->
  agreeable method st -> presentable_client version platform props method vl name r ->
  zlen (wire_frame (answer props name r)) <= zlen m -> 16 + add_weight props <= R ->
  (8 + length (wire_frame (answer props name r)) + effort s < fuel)%nat ->
  wp (amqp_login_with_properties uninit fuel version platform vhost ccmax cfmax hb props method vl) (fun rep s' =>
    rep = server_exception {| method_id := AMQP_CONNECTION_CLOSE_METHOD; method_decoded := norm_method (M_CONNECTION_CLOSE cl) |} /\
    n_sent (net s') = n_sent (net s) ++ amqp_protocol_header ++ wire_frame (answer props name r))
    (fun _ _ => False) s.
Proof.
  intros Hnew Hto Hcc Hcf Hhb Hag Hcl Hfit HR Hfuel.
  unfold amqp_login_with_properties. apply wp_bind, wp_the_conn. rewrite Hto. unfold amqp_login_inner.
  rewrite !(proj2 (Z.ltb_ge _ _)) by (done || lia). cbn [orb]. apply wp_bind, wp_try.
  eapply (wp_mono _ _ _ (fun _ _ => False)); [|intros rep s' HQ; apply wp_ret; exact HQ|done].
  apply (wp_hello uninit fuel version platform props method vl name r Hcl K0 fm R
    (close_frame cl :: post) q m st s _ _ Hnew Hag HR Hfit); [lia|].
  intros s1 [(K1 & q1 & m1 & Hz1 & Hr1 & Hob1) Hq1 Hsrv1 Hto1 Hse1 Hef1]. apply wp_bind.
  wp_use (wp_expect uninit fuel K1 fm (R - (14 + add_weight props)) (close_frame cl));
    [by apply resting_listening|done|done|done|done|done|done|lia| |done].
  intros mth s2 (-> & (_ & Hse2 & _) & _). apply wp_ret. split; [done|]. congruence.
Qed.

(** C30: credentials are withheld from a server that cannot take them.  When
    [connection.start] announces another protocol version or does not offer the
    mechanism, the login fails with the matching status, closes the socket, and has
    sent nothing but the protocol header. *)
Theorem login_withholds K0 fm R q m st fs vhost ccmax cfmax hb props method vl e s :
  newcomer K0 fm R (start_frame st :: fs) q m s -> handshake_timeout (conn s) = None ->
  0 <= ccmax <= UINT16_MAX -> 0 <= cfmax -> 0 <= hb <= UINT16_MAX -> refusal method st = Some e ->
  copyable_table (connection_start_server_properties st) -> accepted_table (connection_start_server_properties st) ->
  requests_table (connection_start_server_properties st) <= INT32_MAX -> (8 + effort s < fuel)%nat ->
  wp (amqp_login_with_properties uninit fuel version platform vhost ccmax cfmax hb props method vl) (fun rep s' =>
    rep = amqp_rpc_reply_error e /\ n_sent (net s') = n_sent (net s) ++ amqp_protocol_header) (fun _ _ => False) s.
Proof.
  intros [Hs Hob Hq (ps & Hps & Hp)] Hto Hcc Hcf Hhb He Hcp Hac Hrq Hfuel.
  assert (Hfuel' : (8 + n_waits (net s) < fuel)%nat) by (unfold effort in Hfuel; lia).
  unfold amqp_login_with_properties. apply wp_bind, wp_the_conn. rewrite Hto. unfold amqp_login_inner.
  rewrite !(proj2 (Z.ltb_ge _ _)) by (done || lia). cbn [orb]. apply wp_bind, wp_try. unfold login_steps.
  apply wp_bind, wp_ret, wp_bind, wp_ret. apply wp_bind. wp_use wp_protocol_header; [exact Hs|done|done| |done].
  intros res s1 (-> & Hcn1 & Hhp1 & Hse1 & Hs1 & Hef1). apply wp_bind, wp_ret. apply wp_bind. unfold simple_wait_method_inner.
  wp_use (wp_expect uninit fuel K0 fm R (start_frame st)); [exact Hs1|done|done|done|done|by rewrite Hcn1|done|lia| |done].
  intros mth s2 (-> & (Ha2 & Hse2 & _) & Hs2 & _). unfold anchor in Ha2. injection Ha2 as _ _ _ _ _ _ _ _ _ _ _ _ E13 _ _.
  apply wp_bind. wp_use wp_login_start_refused; [exact Hs2|exact He|done|done|done|by rewrite E13, Hcn1|done|done|].
  intros e' s3 (-> & Hw3 & Hso3). cbv beta iota. apply wp_bind, wp_the_conn. apply wp_bind.
  destruct Hs2 as (K & B & pend & p & buf & _ & Hh & _). unfold amqp_socket_close. rewrite Hso3, (he_socket _ _ _ _ _ _ _ _ _ _ Hh).
  unfold wp, on_world. pose proof (close_law AMQP_SC_FORCE (net s3)) as Hcl. rewrite Hw3 in Hcl |- *.
  specialize (Hcl (he_ok _ _ _ _ _ _ _ _ _ _ Hh)). unfold wp in Hcl. destruct (klass_close _ _ _); [|done..]. simpl.
  split; [done|]. destruct Hcl as (_ & -> & _). congruence.
Qed.
End Login.

(** ** Merging *)


(** ** Examples *)

#[local] Existing Instance little_endian.

Definition entry (k : string) (v : amqp_field_value_t) : amqp_table_entry_t := (view (chars k), v).

(** Two capabilities on top of one; a new value; a new key. *)
Definition sample_base : amqp_table_t :=
  [entry "product" (FV_UTF8 (view (chars "a"))); entry "capabilities" (FV_TABLE [entry "x" (FV_BOOLEAN 1); entry "y" (FV_BOOLEAN 0)])].
Definition sample_add : amqp_table_t :=
  [entry "capabilities" (FV_TABLE [entry "y" (FV_BOOLEAN 1); entry "z" FV_VOID]); entry "id" (FV_I32 7);
   entry "product" (FV_UTF8 (view (chars "b")))].
Definition sample_merged : amqp_table_t :=
  [entry "product" (FV_UTF8 (view (chars "b")));
   entry "capabilities" (FV_TABLE [entry "x" (FV_BOOLEAN 1); entry "y" (FV_BOOLEAN 1); entry "z" FV_VOID]);
   entry "id" (FV_I32 7)].

Ltac mergeable_example :=
  split; [repeat (apply Forall_cons; split; [split; vm_compute; repeat split; discriminate|]); constructor
         |split; [apply (bool_decide_eq_true_1 _); vm_compute; reflexivity|]].

Lemma sample_base_mergeable : mergeable sample_base.
Proof.
  mergeable_example. repeat (apply Forall_cons; split); [exact I| |constructor].
  split; [apply (bool_decide_eq_true_1 _); vm_compute; reflexivity|repeat split].
Qed.

Lemma sample_add_mergeable : mergeable sample_add.
Proof.
  mergeable_example. repeat (apply Forall_cons; split); [|exact I|exact I|constructor].
  split; [apply (bool_decide_eq_true_1 _); vm_compute; reflexivity|repeat split].
Qed.

Lemma sample_may_merge : may_merge sample_base (Some sample_add).
Proof.
  split; [apply sample_base_mergeable|split; [apply sample_add_mergeable|]|vm_compute; discriminate].
  split; [vm_compute; repeat split; discriminate|reflexivity].
Qed.

Definition empty_pool_state : pstate := {| ps_heap := fresh_heap generous; ps_pool := init_amqp_pool 4096 |}.


(** *** A server *)

Definition sample_start (mechanisms : string) : amqp_connection_start_t :=
  {| connection_start_version_major := 0; connection_start_version_minor := 9;
     connection_start_server_properties := [entry "product" (FV_UTF8 (view (chars "RabbitMQ")))];
     connection_start_mechanisms := view (chars mechanisms); connection_start_locales := view (chars "en_US") |}.
Definition sample_tune : amqp_connection_tune_t :=
  {| connection_tune_channel_max := 2047; connection_tune_frame_max := 131072; connection_tune_heartbeat := 60 |}.
Definition sample_open_ok : amqp_connection_open_ok_t := {| connection_open_ok_known_hosts := view [] |}.
Definition sample_close : amqp_connection_close_t :=
  {| connection_close_reply_code := 403; connection_close_reply_text := view (chars "ACCESS_REFUSED");
     connection_close_class_id := 0; connection_close_method_id := 0 |}.

Definition accepting : list amqp_frame_t :=
  [start_frame (sample_start "AMQPLAIN PLAIN"); tune_frame sample_tune; open_ok_frame sample_open_ok; sample_other].
Definition refusing : list amqp_frame_t := [start_frame (sample_start "AMQPLAIN PLAIN"); close_frame sample_close].
Definition foreign : list amqp_frame_t := [start_frame (sample_start "AMQPLAIN EXTERNAL")].

Ltac acceptable_method := split; [|by vm_compute]; split; [by vm_compute|]; split; [repeat constructor; by vm_compute|];
  split; [done|]; split; [done|]; split; [by vm_compute|]; split; repeat constructor; by vm_compute.

Lemma start_acceptable mechanisms : mechanisms = "AMQPLAIN PLAIN"%string \/ mechanisms = "AMQPLAIN EXTERNAL"%string ->
  acceptable AMQP_INITIAL_FRAME_POOL_PAGE_SIZE (start_frame (sample_start mechanisms)) /\
  presentable (start_frame (sample_start mechanisms)).
Proof.
  intros [->| ->]; (split; [acceptable_method|]); (split; [by vm_compute|]); (split; [reflexivity|]); vm_compute; discriminate.
Qed.

Lemma other_acceptable fm : 11 <= fm -> acceptable fm sample_other.
Proof.
  intros Hfm. split; [split; [by vm_compute|]; split; [repeat constructor; by vm_compute|done]|].
  change (zlen (wire_frame sample_other)) with 11. done.
Qed.

Lemma open_ok_acceptable fm : 13 <= fm -> acceptable fm (open_ok_frame sample_open_ok).
Proof.
  intros Hfm. split; [|change (zlen (wire_frame (open_ok_frame sample_open_ok))) with 13; done].
  split; [by vm_compute|]; split; [repeat constructor; by vm_compute|];
  split; [done|]; split; [done|]; split; [by vm_compute|]; split; repeat constructor; by vm_compute.
Qed.

Lemma accepting_frames : Forall (acceptable AMQP_INITIAL_FRAME_POOL_PAGE_SIZE) accepting.
Proof.
  apply Forall_cons. split; [apply start_acceptable; by left|]. apply Forall_cons. split; [acceptable_method|].
  apply Forall_cons. split; [by apply open_ok_acceptable|]. apply Forall_cons. split; [by apply other_acceptable|constructor].
Qed.

Lemma refusing_frames : Forall (acceptable AMQP_INITIAL_FRAME_POOL_PAGE_SIZE) refusing.
Proof.
  apply Forall_cons. split; [apply start_acceptable; by left|]. apply Forall_cons. split; [acceptable_method|constructor].
Qed.

Lemma foreign_frames : Forall (acceptable AMQP_INITIAL_FRAME_POOL_PAGE_SIZE) foreign.
Proof. apply Forall_cons. split; [apply start_acceptable; by right|constructor]. Qed.

(** A network that brings the frames [fs], a hundred bytes at a time. *)
Definition bringing (fs : list amqp_frame_t) : script :=
  {| sc_sent := []; sc_coming := concat (map wire_frame fs); sc_hiccups := 2; sc_chunk := 100 |}.

(** A connection from [amqp_new_connection] over such a network. *)
Lemma bringing_newcomer fs :
  Forall (acceptable AMQP_INITIAL_FRAME_POOL_PAGE_SIZE) fs -> match fs with [] => True | f :: _ => presentable f end ->
  Forall is_byte (concat (map wire_frame fs)) -> zlen (concat (map wire_frame fs)) + 2 * zlen fs <= 100000 ->
  exists p out inb h K0 m, amqp_new_connection (fresh_heap generous, bringing fs) =
      Ret (Some (fresh_connection p out inb)) (h, bringing fs) /\ zlen m = AMQP_INITIAL_FRAME_POOL_PAGE_SIZE /\
    newcomer K0 AMQP_INITIAL_FRAME_POOL_PAGE_SIZE 1000 fs out m (connecting p out inb h (bringing fs)).
Proof.
  intros Hfs Hf Hb Hz. destruct (new_connection_shape (fresh_heap generous) (bringing fs) (fresh_heap_ok _)) as
    (p & out & inb & h & Hrun & Hm); [by intros n _|].
  destruct (connecting_newcomer p out inb h (bringing fs) 1000 fs) as (K0 & m & Hzm & Hn); try done.
  - change (n_coming (bringing fs)) with (concat (map wire_frame fs)). unfold INT32_MAX. lia.
  - by exists p, out, inb, h, K0, m.
Qed.

Definition sample_props : option amqp_table_t := Some [entry "connection_name" (FV_UTF8 (view (chars "demo")))].

Lemma sample_client : presentable_client (literal "0.15.0") (literal "Linux") sample_props AMQP_SASL_METHOD_PLAIN
  [literal "guest"; literal "secret"] (chars "PLAIN") ([0] ++ chars "guest" ++ [0] ++ chars "secret").
Proof.
  split; [split; [by eexists|by vm_compute]|split; [by eexists|by vm_compute]| | |reflexivity|reflexivity|discriminate|by vm_compute].
  - repeat (apply Forall_cons; split; [split; [by eexists|by vm_compute]|]). constructor.
  - split; [|split; [vm_compute; repeat split; discriminate|by vm_compute]]. mergeable_example. repeat constructor.
Qed.

Lemma sample_agreeable : agreeable AMQP_SASL_METHOD_PLAIN (sample_start "AMQPLAIN PLAIN").
Proof.
  split; [reflexivity|reflexivity| | |by vm_compute|].
  - split; [by vm_compute|]. repeat (apply Forall_cons; split; [vm_compute; repeat split; discriminate|]). constructor.
  - repeat (apply Forall_cons; split; [vm_compute; repeat split; discriminate|]). constructor.
  - exists (chars "PLAIN"). split; [reflexivity|]. apply (bool_decide_eq_true_1 _). vm_compute. reflexivity.
Qed.

(** The client of the examples, on a connection over [bringing fs]. *)
Definition sample_login (fs : list amqp_frame_t) (p out inb : ptr) (h : heap) : outcome (cst script) amqp_rpc_reply_t :=
  amqp_login_with_properties blank_properties 2000 (literal "0.15.0") (literal "Linux") (literal "/") 0 131072 0 sample_props
    AMQP_SASL_METHOD_PLAIN [literal "guest"; literal "secret"] (connecting p out inb h (bringing fs)).

Definition sample_start_ok : amqp_frame_t :=
  start_ok_frame (announced (default_table (literal "0.15.0") (literal "Linux")) sample_props) (chars "PLAIN")
    ([0] ++ chars "guest" ++ [0] ++ chars "secret").


Lemma login_refused_witness :
  exists p out inb h s', sample_login refusing p out inb h = Ret (server_exception
      {| method_id := AMQP_CONNECTION_CLOSE_METHOD; method_decoded := M_CONNECTION_CLOSE sample_close |}) s' /\
    sc_sent (world s') = amqp_protocol_header ++ wire_frame sample_start_ok.
Proof.
  destruct (bringing_newcomer refusing refusing_frames (proj2 (start_acceptable _ (or_introl eq_refl)))
    ltac:(repeat constructor; by vm_compute) ltac:(by vm_compute)) as (p & out & inb & h & K0 & m & Hnew & Hz & Hn).
  unshelve epose proof (login_refused blank_properties 2000 (literal "0.15.0") (literal "Linux") K0 _ 1000 out m
    (sample_start "AMQPLAIN PLAIN") sample_close [] (literal "/") 0 131072 0 sample_props
    AMQP_SASL_METHOD_PLAIN [literal "guest"; literal "secret"] (chars "PLAIN") _ (connecting p out inb h (bringing refusing))
    Hn eq_refl _ _ _ sample_agreeable sample_client _ _ _) as Hw.
  1-3: by vm_compute.
  - rewrite Hz. by vm_compute.
  - by vm_compute.
  - apply Nat.ltb_lt. by vm_compute.
  - destruct (wp_run_ret _ _ _ Hw) as (rep & s' & Hrun & -> & Hs).
    exists p, out, inb, h, s'. split; [exact Hrun|exact Hs].
Defined.

Lemma login_withholds_witness :
  exists p out inb h s', sample_login foreign p out inb h =
      Ret (amqp_rpc_reply_error AMQP_STATUS_BROKER_UNSUPPORTED_SASL_METHOD) s' /\
    sc_sent (world s') = amqp_protocol_header.
Proof.
  destruct (bringing_newcomer foreign foreign_frames (proj2 (start_acceptable _ (or_intror eq_refl)))
    ltac:(repeat constructor; by vm_compute) ltac:(by vm_compute)) as (p & out & inb & h & K0 & m & Hnew & Hz & Hn).
  unshelve epose proof (login_withholds blank_properties 2000 (literal "0.15.0") (literal "Linux") K0 _ 1000 out m
    (sample_start "AMQPLAIN EXTERNAL") [] (literal "/") 0 131072 0 sample_props
    AMQP_SASL_METHOD_PLAIN [literal "guest"; literal "secret"] AMQP_STATUS_BROKER_UNSUPPORTED_SASL_METHOD
    (connecting p out inb h (bringing foreign)) Hn eq_refl _ _ _ _ (ag_copyable _ _ sample_agreeable)
    (ag_accepted _ _ sample_agreeable) (ag_requests _ _ sample_agreeable) _) as Hw.
  1-3: by vm_compute.
  - vm_compute. reflexivity.
  - apply Nat.ltb_lt. by vm_compute.
  - destruct (wp_run_ret _ _ _ Hw) as (rep & s' & Hrun & -> & Hs).
    exists p, out, inb, h, s'. split; [exact Hrun|exact Hs].
Defined.

(** *** A server with a very small frame size *)

Definition tuning (n : Z) : list amqp_frame_t :=
  [start_frame (sample_start "AMQPLAIN PLAIN");
   tune_frame {| connection_tune_channel_max := 2047; connection_tune_frame_max := n; connection_tune_heartbeat := 60 |}].

(** Logging in on a new connection whose server asks for frames of [n] bytes. *)
Definition tuned_login (n : Z) : outcome (cst script) amqp_rpc_reply_t :=
  match amqp_new_connection (fresh_heap generous, bringing (tuning n)) with
  | Ret (Some c) (h, w) =>
      amqp_login blank_properties 400 (literal "0.15.0") (literal "Linux") (literal "/") 0 131072 0
        AMQP_SASL_METHOD_PLAIN [literal "guest"; literal "secret"]
        {| conn := set_timeouts None None (set_socket (Some 1) c); hp := h; world := w |}
  | _ => NoFuel
  end.

