(* ===== verification/ToolCommon.v ===== *)
(** * What the command line tools share: [tools/common.c]

    Diagnostics, the connection options, connecting and closing, and copying data
    between descriptors and the connection.  The calls of the tools to the system
    (files, streams, processes) are a parameter, the class [Posix]; libpopt is
    another, the class [Popt].  The tools are modelled as they are built without
    TLS support (ENABLE_SSL_SUPPORT off). *)

From Stdlib Require Import String.
From S2P Require Import Url Prelude Machine Status Alloc Codec Table Framing Methods MethodDecode MethodEncode Properties Mem Time Frame Connection Socket TcpSocket Api Wrappers Login.

(** ** The system and libpopt *)

Inductive file_action : Type := ADD_DUP2 (fd newfd : Z) | ADD_CLOSE (fd : Z).

(** Streams are numbered; [px_read] also returns what it has put into the buffer,
    [px_fgets] the characters without the NUL it appends, and [None] for NULL.
    Calls that set [errno] return it last.  The [posix_spawn] functions return an
    error number. *)
Class Posix (V : Type) : Type := {
  px_read : Z -> Z -> C V (Z * list Z * Z);
  px_write : Z -> list Z -> C V (Z * Z);
  px_close : Z -> C V (Z * Z);
  px_fopen : list Z -> C V (option Z);
  px_fgets : Z -> Z -> C V (option (list Z));
  px_fgetc : Z -> C V Z;
  px_feof : Z -> C V bool;
  px_fputs : Z -> list Z -> C V unit;
  px_strerror : Z -> C V (list Z);
  px_pipe : C V (Z * (Z * Z) * Z);
  px_actions_init : C V Z;
  px_actions_add : file_action -> C V Z;
  px_actions_destroy : C V Z;
  px_spawnp : list (list Z) -> list file_action -> C V (Z * Z);
  px_waitpid : Z -> C V (Z * Z * Z)
}.

Definition stdin : Z := 0.
Definition stdout : Z := 1.
Definition stderr : Z := 2.

(** Where an option is stored, and how. *)
Inductive popt_arg (St : Type) : Type :=
| POPT_ARG_STRING (store : list Z -> St -> St)
| POPT_ARG_INT (store : Z -> St -> St)
| POPT_ARG_NONE (store : Z -> St -> St)
| POPT_ARG_VAL (store : Z -> St -> St) (val : Z)
| POPT_ARG_ARGV (append : list Z -> St -> St).
Arguments POPT_ARG_STRING {St}.
Arguments POPT_ARG_INT {St}.
Arguments POPT_ARG_NONE {St}.
Arguments POPT_ARG_VAL {St}.
Arguments POPT_ARG_ARGV {St}.

Record poptOption (St : Type) : Type := mk_option { longName : string; shortName : string; arg : popt_arg St }.
Arguments mk_option {St}.

(** [poptGetNextOpt] stores what the options say; it may also end the program. *)
Class Popt (V : Type) : Type := {
  poptContext : Type -> Type;
  poptGetContext : forall {St}, list (list Z) -> list (poptOption St) -> poptContext St;
  poptGetNextOpt : forall {St}, poptContext St -> St -> C V (Z * poptContext St * St);
  poptGetArgs : forall {St}, poptContext St -> list (list Z);
  poptBadOption : forall {St}, poptContext St -> list Z;
  poptStrerror : Z -> list Z;
  poptUsage : forall {St}, poptContext St -> list Z
}.

(** ** The state of a tool

    The connection ([None] before it is made, when it could not be, and after it is
    destroyed), the memory, the network, and everything else outside.  An early
    return is the end of the program with that exit status. *)
Record tst (W V : Type) : Type := mk_tst {
  t_conn : option amqp_connection_state_t;
  t_heap : heap;
  t_net : W;
  t_env : V
}.
Arguments mk_tst {W V}.
Arguments t_conn {W V}.
Arguments t_heap {W V}.
Arguments t_net {W V}.
Arguments t_env {W V}.

Section Lift.
Context {W V : Type}.
Abbreviation T A := (C (tst W V) A).

(** The state around a connection of the library. *)
Definition around (s : cst W) (v : V) : tst W V :=
  {| t_conn := Some (conn s); t_heap := hp s; t_net := world s; t_env := v |}.

(** A call of the library with the connection. *)
Definition on_lib {A} (m : C (cst W) A) : T A := fun s =>
  match t_conn s with
  | None => UB
  | Some c =>
      match m {| conn := c; hp := t_heap s; world := t_net s |} with
      | Ret a s' => Ret a (around s' (t_env s))
      | Err e s' => Err e (around s' (t_env s))
      | UB => UB
      | NoFuel => NoFuel
      end
  end.

Definition on_heap {A} (m : C heap A) : T A := fun s =>
  match m (t_heap s) with
  | Ret a h => Ret a {| t_conn := t_conn s; t_heap := h; t_net := t_net s; t_env := t_env s |}
  | Err e h => Err e {| t_conn := t_conn s; t_heap := h; t_net := t_net s; t_env := t_env s |}
  | UB => UB
  | NoFuel => NoFuel
  end.

Definition on_env {A} (m : C V A) : T A := fun s =>
  match m (t_env s) with
  | Ret a v => Ret a {| t_conn := t_conn s; t_heap := t_heap s; t_net := t_net s; t_env := v |}
  | Err e v => Err e {| t_conn := t_conn s; t_heap := t_heap s; t_net := t_net s; t_env := v |}
  | UB => UB
  | NoFuel => NoFuel
  end.

(** [amqp_get_rpc_reply(conn)] *)
Definition last_reply : T amqp_rpc_reply_t :=
  on_lib (let* c := the_conn in ret (amqp_get_rpc_reply c)).
End Lift.

(** ** Strings *)

Definition newline : Z := 10.

(** [%.*s] with precision [n]: at most [n] characters, and none after a NUL.  A
    negative precision is no precision. *)
Fixpoint first_chars (n : nat) (m : list Z) : option (list Z) :=
  match n, m with
  | O, _ => Some []
  | S _, [] => None
  | S n', c :: m' => if c =? 0 then Some [] else cons c <$> first_chars n' m'
  end.

Definition precision_s {S} (n : Z) (m : option (list Z)) : C S (list Z) :=
  match m with
  | None => undefined
  | Some m =>
      match (if n <? 0 then until_nul m else first_chars (Z.to_nat n) m) with
      | Some s => ret s
      | None => undefined
      end
  end.

(** [%d] *)
Definition print_int (n : Z) : list Z := if n <? 0 then 45 :: decimal 10 (- n) else decimal 10 n.

(** [%X], and [%08X] with its leading zeros. *)
Definition hex_digit (d : Z) : Z := if d <? 10 then 48 + d else 55 + d.
Fixpoint hexadecimal (fuel : nat) (n : Z) : list Z :=
  match fuel with
  | O => []
  | S fuel' => if n <? 16 then [hex_digit n] else hexadecimal fuel' (n / 16) ++ [hex_digit (n mod 16)]
  end.
Definition print_hex8 (n : Z) : list Z :=
  let d := hexadecimal 8 n in replicate (8 - length d) 48 ++ d.

(** [strchr]: what is before the first [c] and what is behind it. *)
Fixpoint strchr (c : Z) (s : list Z) : option (list Z * list Z) :=
  match s with
  | [] => None
  | x :: s' => if x =? c then Some ([], s') else (fun '(a, b) => (x :: a, b)) <$> strchr c s'
  end.

(** [strdup] of the string [s]. *)
Definition strdup (s : list Z) : C heap (option ptr) :=
  let* p := c_malloc (zlen s + 1) in
  match p with
  | None => ret None
  | Some p => do* heap_store p (s ++ [0]) in ret (Some p)
  end.

(** A [char *]: a string of the program (a literal or an argument) or memory. *)
Inductive c_str : Type := Str (s : list Z) | Mem (p : ptr).

(** The memory a [char *] reaches. *)
Definition memory_of (s : c_str) : C heap (list Z) := fun h =>
  match s with
  | Str s => Ret (s ++ [0]) h
  | Mem p =>
      match h_blocks h !! p_block p with
      | Some m => if 0 <=? p_off p then Ret (drop (Z.to_nat (p_off p)) m) h else UB
      | None => UB
      end
  end.

(** An [amqp_bytes_t] in memory, as the library reads it. *)
Definition heap_view (b : heap_bytes) : C heap amqp_bytes_t :=
  match hb_bytes b with
  | None => ret {| len := hb_len b; bytes := None |}
  | Some p => let* m := memory_of (Mem p) in ret {| len := hb_len b; bytes := Some m |}
  end.

Definition cstring_bytes {S} (str : option (list Z)) : C S amqp_bytes_t :=
  match str with
  | Some s => amqp_cstring_bytes (s ++ [0])
  | None => ret amqp_empty_bytes
  end.

(** ** Diagnostics *)

Section Die.
Context {W V : Type} {HX : Posix V}.
Abbreviation T A := (C (tst W V) A).

Definition complain (s : list Z) : T unit := on_env (px_fputs stderr s).

Definition die {A} (message : list Z) : T A :=
  do* complain message in
  do* complain [newline] in
  throw 1.

Definition die_errno (err : Z) (message : list Z) : T unit :=
  if err =? 0 then ret tt
  else
    do* complain message in
    let* e := on_env (px_strerror err) in
    do* complain (chars ": " ++ e ++ [newline]) in
    throw 1.

Definition die_amqp_error (err : Z) (message : list Z) : T unit :=
  if 0 <=? err then ret tt
  else
    do* complain message in
    let* e := amqp_error_string2 err in
    do* complain (chars ": " ++ chars e ++ [newline]) in
    throw 1.

(** [snprintf(s, sizeof(s), ...)] with 512 characters. *)
Definition printed (s : list Z) : list Z := take 511 s.

Definition exception_text (kind : list Z) (reply_code : Z) (reply_text : amqp_bytes_t) : T (list Z) :=
  let* text := precision_s (to_int (len reply_text)) (bytes reply_text) in
  ret (printed (chars "server " ++ kind ++ chars " error " ++ print_int reply_code ++ chars ", message: " ++ text)).

Definition amqp_server_exception_string (r : amqp_rpc_reply_t) : T (list Z) :=
  if reply_id r =? AMQP_CONNECTION_CLOSE_METHOD then
    match reply_decoded r with
    | Some (M_CONNECTION_CLOSE m) =>
        exception_text (chars "connection") (connection_close_reply_code m) (connection_close_reply_text m)
    | _ => undefined
    end
  else if reply_id r =? AMQP_CHANNEL_CLOSE_METHOD then
    match reply_decoded r with
    | Some (M_CHANNEL_CLOSE m) =>
        exception_text (chars "channel") (channel_close_reply_code m) (channel_close_reply_text m)
    | _ => undefined
    end
  else ret (printed (chars "unknown server error, method id 0x" ++ print_hex8 (reply_id r))).

Definition amqp_rpc_reply_string (r : amqp_rpc_reply_t) : T (list Z) :=
  match reply_type r with
  | AMQP_RESPONSE_NORMAL => ret (chars "normal response")
  | AMQP_RESPONSE_NONE => ret (chars "missing RPC reply type")
  | AMQP_RESPONSE_LIBRARY_EXCEPTION => let* e := amqp_error_string2 (library_error r) in ret (chars e)
  | AMQP_RESPONSE_SERVER_EXCEPTION => amqp_server_exception_string r
  end.

Definition die_rpc (r : amqp_rpc_reply_t) (message : list Z) : T unit :=
  match reply_type r with
  | AMQP_RESPONSE_NORMAL => ret tt
  | _ =>
      do* complain message in
      let* e := amqp_rpc_reply_string r in
      do* complain (chars ": " ++ e ++ [newline]) in
      throw 1
  end.
End Die.

(** ** The options of the connection *)

(** The static variables; the strings are without their NUL. *)
Record connect_statics : Type := mk_connect {
  amqp_url : option (list Z);
  amqp_server : option (list Z);
  amqp_port : Z;
  amqp_vhost : option (list Z);
  amqp_username : option (list Z);
  amqp_password : option (list Z);
  amqp_heartbeat : Z;
  amqp_authfile : option (list Z)
}.

Definition initial_connect : connect_statics :=
  {| amqp_url := None; amqp_server := None; amqp_port := -1; amqp_vhost := None; amqp_username := None;
     amqp_password := None; amqp_heartbeat := 0; amqp_authfile := None |}.

Definition store_connect (f : connect_statics -> option (list Z) * option (list Z) * Z * option (list Z) *
    option (list Z) * option (list Z) * Z * option (list Z)) (c : connect_statics) : connect_statics :=
  let '(u, s, p, v, n, w, h, a) := f c in
  {| amqp_url := u; amqp_server := s; amqp_port := p; amqp_vhost := v; amqp_username := n;
     amqp_password := w; amqp_heartbeat := h; amqp_authfile := a |}.

(** The table, for statics of which those of the connection are a part. *)
Definition connect_options {St : Type} (within : (connect_statics -> connect_statics) -> St -> St)
    : list (poptOption St) :=
  let set f := within (store_connect (fun c => f c (amqp_url c) (amqp_server c) (amqp_port c) (amqp_vhost c)
    (amqp_username c) (amqp_password c) (amqp_heartbeat c) (amqp_authfile c))) in
  [ mk_option "url" "u" (POPT_ARG_STRING (fun x => set (fun _ u s p v n w h a => (Some x, s, p, v, n, w, h, a))));
    mk_option "server" "s" (POPT_ARG_STRING (fun x => set (fun _ u s p v n w h a => (u, Some x, p, v, n, w, h, a))));
    mk_option "port" "" (POPT_ARG_INT (fun x => set (fun _ u s p v n w h a => (u, s, x, v, n, w, h, a))));
    mk_option "vhost" "" (POPT_ARG_STRING (fun x => set (fun _ u s p v n w h a => (u, s, p, Some x, n, w, h, a))));
    mk_option "username" "" (POPT_ARG_STRING (fun x => set (fun _ u s p v n w h a => (u, s, p, v, Some x, w, h, a))));
    mk_option "password" "" (POPT_ARG_STRING (fun x => set (fun _ u s p v n w h a => (u, s, p, v, n, Some x, h, a))));
    mk_option "heartbeat" "" (POPT_ARG_INT (fun x => set (fun _ u s p v n w h a => (u, s, p, v, n, w, x, a))));
    mk_option "authfile" "" (POPT_ARG_STRING (fun x => set (fun _ u s p v n w h a => (u, s, p, v, n, w, h, Some x)))) ].

(** ** What to connect to *)

(** [struct amqp_connection_info], whose strings may be in memory. *)
Record connection_info : Type := mk_ci {
  ci_user : c_str;
  ci_password : c_str;
  ci_host : c_str;
  ci_port : Z;
  ci_vhost : c_str;
  ci_ssl : Z
}.

(** The result of the URL parser, for a URL at [p]. *)
Definition from_url (p : ptr) (ci : amqp_connection_info) : connection_info :=
  let place s := match s with
                 | Lit s => Str s
                 | At o => Mem {| p_block := p_block p; p_off := p_off p + o |}
                 end in
  {| ci_user := place (user ci); ci_password := place (password ci); ci_host := place (host ci);
     ci_port := port ci; ci_vhost := place (vhost ci); ci_ssl := ssl ci |}.

Definition set_server (h : c_str) (n : Z) (ci : connection_info) : connection_info :=
  {| ci_user := ci_user ci; ci_password := ci_password ci; ci_host := h; ci_port := n;
     ci_vhost := ci_vhost ci; ci_ssl := ci_ssl ci |}.
Definition set_user (u : c_str) (ci : connection_info) : connection_info :=
  {| ci_user := u; ci_password := ci_password ci; ci_host := ci_host ci; ci_port := ci_port ci;
     ci_vhost := ci_vhost ci; ci_ssl := ci_ssl ci |}.
Definition set_secret (w : c_str) (ci : connection_info) : connection_info :=
  {| ci_user := ci_user ci; ci_password := w; ci_host := ci_host ci; ci_port := ci_port ci;
     ci_vhost := ci_vhost ci; ci_ssl := ci_ssl ci |}.
Definition set_virtual_host (v : c_str) (ci : connection_info) : connection_info :=
  {| ci_user := ci_user ci; ci_password := ci_password ci; ci_host := ci_host ci; ci_port := ci_port ci;
     ci_vhost := v; ci_ssl := ci_ssl ci |}.

Definition MAXAUTHTOKENLEN : Z := 128.
Definition USERNAMEPREFIX : list Z := chars "username:".
Definition PASSWORDPREFIX : list Z := chars "password:".

(** [strncpy(dst, s, n)] for a string [s] shorter than [n]: the string and zeros up
    to [n] bytes. *)
Definition strncpy (dst : ptr) (s : list Z) (n : Z) : C heap unit :=
  heap_store dst (s ++ replicate (Z.to_nat (n - zlen s)) 0).

Section Info.
Context {W V : Type} {HX : Posix V}.
Abbreviation T A := (C (tst W V) A).

(** One line of the file: it starts with the prefix, and what follows goes to
    [dst] without its newline.  The missing guard for an empty rest is the code's:
    the character before the block is read. *)
Definition read_token (fp : Z) (prefix : list Z) (dst : ptr) (missing too_long : list Z) : T unit :=
  let* line := on_env (px_fgets fp MAXAUTHTOKENLEN) in
  match line with
  | None => die missing
  | Some data =>
      match until_nul (data ++ [0]) with
      | None => undefined
      | Some token =>
          if negb (bytes_eqb (take (length prefix) token) prefix) then die missing
          else
            let rest := drop (length prefix) token in
            do* on_heap (strncpy dst rest MAXAUTHTOKENLEN) in
            let n := zlen rest in
            let* c := on_heap (heap_load {| p_block := p_block dst; p_off := p_off dst + (n - 1) |} 1) in
            if negb (bytes_eqb c [newline]) then die too_long
            else on_heap (heap_store {| p_block := p_block dst; p_off := p_off dst + (n - 1) |} [0])
      end
  end.

(** The user name and the password: what the static variables point to
    afterwards. *)
Definition read_authfile (path : list Z) : T (ptr * ptr) :=
  let* username := on_heap (c_malloc MAXAUTHTOKENLEN) in
  let* password := (match username with None => ret None | Some _ => on_heap (c_malloc MAXAUTHTOKENLEN) end) in
  match username, password with
  | Some username, Some password =>
      let* fp := on_env (px_fopen path) in
      match fp with
      | None => die (chars "Could not read auth data file " ++ path)
      | Some fp =>
          do* read_token fp USERNAMEPREFIX username
                (chars "Malformed auth file (missing username)") (chars "Username too long") in
          do* read_token fp PASSWORDPREFIX password
                (chars "Malformed auth file (missing password)") (chars "Password too long") in
          let* _ := on_env (px_fgetc fp) in
          let* eof := on_env (px_feof fp) in
          if negb eof then die (chars "Malformed auth file (trailing data)")
          else ret (username, password)
      end
  | _, _ => die (chars "Out of memory")
  end.

(** [if (amqp_url) die(...)] in front of the rest of an option. *)
Definition not_with_url (o : connect_statics) (option_name : list Z) : T unit :=
  match amqp_url o with
  | Some _ => die (chars "--" ++ option_name ++ chars " and --url options cannot be used at the same time")
  | None => ret tt
  end.

(** [--server host:port], which is deprecated, or [--server host]. *)
Definition server_info (o : connect_statics) (server : list Z) (ci : connection_info) : T connection_info :=
  match strchr colon server with
  | Some (hostname, digits) =>
      do* complain (chars "Specifying the port number with --server is deprecated" ++ [newline]) in
      let host_len := zlen hostname in
      let* p := on_heap (c_malloc (size_t (host_len + 1))) in
      match p with
      | None => undefined
      | Some p =>
          do* on_heap (heap_store p hostname) in
          do* on_heap (heap_store {| p_block := p_block p; p_off := p_off p + host_len |} [0]) in
          if 0 <=? amqp_port o then die (chars "both --server and --port options specify server port")
          else
            let '(v, n) := strtol_10 digits in
            let port := to_int v in
            if (port <? 0) || (65535 <? port) || (n =? 0) || negb (n =? zlen digits) then
              die (chars "bad server port number in '" ++ server ++ chars "'")
            else ret (set_server (Mem p) port ci)
      end
  | None => ret (set_server (Str server) 5672 ci)
  end.

(** A credential given by its own option. *)
Definition credential (o : connect_statics) (name : list Z) (given : option (list Z))
    (set : c_str -> connection_info -> connection_info) (ci : connection_info) : T connection_info :=
  match given with
  | None => ret ci
  | Some x =>
      do* not_with_url o name in
      match amqp_authfile o with
      | Some _ => die (chars "--" ++ name ++ chars " and --authfile options cannot be used at the same time")
      | None => ret (set (Str x) ci)
      end
  end.

Definition init_connection_info (o : connect_statics) : T connection_info :=
  let ci := from_url {| p_block := 0; p_off := 0 |} amqp_default_connection_info in
  let* ci :=
    match amqp_url o with
    | None => ret ci
    | Some url =>
        let* p := on_heap (strdup url) in
        match p with
        | None => undefined
        | Some p =>
            let* '(res, info) := on_heap (on_block p amqp_parse_url) in
            do* die_amqp_error res (chars "Parsing URL '" ++ url ++ chars "'") in
            ret (from_url p info)
        end
    end in
  let* ci :=
    match amqp_server o with
    | None => ret ci
    | Some server => do* not_with_url o (chars "server") in server_info o server ci
    end in
  let* ci :=
    if 0 <=? amqp_port o then
      do* not_with_url o (chars "port") in ret (set_server (ci_host ci) (amqp_port o) ci)
    else ret ci in
  let* ci := credential o (chars "username") (amqp_username o) set_user ci in
  let* ci := credential o (chars "password") (amqp_password o) set_secret ci in
  let* ci :=
    match amqp_authfile o with
    | None => ret ci
    | Some path =>
        do* not_with_url o (chars "authfile") in
        let* '(username, password) := read_authfile path in
        ret (set_secret (Mem password) (set_user (Mem username) ci))
    end in
  let* ci :=
    match amqp_vhost o with
    | None => ret ci
    | Some v => do* not_with_url o (chars "vhost") in ret (set_virtual_host (Str v) ci)
    end in
  if amqp_heartbeat o <? 0 then die (chars "--heartbeat must be a positive value")
  else ret ci.
End Info.

(** ** Reading, writing and copying *)

Section Io.
Context {W V : Type} {HC : Clock W} {HS : Sockets W} {HP : Poll W} {HH : Host} {HX : Posix V}.
Context (uninit : amqp_basic_properties_t).
Context (fuel : nat).
Abbreviation T A := (C (tst W V) A).

(** [bytes.len += res] and the doubling of the buffer. *)
Definition read_more (p : ptr) (length space res : Z) : T (option ptr * Z * Z) :=
  let length := size_t (length + res) in
  if length =? space then
    let space := size_t (space * 2) in
    let* q := on_heap (c_realloc p space) in
    ret (q, length, space)
  else ret (Some p, length, space).

(** Memory that could not be allocated is not checked for. *)
Definition read_all (fd : Z) : T heap_bytes :=
  let* p := on_heap (c_malloc 4096) in
  iter fuel (fun '(p, length, space) =>
    match p with
    | None => undefined
    | Some q =>
        let* '(res, data, errno) := on_env (px_read fd (size_t (space - length))) in
        if res =? 0 then ret (inr {| hb_len := length; hb_bytes := Some q |})
        else if res <? 0 then
          if errno =? EINTR then ret (inl (Some q, length, space))
          else
            do* die_errno errno (chars "reading") in
            let* next := read_more q length space res in
            ret (inl next)
        else
          do* on_heap (heap_store {| p_block := p_block q; p_off := p_off q + length |} data) in
          let* next := read_more q length space res in
          ret (inl next)
    end) (p, 0, 4096).

(** A failed [write] has set [errno], so [die_errno] does not return. *)
Definition write_all (fd : Z) (data : amqp_bytes_t) : T unit :=
  iter fuel (fun d =>
    if 0 <? len d then
      match bytes d with
      | None => undefined
      | Some m =>
          match load 0 (len d) m with
          | None => undefined
          | Some buf =>
              let* '(res, errno) := on_env (px_write fd buf) in
              if res <? 0 then do* die_errno errno (chars "write") in undefined
              else ret (inl {| len := size_t (len d - res); bytes := Some (drop (Z.to_nat res) m) |})
          end
      end
    else ret (inr tt)) data.

(** The next frame; [frame] is what the variable held. *)
Definition next_frame (frame : amqp_frame_t) (message : list Z) : T amqp_frame_t :=
  let* r := on_lib (try_ (amqp_simple_wait_frame uninit fuel frame)) in
  match r with
  | inr frame => ret frame
  | inl res => do* die_amqp_error res message in undefined
  end.

Definition copy_body (fd : Z) : T unit :=
  let* frame := next_frame new_frame (chars "waiting for header frame") in
  if negb (frame_type frame =? AMQP_FRAME_HEADER) then
    die (chars "expected header, got frame type 0x" ++ hexadecimal 8 (frame_type frame))
  else
    match payload frame with
    | PL_properties _ body_size _ _ =>
        iter fuel (fun '(body_remaining, frame) =>
          if negb (body_remaining =? 0) then
            let* frame := next_frame frame (chars "waiting for body frame") in
            if negb (frame_type frame =? AMQP_FRAME_BODY) then
              die (chars "expected body, got frame type 0x" ++ hexadecimal 8 (frame_type frame))
            else
              match payload frame with
              | PL_body_fragment fragment =>
                  do* write_all fd fragment in
                  ret (inl (size_t (body_remaining - len fragment), frame))
              | _ => undefined
              end
          else ret (inr tt)) (body_size, frame)
    | _ => undefined
    end.

(** ** Closing *)

Definition destroy_connection : T Z :=
  let* res := on_lib amqp_destroy_connection in
  fun s => Ret res {| t_conn := None; t_heap := t_heap s; t_net := t_net s; t_env := t_env s |}.

Definition close_connection : T unit :=
  let* r := on_lib (amqp_channel_close uninit fuel 1 AMQP_REPLY_SUCCESS) in
  do* die_rpc r (chars "closing channel") in
  let* r := on_lib (amqp_connection_close uninit fuel AMQP_REPLY_SUCCESS) in
  do* die_rpc r (chars "closing connection") in
  let* res := destroy_connection in
  die_amqp_error res (chars "closing connection").

(** ** Options *)

Context {HO : Popt V}.

Definition process_options {St} (argv : list (list Z)) (options : list (poptOption St)) (st : St)
    : T (poptContext St * St) :=
  let opts := poptGetContext argv options in
  iter fuel (fun '(opts, st) =>
    let* '(c, opts, st) := on_env (poptGetNextOpt opts st) in
    if 0 <=? c then ret (inl (opts, st))
    else if c <? -1 then
      do* complain (poptBadOption opts ++ chars ": " ++ poptStrerror c ++ [newline]) in
      do* complain (poptUsage opts) in
      throw 1
    else ret (inr (opts, st))) (opts, st).

Definition process_all_options {St} (argv : list (list Z)) (options : list (poptOption St)) (st : St) : T St :=
  let* '(opts, st) := process_options argv options st in
  match poptGetArgs opts with
  | opt :: _ =>
      do* complain (chars "unexpected operand: " ++ opt ++ [newline]) in
      do* complain (poptUsage opts) in
      throw 1
  | [] => ret st
  end.
End Io.

(** ** Connecting *)

Section Connecting.
Context {N V : Type} {HN : Os N} {HC : Clock N} {HP : Poll N} {HH : Host} {HX : Posix V}.
Context (uninit : amqp_basic_properties_t) (AMQP_VERSION_STRING AMQ_PLATFORM : list Z).
Context (fuel : nat).
Abbreviation T A := (C (tst (tcp N) V) A).
#[local] Instance tool_sockets : Sockets (tcp N) := amqp_tcp_socket_class fuel.

Definition new_connection : T unit := fun s =>
  match amqp_new_connection (t_heap s, t_net s) with
  | Ret c (h, w) => Ret tt {| t_conn := c; t_heap := h; t_net := w; t_env := t_env s |}
  | Err e (h, w) => Err e {| t_conn := None; t_heap := h; t_net := w; t_env := t_env s |}
  | UB => UB
  | NoFuel => NoFuel
  end.

(** The status of [amqp_socket_open] is not zero: negative ones end the program. *)
Definition make_connection (o : connect_statics) : T unit :=
  let* ci := init_connection_info o in
  do* new_connection in
  if negb (ci_ssl ci =? 0) then die (chars "librabbitmq was not built with SSL/TLS support")
  else
    let* socket := on_lib (amqp_tcp_socket_new fuel) in
    match socket with
    | None => die (chars "creating TCP socket (out of memory)")
    | Some i =>
        let* host := on_heap (memory_of (ci_host ci)) in
        let* status := on_lib (amqp_socket_open (Some i) host (ci_port ci)) in
        do* (if negb (status =? 0) then
               die_amqp_error status (chars "opening socket to " ++ default [] (until_nul host) ++ chars ":" ++
                                      print_int (ci_port ci))
             else ret tt) in
        let* vhost := on_heap (memory_of (ci_vhost ci)) in
        let* user := on_heap (memory_of (ci_user ci)) in
        let* password := on_heap (memory_of (ci_password ci)) in
        let* r := on_lib (amqp_login uninit fuel AMQP_VERSION_STRING AMQ_PLATFORM vhost 0 131072
                            (amqp_heartbeat o) AMQP_SASL_METHOD_PLAIN [user; password]) in
        do* die_rpc r (chars "logging in to AMQP server") in
        let* ok := on_lib (amqp_channel_open uninit fuel 1) in
        match ok with
        | Some _ => ret tt
        | None => let* r := last_reply in die_rpc r (chars "opening channel")
        end
    end.
End Connecting.
