(* ===== verification/ToolMain.v ===== *)
(** * The command line tools: [tools/publish.c], [get.c], [consume.c],
    [declare_queue.c], [delete_queue.c] and [unix/process.c]

    Each tool is its [main]: the exit status it returns with, or ends with early. *)

From Stdlib Require Import String.
From S2P Require Import Url Prelude Machine Status Alloc Codec Table Framing Methods MethodDecode MethodEncode Properties Mem Time Frame Connection Socket TcpSocket Api Wrappers Login ToolCommon.

(** ** Child processes ([unix/process.c]) *)

Record pipeline_t : Type := mk_pipeline { pid : Z; infd : Z }.

Definition WIFEXITED (status : Z) : bool := Z.land status 0x7f =? 0.
Definition WEXITSTATUS (status : Z) : Z := Z.land (Z.shiftr status 8) 0xff.

Section Process.
Context {W V : Type} {HX : Posix V}.
Abbreviation T A := (C (tst W V) A).

(** [die_errno(f(...), "f")] *)
Definition must (m : C V Z) (message : list Z) : T unit :=
  let* err := on_env m in die_errno err message.

(** A command is given by its arguments, the first of which is its name. *)
Definition pipeline (argv : list (list Z)) : T pipeline_t :=
  let* '(r, (rfd, wfd), errno) := on_env px_pipe in
  do* (if negb (r =? 0) then die_errno errno (chars "pipe") else ret tt) in
  let actions := [ADD_DUP2 rfd 0; ADD_CLOSE rfd; ADD_CLOSE wfd] in
  do* must px_actions_init (chars "posix_spawn_file_actions_init") in
  do* must (px_actions_add (ADD_DUP2 rfd 0)) (chars "posix_spawn_file_actions_adddup2") in
  do* must (px_actions_add (ADD_CLOSE rfd)) (chars "posix_spawn_file_actions_addclose") in
  do* must (px_actions_add (ADD_CLOSE wfd)) (chars "posix_spawn_file_actions_addclose") in
  let* '(err, pid) := on_env (px_spawnp argv actions) in
  do* die_errno err (chars "posix_spawnp: " ++ default [] (head argv)) in
  do* must px_actions_destroy (chars "posix_spawn_file_actions_destroy") in
  let* '(r, errno) := on_env (px_close rfd) in
  do* (if negb (r =? 0) then die_errno errno (chars "close") else ret tt) in
  ret {| pid := pid; infd := wfd |}.

Definition finish_pipeline (pl : pipeline_t) : T bool :=
  let* '(r, errno) := on_env (px_close (infd pl)) in
  do* (if negb (r =? 0) then die_errno errno (chars "close") else ret tt) in
  let* '(r, status, errno) := on_env (px_waitpid (pid pl)) in
  do* (if r <? 0 then die_errno errno (chars "waitpid") else ret tt) in
  ret (WIFEXITED status && (WEXITSTATUS status =? 0)).
End Process.

(** ** amqp-consume ([consume.c]) *)

Definition MAX_LISTEN_KEYS : Z := 1024.
Definition LISTEN_KEYS_DELIMITER : Z := 44.
Definition AMQP_CONSUME_MAX_PREFETCH_COUNT : Z := 65535.

(** The characters for one byte of a name. *)
Definition escape (b : Z) : list Z :=
  if (32 <=? b) && negb (b =? 127) then [b]
  else [92; 48 + Z.shiftr b 6; 48 + Z.land (Z.shiftr b 3) 0x7; 48 + Z.land b 0x7].

(** [strtok_r] with one delimiter: the next token and where to go on. *)
Fixpoint skip_delimiters (s : list Z) : list Z :=
  match s with
  | c :: s' => if c =? LISTEN_KEYS_DELIMITER then skip_delimiters s' else s
  | [] => []
  end.
Definition strtok_r (rest : list Z) : option (list Z * list Z) :=
  match skip_delimiters rest with
  | [] => None
  | s => match strchr LISTEN_KEYS_DELIMITER s with Some (tok, rest) => Some (tok, rest) | None => Some (s, []) end
  end.

Section Consume.
Context {W V : Type} {HC : Clock W} {HS : Sockets W} {HP : Poll W} {HH : Host} {HX : Posix V}.
Context (uninit : amqp_basic_properties_t).
Context (fuel : nat).
Abbreviation T A := (C (tst W V) A).

(** The loop, from position [o] of the result on: where it ends. *)
Fixpoint put_escaped (p : ptr) (data : list Z) (o : Z) : C heap Z :=
  match data with
  | [] => ret o
  | c :: data' =>
      do* heap_store {| p_block := p_block p; p_off := p_off p + o |} (escape c) in
      put_escaped p data' (o + zlen (escape c))
  end.

(** The result is the memory of the string. *)
Definition stringify_bytes (b : amqp_bytes_t) : C heap ptr :=
  let* p := c_malloc (size_t (len b * 4 + 1)) in
  match p, load 0 (len b) (mem_of b) with
  | Some p, Some data =>
      let* n := put_escaped p data 0 in
      do* heap_store {| p_block := p_block p; p_off := p_off p + n |} [0] in
      ret p
  | _, _ => undefined
  end.

(** [if (!f(...)) die_rpc(amqp_get_rpc_reply(conn), message)]; what is returned is
    the pointer. *)
Definition or_die (m : C (cst W) (option amqp_decoded_t)) (message : list Z) : T (option amqp_decoded_t) :=
  let* r := on_lib m in
  match r with
  | Some _ => ret r
  | None => let* reply := last_reply in do* die_rpc reply message in ret None
  end.

(** The loop over the routing keys.  [routing_key_count] is never changed. *)
Definition bind_keys (queue_bytes eb : amqp_bytes_t) (routing_key : list Z) : T unit :=
  let routing_key_count := 0 in
  iter fuel (fun rest =>
    match strtok_r rest with
    | None => ret (inr tt)
    | Some (token, rest) =>
        if routing_key_count <? MAX_LISTEN_KEYS - 1 then
          let* key := cstring_bytes (Some token) in
          let* _ := or_die (amqp_queue_bind uninit fuel 1 queue_bytes eb key amqp_empty_table) (chars "queue.bind") in
          ret (inl rest)
        else ret (inr tt)
    end) routing_key.

(** [strdup(NULL)] is undefined: an exchange without a routing key. *)
Definition bind_exchange (queue_bytes : amqp_bytes_t) (exchange : list Z) (routing_key : option (list Z)) : T unit :=
  let* eb := cstring_bytes (Some exchange) in
  match routing_key with
  | None => undefined
  | Some routing_key =>
      let* routing_tmp := on_heap (strdup routing_key) in
      match routing_tmp with
      | None => do* complain (chars "could not allocate memory to parse routing key" ++ [newline]) in throw 1
      | Some routing_tmp =>
          do* bind_keys queue_bytes eb routing_key in
          on_heap (c_free (Some routing_tmp))
      end
  end.

(** The name the server has given the queue. *)
Definition server_name (res : option amqp_decoded_t) : T amqp_bytes_t :=
  match res with
  | Some (M_QUEUE_DECLARE_OK m) =>
      let* dup := on_heap (amqp_bytes_malloc_dup (queue_declare_ok_queue m)) in
      let* queue_bytes := on_heap (heap_view dup) in
      let* sq := on_heap (stringify_bytes queue_bytes) in
      let* text := on_heap (memory_of (Mem sq)) in
      do* complain (chars "Server provided queue name: " ++ default [] (until_nul text) ++ [newline]) in
      do* on_heap (c_free (Some sq)) in
      ret queue_bytes
  | _ => undefined
  end.

Definition is_null {A} (o : option A) : bool := match o with None => true | Some _ => false end.

Definition setup_queue (queue exchange routing_key : option (list Z)) (declare exclusive : Z) : T amqp_bytes_t :=
  let* queue_bytes := cstring_bytes queue in
  if is_null exchange && negb (is_null routing_key) then
    do* complain (chars "--routing-key option requires an exchange name to be provided with --exchange" ++ [newline]) in
    throw 1
  else if is_null queue || negb (is_null exchange) || negb (declare =? 0) || negb (exclusive =? 0) then
    let* res := or_die (amqp_queue_declare uninit fuel 1 queue_bytes 0 0 exclusive 1 amqp_empty_table)
                       (chars "queue.declare") in
    let* queue_bytes := (match queue with None => server_name res | Some _ => ret queue_bytes end) in
    do* (match exchange with
         | Some exchange => bind_exchange queue_bytes exchange routing_key
         | None => ret tt
         end) in
    ret queue_bytes
  else ret queue_bytes.

(** One round of the loop: a delivery goes to a new process, and is acknowledged
    when that has succeeded. *)
Definition consume_one (no_ack : Z) (argv : list (list Z)) : T unit :=
  let* frame := next_frame uninit fuel new_frame (chars "waiting for header frame") in
  match payload frame with
  | PL_method id decoded =>
      if negb (frame_type frame =? AMQP_FRAME_METHOD) || negb (id =? AMQP_BASIC_DELIVER_METHOD) then ret tt
      else
        match decoded with
        | M_BASIC_DELIVER deliver =>
            let delivery_tag := basic_deliver_delivery_tag deliver in
            let* pl := pipeline argv in
            do* copy_body uninit fuel (infd pl) in
            let* ok := finish_pipeline pl in
            do* (if ok && (no_ack =? 0) then
                   let* res := on_lib (status_of (amqp_basic_ack uninit fuel 1 delivery_tag 0)) in
                   die_amqp_error res (chars "basic.ack")
                 else ret tt) in
            on_lib amqp_maybe_release_buffers
        | _ => undefined
        end
  | _ => if negb (frame_type frame =? AMQP_FRAME_METHOD) then ret tt else undefined
  end.

(** The prefetch limits that go with a limited number of messages. *)
Definition limit_prefetch (count prefetch_count : Z) : T unit :=
  let limited := (0 <? count) && (count <=? AMQP_CONSUME_MAX_PREFETCH_COUNT) in
  do* (if limited then
         let* _ := or_die (amqp_basic_qos uninit fuel 1 0 count 0) (chars "basic.qos") in ret tt
       else ret tt) in
  if (0 <? prefetch_count) && (prefetch_count <=? AMQP_CONSUME_MAX_PREFETCH_COUNT) &&
     negb (limited && (count <=? prefetch_count)) then
    let* _ := or_die (amqp_basic_qos uninit fuel 1 0 prefetch_count 0) (chars "basic.qos") in ret tt
  else ret tt.

(** [i++] overflows after INT_MAX rounds. *)
Definition do_consume (queue : amqp_bytes_t) (no_ack count prefetch_count : Z) (argv : list (list Z)) : T unit :=
  do* limit_prefetch count prefetch_count in
  let* _ := or_die (amqp_basic_consume uninit fuel 1 queue amqp_empty_bytes 0 no_ack 0 amqp_empty_table)
                   (chars "basic.consume") in
  iter fuel (fun i =>
    if (count <? 0) || (i <? count) then
      do* consume_one no_ack argv in
      if i =? INT32_MAX then undefined else ret (inl (i + 1))
    else ret (inr tt)) 0.
End Consume.

(** ** amqp-get ([get.c]) *)

Section Get.
Context {W V : Type} {HC : Clock W} {HS : Sockets W} {HP : Poll W} {HH : Host} {HX : Posix V}.
Context (uninit : amqp_basic_properties_t).
Context (fuel : nat).
Abbreviation T A := (C (tst W V) A).

Definition do_get (queue : option (list Z)) : T bool :=
  let* q := cstring_bytes queue in
  let* r := on_lib (amqp_basic_get uninit fuel 1 q 1) in
  do* die_rpc r (chars "basic.get") in
  if reply_id r =? AMQP_BASIC_GET_EMPTY_METHOD then ret false
  else do* copy_body uninit fuel 1 in ret true.

(** ** amqp-publish ([publish.c]) *)

Definition MAX_LINE_LENGTH : Z := 1024 * 32.

Definition do_publish (exchange routing_key : option (list Z)) (props : amqp_basic_properties_t)
    (body : amqp_bytes_t) : T unit :=
  let* e := cstring_bytes exchange in
  let* k := cstring_bytes routing_key in
  let* res := on_lib (status_of (amqp_basic_publish uninit fuel 1 e k 0 0 (Some props) body)) in
  die_amqp_error res (chars "basic.publish").

(** One message per line, or part of a line too long for the buffer. *)
Definition publish_lines (exchange routing_key : option (list Z)) (props : amqp_basic_properties_t)
    (buffer : ptr) : T unit :=
  iter fuel (fun _ =>
    let* line := on_env (px_fgets stdin MAX_LINE_LENGTH) in
    match line with
    | None => ret (inr tt)
    | Some data =>
        do* on_heap (heap_store buffer (data ++ [0])) in
        let* m := on_heap (memory_of (Mem buffer)) in
        let* body := amqp_cstring_bytes m in
        do* do_publish exchange routing_key props body in
        ret (inl tt)
    end) tt.

(** What is published: the body that is given, the lines of standard input, or all
    of it.  The result is [body_bytes.bytes] when it is memory to be freed.  With a
    body given and [--line-buffered], nothing is published. *)
Definition publish_bodies (body : option (list Z)) (line_buffered : Z) (exchange routing_key : option (list Z))
    (props : amqp_basic_properties_t) : T (option ptr) :=
  match body with
  | Some body =>
      let* b := amqp_cstring_bytes (body ++ [0]) in
      do* (if line_buffered =? 0 then do_publish exchange routing_key props b else ret tt) in
      ret None
  | None =>
      if negb (line_buffered =? 0) then
        let* p := on_heap (c_malloc MAX_LINE_LENGTH) in
        match p with
        | None => undefined
        | Some p => do* publish_lines exchange routing_key props p in ret (Some p)
        end
      else
        let* b := read_all fuel 0 in
        let* v := on_heap (heap_view b) in
        do* do_publish exchange routing_key props v in
        ret (hb_bytes b)
  end.
End Get.

Fixpoint skip_blanks (s : list Z) : list Z :=
  match s with c :: s' => if c =? 32 then skip_blanks s' else s | [] => [] end.

(** The entry for a header option "key: value". *)
Definition header_entry {S} (pos : list Z) : C S (option amqp_table_entry_t) :=
  match strchr colon pos with
  | Some (name, rest) =>
      let* k := amqp_cstring_bytes (name ++ [0]) in
      let* v := amqp_cstring_bytes (skip_blanks rest ++ [0]) in
      ret (Some (k, FV_UTF8 v))
  | None => ret None
  end.

(** What [calloc] leaves in an entry: no key, and a value of kind 0. *)
Definition zeroed_entry : amqp_table_entry_t := (amqp_empty_bytes, FV_OTHER 0).

Record publish_statics : Type := mk_publish {
  pb_connect : connect_statics;
  pb_exchange : option (list Z);
  pb_routing_key : option (list Z);
  pb_content_type : option (list Z);
  pb_content_encoding : option (list Z);
  pb_headers : option (list (list Z));
  pb_reply_to : option (list Z);
  pb_body : option (list Z);
  pb_delivery : Z;
  pb_line_buffered : Z
}.

Definition initial_publish : publish_statics :=
  {| pb_connect := initial_connect; pb_exchange := None; pb_routing_key := None; pb_content_type := None;
     pb_content_encoding := None; pb_headers := None; pb_reply_to := None; pb_body := None; pb_delivery := 1;
     pb_line_buffered := 0 |}.

Section Options.
Abbreviation str := (option (list Z)).

(** Stores through the pointers of the table. *)
Definition store_publish
    (f : connect_statics -> str -> str -> str -> str -> option (list (list Z)) -> str -> str -> Z -> Z -> publish_statics)
    (p : publish_statics) : publish_statics :=
  f (pb_connect p) (pb_exchange p) (pb_routing_key p) (pb_content_type p) (pb_content_encoding p) (pb_headers p)
    (pb_reply_to p) (pb_body p) (pb_delivery p) (pb_line_buffered p).
End Options.

Definition publish_options : list (poptOption publish_statics) :=
  connect_options (fun g => store_publish (fun c => mk_publish (g c))) ++
  [ mk_option "exchange" "e" (POPT_ARG_STRING (fun x => store_publish (fun c _ => mk_publish c (Some x))));
    mk_option "routing-key" "r" (POPT_ARG_STRING (fun x => store_publish (fun c e _ => mk_publish c e (Some x))));
    mk_option "persistent" "p" (POPT_ARG_VAL (fun x => store_publish (fun c e k t n h r b _ => mk_publish c e k t n h r b x)) 2);
    mk_option "content-type" "C" (POPT_ARG_STRING (fun x => store_publish (fun c e k _ => mk_publish c e k (Some x))));
    mk_option "reply-to" "t" (POPT_ARG_STRING (fun x => store_publish (fun c e k t n h _ => mk_publish c e k t n h (Some x))));
    mk_option "line-buffered" "l" (POPT_ARG_VAL (fun x => store_publish (fun c e k t n h r b d _ => mk_publish c e k t n h r b d x)) 2);
    mk_option "content-encoding" "E" (POPT_ARG_STRING (fun x => store_publish (fun c e k t _ => mk_publish c e k t (Some x))));
    mk_option "header" "H" (POPT_ARG_ARGV (fun x => store_publish (fun c e k t n h => mk_publish c e k t n (Some (default [] h ++ [x])))));
    mk_option "body" "b" (POPT_ARG_STRING (fun x => store_publish (fun c e k t n h r _ => mk_publish c e k t n h r (Some x)))) ].

Section PublishProps.
Context {W V : Type} {HX : Posix V}.
Abbreviation T A := (C (tst W V) A).

(** The loop over the header options: the entries that are filled in. *)
Fixpoint header_entries (headers : list (list Z)) : T amqp_table_t :=
  match headers with
  | [] => ret []
  | pos :: headers' =>
      let* e := header_entry pos in
      match e with
      | Some e => let* l := header_entries headers' in ret (e :: l)
      | None =>
          do* complain (chars "Ignored header definition missing ':' delimiter in " ++ [34] ++ pos ++ [34; newline]) in
          header_entries headers'
      end
  end.

(** The table has room for every option, filled in or not; also returns the memory
    of its entries. *)
Definition publish_headers (headers : option (list (list Z))) : T (amqp_table_t * option ptr) :=
  match headers with
  | None | Some [] => ret ([], None)
  | Some l =>
      let* p := on_heap (c_calloc (zlen l * sizeof_amqp_table_entry_t)) in
      match p with
      | None => undefined
      | Some p =>
          let* filled := header_entries l in
          ret (filled ++ replicate (length l - length filled) zeroed_entry, Some p)
      end
  end.

Definition flag_if {A} (o : option A) (flag : Z) : Z := match o with Some _ => flag | None => 0 end.

(** The properties of the messages. *)
Definition publish_properties (st : publish_statics) : T (amqp_basic_properties_t * option ptr) :=
  let* content_type := cstring_bytes (pb_content_type st) in
  let* content_encoding := cstring_bytes (pb_content_encoding st) in
  let* reply_to := cstring_bytes (pb_reply_to st) in
  let* '(headers, entries) := publish_headers (pb_headers st) in
  ret ({| basic__flags :=
            Z.lor AMQP_BASIC_DELIVERY_MODE_FLAG
              (Z.lor (flag_if (pb_content_type st) AMQP_BASIC_CONTENT_TYPE_FLAG)
                (Z.lor (flag_if (pb_content_encoding st) AMQP_BASIC_CONTENT_ENCODING_FLAG)
                  (Z.lor (flag_if (pb_reply_to st) AMQP_BASIC_REPLY_TO_FLAG)
                    (flag_if entries AMQP_BASIC_HEADERS_FLAG))));
          basic_content_type := content_type; basic_content_encoding := content_encoding;
          basic_headers := headers; basic_delivery_mode := u8 (pb_delivery st); basic_priority := 0;
          basic_correlation_id := amqp_empty_bytes; basic_reply_to := reply_to;
          basic_expiration := amqp_empty_bytes; basic_message_id := amqp_empty_bytes; basic_timestamp := 0;
          basic_type := amqp_empty_bytes; basic_user_id := amqp_empty_bytes;
          basic_app_id := amqp_empty_bytes; basic_cluster_id := amqp_empty_bytes |}, entries).
End PublishProps.

(** ** The programs *)

Record queue_statics : Type := mk_queue {
  qs_connect : connect_statics;
  qs_queue : option (list Z);
  qs_first : Z;
  qs_second : Z
}.

Record consume_statics : Type := mk_consume {
  cs_connect : connect_statics;
  cs_queue : option (list Z);
  cs_exchange : option (list Z);
  cs_routing_key : option (list Z);
  cs_declare : Z;
  cs_exclusive : Z;
  cs_no_ack : Z;
  cs_count : Z;
  cs_prefetch_count : Z
}.

Definition initial_queue : queue_statics :=
  {| qs_connect := initial_connect; qs_queue := None; qs_first := 0; qs_second := 0 |}.

Definition initial_consume : consume_statics :=
  {| cs_connect := initial_connect; cs_queue := None; cs_exchange := None; cs_routing_key := None;
     cs_declare := 0; cs_exclusive := 0; cs_no_ack := 0; cs_count := -1; cs_prefetch_count := -1 |}.

(** The statics of the three tools that work on one queue: its name and up to two
    flags. *)
Definition queue_option (flags : list (poptOption queue_statics)) : list (poptOption queue_statics) :=
  connect_options (fun g q => mk_queue (g (qs_connect q)) (qs_queue q) (qs_first q) (qs_second q)) ++
  mk_option "queue" "q" (POPT_ARG_STRING (fun x q => mk_queue (qs_connect q) (Some x) (qs_first q) (qs_second q))) ::
  flags.

Definition set_first (x : Z) (q : queue_statics) : queue_statics :=
  mk_queue (qs_connect q) (qs_queue q) x (qs_second q).
Definition set_second (x : Z) (q : queue_statics) : queue_statics :=
  mk_queue (qs_connect q) (qs_queue q) (qs_first q) x.

Definition get_options : list (poptOption queue_statics) := queue_option [].
Definition declare_options : list (poptOption queue_statics) :=
  queue_option [mk_option "durable" "d" (POPT_ARG_VAL set_first 1)].
Definition delete_options : list (poptOption queue_statics) :=
  queue_option [mk_option "if-unused" "u" (POPT_ARG_VAL set_first 1);
                mk_option "if-empty" "e" (POPT_ARG_VAL set_second 1)].

Section ConsumeOptions.
Abbreviation str := (option (list Z)).

Definition store_consume
    (f : connect_statics -> str -> str -> str -> Z -> Z -> Z -> Z -> Z -> consume_statics)
    (p : consume_statics) : consume_statics :=
  f (cs_connect p) (cs_queue p) (cs_exchange p) (cs_routing_key p) (cs_declare p) (cs_exclusive p)
    (cs_no_ack p) (cs_count p) (cs_prefetch_count p).
End ConsumeOptions.

Definition consume_options : list (poptOption consume_statics) :=
  connect_options (fun g => store_consume (fun c => mk_consume (g c))) ++
  [ mk_option "queue" "q" (POPT_ARG_STRING (fun x => store_consume (fun c _ => mk_consume c (Some x))));
    mk_option "exchange" "e" (POPT_ARG_STRING (fun x => store_consume (fun c q _ => mk_consume c q (Some x))));
    mk_option "routing-key" "r" (POPT_ARG_STRING (fun x => store_consume (fun c q e _ => mk_consume c q e (Some x))));
    mk_option "declare" "d" (POPT_ARG_NONE (fun x => store_consume (fun c q e k _ => mk_consume c q e k x)));
    mk_option "exclusive" "x" (POPT_ARG_NONE (fun x => store_consume (fun c q e k d _ => mk_consume c q e k d x)));
    mk_option "no-ack" "A" (POPT_ARG_NONE (fun x => store_consume (fun c q e k d v _ => mk_consume c q e k d v x)));
    mk_option "count" "c" (POPT_ARG_INT (fun x => store_consume (fun c q e k d v a _ => mk_consume c q e k d v a x)));
    mk_option "prefetch-count" "p" (POPT_ARG_INT (fun x => store_consume (fun c q e k d v a n _ => mk_consume c q e k d v a n x))) ].

Section Main.
Context {N V : Type} {HN : Os N} {HC : Clock N} {HP : Poll N} {HH : Host} {HX : Posix V} {HO : Popt V}.
Context (uninit : amqp_basic_properties_t) (AMQP_VERSION_STRING AMQ_PLATFORM : list Z).
Context (fuel : nat).
Abbreviation T A := (C (tst (tcp N) V) A).
#[local] Instance main_sockets : Sockets (tcp N) := tool_sockets fuel.

Abbreviation connect := (make_connection uninit AMQP_VERSION_STRING AMQ_PLATFORM fuel).
Abbreviation disconnect := (close_connection uninit fuel).

Definition get_main (argv : list (list Z)) : T Z :=
  let* st := process_all_options fuel argv get_options initial_queue in
  match qs_queue st with
  | None => do* complain (chars "queue not specified" ++ [newline]) in ret 1
  | Some queue =>
      do* connect (qs_connect st) in
      let* got_something := do_get uninit fuel (Some queue) in
      do* disconnect in
      ret (if got_something then 0 else 2)
  end.

(** The structure behind the pointer a wrapper has returned, a NULL pointer being
    undefined. *)
Definition declare_main (argv : list (list Z)) : T Z :=
  let* st := process_all_options fuel argv declare_options initial_queue in
  match qs_queue st with
  | None => do* complain (chars "queue name not specified" ++ [newline]) in ret 1
  | Some queue =>
      do* connect (qs_connect st) in
      let* q := cstring_bytes (Some queue) in
      let* reply := or_die (amqp_queue_declare uninit fuel 1 q 0 (qs_first st) 0 0 amqp_empty_table)
                           (chars "queue.declare") in
      match reply with
      | Some (M_QUEUE_DECLARE_OK m) =>
          let name := queue_declare_ok_queue m in
          let* text := precision_s (to_int (len name)) (bytes name) in
          do* on_env (px_fputs stdout (text ++ [newline])) in
          do* disconnect in
          ret 0
      | _ => undefined
      end
  end.

Definition delete_main (argv : list (list Z)) : T Z :=
  let* st := process_all_options fuel argv delete_options initial_queue in
  match qs_queue st with
  | None | Some [] => do* complain (chars "queue name not specified" ++ [newline]) in ret 1
  | Some queue =>
      do* connect (qs_connect st) in
      let* q := cstring_bytes (Some queue) in
      let* reply := or_die (amqp_queue_delete uninit fuel 1 q (qs_first st) (qs_second st)) (chars "queue.delete") in
      match reply with
      | Some (M_QUEUE_DELETE_OK m) =>
          do* on_env (px_fputs stdout (decimal 10 (queue_delete_ok_message_count m) ++ [newline])) in
          do* disconnect in
          ret 0
      | _ => undefined
      end
  end.

Definition publish_main (argv : list (list Z)) : T Z :=
  let* st := process_all_options fuel argv publish_options initial_publish in
  if is_null (pb_exchange st) && is_null (pb_routing_key st) then
    do* complain (chars "neither exchange nor routing key specified" ++ [newline]) in ret 1
  else
    let* '(props, entries) := publish_properties st in
    do* connect (pb_connect st) in
    let* memory := publish_bodies uninit fuel (pb_body st) (pb_line_buffered st) (pb_exchange st) (pb_routing_key st)
                     props in
    do* on_heap (c_free entries) in
    do* on_heap (c_free memory) in
    do* disconnect in
    ret 0.

Definition consume_main (argv : list (list Z)) : T Z :=
  let* '(opts, st) := process_options fuel argv consume_options initial_consume in
  match poptGetArgs opts with
  | [] =>
      do* complain (chars "consuming command not specified" ++ [newline]) in
      do* complain (poptUsage opts) in
      ret 1
  | cmd_argv =>
      do* connect (cs_connect st) in
      let* queue_bytes := setup_queue uninit fuel (cs_queue st) (cs_exchange st) (cs_routing_key st)
                            (cs_declare st) (cs_exclusive st) in
      do* do_consume uninit fuel queue_bytes (cs_no_ack st) (cs_count st) (cs_prefetch_count st) cmd_argv in
      do* disconnect in
      ret 0
  end.
End Main.
