(* ===== verification/ToolTheory.v ===== *)
(** * The tools at work: laws of the system and the steps of a session

    What the theorems about the tools rely on ([SystemLaws]: writing succeeds, a
    command can be started, fed through a pipe and waited for, as the manual pages
    say), and a connection in the hands of a tool ([session]): receiving, calling,
    sending and releasing memory keep it. *)

From S2P Require Import Url Prelude Machine Status Alloc Codec Table TableEncode TableDecode Framing Methods MethodDecode MethodEncode MethodWire MethodTheory Properties PropertiesTheory Mem MemTheory PoolTable Time Frame FrameTheorems Connection ParserTheory ParserTheorems ConnectionTheorems Socket Network Inbox Outbox FrameQueue RpcTheory Api ConsumerTheory ConsumerTheorems Wrappers Login LoginTheory WrapperTheorems ToolCommon ToolMain.

(** ** Programs on a connection *)

Section Lifting.
Context {W V : Type}.

Lemma wp_on_lib {A} (m : C (cst W) A) (Q : A -> tst W V -> Prop) E s v :
  wp m (fun a s' => Q a (around s' v)) (fun e s' => E e (around s' v)) s -> wp (on_lib m) Q E (around s v).
Proof. unfold wp, on_lib. destruct s as [c h w]. simpl. by destruct (m _). Qed.

Lemma wp_on_env {A} (m : C V A) (Q : A -> tst W V -> Prop) E s v :
  wp m (fun a v' => Q a (around s v')) (fun e v' => E e (around s v')) v -> wp (on_env m) Q E (around s v).
Proof. unfold wp, on_env. simpl. by destruct (m v). Qed.

Lemma wp_tool_heap {A} (m : C heap A) (Q : A -> tst W V -> Prop) E s v :
  wp m (fun a h => Q a (around {| conn := conn s; hp := h; world := world s |} v))
       (fun e h => E e (around {| conn := conn s; hp := h; world := world s |} v)) (hp s) ->
  wp (on_heap m) Q E (around s v).
Proof. unfold wp, on_heap. simpl. by destruct (m (hp s)). Qed.
End Lifting.

(** ** The frames that are not heartbeats *)

Definition talk (fs : list amqp_frame_t) : list amqp_frame_t :=
  List.filter (fun f => negb (is_heartbeat f)) fs.

Lemma talk_cons fs f rest : talk fs = f :: rest ->
  exists hbs fs', fs = hbs ++ f :: fs' /\ Forall (fun h => is_heartbeat h = true) hbs /\
    is_heartbeat f = false /\ talk fs' = rest.
Proof.
  unfold talk. induction fs as [|g fs IH]; simpl; [done|]. destruct (is_heartbeat g) eqn:E; simpl.
  - intros H. destruct (IH H) as (hbs & fs' & -> & Hh & Hf & Hl). exists (g :: hbs), fs'. split_and!; [done|by constructor|done|done].
  - intros [= -> <-]. by exists [], fs.
Qed.

(** ** A session *)

Section Session.
Context {W : Type} {HC : Clock W} {HS : Sockets W} {HP : Poll W} {HL : NetworkLaws W} {HH : Host}.
Context (uninit : amqp_basic_properties_t) (fuel : nat).

Abbreviation net s := (world (s : cst W)).

(** Between frames, with nothing queued, no deadline for calls and [L] bytes for
    outgoing frames. *)
Definition session (fm R L : Z) (fs : list amqp_frame_t) (s : cst W) : Prop :=
  exists K q m, resting K fm R fs s /\ outbox K q m s /\ zlen m = L /\
    rpc_timeout (conn s) = None /\ queued_frames (conn s) = [].

Lemma session_frames fm R L fs s : session fm R L fs s -> Forall (acceptable fm) fs.
Proof. intros (K & q & m & Hs & _). eapply listening_frames, resting_listening. exact Hs. Qed.

(** The anchor with the last reply left out. *)
Lemma anchor_timeout (c c' : amqp_connection_state_t) : anchor c' = anchor c -> rpc_timeout c' = rpc_timeout c.
Proof. unfold anchor. intros H. by injection H. Qed.

Lemma session_wait fm R L fs f rest s fr :
  session fm R L fs s -> talk fs = f :: rest -> (effort s < fuel)%nat ->
  wp (amqp_simple_wait_frame uninit fuel fr) (fun g s' => g = received uninit PL_none f /\
    (effort s' < effort s)%nat /\ n_sent (net s') = n_sent (net s) /\
    exists fs', talk fs' = rest /\ session fm (R + 2) L fs' s') (fun _ _ => False) s.
Proof.
  intros (K & q & m & Hs & Hob & Hz & Hto & Hq) Hl Hfuel. destruct (talk_cons _ _ _ Hl) as (hbs & fs' & -> & Hh & Hf & Hl').
  wp_use (wp_wait_noblock uninit fuel K fm R hbs f fs' s fr); [by apply resting_listening|done|done|done|done| |done].
  intros g s' (-> & (Ha & Hse & Hqu) & Hs' & Hef). split_and!; [done|done|done|]. exists fs'. split; [done|].
  exists K, q, m. split_and!; [done|by eapply outbox_anchor|done| |by rewrite Hqu]. by rewrite (anchor_timeout _ _ Ha).
Qed.

Lemma session_send fm R L fs f flags s :
  session fm R L fs s -> sendable f -> zlen (wire_frame f) <= L -> (length (wire_frame f) + effort s < fuel)%nat ->
  wp (amqp_send_frame_inner uninit fuel f flags amqp_time_infinite) (fun _ s' =>
    n_sent (net s') = n_sent (net s) ++ wire_frame f /\ (effort s' <= effort s)%nat /\ session fm R L fs s')
    (fun _ _ => False) s.
Proof.
  intros (K & q & m & Hs & Hob & Hz & Hto & Hq) Hf Hfit Hfuel. unfold effort in Hfuel.
  wp_use (wp_send_listening uninit fuel K fm R fs q m f flags s); [by apply resting_listening|done|done|lia|lia| |done].
  intros _ s' (Hc & Hse & Hco & Hw & _ & Hr & Hob' & Hz'). split_and!; [done| |].
  - unfold effort, pending. rewrite Hc, Hco. lia.
  - eexists _, q, _. split_and!; [by apply Hr|exact Hob'|congruence|by rewrite Hc|by rewrite Hc].
Qed.

Lemma session_release fm R L fs s :
  session fm R L fs s ->
  wp amqp_maybe_release_buffers (fun _ s' => session fm R L fs s' /\ effort s' = effort s /\
    n_sent (net s') = n_sent (net s)) (fun _ _ => False) s.
Proof.
  intros (K & q & m & Hs & Hob & Hz & Hto & Hq). wp_use (wp_maybe_release_resting K fm R fs s); [done| |done].
  intros _ s' (Hs' & (Ha & Hse & Hqu) & _ & Hef). split_and!; [|done|done].
  exists K, q, m. split_and!; [done|by eapply outbox_anchor|done| |by rewrite Hqu]. by rewrite (anchor_timeout _ _ Ha).
Qed.

(** Only the last reply changes. *)
Lemma session_api_result fm R L fs s r :
  session fm R L fs s -> session fm R L fs {| conn := set_api_result r (conn s); hp := hp s; world := world s |}.
Proof.
  intros (K & q & m & Hs & Hob & Hz & Hto & Hq). exists K, q, m. split_and!; try done.
  - destruct Hs as (K' & B & pend & p & buf & HK & Hs & HB & HR). exists K', B, pend, p, buf.
    split_and!; try done. by eapply hears_same.
  - by destruct Hob.
Qed.

(** A call of which the next frame is the answer. *)
Lemma session_call fm R L fs f rest s ch req ids td :
  let reqf := {| frame_type := AMQP_FRAME_METHOD; channel := ch;
                 payload := PL_method (method_id req) (method_decoded req) |} in
  session fm R L fs s -> talk fs = f :: rest -> rpc_match ch ids f = true -> infinite td ->
  sendable reqf -> zlen (wire_frame reqf) <= L -> (length (wire_frame reqf) + effort s < fuel)%nat ->
  wp (simple_rpc_inner uninit fuel ch req ids td) (fun r s' => r = frame_reply ids f /\
    n_sent (net s') = n_sent (net s) ++ wire_frame reqf /\ (effort s' < effort s)%nat /\
    exists fs', talk fs' = rest /\ session fm (R + 2) L fs' s') (fun _ _ => False) s.
Proof.
  intros reqf (K & q & m & Hs & Hob & Hz & Hto & Hq) Hl Hm Htd Hse Hfit Hfuel.
  destruct (talk_cons _ _ _ Hl) as (hbs & fs' & -> & Hh & Hf & Hl').
  wp_use (wp_simple_rpc_inner uninit fuel K fm R q m ch req ids hbs f fs' s td);
    [by apply resting_listening|done|done|done|by rewrite Hz| |done|done| |done].
  { eapply Forall_impl; [exact Hh|]. by left. }
  intros r s' (-> & Hsent & Hqu & Ha & m' & Hs' & Hob' & Hz' & Hef). split_and!; [done|done|done|]. exists fs'. split; [done|].
  eexists _, q, m'. split_and!; [done|exact Hob'|congruence|by rewrite (anchor_timeout _ _ Ha)|].
  by rewrite Hqu, Hq, heard_heartbeats.
Qed.

Lemma session_rpc fm R L fs f rest s ch req ids :
  let reqf := {| frame_type := AMQP_FRAME_METHOD; channel := ch;
                 payload := PL_method (method_id req) (method_decoded req) |} in
  session fm R L fs s -> talk fs = f :: rest -> rpc_match ch ids f = true ->
  sendable reqf -> zlen (wire_frame reqf) <= L -> (length (wire_frame reqf) + effort s < fuel)%nat ->
  wp (amqp_simple_rpc uninit fuel ch req ids) (fun r s' => r = frame_reply ids f /\
    n_sent (net s') = n_sent (net s) ++ wire_frame reqf /\ (effort s' < effort s)%nat /\
    exists fs', talk fs' = rest /\ session fm (R + 2) L fs' s') (fun _ _ => False) s.
Proof.
  intros reqf Hs Hl Hm Hse Hfit Hfuel. pose proof Hs as (K & q & m & _ & _ & _ & Hto & _).
  unfold amqp_simple_rpc. apply wp_bind, wp_the_conn. rewrite Hto. apply wp_bind. simpl. apply wp_ret. simpl.
  by eapply session_call.
Qed.

(** A wrapper whose answer comes. *)
Lemma session_wrapper fm R L fs f rest s ch m req reply_id :
  wraps uninit fuel ch m req reply_id ->
  session fm R L fs s -> talk fs = f :: rest -> channel f = ch ->
  (exists d, payload f = PL_method reply_id d) ->
  sendable (method_frame ch req) -> zlen (wire_frame (method_frame ch req)) <= L ->
  (length (wire_frame (method_frame ch req)) + effort s < fuel)%nat ->
  wp m (fun r s' => r = returned reply_id f /\
    n_sent (net s') = n_sent (net s) ++ wire_frame (method_frame ch req) /\ (effort s' < effort s)%nat /\
    exists fs', talk fs' = rest /\ session fm (R + 2) L fs' s') (fun _ _ => False) s.
Proof.
  intros Hw Hs Hl Hch (d & Hp) Hse Hfit Hfuel. destruct (wraps_is_rpc _ _ _ _ _ _ Hw) as (-> & Hr0 & _).
  pose proof Hs as (K & q & mm & _ & _ & _ & Hto & _).
  unfold amqp_simple_rpc_decoded. apply wp_bind, wp_the_conn. rewrite Hto.
  apply wp_bind. simpl. apply wp_ret. simpl. apply wp_bind.
  wp_use (session_call fm R L fs f rest s ch {| method_id := method_number req; method_decoded := req |} [reply_id; 0] amqp_time_infinite);
    [done|done| |done|exact Hse|exact Hfit|exact Hfuel| |done].
  { unfold rpc_match. rewrite Hp, Hch, Z.eqb_refl. simpl. rewrite (proj2 (Z.eqb_neq reply_id 0)) by done. by rewrite Z.eqb_refl. }
  intros r s1 (-> & Hsent & Hef & fs' & Hl' & Hs'). apply wp_bind, wp_upd.
  assert (Hr : frame_reply [reply_id; 0] f = {| reply_type := AMQP_RESPONSE_NORMAL; reply_id := reply_id;
    reply_decoded := Some (norm_method d); library_error := 0 |}).
  { unfold frame_reply. rewrite Hp. unfold reply_of. simpl. rewrite (proj2 (Z.eqb_neq reply_id 0)) by done. by rewrite Z.eqb_refl. }
  rewrite Hr. simpl. apply wp_ret. unfold returned. rewrite Hp, Z.eqb_refl. split_and!; [done|done|done|].
  exists fs'. split; [done|]. by apply session_api_result.
Qed.
End Session.

(** ** Copying a message *)

Section Copy.
Context {W V : Type} {HC : Clock W} {HS : Sockets W} {HP : Poll W} {HL : NetworkLaws W} {HH : Host} {HX : Posix V}.
Context (uninit : amqp_basic_properties_t) (fuel : nat).

Abbreviation net s := (world (s : cst W)).
Abbreviation never := (fun (_ : Z) (_ : tst W V) => False).

(** The descriptor takes what is written to it; [P w v] says that in [v] it has
    taken [w] so far. *)
Definition accepts (fd : Z) (P : list Z -> V -> Prop) : Prop :=
  forall data w v, P w v -> data <> [] -> zlen data <= PTRDIFF_MAX ->
  wp (px_write fd data) (fun '(r, _) v' => 0 < r <= zlen data /\ P (w ++ take (Z.to_nat r) data) v')
    (fun _ _ => False) v.

Lemma wp_write_all fd P data w (s : cst W) v :
  accepts fd P -> P w v -> zlen data <= PTRDIFF_MAX -> (length data < fuel)%nat ->
  wp (write_all fuel fd (view data)) (fun _ t => exists v', t = around s v' /\ P (w ++ data) v') never (around s v).
Proof.
  intros Hacc HP0 Hmax Hfuel. unfold write_all.
  eapply (wp_iter _ (fun d t => exists k v', 0 <= k <= zlen data /\ t = around s v' /\
      d = {| len := zlen data - k; bytes := Some (drop (Z.to_nat k) data) |} /\ P (w ++ take (Z.to_nat k) data) v')
    (fun d _ => Z.to_nat (len d))); [| |simpl; unfold zlen; lia].
  2: { exists 0, v. pose proof (zlen_nonneg data). split_and!; [lia|lia|done|by rewrite Z.sub_0_r|by rewrite take_0, app_nil_r]. }
  intros d t (k & v' & Hk & -> & -> & HPk). simpl. destruct (Z.ltb_spec 0 (zlen data - k)) as [Hlt|Hge].
  - assert (Hl : zlen (drop (Z.to_nat k) data) = zlen data - k) by (unfold zlen in *; rewrite length_drop; lia).
    rewrite load_Some by lia. rewrite <- Hl, slice_full. apply wp_bind, wp_on_env.
    wp_use (Hacc (drop (Z.to_nat k) data) _ v' HPk); [|lia| |done].
    { intros E. rewrite E in Hl. change (zlen []) with 0 in Hl. lia. }
    intros [r errno] v2 (Hr & HP2). rewrite (proj2 (Z.ltb_ge _ _)) by lia. apply wp_ret.
    rewrite size_t_small by (unfold PTRDIFF_MAX in Hmax; lia). split; [|simpl; lia].
    exists (k + r), v2. split_and!; [lia|lia|done| |].
    + rewrite drop_drop, <- Z2Nat.inj_add by lia. f_equal. lia.
    + rewrite <- (take_sent data k r) by lia. by rewrite app_assoc.
  - apply wp_ret. exists v'. split; [done|]. replace (Z.to_nat k) with (length data) in HPk by (unfold zlen in *; lia).
    by rewrite firstn_all in HPk.
Qed.

Lemma wp_next_frame fm R L fs f rest (s : cst W) v fr msg :
  session fm R L fs s -> talk fs = f :: rest -> (effort s < fuel)%nat ->
  wp (next_frame uninit fuel fr msg) (fun g t => g = received uninit PL_none f /\
    exists s' fs', t = around s' v /\ (effort s' < effort s)%nat /\ n_sent (net s') = n_sent (net s) /\
    talk fs' = rest /\ session fm (R + 2) L fs' s') never (around s v).
Proof.
  intros Hs Hl Hfuel. apply wp_bind, wp_on_lib, wp_try. wp_use (session_wait uninit fuel fm R L fs f rest s fr); [done|done|done| |done].
  intros g s' (-> & Hef & Hse & fs' & Hl' & Hs'). apply wp_ret. split; [done|]. by exists s', fs'.
Qed.

(** The pieces of a body. *)
Definition pieces (frags : list amqp_bytes_t) : list Z := concat (map contents frags).

(** A content header and its body on a channel. *)
Definition content (ch cid : Z) (p : amqp_properties_t) (raw : amqp_bytes_t) (frags : list amqp_bytes_t)
    : list amqp_frame_t :=
  {| frame_type := AMQP_FRAME_HEADER; channel := ch; payload := PL_properties cid (zlen (pieces frags)) p raw |}
  :: map (fragment_frame ch) frags.

Lemma wp_copy_body fd P fm R L fs ch cid p raw frags rest (s : cst W) v :
  session fm R L fs s -> talk fs = content ch cid p raw frags ++ rest ->
  Forall (fun b => contents b <> []) frags -> zlen (pieces frags) <= PTRDIFF_MAX ->
  (effort s + length (pieces frags) < fuel)%nat -> accepts fd P -> P [] v ->
  wp (copy_body uninit fuel fd) (fun _ t => exists s' v' R' fs', t = around s' v' /\ P (pieces frags) v' /\
    R <= R' /\ talk fs' = rest /\ session fm R' L fs' s' /\ n_sent (net s') = n_sent (net s) /\
    (effort s' < effort s)%nat) never (around s v).
Proof.
  intros Hs Hl Hne Hmax Hfuel Hacc HP0. unfold copy_body. apply wp_bind. simpl in Hl.
  wp_use wp_next_frame; [exact Hs|exact Hl|lia| |done].
  intros g t (-> & s1 & fs1 & -> & Hef1 & Hse1 & Hl1 & Hs1). cbn [negb received frame_type payload Z.eqb].
  eapply (wp_iter _ (fun '(n, _) t => exists seen todo s' v' R' fs', frags = seen ++ todo /\ n = zlen (pieces todo) /\
      t = around s' v' /\ P (pieces seen) v' /\ R <= R' /\ talk fs' = map (fragment_frame ch) todo ++ rest /\
      session fm R' L fs' s' /\ n_sent (net s') = n_sent (net s) /\ (effort s' < effort s)%nat)
    (fun '(n, _) _ => Z.to_nat n)); [| |unfold zlen; lia].
  2: { exists [], frags, s1, v, (R + 2), fs1. split_and!; try done; lia. }
  intros [n fr] t (seen & todo & s' & v' & R' & fs' & -> & -> & -> & HPs & HR & Hl' & Hs' & Hse & Hef).
  assert (Hsum : pieces (seen ++ todo) = pieces seen ++ pieces todo) by (unfold pieces; by rewrite map_app, concat_app).
  rewrite Hsum, ?zlen_app, ?length_app in *. pose proof (zlen_nonneg (pieces seen)).
  destruct todo as [|b todo].
  - simpl. apply wp_ret. rewrite app_nil_r. by exists s', v', R', fs'.
  - apply Forall_app in Hne as [_ [Hb _]%Forall_cons].
    change (pieces (b :: todo)) with (contents b ++ pieces todo) in *. rewrite zlen_app, length_app in *.
    assert (0 < zlen (contents b)) by (destruct (contents b); [done|unfold zlen; simpl; lia]). pose proof (zlen_nonneg (pieces todo)).
    rewrite (proj2 (Z.eqb_neq (_ + _) 0)) by lia. cbn [negb]. apply wp_bind. simpl in Hl'.
    wp_use wp_next_frame; [exact Hs'|exact Hl'|lia| |done].
    intros g t (-> & s2 & fs2 & -> & Hef2 & Hse2 & Hl2 & Hs2). cbn [negb received frame_type payload fragment_frame Z.eqb].
    apply wp_bind. wp_use (wp_write_all fd P (contents b) (pieces seen) s2 v'); [done|done|lia|lia| |done].
    intros _ t (v2 & -> & HP2). apply wp_ret. change (len (view (contents b))) with (zlen (contents b)).
    rewrite size_t_small by (unfold PTRDIFF_MAX in Hmax; lia). split; [|lia].
    exists (seen ++ [b]), todo, s2, v2, (R' + 2), fs2. rewrite <- app_assoc. split_and!; try done; try lia; try congruence.
    unfold pieces. rewrite map_app, concat_app. simpl. by rewrite app_nil_r.
Qed.
End Copy.

(** ** The system *)

(** The one command a tool runs at a time. *)
Inductive phase : Type :=
| Idle
| Piped (rfd wfd : Z)
| Started (rfd wfd pid : Z) (argv : list (list Z))
| Running (wfd pid : Z) (argv : list (list Z)) (input : list Z)
| Fed (pid : Z) (argv : list (list Z)) (input : list Z).

(** A command that has ended: its arguments, what it was fed, its wait status. *)
Record run : Type := mk_run { run_argv : list (list Z); run_input : list Z; run_status : Z }.

(** [y_out] is what standard output has taken, [y_runs] the commands that have
    ended, in order. *)
Class SystemLaws (V : Type) {HX : Posix V} : Type := {
  y_out : V -> list Z;
  y_phase : V -> phase;
  y_runs : V -> list run;
  out_law data v : data <> [] -> zlen data <= PTRDIFF_MAX ->
    wp (px_write 1 data) (fun '(r, _) v' => 0 < r <= zlen data /\ y_out v' = y_out v ++ take (Z.to_nat r) data)
      (fun _ _ => False) v;
  pipe_law v : y_phase v = Idle ->
    wp px_pipe (fun '(r, (rfd, wfd), _) v' => r = 0 /\ y_phase v' = Piped rfd wfd /\ y_runs v' = y_runs v)
      (fun _ _ => False) v;
  init_law v : wp px_actions_init (fun r v' => r = 0 /\ y_phase v' = y_phase v /\ y_runs v' = y_runs v) (fun _ _ => False) v;
  add_law a v : wp (px_actions_add a) (fun r v' => r = 0 /\ y_phase v' = y_phase v /\ y_runs v' = y_runs v) (fun _ _ => False) v;
  destroy_law v : wp px_actions_destroy (fun r v' => r = 0 /\ y_phase v' = y_phase v /\ y_runs v' = y_runs v) (fun _ _ => False) v;
  spawn_law rfd wfd argv v : y_phase v = Piped rfd wfd ->
    wp (px_spawnp argv [ADD_DUP2 rfd 0; ADD_CLOSE rfd; ADD_CLOSE wfd]) (fun '(err, pid) v' =>
      err = 0 /\ y_phase v' = Started rfd wfd pid argv /\ y_runs v' = y_runs v) (fun _ _ => False) v;
  close_read_law rfd wfd pid argv v : y_phase v = Started rfd wfd pid argv ->
    wp (px_close rfd) (fun '(r, _) v' => r = 0 /\ y_phase v' = Running wfd pid argv [] /\ y_runs v' = y_runs v)
      (fun _ _ => False) v;
  feed_law wfd pid argv input data v : y_phase v = Running wfd pid argv input -> data <> [] -> zlen data <= PTRDIFF_MAX ->
    wp (px_write wfd data) (fun '(r, _) v' => 0 < r <= zlen data /\
      y_phase v' = Running wfd pid argv (input ++ take (Z.to_nat r) data) /\ y_runs v' = y_runs v) (fun _ _ => False) v;
  close_write_law wfd pid argv input v : y_phase v = Running wfd pid argv input ->
    wp (px_close wfd) (fun '(r, _) v' => r = 0 /\ y_phase v' = Fed pid argv input /\ y_runs v' = y_runs v)
      (fun _ _ => False) v;
  wait_law pid argv input v : y_phase v = Fed pid argv input ->
    wp (px_waitpid pid) (fun '(r, status, _) v' => 0 <= r /\ y_phase v' = Idle /\
      y_runs v' = y_runs v ++ [mk_run argv input status]) (fun _ _ => False) v
}.

(** The command has ended well. *)
Definition succeeded (r : run) : bool := WIFEXITED (run_status r) && (WEXITSTATUS (run_status r) =? 0).

Section Processes.
Context {W V : Type} {HX : Posix V} {HY : SystemLaws V}.
Abbreviation never := (fun (_ : Z) (_ : tst W V) => False).

Lemma accepts_out out : accepts 1 (fun w v => y_out v = out ++ w).
Proof.
  intros data w v Hv Hne Hmax. wp_use out_law; [done|done| |done]. intros [r e] v' (Hr & Ho).
  split; [done|]. by rewrite Ho, Hv, app_assoc.
Qed.

Lemma accepts_pipe wfd pid argv runs : accepts wfd (fun w v => y_phase v = Running wfd pid argv w /\ y_runs v = runs).
Proof.
  intros data w v [Hv Hr] Hne Hmax. wp_use feed_law; [exact Hv|done|done| |done]. intros [r e] v' (Hr' & Ho & Hr2).
  split; [done|]. split; [done|congruence].
Qed.

(** A call that returns an error number, and never does. *)
Lemma wp_must (m : C V Z) msg s v Q :
  wp m (fun r v' => r = 0 /\ Q (around s v')) (fun _ _ => False) v ->
  wp (must m msg) (fun _ t => Q t) never (around s v).
Proof.
  intros Hm. apply wp_bind, wp_on_env. wp_use Hm; [|done]. intros r v' [-> HQ]. by apply wp_ret.
Qed.

Lemma wp_pipeline argv s v :
  y_phase v = Idle ->
  wp (pipeline argv) (fun pl t => exists v', t = around s v' /\ y_phase v' = Running (infd pl) (pid pl) argv [] /\
    y_runs v' = y_runs v) never (around s v).
Proof.
  intros Hi. unfold pipeline. apply wp_bind, wp_on_env. wp_use pipe_law; [exact Hi| |done].
  intros [[r [rfd wfd]] errno] v1 (-> & Hp1 & Hr1). apply wp_bind, wp_ret.
  assert (Hgo : forall m msg (k : C (tst W V) pipeline_t) Q v0,
    (forall v, wp m (fun r v' => r = 0 /\ y_phase v' = y_phase v /\ y_runs v' = y_runs v) (fun _ _ => False) v) ->
    (forall v', y_phase v' = y_phase v0 -> y_runs v' = y_runs v0 -> wp k Q never (around s v')) ->
    wp (do* must m msg in k) Q never (around s v0)).
  { intros m msg k Q v0 Hm Hk. apply wp_bind, wp_must. wp_use Hm; [|done]. intros r v' (-> & ? & ?). split; [done|auto]. }
  apply Hgo; [apply init_law|]. intros v2 Hp2 Hr2. apply Hgo; [apply add_law|]. intros v3 Hp3 Hr3.
  apply Hgo; [apply add_law|]. intros v4 Hp4 Hr4. apply Hgo; [apply add_law|]. intros v5 Hp5 Hr5.
  apply wp_bind, wp_on_env. wp_use (spawn_law rfd wfd argv); [congruence| |done]. intros [err p] v6 (-> & Hp6 & Hr6).
  apply wp_bind, wp_ret. apply Hgo; [apply destroy_law|]. intros v7 Hp7 Hr7.
  apply wp_bind, wp_on_env. wp_use close_read_law; [by rewrite Hp7, Hp6| |done]. intros [r e] v8 (-> & Hp8 & Hr8).
  apply wp_bind, wp_ret, wp_ret. exists v8. split_and!; [done|done|congruence].
Qed.

Lemma wp_finish_pipeline pl argv input s v :
  y_phase v = Running (infd pl) (pid pl) argv input ->
  wp (finish_pipeline pl) (fun ok t => exists v' r, t = around s v' /\ y_phase v' = Idle /\
    run_argv r = argv /\ run_input r = input /\ y_runs v' = y_runs v ++ [r] /\ ok = succeeded r) never (around s v).
Proof.
  intros Hp. unfold finish_pipeline. apply wp_bind, wp_on_env. wp_use close_write_law; [exact Hp| |done].
  intros [r e] v1 (-> & Hp1 & Hr1). apply wp_bind, wp_ret. apply wp_bind, wp_on_env. wp_use wait_law; [exact Hp1| |done].
  intros [[r status] e2] v2 (Hr & Hp2 & Hr2). rewrite (proj2 (Z.ltb_ge _ _)) by lia. apply wp_bind, wp_ret, wp_ret.
  exists v2, (mk_run argv input status). split_and!; try done. congruence.
Qed.
End Processes.

(** ** Reading a file *)

(** At most [n] characters, up to and including the first newline. *)
Fixpoint first_line (n : nat) (l : list Z) : list Z :=
  match n, l with
  | O, _ | _, [] => []
  | S n', c :: l' => if c =? newline then [c] else c :: first_line n' l'
  end.

(** [y_contents path v] is what is in a file that can be opened, [y_rest fp v] what
    is left to read of an open one, [y_eof] its end-of-file indicator. *)
Class FileLaws (V : Type) {HX : Posix V} : Type := {
  y_contents : list Z -> V -> option (list Z);
  y_rest : Z -> V -> list Z;
  y_eof : Z -> V -> bool;
  fopen_law path v :
    wp (px_fopen path) (fun r v' =>
      match y_contents path v with
      | Some l => exists fp, r = Some fp /\ y_rest fp v' = l
      | None => r = None
      end) (fun _ _ => False) v;
  fgets_law fp n v : 1 < n ->
    wp (px_fgets fp n) (fun r v' =>
      let line := first_line (Z.to_nat (n - 1)) (y_rest fp v) in
      y_rest fp v' = drop (length line) (y_rest fp v) /\
      match y_rest fp v with [] => r = None | _ => r = Some line end) (fun _ _ => False) v;
  fgetc_law fp v :
    wp (px_fgetc fp) (fun _ v' => y_eof fp v' = match y_rest fp v with [] => true | _ => false end) (fun _ _ => False) v;
  feof_law fp v : wp (px_feof fp) (fun b v' => b = y_eof fp v /\ v' = v) (fun _ _ => False) v
}.

(** Lines without a newline or a NUL in them. *)
Definition plain_text (l : list Z) : Prop := Forall (fun c => c <> 0 /\ c <> newline) l.

Lemma first_line_text n l rest : plain_text l -> (length l < n)%nat -> first_line n (l ++ newline :: rest) = l ++ [newline].
Proof.
  intros Hl. revert n. induction Hl as [|c l [_ Hc] _ IH]; intros [|n] Hn; simpl in *; try lia; [done|].
  rewrite (proj2 (Z.eqb_neq c newline)) by done. by rewrite IH by lia.
Qed.

Lemma first_line_end n l : plain_text l -> (length l <= n)%nat -> first_line n l = l.
Proof.
  intros Hl. revert n. induction Hl as [|c l [_ Hc] _ IH]; intros [|n] Hn; simpl in *; try lia; [done|done|].
  rewrite (proj2 (Z.eqb_neq c newline)) by done. by rewrite IH by lia.
Qed.

Lemma until_nul_text l m : Forall (fun c => c <> 0) l -> until_nul (l ++ 0 :: m) = Some l.
Proof.
  induction 1 as [|c l Hc _ IH]; [done|]. simpl. rewrite (proj2 (Z.eqb_neq c 0)) by done. by rewrite IH.
Qed.

Section Files.
Context {W V : Type} {HX : Posix V} {HF : FileLaws V}.
Abbreviation never := (fun (_ : Z) (_ : tst W V) => False).

(** The state with other memory or another environment. *)
Definition with_memory (t : tst W V) (h : heap) (v : V) : tst W V :=
  {| t_conn := t_conn t; t_heap := h; t_net := t_net t; t_env := v |}.

Lemma wp_heap_step {A} (m : C heap A) (Q : A -> tst W V -> Prop) E t h v :
  wp m (fun a h' => Q a (with_memory t h' v)) (fun e h' => E e (with_memory t h' v)) h ->
  wp (on_heap m) Q E (with_memory t h v).
Proof. unfold wp, on_heap. simpl. by destruct (m h). Qed.

Lemma wp_env_step {A} (m : C V A) (Q : A -> tst W V -> Prop) E t h v :
  wp m (fun a v' => Q a (with_memory t h v')) (fun e v' => E e (with_memory t h v')) v ->
  wp (on_env m) Q E (with_memory t h v).
Proof. unfold wp, on_env. simpl. by destruct (m v). Qed.

Lemma wp_store p bs m h Q E :
  h_blocks h !! p_block p = Some m -> 0 <= p_off p -> p_off p + zlen bs <= zlen m ->
  Q tt (set_blocks (<[p_block p := overwrite (p_off p) bs m]> (h_blocks h)) h) -> wp (heap_store p bs) Q E h.
Proof. intros Hb Ho Hz HQ. unfold wp, heap_store. rewrite Hb, store_Some by done. done. Qed.

Lemma wp_load p n m h (Q : list Z -> heap -> Prop) E :
  h_blocks h !! p_block p = Some m -> 0 <= p_off p -> 0 <= n -> p_off p + n <= zlen m ->
  Q (slice (p_off p) n m) h -> wp (heap_load p n) Q E h.
Proof. intros Hb Ho Hn Hz HQ. unfold wp, heap_load. rewrite Hb, load_Some by done. done. Qed.

(** A token of the credentials file that fits its buffer. *)
Lemma wp_read_token fp prefix tok rest b m missing too_long t h v :
  y_rest fp v = prefix ++ tok ++ newline :: rest -> plain_text prefix -> plain_text tok ->
  zlen prefix + zlen tok <= 126 -> h_blocks h !! b = Some m -> zlen m = MAXAUTHTOKENLEN ->
  wp (read_token fp prefix {| p_block := b; p_off := 0 |} missing too_long) (fun _ t' => exists v' m',
    t' = with_memory t (set_blocks (<[b := m']> (h_blocks h)) h) v' /\ y_rest fp v' = rest /\
    until_nul m' = Some tok) never (with_memory t h v).
Proof.
  intros Hrest Hpre Htok Hlen Hb Hm. unfold MAXAUTHTOKENLEN in *. unfold read_token. apply wp_bind, wp_env_step.
  wp_use (fgets_law fp MAXAUTHTOKENLEN); [done| |done]. intros r v1 [Hr1 Hr]. cbv zeta in Hr1.
  assert (Hline : first_line (Z.to_nat (MAXAUTHTOKENLEN - 1)) (y_rest fp v) = (prefix ++ tok) ++ [newline]).
  { rewrite Hrest, app_assoc. apply first_line_text; [by apply Forall_app|]. unfold zlen, MAXAUTHTOKENLEN in *. rewrite length_app. lia. }
  rewrite Hline in *. assert (r = Some ((prefix ++ tok) ++ [newline])) as -> by (by destruct (y_rest fp v); [destruct prefix, tok|]).
  assert (Hnz : Forall (fun c => c <> 0) ((prefix ++ tok) ++ [newline])).
  { repeat apply Forall_app_2; [eapply Forall_impl; [done|]; by intros c []..|by repeat constructor]. }
  rewrite (until_nul_text _ [] Hnz), <- (app_assoc prefix tok [newline]), take_app_length.
  unfold bytes_eqb at 1. rewrite bool_decide_eq_true_2 by done. cbn [negb]. rewrite drop_app_length. set (s := tok ++ [newline]).
  assert (Hs : zlen s = zlen tok + 1) by (unfold s; by rewrite zlen_app). pose proof (zlen_nonneg tok). pose proof (zlen_nonneg prefix).
  apply wp_bind, wp_heap_step. unfold strncpy, MAXAUTHTOKENLEN. set (full := s ++ replicate (Z.to_nat (128 - zlen s)) 0).
  assert (Hfull : zlen full = 128) by (unfold full; rewrite zlen_app; unfold zlen at 2; rewrite length_replicate; lia).
  eapply wp_store; [exact Hb|done|simpl; lia|]. cbn [p_block p_off].
  assert (Hov : overwrite 0 full m = full).
  { unfold overwrite. simpl. rewrite drop_ge by (unfold zlen in *; lia). by rewrite app_nil_r. }
  rewrite Hov. apply wp_bind, wp_heap_step. rewrite Hs, Z.add_0_l. replace (zlen tok + 1 - 1) with (zlen tok) by lia.
  eapply (wp_load _ 1 full); [apply lookup_insert_eq|simpl; lia|lia|simpl; lia|]. cbn [p_off].
  assert (Hsl : slice (zlen tok) 1 full = [newline]).
  { unfold full, s. rewrite <- app_assoc. exact (slice_app_mid tok [newline] _). }
  rewrite Hsl. unfold bytes_eqb. rewrite bool_decide_eq_true_2 by done. cbn [negb]. apply wp_heap_step.
  eapply wp_store; [apply lookup_insert_eq|simpl; lia|simpl; change (zlen [0]) with 1; lia|]. cbn [p_block p_off].
  eexists v1, _. split_and!; [simpl; unfold set_blocks; simpl; by rewrite insert_insert_eq| |].
  - rewrite Hr1, Hrest, app_assoc. change (newline :: rest) with ([newline] ++ rest). rewrite app_assoc. by rewrite drop_app_length.
  - unfold full, s. rewrite <- app_assoc, overwrite_mid by done. apply until_nul_text. eapply Forall_impl; [exact Htok|]. by intros c [].
Qed.
End Files.
