(* ===== verification/Desk.v ===== *)
(** * A small system for the tools

    A system that satisfies [SystemLaws] and [FileLaws]: it takes at most [d_chunk]
    bytes per [write], runs one command at a time, whose exit status depends on
    its input, and has one file.  With it comes a small option parser that
    understands "--name value" and "--name". *)

From Stdlib Require Import String.
From S2P Require Import Url Prelude Machine Status Alloc Codec Table Framing Methods MethodDecode MethodEncode Properties Mem Time Frame Connection Socket ToolCommon ToolMain ToolTheory.

Record desk : Type := mk_desk {
  d_out : list Z;
  d_err : list Z;
  d_in : list Z;
  d_phase : phase;
  d_runs : list run;
  d_file : list Z;
  d_rest : list Z;
  d_eof : bool;
  d_chunk : Z;
  d_verdict : list Z -> Z
}.

Definition set_out (out : list Z) (d : desk) : desk :=
  mk_desk out (d_err d) (d_in d) (d_phase d) (d_runs d) (d_file d) (d_rest d) (d_eof d) (d_chunk d) (d_verdict d).
Definition set_err (err : list Z) (d : desk) : desk :=
  mk_desk (d_out d) err (d_in d) (d_phase d) (d_runs d) (d_file d) (d_rest d) (d_eof d) (d_chunk d) (d_verdict d).
Definition set_in (l : list Z) (d : desk) : desk :=
  mk_desk (d_out d) (d_err d) l (d_phase d) (d_runs d) (d_file d) (d_rest d) (d_eof d) (d_chunk d) (d_verdict d).
Definition set_process (p : phase) (rs : list run) (d : desk) : desk :=
  mk_desk (d_out d) (d_err d) (d_in d) p rs (d_file d) (d_rest d) (d_eof d) (d_chunk d) (d_verdict d).
Definition set_rest (l : list Z) (e : bool) (d : desk) : desk :=
  mk_desk (d_out d) (d_err d) (d_in d) (d_phase d) (d_runs d) (d_file d) l e (d_chunk d) (d_verdict d).

Definition desk_amount (d : desk) (data : list Z) : Z := Z.min (Z.max 1 (d_chunk d)) (zlen data).

(** Standard output and the pipe are different ends, even under one number. *)
Definition desk_write (fd : Z) (data : list Z) : C desk (Z * Z) := fun d =>
  let n := desk_amount d data in
  let taken := take (Z.to_nat n) data in
  let d := if fd =? 1 then set_out (d_out d ++ taken) d else d in
  let d := match d_phase d with
           | Running wfd pid argv input =>
               if fd =? wfd then set_process (Running wfd pid argv (input ++ taken)) (d_runs d) d else d
           | _ => d
           end in
  Ret (n, 0) d.

Definition desk_close (fd : Z) : C desk (Z * Z) := fun d =>
  match d_phase d with
  | Started rfd wfd pid argv =>
      if fd =? rfd then Ret (0, 0) (set_process (Running wfd pid argv []) (d_runs d) d) else Ret (-1, 9) d
  | Running wfd pid argv input =>
      if fd =? wfd then Ret (0, 0) (set_process (Fed pid argv input) (d_runs d) d) else Ret (-1, 9) d
  | _ => Ret (-1, 9) d
  end.

Definition desk_spawn (argv : list (list Z)) (actions : list file_action) : C desk (Z * Z) := fun d =>
  match d_phase d with
  | Piped rfd wfd => Ret (0, 7) (set_process (Started rfd wfd 7 argv) (d_runs d) d)
  | _ => Ret (11, 0) d
  end.

Definition desk_wait (pid : Z) : C desk (Z * Z * Z) := fun d =>
  match d_phase d with
  | Fed p argv input =>
      if pid =? p then
        Ret (Z.max 0 p, d_verdict d input, 0)
          (set_process Idle (d_runs d ++ [mk_run argv input (d_verdict d input)]) d)
      else Ret (-1, 0, 10) d
  | _ => Ret (-1, 0, 10) d
  end.

Definition desk_fgets (n : Z) : C desk (option (list Z)) := fun d =>
  match d_rest d with
  | [] => Ret None (set_rest [] true d)
  | l => let line := first_line (Z.to_nat (n - 1)) l in
         Ret (Some line) (set_rest (drop (length line) l) (d_eof d) d)
  end.

Definition desk_fgetc : C desk Z := fun d =>
  match d_rest d with
  | [] => Ret (-1) (set_rest [] true d)
  | c :: l => Ret c (set_rest l false d)
  end.

#[export] Instance desk_posix : Posix desk := {|
  px_read := fun _ n d =>
    let k := Z.min n (desk_amount d (d_in d)) in
    Ret (k, take (Z.to_nat k) (d_in d), 0) (set_in (drop (Z.to_nat k) (d_in d)) d);
  px_write := desk_write;
  px_close := desk_close;
  px_fopen := fun _ d => Ret (Some 3) (set_rest (d_file d) false d);
  px_fgets := fun _ => desk_fgets;
  px_fgetc := fun _ => desk_fgetc;
  px_feof := fun _ d => Ret (d_eof d) d;
  px_fputs := fun fp s d => Ret tt (if fp =? stdout then set_out (d_out d ++ s) d else set_err (d_err d ++ s) d);
  px_strerror := fun _ => ret (chars "error");
  px_pipe := fun d =>
    match d_phase d with
    | Idle => Ret (0, (5, 6), 0) (set_process (Piped 5 6) (d_runs d) d)
    | _ => Ret (-1, (0, 0), 24) d
    end;
  px_actions_init := ret 0;
  px_actions_add := fun _ => ret 0;
  px_actions_destroy := ret 0;
  px_spawnp := desk_spawn;
  px_waitpid := desk_wait
|}.

Lemma desk_amount_range d data : data <> [] -> 0 < desk_amount d data <= zlen data.
Proof.
  intros Hne. assert (0 < zlen data) by (destruct data; [done|unfold zlen; simpl; lia]). unfold desk_amount. lia.
Qed.

Lemma desk_write_effect fd data d : exists d', desk_write fd data d = Ret (desk_amount d data, 0) d' /\
  d_out d' = (if fd =? 1 then d_out d ++ take (Z.to_nat (desk_amount d data)) data else d_out d).
Proof.
  unfold desk_write. destruct (fd =? 1); simpl; (destruct (d_phase d) as [| | |wfd pid argv input|]; simpl; [by eexists..| |by eexists]);
    destruct (fd =? wfd); by eexists.
Qed.

#[export] Instance desk_system : SystemLaws desk.
Proof.
  refine {| y_out := d_out; y_phase := d_phase; y_runs := d_runs |}.
  - intros data d Hne _. destruct (desk_write_effect 1 data d) as (d' & Hrun & Hout).
    unfold wp, px_write, desk_posix. rewrite Hrun. split; [by apply desk_amount_range|done].
  - intros d Hi. unfold wp. simpl. rewrite Hi. by split_and!.
  - by intros d.
  - by intros a d.
  - by intros d.
  - intros rfd wfd argv d Hp. unfold wp. simpl. unfold desk_spawn. rewrite Hp. by split_and!.
  - intros rfd wfd pid argv d Hp. unfold wp. simpl. unfold desk_close. rewrite Hp, Z.eqb_refl. by split_and!.
  - intros wfd pid argv input data d Hp Hne _. unfold wp. simpl. pose proof (desk_amount_range d data Hne).
    destruct (wfd =? 1); simpl; rewrite Hp, Z.eqb_refl; (split_and!; [lia|lia|done|done]).
  - intros wfd pid argv input d Hp. unfold wp. simpl. unfold desk_close. rewrite Hp, Z.eqb_refl. by split_and!.
  - intros pid argv input d Hp. unfold wp. simpl. unfold desk_wait. rewrite Hp, Z.eqb_refl. split_and!; [lia|done|done].
Defined.

#[export] Instance desk_files : FileLaws desk.
Proof.
  refine {| y_contents := fun _ d => Some (d_file d); y_rest := fun _ d => d_rest d; y_eof := fun _ d => d_eof d |}.
  - intros path d. unfold wp. simpl. by exists 3.
  - intros fp n d Hn. unfold wp. simpl. unfold desk_fgets. destruct (d_rest d) eqn:E; simpl; [|done].
    rewrite drop_nil. by split.
  - intros fp d. unfold wp. simpl. unfold desk_fgetc. by destruct (d_rest d).
  - by intros fp d.
Defined.

(** ** Options *)

Definition desk_name (a : list Z) {St} (o : poptOption St) : bool := bytes_eqb a (chars "--" ++ chars (longName _ o)).

(** The value of the option and the arguments behind it. *)
Definition desk_apply {St} (a : popt_arg St) (args : list (list Z)) (st : St) : option (St * list (list Z)) :=
  match a, args with
  | POPT_ARG_STRING store, x :: rest => Some (store x st, rest)
  | POPT_ARG_INT store, x :: rest => Some (store (strtol_10 x).1 st, rest)
  | POPT_ARG_ARGV append, x :: rest => Some (append x st, rest)
  | POPT_ARG_NONE store, rest => Some (store 1 st, rest)
  | POPT_ARG_VAL store val, rest => Some (store val st, rest)
  | _, [] => None
  end.

#[export] Instance desk_popt : Popt desk := {|
  poptContext := fun St => (list (list Z) * list (poptOption St))%type;
  poptGetContext := fun St argv options => (tail argv, options);
  poptGetNextOpt := fun St '(args, options) st =>
    match args with
    | a :: rest =>
        match List.find (desk_name a) options with
        | Some o =>
            match desk_apply (arg _ o) rest st with
            | Some (st', rest) => ret (0, (rest, options), st')
            | None => ret (-10, (args, options), st)
            end
        | None => ret (if bytes_eqb (take 2 a) (chars "--") then -11 else -1, (args, options), st)
        end
    | [] => ret (-1, (args, options), st)
    end;
  poptGetArgs := fun St '(args, _) => args;
  poptBadOption := fun St '(args, _) => default [] (head args);
  poptStrerror := fun _ => chars "bad option";
  poptUsage := fun St _ => chars "usage"
|}.
