(* ===== verification/ToolTheorems.v ===== *)
(** * Theorems about the command line tools *)

From Stdlib Require Import String.
From S2P Require Import Url Prelude Machine Status Alloc Codec Table TableEncode TableDecode Framing Methods MethodDecode MethodEncode MethodWire MethodTheory Properties PropertiesTheory PropertiesTheorems Mem MemTheory PoolTheorems TableTheorems PoolTable Time Frame FrameTheorems Connection ParserTheory ParserTheorems ConnectionTheorems Socket Network Scripted Inbox Outbox FrameQueue RpcTheory RpcTheorems Api ConsumerTheory ConsumerTheorems Wrappers Login LoginTheory WrapperTheorems ToolCommon ToolMain ToolTheory Desk.

(** ** amqp-consume *)

(** A message as the server delivers it. *)
Record delivery : Type := mk_delivery {
  dl_deliver : amqp_basic_deliver_t;
  dl_class : Z;
  dl_properties : amqp_properties_t;
  dl_raw : amqp_bytes_t;
  dl_body : list amqp_bytes_t
}.

Definition delivery_frames (d : delivery) : list amqp_frame_t :=
  method_frame 1 (M_BASIC_DELIVER (dl_deliver d)) ::
  content 1 (dl_class d) (dl_properties d) (dl_raw d) (dl_body d).

Definition delivery_ok (d : delivery) : Prop :=
  Forall (fun b => contents b <> []) (dl_body d) /\ zlen (pieces (dl_body d)) <= PTRDIFF_MAX.

Definition ack_frame (d : delivery) : amqp_frame_t :=
  method_frame 1 (M_BASIC_ACK {| basic_ack_delivery_tag := basic_deliver_delivery_tag (dl_deliver d);
                                 basic_ack_multiple := 0 |}).

(** What is sent for a delivery that a command has been run on. *)
Definition ack (no_ack : Z) (d : delivery) (r : run) : list Z :=
  if succeeded r && (no_ack =? 0) then wire_frame (ack_frame d) else [].

Definition acks (no_ack : Z) (ds : list delivery) (rs : list run) : list Z :=
  concat (zip_with (ack no_ack) ds rs).

Definition bodies (ds : list delivery) : list Z := concat (map (fun d => pieces (dl_body d)) ds).

Lemma ack_length d : length (wire_frame (ack_frame d)) = 21%nat.
Proof.
  unfold wire_frame, wire_bytes, wire_payload, wire_method. simpl.
  by rewrite !length_app, !length_be_encode.
Qed.

Lemma ack_sendable d : sendable (ack_frame d).
Proof. split; [done|]. split; [done|]. split; [done|]. repeat constructor. Qed.

(** The limits amqp-consume asks the server for. *)
Definition qos_limits (count prefetch_count : Z) : list Z :=
  let limited := (0 <? count) && (count <=? AMQP_CONSUME_MAX_PREFETCH_COUNT) in
  (if limited then [count] else []) ++
  (if (0 <? prefetch_count) && (prefetch_count <=? AMQP_CONSUME_MAX_PREFETCH_COUNT) &&
      negb (limited && (count <=? prefetch_count)) then [prefetch_count] else []).

Definition qos_frame (n : Z) : amqp_frame_t :=
  method_frame 1 (M_BASIC_QOS {| basic_qos_prefetch_size := 0; basic_qos_prefetch_count := n; basic_qos_global := 0 |}).

Definition consume_frame (queue : amqp_bytes_t) (no_ack : Z) : amqp_frame_t :=
  method_frame 1 (M_BASIC_CONSUME {| basic_consume_ticket := 0; basic_consume_queue := queue;
    basic_consume_consumer_tag := amqp_empty_bytes; basic_consume_no_local := 0; basic_consume_no_ack := no_ack;
    basic_consume_exclusive := 0; basic_consume_nowait := 0; basic_consume_arguments := amqp_empty_table |}).

(** The frame is the method [id] on channel 1. *)
Definition answers (id : Z) (f : amqp_frame_t) : Prop := channel f = 1 /\ exists d, payload f = PL_method id d.

Lemma qos_length n : length (wire_frame (qos_frame n)) = 19%nat.
Proof.
  unfold wire_frame, wire_bytes, wire_payload, wire_method. simpl.
  by rewrite !length_app, !length_be_encode.
Qed.

Lemma qos_sendable n : sendable (qos_frame n).
Proof. split; [done|]. split; [done|]. split; [done|]. repeat constructor. Qed.

Section Consume.
Context {W V : Type} {HC : Clock W} {HS : Sockets W} {HP : Poll W} {HL : NetworkLaws W} {HH : Host}.
Context {HX : Posix V} {HY : SystemLaws V}.
Context (uninit : amqp_basic_properties_t) (fuel : nat).

Abbreviation net s := (world (s : cst W)).
Abbreviation never := (fun (_ : Z) (_ : tst W V) => False).

(** The acknowledgement. *)
Lemma wp_acknowledge no_ack d r fm R L fs (s : cst W) (v : V) :
  session fm R L fs s -> 21 <= L -> (effort s + 21 < fuel)%nat ->
  wp (if succeeded r && (no_ack =? 0) then
        let* res := on_lib (status_of (amqp_basic_ack uninit fuel 1 (basic_deliver_delivery_tag (dl_deliver d)) 0)) in
        die_amqp_error res (chars "basic.ack")
      else ret tt) (fun _ t => exists s', t = around s' v /\ session fm R L fs s' /\ (effort s' <= effort s)%nat /\
        n_sent (net s') = n_sent (net s) ++ ack no_ack d r) never (around s v).
Proof.
  intros Hs HL21 Hfuel. unfold ack. destruct (succeeded r && (no_ack =? 0)).
  - apply wp_bind, wp_on_lib, wp_status_of. unfold amqp_basic_ack, amqp_send_method, amqp_send_method_inner.
    wp_use (session_send uninit fuel fm R L fs (ack_frame d));
      [exact Hs|apply ack_sendable|unfold zlen; rewrite ack_length; lia|rewrite ack_length; lia| |done].
    intros _ s3 (Hse3 & Hef3 & Hs3). apply wp_ret. by exists s3.
  - apply wp_ret. exists s. by rewrite app_nil_r.
Qed.

Lemma wp_consume_one no_ack argv fm R L fs d rest (s : cst W) (v : V) :
  session fm R L fs s -> talk fs = delivery_frames d ++ rest -> delivery_ok d -> 21 <= L ->
  (effort s + length (pieces (dl_body d)) + 21 < fuel)%nat -> y_phase v = Idle ->
  wp (consume_one uninit fuel no_ack argv) (fun _ t => exists s' v' R' fs' r, t = around s' v' /\
    R <= R' /\ talk fs' = rest /\ session fm R' L fs' s' /\ y_phase v' = Idle /\
    run_argv r = argv /\ run_input r = pieces (dl_body d) /\ y_runs v' = y_runs v ++ [r] /\
    n_sent (net s') = n_sent (net s) ++ ack no_ack d r /\ (effort s' < effort s)%nat) never (around s v).
Proof.
  intros Hs Hl [Hne Hmax] HL21 Hfuel Hi. unfold consume_one. apply wp_bind. cbn [delivery_frames app] in Hl.
  wp_use wp_next_frame; [exact Hs|exact Hl|lia| |done].
  intros g t (-> & s1 & fs1 & -> & Hef1 & Hse1 & Hl1 & Hs1).
  cbn [received frame_type payload method_frame method_number norm_method negb orb Z.eqb].
  change (AMQP_BASIC_DELIVER_METHOD =? AMQP_BASIC_DELIVER_METHOD) with true. cbn [negb orb].
  apply wp_bind. wp_use (wp_pipeline (W := W)); [exact Hi| |done]. intros pl t (v1 & -> & Hp1 & Hr1). apply wp_bind.
  wp_use (wp_copy_body uninit fuel (infd pl) (fun w v => y_phase v = Running (infd pl) (pid pl) argv w /\ y_runs v = y_runs v1));
    [exact Hs1|exact Hl1|done|done|lia|apply accepts_pipe|by split| |done].
  intros _ t (s2 & v2 & R2 & fs2 & -> & [Hp2 Hr2] & HR2 & Hl2 & Hs2 & Hse2 & Hef2).
  apply wp_bind. wp_use (wp_finish_pipeline (W := W)); [exact Hp2| |done]. intros ok t (v3 & r & -> & Hp3 & Ha & Hin & Hr3 & ->).
  apply wp_bind. wp_use (wp_acknowledge no_ack d r); [exact Hs2|done|lia| |done]. intros _ t (s3 & -> & Hs3 & Hef3 & Hse3).
  apply wp_on_lib. wp_use session_release; [exact Hs3| |done]. intros _ s4 (Hs4 & Hef4 & Hse4).
  exists s4, v3, R2, fs2, r. split_and!; try done; try lia; congruence.
Qed.

(** The loop. *)
Lemma wp_consume_all no_ack argv count fm L rest ds : forall i R fs (s : cst W) (v : V),
  session fm R L fs s -> talk fs = concat (map delivery_frames ds) ++ rest -> Forall delivery_ok ds -> 21 <= L ->
  (effort s + length (bodies ds) + length ds + 21 < fuel)%nat -> y_phase v = Idle ->
  0 <= i -> count = i + zlen ds -> count <= INT32_MAX -> forall n, (length ds < n)%nat ->
  wp (iter n (fun i =>
        if (count <? 0) || (i <? count) then
          do* consume_one uninit fuel no_ack argv in
          if i =? INT32_MAX then undefined else ret (inl (i + 1))
        else ret (inr tt)) i) (fun _ t => exists s' v' R' fs' rs, t = around s' v' /\
    R <= R' /\ talk fs' = rest /\ session fm R' L fs' s' /\ y_phase v' = Idle /\
    Forall2 (fun d r => run_argv r = argv /\ run_input r = pieces (dl_body d)) ds rs /\
    y_runs v' = y_runs v ++ rs /\ n_sent (net s') = n_sent (net s) ++ acks no_ack ds rs) never (around s v).
Proof.
  induction ds as [|d ds IH]; intros i R fs s v Hs Hl Hok HL21 Hfuel Hi H0 Hc Hmax n Hn; (destruct n as [|n]; [lia|]); simpl.
  - change (zlen []) with 0 in Hc. rewrite (proj2 (Z.ltb_ge count 0)), (proj2 (Z.ltb_ge i count)) by lia.
    apply wp_bind, wp_ret, wp_ret. exists s, v, R, fs, []. rewrite !app_nil_r. by split_and!.
  - apply Forall_cons in Hok as [Hd Hok]. simpl in Hl. rewrite <- app_assoc in Hl.
    change (bodies (d :: ds)) with (pieces (dl_body d) ++ bodies ds) in Hfuel. rewrite length_app in Hfuel.
    unfold zlen in Hc. simpl in Hc, Hn, Hfuel. rewrite (proj2 (Z.ltb_lt i count)), orb_true_r by lia.
    apply wp_bind, wp_bind. wp_use wp_consume_one; [exact Hs|exact Hl|done|done|lia|exact Hi| |done].
    intros _ t (s1 & v1 & R1 & fs1 & r & -> & HR1 & Hl1 & Hs1 & Hi1 & Ha & Hin & Hr1 & Hse1 & Hef1).
    rewrite (proj2 (Z.eqb_neq i INT32_MAX)) by lia. apply wp_ret.
    wp_use (IH (i + 1) R1 fs1 s1 v1); [done|done|done|done|lia|done|lia|unfold zlen; lia|done|lia| |done].
    intros _ t (s2 & v2 & R2 & fs2 & rs & -> & HR2 & Hl2 & Hs2 & Hi2 & Hf & Hr2 & Hse2).
    exists s2, v2, R2, fs2, (r :: rs). split_and!; try done; [lia|by constructor|by rewrite Hr2, Hr1, <- app_assoc|].
    by rewrite Hse2, Hse1, <- app_assoc.
Qed.
(** A wrapper whose answer comes does not end the program. *)
Lemma wp_or_die m ch req reply_id msg fm R L fs f rest (s : cst W) (v : V) :
  wraps uninit fuel ch m req reply_id ->
  session fm R L fs s -> talk fs = f :: rest -> channel f = ch -> (exists d, payload f = PL_method reply_id d) ->
  sendable (method_frame ch req) -> zlen (wire_frame (method_frame ch req)) <= L ->
  (length (wire_frame (method_frame ch req)) + effort s < fuel)%nat ->
  wp (or_die m msg) (fun r t => r = returned reply_id f /\ exists s' fs', t = around s' v /\
    n_sent (net s') = n_sent (net s) ++ wire_frame (method_frame ch req) /\ (effort s' < effort s)%nat /\
    talk fs' = rest /\ session fm (R + 2) L fs' s') never (around s v).
Proof.
  intros Hw Hs Hl Hch [d Hp] Hse Hfit Hfuel. apply wp_bind, wp_on_lib.
  wp_use session_wrapper; [exact Hw|exact Hs|exact Hl|exact Hch|by exists d|exact Hse|exact Hfit|exact Hfuel| |done].
  intros r s' (-> & Hsent & Hef & fs' & Hl' & Hs'). unfold returned. rewrite Hp, Z.eqb_refl. apply wp_ret.
  split; [done|]. by exists s', fs'.
Qed.

(** One request for a limit. *)
Lemma wp_qos n fm R L fs f rest (s : cst W) (v : V) :
  session fm R L fs s -> talk fs = f :: rest -> answers AMQP_BASIC_QOS_OK_METHOD f -> 19 <= L -> (effort s + 19 < fuel)%nat ->
  wp (let* _ := or_die (amqp_basic_qos uninit fuel 1 0 n 0) (chars "basic.qos") in ret tt) (fun _ t =>
    exists s' fs' R', t = around s' v /\ n_sent (net s') = n_sent (net s) ++ wire_frame (qos_frame n) /\
    (effort s' <= effort s)%nat /\ talk fs' = rest /\ R <= R' /\ session fm R' L fs' s') never (around s v).
Proof.
  intros Hs Hl [Hch Hd] HL19 Hfuel. apply wp_bind.
  assert (Hfit : zlen (wire_frame (qos_frame n)) <= L) by (unfold zlen; rewrite qos_length; lia).
  assert (Hfu : (length (wire_frame (qos_frame n)) + effort s < fuel)%nat) by (rewrite qos_length; lia).
  wp_use (wp_or_die (amqp_basic_qos uninit fuel 1 0 n 0)); [apply wraps_basic_qos|exact Hs|exact Hl|exact Hch|exact Hd
    |apply qos_sendable|exact Hfit|exact Hfu| |done].
  intros r t (_ & s' & fs' & -> & Hse & Hef & Hl' & Hs'). apply wp_ret. exists s', fs', (R + 2). split_and!; try done; lia.
Qed.

Definition wires_of (l : list amqp_frame_t) : list Z := concat (map wire_frame l).

Lemma wp_limit_prefetch count prefetch_count fm R L fs oks rest (s : cst W) (v : V) :
  session fm R L fs s -> talk fs = oks ++ rest -> Forall (answers AMQP_BASIC_QOS_OK_METHOD) oks ->
  length oks = length (qos_limits count prefetch_count) -> 19 <= L -> (effort s + 19 < fuel)%nat ->
  wp (limit_prefetch uninit fuel count prefetch_count) (fun _ t =>
    exists s' fs' R', t = around s' v /\
    n_sent (net s') = n_sent (net s) ++ wires_of (map qos_frame (qos_limits count prefetch_count)) /\
    (effort s' <= effort s)%nat /\ talk fs' = rest /\ R <= R' /\ session fm R' L fs' s') never (around s v).
Proof.
  intros Hs Hl Hoks Hlen HL19 Hfuel. unfold limit_prefetch, qos_limits in *.
  set (lim := (0 <? count) && (count <=? AMQP_CONSUME_MAX_PREFETCH_COUNT)) in *.
  set (more := _ && negb (lim && (count <=? prefetch_count))) in *. unfold wires_of. rewrite map_app, map_app, concat_app.
  assert (Hsecond : forall R1 fs1 oks1 s1, session fm R1 L fs1 s1 -> talk fs1 = oks1 ++ rest -> R <= R1 ->
    Forall (answers AMQP_BASIC_QOS_OK_METHOD) oks1 -> length oks1 = length (if more then [prefetch_count] else []) ->
    (effort s1 <= effort s)%nat ->
    wp (if more then let* _ := or_die (amqp_basic_qos uninit fuel 1 0 prefetch_count 0) (chars "basic.qos") in ret tt
        else ret tt) (fun _ t => exists s' fs' R', t = around s' v /\ n_sent (net s') = n_sent (net s1) ++
        concat (map wire_frame (map qos_frame (if more then [prefetch_count] else []))) /\ (effort s' <= effort s)%nat /\
        talk fs' = rest /\ R <= R' /\ session fm R' L fs' s') never (around s1 v)).
  { intros R1 fs1 oks1 s1 Hs1 Hl1 HR1 Hok1 Hlen1 Hef1. destruct more; simpl in *.
    - destruct oks1 as [|f [|]]; [done| |done]. apply Forall_cons in Hok1 as [Hf _].
      wp_use wp_qos; [exact Hs1|exact Hl1|exact Hf|done|lia| |done]. intros _ t (s' & fs' & R' & -> & Hse & Hef & Hl' & HR' & Hs').
      exists s', fs', R'. rewrite app_nil_r. split_and!; try done; lia.
    - destruct oks1; [|done]. apply wp_ret. exists s1, fs1, R1. rewrite app_nil_r. by split_and!. }
  apply wp_bind. destruct lim; simpl in *.
  - destruct oks as [|f oks]; [done|]. apply Forall_cons in Hoks as [Hf Hoks]. simpl in *.
    wp_use wp_qos; [exact Hs|exact Hl|exact Hf|done|lia| |done]. intros _ t (s1 & fs1 & R1 & -> & Hse & Hef & Hl' & HR' & Hs').
    wp_use (Hsecond R1 fs1 oks s1); [done|done|done|done|lia|done| |done]. intros _ t (s2 & fs2 & R2 & -> & Hse2 & H).
    exists s2, fs2, R2. split_and!; [done|by rewrite Hse2, Hse, <- !app_assoc|apply H..].
  - apply wp_ret. wp_use (Hsecond R fs oks s); [done|done|lia|done|done|lia| |done]. intros _ t (s2 & fs2 & R2 & -> & H). exists s2, fs2, R2. by split.
Qed.

End Consume.

(** ** amqp-get *)

Definition get_frame (queue : list Z) : amqp_frame_t :=
  method_frame 1 (M_BASIC_GET {| basic_get_ticket := 0;
    basic_get_queue := {| len := zlen queue; bytes := Some (queue ++ [0]) |}; basic_get_no_ack := 1 |}).

Lemma strlen_string s : Forall (fun c => c <> 0) s -> strlen (s ++ [0]) = Some (zlen s).
Proof.
  induction 1 as [|c s Hc _ IH]; [done|]. simpl. rewrite (proj2 (Z.eqb_neq c 0)) by done. rewrite IH. simpl.
  f_equal. unfold zlen. simpl. lia.
Qed.

Section Get.
Context {W V : Type} {HC : Clock W} {HS : Sockets W} {HP : Poll W} {HL : NetworkLaws W} {HH : Host}.
Context {HX : Posix V} {HY : SystemLaws V}.
Context (uninit : amqp_basic_properties_t) (fuel : nat).

Abbreviation net s := (world (s : cst W)).
Abbreviation never := (fun (_ : Z) (_ : tst W V) => False).

(** C21: amqp-get prints the message, the whole message and nothing else.  On an open
    channel, [do_get] asks for one message of the queue; when the server sends one,
    its body, in however many fragments it comes and in however many pieces
    [write] takes it, is exactly what is added to standard output, and the result
    is 1; when the queue is empty, nothing is written and the result is 0. *)
Theorem get_exact (found : bool) queue fm R L fs f ch cid p raw frags rest (s : cst W) (v : V) :
  session fm R L fs s -> talk fs = f :: (if found then content ch cid p raw frags else []) ++ rest ->
  answers (if found then AMQP_BASIC_GET_OK_METHOD else AMQP_BASIC_GET_EMPTY_METHOD) f ->
  Forall (fun b => contents b <> []) frags -> zlen (pieces frags) <= PTRDIFF_MAX ->
  Forall (fun c => c <> 0) queue -> zlen queue <= UINT8_MAX -> zlen (wire_frame (get_frame queue)) <= L ->
  (effort s + length (pieces frags) + length (wire_frame (get_frame queue)) < fuel)%nat ->
  wp (do_get uninit fuel (Some queue)) (fun r t => r = found /\ exists s' v' R' fs', t = around s' v' /\
    y_out v' = y_out v ++ (if found then pieces frags else []) /\
    n_sent (net s') = n_sent (net s) ++ wire_frame (get_frame queue) /\
    talk fs' = rest /\ session fm R' L fs' s') never (around s v).
Proof.
  intros Hs Hl [Hch [d Hd]] Hne Hmax Hq Hlq Hfit Hfuel. unfold do_get, cstring_bytes, amqp_cstring_bytes.
  rewrite strlen_string by done. apply wp_bind, wp_ret. apply wp_bind, wp_on_lib. unfold amqp_basic_get. apply wp_bind.
  assert (Hm : rpc_match 1 [AMQP_BASIC_GET_OK_METHOD; AMQP_BASIC_GET_EMPTY_METHOD; 0] f = true).
  { unfold rpc_match. rewrite Hd, Hch. by destruct found. }
  wp_use (session_rpc uninit fuel fm R L fs f); [exact Hs|exact Hl|exact Hm| |exact Hfit| | |done].
  { split; [done|]. split; [done|]. split; [done|]. apply Forall_cons. split; [done|]. apply Forall_cons.
    split; [|by repeat constructor]. split; [|done]. unfold readable, UINT8_MAX, PTRDIFF_MAX in *. simpl. unfold mem_of. simpl.
    rewrite zlen_app. change (zlen [0]) with 1. pose proof (zlen_nonneg queue). lia. }
  { change (length (wire_frame (get_frame queue)) + effort s < fuel)%nat. lia. }
  intros r s1 (-> & Hse1 & Hef1 & fs1 & Hl1 & Hs1). apply wp_bind, wp_upd. apply wp_bind, wp_the_conn. apply wp_ret.
  apply (session_api_result _ _ _ _ _ (frame_reply [AMQP_BASIC_GET_OK_METHOD; AMQP_BASIC_GET_EMPTY_METHOD; 0] f)) in Hs1.
  set (s2 := {| conn := set_api_result _ (conn s1); hp := hp s1; world := world s1 |}) in *.
  change (most_recent_api_result (conn s2)) with (frame_reply [AMQP_BASIC_GET_OK_METHOD; AMQP_BASIC_GET_EMPTY_METHOD; 0] f).
  unfold frame_reply. rewrite Hd. assert (Hef2 : (effort s2 < effort s)%nat) by exact Hef1.
  destruct found; simpl in Hl1; apply wp_bind, wp_ret; simpl.
  - apply wp_bind. wp_use (wp_copy_body uninit fuel 1 (fun w v' => y_out v' = y_out v ++ w));
      [exact Hs1|exact Hl1|done|done|lia|apply accepts_out|by rewrite app_nil_r| |done].
    intros _ t (s3 & v3 & R3 & fs3 & -> & Ho & _ & Hl3 & Hs3 & Hse3 & _). apply wp_ret. split; [done|].
    exists s3, v3, R3, fs3. split_and!; try done. rewrite Hse3. exact Hse1.
  - apply wp_ret. split; [done|]. exists s2, v, (R + 2), fs1. rewrite app_nil_r. by split_and!.
Qed.
End Get.

(** ** Credentials *)

(** The file the documentation describes. *)
Definition authfile (username password : list Z) : list Z :=
  USERNAMEPREFIX ++ username ++ newline :: PASSWORDPREFIX ++ password ++ [newline].

Lemma username_prefix_text : plain_text USERNAMEPREFIX.
Proof. by repeat constructor. Qed.
Lemma password_prefix_text : plain_text PASSWORDPREFIX.
Proof. by repeat constructor. Qed.

Section Authfile.
Context {W V : Type} {HX : Posix V} {HF : FileLaws V}.
Abbreviation never := (fun (_ : Z) (_ : tst W V) => False).

Lemma wp_malloc n h Q E :
  heap_ok h -> reliable h -> 0 <= n <= PTRDIFF_MAX ->
  (forall b m h', h_blocks h !! b = None -> zlen m = n -> heap_ok h' -> reliable h' ->
     h_blocks h' = <[b := m]> (h_blocks h) -> Q (Some {| p_block := b; p_off := 0 |}) h') ->
  wp (c_malloc n) Q E h.
Proof.
  intros Hok Hrel Hn HQ. unfold c_malloc, wp.
  destruct (heap_alloc_granted n (junk (h_env h) (h_count h)) h Hok Hrel Hn)
    as (p & h' & m & Hrun & Hok' & Hrel' & Hoff & Hfresh & Hz & Hb). rewrite Hrun.
  destruct p as [b o]. simpl in *. subst o. by apply (HQ b m).
Qed.

Lemma wp_tst_eta {A} (m : C (tst W V) A) Q E (t : tst W V) :
  wp m Q E (with_memory t (t_heap t) (t_env t)) -> wp m Q E t.
Proof. by destruct t. Qed.

(** C22: the credentials file is read as it is documented.  When the file holds the
    line "username:" with the user name and the line "password:" with the password,
    each at most 117 characters long and without a NUL or a newline in it, and
    memory is available, [read_authfile] returns, the strings it has put into new
    memory are exactly the user name and the password, and nothing else in memory
    has changed. *)
Theorem authfile_exact path username password (t : tst W V) :
  heap_ok (t_heap t) -> reliable (t_heap t) -> y_contents path (t_env t) = Some (authfile username password) ->
  plain_text username -> plain_text password -> zlen username <= 117 -> zlen password <= 117 ->
  wp (read_authfile path) (fun '(p, q) t' => exists h v m1 m2, t' = with_memory t h v /\
    memory_of (Mem p) h = Ret m1 h /\ until_nul m1 = Some username /\
    memory_of (Mem q) h = Ret m2 h /\ until_nul m2 = Some password /\
    (forall b x, h_blocks (t_heap t) !! b = Some x -> h_blocks h !! b = Some x)) never t.
Proof.
  intros Hok Hrel Hfile Hu Hp Hlu Hlp. apply wp_tst_eta. unfold read_authfile, MAXAUTHTOKENLEN.
  apply wp_bind, wp_heap_step. apply wp_malloc; [done|done|done|]. intros b1 m1 h1 Hf1 Hz1 Hok1 Hrel1 Hb1.
  apply wp_bind, wp_heap_step. apply wp_malloc; [done|done|done|]. intros b2 m2 h2 Hf2 Hz2 Hok2 Hrel2 Hb2.
  assert (Hne : b1 <> b2) by (intros ->; by rewrite Hb1, lookup_insert_eq in Hf2).
  assert (Hf2' : h_blocks (t_heap t) !! b2 = None) by (by rewrite Hb1, lookup_insert_ne in Hf2).
  apply wp_bind, wp_env_step. wp_use fopen_law; [|done]. rewrite Hfile. intros r v1 (fp & -> & Hr1).
  apply wp_bind. wp_use (wp_read_token (W := W) fp USERNAMEPREFIX username (PASSWORDPREFIX ++ password ++ [newline]) b1 m1);
    [exact Hr1|apply username_prefix_text|done|change (zlen USERNAMEPREFIX) with 9; lia|by rewrite Hb2, lookup_insert_ne, Hb1, lookup_insert_eq|done| |done].
  intros _ t1 (v2 & m1' & -> & Hr2 & Hs1). apply wp_bind.
  wp_use (wp_read_token (W := W) fp PASSWORDPREFIX password [] b2 m2);
    [exact Hr2|apply password_prefix_text|done|change (zlen PASSWORDPREFIX) with 9; lia|simpl; by rewrite lookup_insert_ne, Hb2, lookup_insert_eq|done| |done].
  intros _ t2 (v3 & m2' & -> & Hr3 & Hs2). apply wp_bind, wp_env_step. wp_use fgetc_law; [|done]. rewrite Hr3. intros c v4 He.
  apply wp_bind, wp_env_step. wp_use feof_law; [|done]. intros e v5 [-> ->]. rewrite He. cbn [negb]. apply wp_ret.
  eexists _, v4, m1', m2'. split_and!; [done| |done| |done|].
  - unfold memory_of. simpl. rewrite lookup_insert_ne, lookup_insert_eq by done. done.
  - unfold memory_of. simpl. by rewrite lookup_insert_eq.
  - intros b x Hx. simpl. rewrite !lookup_insert_ne, Hb2, lookup_insert_ne, Hb1, lookup_insert_ne by congruence. done.
Qed.

Lemma heap_step_run {A} (m : C heap A) t h h' v a :
  m h = Ret a h' -> on_heap m (with_memory t h v : tst W V) = Ret a (with_memory t h' v).
Proof. unfold on_heap. simpl. by intros ->. Qed.

Lemma env_step_run {A} (m : C V A) t h v v' a :
  m v = Ret a v' -> on_env m (with_memory t h v : tst W V) = Ret a (with_memory t h v').
Proof. unfold on_env. simpl. by intros ->. Qed.

(** A file that ends with the prefix. *)
Lemma read_token_underflow fp prefix b m missing too_long t h v :
  y_rest fp v = prefix -> prefix <> [] -> plain_text prefix -> zlen prefix <= 126 ->
  h_blocks h !! b = Some m -> zlen m = MAXAUTHTOKENLEN ->
  read_token fp prefix {| p_block := b; p_off := 0 |} missing too_long (with_memory t h v : tst W V) = UB.
Proof.
  intros Hr Hne Hpre Hlen Hb Hm. unfold read_token.
  destruct (wp_run_ret _ _ _ (fgets_law fp MAXAUTHTOKENLEN v ltac:(done))) as (r & v2 & Hrun & _ & Hl).
  rewrite Hr in Hl. rewrite first_line_end in Hl by (done || (unfold zlen, MAXAUTHTOKENLEN in *; lia)).
  assert (r = Some prefix) as -> by (by destruct prefix). erewrite bind_ret; [|apply env_step_run; exact Hrun]. cbv beta iota.
  rewrite until_nul_text by (eapply Forall_impl; [exact Hpre|]; by intros c []).
  rewrite firstn_all, drop_all. unfold bytes_eqb at 1. rewrite bool_decide_eq_true_2 by done. cbn [negb].
  unfold strncpy. set (zeros := [] ++ replicate _ 0). assert (Hz : zlen zeros = MAXAUTHTOKENLEN) by done.
  erewrite bind_ret; [|apply heap_step_run; unfold heap_store; simpl; rewrite Hb, store_Some by lia; done].
  unfold bind, on_heap, heap_load. simpl. by rewrite lookup_insert_eq.
Qed.

(** C40: a credentials file that ends after a prefix makes the tools read memory that
    is not theirs.  When memory is available and the file is just "username:",
    without a newline, [read_authfile] takes the string after the prefix, which is
    empty, and looks at the character before its first one: undefined behaviour,
    where a malformed file should end the program with a message. *)
Theorem authfile_underflow path (t : tst W V) :
  heap_ok (t_heap t) -> reliable (t_heap t) -> y_contents path (t_env t) = Some USERNAMEPREFIX ->
  read_authfile path t = UB.
Proof.
  intros Hok Hrel Hfile. replace t with (with_memory t (t_heap t) (t_env t)) by (by destruct t).
  unfold read_authfile, MAXAUTHTOKENLEN.
  destruct (heap_alloc_granted 128 (junk (h_env (t_heap t)) (h_count (t_heap t))) (t_heap t) Hok Hrel ltac:(done))
    as ([b1 o1] & h1 & m1 & Hrun1 & Hok1 & Hrel1 & Hoff1 & Hf1 & Hz1 & Hb1). simpl in *. subst o1.
  erewrite bind_ret; [|apply heap_step_run; exact Hrun1].
  destruct (heap_alloc_granted 128 (junk (h_env h1) (h_count h1)) h1 Hok1 Hrel1 ltac:(done))
    as ([b2 o2] & h2 & m2 & Hrun2 & Hok2 & Hrel2 & Hoff2 & Hf2 & Hz2 & Hb2). simpl in *. subst o2.
  erewrite bind_ret; [|apply heap_step_run; exact Hrun2].
  destruct (wp_run_ret _ _ _ (fopen_law path (t_env t))) as (r & v1 & Hrun3 & Hr). rewrite Hfile in Hr.
  destruct Hr as (fp & -> & Hr1). erewrite bind_ret; [|apply env_step_run; exact Hrun3].
  unfold bind at 1. rewrite (read_token_underflow fp USERNAMEPREFIX b1 m1); [done|done|done|apply username_prefix_text|done| |done].
  rewrite Hb2, lookup_insert_ne, Hb1, lookup_insert_eq; [done|]. intros ->. by rewrite Hb1, lookup_insert_eq in Hf2.
Qed.
End Authfile.

(** ** Examples *)

#[local] Existing Instance little_endian.

(** Commands succeed on inputs that do not start with a zero byte. *)
Definition office (file : list Z) : desk :=
  mk_desk [] [] [] Idle [] file [] false 2 (fun input => match input with 0 :: _ => 256 | _ => 0 end).

Definition sample_delivery (tag : Z) (body : list amqp_bytes_t) : delivery :=
  mk_delivery {| basic_deliver_consumer_tag := view [99]; basic_deliver_delivery_tag := tag;
    basic_deliver_redelivered := 0; basic_deliver_exchange := view []; basic_deliver_routing_key := view [107] |}
    AMQP_BASIC_CLASS (P_BASIC message_header) amqp_empty_bytes body.

Definition sample_deliveries : list delivery :=
  [sample_delivery 5 [view [1; 2; 3]; view [4]]; sample_delivery 6 []; sample_delivery 7 [view [0; 9]]].

Definition qos_ok : amqp_frame_t := method_frame 1 M_BASIC_QOS_OK.
Definition consume_ok : amqp_frame_t := method_frame 1 (M_BASIC_CONSUME_OK {| basic_consume_ok_consumer_tag := view [99] |}).

Definition consumer_stream : list amqp_frame_t :=
  [qos_ok; sample_heartbeat; consume_ok] ++ concat (map delivery_frames sample_deliveries).

Ltac acceptable_frame :=
  split; [|by vm_compute]; split; [by vm_compute|]; split; [repeat constructor; by vm_compute|];
  first [reflexivity
        |split; [done|]; split; [done|]; split; [by vm_compute|]; split; repeat constructor; by vm_compute
        |split; [done|]; split; [done|]; split; [by vm_compute|]; split; [by vm_compute|];
         split; [by vm_compute|]; split; repeat constructor; by vm_compute].

Lemma connected_session fs :
  Forall (acceptable 4096) fs -> Forall is_byte (concat (map wire_frame fs)) ->
  zlen (concat (map wire_frame fs)) + 2 * zlen fs <= 90000 -> session 4096 1000 256 fs (connected fs).
Proof.
  intros Hf Hb Hz. exists open_kept, {| p_block := 2; p_off := 0 |}, (replicate 256 0).
  split_and!; [by apply connected_resting|by split|done|done|done].
Qed.

Lemma consumer_session : session 4096 1000 256 consumer_stream (connected consumer_stream).
Proof.
  apply connected_session; [|repeat constructor; by vm_compute|by vm_compute].
  repeat (apply Forall_cons_2; [acceptable_frame|]). constructor.
Qed.


Definition get_ok : amqp_frame_t :=
  method_frame 1 (M_BASIC_GET_OK {| basic_get_ok_delivery_tag := 1; basic_get_ok_redelivered := 0;
    basic_get_ok_exchange := view []; basic_get_ok_routing_key := view [107]; basic_get_ok_message_count := 0 |}).

Definition get_stream : list amqp_frame_t :=
  [sample_heartbeat; get_ok] ++
  content 1 AMQP_BASIC_CLASS (P_BASIC message_header) amqp_empty_bytes [view [104; 101; 108]; view [108; 111]].

Lemma get_session : session 4096 1000 256 get_stream (connected get_stream).
Proof.
  apply connected_session; [|repeat constructor; by vm_compute|by vm_compute].
  repeat (apply Forall_cons_2; [acceptable_frame|]). constructor.
Qed.

Lemma get_exact_witness :
  exists t, do_get blank_properties 1000 (Some [113]) (around (connected get_stream) (office [])) = Ret true t /\
    y_out (t_env t) = [104; 101; 108; 108; 111].
Proof.
  unshelve epose proof (get_exact blank_properties 1000 true [113] 4096 1000 256 get_stream get_ok 1 AMQP_BASIC_CLASS
    (P_BASIC message_header) amqp_empty_bytes [view [104; 101; 108]; view [108; 111]] [] (connected get_stream) (office [])
    get_session _ _ _ _ _ _ _ _) as Hw.
  - reflexivity.
  - split; [reflexivity|]. by eexists.
  - repeat constructor; vm_compute; discriminate.
  - by vm_compute.
  - by repeat constructor.
  - by vm_compute.
  - by vm_compute.
  - apply Nat.ltb_lt; by vm_compute.
  - destruct (wp_run_ret _ _ _ Hw) as (r & t & Hrun & -> & s' & v' & R' & fs' & -> & Ho & _).
    eexists. split; [exact Hrun|]. simpl. simpl in Ho. rewrite Ho. reflexivity.
Defined.

(** A tool before it has a connection. *)
Definition at_start (file : list Z) : tst unit desk :=
  {| t_conn := None; t_heap := fresh_heap generous; t_net := tt; t_env := office file |}.

Lemma authfile_exact_witness :
  exists p q t m1 m2, read_authfile [102] (at_start (authfile (chars "guest") (chars "s3cret"))) = Ret (p, q) t /\
    memory_of (Mem p) (t_heap t) = Ret m1 (t_heap t) /\ until_nul m1 = Some (chars "guest") /\
    memory_of (Mem q) (t_heap t) = Ret m2 (t_heap t) /\ until_nul m2 = Some (chars "s3cret").
Proof.
  unshelve epose proof (authfile_exact [102] (chars "guest") (chars "s3cret")
    (at_start (authfile (chars "guest") (chars "s3cret"))) (fresh_heap_ok _) _ eq_refl _ _ _ _) as Hw.
  - by intros n _.
  - by repeat constructor.
  - by repeat constructor.
  - by vm_compute.
  - by vm_compute.
  - destruct (wp_run_ret _ _ _ Hw) as ([p q] & t & Hrun & h & v & m1 & m2 & -> & H1 & H2 & H3 & H4 & _).
    exists p, q. eexists. exists m1, m2. split_and!; [exact Hrun|exact H1|exact H2|exact H3|exact H4].
Defined.

Lemma authfile_underflow_witness : read_authfile [102] (at_start USERNAMEPREFIX) = UB.
Proof.
  apply (authfile_underflow [102] (at_start USERNAMEPREFIX)); [apply fresh_heap_ok|by intros n _|reflexivity].
Defined.
