(* ===== verification/ToolPublish.v ===== *)
(** * amqp-publish

    What it publishes, in each of its modes: the body of the command line, all of
    standard input, or standard input line by line.  [InputLaws] is what is relied
    on of [read]; a connection that publishes ([posting]) keeps memory that the
    program holds beside it. *)

From S2P Require Import Url Prelude Machine Status Alloc Codec Table TableEncode TableDecode Framing Methods MethodDecode MethodEncode MethodWire MethodTheory Properties PropertiesTheory Mem MemTheory TableTheorems PoolTheorems MethodTheorems PropertiesTheorems PoolTable Time Frame FrameTheorems Connection ParserTheory ParserTheorems ConnectionTheorems Socket Network Scripted Inbox Outbox FrameQueue RpcTheory RpcTheorems Api ApiTheorems ConsumerTheory ConsumerTheorems Wrappers Login LoginTheory WrapperTheorems ToolCommon ToolMain ToolTheory Desk ToolTheorems.

Abbreviation with_heap s h := {| conn := conn s; hp := h; world := world s |}.

(** ** Publishing on a connection *)

Section Posting.
Context {W : Type} {HC : Clock W} {HS : Sockets W} {HP : Poll W} {HL : NetworkLaws W} {HH : Host}.
Context (uninit : amqp_basic_properties_t) (fuel : nat).

Abbreviation net s := (world (s : cst W)).

(** A session with an outbound buffer for frames of the agreed size; [X] is memory
    of the program. *)
Definition posting (X : gmap Z (list Z)) (fm R L : Z) (fs : list amqp_frame_t) (s : cst W) : Prop :=
  exists K q m, X ⊆ K /\ X !! p_block q = None /\ resting K fm R fs s /\ outbox K q m s /\ zlen m = L /\
    frame_max (conn s) = L /\ rpc_timeout (conn s) = None /\ queued_frames (conn s) = [].

Lemma posting_session X fm R L fs s : posting X fm R L fs s -> session fm R L fs s.
Proof. intros (K & q & m & _ & _ & Hs & Hob & Hz & _ & H). by exists K, q, m. Qed.

Lemma posting_memory X fm R L fs s : posting X fm R L fs s -> heap_ok (hp s) /\ reliable (hp s).
Proof. intros (K & q & m & _ & _ & Hs & _). by eapply resting_memory. Qed.

Lemma posting_block X fm R L fs s b m : posting X fm R L fs s -> X !! b = Some m -> h_blocks (hp s) !! b = Some m.
Proof. intros (K & q & m' & Hsub & _ & Hs & _) Hb. eapply resting_kept; [exact Hs|]. by eapply lookup_weaken. Qed.

(** New memory belongs to the program. *)
Lemma posting_grow X fm R L fs s h :
  posting X fm R L fs s -> grown (hp s) h -> posting (X ∪ fresh_blocks (hp s) h) fm R L fs (with_heap s h).
Proof.
  intros (K & q & m & Hsub & Hq & Hs & Hob & Hz & Hrest) Hg.
  assert (Hdis : K ##ₘ fresh_blocks (hp s) h).
  { apply map_disjoint_spec. intros b x y Hx [_ Hy]%fresh_blocks_Some. rewrite (resting_kept _ _ _ _ _ _ _ Hs Hx) in Hy. done. }
  exists (K ∪ fresh_blocks (hp s) h), q, m. split_and!; [| |by apply resting_grow| |done|apply Hrest..].
  - by apply map_union_mono_r.
  - apply lookup_union_None. split; [done|]. eapply map_disjoint_Some_l; [exact Hdis|]. apply Hob.
  - destruct Hob as [? ? Hk ? ?]. split; try done. by apply lookup_union_Some_l.
Qed.

Lemma posting_store X fm R L fs s b m m' :
  posting X fm R L fs s -> X !! b = Some m -> zlen m' = zlen m ->
  posting (<[b := m']> X) fm R L fs (with_heap s (set_blocks (<[b := m']> (h_blocks (hp s))) (hp s))).
Proof.
  intros (K & q & mq & Hsub & Hq & Hs & Hob & Hz & Hrest) Hb Hm. assert (Hne : b <> p_block q) by congruence.
  exists (<[b := m']> K), q, mq. split_and!; [by apply insert_mono|by rewrite lookup_insert_ne| | |done|apply Hrest..].
  - eapply resting_store; [exact Hs|by eapply lookup_weaken|done].
  - destruct Hob as [? ? Hk ? ?]. split; try done. by rewrite lookup_insert_ne.
Qed.

(** What has been sent leaves the receiving side alone. *)
Lemma posting_advanced X fm R L fs s s' w q :
  posting X fm R L fs s -> hb_bytes (outbound_buffer (conn s)) = Some q -> advanced q w s s' ->
  posting X fm R L fs s' /\ (effort s' <= effort s)%nat.
Proof.
  intros (K & q' & m & Hsub & Hq & Hs & Hob & Hz & Hfm & Hto & Hqu) Hp [Hc Ht (m1 & Hm1 & Hz1) (m2 & Hh) _ Hco Hw Hhe].
  assert (q' = q) as -> by (pose proof (ob_ptr _ _ _ _ Hob); congruence).
  assert (m2 = m1) as ->.
  { pose proof (cs_block _ _ _ Hm1) as Hb. rewrite Hh in Hb. simpl in Hb. rewrite lookup_insert_eq in Hb. congruence. }
  destruct Hs as (K' & B & pend & p & buf & <- & Hs & HB & HR). pose proof (he_send_timer _ _ _ _ _ _ _ _ _ _ Hs) as Htm.
  assert (Hcn : conn s' = conn s) by (rewrite <- (next_send_same (conn s')), Hc, next_send_same by auto; done).
  destruct Hob as [Hop Hoo Hk Hl Hsz]. apply lookup_delete_Some in Hk as [Hne Hk]. rewrite Hl in Hz1.
  split; [|unfold effort, pending; rewrite Hcn, Hco; lia].
  exists (<[p_block q := m1]> (delete (p_block p) K')), q, m1. rewrite Hcn. split_and!; try done; [| | |congruence].
  - etrans; [by apply (insert_subseteq X (p_block q) m1)|]. by apply insert_mono.
  - exists (<[p_block q := m1]> K'), B, pend, p, buf. rewrite Hco. split_and!; [by rewrite delete_insert_ne| |done|done].
    eapply hears_sent; [exact Hs|exact Hk|congruence|done|done|done|apply Hm1|apply Hhe, Hs|done].
  - split; rewrite ?Hcn; try done; [apply lookup_insert_eq|congruence|lia].
Qed.

(** The bytes of a message of the tool. *)
Definition posted (L : Z) (pm : amqp_basic_publish_t) (p : amqp_basic_properties_t) (body : list Z) : list Z :=
  concat (map wire_frame (message_frames (L - 8) 1 pm p body)).

Lemma posting_publish X fm R L fs exchange routing_key p body s :
  let pm := {| basic_publish_ticket := 0; basic_publish_exchange := exchange; basic_publish_routing_key := routing_key;
               basic_publish_mandatory := 0; basic_publish_immediate := 0 |} in
  posting X fm R L fs s -> 8 < L -> sendable (publish_frame 1 pm) -> zlen (wire_frame (publish_frame 1 pm)) <= L ->
  sendable (content_header 1 (len body) p) -> zlen (wire_frame (content_header 1 (len body) p)) <= L ->
  readable body -> is_Some (bytes body) -> (Z.to_nat L + effort s + Z.to_nat (len body) < fuel)%nat ->
  wp (amqp_basic_publish uninit fuel 1 exchange routing_key 0 0 (Some p) body) (fun _ s' =>
    posting X fm R L fs s' /\ (effort s' <= effort s)%nat /\
    n_sent (net s') = n_sent (net s) ++ posted L pm p (contents body)) (fun _ _ => False) s.
Proof.
  intros pm Hs Hmin Hpm Hpmz Hh Hhz Hr Hb Hfuel. pose proof Hs as (K & q & m & Hsub & Hq & Hrs & Hob & Hz & Hfm & _).
  pose proof (listening_can_send _ _ _ _ _ _ _ (resting_listening _ _ _ _ _ Hrs) Hob) as Hcs.
  wp_use (wp_basic_publish uninit fuel q m 1 exchange routing_key 0 0 (Some p) body s); rewrite ?Hfm; try done.
  - lia.
  - unfold effort in Hfuel. lia.
  - intros _ s' Had. destruct (posting_advanced _ _ _ _ _ _ _ _ _ Hs (cs_ptr _ _ _ Hcs) Had) as [Hs' Hef].
    split_and!; [done|done|]. apply Had.
  - intros e s' (_ & Hn & _). apply Hn. destruct Hrs as (K' & B & pend & pp & buf & _ & Hhe & _). apply Hhe.
Qed.
End Posting.

(** ** Reading all of standard input *)

(** [y_input] is what can still be read from descriptor 0; a call may be interrupted
    [y_interrupts] times at most. *)
Class InputLaws (V : Type) {HX : Posix V} : Type := {
  y_input : V -> list Z;
  y_interrupts : V -> nat;
  read_law n v : 0 < n ->
    wp (px_read 0 n) (fun '(r, data, errno) v' =>
      (r = 0 /\ y_input v = [] /\ y_input v' = []) \/
      (r < 0 /\ errno = EINTR /\ y_input v' = y_input v /\ (y_interrupts v' < y_interrupts v)%nat) \/
      (0 < r <= n /\ zlen data = r /\ y_input v = data ++ y_input v' /\ (y_interrupts v' <= y_interrupts v)%nat))
      (fun _ _ => False) v
}.

(** A block that is enlarged keeps its contents. *)
Lemma realloc_keeps b old n h :
  heap_ok h -> reliable h -> h_blocks h !! b = Some old -> zlen old <= n <= PTRDIFF_MAX ->
  exists b' h' m, c_realloc {| p_block := b; p_off := 0 |} n h = Ret (Some {| p_block := b'; p_off := 0 |}) h' /\
    heap_ok h' /\ reliable h' /\ h_blocks h !! b' = None /\ zlen m = n /\ take (length old) m = old /\
    h_blocks h' = <[b' := m]> (delete b (h_blocks h)).
Proof.
  intros Hok Hrel Hb Hn. pose proof (zlen_nonneg old).
  destruct (wp_run_ret _ _ _ (wp_realloc {| p_block := b; p_off := 0 |} (zlen old) n h Hok eq_refl
    ltac:(by exists old) ltac:(lia))) as (r & h' & Hrun & Hok' & Hl & Hsome & Hr).
  destruct (Hsome Hrel ltac:(lia)) as [[b' o'] ->]. destruct Hr as (Ho & Hf & m & Hz & Hbs). simpl in *. subst o'.
  exists b', h', m. split_and!; try done; [by eapply later_reliable|]. clear Hl Hsome Hok'. revert Hrun.
  unfold c_realloc. simpl. rewrite Hb. unfold heap_alloc. destruct (_ && _); simpl; [|done]. intros [= <- <-]. simpl in Hbs.
  apply (f_equal (lookup (h_next h))) in Hbs. rewrite lookup_insert_eq, lookup_delete_ne, lookup_insert_eq in Hbs by congruence.
  injection Hbs as <-. apply list_eq. intros i. destruct (decide (i < length old)%nat) as [Hi|Hi].
  - rewrite lookup_take_lt by done. rewrite list_lookup_fmap, lookup_seq_lt by (unfold zlen in *; lia). simpl.
    destruct (lookup_lt_is_Some_2 old i Hi) as [x Hx]. by rewrite Hx.
  - rewrite lookup_take_ge by lia. by rewrite lookup_ge_None_2 by lia.
Qed.

Lemma wp_assoc {S A B D} (m : C S A) (k : A -> C S B) (k' : B -> C S D) Q E s :
  wp (bind m (fun a => bind (k a) k')) Q E s <-> wp (bind (bind m k) k') Q E s.
Proof. unfold wp. by rewrite bind_assoc. Qed.

Section Reading.
Context {W V : Type} {HX : Posix V} {HI : InputLaws V}.
Context (fuel : nat).
Abbreviation never := (fun (_ : Z) (_ : tst W V) => False).

(** The buffer [b] beside the memory [h0], with [space] bytes of which the first
    [n] have been read. *)
Definition filling (h0 : heap) (input : list Z) (b n space : Z) (h : heap) (v : V) : Prop :=
  exists m, heap_ok h /\ reliable h /\ h_blocks h0 !! b = None /\ h_blocks h = <[b := m]> (h_blocks h0) /\
    zlen m = space /\ 0 <= n < space /\ (space = 4096 \/ space <= 2 * n) /\
    input = take (Z.to_nat n) m ++ y_input v.

(** One piece more, and the buffer grows when it is full. *)
Lemma wp_fill h0 input b n space data t h v v' :
  filling h0 input b n space h v -> y_input v = data ++ y_input v' -> 0 < zlen data <= space - n ->
  zlen input <= 2 ^ 40 ->
  wp (do* on_heap (heap_store {| p_block := b; p_off := 0 + n |} data) in
      read_more {| p_block := b; p_off := 0 |} n space (zlen data))
    (fun '(p, n', space') t' => exists b' h', p = Some {| p_block := b'; p_off := 0 |} /\
       t' = with_memory t h' v' /\ filling h0 input b' n' space' h' v') never (with_memory t h v' : tst W V).
Proof.
  intros (m & Hok & Hrel & Hf & Hbs & Hz & Hn & Hsp & Hin) Hv Hd Hmax. rewrite Z.add_0_l.
  apply wp_bind, wp_heap_step. assert (Hb : h_blocks h !! b = Some m) by (by rewrite Hbs, lookup_insert_eq).
  eapply wp_store; [exact Hb|simpl; lia|simpl; lia|]. cbn [p_block p_off].
  set (m1 := overwrite n data m). set (h1 := set_blocks _ h).
  assert (Hz1 : zlen m1 = space) by (unfold m1; rewrite zlen_overwrite; lia).
  assert (Hbs1 : h_blocks h1 = <[b := m1]> (h_blocks h0)) by (unfold h1; simpl; by rewrite Hbs, insert_insert_eq).
  assert (Htk : take (Z.to_nat (n + zlen data)) m1 = take (Z.to_nat n) m ++ data).
  { unfold m1, overwrite. rewrite app_assoc, take_app_le by (rewrite length_app, length_take; unfold zlen in *; lia).
    apply firstn_all2. rewrite length_app, length_take. unfold zlen in *. lia. }
  assert (Hin1 : input = take (Z.to_nat (n + zlen data)) m1 ++ y_input v') by (by rewrite Htk, <- app_assoc, <- Hv).
  assert (Hlen : n + zlen data <= 2 ^ 40).
  { rewrite Hin, Hv, !zlen_app in Hmax. pose proof (zlen_nonneg (y_input v')).
    unfold zlen at 1 in Hmax. rewrite length_take in Hmax. unfold zlen in *. lia. }
  assert (Hok1 : heap_ok h1).
  { intros c x. unfold h1. simpl. intros [[<- <-]|[_ Hx]]%lookup_insert_Some; [|by apply (Hok c)].
    destruct (Hok b m Hb) as [? ?]. split; [done|]. congruence. }
  assert (Hrel1 : reliable h1) by exact Hrel.
  unfold read_more. rewrite (size_t_small (n + zlen data)) by lia. destruct (Z.eqb_spec (n + zlen data) space) as [He|Hne].
  - rewrite size_t_small by lia. apply wp_bind, wp_heap_step.
    destruct (realloc_keeps b m1 (space * 2) h1) as (b' & h2 & m2 & Hrun & Hok2 & Hrel2 & Hf2 & Hz2 & Htk2 & Hbs2);
      [done|done|by rewrite Hbs1, lookup_insert_eq|unfold PTRDIFF_MAX; lia|].
    unfold wp. rewrite Hrun. apply wp_ret. exists b', h2. split_and!; [done|done|]. exists m2.
    rewrite Hbs1 in Hf2, Hbs2. rewrite delete_insert_id in Hbs2 by done.
    apply lookup_insert_None in Hf2 as [Hf2 _].
    split_and!; try done; [lia|lia|right; lia|]. rewrite Hin1. f_equal. rewrite <- Htk2 at 1.
    rewrite take_take. f_equal. unfold zlen in *. lia.
  - apply wp_ret. exists b, h1. split_and!; [done|done|]. exists m1. split_and!; try done; lia.
Qed.

Lemma wp_read_all input t h v :
  heap_ok h -> reliable h -> y_input v = input -> zlen input <= 2 ^ 40 ->
  (length input + y_interrupts v + 1 < fuel)%nat ->
  wp (read_all fuel 0) (fun x t' => exists b n h' v' m, x = {| hb_len := n; hb_bytes := Some {| p_block := b; p_off := 0 |} |} /\
    t' = with_memory t h' v' /\ heap_ok h' /\ reliable h' /\ h_blocks h !! b = None /\ h_blocks h' = <[b := m]> (h_blocks h) /\
    0 <= n < zlen m /\ take (Z.to_nat n) m = input) never (with_memory t h v).
Proof.
  intros Hok Hrel Hin Hmax Hfuel. unfold read_all. apply wp_bind, wp_heap_step.
  apply wp_malloc; [done|done|done|]. intros b m h1 Hf Hz Hok1 Hrel1 Hbs.
  eapply (wp_iter _ (fun '(p, n, space) t' => exists b h' v', p = Some {| p_block := b; p_off := 0 |} /\
      t' = with_memory t h' v' /\ filling h input b n space h' v')
    (fun _ t' => length (y_input (t_env t')) + y_interrupts (t_env t'))%nat); [| |simpl; rewrite Hin; lia].
  2: { exists b, h1, v. split_and!; [done|done|]. exists m. split_and!; try done; by left. }
  clear b m h1 Hf Hz Hok1 Hrel1 Hbs. intros [[p n] space] t' (b & h1 & v1 & -> & -> & Hfi).
  pose proof Hfi as (m & Hok1 & Hrel1 & Hf & Hbs & Hz & Hn & Hsp & Hin1).
  assert (Hlen : n + zlen (y_input v1) <= 2 ^ 40).
  { rewrite Hin1, zlen_app in Hmax. unfold zlen at 1 in Hmax. rewrite length_take in Hmax. unfold zlen in *. lia. }
  pose proof (zlen_nonneg (y_input v1)). rewrite size_t_small by lia.
  apply wp_bind, wp_env_step. wp_use read_law; [lia| |done].
  intros [[r data] errno] v2 [(-> & He & He2)|[(Hr & -> & He & Hi)|(Hr & Hd & He & Hi)]]; cbv beta iota.
  - apply wp_ret. exists b, n, h1, v2, m. split_and!; try done; [lia|lia|]. by rewrite Hin1, He, app_nil_r.
  - rewrite (proj2 (Z.eqb_neq r 0)), (proj2 (Z.ltb_lt r 0)), Z.eqb_refl by lia. apply wp_ret. simpl. rewrite He. split; [|lia].
    exists b, h1, v2. split_and!; [done|done|]. exists m. by rewrite He.
  - rewrite (proj2 (Z.eqb_neq r 0)), (proj2 (Z.ltb_ge r 0)) by lia. subst r. rewrite wp_assoc.
    apply wp_bind. wp_use (wp_fill h input b n space data t h1 v1 v2); [done|done|lia|done| |done].
    intros [[p' n'] space'] t' (b' & h' & -> & -> & Hfi'). apply wp_ret. split; [by exists b', h', v2|].
    simpl. rewrite He, length_app. unfold zlen in *. lia.
Qed.
End Reading.

(** ** The lines of a text *)

(** As [fgets] cuts it with a buffer of [MAX_LINE_LENGTH] bytes. *)
Definition line_room : nat := Z.to_nat (MAX_LINE_LENGTH - 1).

Lemma line_room_value : Z.of_nat line_room = MAX_LINE_LENGTH - 1.
Proof. unfold line_room. rewrite Z2Nat.id; [reflexivity|by vm_compute]. Qed.
Lemma line_room_eq : Z.to_nat (MAX_LINE_LENGTH - 1) = line_room.
Proof. reflexivity. Qed.
#[local] Opaque line_room.

Fixpoint lines_of (n : nat) (text : list Z) : list (list Z) :=
  match n, text with
  | S n', _ :: _ => let l := first_line line_room text in l :: lines_of n' (drop (length l) text)
  | _, _ => []
  end.
Definition input_lines (text : list Z) : list (list Z) := lines_of (length text) text.

(** The string that a line is for [strlen]. *)
Fixpoint before_nul (l : list Z) : list Z :=
  match l with c :: l' => if c =? 0 then [] else c :: before_nul l' | [] => [] end.

Lemma first_line_take n l : first_line n l = take (length (first_line n l)) l.
Proof.
  revert l. induction n as [|n IH]; intros [|c l]; simpl; try done. destruct (c =? newline); simpl; [by rewrite take_0|].
  by rewrite <- IH.
Qed.

Lemma first_line_length n l : (length (first_line n l) <= n)%nat /\ (n <> 0%nat -> l <> [] -> first_line n l <> []).
Proof.
  revert l. induction n as [|n IH]; intros [|c l]; simpl; try (by split; [lia|]). destruct (IH l) as [H _].
  destruct (c =? newline); simpl; split; try done; lia.
Qed.

Lemma line_step text : text <> [] ->
  (0 < length (first_line line_room text))%nat /\
  first_line line_room text ++ drop (length (first_line line_room text)) text = text.
Proof.
  intros Hne. destruct (first_line_length line_room text) as [_ Hl]. split.
  - assert (first_line line_room text <> []) by (apply Hl; [pose proof line_room_value; unfold MAX_LINE_LENGTH in *; lia|done]).
    destruct (first_line line_room text); [done|simpl; lia].
  - rewrite first_line_take at 1. apply take_drop.
Qed.

Lemma lines_enough n text : (length text <= n)%nat -> lines_of n text = input_lines text.
Proof.
  unfold input_lines. assert (forall n text, (length text <= n)%nat -> forall k, (length text <= k)%nat ->
    lines_of n text = lines_of k text) as H; [|intros; by apply H].
  clear. induction n as [|n IH]; intros [|c text] Hn [|k] Hk; simpl in Hn, Hk; try done; try lia. cbn [lines_of]. f_equal.
  destruct (line_step (c :: text) ltac:(done)) as [Hl _]. apply IH; rewrite length_drop; simpl length; lia.
Qed.

Lemma input_lines_step text : text <> [] ->
  input_lines text = first_line line_room text :: input_lines (drop (length (first_line line_room text)) text).
Proof.
  intros Hne. destruct (line_step text Hne) as [Hl _]. destruct text as [|c text]; [done|]. unfold input_lines at 1.
  cbn [length lines_of]. f_equal. apply lines_enough. rewrite length_drop. simpl length. lia.
Qed.

(** The lines are all of the text. *)
Lemma input_lines_exact text :
  concat (input_lines text) = text /\ Forall (fun l => (length l <= line_room)%nat) (input_lines text).
Proof.
  remember (length text) as n eqn:Hn. revert text Hn. induction (lt_wf n) as [n _ IH]; intros text ->.
  destruct (decide (text = [])) as [->|Hne]; [done|]. destruct (line_step text Hne) as [Hl Hsplit].
  rewrite input_lines_step by done. set (text' := drop _ text) in *. destruct (IH (length text')) with (text := text') as [Hc Hf]; [|done|].
  - unfold text'. rewrite length_drop. assert (0 < length text)%nat by (destruct text; [done|simpl; lia]). lia.
  - split; [simpl; by rewrite Hc|]. constructor; [apply first_line_length|done].
Qed.

Lemma strlen_before l rest : strlen (l ++ 0 :: rest) = Some (zlen (before_nul l)).
Proof.
  induction l as [|c l IH]; [done|]. simpl. destruct (c =? 0); [done|]. rewrite IH. simpl. f_equal. unfold zlen. simpl. lia.
Qed.

Lemma before_nul_prefix l rest : take (length (before_nul l)) (l ++ rest) = before_nul l.
Proof. induction l as [|c l IH]; [done|]. simpl. destruct (c =? 0); [done|]. simpl. by rewrite IH. Qed.

(** ** What is published *)

Definition arg_bytes (o : option (list Z)) : amqp_bytes_t :=
  match o with Some s => {| len := zlen s; bytes := Some (s ++ [0]) |} | None => amqp_empty_bytes end.

Definition post_method (exchange routing_key : option (list Z)) : amqp_basic_publish_t :=
  {| basic_publish_ticket := 0; basic_publish_exchange := arg_bytes exchange;
     basic_publish_routing_key := arg_bytes routing_key; basic_publish_mandatory := 0; basic_publish_immediate := 0 |}.

Definition argument (o : option (list Z)) : Prop := from_option (Forall (fun c => c <> 0)) True o.

(** The messages, for a standard input that holds [text]. *)
Definition bodies_of (body : option (list Z)) (line_buffered : Z) (text : list Z) : list (list Z) :=
  match body with
  | Some b => if line_buffered =? 0 then [b] else []
  | None => if line_buffered =? 0 then [text] else map before_nul (input_lines text)
  end.

Lemma before_nul_short l : (length (before_nul l) <= length l)%nat.
Proof. induction l as [|c l IH]; simpl; [done|]. destruct (c =? 0); simpl; lia. Qed.

(** A line in its buffer, as the library reads it. *)
Lemma line_in_buffer l m : (length l <= line_room)%nat -> zlen m = MAX_LINE_LENGTH ->
  let m' := overwrite 0 (l ++ [0]) m in
  let body := {| len := zlen (before_nul l); bytes := Some m' |} in
  zlen m' = MAX_LINE_LENGTH /\ (forall S (s : S), amqp_cstring_bytes m' s = Ret body s) /\
  contents body = before_nul l /\ readable body.
Proof.
  intros Hl Hm. cbv zeta. pose proof line_room_value. assert (Hz : zlen (l ++ [0]) <= MAX_LINE_LENGTH).
  { rewrite zlen_app. change (zlen [0]) with 1. unfold zlen. lia. }
  pose proof (before_nul_short l).
  set (m' := overwrite 0 (l ++ [0]) m).
  assert (Hz' : zlen m' = MAX_LINE_LENGTH) by (unfold m'; rewrite zlen_overwrite; lia).
  assert (Hm' : exists rest, m' = l ++ 0 :: rest).
  { unfold m', overwrite. change (Z.to_nat 0) with 0%nat. rewrite take_0. simpl app at 1. rewrite <- app_assoc. by eexists. }
  destruct Hm' as [rest Hm']. split_and!; [done| | |].
  - intros S s. unfold amqp_cstring_bytes. rewrite Hm', strlen_before. done.
  - unfold contents, mem_of, slice. simpl. rewrite drop_0, Hm'. unfold zlen. rewrite Nat2Z.id. apply before_nul_prefix.
  - split; simpl; [unfold mem_of; simpl; unfold zlen in *; lia|]. unfold zlen, PTRDIFF_MAX, MAX_LINE_LENGTH in *. lia.
Qed.

Section Publish.
Context {W V : Type} {HC : Clock W} {HS : Sockets W} {HP : Poll W} {HL : NetworkLaws W} {HH : Host}.
Context {HX : Posix V} {HI : InputLaws V} {HF : FileLaws V}.
Context (uninit : amqp_basic_properties_t) (fuel : nat).
Context (exchange routing_key : option (list Z)) (props : amqp_basic_properties_t) (L : Z).

Abbreviation net s := (world (s : cst W)).
Abbreviation never := (fun (_ : Z) (_ : tst W V) => False).
Abbreviation pm := (post_method exchange routing_key).

(** The content header for a body fits a frame. *)
Definition header_fits (body : list Z) : Prop :=
  sendable (content_header 1 (zlen body) props) /\ zlen (wire_frame (content_header 1 (zlen body) props)) <= L.

Hypothesis Hexchange : argument exchange.
Hypothesis Hrouting_key : argument routing_key.
Hypothesis HL8 : 8 < L.
Hypothesis Hpm : sendable (publish_frame 1 pm).
Hypothesis Hpm_fits : zlen (wire_frame (publish_frame 1 pm)) <= L.

Lemma cstring_run {S} o (s : S) : argument o -> cstring_bytes o s = Ret (arg_bytes o) s.
Proof. destruct o as [l|]; [|done]. simpl. intros Hl. unfold amqp_cstring_bytes. by rewrite strlen_string. Qed.

Lemma wp_do_publish X fm R fs body s v :
  posting X fm R L fs s -> header_fits (contents body) -> readable body -> is_Some (bytes body) ->
  (Z.to_nat L + effort s + Z.to_nat (len body) < fuel)%nat ->
  wp (do_publish uninit fuel exchange routing_key props body) (fun _ t => exists s', t = around s' v /\
    posting X fm R L fs s' /\ (effort s' <= effort s)%nat /\
    n_sent (net s') = n_sent (net s) ++ posted L pm props (contents body)) never (around s v).
Proof.
  intros Hs [Hh Hhz] Hr Hb Hfuel. rewrite zlen_contents in Hh, Hhz by done. unfold do_publish.
  apply wp_bind. eapply wp_eq; [by apply cstring_run|]. apply wp_bind. eapply wp_eq; [by apply cstring_run|].
  apply wp_bind, wp_on_lib, wp_status_of.
  wp_use (posting_publish uninit fuel X fm R L fs (arg_bytes exchange) (arg_bytes routing_key) props body s);
    [done|done|exact Hpm|exact Hpm_fits|done|done|done|done|done| |done].
  intros _ s' (Hs' & Hef & Hse). apply wp_ret. by exists s'.
Qed.

Lemma wp_publish_lines text b m fm R fs s v :
  posting {[b := m]} fm R L fs s -> zlen m = MAX_LINE_LENGTH -> y_rest stdin v = text ->
  Forall header_fits (map before_nul (input_lines text)) ->
  (Z.to_nat L + effort s + length text < fuel)%nat ->
  wp (publish_lines uninit fuel exchange routing_key props {| p_block := b; p_off := 0 |}) (fun _ t => exists s' v' m',
    t = around s' v' /\ posting {[b := m']} fm R L fs s' /\
    n_sent (net s') = n_sent (net s) ++ concat (map (posted L pm props) (map before_nul (input_lines text))))
    never (around s v).
Proof.
  intros Hs Hm Hrest Hfit Hfuel.
  eapply (wp_iter _ (fun _ t => exists rest done s' v' m', t = around s' v' /\ posting {[b := m']} fm R L fs s' /\
      zlen m' = MAX_LINE_LENGTH /\ y_rest stdin v' = rest /\ (effort s' <= effort s)%nat /\ (length rest <= length text)%nat /\
      map before_nul (input_lines text) = done ++ map before_nul (input_lines rest) /\
      n_sent (net s') = n_sent (net s) ++ concat (map (posted L pm props) done))
    (fun _ t => length (y_rest stdin (t_env t)))); [| |simpl; rewrite Hrest; lia].
  2: { exists text, [], s, v, m. rewrite app_nil_r. by split_and!. }
  intros _ t (rest & ls & s1 & v1 & m1 & -> & Hs1 & Hm1 & Hr1 & Hef1 & Hlen & Hls & Hse1). simpl.
  apply wp_bind, wp_on_env. wp_use (fgets_law stdin MAX_LINE_LENGTH); [done| |done]. rewrite Hr1, line_room_eq.
  intros r v2 [Hr2 Hr]. destruct (decide (rest = [])) as [->|Hne].
  { simpl in Hr. subst r. apply wp_ret. exists s1, v2, m1. rewrite Hls, app_nil_r. by split_and!. }
  destruct (line_step rest Hne) as [Hl0 Hsplit]. destruct (first_line_length line_room rest) as [Hl _].
  assert (r = Some (first_line line_room rest)) as -> by (destruct rest; [done|exact Hr]). clear Hr.
  rewrite (input_lines_step rest Hne) in Hls. set (l := first_line line_room rest) in *. destruct (line_in_buffer l m1 Hl Hm1) as (Hm2 & Hstr & Hcon & Hread).
  set (m2 := overwrite 0 (l ++ [0]) m1) in *. set (body := {| len := _; bytes := Some m2 |}) in *.
  assert (Hb1 : h_blocks (hp s1) !! b = Some m1) by (eapply posting_block; [exact Hs1|apply lookup_singleton_eq]).
  assert (Hs2 : posting {[b := m2]} fm R L fs (with_heap s1 (set_blocks (<[b := m2]> (h_blocks (hp s1))) (hp s1)))).
  { replace ({[b := m2]} : gmap Z (list Z)) with (<[b := m2]> {[b := m1]} : gmap Z (list Z)) by apply insert_singleton_eq. eapply posting_store; [exact Hs1|apply lookup_singleton_eq|congruence]. }
  assert (Hroom : 0 + zlen (l ++ [0]) <= zlen m1).
  { rewrite zlen_app, Hm1. change (zlen [0]) with 1. pose proof line_room_value. unfold zlen. lia. }
  apply wp_bind, wp_tool_heap. eapply wp_store; [exact Hb1|done|exact Hroom|]. cbn [p_block p_off]. fold m2.
  set (s2 := with_heap s1 _) in *. apply wp_bind, wp_tool_heap. eapply wp_eq; [unfold memory_of; simpl; by rewrite lookup_insert_eq|].
  rewrite drop_0. apply wp_bind. eapply wp_eq; [apply Hstr|]. fold body.
  assert (Hin : before_nul l ∈ map before_nul (input_lines text)) by (rewrite Hls; simpl; set_solver).
  assert (Hshort : (length (before_nul l) <= length text)%nat).
  { pose proof (f_equal length Hsplit) as E. rewrite length_app in E. pose proof (before_nul_short l). lia. }
  apply wp_bind. wp_use (wp_do_publish {[b := m2]} fm R fs body s2 v2);
    [done|rewrite Hcon; by eapply Forall_forall|done|by eexists| | |done].
  { change (effort s2) with (effort s1). simpl len. unfold zlen. rewrite Nat2Z.id. lia. }
  intros _ t (s3 & -> & Hs3 & Hef3 & Hse3). apply wp_ret. change (effort s2) with (effort s1) in Hef3. simpl t_env. rewrite Hr2, length_drop.
  assert (0 < length rest)%nat by (destruct rest; [done|simpl; lia]). split; [|lia].
  exists (drop (length l) rest), (ls ++ [before_nul l]), s3, v2, m2. rewrite Hcon in Hse3.
  split_and!; try done; [lia|rewrite length_drop; lia|by rewrite Hls, <- app_assoc|].
  rewrite Hse3, map_app, concat_app. simpl. by rewrite app_nil_r, app_assoc, <- Hse1.
Qed.

(** A block that has been allocated beside the connection. *)
Lemma posting_fresh fm R fs s b m h :
  posting ∅ fm R L fs s -> heap_ok h -> reliable h -> h_blocks (hp s) !! b = None ->
  h_blocks h = <[b := m]> (h_blocks (hp s)) -> posting {[b := m]} fm R L fs (with_heap s h).
Proof.
  intros Hs Hok Hrel Hf Hb. replace ({[b := m]} : gmap Z (list Z)) with (∅ ∪ fresh_blocks (hp s) h).
  - apply posting_grow; [done|]. split_and!; [done|done|]. intros c x Hx. rewrite Hb, lookup_insert_ne by congruence. done.
  - rewrite (left_id_L ∅ (∪)). apply map_eq. intros c. apply option_eq. intros x.
    rewrite fresh_blocks_Some, Hb, lookup_insert_Some, lookup_singleton_Some. split.
    + intros [[[<- <-]|[Hne Hx]] Hn]; [done|congruence].
    + intros [<- <-]. split; [by left|done].
Qed.

(** What is left behind: the messages sent, and memory that can be freed. *)
Definition published (bodies : list (list Z)) fm R fs (s : cst W) (r : option ptr) (t : tst W V) : Prop :=
  exists X s' v', t = around s' v' /\ posting X fm R L fs s' /\
    (forall p, r = Some p -> p_off p = 0 /\ is_Some (X !! p_block p)) /\
    n_sent (net s') = n_sent (net s) ++ concat (map (posted L pm props) bodies).

Lemma published_block bodies fm R fs s b m s' v' :
  posting {[b := m]} fm R L fs s' -> n_sent (net s') = n_sent (net s) ++ concat (map (posted L pm props) bodies) ->
  published bodies fm R fs s (Some {| p_block := b; p_off := 0 |}) (around s' v').
Proof.
  intros Hs Hse. exists {[b := m]}, s', v'. split_and!; [done|done| |done].
  intros p [= <-]. split; [done|]. eexists. apply lookup_singleton_eq.
Qed.

Lemma wp_publish_given l fm R fs s v :
  posting ∅ fm R L fs s -> argument (Some l) -> zlen l <= 2 ^ 40 -> header_fits l ->
  (Z.to_nat L + effort s + length l < fuel)%nat ->
  wp (publish_bodies uninit fuel (Some l) 0 exchange routing_key props) (published [l] fm R fs s) never (around s v).
Proof.
  intros Hs Hl Hlen Hfit Hfuel. unfold publish_bodies. apply wp_bind.
  eapply wp_eq; [unfold amqp_cstring_bytes; by rewrite strlen_string|].
  set (b := {| len := zlen l; bytes := Some (l ++ [0]) |}). assert (Hr : readable b).
  { split; simpl; [unfold mem_of; simpl; rewrite zlen_app; change (zlen [0]) with 1|unfold PTRDIFF_MAX]; pose proof (zlen_nonneg l); lia. }
  assert (Hc : contents b = l).
  { unfold contents, mem_of, slice. simpl. unfold zlen. rewrite drop_0, Nat2Z.id. apply take_app_length. }
  apply wp_bind. simpl. wp_use (wp_do_publish ∅ fm R fs b s v); [done|by rewrite Hc|done|by eexists| | |done].
  { simpl. unfold zlen. rewrite Nat2Z.id. lia. }
  intros _ t (s' & -> & Hs' & _ & Hse). apply wp_ret. exists ∅, s', v. rewrite Hc in Hse. simpl. rewrite app_nil_r. by split_and!.
Qed.

Lemma wp_publish_input text fm R fs s v :
  posting ∅ fm R L fs s -> y_input v = text -> zlen text <= 2 ^ 40 -> header_fits text ->
  (Z.to_nat L + effort s + length text + y_interrupts v + 1 < fuel)%nat ->
  wp (publish_bodies uninit fuel None 0 exchange routing_key props) (published [text] fm R fs s) never (around s v).
Proof.
  intros Hs Hin Htext Hfit Hfuel. destruct (posting_memory _ _ _ _ _ _ Hs) as [Hok Hrel]. unfold publish_bodies.
  change (around s v) with (with_memory (around s v) (hp s) v). simpl negb. cbv iota. apply wp_bind.
  wp_use (wp_read_all fuel text (around s v) (hp s) v); [done|done|done|done|lia| |done].
  intros x t (b & n & h & v' & m & -> & -> & Hok' & Hrel' & Hf & Hb & Hn & Htk).
  change (with_memory (around s v) h v') with (around (with_heap s h) v').
  pose proof (posting_fresh fm R fs s b m h Hs Hok' Hrel' Hf Hb) as Hs1. set (s1 := with_heap s h) in *.
  assert (Hnt : n = zlen text) by (rewrite <- Htk; unfold zlen in *; rewrite length_take; lia).
  apply wp_bind, wp_tool_heap. eapply wp_eq.
  { unfold heap_view. simpl. unfold bind, memory_of. simpl. rewrite Hb, lookup_insert_eq. simpl. by rewrite drop_0. }
  set (d := {| len := n; bytes := Some m |}).
  assert (Hc : contents d = text) by (unfold contents, mem_of, slice; simpl; by rewrite drop_0).
  assert (Hr : readable d) by (split; simpl; [unfold mem_of; simpl; lia|unfold PTRDIFF_MAX; lia]).
  apply wp_bind. wp_use (wp_do_publish {[b := m]} fm R fs d s1 v'); [done|by rewrite Hc|done|by eexists| | |done].
  { change (effort s1) with (effort s). simpl. rewrite Hnt. unfold zlen. rewrite Nat2Z.id. lia. }
  intros _ t (s' & -> & Hs' & _ & Hse). apply wp_ret. eapply published_block; [exact Hs'|].
  rewrite Hc in Hse. simpl. by rewrite app_nil_r.
Qed.

(** C10: amqp-publish publishes what it is told to, and nothing else.  On an open
    channel, [publish_bodies] returns and has sent exactly the messages of its mode,
    one after the other, each as [publish_exact] describes: the body of the command
    line; without one, all of standard input, however [read] delivers it and
    whatever interrupts it, as one message; with [--line-buffered], one message per
    line of standard input, cut where the line is longer than the buffer or has a
    NUL in it; and no message at all when [--body] and [--line-buffered] are given
    together.  The connection is ready for what comes next, and the memory that is
    returned can be freed.  (The method and the content headers fit a frame;
    memory is available; at most 2^40 bytes of input.) *)
Theorem publish_bodies_exact body line_buffered text fm R fs s v :
  posting ∅ fm R L fs s -> y_rest stdin v = text -> y_input v = text -> argument body ->
  zlen text <= 2 ^ 40 -> zlen (default [] body) <= 2 ^ 40 ->
  Forall header_fits (bodies_of body line_buffered text) ->
  (Z.to_nat L + effort s + length text + length (default [] body) + y_interrupts v + 1 < fuel)%nat ->
  wp (publish_bodies uninit fuel body line_buffered exchange routing_key props) (fun r t => exists X s' v',
    t = around s' v' /\ posting X fm R L fs s' /\
    (forall p, r = Some p -> p_off p = 0 /\ is_Some (X !! p_block p)) /\
    n_sent (net s') = n_sent (net s) ++ concat (map (posted L pm props) (bodies_of body line_buffered text)))
    never (around s v).
Proof.
  intros Hs Hrest Hin Hbody Htext Hlen Hfit Hfuel. destruct (posting_memory _ _ _ _ _ _ Hs) as [Hok Hrel].
  change (wp (publish_bodies uninit fuel body line_buffered exchange routing_key props)
    (published (bodies_of body line_buffered text) fm R fs s) never (around s v)). unfold bodies_of in *.
  destruct body as [l|]; simpl in Hlen, Hfuel; destruct (Z.eqb_spec line_buffered 0) as [->|Hlb].
  - apply Forall_cons in Hfit as [Hfit _]. apply wp_publish_given; try done; lia.
  - unfold publish_bodies. apply wp_bind. eapply wp_eq; [unfold amqp_cstring_bytes; by rewrite strlen_string|].
    rewrite (proj2 (Z.eqb_neq _ _) Hlb). apply wp_bind, wp_ret, wp_ret. exists ∅, s, v. rewrite app_nil_r. by split_and!.
  - apply Forall_cons in Hfit as [Hfit _]. apply wp_publish_input; try done; lia.
  - unfold publish_bodies. rewrite (proj2 (Z.eqb_neq _ _) Hlb). cbn [negb].
    apply wp_bind, wp_tool_heap. apply wp_malloc; [done|done|done|]. intros b m h Hf Hz Hok' Hrel' Hb.
    pose proof (posting_fresh fm R fs s b m h Hs Hok' Hrel' Hf Hb) as Hs1. set (s1 := with_heap s h) in *.
    apply wp_bind. wp_use (wp_publish_lines text b m fm R fs s1 v); [done|done|done|done| | |done].
    { change (effort s1) with (effort s). lia. }
    intros _ t (s' & v' & m' & -> & Hs' & Hse). apply wp_ret. by eapply published_block.
Qed.
End Publish.

(** ** Examples *)

#[local] Existing Instance little_endian.

#[export] Instance desk_input : InputLaws desk.
Proof.
  refine {| y_input := d_in; y_interrupts := fun _ => 0%nat |}.
  intros n d Hn. unfold wp. simpl. destruct (d_in d) as [|c l] eqn:E.
  - left. unfold desk_amount. change (zlen []) with 0. split_and!; [lia|done|by rewrite drop_nil].
  - right. right. pose proof (desk_amount_range d (c :: l) ltac:(done)) as Hr. set (k := Z.min n _).
    assert (0 < k <= zlen (c :: l)) by (unfold k; lia).
    split_and!; [lia|unfold k; lia|unfold zlen in *; rewrite length_take; lia|by rewrite take_drop|done].
Defined.

(** A desk with a text on standard input. *)
Definition with_text (text : list Z) : desk := set_in text (set_rest text false (office [])).

Lemma opened_posting : posting ∅ 256 1000 256 [] (opened 256 []).
Proof.
  exists open_kept, {| p_block := 2; p_off := 0 |}, (replicate 256 0).
  split_and!; [apply map_empty_subseteq|done|by apply opened_resting|by split|done..].
Qed.

(** Two lines, the second without a newline. *)
Definition sample_text : list Z := [97; 98; newline; 99; 100].

Lemma publish_bodies_exact_witness :
  exists r t, publish_bodies blank_properties 1000 None 2 (Some [101]) (Some [114]) default_properties
      (around (opened 256 []) (with_text sample_text)) = Ret r t /\
    sc_sent (t_net t) = posted 256 (post_method (Some [101]) (Some [114])) default_properties [97; 98; newline] ++
                        posted 256 (post_method (Some [101]) (Some [114])) default_properties [99; 100].
Proof.
  assert (Hbodies : bodies_of None 2 sample_text = [[97; 98; newline]; [99; 100]]) by (vm_compute; reflexivity).
  unshelve epose proof (publish_bodies_exact blank_properties 1000 (Some [101]) (Some [114]) default_properties 256 _ _ _ _ _
    None 2 sample_text 256 1000 [] (opened 256 []) (with_text sample_text) opened_posting eq_refl eq_refl I _ _ _ _) as Hw.
  - by repeat constructor.
  - by repeat constructor.
  - done.
  - split; [by vm_compute|]. split; [done|]. split; [done|]. repeat constructor; by vm_compute.
  - by vm_compute.
  - by vm_compute.
  - by vm_compute.
  - rewrite Hbodies. repeat apply Forall_cons_2; [| |constructor]; (split; [|by vm_compute]);
      (split; [by vm_compute|]); (split; [done|]); (split; [done|]); (split; [by vm_compute|]); (split; [by vm_compute|]);
      repeat constructor; by vm_compute.
  - apply Nat.ltb_lt; by vm_compute.
  - destruct (wp_run_ret _ _ _ Hw) as (r & t & Hrun & X & s' & v' & -> & _ & _ & Hsent).
    exists r. eexists. split; [exact Hrun|]. rewrite Hbodies in Hsent. simpl in Hsent. rewrite app_nil_r in Hsent. exact Hsent.
Defined.
