(* ===== verification/ToolExamples.v ===== *)
(** * The tools from end to end

    Whole programs, from their arguments to their exit status, run on a machine
    with TCP sockets against a broker whose answers are given. *)

From Stdlib Require Import String.
From S2P Require Import Url Prelude Machine Status Alloc Codec Table TableEncode TableDecode Framing Methods MethodDecode MethodEncode MethodWire MethodTheory Properties PropertiesTheory Mem MemTheory TableTheorems PoolTheorems MethodTheorems PropertiesTheorems PoolTable Time Frame FrameTheorems Connection ParserTheory ParserTheorems ConnectionTheorems Socket TcpSocket Network Scripted TcpTheorems Inbox Outbox FrameQueue RpcTheory RpcTheorems Api ConsumerTheory ConsumerTheorems Wrappers Login LoginTheory LoginTheorems WrapperTheorems ToolCommon ToolMain ToolTheory Desk ToolTheorems ToolPublish.

#[local] Existing Instance little_endian.

(** The frames of the broker: login, [fs], and the closing of the connection. *)
Definition broker (fs : list amqp_frame_t) : list amqp_frame_t :=
  [start_frame (sample_start "AMQPLAIN PLAIN");
   tune_frame {| connection_tune_channel_max := 2047; connection_tune_frame_max := 4096; connection_tune_heartbeat := 60 |};
   open_ok_frame sample_open_ok;
   method_frame 1 (M_CHANNEL_OPEN_OK {| channel_open_ok_channel_id := view [] |})] ++ fs ++
  [method_frame 1 M_CHANNEL_CLOSE_OK; method_frame 0 M_CONNECTION_CLOSE_OK].

(** A machine with [text] on standard input. *)
Definition machine_with (text : list Z) (fs : list amqp_frame_t) : tst (tcp machine) desk :=
  {| t_conn := None; t_heap := fresh_heap generous;
     t_net := {| tc_os := {| mc_script := bringing (broker fs); mc_open := ∅; mc_next := 4 |}; tc_sockets := ∅ |};
     t_env := with_text text |}.

(** Exit status and standard output of a program that has left nothing behind: no
    connection, no open descriptor, no memory.  [None] otherwise. *)
Definition observed (o : outcome (tst (tcp machine) desk) Z) : option (Z * list Z) :=
  match o with
  | Ret r t | Err r t =>
      if is_null (t_conn t) && bool_decide (mc_open (tc_os (t_net t)) = ∅) && bool_decide (h_blocks (t_heap t) = ∅)
      then Some (r, d_out (t_env t)) else None
  | UB | NoFuel => None
  end.

Abbreviation tool := (amqp_basic_properties_t -> list Z -> list Z -> nat -> list (list Z) -> C (tst (tcp machine) desk) Z).

(** A program run with some arguments, a standard input and the broker's answers. *)
Definition run_tool (m : tool) (args : list string) (text : list Z) (fs : list amqp_frame_t)
    : outcome (tst (tcp machine) desk) Z :=
  m blank_properties (chars "0.15" ++ [0]) (chars "linux" ++ [0]) 3000%nat (map chars args) (machine_with text fs).

Definition a_message : list amqp_frame_t :=
  get_ok :: content 1 AMQP_BASIC_CLASS (P_BASIC message_header) amqp_empty_bytes [view (chars "hello"); view (chars " world")].
Definition no_message : list amqp_frame_t :=
  [method_frame 1 (M_BASIC_GET_EMPTY {| basic_get_empty_cluster_id := view [] |})].
Definition declared : list amqp_frame_t :=
  [method_frame 1 (M_QUEUE_DECLARE_OK {| queue_declare_ok_queue := view (chars "amq.gen");
     queue_declare_ok_message_count := 3; queue_declare_ok_consumer_count := 0 |})].
Definition deleted : list amqp_frame_t :=
  [method_frame 1 (M_QUEUE_DELETE_OK {| queue_delete_ok_message_count := 12 |})].

(** amqp-get prints the message and exits with 0, or with 2 when there is none; the
    broker's limits and heartbeat have been agreed on along the way. *)
Example get_a_message :
  observed (run_tool get_main ["amqp-get"; "--queue"; "q"; "--server"; "h"]%string [] a_message) = Some (0, chars "hello world").
Proof. vm_compute. reflexivity. Qed.

Example get_no_message :
  observed (run_tool get_main ["amqp-get"; "--queue"; "q"; "--server"; "h"]%string [] no_message) = Some (2, []).
Proof. vm_compute. reflexivity. Qed.

Example get_without_queue : observed (run_tool get_main ["amqp-get"]%string [] []) = Some (1, []).
Proof. vm_compute. reflexivity. Qed.

Example publish_input :
  observed (run_tool publish_main ["amqp-publish"; "--routing-key"; "k"; "--header"; "a: b"]%string (chars "some text") []) = Some (0, []).
Proof. vm_compute. reflexivity. Qed.

Example declare_a_queue :
  observed (run_tool declare_main ["amqp-declare-queue"; "--queue"; ""]%string [] declared) = Some (0, chars "amq.gen" ++ [newline]).
Proof. vm_compute. reflexivity. Qed.

Example delete_a_queue :
  observed (run_tool delete_main ["amqp-delete-queue"; "--queue"; "q"; "--if-empty"]%string [] deleted) = Some (0, chars "12" ++ [newline]).
Proof. vm_compute. reflexivity. Qed.

(** [--exchange] without [--routing-key] passes NULL to [strdup]. *)
Example consume_without_key :
  run_tool consume_main ["amqp-consume"; "--queue"; "q"; "--exchange"; "e"; "cat"]%string [] declared = UB.
Proof. vm_compute. reflexivity. Qed.

(** A header option without a colon is reported as ignored, and nothing can be
    published any more: the program ends with status 1. *)
Example publish_ignored_header :
  match run_tool publish_main ["amqp-publish"; "--routing-key"; "k"; "--header"; "ab"]%string (chars "text") [] with
  | Err e _ => e = 1
  | _ => False
  end.
Proof. vm_compute. reflexivity. Qed.

(** The port of [--server] is taken modulo 2^32: this connects to port 5672. *)
Example server_port_wraps :
  match run_tool get_main ["amqp-get"; "--queue"; "q"; "--server"; "h:4294972968"]%string [] a_message with
  | Ret r _ => r = 0
  | _ => False
  end.
Proof. vm_compute. reflexivity. Qed.
